(* ===== verification/_CoqProject ===== *)
-Q . S2P
Prelude.v
GoStrings.v
Domain.v
GoTime.v
Calendar.v
Periods.v
Json.v
Normalise.v
Unmarshal.v
JsonRoundtrip.v
TimeText.v
Config.v
Db.v
Pool.v
Queue.v
Worker.v
StoreOutbound.v
StoreInbound.v
StoreReceipts.v
StoreTx.v
StoreSchedules.v
StoreCatalog.v
Categorisation.v
Insight.v
Templates.v
Texts.v
Export.v
Parse.v
Fields.v
Notify.v
SummaryRunner.v
Objects.v
Processor.v
Pipeline.v
Sweeper.v
Account.v
BotCommands.v
BotText.v
Bot.v
BotSafety.v
BotDialogue.v
Isolation.v
Zalo.v
ZaloEvents.v
ZaloSafety.v
LogProvider.v
LogEvents.v
Api.v
Extraction.v
Gemini.v
Textract.v
S3.v
Migrate.v
Simulate.v
Processes.v
Playground.v
E2E.v
Synthetic.v
Startup.v
E2ECommands.v
Draining.v
