(* ===== verification/Prelude.v ===== *)
(** * Verification of the Zalo expense bot

    ** The program

    A Vietnamese expense-tracking chat bot in Go.  Inbound messages are claimed
    once (provider_messages) and routed by sender, consent and pending action;
    texts become commands, photos become receipts and a queue job; the receipt
    worker downloads, validates, stores and extracts the image and drafts a
    transaction for review; the notification worker sends replies from an outbox;
    a runner sends scheduled summaries; a retention sweep removes old originals;
    and an account can be exported and deleted.  All state is in PostgreSQL, an
    object store and an export directory; processes meet only there, through row
    updates, leases and a per-user advisory lock.

    ** The library, file by file

    - Prelude (this file): the state-and-error monad, its notation, the relation
      [evolves] (every run of a computation stays within a relation on states) with
      its tactic [evolve], shared list and integer lemmas.
    - GoStrings, GoTime, Calendar, Json: the parts of Go's strings, strconv,
      unicode/utf8, time, encoding/json and encoding/csv the program uses; strings
      are bytes, times are nanoseconds as unbounded integers, time zones are given
      by the class [TzData].
    - Domain: internal/domain's types, coded errors and state machines, and the
      job payloads of contracts/events.
    - Normalise: internal/domain/money.go and extraction/normalise.  Config:
      internal/config.
    - Db: the tables, [Env] (faults, clocks, generated identifiers, database and
      library functions outside the repository), [World], SQL statements,
      postgres.WithTx, postgres.WithUserLock, store.go's error classification, and
      [runs] (total correctness once faults are over).  Pool: userlock.go's
      semaphore, connections and lock keys as a step relation over concurrent tasks.
    - Queue (platform/queue), StoreOutbound (store/outbound.go, usage.go),
      StoreInbound (users.go, messages.go), StoreReceipts (receipts.go), StoreTx
      (transactions.go, pending.go), StoreSchedules (schedules.go), StoreCatalog
      (merchants.go, categories.go).
    - Categorisation (internal/categorisation; class [Categoriser] is what clients
      rely on), Periods (insight/periods.go, summaryschedule/schedule.go), Insight
      (store/insights.go, insight/insight.go), SummaryRunner
      (summaryschedule/runner.go).
    - Templates and Texts (conversation/templates.go), Parse
      (conversation/parse.go), Fields (receipt/fields.go), Objects
      (platform/objectstore, receipt/image.go).
    - Notify (internal/notify), Processor (receipt/processor.go), Pipeline (jobs as
      lanes of phases and their interleavings), Worker (internal/worker), Sweeper
      (receipt/sweeper.go), Account (store/account.go, account/delete.go), Export
      (account/export.go and its queries).
    - BotCommands, BotText, Bot (internal/bot's commands.go, text.go, bot.go);
      BotSafety and BotDialogue hold the theorems about a handled event, Isolation
      the one about users and each other's data.
    - Unmarshal (encoding/json's scanner and decoder, with [Decoder] combinators
      for the program's structs), JsonRoundtrip and TimeText (what is written is
      read back: JSON values, RFC 3339 times).
    - Zalo, ZaloEvents (messaging/zalo: the Bot API client, media downloads,
      webhook and getUpdates decoding), ZaloSafety (its theorems), LogProvider and
      LogEvents (messaging/logprovider and factory.go; its events round trip), Api
      (cmd/api: webhook, poll loop).
    - Extraction (the contract of a result, extraction/mock), Gemini
      (extraction/gemini), Textract (extraction/textract, factory.go), S3
      (objectstore/s3.go, factory.go), Migrate (platform/migrate).
    - Simulate (cmd/simulate over the composed model), Processes
      (cmd/receipt-worker, cmd/notification-worker, cmd/zalo-poll,
      internal/logging), Playground (cmd/playground), E2E, Synthetic and
      E2ECommands (cmd/e2e), Startup (the [main] and [run] of every command,
      postgres.Connect, platform/clock, the summary runner's loop, and pgtest, the
      database of the integration tests), Draining (the fuel of worker.Drain).

    ** How the code is modelled

    A function that returns [(T, error)] is a function of the [World] returning
    [Ok] or [Fail] and the next world; early returns, wrapped errors and ignored
    errors are written out.  Every SQL statement, transaction bracket, lock step,
    object-store and file operation, clock reading and generated UUID consumes one
    tick, and [Env] decides what happens at each tick.  A fault may strike any
    statement, and its effect may or may not have been applied (a lost reply); a
    failed commit may or may not have happened.  A theorem for every [Env]
    therefore holds for every schedule of faults, times and identifiers.
    Statements check the schema's unique, foreign-key and check constraints where
    they can fire.

    Concurrency appears in three ways.  The store theorems quantify over arbitrary
    sequences of operations.  Receipt jobs are split at the points where the user
    lock is released ([Lane]), and the pipeline theorems hold for every schedule
    of lanes.  Worker events interleave with anything else on the queue.  Code
    inside one locked section or one transaction runs as a block, and so does the
    handling of one inbound event.

    Code outside the repository is a class whose laws are the documented
    behaviour: [Env] (PostgreSQL functions, SHA-256, content sniffing), [TzData]
    (the zone database), [SqlLocale] (collation and zone names of the server),
    [NetParse] (URL, address and duration parsing), [UnicodeCase] (unicode tables),
    [FloatText] (strconv on floats), [Network] (resolver, HTTP transport and the
    texts of their errors), [ImageCodec], [TextractAPI], [S3API] (a call that fails
    may have been applied), [Scripts] (what a migration script does), [PgParse],
    [Host] (the driver's pool, directories, AWS configuration, how a server ended),
    [Files], [Flags], and the provider, media and extractor interfaces.  Concrete
    instances (the [...Demo] modules) run the model and witness the hypotheses.

    Fuel: [Drain] and [drainKind] take fuel and return [None] when it runs out,
    which it does not when there is more of it than the queue is worth
    ([drain_terminates]); the loops of the text functions use the length of their input, which their
    lemmas show to be enough; the day walk of a summary has one step per hour of
    its period and two more, enough in every zone whose offsets lie within 23
    hours of each other ([localDays_terminates]), and a walk that does not end is
    a failure.  The JSON scanner's fuel is the length of its input
    ([json_parse_total]); the polling loops and the watcher take the number of
    iterations, and their theorems hold for every number.  Integers are unbounded where the code adds small counters; amounts
    and sums are checked against int64 and the bounds are theorems.

    ** What is shown

    - Bot: a sender who is not admitted leaves no data behind, and no words but those
      about consent itself (confirmation, start, a question about privacy); an
      account's status changes only by its owner's consent or confirmed request; a
      suggestion is recorded only by its owner's confirmation of its card; the
      outcome of an event is reported and recorded.  [BotDemo] computes dialogues
      in which the code does not do what its comments say.
    - Isolation: whatever others send, in any sequence and under any faults, all
      that an account holds in every table, its originals and its export files stay
      exactly as they are.
    - Pipeline: a job equals its lane of phases; under every interleaving receipts
      follow the state machine and stay settled, extraction calls on reserved
      pages never exceed the monthly cap, and a load or extraction failure is
      acknowledged only with a durable outcome, but for conflicts and for database
      errors while the lock is taken or the receipt looked up.  Computed
      counterexamples record where the code falls short (see [PipelineDemo]).
    - Notify: an outbox row reaches the provider at most once, the monthly cap
      holds, and a reported reply is durable.
    - Account: a reported deletion leaves no row of the user, none of the objects the
      user's receipts record and, with a data directory, no export file; it never
      touches anybody else, and can be resumed after any interruption.  Export: the
      CSV file, read by its column names, tells the recorded transactions, their
      times to the second.
    - SummaryRunner: under any faults a schedule moves on only after its message is
      in the outbox (a refinement of a two-step specification), and a processed
      preference is delivered.  Insight, Periods: summaries account for every
      recorded transaction, periods and delivery slots are the local calendar's.
    - Parse: every intent is well formed, and a deletion comes exactly from the
      listed texts.
    - Sweeper: only due receipts and their objects are touched; without faults a
      batch is finished.
    - StoreTx: review drafts are stored completely or not at all, the ledger invariant is preserved, edits
      are optimistic and isolated per user.  StoreInbound: claims are exclusive
      and recoverable.  StoreSchedules: one valid row per user and frequency.
      Queue and Worker: leases are exclusive, settling follows the handler's
      result, nothing is lost.
    - Normalise: accepted amounts are exact and in range, rendered amounts parse
      back.  StoreCatalog, Categorisation: user text never acts as a pattern,
      resolution is stable, a rule applies from the second confirmation on.
      Config: a configuration that loads is within its bounds and safe.

    - Pool: no user has two tasks in their locked sections; the pool stops only when
      all is done or a task waits for a lock that a failed unlock left in an open
      session, and once such sessions have ended every task can run to its end.
    - Zalo: an error of a Bot API call contains the token only where the client passes
      on a read or decoding error that does; no fetched media address was in the
      listed special ranges when it was checked; a send is reported as it went; both documented
      webhook shapes decode to their event, a batch of updates is delivered or
      quarantined in order.  LogEvents: an event stored as JSON text is recovered
      whole, for every event.  Api: a webhook call is acknowledged only when it was
      authentic and its events were handled in that call, a poll passes only updates
      that were handled or are quarantined.
    - Extraction, Gemini, Textract: every extractor keeps the contract from which
      the draft is read (the mock with one key more than documented); Gemini's totals are what the amount parser makes of the
      copied text; a Textract document is read first match by first match.  S3: any
      run of operations is a run of an abstract object store, in which a call that
      the service fails as not found may read as missing or count as deleted.  Migrate: scripts are
      applied in order, each once, wherever a run is interrupted.
    - The composition, computed in one environment (a fixed clock, one configuration,
      no faults): the program's own demo passes, and every receipt of the corpus goes
      from the photo to the ledger with its ground truth ([Simulate]).  The hourly sweep is queued exactly once an hour
      ([Processes]); the playground hands on only checked requests; the watcher of
      the real-provider check reports only what happened ([E2E]); the synthetic
      receipt is legible ([Synthetic]).
    - Startup: whatever the host answers, a command releases exactly what it
      acquired, works only on a database that answered, does only what is its own to
      do, and a healthy host is brought to work; the tests empty only a database
      named as disposable.  A process is a computation over the list of its actions,
      with deferred releases; an audit of that list is the specification and [wp]
      its program logic.  E2ECommands: a pinned identity is never readable by others,
      a synthetic receipt never replaces a file.  Draining: the jobs a handler queues
      are paid for by the job it finishes, so draining the queue terminates.

    ** What is not modelled

    The standard library's HTTP server, router and flag parser, signal delivery
    (where a process is interrupted is the host's choice), the browser page of the
    playground, the slog handler, and the system clock, which is a parameter.  A
    goroutine and the process that started it are audited each on its own; what the
    goroutine sees of a pool that its process is closing is not.  Contexts are never
    cancelled except through faults, the expiry functions of the calls that read one
    and the end of a process.  The bytes of export files are results of the writers;
    the world keeps the files' names.  The identifier the local provider gives a
    message labels the call, not the number of messages so far.

    The plan of this development is carried out; what is left outside is listed
    above. *)
From stdpp Require Export base tactics relations list gmap strings.
From Stdlib Require Export ZArith Lia Sorted.
#[global] Open Scope Z_scope.

(** ** Results and the state-and-error monad

    A Go function that returns [(T, error)] and touches the database is a
    function of the state [S] that yields [Ok] or [Fail] and the next state. *)
Inductive Res (E A : Type) : Type :=
| Ok (a : A)
| Fail (e : E).
Arguments Ok {E A} a.
Arguments Fail {E A} e.

Definition is_ok {E A} (r : Res E A) : bool := match r with Ok _ => true | Fail _ => false end.

Definition map_fail {E E' A} (f : E -> E') (r : Res E A) : Res E' A :=
  match r with Ok a => Ok a | Fail e => Fail (f e) end.

Definition M (S E A : Type) : Type := S -> Res E A * S.

Section monad.
Context {S E : Type}.

Definition ret {A} (a : A) : M S E A := fun s => (Ok a, s).
Definition fail {A} (e : E) : M S E A := fun s => (Fail e, s).

Definition bind {A B} (m : M S E A) (k : A -> M S E B) : M S E B := fun s =>
  match m s with
  | (Ok a, s') => k a s'
  | (Fail e, s') => (Fail e, s')
  end.

(** [if err != nil { return wrap(err) }] *)
Definition wrap_err {A} (f : E -> E) (m : M S E A) : M S E A := fun s =>
  (map_fail f (fst (m s)), snd (m s)).

(** The error as a value, for code that inspects [err]. *)
Definition attempt {A} (m : M S E A) : M S E (Res E A) := fun s => (Ok (fst (m s)), snd (m s)).

(** [_ = op()]: the error is dropped, the effect stays. *)
Definition ignore {A} (m : M S E A) : M S E unit := fun s => (Ok tt, snd (m s)).

Definition asks {A} (f : S -> A) : M S E A := fun s => (Ok (f s), s).
Definition modify (f : S -> S) : M S E unit := fun s => (Ok tt, f s).
Definition of_res {A} (r : Res E A) : M S E A := fun s => (r, s).

(** [for _, x := range l { ... }] with an accumulator and early return. *)
Fixpoint for_each {A B} (l : list A) (body : B -> A -> M S E B) (acc : B) : M S E B :=
  match l with
  | [] => ret acc
  | x :: l' => bind (body acc x) (for_each l' body)
  end.
End monad.

Declare Scope go_scope.
Delimit Scope go_scope with go.
Notation "'let*' x ':=' m 'in' k" := (bind m (fun x => k))
  (at level 10, x name, m at level 100, k at level 200) : go_scope.
Notation "'let*' ' p ':=' m 'in' k" := (bind m (fun x => match x with p => k end))
  (at level 10, p pattern, m at level 100, k at level 200) : go_scope.
Notation "m ';;;' k" := (bind m (fun _ => k))
  (at level 100, right associativity) : go_scope.
#[global] Open Scope go_scope.

(** ** Two-state properties of computations

    [evolves R m]: whatever the state, result or error of [m], the states
    before and after are related by [R].  With [R] a preorder this composes, so
    a property of every SQL statement becomes a property of every handler built
    from them, on every branch and error path. *)
Definition evolves {S E A} (R : relation S) (m : M S E A) : Prop := forall s, R s (snd (m s)).

Section evolves.
Context {S E : Type} (R : relation S) `{!PreOrder R}.

Lemma evolves_pure {A} (m : M S E A) : (forall s, snd (m s) = s) -> evolves R m.
Proof. intros H s. rewrite H. reflexivity. Qed.

Lemma evolves_ret {A} (a : A) : evolves R (E:=E) (ret a).
Proof. by apply evolves_pure. Qed.

Lemma evolves_fail {A} (e : E) : evolves R (A:=A) (fail e).
Proof. by apply evolves_pure. Qed.

Lemma evolves_asks {A} (f : S -> A) : evolves R (E:=E) (asks f).
Proof. by apply evolves_pure. Qed.

Lemma evolves_of_res {A} (r : Res E A) : evolves R (of_res r).
Proof. by apply evolves_pure. Qed.

Lemma evolves_modify (f : S -> S) : (forall s, R s (f s)) -> evolves R (E:=E) (modify f).
Proof. intros H s. apply H. Qed.

Lemma evolves_bind {A B} (m : M S E A) (k : A -> M S E B) :
  evolves R m -> (forall a, evolves R (k a)) -> evolves R (bind m k).
Proof.
  intros Hm Hk s. unfold bind. specialize (Hm s).
  destruct (m s) as [[a|e] s'] eqn:Hms; simpl in *; [|done].
  etrans; [exact Hm | apply Hk].
Qed.

Lemma evolves_wrap_err {A} (f : E -> E) (m : M S E A) : evolves R m -> evolves R (wrap_err f m).
Proof. intros H s. apply H. Qed.

Lemma evolves_attempt {A} (m : M S E A) : evolves R m -> evolves R (attempt m).
Proof. intros H s. apply H. Qed.

Lemma evolves_ignore {A} (m : M S E A) : evolves R m -> evolves R (ignore m).
Proof. intros H s. apply H. Qed.

Lemma evolves_for_each {A B} (l : list A) (body : B -> A -> M S E B) (acc : B) :
  (forall b a, evolves R (body b a)) -> evolves R (for_each l body acc).
Proof.
  intros H. revert acc. induction l as [|x l IH]; intros acc; simpl.
  - apply evolves_ret.
  - apply evolves_bind; [apply H | apply IH].
Qed.

(** The same for a property of the listed elements only. *)
Lemma evolves_for_each_in {A B} (l : list A) (body : B -> A -> M S E B) (acc : B) :
  (forall b a, a ∈ l -> evolves R (body b a)) -> evolves R (for_each l body acc).
Proof.
  revert acc. induction l as [|x l IH]; intros acc H; simpl.
  - apply evolves_ret.
  - apply evolves_bind; [apply H; constructor|]. intros b. apply IH. intros b' a Ha. apply H. by constructor.
Qed.

Lemma evolves_if {A} (b : bool) (m1 m2 : M S E A) :
  evolves R m1 -> evolves R m2 -> evolves R (if b then m1 else m2).
Proof. by destruct b. Qed.
End evolves.

(** Walks a handler's syntax down to its primitive operations; what is left
    over are the operations whose lemmas are in the hint database [evolve]. *)
Create HintDb evolve discriminated.
Ltac evolve_step :=
  match goal with
  | |- evolves _ (ret _) => refine (evolves_ret _ _)
  | |- evolves _ (fail _) => refine (evolves_fail _ _)
  | |- evolves _ (asks _) => refine (evolves_asks _ _)
  | |- evolves _ (of_res _) => refine (evolves_of_res _ _)
  | |- evolves _ (bind _ _) => refine (evolves_bind _ _ _ _ _); [|intros ?]
  | |- evolves _ (wrap_err _ _) => apply evolves_wrap_err
  | |- evolves _ (attempt _) => apply evolves_attempt
  | |- evolves _ (ignore _) => apply evolves_ignore
  | |- evolves _ (for_each _ _ _) => refine (evolves_for_each _ _ _ _ _); intros ? ?
  | |- evolves _ (match ?x with _ => _ end) => destruct x
  | |- evolves _ (if ?b then _ else _) => destruct b
  | |- _ => solve [eauto 3 with evolve]
  end.
Ltac evolve := repeat (evolve_step; cbv beta; try done).

(** Inversion of a successful run. *)
Lemma bind_Ok {S E A B} (m : M S E A) (k : A -> M S E B) s b s' :
  bind m k s = (Ok b, s') -> exists a s1, m s = (Ok a, s1) /\ k a s1 = (Ok b, s').
Proof. unfold bind. destruct (m s) as [[a|e] s1]; [eauto|done]. Qed.

Lemma wrap_err_Ok {S E A} f (m : M S E A) s a s' : wrap_err f m s = (Ok a, s') -> m s = (Ok a, s').
Proof. unfold wrap_err. destruct (m s) as [[x|e] s1]; simpl; congruence. Qed.

Lemma ret_Ok {S E A} (a b : A) (s s' : S) : ret (E:=E) a s = (Ok b, s') -> a = b /\ s = s'.
Proof. unfold ret. intros. by simplify_eq. Qed.

Lemma attempt_Ok {S E A} (m : M S E A) s r s' : attempt m s = (Ok r, s') -> m s = (r, s').
Proof. unfold attempt. destruct (m s). simpl. intros. by simplify_eq. Qed.

(** Symbolic execution of a handler at one state. *)
Ltac run_unfold := unfold bind, wrap_err, attempt, ignore, asks, modify, of_res, ret, fail.
Ltac run_unfold_in H :=
  unfold bind, wrap_err, attempt, ignore, asks, modify, of_res, ret, fail in H.

(** ** Machine integers *)
Definition MaxInt64 : Z := 9223372036854775807.
Definition MinInt64 : Z := -9223372036854775808.
Definition int64_range (z : Z) : Prop := MinInt64 <= z <= MaxInt64.
(** Two's-complement wrap-around of Go's [int64] arithmetic. *)
Definition wrap64 (z : Z) : Z := (z + 2 ^ 63) mod 2 ^ 64 - 2 ^ 63.

Lemma wrap64_id z : int64_range z -> wrap64 z = z.
Proof.
  unfold int64_range, wrap64, MinInt64, MaxInt64. intros H.
  rewrite Z.mod_small; lia.
Qed.

(** ** Selection, as SQL's [ORDER BY key LIMIT 1]

    [argmin le l] is a least element of [l]; among equals the one that comes
    first in [l] (SQL leaves the choice open). *)
Section argmin.
Context {A : Type} (le : A -> A -> bool).

Definition argmin_step (best : option A) (x : A) : option A :=
  match best with
  | None => Some x
  | Some b => if le b x then Some b else Some x
  end.
Definition argmin (l : list A) : option A := fold_left argmin_step l None.

Lemma argmin_fold_in l best x :
  fold_left argmin_step l best = Some x -> x ∈ l \/ best = Some x.
Proof.
  revert best. induction l as [|y l IH]; intros best; simpl; [auto|].
  intros [Hin|Hst]%IH; [left; by constructor 2|].
  unfold argmin_step in Hst. destruct best as [b|]; [destruct (le b y)|];
    simplify_eq; eauto using list_elem_of_here.
Qed.

Lemma argmin_in l x : argmin l = Some x -> x ∈ l.
Proof. intros [?|?]%argmin_fold_in; done. Qed.

Lemma argmin_fold_some l b : is_Some (fold_left argmin_step l (Some b)).
Proof.
  revert b. induction l as [|y l IH]; intros b; simpl; [eauto|]. destruct (le b y); apply IH.
Qed.

Lemma argmin_none l : argmin l = None -> l = [].
Proof.
  destruct l as [|y l]; [done|]. unfold argmin; simpl. intros H.
  destruct (argmin_fold_some l y) as [z Hz]. congruence.
Qed.

Lemma argmin_fold_least l best x
    (Htot : forall a b, le a b = true \/ le b a = true)
    (Htr : forall a b c, le a b = true -> le b c = true -> le a c = true) :
  fold_left argmin_step l best = Some x ->
  (forall b, best = Some b -> le x b = true) /\ (forall y, y ∈ l -> le x y = true).
Proof.
  revert best. induction l as [|y l IH]; intros best H; simpl in H.
  { split; [|intros ? ?%elem_of_nil; done]. intros b ->. simplify_eq.
    destruct (Htot x x); done. }
  apply IH in H as [Hb Hl].
  assert (le x y = true /\ (forall b, best = Some b -> le x b = true)) as [Hy Hbest].
  { unfold argmin_step in Hb. destruct best as [b|].
    - destruct (le b y) eqn:Hby.
      + split; [eauto|]. intros ? [= <-]. eauto.
      + specialize (Hb y eq_refl). split; [done|]. intros ? [= <-].
        destruct (Htot b y); [congruence|eauto].
    - split; [eauto|done]. }
  split; [done|]. intros z [->|?]%elem_of_cons; eauto.
Qed.

Lemma argmin_least l x
    (Htot : forall a b, le a b = true \/ le b a = true)
    (Htr : forall a b c, le a b = true -> le b c = true -> le a c = true) :
  argmin l = Some x -> forall y, y ∈ l -> le x y = true.
Proof. intros H. by apply argmin_fold_least in H as [_ ?]. Qed.
End argmin.

(** ** Sorting, as SQL's [ORDER BY]: insertion sort by a comparison. *)
Section isort.
Context {A : Type} (le : A -> A -> bool).

Fixpoint insert_by (x : A) (l : list A) : list A :=
  match l with
  | [] => [x]
  | y :: l' => if le x y then x :: l else y :: insert_by x l'
  end.
Definition isort (l : list A) : list A := foldr insert_by [] l.

Lemma insert_by_perm x l : insert_by x l ≡ₚ x :: l.
Proof.
  induction l as [|y l IH]; simpl; [done|]. destruct (le x y); [done|]. rewrite IH. apply Permutation_swap.
Qed.
Lemma isort_perm l : isort l ≡ₚ l.
Proof. induction l as [|x l IH]; simpl; [done|]. by rewrite insert_by_perm, IH. Qed.
Lemma elem_of_isort x l : x ∈ isort l <-> x ∈ l.
Proof. by rewrite isort_perm. Qed.

Lemma isort_sorted l (Htot : forall a b, le a b = true \/ le b a = true)
    (Htr : forall a b c, le a b = true -> le b c = true -> le a c = true) : StronglySorted (fun a b => le a b = true) (isort l).
Proof.
  induction l as [|x l IH]; simpl; [constructor|]. revert IH. generalize (isort l). clear l. intros l. induction 1 as [|y l Hs IH Hall]; simpl.
  - by repeat constructor.
  - destruct (le x y) eqn:Hxy.
    + constructor; [by constructor|]. constructor; [done|]. eapply Forall_impl; [exact Hall|]. intros z Hz. by apply (Htr x y z).
    + constructor; [done|]. rewrite insert_by_perm. constructor; [|done]. destruct (Htot x y); [congruence|done].
Qed.
End isort.
