(* ===== verification/GoStrings.v ===== *)
(** * Go strings

    What the sources use of Go's [strings], [strconv], [unicode] and
    [unicode/utf8] packages.  A Go string is a sequence of bytes, here Rocq's
    [string] with one [ascii] per byte; a literal in this development is the
    UTF-8 encoding of the literal in the source.  White space is Unicode's
    (fixed, so spelled out); the case tables are the class [UnicodeCase]. *)
From Stdlib Require Import Ascii.
From S2P Require Import Prelude.

#[global] Open Scope string_scope.
#[global] Open Scope Z_scope.

(** ** Bytes *)
Definition byte_of (c : ascii) : Z := Z.of_N (N_of_ascii c).
Definition of_byte (z : Z) : ascii := ascii_of_N (Z.to_N z).
Definition is_digit (c : ascii) : bool := (48 <=? byte_of c) && (byte_of c <=? 57).
Definition digit_val (c : ascii) : Z := byte_of c - 48.
Definition digit_char (d : Z) : ascii := of_byte (48 + d).

Lemma byte_of_bound c : 0 <= byte_of c < 256.
Proof. unfold byte_of. pose proof (N_ascii_bounded c). lia. Qed.

Lemma byte_of_of_byte z : 0 <= z < 256 -> byte_of (of_byte z) = z.
Proof. intros H. unfold byte_of, of_byte. rewrite N_ascii_embedding; lia. Qed.

Lemma of_byte_of c : of_byte (byte_of c) = c.
Proof. unfold byte_of, of_byte. rewrite N2Z.id. apply ascii_N_embedding. Qed.

Lemma digit_char_digit d : 0 <= d <= 9 -> is_digit (digit_char d) = true.
Proof.
  intros H. unfold is_digit, digit_char. rewrite byte_of_of_byte by lia.
  apply andb_true_iff; split; apply Z.leb_le; lia.
Qed.

Lemma digit_val_char d : 0 <= d <= 9 -> digit_val (digit_char d) = d.
Proof. intros H. unfold digit_val, digit_char. rewrite byte_of_of_byte; lia. Qed.

(** ** Structural operations on byte strings *)
(** [fmt]'s %q, without its escapes: the texts are shown or logged, never tested. *)
Definition quoted (s : string) : string := String (of_byte 34) s ++ String (of_byte 34) "".

Fixpoint forall_bytes (p : ascii -> bool) (s : string) : bool :=
  match s with "" => true | String c s' => p c && forall_bytes p s' end.

Fixpoint filter_bytes (p : ascii -> bool) (s : string) : string :=
  match s with
  | "" => ""
  | String c s' => if p c then String c (filter_bytes p s') else filter_bytes p s'
  end.

Fixpoint drop (n : nat) (s : string) : string :=
  match n, s with
  | O, _ => s
  | _, "" => ""
  | S n', String _ s' => drop n' s'
  end.

Fixpoint take (n : nat) (s : string) : string :=
  match n, s with
  | O, _ => ""
  | _, "" => ""
  | S n', String c s' => String c (take n' s')
  end.

Lemma str_length_app (s1 s2 : string) :
  String.length (s1 ++ s2) = (String.length s1 + String.length s2)%nat.
Proof. induction s1 as [|c s1 IH]; [done|]. exact (f_equal S IH). Qed.
Lemma str_app_assoc (s1 s2 s3 : string) : (s1 ++ (s2 ++ s3) = (s1 ++ s2) ++ s3)%string.
Proof. induction s1 as [|c s1 IH]; [done|]. exact (f_equal (String c) IH). Qed.
Lemma str_app_nil (s : string) : (s ++ "" = s)%string.
Proof. induction s as [|c s IH]; [done|]. exact (f_equal (String c) IH). Qed.

Lemma concat_cons (x : string) l : String.concat "" (x :: l) = (x ++ String.concat "" l)%string.
Proof. destruct l; [symmetry; apply str_app_nil|done]. Qed.

(** [strings.HasPrefix], [strings.TrimPrefix] *)
Definition HasPrefix (s pre : string) : bool := String.prefix pre s.
Definition TrimPrefix (s pre : string) : string :=
  if HasPrefix s pre then drop (String.length pre) s else s.

(** [strings.HasSuffix], [strings.TrimSuffix] *)
Definition HasSuffix (s suf : string) : bool :=
  (String.length suf <=? String.length s)%nat &&
  String.eqb (drop (String.length s - String.length suf) s) suf.
Definition TrimSuffix (s suf : string) : string :=
  if HasSuffix s suf then take (String.length s - String.length suf) s else s.

(** [strings.Contains] *)
Fixpoint Contains (s sub : string) : bool :=
  HasPrefix s sub || match s with "" => false | String _ s' => Contains s' sub end.

(** [strings.ReplaceAll] for a non-empty [old]: leftmost, non-overlapping. *)
Fixpoint replace_from (skip : nat) (s old new : string) : string :=
  match s with
  | "" => ""
  | String c s' =>
      match skip with
      | S k => replace_from k s' old new
      | O => if HasPrefix s old
             then new ++ replace_from (String.length old - 1) s' old new
             else String c (replace_from O s' old new)
      end
  end.
Definition ReplaceAll (s old new : string) : string := replace_from O s old new.

(** [strings.ContainsRune] for an ASCII rune. *)
Fixpoint ContainsByte (s : string) (b : ascii) : bool :=
  match s with "" => false | String c s' => Ascii.eqb c b || ContainsByte s' b end.

(** [strings.LastIndexAny(s, set)] for an ASCII set: the byte index of the last
    byte of [s] in [set], [None] for Go's [-1]. *)
Fixpoint last_index_from (p : ascii -> bool) (i : nat) (s : string) : option nat :=
  match s with
  | "" => None
  | String c s' =>
      match last_index_from p (S i) s' with
      | Some j => Some j
      | None => if p c then Some i else None
      end
  end.
Definition LastIndexAny (s : string) (p : ascii -> bool) : option nat := last_index_from p O s.

(** ** White space

    The UTF-8 encodings of the runes [unicode.IsSpace] accepts. *)
Definition bytes_string (l : list Z) : string := String.string_of_list_ascii (of_byte <$> l).
Definition space_encodings : list string :=
  bytes_string <$>
  [[9]; [10]; [11]; [12]; [13]; [32]; [194; 133]; [194; 160]; [225; 154; 128];
   [226; 128; 128]; [226; 128; 129]; [226; 128; 130]; [226; 128; 131]; [226; 128; 132];
   [226; 128; 133]; [226; 128; 134]; [226; 128; 135]; [226; 128; 136]; [226; 128; 137];
   [226; 128; 138]; [226; 128; 168]; [226; 128; 169]; [226; 128; 175]; [226; 129; 159];
   [227; 128; 128]].

Definition prefix_in (encs : list string) (s : string) : option string :=
  list_find (fun e => HasPrefix s e = true) encs ≫= fun p => Some p.2.
Definition suffix_in (encs : list string) (s : string) : option string :=
  list_find (fun e => HasSuffix s e = true) encs ≫= fun p => Some p.2.

(** Dropping one encoding removes at least one byte, so the length of the
    string is enough fuel. *)
Fixpoint trim_left_fuel (fuel : nat) (encs : list string) (s : string) : string :=
  match fuel with
  | O => s
  | S f => match prefix_in encs s with
           | Some e => trim_left_fuel f encs (drop (String.length e) s)
           | None => s
           end
  end.
Fixpoint trim_right_fuel (fuel : nat) (encs : list string) (s : string) : string :=
  match fuel with
  | O => s
  | S f => match suffix_in encs s with
           | Some e => trim_right_fuel f encs (take (String.length s - String.length e) s)
           | None => s
           end
  end.
Definition trim_set (encs : list string) (s : string) : string :=
  let l := trim_left_fuel (String.length s) encs s in
  trim_right_fuel (String.length l) encs l.

(** [strings.TrimSpace] *)
Definition TrimSpace (s : string) : string := trim_set space_encodings s.

(** [strings.Fields] *)
Definition flush (cur : string) (rest : list string) : list string :=
  if String.eqb cur "" then rest else cur :: rest.
Fixpoint fields_from (skip : nat) (cur s : string) : list string :=
  match s with
  | "" => flush cur []
  | String c s' =>
      match skip with
      | S k => fields_from k cur s'
      | O => match prefix_in space_encodings s with
             | Some e => flush cur (fields_from (String.length e - 1) "" s')
             | None => fields_from O (cur ++ String c "") s'
             end
      end
  end.
Definition Fields (s : string) : list string := fields_from O "" s.

(** [strings.Join] *)
Definition Join (l : list string) (sep : string) : string := String.concat sep l.

(** [strings.NewReplacer(pairs...).Replace] when no old string is a prefix of
    another: leftmost matches, unmatched bytes copied. *)
Fixpoint replace_pairs (pairs : list (string * string)) (skip : nat) (s : string) : string :=
  match s with
  | "" => ""
  | String c s' =>
      match skip with
      | S k => replace_pairs pairs k s'
      | O => match List.find (fun p => HasPrefix s p.1) pairs with
             | Some (old, new) => new ++ replace_pairs pairs (String.length old - 1) s'
             | None => String c (replace_pairs pairs O s')
             end
      end
  end.

(** ** UTF-8 and case mapping *)
Definition RuneError : Z := 65533.
Definition cont (c : ascii) : bool := (128 <=? byte_of c) && (byte_of c <=? 191).
Definition in_range (lo hi : Z) (c : ascii) : bool := (lo <=? byte_of c) && (byte_of c <=? hi).

(** The second byte's range, by the first (the [acceptRange] table of unicode/utf8). *)
Definition accept2 (b0 : Z) (c1 : ascii) : bool :=
  if b0 =? 224 then in_range 160 191 c1
  else if b0 =? 237 then in_range 128 159 c1
  else if b0 =? 240 then in_range 144 191 c1
  else if b0 =? 244 then in_range 128 143 c1
  else cont c1.

(** [for _, r := range s]: invalid bytes decode to [RuneError], one at a time. *)
Fixpoint runes (s : string) : list Z :=
  match s with
  | "" => []
  | String c0 s1 =>
      let b0 := byte_of c0 in
      if b0 <? 128 then b0 :: runes s1 else
      match s1 with
      | "" => [RuneError]
      | String c1 s2 =>
          if (194 <=? b0) && (b0 <=? 223) && cont c1
          then ((b0 - 192) * 64 + (byte_of c1 - 128)) :: runes s2 else
          match s2 with
          | "" => RuneError :: runes s1
          | String c2 s3 =>
              if (224 <=? b0) && (b0 <=? 239) && accept2 b0 c1 && cont c2
              then ((b0 - 224) * 4096 + (byte_of c1 - 128) * 64 + (byte_of c2 - 128)) :: runes s3 else
              match s3 with
              | "" => RuneError :: runes s1
              | String c3 s4 =>
                  if (240 <=? b0) && (b0 <=? 244) && accept2 b0 c1 && cont c2 && cont c3
                  then ((b0 - 240) * 262144 + (byte_of c1 - 128) * 4096
                        + (byte_of c2 - 128) * 64 + (byte_of c3 - 128)) :: runes s4
                  else RuneError :: runes s1
              end
          end
      end
  end.

(** [utf8.AppendRune] *)
Definition encode_rune (r : Z) : string :=
  bytes_string
  (if (0 <=? r) && (r <? 128) then [r]
   else if (128 <=? r) && (r <? 2048) then [192 + r / 64; 128 + r mod 64]
   else if ((r <? 2048) || (1114111 <? r) || ((55296 <=? r) && (r <=? 57343)))
   then [239; 191; 189]
   else if r <? 65536 then [224 + r / 4096; 128 + (r / 64) mod 64; 128 + r mod 64]
   else [240 + r / 262144; 128 + (r / 4096) mod 64; 128 + (r / 64) mod 64; 128 + r mod 64]).

(** [strings.Map] for mappings that never drop a rune, and for those that may
    (where Go's mapping returns -1). *)
Definition MapRunes (f : Z -> Z) (s : string) : string :=
  String.concat "" ((fun r => encode_rune (f r)) <$> runes s).
Definition FilterMapRunes (f : Z -> option Z) (s : string) : string :=
  String.concat "" (omap (fun r => encode_rune <$> f r) (runes s)).

Definition ascii_upper (r : Z) : Z := if (97 <=? r) && (r <=? 122) then r - 32 else r.
Definition ascii_lower (r : Z) : Z := if (65 <=? r) && (r <=? 90) then r + 32 else r.

(** Unicode's simple case mappings ([unicode.ToUpper], [unicode.ToLower]): the
    tables themselves belong to the Go distribution; what the code relies on is
    their value on ASCII and that U+20AB (the dong sign) has no case. *)
Class UnicodeCase := {
  to_upper : Z -> Z;
  to_lower : Z -> Z;
  to_upper_ascii : forall r, 0 <= r < 128 -> to_upper r = ascii_upper r;
  to_lower_ascii : forall r, 0 <= r < 128 -> to_lower r = ascii_lower r;
  to_upper_dong : to_upper 8363 = 8363;
  to_lower_dong : to_lower 8363 = 8363;
}.

(** [strings.ToUpper], [strings.ToLower] (their ASCII fast paths compute the same). *)
Definition ToUpper `{UnicodeCase} (s : string) : string := MapRunes to_upper s.
Definition ToLower `{UnicodeCase} (s : string) : string := MapRunes to_lower s.

(** The case mappings of ASCII, Latin-1, Latin Extended-A's paired ranges and
    the Vietnamese blocks; enough to run the model on Vietnamese text. *)
Definition latin_upper (r : Z) : Z :=
  if r <? 128 then ascii_upper r
  else if (224 <=? r) && (r <=? 254) && negb (r =? 247) then r - 32
  else if (256 <=? r) && (r <=? 303) && Z.odd r then r - 1
  else if (r =? 417) || (r =? 432) then r - 1
  else if (7840 <=? r) && (r <=? 7929) && Z.odd r then r - 1
  else r.
Definition latin_lower (r : Z) : Z :=
  if r <? 128 then ascii_lower r
  else if (192 <=? r) && (r <=? 222) && negb (r =? 215) then r + 32
  else if (256 <=? r) && (r <=? 303) && Z.even r then r + 1
  else if (r =? 416) || (r =? 431) then r + 1
  else if (7840 <=? r) && (r <=? 7929) && Z.even r then r + 1
  else r.

Definition LatinCase : UnicodeCase.
Proof.
  refine {| to_upper := latin_upper; to_lower := latin_lower |}; try reflexivity;
    intros r Hr; unfold latin_upper, latin_lower;
    rewrite (proj2 (Z.ltb_lt r 128)) by lia; reflexivity.
Defined.

Example ToUpper_viet : @ToUpper LatinCase "đồng" = "ĐỒNG".
Proof. vm_compute. reflexivity. Qed.
Example TrimSpace_ex : TrimSpace "  325.000 ₫ 	" = "325.000 ₫".
Proof. vm_compute. reflexivity. Qed.
Example ReplaceAll_ex : ReplaceAll "325.000 đồng" "đồng" "" = "325.000 ".
Proof. vm_compute. reflexivity. Qed.

(** ** Decimal numbers *)
Fixpoint dec_value (acc : Z) (s : string) : Z :=
  match s with "" => acc | String c s' => dec_value (10 * acc + digit_val c) s' end.

(** [strconv.ParseInt(s, 10, 64)]; [None] for its syntax and range errors. *)
Definition parse_magnitude (s : string) : option Z :=
  if String.eqb s "" then None
  else if forall_bytes is_digit s then Some (dec_value 0 s) else None.
Definition ParseInt (s : string) : option Z :=
  let signed :=
    match s with
    | String c s' =>
        if Ascii.eqb c "-" then option_map Z.opp (parse_magnitude s')
        else if Ascii.eqb c "+" then parse_magnitude s'
        else parse_magnitude s
    | "" => None
    end in
  match signed with
  | Some v => if (MinInt64 <=? v) && (v <=? MaxInt64) then Some v else None
  | None => None
  end.

(** [fmt.Sprintf("%d", n)] *)
Fixpoint dec_fuel (fuel : nat) (n : Z) (acc : string) : string :=
  match fuel with
  | O => acc
  | S f => let acc' := String (digit_char (n mod 10)) acc in
           if n <? 10 then acc' else dec_fuel f (n / 10) acc'
  end.
Definition dec_nat (n : Z) : string := dec_fuel (S (Z.to_nat (Z.log2 n))) n "".
Definition Sprintd (n : Z) : string := if n <? 0 then "-" ++ dec_nat (- n) else dec_nat n.

(** [fmt.Sprintf("%0*d", w, n)] for a non-negative [n]. *)
Definition zero_pad (w : nat) (s : string) : string :=
  String.concat "" (repeat "0" (w - String.length s)) ++ s.
