(* ===== verification/Domain.v ===== *)
(** * Domain

    internal/domain: the typed string constants as inductive types (a
    constructor named [...Unset] is Go's zero value [""], which code paths
    build and test for), the structs as records, the error type with its codes,
    and the receipt and transaction state machines. *)
From Stdlib Require Import SpecFloat.
From S2P Require Import Prelude GoStrings.

(** ** Errors (errors.go) *)
Module Errors.

Inductive Code :=
| CodeValidation | CodeNotFound | CodeConflict | CodeForbidden | CodeConsent
| CodeQuota | CodeUnsupported | CodeTransient | CodeKillSwitch | CodeInternal.
#[global] Instance Code_eq_dec : EqDecision Code.
Proof. solve_decision. Defined.

Definition code_string (c : Code) : string :=
  match c with
  | CodeValidation => "validation" | CodeNotFound => "not_found" | CodeConflict => "conflict"
  | CodeForbidden => "forbidden" | CodeConsent => "consent_required" | CodeQuota => "quota_exceeded"
  | CodeUnsupported => "unsupported" | CodeTransient => "transient"
  | CodeKillSwitch => "kill_switch" | CodeInternal => "internal"
  end.

(** Failures of the database driver and of the contexts it runs under; the
    text is what [Error()] prints. *)
Inductive DriverKind :=
| DeadlineExceeded | Canceled | PgError (sqlstate : string) | NetOpError
| ConnReset | BrokenPipe | UnexpectedEOF | OtherDriver.
Record DriverErr := mkDriverErr { drv_kind : DriverKind; drv_text : string }.

(** An error value: a [*domain.Error], a driver error, a sentinel or
    [errors.New] value, or a [fmt.Errorf("msg: %w", err)] wrapper. *)
Inductive Err :=
| DomainErr (code : Code) (msg : string) (cause : option Err)
| Driver (e : DriverErr)
| Sentinel (msg : string)
| Wrapped (msg : string) (cause : Err).

(** [E(code, msg, cause)]; [Ef] is the same with the message formatted. *)
Definition E (code : Code) (msg : string) (cause : option Err) : Err := DomainErr code msg cause.

(** [func (e *Error) Error() string] *)
Fixpoint error_string (e : Err) : string :=
  match e with
  | DomainErr c m (Some cause) => code_string c ++ ": " ++ m ++ ": " ++ error_string cause
  | DomainErr c m None => code_string c ++ ": " ++ m
  | Driver d => drv_text d
  | Sentinel m => m
  | Wrapped m cause => m ++ ": " ++ error_string cause
  end.

(** [CodeOf]: the code of the first [*Error] in the chain ([errors.As]), or
    [CodeInternal]. *)
Fixpoint CodeOf (e : Err) : Code :=
  match e with
  | DomainErr c _ _ => c
  | Wrapped _ cause => CodeOf cause
  | Driver _ | Sentinel _ => CodeInternal
  end.

Definition IsCode (e : Err) (c : Code) : bool := bool_decide (CodeOf e = c).
Definition Retryable (e : Err) : bool := bool_decide (CodeOf e = CodeTransient).

End Errors.
Export Errors.

(** ** Typed constants and structs (types.go) *)
Module Types.

(** A UUID is opaque; [uuid_nil] is [uuid.Nil]. *)
Abbreviation uuid := N.
Definition uuid_nil : uuid := 0%N.

(** An instant ([time.Time]): nanoseconds since the Unix epoch.  A
    [time.Duration] is a number of nanoseconds. *)
Abbreviation Time := Z.
Definition Second : Z := 1000000000.
Definition Minute : Z := 60 * Second.
Definition Hour : Z := 60 * Minute.

Inductive UserStatus := UserPending | UserActive | UserSuspended | UserDeleting | UserDeleted.
#[global] Instance UserStatus_eq_dec : EqDecision UserStatus.
Proof. solve_decision. Defined.

Record User := mkUser {
  usr_id : uuid; usr_status : UserStatus; usr_timezone : string; usr_default_currency : string;
  usr_locale : string; usr_consent_version : string; usr_consented_at : option Time;
  usr_created_at : Time; usr_updated_at : Time; usr_deleted_at : option Time }.

Record UserIdentity := mkIdentity {
  ident_id : uuid; ident_user : uuid; ident_provider : string; ident_subject : string;
  ident_scope : string; ident_created_at : Time; ident_last_seen_at : Time }.

Inductive MessageStatus :=
| MessageReceived | MessageProcessed | MessageDuplicate | MessageFailed | MessageUnset.
#[global] Instance MessageStatus_eq_dec : EqDecision MessageStatus.
Proof. solve_decision. Defined.

Record ProviderMessage := mkPM {
  pm_id : uuid; pm_provider : string; pm_chat : string; pm_message : string;
  pm_user : option uuid; pm_event_type : string; pm_hash : string; pm_raw : string;
  pm_received_at : Time; pm_started_at : option Time; pm_processed_at : option Time;
  pm_delete_after : option Time; pm_status : MessageStatus }.

Inductive ReceiptStatus :=
| ReceiptReceived | ReceiptQueued | ReceiptDownloading | ReceiptStored | ReceiptExtracting
| ReceiptReviewRequired | ReceiptConfirmed | ReceiptDeleted | ReceiptFailedTransient
| ReceiptFailedPermanent | ReceiptUnset.
#[global] Instance ReceiptStatus_eq_dec : EqDecision ReceiptStatus.
Proof. solve_decision. Defined.

Definition receipt_status_string (s : ReceiptStatus) : string :=
  match s with
  | ReceiptReceived => "received" | ReceiptQueued => "queued" | ReceiptDownloading => "downloading"
  | ReceiptStored => "stored" | ReceiptExtracting => "extracting"
  | ReceiptReviewRequired => "review_required" | ReceiptConfirmed => "confirmed"
  | ReceiptDeleted => "deleted" | ReceiptFailedTransient => "failed_transient"
  | ReceiptFailedPermanent => "failed_permanent" | ReceiptUnset => ""
  end.

Record ReceiptDocument := mkReceipt {
  rc_id : uuid; rc_user : uuid; rc_message : option uuid; rc_storage_key : string;
  rc_source_url_hash : string; rc_content_type : string; rc_byte_size : Z; rc_sha256 : string;
  rc_perceptual_hash : string; rc_status : ReceiptStatus; rc_retention : string;
  rc_delete_after : option Time; rc_created_at : Time; rc_updated_at : Time;
  rc_deleted_at : option Time }.

Inductive TxType := TxExpense | TxIncome | TxRefund | TxTransfer | TxAdjustment | TxTypeUnset.
#[global] Instance TxType_eq_dec : EqDecision TxType.
Proof. solve_decision. Defined.

Definition txtype_string (t : TxType) : string :=
  match t with
  | TxExpense => "expense" | TxIncome => "income" | TxRefund => "refund"
  | TxTransfer => "transfer" | TxAdjustment => "adjustment" | TxTypeUnset => ""
  end.

Inductive TxStatus := TxDraft | TxAwaitingConfirmation | TxConfirmed | TxAmended | TxDeleted.
#[global] Instance TxStatus_eq_dec : EqDecision TxStatus.
Proof. solve_decision. Defined.

Definition tx_status_string (s : TxStatus) : string :=
  match s with
  | TxDraft => "draft" | TxAwaitingConfirmation => "awaiting_confirmation"
  | TxConfirmed => "confirmed" | TxAmended => "amended" | TxDeleted => "deleted"
  end.

Inductive TxSource := TxSourceReceipt | TxSourceManual.
#[global] Instance TxSource_eq_dec : EqDecision TxSource.
Proof. solve_decision. Defined.

(** [tx_provider_message] is the column of migration 0012; the other fields are
    the struct's. *)
Record Transaction := mkTx {
  tx_id : uuid; tx_user : uuid; tx_receipt : option uuid; tx_account : option uuid;
  tx_type : TxType; tx_merchant : option uuid; tx_merchant_name : string;
  tx_description : string; tx_amount : Z; tx_currency : string; tx_occurred_at : Time;
  tx_category : option uuid; tx_status : TxStatus; tx_source : TxSource;
  tx_confidence : string; tx_confirmed_at : option Time; tx_version : Z;
  tx_created_at : Time; tx_updated_at : Time; tx_deleted_at : option Time;
  tx_provider_message : option uuid }.

(** IEEE binary64; the confidences are stored and compared, never printed here. *)
Abbreviation float64 := spec_float.

Record ExtractedField := mkField {
  ef_id : uuid; ef_receipt : uuid; ef_name : string; ef_raw : string; ef_normalised : string;
  ef_confidence : float64; ef_source : string; ef_evidence : string; ef_extractor : string;
  ef_version : string; ef_created_at : Time }.

Record Prediction := mkPrediction {
  pr_id : uuid; pr_tx : uuid; pr_type : string; pr_value : string; pr_confidence : float64;
  pr_model : string; pr_version : string; pr_features : string; pr_created_at : Time }.

Record Correction := mkCorrection {
  cor_id : uuid; cor_tx : uuid; cor_field : string; cor_predicted : string;
  cor_corrected : string; cor_source : string; cor_created_at : Time }.

Record Merchant := mkMerchant {
  mer_id : uuid; mer_canonical : string; mer_normalised : string; mer_family : string;
  mer_created_at : Time }.

Record MerchantAlias := mkAlias {
  ali_id : uuid; ali_merchant : uuid; ali_alias : string; ali_normalised : string;
  ali_source : string }.

Record UserMerchantRule := mkRule {
  rule_user : uuid; rule_merchant : uuid; rule_category : option uuid; rule_type : TxType;
  rule_samples : Z; rule_confidence : float64; rule_confirmed_at : Time }.

Record Category := mkCategory {
  cat_id : uuid; cat_key : string; cat_display : string; cat_parent : option uuid;
  cat_system : bool; cat_created_at : Time }.

Record Insight := mkInsight {
  ins_id : uuid; ins_user : uuid; ins_type : string; ins_start : Time; ins_end : Time;
  ins_payload : string; ins_evidence : string; ins_version : string; ins_created_at : Time }.

Inductive SummaryFrequency := SummaryDaily | SummaryWeekly | SummaryMonthly | SummaryOther (s : string).
#[global] Instance SummaryFrequency_eq_dec : EqDecision SummaryFrequency.
Proof. solve_decision. Defined.

Record SummarySchedule := mkSchedule {
  sch_id : uuid; sch_user : uuid; sch_frequency : SummaryFrequency; sch_minute : Z;
  sch_provider : string; sch_chat : string; sch_enabled : bool; sch_next : Time;
  sch_last : option Time; sch_created_at : Time; sch_updated_at : Time }.

(** Keyed by (scope, scope_id, period, metric). *)
Record UsageCounter := mkUsage { use_count : Z; use_limit : Z; use_updated_at : Time }.

Inductive JobKind := JobReceiptProcess | JobOutboundSend | JobRetentionSweep.
#[global] Instance JobKind_eq_dec : EqDecision JobKind.
Proof. solve_decision. Defined.

Inductive JobStatus := JobQueued | JobRunning | JobDone | JobDead.
#[global] Instance JobStatus_eq_dec : EqDecision JobStatus.
Proof. solve_decision. Defined.

(** Queue payloads (contracts/events): the three job schemas, or bytes that
    decode as none of them. *)
Record ReceiptJob := mkReceiptJob {
  rj_job : uuid; rj_receipt : uuid; rj_user : uuid; rj_provider : string; rj_chat : string;
  rj_message : string; rj_attempt : Z; rj_enqueued_at : Time }.
Record OutboundJob := mkOutboundJob { oj_outbound : uuid; oj_user : uuid; oj_enqueued_at : Time }.
Inductive Payload :=
| PayReceipt (j : ReceiptJob)
| PayOutbound (j : OutboundJob)
| PaySweep (enqueued_at : Time)
| PayOther (bytes : string).

Record QueueJob := mkJob {
  job_id : uuid; job_kind : JobKind; job_payload : Payload; job_dedupe : option string;
  job_status : JobStatus; job_attempts : Z; job_max_attempts : Z; job_run_after : Time;
  job_visible_at : Time; job_claim : option uuid; job_last_error : string;
  job_created_at : Time; job_updated_at : Time }.

Inductive PendingKind :=
| PendingConfirmExtraction | PendingEditTotal | PendingEditMerchant | PendingEditDate
| PendingEditCategory | PendingEditType | PendingDeleteAccount | PendingDeleteRecent.
#[global] Instance PendingKind_eq_dec : EqDecision PendingKind.
Proof. solve_decision. Defined.

Record PendingAction := mkPending {
  pa_id : uuid; pa_user : uuid; pa_kind : PendingKind; pa_tx : option uuid;
  pa_payload : string; pa_expires_at : Time; pa_created_at : Time }.

Inductive OutboundStatus :=
| OutboundQueued | OutboundSending | OutboundSent | OutboundFailed | OutboundSuppressed
| OutboundAmbiguous | OutboundUnset.
#[global] Instance OutboundStatus_eq_dec : EqDecision OutboundStatus.
Proof. solve_decision. Defined.

Record OutboundRecord := mkOutbound {
  ob_id : uuid; ob_user : uuid; ob_provider : string; ob_chat : string; ob_key : string;
  ob_body : string; ob_ephemeral : bool; ob_status : OutboundStatus; ob_attempts : Z;
  ob_last_error : string; ob_attempted_at : option Time; ob_sent_at : option Time;
  ob_provider_message : string; ob_created_at : Time }.

End Types.
Export Types.

(** ** State machines (state.go) *)
Module States.

(** [receiptTransitions] *)
Definition receiptTransitions (s : ReceiptStatus) : list ReceiptStatus :=
  match s with
  | ReceiptReceived => [ReceiptQueued; ReceiptDeleted; ReceiptFailedPermanent]
  | ReceiptQueued => [ReceiptDownloading; ReceiptDeleted]
  | ReceiptDownloading => [ReceiptStored; ReceiptFailedTransient; ReceiptFailedPermanent]
  | ReceiptStored => [ReceiptExtracting; ReceiptDeleted; ReceiptFailedTransient; ReceiptFailedPermanent]
  | ReceiptExtracting => [ReceiptReviewRequired; ReceiptFailedTransient; ReceiptFailedPermanent]
  | ReceiptReviewRequired => [ReceiptConfirmed; ReceiptDeleted]
  | ReceiptConfirmed => [ReceiptDeleted]
  | ReceiptFailedTransient => [ReceiptQueued; ReceiptFailedPermanent; ReceiptDeleted]
  | ReceiptFailedPermanent => [ReceiptDeleted]
  | ReceiptDeleted => []
  | ReceiptUnset => []
  end.

(** [func (s ReceiptStatus) CanTransition(next) bool] *)
Definition receipt_CanTransition (s next : ReceiptStatus) : bool :=
  existsb (fun allowed => bool_decide (allowed = next)) (receiptTransitions s).

(** [txTransitions] *)
Definition txTransitions (s : TxStatus) : list TxStatus :=
  match s with
  | TxDraft => [TxAwaitingConfirmation; TxDeleted]
  | TxAwaitingConfirmation => [TxConfirmed; TxDeleted]
  | TxConfirmed => [TxAmended; TxDeleted]
  | TxAmended => [TxDeleted]
  | TxDeleted => []
  end.

(** [func (s TxStatus) CanTransition(next) bool] *)
Definition tx_CanTransition (s next : TxStatus) : bool :=
  existsb (fun allowed => bool_decide (allowed = next)) (txTransitions s).

(** [CountsTowardInsights] *)
Definition CountsTowardInsights (s : TxStatus) : bool :=
  bool_decide (s = TxConfirmed) || bool_decide (s = TxAmended).

Definition receipt_step (s t : ReceiptStatus) : Prop := receipt_CanTransition s t = true.
Definition tx_step (s t : TxStatus) : Prop := tx_CanTransition s t = true.

(** The pipeline's rank: every transition but the retry
    [failed_transient -> queued] moves strictly forward. *)
Definition receipt_rank (s : ReceiptStatus) : Z :=
  match s with
  | ReceiptUnset | ReceiptReceived => 0 | ReceiptQueued => 1 | ReceiptDownloading => 2
  | ReceiptStored => 3 | ReceiptExtracting => 4 | ReceiptFailedTransient => 5
  | ReceiptReviewRequired => 5 | ReceiptConfirmed => 6 | ReceiptFailedPermanent => 6
  | ReceiptDeleted => 7
  end.

Lemma receipt_step_rank s t :
  receipt_step s t -> receipt_rank s < receipt_rank t \/ (s = ReceiptFailedTransient /\ t = ReceiptQueued).
Proof. unfold receipt_step. destruct s, t; vm_compute; auto; discriminate. Qed.

Lemma receipt_step_deleted s : ~ receipt_step ReceiptDeleted s.
Proof. by destruct s. Qed.

Lemma tx_step_deleted s : ~ tx_step TxDeleted s.
Proof. by destruct s. Qed.

(** A user-visible outcome is reached at most once: from a status whose draft
    is under review, confirmed, failed for good or deleted, the pipeline never
    returns to a processing status. *)
Definition settled (s : ReceiptStatus) : bool :=
  match s with
  | ReceiptReviewRequired | ReceiptConfirmed | ReceiptDeleted | ReceiptFailedPermanent => true
  | _ => false
  end.

Lemma settled_step s t : receipt_step s t -> settled s = true -> settled t = true.
Proof. unfold receipt_step. destruct s, t; vm_compute; auto; discriminate. Qed.

Lemma settled_rtc s t : rtc receipt_step s t -> settled s = true -> settled t = true.
Proof. induction 1; eauto using settled_step. Qed.

End States.
Export States.
