(* ===== verification/GoTime.v ===== *)
(** * Go time

    What the sources use of Go's [time] package: the proleptic Gregorian
    calendar, the month and timestamp formats, [time.Date] with its
    normalisation and zone lookup, and [AddDate].  An instant is a number of
    nanoseconds since the Unix epoch; civil computations work on whole seconds
    and days. *)
From Stdlib Require Import Ascii.
From S2P Require Import Prelude GoStrings Domain.

(** ** The civil calendar

    Day 0 is 1970-01-01.  Years start in March internally, so that the leap day
    comes last; an era is 400 years, 146097 days. *)
Definition days_of_era (doe_year doy : Z) : Z := 365 * doe_year + doe_year / 4 - doe_year / 100 + doy.
Definition day_of_year (m d : Z) : Z := (153 * ((m + 9) mod 12) + 2) / 5 + d - 1.
Definition days_from_civil (y m d : Z) : Z :=
  let y' := if m <=? 2 then y - 1 else y in
  146097 * (y' / 400) + days_of_era (y' mod 400) (day_of_year m d) - 719468.

(** Year, month (1..12) and day (1..31) of a day of an era counted from March 1st
    of year 0. *)
Definition civil_of_era_day (doe : Z) : Z * Z * Z :=
  let yoe := (doe - doe / 1460 + doe / 36524 - doe / 146096) / 365 in
  let doy := doe - (365 * yoe + yoe / 4 - yoe / 100) in
  let mp := (5 * doy + 2) / 153 in
  let d := doy - (153 * mp + 2) / 5 + 1 in
  let m := if mp <? 10 then mp + 3 else mp - 9 in
  (yoe + (if m <=? 2 then 1 else 0), m, d).
Definition civil_from_days (z : Z) : Z * Z * Z :=
  let n := z + 719468 in
  let c := civil_of_era_day (n mod 146097) in
  (c.1.1 + 400 * (n / 146097), c.1.2, c.2).

(** [time.Weekday]: 0 is Sunday; day 0 was a Thursday. *)
Definition weekday (z : Z) : Z := (z + 4) mod 7.

Ltac euclid := Z.to_euclidean_division_equations; lia.

Lemma era_year_bound doe : 0 <= doe < 146097 ->
  let yoe := (doe - doe / 1460 + doe / 36524 - doe / 146096) / 365 in
  0 <= yoe <= 399 /\ 0 <= doe - (365 * yoe + yoe / 4 - yoe / 100) <= 365.
Proof. intros H. cbv zeta. split; euclid. Qed.

Lemma month_day_inverse doy : 0 <= doy <= 365 ->
  let mp := (5 * doy + 2) / 153 in
  let d := doy - (153 * mp + 2) / 5 + 1 in
  let m := if mp <? 10 then mp + 3 else mp - 9 in
  1 <= m <= 12 /\ 1 <= d <= 31 /\ day_of_year m d = doy.
Proof.
  intros H. cbv zeta. unfold day_of_year.
  destruct (Z.ltb_spec ((5 * doy + 2) / 153) 10); split_and!; euclid.
Qed.

(** The March-based year of a date. *)
Definition march_year (y m : Z) : Z := if m <=? 2 then y - 1 else y.

Lemma civil_of_era_day_spec doe : 0 <= doe < 146097 ->
  let '(y, m, d) := civil_of_era_day doe in
  0 <= march_year y m <= 399 /\ 1 <= m <= 12 /\ 1 <= d <= 31 /\
  days_of_era (march_year y m) (day_of_year m d) = doe.
Proof.
  intros H. pose proof (era_year_bound doe H) as [Hy Hd]. unfold civil_of_era_day. cbv zeta in Hy, Hd |- *.
  set (yoe := (doe - doe / 1460 + doe / 36524 - doe / 146096) / 365) in *.
  set (doy := doe - (365 * yoe + yoe / 4 - yoe / 100)) in *.
  pose proof (month_day_inverse doy Hd) as (Hm & Hdd & Hinv). cbv zeta in Hm, Hdd, Hinv.
  set (m := if (5 * doy + 2) / 153 <? 10 then _ else _) in *.
  set (d := doy - _ + 1) in *.
  assert (march_year (yoe + (if m <=? 2 then 1 else 0)) m = yoe) as ->
    by (unfold march_year; destruct (m <=? 2); lia).
  split_and!; try lia. unfold days_of_era. rewrite Hinv. unfold doy. lia.
Qed.

Lemma civil_from_days_spec z :
  let '(y, m, d) := civil_from_days z in
  1 <= m <= 12 /\ 1 <= d <= 31 /\ days_from_civil y m d = z.
Proof.
  unfold civil_from_days. cbv zeta. set (n := z + 719468).
  pose proof (civil_of_era_day_spec (n mod 146097) ltac:(apply Z.mod_pos_bound; lia)) as Hs.
  destruct (civil_of_era_day (n mod 146097)) as [[y m] d]. cbn [fst snd].
  destruct Hs as (Hy & Hm & Hd & He). split_and!; try lia.
  unfold days_from_civil. cbv zeta.
  replace (if m <=? 2 then y + 400 * (n / 146097) - 1 else y + 400 * (n / 146097))
    with (march_year y m + n / 146097 * 400) by (unfold march_year; destruct (m <=? 2); lia).
  rewrite Z.div_add, Z.mod_add by lia.
  rewrite (Z.div_small (march_year y m)), (Z.mod_small (march_year y m)) by lia.
  rewrite He. pose proof (Z.div_mod n 146097 ltac:(lia)). lia.
Qed.

(** ** Seconds, days and clock fields *)
Definition unix_sec (t : Time) : Z := t / Second.
Definition day_of (sec : Z) : Z := sec / 86400.
Definition sec_of_day (sec : Z) : Z := sec mod 86400.

(** [t.UTC().Format("2006-01")] for years 0..9999 (longer years print in full). *)
Definition Format_month (t : Time) : string :=
  let c := civil_from_days (day_of (unix_sec t)) in
  zero_pad 4 (Sprintd c.1.1) ++ "-" ++ zero_pad 2 (Sprintd c.1.2).

(** ** Locations

    [lookup] is time.Location's: at a Unix second, the offset in force and the
    half-open interval of seconds it is in force for.  Zone data belongs to the
    Go distribution; what it guarantees is part of the type. *)
Record Location := mkLocation {
  lookup_offset : Z -> Z; lookup_start : Z -> Z; lookup_end : Z -> Z;
  lookup_in : forall s, lookup_start s <= s < lookup_end s;
  lookup_same : forall s s', lookup_start s <= s' < lookup_end s ->
    lookup_offset s' = lookup_offset s /\ lookup_start s' = lookup_start s /\ lookup_end s' = lookup_end s;
  lookup_offset_bound : forall s, -86400 < lookup_offset s < 86400 }.

Definition fixed_zone (off : Z) (H : -86400 < off < 86400) : Location.
Proof.
  refine (mkLocation (fun _ => off) (fun s => if (MinInt64 <=? s) && (s <? MaxInt64) then MinInt64 else s)
    (fun s => if (MinInt64 <=? s) && (s <? MaxInt64) then MaxInt64 else s + 1) _ _ _).
  - intros s. destruct (Z.leb_spec MinInt64 s), (Z.ltb_spec s MaxInt64); simpl; lia.
  - intros s s'. destruct (Z.leb_spec MinInt64 s), (Z.ltb_spec s MaxInt64); simpl; intros Hs;
      destruct (Z.leb_spec MinInt64 s'), (Z.ltb_spec s' MaxInt64); simpl; lia.
  - intros _. exact H.
Defined.
Definition UTC : Location := fixed_zone 0 ltac:(lia).

(** [time.LoadLocation] over the zone database, which is not part of the program. *)
Class TzData := { LoadLocation : string -> option Location }.

(** [User.Location] *)
Definition user_Location `{TzData} (u : User) : Location :=
  if String.eqb (usr_timezone u) "" then UTC
  else match LoadLocation (usr_timezone u) with Some loc => loc | None => UTC end.

(** [t.In(loc).Date()] and the seconds past its midnight ([Clock()]). *)
Definition local_sec (loc : Location) (t : Time) : Z := unix_sec t + lookup_offset loc (unix_sec t).
Definition local_date (loc : Location) (t : Time) : Z * Z * Z := civil_from_days (day_of (local_sec loc t)).
Definition local_clock (loc : Location) (t : Time) : Z := sec_of_day (local_sec loc t).
Definition local_weekday (loc : Location) (t : Time) : Z := weekday (day_of (local_sec loc t)).

(** The UTC second of a local wall-clock second: [time.Date]'s zone lookup. *)
Definition from_local (loc : Location) (unix : Z) : Z :=
  let offset := lookup_offset loc unix in
  if offset =? 0 then unix
  else
    let utc := unix - offset in
    if (utc <? lookup_start loc unix) || (lookup_end loc unix <=? utc)
    then unix - lookup_offset loc utc else utc.

(** [time.Date(y, m, d, 0, 0, sec, nsec, loc)]: months and days out of range carry. *)
Definition Date (y m d sec nsec : Z) (loc : Location) : Time :=
  let y' := y + (m - 1) / 12 in
  let m' := (m - 1) mod 12 + 1 in
  from_local loc ((days_from_civil y' m' 1 + (d - 1)) * 86400 + sec) * Second + nsec.

(** [t.In(loc).AddDate(years, months, days)] *)
Definition AddDate (loc : Location) (t : Time) (years months days : Z) : Time :=
  let c := local_date loc t in
  Date (c.1.1 + years) (c.1.2 + months) (c.2 + days) (local_clock loc t) (t mod Second) loc.

(** ** RFC 3339 ([time.Parse(time.RFC3339, s)])

    The hour may have one digit, seconds may carry a fraction, and the zone is
    [Z] or a signed hh:mm. *)
Fixpoint span_digits (s : string) : string * string :=
  match s with
  | "" => ("", "")
  | String c s' => if is_digit c then let r := span_digits s' in (String c r.1, r.2) else ("", s)
  end.
Definition number (s : string) : Z := dec_value 0 s.
(** [n] digits exactly. *)
Definition digits_n (n : nat) (s : string) : option (Z * string) :=
  let h := take n s in
  if (String.length h =? n)%nat && forall_bytes is_digit h then Some (number h, drop n s) else None.
(** [getnum(s, false)]: two digits if there are two, else one. *)
Definition digits_1_2 (s : string) : option (Z * string) :=
  match digits_n 2 s with Some r => Some r | None => digits_n 1 s end.
Definition expect (lit s : string) : option string :=
  if HasPrefix s lit then Some (drop (String.length lit) s) else None.

Definition is_leap (y : Z) : bool := (y mod 4 =? 0) && (negb (y mod 100 =? 0) || (y mod 400 =? 0)).
Definition days_in (y m : Z) : Z :=
  if m =? 2 then if is_leap y then 29 else 28
  else if (m =? 4) || (m =? 6) || (m =? 9) || (m =? 11) then 30 else 31.

Definition parse_fraction (s : string) : Z * string :=
  match s with
  | String c s' =>
      let r := span_digits s' in
      if (Ascii.eqb c "." || Ascii.eqb c ",") && negb (String.eqb r.1 "")
      then let ds := take 9 r.1 in (number ds * 10 ^ Z.of_nat (9 - String.length ds), r.2)
      else (0, s)
  | "" => (0, "")
  end.
Definition parse_zone (s : string) : option Z :=
  match s with
  | "Z" => Some 0
  | String sign s1 =>
      '(h, s2) ← digits_n 2 s1; s3 ← expect ":" s2; '(m, s4) ← digits_n 2 s3;
      if negb (String.eqb s4 "") || (24 <? h) || (60 <? m) then None
      else if Ascii.eqb sign "+" then Some (h * 3600 + m * 60)
      else if Ascii.eqb sign "-" then Some (- (h * 3600 + m * 60)) else None
  | "" => None
  end.
Definition ParseRFC3339 (s : string) : option Time :=
  '(y, s) ← digits_n 4 s; s ← expect "-" s; '(mo, s) ← digits_n 2 s; s ← expect "-" s;
  '(d, s) ← digits_n 2 s; s ← expect "T" s; '(h, s) ← digits_1_2 s; s ← expect ":" s;
  '(mi, s) ← digits_n 2 s; s ← expect ":" s; '(sec, s) ← digits_n 2 s;
  let f := parse_fraction s in
  off ← parse_zone f.2;
  if (mo <? 1) || (12 <? mo) || (24 <=? h) || (60 <=? mi) || (60 <=? sec) ||
     (d <? 1) || (days_in y mo <? d) then None
  else Some (Date y mo d (h * 3600 + mi * 60 + sec - off) f.1 UTC).

Example ParseRFC3339_ex :
  ParseRFC3339 "2026-07-19T12:34:56Z" = Some (1784464496 * Second) /\
  ParseRFC3339 "2026-07-19T19:34:56.5+07:00" = Some (1784464496 * Second + 500000000) /\
  ParseRFC3339 "2026-02-30T00:00:00Z" = None.
Proof. vm_compute. done. Qed.

Example Format_month_ex : Format_month (1784464496 * Second) = "2026-07".
Proof. vm_compute. reflexivity. Qed.
Example epoch_civil : civil_from_days 0 = (1970, 1, 1) /\ weekday 0 = 4.
Proof. vm_compute. done. Qed.
Example leap_day : days_from_civil 2024 2 29 = 19782 /\ civil_from_days 19783 = (2024, 3, 1).
Proof. vm_compute. done. Qed.
