(* ===== verification/Calendar.v ===== *)
(** * The calendar by months

    Months numbered consecutively and the days they start on: the facts about
    Go's civil calendar that period and delivery computations rest on. *)
From S2P Require Import Prelude GoStrings Domain GoTime.

(** Months counted from January of year 0; the day a month starts on. *)
Definition month_index (y m : Z) : Z := 12 * y + m - 1.
Definition month_start (k : Z) : Z := days_from_civil (k / 12) (k mod 12 + 1) 1.

Lemma days_from_civil_linear y m d : days_from_civil y m d = days_from_civil y m 1 + d - 1.
Proof. unfold days_from_civil, days_of_era, day_of_year. lia. Qed.

(** Leap days by the 4, 100 and 400 year rules. *)
Definition year_start (y : Z) : Z := 365 * y + y / 4 - y / 100 + y / 400 - 719468.
Lemma year_start_era y :
  146097 * (y / 400) + (365 * (y mod 400) + (y mod 400) / 4 - (y mod 400) / 100) - 719468 = year_start y.
Proof. unfold year_start. euclid. Qed.

Lemma month_first y m : days_from_civil y m 1 = year_start (march_year y m) + (153 * ((m + 9) mod 12) + 2) / 5.
Proof. rewrite <- year_start_era. unfold days_from_civil, march_year, days_of_era, day_of_year. lia. Qed.

Lemma year_start_next y : 365 <= year_start (y + 1) - year_start y <= 366.
Proof. unfold year_start. euclid. Qed.

(** Evaluates the month tables at concrete months. *)
Ltac eval_if b x y := let v := eval vm_compute in b in
  match v with true => change (if b then x else y) with x | false => change (if b then x else y) with y end.
Ltac eval_months := repeat match goal with
  | |- context [(153 * ?e + 2) / 5] => let v := eval vm_compute in ((153 * e + 2) / 5) in change ((153 * e + 2) / 5) with v
  | |- context [if ?b then ?x else ?y] => eval_if b x y
  end.
Ltac eval_months_in H := match type of H with context [(153 * ?e + 2) / 5] =>
  let v := eval vm_compute in ((153 * e + 2) / 5) in change ((153 * e + 2) / 5) with v in H end.

Lemma month_start_next k : 28 <= month_start (k + 1) - month_start k <= 31.
Proof.
  unfold month_start. rewrite !month_first. unfold march_year.
  assert (exists y m, k = 12 * y + m /\ 0 <= m < 12) as (y & m & -> & Hm)
    by (exists (k / 12), (k mod 12); euclid).
  assert ((12 * y + m) / 12 = y /\ (12 * y + m) mod 12 = m) as [-> ->] by euclid.
  pose proof (year_start_next (y - 1)) as Hy. replace (y - 1 + 1) with y in Hy by lia.
  destruct (Z.eq_dec m 11) as [->|Hne].
  - assert ((12 * y + 11 + 1) / 12 = y + 1 /\ (12 * y + 11 + 1) mod 12 = 0) as [-> ->] by euclid.
    eval_months. replace (y + 1 - 1) with y by lia. lia.
  - assert ((12 * y + m + 1) / 12 = y /\ (12 * y + m + 1) mod 12 = m + 1) as [-> ->] by euclid.
    assert (m = 0 \/ m = 1 \/ m = 2 \/ m = 3 \/ m = 4 \/ m = 5 \/ m = 6 \/ m = 7 \/ m = 8 \/ m = 9 \/ m = 10) as Hc by lia.
    destruct Hc as [->|[->|[->|[->|[->|[->|[->|[->|[->|[->| ->]]]]]]]]]]; eval_months; lia.
Qed.

Lemma month_start_succ y m : 1 <= m <= 12 ->
  month_start (month_index y m) = days_from_civil y m 1 /\
  month_start (month_index y m + 1) = (if m =? 12 then days_from_civil (y + 1) 1 1 else days_from_civil y (m + 1) 1).
Proof.
  intros Hm. unfold month_start, month_index. split.
  - assert ((12 * y + m - 1) / 12 = y /\ (12 * y + m - 1) mod 12 + 1 = m) as [-> ->] by euclid. done.
  - destruct (Z.eqb_spec m 12) as [->|Hne].
    + assert ((12 * y + 12 - 1 + 1) / 12 = y + 1 /\ (12 * y + 12 - 1 + 1) mod 12 + 1 = 1) as [-> ->] by euclid. done.
    + assert ((12 * y + m - 1 + 1) / 12 = y /\ (12 * y + m - 1 + 1) mod 12 + 1 = m + 1) as [-> ->] by euclid. done.
Qed.

(** The March-based year a day of an era lies in. *)
Lemma era_year_end doe : 0 <= doe < 146097 ->
  let yoe := (doe - doe / 1460 + doe / 36524 - doe / 146096) / 365 in
  doe < 365 * (yoe + 1) + (yoe + 1) / 4 - (yoe + 1) / 100 + (yoe + 1) / 400.
Proof. intros H. cbv zeta. euclid. Qed.

Lemma civil_month_end z : let '(y, m, d) := civil_from_days z in z < month_start (month_index y m + 1).
Proof.
  pose proof (civil_from_days_spec z) as Hspec. unfold civil_from_days in *. cbv zeta in *. set (n := z + 719468) in *.
  set (doe := n mod 146097) in *. set (e := n / 146097) in *.
  assert (0 <= doe < 146097) as Hdoe by (apply Z.mod_pos_bound; lia).
  assert (n = 146097 * e + doe) as Hn by (unfold e, doe; apply Z.div_mod; lia).
  pose proof (era_year_bound doe Hdoe) as [Hy Hd]. pose proof (era_year_end doe Hdoe) as Hend.
  unfold civil_of_era_day in *. cbv zeta in *.
  set (yoe := (doe - doe / 1460 + doe / 36524 - doe / 146096) / 365) in *.
  set (doy := doe - (365 * yoe + yoe / 4 - yoe / 100)) in *.
  set (mp := (5 * doy + 2) / 153) in *. cbn [fst snd] in *.
  assert (0 <= mp <= 11 /\ doy < (153 * (mp + 1) + 2) / 5) as [Hmp Hlt] by (unfold mp; split; euclid).
  assert (forall k, 0 <= k <= 400 -> year_start (k + 400 * e) = 146097 * e + 365 * k + k / 4 - k / 100 + k / 400 - 719468) as Hys.
  { intros k Hk. unfold year_start. euclid. }
  pose proof (Hys yoe ltac:(lia)) as H1. pose proof (Hys (yoe + 1) ltac:(lia)) as H2.
  rewrite (Z.div_small yoe 400) in H1 by lia.
  destruct Hspec as (Hm & _ & _). destruct (month_start_succ (yoe + (if (if mp <? 10 then mp + 3 else mp - 9) <=? 2 then 1 else 0) + 400 * e)
    (if mp <? 10 then mp + 3 else mp - 9) Hm) as [_ ->]. rewrite !month_first. unfold march_year.
  assert (mp = 0 \/ mp = 1 \/ mp = 2 \/ mp = 3 \/ mp = 4 \/ mp = 5 \/ mp = 6 \/ mp = 7 \/ mp = 8 \/ mp = 9 \/ mp = 10 \/ mp = 11) as Hc by lia.
  replace z with (n - 719468) by (unfold n; lia). rewrite Hn.
  assert (doe = 365 * yoe + yoe / 4 - yoe / 100 + doy) as Hsum by (unfold doy; lia).
  clearbody mp doy yoe e doe n. clear Hm Hn Hys.
  destruct Hc as [->|[->|[->|[->|[->|[->|[->|[->|[->|[->|[->| ->]]]]]]]]]]]; eval_months_in Hlt; eval_months;
    rewrite ?Z.add_0_r; try lia.
  all: match goal with |- context [year_start ?x] => replace x with (yoe + 400 * e) by lia || replace x with (yoe + 1 + 400 * e) by lia end; lia.
Qed.

(** The month a day lies in. *)
Definition month_of (z : Z) : Z := let c := civil_from_days z in month_index c.1.1 c.1.2.

Lemma month_of_bounds z :
  month_start (month_of z) <= z < month_start (month_of z + 1) /\
  (civil_from_days z).2 = z - month_start (month_of z) + 1 /\
  month_start (month_of z) = days_from_civil (civil_from_days z).1.1 (civil_from_days z).1.2 1.
Proof.
  pose proof (civil_from_days_spec z) as Hs. pose proof (civil_month_end z) as He. unfold month_of.
  destruct (civil_from_days z) as [[y m] d]. cbn [fst snd]. destruct Hs as (Hm & Hd & Hz).
  destruct (month_start_succ y m Hm) as [Hst _]. rewrite days_from_civil_linear in Hz. rewrite Hst. lia.
Qed.

(** A date read back as a day. *)
Lemma civil_sum z : month_start (month_index (civil_from_days z).1.1 (civil_from_days z).1.2) + (civil_from_days z).2 - 1 = z.
Proof. pose proof (month_of_bounds z) as (_ & Hd & _). change (month_index _ _) with (month_of z). lia. Qed.

Lemma month_start_mono k k' : k <= k' -> month_start k <= month_start k'.
Proof.
  intros Hle. replace k' with (k + Z.of_nat (Z.to_nat (k' - k))) by lia.
  induction (Z.to_nat (k' - k)) as [|n IH]; [rewrite Z.add_0_r; lia|].
  pose proof (month_start_next (k + Z.of_nat n)). replace (k + Z.of_nat (S n)) with (k + Z.of_nat n + 1) by lia. lia.
Qed.
Lemma month_start_lt k k' : k < k' -> month_start k < month_start k'.
Proof. intros Hlt. pose proof (month_start_mono (k + 1) k' ltac:(lia)). pose proof (month_start_next k). lia. Qed.

(** Months partition the days. *)
Lemma month_of_unique z k : month_start k <= z < month_start (k + 1) -> month_of z = k.
Proof.
  intros Hz. pose proof (month_of_bounds z) as [Hb _].
  destruct (Z.lt_trichotomy (month_of z) k) as [Hlt|[Heq|Hgt]]; [|done|].
  - pose proof (month_start_mono (month_of z + 1) k ltac:(lia)). lia.
  - pose proof (month_start_mono (k + 1) (month_of z) ltac:(lia)). lia.
Qed.
Lemma month_of_start k : month_of (month_start k) = k.
Proof. apply month_of_unique. pose proof (month_start_next k). lia. Qed.

Lemma month_index_inv y m k : 1 <= m <= 12 -> month_index y m = k -> y = k / 12 /\ m = k mod 12 + 1.
Proof. unfold month_index. intros Hm <-. split; euclid. Qed.
Lemma civil_first_of z k : month_start k = z -> month_of z = k -> civil_from_days z = (k / 12, k mod 12 + 1, 1).
Proof.
  intros Hz Hk. pose proof (month_of_bounds z) as (_ & Hd & _). rewrite Hk, Hz in Hd. clear Hz.
  pose proof (civil_from_days_spec z) as Hs. unfold month_of in Hk. destruct (civil_from_days z) as [[y m] d]. cbn [fst snd] in *.
  destruct Hs as (Hm & _ & _). destruct (month_index_inv y m k Hm Hk) as [-> ->]. f_equal. lia.
Qed.
Lemma civil_month_start k : civil_from_days (month_start k) = (k / 12, k mod 12 + 1, 1).
Proof. exact (civil_first_of (month_start k) k eq_refl (month_of_start k)). Qed.

(** ** Zones with one offset *)
Section steady.
Context (loc : Location) (off : Z) (Hoff : forall s, lookup_offset loc s = off).

(** The instant of a local day, second of the day and nanosecond. *)
Definition at_local (day sec ns : Z) : Time := (day * 86400 + sec - off) * Second + ns.

Lemma from_local_steady unix : from_local loc unix = unix - off.
Proof. unfold from_local. rewrite !Hoff. destruct (Z.eqb_spec off 0); [lia|]. by destruct (_ || _). Qed.

Lemma Date_steady y m d sec ns : Date y m d sec ns loc = at_local (month_start (month_index y m) + d - 1) sec ns.
Proof.
  unfold Date, at_local, month_start, month_index. rewrite from_local_steady.
  assert ((12 * y + m - 1) / 12 = y + (m - 1) / 12 /\ (12 * y + m - 1) mod 12 = (m - 1) mod 12) as [-> ->] by euclid.
  f_equal. lia.
Qed.

Lemma at_local_view day sec ns : 0 <= sec < 86400 -> 0 <= ns < Second ->
  day_of (local_sec loc (at_local day sec ns)) = day /\ local_clock loc (at_local day sec ns) = sec /\
  at_local day sec ns mod Second = ns.
Proof.
  intros Hs Hns. unfold local_clock, local_sec, at_local, unix_sec, day_of, sec_of_day. rewrite Hoff.
  rewrite Z.div_add_l, (Z.div_small ns), Z.add_0_r by (unfold Second in *; lia).
  replace (day * 86400 + sec - off + off) with (day * 86400 + sec) by lia.
  rewrite Z.div_add_l, (Z.div_small sec), Z.add_0_r by lia. rewrite Z.add_comm, Z.mod_add, Z.mod_small by lia.
  rewrite Z.add_comm, Z.mod_add, Z.mod_small by (unfold Second in *; lia). done.
Qed.

(** Every instant has a local view. *)
Lemma at_local_of t : exists day sec ns, 0 <= sec < 86400 /\ 0 <= ns < Second /\ t = at_local day sec ns /\
  day = day_of (local_sec loc t).
Proof.
  exists ((t / Second + off) / 86400), ((t / Second + off) mod 86400), (t mod Second).
  unfold at_local, local_sec, unix_sec, day_of. rewrite Hoff. split_and!; try done.
  - apply Z.mod_pos_bound. lia.
  - apply Z.mod_pos_bound. lia.
  - apply Z.mod_pos_bound. unfold Second. lia.
  - apply Z.mod_pos_bound. unfold Second. lia.
  - pose proof (Z.div_mod t Second ltac:(unfold Second; lia)). pose proof (Z.div_mod (t / Second + off) 86400 ltac:(lia)). lia.
Qed.

Lemma at_local_le d s n d' s' n' : 0 <= s < 86400 -> 0 <= n < Second -> 0 <= s' < 86400 -> 0 <= n' < Second ->
  at_local d s n <= at_local d' s' n' <-> d < d' \/ (d = d' /\ (s < s' \/ (s = s' /\ n <= n'))).
Proof. unfold at_local, Second. intros. split; intros; lia. Qed.

Lemma AddDate_days day sec ns n : 0 <= sec < 86400 -> 0 <= ns < Second ->
  AddDate loc (at_local day sec ns) 0 0 n = at_local (day + n) sec ns.
Proof.
  intros Hs Hns. destruct (at_local_view day sec ns Hs Hns) as (Hd & Hc & Hm). unfold AddDate, local_date.
  rewrite Hd, Hc, Hm, Date_steady, !Z.add_0_r. pose proof (civil_sum day) as Hsum. f_equal. lia.
Qed.

Lemma AddDate_months k sec ns n : 0 <= sec < 86400 -> 0 <= ns < Second ->
  AddDate loc (at_local (month_start k) sec ns) 0 n 0 = at_local (month_start (k + n)) sec ns.
Proof.
  intros Hs Hns. destruct (at_local_view (month_start k) sec ns Hs Hns) as (Hd & Hc & Hm). unfold AddDate, local_date.
  rewrite Hd, Hc, Hm, Date_steady, civil_month_start. cbn [fst snd]. unfold month_index.
  replace (12 * (k / 12 + 0) + (k mod 12 + 1 + n) - 1) with (k + n) by euclid. f_equal. lia.
Qed.
End steady.
