(* ===== verification/Periods.v ===== *)
(** * Periods and delivery times

    internal/insight/periods.go and internal/summaryschedule/schedule.go:
    calendar periods in the user's time zone and the instants scheduled
    summaries are due.  Shown, for zones with one offset (Vietnam's is one): each
    period contains exactly the instants of its local day, week or month, and the
    two delivery functions return the next and the latest slot.  For zones that
    change offset at midnight the periods can be an hour off, which is computed
    at the end. *)
From S2P Require Import Prelude GoStrings Domain GoTime Calendar.

(** ** periods.go *)
Record Period := mkPeriod { Start : Time; End : Time }.

Definition localMidnight (t : Time) (loc : Location) : Time :=
  let c := local_date loc t in Date c.1.1 c.1.2 c.2 0 0 loc.
Definition weekStartLocal (t : Time) (loc : Location) : Time :=
  let start := localMidnight t loc in
  let back := (local_weekday loc start + 6) mod 7 in
  AddDate loc start 0 0 (- back).
Definition monthStartLocal (t : Time) (loc : Location) : Time :=
  let c := local_date loc t in Date c.1.1 c.1.2 1 0 0 loc.

Definition Today (now : Time) (loc : Location) : Period :=
  let start := localMidnight now loc in mkPeriod start (AddDate loc start 0 0 1).
Definition Yesterday (now : Time) (loc : Location) : Period :=
  let end_ := localMidnight now loc in mkPeriod (AddDate loc end_ 0 0 (-1)) end_.
Definition clipCurrentEnd (fullEnd now : Time) (loc : Location) : Time :=
  let tomorrow := AddDate loc (localMidnight now loc) 0 0 1 in
  if tomorrow <? fullEnd then tomorrow else fullEnd.
Definition ThisWeek (now : Time) (loc : Location) : Period :=
  let start := weekStartLocal now loc in mkPeriod start (clipCurrentEnd (AddDate loc start 0 0 7) now loc).
Definition LastWeek (now : Time) (loc : Location) : Period :=
  let start := AddDate loc (weekStartLocal now loc) 0 0 (-7) in mkPeriod start (AddDate loc start 0 0 7).
Definition ThisMonth (now : Time) (loc : Location) : Period :=
  let start := monthStartLocal now loc in mkPeriod start (clipCurrentEnd (AddDate loc start 0 1 0) now loc).
Definition LastMonth (now : Time) (loc : Location) : Period :=
  let start := AddDate loc (monthStartLocal now loc) 0 (-1) 0 in mkPeriod start (AddDate loc start 0 1 0).

(** ** schedule.go *)
Definition minute_error : Err := Sentinel "delivery minute must be between 0 and 1439".
Definition frequency_error (s : string) : Err := Sentinel ("unsupported summary frequency " ++ quoted s).

Definition NextDelivery (now : Time) (loc : option Location) (frequency : SummaryFrequency) (deliveryMinute : Z) : Res Err Time :=
  let loc := default UTC loc in
  if (deliveryMinute <? 0) || (24 * 60 <=? deliveryMinute) then Fail minute_error
  else
    let sec := deliveryMinute / 60 * 3600 + deliveryMinute mod 60 * 60 in
    let c := local_date loc now in
    let candidate := Date c.1.1 c.1.2 c.2 sec 0 loc in
    match frequency with
    | SummaryDaily => Ok (if now <? candidate then candidate else AddDate loc candidate 0 0 1)
    | SummaryWeekly =>
        let daysUntilMonday := (1 - local_weekday loc candidate + 7) mod 7 in
        let candidate := AddDate loc candidate 0 0 daysUntilMonday in
        Ok (if now <? candidate then candidate else AddDate loc candidate 0 0 7)
    | SummaryMonthly =>
        let candidate := Date c.1.1 c.1.2 1 sec 0 loc in
        Ok (if now <? candidate then candidate else AddDate loc candidate 0 1 0)
    | SummaryOther s => Fail (frequency_error s)
    end.

Definition LatestDelivery (now : Time) (loc : option Location) (frequency : SummaryFrequency) (deliveryMinute : Z) : Res Err Time :=
  let loc := default UTC loc in
  if (deliveryMinute <? 0) || (24 * 60 <=? deliveryMinute) then Fail minute_error
  else
    let sec := deliveryMinute / 60 * 3600 + deliveryMinute mod 60 * 60 in
    let c := local_date loc now in
    let candidate := Date c.1.1 c.1.2 c.2 sec 0 loc in
    match frequency with
    | SummaryDaily => Ok (if now <? candidate then AddDate loc candidate 0 0 (-1) else candidate)
    | SummaryWeekly =>
        let daysSinceMonday := (local_weekday loc candidate + 6) mod 7 in
        let candidate := AddDate loc candidate 0 0 (- daysSinceMonday) in
        Ok (if now <? candidate then AddDate loc candidate 0 0 (-7) else candidate)
    | SummaryMonthly =>
        let candidate := Date c.1.1 c.1.2 1 sec 0 loc in
        Ok (if now <? candidate then AddDate loc candidate 0 (-1) 0 else candidate)
    | SummaryOther s => Fail (frequency_error s)
    end.

(** ** Periods contain exactly their days *)
Section steady_periods.
Context (loc : Location) (off : Z) (Hoff : forall s, lookup_offset loc s = off).
Abbreviation at_loc := (at_local off).

(** The local day, Monday-based week and month of an instant. *)
Definition local_day (t : Time) : Z := day_of (local_sec loc t).
Definition week_of (day : Z) : Z := (day + 3) / 7.
Definition inside (p : Period) (t : Time) : Prop := Start p <= t < End p.

Lemma localMidnight_steady t : localMidnight t loc = at_loc (local_day t) 0 0.
Proof.
  unfold localMidnight, local_date. rewrite (Date_steady loc off Hoff). fold (local_day t). by rewrite civil_sum.
Qed.

Lemma day_bounds d t : at_loc d 0 0 <= t <-> d <= local_day t.
Proof.
  destruct (at_local_of loc off Hoff t) as (day & sec & ns & Hs & Hn & Ht & Hday). unfold local_day. rewrite <- Hday, Ht.
  rewrite at_local_le by (unfold Second in *; lia). unfold Second in *. lia.
Qed.

Lemma week_back d : (weekday d + 6) mod 7 = d - (week_of d * 7 - 3).
Proof. unfold weekday, week_of. euclid. Qed.

Lemma weekStart_steady t : weekStartLocal t loc = at_loc (week_of (local_day t) * 7 - 3) 0 0.
Proof.
  unfold weekStartLocal. rewrite localMidnight_steady. unfold local_weekday.
  destruct (at_local_view loc off Hoff (local_day t) 0 0 ltac:(lia) ltac:(unfold Second; lia)) as (-> & _ & _).
  rewrite (AddDate_days loc off Hoff) by (unfold Second; lia). rewrite week_back. f_equal. lia.
Qed.

Lemma monthStart_steady t : monthStartLocal t loc = at_loc (month_start (month_of (local_day t))) 0 0.
Proof.
  unfold monthStartLocal, local_date. rewrite (Date_steady loc off Hoff). fold (local_day t). unfold month_of. f_equal. lia.
Qed.

Lemma inside_days a b t : inside (mkPeriod (at_loc a 0 0) (at_loc b 0 0)) t <-> a <= local_day t < b.
Proof. unfold inside. simpl. rewrite day_bounds. pose proof (day_bounds b t). lia. Qed.

Lemma clip_steady b now : clipCurrentEnd (at_loc b 0 0) now loc = at_loc (Z.min b (local_day now + 1)) 0 0.
Proof.
  unfold clipCurrentEnd. rewrite localMidnight_steady, (AddDate_days loc off Hoff) by (unfold Second; lia).
  destruct (Z.ltb_spec (at_loc (local_day now + 1) 0 0) (at_loc b 0 0)) as [H|H]; unfold at_local, Second in *; f_equal; lia.
Qed.

Lemma month_days z k : month_start k <= z < month_start (k + 1) <-> month_of z = k.
Proof. split; [apply month_of_unique|]. intros <-. apply month_of_bounds. Qed.

(** C8: Periods are exact.  In a zone with one offset, an instant lies in Today
    or Yesterday iff its local day is today or yesterday; in LastWeek or LastMonth
    iff its local week or month is the previous one; in ThisWeek or ThisMonth iff
    its local week or month is the current one and its day is not after today.
    Weeks start on Monday. *)
Theorem periods_exact (now t : Time) :
  (inside (Today now loc) t <-> local_day t = local_day now) /\
  (inside (Yesterday now loc) t <-> local_day t = local_day now - 1) /\
  (inside (ThisWeek now loc) t <-> week_of (local_day t) = week_of (local_day now) /\ local_day t <= local_day now) /\
  (inside (LastWeek now loc) t <-> week_of (local_day t) = week_of (local_day now) - 1) /\
  (inside (ThisMonth now loc) t <-> month_of (local_day t) = month_of (local_day now) /\ local_day t <= local_day now) /\
  (inside (LastMonth now loc) t <-> month_of (local_day t) = month_of (local_day now) - 1).
Proof.
  unfold Today, Yesterday, ThisWeek, LastWeek, ThisMonth, LastMonth. cbv zeta.
  rewrite localMidnight_steady, weekStart_steady, monthStart_steady.
  rewrite !(AddDate_days loc off Hoff), !(AddDate_months loc off Hoff) by (unfold Second; lia).
  rewrite !clip_steady, !inside_days.
  pose proof (month_days (local_day t) (month_of (local_day now))) as Hm.
  pose proof (month_days (local_day t) (month_of (local_day now) - 1)) as Hl.
  replace (month_of (local_day now) - 1 + 1) with (month_of (local_day now)) in Hl by lia.
  replace (month_of (local_day now) + -1) with (month_of (local_day now) - 1) by lia.
  replace (month_of (local_day now) - 1 + 1) with (month_of (local_day now)) by lia.
  split_and!; try (unfold week_of; euclid); try lia.
Qed.

(** ** Delivery slots *)

(** A slot: the minute of the day, on any day, on Mondays, or on the first. *)
Definition slot (f : SummaryFrequency) (minute : Z) (t : Time) : Prop :=
  t mod Second = 0 /\ local_clock loc t = minute * 60 /\
  match f with
  | SummaryDaily => True
  | SummaryWeekly => local_weekday loc t = 1
  | SummaryMonthly => (local_date loc t).2 = 1
  | SummaryOther _ => False
  end.
Definition slot_day (f : SummaryFrequency) (day : Z) : Prop :=
  match f with
  | SummaryDaily => True
  | SummaryWeekly => weekday day = 1
  | SummaryMonthly => day = month_start (month_of day)
  | SummaryOther _ => False
  end.

Lemma first_of_month day : (civil_from_days day).2 = 1 <-> day = month_start (month_of day).
Proof. pose proof (month_of_bounds day) as (_ & Hd & _). lia. Qed.

Lemma slot_at f minute t : 0 <= minute < 1440 ->
  slot f minute t <-> exists day, t = at_loc day (minute * 60) 0 /\ slot_day f day.
Proof.
  intros Hm. unfold slot, local_weekday, local_date. split.
  - intros (Hns & Hc & Hf). destruct (at_local_of loc off Hoff t) as (day & sec & ns & Hs & Hn & -> & _).
    destruct (at_local_view loc off Hoff day sec ns Hs Hn) as (Hd & Hc' & Hn'). rewrite Hn' in Hns. rewrite Hc' in Hc. subst.
    exists day. split; [done|]. rewrite Hd in Hf. destruct f; try done. by apply first_of_month.
  - intros (day & -> & Hf).
    destruct (at_local_view loc off Hoff day (minute * 60) 0 ltac:(lia) ltac:(unfold Second; lia)) as (-> & -> & ->).
    split_and!; try done. destruct f; try done. by apply first_of_month.
Qed.

(** Between two slots on consecutive slot days there is none. *)
Lemma slots_adjacent f minute now d s n A B : 0 <= minute < 1440 -> 0 <= s < 86400 -> 0 <= n < Second ->
  now = at_loc d s n -> slot_day f A -> slot_day f B -> (forall x, slot_day f x -> ~ (A < x < B)) ->
  A < d \/ (A = d /\ minute * 60 <= s) -> d < B \/ (d = B /\ s < minute * 60) ->
  let a := at_loc A (minute * 60) 0 in let b := at_loc B (minute * 60) 0 in
  slot f minute a /\ slot f minute b /\ a <= now < b /\ forall t, slot f minute t -> ~ (a < t < b).
Proof.
  intros Hm Hs Hn -> HA HB Hno Ha Hb a b. split_and!; try (apply slot_at; [done|by eauto]).
  - unfold a, at_local, Second in *. lia.
  - unfold b, at_local, Second in *. lia.
  - intros t Ht Hab. apply slot_at in Ht as (x & -> & Hx); [|done]. apply (Hno x Hx).
    unfold a, b, at_local, Second in *. lia.
Qed.

Lemma due_now d s n sec : 0 <= s < 86400 -> 0 <= n < Second -> forall d', 0 <= sec < 86400 ->
  (at_loc d s n <? at_loc d' sec 0) = (d <? d') || ((d =? d') && (s <? sec)).
Proof. intros. unfold at_local, Second in *. destruct (Z.ltb_spec d d'), (Z.eqb_spec d d'), (Z.ltb_spec s sec); simpl; lia. Qed.

Lemma Mondays d : let du := (1 - weekday d + 7) mod 7 in let ds := (weekday d + 6) mod 7 in
  weekday (d + du) = 1 /\ weekday (d - ds) = 1 /\ 0 <= du < 7 /\ 0 <= ds < 7 /\ (du = 0 <-> ds = 0) /\ (ds > 0 -> du + ds = 7).
Proof. cbv zeta. unfold weekday. euclid. Qed.
Lemma Monday_next x A : weekday A = 1 -> weekday x = 1 -> ~ (A < x < A + 7).
Proof. unfold weekday. euclid. Qed.
Lemma Monday_shift A : weekday A = 1 -> weekday (A + 7) = 1 /\ weekday (A - 7) = 1.
Proof. unfold weekday. intros. split; euclid. Qed.
Lemma firsts_next k x : x = month_start (month_of x) -> ~ (month_start k < x < month_start (k + 1)).
Proof.
  intros Hx Hb. assert (month_of x = k) as Hk by (apply month_of_unique; lia). rewrite Hk in Hx. lia.
Qed.

Lemma delivery_slots_at (now : Time) (f : SummaryFrequency) (minute : Z) :
  if (minute <? 0) || (24 * 60 <=? minute) || match f with SummaryOther _ => true | _ => false end
  then is_ok (LatestDelivery now (Some loc) f minute) = false /\ is_ok (NextDelivery now (Some loc) f minute) = false
  else exists a b, LatestDelivery now (Some loc) f minute = Ok a /\ NextDelivery now (Some loc) f minute = Ok b /\
    slot f minute a /\ slot f minute b /\ a <= now < b /\ forall t, slot f minute t -> ~ (a < t < b).
Proof.
  unfold LatestDelivery, NextDelivery. cbv zeta. change (default UTC (Some loc)) with loc.
  destruct ((minute <? 0) || (24 * 60 <=? minute)) eqn:Hbad; [done|]. cbn [orb].
  apply orb_false_iff in Hbad as [Hb1%Z.ltb_ge Hb2%Z.leb_gt].
  replace (minute / 60 * 3600 + minute mod 60 * 60) with (minute * 60) by euclid.
  destruct (at_local_of loc off Hoff now) as (d & s & n & Hs & Hn & Hnow & Hd).
  unfold local_date. rewrite !(Date_steady loc off Hoff), <- Hd, civil_sum.
  set (k := month_of d). assert (month_start (month_index (civil_from_days d).1.1 (civil_from_days d).1.2) + 1 - 1 = month_start k)
    as -> by (unfold k, month_of; lia).
  destruct f as [| | |other]; [| | |done].
  - rewrite !(AddDate_days loc off Hoff) by (unfold Second; lia). rewrite Hnow, due_now by lia.
    rewrite Z.ltb_irrefl, Z.eqb_refl. cbn [orb andb].
    destruct (Z.ltb_spec s (minute * 60)); eexists _, _; (split; [done|split; [done|]]);
      apply (slots_adjacent _ minute _ d s n); try done; try lia.
  - unfold local_weekday.
    destruct (at_local_view loc off Hoff d (minute * 60) 0 ltac:(lia) ltac:(unfold Second; lia)) as (-> & _ & _).
    rewrite !(AddDate_days loc off Hoff) by (unfold Second; lia). rewrite Hnow, !due_now by lia.
    pose proof (Mondays d) as (Hu & Hb & Hdu & Hds & Hz & Hsum). cbv zeta in *.
    replace (d + - ((weekday d + 6) mod 7)) with (d - (weekday d + 6) mod 7) by lia.
    set (du := (1 - weekday d + 7) mod 7) in *. set (ds := (weekday d + 6) mod 7) in *. clearbody du ds.
    destruct (Z.eq_dec ds 0) as [Hz0|Hnz].
    + assert (du = 0) as -> by lia. subst ds. rewrite !Z.add_0_r, !Z.sub_0_r in *. rewrite Z.ltb_irrefl, Z.eqb_refl. cbn [orb andb].
      pose proof (Monday_shift d Hu) as [Hn7 Hp7].
      destruct (Z.ltb_spec s (minute * 60)) as [Hlt|Hge]; eexists _, _; (split; [done|split; [done|]]).
      * apply (slots_adjacent _ minute _ d s n); try done; try lia. intros x Hx. cbn in Hx.
        replace d with (d + -7 + 7) at 2 by lia. by apply Monday_next.
      * apply (slots_adjacent _ minute _ d s n); try done; try lia. intros x Hx. by apply Monday_next.
    + rewrite (proj2 (Z.ltb_lt d (d + du))) by lia. rewrite (proj2 (Z.ltb_ge d (d - ds))), (proj2 (Z.eqb_neq d (d - ds))) by lia.
      cbn [orb andb]. eexists _, _; (split; [done|split; [done|]]).
      apply (slots_adjacent _ minute _ d s n); try done; try lia. intros x Hx. replace (d + du) with (d - ds + 7) by lia.
      by apply Monday_next.
  - rewrite !(AddDate_months loc off Hoff) by (unfold Second; lia). rewrite Hnow, due_now by lia.
    pose proof (month_of_bounds d) as [Hk _]. fold k in Hk. pose proof (month_start_next (k - 1)) as Hprev.
    replace (k - 1 + 1) with k in Hprev by lia.
    assert (forall j, slot_day SummaryMonthly (month_start j)) as Hfirst by (intros j; cbn; by rewrite month_of_start).
    rewrite (proj2 (Z.ltb_ge d (month_start k))) by lia. cbn [orb].
    destruct ((d =? month_start k) && (s <? minute * 60)) eqn:Hlt; eexists _, _; (split; [done|split; [done|]]).
    + apply andb_true_iff in Hlt as [Heq%Z.eqb_eq Hlt%Z.ltb_lt]. replace (k + -1) with (k - 1) by lia.
      apply (slots_adjacent _ minute _ d s n); try done; try lia. intros x Hx. replace k with (k - 1 + 1) at 2 by lia.
      by apply firsts_next.
    + apply andb_false_iff in Hlt. rewrite Z.eqb_neq, Z.ltb_ge in Hlt.
      apply (slots_adjacent _ minute _ d s n); try done; try lia. intros x Hx. by apply firsts_next.
Qed.

(** Deliveries follow the slots.  In a zone with one offset, for a valid
    minute and frequency, LatestDelivery and NextDelivery return two slots of the
    schedule (that minute of the local day, daily, on Mondays or on the first of
    the month), the first not after now and the second strictly after it, with no
    slot between them: the latest and the next delivery.  Any other minute or
    frequency is refused. *)
Theorem delivery_slots (now : Time) (f : SummaryFrequency) (minute : Z) :
  if (minute <? 0) || (24 * 60 <=? minute) || match f with SummaryOther _ => true | _ => false end
  then is_ok (LatestDelivery now (Some loc) f minute) = false /\ is_ok (NextDelivery now (Some loc) f minute) = false
  else exists a b, LatestDelivery now (Some loc) f minute = Ok a /\ NextDelivery now (Some loc) f minute = Ok b /\
    slot f minute a /\ slot f minute b /\ a <= now < b /\ forall t, slot f minute t -> ~ (a < t < b).
Proof. apply delivery_slots_at. Qed.
End steady_periods.

(** ** A change of offset at midnight *)

(** A zone that moves from [o1] to [o2] at the second [T]. *)
Definition shift_zone (T o1 o2 : Z) (H1 : -86400 < o1 < 86400) (H2 : -86400 < o2 < 86400)
    (HT : MinInt64 < T < MaxInt64) : Location.
Proof.
  refine (mkLocation (fun s => if s <? T then o1 else o2)
    (fun s => if s <? MinInt64 then s else if s <? T then MinInt64 else if s <? MaxInt64 then T else s)
    (fun s => if s <? MinInt64 then s + 1 else if s <? T then T else if s <? MaxInt64 then MaxInt64 else s + 1) _ _ _).
  - intros s. destruct (Z.ltb_spec s MinInt64), (Z.ltb_spec s T), (Z.ltb_spec s MaxInt64); lia.
  - intros s s'. destruct (Z.ltb_spec s MinInt64), (Z.ltb_spec s T), (Z.ltb_spec s MaxInt64); intros Hs;
      destruct (Z.ltb_spec s' MinInt64), (Z.ltb_spec s' T), (Z.ltb_spec s' MaxInt64); lia.
  - intros s. destruct (s <? T); done.
Defined.

Module PeriodsDemo.
Definition vietnam : Location := fixed_zone 25200 ltac:(lia).
(** 2026-07-19 23:30 in Vietnam, and 00:10 the next day. *)
Definition evening : Time := 1784478600 * Second.
Definition later : Time := 1784481000 * Second.

Lemma periods_exact_witness :
  inside (Today evening vietnam) evening /\ ~ inside (Today evening vietnam) later /\ inside (Yesterday later vietnam) evening.
Proof.
  destruct (periods_exact vietnam 25200 (fun _ => eq_refl) evening evening) as [H1 _].
  destruct (periods_exact vietnam 25200 (fun _ => eq_refl) evening later) as [H2 _].
  destruct (periods_exact vietnam 25200 (fun _ => eq_refl) later evening) as (_ & H3 & _).
  split; [apply H1; reflexivity|split; [|apply H3; vm_compute; reflexivity]].
  intros Hin. apply H2 in Hin. vm_compute in Hin. discriminate Hin.
Defined.

(** Weekly on Monday 08:00: the deliveries around that evening, a Sunday. *)
Lemma delivery_slots_witness : exists a b,
  LatestDelivery evening (Some vietnam) SummaryWeekly 480 = Ok a /\ NextDelivery evening (Some vietnam) SummaryWeekly 480 = Ok b /\
  a <= evening < b /\ b - a = 7 * 86400 * Second.
Proof.
  pose proof (delivery_slots vietnam 25200 (fun _ => eq_refl) evening SummaryWeekly 480) as H.
  change (exists a b, LatestDelivery evening (Some vietnam) SummaryWeekly 480 = Ok a /\
    NextDelivery evening (Some vietnam) SummaryWeekly 480 = Ok b /\ slot vietnam SummaryWeekly 480 a /\
    slot vietnam SummaryWeekly 480 b /\ a <= evening < b /\
    forall t, slot vietnam SummaryWeekly 480 t -> ~ (a < t < b)) in H.
  destruct H as (a & b & Ha & Hb & _ & _ & Hab & _). exists a, b. split; [exact Ha|split; [exact Hb|split; [exact Hab|]]].
  vm_compute in Ha, Hb. injection Ha as <-. injection Hb as <-. reflexivity.
Defined.

(** Clocks in Santiago went from -4 to -3 hours at midnight on 2025-09-07. *)
Definition santiago : Location := shift_zone 1757217600 (-14400) (-10800) ltac:(lia) ltac:(lia) ltac:(vm_compute; done).
(** Noon that day: the period called today starts at 23:00 the day before and
    ends at 23:00, an hour before the day does. *)
Theorem midnight_shift_misplaces_today :
  Today (1757257200 * Second) santiago = mkPeriod (1757214000 * Second) (1757296800 * Second) /\
  local_date santiago (1757214000 * Second) = (2025, 9, 6) /\
  local_date santiago (1757297400 * Second) = (2025, 9, 7) /\
  ~ inside (Today (1757257200 * Second) santiago) (1757297400 * Second).
Proof.
  assert (Today (1757257200 * Second) santiago = mkPeriod (1757214000 * Second) (1757296800 * Second)) as -> by (vm_compute; reflexivity).
  split_and!; [done|vm_compute; reflexivity..|]. unfold inside, Second. simpl. lia.
Qed.
End PeriodsDemo.
