(* ===== verification/Json.v ===== *)
(** * JSON and CSV output

    What the program uses of encoding/json and encoding/csv: values are written
    compact ([Marshal]) or indented by two spaces ([Encoder.SetIndent]), with
    struct fields in declaration order and map keys sorted; CSV fields are quoted
    where the writer quotes them.  Shown: reading a written CSV file back gives the
    records that were written. *)
From S2P Require Import Prelude GoStrings Domain GoTime.

(** ** Strings *)
Definition ch (b : Z) : string := String (of_byte b) "".
Definition backslash : string := ch 92.
Definition hex_digit (d : Z) : Ascii.ascii := of_byte (if d <? 10 then 48 + d else 87 + d).
Definition u_escape (r : Z) : string :=
  backslash ++ "u" ++ String (hex_digit (r / 4096 mod 16)) (String (hex_digit (r / 256 mod 16))
    (String (hex_digit (r / 16 mod 16)) (String (hex_digit (r mod 16)) ""))).

(** [appendString] with HTML escaping, on one ASCII byte. *)
Definition json_ascii (b : Z) : string :=
  if (b =? 92) || (b =? 34) then backslash ++ ch b
  else if b =? 8 then backslash ++ "b"
  else if b =? 12 then backslash ++ "f"
  else if b =? 10 then backslash ++ "n"
  else if b =? 13 then backslash ++ "r"
  else if b =? 9 then backslash ++ "t"
  else if (b <? 32) || (b =? 60) || (b =? 62) || (b =? 38) then u_escape b
  else ch b.

(** An invalid byte becomes the escaped replacement character; U+2028 and U+2029
    are escaped; other runes are copied. *)
Fixpoint json_chars (skip : nat) (s : string) : string :=
  match s with
  | "" => ""
  | String c s' =>
      match skip with
      | S k => json_chars k s'
      | O =>
          if byte_of c <? 128 then json_ascii (byte_of c) ++ json_chars O s'
          else
            let r := default RuneError (head (runes (take 4 s))) in
            if (r =? RuneError) && negb (HasPrefix s (encode_rune RuneError))
            then u_escape RuneError ++ json_chars O s'
            else (if (r =? 8232) || (r =? 8233) then u_escape r else encode_rune r) ++
                 json_chars (String.length (encode_rune r) - 1) s'
      end
  end.
Definition json_string (s : string) : string := ch 34 ++ json_chars O s ++ ch 34.

(** ** Times ([Time.MarshalJSON]: RFC3339Nano, years 0 to 9999 only) *)
Fixpoint drop_zeros (fuel : nat) (s : string) : string :=
  match fuel with
  | O => s
  | S k => if HasSuffix s "0" then drop_zeros k (TrimSuffix s "0") else s
  end.
Definition fraction (ns : Z) : string :=
  if ns =? 0 then "" else "." ++ drop_zeros 9 (zero_pad 9 (Sprintd ns)).
Definition two (n : Z) : string := zero_pad 2 (Sprintd n).
Definition zone_suffix (off : Z) : string :=
  if off =? 0 then "Z"
  else (if off <? 0 then "-" else "+") ++ two (Z.abs off / 3600) ++ ":" ++ two (Z.abs off / 60 mod 60).
Definition clock_text (loc : Location) (t : Time) : string :=
  let c := local_date loc t in let s := local_clock loc t in
  zero_pad 4 (Sprintd c.1.1) ++ "-" ++ two c.1.2 ++ "-" ++ two c.2 ++ "T" ++
  two (s / 3600) ++ ":" ++ two (s / 60 mod 60) ++ ":" ++ two (s mod 60).
(** [Format(time.RFC3339)] and [Format(time.RFC3339Nano)] *)
Definition RFC3339 (loc : Location) (t : Time) : string :=
  clock_text loc t ++ zone_suffix (lookup_offset loc (unix_sec t)).
Definition RFC3339Nano (loc : Location) (t : Time) : string :=
  clock_text loc t ++ fraction (t mod Second) ++ zone_suffix (lookup_offset loc (unix_sec t)).
Definition year_error : Err := Sentinel "Time.MarshalJSON: year outside of range [0,9999]".

(** ** Values *)
Inductive json :=
| JNum (n : Z)
| JBool (b : bool)
| JStr (s : string)
| JTime (loc : Location) (t : Time)
| JArr (l : list json)
| JObj (fields : list (string * json)).

(** A time outside the printable years fails the whole encoding. *)
Fixpoint json_encodable (j : json) : bool :=
  match j with
  | JTime loc t => let y := (local_date loc t).1.1 in (0 <=? y) && (y <=? 9999)
  | JArr l => forallb json_encodable l
  | JObj fs => forallb (fun f => json_encodable f.2) fs
  | _ => true
  end.

(** [indent] is [None] for the compact form, or the depth of the enclosing value. *)
Definition newline : string := ch 10.
Fixpoint spaces (n : nat) : string := match n with O => "" | S k => "  " ++ spaces k end.
Definition break (indent : option nat) : string :=
  match indent with None => "" | Some d => newline ++ spaces d end.
Definition bracketed (indent : option nat) (open close : string) (items : list string) : string :=
  match items with
  | [] => open ++ close
  | _ => open ++ break (S <$> indent) ++ String.concat ("," ++ break (S <$> indent)) items ++ break indent ++ close
  end.
Fixpoint json_text_of (indent : option nat) (j : json) : string :=
  match j with
  | JNum n => Sprintd n
  | JBool b => if b then "true" else "false"
  | JStr s => json_string s
  | JTime loc t => ch 34 ++ RFC3339Nano loc t ++ ch 34
  | JArr l => bracketed indent "[" "]" (json_text_of (S <$> indent) <$> l)
  | JObj fs => bracketed indent "{" "}"
      ((fun f => json_string f.1 ++ ":" ++ (match indent with Some _ => " " | None => "" end) ++ json_text_of (S <$> indent) f.2) <$> fs)
  end.

(** [json.Marshal] and [Encoder.Encode] with two spaces of indentation. *)
Definition Marshal (j : json) : Res Err string :=
  if json_encodable j then Ok (json_text_of None j) else Fail year_error.
Definition EncodeIndent (j : json) : Res Err string :=
  if json_encodable j then Ok (json_text_of (Some O) j ++ newline) else Fail year_error.

(** A map's fields: keys in byte order. *)
Definition json_map {A} (f : A -> json) (m : gmap string A) : json :=
  JObj ((fun kv => (kv.1, f kv.2)) <$> isort (fun a b => String.leb a.1 b.1) (map_to_list m)).

(** ** CSV ([csv.Writer] with its default comma and line ending) *)
Definition csv_special (c : Ascii.ascii) : bool :=
  (byte_of c =? 44) || (byte_of c =? 34) || (byte_of c =? 13) || (byte_of c =? 10).
Definition fieldNeedsQuotes (field : string) : bool :=
  if String.eqb field "" then false
  else if String.eqb field (backslash ++ ".") then true
  else negb (forall_bytes (fun c => negb (csv_special c)) field) ||
       match prefix_in space_encodings field with Some _ => true | None => false end.
Fixpoint csv_escape (s : string) : string :=
  match s with
  | "" => ""
  | String c s' => (if byte_of c =? 34 then ch 34 ++ ch 34 else String c "") ++ csv_escape s'
  end.
Definition csv_field (field : string) : string :=
  if fieldNeedsQuotes field then ch 34 ++ csv_escape field ++ ch 34 else field.
Definition csv_record (rec : list string) : string := String.concat "," (csv_field <$> rec) ++ newline.
Definition csv_file (recs : list (list string)) : string := String.concat "" (csv_record <$> recs).

(** A reader of the format: a byte machine with the current field and record.  A
    quoted field ends at a quote that is not doubled. *)
Inductive csv_mode := FieldStart | InPlain | InQuotes | AfterQuote.
Fixpoint csv_read (m : csv_mode) (field : string) (rec : list string) (s : string) : list (list string) :=
  match s with
  | "" => match m, rec with FieldStart, [] => [] | _, _ => [(rec ++ [field])%list] end
  | String c s' =>
      let quote := byte_of c =? 34 in
      let ends (otherwise : unit -> list (list string)) :=
        if byte_of c =? 44 then csv_read FieldStart "" (rec ++ [field]) s'
        else if byte_of c =? 10 then (rec ++ [field])%list :: csv_read FieldStart "" [] s'
        else otherwise tt in
      match m with
      | FieldStart => if quote then csv_read InQuotes field rec s'
                      else ends (fun _ => csv_read InPlain (field ++ String c "") rec s')
      | InPlain => ends (fun _ => csv_read InPlain (field ++ String c "") rec s')
      | InQuotes => csv_read (if quote then AfterQuote else InQuotes) (if quote then field else field ++ String c "") rec s'
      | AfterQuote => if quote then csv_read InQuotes (field ++ String c "") rec s'
                      else ends (fun _ => csv_read AfterQuote field rec s')
      end
  end.
Definition csv_parse (s : string) : list (list string) := csv_read FieldStart "" [] s.

Lemma csv_read_quoted f field rec rest :
  csv_read InQuotes field rec (csv_escape f ++ ch 34 ++ rest) = csv_read AfterQuote (field ++ f) rec rest.
Proof.
  revert field. induction f as [|c f IH]; intros field; simpl; [by rewrite str_app_nil|].
  destruct (byte_of c =? 34) eqn:Hq.
  - simpl. rewrite IH. rewrite <- str_app_assoc. apply Z.eqb_eq in Hq.
    by replace c with (of_byte 34) by (rewrite <- (of_byte_of c), Hq; done).
  - simpl. rewrite Hq, IH. by rewrite <- str_app_assoc.
Qed.

Lemma csv_read_plain f field rec rest : forall_bytes (fun c => negb (csv_special c)) f = true ->
  csv_read InPlain field rec (f ++ rest) = csv_read InPlain (field ++ f) rec rest.
Proof.
  revert field. induction f as [|c f IH]; intros field; simpl; [by rewrite str_app_nil|].
  intros [Hc Hf]%andb_true_iff. unfold csv_special in Hc. rewrite !negb_true_iff, !orb_false_iff in Hc.
  destruct Hc as [[[H1 H2] H3] H4]. rewrite H1, H4, IH by done. by rewrite <- str_app_assoc.
Qed.

(** A field followed by a comma or a line end reads back, whatever it holds. *)
Lemma csv_read_field f rec c rest : byte_of c = 44 \/ byte_of c = 10 ->
  csv_read FieldStart "" rec (csv_field f ++ String c rest) =
  (if byte_of c =? 44 then csv_read FieldStart "" (rec ++ [f]) rest else (rec ++ [f])%list :: csv_read FieldStart "" [] rest).
Proof.
  intros Hc. assert ((byte_of c =? 34) = false) as Hnq by (destruct Hc as [->| ->]; done).
  unfold csv_field. destruct (fieldNeedsQuotes f) eqn:Hn.
  - rewrite <- !str_app_assoc. change (csv_read FieldStart "" rec (ch 34 ++ ?x)) with (csv_read InQuotes "" rec x).
    rewrite csv_read_quoted. simpl. rewrite Hnq.
    destruct Hc as [->| ->]; done.
  - assert (forall_bytes (fun c => negb (csv_special c)) f = true) as Hplain.
    { unfold fieldNeedsQuotes in Hn. destruct (String.eqb_spec f "") as [->|]; [done|]. destruct (String.eqb f (backslash ++ ".")); [done|].
      apply orb_false_iff in Hn as [Hn _]. by apply negb_false_iff in Hn. }
    destruct f as [|c0 f]; simpl.
    + rewrite Hnq. destruct Hc as [->| ->]; done.
    + simpl in Hplain. apply andb_true_iff in Hplain as [H0 Hf]. unfold csv_special in H0.
      rewrite !negb_true_iff, !orb_false_iff in H0. destruct H0 as [[[H1 H2] H3] H4]. rewrite H1, H2, H4.
      rewrite csv_read_plain by done. simpl. destruct Hc as [->| ->]; done.
Qed.

Lemma csv_read_record f rec done rest :
  csv_read FieldStart "" done (String.concat "," (csv_field <$> (f :: rec)) ++ newline ++ rest) =
  (done ++ f :: rec)%list :: csv_read FieldStart "" [] rest.
Proof.
  revert f done. induction rec as [|g rec IH]; intros f acc.
  - change (String.concat "," (csv_field <$> [f])) with (csv_field f).
    change (newline ++ rest) with (String (of_byte 10) rest). by rewrite csv_read_field by (right; done).
  - change (String.concat "," (csv_field <$> f :: g :: rec)) with (csv_field f ++ "," ++ String.concat "," (csv_field <$> g :: rec)).
    rewrite <- !str_app_assoc. change ("," ++ ?x) with (String (of_byte 44) x). rewrite csv_read_field by (left; done).
    change (byte_of (of_byte 44) =? 44) with true. cbv iota. rewrite IH. by rewrite <- app_assoc.
Qed.

(** Reading a file of non-empty records back gives the records. *)
Lemma csv_parse_file recs : Forall (fun r => r <> []) recs -> csv_parse (csv_file recs) = recs.
Proof.
  unfold csv_parse, csv_file. induction 1 as [|r recs Hr _ IH]; [done|]. rewrite fmap_cons, concat_cons. unfold csv_record at 1.
  destruct r as [|f r]; [done|]. by rewrite <- str_app_assoc, csv_read_record, IH.
Qed.

Module JsonExamples.
(** The compact and the indented form. *)
Example Marshal_ex : Marshal (JObj [("a", JArr [JNum 1; JStr "x<y"]); ("t", JTime UTC 1500000000)]) =
  Ok ("{" ++ ch 34 ++ "a" ++ ch 34 ++ ":[1," ++ ch 34 ++ "x\u003cy" ++ ch 34 ++ "]," ++ ch 34 ++ "t" ++ ch 34 ++ ":" ++
      ch 34 ++ "1970-01-01T00:00:01.5Z" ++ ch 34 ++ "}").
Proof. reflexivity. Qed.
Example EncodeIndent_ex : EncodeIndent (JObj [("a", JArr []); ("b", JArr [JBool true])]) =
  Ok ("{" ++ newline ++ "  " ++ ch 34 ++ "a" ++ ch 34 ++ ": []," ++ newline ++ "  " ++ ch 34 ++ "b" ++ ch 34 ++ ": [" ++
      newline ++ "    true" ++ newline ++ "  ]" ++ newline ++ "}" ++ newline).
Proof. reflexivity. Qed.
End JsonExamples.
