(* ===== verification/Normalise.v ===== *)
(** * Money and normalisation

    internal/domain/money.go and internal/extraction/normalise: chat rendering
    of minor-unit amounts, and the pure parsers for amounts, dates, merchant
    keys and type hints.  [int64] arithmetic wraps ([wrap64]); the theorems show
    that the guards keep it from ever wrapping. *)
From Stdlib Require Import Ascii.
From S2P Require Import Prelude GoStrings Domain GoTime.

(** ** Money (money.go) *)
Section money.
Context `{UnicodeCase}.

(** [CurrencyDecimalPlaces] *)
Definition CurrencyDecimalPlaces (currency : string) : nat :=
  let c := ToUpper currency in
  if String.eqb c "VND" || String.eqb c "JPY" || String.eqb c "KRW" then 0 else 2.

(** [currencySymbol] *)
Definition currencySymbol (cur : string) : string :=
  if String.eqb cur "VND" then "₫"
  else if String.eqb cur "AUD" then "A$"
  else if String.eqb cur "USD" then "$" else "".

(** The dot-grouping loop: a dot before every digit that has a positive
    multiple of three digits from it to the end. *)
Fixpoint group_digits (first : bool) (s : string) : string :=
  match s with
  | "" => ""
  | String c s' =>
      let here := String c (group_digits false s') in
      if negb first && (String.length s mod 3 =? 0)%nat then "." ++ here else here
  end.

(** [FormatMinor] *)
Definition FormatMinor (amount : Z) (currency : string) : string :=
  let cur := ToUpper currency in
  let neg := amount <? 0 in
  let amount := if neg then wrap64 (- amount) else amount in
  let places := CurrencyDecimalPlaces cur in
  let scale := 10 ^ Z.of_nat places in
  let intPart := if (places =? 0)%nat then Sprintd amount else Sprintd (Z.quot amount scale) in
  let fracPart := if (places =? 0)%nat then "" else "," ++ zero_pad places (Sprintd (Z.rem amount scale)) in
  let sign := if neg then "-" else "" in
  let symbol := currencySymbol cur in
  sign ++ group_digits true intPart ++ fracPart ++ " " ++ (if String.eqb symbol "" then cur else symbol).

(** ** Amounts (normalise.go) *)

Definition invalid (msg : string) : Err := E CodeValidation msg None.

Definition multipliers : list (string * Z) := [("triệu", 1000000); ("tr", 1000000); ("k", 1000)].
Definition currencySymbols : list (string * string) := [("A$", "AUD"); ("₫", "VND"); ("$", "USD")].

(** [stripSeparators] *)
Definition is_sep (c : ascii) : bool := Ascii.eqb c "." || Ascii.eqb c ",".
Definition stripSeparators (s : string) : string := filter_bytes (fun c => negb (is_sep c)) s.

(** [detectCurrency] *)
Definition currency_tokens : list string :=
  ["đồng"; "Đồng"; "ĐỒNG"; "DONG"; "Dong"; "dong"; 
   "VNĐ"; "VND"; "vnđ"; "vnd"; "AUD"; "aud"; "A$"; "a$"; "$"; "₫"; "đ"; "Đ"].
Definition vnd_marked (s : string) : bool :=
  let upper := ToUpper s in
  Contains upper "ĐỒNG" || Contains upper "DONG" || Contains upper "VNĐ" || Contains upper "VND" ||
  Contains s "đ" || Contains s "Đ" || Contains s "₫".
Definition detectCurrency (s hint : string) : string * string :=
  let currency :=
    if vnd_marked s then "VND"
    else if Contains (ToUpper s) "AUD" then "AUD"
    else match List.find (fun sym => Contains s sym.1) currencySymbols with
         | Some (_, c) => c
         | None => ""
         end in
  let currency := if String.eqb currency "" then ToUpper (TrimSpace hint) else currency in
  let currency := if String.eqb currency "" then "VND" else currency in
  (currency, TrimSpace (fold_left (fun rest tok => ReplaceAll rest tok "") currency_tokens s)).

(** [finishAmount] *)
Definition finishAmount (digits currency : string) (factor : Z) (raw : string) : Res Err (Z * string) :=
  let too_large := Fail (invalid ("amount " ++ quoted raw ++ " too large")) in
  if String.eqb digits "" then Fail (invalid ("no digits in amount " ++ quoted raw))
  else if (15 <? String.length digits)%nat then too_large
  else match ParseInt digits with
  | None => too_large
  | Some v =>
      if v <? 0 then too_large
      else
        let two := (CurrencyDecimalPlaces currency =? 2)%nat in
        if two && (MaxInt64 ÷ 100 <? v) then too_large
        else
          let v := if two then wrap64 (v * 100) else v in
          if (1 <? factor) && (MaxInt64 ÷ factor <? v) then too_large
          else Ok (wrap64 (v * factor), currency)
  end.

(** The two scaling loops: multiply by ten [n] times, refusing to overflow. *)
Fixpoint times_ten (n : nat) (v : Z) : option Z :=
  match n with
  | O => Some v
  | S n' => if MaxInt64 ÷ 10 <? v then None else times_ten n' (wrap64 (v * 10))
  end.

(** The loop that keeps digits and separators, drops spaces and refuses the rest. *)
Fixpoint keep_amount (rs : list Z) : option string :=
  match rs with
  | [] => Some ""
  | r :: rs' =>
      if ((48 <=? r) && (r <=? 57)) || (r =? 46) || (r =? 44)
      then String (of_byte r) <$> keep_amount rs'
      else if r =? 32 then keep_amount rs' else None
  end.

(** From the located decimal point on. *)
Definition decimal_amount (s : string) (at_ : nat) (currency : string) (factor : Z) (raw : string) :
    Res Err (Z * string) :=
  let too_large := Fail (invalid ("amount " ++ quoted raw ++ " too large")) in
  let not_whole := Fail (invalid ("amount " ++ quoted raw ++ " is not a whole minor unit")) in
  let intDigits := stripSeparators (take at_ s) in
  let fracDigits := stripSeparators (drop (S at_) s) in
  let intDigits := if String.eqb intDigits "" then "0" else intDigits in
  if (4 <? String.length fracDigits)%nat then
    Fail (invalid ("too many fraction digits in " ++ quoted raw))
  else if (15 <? String.length intDigits + String.length fracDigits)%nat then too_large
  else match ParseInt (intDigits ++ fracDigits) with
  | None => too_large
  | Some combined =>
      let n := String.length fracDigits in
      let places := CurrencyDecimalPlaces currency in
      if (places =? 0)%nat then
        match times_ten n 1 with
        | None => too_large
        | Some scale =>
            if (1 <? factor) && (MaxInt64 ÷ factor <? combined) then too_large
            else
              let value := wrap64 (combined * factor) in
              if negb (Z.rem value scale =? 0) then not_whole else Ok (Z.quot value scale, currency)
        end
      else if (places <? n)%nat then not_whole
      else match times_ten (places - n) combined with
           | None => too_large
           | Some minor =>
               if (1 <? factor) && (MaxInt64 ÷ factor <? minor) then too_large
               else Ok (wrap64 (minor * factor), currency)
           end
  end.

(** Is the last separator a decimal point? *)
Definition decimal_at (s currency : string) : option nat :=
  match LastIndexAny s is_sep with
  | None => None
  | Some last =>
      let frac := stripSeparators (drop (S last) s) in
      if (CurrencyDecimalPlaces currency =? 0)%nat then
        if (0 <? String.length frac)%nat && negb (String.length frac =? 3)%nat then Some last else None
      else if HasPrefix (drop last s) "." && (String.length frac =? 2)%nat then Some last else None
  end.

(** [ParseAmount] up to the separators: the currency, the digits and separators
    left, and the multiplier. *)
Definition clean_amount (raw currencyHint : string) : Res Err (string * string * Z) :=
  let s := TrimSpace raw in
  if String.eqb s "" then Fail (invalid "empty amount")
  else if ContainsByte s "-" then Fail (invalid ("negative amount " ++ quoted raw))
  else
    let dc := detectCurrency s currencyHint in
    let s := dc.2 in
    let mult := List.find (fun m => HasSuffix (ToLower s) m.1) multipliers in
    let factor := match mult with Some (_, f) => f | None => 1 end in
    let s := match mult with
             | Some (suffix, _) => TrimSpace (take (String.length s - String.length suffix) s)
             | None => s
             end in
    match keep_amount (runes s) with
    | None => Fail (invalid ("invalid character in amount " ++ quoted raw))
    | Some s => if String.eqb s "" then Fail (invalid ("no digits in amount " ++ quoted raw))
                else Ok (dc.1, s, factor)
    end.

(** [ParseAmount] *)
Definition ParseAmount (raw currencyHint : string) : Res Err (Z * string) :=
  match clean_amount raw currencyHint with
  | Fail e => Fail e
  | Ok (currency, s, factor) =>
      if (CurrencyDecimalPlaces currency =? 0)%nat && (factor =? 1)
      then finishAmount (stripSeparators s) currency factor raw
      else match decimal_at s currency with
           | None => finishAmount (stripSeparators s) currency factor raw
           | Some at_ => decimal_amount s at_ currency factor raw
           end
  end.

(** ** Dates *)
Definition one_or_two (s : string) : bool := (String.length s =? 1)%nat || (String.length s =? 2)%nat.

(** [isoDateRe] and [dmyDateRe]: year, month, day. *)
Definition match_iso (s : string) : option (Z * Z * Z) :=
  let y := span_digits s in s1 ← expect "-" y.2;
  let m := span_digits s1 in s2 ← expect "-" m.2;
  let d := span_digits s2 in
  if (String.length y.1 =? 4)%nat && one_or_two m.1 && one_or_two d.1 && String.eqb d.2 ""
  then Some (number y.1, number m.1, number d.1) else None.
Definition expect_dmy_sep (s : string) : option string :=
  match expect "/" s with Some r => Some r | None => expect "-" s end.
Definition match_dmy (s : string) : option (Z * Z * Z) :=
  let d := span_digits s in s1 ← expect_dmy_sep d.2;
  let m := span_digits s1 in s2 ← expect_dmy_sep m.2;
  let y := span_digits s2 in
  if one_or_two d.1 && one_or_two m.1 && String.eqb y.2 "" &&
     ((String.length y.1 =? 2)%nat || (String.length y.1 =? 4)%nat)
  then
    let yy := number y.1 in
    Some (if yy <? 100 then if yy <=? 69 then yy + 2000 else yy + 1900 else yy, number m.1, number d.1)
  else None.
(** [timeRe]: hour, minute. *)
Definition match_time (s : string) : option (Z * Z) :=
  let h := span_digits s in s1 ← expect ":" h.2;
  let m := span_digits s1 in
  if one_or_two h.1 && (String.length m.1 =? 2)%nat && String.eqb m.2 ""
  then Some (number h.1, number m.1) else None.

(** [ParseDate] *)
Definition ParseDate (raw : string) (tz : Location) : Res Err Time :=
  let s := ReplaceAll (TrimSpace raw) ", " " " in
  let finish (date : string) (clock : option string) : Res Err Time :=
    match (match match_iso date with Some r => Some r | None => match_dmy date end) with
    | None => Fail (invalid ("unrecognised date " ++ quoted raw))
    | Some (year, month, day) =>
        let hm : Res Err (Z * Z) :=
          match clock with
          | None => Ok (0, 0)
          | Some c =>
              match match_time c with
              | None => Fail (invalid ("unrecognised time in " ++ quoted raw))
              | Some (h, m) => if (23 <? h) || (59 <? m) then Fail (invalid ("invalid time in " ++ quoted raw))
                               else Ok (h, m)
              end
          end in
        match hm with
        | Fail e => Fail e
        | Ok (hour, min) =>
            let t := Date year month day (hour * 3600 + min * 60) 0 tz in
            if bool_decide (local_date tz t = (year, month, day)) then Ok t
            else Fail (invalid ("invalid calendar date " ++ quoted raw))
        end
    end in
  match Fields s with
  | [date] => finish date None
  | [date; clock] => finish date (Some clock)
  | _ => Fail (invalid ("unrecognised date " ++ quoted raw))
  end.

(** ** Merchants and type hints *)
Definition foldDiacritics : list (string * string) :=
  [("à", "a"); ("á", "a"); ("ạ", "a"); ("ả", "a"); ("ã", "a"); ("â", "a"); ("ầ", "a"); ("ấ", "a");
   ("ậ", "a"); ("ẩ", "a"); ("ẫ", "a"); ("ă", "a"); ("ằ", "a"); ("ắ", "a"); ("ặ", "a"); ("ẳ", "a");
   ("ẵ", "a"); ("è", "e"); ("é", "e"); ("ẹ", "e"); ("ẻ", "e"); ("ẽ", "e"); ("ê", "e"); ("ề", "e");
   ("ế", "e"); ("ệ", "e"); ("ể", "e"); ("ễ", "e"); ("ì", "i"); ("í", "i"); ("ị", "i"); ("ỉ", "i");
   ("ĩ", "i"); ("ò", "o"); ("ó", "o"); ("ọ", "o"); ("ỏ", "o"); ("õ", "o"); ("ô", "o"); ("ồ", "o");
   ("ố", "o"); ("ộ", "o"); ("ổ", "o"); ("ỗ", "o"); ("ơ", "o"); ("ờ", "o"); ("ớ", "o"); ("ợ", "o");
   ("ở", "o"); ("ỡ", "o"); ("ù", "u"); ("ú", "u"); ("ụ", "u"); ("ủ", "u"); ("ũ", "u"); ("ư", "u");
   ("ừ", "u"); ("ứ", "u"); ("ự", "u"); ("ử", "u"); ("ữ", "u"); ("ỳ", "y"); ("ý", "y"); ("ỵ", "y");
   ("ỷ", "y"); ("ỹ", "y"); ("đ", "d")].
Definition fold_diacritics (s : string) : string := replace_pairs foldDiacritics O s.

(** [Fold] *)
Definition Fold (s : string) : string := Join (Fields (fold_diacritics (ToLower (TrimSpace s)))) " ".

Definition legalForms : list string :=
  ["cty tnhh"; "cong ty tnhh"; "cong ty cp"; "co ltd"; "jsc"; "llc"].

Definition alnum_rune (r : Z) : bool := ((97 <=? r) && (r <=? 122)) || ((48 <=? r) && (r <=? 57)).

(** The loop body: one pass over the legal forms, with whether any was found. *)
Definition strip_form (acc : string * bool) (form : string) : string * bool :=
  let acc := if HasPrefix acc.1 (form ++ " ") then (TrimPrefix acc.1 (form ++ " "), true) else acc in
  let acc := if HasSuffix acc.1 (" " ++ form) then (TrimSuffix acc.1 (" " ++ form), true) else acc in
  if String.eqb acc.1 form then ("", true) else acc.
Definition strip_pass (key : string) : string * bool := fold_left strip_form legalForms (key, false).
(** [for stripped := true; stripped && key != ""; { ... }] *)
Fixpoint strip_loop (fuel : nat) (key : string) : string :=
  match fuel with
  | O => key
  | S f =>
      if String.eqb key "" then key
      else let r := strip_pass key in if r.2 then strip_loop f r.1 else r.1
  end.

(** [NormaliseMerchant]: display form and matching key. *)
Definition merchant_rune (r : Z) : option Z :=
  if alnum_rune r then Some r else if r =? 46 then None else Some 32.
Definition NormaliseMerchant (raw : string) : string * string :=
  let display := TrimSpace raw in
  let key := Join (Fields (FilterMapRunes merchant_rune (fold_diacritics (ToLower display)))) " " in
  (display, strip_loop (S (String.length key)) key).

Definition refundHints : list string := ["hoan tien"; "hoan"; "refund"; "tra lai"].
Definition transferHints : list string := ["chuyen khoan"; "chuyen tien"; "transfer"; "ck"].

(** [TypeHint] *)
Definition TypeHint (text : string) : TxType * bool :=
  let words := MapRunes (fun r => if alnum_rune r then r else 32) (fold_diacritics (ToLower text)) in
  let folded := " " ++ Join (Fields words) " " ++ " " in
  let mentions h := Contains folded (" " ++ h ++ " ") in
  if existsb mentions refundHints then (TxRefund, true)
  else if existsb mentions transferHints then (TxTransfer, true)
  else (TxExpense, false).
End money.

(** ** The test corpus of the package, evaluated *)
Module NormaliseExamples.
#[local] Existing Instance LatinCase.
Example FormatMinor_ex :
  FormatMinor 325000 "VND" = "325.000 ₫" /\ FormatMinor (-1234567) "VND" = "-1.234.567 ₫" /\
  FormatMinor 1234 "AUD" = "12,34 A$" /\ FormatMinor 5 "EUR" = "0,05 EUR".
Proof. vm_compute. done. Qed.
Example ParseAmount_ex :
  ParseAmount "325.000 ₫" "" = Ok (325000, "VND") /\ ParseAmount "150k" "" = Ok (150000, "VND") /\
  ParseAmount "1.2tr" "VND" = Ok (1200000, "VND") /\ ParseAmount "1,234.56" "AUD" = Ok (123456, "AUD") /\
  ParseAmount "325.000 đồng" "" = Ok (325000, "VND") /\ ParseAmount "A$12.50" "" = Ok (1250, "AUD") /\
  ParseAmount "1.200k" "" = Ok (1200000, "VND") /\ ParseAmount "2 triệu" "" = Ok (2000000, "VND").
Proof. vm_compute. split_and!; reflexivity. Qed.
(** Four digits after the separator: with a multiplier it is still a decimal
    point, so "1.2345tr" is 1 234 500 dong. *)
Example multiplier_four_digits :
  ParseAmount "1.2345tr" "" = Ok (1234500, "VND").
Proof. vm_compute. reflexivity. Qed.

Example ParseDate_ex :
  ParseDate "19/07/2026, 10:30" UTC = Ok (1784457000 * Second) /\
  ParseDate "2026-07-19" UTC = Ok (1784419200 * Second) /\
  is_ok (ParseDate "31/02/2026" UTC) = false.
Proof. vm_compute. done. Qed.
Example NormaliseMerchant_ex :
  NormaliseMerchant " CÔNG TY TNHH Cà Phê ABC CO., LTD " = ("CÔNG TY TNHH Cà Phê ABC CO., LTD", "ca phe abc") /\
  NormaliseMerchant "Co.opmart" = ("Co.opmart", "coopmart").
Proof. vm_compute. done. Qed.
Example TypeHint_ex :
  TypeHint "Hoàn tiền đơn hàng" = (TxRefund, true) /\ TypeHint "chuyển khoản" = (TxTransfer, true) /\
  TypeHint "cà phê" = (TxExpense, false).
Proof. vm_compute. done. Qed.
End NormaliseExamples.

(** ** Amounts are exact *)
Section amount_lemmas.
Context `{UnicodeCase}.

Lemma dec_value_bound s acc : 0 <= acc -> forall_bytes is_digit s = true ->
  0 <= dec_value acc s < (acc + 1) * 10 ^ Z.of_nat (String.length s).
Proof.
  revert acc. induction s as [|c s IH]; intros acc Hacc; simpl; [lia|].
  intros [Hc Hs]%andb_true_iff. unfold is_digit in Hc. apply andb_true_iff in Hc as [H1 H2].
  apply Z.leb_le in H1, H2. unfold digit_val at 1 2.
  specialize (IH (10 * acc + (byte_of c - 48)) ltac:(lia) Hs).
  rewrite Nat2Z.inj_succ, Z.pow_succ_r by lia.
  pose proof (Z.pow_pos_nonneg 10 (Z.of_nat (String.length s)) ltac:(lia) ltac:(lia)). nia.
Qed.

Lemma dec_value_app s1 s2 acc : dec_value acc (s1 ++ s2) = dec_value (dec_value acc s1) s2.
Proof. revert acc. induction s1 as [|c s1 IH]; intros acc; simpl; [done|apply IH]. Qed.

(** Digit strings parse to their value. *)
Lemma ParseInt_digits s v : forall_bytes is_digit s = true -> ParseInt s = Some v -> v = dec_value 0 s /\ 0 <= v <= MaxInt64.
Proof.
  unfold ParseInt. destruct s as [|c s]; [done|]. intros Hd.
  assert (Ascii.eqb c "-" = false /\ Ascii.eqb c "+" = false) as [-> ->].
  { simpl in Hd. apply andb_true_iff in Hd as [Hc _]. unfold is_digit in Hc.
    split; apply Ascii.eqb_neq; intros ->; discriminate Hc. }
  unfold parse_magnitude. rewrite Hd. cbn [String.eqb].
  destruct (_ && _) eqn:Hr; [|done]. intros <-%(inj Some). split; [done|].
  apply andb_true_iff in Hr as [_ Hr]. apply Z.leb_le in Hr.
  pose proof (dec_value_bound (String c s) 0 ltac:(lia) Hd). lia.
Qed.

Lemma ParseInt_short s : forall_bytes is_digit s = true -> s <> "" -> (String.length s <= 15)%nat ->
  ParseInt s = Some (dec_value 0 s).
Proof.
  unfold ParseInt. destruct s as [|c s]; [done|]. intros Hd _ Hl.
  assert (Ascii.eqb c "-" = false /\ Ascii.eqb c "+" = false) as [-> ->].
  { simpl in Hd. apply andb_true_iff in Hd as [Hc _]. unfold is_digit in Hc.
    split; apply Ascii.eqb_neq; intros ->; discriminate Hc. }
  unfold parse_magnitude. rewrite Hd. cbn [String.eqb].
  pose proof (dec_value_bound (String c s) 0 ltac:(lia) Hd) as Hb.
  pose proof (Z.pow_le_mono_r 10 (Z.of_nat (String.length (String c s))) 15 ltac:(lia) ltac:(lia)).
  unfold MinInt64, MaxInt64. rewrite (proj2 (Z.leb_le _ _)), (proj2 (Z.leb_le _ _)) by lia. done.
Qed.

Lemma wrap64_mul v f : 0 <= v -> 0 < f -> ~ (1 < f /\ MaxInt64 ÷ f < v) -> v <= MaxInt64 ->
  wrap64 (v * f) = v * f /\ 0 <= v * f <= MaxInt64.
Proof.
  intros Hv Hf Hg Hm.
  assert (v * f <= MaxInt64).
  { destruct (Z.le_gt_cases f 1); [assert (f = 1) as -> by lia; lia|].
    assert (v <= MaxInt64 ÷ f) as Hq by lia.
    rewrite Z.quot_div_nonneg in Hq by (unfold MaxInt64; lia).
    pose proof (Z.mul_div_le MaxInt64 f ltac:(lia)). nia. }
  split; [|lia]. apply wrap64_id. unfold int64_range, MinInt64. lia.
Qed.

Lemma guard_false f v : (1 <? f) && (MaxInt64 ÷ f <? v) = false -> ~ (1 < f /\ MaxInt64 ÷ f < v).
Proof. intros Hg [H1 H2]. apply Z.ltb_lt in H1, H2. rewrite H1, H2 in Hg. done. Qed.

Lemma times_ten_exact n v w : 0 <= v <= MaxInt64 -> times_ten n v = Some w ->
  w = v * 10 ^ Z.of_nat n /\ 0 <= w <= MaxInt64.
Proof.
  revert v. induction n as [|n IH]; intros v Hv; simpl.
  { intros [= <-]. lia. }
  destruct (Z.ltb_spec (MaxInt64 ÷ 10) v) as [|Hle]; [done|].
  destruct (wrap64_mul v 10) as [-> Hb]; [lia|lia|intros [_ ?]; lia|lia|].
  intros [-> ?]%(IH (v * 10)); [|lia]. split; [|done].
  rewrite Nat2Z.inj_succ, Z.pow_succ_r by lia. lia.
Qed.

(** What survives the cleaning is digits and separators. *)
Definition amount_byte (c : ascii) : bool := is_digit c || is_sep c.
Lemma keep_amount_bytes rs s : keep_amount rs = Some s -> forall_bytes amount_byte s = true.
Proof.
  revert s. induction rs as [|r rs IH]; intros s; simpl; [by intros [= <-]|].
  destruct (_ || (r =? 44)) eqn:Hr; [|destruct (r =? 32); eauto; done].
  destruct (keep_amount rs) as [s'|]; simpl; [|done]. intros [= <-]. simpl. rewrite IH by done.
  apply andb_true_iff; split; [|done]. unfold amount_byte, is_sep, is_digit.
  rewrite !orb_true_iff, andb_true_iff, !Z.leb_le, !Z.eqb_eq in Hr.
  destruct Hr as [[Hr| ->]| ->]; [|done..]. rewrite byte_of_of_byte by lia.
  rewrite (proj2 (Z.leb_le _ _)), (proj2 (Z.leb_le _ _)) by lia. done.
Qed.

Lemma strip_digits s : forall_bytes amount_byte s = true -> forall_bytes is_digit (stripSeparators s) = true.
Proof.
  unfold stripSeparators. induction s as [|c s IH]; simpl; [done|].
  intros [Hc Hs]%andb_true_iff. unfold amount_byte in Hc. destruct (is_sep c); simpl; [by apply IH|].
  rewrite orb_false_r in Hc. by rewrite Hc, IH.
Qed.

Lemma forall_bytes_app p s1 s2 : forall_bytes p (s1 ++ s2) = forall_bytes p s1 && forall_bytes p s2.
Proof. induction s1 as [|c s1 IH]; simpl; [done|]. by rewrite IH, andb_assoc. Qed.
Lemma filter_bytes_app p s1 s2 : filter_bytes p (s1 ++ s2) = filter_bytes p s1 ++ filter_bytes p s2.
Proof. induction s1 as [|c s1 IH]; simpl; [done|]. destruct (p c); simpl; by rewrite IH. Qed.
Lemma take_drop n s : take n s ++ drop n s = s.
Proof.
  revert n. induction s as [|c s IH]; intros [|n]; try done.
  change (String c (take n s ++ drop n s) = String c s). by rewrite IH.
Qed.

(** The separator found is where [decimal_at] says. *)
Lemma last_index_spec p i s j : last_index_from p i s = Some j ->
  (i <= j)%nat /\ exists c, drop (j - i) s = String c (drop (S (j - i)) s) /\ p c = true.
Proof.
  revert i j. induction s as [|c s IH]; intros i j; simpl; [done|].
  destruct (last_index_from p (S i) s) as [k|] eqn:Hk.
  - intros [= <-]. apply IH in Hk as (Hle & c' & Hd & Hp). split; [lia|]. exists c'.
    replace (k - i)%nat with (S (k - S i)) by lia. simpl. done.
  - destruct (p c) eqn:Hc; [|done]. intros [= <-]. split; [lia|]. exists c.
    replace (i - i)%nat with 0%nat by lia. done.
Qed.

Lemma strip_split s at_ c : drop at_ s = String c (drop (S at_) s) -> is_sep c = true ->
  stripSeparators s = stripSeparators (take at_ s) ++ stripSeparators (drop (S at_) s).
Proof.
  intros Hd Hc. rewrite <- (take_drop at_ s) at 1. rewrite Hd. unfold stripSeparators.
  rewrite filter_bytes_app. simpl. by rewrite Hc.
Qed.

Lemma decimal_at_split s currency at_ : decimal_at s currency = Some at_ ->
  stripSeparators s = stripSeparators (take at_ s) ++ stripSeparators (drop (S at_) s).
Proof.
  unfold decimal_at, LastIndexAny. destruct (last_index_from is_sep 0 s) as [j|] eqn:Hj; [|done].
  apply last_index_spec in Hj as (_ & c & Hd & Hc). rewrite Nat.sub_0_r in Hd.
  intros Hat. assert (j = at_) as <- by (repeat case_match; congruence). by eapply strip_split.
Qed.

(** The number of digits after the decimal point, zero when there is none. *)
Definition fraction_digits (currency s : string) (factor : Z) : nat :=
  if (CurrencyDecimalPlaces currency =? 0)%nat && (factor =? 1) then 0
  else match decimal_at s currency with
       | None => 0
       | Some at_ => String.length (stripSeparators (drop (S at_) s))
       end.

Lemma places_cases currency : CurrencyDecimalPlaces currency = 0%nat \/ CurrencyDecimalPlaces currency = 2%nat.
Proof. unfold CurrencyDecimalPlaces. destruct (_ || _); auto. Qed.

Lemma finishAmount_exact digits currency factor raw minor cur :
  forall_bytes is_digit digits = true -> 0 < factor ->
  finishAmount digits currency factor raw = Ok (minor, cur) ->
  cur = currency /\ 0 <= minor <= MaxInt64 /\
  minor = dec_value 0 digits * 10 ^ Z.of_nat (CurrencyDecimalPlaces currency) * factor.
Proof.
  intros Hd Hf. unfold finishAmount. destruct (String.eqb _ _); [done|]. destruct (_ <? _)%nat; [done|].
  destruct (ParseInt digits) as [v|] eqn:Hv; [|done]. apply ParseInt_digits in Hv as [-> Hb]; [|done].
  set (v := dec_value 0 digits) in *. destruct (v <? 0); [done|]. cbv zeta.
  destruct (places_cases currency) as [-> | ->]; cbn [Nat.eqb andb].
  - destruct (_ && _) eqn:Hg; [done|]. apply guard_false in Hg.
    destruct (wrap64_mul v factor ltac:(lia) Hf Hg ltac:(lia)) as [-> ?]. intros [= <- <-].
    change (10 ^ Z.of_nat 0) with 1. split; [done|lia].
  - destruct (Z.ltb_spec (MaxInt64 ÷ 100) v) as [|Hle]; [done|].
    destruct (wrap64_mul v 100) as [-> ?]; [lia|lia|intros [_ ?]; lia|lia|].
    destruct (_ && _) eqn:Hg; [done|]. apply guard_false in Hg.
    destruct (wrap64_mul (v * 100) factor ltac:(lia) Hf Hg ltac:(lia)) as [-> ?]. intros [= <- <-].
    change (10 ^ Z.of_nat 2) with 100. split; [done|lia].
Qed.

Lemma dec_value_zero_prefix i f : dec_value 0 ((if String.eqb i "" then "0" else i) ++ f) = dec_value 0 (i ++ f).
Proof. destruct (String.eqb_spec i "") as [-> |]; done. Qed.

Lemma decimal_amount_exact s at_ currency factor raw minor cur :
  let i := stripSeparators (take at_ s) in
  let f := stripSeparators (drop (S at_) s) in
  forall_bytes is_digit (i ++ f) = true -> 0 < factor ->
  decimal_amount s at_ currency factor raw = Ok (minor, cur) ->
  cur = currency /\ 0 <= minor <= MaxInt64 /\
  minor * 10 ^ Z.of_nat (String.length f) =
    dec_value 0 (i ++ f) * 10 ^ Z.of_nat (CurrencyDecimalPlaces currency) * factor.
Proof.
  cbv zeta. unfold decimal_amount. cbv zeta.
  set (i := stripSeparators (take at_ s)). set (f := stripSeparators (drop (S at_) s)). intros Hd Hf.
  destruct (4 <? _)%nat; [done|]. destruct (15 <? _)%nat; [done|].
  destruct (ParseInt _) as [v|] eqn:Hv; [|done].
  apply ParseInt_digits in Hv as [Hval Hb].
  2:{ destruct (String.eqb i ""); [|done]. rewrite forall_bytes_app in Hd |- *.
      by apply andb_true_iff in Hd as [_ ->]. }
  rewrite dec_value_zero_prefix in Hval. rewrite <- Hval.
  pose proof (Z.pow_pos_nonneg 10 (Z.of_nat (String.length f)) ltac:(lia) ltac:(lia)) as Hpos.
  destruct (places_cases currency) as [-> | ->]; cbn [Nat.eqb].
  - destruct (times_ten _ 1) as [scale|] eqn:Ht; [|done].
    apply times_ten_exact in Ht as [Hs _]; [|unfold MaxInt64; lia]. rewrite Z.mul_1_l in Hs. rewrite <- Hs in *.
    destruct (_ && _) eqn:Hg; [done|]. apply guard_false in Hg.
    destruct (wrap64_mul v factor ltac:(lia) Hf Hg ltac:(lia)) as [-> Hvf].
    destruct (Z.eqb_spec (Z.rem (v * factor) scale) 0) as [Hr|]; [|done]. simpl. intros [= <- <-].
    pose proof (Z.quot_rem' (v * factor) scale) as Hq. rewrite Hr in Hq.
    assert (0 <= v * factor ÷ scale <= MaxInt64).
    { split; [apply Z.quot_pos; lia|]. transitivity (v * factor); [|lia].
      rewrite Z.quot_div_nonneg by lia. apply Z.div_le_upper_bound; nia. }
    split_and!; [done|lia|lia|]. change (10 ^ Z.of_nat 0) with 1. lia.
  - destruct (2 <? String.length f)%nat eqn:Hn; [done|]. apply Nat.ltb_ge in Hn.
    destruct (times_ten _ v) as [m|] eqn:Ht; [|done]. apply times_ten_exact in Ht as [-> Hm]; [|lia].
    destruct (_ && _) eqn:Hg; [done|]. apply guard_false in Hg.
    destruct (wrap64_mul _ factor (proj1 Hm) Hf Hg (proj2 Hm)) as [-> ?]. intros [= <- <-].
    split_and!; [done|lia|lia|].
    replace (10 ^ Z.of_nat 2) with (10 ^ Z.of_nat (2 - String.length f) * 10 ^ Z.of_nat (String.length f)); [lia|].
    rewrite <- Z.pow_add_r by lia. f_equal. lia.
Qed.

Lemma clean_amount_spec raw hint cur s factor : clean_amount raw hint = Ok (cur, s, factor) ->
  forall_bytes amount_byte s = true /\ (factor = 1 \/ factor = 1000 \/ factor = 1000000).
Proof.
  unfold clean_amount. destruct (String.eqb _ _); [done|]. destruct (ContainsByte _ _); [done|]. cbv zeta.
  destruct (keep_amount _) as [s'|] eqn:Hk; [|done]. destruct (String.eqb s' _); [discriminate|].
  intros He. apply (f_equal (fun r => match r with Ok x => x | Fail _ => ("", "", 0) end)) in He.
  apply pair_equal_spec in He as [He <-]. apply pair_equal_spec in He as [_ <-].
  split; [exact (keep_amount_bytes _ _ Hk)|].
  destruct (List.find _ _) as [[suf f]|] eqn:Hf; [|auto]. apply find_some in Hf as [Hin _].
  clear Hk. apply (in_map snd) in Hin. simpl in Hin. intuition.
Qed.

Lemma ParseAmount_value (raw hint : string) (minor : Z) (cur : string) :
  ParseAmount raw hint = Ok (minor, cur) ->
  0 <= minor <= MaxInt64 /\
  exists s factor, clean_amount raw hint = Ok (cur, s, factor) /\
    minor * 10 ^ Z.of_nat (fraction_digits cur s factor) =
      dec_value 0 (stripSeparators s) * 10 ^ Z.of_nat (CurrencyDecimalPlaces cur) * factor.
Proof.
  unfold ParseAmount. destruct (clean_amount raw hint) as [[[c s] factor]|e] eqn:Hc; [|done].
  pose proof (clean_amount_spec _ _ _ _ _ Hc) as [Hb Hf]. pose proof (strip_digits s Hb) as Hd.
  assert (0 < factor) as Hpos by lia. unfold fraction_digits.
  destruct ((CurrencyDecimalPlaces c =? 0)%nat && (factor =? 1)) eqn:Hp.
  - intros (-> & ? & ->)%finishAmount_exact; [|done..]. split; [done|]. exists s, factor.
    rewrite Hp. split; [done|]. change (10 ^ Z.of_nat 0) with 1. lia.
  - destruct (decimal_at s c) as [at_|] eqn:Ha.
    + intros Hrun. pose proof (decimal_at_split _ _ _ Ha) as Hsp. rewrite Hsp in Hd.
      apply decimal_amount_exact in Hrun as (-> & ? & He); [|done..]. split; [done|]. exists s, factor.
      rewrite Hp, Ha, Hsp. done.
    + intros (-> & ? & ->)%finishAmount_exact; [|done..]. split; [done|]. exists s, factor.
      rewrite Hp, Ha. split; [done|]. change (10 ^ Z.of_nat 0) with 1. lia.
Qed.

(** Parsing money is exact and never overflows: whenever [ParseAmount]
    accepts a string, the result is a non-negative int64, and it is precisely
    the written number (all its digits, shifted by the digits after the decimal
    point) times the multiplier, in minor units of the currency found. *)
Theorem ParseAmount_exact (raw hint : string) (minor : Z) (cur : string) :
  ParseAmount raw hint = Ok (minor, cur) ->
  0 <= minor <= MaxInt64 /\
  exists s factor, clean_amount raw hint = Ok (cur, s, factor) /\
    minor * 10 ^ Z.of_nat (fraction_digits cur s factor) =
      dec_value 0 (stripSeparators s) * 10 ^ Z.of_nat (CurrencyDecimalPlaces cur) * factor.
Proof. apply ParseAmount_value. Qed.
End amount_lemmas.

(** ** What is printed parses back *)
Section decimal.
(** Enough fuel prints the decimal digits of [n]. *)
Lemma dec_fuel_spec fuel n acc : 0 <= n < 10 ^ Z.of_nat fuel -> (0 < fuel)%nat ->
  exists ds, dec_fuel fuel n acc = ds ++ acc /\ forall_bytes is_digit ds = true /\ ds <> "" /\
    (forall a, dec_value a ds = a * 10 ^ Z.of_nat (String.length ds) + n) /\
    (forall k, n < 10 ^ Z.of_nat k -> (0 < k)%nat -> (String.length ds <= k)%nat).
Proof.
  revert n acc. induction fuel as [|f IH]; intros n acc Hn Hf; [lia|]. cbn [dec_fuel].
  assert (0 <= n mod 10 <= 9) as Hm by (pose proof (Z.mod_pos_bound n 10); lia).
  destruct (Z.ltb_spec n 10) as [Hs|Hs].
  - exists (String (digit_char (n mod 10)) ""). rewrite (Z.mod_small n 10) in * by lia.
    split_and!; [done|..]; simpl; rewrite ?digit_char_digit, ?digit_val_char by lia; try done; intros; lia.
  - destruct f as [|f]; [change (10 ^ Z.of_nat 1) with 10 in Hn; lia|].
    assert (0 <= n / 10 < 10 ^ Z.of_nat (S f)) as Hn'.
    { rewrite Nat2Z.inj_succ, Z.pow_succ_r in Hn by lia. split; [apply Z.div_pos; lia|].
      apply Z.div_lt_upper_bound; lia. }
    destruct (IH (n / 10) (String (digit_char (n mod 10)) acc) Hn' ltac:(lia)) as (ds & -> & Hd & Hne & Hv & Hl).
    assert (forall s : string, String.length (s ++ String (digit_char (n mod 10)) "") = S (String.length s)) as Hlen.
    { intros s. rewrite str_length_app. simpl. lia. }
    exists (ds ++ String (digit_char (n mod 10)) ""). split_and!.
    + by rewrite <- str_app_assoc.
    + rewrite forall_bytes_app, Hd. simpl. by rewrite digit_char_digit.
    + by destruct ds.
    + intros a. rewrite dec_value_app, Hv, Hlen. simpl. rewrite digit_val_char by lia.
      rewrite Nat2Z.inj_succ, Z.pow_succ_r by lia. pose proof (Z.div_mod n 10 ltac:(lia)). lia.
    + intros k Hk Hk0. rewrite Hlen. destruct k as [|[|k]]; [lia|change (10 ^ Z.of_nat 1) with 10 in Hk; lia|].
      apply le_n_S, Hl; [|lia]. rewrite Nat2Z.inj_succ, Z.pow_succ_r in Hk by lia.
      apply Z.div_lt_upper_bound; lia.
Qed.

Lemma Sprintd_spec n : 0 <= n ->
  forall_bytes is_digit (Sprintd n) = true /\ Sprintd n <> "" /\ dec_value 0 (Sprintd n) = n /\
  (forall k, n < 10 ^ Z.of_nat k -> (0 < k)%nat -> (String.length (Sprintd n) <= k)%nat).
Proof.
  intros Hn. unfold Sprintd, dec_nat. destruct (Z.ltb_spec n 0); [lia|].
  destruct (dec_fuel_spec (S (Z.to_nat (Z.log2 n))) n "") as (ds & -> & Hd & Hne & Hv & Hl); [|lia|].
  - split; [done|]. rewrite Nat2Z.inj_succ, Z2Nat.id by apply Z.log2_nonneg.
    destruct (decide (n = 0)) as [->|]; [done|]. pose proof (Z.log2_spec n ltac:(lia)) as [_ Hlt].
    eapply Z.lt_le_trans; [exact Hlt|]. apply Z.pow_le_mono_l. lia.
  - rewrite str_app_nil. split_and!; try done.
Qed.
End decimal.

(** Strings of digits and separators pass through the cleaning steps. *)
Section amount_text.
Context `{UnicodeCase}.

Lemma amount_byte_small c : amount_byte c = true -> byte_of c < 128 /\ encode_rune (byte_of c) = String c "" /\
  ascii_lower (byte_of c) = byte_of c.
Proof.
  intros Hc. assert (byte_of c < 58) as Hb.
  { unfold amount_byte, is_sep, is_digit in Hc. rewrite !orb_true_iff, andb_true_iff, !Z.leb_le in Hc.
    destruct Hc as [?|[Hc%Ascii.eqb_eq|Hc%Ascii.eqb_eq]]; [lia|by rewrite Hc..]. }
  pose proof (byte_of_bound c). split_and!; [lia| |].
  - unfold encode_rune. rewrite (proj2 (Z.leb_le 0 _)), (proj2 (Z.ltb_lt _ 128)) by lia.
    unfold bytes_string. simpl. by rewrite of_byte_of.
  - unfold ascii_lower. rewrite (proj2 (Z.leb_gt 65 _)) by lia. done.
Qed.

Lemma runes_ascii c s : byte_of c < 128 -> runes (String c s) = byte_of c :: runes s.
Proof. intros Hc. cbn [runes]. by rewrite (proj2 (Z.ltb_lt _ _) Hc). Qed.

Lemma ToLower_amount s : forall_bytes amount_byte s = true -> ToLower s = s.
Proof.
  unfold ToLower, MapRunes. induction s as [|c s IH]; [done|]. cbn [forall_bytes]. intros [Hc Hs]%andb_true_iff.
  destruct (amount_byte_small c Hc) as (Hb & He & Hl). rewrite runes_ascii by done. rewrite fmap_cons.
  pose proof (byte_of_bound c). rewrite to_lower_ascii, Hl, He by lia.
  rewrite concat_cons, IH by done. done.
Qed.

Lemma keep_amount_runes s : forall_bytes amount_byte s = true -> keep_amount (runes s) = Some s.
Proof.
  induction s as [|c s IH]; [done|]. cbn [forall_bytes]. intros [Hc Hs]%andb_true_iff.
  destruct (amount_byte_small c Hc) as (Hb & _ & _). rewrite runes_ascii by done. cbn [keep_amount].
  rewrite IH by done. simpl. rewrite of_byte_of.
  assert ((48 <=? byte_of c) && (byte_of c <=? 57) || (byte_of c =? 46) || (byte_of c =? 44) = true) as ->; [|done].
  unfold amount_byte, is_sep, is_digit in Hc. rewrite !orb_true_iff in Hc |- *.
  destruct Hc as [?|[Hc%Ascii.eqb_eq|Hc%Ascii.eqb_eq]]; rewrite ?Hc; auto.
Qed.

Lemma prefix_bytes p e s : HasPrefix s e = true -> forall_bytes p s = true -> forall_bytes p e = true.
Proof.
  unfold HasPrefix. revert s. induction e as [|b e IH]; intros [|c s]; simpl; try done.
  destruct (Ascii.ascii_dec b c) as [->|]; [|done]. intros Hp [-> Hs]%andb_true_iff. eauto.
Qed.

Lemma drop_bytes p n s : forall_bytes p s = true -> forall_bytes p (drop n s) = true.
Proof. revert n. induction s as [|c s IH]; intros [|n]; simpl; try done. intros [_ ?]%andb_true_iff. auto. Qed.

Lemma suffix_bytes p e s : HasSuffix s e = true -> forall_bytes p s = true -> forall_bytes p e = true.
Proof.
  unfold HasSuffix. intros [_ He%String.eqb_eq]%andb_true_iff Hs. rewrite <- He. by apply drop_bytes.
Qed.

Lemma drop_app_add n s1 s2 : drop (String.length s1 + n) (s1 ++ s2) = drop n s2.
Proof. induction s1 as [|c s1 IH]; [done|]. exact IH. Qed.

Lemma HasSuffix_app g s e : (String.length e <= String.length s)%nat -> HasSuffix (g ++ s) e = HasSuffix s e.
Proof.
  intros Hl. unfold HasSuffix. rewrite str_length_app.
  replace (String.length g + String.length s - String.length e)%nat
    with (String.length g + (String.length s - String.length e))%nat by lia.
  rewrite drop_app_add. rewrite (proj2 (Nat.leb_le _ _)), (proj2 (Nat.leb_le _ _)) by lia. done.
Qed.

Lemma Contains_app g s e : Contains s e = true -> Contains (g ++ s) e = true.
Proof.
  intros Hs. induction g as [|c g IH]; [done|].
  change (HasPrefix (String c (g ++ s)) e || Contains (g ++ s) e = true). rewrite IH. apply orb_true_r.
Qed.

Lemma replace_app g s b e new : forall_bytes amount_byte g = true -> amount_byte b = false ->
  ReplaceAll (g ++ s) (String b e) new = g ++ ReplaceAll s (String b e) new.
Proof.
  unfold ReplaceAll. intros Hg Hb. induction g as [|c g IH]; [done|].
  cbn [forall_bytes] in Hg. apply andb_true_iff in Hg as [Hc Hg].
  change (String c g ++ s) with (String c (g ++ s)). cbn [replace_from].
  assert (HasPrefix (String c (g ++ s)) (String b e) = false) as ->.
  { unfold HasPrefix. simpl. destruct (Ascii.ascii_dec b c) as [->|]; [congruence|done]. }
  by rewrite IH.
Qed.
End amount_text.

Section money_roundtrip.
Context `{UnicodeCase}.

Lemma group_digits_spec b ds : forall_bytes is_digit ds = true ->
  forall_bytes amount_byte (group_digits b ds) = true /\ stripSeparators (group_digits b ds) = ds.
Proof.
  revert b. induction ds as [|c ds IH]; intros b Hd; [done|].
  cbn [forall_bytes] in Hd. apply andb_true_iff in Hd as [Hc Hd]. destruct (IH false Hd) as [Ha Hs].
  assert (is_sep c = false) as Hsep.
  { unfold is_sep. apply orb_false_iff.
    split; apply Ascii.eqb_neq; intros He; by rewrite He in Hc. }
  assert (forall_bytes amount_byte (String c (group_digits false ds)) = true /\
          stripSeparators (String c (group_digits false ds)) = String c ds) as [Ha' Hs'].
  { unfold stripSeparators in *. simpl. unfold amount_byte at 1. by rewrite Hc, Hsep, Ha, Hs. }
  cbn [group_digits]. destruct (negb b && _); done.
Qed.

Lemma group_digits_first ds c ds' : ds = String c ds' -> exists r, group_digits true ds = String c r.
Proof. intros ->. cbn [group_digits negb andb]. eauto. Qed.

Lemma suffix_none s : Forall (fun e => HasSuffix s e = false) space_encodings -> suffix_in space_encodings s = None.
Proof.
  intros Hf. unfold suffix_in.
  assert (list_find (fun e => HasSuffix s e = true) space_encodings = None) as ->; [|done].
  apply list_find_None. eapply Forall_impl; [exact Hf|]. simpl. congruence.
Qed.

Lemma prefix_none c s : is_digit c = true -> prefix_in space_encodings (String c s) = None.
Proof.
  intros Hc. unfold prefix_in.
  assert (list_find (fun e => HasPrefix (String c s) e = true) space_encodings = None) as ->; [|done].
  apply list_find_None. apply Forall_forall. intros e He Hp.
  assert (exists b e', e = String b e' /\ is_digit b = false) as (b & e' & -> & Hb).
  { clear Hp. revert e He. apply (proj1 (Forall_forall _ _)). repeat constructor; eexists _, _; split; reflexivity. }
  unfold HasPrefix in Hp. simpl in Hp. destruct (Ascii.ascii_dec b c) as [->|]; congruence.
Qed.

Lemma trim_right_none f s : suffix_in space_encodings s = None -> trim_right_fuel f space_encodings s = s.
Proof. intros Hs. destruct f; simpl; [done|]. by rewrite Hs. Qed.

Lemma trim_left_digit f c s : is_digit c = true ->
  trim_left_fuel f space_encodings (String c s) = String c s.
Proof. intros Hc. destruct f; simpl; [done|]. by rewrite prefix_none. Qed.

Lemma amount_no_space_suffix g : forall_bytes amount_byte g = true -> suffix_in space_encodings g = None.
Proof.
  intros Hg. apply suffix_none, Forall_forall. intros e He. apply not_true_is_false. intros Hs.
  apply (suffix_bytes amount_byte) in Hs; [|done]. revert e He Hs. apply (proj1 (Forall_forall (fun e => forall_bytes amount_byte e = true -> False) _)).
  repeat constructor; discriminate.
Qed.

Lemma take_app_length s1 s2 : take (String.length s1) (s1 ++ s2) = s1.
Proof. induction s1 as [|c s1 IH]; [by destruct s2|]. exact (f_equal (String c) IH). Qed.

(** [g] is a printed integer: digits and dots, a digit first. *)
Context (g : string) (Hg : forall_bytes amount_byte g = true) (Hfirst : exists c r, g = String c r /\ is_digit c = true).

Lemma trim_printed : TrimSpace (g ++ " ₫") = g ++ " ₫".
Proof.
  destruct Hfirst as (c & r & -> & Hc). unfold TrimSpace, trim_set.
  change (String c r ++ " ₫") with (String c (r ++ " ₫")). rewrite trim_left_digit by done.
  apply trim_right_none, suffix_none. change (String c (r ++ " ₫")) with (String c r ++ " ₫").
  apply Forall_forall. intros e He.
  assert ((String.length e <= 4)%nat /\ HasSuffix " ₫" e = false) as [Hl Hs].
  { revert e He. apply (proj1 (Forall_forall _ _)). repeat constructor. }
  by rewrite HasSuffix_app.
Qed.

Lemma trim_stripped : TrimSpace (g ++ " ") = g.
Proof.
  destruct Hfirst as (c & r & E & Hc). unfold TrimSpace, trim_set.
  assert (trim_left_fuel (String.length (g ++ " ")) space_encodings (g ++ " ") = g ++ " ") as ->.
  { rewrite E. change (String c r ++ " ") with (String c (r ++ " ")). by rewrite trim_left_digit. }
  rewrite str_length_app, Nat.add_comm. cbn [Nat.add String.length trim_right_fuel].
  assert (suffix_in space_encodings (g ++ " ") = Some " ") as ->.
  { unfold suffix_in.
    assert (list_find (fun e => HasSuffix (g ++ " ") e = true) space_encodings = Some (5%nat, " ")) as ->; [|done].
    apply list_find_Some. split_and!; [done|by rewrite HasSuffix_app|].
    intros j y Hj Hlt. do 5 (destruct j as [|j]; [injection Hj as <-; by rewrite HasSuffix_app|]). lia. }
  replace (String.length (g ++ " ") - String.length " ")%nat with (String.length g)
    by (rewrite str_length_app; simpl; lia).
  rewrite take_app_length. by apply trim_right_none, amount_no_space_suffix.
Qed.

Lemma detect_printed hint : detectCurrency (g ++ " ₫") hint = ("VND", g).
Proof.
  unfold detectCurrency, vnd_marked. rewrite (Contains_app g " ₫" "₫") by done. rewrite !orb_true_r.
  cbn [String.eqb]. f_equal. unfold currency_tokens. cbn [fold_left].
  repeat (rewrite replace_app by done;
          match goal with |- context [ReplaceAll ?s ?t ""] =>
            let v := eval vm_compute in (ReplaceAll s t "") in change (ReplaceAll s t "") with v end).
  apply trim_stripped.
Qed.

Lemma no_minus : ContainsByte (g ++ " ₫") "-" = false.
Proof.
  clear Hfirst. induction g as [|c g' IH]; [done|]. cbn [forall_bytes] in Hg.
  apply andb_true_iff in Hg as [Hc Hg']. change (Ascii.eqb c "-" || ContainsByte (g' ++ " ₫") "-" = false).
  rewrite IH by done. rewrite orb_false_r. apply Ascii.eqb_neq. intros ->. discriminate Hc.
Qed.

Lemma clean_printed hint : clean_amount (g ++ " ₫") hint = Ok ("VND", g, 1).
Proof.
  unfold clean_amount. rewrite trim_printed, no_minus, detect_printed.
  assert (String.eqb (g ++ " ₫") "" = false) as ->.
  { destruct Hfirst as (c & r & -> & _). done. }
  cbn [fst snd]. rewrite ToLower_amount by done.
  assert (List.find (fun m : string * Z => HasSuffix g m.1) multipliers = None) as ->.
  { unfold multipliers. cbn [List.find fst].
    assert (forall e, forall_bytes amount_byte e = false -> HasSuffix g e = false) as Hns.
    { intros e He. apply not_true_is_false. intros Hs. apply (suffix_bytes amount_byte) in Hs; congruence. }
    by rewrite !Hns. }
  rewrite keep_amount_runes by done.
  assert (String.eqb g "" = false) as ->; [|done]. destruct Hfirst as (c & r & -> & _). done.
Qed.
End money_roundtrip.

Section money_theorems.
Context `{UnicodeCase}.

Lemma ToUpper_VND : ToUpper "VND" = "VND".
Proof. unfold ToUpper, MapRunes. cbn [runes]. simpl. rewrite !to_upper_ascii by done. done. Qed.
Lemma places_VND : CurrencyDecimalPlaces "VND" = 0%nat.
Proof. unfold CurrencyDecimalPlaces. by rewrite ToUpper_VND. Qed.

(** Money survives the chat round trip: the text [FormatMinor] renders for
    any amount of up to fifteen digits of dong, sent back as is, is read by
    [ParseAmount] as exactly that amount in VND, whatever the currency hint. *)
Theorem money_roundtrip (amount : Z) (hint : string) (Hrange : 0 <= amount < 10 ^ 15) :
  ParseAmount (FormatMinor amount "VND") hint = Ok (amount, "VND").
Proof.
  destruct (Sprintd_spec amount (proj1 Hrange)) as (Hd & Hne & Hv & Hl).
  destruct (group_digits_spec true _ Hd) as [Hg Hs]. set (g := group_digits true (Sprintd amount)) in *.
  assert (FormatMinor amount "VND" = g ++ " ₫") as ->.
  { unfold FormatMinor. rewrite ToUpper_VND, places_VND. destruct (Z.ltb_spec amount 0); [lia|]. done. }
  assert (exists c r, g = String c r /\ is_digit c = true) as Hfirst.
  { destruct (Sprintd amount) as [|c ds] eqn:He; [done|]. cbn [forall_bytes] in Hd.
    apply andb_true_iff in Hd as [Hc _]. destruct (group_digits_first _ c ds eq_refl) as [r Hr]. exists c, r. done. }
  unfold ParseAmount. rewrite clean_printed by done. rewrite places_VND, Hs. cbn [Nat.eqb andb Z.eqb Pos.eqb].
  unfold finishAmount. destruct (String.eqb_spec (Sprintd amount) ""); [done|].
  specialize (Hl 15%nat (proj2 Hrange) ltac:(lia)). rewrite (proj2 (Nat.ltb_ge _ _) Hl).
  rewrite ParseInt_short, Hv, places_VND by done. destruct (Z.ltb_spec amount 0); [lia|].
  cbn [Nat.eqb andb]. rewrite Z.mul_1_r, wrap64_id; [done|]. unfold int64_range, MinInt64, MaxInt64. lia.
Qed.
End money_theorems.

Module MoneyDemo.
#[local] Existing Instance LatinCase.
Lemma money_roundtrip_witness :
  0 <= 1250500 < 10 ^ 15 /\ FormatMinor 1250500 "VND" = "1.250.500 ₫" /\
  ParseAmount (FormatMinor 1250500 "VND") "USD" = Ok (1250500, "VND").
Proof. split; [lia|]. split; [vm_compute; reflexivity|]. apply (money_roundtrip 1250500 "USD"). lia. Defined.

Lemma ParseAmount_exact_witness :
  ParseAmount "1,5tr" "" = Ok (1500000, "VND") /\ 0 <= 1500000 <= MaxInt64.
Proof.
  assert (ParseAmount "1,5tr" "" = Ok (1500000, "VND")) as Hrun by (vm_compute; reflexivity).
  split; [exact Hrun|]. exact (proj1 (ParseAmount_exact "1,5tr" "" 1500000 "VND" Hrun)).
Defined.
End MoneyDemo.
