(* ===== verification/Unmarshal.v ===== *)
(** * JSON input

    What the program uses of encoding/json's [Unmarshal]: the syntax check with
    its nesting limit, string literals with their escapes, and the decoding of
    values into Go variables.  A decoder gets the text of a value with the value
    and updates the variable it decodes into; a type mismatch leaves the variable
    alone, decoding goes on, and the error is reported at the end.

    Shown: the fuel of the parser is always enough ([json_parse_total]); JsonRoundtrip
    shows that what [Json] writes reads back. *)
From Stdlib Require Import Ascii SpecFloat.
From S2P Require Import Prelude GoStrings Domain GoTime Json.

(** ** Values

    Elements and members carry their text, which is what a [json.RawMessage]
    keeps; numbers are their literals. *)
Inductive jv :=
| VNull
| VBool (b : bool)
| VNum (lit : string)
| VStr (s : string)
| VArr (l : list (string * jv))
| VObj (l : list (string * (string * jv))).

(** ** Lexical elements *)
Definition is_ws (c : ascii) : bool :=
  let b := byte_of c in (b =? 32) || (b =? 9) || (b =? 10) || (b =? 13).
Fixpoint skip_ws (s : string) : string :=
  match s with
  | "" => ""
  | String c s' => if is_ws c then skip_ws s' else s
  end.

Definition is_hex (c : ascii) : bool := is_digit c || in_range 65 70 c || in_range 97 102 c.
Definition hex_val (c : ascii) : Z :=
  if is_digit c then digit_val c else if in_range 97 102 c then byte_of c - 87 else byte_of c - 55.

(** The body of a string literal, after its opening quote: the text up to the
    closing quote, and what follows it. *)
Definition simple_escape (e : ascii) : bool :=
  existsb (Z.eqb (byte_of e)) [34; 92; 47; 98; 102; 110; 114; 116].
Definition push (p : string) (r : option (string * string)) : option (string * string) :=
  match r with Some (body, rest) => Some (p ++ body, rest) | None => None end.
Fixpoint scan_body (s : string) : option (string * string) :=
  match s with
  | "" => None
  | String c s1 =>
      if byte_of c =? 34 then Some ("", s1)
      else if byte_of c =? 92 then
        match s1 with
        | "" => None
        | String e s2 =>
            if simple_escape e then push (String c (String e "")) (scan_body s2)
            else if byte_of e =? 117 then
              match s2 with
              | String h1 (String h2 (String h3 (String h4 s3))) =>
                  if is_hex h1 && is_hex h2 && is_hex h3 && is_hex h4
                  then push (String c (String e (String h1 (String h2 (String h3 (String h4 "")))))) (scan_body s3)
                  else None
              | _ => None
              end
            else None
        end
      else if byte_of c <? 32 then None
      else push (String c "") (scan_body s1)
  end.

(** [getu4]: the code unit of an escape at the head of [s]. *)
Definition hex4 (s : string) : option Z :=
  match s with
  | String h1 (String h2 (String h3 (String h4 _))) =>
      if is_hex h1 && is_hex h2 && is_hex h3 && is_hex h4
      then Some (((hex_val h1 * 16 + hex_val h2) * 16 + hex_val h3) * 16 + hex_val h4) else None
  | _ => None
  end.
Definition getu4 (s : string) : option Z :=
  match s with
  | String b (String u s') => if (byte_of b =? 92) && (byte_of u =? 117) then hex4 s' else None
  | _ => None
  end.
Definition is_surrogate (r : Z) : bool := (55296 <=? r) && (r <? 57344).
(** [utf16.DecodeRune] *)
Definition decode_pair (r1 r2 : Z) : option Z :=
  if (55296 <=? r1) && (r1 <? 56320) && (56320 <=? r2) && (r2 <? 57344)
  then Some ((r1 - 55296) * 1024 + (r2 - 56320) + 65536) else None.
Definition escape_char (e : ascii) : string :=
  let b := byte_of e in
  ch (if b =? 98 then 8 else if b =? 102 then 12 else if b =? 110 then 10 else if b =? 114 then 13
      else if b =? 116 then 9 else b).
(** The rune at the head of [s]; [None] for a byte that starts no encoding. *)
Definition head_rune (s : string) : option Z :=
  let r := default RuneError (head (runes (take 4 s))) in
  if (r =? RuneError) && negb (HasPrefix s (encode_rune RuneError)) then None else Some r.

(** [unquote], on the body of a literal the scanner has accepted. *)
Fixpoint unquote (skip : nat) (s : string) : string :=
  match s with
  | "" => ""
  | String c s' =>
      match skip with
      | S k => unquote k s'
      | O =>
          if byte_of c =? 92 then
            match getu4 s with
            | Some rr =>
                if is_surrogate rr then
                  match (rr1 ← getu4 (drop 6 s); decode_pair rr rr1) with
                  | Some r => encode_rune r ++ unquote 11 s'
                  | None => encode_rune RuneError ++ unquote 5 s'
                  end
                else encode_rune rr ++ unquote 5 s'
            | None => match s' with "" => "" | String e _ => escape_char e ++ unquote 1 s' end
            end
          else if byte_of c <? 128 then String c (unquote O s')
          else match head_rune s with
               | None => encode_rune RuneError ++ unquote O s'
               | Some r => encode_rune r ++ unquote (String.length (encode_rune r) - 1) s'
               end
      end
  end.

(** Number literals: [-]int[.frac][e[+-]exp]. *)
Definition optional (p : ascii -> bool) (s : string) : string * string :=
  match s with String c s' => if p c then (String c "", s') else ("", s) | "" => ("", "") end.
Definition is_byte (b : Z) (c : ascii) : bool := byte_of c =? b.
Definition int_part (s : string) : option (string * string) :=
  match s with
  | String c s' =>
      if is_byte 48 c then Some (String c "", s')
      else if is_digit c then Some (span_digits s) else None
  | "" => None
  end.
Definition digits_after (lead : string * string) : option (string * string) :=
  if String.eqb lead.1 "" then Some ("", lead.2)
  else let d := span_digits lead.2 in if String.eqb d.1 "" then None else Some (lead.1 ++ d.1, d.2).
Definition exponent (s : string) : option (string * string) :=
  let e := optional (fun c => is_byte 101 c || is_byte 69 c) s in
  if String.eqb e.1 "" then Some ("", s)
  else let g := optional (fun c => is_byte 43 c || is_byte 45 c) e.2 in digits_after (e.1 ++ g.1, g.2).
Definition scan_number (s : string) : option (string * string) :=
  let m := optional (is_byte 45) s in
  '(i, s2) ← int_part m.2;
  '(f, s3) ← digits_after (optional (is_byte 46) s2);
  '(e, s4) ← exponent s3;
  Some (m.1 ++ i ++ f ++ e, s4).

(** ** The parser

    [Dry] is only reached when the fuel runs out. *)
Inductive parsed (A : Type) := Got (a : A) (rest : string) | Bad | Dry.
Arguments Got {A} a rest.
Arguments Bad {A}.
Arguments Dry {A}.

Definition bindp {A B} (p : parsed A) (k : A -> string -> parsed B) : parsed B :=
  match p with Got a rest => k a rest | Bad => Bad | Dry => Dry end.
Definition lift_scan {A} (p : option (A * string)) : parsed A :=
  match p with Some (a, rest) => Got a rest | None => Bad end.
Definition consumed (s rest : string) : string := take (String.length s - String.length rest) s.
Definition maxNestingDepth : Z := 10000.

Section containers.
Context (pv : string -> parsed jv).

Fixpoint elements (fuel : nat) (s : string) : parsed (list (string * jv)) :=
  match fuel with
  | O => Dry
  | S f =>
      bindp (pv s) (fun v r =>
      match skip_ws r with
      | String c r' =>
          if is_byte 44 c then bindp (elements f (skip_ws r')) (fun l => Got ((consumed s r, v) :: l))
          else if is_byte 93 c then Got [(consumed s r, v)] r'
          else Bad
      | "" => Bad
      end)
  end.

Definition member_key (s : string) : parsed string :=
  match s with
  | String q s1 =>
      if is_byte 34 q then
        bindp (lift_scan (scan_body s1)) (fun body r =>
        match skip_ws r with
        | String c r' => if is_byte 58 c then Got (unquote O body) (skip_ws r') else Bad
        | "" => Bad
        end)
      else Bad
  | "" => Bad
  end.
Fixpoint members (fuel : nat) (s : string) : parsed (list (string * (string * jv))) :=
  match fuel with
  | O => Dry
  | S f =>
      bindp (member_key s) (fun key s1 =>
      bindp (pv s1) (fun v r =>
      match skip_ws r with
      | String c r' =>
          if is_byte 44 c then bindp (members f (skip_ws r')) (fun l => Got ((key, (consumed s1 r, v)) :: l))
          else if is_byte 125 c then Got [(key, (consumed s1 r, v))] r'
          else Bad
      | "" => Bad
      end))
  end.
End containers.

Definition keyword (s : string) : parsed jv :=
  if HasPrefix s "null" then Got VNull (drop 4 s)
  else if HasPrefix s "true" then Got (VBool true) (drop 4 s)
  else if HasPrefix s "false" then Got (VBool false) (drop 5 s)
  else bindp (lift_scan (scan_number s)) (fun lit => Got (VNum lit)).
Definition closes (b : Z) (s : string) : option string :=
  match s with String c s' => if is_byte b c then Some s' else None | "" => None end.

(** One value at the head of [s], inside [depth] open containers. *)
Fixpoint value (fuel : nat) (depth : Z) (s : string) : parsed jv :=
  match fuel with
  | O => Dry
  | S f =>
      match s with
      | "" => Bad
      | String c s' =>
          if is_byte 91 c then
            if maxNestingDepth <=? depth then Bad
            else match closes 93 (skip_ws s') with
                 | Some r => Got (VArr []) r
                 | None => bindp (elements (value f (depth + 1)) f (skip_ws s')) (fun l => Got (VArr l))
                 end
          else if is_byte 123 c then
            if maxNestingDepth <=? depth then Bad
            else match closes 125 (skip_ws s') with
                 | Some r => Got (VObj []) r
                 | None => bindp (members (value f (depth + 1)) f (skip_ws s')) (fun l => Got (VObj l))
                 end
          else if is_byte 34 c then bindp (lift_scan (scan_body s')) (fun body => Got (VStr (unquote O body)))
          else keyword s
      end
  end.

(** [checkValid] and the parse of the whole text; every recursive call is on a
    shorter text, so its length is enough fuel ([json_parse_total]). *)
Definition parse_json (s : string) : option jv :=
  match value (S (String.length s)) 0 (skip_ws s) with
  | Got v rest => if String.eqb (skip_ws rest) "" then Some v else None
  | Bad | Dry => None
  end.

(** ** Decoding

    A decoder maps the text and value being decoded and the variable's old
    contents to its new contents, with [false] for a type mismatch. *)
Definition Decoder (T : Type) := string * jv -> T -> T * bool.

Definition d_string : Decoder string := fun rv old =>
  match rv.2 with VStr s => (s, true) | VNull => (old, true) | _ => (old, false) end.
Definition d_bool : Decoder bool := fun rv old =>
  match rv.2 with VBool b => (b, true) | VNull => (old, true) | _ => (old, false) end.
Definition d_int64 : Decoder Z := fun rv old =>
  match rv.2 with
  | VNum lit => match ParseInt lit with Some n => (n, true) | None => (old, false) end
  | VNull => (old, true)
  | _ => (old, false)
  end.
Definition d_raw : Decoder string := fun rv _ => (rv.1, true).
(** A pointer: null clears it, any other value allocates what it points to. *)
Definition d_ptr {T} (zero : T) (d : Decoder T) : Decoder (option T) := fun rv old =>
  match rv.2 with
  | VNull => (None, true)
  | _ => let r := d rv (default zero old) in (Some r.1, r.2)
  end.

(** Struct fields: names match exactly or, failing that, up to simple case
    folding, under which U+017F is an s and U+212A is a k. *)
Definition fold_rune (r : Z) : Z := if r =? 383 then 83 else if r =? 8490 then 75 else ascii_upper r.
Definition same_folded (a b : string) : bool := bool_decide (fold_rune <$> runes a = fold_rune <$> runes b).
Definition field_for {A} (fields : list (string * A)) (key : string) : option A :=
  match List.find (fun f => String.eqb f.1 key) fields with
  | Some f => Some f.2
  | None => snd <$> List.find (fun f => same_folded f.1 key) fields
  end.
Definition d_struct {T} (fields : list (string * Decoder T)) : Decoder T := fun rv old =>
  match rv.2 with
  | VObj kvs =>
      fold_left (fun acc kv =>
        match field_for fields kv.1 with
        | Some d => let r := d kv.2 acc.1 in (r.1, acc.2 && r.2)
        | None => acc
        end) kvs (old, true)
  | VNull => (old, true)
  | _ => (old, false)
  end.
Definition at_field {T A} (get : T -> A) (put : A -> T -> T) (d : Decoder A) : Decoder T := fun rv old =>
  let r := d rv (get old) in (put r.1 old, r.2).

(** Slices: an array is decoded over the elements the backing array already
    has; [sl_len] of them are the slice. *)
Record Slice (T : Type) := mkSlice { sl_back : list T; sl_len : nat }.
Arguments mkSlice {T}.
Arguments sl_back {T}.
Arguments sl_len {T}.
Definition nil_slice {T} : Slice T := mkSlice [] 0.
Definition slice_list {T} (s : Slice T) : list T := List.firstn (sl_len s) (sl_back s).
Fixpoint d_elems {T} (zero : T) (d : Decoder T) (vs : list (string * jv)) (back : list T) : list T * bool :=
  match vs with
  | [] => (back, true)
  | v :: vs' =>
      let r := d v (default zero (head back)) in
      let rest := d_elems zero d vs' (List.tl back) in
      (r.1 :: rest.1, r.2 && rest.2)
  end.
Definition d_slice {T} (zero : T) (d : Decoder T) : Decoder (Slice T) := fun rv old =>
  match rv.2 with
  | VArr [] => (nil_slice, true)
  | VArr vs => let r := d_elems zero d vs (sl_back old) in (mkSlice r.1 (List.length vs), r.2)
  | VNull => (nil_slice, true)
  | _ => (old, false)
  end.
(** Maps: each member is decoded into a fresh element. *)
Definition d_map {T} (zero : T) (d : Decoder T) : Decoder (gmap string T) := fun rv old =>
  match rv.2 with
  | VObj kvs =>
      fold_left (fun acc kv => let r := d kv.2 zero in (<[kv.1 := r.1]> acc.1, acc.2 && r.2)) kvs (old, true)
  | VNull => (∅, true)
  | _ => (old, false)
  end.

(** [json.Unmarshal(text, &v)]: the variable's contents after the call, and
    whether the call returned no error. *)
Definition Unmarshal {T} (d : Decoder T) (text : string) (old : T) : T * bool :=
  match parse_json text with
  | None => (old, false)
  | Some v => d (text, v) old
  end.

(** ** Floating-point literals

    [strconv.ParseFloat(lit, 64)]: the nearest binary64, ties to even; a literal
    that overflows is an error. *)
Definition float_of_ratio (neg : bool) (m d : Z) : float64 :=
  let sh := Z.max 0 (Z.log2 d - Z.log2 m + 66) in
  let q := m * 2 ^ sh / d in
  let sticky := if m * 2 ^ sh mod d =? 0 then 0 else 1 in
  binary_normalize 53 1024 ((if neg then -1 else 1) * (2 * q + sticky)) (- sh - 1) neg.
Definition float_of_decimal (neg : bool) (m e : Z) : float64 :=
  if m =? 0 then S754_zero neg
  else if 0 <=? e then binary_normalize 53 1024 ((if neg then -1 else 1) * (m * 10 ^ e)) 0 neg
  else float_of_ratio neg m (10 ^ (- e)).
Definition exponent_of (s : string) : Z :=
  match s with
  | String _ s' => let g := optional (fun c => is_byte 43 c || is_byte 45 c) s' in
                   if String.eqb g.1 "-" then - number g.2 else number g.2
  | "" => 0
  end.
Definition ParseFloat_lit (lit : string) : option float64 :=
  let m := optional (is_byte 45) lit in
  let i := span_digits m.2 in
  let dot := optional (is_byte 46) i.2 in
  let f := if String.eqb dot.1 "" then ("", i.2) else span_digits dot.2 in
  let e := exponent_of f.2 - Z.of_nat (String.length f.1) in
  match float_of_decimal (negb (String.eqb m.1 "")) (number (i.1 ++ f.1)) e with
  | S754_infinity _ => None
  | x => Some x
  end.
Definition d_float : Decoder float64 := fun rv old =>
  match rv.2 with
  | VNum lit => match ParseFloat_lit lit with Some x => (x, true) | None => (old, false) end
  | VNull => (old, true)
  | _ => (old, false)
  end.

Module UnmarshalExamples.
Definition q (s : string) : string := quoted s.
Example parse_ex :
  parse_json (" {" ++ q "a" ++ ": [1, -2.5e+3 , null], " ++ q "b\u00e9\n" ++ ":" ++ q "\ud83d\ude00\ud83d" ++ " } ") =
  Some (VObj [("a", ("[1, -2.5e+3 , null]", VArr [("1", VNum "1"); ("-2.5e+3", VNum "-2.5e+3"); ("null", VNull)]));
              ("bé" ++ newline, (q "\ud83d\ude00\ud83d", VStr "😀�"))]).
Proof. vm_compute. reflexivity. Qed.
Example parse_bad :
  parse_json "" = None /\ parse_json "01" = None /\ parse_json "[1,]" = None /\ parse_json "{} x" = None /\
  parse_json "nul" = None /\ parse_json "1." = None /\ parse_json (q "\x") = None /\ parse_json (q newline) = None.
Proof. vm_compute. split_and!; reflexivity. Qed.
Example float_ex :
  ParseFloat_lit "0.95" = Some (S754_finite false 8556839292003942 (-53)) /\
  ParseFloat_lit "1e400" = None /\ ParseFloat_lit "-0" = Some (S754_zero true) /\
  ParseFloat_lit "5e-324" = Some (S754_finite false 1 (-1074)) /\
  ParseFloat_lit "9007199254740993" = Some (S754_finite false 4503599627370496 1).
Proof. vm_compute. split_and!; reflexivity. Qed.
End UnmarshalExamples.

(** ** The fuel is enough *)
Section progress.
Local Open Scope nat_scope.
Abbreviation len := String.length.

Lemma skip_ws_len s : len (skip_ws s) <= len s.
Proof. induction s as [|c s IH]; simpl; [lia|]. destruct (is_ws c); simpl; lia. Qed.
Lemma span_digits_len s : len (span_digits s).1 + len (span_digits s).2 = len s.
Proof. induction s as [|c s IH]; simpl; [done|]. destruct (is_digit c); simpl; lia. Qed.
Lemma optional_len p s : len (optional p s).1 + len (optional p s).2 = len s.
Proof. destruct s as [|c s]; simpl; [done|]. destruct (p c); simpl; lia. Qed.
Lemma drop_len n s : len (drop n s) = len s - n.
Proof. revert s. induction n as [|n IH]; intros [|c s]; simpl; try done; try lia; try apply IH. Qed.
Lemma prefix_len s pre : HasPrefix s pre = true -> len pre <= len s.
Proof.
  revert s. induction pre as [|c pre IH]; intros [|c' s]; simpl; try lia; try done.
  unfold HasPrefix. simpl. destruct (Ascii.ascii_dec c c'); [|done]. intros H%IH. lia.
Qed.

Definition shrinks {A} (p : option (A * string)) (s : string) : Prop := forall a r, p = Some (a, r) -> len r < len s.

Lemma scan_body_shrinks s : shrinks (scan_body s) s.
Proof.
  assert (Hgen : forall n s, len s <= n -> shrinks (scan_body s) s).
  { induction n as [|n IH]; intros [|c s1] Hn a r; simpl in *; try lia; try done.
    assert (Hrec : forall p s', len s' <= n -> push p (scan_body s') = Some (a, r) -> len r < len s').
    { unfold push. intros p s' Hs' Hp. destruct (scan_body s') as [[b r']|] eqn:He; [|done]. simplify_eq. by eapply (IH s'). }
    destruct (byte_of c =? 34)%Z; [intros; simplify_eq; lia|]. destruct (byte_of c =? 92)%Z.
    - destruct s1 as [|e s2]; [done|]. simpl in *. destruct (simple_escape e); [intros Hx%Hrec; lia|].
      destruct (byte_of e =? 117)%Z; [|done].
      destruct s2 as [|h1 [|h2 [|h3 [|h4 s3]]]]; try done. simpl in *. case_match; [|done]. intros Hx%Hrec; lia.
    - destruct (byte_of c <? 32)%Z; [done|]. intros Hx%Hrec; lia. }
  by apply (Hgen (len s)).
Qed.

Lemma int_part_shrinks s : shrinks (int_part s) s.
Proof.
  intros a r. unfold int_part. destruct s as [|c s]; [done|]. destruct (is_byte 48 c); [intros; simplify_eq; simpl; lia|].
  destruct (is_digit c) eqn:Hd; [|done]. pose proof (span_digits_len s). simpl. rewrite Hd. intros. simplify_eq. simpl. lia.
Qed.
Lemma digits_after_len l a r : digits_after l = Some (a, r) -> len r <= len l.2.
Proof.
  unfold digits_after. pose proof (span_digits_len l.2). repeat case_match; intros; simplify_eq; lia.
Qed.
Lemma exponent_len s a r : exponent s = Some (a, r) -> len r <= len s.
Proof.
  unfold exponent. set (e := optional _ s). set (g := optional _ e.2).
  assert (len e.2 <= len s) by (pose proof (optional_len (fun c => is_byte 101 c || is_byte 69 c) s); fold e in H; lia).
  assert (len g.2 <= len e.2) by (pose proof (optional_len (fun c => is_byte 43 c || is_byte 45 c) e.2); fold g in H0; lia).
  case_match; [intros; simplify_eq; lia|]. intros Hd%digits_after_len. simpl in Hd. lia.
Qed.
Lemma scan_number_shrinks s : shrinks (scan_number s) s.
Proof.
  intros a r. unfold scan_number. pose proof (optional_len (is_byte 45) s) as Ho. destruct (optional (is_byte 45) s) as [m s1]. simpl in *.
  destruct (int_part s1) as [[i s2]|] eqn:Hi; [|done]. apply int_part_shrinks in Hi. simpl.
  pose proof (optional_len (is_byte 46) s2) as Ho2.
  destruct (digits_after _) as [[f s3]|] eqn:Hf; [|done]. apply digits_after_len in Hf. simpl.
  destruct (exponent s3) as [[e s4]|] eqn:He; [|done]. apply exponent_len in He. simpl. intros. simplify_eq. lia.
Qed.

(** A parser of values that shortens its input and never runs dry below [n]. *)
Definition advances {A} (p : string -> parsed A) : Prop := forall s a r, p s = Got a r -> len r < len s.
Definition wet {A} (n : nat) (p : string -> parsed A) : Prop := forall s, len s < n -> p s <> Dry.

Lemma bindp_Got {A B} (p : parsed A) (k : A -> string -> parsed B) b r :
  bindp p k = Got b r -> exists a r', p = Got a r' /\ k a r' = Got b r.
Proof. destruct p; simpl; try done. eauto. Qed.
Lemma bindp_wet {A B} (p : parsed A) (k : A -> string -> parsed B) :
  p <> Dry -> (forall a r, p = Got a r -> k a r <> Dry) -> bindp p k <> Dry.
Proof. destruct p; simpl; try done. eauto. Qed.
Lemma lift_scan_Got {A} (p : option (A * string)) a r : lift_scan p = Got a r -> p = Some (a, r).
Proof. destruct p as [[]|]; simpl; [|done]. intros. by simplify_eq. Qed.

Lemma member_key_advances : advances member_key.
Proof.
  intros [|q s1] a r; simpl; [done|]. destruct (is_byte 34 q); [|done].
  intros (body & r1 & Hb & Hk)%bindp_Got. apply lift_scan_Got, scan_body_shrinks in Hb.
  pose proof (skip_ws_len r1). destruct (skip_ws r1) as [|c r']; [done|]. destruct (is_byte 58 c); [|done].
  simplify_eq. pose proof (skip_ws_len r'). simpl in *. lia.
Qed.
Lemma member_key_wet s : member_key s <> Dry.
Proof.
  destruct s as [|q s1]; simpl; [done|]. destruct (is_byte 34 q); [|done]. apply bindp_wet; [by destruct (scan_body s1) as [[]|]|].
  intros body r _. destruct (skip_ws r) as [|c r']; [done|]. by destruct (is_byte 58 c).
Qed.

Section containers.
Context (pv : string -> parsed jv) (Hpv : advances pv).

Lemma elements_advances f : advances (elements pv f).
Proof.
  induction f as [|f IH]; intros s a r; simpl; [done|].
  intros (v & r1 & Hv%Hpv & Hk)%bindp_Got. pose proof (skip_ws_len r1).
  destruct (skip_ws r1) as [|c r']; [done|]. simpl in *. destruct (is_byte 44 c).
  - apply bindp_Got in Hk as (l & r2 & Hl%IH & Hg). simplify_eq. pose proof (skip_ws_len r'). lia.
  - destruct (is_byte 93 c); [|done]. simplify_eq. lia.
Qed.
Lemma members_advances f : advances (members pv f).
Proof.
  induction f as [|f IH]; intros s a r; simpl; [done|].
  intros (key & s1 & Hkey%member_key_advances & Hk)%bindp_Got. apply bindp_Got in Hk as (v & r1 & Hv%Hpv & Hk).
  pose proof (skip_ws_len r1). destruct (skip_ws r1) as [|c r']; [done|]. simpl in *. destruct (is_byte 44 c).
  - apply bindp_Got in Hk as (l & r2 & Hl%IH & Hg). simplify_eq. pose proof (skip_ws_len r'). lia.
  - destruct (is_byte 125 c); [|done]. simplify_eq. lia.
Qed.
Lemma elements_wet n f s : wet n pv -> len s < n -> len s < f -> elements pv f s <> Dry.
Proof.
  intros Hw. revert s. induction f as [|f IH]; intros s Hn Hf; [lia|]. simpl.
  apply bindp_wet; [by apply Hw|]. intros v r1 Hv%Hpv. pose proof (skip_ws_len r1).
  destruct (skip_ws r1) as [|c r']; [done|]. simpl in *. destruct (is_byte 44 c); [|by destruct (is_byte 93 c)].
  pose proof (skip_ws_len r'). apply bindp_wet; [apply IH; lia|done].
Qed.
Lemma members_wet n f s : wet n pv -> len s < n -> len s < f -> members pv f s <> Dry.
Proof.
  intros Hw. revert s. induction f as [|f IH]; intros s Hn Hf; [lia|]. simpl.
  apply bindp_wet; [apply member_key_wet|]. intros key s1 Hkey%member_key_advances.
  apply bindp_wet; [apply Hw; lia|]. intros v r1 Hv%Hpv. pose proof (skip_ws_len r1).
  destruct (skip_ws r1) as [|c r']; [done|]. simpl in *. destruct (is_byte 44 c); [|by destruct (is_byte 125 c)].
  pose proof (skip_ws_len r'). apply bindp_wet; [apply IH; lia|done].
Qed.
End containers.

Lemma keyword_step s pre : HasPrefix s pre = true -> pre <> "" -> len (drop (len pre) s) < len s.
Proof. intros Hp%prefix_len Hne. rewrite drop_len. destruct pre; [done|]. simpl in *. lia. Qed.
Lemma keyword_advances : advances keyword.
Proof.
  intros s a r. unfold keyword.
  destruct (HasPrefix s "null") eqn:H1; [by intros [= <- <-]; apply keyword_step in H1|].
  destruct (HasPrefix s "true") eqn:H2; [by intros [= <- <-]; apply keyword_step in H2|].
  destruct (HasPrefix s "false") eqn:H3; [by intros [= <- <-]; apply keyword_step in H3|].
  intros (lit & r1 & Hl & Hg)%bindp_Got. simplify_eq. by apply lift_scan_Got, scan_number_shrinks in Hl.
Qed.
Lemma keyword_wet s : keyword s <> Dry.
Proof. unfold keyword. repeat case_match; try done. by destruct (scan_number s) as [[]|]. Qed.
Lemma closes_len b s r : closes b s = Some r -> len r < len s.
Proof. destruct s as [|c s]; simpl; [done|]. destruct (is_byte b c); [|done]. intros. simplify_eq. lia. Qed.

Lemma value_advances f d : advances (value f d).
Proof.
  revert d. induction f as [|f IH]; intros d s a r; simpl; [done|]. destruct s as [|c s']; [done|].
  pose proof (skip_ws_len s') as Hws.
  destruct (is_byte 91 c); [|destruct (is_byte 123 c); [|destruct (is_byte 34 c)]].
  1,2: destruct (maxNestingDepth <=? d)%Z; [done|].
  - destruct (closes 93 (skip_ws s')) as [r'|] eqn:Hc; [intros; simplify_eq; apply closes_len in Hc; simpl; lia|].
    intros (l & r1 & Hl%elements_advances & Hg)%bindp_Got; [|apply IH]. simplify_eq. simpl. lia.
  - destruct (closes 125 (skip_ws s')) as [r'|] eqn:Hc; [intros; simplify_eq; apply closes_len in Hc; simpl; lia|].
    intros (l & r1 & Hl%members_advances & Hg)%bindp_Got; [|apply IH]. simplify_eq. simpl. lia.
  - intros (b & r1 & Hl%lift_scan_Got%scan_body_shrinks & Hg)%bindp_Got. simplify_eq. simpl. lia.
  - apply keyword_advances.
Qed.
Lemma value_wet f d : wet f (value f d).
Proof.
  revert d. induction f as [|f IH]; intros d s Hs; [lia|]. simpl. destruct s as [|c s']; [done|]. simpl in Hs.
  pose proof (skip_ws_len s') as Hws.
  destruct (is_byte 91 c); [|destruct (is_byte 123 c); [|destruct (is_byte 34 c)]].
  1,2: destruct (maxNestingDepth <=? d)%Z; [done|].
  - destruct (closes 93 _); [done|].
    apply bindp_wet; [eapply (elements_wet _ (value_advances _ _)); [apply IH|lia|lia]|done].
  - destruct (closes 125 _); [done|].
    apply bindp_wet; [eapply (members_wet _ (value_advances _ _)); [apply IH|lia|lia]|done].
  - by destruct (scan_body s') as [[]|].
  - apply keyword_wet.
Qed.

(** [parse_json] never stops for want of fuel: it decides every text. *)
Lemma json_parse_total s : value (S (len s)) 0 (skip_ws s) <> Dry.
Proof. apply value_wet. pose proof (skip_ws_len s). lia. Qed.
End progress.
