(* ===== verification/JsonRoundtrip.v ===== *)
(** * What is written as JSON reads back

    [Json]'s encoder against [Unmarshal]'s parser: valid UTF-8 survives the
    escaping of string literals, decimals carry no leading zero, and a value
    parses to itself with the text of each of its parts. *)
From Stdlib Require Import Ascii.
From S2P Require Import Prelude GoStrings Domain GoTime Json Normalise Unmarshal.

(** ** Strings read back as they were written *)
(** Decides the comparisons of a goal by linear arithmetic. *)
Ltac zbool := repeat match goal with
  | |- context [?a <? ?b] => first [rewrite (proj2 (Z.ltb_lt a b)) by lia | rewrite (proj2 (Z.ltb_ge a b)) by lia]
  | |- context [?a <=? ?b] => first [rewrite (proj2 (Z.leb_le a b)) by lia | rewrite (proj2 (Z.leb_gt a b)) by lia]
  | |- context [?a =? ?b] => first [rewrite (proj2 (Z.eqb_eq a b)) by lia | rewrite (proj2 (Z.eqb_neq a b)) by lia]
  end.
Ltac bytes := rewrite ?byte_of_of_byte by lia.

Section strings.

Definition scalar (r : Z) : bool := (0 <=? r) && (r <=? 1114111) && negb (is_surrogate r).
Definition utf8 (rs : list Z) : string := String.concat "" (encode_rune <$> rs).
(** [utf8.ValidString] *)
Definition valid_utf8 (s : string) : bool := forallb scalar (runes s) && String.eqb (utf8 (runes s)) s.

Lemma scalar_iff r : scalar r = true <-> 0 <= r <= 1114111 /\ (r < 55296 \/ 57344 <= r).
Proof.
  unfold scalar, is_surrogate. rewrite !andb_true_iff, negb_true_iff, andb_false_iff, !Z.leb_le, Z.leb_gt, Z.ltb_ge. lia.
Qed.

(** The bytes of an encoded rune. *)
Definition rune_bytes (r : Z) : list Z :=
  if r <? 128 then [r]
  else if r <? 2048 then [192 + r / 64; 128 + r mod 64]
  else if r <? 65536 then [224 + r / 4096; 128 + (r / 64) mod 64; 128 + r mod 64]
  else [240 + r / 262144; 128 + (r / 4096) mod 64; 128 + (r / 64) mod 64; 128 + r mod 64].
Lemma encode_rune_bytes r : scalar r = true -> encode_rune r = bytes_string (rune_bytes r).
Proof.
  intros Hr%scalar_iff. unfold encode_rune, rune_bytes. f_equal.
  destruct (Z.ltb_spec r 128); zbool; simpl; [done|].
  destruct (Z.ltb_spec r 2048); zbool; simpl; [done|].
  replace ((55296 <=? r) && (r <=? 57343)) with false; [done|].
  symmetry. apply andb_false_iff. rewrite Z.leb_gt, Z.leb_gt. lia.
Qed.

Lemma str_app_cons c (s t : string) : (String c s ++ t)%string = String c (s ++ t).
Proof. done. Qed.
Lemma bytes_string_cons b l : bytes_string (b :: l) = String (of_byte b) (bytes_string l).
Proof. done. Qed.

(** Base-64 digits of a rune, as numbers linear arithmetic can use. *)
Lemma rune_digits r : 0 <= r -> exists a b c d, r = 262144 * a + 4096 * b + 64 * c + d /\ 0 <= a /\ 0 <= b < 64 /\ 0 <= c < 64 /\ 0 <= d < 64 /\
  r / 64 = 4096 * a + 64 * b + c /\ r mod 64 = d /\ r / 4096 = 64 * a + b /\ (r / 64) mod 64 = c /\ r / 262144 = a /\ (r / 4096) mod 64 = b.
Proof.
  intros Hr. exists (r / 262144), ((r / 4096) mod 64), ((r / 64) mod 64), (r mod 64).
  replace (r / 262144) with (r / 64 / 64 / 64) by (rewrite !Z.div_div; lia || done).
  replace (r / 4096) with (r / 64 / 64) by (rewrite Z.div_div; lia || done). euclid.
Qed.
(** One step of [runes] on two, three and four bytes. *)
Lemma runes_step c0 s1 : runes (String c0 s1) =
  if byte_of c0 <? 128 then byte_of c0 :: runes s1 else
  match s1 with
  | "" => [RuneError]
  | String c1 s2 =>
      if (194 <=? byte_of c0) && (byte_of c0 <=? 223) && cont c1
      then ((byte_of c0 - 192) * 64 + (byte_of c1 - 128)) :: runes s2 else
      match s2 with
      | "" => RuneError :: runes s1
      | String c2 s3 =>
          if (224 <=? byte_of c0) && (byte_of c0 <=? 239) && accept2 (byte_of c0) c1 && cont c2
          then ((byte_of c0 - 224) * 4096 + (byte_of c1 - 128) * 64 + (byte_of c2 - 128)) :: runes s3 else
          match s3 with
          | "" => RuneError :: runes s1
          | String c3 s4 =>
              if (240 <=? byte_of c0) && (byte_of c0 <=? 244) && accept2 (byte_of c0) c1 && cont c2 && cont c3
              then ((byte_of c0 - 240) * 262144 + (byte_of c1 - 128) * 4096
                    + (byte_of c2 - 128) * 64 + (byte_of c3 - 128)) :: runes s4
              else RuneError :: runes s1
          end
      end
  end.
Proof. reflexivity. Qed.
Lemma in_range_byte lo hi b : 0 <= b < 256 -> lo <= b <= hi -> in_range lo hi (of_byte b) = true.
Proof. intros Hb Hr. unfold in_range. bytes. by zbool. Qed.
Lemma cont_byte x : 0 <= x < 64 -> cont (of_byte (128 + x)) = true.
Proof. intros. by apply (in_range_byte 128 191); lia. Qed.

Lemma runes_encode r t : scalar r = true -> runes (encode_rune r ++ t) = r :: runes t.
Proof.
  intros Hs. rewrite encode_rune_bytes by done. apply scalar_iff in Hs as [Hr Hsur]. unfold rune_bytes.
  destruct (rune_digits r) as (a & b & c & d & Hsum & Ha & Hb & Hc & Hd & -> & -> & -> & -> & -> & ->); [lia|].
  destruct (Z.ltb_spec r 128); [|destruct (Z.ltb_spec r 2048); [|destruct (Z.ltb_spec r 65536)]];
    rewrite !bytes_string_cons; rewrite !str_app_cons; change (bytes_string [] ++ t)%string with t;
    rewrite runes_step; bytes; cbv beta match; rewrite ?cont_byte by lia; zbool; cbn [andb].
  - done.
  - f_equal. lia.
  - replace (accept2 _ _) with true; [cbn [andb]; f_equal; lia|]. symmetry.
    unfold accept2. repeat case_match; try apply cont_byte; try lia; apply in_range_byte; rewrite ?Z.eqb_eq in *; lia.
  - replace (accept2 _ _) with true; [cbn [andb]; f_equal; lia|]. symmetry.
    unfold accept2. repeat case_match; try apply cont_byte; try lia; apply in_range_byte; rewrite ?Z.eqb_eq in *; lia.
Qed.
Lemma take_app_long n (p t : string) : (String.length p <= n)%nat -> take n (p ++ t) = (p ++ take (n - String.length p) t)%string.
Proof.
  revert n. induction p as [|c p IH]; intros n Hn; [by replace (n - _)%nat with n by (simpl; lia)|].
  destruct n as [|n]; simpl in Hn; [lia|]. rewrite !str_app_cons. simpl. by rewrite IH by lia.
Qed.
Lemma encode_rune_len r : scalar r = true -> (1 <= String.length (encode_rune r) <= 4)%nat.
Proof. intros Hs. rewrite encode_rune_bytes by done. unfold rune_bytes. repeat case_match; simpl; lia. Qed.
Lemma prefix_app (p t : string) : HasPrefix (p ++ t) p = true.
Proof. unfold HasPrefix. induction p as [|c p IH]; [by destruct t|]. rewrite str_app_cons. simpl. by destruct (ascii_dec c c). Qed.
Lemma first_rune r t : scalar r = true -> default RuneError (head (runes (take 4 (encode_rune r ++ t)))) = r.
Proof. intros Hs. pose proof (encode_rune_len r Hs). rewrite take_app_long by lia. by rewrite runes_encode. Qed.
Lemma no_replacement r t : (r =? RuneError) && negb (HasPrefix (encode_rune r ++ t) (encode_rune RuneError)) = false.
Proof. destruct (Z.eqb_spec r RuneError) as [->|]; [by rewrite prefix_app|done]. Qed.

(** Counters skip exactly the text they count. *)
Lemma json_chars_skip (p t : string) : json_chars (String.length p) (p ++ t) = json_chars O t.
Proof. induction p as [|c p IH]; [done|]. exact IH. Qed.
Lemma unquote_skip (p t : string) : unquote (String.length p) (p ++ t) = unquote O t.
Proof. induction p as [|c p IH]; [done|]. exact IH. Qed.

(** What the encoder writes for a rune. *)
Definition json_rune (r : Z) : string :=
  if r <? 128 then json_ascii r else if (r =? 8232) || (r =? 8233) then u_escape r else encode_rune r.

Lemma encode_small r : 0 <= r < 128 -> encode_rune r = ch r.
Proof. intros Hr. unfold encode_rune. by zbool. Qed.
Lemma encode_big r : scalar r = true -> 128 <= r -> exists b p, encode_rune r = String (of_byte b) p /\ 128 <= b < 256.
Proof.
  intros Hs Hr. rewrite encode_rune_bytes by done. apply scalar_iff in Hs as [Hb _]. unfold rune_bytes. zbool.
  repeat case_match; eexists _, _; (split; [apply bytes_string_cons|]);
    repeat match goal with H : (_ <? _) = true |- _ => apply Z.ltb_lt in H end; euclid.
Qed.

Lemma json_chars_rune r t : scalar r = true -> json_chars O (encode_rune r ++ t) = (json_rune r ++ json_chars O t)%string.
Proof.
  intros Hs. unfold json_rune. destruct (Z.ltb_spec r 128) as [Hlt|Hge].
  { pose proof Hs as Hr%scalar_iff. rewrite encode_small by lia. unfold ch. rewrite str_app_cons. simpl. bytes. by zbool. }
  destruct (encode_big r Hs Hge) as (b & p & He & Hb).
  pose proof (first_rune r t Hs) as Hf. pose proof (no_replacement r t) as Hn. pose proof (json_chars_skip p t) as Hk.
  rewrite He in *. rewrite str_app_cons in *. cbn [json_chars]. bytes. zbool. rewrite Hf, Hn, He. simpl String.length.
  rewrite Nat.sub_succ, Nat.sub_0_r, Hk. done.
Qed.

(** Hexadecimal escapes. *)
Lemma hex_digit_ok d : 0 <= d < 16 -> is_hex (hex_digit d) = true /\ hex_val (hex_digit d) = d.
Proof.
  intros Hd. assert (Hb : byte_of (hex_digit d) = if d <? 10 then 48 + d else 87 + d).
  { unfold hex_digit. apply byte_of_of_byte. destruct (d <? 10) eqn:He; [apply Z.ltb_lt in He|]; lia. }
  unfold is_hex, hex_val, digit_val, in_range, is_digit. rewrite Hb. destruct (Z.ltb_spec d 10); zbool; simpl; lia.
Qed.
Definition hexes (r : Z) : string :=
  String (hex_digit (r / 4096 mod 16)) (String (hex_digit (r / 256 mod 16)) (String (hex_digit (r / 16 mod 16)) (String (hex_digit (r mod 16)) ""))).
Lemma u_escape_hexes r : u_escape r = String (of_byte 92) (String (of_byte 117) (hexes r)).
Proof. done. Qed.
Lemma getu4_escape r t : 0 <= r < 65536 -> getu4 (u_escape r ++ t) = Some r.
Proof.
  intros Hr. rewrite u_escape_hexes. unfold hexes. rewrite !str_app_cons. unfold getu4.
  change (byte_of (of_byte 92) =? 92) with true. change (byte_of (of_byte 117) =? 117) with true. cbn [andb hex4].
  destruct (hex_digit_ok (r / 4096 mod 16)) as [-> ->]; [euclid|]. destruct (hex_digit_ok (r / 256 mod 16)) as [-> ->]; [euclid|].
  destruct (hex_digit_ok (r / 16 mod 16)) as [-> ->]; [euclid|]. destruct (hex_digit_ok (r mod 16)) as [-> ->]; [euclid|].
  cbn [andb]. f_equal. euclid.
Qed.
Lemma unquote_escape r t : 0 <= r < 65536 -> is_surrogate r = false -> unquote O (u_escape r ++ t) = (encode_rune r ++ unquote O t)%string.
Proof.
  intros Hr Hs. pose proof (getu4_escape r t Hr) as Hg. rewrite u_escape_hexes in *. rewrite str_app_cons in *.
  cbn [unquote]. change (byte_of (of_byte 92) =? 92) with true. cbn match. rewrite Hg, Hs.
  by rewrite (unquote_skip (String (of_byte 117) (hexes r)) t : unquote 5 _ = _).
Qed.
Lemma scan_escape r t : 0 <= r < 65536 -> scan_body (u_escape r ++ t) = push (u_escape r) (scan_body t).
Proof.
  intros Hr. rewrite u_escape_hexes. unfold hexes. rewrite !str_app_cons. cbn [scan_body].
  change (byte_of (of_byte 92) =? 34) with false. change (byte_of (of_byte 92) =? 92) with true.
  change (simple_escape (of_byte 117)) with false. change (byte_of (of_byte 117) =? 117) with true. cbv beta match.
  destruct (hex_digit_ok (r / 4096 mod 16)) as [-> _]; [euclid|]. destruct (hex_digit_ok (r / 256 mod 16)) as [-> _]; [euclid|].
  destruct (hex_digit_ok (r / 16 mod 16)) as [-> _]; [euclid|]. destruct (hex_digit_ok (r mod 16)) as [-> _]; [euclid|]. done.
Qed.

(** Bytes a literal may hold unescaped. *)
Definition plain (c : ascii) : bool := (32 <=? byte_of c) && negb (byte_of c =? 34) && negb (byte_of c =? 92).
Lemma push_push p q r : push p (push q r) = push (p ++ q) r.
Proof. destruct r as [[b t]|]; simpl; [|done]. by rewrite str_app_assoc. Qed.
Lemma push_nil r : push "" r = r.
Proof. by destruct r as [[b t]|]. Qed.
Lemma scan_plain p t : forall_bytes plain p = true -> scan_body (p ++ t) = push p (scan_body t).
Proof.
  induction p as [|c p IH]; intros Hp; [by rewrite push_nil|]. simpl in Hp. apply andb_true_iff in Hp as [Hc Hp].
  unfold plain in Hc. rewrite !andb_true_iff, !negb_true_iff in Hc. destruct Hc as [[H1 H2] H3]. apply Z.leb_le in H1.
  rewrite str_app_cons. cbn [scan_body]. rewrite H2, H3. zbool. rewrite (IH Hp), push_push. done.
Qed.
Lemma unquote_ascii p t : forall_bytes (fun c => plain c && (byte_of c <? 128)) p = true -> unquote O (p ++ t) = (p ++ unquote O t)%string.
Proof.
  induction p as [|c p IH]; intros Hp; [done|]. simpl in Hp. rewrite !andb_true_iff in Hp. destruct Hp as [[Hc Hlt] Hp].
  unfold plain in Hc. rewrite !andb_true_iff, !negb_true_iff in Hc. destruct Hc as [[H1 H2] H3].
  rewrite !str_app_cons. cbn [unquote]. by rewrite H3, Hlt, (IH Hp).
Qed.
Lemma encode_plain r : scalar r = true -> 128 <= r -> forall_bytes plain (encode_rune r) = true.
Proof.
  intros Hs Hr. rewrite encode_rune_bytes by done. apply scalar_iff in Hs as [Hb _]. unfold rune_bytes.
  assert (Hp : forall b s, 128 <= b < 256 -> forall_bytes plain s = true -> forall_bytes plain (String (of_byte b) s) = true).
  { intros b s Hx Hs'. simpl. unfold plain. bytes. by zbool. }
  zbool. repeat case_match; rewrite !bytes_string_cons; repeat match goal with H : (_ <? _) = true |- _ => apply Z.ltb_lt in H end;
    repeat (apply Hp; [euclid|]); done.
Qed.

Lemma json_ascii_reads b t : 0 <= b < 128 ->
  scan_body (json_ascii b ++ t) = push (json_ascii b) (scan_body t) /\ unquote O (json_ascii b ++ t) = (ch b ++ unquote O t)%string.
Proof.
  intros Hb. unfold json_ascii.
  repeat match goal with |- context [b =? ?k] => lazymatch k with 60 => fail | 62 => fail | 38 => fail | _ =>
    destruct (Z.eqb_spec b k) as [->|?]; [split; reflexivity|] end end; cbn [orb].
  destruct ((b <? 32) || _ || _ || _) eqn:He.
  - split; [apply scan_escape; lia|]. rewrite unquote_escape, encode_small; [done|lia|lia|]. unfold is_surrogate. by zbool.
  - rewrite !orb_false_iff in He. destruct He as [[[H1 _] _] _]. apply Z.ltb_ge in H1.
    assert (Hp : plain (of_byte b) = true) by (unfold plain; bytes; by zbool).
    split; [apply scan_plain; simpl; by rewrite Hp|]. apply unquote_ascii. simpl. rewrite Hp. bytes. by zbool.
Qed.

Lemma json_rune_reads r t : scalar r = true ->
  scan_body (json_rune r ++ t) = push (json_rune r) (scan_body t) /\ unquote O (json_rune r ++ t) = (encode_rune r ++ unquote O t)%string.
Proof.
  intros Hs. pose proof Hs as [Hr _]%scalar_iff. unfold json_rune. destruct (Z.ltb_spec r 128).
  { rewrite encode_small by lia. apply json_ascii_reads. lia. }
  destruct (_ || _) eqn:He.
  { apply orb_true_iff in He. rewrite !Z.eqb_eq in He. split; [apply scan_escape; lia|]. apply unquote_escape; [lia|]. by destruct He as [-> | ->]. }
  split; [by apply scan_plain, encode_plain|].
  destruct (encode_big r Hs ltac:(lia)) as (b & p & Hp & Hb). pose proof (first_rune r t Hs) as Hf. pose proof (no_replacement r t) as Hn.
  rewrite Hp in *. rewrite str_app_cons in *. cbn [unquote]. bytes. zbool. unfold head_rune. rewrite Hf, Hn, Hp.
  simpl String.length. by rewrite Nat.sub_succ, Nat.sub_0_r, unquote_skip.
Qed.

Lemma utf8_cons r rs : utf8 (r :: rs) = (encode_rune r ++ utf8 rs)%string.
Proof. apply concat_cons. Qed.
Lemma json_chars_reads s t : valid_utf8 s = true ->
  scan_body (json_chars O s ++ ch 34 ++ t) = Some (json_chars O s, t) /\ unquote O (json_chars O s) = s.
Proof.
  unfold valid_utf8. rewrite andb_true_iff. intros [Hall Heq]. apply String.eqb_eq in Heq. rewrite <- Heq. clear Heq.
  revert Hall. generalize (runes s). clear s. intros rs Hall. induction rs as [|r rs IH]; [done|].
  simpl in Hall. apply andb_true_iff in Hall as [Hr Hall]. destruct (IH Hall) as [IH1 IH2].
  rewrite utf8_cons, json_chars_rune by done. rewrite <- str_app_assoc.
  destruct (json_rune_reads r (json_chars O (utf8 rs) ++ ch 34 ++ t) Hr) as [-> _].
  destruct (json_rune_reads r (json_chars O (utf8 rs)) Hr) as [_ ->]. by rewrite IH1, IH2.
Qed.

End strings.

(** ** What [Json] writes reads back *)
Fixpoint json_view (j : json) : jv :=
  match j with
  | JNum n => VNum (Sprintd n)
  | JBool b => VBool b
  | JStr s => VStr s
  | JTime loc t => VStr (RFC3339Nano loc t)
  | JArr l => VArr ((fun j => (json_text_of None j, json_view j)) <$> l)
  | JObj fs => VObj ((fun f => (f.1, (json_text_of None f.2, json_view f.2))) <$> fs)
  end.
Definition ascii_plain (s : string) : bool := forall_bytes (fun c => plain c && (byte_of c <? 128)) s.
Fixpoint json_clean (j : json) : bool :=
  match j with
  | JNum _ | JBool _ => true
  | JStr s => valid_utf8 s
  | JTime loc t => ascii_plain (RFC3339Nano loc t)
  | JArr l => forallb json_clean l
  | JObj fs => forallb (fun f => valid_utf8 f.1 && json_clean f.2) fs
  end.
Fixpoint json_depth (j : json) : Z :=
  match j with
  | JArr l => 1 + foldr Z.max 0 (json_depth <$> l)
  | JObj fs => 1 + foldr Z.max 0 ((fun f => json_depth f.2) <$> fs)
  | _ => 0
  end.

(** Induction over the values nested in lists. *)
Section json_induction.
Context (P : json -> Prop)
  (Hn : forall n, P (JNum n)) (Hb : forall b, P (JBool b)) (Hs : forall s, P (JStr s)) (Ht : forall loc t, P (JTime loc t))
  (Ha : forall l, Forall P l -> P (JArr l)) (Ho : forall fs, Forall (fun f => P f.2) fs -> P (JObj fs)).
Fixpoint json_nested (j : json) : P j :=
  match j with
  | JNum n => Hn n
  | JBool b => Hb b
  | JStr s => Hs s
  | JTime loc t => Ht loc t
  | JArr l => Ha l ((fix go l := match l return Forall P l with [] => Forall_nil_2 _ | j :: l' => Forall_cons_2 _ _ _ (json_nested j) (go l') end) l)
  | JObj fs => Ho fs ((fix go l := match l return Forall (fun f => P f.2) l with [] => Forall_nil_2 _ | f :: l' => Forall_cons_2 _ _ _ (json_nested f.2) (go l') end) fs)
  end.
End json_induction.

Section print_parse.

(** What may follow a value. *)
Definition delim (rest : string) : bool :=
  match rest with "" => true | String c _ => is_byte 44 c || is_byte 93 c || is_byte 125 c end.
Lemma span_digits_app ds rest : forall_bytes is_digit ds = true ->
  (match rest with "" => true | String c _ => negb (is_digit c) end) = true -> span_digits (ds ++ rest) = (ds, rest).
Proof.
  intros Hd Hr. induction ds as [|c ds IH].
  - destruct rest as [|c r]; [done|]. apply negb_true_iff in Hr. change ("" ++ String c r)%string with (String c r). simpl. by rewrite Hr.
  - simpl in Hd. apply andb_true_iff in Hd as [Hc Hd]. rewrite str_app_cons. simpl. by rewrite Hc, (IH Hd).
Qed.
Lemma delim_bytes rest : delim rest = true -> match rest with "" => True | String c _ =>
  is_digit c = false /\ is_byte 46 c = false /\ is_byte 101 c = false /\ is_byte 69 c = false end.
Proof.
  destruct rest as [|c r]; [done|]. unfold delim, is_byte, is_digit. rewrite !orb_true_iff, !Z.eqb_eq.
  intros [[-> | ->] | ->]; done.
Qed.

(** Decimals carry no leading zero, so the literal scanner takes all of one. *)
Lemma int_part_dec n rest : 0 <= n -> delim rest = true -> int_part (Sprintd n ++ rest) = Some (Sprintd n, rest).
Proof.
  intros Hn Hr. destruct (Sprintd_spec n Hn) as (Hd & Hne & Hv & Hl). pose proof (delim_bytes rest Hr) as Hc.
  destruct (Sprintd n) as [|c s] eqn:Hs; [done|]. rewrite str_app_cons. unfold int_part.
  assert (Hspan : span_digits (String c s ++ rest) = (String c s, rest)).
  { apply span_digits_app; [done|]. destruct rest; [done|]. by destruct Hc as [-> _]. }
  rewrite str_app_cons in Hspan. cbn [forall_bytes] in Hd. apply andb_true_iff in Hd as [Hdc Hds].
  destruct (is_byte 48 c) eqn:H0; [|by rewrite Hdc, Hspan].
  destruct s as [|c' s']; [done|]. exfalso. apply Z.eqb_eq in H0.
  assert (Hval : dec_value 0 (String c' s') = n) by (rewrite <- Hv; simpl; unfold digit_val; rewrite H0; done).
  pose proof (dec_value_bound (String c' s') 0 ltac:(lia) Hds) as Hbd. rewrite Hval in Hbd.
  specialize (Hl (String.length (String c' s')) ltac:(lia)). simpl in Hl. lia.
Qed.
Lemma scan_number_dec n rest : delim rest = true -> scan_number (Sprintd n ++ rest) = Some (Sprintd n, rest).
Proof.
  intros Hr. pose proof (delim_bytes rest Hr) as Hc.
  assert (Htail : forall m i, (m ++ i)%string = Sprintd n ->
    ('(f, s3) ← digits_after (optional (is_byte 46) rest); '(e, s4) ← exponent s3; Some ((m ++ i ++ f ++ e)%string, s4)) = Some (Sprintd n, rest)).
  { intros m i Hmi. unfold digits_after, exponent, optional. destruct rest as [|c r].
    - simpl. change ("" ++ "")%string with "". by rewrite str_app_nil, Hmi.
    - destruct Hc as (_ & -> & H1 & H2). simpl. rewrite H1, H2. simpl. change ("" ++ "")%string with "". by rewrite str_app_nil, Hmi. }
  unfold scan_number. cbv zeta. destruct (Z.ltb_spec n 0) as [Hneg|Hpos].
  - assert (Hs : Sprintd n = String (of_byte 45) (dec_nat (- n))) by (unfold Sprintd; by rewrite (proj2 (Z.ltb_lt n 0))).
    assert (Hd : dec_nat (- n) = Sprintd (- n)) by (unfold Sprintd; by rewrite (proj2 (Z.ltb_ge (- n) 0)) by lia).
    replace (optional (is_byte 45) (Sprintd n ++ rest)) with ("-", (dec_nat (- n) ++ rest)%string) by (by rewrite Hs). cbn [fst snd].
    rewrite Hd, int_part_dec by (done || lia). simpl. apply Htail. by rewrite Hs, Hd.
  - pose proof (int_part_dec n rest Hpos Hr) as Hi. destruct (Sprintd_spec n Hpos) as (Hd & Hne & _).
    replace (optional (is_byte 45) (Sprintd n ++ rest)) with ("", (Sprintd n ++ rest)%string).
    + cbn [fst snd]. rewrite Hi. simpl. by apply Htail.
    + destruct (Sprintd n) as [|c s]; [done|]. rewrite str_app_cons. simpl in Hd. apply andb_true_iff in Hd as [Hdc _].
      unfold is_digit in Hdc. apply andb_true_iff in Hdc as [Hlo%Z.leb_le _]. unfold optional, is_byte.
      by rewrite (proj2 (Z.eqb_neq _ _)) by lia.
Qed.
Abbreviation text := (json_text_of None).
(** The first byte of a value: not a space, a closing bracket or a comma. *)
Definition leads (s : string) : Prop := exists c p, s = String c p /\ is_ws c = false /\ is_byte 93 c = false /\ is_byte 125 c = false.
Lemma Sprintd_lead n : exists c p, Sprintd n = String c p /\ (c = of_byte 45 \/ is_digit c = true).
Proof.
  unfold Sprintd. destruct (Z.ltb_spec n 0); [by eexists _, _; split; [|left]|].
  destruct (Sprintd_spec n) as (Hd & Hne & _); [done|]. unfold Sprintd in *. rewrite (proj2 (Z.ltb_ge n 0)) in * by done.
  destruct (dec_nat n) as [|c p]; [done|]. simpl in Hd. apply andb_true_iff in Hd as [Hd _]. eauto.
Qed.
Lemma digit_bytes c : is_digit c = true -> 48 <= byte_of c <= 57.
Proof. unfold is_digit. rewrite andb_true_iff, !Z.leb_le. done. Qed.
(** A printed integer reads back, if it is an int64. *)
Lemma ParseInt_text n : ParseInt (Sprintd n) = if (MinInt64 <=? n) && (n <=? MaxInt64) then Some n else None.
Proof.
  assert (Hmag : forall k, 0 <= k -> parse_magnitude (Sprintd k) = Some k).
  { intros k Hk. destruct (Sprintd_spec k Hk) as (Hd & Hne & Hv & _). unfold parse_magnitude.
    destruct (String.eqb_spec (Sprintd k) ""); [done|]. by rewrite Hd, Hv. }
  unfold ParseInt. destruct (Z.ltb_spec n 0) as [Hneg|Hpos].
  - assert (Hs : Sprintd n = String (of_byte 45) (Sprintd (- n))).
    { unfold Sprintd. rewrite (proj2 (Z.ltb_lt n 0)), (proj2 (Z.ltb_ge (- n) 0)) by lia. done. }
    rewrite Hs. change (Ascii.eqb (of_byte 45) "-"%char) with true. cbv match. rewrite Hmag by lia. simpl. by rewrite Z.opp_involutive.
  - pose proof (Hmag n Hpos) as Hm. destruct (Sprintd_spec n Hpos) as (Hd & Hne & _).
    destruct (Sprintd n) as [|c p]; [done|]. simpl in Hd. apply andb_true_iff in Hd as [Hc%digit_bytes _].
    assert (Hnot : forall k, byte_of k < 48 -> Ascii.eqb c k = false).
    { intros k Hk. apply Ascii.eqb_neq. intros ->. lia. }
    rewrite !Hnot by (vm_compute; done). by rewrite Hm.
Qed.
Lemma text_lead j : leads (text j).
Proof.
  destruct j as [n|b|s|loc t|l|fs]; simpl; try (by eexists _, _); [| |destruct l; by eexists _, _|destruct fs; by eexists _, _].
  - destruct (Sprintd_lead n) as (c & p & -> & Hc). exists c, p. split; [done|].
    destruct Hc as [-> | Hc%digit_bytes]; [done|]. unfold is_ws, is_byte. by zbool.
  - destruct b; by eexists _, _.
Qed.
Lemma skip_lead s t : leads s -> skip_ws (s ++ t) = (s ++ t)%string.
Proof. intros (c & p & -> & Hc & _). rewrite str_app_cons. simpl. by rewrite Hc. Qed.
Lemma closes_lead b s t : leads s -> (b = 93 \/ b = 125) -> closes b (s ++ t) = None.
Proof. intros (c & p & -> & _ & H1 & H2) [-> | ->]; rewrite str_app_cons; simpl; by rewrite ?H1, ?H2. Qed.
Lemma consumed_app s t : consumed (s ++ t) t = s.
Proof.
  unfold consumed. rewrite str_length_app, Nat.add_sub, take_app_long, Nat.sub_diag by lia. destruct t; apply str_app_nil.
Qed.

Lemma prefix_head c s k p : HasPrefix (String c s) (String k p) = true -> c = k.
Proof. unfold HasPrefix. simpl. destruct (ascii_dec k c); [done|]. done. Qed.
Lemma number_reads n f d rest : delim rest = true -> value (S f) d (Sprintd n ++ rest) = Got (VNum (Sprintd n)) rest.
Proof.
  intros Hr. pose proof (scan_number_dec n rest Hr) as Hs. destruct (Sprintd_lead n) as (c & p & Hc & Hlead).
  assert (Hk : keyword (Sprintd n ++ rest) = Got (VNum (Sprintd n)) rest).
  { unfold keyword. assert (Hno : forall k q, ~ is_digit k = true -> k <> of_byte 45 -> HasPrefix (Sprintd n ++ rest) (String k q) = false).
    { intros k q Hk1 Hk2. apply not_true_is_false. intros Hp. rewrite Hc, str_app_cons in Hp. apply prefix_head in Hp as <-. by destruct Hlead. }
    rewrite !Hno by (intros ?; discriminate || done). by rewrite Hs. }
  rewrite Hc, str_app_cons in Hk |- *. cbn [value].
  assert (is_byte 91 c = false /\ is_byte 123 c = false /\ is_byte 34 c = false) as (-> & -> & ->); [|done].
  destruct Hlead as [-> | Hd%digit_bytes]; [done|]. unfold is_byte. by zbool.
Qed.
Lemma bool_reads b f d rest : value (S f) d (text (JBool b) ++ rest) = Got (VBool b) rest.
Proof.
  assert (Hno : forall c s k p, c <> k -> HasPrefix (String c s) (String k p) = false).
  { intros c s k p Hne. apply not_true_is_false. by intros ?%prefix_head. }
  destruct b; [change (value _ _ _) with (keyword ("true" ++ rest))|change (value _ _ _) with (keyword ("false" ++ rest))]; unfold keyword;
    rewrite prefix_app; rewrite !str_app_cons, !Hno by done; done.
Qed.
Lemma string_reads s f d rest : valid_utf8 s = true -> value (S f) d (json_string s ++ rest) = Got (VStr s) rest.
Proof.
  intros Hv. destruct (json_chars_reads s rest Hv) as [Hs Hu]. unfold json_string. rewrite <- !str_app_assoc.
  unfold ch at 1. rewrite str_app_cons. cbn [value]. change (is_byte 91 (of_byte 34)) with false. change (is_byte 123 (of_byte 34)) with false.
  change (is_byte 34 (of_byte 34)) with true. cbv beta match. change ("" ++ ?x)%string with x. by rewrite Hs; simpl; rewrite Hu.
Qed.

(** A value reads back inside [d] containers, with fuel for its text. *)
Definition reads (j : json) : Prop := forall f d rest, (String.length (text j) < f)%nat -> d + json_depth j <= maxNestingDepth ->
  delim rest = true -> value f d (text j ++ rest) = Got (json_view j) rest.

Lemma concat_cons2 sep x y (l : list string) : String.concat sep (x :: y :: l) = (x ++ sep ++ String.concat sep (y :: l))%string.
Proof. done. Qed.

Lemma elements_reads f d rest l : forall fe, l <> [] -> (length l <= fe)%nat ->
  Forall (fun j => reads j /\ (String.length (text j) < f)%nat /\ d + json_depth j <= maxNestingDepth) l ->
  elements (value f d) fe (String.concat "," (text <$> l) ++ ch 93 ++ rest) = Got ((fun j => (text j, json_view j)) <$> l) rest.
Proof.
  induction l as [|j l IH]; intros fe Hne Hfe Hall; [done|]. apply Forall_cons in Hall as [(Hj & Hlen & Hdep) Hall].
  destruct fe as [|fe]; [simpl in Hfe; lia|]. cbn [elements]. destruct l as [|j' l].
  - rewrite !fmap_cons, fmap_nil. cbn [String.concat]. rewrite Hj by done. cbn [bindp]. unfold ch at 1.
    by rewrite str_app_cons; simpl; rewrite consumed_app.
  - rewrite !fmap_cons, concat_cons2. rewrite <- !str_app_assoc. rewrite Hj by done. cbn [bindp].
    change ("," ++ ?x)%string with (String (of_byte 44) x). cbn [skip_ws]. change (is_ws (of_byte 44)) with false.
    change (is_byte 44 (of_byte 44)) with true. cbv beta match. rewrite consumed_app.
    assert (Hskip : forall x, skip_ws (String.concat "," (text j' :: (text <$> l)) ++ x) = (String.concat "," (text j' :: (text <$> l)) ++ x)%string).
    { intros x. destruct l; [apply skip_lead, text_lead|]. rewrite fmap_cons, concat_cons2, <- !str_app_assoc. apply skip_lead, text_lead. }
    rewrite Hskip, <- fmap_cons, IH; [done|done|simpl in *; lia|done].
Qed.

Lemma member_key_reads k x : valid_utf8 k = true -> leads x ->
  forall t, member_key (json_string k ++ ":" ++ x ++ t) = Got k (x ++ t)%string.
Proof.
  intros Hk Hx t. destruct (json_chars_reads k (":" ++ x ++ t) Hk) as [Hs Hu]. unfold json_string. rewrite <- !str_app_assoc.
  unfold ch at 1. rewrite str_app_cons. cbn [member_key]. change (is_byte 34 (of_byte 34)) with true. cbv beta match.
  change ("" ++ ?y)%string with y. rewrite Hs. cbn [lift_scan bindp]. change (":" ++ ?y)%string with (String (of_byte 58) y).
  cbn [skip_ws]. change (is_ws (of_byte 58)) with false. change (is_byte 58 (of_byte 58)) with true. cbv beta match.
  by rewrite skip_lead, Hu.
Qed.
Definition member_text (f : string * json) : string := json_string f.1 ++ ":" ++ text f.2.
Lemma members_reads f d rest l : forall fe, l <> [] -> (length l <= fe)%nat ->
  Forall (fun m => valid_utf8 m.1 = true /\ reads m.2 /\ (String.length (text m.2) < f)%nat /\ d + json_depth m.2 <= maxNestingDepth) l ->
  members (value f d) fe (String.concat "," (member_text <$> l) ++ ch 125 ++ rest) =
  Got ((fun m => (m.1, (text m.2, json_view m.2))) <$> l) rest.
Proof.
  induction l as [|m l IH]; intros fe Hne Hfe Hall; [done|]. apply Forall_cons in Hall as [(Hk & Hj & Hlen & Hdep) Hall].
  destruct fe as [|fe]; [simpl in Hfe; lia|]. cbn [members]. destruct l as [|m' l].
  - rewrite !fmap_cons, fmap_nil. cbn [String.concat]. unfold member_text at 1. rewrite <- !str_app_assoc.
    rewrite member_key_reads by (done || apply text_lead). cbn [bindp]. rewrite Hj by done. cbn [bindp]. unfold ch at 1.
    by rewrite str_app_cons; simpl; rewrite consumed_app.
  - rewrite !fmap_cons, concat_cons2. unfold member_text at 1. rewrite <- !str_app_assoc.
    rewrite member_key_reads by (done || apply text_lead). cbn [bindp]. rewrite Hj by done. cbn [bindp].
    change ("," ++ ?x)%string with (String (of_byte 44) x). cbn [skip_ws]. change (is_ws (of_byte 44)) with false.
    change (is_byte 44 (of_byte 44)) with true. cbv beta match. rewrite consumed_app.
    assert (Hskip : forall x, skip_ws (String.concat "," (member_text m' :: (member_text <$> l)) ++ x) = (String.concat "," (member_text m' :: (member_text <$> l)) ++ x)%string).
    { intros x. destruct l; done. }
    rewrite Hskip, <- fmap_cons, IH; [done|done|simpl in *; lia|done].
Qed.

Lemma concat_length sep (l : list string) : Forall (fun x => x <> "") l ->
  (length l <= String.length (String.concat sep l))%nat /\ Forall (fun x => String.length x <= String.length (String.concat sep l))%nat l.
Proof.
  induction l as [|x l IH]; intros Hall; [by split|]. apply Forall_cons in Hall as [Hx Hall]. destruct (IH Hall) as [IH1 IH2].
  assert (0 < String.length x)%nat by (destruct x; simpl; [done|lia]). destruct l as [|y l].
  - simpl. split; [lia|]. by constructor.
  - rewrite concat_cons2, !str_length_app. cbn [length] in *. split; [lia|]. constructor; [lia|].
    eapply Forall_impl; [exact IH2|]. intros z Hz. cbv beta in *. lia.
Qed.
Lemma text_nonempty j : text j <> "".
Proof. destruct (text_lead j) as (c & p & -> & _). done. Qed.
Lemma arr_text l : l <> [] -> text (JArr l) = ("[" ++ String.concat "," (text <$> l) ++ "]")%string.
Proof. destruct l; [done|]. intros _. simpl. unfold bracketed. simpl. by rewrite str_app_nil. Qed.
Lemma obj_text fs : fs <> [] -> text (JObj fs) = ("{" ++ String.concat "," (member_text <$> fs) ++ "}")%string.
Proof. destruct fs; [done|]. intros _. simpl. unfold bracketed. simpl. by rewrite str_app_nil. Qed.
Lemma depth_max {A} (g : A -> Z) l : Forall (fun x => g x <= foldr Z.max 0 (g <$> l)) l.
Proof.
  induction l as [|x l IH]; constructor; rewrite fmap_cons; cbn [foldr]; [lia|]. eapply Forall_impl; [exact IH|]. intros y Hy. cbv beta in *. lia.
Qed.

Lemma time_reads s f d rest : ascii_plain s = true -> value (S f) d (ch 34 ++ s ++ ch 34 ++ rest) = Got (VStr s) rest.
Proof.
  intros Hc. pose proof (unquote_ascii s "" Hc) as Hu. rewrite !str_app_nil in Hu. unfold ch at 1. rewrite str_app_cons. cbn [value].
  change (is_byte 91 (of_byte 34)) with false. change (is_byte 123 (of_byte 34)) with false. change (is_byte 34 (of_byte 34)) with true.
  cbv beta match. change ("" ++ ?x)%string with x. rewrite scan_plain.
  - change (scan_body (ch 34 ++ rest)) with (Some ("", rest)). cbn [push lift_scan bindp]. by rewrite str_app_nil, Hu.
  - revert Hc. clear. unfold ascii_plain. induction s as [|c s IH]; [done|]. simpl. rewrite !andb_true_iff. intros [[? ?] ?]. auto.
Qed.

(** A non-empty container: its items are within its fuel and depth. *)
Lemma container_bounds {A} (show : A -> string) (depth : A -> Z) (l : list A) f d :
  Forall (fun x => show x <> "") l -> l <> [] -> (String.length (String.concat "," (show <$> l)) + 1 < f)%nat ->
  d + (1 + foldr Z.max 0 (depth <$> l)) <= maxNestingDepth ->
  (maxNestingDepth <=? d) = false /\ (length l <= f)%nat /\
  Forall (fun x => (String.length (show x) < f)%nat /\ d + 1 + depth x <= maxNestingDepth) l.
Proof.
  intros Hall Hne Hf Hd. pose proof (depth_max depth l) as Hmax.
  assert (0 <= foldr Z.max 0 (depth <$> l)) by (clear; induction l as [|a l IH]; [done|]; rewrite fmap_cons; cbn [foldr]; lia).
  destruct (concat_length "," (show <$> l)) as [Hn Hlens]; [by apply Forall_fmap|]. rewrite length_fmap in Hn. rewrite Forall_fmap in Hlens.
  split; [apply Z.leb_gt; lia|]. split; [lia|]. rewrite Forall_forall in *. intros x Hx. specialize (Hlens x Hx). specialize (Hmax x Hx).
  simpl in *. lia.
Qed.
(** The first item's text starts the container's body. *)
Lemma concat_head (x : string) (l : list string) t : exists t', (String.concat "," (x :: l) ++ t)%string = (x ++ t')%string.
Proof. destruct l as [|y l]; [by eexists|]. rewrite concat_cons2, <- !str_app_assoc. by eexists. Qed.

Lemma array_reads l f d rest : Forall reads l -> (String.length (text (JArr l)) < S f)%nat -> d + json_depth (JArr l) <= maxNestingDepth ->
  value (S f) d (text (JArr l) ++ rest) = Got (json_view (JArr l)) rest.
Proof.
  intros Hall Hf Hd. destruct (decide (l = [])) as [->|Hne].
  { change (text (JArr []) ++ rest)%string with (String (of_byte 91) (String (of_byte 93) rest)). cbn [value json_depth] in *. simpl in Hd.
    change (is_byte 91 (of_byte 91)) with true. cbv beta match. rewrite (proj2 (Z.leb_gt _ _)) by lia. done. }
  rewrite arr_text in * by done. rewrite !str_length_app in Hf. simpl in Hf.
  destruct (container_bounds text json_depth l f d) as (Hdep & Hn & Hb); [apply Forall_true; intros; apply text_nonempty|done|lia|done|].
  rewrite <- !str_app_assoc. change ("[" ++ ?x)%string with (String (of_byte 91) x). cbn [value].
  change (is_byte 91 (of_byte 91)) with true. cbv beta match. rewrite Hdep.
  destruct l as [|j l]; [done|]. rewrite !fmap_cons. destruct (concat_head (text j) (text <$> l) ("]" ++ rest)) as [t Ht].
  rewrite Ht, skip_lead, closes_lead by (apply text_lead || auto). rewrite <- Ht, <- fmap_cons.
  change ("]" ++ rest)%string with (ch 93 ++ rest)%string. rewrite (elements_reads f (d + 1) rest (j :: l) f); [done|done|done|].
  apply Forall_and. split; [done|]. eapply Forall_impl; [exact Hb|]. done.
Qed.
Lemma object_reads fs f d rest : Forall (fun m => reads m.2) fs -> forallb (fun m => valid_utf8 m.1) fs = true ->
  (String.length (text (JObj fs)) < S f)%nat -> d + json_depth (JObj fs) <= maxNestingDepth ->
  value (S f) d (text (JObj fs) ++ rest) = Got (json_view (JObj fs)) rest.
Proof.
  intros Hall Hkeys Hf Hd. destruct (decide (fs = [])) as [->|Hne].
  { change (text (JObj []) ++ rest)%string with (String (of_byte 123) (String (of_byte 125) rest)). cbn [value json_depth] in *. simpl in Hd.
    change (is_byte 91 (of_byte 123)) with false. change (is_byte 123 (of_byte 123)) with true. cbv beta match. rewrite (proj2 (Z.leb_gt _ _)) by lia. done. }
  rewrite obj_text in * by done. rewrite !str_length_app in Hf. simpl in Hf.
  destruct (container_bounds member_text (fun m => json_depth m.2) fs f d) as (Hdep & Hn & Hb); [by apply Forall_true|done|lia|done|].
  rewrite <- !str_app_assoc. change ("{" ++ ?x)%string with (String (of_byte 123) x). cbn [value].
  change (is_byte 91 (of_byte 123)) with false. change (is_byte 123 (of_byte 123)) with true. cbv beta match. rewrite Hdep.
  destruct fs as [|m l]; [done|]. rewrite !fmap_cons. destruct (concat_head (member_text m) (member_text <$> l) ("}" ++ rest)) as [t Ht].
  assert (Hl : leads (member_text m)) by (by eexists _, _).
  rewrite Ht, skip_lead, closes_lead by (done || auto). rewrite <- Ht, <- fmap_cons.
  change ("}" ++ rest)%string with (ch 125 ++ rest)%string. rewrite (members_reads f (d + 1) rest (m :: l) f); [done|done|done|].
  rewrite Forall_forall in *. rewrite forallb_forall in Hkeys. intros x Hx. specialize (Hb x Hx) as [Hb1 Hb2]. unfold member_text in Hb1.
  rewrite !str_length_app in Hb1. split_and!; [apply Hkeys; by apply list_elem_of_In|by apply Hall|simpl in *; lia|done].
Qed.

Lemma json_reads j : json_clean j = true -> reads j.
Proof.
  induction j as [n|b|s|loc t|l IH|fs IH] using json_nested; intros Hc f d rest Hf Hd Hr; (destruct f as [|f]; [lia|]).
  - by apply number_reads.
  - by apply bool_reads.
  - by apply string_reads.
  - cbn [json_text_of json_view json_clean] in *. revert Hc. generalize (RFC3339Nano loc t). clear. intros s Hc.
    rewrite <- !str_app_assoc. by apply time_reads.
  - apply array_reads; [|done|done]. cbn [json_clean] in Hc. rewrite forallb_forall in Hc. rewrite Forall_forall in *.
    intros x Hx. apply IH; [done|]. by apply Hc, list_elem_of_In.
  - cbn [json_clean] in Hc. rewrite forallb_forall in Hc. rewrite Forall_forall in IH.
    apply object_reads; [|apply forallb_forall|done|done]; [apply Forall_forall|]; intros x Hx.
    + apply IH; [done|]. by destruct (andb_prop _ _ (Hc x (proj1 (list_elem_of_In _ _) Hx))).
    + by destruct (andb_prop _ _ (Hc x Hx)).
Qed.

(** What is marshalled is unmarshalled: a value whose strings are valid UTF-8
    and whose nesting is within the limit reads back as itself, with the text of
    every part. *)
Theorem marshal_roundtrip j : json_clean j = true -> json_depth j <= maxNestingDepth ->
  parse_json (json_text_of None j) = Some (json_view j).
Proof.
  intros Hc Hd. unfold parse_json. pose proof (skip_lead (text j) "" (text_lead j)) as Hs. rewrite str_app_nil in Hs. rewrite Hs.
  pose proof (json_reads j Hc (S (String.length (text j))) 0 "" ltac:(lia) ltac:(lia) eq_refl) as Hv. rewrite str_app_nil in Hv.
  by rewrite Hv.
Qed.
End print_parse.

Module RoundtripDemo.
Definition sample : json :=
  JObj [("chat_id", JStr "c<1>"); ("text", JStr ("bạn " ++ quoted "A\B" ++ newline ++ "😀 & U+2028:" ++ encode_rune 8232));
        ("n", JArr [JNum (-12); JNum 0; JBool true; JObj []; JArr []]); ("at", JTime UTC (1784464496 * Second + 500000000))].
Lemma marshal_roundtrip_witness : json_clean sample = true /\ parse_json (json_text_of None sample) = Some (json_view sample).
Proof. split; [vm_compute; reflexivity|]. apply marshal_roundtrip; vm_compute; congruence. Defined.
End RoundtripDemo.
