(* ===== verification/TimeText.v ===== *)
(** * Times as text

    The times the program writes in RFC 3339 (in UTC, with or without a fraction)
    read back as the same instants.  Used for extraction results, whose dates
    travel as text, and for the local provider's events. *)
From Stdlib Require Import Ascii.
From S2P Require Import Prelude GoStrings Domain GoTime Calendar Json Normalise Unmarshal JsonRoundtrip.

(** ** Fixed-width numbers *)
Lemma zeros_spec k s : let z := String.concat "" (repeat "0" k) in
  String.length (z ++ s) = (k + String.length s)%nat /\ forall_bytes is_digit (z ++ s) = forall_bytes is_digit s /\
  dec_value 0 (z ++ s) = dec_value 0 s.
Proof.
  induction k as [|k IH]; [done|]. change (repeat "0" (S k)) with ("0" :: repeat "0" k). cbv zeta in *. rewrite concat_cons, <- str_app_assoc.
  destruct IH as (Hl & Hd & Hv). change ("0" ++ ?x)%string with (String "0" x). 
  cbn [String.length]. rewrite Hl. split; [done|]. split; [exact Hd|exact Hv].
Qed.

Lemma zero_pad_spec w n : (0 < w)%nat -> 0 <= n < 10 ^ Z.of_nat w ->
  String.length (zero_pad w (Sprintd n)) = w /\ forall_bytes is_digit (zero_pad w (Sprintd n)) = true /\ number (zero_pad w (Sprintd n)) = n.
Proof.
  intros Hw Hn. destruct (Sprintd_spec n ltac:(lia)) as (Hd & _ & Hv & Hl). specialize (Hl w ltac:(lia) Hw). unfold zero_pad, number.
  destruct (zeros_spec (w - String.length (Sprintd n)) (Sprintd n)) as (-> & -> & ->). split_and!; [lia|done|done].
Qed.

(** The reader takes exactly what the padded writer wrote. *)
Lemma digits_padded w n rest : (0 < w)%nat -> 0 <= n < 10 ^ Z.of_nat w -> digits_n w (zero_pad w (Sprintd n) ++ rest) = Some (n, rest).
Proof.
  intros Hw Hn. destruct (zero_pad_spec w n Hw Hn) as (Hl & Hd & Hv). unfold digits_n. set (s := zero_pad w (Sprintd n)) in *. clearbody s.
  rewrite <- Hl, take_app_length, Nat.eqb_refl, Hd, Hv. simpl. rewrite <- (Nat.add_0_r (String.length s)) at 1. by rewrite drop_app_add.
Qed.
Lemma two_read n rest : 0 <= n < 100 -> digits_n 2 (two n ++ rest) = Some (n, rest).
Proof. intros Hn. apply digits_padded; [lia|done]. Qed.
Lemma two_read_12 n rest : 0 <= n < 100 -> digits_1_2 (two n ++ rest) = Some (n, rest).
Proof. intros Hn. unfold digits_1_2. by rewrite two_read. Qed.
Lemma expect_lit c rest : expect (String c "") (String c "" ++ rest) = Some rest.
Proof. unfold expect, HasPrefix. simpl. destruct (ascii_dec c c); [by destruct rest|done]. Qed.

(** ** Fractions of a second *)
Lemma HasSuffix_split s e : HasSuffix s e = true -> s = (TrimSuffix s e ++ e)%string.
Proof.
  unfold TrimSuffix. intros Hs. rewrite Hs. unfold HasSuffix in Hs. apply andb_true_iff in Hs as [_ He%String.eqb_eq].
  rewrite <- He at 2. by rewrite take_drop.
Qed.
Lemma drop_zeros_split k s : exists j, s = (drop_zeros k s ++ String.concat "" (repeat "0" j))%string.
Proof.
  revert s. induction k as [|k IH]; intros s; [exists O; simpl; by rewrite str_app_nil|]. simpl.
  destruct (HasSuffix s "0") eqn:Hs; [|exists O; by rewrite str_app_nil]. destruct (IH (TrimSuffix s "0")) as [j Hj]. exists (S j).
  rewrite (HasSuffix_split _ _ Hs) at 1. rewrite Hj at 1. rewrite <- str_app_assoc. f_equal. clear.
  induction j as [|j IH]; [done|]. change (repeat "0" (S ?n)) with ("0" :: repeat "0" n) at 1. rewrite concat_cons, <- str_app_assoc, IH.
  by rewrite <- concat_cons.
Qed.
Lemma number_zeros s j : dec_value 0 (s ++ String.concat "" (repeat "0" j)) = dec_value 0 s * 10 ^ Z.of_nat j.
Proof.
  rewrite dec_value_app. generalize (dec_value 0 s). induction j as [|j IH]; intros a; [simpl; lia|].
  change (repeat "0" (S j)) with ("0" :: repeat "0" j). rewrite concat_cons. change ("0" ++ ?x)%string with (String "0" x). cbn [dec_value].
  change (digit_val "0") with 0. rewrite IH, Nat2Z.inj_succ, Z.pow_succ_r by lia. lia.
Qed.
Lemma take_whole n s : (String.length s <= n)%nat -> take n s = s.
Proof. revert s. induction n as [|n IH]; intros [|c s] Hl; simpl in *; try done; [lia|]. by rewrite IH by lia. Qed.
Lemma fraction_read ns : 0 <= ns < Second -> parse_fraction (fraction ns ++ "Z") = (ns, "Z").
Proof.
  intros Hns. unfold fraction. destruct (Z.eqb_spec ns 0) as [->|Hne]; [done|].
  destruct (zero_pad_spec 9 ns ltac:(lia) Hns) as (Hl & Hd & Hv). set (s := zero_pad 9 (Sprintd ns)) in *. clearbody s.
  destruct (drop_zeros_split 9 s) as [j Hj]. set (a := drop_zeros 9 s) in *. clearbody a. subst s.
  destruct (zeros_spec j "") as (Hz & _ & _). rewrite str_app_nil in Hz. rewrite str_length_app, Hz in Hl. simpl in Hl.
  rewrite forall_bytes_app in Hd. apply andb_true_iff in Hd as [Hd _]. unfold number in Hv. rewrite number_zeros in Hv.
  assert (Hnil : a <> "") by (intros ->; simpl in Hv; lia).
  change (("." ++ a) ++ "Z")%string with (String "." (a ++ "Z")). unfold parse_fraction. rewrite (span_digits_app a "Z") by done. cbn [fst snd].
  apply String.eqb_neq in Hnil. rewrite Hnil. simpl andb. cbv match. rewrite take_whole by lia. unfold number.
  replace (9 - String.length a)%nat with j by lia. by rewrite Hv.
Qed.

(** ** Times *)
Lemma year_length y : year_start y - year_start (y - 1) = if is_leap y then 366 else 365.
Proof.
  unfold year_start, is_leap. destruct (Z.eqb_spec (y mod 4) 0), (Z.eqb_spec (y mod 100) 0), (Z.eqb_spec (y mod 400) 0); simpl; euclid.
Qed.
Lemma month_length y m : 1 <= m <= 12 ->
  (if m =? 12 then days_from_civil (y + 1) 1 1 else days_from_civil y (m + 1) 1) - days_from_civil y m 1 = days_in y m.
Proof.
  intros Hm. pose proof (year_length y) as Hy. unfold days_in.
  assert (m = 1 \/ m = 2 \/ m = 3 \/ m = 4 \/ m = 5 \/ m = 6 \/ m = 7 \/ m = 8 \/ m = 9 \/ m = 10 \/ m = 11 \/ m = 12) as Hc by lia.
  rewrite !month_first. unfold march_year. clear Hm.
  destruct Hc as [->|[->|[->|[->|[->|[->|[->|[->|[->|[->|[->| ->]]]]]]]]]]]; rewrite ?month_first; unfold march_year; simpl Z.eqb; cbv match; eval_months;
    replace (y + 1 - 1) with y by lia; destruct (is_leap y); lia.
Qed.
Lemma local_date_bounds t : let c := local_date UTC t in 1 <= c.1.2 <= 12 /\ 1 <= c.2 <= days_in c.1.1 c.1.2.
Proof.
  unfold local_date. set (z := day_of _). clearbody z. pose proof (civil_from_days_spec z) as Hs. pose proof (civil_month_end z) as He.
  destruct (civil_from_days z) as [[y m] d]. cbn [fst snd] in *. destruct Hs as (Hm & Hd & Hz). split; [done|]. split; [lia|].
  rewrite days_from_civil_linear in Hz. destruct (month_start_succ y m Hm) as [_ Hn]. rewrite Hn in He. clear Hn.
  pose proof (month_length y m Hm). lia.
Qed.

(** The clock fields put a time together again. *)
Lemma clock_split s : s / 3600 * 3600 + s / 60 mod 60 * 60 + s mod 60 = s.
Proof. change 3600 with (60 * 60) at 1. rewrite <- Z.div_div by lia. euclid. Qed.
Lemma Date_of_fields t : let c := local_date UTC t in let s := local_clock UTC t in
  Date c.1.1 c.1.2 c.2 (s / 3600 * 3600 + s / 60 mod 60 * 60 + s mod 60 - 0) (t mod Second) UTC = t.
Proof.
  cbv zeta. rewrite clock_split, Z.sub_0_r. pose proof (civil_sum (day_of (local_sec UTC t))) as Hc.
  rewrite (Date_steady UTC 0) by done. fold (local_date UTC t) in Hc. rewrite Hc.
  destruct (at_local_of UTC 0 ltac:(done) t) as (day & sec & ns & Hs & Hn & Ht & ->).
  destruct (at_local_view UTC 0 ltac:(done) (day_of (local_sec UTC t)) sec ns Hs Hn) as (_ & H2 & H3). by rewrite <- Ht in H2, H3; rewrite H2, H3.
Qed.

(** A year that prints with four digits. *)
Definition printable (t : Time) : Prop := 0 <= (local_date UTC t).1.1 <= 9999.

Lemma ParseRFC3339_clock t rest ns : printable t -> parse_fraction rest = (ns, "Z") ->
  ParseRFC3339 (clock_text UTC t ++ rest) = Some (t - t mod Second + ns).
Proof.
  intros Hy Hrest. destruct (local_date_bounds t) as [Hm Hd]. pose proof (Date_of_fields t) as Ht. cbv zeta in *.
  unfold printable in Hy. unfold clock_text. set (c := local_date UTC t) in *.
  assert (Hs : 0 <= local_clock UTC t < 86400) by (unfold local_clock, sec_of_day; apply Z.mod_pos_bound; lia). set (s := local_clock UTC t) in *.
  assert (Hh : 0 <= s / 3600 < 24 /\ 0 <= s / 60 mod 60 < 60 /\ 0 <= s mod 60 < 60) by (split_and!; euclid). destruct Hh as (Hh & Hmi & Hse).
  assert (Hdd : c.2 < 100) by (assert (days_in c.1.1 c.1.2 <= 31) by (unfold days_in; repeat case_match; lia); lia).
  unfold ParseRFC3339. rewrite <- !str_app_assoc.
  repeat (first [rewrite digits_padded by lia|rewrite two_read_12 by lia|rewrite two_read by lia|rewrite expect_lit]; cbn [mbind option_bind]).
  rewrite Hrest. cbn [fst snd]. change (parse_zone "Z") with (Some 0). cbn [mbind option_bind].
  clearbody c s. zbool. cbv match. f_equal.
  assert (Hns : forall a b x, Date c.1.1 c.1.2 c.2 x a UTC = Date c.1.1 c.1.2 c.2 x b UTC - b + a) by (intros; unfold Date; lia).
  rewrite (Hns ns (t mod Second)), Ht. lia.
Qed.

Lemma RFC3339Nano_read t : printable t -> ParseRFC3339 (RFC3339Nano UTC t) = Some t.
Proof.
  intros Hp. unfold RFC3339Nano. change (zone_suffix _) with "Z".
  rewrite (ParseRFC3339_clock t _ (t mod Second)); [f_equal; lia|done|apply fraction_read, Z.mod_pos_bound; unfold Second; lia].
Qed.
Lemma RFC3339_read t : printable t -> t mod Second = 0 -> ParseRFC3339 (RFC3339 UTC t) = Some t.
Proof.
  intros Hp Ht. unfold RFC3339. change (zone_suffix _) with "Z". rewrite (ParseRFC3339_clock t _ 0 Hp) by done. f_equal. lia.
Qed.
