(* ===== verification/Config.v ===== *)
(** * Configuration

    internal/config/config.go: the environment variables, their parsers and the
    validation at start-up.  Shown: a configuration that loads is within bounds, and
    in the pilot and production environments it admits only listed senders, carries a
    token and a real secret, positive quotas and https endpoints.

    net.SplitHostPort, url.Parse and time.ParseDuration are given by a class: the
    program only looks at their success and at the parts named here. *)
From S2P Require Import Prelude GoStrings Domain Normalise.

Class NetParse := {
  SplitHostPort : string -> bool;
  (** scheme, host (with port) and host name. *)
  url_Parse : string -> option (string * string * string);
  ParseDuration : string -> option Z }.

Definition EnvDevelopment : string := "development".
Definition EnvTest : string := "test".
Definition EnvPilot : string := "pilot".
Definition EnvProduction : string := "production".

Record Config := mkConfig {
  AppEnv : string; DatabaseURL : string;
  ZaloBotToken : string; ZaloWebhookSecret : string; ZaloAPIBase : string;
  ListenAddr : string; DataDir : string;
  ObjectStoreBackend : string; S3Bucket : string; S3Prefix : string; S3Endpoint : string; S3Region : string;
  OriginalRetentionDays : Z;
  ExtractionBackend : string; GeminiAPIKey : string; GeminiModel : string; GeminiAPIBase : string;
  PilotAllowlist : gset string;
  ExtractionEnabled : bool; OutboundEnabled : bool;
  MonthlyOCRPageLimit : Z; PerUserDailyReceiptLimit : Z; ZaloMonthlyMessageLimit : Z;
  ReceiptWorkerConcurrency : Z; NotificationWorkerConcurrency : Z;
  QueuePollInterval : Z; SummarySchedulePollInterval : Z;
  LogLevel : string }.

Section config.
Context `{NetParse}.
Definition problem (msg : string) : Res Err unit := Fail (Sentinel msg).

(** ** Parsers; the environment maps a set variable to its value *)
Context (getenv : string -> option string).
Definition Getenv (key : string) : string := default "" (getenv key).
Definition trimmed (key : string) : string := TrimSpace (Getenv key).

(** [envStr], [envBool], [envInt], [envDur] *)
Definition envStr (key def : string) : string := if String.eqb (trimmed key) "" then def else trimmed key.
Definition env_parsed {A} (key what : string) (parse : string -> option A) (def : A) : Res Err A :=
  match getenv key with
  | None => Ok def
  | Some v => if String.eqb (TrimSpace v) "" then Ok def
              else match parse (TrimSpace v) with
                   | Some a => Ok a
                   | None => Fail (Sentinel (key ++ " must be " ++ what))
                   end
  end.
(** [strconv.ParseBool] *)
Definition ParseBool (s : string) : option bool :=
  if existsb (String.eqb s) ["1"; "t"; "T"; "true"; "TRUE"; "True"] then Some true
  else if existsb (String.eqb s) ["0"; "f"; "F"; "false"; "FALSE"; "False"] then Some false
  else None.
Definition envBool (key : string) (def : bool) : Res Err bool := env_parsed key "a boolean" ParseBool def.
Definition envInt (key : string) (def : Z) : Res Err Z := env_parsed key "an integer" ParseInt def.
Definition envDur (key : string) (def : Z) : Res Err Z := env_parsed key "a duration" ParseDuration def.

(** [parseList] *)
Fixpoint split_commas (s : string) : list string :=
  match s with
  | "" => [""]
  | String c s' => if byte_of c =? 44 then "" :: split_commas s'
                   else match split_commas s' with p :: ps => String c p :: ps | [] => [String c ""] end
  end.
Definition parseList (s : string) : gset string :=
  list_to_set (filter (fun item => item <> "") (TrimSpace <$> split_commas s)).

(** [strings.TrimRight(s, "/")] *)
Definition TrimRight_slash (s : string) : string := trim_right_fuel (String.length s) ["/"] s.

(** ** Validation *)

(** [requireHTTPS], [requireObjectStoreEndpoint] *)
Definition requireHTTPS (name raw : string) : Res Err unit :=
  match url_Parse raw with
  | Some (scheme, host, _) => if String.eqb scheme "https" && negb (String.eqb host "") then Ok tt
                              else problem (name ++ " must be an absolute https URL")
  | None => problem (name ++ " must be an absolute https URL")
  end.
Definition requireObjectStoreEndpoint (name raw : string) : Res Err unit :=
  match url_Parse raw with
  | Some (scheme, host, hostname) =>
      if String.eqb host "" then problem (name ++ " must be an absolute URL")
      else if String.eqb scheme "https" then Ok tt
      else if String.eqb scheme "http" then
        if existsb (String.eqb hostname) ["127.0.0.1"; "localhost"; "::1"] then Ok tt
        else problem (name ++ " http is allowed only on loopback (local MinIO)")
      else problem (name ++ " must be an absolute http(s) URL")
  | None => problem (name ++ " must be an absolute URL")
  end.

(** [validModelID] *)
Definition model_rune (r : Z) : bool :=
  ((97 <=? r) && (r <=? 122)) || ((65 <=? r) && (r <=? 90)) || ((48 <=? r) && (r <=? 57)) || (r =? 45) || (r =? 95) || (r =? 46).
Definition validModelID (value : string) : bool :=
  if String.eqb value "" || (128 <? Z.of_nat (String.length value)) then false else forallb model_rune (runes value).

(** Checks in order: the first that fails is the error. *)
Fixpoint all_checks (l : list (Res Err unit)) : Res Err unit :=
  match l with
  | [] => Ok tt
  | Ok _ :: rest => all_checks rest
  | Fail e :: _ => Fail e
  end.
Definition require (ok : bool) (msg : string) : Res Err unit := if ok then Ok tt else problem msg.
Definition one_of (s : string) (l : list string) : bool := existsb (String.eqb s) l.
Definition controlled (c : Config) : bool := one_of (AppEnv c) [EnvPilot; EnvProduction].

Definition check_objectstore (c : Config) : Res Err unit :=
  if String.eqb (ObjectStoreBackend c) "local" then Ok tt
  else if String.eqb (ObjectStoreBackend c) "s3" then
    if String.eqb (S3Bucket c) "" then problem "S3_BUCKET is required when OBJECTSTORE=s3"
    else if String.eqb (S3Endpoint c) "" then Ok tt else requireObjectStoreEndpoint "S3_ENDPOINT" (S3Endpoint c)
  else problem ("OBJECTSTORE must be local or s3, got " ++ quoted (ObjectStoreBackend c)).
Definition check_extractor (c : Config) : Res Err unit :=
  if one_of (ExtractionBackend c) ["mock"; "textract"] then Ok tt
  else if String.eqb (ExtractionBackend c) "gemini" then
    if String.eqb (GeminiAPIKey c) "" then problem "GEMINI_API_KEY is required when EXTRACTOR=gemini"
    else require (validModelID (GeminiModel c)) "GEMINI_MODEL must contain only letters, digits, dot, underscore or hyphen"
  else problem ("EXTRACTOR must be mock, textract or gemini, got " ++ quoted (ExtractionBackend c)).
Definition non_negative (name : string) (v : Z) : Res Err unit := require (0 <=? v) (name ++ " must be non-negative").
Definition concurrency (name : string) (v : Z) : Res Err unit := require ((1 <=? v) && (v <=? 64)) (name ++ " must be between 1 and 64").
Definition Millisecond : Z := 1000000.

(** What the pilot and production environments add. *)
Definition check_controlled (c : Config) : list (Res Err unit) :=
  [require (negb (bool_decide (PilotAllowlist c = ∅))) ("PILOT_ALLOWLIST must not be empty when APP_ENV=" ++ AppEnv c);
   require (negb (String.eqb (ZaloBotToken c) "")) ("ZALO_BOT_TOKEN is required when APP_ENV=" ++ AppEnv c);
   require (negb ((Z.of_nat (String.length (ZaloWebhookSecret c)) <? 16) || String.eqb (ZaloWebhookSecret c) "dev-secret-change-me"))
     ("ZALO_WEBHOOK_SECRET must be a non-placeholder value of at least 16 characters when APP_ENV=" ++ AppEnv c);
   require (negb ((MonthlyOCRPageLimit c =? 0) || (PerUserDailyReceiptLimit c =? 0) || (ZaloMonthlyMessageLimit c =? 0)))
     ("all quota limits must be positive when APP_ENV=" ++ AppEnv c);
   requireHTTPS "ZALO_API_BASE" (ZaloAPIBase c);
   if String.eqb (ExtractionBackend c) "gemini" then requireHTTPS "GEMINI_API_BASE" (GeminiAPIBase c) else Ok tt].

(** [Config.validate]; the two loops over maps may report any of their failures. *)
Definition validate (c : Config) : Res Err unit :=
  all_checks (
    [require (one_of (AppEnv c) [EnvDevelopment; EnvTest; EnvPilot; EnvProduction])
       ("APP_ENV must be development, test, pilot or production, got " ++ quoted (AppEnv c));
     require (negb (String.eqb (DatabaseURL c) "")) "DATABASE_URL is required";
     require (negb (String.eqb (ZaloWebhookSecret c) "")) "ZALO_WEBHOOK_SECRET is required (set a random value even for local dev)";
     require (SplitHostPort (ListenAddr c)) "LISTEN_ADDR must be host:port";
     check_objectstore c;
     check_extractor c;
     require (one_of (LogLevel c) ["debug"; "info"; "warn"; "error"])
       ("LOG_LEVEL must be debug, info, warn or error, got " ++ quoted (LogLevel c));
     non_negative "MONTHLY_OCR_PAGE_LIMIT" (MonthlyOCRPageLimit c);
     non_negative "PER_USER_DAILY_RECEIPT_LIMIT" (PerUserDailyReceiptLimit c);
     non_negative "ZALO_MONTHLY_MESSAGE_LIMIT" (ZaloMonthlyMessageLimit c);
     require ((1 <=? OriginalRetentionDays c) && (OriginalRetentionDays c <=? 365)) "ORIGINAL_RETENTION_DAYS must be between 1 and 365";
     concurrency "RECEIPT_WORKER_CONCURRENCY" (ReceiptWorkerConcurrency c);
     concurrency "NOTIFICATION_WORKER_CONCURRENCY" (NotificationWorkerConcurrency c);
     require ((10 * Millisecond <=? QueuePollInterval c) && (QueuePollInterval c <=? Minute)) "QUEUE_POLL_INTERVAL must be between 10ms and 1m";
     require ((Second <=? SummarySchedulePollInterval c) && (SummarySchedulePollInterval c <=? Hour))
       "SUMMARY_SCHEDULE_POLL_INTERVAL must be between 1s and 1h"] ++
    (if controlled c then check_controlled c else []) ++
    [require (negb (String.eqb (AppEnv c) EnvProduction && String.eqb (ExtractionBackend c) "mock"))
       "EXTRACTOR must not be mock when APP_ENV=production"]).

(** [Load] *)
Definition Load : Res Err Config :=
  let bindR {A B} (r : Res Err A) (k : A -> Res Err B) : Res Err B := match r with Ok a => k a | Fail e => Fail e end in
  bindR (envBool "EXTRACTION_ENABLED" false) (fun extractionEnabled =>
  bindR (envBool "OUTBOUND_ENABLED" false) (fun outboundEnabled =>
  bindR (envInt "MONTHLY_OCR_PAGE_LIMIT" 80) (fun ocrLimit =>
  bindR (envInt "PER_USER_DAILY_RECEIPT_LIMIT" 20) (fun receiptLimit =>
  bindR (envInt "ZALO_MONTHLY_MESSAGE_LIMIT" 3000) (fun messageLimit =>
  bindR (envInt "ORIGINAL_RETENTION_DAYS" 1) (fun retentionDays =>
  bindR (envInt "RECEIPT_WORKER_CONCURRENCY" 4) (fun receiptConcurrency =>
  bindR (envInt "NOTIFICATION_WORKER_CONCURRENCY" 2) (fun notificationConcurrency =>
  bindR (envDur "QUEUE_POLL_INTERVAL" (300 * Millisecond)) (fun queuePoll =>
  bindR (envDur "SUMMARY_SCHEDULE_POLL_INTERVAL" (30 * Second)) (fun summaryPoll =>
  let cfg := mkConfig (envStr "APP_ENV" EnvDevelopment) (trimmed "DATABASE_URL") (trimmed "ZALO_BOT_TOKEN")
    (Getenv "ZALO_WEBHOOK_SECRET") (envStr "ZALO_API_BASE" "https://bot-api.zaloplatforms.com")
    (envStr "LISTEN_ADDR" "127.0.0.1:8080") (envStr "DATA_DIR" "./data") (envStr "OBJECTSTORE" "local")
    (trimmed "S3_BUCKET") (trimmed "S3_PREFIX") (TrimRight_slash (trimmed "S3_ENDPOINT")) (trimmed "S3_REGION")
    retentionDays (envStr "EXTRACTOR" "mock") (trimmed "GEMINI_API_KEY") (envStr "GEMINI_MODEL" "gemini-3.6-flash")
    (envStr "GEMINI_API_BASE" "https://generativelanguage.googleapis.com") (parseList (Getenv "PILOT_ALLOWLIST"))
    extractionEnabled outboundEnabled ocrLimit receiptLimit messageLimit receiptConcurrency notificationConcurrency
    queuePoll summaryPoll (envStr "LOG_LEVEL" "info") in
  bindR (validate cfg) (fun _ => Ok cfg))))))))))).
End config.

(** [MessagingMode], [Allowlisted], [OriginalRetention] *)
Definition MessagingMode (c : Config) : string := if String.eqb (ZaloBotToken c) "" then "log" else "zalo".
Definition Allowlisted (c : Config) (senderID : string) : bool :=
  if bool_decide (PilotAllowlist c = ∅) then existsb (String.eqb (AppEnv c)) [""; EnvDevelopment; EnvTest]
  else bool_decide (senderID ∈ PilotAllowlist c).
Definition OriginalRetention (c : Config) : Z * string :=
  let days := if OriginalRetentionDays c <? 1 then 1 else OriginalRetentionDays c in
  (days * 24 * Hour, "originals_" ++ Sprintd days ++ "d").

(** ** What loading guarantees *)
Section theorems.
Context `{NetParse}.

Lemma all_checks_Ok l : all_checks l = Ok tt <-> Forall (fun r => r = Ok tt) l.
Proof.
  induction l as [|[[]|e] l IH]; simpl; [by split| |].
  - rewrite IH. split; [by constructor|by inversion 1].
  - split; [done|]. by inversion 1.
Qed.
Lemma require_Ok b m : require b m = Ok tt <-> b = true.
Proof. by destruct b. Qed.
Definition is_https (raw : string) : Prop := exists host name, url_Parse raw = Some ("https", host, name) /\ host <> "".
Lemma requireHTTPS_Ok name raw : requireHTTPS name raw = Ok tt -> is_https raw.
Proof.
  unfold requireHTTPS. destruct (url_Parse raw) as [[[scheme host] hostname]|] eqn:Hu; [|done].
  destruct (String.eqb_spec scheme "https") as [->|]; [|done]. destruct (String.eqb_spec host ""); [done|]. intros _. by exists host, hostname.
Qed.

Lemma Load_validated getenv c : Load getenv = Ok c -> validate c = Ok tt.
Proof.
  unfold Load. cbv zeta. intros Hl. repeat (case_match; [|discriminate Hl]). injection Hl as <-.
  match goal with Hv : validate _ = Ok ?u |- _ => destruct u; exact Hv end.
Qed.

(** The limits every environment has. *)
Definition within_bounds (c : Config) : Prop :=
  0 <= MonthlyOCRPageLimit c /\ 0 <= PerUserDailyReceiptLimit c /\ 0 <= ZaloMonthlyMessageLimit c /\
  1 <= OriginalRetentionDays c <= 365 /\ 1 <= ReceiptWorkerConcurrency c <= 64 /\ 1 <= NotificationWorkerConcurrency c <= 64 /\
  10 * Millisecond <= QueuePollInterval c <= Minute /\ Second <= SummarySchedulePollInterval c <= Hour /\
  OriginalRetention c = (OriginalRetentionDays c * 24 * Hour, "originals_" ++ Sprintd (OriginalRetentionDays c) ++ "d").
(** The conditions of a deployment with real users. *)
Definition locked_down (c : Config) : Prop :=
  (forall sender, Allowlisted c sender = true -> sender ∈ PilotAllowlist c) /\ MessagingMode c = "zalo" /\
  16 <= Z.of_nat (String.length (ZaloWebhookSecret c)) /\ ZaloWebhookSecret c <> "dev-secret-change-me" /\
  0 < MonthlyOCRPageLimit c /\ 0 < PerUserDailyReceiptLimit c /\ 0 < ZaloMonthlyMessageLimit c /\
  is_https (ZaloAPIBase c) /\ (ExtractionBackend c = "gemini" -> is_https (GeminiAPIBase c)) /\
  (AppEnv c = EnvProduction -> ExtractionBackend c <> "mock").

Lemma validate_bounds c : validate c = Ok tt -> within_bounds c.
Proof.
  unfold validate. rewrite all_checks_Ok, !Forall_app. intros (Hv & _ & _).
  repeat match goal with H : Forall _ (_ :: _) |- _ => apply Forall_cons in H as [? H] end.
  unfold non_negative, concurrency in *.
  repeat match goal with H : require _ _ = Ok tt |- _ => apply require_Ok in H end.
  rewrite ?andb_true_iff, ?Z.leb_le in *. unfold within_bounds, OriginalRetention.
  rewrite (proj2 (Z.ltb_ge _ 1)) by lia. split_and!; try tauto.
Qed.

Lemma validate_controlled c : validate c = Ok tt -> controlled c = true -> locked_down c.
Proof.
  intros Hv Hc. pose proof (validate_bounds c Hv) as (B1 & B2 & B3 & _). unfold validate in Hv.
  rewrite all_checks_Ok, !Forall_app, Hc in Hv. destruct Hv as (_ & Hk & Hp). unfold check_controlled in Hk.
  repeat match goal with H : Forall _ (_ :: _) |- _ => apply Forall_cons in H as [? H] end.
  repeat match goal with H : require _ _ = Ok tt |- _ => apply require_Ok in H end.
  repeat match goal with H : negb _ = true |- _ => apply negb_true_iff in H end.
  repeat match goal with H : _ || _ = false |- _ => apply orb_false_iff in H as [? ?] end.
  rewrite ?Z.ltb_ge, ?Z.eqb_neq, ?String.eqb_neq, ?bool_decide_eq_false in *.
  unfold locked_down, MessagingMode, Allowlisted. rewrite (proj2 (String.eqb_neq _ _)), bool_decide_eq_false_2 by done.
  split_and!; try done; try lia.
  - intros s. by rewrite bool_decide_eq_true.
  - by eapply requireHTTPS_Ok.
  - intros He. rewrite He in *. match goal with H : (if _ then _ else _) = Ok tt |- _ => by eapply requireHTTPS_Ok, H end.
  - intros Hprod Hmock. rewrite Hprod, Hmock in *. match goal with H : _ && _ = false |- _ => discriminate H end.
Qed.

(** C40: A configuration that loads is safe to run: limits, concurrency, poll
    intervals and the retention of originals are within their bounds, and in the
    pilot and production environments only listed senders are allowed, a token and a
    real webhook secret are set, all quotas are positive, the endpoints use https and
    production does not run the mock extractor.  Anything else is a start-up error. *)
Theorem loaded_config_safe (getenv : string -> option string) (c : Config) (Hload : Load getenv = Ok c) :
  within_bounds c /\ (controlled c = true -> locked_down c).
Proof. apply Load_validated in Hload. split; [by apply validate_bounds|by apply validate_controlled]. Qed.
End theorems.

Module ConfigDemo.
#[local] Instance net : NetParse := {| SplitHostPort := fun s => Contains s ":";
  url_Parse := fun s => if HasPrefix s "https://" then Some ("https", TrimPrefix s "https://", TrimPrefix s "https://") else None;
  ParseDuration := fun _ => None |}.
Definition pilot (key : string) : option string :=
  if String.eqb key "APP_ENV" then Some "pilot" else if String.eqb key "DATABASE_URL" then Some "postgres://db"
  else if String.eqb key "ZALO_BOT_TOKEN" then Some "token" else if String.eqb key "ZALO_WEBHOOK_SECRET" then Some "0123456789abcdef"
  else if String.eqb key "PILOT_ALLOWLIST" then Some " u1, ,u2" else None.
Definition loaded : Config := match Load pilot with Ok c => c | Fail _ => mkConfig "" "" "" "" "" "" "" "" "" "" "" "" 0 "" "" "" "" ∅ false false 0 0 0 0 0 0 0 "" end.
Lemma pilot_loads : Load pilot = Ok loaded.
Proof. vm_compute. reflexivity. Qed.
Lemma loaded_config_safe_witness : Allowlisted loaded "u2" = true /\ Allowlisted loaded "u3" = false /\ 1 <= OriginalRetentionDays loaded <= 365.
Proof.
  destruct (loaded_config_safe pilot loaded pilot_loads) as [(_ & _ & _ & Hr & _) _]. split; [vm_compute; reflexivity|split; [vm_compute; reflexivity|exact Hr]].
Defined.
End ConfigDemo.
