(* ===== verification/Db.v ===== *)
(** * Database and runtime

    The world a handler runs in: the tables of db/migrations as finite maps, the
    faults, clocks and generated identifiers it meets (the class [Env]), the
    connection and transaction helpers of internal/platform/postgres, and
    internal/store/store.go's error classification.

    Every SQL statement, clock reading and generated UUID consumes one tick of
    the world's counter; [Env] says what happens at each tick, so a statement
    proved for every [Env] holds for every schedule of faults, clock readings
    and identifiers.  A faulty statement returns the driver's error either
    without effect or with its effect applied (the reply was lost).  SQL
    statements are atomic; the statements of one transaction see each other and
    are undone together. *)
From stdpp Require Import pretty.
From S2P Require Import Prelude GoStrings Domain.

(** ** Tables *)
Inductive AttemptStatus := AttemptStarted | AttemptSucceeded | AttemptFailed.
#[global] Instance AttemptStatus_eq_dec : EqDecision AttemptStatus.
Proof. solve_decision. Defined.

(** receipt_processing_attempts, keyed by (receipt, processor, version, attempt). *)
Abbreviation AttemptKey := (uuid * string * string * Z)%type.
Record Attempt := mkAttempt {
  at_status : AttemptStatus; at_started : Time; at_completed : option Time;
  at_class : string; at_code : string }.

(** usage_counters, keyed by (scope, scope_id, period, metric). *)
Abbreviation UsageKey := (string * string * string * string)%type.

Record DB := mkDB {
  db_users : gmap uuid User;
  db_idents : gmap uuid UserIdentity;
  db_msgs : gmap uuid ProviderMessage;
  db_receipts : gmap uuid ReceiptDocument;
  db_attempts : gmap AttemptKey Attempt;
  db_txs : gmap uuid Transaction;
  db_fields : gmap uuid ExtractedField;
  db_preds : gmap uuid Prediction;
  db_corrs : gmap uuid Correction;
  db_categories : gmap uuid Category;
  db_merchants : gmap uuid Merchant;
  db_aliases : gmap uuid MerchantAlias;
  db_rules : gmap (uuid * uuid) UserMerchantRule;
  db_insights : gmap uuid Insight;
  db_usage : gmap UsageKey UsageCounter;
  db_jobs : gmap uuid QueueJob;
  db_outbound : gmap uuid OutboundRecord;
  db_pending : gmap uuid PendingAction;
  db_schedules : gmap uuid SummarySchedule }.

Definition empty_db : DB := mkDB ∅ ∅ ∅ ∅ ∅ ∅ ∅ ∅ ∅ ∅ ∅ ∅ ∅ ∅ ∅ ∅ ∅ ∅ ∅.

Definition upd_users (f : gmap uuid User -> gmap uuid User) (d : DB) : DB :=
  {| db_users := f (db_users d); db_idents := db_idents d; db_msgs := db_msgs d; db_receipts :=
     db_receipts d; db_attempts := db_attempts d; db_txs := db_txs d; db_fields := db_fields d; db_preds
     := db_preds d; db_corrs := db_corrs d; db_categories := db_categories d; db_merchants :=
     db_merchants d; db_aliases := db_aliases d; db_rules := db_rules d; db_insights := db_insights d;
     db_usage := db_usage d; db_jobs := db_jobs d; db_outbound := db_outbound d; db_pending :=
     db_pending d; db_schedules := db_schedules d |}.
Definition upd_idents (f : gmap uuid UserIdentity -> gmap uuid UserIdentity) (d : DB) : DB :=
  {| db_users := db_users d; db_idents := f (db_idents d); db_msgs := db_msgs d; db_receipts :=
     db_receipts d; db_attempts := db_attempts d; db_txs := db_txs d; db_fields := db_fields d; db_preds
     := db_preds d; db_corrs := db_corrs d; db_categories := db_categories d; db_merchants :=
     db_merchants d; db_aliases := db_aliases d; db_rules := db_rules d; db_insights := db_insights d;
     db_usage := db_usage d; db_jobs := db_jobs d; db_outbound := db_outbound d; db_pending :=
     db_pending d; db_schedules := db_schedules d |}.
Definition upd_msgs (f : gmap uuid ProviderMessage -> gmap uuid ProviderMessage) (d : DB) : DB :=
  {| db_users := db_users d; db_idents := db_idents d; db_msgs := f (db_msgs d); db_receipts :=
     db_receipts d; db_attempts := db_attempts d; db_txs := db_txs d; db_fields := db_fields d; db_preds
     := db_preds d; db_corrs := db_corrs d; db_categories := db_categories d; db_merchants :=
     db_merchants d; db_aliases := db_aliases d; db_rules := db_rules d; db_insights := db_insights d;
     db_usage := db_usage d; db_jobs := db_jobs d; db_outbound := db_outbound d; db_pending :=
     db_pending d; db_schedules := db_schedules d |}.
Definition upd_receipts (f : gmap uuid ReceiptDocument -> gmap uuid ReceiptDocument) (d : DB) : DB :=
  {| db_users := db_users d; db_idents := db_idents d; db_msgs := db_msgs d; db_receipts := f
     (db_receipts d); db_attempts := db_attempts d; db_txs := db_txs d; db_fields := db_fields d;
     db_preds := db_preds d; db_corrs := db_corrs d; db_categories := db_categories d; db_merchants :=
     db_merchants d; db_aliases := db_aliases d; db_rules := db_rules d; db_insights := db_insights d;
     db_usage := db_usage d; db_jobs := db_jobs d; db_outbound := db_outbound d; db_pending :=
     db_pending d; db_schedules := db_schedules d |}.
Definition upd_attempts (f : gmap AttemptKey Attempt -> gmap AttemptKey Attempt) (d : DB) : DB :=
  {| db_users := db_users d; db_idents := db_idents d; db_msgs := db_msgs d; db_receipts := db_receipts
     d; db_attempts := f (db_attempts d); db_txs := db_txs d; db_fields := db_fields d; db_preds :=
     db_preds d; db_corrs := db_corrs d; db_categories := db_categories d; db_merchants := db_merchants
     d; db_aliases := db_aliases d; db_rules := db_rules d; db_insights := db_insights d; db_usage :=
     db_usage d; db_jobs := db_jobs d; db_outbound := db_outbound d; db_pending := db_pending d;
     db_schedules := db_schedules d |}.
Definition upd_txs (f : gmap uuid Transaction -> gmap uuid Transaction) (d : DB) : DB :=
  {| db_users := db_users d; db_idents := db_idents d; db_msgs := db_msgs d; db_receipts := db_receipts
     d; db_attempts := db_attempts d; db_txs := f (db_txs d); db_fields := db_fields d; db_preds :=
     db_preds d; db_corrs := db_corrs d; db_categories := db_categories d; db_merchants := db_merchants
     d; db_aliases := db_aliases d; db_rules := db_rules d; db_insights := db_insights d; db_usage :=
     db_usage d; db_jobs := db_jobs d; db_outbound := db_outbound d; db_pending := db_pending d;
     db_schedules := db_schedules d |}.
Definition upd_fields (f : gmap uuid ExtractedField -> gmap uuid ExtractedField) (d : DB) : DB :=
  {| db_users := db_users d; db_idents := db_idents d; db_msgs := db_msgs d; db_receipts := db_receipts
     d; db_attempts := db_attempts d; db_txs := db_txs d; db_fields := f (db_fields d); db_preds :=
     db_preds d; db_corrs := db_corrs d; db_categories := db_categories d; db_merchants := db_merchants
     d; db_aliases := db_aliases d; db_rules := db_rules d; db_insights := db_insights d; db_usage :=
     db_usage d; db_jobs := db_jobs d; db_outbound := db_outbound d; db_pending := db_pending d;
     db_schedules := db_schedules d |}.
Definition upd_preds (f : gmap uuid Prediction -> gmap uuid Prediction) (d : DB) : DB :=
  {| db_users := db_users d; db_idents := db_idents d; db_msgs := db_msgs d; db_receipts := db_receipts
     d; db_attempts := db_attempts d; db_txs := db_txs d; db_fields := db_fields d; db_preds := f
     (db_preds d); db_corrs := db_corrs d; db_categories := db_categories d; db_merchants :=
     db_merchants d; db_aliases := db_aliases d; db_rules := db_rules d; db_insights := db_insights d;
     db_usage := db_usage d; db_jobs := db_jobs d; db_outbound := db_outbound d; db_pending :=
     db_pending d; db_schedules := db_schedules d |}.
Definition upd_corrs (f : gmap uuid Correction -> gmap uuid Correction) (d : DB) : DB :=
  {| db_users := db_users d; db_idents := db_idents d; db_msgs := db_msgs d; db_receipts := db_receipts
     d; db_attempts := db_attempts d; db_txs := db_txs d; db_fields := db_fields d; db_preds := db_preds
     d; db_corrs := f (db_corrs d); db_categories := db_categories d; db_merchants := db_merchants d;
     db_aliases := db_aliases d; db_rules := db_rules d; db_insights := db_insights d; db_usage :=
     db_usage d; db_jobs := db_jobs d; db_outbound := db_outbound d; db_pending := db_pending d;
     db_schedules := db_schedules d |}.
Definition upd_categories (f : gmap uuid Category -> gmap uuid Category) (d : DB) : DB :=
  {| db_users := db_users d; db_idents := db_idents d; db_msgs := db_msgs d; db_receipts := db_receipts
     d; db_attempts := db_attempts d; db_txs := db_txs d; db_fields := db_fields d; db_preds := db_preds
     d; db_corrs := db_corrs d; db_categories := f (db_categories d); db_merchants := db_merchants d;
     db_aliases := db_aliases d; db_rules := db_rules d; db_insights := db_insights d; db_usage :=
     db_usage d; db_jobs := db_jobs d; db_outbound := db_outbound d; db_pending := db_pending d;
     db_schedules := db_schedules d |}.
Definition upd_merchants (f : gmap uuid Merchant -> gmap uuid Merchant) (d : DB) : DB :=
  {| db_users := db_users d; db_idents := db_idents d; db_msgs := db_msgs d; db_receipts := db_receipts
     d; db_attempts := db_attempts d; db_txs := db_txs d; db_fields := db_fields d; db_preds := db_preds
     d; db_corrs := db_corrs d; db_categories := db_categories d; db_merchants := f (db_merchants d);
     db_aliases := db_aliases d; db_rules := db_rules d; db_insights := db_insights d; db_usage :=
     db_usage d; db_jobs := db_jobs d; db_outbound := db_outbound d; db_pending := db_pending d;
     db_schedules := db_schedules d |}.
Definition upd_aliases (f : gmap uuid MerchantAlias -> gmap uuid MerchantAlias) (d : DB) : DB :=
  {| db_users := db_users d; db_idents := db_idents d; db_msgs := db_msgs d; db_receipts := db_receipts
     d; db_attempts := db_attempts d; db_txs := db_txs d; db_fields := db_fields d; db_preds := db_preds
     d; db_corrs := db_corrs d; db_categories := db_categories d; db_merchants := db_merchants d;
     db_aliases := f (db_aliases d); db_rules := db_rules d; db_insights := db_insights d; db_usage :=
     db_usage d; db_jobs := db_jobs d; db_outbound := db_outbound d; db_pending := db_pending d;
     db_schedules := db_schedules d |}.
Definition upd_rules (f : gmap (uuid * uuid) UserMerchantRule -> gmap (uuid * uuid) UserMerchantRule) (d
     : DB) : DB :=
  {| db_users := db_users d; db_idents := db_idents d; db_msgs := db_msgs d; db_receipts := db_receipts
     d; db_attempts := db_attempts d; db_txs := db_txs d; db_fields := db_fields d; db_preds := db_preds
     d; db_corrs := db_corrs d; db_categories := db_categories d; db_merchants := db_merchants d;
     db_aliases := db_aliases d; db_rules := f (db_rules d); db_insights := db_insights d; db_usage :=
     db_usage d; db_jobs := db_jobs d; db_outbound := db_outbound d; db_pending := db_pending d;
     db_schedules := db_schedules d |}.
Definition upd_insights (f : gmap uuid Insight -> gmap uuid Insight) (d : DB) : DB :=
  {| db_users := db_users d; db_idents := db_idents d; db_msgs := db_msgs d; db_receipts := db_receipts
     d; db_attempts := db_attempts d; db_txs := db_txs d; db_fields := db_fields d; db_preds := db_preds
     d; db_corrs := db_corrs d; db_categories := db_categories d; db_merchants := db_merchants d;
     db_aliases := db_aliases d; db_rules := db_rules d; db_insights := f (db_insights d); db_usage :=
     db_usage d; db_jobs := db_jobs d; db_outbound := db_outbound d; db_pending := db_pending d;
     db_schedules := db_schedules d |}.
Definition upd_usage (f : gmap UsageKey UsageCounter -> gmap UsageKey UsageCounter) (d : DB) : DB :=
  {| db_users := db_users d; db_idents := db_idents d; db_msgs := db_msgs d; db_receipts := db_receipts
     d; db_attempts := db_attempts d; db_txs := db_txs d; db_fields := db_fields d; db_preds := db_preds
     d; db_corrs := db_corrs d; db_categories := db_categories d; db_merchants := db_merchants d;
     db_aliases := db_aliases d; db_rules := db_rules d; db_insights := db_insights d; db_usage := f
     (db_usage d); db_jobs := db_jobs d; db_outbound := db_outbound d; db_pending := db_pending d;
     db_schedules := db_schedules d |}.
Definition upd_jobs (f : gmap uuid QueueJob -> gmap uuid QueueJob) (d : DB) : DB :=
  {| db_users := db_users d; db_idents := db_idents d; db_msgs := db_msgs d; db_receipts := db_receipts
     d; db_attempts := db_attempts d; db_txs := db_txs d; db_fields := db_fields d; db_preds := db_preds
     d; db_corrs := db_corrs d; db_categories := db_categories d; db_merchants := db_merchants d;
     db_aliases := db_aliases d; db_rules := db_rules d; db_insights := db_insights d; db_usage :=
     db_usage d; db_jobs := f (db_jobs d); db_outbound := db_outbound d; db_pending := db_pending d;
     db_schedules := db_schedules d |}.
Definition upd_outbound (f : gmap uuid OutboundRecord -> gmap uuid OutboundRecord) (d : DB) : DB :=
  {| db_users := db_users d; db_idents := db_idents d; db_msgs := db_msgs d; db_receipts := db_receipts
     d; db_attempts := db_attempts d; db_txs := db_txs d; db_fields := db_fields d; db_preds := db_preds
     d; db_corrs := db_corrs d; db_categories := db_categories d; db_merchants := db_merchants d;
     db_aliases := db_aliases d; db_rules := db_rules d; db_insights := db_insights d; db_usage :=
     db_usage d; db_jobs := db_jobs d; db_outbound := f (db_outbound d); db_pending := db_pending d;
     db_schedules := db_schedules d |}.
Definition upd_pending (f : gmap uuid PendingAction -> gmap uuid PendingAction) (d : DB) : DB :=
  {| db_users := db_users d; db_idents := db_idents d; db_msgs := db_msgs d; db_receipts := db_receipts
     d; db_attempts := db_attempts d; db_txs := db_txs d; db_fields := db_fields d; db_preds := db_preds
     d; db_corrs := db_corrs d; db_categories := db_categories d; db_merchants := db_merchants d;
     db_aliases := db_aliases d; db_rules := db_rules d; db_insights := db_insights d; db_usage :=
     db_usage d; db_jobs := db_jobs d; db_outbound := db_outbound d; db_pending := f (db_pending d);
     db_schedules := db_schedules d |}.
Definition upd_schedules (f : gmap uuid SummarySchedule -> gmap uuid SummarySchedule) (d : DB) : DB :=
  {| db_users := db_users d; db_idents := db_idents d; db_msgs := db_msgs d; db_receipts := db_receipts
     d; db_attempts := db_attempts d; db_txs := db_txs d; db_fields := db_fields d; db_preds := db_preds
     d; db_corrs := db_corrs d; db_categories := db_categories d; db_merchants := db_merchants d;
     db_aliases := db_aliases d; db_rules := db_rules d; db_insights := db_insights d; db_usage :=
     db_usage d; db_jobs := db_jobs d; db_outbound := db_outbound d; db_pending := db_pending d;
     db_schedules := f (db_schedules d) |}.

(** ** The environment *)
Record Fault := mkFault { flt_err : DriverErr; flt_applied : bool }.

Class Env := {
  fault : nat -> option Fault;
  clk_now : nat -> Time;
  wall_now : nat -> Time;
  sql_now : nat -> Time;
  new_uuid : nat -> uuid;
  uuid_text : uuid -> string;
  uuid_text_inj : Inj (=) (=) uuid_text;
  (** PostgreSQL's [->>] and [#>>] on a JSONB value. *)
  json_text : string -> list string -> option string;
  (** PostgreSQL's lower(). *)
  sql_lower : string -> string;
  (** hex(sha256(data)) and net/http's content sniffing. *)
  sha256_hex : string -> string;
  DetectContentType : string -> string;
  unicode_case :: UnicodeCase
}.
#[global] Existing Instance uuid_text_inj.

(** Calls to the outside world, in order; [row], [receipt] and [period] only label
    the trace. *)
Inductive Call :=
| CallSend (row : uuid) (period chat text key : string)
| CallExtract (receipt : uuid) (period : string).

(** [w_txnow] is the start of the open transaction, which SQL's now() returns;
    [w_held] is the user whose lock the context carries; [w_objects] is what the
    object store holds; [w_exports] lists the files of each directory under the
    export root. *)
Record World := mkWorld {
  w_db : DB; w_tick : nat; w_txnow : option Time; w_held : option uuid;
  w_objects : gmap string string; w_exports : gmap string (list string); w_calls : list Call }.

Definition tick (w : World) : World :=
  mkWorld (w_db w) (S (w_tick w)) (w_txnow w) (w_held w) (w_objects w) (w_exports w) (w_calls w).
Definition set_db (d : DB) (w : World) : World :=
  mkWorld d (w_tick w) (w_txnow w) (w_held w) (w_objects w) (w_exports w) (w_calls w).
Definition set_txnow (t : option Time) (w : World) : World :=
  mkWorld (w_db w) (w_tick w) t (w_held w) (w_objects w) (w_exports w) (w_calls w).
Definition set_held (u : option uuid) (w : World) : World :=
  mkWorld (w_db w) (w_tick w) (w_txnow w) u (w_objects w) (w_exports w) (w_calls w).
Definition set_objects (o : gmap string string) (w : World) : World :=
  mkWorld (w_db w) (w_tick w) (w_txnow w) (w_held w) o (w_exports w) (w_calls w).
Definition set_exports (x : gmap string (list string)) (w : World) : World :=
  mkWorld (w_db w) (w_tick w) (w_txnow w) (w_held w) (w_objects w) x (w_calls w).
Definition log_call (c : Call) (w : World) : World :=
  mkWorld (w_db w) (w_tick w) (w_txnow w) (w_held w) (w_objects w) (w_exports w) (w_calls w ++ [c])%list.

Abbreviation Go A := (M World Err A).

Section runtime.
Context `{Env}.

(** [clk.Now()], [time.Now()], [uuid.New()] *)
Definition clk_Now : Go Time := fun w => (Ok (clk_now (w_tick w)), tick w).
Definition time_Now : Go Time := fun w => (Ok (wall_now (w_tick w)), tick w).
Definition uuid_New : Go uuid := fun w => (Ok (new_uuid (w_tick w)), tick w).

(** ** SQL statements

    A statement computes its result and the new tables, or a server error (a
    constraint violation), at the time SQL's now() returns. *)
Definition Stmt A : Type := Time -> DB -> Res DriverErr (A * DB).

Definition now_sql (w : World) : Time := default (sql_now (w_tick w)) (w_txnow w).

Definition stmt_effect {A} (f : Stmt A) (t : Time) (d : DB) : DB :=
  match f t d with Ok (_, d') => d' | Fail _ => d end.

Definition stmt {A} (f : Stmt A) : Go A := fun w =>
  match fault (w_tick w) with
  | Some flt =>
      let d := if flt_applied flt then stmt_effect f (now_sql w) (w_db w) else w_db w in
      (Fail (Driver (flt_err flt)), set_db d (tick w))
  | None =>
      match f (now_sql w) (w_db w) with
      | Ok (a, d) => (Ok a, set_db d (tick w))
      | Fail e => (Fail (Driver e), tick w)
      end
  end.

(** A SELECT. *)
Definition query {A} (f : DB -> A) : Go A := stmt (fun _ d => Ok (f d, d)).
(** An UPDATE or DELETE that no constraint refuses. *)
Definition dml {A} (f : Time -> DB -> A * DB) : Go A := stmt (fun t d => Ok (f t d)).

(** ** Transactions: [pool.Begin], the body, [tx.Commit] or [tx.Rollback]

    A failed commit either did not happen or happened and its reply was lost. *)
Definition in_tx {A} (on_begin on_commit : Err -> Err) (body : Go A) : Go A := fun w =>
  match fault (w_tick w) with
  | Some flt => (Fail (on_begin (Driver (flt_err flt))), tick w)
  | None =>
      match body (set_txnow (Some (sql_now (w_tick w))) (tick w)) with
      | (Fail e, w1) => (Fail e, set_txnow None (set_db (w_db w) w1))
      | (Ok a, w1) =>
          match fault (w_tick w1) with
          | Some flt =>
              let d := if flt_applied flt then w_db w1 else w_db w in
              (Fail (on_commit (Driver (flt_err flt))), set_txnow None (set_db d (tick w1)))
          | None => (Ok a, set_txnow None (tick w1))
          end
      end
  end.

(** [postgres.WithTx] *)
Definition WithTx {A} (body : Go A) : Go A :=
  in_tx (Wrapped "begin tx") (Wrapped "commit tx") body.

(** [postgres.UserLockHeld] *)
Definition UserLockHeld (w : World) (userID : uuid) : bool := bool_decide (w_held w = Some userID).

(** A point where a context or connection error can surface. *)
Definition may_fail : Go unit := fun w =>
  match fault (w_tick w) with
  | Some flt => (Fail (Driver (flt_err flt)), tick w)
  | None => (Ok tt, tick w)
  end.

(** [postgres.WithUserLock]: reentrant for the same user; waiting for the
    semaphore, acquiring a connection and taking the advisory lock can each
    fail, and the error is returned as it is.  A failed unlock does not change the
    result; what becomes of its session is modelled in Pool.v. *)
Definition WithUserLock {A} (userID : uuid) (fn : Go A) : Go A := fun w =>
  if UserLockHeld w userID then fn w
  else
    match (may_fail ;;; may_fail ;;; may_fail) w with
    | (Fail e, w1) => (Fail e, w1)
    | (Ok _, w1) =>
        let r := fn (set_held (Some userID) w1) in
        (fst r, set_held (w_held w) (snd r))
    end.
End runtime.

(** ** Tables as finite maps *)
Definition pg_error (code : string) : DriverErr :=
  mkDriverErr (PgError code) ("ERROR: (SQLSTATE " ++ code ++ ")").
Definition unique_violation : DriverErr := pg_error "23505".
Definition check_violation : DriverErr := pg_error "23514".
Definition foreign_key_violation : DriverErr := pg_error "23503".

Section tables.
Context {K R : Type} `{Countable K}.

Definition rows (m : gmap K R) : list R := (map_to_list m).*2.
Definition select (p : R -> bool) (m : gmap K R) : list R := filter (fun r => p r = true) (rows m).

(** UPDATE ... WHERE key = k AND cond; the affected rows are counted. *)
Definition update_row (k : K) (cond : R -> bool) (f : R -> R) (m : gmap K R) : Z * gmap K R :=
  match m !! k with
  | Some r => if cond r then (1, <[k := f r]> m) else (0, m)
  | None => (0, m)
  end.

(** UPDATE ... WHERE p *)
Definition update_where (p : R -> bool) (f : R -> R) (m : gmap K R) : Z * gmap K R :=
  (Z.of_nat (length (select p m)), (fun r => if p r then f r else r) <$> m).

(** DELETE ... WHERE p *)
Definition delete_where (p : R -> bool) (m : gmap K R) : Z * gmap K R :=
  (Z.of_nat (length (select p m)), filter (fun kr => p kr.2 = false) m).

(** INSERT of a row whose key must be new and which no other row may clash with
    (the unique indexes). *)
Definition insert_row (k : K) (r : R) (clash : R -> bool) (m : gmap K R) : Res DriverErr (gmap K R) :=
  if bool_decide (is_Some (m !! k)) || existsb clash (rows m) then Fail unique_violation
  else Ok (<[k := r]> m).

Lemma elem_of_rows r (m : gmap K R) : r ∈ rows m <-> exists k, m !! k = Some r.
Proof.
  unfold rows. rewrite list_elem_of_fmap. split.
  - intros ([k r'] & -> & Hin). exists k. by apply elem_of_map_to_list.
  - intros [k Hk]. exists (k, r). split; [done|]. by apply elem_of_map_to_list.
Qed.

Lemma elem_of_select r p (m : gmap K R) : r ∈ select p m <-> p r = true /\ exists k, m !! k = Some r.
Proof. unfold select. by rewrite list_elem_of_filter, elem_of_rows. Qed.

Lemma select_none p (m : gmap K R) : select p m = [] <-> forall k r, m !! k = Some r -> p r = false.
Proof.
  split.
  - intros Hs k r Hk. apply not_true_is_false. intros Hp.
    assert (r ∈ select p m) as Hin by (apply elem_of_select; eauto).
    rewrite Hs in Hin. by apply elem_of_nil in Hin.
  - intros Hall. apply elem_of_nil_inv. intros r (Hp & k & Hk)%elem_of_select.
    rewrite (Hall k r Hk) in Hp. done.
Qed.

(** A row that alone satisfies [p] is the one a SELECT finds. *)
Lemma head_select_unique p (m : gmap K R) k x :
  m !! k = Some x -> p x = true -> (forall k' r, m !! k' = Some r -> p r = true -> r = x) -> head (select p m) = Some x.
Proof.
  intros Hk Hp Huniq. assert (x ∈ select p m) as Hin by (apply elem_of_select; eauto).
  destruct (select p m) as [|y l] eqn:Hs; [by apply elem_of_nil in Hin|]. simpl. f_equal.
  assert (y ∈ select p m) as Hy by (rewrite Hs; constructor). apply elem_of_select in Hy as (Hpy & k' & Hk'). eauto.
Qed.

Lemma existsb_rows p (m : gmap K R) :
  existsb p (rows m) = false <-> forall k r, m !! k = Some r -> p r = false.
Proof.
  split.
  - intros Hs k r Hk. apply not_true_is_false. intros Hp.
    assert (existsb p (rows m) = true) as Ht; [|congruence].
    apply existsb_exists. exists r. split; [|done]. apply list_elem_of_In, elem_of_rows. eauto.
  - intros Hall. apply not_true_is_false. intros (r & Hin & Hp)%existsb_exists.
    apply list_elem_of_In, elem_of_rows in Hin as [k Hk]. rewrite (Hall k r Hk) in Hp. done.
Qed.

Lemma update_row_lookup k cond f (m : gmap K R) k' :
  (update_row k cond f m).2 !! k' =
  (if bool_decide (k = k') then (fun r => if cond r then f r else r) <$> m !! k' else m !! k').
Proof.
  unfold update_row. destruct (m !! k) as [r|] eqn:Hk; case_bool_decide as Hd; subst; simpl.
  - destruct (cond r) eqn:Hc; simpl; rewrite ?lookup_insert, Hk; simpl; rewrite ?Hc;
      rewrite ?decide_True by done; done.
  - destruct (cond r); simpl; rewrite ?lookup_insert_ne by done; done.
  - by rewrite Hk.
  - done.
Qed.

Lemma update_row_hit k cond f (m : gmap K R) :
  (update_row k cond f m).1 <> 0 ->
  exists r, m !! k = Some r /\ cond r = true /\ (update_row k cond f m).2 = <[k := f r]> m.
Proof.
  unfold update_row. destruct (m !! k) as [r|] eqn:Hk; [destruct (cond r) eqn:Hc|]; simpl;
    naive_solver.
Qed.

Lemma update_row_miss k cond f (m : gmap K R) :
  (update_row k cond f m).1 = 0 -> (update_row k cond f m).2 = m.
Proof. unfold update_row. destruct (m !! k) as [r|]; [destruct (cond r)|]; simpl; done. Qed.

Lemma update_where_lookup p f (m : gmap K R) k :
  (update_where p f m).2 !! k = (fun r => if p r then f r else r) <$> m !! k.
Proof. unfold update_where. simpl. apply lookup_fmap. Qed.

Lemma delete_where_lookup p (m : gmap K R) k r :
  (delete_where p m).2 !! k = Some r <-> m !! k = Some r /\ p r = false.
Proof. unfold delete_where; simpl. by rewrite map_lookup_filter_Some. Qed.

(** The rows of a table after an insertion and after a deletion. *)
Lemma rows_insert k r (m : gmap K R) : m !! k = None -> rows (<[k := r]> m) ≡ₚ r :: rows m.
Proof. intros Hk. unfold rows. by rewrite map_to_list_insert. Qed.
Lemma rows_delete_where p (m : gmap K R) : rows (delete_where p m).2 ≡ₚ select (fun r => negb (p r)) m.
Proof.
  unfold delete_where, select. simpl. induction m as [|k r m Hk IH] using map_ind; [by rewrite map_filter_empty|].
  rewrite rows_insert by done. destruct (p r) eqn:Hp.
  - rewrite map_filter_insert_False, map_filter_delete, filter_cons_False by (simpl; rewrite Hp; done).
    rewrite delete_id; [done|]. apply map_lookup_filter_None. by left.
  - rewrite map_filter_insert_True, filter_cons_True by (simpl; rewrite Hp; done).
    rewrite rows_insert; [by rewrite IH|]. apply map_lookup_filter_None. by left.
Qed.

Lemma insert_row_ok k r clash (m m' : gmap K R) :
  insert_row k r clash m = Ok m' ->
  m !! k = None /\ m' = <[k := r]> m /\ forall k' r', m !! k' = Some r' -> clash r' = false.
Proof.
  unfold insert_row. case_bool_decide as Hd; simpl; [done|].
  destruct (existsb clash (rows m)) eqn:He; [done|]. intros [= <-].
  split_and!; [by apply eq_None_not_Some|done|]. by apply existsb_rows.
Qed.
End tables.

(** ** Relations that ignore the runtime's bookkeeping

    A [Quiet] relation between worlds is a preorder that ticks, transaction
    brackets and lock brackets respect; a [Steady] one also survives a rollback.
    It is then enough to establish it for each statement's effect. *)
Class Quiet (R : relation World) := {
  quiet_preorder :: PreOrder R;
  quiet_tick w : R w (tick w);
  quiet_txnow w t : R w (set_txnow t w);
  quiet_held w u : R w (set_held u w)
}.
Class Steady (R : relation World) := {
  steady_quiet :: Quiet R;
  steady_rollback w w' : R w w' -> R w (set_db (w_db w) w')
}.

Definition on_db (R : relation DB) : relation World := fun w w' => R (w_db w) (w_db w').
Definition on_calls (R : relation (list Call)) : relation World := fun w w' => R (w_calls w) (w_calls w').

#[global] Instance on_db_steady R `{!PreOrder R} : Steady (on_db R).
Proof.
  split; [split|]; unfold on_db; [split; [intros w; reflexivity|intros w1 w2 w3; apply transitivity]|..];
    intros; simpl; try reflexivity; done.
Qed.

(** Uses an evolution of the tables at one world. *)
Lemma on_db_at {A} (R : relation DB) (m : Go A) w d :
  evolves (on_db R) m -> w_db w = d -> R d (w_db (snd (m w))).
Proof. intros Hm <-. apply Hm. Qed.

#[global] Instance on_calls_steady R `{!PreOrder R} : Steady (on_calls R).
Proof.
  split; [split|]; unfold on_calls; [split; [intros w; reflexivity|intros w1 w2 w3; apply transitivity]|..];
    intros; simpl; try reflexivity; done.
Qed.

(** The tick counter only grows. *)
Definition ticks : relation World := fun w w' => (w_tick w <= w_tick w')%nat.
#[global] Instance ticks_steady : Steady ticks.
Proof. split; [split|]; unfold ticks; [split; [intros w|intros w1 w2 w3]|..]; intros; simpl; lia. Qed.

Section quiet.
Context `{Env} (R : relation World) `{!Quiet R}.

(** What a statement may do to the world, fault or not. *)
Definition stmt_ok {A} (f : Stmt A) : Prop := forall t w, R w (set_db (stmt_effect f t (w_db w)) w).

Lemma evolves_stmt {A} (f : Stmt A) : stmt_ok f -> evolves R (stmt f).
Proof.
  intros Hf w. unfold stmt.
  assert (R w (set_db (stmt_effect f (now_sql w) (w_db w)) (tick w))) as Heff.
  { etrans; [apply quiet_tick|]. apply (Hf (now_sql w) (tick w)). }
  destruct (fault (w_tick w)) as [[e [|]]|]; simpl; [done|apply quiet_tick|].
  unfold stmt_effect in Heff.
  destruct (f (now_sql w) (w_db w)) as [[a d]|e]; simpl; [done|apply quiet_tick].
Qed.

Lemma evolves_query {A} (f : DB -> A) : evolves R (query f).
Proof. apply evolves_stmt. intros t w. destruct w. simpl. reflexivity. Qed.

Lemma evolves_dml {A} (f : Time -> DB -> A * DB) :
  (forall t w, R w (set_db (f t (w_db w)).2 w)) -> evolves R (dml f).
Proof.
  intros Hf. apply evolves_stmt. intros t w. unfold stmt_effect. specialize (Hf t w).
  by destruct (f t (w_db w)).
Qed.

Lemma evolves_clk_Now : evolves R clk_Now.
Proof. intros w. apply quiet_tick. Qed.
Lemma evolves_time_Now : evolves R time_Now.
Proof. intros w. apply quiet_tick. Qed.
Lemma evolves_uuid_New : evolves R uuid_New.
Proof. intros w. apply quiet_tick. Qed.

Lemma evolves_may_fail : evolves R may_fail.
Proof. intros w. unfold may_fail. destruct (fault _); apply quiet_tick. Qed.

Lemma evolves_WithUserLock {A} u (fn : Go A) : evolves R fn -> evolves R (WithUserLock u fn).
Proof.
  intros Hf w. unfold WithUserLock. destruct (UserLockHeld w u); [apply Hf|].
  pose proof (evolves_bind R may_fail _ evolves_may_fail (fun _ =>
    evolves_bind R may_fail _ evolves_may_fail (fun _ => evolves_may_fail)) w) as Hl.
  destruct ((may_fail;;; may_fail;;; may_fail) w) as [[[]|e] w1]; simpl in *; [|done].
  etrans; [exact Hl|]. etrans; [apply quiet_held|]. etrans; [apply Hf|apply quiet_held].
Qed.
End quiet.

Section steady.
Context `{Env} (R : relation World) `{!Steady R}.

Lemma evolves_in_tx {A} f g (body : Go A) : evolves R body -> evolves R (in_tx f g body).
Proof.
  intros Hb w. unfold in_tx. destruct (fault (w_tick w)); simpl; [apply quiet_tick|].
  set (w0 := set_txnow _ (tick w)).
  assert (R w w0) as H0 by (etrans; [apply quiet_tick|apply quiet_txnow]).
  specialize (Hb w0). destruct (body w0) as [[a|e] w1]; simpl in *.
  - assert (R w w1) as H1 by (etrans; eauto).
    assert (R w (tick w1)) as H2 by (etrans; [exact H1|apply quiet_tick]).
    destruct (fault (w_tick w1)) as [[e' [|]]|]; simpl; (etrans; [|apply quiet_txnow]).
    + done.
    + by apply steady_rollback.
    + done.
  - etrans; [|apply quiet_txnow]. apply steady_rollback. by etrans.
Qed.

Lemma evolves_WithTx {A} (body : Go A) : evolves R body -> evolves R (WithTx body).
Proof. apply evolves_in_tx. Qed.
End steady.

(** [evolve] with the runtime's brackets. *)
Ltac go_step :=
  match goal with
  | |- evolves _ (WithTx _) => refine (evolves_WithTx _ _ _)
  | |- evolves _ (in_tx _ _ _) => refine (evolves_in_tx _ _ _ _ _)
  | |- evolves _ (WithUserLock _ _) => refine (evolves_WithUserLock _ _ _ _)
  | |- evolves _ (query _) => refine (evolves_query _ _)
  | |- evolves _ clk_Now => refine (evolves_clk_Now _)
  | |- evolves _ time_Now => refine (evolves_time_Now _)
  | |- evolves _ uuid_New => refine (evolves_uuid_New _)
  | |- evolves _ _ => evolve_step
  end.
Ltac go_evolve := cbv beta zeta; repeat (go_step; cbv beta zeta; try done).

(** Inversion of successful statements and transactions. *)
Section inversion.
Context `{Env}.

Lemma stmt_Ok {A} (f : Stmt A) w a w' :
  stmt f w = (Ok a, w') ->
  exists d, f (now_sql w) (w_db w) = Ok (a, d) /\ w' = set_db d (tick w).
Proof.
  unfold stmt. destruct (fault (w_tick w)); [done|].
  destruct (f (now_sql w) (w_db w)) as [[x d]|e]; intros; simplify_eq; eauto.
Qed.

Lemma query_Ok {A} (f : DB -> A) w a w' : query f w = (Ok a, w') -> a = f (w_db w) /\ w' = tick w.
Proof. intros (d & Hd & ->)%stmt_Ok. simplify_eq. by destruct w. Qed.

Lemma dml_Ok {A} (f : Time -> DB -> A * DB) w a w' :
  dml f w = (Ok a, w') -> f (now_sql w) (w_db w) = (a, w_db w') /\ w' = set_db (w_db w') (tick w).
Proof.
  intros (d & Hd & ->)%stmt_Ok. destruct (f (now_sql w) (w_db w)) as [x d0]. by simplify_eq/=.
Qed.

Lemma in_tx_Ok {A} f g (body : Go A) w a w' :
  in_tx f g body w = (Ok a, w') ->
  exists w1, body (set_txnow (Some (sql_now (w_tick w))) (tick w)) = (Ok a, w1) /\
             w' = set_txnow None (tick w1).
Proof.
  unfold in_tx. destruct (fault (w_tick w)); [done|].
  destruct (body _) as [[x|e] w1]; [|done]. destruct (fault (w_tick w1)) as [[? [|]]|]; [done..|].
  intros. simplify_eq. eauto.
Qed.

(** A failed transaction leaves either no trace or its whole effect (the commit
    happened and its reply was lost). *)
Lemma in_tx_Fail {A} f g (body : Go A) w e w' :
  in_tx f g body w = (Fail e, w') ->
  w_db w' = w_db w \/
  exists a w1, body (set_txnow (Some (sql_now (w_tick w))) (tick w)) = (Ok a, w1) /\ w_db w' = w_db w1.
Proof.
  unfold in_tx. destruct (fault (w_tick w)); [intros; simplify_eq; by left|].
  destruct (body _) as [[x|e'] w1]; [|intros; simplify_eq; by left].
  destruct (fault (w_tick w1)) as [[? [|]]|]; [..|done]; intros; simplify_eq; [right; eauto|by left].
Qed.

(** Either way: no trace, or the whole effect of a successful body. *)
Lemma in_tx_atomic {A} f g (body : Go A) w :
  let w' := snd (in_tx f g body w) in
  w_db w' = w_db w \/
  exists a w1, body (set_txnow (Some (sql_now (w_tick w))) (tick w)) = (Ok a, w1) /\ w_db w' = w_db w1.
Proof.
  cbv zeta. destruct (in_tx f g body w) as [[a|e] w'] eqn:Hrun; simpl.
  - apply in_tx_Ok in Hrun as (w1 & Hb & ->). right. eauto.
  - by apply in_tx_Fail in Hrun.
Qed.

Lemma may_fail_db w : w_db (snd (may_fail w)) = w_db w.
Proof. unfold may_fail. by destruct (fault _). Qed.

(** A locked section that succeeds ran on the tables as they were. *)
Lemma WithUserLock_Ok {A} u (fn : Go A) w a w' :
  WithUserLock u fn w = (Ok a, w') ->
  exists w1 w2, w_db w1 = w_db w /\ fn w1 = (Ok a, w2) /\ w_db w' = w_db w2.
Proof.
  unfold WithUserLock. destruct (UserLockHeld w u); [eauto|].
  destruct ((may_fail;;; may_fail;;; may_fail) w) as [[[]|e] w1] eqn:Hl; [|done].
  assert (w_db w1 = w_db w) as Hd.
  { apply bind_Ok in Hl as (? & w2 & H1 & Hl). apply bind_Ok in Hl as (? & w3 & H2 & H3).
    pose proof (may_fail_db w) as E1. pose proof (may_fail_db w2) as E2. pose proof (may_fail_db w3) as E3.
    rewrite H1 in E1. rewrite H2 in E2. rewrite H3 in E3. simpl in *. congruence. }
  intros Hr. exists (set_held (Some u) w1). destruct (fn _) as [r w2]. simpl in Hr. exists w2. simplify_eq/=. done.
Qed.
End inversion.

(** Peels one layer off a successful run. *)
Ltac inv_run H :=
  lazymatch type of H with
  | bind _ _ _ = (Ok _, _) => let a := fresh "a" in let w := fresh "w" in
      apply bind_Ok in H as (a & w & ? & H)
  | wrap_err _ _ _ = (Ok _, _) => apply wrap_err_Ok in H
  | query _ _ = (Ok _, _) => apply query_Ok in H as [? ?]; subst
  | ret _ _ = (Ok _, _) => apply ret_Ok in H as [? ?]; subst
  | fail _ _ = (Ok _, _) => discriminate H
  | attempt _ _ = (Ok _, _) => apply attempt_Ok in H
  end.
Ltac inv_runs :=
  repeat match goal with H : _ = (Ok _, _) |- _ => progress inv_run H; cbv beta zeta in * end.

(** Symbolic execution down to the fault oracle. *)
Ltac sql_unfold := run_unfold; unfold query, dml, stmt, stmt_effect, clk_Now, time_Now, uuid_New; simpl.
Ltac sql_unfold_in H :=
  run_unfold_in H; unfold query, dml, stmt, stmt_effect, clk_Now, time_Now, uuid_New in H; simpl in H.

(** ** Store errors (store.go) *)
Module StoreErr.
Section store_err.
Context `{Env}.

(** [errors.As]/[errors.Is] on the wrapped driver error. *)
Fixpoint driver_of (e : Err) : option DriverErr :=
  match e with
  | Driver d => Some d
  | DomainErr _ _ (Some c) => driver_of c
  | Wrapped _ c => driver_of c
  | _ => None
  end.

Definition is_pg (code : string) (e : Err) : bool :=
  match driver_of e with
  | Some (mkDriverErr (PgError c) _) => String.eqb c code
  | _ => false
  end.

(** [isTransientPgError] *)
Definition transient_states : list string :=
  ["40001"; "40P01"; "55P03"; "57P01"; "57P02"; "57P03"; "53300"; "08000"; "08003"; "08006"].
Definition isTransientPgError (e : Err) : bool :=
  existsb (fun code => is_pg code e) transient_states.

(** [isTransientNetError] *)
Definition isTransientNetError (e : Err) : bool :=
  match drv_kind <$> driver_of e with
  | Some NetOpError | Some ConnReset | Some BrokenPipe => true
  | _ => false
  end.

(** [isTransientStoreMessage] *)
Definition isTransientStoreMessage (e : Err) : bool :=
  existsb (Contains (ToLower (error_string e)))
    ["connection refused"; "i/o timeout"; "broken pipe"; "conn closed"].

(** [classifyStoreErr]; [internalErr] is its alias. *)
Definition classifyStoreErr (op : string) (e : Err) : Err :=
  let code :=
    match drv_kind <$> driver_of e with
    | Some DeadlineExceeded => CodeTransient
    | Some Canceled => CodeInternal
    | Some UnexpectedEOF => CodeTransient
    | _ => if isTransientPgError e || isTransientNetError e || isTransientStoreMessage e
           then CodeTransient else CodeInternal
    end in
  E code ("store." ++ op) (Some e).
Definition internalErr (op : string) (e : Err) : Err := classifyStoreErr op e.

(** [notFound] *)
Definition notFound (op what : string) : Err :=
  E CodeNotFound ("store." ++ op ++ ": " ++ what ++ " not found") None.

(** A store error carries one of two codes, so it is never mistaken for a
    missing row or a state conflict. *)
Lemma internalErr_code op e :
  CodeOf (internalErr op e) = CodeTransient \/ CodeOf (internalErr op e) = CodeInternal.
Proof.
  unfold internalErr, classifyStoreErr. simpl.
  destruct (drv_kind <$> driver_of e) as [[]|]; simpl; auto; destruct (_ || _); auto.
Qed.

Lemma internalErr_not op e c :
  c <> CodeTransient -> c <> CodeInternal -> IsCode (internalErr op e) c = false.
Proof.
  intros Ht Hi. unfold IsCode. apply bool_decide_eq_false.
  destruct (internalErr_code op e) as [Hc|Hc]; congruence.
Qed.

End store_err.
End StoreErr.
Export StoreErr.

(** ** Total correctness once the faults are over *)
Section runs.
Context `{Env} (N : nat) (Hnf : forall n, (N <= n)%nat -> fault n = None).

Definition late (w : World) : Prop := (N <= w_tick w)%nat.
Definition runs {A} (m : Go A) (Q : A -> World -> Prop) (w : World) : Prop :=
  exists a w', m w = (Ok a, w') /\ late w' /\ Q a w'.

Lemma runs_ret {A} (a : A) (Q : A -> World -> Prop) w : late w -> Q a w -> runs (ret a) Q w.
Proof. intros. by exists a, w. Qed.
Lemma runs_bind {A B} (m : Go A) (k : A -> Go B) Q w :
  runs m (fun a w1 => runs (k a) Q w1) w -> runs (bind m k) Q w.
Proof. intros (a & w1 & Hm & _ & b & w2 & Hk & Hl & HQ). exists b, w2. unfold bind. by rewrite Hm. Qed.
Lemma runs_wrap {A} f (m : Go A) Q w : runs m Q w -> runs (wrap_err f m) Q w.
Proof. intros (a & w1 & Hm & HQ). exists a, w1. unfold wrap_err. by rewrite Hm. Qed.
Lemma runs_stmt {A} (f : Stmt A) Q w a d : late w -> f (now_sql w) (w_db w) = Ok (a, d) ->
  Q a (set_db d (tick w)) -> runs (stmt f) Q w.
Proof.
  intros Hl Hf HQ. exists a, (set_db d (tick w)). unfold stmt. rewrite Hnf by done. rewrite Hf. split_and!; [done| |done].
  unfold late in *. simpl. lia.
Qed.
Lemma runs_dml {A} (f : Time -> DB -> A * DB) Q w : late w ->
  Q (f (now_sql w) (w_db w)).1 (set_db (f (now_sql w) (w_db w)).2 (tick w)) -> runs (dml f) Q w.
Proof. intros Hl. apply (runs_stmt _ _ _ _ _ Hl). by destruct (f _ _). Qed.
Lemma runs_query {A} (f : DB -> A) (Q : A -> World -> Prop) w : late w -> Q (f (w_db w)) (tick w) -> runs (query f) Q w.
Proof. intros Hl HQ. apply (runs_stmt _ _ _ (f (w_db w)) (w_db w) Hl); [done|]. by destruct w. Qed.
Lemma runs_in_tx {A} f g (body : Go A) Q w : late w ->
  runs body (fun a w1 => Q a (set_txnow None (tick w1))) (set_txnow (Some (sql_now (w_tick w))) (tick w)) ->
  runs (in_tx f g body) Q w.
Proof.
  intros Hl (a & w1 & Hb & Hl1 & HQ). exists a, (set_txnow None (tick w1)). unfold in_tx. rewrite Hnf by done.
  rewrite Hb, Hnf by done. split_and!; [done| |done]. unfold late in *. simpl. lia.
Qed.
Lemma runs_may_fail (Q : unit -> World -> Prop) w : late w -> Q tt (tick w) -> runs may_fail Q w.
Proof.
  intros Hl HQ. exists tt, (tick w). unfold may_fail. rewrite Hnf by done. split_and!; [done| |done]. unfold late in *. simpl. lia.
Qed.
Lemma runs_mono {A} (m : Go A) (Q Q' : A -> World -> Prop) w :
  runs m Q w -> (forall a w', late w' -> Q a w' -> Q' a w') -> runs m Q' w.
Proof. intros (a & w1 & Hm & Hl & HQ) Himp. exists a, w1. auto. Qed.
End runs.

(** ** Single-row reads

    [QueryRow(...).Scan(...)] with its no-rows and error branches. *)
Section finds.
Context `{Env} {A : Type} (op what : string) (f : DB -> option A).

Definition find_row : Go A :=
  let* row := wrap_err (internalErr op) (query f) in
  match row with
  | None => fail (notFound op what)
  | Some a => ret a
  end.

Lemma find_row_Ok w a w' : find_row w = (Ok a, w') -> f (w_db w) = Some a /\ w' = tick w.
Proof.
  intros Hrun. apply bind_Ok in Hrun as (row & w1 & H1 & Hrun). apply wrap_err_Ok, query_Ok in H1 as [-> ->].
  destruct (f (w_db w)); [|done]. by apply ret_Ok in Hrun as [-> ->].
Qed.
Lemma find_row_missing w e w' : find_row w = (Fail e, w') -> IsCode e CodeNotFound = true ->
  f (w_db w) = None /\ w' = tick w.
Proof.
  unfold find_row, bind, wrap_err, query, stmt. destruct (fault (w_tick w)) as [[de ap]|]; simpl.
  - intros [= <- _]. by rewrite internalErr_not.
  - destruct (f (w_db w)); [done|]. intros [= <- <-] _. by destruct w.
Qed.
Lemma find_row_run w : fault (w_tick w) = None ->
  find_row w = (match f (w_db w) with Some a => Ok a | None => Fail (notFound op what) end, tick w).
Proof.
  intros Hf. unfold find_row, bind, wrap_err, query, stmt. rewrite Hf. simpl.
  destruct (f (w_db w)); simpl; by destruct w.
Qed.
End finds.

(** ** A concrete environment, to run the model

    Faults and clock readings are given per tick; identifiers are numbered from
    the tick that draws them. *)
Definition demo_env (faults : nat -> option Fault) (clock : nat -> Time) : Env := {|
  fault := faults; clk_now := clock; wall_now := clock; sql_now := clock;
  new_uuid := fun n => N.of_nat (1000 + n); uuid_text := fun u => pretty u;
  uuid_text_inj := pretty_N_inj; json_text := fun _ _ => None; sql_lower := fun s => s;
  sha256_hex := fun s => s; DetectContentType := fun _ => "image/png"; unicode_case := LatinCase |}.
Definition no_faults : nat -> option Fault := fun _ => None.
Definition world_of (d : DB) : World := mkWorld d 0 None None ∅ ∅ [].
