(* ===== verification/Pool.v ===== *)
(** * The user lock and the connection pool

    internal/platform/postgres/userlock.go: a user's lock is an advisory lock of a
    database session, so a holder occupies one pooled connection while the work it
    protects needs further ones.  The semaphore admits half as many holders as
    there are connections.  A session whose unlock failed is taken out of the pool and
    never closed, so it may keep its lock.  Shown: under every interleaving at most
    one task per user is inside its locked section, and none while such a session
    keeps that user's lock; a state in which nothing can move has a task that waits for
    such a session; and once these sessions are gone, the tasks that are left can run
    to their ends. *)
From S2P Require Import Prelude Domain.

(** ** Keys: the first eight bytes of the identifier, as two signed words *)
Definition int32 (z : Z) : Z := (z + 2 ^ 31) mod 2 ^ 32 - 2 ^ 31.
Definition userLockKeys (userID : uuid) : Z * Z :=
  (int32 (Z.of_N userID / 2 ^ 96 mod 2 ^ 32), int32 (Z.of_N userID / 2 ^ 64 mod 2 ^ 32)).
Lemma int32_inj a b : 0 <= a < 2 ^ 32 -> 0 <= b < 2 ^ 32 -> int32 a = int32 b -> a = b.
Proof. unfold int32. intros Ha Hb He. assert ((a + 2 ^ 31) mod 2 ^ 32 = (b + 2 ^ 31) mod 2 ^ 32) as Hm by lia. clear He. pose proof (Z.div_mod (a + 2 ^ 31) (2 ^ 32)). pose proof (Z.div_mod (b + 2 ^ 31) (2 ^ 32)). lia. Qed.
(** Two users share a lock exactly when their identifiers agree on these bytes. *)
Lemma userLockKeys_shared u v : (Z.of_N u < 2 ^ 128) -> (Z.of_N v < 2 ^ 128) -> userLockKeys u = userLockKeys v <-> Z.of_N u / 2 ^ 64 = Z.of_N v / 2 ^ 64.
Proof.
  intros Hu Hv. unfold userLockKeys. set (a := Z.of_N u) in *. set (b := Z.of_N v) in *. assert (0 <= a /\ 0 <= b) by lia.
  assert (Hsplit : forall x, x / 2 ^ 96 = x / 2 ^ 64 / 2 ^ 32) by (intros; rewrite Z.div_div by lia; f_equal).
  rewrite !Hsplit. split; [|by intros ->]. intros [= H1 H2].
  apply int32_inj in H1; [|apply Z.mod_pos_bound; lia..]. apply int32_inj in H2; [|apply Z.mod_pos_bound; lia..].
  assert (forall x, 0 <= x < 2 ^ 128 -> 0 <= x / 2 ^ 64 / 2 ^ 32 < 2 ^ 32) as Hb.
  { intros x Hx. rewrite Z.div_div by lia. split; [apply Z.div_pos; lia|apply Z.div_lt_upper_bound; lia]. }
  rewrite !Z.mod_small in H1 by (apply Hb; lia).
  rewrite (Z.div_mod (a / 2 ^ 64) (2 ^ 32)), (Z.div_mod (b / 2 ^ 64) (2 ^ 32)) by lia. congruence.
Qed.

(** ** Tasks

    A task is one call of [WithUserLock]; its callback runs a number of queries on
    connections of the pool, one at a time. *)
Inductive Phase :=
| Waiting (queries : nat)    (* before the semaphore *)
| Slotted (queries : nat)    (* has a slot, waits for a connection *)
| Connected (queries : nat)  (* waits for the advisory lock *)
| Locked (queries : nat)     (* in the callback *)
| Querying (queries : nat)   (* in the callback, with a second connection *)
| Finished.
Record Task := mkTask { tk_keys : Z * Z; tk_phase : Phase }.
(** [others]: connections of queries outside any lock; [orphans]: the locks of the
    sessions that were hijacked after a failed unlock and are still open. *)
Record PoolState := mkPool { ps_tasks : list Task; ps_others : nat; ps_orphans : list (Z * Z) }.

Definition slot_of (t : Task) : nat := match tk_phase t with Waiting _ | Finished => 0 | _ => 1 end.
Definition conns_of (t : Task) : nat := match tk_phase t with Connected _ | Locked _ => 1 | Querying _ => 2 | _ => 0 end.
Definition critical (t : Task) : Prop := match tk_phase t with Locked _ | Querying _ => True | _ => False end.
Definition slots (s : PoolState) : nat := sum_list_with slot_of (ps_tasks s).
Definition conns (s : PoolState) : nat := (sum_list_with conns_of (ps_tasks s) + ps_others s)%nat.
(** [userLockSemaphore] *)
Definition capacity (maxConns : nat) : nat := if (maxConns / 2 <? 1)%nat then 1%nat else (maxConns / 2)%nat.

Section pool.
Context (maxConns : nat).
Definition moved (i : nat) (t : Task) (p : Phase) (s : PoolState) : PoolState :=
  mkPool (<[i := mkTask (tk_keys t) p]> (ps_tasks s)) (ps_others s) (ps_orphans s).
Definition at_phase (s : PoolState) (i : nat) (t : Task) (p : Phase) : Prop := ps_tasks s !! i = Some t /\ tk_phase t = p.
Definition lock_free (s : PoolState) (keys : Z * Z) : Prop :=
  Forall (fun t => tk_keys t = keys -> ~ critical t) (ps_tasks s) /\ keys ∉ ps_orphans s.
Definition orphaned (keys : Z * Z) (s : PoolState) : PoolState := mkPool (ps_tasks s) (ps_others s) (keys :: ps_orphans s).

(** The steps of the code that need no failure. *)
Inductive pool_step (s : PoolState) : PoolState -> Prop :=
| step_slot i t n : at_phase s i t (Waiting n) -> (slots s < capacity maxConns)%nat -> pool_step s (moved i t (Slotted n) s)
| step_conn i t n : at_phase s i t (Slotted n) -> (conns s < maxConns)%nat -> pool_step s (moved i t (Connected n) s)
| step_lock i t n : at_phase s i t (Connected n) -> lock_free s (tk_keys t) -> pool_step s (moved i t (Locked n) s)
| step_query i t n : at_phase s i t (Locked (S n)) -> (conns s < maxConns)%nat -> pool_step s (moved i t (Querying n) s)
| step_answer i t n : at_phase s i t (Querying n) -> pool_step s (moved i t (Locked n) s)
| step_return i t : at_phase s i t (Locked 0) -> pool_step s (moved i t Finished s)
| step_other_done n : ps_others s = S n -> pool_step s (mkPool (ps_tasks s) n (ps_orphans s)).
(** Arrivals, queries outside locks, cancelled waits, failed acquisitions, callbacks
    that give up between queries; an unlock that fails, which takes the connection out
    of the pool with its session open and its lock kept or (when only the reply was
    lost) released; and the end of such a session, which only the server brings about. *)
Inductive pool_event (s : PoolState) : PoolState -> Prop :=
| event_step s' : pool_step s s' -> pool_event s s'
| event_arrive keys n : pool_event s (mkPool (ps_tasks s ++ [mkTask keys (Waiting n)]) (ps_others s) (ps_orphans s))
| event_other : (conns s < maxConns)%nat -> pool_event s (mkPool (ps_tasks s) (S (ps_others s)) (ps_orphans s))
| event_abandon i t : ps_tasks s !! i = Some t -> pool_event s (moved i t Finished s)
| event_unlock_fails i t n (kept : bool) : at_phase s i t (Locked n) ->
    pool_event s (if kept then orphaned (tk_keys t) (moved i t Finished s) else moved i t Finished s)
| event_session_ends l l' keys : ps_orphans s = (l ++ keys :: l')%list -> pool_event s (mkPool (ps_tasks s) (ps_others s) (l ++ l')).

(** ** Invariant *)
Record pool_ok (s : PoolState) : Prop := {
  ok_slots : (slots s <= capacity maxConns)%nat;
  ok_conns : (conns s <= maxConns)%nat;
  ok_exclusive : forall i j a b, ps_tasks s !! i = Some a -> ps_tasks s !! j = Some b -> tk_keys a = tk_keys b -> critical a -> critical b -> i = j;
  ok_orphans : forall i a, ps_tasks s !! i = Some a -> critical a -> tk_keys a ∉ ps_orphans s }.

Lemma sum_insert {A} (f : A -> nat) (l : list A) i x y : l !! i = Some x -> (sum_list_with f (<[i := y]> l) + f x = sum_list_with f l + f y)%nat.
Proof. revert i. induction l as [|a l IH]; intros [|i] Hi; simplify_eq/=; [lia|]. specialize (IH i Hi). lia. Qed.
Lemma sum_app {A} (f : A -> nat) (l l' : list A) : (sum_list_with f (l ++ l') = sum_list_with f l + sum_list_with f l')%nat.
Proof. induction l as [|a l IH]; simpl; lia. Qed.
Lemma moved_slots i t p s : ps_tasks s !! i = Some t -> (slots (moved i t p s) + slot_of t = slots s + slot_of (mkTask (tk_keys t) p))%nat.
Proof. apply sum_insert. Qed.
Lemma moved_conns i t p s : ps_tasks s !! i = Some t -> (conns (moved i t p s) + conns_of t = conns s + conns_of (mkTask (tk_keys t) p))%nat.
Proof. intros Hi. pose proof (sum_insert conns_of _ i t (mkTask (tk_keys t) p) Hi). unfold conns, moved in *. cbn [ps_tasks ps_others] in *. lia. Qed.

(** A move that makes nobody newly critical keeps the exclusion. *)
Lemma moved_ok i t p s : pool_ok s -> ps_tasks s !! i = Some t ->
  (slots (moved i t p s) <= capacity maxConns)%nat -> (conns (moved i t p s) <= maxConns)%nat ->
  (critical (mkTask (tk_keys t) p) -> critical t \/ lock_free s (tk_keys t)) -> pool_ok (moved i t p s).
Proof.
  intros [_ _ Hex Horph] Hi Hs Hc Hcrit. split; [done|done| |]; unfold moved; cbn [ps_tasks ps_orphans].
  2:{ intros j a Hj Ha. destruct (decide (j = i)) as [->|Hne]; [|rewrite list_lookup_insert_ne in Hj by done; by eapply Horph].
      rewrite list_lookup_insert_eq in Hj by (by eapply lookup_lt_Some). simplify_eq/=. destruct (Hcrit Ha) as [Hct|[_ Hlf]]; [by eapply Horph|done]. }
  intros j k a b Hj Hk Hkeys Ha Hb.
  assert (Hold : forall j a, <[i := mkTask (tk_keys t) p]> (ps_tasks s) !! j = Some a -> j = i /\ a = mkTask (tk_keys t) p \/ j <> i /\ ps_tasks s !! j = Some a).
  { intros j' a' Hl. destruct (decide (j' = i)) as [->|Hne]; [|rewrite list_lookup_insert_ne in Hl by done; by right].
    rewrite list_lookup_insert_eq in Hl by (by eapply lookup_lt_Some). left. by simplify_eq. }
  assert (Hfree : forall j b, j <> i -> ps_tasks s !! j = Some b -> tk_keys b = tk_keys t -> critical (mkTask (tk_keys t) p) -> critical b -> False).
  { intros j' b' Hne Hb' Hkk Hcp Hcb. destruct (Hcrit Hcp) as [Hct|[Hlf _]]; [apply Hne; by eapply Hex|].
    rewrite Forall_lookup in Hlf. by apply (Hlf j' b' Hb' Hkk). }
  destruct (Hold j a Hj) as [[-> ->]|[Hji Hja]], (Hold k b Hk) as [[-> ->]|[Hki Hkb]]; [done| | |by eapply Hex].
  - exfalso. by apply (Hfree k b).
  - exfalso. by apply (Hfree j a).
Qed.
Lemma finished_ok i t s : pool_ok s -> ps_tasks s !! i = Some t -> pool_ok (moved i t Finished s).
Proof.
  intros Hok Hi. pose proof (ok_slots s Hok). pose proof (ok_conns s Hok). pose proof (moved_slots i t Finished s Hi). pose proof (moved_conns i t Finished s Hi).
  unfold slot_of, conns_of in *. cbn [tk_phase] in *. apply moved_ok; try done; lia.
Qed.
(** A task that ends with its unlock failed leaves its lock behind, and nobody else
    holds it. *)
Lemma orphaned_ok i t s : pool_ok s -> ps_tasks s !! i = Some t -> critical t -> pool_ok (orphaned (tk_keys t) (moved i t Finished s)).
Proof.
  intros Hok Hi Hcr. destruct (finished_ok i t s Hok Hi) as [Hs Hc Hex Horph]. split; [done|done|done|]. cbn [orphaned ps_tasks ps_orphans].
  intros j a Hj Ha. apply not_elem_of_cons. split; [|by eapply Horph]. intros Hkeys. cbn [moved ps_tasks] in Hj.
  destruct (decide (j = i)) as [->|Hne]; [rewrite list_lookup_insert_eq in Hj by (by eapply lookup_lt_Some); simplify_eq; done|].
  rewrite list_lookup_insert_ne in Hj by done. apply Hne. by eapply (ok_exclusive s Hok).
Qed.
Lemma pool_step_ok s s' : pool_ok s -> pool_step s s' -> pool_ok s'.
Proof.
  intros Hok Hs. pose proof (ok_slots s Hok). pose proof (ok_conns s Hok).
  destruct Hs as [i t n [Hi Hp]|i t n [Hi Hp]|i t n [Hi Hp]|i t n [Hi Hp]|i t n [Hi Hp]|i t [Hi Hp]|n Hn];
    try (pose proof (moved_slots i t (tk_phase t) s Hi); match goal with |- pool_ok (moved i t ?p s) =>
      pose proof (moved_slots i t p s Hi); pose proof (moved_conns i t p s Hi) end;
      unfold slot_of, conns_of in *; cbn [tk_phase] in *; rewrite Hp in *; apply moved_ok; try done; try lia; unfold critical; cbn [tk_phase]; rewrite ?Hp; tauto).
  split; [done| |apply Hok|apply Hok]. unfold conns in *. cbn [ps_tasks ps_others]. lia.
Qed.
Lemma pool_event_ok s s' : pool_ok s -> pool_event s s' -> pool_ok s'.
Proof.
  intros Hok Hev. pose proof (ok_slots s Hok). pose proof (ok_conns s Hok). destruct Hev as [s' Hs|keys n|Hc|i t Hi|i t n kept [Hi Hp]|l l' keys Hl].
  - by eapply pool_step_ok.
  - split; unfold slots, conns in *; cbn [ps_tasks ps_others ps_orphans]; rewrite ?sum_app; simpl; try lia.
    + intros i j a b [Ha|[_ [_ <-]%list_lookup_singleton_Some]]%lookup_app_Some [Hb|[_ [_ <-]%list_lookup_singleton_Some]]%lookup_app_Some; try done.
      by eapply ok_exclusive.
    + intros i a [Ha|[_ [_ <-]%list_lookup_singleton_Some]]%lookup_app_Some; [by eapply ok_orphans|done].
  - split; [done| |apply Hok|apply Hok]. unfold conns in *. cbn [ps_tasks ps_others]. lia.
  - by apply finished_ok.
  - destruct kept; [apply orphaned_ok|apply finished_ok]; try done. unfold critical. by rewrite Hp.
  - split; [done|done|apply Hok|]. cbn [ps_tasks ps_orphans]. intros i a Hi Ha Hin. eapply (ok_orphans s Hok i a Hi Ha). rewrite Hl. set_solver.
Qed.
Definition pool_start : PoolState := mkPool [] 0 [].
Lemma pool_reachable s : rtc pool_event pool_start s -> pool_ok s.
Proof.
  intros Hr. assert (Hok : pool_ok pool_start) by (split; cbn; [lia|lia|intros i j a b Ha|intros i a Ha]; by rewrite lookup_nil in Ha).
  induction Hr as [|s1 s2 s3 Hs _ IH]; [done|]. apply IH. by eapply pool_event_ok.
Qed.

(** ** Completion: every step takes one unit of the work that is left *)
Definition work_of (t : Task) : nat :=
  match tk_phase t with
  | Waiting n => 2 * n + 4 | Slotted n => 2 * n + 3 | Connected n => 2 * n + 2 | Locked n => 2 * n + 1 | Querying n => 2 * n + 2 | Finished => 0
  end.
Definition work (s : PoolState) : nat := (sum_list_with work_of (ps_tasks s) + ps_others s)%nat.
Lemma step_works s s' : pool_step s s' -> (work s' < work s)%nat.
Proof.
  assert (Hm : forall i t p, ps_tasks s !! i = Some t -> (work_of (mkTask (tk_keys t) p) < work_of t)%nat -> (work (moved i t p s) < work s)%nat).
  { intros i t p Hi Hlt. pose proof (sum_insert work_of _ i t (mkTask (tk_keys t) p) Hi). unfold work, moved. cbn [ps_tasks ps_others]. lia. }
  intros [i t n [Hi Hp]|i t n [Hi Hp]|i t n [Hi Hp]|i t n [Hi Hp]|i t n [Hi Hp]|i t [Hi Hp]|n Hn];
    try (apply Hm; [done|]; unfold work_of; cbn [tk_phase]; rewrite Hp; lia).
  unfold work. cbn [ps_tasks ps_others]. lia.
Qed.

(** The first task in a phase of some kind, or none. *)
Definition in_kind (k : nat) (t : Task) : Prop :=
  match tk_phase t with Waiting _ => k = 0 | Slotted _ => k = 1 | Connected _ => k = 2 | Locked _ => k = 3 | Querying _ => k = 4 | Finished => k = 5 end%nat.
#[local] Instance in_kind_dec k t : Decision (in_kind k t).
Proof. unfold in_kind. destruct (tk_phase t); apply _. Defined.
Lemma some_or_none (k : nat) (l : list Task) : (exists i t, l !! i = Some t /\ in_kind k t) \/ Forall (fun t => ~ in_kind k t) l.
Proof.
  destruct (Exists_dec (in_kind k) l) as [He|Hn]; [left|right; by apply Forall_Exists_neg].
  apply Exists_exists in He as (t & [i Hi]%list_elem_of_lookup & Hk). by exists i, t.
Qed.
Lemma sum_bound (f g : Task -> nat) l : Forall (fun t => (f t <= g t)%nat) l -> (sum_list_with f l <= sum_list_with g l)%nat.
Proof. induction 1; simpl; lia. Qed.

(** Unless everything is finished, some step is possible, the semaphore keeping a
    connection free for the callbacks, or a task waits for a session that was left
    behind with its lock. *)
Definition all_finished (s : PoolState) : Prop := Forall (fun t => tk_phase t = Finished) (ps_tasks s) /\ ps_others s = 0%nat.
Definition blocked (s : PoolState) : Prop := exists i t n, at_phase s i t (Connected n) /\ tk_keys t ∈ ps_orphans s.
Lemma pool_progress s : (2 <= maxConns)%nat -> pool_ok s -> (exists s', pool_step s s') \/ all_finished s \/ blocked s.
Proof.
  intros Hmax Hok. destruct (ps_others s) as [|n] eqn:Ho; [|left; eexists; by apply (step_other_done s n)].
  destruct (some_or_none 4 (ps_tasks s)) as [(i & t & Hi & Hk)|H4].
  { left. unfold in_kind in Hk. destruct (tk_phase t) eqn:Hp; try done. eexists. by apply (step_answer s i t). }
  assert (Hfree : (conns s < maxConns)%nat).
  { assert (sum_list_with conns_of (ps_tasks s) <= slots s)%nat as Hle.
    { apply sum_bound. eapply Forall_impl; [exact H4|]. intros t Hn. unfold in_kind, conns_of, slot_of in *. destruct (tk_phase t); simpl; lia. }
    pose proof (ok_slots s Hok) as Hs. unfold conns. rewrite Ho. unfold capacity in Hs. destruct (Nat.ltb_spec (maxConns / 2) 1); [lia|].
    pose proof (Nat.div_lt maxConns 2 ltac:(lia) ltac:(lia)). lia. }
  destruct (some_or_none 3 (ps_tasks s)) as [(i & t & Hi & Hk)|H3].
  { left. unfold in_kind in Hk. destruct (tk_phase t) as [| | |[|n]| |] eqn:Hp; try done; eexists; [by apply (step_return s i t)|by apply (step_query s i t n)]. }
  destruct (some_or_none 2 (ps_tasks s)) as [(i & t & Hi & Hk)|H2].
  { unfold in_kind in Hk. destruct (tk_phase t) eqn:Hp; try done. destruct (decide (tk_keys t ∈ ps_orphans s)) as [Horph|Horph]; [do 2 right; by exists i, t, queries|].
    left. eexists. apply (step_lock s i t); [done|]. split; [|done].
    rewrite Forall_forall in *. intros x Hx _ Hc. specialize (H3 x Hx). specialize (H4 x Hx). unfold critical, in_kind in *. by destruct (tk_phase x); try done; auto. }
  destruct (some_or_none 1 (ps_tasks s)) as [(i & t & Hi & Hk)|H1].
  { left. unfold in_kind in Hk. destruct (tk_phase t) eqn:Hp; try done. eexists. by apply (step_conn s i t). }
  assert (Hslots : slots s = 0%nat).
  { unfold slots. rewrite Forall_forall in *. assert (Hz : forall l, (forall t, t ∈ l -> slot_of t = 0%nat) -> sum_list_with slot_of l = 0%nat).
    { induction l as [|a l IH]; intros Hl; [done|]. simpl. rewrite Hl, IH; [done| |by left]. intros; apply Hl; by right. }
    apply Hz. intros t Ht. specialize (H1 t Ht). specialize (H2 t Ht). specialize (H3 t Ht). specialize (H4 t Ht).
    unfold slot_of, in_kind in *. destruct (tk_phase t); try done; by exfalso; auto. }
  destruct (some_or_none 0 (ps_tasks s)) as [(i & t & Hi & Hk)|H0].
  { left. unfold in_kind in Hk. destruct (tk_phase t) eqn:Hp; try done. eexists. apply (step_slot s i t); [done|]. rewrite Hslots. unfold capacity.
    destruct (Nat.ltb_spec (maxConns / 2) 1); lia. }
  right. left. split; [|done]. rewrite Forall_forall in *. intros t Ht. specialize (H0 t Ht). specialize (H1 t Ht). specialize (H2 t Ht). specialize (H3 t Ht). specialize (H4 t Ht).
  unfold in_kind in *. destruct (tk_phase t); try done; by exfalso; auto.
Qed.

(** The state once the sessions left behind are gone. *)
Definition sessions_ended (s : PoolState) : PoolState := mkPool (ps_tasks s) (ps_others s) [].
Lemma sessions_ended_ok s : pool_ok s -> pool_ok (sessions_ended s).
Proof. intros [Hs Hc Hex _]. split; [done|done|done|]. intros i a _ _. apply not_elem_of_nil. Qed.
Lemma step_orphans s s' : pool_step s s' -> ps_orphans s' = ps_orphans s.
Proof. by destruct 1. Qed.
Lemma completes s : (2 <= maxConns)%nat -> pool_ok s -> ps_orphans s = [] -> exists s', rtc pool_step s s' /\ all_finished s'.
Proof.
  intros Hmax. remember (work s) as n eqn:Hn. revert s Hn. induction n as [n IH] using lt_wf_ind. intros s -> Hok Horph.
  destruct (pool_progress s Hmax Hok) as [[s1 Hs]|[Hdone|(i & t & n & _ & Hin)]].
  - destruct (IH (work s1) (step_works s s1 Hs) s1) as (s' & Hrun & Hf); [done|by eapply pool_step_ok|by rewrite (step_orphans s s1 Hs)|].
    exists s'. split; [by eapply rtc_l|done].
  - exists s. split; [apply rtc_refl|done].
  - rewrite Horph in Hin. by apply not_elem_of_nil in Hin.
Qed.

(** C11: Exclusion and no deadlock of the pool's own making.  Whatever tasks have
    arrived for whatever users, were cancelled or failed, whichever unlocks failed and
    left an open session with its lock behind, and however many other queries hold
    connections: no user has two tasks in their locked sections, and none while a
    session left behind keeps the user's lock; when nothing can move, all is finished
    or a task waits for the lock of such a session; and once these sessions have ended,
    every task that is left can run to its end, with no help from a failure. *)
Theorem user_lock_live s : (2 <= maxConns)%nat -> rtc pool_event pool_start s ->
  (forall i j a b, ps_tasks s !! i = Some a -> ps_tasks s !! j = Some b -> tk_keys a = tk_keys b -> critical a -> critical b -> i = j) /\
  (forall i a, ps_tasks s !! i = Some a -> critical a -> tk_keys a ∉ ps_orphans s) /\
  ((exists s', pool_step s s') \/ all_finished s \/ blocked s) /\
  exists s', rtc pool_step (sessions_ended s) s' /\ all_finished s'.
Proof.
  intros Hmax Hr. apply pool_reachable in Hr as Hok. split_and!; [apply Hok|apply Hok|by apply pool_progress|].
  apply completes; [done|by apply sessions_ended_ok|done].
Qed.
End pool.

Module PoolDemo.
(** Two tasks of one user; the first holds the lock, the second a connection. *)
Definition keys : Z * Z := userLockKeys 0x0123456789abcdef0011223344556677.
Definition crowded : PoolState := mkPool [mkTask keys (Locked 1); mkTask keys (Connected 1)] 0 [].
Lemma crowded_reached : rtc (pool_event 10) pool_start crowded.
Proof.
  do 2 (eapply rtc_l; [apply (event_arrive 10 _ keys 1)|]). cbn.
  eapply rtc_l; [apply event_step, (step_slot 10 _ 0 (mkTask keys (Waiting 1)) 1); [done|vm_compute; lia]|]. cbn.
  eapply rtc_l; [apply event_step, (step_slot 10 _ 1 (mkTask keys (Waiting 1)) 1); [done|vm_compute; lia]|]. cbn.
  eapply rtc_l; [apply event_step, (step_conn 10 _ 0 (mkTask keys (Slotted 1)) 1); [done|vm_compute; lia]|]. cbn.
  eapply rtc_l; [apply event_step, (step_conn 10 _ 1 (mkTask keys (Slotted 1)) 1); [done|vm_compute; lia]|]. cbn.
  eapply rtc_l; [apply event_step, (step_lock 10 _ 0 (mkTask keys (Connected 1)) 1); [done|]|].
  - split; [repeat constructor; cbn; auto|set_solver].
  - apply rtc_refl.
Qed.
Lemma user_lock_live_witness : (2 <= 10)%nat /\ rtc (pool_event 10) pool_start crowded /\ sessions_ended crowded = crowded /\
  exists s', rtc (pool_step 10) crowded s' /\ all_finished s'.
Proof.
  split; [lia|]. split; [exact crowded_reached|]. split; [done|].
  destruct (user_lock_live 10 crowded ltac:(lia) crowded_reached) as (_ & _ & _ & s' & Hr & Hf). exists s'. exact (conj Hr Hf).
Defined.
(** The keys of that user, the second as a negative word. *)
Example keys_ex : keys = (19088743, -1985229329).
Proof. reflexivity. Qed.
(** In a pool of one connection the holder of the lock starves. *)
Definition starved : PoolState := mkPool [mkTask keys (Locked 1)] 0 [].
Example pool_of_one : rtc (pool_event 1) pool_start starved /\ forall s', ~ pool_step 1 starved s'.
Proof.
  split.
  - eapply rtc_l; [apply (event_arrive 1 _ keys 1)|]. cbn.
    eapply rtc_l; [apply event_step, (step_slot 1 _ 0 (mkTask keys (Waiting 1)) 1); [done|vm_compute; lia]|]. cbn.
    eapply rtc_l; [apply event_step, (step_conn 1 _ 0 (mkTask keys (Slotted 1)) 1); [done|vm_compute; lia]|]. cbn.
    eapply rtc_l; [apply event_step, (step_lock 1 _ 0 (mkTask keys (Connected 1)) 1); [done|]|]; [|apply rtc_refl].
    split; [repeat constructor; cbn; auto|set_solver].
  - intros s' Hs. assert (Hone : forall i t, ps_tasks starved !! i = Some t -> tk_phase t = Locked 1) by (intros [|[]] t; intros [= <-]; done).
    inversion Hs as [i t n [Hi Hp]|i t n [Hi Hp]|i t n [Hi Hp]|i t n [Hi Hp] Hc|i t n [Hi Hp]|i t [Hi Hp]|]; subst; try (apply Hone in Hi; congruence); [|done].
    vm_compute in Hc. lia.
Qed.
(** One failed unlock stops everybody in a pool of two: the user's next task waits for
    the lock with the only slot, and another user's task waits for the slot. *)
Definition other_keys : Z * Z := userLockKeys 0xffffffffffffffff0011223344556677.
Definition orphan_blocks : PoolState := mkPool [mkTask keys Finished; mkTask keys (Connected 0); mkTask other_keys (Waiting 0)] 0 [keys].
Example unlock_failure_blocks : rtc (pool_event 2) pool_start orphan_blocks /\ forall s', ~ pool_step 2 orphan_blocks s'.
Proof.
  split.
  - eapply rtc_l; [apply (event_arrive 2 _ keys 0)|]. cbn. eapply rtc_l; [apply (event_arrive 2 _ keys 0)|]. cbn. eapply rtc_l; [apply (event_arrive 2 _ other_keys 0)|]. cbn.
    eapply rtc_l; [apply event_step, (step_slot 2 _ 0 (mkTask keys (Waiting 0)) 0); [done|vm_compute; lia]|]. cbn.
    eapply rtc_l; [apply event_step, (step_conn 2 _ 0 (mkTask keys (Slotted 0)) 0); [done|vm_compute; lia]|]. cbn.
    eapply rtc_l; [apply event_step, (step_lock 2 _ 0 (mkTask keys (Connected 0)) 0); [done|]|]; [split; [repeat constructor; cbn; auto|set_solver]|]. cbn.
    eapply rtc_l; [apply (event_unlock_fails 2 _ 0 (mkTask keys (Locked 0)) 0 true); done|]. cbn.
    eapply rtc_l; [apply event_step, (step_slot 2 _ 1 (mkTask keys (Waiting 0)) 0); [done|vm_compute; lia]|]. cbn.
    eapply rtc_l; [apply event_step, (step_conn 2 _ 1 (mkTask keys (Slotted 0)) 0); [done|vm_compute; lia]|]. cbn. apply rtc_refl.
  - intros s' Hs. inversion Hs as [i t n [Hi Hp] Hc|i t n [Hi Hp]|i t n [Hi Hp] [_ Hl]|i t n [Hi Hp]|i t n [Hi Hp]|i t [Hi Hp]|n Hn]; subst; try done.
    + vm_compute in Hc. lia.
    + destruct i as [|[|[|i]]]; simplify_eq/=.
    + destruct i as [|[|[|i]]]; simplify_eq/=. apply Hl. set_solver.
    + destruct i as [|[|[|i]]]; simplify_eq/=.
    + destruct i as [|[|[|i]]]; simplify_eq/=.
    + destruct i as [|[|[|i]]]; simplify_eq/=.
Qed.
End PoolDemo.
