(* ===== verification/Queue.v ===== *)
(** * Queue

    internal/platform/queue: the PostgreSQL job queue.  One definition per
    method of [PG]; the lifecycle of a job is the relation [job_step], and a
    run of the queue is a sequence of operations ([op_step]).  Shown: a claim
    token is the only way to touch a claimed job until its lease expires, a
    dedupe key names at most one job, finished and dead jobs never change, and
    [Dequeue] hands out the oldest ready job. *)
From S2P Require Import Prelude GoStrings Domain Db.

Definition ErrEmpty : Err := Sentinel "queue: no job available".
Definition ErrDuplicate : Err := Sentinel "queue: duplicate dedupe key".
Definition ErrStaleClaim : Err := Sentinel "queue: stale claim token".

(** [string(kind)] *)
Definition kind_string (k : JobKind) : string :=
  match k with
  | JobReceiptProcess => "receipt_process"
  | JobOutboundSend => "outbound_send"
  | JobRetentionSweep => "retention_sweep"
  end.

Section queue.
Context `{Env}.

(** [truncateErr] *)
Definition truncateErr (s : string) : string := take 500 s.

(** [Enqueue] *)
Definition dedupe_clash (dedupeKey : option string) (j : QueueJob) : bool :=
  match dedupeKey, job_dedupe j with
  | Some k, Some k' => String.eqb k k'
  | _, _ => false
  end.
Definition new_job (now : Time) (id : uuid) (kind : JobKind) (payload : Payload)
    (dedupeKey : option string) (maxAttempts : Z) : QueueJob :=
  mkJob id kind payload dedupeKey JobQueued 0 maxAttempts now now None "" now now.
Definition Enqueue (kind : JobKind) (payload : Payload) (dedupeKey : option string)
    (maxAttempts : Z) : Go uuid :=
  let maxAttempts := if maxAttempts <=? 0 then 5 else maxAttempts in
  let* id := uuid_New in
  let* res := attempt (stmt (fun now d =>
      match insert_row id (new_job now id kind payload dedupeKey maxAttempts)
              (dedupe_clash dedupeKey) (db_jobs d) with
      | Ok m => Ok (tt, upd_jobs (fun _ => m) d)
      | Fail e => Fail e
      end)) in
  match res with
  | Ok _ => ret id
  | Fail err =>
      if is_pg "23505" err then fail ErrDuplicate
      else fail (Wrapped ("enqueue " ++ kind_string kind) err)
  end.

(** [Dequeue]: the WHERE clause, the claim, the statement. *)
Definition ready (now : Time) (kinds : list JobKind) (j : QueueJob) : bool :=
  bool_decide (job_kind j ∈ kinds) &&
  ((bool_decide (job_status j = JobQueued) && (job_run_after j <=? now)) ||
   (bool_decide (job_status j = JobRunning) && (job_visible_at j <=? now))).
Definition oldest (a b : QueueJob) : bool := job_created_at a <=? job_created_at b.
Definition claimed (claim : uuid) (deadline : Time) (j : QueueJob) : QueueJob :=
  mkJob (job_id j) (job_kind j) (job_payload j) (job_dedupe j) JobRunning (job_attempts j + 1)
    (job_max_attempts j) (job_run_after j) deadline (Some claim) (job_last_error j)
    (job_created_at j) deadline.
Definition dequeue_stmt (now : Time) (kinds : list JobKind) (claim : uuid) (deadline : Time) :
    DB -> option QueueJob * DB := fun d =>
  match argmin oldest (select (ready now kinds) (db_jobs d)) with
  | None => (None, d)
  | Some j => let j' := claimed claim deadline j in
              (Some j', upd_jobs (<[job_id j := j']>) d)
  end.
Definition Dequeue (kinds : list JobKind) (visibility : Z) : Go QueueJob :=
  let* now := clk_Now in
  let* claim := uuid_New in
  let* row := wrap_err (Wrapped "dequeue")
                (dml (fun _ => dequeue_stmt now kinds claim (now + visibility))) in
  match row with
  | None => fail ErrEmpty
  | Some j => ret j
  end.

(** The guard every completion shares:
    [id = $1 AND claim_token = $2 AND status = 'running']. *)
Definition owns (claim : uuid) (j : QueueJob) : bool :=
  bool_decide (job_claim j = Some claim) && bool_decide (job_status j = JobRunning).
Definition update_job (id : uuid) (cond : QueueJob -> bool) (f : QueueJob -> QueueJob) (d : DB) : Z * DB :=
  let r := update_row id cond f (db_jobs d) in (r.1, upd_jobs (fun _ => r.2) d).

(** [Heartbeat] *)
Definition beat (deadline : Time) (j : QueueJob) : QueueJob :=
  mkJob (job_id j) (job_kind j) (job_payload j) (job_dedupe j) (job_status j) (job_attempts j)
    (job_max_attempts j) (job_run_after j) deadline (job_claim j) (job_last_error j)
    (job_created_at j) deadline.
Definition Heartbeat (id claim : uuid) (visibility : Z) : Go unit :=
  let* now := clk_Now in
  let* n := wrap_err (Wrapped "heartbeat")
              (dml (fun _ => update_job id (owns claim) (beat (now + visibility)))) in
  if n =? 0 then fail ErrStaleClaim else ret tt.

(** [Ack] *)
Definition finished (now : Time) (j : QueueJob) : QueueJob :=
  mkJob (job_id j) (job_kind j) (job_payload j) (job_dedupe j) JobDone (job_attempts j)
    (job_max_attempts j) (job_run_after j) (job_visible_at j) None (job_last_error j)
    (job_created_at j) now.
Definition Ack (id claim : uuid) : Go unit :=
  let* now := clk_Now in
  let* n := dml (fun _ => update_job id (owns claim) (finished now)) in
  if n =? 0 then fail ErrStaleClaim else ret tt.

(** [Nack]: [int64(math.Min(math.Pow(2, attempts), 300))] seconds of backoff. *)
Definition backoff_secs (attempts : Z) : Z :=
  if attempts <? 0 then 0 else Z.min (2 ^ attempts) 300.
Definition returned (now runAfter : Time) (cause : string) (j : QueueJob) : QueueJob :=
  mkJob (job_id j) (job_kind j) (job_payload j) (job_dedupe j)
    (if job_max_attempts j <=? job_attempts j then JobDead else JobQueued) (job_attempts j)
    (job_max_attempts j) runAfter (job_visible_at j) None (truncateErr cause)
    (job_created_at j) now.
Definition Nack (id claim : uuid) (cause : Err) : Go unit :=
  let* now := clk_Now in
  let* row := wrap_err (Wrapped "nack read attempts") (query (fun d =>
                match db_jobs d !! id with
                | Some j => if owns claim j then Some (job_attempts j, job_max_attempts j) else None
                | None => None
                end)) in
  match row with
  | None => fail ErrStaleClaim
  | Some (attempts, _) =>
      let runAfter := now + backoff_secs attempts * Second in
      let* n := wrap_err (Wrapped "nack")
                  (dml (fun _ => update_job id (owns claim)
                                   (returned now runAfter (error_string cause)))) in
      if n =? 0 then fail ErrStaleClaim else ret tt
  end.

(** [Depth]: queued and running jobs per kind, kinds without any absent. *)
Definition live (j : QueueJob) : bool :=
  bool_decide (job_status j = JobQueued) || bool_decide (job_status j = JobRunning).
Definition depth_of (d : DB) (k : JobKind) : Z :=
  Z.of_nat (length (select (fun j => live j && bool_decide (job_kind j = k)) (db_jobs d))).
Definition Depth : Go (list (JobKind * Z)) :=
  wrap_err (Wrapped "depth") (query (fun d =>
    filter (fun kn => kn.2 <> 0)
      ((fun k => (k, depth_of d k)) <$> [JobReceiptProcess; JobOutboundSend; JobRetentionSweep]))).

End queue.

(** ** The life of a job *)
Inductive job_step : relation QueueJob :=
| step_claim now kinds claim deadline j :
    ready now kinds j = true -> job_step j (claimed claim deadline j)
| step_beat claim deadline j : owns claim j = true -> job_step j (beat deadline j)
| step_ack claim now j : owns claim j = true -> job_step j (finished now j)
| step_nack claim now runAfter cause j :
    owns claim j = true -> job_step j (returned now runAfter cause j).

(** A job carries a claim token exactly while it runs; an id or a dedupe key
    names one job. *)
Definition job_ok (j : QueueJob) : Prop :=
  (job_status j = JobRunning <-> is_Some (job_claim j)) /\ 0 <= job_attempts j /\ 0 < job_max_attempts j.
Definition dedupe_unique (m : gmap uuid QueueJob) : Prop :=
  forall i1 i2 j1 j2 k, m !! i1 = Some j1 -> m !! i2 = Some j2 ->
    job_dedupe j1 = Some k -> job_dedupe j2 = Some k -> i1 = i2.
Definition jobs_ok (d : DB) : Prop :=
  (forall id j, db_jobs d !! id = Some j -> job_id j = id /\ job_ok j) /\ dedupe_unique (db_jobs d).

Definition fresh_job (j : QueueJob) : Prop :=
  job_status j = JobQueued /\ job_attempts j = 0 /\ job_claim j = None.

(** From a well-formed queue: it stays well-formed, jobs move along their life
    cycle and are never lost, and new jobs start queued. *)
Definition jobs_evolve (d d' : DB) : Prop :=
  jobs_ok d ->
  jobs_ok d' /\
  (forall id j, db_jobs d !! id = Some j -> exists j', db_jobs d' !! id = Some j' /\ rtc job_step j j') /\
  (forall id j', db_jobs d' !! id = Some j' -> db_jobs d !! id = None ->
     exists j, fresh_job j /\ rtc job_step j j').

#[global] Instance jobs_evolve_preorder : PreOrder jobs_evolve.
Proof.
  split.
  - intros d Hd. split; [done|]. split; [eauto using rtc_refl|]. intros; congruence.
  - intros d1 d2 d3 H12 H23 H1. destruct (H12 H1) as (H2 & F12 & B12).
    destruct (H23 H2) as (H3 & F23 & B23). split; [done|]. split.
    + intros id j Hj. destruct (F12 id j Hj) as (j2 & Hj2 & S12).
      destruct (F23 id j2 Hj2) as (j3 & Hj3 & S23).
      exists j3. split; [done|]. by etrans.
    + intros id j3 Hj3 Hn. destruct (db_jobs d2 !! id) as [j2|] eqn:Hj2; [|eauto].
      destruct (F23 id j2 Hj2) as (j3' & Hj3' & S23). simplify_eq.
      destruct (B12 id j2 Hj2 Hn) as (j & Hf & S12).
      exists j. split; [done|]. by etrans.
Qed.

Lemma upd_jobs_jobs f d : db_jobs (upd_jobs f d) = f (db_jobs d).
Proof. done. Qed.

Lemma upd_jobs_id d : upd_jobs (fun _ => db_jobs d) d = d.
Proof. by destruct d. Qed.

Lemma owns_running claim j : owns claim j = true <-> job_claim j = Some claim /\ job_status j = JobRunning.
Proof. unfold owns. rewrite andb_true_iff, !bool_decide_eq_true. done. Qed.

Lemma job_step_identity j j' :
  job_step j j' -> job_id j' = job_id j /\ job_dedupe j' = job_dedupe j /\
                   job_kind j' = job_kind j /\ job_payload j' = job_payload j /\
                   job_max_attempts j' = job_max_attempts j.
Proof. destruct 1; done. Qed.

Lemma job_step_ok j j' : job_step j j' -> job_ok j -> job_ok j'.
Proof.
  unfold job_ok. destruct 1 as [| |claim now j|claim now ra cause j Ho]; simpl;
    intros (Hc & Ha & Hm); split_and?; try lia.
  - done.
  - done.
  - split; [done|]. by intros [].
  - destruct (job_max_attempts j <=? job_attempts j); split; try done; by intros [].
Qed.

(** Replacing one job by a successor keeps the queue well-formed. *)
Lemma jobs_evolve_step d id j j' :
  db_jobs d !! id = Some j -> job_step j j' ->
  jobs_evolve d (upd_jobs (<[id := j']>) d).
Proof.
  intros Hj Hs Hok. destruct Hok as [Hk Hu].
  destruct (job_step_identity j j' Hs) as (Hid & Hdk & _ & _ & _).
  destruct (Hk id j Hj) as [Hji Hjo]. split_and!.
  - split.
    + intros i x. rewrite upd_jobs_jobs. intros [[-> ->]|[Hne Hx]]%lookup_insert_Some; [|eauto].
      split; [congruence|eauto using job_step_ok].
    + intros i1 i2 x1 x2 k. rewrite upd_jobs_jobs.
      intros [[<- <-]|[? ?]]%lookup_insert_Some [[<- <-]|[? ?]]%lookup_insert_Some; eauto.
      * rewrite Hdk. eauto.
      * rewrite Hdk. eauto.
  - intros i x Hx. rewrite upd_jobs_jobs. destruct (decide (i = id)) as [->|Hne].
    + simplify_eq. exists j'. rewrite lookup_insert_eq. split; [done|]. by apply rtc_once.
    + exists x. rewrite lookup_insert_ne by done. split; [done|apply rtc_refl].
  - intros i x. rewrite upd_jobs_jobs. intros [[-> ->]|[Hne Hx]]%lookup_insert_Some; congruence.
Qed.

Lemma update_job_evolve id cond f d :
  (forall j, cond j = true -> job_step j (f j)) -> jobs_evolve d (update_job id cond f d).2.
Proof.
  intros Hf. unfold update_job, update_row; simpl.
  destruct (db_jobs d !! id) as [j|] eqn:Hj; [destruct (cond j) eqn:Hc|]; simpl;
    try (destruct d; reflexivity).
  replace (upd_jobs _ d) with (upd_jobs (<[id := f j]>) d) by done.
  eapply jobs_evolve_step; eauto.
Qed.

Lemma ready_select now kinds d j :
  argmin oldest (select (ready now kinds) (db_jobs d)) = Some j ->
  ready now kinds j = true /\ exists id, db_jobs d !! id = Some j.
Proof. intros ?%argmin_in. by apply elem_of_select. Qed.

Lemma dequeue_evolve now kinds claim deadline d :
  jobs_evolve d (dequeue_stmt now kinds claim deadline d).2.
Proof.
  intros Hok. unfold dequeue_stmt.
  destruct (argmin _ _) as [j|] eqn:Hm; simpl; [|by apply jobs_evolve_preorder].
  apply ready_select in Hm as (Hr & id & Hid).
  assert (job_id j = id) as -> by (destruct Hok as [Hk _]; by destruct (Hk id j Hid)).
  eapply jobs_evolve_step; eauto using job_step.
Qed.

Section queue_evolves.
Context `{Env}.

Lemma new_job_ok now id kind payload key n :
  0 < n -> job_ok (new_job now id kind payload key n).
Proof. unfold job_ok; simpl. intros. split_and!; try lia. split; [done|by intros []]. Qed.

Lemma enqueue_evolve now id kind payload key n d m :
  0 < n ->
  insert_row id (new_job now id kind payload key n) (dedupe_clash key) (db_jobs d) = Ok m ->
  jobs_evolve d (upd_jobs (fun _ => m) d).
Proof.
  intros Hn (Hnone & -> & Hcl)%insert_row_ok [Hk Hu].
  assert (forall i j k, db_jobs d !! i = Some j -> job_dedupe j = Some k -> key = Some k -> False) as Hfresh.
  { intros i j k Hj Hd ->. specialize (Hcl i j Hj). unfold dedupe_clash in Hcl.
    rewrite Hd, String.eqb_refl in Hcl. done. }
  split_and!; simpl.
  - split.
    + intros i x. rewrite upd_jobs_jobs. intros [[<- <-]|[? ?]]%lookup_insert_Some; [|eauto].
      split; [done|by apply new_job_ok].
    + intros i1 i2 x1 x2 k. rewrite upd_jobs_jobs.
      intros [[<- <-]|[? ?]]%lookup_insert_Some [[<- <-]|[? ?]]%lookup_insert_Some; simpl;
        intros; try done; try (exfalso; by eauto). eauto.
  - intros i x Hx. exists x. rewrite lookup_insert_ne by congruence. split; [done|apply rtc_refl].
  - intros i x [[<- <-]|[? ?]]%lookup_insert_Some Hnone'; [|congruence].
    eexists. split; [|apply rtc_refl]. done.
Qed.

Lemma evolves_update_job id cond f :
  (forall j, cond j = true -> job_step j (f j)) ->
  evolves (on_db jobs_evolve) (dml (fun _ => update_job id cond f)).
Proof. intros Hf. apply evolves_dml; [apply _|]. intros t w. by apply update_job_evolve. Qed.

Lemma evolves_Enqueue kind payload key n :
  evolves (on_db jobs_evolve) (Enqueue kind payload key n).
Proof.
  unfold Enqueue. go_evolve. apply evolves_stmt; [apply _|]. intros t w. unfold stmt_effect.
  destruct (insert_row _ _ _ _) as [m|e] eqn:Hi; simpl; [|destruct w; simpl; reflexivity].
  eapply enqueue_evolve; [|exact Hi]. destruct (n <=? 0) eqn:Hn; lia.
Qed.

Lemma evolves_Dequeue kinds v : evolves (on_db jobs_evolve) (Dequeue kinds v).
Proof.
  unfold Dequeue. go_evolve. apply evolves_dml; [apply _|]. intros t w. apply dequeue_evolve.
Qed.

Lemma evolves_Heartbeat id claim v : evolves (on_db jobs_evolve) (Heartbeat id claim v).
Proof. unfold Heartbeat. go_evolve. apply evolves_update_job. eauto using job_step. Qed.

Lemma evolves_Ack id claim : evolves (on_db jobs_evolve) (Ack id claim).
Proof. unfold Ack. go_evolve. apply evolves_update_job. eauto using job_step. Qed.

Lemma evolves_Nack id claim cause : evolves (on_db jobs_evolve) (Nack id claim cause).
Proof. unfold Nack. go_evolve. apply evolves_update_job. eauto using job_step. Qed.

Lemma evolves_Depth : evolves (on_db jobs_evolve) Depth.
Proof. unfold Depth. go_evolve. Qed.
End queue_evolves.

(** ** Sequences of queue operations *)
Inductive QueueOp :=
| OpEnqueue (kind : JobKind) (payload : Payload) (key : option string) (maxAttempts : Z)
| OpDequeue (kinds : list JobKind) (visibility : Z)
| OpHeartbeat (id claim : uuid) (visibility : Z)
| OpAck (id claim : uuid)
| OpNack (id claim : uuid) (cause : Err)
| OpDepth.

Definition uses_claim (claim : uuid) (o : QueueOp) : bool :=
  match o with
  | OpHeartbeat _ c _ | OpAck _ c | OpNack _ c _ => bool_decide (c = claim)
  | _ => false
  end.

Section runs.
Context `{Env}.

(** The caller sees the error or not; the queue's state is what matters here. *)
Definition run_op (o : QueueOp) : Go unit :=
  match o with
  | OpEnqueue kind payload key n => ignore (Enqueue kind payload key n)
  | OpDequeue kinds v => ignore (Dequeue kinds v)
  | OpHeartbeat id claim v => ignore (Heartbeat id claim v)
  | OpAck id claim => ignore (Ack id claim)
  | OpNack id claim cause => ignore (Nack id claim cause)
  | OpDepth => ignore Depth
  end.
Definition run_ops (ops : list QueueOp) : Go unit := for_each ops (fun _ o => run_op o) tt.

Lemma run_op_ok o w : fst (run_op o w) = Ok tt.
Proof. destruct o; reflexivity. Qed.

Lemma run_ops_cons o ops w : run_ops (o :: ops) w = run_ops ops (snd (run_op o w)).
Proof.
  unfold run_ops; simpl. unfold bind. pose proof (run_op_ok o w) as Ho.
  destruct (run_op o w) as [r w']; simpl in *. subst r. done.
Qed.

Lemma evolves_run_op o : evolves (on_db jobs_evolve) (run_op o).
Proof.
  destruct o; simpl; apply evolves_ignore;
    eauto using evolves_Enqueue, evolves_Dequeue, evolves_Heartbeat, evolves_Ack, evolves_Nack, evolves_Depth.
Qed.

Lemma evolves_dml_ticks {A} (f : Time -> DB -> A * DB) : evolves ticks (dml f).
Proof. apply evolves_dml; [apply _|]. intros t w. unfold ticks; simpl; lia. Qed.
#[local] Hint Resolve evolves_dml_ticks : evolve.

Lemma ticks_run_op o : evolves ticks (run_op o).
Proof.
  destruct o; simpl; apply evolves_ignore;
    unfold Enqueue, Dequeue, Heartbeat, Ack, Nack, Depth; go_evolve.
  apply evolves_stmt; [apply _|]. intros t w. unfold ticks; simpl; lia.
Qed.

Lemma bind_ticks {A B} (m : Go A) (k : A -> Go B) w :
  (w_tick w < w_tick (snd (m w)))%nat -> (forall a, evolves ticks (k a)) ->
  (w_tick w < w_tick (snd (bind m k w)))%nat.
Proof.
  intros Hm Hk. unfold bind. destruct (m w) as [[a|e] w1]; simpl in *; [|done].
  specialize (Hk a w1). unfold ticks in Hk. lia.
Qed.

Lemma run_op_ticks o w : (w_tick w < w_tick (snd (run_op o w)))%nat.
Proof.
  destruct o; simpl; unfold Enqueue, Dequeue, Heartbeat, Ack, Nack; cbv zeta;
    try (apply bind_ticks; [simpl; lia|]; intros ?; go_evolve).
  - apply evolves_stmt; [apply _|]. intros t w'. unfold ticks; simpl; lia.
  - unfold Depth, query, wrap_err, stmt. simpl. destruct (fault _) as [[e [|]]|]; simpl; lia.
Qed.

Lemma ticks_run_ops ops : evolves ticks (run_ops ops).
Proof. unfold run_ops. go_evolve. apply ticks_run_op. Qed.

(** *** The lease *)
Definition held_by (id claim : uuid) (j : QueueJob) (d : DB) : Prop :=
  jobs_ok d /\ db_jobs d !! id = Some j /\ owns claim j = true.
Definition keeps (id claim : uuid) (j : QueueJob) : relation DB := fun d d' =>
  held_by id claim j d -> held_by id claim j d'.

#[global] Instance keeps_preorder id claim j : PreOrder (keeps id claim j).
Proof. split; unfold keeps; [intros d|intros d1 d2 d3]; eauto. Qed.

(** An evolution that leaves the row alone keeps the lease. *)
Lemma keeps_evolve id claim j d d' :
  jobs_evolve d d' -> (held_by id claim j d -> db_jobs d' !! id = db_jobs d !! id) ->
  keeps id claim j d d'.
Proof.
  intros He Hl (Hok & Hj & Ho). destruct (He Hok) as [Hok' _].
  split; [done|]. rewrite Hl by done. done.
Qed.

Lemma update_job_keeps id claim j id' claim' f d :
  claim' <> claim -> (forall x, owns claim' x = true -> job_step x (f x)) ->
  keeps id claim j d (update_job id' (owns claim') f d).2.
Proof.
  intros Hne Hf. apply keeps_evolve; [by apply update_job_evolve|]. intros (_ & Hj & Ho).
  unfold update_job; simpl. rewrite update_row_lookup. case_bool_decide as Hd; [subst id'|done].
  rewrite Hj; simpl. destruct (owns claim' j) eqn:Ho'; [|done].
  apply owns_running in Ho as [Hc _]. apply owns_running in Ho' as [Hc' _]. congruence.
Qed.

Lemma dequeue_keeps id claim j now kinds claim' deadline d :
  now < job_visible_at j -> keeps id claim j d (dequeue_stmt now kinds claim' deadline d).2.
Proof.
  intros Hnow. apply keeps_evolve; [apply dequeue_evolve|]. intros ([Hk _] & Hj & Ho).
  unfold dequeue_stmt. destruct (argmin _ _) as [x|] eqn:Hm; simpl; [|done].
  apply ready_select in Hm as (Hr & i & Hi). destruct (Hk i x Hi) as [Hxi _].
  rewrite lookup_insert_ne; [done|]. intros Hid. assert (i = id) as -> by congruence. simplify_eq.
  apply owns_running in Ho as [_ Hrun]. unfold ready in Hr. rewrite Hrun in Hr.
  apply andb_true_iff in Hr as [_ Hr]. simpl in Hr. lia.
Qed.

(** An insert never touches an existing row. *)
Definition rows_stay (d d' : DB) : Prop :=
  forall i x, db_jobs d !! i = Some x -> db_jobs d' !! i = Some x.
#[local] Instance rows_stay_preorder : PreOrder rows_stay.
Proof. split; unfold rows_stay; [intros d|intros d1 d2 d3]; eauto. Qed.

Lemma Enqueue_rows_stay kind payload key n : evolves (on_db rows_stay) (Enqueue kind payload key n).
Proof.
  unfold Enqueue. go_evolve. apply evolves_stmt; [apply _|]. intros t w. unfold stmt_effect, on_db; simpl.
  destruct (insert_row _ _ _ _) as [m|e] eqn:Hi; simpl; [|done].
  apply insert_row_ok in Hi as (Hn & -> & _). intros i x Hx. simpl. rewrite lookup_insert_ne; congruence.
Qed.

Lemma Enqueue_keeps id claim j kind payload key n :
  evolves (on_db (keeps id claim j)) (Enqueue kind payload key n).
Proof.
  intros w. apply keeps_evolve; [apply evolves_Enqueue|].
  intros (_ & Hj & _). rewrite Hj. by apply Enqueue_rows_stay.
Qed.

Lemma Dequeue_keeps id claim j kinds v w :
  clk_now (w_tick w) < job_visible_at j ->
  keeps id claim j (w_db w) (w_db (snd (Dequeue kinds v w))).
Proof.
  intros Hclk. unfold Dequeue, clk_Now, uuid_New. unfold bind at 1 2. simpl.
  eapply on_db_at; [|reflexivity]. go_evolve.
  apply evolves_dml; [apply _|]. intros t w'. by apply dequeue_keeps.
Qed.

Lemma run_op_keeps id claim j o w :
  uses_claim claim o = false -> clk_now (w_tick w) < job_visible_at j ->
  keeps id claim j (w_db w) (w_db (snd (run_op o w))).
Proof.
  intros Hu Hclk.
  assert (forall id' c f, c <> claim -> (forall x, owns c x = true -> job_step x (f x)) ->
    evolves (on_db (keeps id claim j)) (dml (fun _ => update_job id' (owns c) f))) as Hupd.
  { intros id' c f Hc Hf. apply evolves_dml; [apply _|]. intros t w'. by apply update_job_keeps. }
  destruct o as [kind payload key n|kinds v|id' c v|id' c|id' c cause|]; simpl in Hu |- *;
    try apply bool_decide_eq_false in Hu.
  - apply Enqueue_keeps.
  - by apply Dequeue_keeps.
  - refine (on_db_at _ (Heartbeat id' c v) _ _ _ eq_refl). unfold Heartbeat. go_evolve. eauto using job_step.
  - refine (on_db_at _ (Ack id' c) _ _ _ eq_refl). unfold Ack. go_evolve. eauto using job_step.
  - refine (on_db_at _ (Nack id' c cause) _ _ _ eq_refl). unfold Nack. go_evolve. eauto using job_step.
  - refine (on_db_at _ Depth _ _ _ eq_refl). unfold Depth. go_evolve.
Qed.
End runs.

(** ** What the queue guarantees *)
Lemma job_step_terminal j j' : job_step j j' -> job_status j = JobQueued \/ job_status j = JobRunning.
Proof.
  destruct 1 as [now kinds c dl j Hr|c dl j Ho|c now j Ho|c now ra e j Ho];
    try (apply owns_running in Ho as [_ ->]; by right).
  unfold ready in Hr. destruct (job_status j); [by left|by right|..];
    rewrite andb_true_iff in Hr; destruct Hr as [_ Hr]; done.
Qed.

Lemma rtc_terminal j j' :
  rtc job_step j j' -> job_status j = JobDone \/ job_status j = JobDead -> j' = j.
Proof.
  destruct 1 as [|j j1 j' Hs _]; [done|]. apply job_step_terminal in Hs. intuition congruence.
Qed.

Lemma rtc_attempts j j' : rtc job_step j j' -> job_attempts j <= job_attempts j'.
Proof. induction 1 as [|j j1 j' Hs _ IH]; [done|]. destruct Hs; simpl in *; lia. Qed.

Section guarantees.
Context `{Env}.

(** From a well-formed queue, any sequence of queue operations, whatever
    faults strike, keeps it well-formed (an id names one job, a dedupe key names
    at most one job, a job carries a claim token exactly while it runs), never
    loses a job, never lowers a job's attempt count, and leaves done and dead
    jobs exactly as they were. *)
Theorem queue_invariant (ops : list QueueOp) (w : World) :
  jobs_ok (w_db w) ->
  let d' := w_db (snd (run_ops ops w)) in
  jobs_ok d' /\
  (forall id j, db_jobs (w_db w) !! id = Some j ->
     exists j', db_jobs d' !! id = Some j' /\ job_attempts j <= job_attempts j' /\
       (job_status j = JobDone \/ job_status j = JobDead -> j' = j)).
Proof.
  intros Hok d'.
  assert (evolves (on_db jobs_evolve) (run_ops ops)) as He.
  { unfold run_ops. go_evolve. apply evolves_run_op. }
  destruct (He w Hok) as (Hok' & Hf & _). split; [done|]. intros id j Hj.
  destruct (Hf id j Hj) as (j' & Hj' & Hs). exists j'. eauto using rtc_attempts, rtc_terminal.
Qed.

(** C7: A lease is exclusive.  While the clock readings of every operation
    stay before the deadline of a claimed job, no sequence of queue operations
    that does not present its claim token changes the job's row, faults
    included: no other worker can be handed the job, finish it or requeue it. *)
Theorem lease_exclusive (ops : list QueueOp) (w : World) (id claim : uuid) (j : QueueJob)
    (Hok : jobs_ok (w_db w)) (Hj : db_jobs (w_db w) !! id = Some j) (Hown : owns claim j = true)
    (Hclk : forall n, (w_tick w <= n < w_tick (snd (run_ops ops w)))%nat -> clk_now n < job_visible_at j)
    (Hops : Forall (fun o => uses_claim claim o = false) ops) :
  db_jobs (w_db (snd (run_ops ops w))) !! id = Some j.
Proof.
  assert (held_by id claim j (w_db w)) as Hheld by done. clear Hok Hj Hown.
  cut (held_by id claim j (w_db (snd (run_ops ops w)))); [by intros (_ & ? & _)|].
  revert w Hclk Hheld. induction Hops as [|o ops Ho Hops IH]; intros w Hclk Hheld; [done|].
  rewrite run_ops_cons in Hclk |- *. 
  pose proof (ticks_run_ops ops (snd (run_op o w))) as Ht. unfold ticks in Ht.
  pose proof (run_op_ticks o w). apply IH; [intros n Hn; apply Hclk; lia|].
  apply run_op_keeps; [done| |done]. apply Hclk. lia.
Qed.

(** [Dequeue] hands out the oldest ready job of the requested kinds: queued
    and due, or running with its lease expired.  It becomes running under the
    fresh token with one more attempt and the new deadline, and no other row
    changes.  Without a driver error, [ErrEmpty] is returned exactly when no job
    is ready, and then nothing changes. *)
Theorem Dequeue_spec (kinds : list JobKind) (visibility : Z) (w : World)
    (Hok : jobs_ok (w_db w)) :
  let now := clk_now (w_tick w) in
  match Dequeue kinds visibility w with
  | (Ok j', w') =>
      exists j, db_jobs (w_db w) !! job_id j = Some j /\ ready now kinds j = true /\
        (forall id k, db_jobs (w_db w) !! id = Some k -> ready now kinds k = true ->
           job_created_at j <= job_created_at k) /\
        j' = claimed (new_uuid (S (w_tick w))) (now + visibility) j /\
        w_db w' = upd_jobs (<[job_id j := j']>) (w_db w)
  | (Fail e, w') =>
      (e = ErrEmpty /\ w_db w' = w_db w /\
       forall id k, db_jobs (w_db w) !! id = Some k -> ready now kinds k = false) \/
      (is_Some (fault (S (S (w_tick w)))) /\ exists c, e = Wrapped "dequeue" (Driver c))
  end.
Proof.
  simpl. unfold Dequeue. sql_unfold.
  destruct (fault (S (S (w_tick w)))) as [[err [|]]|]; simpl; [right; eauto..|].
  unfold dequeue_stmt. destruct (argmin _ _) as [j|] eqn:Hm; simpl.
  - pose proof (ready_select _ _ _ _ Hm) as (Hr & id & Hid).
    assert (job_id j = id) as Hji by (destruct Hok as [Hk _]; by destruct (Hk id j Hid)).
    exists j. rewrite Hji. split_and!; try done.
    intros i k Hk Hrk. apply Z.leb_le. refine (argmin_least oldest _ _ _ _ Hm k _).
    + intros a b. unfold oldest. lia.
    + intros a b c. unfold oldest. lia.
    + apply elem_of_select. eauto.
  - left. split_and!; try done. apply select_none. by apply argmin_none in Hm.
Qed.

(** Completion is owned.  Whatever faults strike, [Ack], [Nack] and
    [Heartbeat] with a token that does not own the job leave every table as it
    was and do not report success. *)
Theorem stale_claim_harmless (id claim : uuid) (visibility : Z) (cause : Err) (w : World)
    (Hstale : forall j, db_jobs (w_db w) !! id = Some j -> owns claim j = false) :
  Forall (fun m : Go unit => is_ok (fst (m w)) = false /\ w_db (snd (m w)) = w_db w)
    [Ack id claim; Nack id claim cause; Heartbeat id claim visibility].
Proof.
  assert (forall f, update_row id (owns claim) f (db_jobs (w_db w)) = (0, db_jobs (w_db w))) as Hu.
  { intros f. unfold update_row. destruct (db_jobs (w_db w) !! id) as [j|] eqn:Hj; [|done].
    by rewrite (Hstale j eq_refl). }
  assert ((match db_jobs (w_db w) !! id with
           | Some j => if owns claim j then Some (job_attempts j, job_max_attempts j) else None
           | None => None end) = None) as Hq.
  { destruct (db_jobs (w_db w) !! id) as [j|] eqn:Hj; [by rewrite (Hstale j eq_refl)|done]. }
  repeat first [apply Forall_nil_2 | apply Forall_cons_2; [split|]];
    unfold Ack, Nack, Heartbeat; sql_unfold; destruct (fault (S (w_tick w))) as [[err [|]]|]; simpl; rewrite ?Hu, ?Hq; simpl; rewrite ?upd_jobs_id; done.
Qed.

Lemma backoff_bounds a : 0 <= a -> 1 <= backoff_secs a <= 300.
Proof.
  intros Ha. unfold backoff_secs. rewrite (proj2 (Z.ltb_ge a 0)) by lia.
  pose proof (Z.pow_pos_nonneg 2 a). lia.
Qed.

(** A failed attempt is retried later or buried.  When the owner's [Nack]
    succeeds, the job gives up its token and is dead exactly when its attempts
    reached the limit; otherwise it is queued again.  Its next run is due
    between 1 second and 5 minutes from now, and exactly 2^attempts seconds from
    now while that is at most 5 minutes. *)
Theorem Nack_spec (id claim : uuid) (cause : Err) (w w' : World) (j : QueueJob)
    (Hj : db_jobs (w_db w) !! id = Some j) (Hpos : 0 <= job_attempts j)
    (Hrun : Nack id claim cause w = (Ok tt, w')) :
  owns claim j = true /\
  exists j', w_db w' = upd_jobs (<[id := j']>) (w_db w) /\
    job_claim j' = None /\ job_attempts j' = job_attempts j /\
    job_status j' = (if job_max_attempts j <=? job_attempts j then JobDead else JobQueued) /\
    1 * Second <= job_run_after j' - clk_now (w_tick w) <= 300 * Second /\
    (job_attempts j <= 8 -> job_run_after j' - clk_now (w_tick w) = 2 ^ job_attempts j * Second).
Proof.
  unfold Nack, update_job, update_row in Hrun. sql_unfold_in Hrun.
  destruct (fault (S (w_tick w))) as [f1|] eqn:H1; [destruct f1 as [? [|]]; done|]. simpl in Hrun.
  rewrite Hj in Hrun. destruct (owns claim j) eqn:Ho; [|done]. simpl in Hrun.
  destruct (fault (S (S (w_tick w)))) as [f2|] eqn:H2; [destruct f2 as [? [|]]; done|]. simpl in Hrun.
  rewrite Hj, Ho in Hrun. simpl in Hrun. simplify_eq. split; [done|].
  exists (returned (clk_now (w_tick w)) (clk_now (w_tick w) + backoff_secs (job_attempts j) * Second)
            (error_string cause) j).
  split; [done|]. simpl. split_and!; try done.
  - pose proof (backoff_bounds _ Hpos). unfold Second. lia.
  - pose proof (backoff_bounds _ Hpos). unfold Second. lia.
  - intros H8. unfold backoff_secs. rewrite (proj2 (Z.ltb_ge _ 0)) by lia.
    assert (2 ^ job_attempts j <= 2 ^ 8) by (apply Z.pow_le_mono_r; lia). lia.
Qed.

(** The attempt limit binds only failures that are reported.  A job whose
    worker died (running, lease expired) is handed out again even when its
    attempts already reached [max_attempts]; only [Nack] moves a job to dead. *)
Theorem expired_lease_ignores_limit (kinds : list JobKind) (visibility : Z) (w : World) (j : QueueJob)
    (Hdb : db_jobs (w_db w) = {[ job_id j := j ]}) (Hrun : job_status j = JobRunning)
    (Hkind : job_kind j ∈ kinds) (Hexp : job_visible_at j <= clk_now (w_tick w))
    (Hmax : job_max_attempts j <= job_attempts j) (Hnf : fault (S (S (w_tick w))) = None) :
  exists j', fst (Dequeue kinds visibility w) = Ok j' /\ job_id j' = job_id j /\
    job_max_attempts j' < job_attempts j' /\ job_status j' = JobRunning.
Proof.
  unfold Dequeue. sql_unfold. rewrite Hnf. unfold dequeue_stmt, select, rows. rewrite Hdb.
  rewrite map_to_list_singleton. simpl.
  assert (ready (clk_now (w_tick w)) kinds j = true) as Hr.
  { unfold ready. rewrite Hrun, bool_decide_eq_true_2 by done. simpl. lia. }
  rewrite filter_cons_True by done. simpl. eexists. split; [done|]. simpl. split_and!; try done. lia.
Qed.
End guarantees.

(** ** Witnesses *)
Module QueueDemo.
Definition job : QueueJob :=
  mkJob 7 JobOutboundSend (PayOther "x") (Some "k") JobRunning 5 5 0 100 (Some 42%N) "" 0 0.
Definition db : DB := upd_jobs (fun _ => {[ 7%N := job ]}) empty_db.
Definition env (now : Time) : Env := demo_env no_faults (fun _ => now).

Lemma queue_db_ok : jobs_ok db.
Proof.
  split; [intros id j|intros i1 i2 j1 j2 k]; unfold db; rewrite upd_jobs_jobs, lookup_singleton_Some.
  - intros [<- <-]. split; [done|]. unfold job_ok; simpl. split_and!; try done; eauto; lia.
  - rewrite lookup_singleton_Some. intros [<- <-] [<- <-]. done.
Qed.

Lemma queue_invariant_witness :
  jobs_ok (w_db (snd (@run_ops (env 500) [OpDequeue [JobOutboundSend] 30; OpAck 7 42] (world_of db)))).
Proof. refine (proj1 (@queue_invariant (env 500) _ (world_of db) queue_db_ok)). Defined.

Lemma lease_exclusive_witness :
  db_jobs (w_db (snd (@run_ops (env 50)
    [OpDequeue [JobOutboundSend] 30; OpAck 7 13; OpNack 7 13 ErrEmpty] (world_of db)))) !! 7%N = Some job.
Proof.
  apply (@lease_exclusive (env 50) _ (world_of db) 7%N 42%N job queue_db_ok);
    [reflexivity|reflexivity|intros; simpl; lia|repeat constructor].
Defined.

Lemma Dequeue_spec_witness :
  exists j, db_jobs db !! job_id j = Some j /\ ready 500 [JobOutboundSend] j = true.
Proof.
  pose proof (@Dequeue_spec (env 500) [JobOutboundSend] 30 (world_of db) queue_db_ok) as Hs. simpl in Hs.
  assert (fst (@Dequeue (env 500) [JobOutboundSend] 30 (world_of db)) <> Fail ErrEmpty) as Hne
    by (vm_compute; discriminate).
  destruct (@Dequeue (env 500) [JobOutboundSend] 30 (world_of db)) as [[j|e] w'].
  - destruct Hs as (j0 & H1 & H2 & _). exists j0. split; [exact H1|exact H2].
  - exfalso. destruct Hs as [[-> _]|[[x Hx] _]]; [by apply Hne|discriminate Hx].
Defined.

Lemma stale_claim_harmless_witness :
  w_db (snd (@Ack (env 50) 7 13 (world_of db))) = db.
Proof.
  assert (forall j, db_jobs db !! 7%N = Some j -> owns 13 j = false) as Hst.
  { intros j Hj. assert (Hj' : Some j = Some job) by (rewrite <- Hj; reflexivity).
    injection Hj' as ->. reflexivity. }
  pose proof (@stale_claim_harmless (env 50) 7 13 30 ErrEmpty (world_of db) Hst) as Hf.
  apply Forall_inv in Hf. exact (proj2 Hf).
Defined.

Lemma Nack_spec_witness :
  exists j', w_db (snd (@Nack (env 50) 7 42 ErrEmpty (world_of db))) = upd_jobs (<[7%N := j']>) db /\
    job_status j' = JobDead.
Proof.
  destruct (@Nack_spec (env 50) 7 42 ErrEmpty (world_of db)
    (snd (@Nack (env 50) 7 42 ErrEmpty (world_of db))) job eq_refl ltac:(simpl; lia) eq_refl)
    as (_ & j' & Hdb & _ & _ & Hs & _).
  exists j'. split; [exact Hdb|exact Hs].
Defined.

Lemma expired_lease_ignores_limit_witness :
  exists j', fst (@Dequeue (env 500) [JobOutboundSend] 30 (world_of db)) = Ok j' /\
    job_max_attempts j' < job_attempts j'.
Proof.
  destruct (@expired_lease_ignores_limit (env 500) [JobOutboundSend] 30 (world_of db) job
    eq_refl eq_refl ltac:(constructor) ltac:(simpl; lia) ltac:(simpl; lia) eq_refl)
    as (j' & H1 & _ & H2 & _).
  exists j'. split; [exact H1|exact H2].
Defined.
End QueueDemo.
