(* ===== verification/Worker.v ===== *)
(** * Worker

    internal/worker: the consumer loop over the queue.  A runner is a state
    machine: it polls, works on a claimed job while heartbeats renew the lease,
    and settles the job by what the handler returned.  Events are the points
    where other goroutines and processes can interleave; a handler call is one
    event. *)
From S2P Require Import Prelude GoStrings Domain Db Queue.

Record Config := mkConfig { cfg_kinds : list JobKind; cfg_concurrency : Z; cfg_poll : Z; cfg_visibility : Z }.

(** [Run]'s defaults. *)
Definition with_defaults (c : Config) : Config :=
  mkConfig (cfg_kinds c) (if cfg_concurrency c <=? 0 then 1 else cfg_concurrency c)
    (if cfg_poll c <=? 0 then Second else cfg_poll c)
    (if cfg_visibility c <=? 0 then 30 * Second else cfg_visibility c).

(** [beating]: the heartbeat goroutine stops at its first error. *)
Inductive Runner :=
| Idle
| Working (job : QueueJob) (beating : bool)
| Returned (job : QueueJob) (result : Res Err unit).
Inductive RunnerEvent := Poll | Beat | Finish | Settle.

Section worker.
Context `{Env}.

Definition claim_of (job : QueueJob) : uuid := default uuid_nil (job_claim job).

(** The switch on the handler's error: transient errors are returned to the
    queue, anything else is acknowledged; queue errors are only logged. *)
Definition settle_job (job : QueueJob) (result : Res Err unit) : Go unit :=
  match result with
  | Ok _ => ignore (Ack (job_id job) (claim_of job))
  | Fail err => if Retryable err then ignore (Nack (job_id job) (claim_of job) err)
                else ignore (Ack (job_id job) (claim_of job))
  end.

(** One iteration of [loop], event by event. *)
Definition runner_step (cfg : Config) (handle : QueueJob -> Go unit) (r : Runner) (e : RunnerEvent) : Go Runner :=
  match r, e with
  | Idle, Poll =>
      let* res := attempt (Dequeue (cfg_kinds cfg) (cfg_visibility cfg)) in
      ret (match res with Ok job => Working job true | Fail _ => Idle end)
  | Working job true, Beat =>
      let* res := attempt (Heartbeat (job_id job) (claim_of job) (cfg_visibility cfg)) in
      ret (Working job (is_ok res))
  | Working job _, Finish => let* res := attempt (handle job) in ret (Returned job res)
  | Returned job result, Settle => settle_job job result ;;; ret Idle
  | _, _ => ret r
  end.

(** [drainKind] and [Drain]; [None] when the fuel runs out first. *)
Fixpoint drainKind (fuel : nat) (kind : JobKind) (handle : QueueJob -> Go unit) (n : Z) : Go (option Z) :=
  match fuel with
  | O => ret None
  | S f =>
      let* res := attempt (Dequeue [kind] (30 * Second)) in
      match res with
      | Fail (Sentinel m) => if String.eqb m "queue: no job available" then ret (Some n) else fail (Sentinel m)
      | Fail err => fail err
      | Ok job =>
          let* r := attempt (handle job) in
          match r with
          | Fail err => ignore (Nack (job_id job) (claim_of job) err) ;;; fail err
          | Ok _ => Ack (job_id job) (claim_of job) ;;; drainKind f kind handle (n + 1)
          end
      end
  end.
Definition drain_pass (fuel : nat) (steps : list (JobKind * (QueueJob -> Go unit))) : Go (option Z) :=
  for_each steps (fun acc s =>
    match acc with
    | None => ret None
    | Some n => let* c := drainKind fuel s.1 s.2 0 in ret (option_map (Z.add n) c)
    end) (Some 0).
Fixpoint Drain (fuel : nat) (steps : list (JobKind * (QueueJob -> Go unit))) : Go (option unit) :=
  match fuel with
  | O => ret None
  | S f =>
      let* n := drain_pass fuel steps in
      match n with
      | None => ret None
      | Some n => if n =? 0 then ret (Some tt) else Drain f steps
      end
  end.

(** ** Settling *)
Definition retry_asked (result : Res Err unit) : bool :=
  match result with Ok _ => false | Fail err => Retryable err end.

Lemma update_job_cases id claim f d j : db_jobs d !! id = Some j ->
  (update_job id (owns claim) f d).2 = (if owns claim j then upd_jobs (<[id := f j]>) d else d).
Proof.
  intros Hj. unfold update_job, update_row. rewrite Hj. destruct (owns claim j); simpl; [by destruct d|].
  apply upd_jobs_id.
Qed.

Lemma Ack_effect id claim w j : db_jobs (w_db w) !! id = Some j ->
  let d' := w_db (snd (Ack id claim w)) in
  d' = w_db w \/ (owns claim j = true /\ exists now, d' = upd_jobs (<[id := finished now j]>) (w_db w)).
Proof.
  intros Hj. unfold Ack. run_unfold; unfold dml, stmt, stmt_effect, clk_Now; cbn [fst snd].
  pose proof (update_job_cases id claim (finished (clk_now (w_tick w))) (w_db w) j Hj) as He.
  destruct (update_job _ _ _ _) as [n d1]. simpl in He. subst d1.
  destruct (fault _) as [[e [|]]|]; simpl; [|by left|]; try (destruct (_ =? 0)); simpl;
    destruct (owns claim j); eauto.
Qed.

Lemma Nack_effect id claim cause w j : db_jobs (w_db w) !! id = Some j ->
  let d' := w_db (snd (Nack id claim cause w)) in
  d' = w_db w \/ (owns claim j = true /\ exists now at_,
    d' = upd_jobs (<[id := returned now at_ (error_string cause) j]>) (w_db w)).
Proof.
  intros Hj. unfold Nack. sql_unfold. destruct (fault (S (w_tick w))) as [[e [|]]|]; simpl; [by left..|].
  rewrite Hj. destruct (owns claim j) eqn:Ho; simpl; [|by left].
  pose proof (update_job_cases id claim (returned (clk_now (w_tick w))
    (clk_now (w_tick w) + backoff_secs (job_attempts j) * Second) (error_string cause)) (w_db w) j Hj) as He.
  rewrite Ho in He. unfold update_job in He. simpl in He.
  destruct (fault _) as [[e [|]]|]; simpl; [|by left|]; try (destruct (_ =? 0)); simpl; rewrite He; eauto.
Qed.

(** The queue row tells how the handler ended.  After a runner settles a
    job, under any faults, the row is as before or, if the runner still owned the
    claim, released: queued again or dead when the handler asked for a retry,
    done otherwise; no other job changed.  So a retryable failure is never
    recorded as done, and a success is never run again by its own runner. *)
Theorem settle_spec (cfg : Config) (handle : QueueJob -> Go unit) (job j : QueueJob) (result : Res Err unit) (w : World)
    (Hj : db_jobs (w_db w) !! job_id job = Some j) :
  let d' := w_db (snd (runner_step cfg handle (Returned job result) Settle w)) in
  exists j', db_jobs d' = <[job_id job := j']> (db_jobs (w_db w)) /\
    (j' = j \/
     owns (claim_of job) j = true /\ job_claim j' = None /\
     job_status j' = (if retry_asked result
                      then if job_max_attempts j <=? job_attempts j then JobDead else JobQueued
                      else JobDone)).
Proof.
  cbv zeta. cbn [runner_step]. unfold bind, ret, settle_job, ignore.
  pose proof (Ack_effect (job_id job) (claim_of job) w j Hj) as Ha.
  destruct result as [[]|err]; [|destruct (Retryable err) eqn:Hr]; simpl; rewrite ?Hr.
  2: pose proof (Nack_effect (job_id job) (claim_of job) err w j Hj) as Hn;
     destruct Hn as [->|(Ho & now & at_ & ->)]; simpl.
  3: by eexists; split; [done|right]; split_and!.
  all: try (destruct Ha as [->|(Ho & now & ->)]; simpl; [|by eexists; split; [done|right]; split_and!]).
  all: exists j; split; [by rewrite insert_id|by left].
Qed.
End worker.

Module WorkerDemo.
Definition env : Env := demo_env no_faults (fun n => Z.of_nat n * Second).
Definition job : QueueJob := mkJob 7 JobReceiptProcess (PayOther "") None JobRunning 5 5 0 (100 * Second) (Some 9%N) "" 0 0.
Definition db : DB := upd_jobs (fun _ => {[ 7%N := job ]}) empty_db.
Definition cfg : Config := with_defaults (mkConfig [JobReceiptProcess] 0 0 0).

(** The last attempt failed transiently: the job is dead, not done. *)
Lemma settle_spec_witness :
  exists j', db_jobs (w_db (snd (@runner_step env cfg (fun _ => ret tt)
      (Returned job (Fail (E CodeTransient "x" None))) Settle (world_of db)))) = <[7%N := j']> (db_jobs db) /\
    (j' = job \/ job_status j' = JobDead).
Proof.
  destruct (@settle_spec env cfg (fun _ => ret tt) job job (Fail (E CodeTransient "x" None)) (world_of db) eq_refl)
    as (j' & Hd & Hcase).
  exists j'. split; [exact Hd|]. destruct Hcase as [Heq|(_ & _ & Hs)]; [left; exact Heq|right; exact Hs].
Defined.
End WorkerDemo.
