(* ===== verification/StoreOutbound.v ===== *)
(** * Outbox and usage counters

    internal/store/outbound.go and usage.go, one definition per method. *)
From S2P Require Import Prelude GoStrings Domain Db.

(** ** Usage counters (usage.go) *)
Section usage.
Context `{Env}.

(** INSERT ... ON CONFLICT DO UPDATE SET count = count + delta RETURNING count;
    [cond] is the DO UPDATE's WHERE clause ([None]: no row returned), [keep_limit]
    whether the conflicting row keeps its limit_value.  BIGINT overflow is a
    server error. *)
Definition numeric_out_of_range : DriverErr := pg_error "22003".
Definition bump_usage (key : UsageKey) (delta limit : Z) (keep_limit : bool)
    (cond : Z -> bool) : Stmt (option Z) := fun now d =>
  match db_usage d !! key with
  | None =>
      Ok (Some delta, upd_usage (<[key := mkUsage delta limit now]>) d)
  | Some u =>
      if cond (use_count u) then
        let n := use_count u + delta in
        if (n <=? MaxInt64) && (MinInt64 <=? n) then
          Ok (Some n,
              upd_usage (<[key := mkUsage n (if keep_limit then use_limit u else limit) now]>) d)
        else Fail numeric_out_of_range
      else Ok (None, d)
  end.
Definition always : Z -> bool := fun _ => true.

(** The CHECK on usage_counters.scope. *)
Definition scope_ok (scope : string) : bool := String.eqb scope "global" || String.eqb scope "user".

(** [IncrementUsage] *)
Definition IncrementUsage (scope scopeID period metric : string) (delta limit : Z) : Go Z :=
  let* res := wrap_err (internalErr "IncrementUsage") (stmt (fun now d =>
      if scope_ok scope
      then bump_usage (scope, scopeID, period, metric) delta limit false always now d
      else Fail check_violation)) in
  match res with
  | Some count => ret count
  | None => fail (internalErr "IncrementUsage" (Sentinel "no rows in result set"))
  end.

(** [GetUsage] *)
Definition GetUsage (scope scopeID period metric : string) : Go Z :=
  let* row := wrap_err (internalErr "GetUsage") (query (fun d =>
      db_usage d !! (scope, scopeID, period, metric))) in
  match row with
  | Some u => ret (use_count u)
  | None => ret 0
  end.
End usage.

(** ** The outbox (outbound.go) *)
Section outbound.
Context `{Env}.

Definition set_outbound (status : OutboundStatus) (attempts : Z) (lastError : string)
    (attempted_at sent_at : option Time) (ref : string) (o : OutboundRecord) : OutboundRecord :=
  mkOutbound (ob_id o) (ob_user o) (ob_provider o) (ob_chat o) (ob_key o) (ob_body o)
    (ob_ephemeral o) status attempts lastError attempted_at sent_at ref (ob_created_at o).

(** [EnqueueOutbound] *)
Definition outbound_status (rec : OutboundRecord) : OutboundStatus :=
  if bool_decide (ob_status rec = OutboundUnset) then OutboundQueued else ob_status rec.
Definition insert_outbound (rec : OutboundRecord) : Stmt Z := fun now d =>
  if existsb (fun o => String.eqb (ob_key o) (ob_key rec)) (rows (db_outbound d)) then Ok (0, d)
  else if bool_decide (db_users d !! ob_user rec = None) then Fail foreign_key_violation
  else
    let row := mkOutbound (ob_id rec) (ob_user rec) (ob_provider rec) (ob_chat rec) (ob_key rec)
                 (ob_body rec) (ob_ephemeral rec) (outbound_status rec) 0 "" None None "" now in
    match insert_row (ob_id rec) row (fun _ => false) (db_outbound d) with
    | Ok m => Ok (1, upd_outbound (fun _ => m) d)
    | Fail e => Fail e
    end.
Definition EnqueueOutbound (rec : OutboundRecord) : Go bool :=
  let* n := wrap_err (internalErr "EnqueueOutbound") (stmt (insert_outbound rec)) in
  ret (n =? 1).

(** [GetOutboundByIdempotencyKey], [GetOutbound] *)
Definition GetOutboundByIdempotencyKey (key : string) : Go OutboundRecord :=
  let* row := wrap_err (internalErr "GetOutboundByIdempotencyKey") (query (fun d =>
      head (select (fun o => String.eqb (ob_key o) key) (db_outbound d)))) in
  match row with
  | None => fail (notFound "GetOutboundByIdempotencyKey" "outbound")
  | Some o => ret o
  end.
Definition GetOutbound (id : uuid) : Go OutboundRecord :=
  let* row := wrap_err (internalErr "GetOutbound") (query (fun d => db_outbound d !! id)) in
  match row with
  | None => fail (notFound "GetOutbound" "outbound")
  | Some o => ret o
  end.

Definition update_outbound (id : uuid) (cond : OutboundRecord -> bool)
    (f : OutboundRecord -> OutboundRecord) (d : DB) : Z * DB :=
  let r := update_row id cond f (db_outbound d) in (r.1, upd_outbound (fun _ => r.2) d).
(** UPDATE ... RETURNING: the updated row, if any. *)
Definition update_outbound_returning (id : uuid) (cond : OutboundRecord -> bool)
    (f : OutboundRecord -> OutboundRecord) (d : DB) : option OutboundRecord * DB :=
  let r := update_row id cond f (db_outbound d) in
  (if r.1 =? 0 then None else r.2 !! id, upd_outbound (fun _ => r.2) d).
Definition any_row : OutboundRecord -> bool := fun _ => true.

(** [BeginOutboundAttempt] *)
Definition attempts_key (period : string) : UsageKey := ("global", "", period, "zalo_message_attempts").
Definition sent_key (period : string) : UsageKey := ("global", "", period, "zalo_messages_sent").
Definition suppressed (o : OutboundRecord) : OutboundRecord :=
  set_outbound OutboundSuppressed (ob_attempts o) "monthly message attempt quota"
    (ob_attempted_at o) (ob_sent_at o) (ob_provider_message o) o.
Definition sending (now : Time) (o : OutboundRecord) : OutboundRecord :=
  set_outbound OutboundSending (ob_attempts o + 1) "" (Some now) (ob_sent_at o)
    (ob_provider_message o) o.
Definition BeginOutboundAttempt (id : uuid) (period : string) (limit : Z) :
    Go (OutboundRecord * bool * Z) :=
  let ierr := internalErr "BeginOutboundAttempt" in
  in_tx ierr ierr (
    let* row := wrap_err ierr (query (fun d => db_outbound d !! id)) in
    match row with
    | None => fail (notFound "BeginOutboundAttempt" "outbound")
    | Some rec =>
        if negb (bool_decide (ob_status rec = OutboundQueued)) then ret (rec, false, 0)
        else
          let* slot :=
            (if 0 <? limit then
               wrap_err ierr (stmt (bump_usage (attempts_key period) 1 limit false (fun n => n <? limit)))
             else
               wrap_err ierr (stmt (bump_usage (attempts_key period) 1 0 true always))) in
          match slot with
          | None =>
              let* used := wrap_err ierr (query (fun d => use_count <$> db_usage d !! attempts_key period)) in
              match used with
              | None => fail (ierr (Sentinel "no rows in result set"))
              | Some count =>
                  wrap_err ierr (dml (fun _ => update_outbound id any_row suppressed)) ;;;
                  ret (suppressed rec, false, count)
              end
          | Some count =>
              let* upd := wrap_err ierr (dml (fun now => update_outbound_returning id any_row (sending now))) in
              match upd with
              | None => fail (ierr (Sentinel "no rows in result set"))
              | Some rec' => ret (rec', true, count)
              end
          end
    end).

(** [CompleteOutboundSend] *)
Definition sent (now : Time) (ref : string) (o : OutboundRecord) : OutboundRecord :=
  set_outbound OutboundSent (ob_attempts o) "" (ob_attempted_at o) (Some now) ref o.
Definition delete_outbound (id : uuid) (d : DB) : unit * DB := (tt, upd_outbound (delete id) d).
Definition delete_job (id : uuid) (d : DB) : unit * DB := (tt, upd_jobs (delete id) d).
Definition CompleteOutboundSend (outboundID jobID : uuid) (period : string) (limit : Z)
    (providerMessageID : string) : Go Z :=
  let ierr := internalErr "CompleteOutboundSend" in
  WithTx (
    let* row := wrap_err ierr (dml (fun now =>
        update_outbound_returning outboundID (fun o => bool_decide (ob_status o = OutboundSending))
          (sent now providerMessageID))) in
    match row with
    | None => fail (E CodeConflict "store.CompleteOutboundSend: outbound is not sending" None)
    | Some o =>
        let* n := wrap_err ierr (stmt (bump_usage (sent_key period) 1 limit false always)) in
        match n with
        | None => fail (ierr (Sentinel "no rows in result set"))
        | Some successCount =>
            (if ob_ephemeral o then
               wrap_err ierr (dml (fun _ => delete_outbound outboundID)) ;;;
               wrap_err ierr (dml (fun _ => delete_job jobID))
             else ret tt) ;;;
            ret successCount
        end
    end).

(** [MarkOutboundStatus] *)
Definition MarkOutboundStatus (id : uuid) (status : OutboundStatus) (lastError : string)
    (sentAt : option Time) : Go unit :=
  let* n := wrap_err (internalErr "MarkOutboundStatus") (dml (fun _ =>
      update_outbound id any_row (fun o =>
        set_outbound status (ob_attempts o) lastError (ob_attempted_at o) sentAt
          (ob_provider_message o) o))) in
  if n =? 0 then fail (notFound "MarkOutboundStatus" "outbound") else ret tt.

(** [PurgeOutboundAndJob] *)
Definition PurgeOutboundAndJob (outboundID jobID : uuid) : Go unit :=
  let ierr := internalErr "PurgeOutboundAndJob" in
  WithTx (
    wrap_err ierr (dml (fun _ => delete_outbound outboundID)) ;;;
    wrap_err ierr (dml (fun _ => delete_job jobID))).

(** [DeleteQueueJob] *)
Definition DeleteQueueJob (jobID : uuid) : Go unit :=
  wrap_err (internalErr "DeleteQueueJob") (dml (fun _ => delete_job jobID)).
End outbound.

(** ** Outbox evolution

    For one row id: the row is never queued again once it left [queued], it is
    not created, rows stay under their ids, and no call leaves the process. *)
Definition spent (id : uuid) (d : DB) : Prop :=
  forall o, db_outbound d !! id = Some o -> ob_status o <> OutboundQueued.
Definition outbox_keyed (d : DB) : Prop :=
  forall id o, db_outbound d !! id = Some o -> ob_id o = id.
Definition outbox_calm (id : uuid) (d d' : DB) : Prop :=
  (spent id d -> spent id d') /\
  (db_outbound d !! id = None -> db_outbound d' !! id = None) /\
  (outbox_keyed d -> outbox_keyed d').
Definition calm (id : uuid) : relation World := fun w w' =>
  w_calls w' = w_calls w /\ (w_tick w <= w_tick w')%nat /\ outbox_calm id (w_db w) (w_db w').

#[global] Instance outbox_calm_preorder id : PreOrder (outbox_calm id).
Proof.
  split; unfold outbox_calm; [by intros d|].
  intros d1 d2 d3 (S1 & N1 & K1) (S2 & N2 & K2). split_and!; auto.
Qed.

#[global] Instance calm_steady id : Steady (calm id).
Proof.
  split; [split|]; unfold calm; [split|..].
  - intros w. split_and!; [done|lia|reflexivity].
  - intros w1 w2 w3 (C1 & T1 & D1) (C2 & T2 & D2). split_and!; [congruence|lia|by etrans].
  - intros w. simpl. split_and!; [done|lia|reflexivity].
  - intros w t. simpl. split_and!; [done|lia|reflexivity].
  - intros w u. simpl. split_and!; [done|lia|reflexivity].
  - intros w w' (C & T & _). simpl. split_and!; [done|lia|reflexivity].
Qed.

(** Statements that leave the outbox alone. *)
Lemma calm_other id w d : db_outbound d = db_outbound (w_db w) -> calm id w (set_db d w).
Proof.
  intros He. unfold calm, outbox_calm, spent, outbox_keyed; simpl. rewrite He.
  split_and!; auto with lia.
Qed.

Lemma outbox_calm_update id id' cond f d :
  (forall o, ob_id (f o) = ob_id o) -> (forall o, ob_status (f o) <> OutboundQueued) ->
  outbox_calm id d (update_outbound id' cond f d).2.
Proof.
  intros Hid Hst. unfold update_outbound; simpl. split_and!.
  - intros Hs o. simpl. rewrite update_row_lookup. case_bool_decide; [|apply Hs].
    destruct (db_outbound d !! id) as [o0|] eqn:Ho; simpl; [|done]. intros [= <-].
    destruct (cond o0); [apply Hst|by apply Hs].
  - simpl. rewrite update_row_lookup. intros ->. by case_bool_decide.
  - intros Hk i o. simpl. rewrite update_row_lookup.
    case_bool_decide; [|apply Hk]. destruct (db_outbound d !! i) as [o0|] eqn:Ho; simpl; [|done].
    intros [= <-]. destruct (cond o0); [rewrite Hid|]; by apply Hk.
Qed.

Lemma outbox_calm_delete id id' d : outbox_calm id d (delete_outbound id' d).2.
Proof.
  unfold delete_outbound; simpl. split_and!.
  - intros Hs o. simpl. intros [_ Ho]%lookup_delete_Some. by apply Hs.
  - simpl. intros Hn. rewrite lookup_delete. by case_decide.
  - intros Hk i o. simpl. intros [_ Ho]%lookup_delete_Some. by apply Hk.
Qed.

Section calm_ops.
Context `{Env} (id : uuid).

Lemma calm_dml {A} (f : Time -> DB -> A * DB) :
  (forall t d, outbox_calm id d (f t d).2) -> evolves (calm id) (dml f).
Proof. intros Hf. apply evolves_dml; [apply _|]. intros t w. unfold calm; simpl. auto with lia. Qed.

Lemma calm_update_outbound id' cond f :
  (forall t o, ob_id (f t o) = ob_id o) -> (forall t o, ob_status (f t o) <> OutboundQueued) ->
  evolves (calm id) (dml (fun t => update_outbound id' cond (f t))).
Proof. intros Hid Hst. apply calm_dml. intros t d. apply outbox_calm_update; [apply Hid|apply Hst]. Qed.

Lemma calm_update_outbound_returning id' cond f :
  (forall t o, ob_id (f t o) = ob_id o) -> (forall t o, ob_status (f t o) <> OutboundQueued) ->
  evolves (calm id) (dml (fun t => update_outbound_returning id' cond (f t))).
Proof.
  intros Hid Hst. apply calm_dml. intros t d.
  apply (outbox_calm_update id id' cond (f t) d); [apply Hid|apply Hst].
Qed.

Lemma calm_delete_outbound id' : evolves (calm id) (dml (fun _ => delete_outbound id')).
Proof. apply calm_dml. intros t d. apply outbox_calm_delete. Qed.

Lemma calm_delete_job id' : evolves (calm id) (dml (fun _ => delete_job id')).
Proof. apply evolves_dml; [apply _|]. intros t w. by apply calm_other. Qed.

Lemma bump_usage_outbound key delta limit keep cond t d :
  db_outbound (stmt_effect (bump_usage key delta limit keep cond) t d) = db_outbound d.
Proof.
  unfold stmt_effect, bump_usage. destruct (db_usage d !! key) as [u|]; [|done].
  destruct (cond _); [|done]. by destruct (_ && _).
Qed.

Lemma calm_bump key delta limit keep cond : evolves (calm id) (stmt (bump_usage key delta limit keep cond)).
Proof. apply evolves_stmt; [apply _|]. intros t w. apply calm_other, bump_usage_outbound. Qed.
#[local] Hint Resolve calm_delete_outbound calm_delete_job calm_bump : evolve.

Lemma calm_GetOutbound id' : evolves (calm id) (GetOutbound id').
Proof. unfold GetOutbound. go_evolve. Qed.

Lemma calm_GetOutboundByKey key : evolves (calm id) (GetOutboundByIdempotencyKey key).
Proof. unfold GetOutboundByIdempotencyKey. go_evolve. Qed.

Lemma calm_Mark id' status err at_ :
  status <> OutboundQueued -> evolves (calm id) (MarkOutboundStatus id' status err at_).
Proof.
  intros Hs. unfold MarkOutboundStatus. go_evolve.
  apply (calm_update_outbound id' any_row (fun _ o =>
    set_outbound status (ob_attempts o) err (ob_attempted_at o) at_ (ob_provider_message o) o)); done.
Qed.

Lemma calm_Purge id' jobID : evolves (calm id) (PurgeOutboundAndJob id' jobID).
Proof. unfold PurgeOutboundAndJob. go_evolve. Qed.

Lemma calm_DeleteQueueJob jobID : evolves (calm id) (DeleteQueueJob jobID).
Proof. unfold DeleteQueueJob. go_evolve. Qed.

Lemma calm_Complete id' jobID period limit ref :
  evolves (calm id) (CompleteOutboundSend id' jobID period limit ref).
Proof. unfold CompleteOutboundSend. go_evolve. by apply calm_update_outbound_returning. Qed.

Lemma calm_Begin id' period limit : evolves (calm id) (BeginOutboundAttempt id' period limit).
Proof.
  unfold BeginOutboundAttempt. go_evolve.
  - by apply calm_update_outbound_returning.
  - by apply (calm_update_outbound id' any_row (fun _ => suppressed)).
Qed.

Lemma calm_EnqueueOutbound rec : ob_id rec <> id -> evolves (calm id) (EnqueueOutbound rec).
Proof.
  intros Hne. unfold EnqueueOutbound. go_evolve. apply evolves_stmt; [apply _|]. intros t w.
  unfold stmt_effect, insert_outbound. destruct (existsb _ _); [by apply calm_other|].
  case_bool_decide; [by apply calm_other|].
  destruct (insert_row _ _ _ _) as [m|e] eqn:Hi; [|by apply calm_other].
  apply insert_row_ok in Hi as (Hn & -> & _). unfold calm; simpl. split_and!; [done|lia|].
  unfold outbox_calm, spent, outbox_keyed; simpl. split_and!.
  - intros Hs o. rewrite lookup_insert_ne by done. apply Hs.
  - intros Hnone. by rewrite lookup_insert_ne.
  - intros Hk i o [[<- <-]|[_ Ho]]%lookup_insert_Some; [done|by apply Hk].
Qed.
End calm_ops.

(** The reservation succeeds only for a queued row, which it leaves [sending]. *)
Lemma Begin_allowed `{Env} id period limit w rec count w' :
  outbox_keyed (w_db w) ->
  BeginOutboundAttempt id period limit w = (Ok (rec, true, count), w') ->
  (exists o, db_outbound (w_db w) !! id = Some o /\ ob_status o = OutboundQueued) /\
  db_outbound (w_db w') !! id = Some rec /\ ob_status rec = OutboundSending /\ ob_id rec = id.
Proof.
  intros Hk Hb. unfold BeginOutboundAttempt in Hb. cbv zeta in Hb.
  apply in_tx_Ok in Hb as (w1 & Hb & ->). inv_runs. simpl in *.
  destruct (db_outbound (w_db w) !! id) as [o|] eqn:Ho; [|done].
  case_bool_decide as Hq; simpl in Hb; [|by inv_runs]. inv_runs.
  match goal with Hs : (if _ then _ else _) _ = (Ok ?slot, ?w2) |- _ =>
    assert (db_outbound (w_db w2) = db_outbound (w_db w)) as Hw2 end.
  { destruct (0 <? limit); inv_runs;
      match goal with Hs : stmt (bump_usage ?k ?de ?l ?ke ?c) _ = _ |- _ =>
        apply stmt_Ok in Hs as (d & Hd & ->); simpl in *;
        pose proof (bump_usage_outbound k de l ke c) as Hbu; unfold stmt_effect in Hbu end;
      match type of Hd with ?f ?t ?d0 = _ => specialize (Hbu t d0) end; by rewrite Hd in Hbu. }
  destruct a as [n|]; [|apply bind_Ok in Hb as ([c|] & w3 & _ & Hb); inv_runs; done].
  apply bind_Ok in Hb as ([rec'|] & w3 & Hu & Hb); [|done]. inv_runs. apply dml_Ok in Hu as [Hu _].
  unfold update_outbound_returning, update_row in Hu. rewrite Hw2, Ho in Hu. simpl in Hu.
  rewrite lookup_insert_eq in Hu. injection Hu as Hrec Hdb. simplify_eq. simpl.
  split_and!; [eauto| |done|by apply (Hk _ _ Ho)]. rewrite <- Hdb. simpl. by rewrite lookup_insert_eq.
Qed.

(** ** The attempt counter

    [used period d] is the number of provider calls reserved in [period]; under
    a limit it grows by reservations only and never passes the limit. *)
Definition used (period : string) (d : DB) : Z :=
  default 0 (use_count <$> db_usage d !! attempts_key period).
Definition within (limit : Z) (period : string) : relation World := fun w w' =>
  w_calls w' = w_calls w /\
  used period (w_db w) <= used period (w_db w') <= Z.max limit (used period (w_db w)).

#[global] Instance within_steady limit period : Steady (within limit period).
Proof.
  split; [split|]; unfold within; [split|..]; intros; simpl; try (split; [done|lia]).
  - intros w1 w2 w3 (C1 & U1) (C2 & U2). split; [congruence|lia].
  - split; [tauto|lia].
Qed.

Lemma within_other limit period w d : db_usage d = db_usage (w_db w) -> within limit period w (set_db d w).
Proof. intros He. unfold within, used; simpl. rewrite He. split; [done|lia]. Qed.

Lemma attempts_key_inj p q : attempts_key p = attempts_key q -> p = q.
Proof. unfold attempts_key. congruence. Qed.

(** Reserving one call. *)
Lemma bump_attempts period p limit t d n d' :
  0 < limit ->
  bump_usage (attempts_key p) 1 limit false (fun n => n <? limit) t d = Ok (n, d') ->
  used period d <= used period d' <= Z.max limit (used period d) /\
  (n <> None -> p = period -> used period d' = used period d + 1).
Proof.
  intros Hl. unfold bump_usage, used.
  destruct (decide (p = period)) as [->|Hne].
  - destruct (db_usage d !! attempts_key period) as [u|] eqn:Hu; simpl.
    + destruct (Z.ltb_spec (use_count u) limit).
      * destruct (_ && _); [|done]. intros [= <- <-]. simpl. rewrite lookup_insert_eq. simpl. lia.
      * intros [= <- <-]. rewrite Hu. simpl. split; [lia|done].
    + intros [= <- <-]. simpl. rewrite lookup_insert_eq. simpl. lia.
  - assert (forall x, <[attempts_key p := x]> (db_usage d) !! attempts_key period
                      = db_usage d !! attempts_key period) as Hins.
    { intros x. apply lookup_insert_ne. by intros ?%attempts_key_inj. }
    destruct (db_usage d !! attempts_key p) as [u|].
    + destruct (_ <? _); [destruct (_ && _); [|done]|]; intros [= <- <-]; simpl; rewrite ?Hins;
        (split; [lia|done]).
    + intros [= <- <-]. simpl. rewrite Hins. split; [lia|done].
Qed.

Section within_ops.
Context `{Env} (limit : Z) (period : string).

Lemma within_dml {A} (f : Time -> DB -> A * DB) :
  (forall t d, db_usage (f t d).2 = db_usage d) -> evolves (within limit period) (dml f).
Proof. intros Hf. apply evolves_dml; [apply _|]. intros t w. by apply within_other. Qed.

Lemma within_bump_sent p l : evolves (within limit period) (stmt (bump_usage (sent_key p) 1 l false always)).
Proof.
  apply evolves_stmt; [apply _|]. intros t w. unfold stmt_effect, bump_usage, within, used; simpl.
  destruct (db_usage (w_db w) !! sent_key p) as [u|]; simpl; [destruct (_ && _)|]; simpl;
    rewrite ?lookup_insert_ne by done; (split; [done|lia]).
Qed.

Lemma within_bump_attempts p : 0 < limit ->
  evolves (within limit period) (stmt (bump_usage (attempts_key p) 1 limit false (fun n => n <? limit))).
Proof.
  intros Hl. apply evolves_stmt; [apply _|]. intros t w. unfold stmt_effect.
  destruct (bump_usage _ _ _ _ _ t (w_db w)) as [[n d']|e] eqn:Hb; [|by apply within_other].
  split; [done|]. simpl. by eapply bump_attempts in Hb as [? _].
Qed.
#[local] Hint Resolve within_bump_sent : evolve.

Lemma within_GetOutbound id : evolves (within limit period) (GetOutbound id).
Proof. unfold GetOutbound. go_evolve. Qed.
Lemma within_GetOutboundByKey key : evolves (within limit period) (GetOutboundByIdempotencyKey key).
Proof. unfold GetOutboundByIdempotencyKey. go_evolve. Qed.
Lemma within_Mark id status err at_ : evolves (within limit period) (MarkOutboundStatus id status err at_).
Proof. unfold MarkOutboundStatus. go_evolve. by apply within_dml. Qed.
Lemma within_Purge id jobID : evolves (within limit period) (PurgeOutboundAndJob id jobID).
Proof. unfold PurgeOutboundAndJob. go_evolve; by apply within_dml. Qed.
Lemma within_DeleteQueueJob jobID : evolves (within limit period) (DeleteQueueJob jobID).
Proof. unfold DeleteQueueJob. go_evolve; by apply within_dml. Qed.
Lemma within_Complete id jobID p l ref : evolves (within limit period) (CompleteOutboundSend id jobID p l ref).
Proof. unfold CompleteOutboundSend. go_evolve; by apply within_dml. Qed.
Lemma within_Begin id p : 0 < limit -> evolves (within limit period) (BeginOutboundAttempt id p limit).
Proof.
  intros Hl. unfold BeginOutboundAttempt. rewrite (proj2 (Z.ltb_lt 0 limit)) by done.
  go_evolve; try (by apply within_dml); by apply within_bump_attempts.
Qed.
Lemma within_EnqueueOutbound rec : evolves (within limit period) (EnqueueOutbound rec).
Proof.
  unfold EnqueueOutbound. go_evolve. apply evolves_stmt; [apply _|]. intros t w.
  unfold stmt_effect, insert_outbound. repeat case_match; simplify_eq; by apply within_other.
Qed.

(** An allowed attempt was paid for. *)
Lemma Begin_allowed_used id w rec count w' : 0 < limit ->
  BeginOutboundAttempt id period limit w = (Ok (rec, true, count), w') ->
  used period (w_db w') = used period (w_db w) + 1.
Proof.
  intros Hl Hb. unfold BeginOutboundAttempt in Hb. cbv zeta in Hb.
  apply in_tx_Ok in Hb as (w1 & Hb & ->). inv_runs. simpl in *.
  destruct (db_outbound (w_db w) !! id) as [o|] eqn:Ho; [|done].
  case_bool_decide as Hq; simpl in Hb; [|by inv_runs].
  rewrite (proj2 (Z.ltb_lt 0 limit)) in Hb by done. apply bind_Ok in Hb as (slot & w2 & Hs & Hb).
  apply wrap_err_Ok, stmt_Ok in Hs as (d & Hs & ->). simpl in *.
  apply (bump_attempts period) in Hs as [_ Hs]; [|done].
  destruct slot as [n|]; [|apply bind_Ok in Hb as ([c|] & w3 & _ & Hb); inv_runs; done].
  apply bind_Ok in Hb as ([rec'|] & w3 & Hu & Hb); [|done]. inv_runs. apply dml_Ok in Hu as [Hu _].
  unfold update_outbound_returning in Hu. injection Hu as _ Hdb. simpl in *.
  unfold used in *. rewrite <- Hdb. simpl. by apply Hs.
Qed.
End within_ops.
