(* ===== verification/StoreInbound.v ===== *)
(** * Users and inbound messages

    internal/store/users.go and messages.go: accounts and their provider
    identities, and the webhook idempotency anchor with its processing lease. *)
From S2P Require Import Prelude GoStrings Domain Db.

(** ** Users (users.go) *)
Section users.
Context `{Env}.

(** The schema's defaults. *)
Definition new_user (now : Time) (id : uuid) : User :=
  mkUser id UserPending "Asia/Ho_Chi_Minh" "VND" "vi-VN" "" None now now None.
Definition insert_user (id : uuid) : Stmt unit := fun now d =>
  match insert_row id (new_user now id) (fun _ => false) (db_users d) with
  | Ok m => Ok (tt, upd_users (fun _ => m) d)
  | Fail e => Fail e
  end.

(** [CreateUser] *)
Definition CreateUser (id : uuid) : Go unit :=
  wrap_err (internalErr "CreateUser") (stmt (insert_user id)).

(** [GetUser] *)
Definition GetUser (id : uuid) : Go User :=
  let* row := wrap_err (internalErr "GetUser") (query (fun d => db_users d !! id)) in
  match row with
  | None => fail (notFound "GetUser" "user")
  | Some u => ret u
  end.

Definition same_identity (provider subject scope : string) (i : UserIdentity) : bool :=
  String.eqb (ident_provider i) provider && String.eqb (ident_subject i) subject &&
  String.eqb (ident_scope i) scope.

(** [GetUserByIdentity] *)
Definition user_by_identity (provider subject scope : string) (d : DB) : option User :=
  head (omap (fun i => db_users d !! ident_user i)
          (select (same_identity provider subject scope) (db_idents d))).
Definition GetUserByIdentity (provider subject scope : string) : Go User :=
  let* row := wrap_err (internalErr "GetUserByIdentity") (query (user_by_identity provider subject scope)) in
  match row with
  | None => fail (notFound "GetUserByIdentity" "identity")
  | Some u => ret u
  end.

Definition update_user (id : uuid) (cond : User -> bool) (f : User -> User) (d : DB) : Z * DB :=
  let r := update_row id cond f (db_users d) in (r.1, upd_users (fun _ => r.2) d).

(** [UpdateUserPreferences] *)
Definition UpdateUserPreferences (userID : uuid) (timezone currency : string) : Go unit :=
  let timezone := TrimSpace timezone in
  let currency := ToUpper (TrimSpace currency) in
  if String.eqb timezone "" || String.eqb currency "" then
    fail (E CodeValidation "store.UpdateUserPreferences: timezone and currency are required" None)
  else
    let* n := wrap_err (internalErr "UpdateUserPreferences") (dml (fun now =>
        update_user userID (fun u => negb (bool_decide (usr_status u = UserDeleted))) (fun u =>
          mkUser (usr_id u) (usr_status u) timezone currency (usr_locale u) (usr_consent_version u)
            (usr_consented_at u) (usr_created_at u) now (usr_deleted_at u)))) in
    if n =? 0 then fail (notFound "UpdateUserPreferences" "active user") else ret tt.

Definition insert_identity (ident : UserIdentity) : Stmt unit := fun now d =>
  match insert_row (ident_id ident)
          (mkIdentity (ident_id ident) (ident_user ident) (ident_provider ident)
             (ident_subject ident) (ident_scope ident) now now)
          (same_identity (ident_provider ident) (ident_subject ident) (ident_scope ident))
          (db_idents d) with
  | Ok m => if bool_decide (db_users d !! ident_user ident = None) then Fail foreign_key_violation
            else Ok (tt, upd_idents (fun _ => m) d)
  | Fail e => Fail e
  end.

(** [CreateIdentity] *)
Definition CreateIdentity (userID : uuid) (provider subject scope : string) : Go UserIdentity :=
  let* id := uuid_New in
  let* res := attempt (stmt (fun now d =>
      match insert_identity (mkIdentity id userID provider subject scope now now) now d with
      | Ok (_, d') => Ok (mkIdentity id userID provider subject scope now now, d')
      | Fail e => Fail e
      end)) in
  match res with
  | Ok ident => ret ident
  | Fail err =>
      if is_pg "23505" err then fail (E CodeConflict "store.CreateIdentity: identity exists" None)
      else fail (internalErr "CreateIdentity" err)
  end.

(** [CreateUserWithIdentity] *)
Definition CreateUserWithIdentity (userID : uuid) (provider subject scope : string) : Go User :=
  WithTx (
    wrap_err (internalErr "CreateUserWithIdentity") (stmt (insert_user userID)) ;;;
    let* id := uuid_New in
    let* res := attempt (stmt (insert_identity (mkIdentity id userID provider subject scope 0 0))) in
    match res with
    | Ok _ => ret tt
    | Fail err =>
        if is_pg "23505" err then fail (E CodeConflict "store.CreateUserWithIdentity: identity exists" None)
        else fail (internalErr "CreateUserWithIdentity" err)
    end) ;;;
  GetUser userID.

(** [TouchIdentityLastSeen] *)
Definition TouchIdentityLastSeen (provider subject scope : string) : Go unit :=
  let* n := wrap_err (internalErr "TouchIdentityLastSeen") (dml (fun now d =>
      let r := update_where (same_identity provider subject scope) (fun i =>
                 mkIdentity (ident_id i) (ident_user i) (ident_provider i) (ident_subject i)
                   (ident_scope i) (ident_created_at i) now) (db_idents d) in
      (r.1, upd_idents (fun _ => r.2) d))) in
  if n =? 0 then fail (notFound "TouchIdentityLastSeen" "identity") else ret tt.

(** [SetConsent] *)
Definition SetConsent (userID : uuid) (version : string) (at_ : Time) : Go unit :=
  let* n := wrap_err (internalErr "SetConsent") (dml (fun now =>
      update_user userID (fun u => bool_decide (usr_status u = UserPending)) (fun u =>
        mkUser (usr_id u) UserActive (usr_timezone u) (usr_default_currency u) (usr_locale u) version
          (Some at_) (usr_created_at u) now (usr_deleted_at u)))) in
  if n =? 0 then fail (E CodeConflict "store.SetConsent: user not pending" None) else ret tt.

(** [SetUserStatus] *)
Definition SetUserStatus (userID : uuid) (status : UserStatus) : Go unit :=
  let* n := wrap_err (internalErr "SetUserStatus") (dml (fun now =>
      update_user userID (fun _ => true) (fun u =>
        mkUser (usr_id u) status (usr_timezone u) (usr_default_currency u) (usr_locale u)
          (usr_consent_version u) (usr_consented_at u) (usr_created_at u) now
          (if bool_decide (status = UserDeleted) then Some now else usr_deleted_at u)))) in
  if n =? 0 then fail (notFound "SetUserStatus" "user") else ret tt.
End users.

(** ** Provider messages (messages.go) *)
Section messages.
Context `{Env}.

Definition dquote : string := String (of_byte 34) "".
Definition redacted_payload : string := "{" ++ dquote ++ "redacted" ++ dquote ++ ":true}".

Definition set_pm (user : option uuid) (raw : string) (started processed : option Time)
    (status : MessageStatus) (pm : ProviderMessage) : ProviderMessage :=
  mkPM (pm_id pm) (pm_provider pm) (pm_chat pm) (pm_message pm) user (pm_event_type pm) (pm_hash pm)
    raw (pm_received_at pm) started processed (pm_delete_after pm) status.

Definition same_message (pm x : ProviderMessage) : bool :=
  String.eqb (pm_provider x) (pm_provider pm) && String.eqb (pm_chat x) (pm_chat pm) &&
  String.eqb (pm_message x) (pm_message pm).

Definition update_msg (id : uuid) (cond : ProviderMessage -> bool)
    (f : ProviderMessage -> ProviderMessage) (d : DB) : Z * DB :=
  let r := update_row id cond f (db_msgs d) in (r.1, upd_msgs (fun _ => r.2) d).

Definition insert_msg (pm : ProviderMessage) : Stmt unit := fun _ d =>
  if match pm_user pm with
     | Some u => bool_decide (db_users d !! u = None)
     | None => false
     end then Fail foreign_key_violation
  else match insert_row (pm_id pm) pm (same_message pm) (db_msgs d) with
       | Ok m => Ok (tt, upd_msgs (fun _ => m) d)
       | Fail e => Fail e
       end.

Definition redact_row (id : uuid) (d : DB) : Z * DB :=
  update_msg id (fun _ => true) (fun x =>
    set_pm (pm_user x) redacted_payload (pm_started_at x) (pm_processed_at x) (pm_status x) x) d.

(** [ClaimProviderMessageOpts]; the caller's [pm] after the call is returned with
    the verdict (on an error no caller looks at it). *)
Definition ClaimProviderMessageOpts (pm : ProviderMessage) (claimLease : Z) (redact : bool) :
    Go (bool * ProviderMessage) :=
  let ierr := internalErr "ClaimProviderMessage" in
  if claimLease <=? 0 then
    fail (E CodeValidation "store.ClaimProviderMessage: claim lease must be positive" None)
  else
    let status := if bool_decide (pm_status pm = MessageUnset) then MessageReceived else pm_status pm in
    let* now := time_Now in
    in_tx ierr ierr (
      let* row := wrap_err ierr (query (fun d => head (select (same_message pm) (db_msgs d)))) in
      match row with
      | None =>
          wrap_err ierr (stmt (insert_msg
            (mkPM (pm_id pm) (pm_provider pm) (pm_chat pm) (pm_message pm) (pm_user pm)
               (pm_event_type pm) (pm_hash pm) (pm_raw pm) (pm_received_at pm) (Some now) None None
               status))) ;;;
          (if redact then wrap_err ierr (dml (fun _ => redact_row (pm_id pm))) ;;; ret tt else ret tt) ;;;
          ret (true, set_pm (pm_user pm) (if redact then redacted_payload else pm_raw pm)
                       (Some now) (pm_processed_at pm) (pm_status pm) pm)
      | Some existing =>
          let pm' := mkPM (pm_id existing) (pm_provider pm) (pm_chat pm) (pm_message pm)
                       (pm_user existing) (pm_event_type pm) (pm_hash pm) (pm_raw pm)
                       (pm_received_at pm) (pm_started_at existing) (pm_processed_at existing)
                       (pm_delete_after pm) (pm_status existing) in
          if negb (String.eqb (pm_hash existing) "") && negb (String.eqb (pm_hash pm) "") &&
             negb (String.eqb (pm_hash existing) (pm_hash pm)) then
            fail (E CodeValidation "store.ClaimProviderMessage: payload changed for provider message ID" None)
          else
            let reclaim :=
              wrap_err ierr (dml (fun _ => update_msg (pm_id existing) (fun _ => true) (fun x =>
                set_pm (pm_user x) (if redact then redacted_payload else pm_raw x) (Some now) None
                  MessageReceived x))) ;;;
              ret (true, set_pm (pm_user pm') (if redact then redacted_payload else pm_raw pm')
                           (Some now) None MessageReceived pm') in
            match pm_status existing with
            | MessageProcessed | MessageDuplicate => ret (false, pm')
            | MessageReceived =>
                match pm_started_at existing with
                | Some started =>
                    if now - claimLease <? started then
                      fail (E CodeConflict "store.ClaimProviderMessage: message is already being processed" None)
                    else reclaim
                | None => reclaim
                end
            | MessageFailed => reclaim
            | MessageUnset =>
                fail (E CodeValidation ("store.ClaimProviderMessage: unsupported status " ++ dquote ++ dquote) None)
            end
      end).

(** [SetProviderMessageUser] *)
Definition SetProviderMessageUser (id userID : uuid) : Go unit :=
  let* n := wrap_err (internalErr "SetProviderMessageUser") (stmt (fun _ d =>
      let r := update_msg id (fun x => bool_decide (pm_user x = None) || bool_decide (pm_user x = Some userID))
                 (fun x => set_pm (Some userID) (pm_raw x) (pm_started_at x) (pm_processed_at x) (pm_status x) x) d in
      if (r.1 =? 1) && bool_decide (db_users d !! userID = None) then Fail foreign_key_violation
      else Ok r)) in
  if n =? 0 then fail (E CodeConflict "store.SetProviderMessageUser: message belongs to another user" None)
  else ret tt.

(** [RedactProviderMessageRaw] *)
Definition RedactProviderMessageRaw (id : uuid) : Go unit :=
  let* n := wrap_err (internalErr "RedactProviderMessageRaw") (dml (fun _ => redact_row id)) in
  if n =? 0 then fail (notFound "RedactProviderMessageRaw" "provider message") else ret tt.

(** [MarkProviderMessage] *)
Definition MarkProviderMessage (id : uuid) (status : MessageStatus) : Go unit :=
  let* n := wrap_err (internalErr "MarkProviderMessage") (dml (fun now =>
      update_msg id (fun _ => true) (fun x =>
        set_pm (pm_user x) (pm_raw x) None
          (if bool_decide (status = MessageProcessed) then Some now else pm_processed_at x) status x))) in
  if n =? 0 then fail (notFound "MarkProviderMessage" "provider_message") else ret tt.

(** [GetProviderMessage] *)
Definition GetProviderMessage (id : uuid) : Go ProviderMessage :=
  let* row := wrap_err (internalErr "GetProviderMessage") (query (fun d => db_msgs d !! id)) in
  match row with
  | None => fail (notFound "GetProviderMessage" "provider message")
  | Some pm => ret pm
  end.

(** [DeleteExpiredProviderMessageTombstones]; a message that a receipt or a
    transaction still references cannot be deleted. *)
Definition expired_tombstone (now : Time) (pm : ProviderMessage) : bool :=
  match pm_delete_after pm with Some t => t <=? now | None => false end.
Definition msg_referenced (d : DB) (id : uuid) : bool :=
  existsb (fun r => bool_decide (rc_message r = Some id)) (rows (db_receipts d)) ||
  existsb (fun t => bool_decide (tx_provider_message t = Some id)) (rows (db_txs d)).
Definition delete_msgs (p : ProviderMessage -> bool) : Stmt Z := fun _ d =>
  if existsb (fun pm => p pm && msg_referenced d (pm_id pm)) (rows (db_msgs d))
  then Fail foreign_key_violation
  else let r := delete_where p (db_msgs d) in Ok (r.1, upd_msgs (fun _ => r.2) d).
Definition DeleteExpiredProviderMessageTombstones (now : Time) : Go Z :=
  wrap_err (internalErr "DeleteExpiredProviderMessageTombstones") (stmt (delete_msgs (expired_tombstone now))).
End messages.

(** ** The claim protocol *)

(** Rows are stored under their id, and (provider, chat, message) is unique. *)
Definition msgs_ok (d : DB) : Prop :=
  (forall id x, db_msgs d !! id = Some x -> pm_id x = id) /\
  (forall i1 i2 x1 x2, db_msgs d !! i1 = Some x1 -> db_msgs d !! i2 = Some x2 ->
     same_message x1 x2 = true -> i1 = i2).

Lemma same_message_iff a b :
  same_message a b = true <->
  pm_provider b = pm_provider a /\ pm_chat b = pm_chat a /\ pm_message b = pm_message a.
Proof. unfold same_message. rewrite !andb_true_iff, !String.eqb_eq. tauto. Qed.

Lemma lookup_message d pm id x :
  msgs_ok d -> db_msgs d !! id = Some x -> same_message pm x = true ->
  head (select (same_message pm) (db_msgs d)) = Some x.
Proof.
  intros [Hk Hu] Hx Hs.
  assert (x ∈ select (same_message pm) (db_msgs d)) as Hin by (apply elem_of_select; eauto).
  destruct (select (same_message pm) (db_msgs d)) as [|y l] eqn:Hsel; [by apply elem_of_nil in Hin|].
  assert (y ∈ select (same_message pm) (db_msgs d)) as Hy by (rewrite Hsel; constructor).
  apply elem_of_select in Hy as (Hys & i & Hi). simpl. f_equal.
  assert (i = id) as ->; [|congruence]. eapply Hu; eauto.
  apply same_message_iff in Hs, Hys. apply same_message_iff. intuition congruence.
Qed.

(** The lease or the completion that keeps a message from being handed out. *)
Definition busy (now : Time) (lease : Z) (x : ProviderMessage) : bool :=
  match pm_status x with
  | MessageProcessed | MessageDuplicate => true
  | MessageReceived => match pm_started_at x with Some s => now - lease <? s | None => false end
  | _ => false
  end.

Section claims.
Context `{Env}.

(** A message is handled by one attempt at a time, and never again once
    processed: while its row is processed or its lease runs, no claim succeeds,
    whatever faults strike, and the tables stay as they are. *)
Theorem claim_exclusive (pm x : ProviderMessage) (id : uuid) (lease : Z) (redact : bool) (w : World)
    (Hok : msgs_ok (w_db w)) (Hx : db_msgs (w_db w) !! id = Some x) (Hsame : same_message pm x = true)
    (Hbusy : busy (wall_now (w_tick w)) lease x = true) :
  let r := ClaimProviderMessageOpts pm lease redact w in
  w_db (snd r) = w_db w /\ forall pm', fst r <> Ok (true, pm').
Proof.
  pose proof (lookup_message _ _ _ _ Hok Hx Hsame) as Hl.
  cbv zeta. unfold ClaimProviderMessageOpts, in_tx. destruct (lease <=? 0); [by split|].
  sql_unfold. destruct (fault (S (w_tick w))) as [f0|]; simpl; [by split|].
  destruct (fault (S (S (w_tick w)))) as [[e1 [|]]|]; simpl; [by split..|].
  rewrite Hl. simpl. destruct (_ && _); simpl; [by split|].
  unfold busy in Hbusy. destruct (pm_status x); simpl; try done.
  - destruct (pm_started_at x) as [s|]; [|done]. rewrite Hbusy. by split.
  - destruct (fault _) as [[e2 [|]]|]; by split.
  - destruct (fault _) as [[e2 [|]]|]; by split.
Qed.

(** A failed or abandoned attempt is recovered: when the stored row is
    neither processed nor leased and the payload is the same, a claim without
    driver errors succeeds, keeps the original row id, and leaves the row
    received with a lease that starts now. *)
Theorem claim_recovers (pm x : ProviderMessage) (id : uuid) (lease : Z) (redact : bool) (w : World)
    (Hok : msgs_ok (w_db w)) (Hx : db_msgs (w_db w) !! id = Some x) (Hsame : same_message pm x = true)
    (Hfree : busy (wall_now (w_tick w)) lease x = false) (Hst : pm_status x <> MessageUnset)
    (Hhash : pm_hash x = pm_hash pm) (Hlease : 0 < lease) (Hnf : forall n, fault n = None) :
  exists pm' x', ClaimProviderMessageOpts pm lease redact w =
      (Ok (true, pm'), snd (ClaimProviderMessageOpts pm lease redact w)) /\
    pm_id pm' = id /\ pm_status pm' = MessageReceived /\
    w_db (snd (ClaimProviderMessageOpts pm lease redact w)) = upd_msgs (<[id := x']>) (w_db w) /\
    pm_status x' = MessageReceived /\ pm_started_at x' = Some (wall_now (w_tick w)) /\
    pm_hash x' = pm_hash x /\ (redact = true -> pm_raw x' = redacted_payload).
Proof.
  pose proof (lookup_message _ _ _ _ Hok Hx Hsame) as Hl.
  assert (pm_id x = id) as Hid by (by apply Hok).
  unfold ClaimProviderMessageOpts, in_tx. rewrite (proj2 (Z.leb_gt lease 0)) by lia.
  sql_unfold. rewrite !Hnf. simpl. rewrite ?Hnf, Hl. simpl.
  rewrite Hhash, String.eqb_refl, andb_false_r.
  unfold busy in Hfree. unfold update_msg, update_row. rewrite ?Hid, ?Hx.
  destruct (pm_status x); simpl; try done.
  - destruct (pm_started_at x) as [s|]; [rewrite Hfree|]; simpl; rewrite ?Hnf; simpl; rewrite ?Hid, ?Hx; simpl;
      rewrite ?Hnf; do 2 eexists; split_and!; try done; by intros ->.
  - rewrite ?Hnf; simpl; rewrite ?Hid, ?Hx; simpl;
      rewrite ?Hnf; do 2 eexists; split_and!; try done; by intros ->.
Qed.
End claims.

(** ** Witnesses *)
Module InboundDemo.
Definition msg (status : MessageStatus) (started : option Time) : ProviderMessage :=
  mkPM 5 "zalo_bot" "chat" "m1" None "message.text.received" "h" "{}" 0 started None None status.
Definition db (status : MessageStatus) (started : option Time) : DB :=
  upd_msgs (fun _ => {[ 5%N := msg status started ]}) empty_db.
Definition env (now : Time) : Env := demo_env no_faults (fun _ => now).
Definition incoming : ProviderMessage :=
  mkPM 9 "zalo_bot" "chat" "m1" None "message.text.received" "h" "{}" 0 None None None MessageUnset.

Lemma inbound_db_ok status started : msgs_ok (db status started).
Proof.
  split; [intros id x|intros i1 i2 x1 x2]; simpl; rewrite lookup_singleton_Some.
  - intros [<- <-]. reflexivity.
  - rewrite lookup_singleton_Some. intros [<- _] [<- _]. reflexivity.
Qed.

Lemma claim_exclusive_witness :
  w_db (snd (@ClaimProviderMessageOpts (env (60 * Second)) incoming (2 * Minute) false
               (world_of (db MessageReceived (Some 0))))) = db MessageReceived (Some 0).
Proof.
  refine (proj1 (@claim_exclusive (env (60 * Second)) incoming (msg MessageReceived (Some 0)) 5%N
    (2 * Minute) false (world_of (db MessageReceived (Some 0))) (inbound_db_ok _ _) eq_refl eq_refl eq_refl)).
Defined.

Lemma claim_recovers_witness :
  exists pm', fst (@ClaimProviderMessageOpts (env (600 * Second)) incoming (2 * Minute) true
               (world_of (db MessageReceived (Some 0)))) = Ok (true, pm') /\ pm_id pm' = 5%N.
Proof.
  destruct (@claim_recovers (env (600 * Second)) incoming (msg MessageReceived (Some 0)) 5%N
    (2 * Minute) true (world_of (db MessageReceived (Some 0))) (inbound_db_ok _ _) eq_refl eq_refl eq_refl
    ltac:(discriminate) eq_refl ltac:(reflexivity) ltac:(reflexivity)) as (pm' & x' & He & Hid & _).
  exists pm'. rewrite He. split; [reflexivity|exact Hid].
Defined.
End InboundDemo.
