(* ===== verification/StoreReceipts.v ===== *)
(** * Receipts

    internal/store/receipts.go: receipt rows, their status transitions and the
    processing-attempt log, one definition per method. *)
From S2P Require Import Prelude GoStrings Domain Db.

Section receipts.
Context `{Env}.

Definition set_receipt (key sha ctype : string) (size : Z) (status : ReceiptStatus) (updated : Time)
    (deleted : option Time) (r : ReceiptDocument) : ReceiptDocument :=
  mkReceipt (rc_id r) (rc_user r) (rc_message r) key (rc_source_url_hash r) ctype size sha
    (rc_perceptual_hash r) status (rc_retention r) (rc_delete_after r) (rc_created_at r) updated deleted.

(** The row an INSERT writes: the struct with its defaults filled in. *)
Definition receipt_row (now : Time) (r : ReceiptDocument) : ReceiptDocument :=
  mkReceipt (rc_id r) (rc_user r) (rc_message r) (rc_storage_key r) (rc_source_url_hash r)
    (rc_content_type r) (rc_byte_size r) (rc_sha256 r) (rc_perceptual_hash r)
    (if bool_decide (rc_status r = ReceiptUnset) then ReceiptReceived else rc_status r)
    (if String.eqb (rc_retention r) "" then "originals_30d" else rc_retention r)
    (rc_delete_after r) now now None.
Definition same_provider_message (r x : ReceiptDocument) : bool :=
  bool_decide (rc_message r <> None) && bool_decide (rc_message x = rc_message r).
Definition receipt_refs_ok (d : DB) (r : ReceiptDocument) : bool :=
  bool_decide (db_users d !! rc_user r <> None) &&
  match rc_message r with Some m => bool_decide (db_msgs d !! m <> None) | None => true end.
Definition insert_receipt (r : ReceiptDocument) : Stmt unit := fun now d =>
  if negb (receipt_refs_ok d r) then Fail foreign_key_violation
  else match insert_row (rc_id r) (receipt_row now r) (same_provider_message r) (db_receipts d) with
       | Ok m => Ok (tt, upd_receipts (fun _ => m) d)
       | Fail e => Fail e
       end.

(** [CreateReceipt] *)
Definition CreateReceipt (r : ReceiptDocument) : Go unit :=
  wrap_err (internalErr "CreateReceipt") (stmt (insert_receipt r)).

(** [GetOrCreateReceiptForProviderMessage] *)
Definition by_message (m : uuid) (d : DB) : option ReceiptDocument :=
  head (select (fun x => bool_decide (rc_message x = Some m)) (db_receipts d)).
Definition GetOrCreateReceiptForProviderMessage (r : ReceiptDocument) : Go (ReceiptDocument * bool) :=
  let ierr := internalErr "GetOrCreateReceiptForProviderMessage" in
  match rc_message r with
  | None => fail (E CodeValidation "store.GetOrCreateReceiptForProviderMessage: provider message is required" None)
  | Some m =>
      let* n := wrap_err ierr (stmt (fun now d =>
          match by_message m d with
          | Some _ => Ok (0, d)
          | None => match insert_receipt r now d with Ok (_, d') => Ok (1, d') | Fail e => Fail e end
          end)) in
      let* row := wrap_err ierr (query (by_message m)) in
      match row with
      | None => fail (ierr (Sentinel "no rows in result set"))
      | Some stored =>
          if negb (bool_decide (rc_user stored = rc_user r)) then
            fail (E CodeConflict "store.GetOrCreateReceiptForProviderMessage: receipt belongs to another user" None)
          else ret (stored, n =? 1)
      end
  end.

(** [DeleteReceivedReceipt]; transactions, fields and attempts reference receipts. *)
Definition receipt_referenced (d : DB) (id : uuid) : bool :=
  existsb (fun t => bool_decide (tx_receipt t = Some id)) (rows (db_txs d)) ||
  existsb (fun f => bool_decide (ef_receipt f = id)) (rows (db_fields d)) ||
  existsb (fun k => bool_decide (k.1.1.1 = id)) (map_to_list (db_attempts d)).*1.
Definition DeleteReceivedReceipt (id : uuid) : Go unit :=
  wrap_err (internalErr "DeleteReceivedReceipt") (stmt (fun _ d =>
    match db_receipts d !! id with
    | Some r =>
        if bool_decide (rc_status r = ReceiptReceived) then
          if receipt_referenced d id then Fail foreign_key_violation
          else Ok (tt, upd_receipts (delete id) d)
        else Ok (tt, d)
    | None => Ok (tt, d)
    end)).

(** [GetReceipt] *)
Definition GetReceipt (id : uuid) : Go ReceiptDocument :=
  let* row := wrap_err (internalErr "GetReceipt") (query (fun d => db_receipts d !! id)) in
  match row with
  | None => fail (notFound "GetReceipt" "receipt")
  | Some r => ret r
  end.

Definition update_receipt (id : uuid) (cond : ReceiptDocument -> bool)
    (f : ReceiptDocument -> ReceiptDocument) (d : DB) : Z * DB :=
  let r := update_row id cond f (db_receipts d) in (r.1, upd_receipts (fun _ => r.2) d).

(** [TransitionReceipt] *)
Definition moved (now : Time) (to : ReceiptStatus) (r : ReceiptDocument) : ReceiptDocument :=
  set_receipt (rc_storage_key r) (rc_sha256 r) (rc_content_type r) (rc_byte_size r) to now
    (if bool_decide (to = ReceiptDeleted) then Some now else rc_deleted_at r) r.
Definition TransitionReceipt (id : uuid) (from to : ReceiptStatus) : Go unit :=
  if negb (receipt_CanTransition from to) then
    fail (E CodeValidation ("store.TransitionReceipt: illegal receipt transition " ++
            receipt_status_string from ++ " -> " ++ receipt_status_string to) None)
  else
    let* n := wrap_err (internalErr "TransitionReceipt") (dml (fun now =>
        update_receipt id (fun r => bool_decide (rc_status r = from)) (moved now to))) in
    if n =? 0 then
      fail (E CodeConflict ("store.TransitionReceipt: receipt not in status " ++ receipt_status_string from) None)
    else ret tt.

(** [SetReceiptStored] *)
Definition SetReceiptStored (id : uuid) (key sha256 contentType : string) (size : Z) : Go unit :=
  let* n := wrap_err (internalErr "SetReceiptStored") (dml (fun now =>
      update_receipt id (fun _ => true) (fun r =>
        set_receipt key sha256 contentType size (rc_status r) now (rc_deleted_at r) r))) in
  if n =? 0 then fail (notFound "SetReceiptStored" "receipt") else ret tt.

(** [FindReceiptByHash]: the newest of the user's live receipts with this hash. *)
Definition same_hash (userID : uuid) (sha256 : string) (r : ReceiptDocument) : bool :=
  bool_decide (rc_user r = userID) && String.eqb (rc_sha256 r) sha256 &&
  negb (String.eqb (rc_sha256 r) "") && bool_decide (rc_deleted_at r = None).
Definition newest_receipt (a b : ReceiptDocument) : bool := rc_created_at b <=? rc_created_at a.
Definition FindReceiptByHash (userID : uuid) (sha256 : string) : Go ReceiptDocument :=
  let* row := wrap_err (internalErr "FindReceiptByHash") (query (fun d =>
      argmin newest_receipt (select (same_hash userID sha256) (db_receipts d)))) in
  match row with
  | None => fail (notFound "FindReceiptByHash" "receipt")
  | Some r => ret r
  end.

(** [ListReceiptsPendingDeletion], ordered by delete_after with NULLs last. *)
Definition pending_deletion (now : Time) (r : ReceiptDocument) : bool :=
  (match rc_delete_after r with Some t => t <? now | None => false end &&
   bool_decide (rc_deleted_at r = None) &&
   (bool_decide (rc_status r = ReceiptConfirmed) || bool_decide (rc_status r = ReceiptFailedPermanent) ||
    bool_decide (rc_status r = ReceiptReviewRequired)))
  || (bool_decide (rc_deleted_at r <> None) && negb (String.eqb (rc_storage_key r) "")).
Definition due_before (a b : ReceiptDocument) : bool :=
  match rc_delete_after a, rc_delete_after b with
  | Some x, Some y => x <=? y
  | _, None => true
  | None, Some _ => false
  end.
Definition ListReceiptsPendingDeletion (now : Time) : Go (list ReceiptDocument) :=
  wrap_err (internalErr "ListReceiptsPendingDeletion") (query (fun d =>
    isort due_before (select (pending_deletion now) (db_receipts d)))).

(** [ClearReceiptStorageKey] *)
Definition ClearReceiptStorageKey (id : uuid) : Go unit :=
  let* n := wrap_err (internalErr "ClearReceiptStorageKey") (dml (fun now =>
      update_receipt id (fun _ => true) (fun r =>
        set_receipt "" (rc_sha256 r) (rc_content_type r) (rc_byte_size r) (rc_status r) now
          (rc_deleted_at r) r))) in
  if n =? 0 then fail (notFound "ClearReceiptStorageKey" "receipt") else ret tt.

(** [RecordAttempt] *)
Definition record_attempt (key : AttemptKey) (status : AttemptStatus) (errClass errCode : string) :
    Stmt unit := fun now d =>
  let completed := if bool_decide (status = AttemptStarted) then None else Some now in
  match db_attempts d !! key with
  | None =>
      if bool_decide (db_receipts d !! key.1.1.1 = None) then Fail foreign_key_violation
      else Ok (tt, upd_attempts (<[key := mkAttempt status now completed errClass errCode]>) d)
  | Some a =>
      if bool_decide (at_status a = AttemptStarted) && negb (bool_decide (status = AttemptStarted)) then
        Ok (tt, upd_attempts (<[key := mkAttempt status (at_started a) completed errClass errCode]>) d)
      else Ok (tt, d)
  end.
Definition RecordAttempt (receiptID : uuid) (processor version : string) (attempt : Z)
    (status : AttemptStatus) (errClass errCode : string) : Go unit :=
  wrap_err (internalErr "RecordAttempt")
    (stmt (record_attempt (receiptID, processor, version, attempt) status errClass errCode)).
End receipts.

(** ** Receipts under any sequence of operations

    Past registration a receipt stays in the table, keeps its owner, and its
    status moves along the state machine only. *)
Definition receipts_evolve (d d' : DB) : Prop :=
  forall id r, db_receipts d !! id = Some r -> rc_status r <> ReceiptReceived ->
    exists r', db_receipts d' !! id = Some r' /\ rc_user r' = rc_user r /\
      rtc receipt_step (rc_status r) (rc_status r').

Lemma receipt_step_not_received s t : receipt_step s t -> t <> ReceiptReceived.
Proof. unfold receipt_step. by destruct s, t. Qed.

Lemma rtc_not_received s t : rtc receipt_step s t -> s <> ReceiptReceived -> t <> ReceiptReceived.
Proof. induction 1; eauto using receipt_step_not_received. Qed.

#[global] Instance receipts_evolve_preorder : PreOrder receipts_evolve.
Proof.
  split.
  - intros d id r Hr _. exists r. auto using rtc_refl.
  - intros d1 d2 d3 H12 H23 id r1 Hr1 Hn1. destruct (H12 id r1 Hr1 Hn1) as (r2 & Hr2 & Hu2 & S12).
    destruct (H23 id r2 Hr2) as (r3 & Hr3 & Hu3 & S23); [by eapply rtc_not_received|].
    exists r3. split_and!; [done|congruence|by etrans].
Qed.

Lemma receipts_evolve_other d d' : db_receipts d' = db_receipts d -> receipts_evolve d d'.
Proof. intros He id r Hr _. rewrite He. exists r. auto using rtc_refl. Qed.

Lemma receipts_evolve_insert d id r :
  db_receipts d !! id = None -> receipts_evolve d (upd_receipts (<[id := r]>) d).
Proof.
  intros Hn i x Hx _. exists x. simpl. rewrite lookup_insert_ne by congruence. auto using rtc_refl.
Qed.

Lemma receipts_evolve_update id cond f d :
  (forall r, cond r = true -> rc_user (f r) = rc_user r /\ rtc receipt_step (rc_status r) (rc_status (f r))) ->
  receipts_evolve d (update_receipt id cond f d).2.
Proof.
  intros Hf i x Hx _. unfold update_receipt; simpl. rewrite update_row_lookup.
  case_bool_decide; [|eauto using rtc_refl]. rewrite Hx. simpl. eexists. split; [done|].
  destruct (cond x) eqn:Hc; [by apply Hf|auto using rtc_refl].
Qed.

Section receipt_ops.
Context `{Env}.

Lemma receipts_dml id cond f :
  (forall t r, cond r = true ->
     rc_user (f t r) = rc_user r /\ rtc receipt_step (rc_status r) (rc_status (f t r))) ->
  evolves (on_db receipts_evolve) (dml (fun t => update_receipt id cond (f t))).
Proof.
  intros Hf. apply evolves_dml; [apply _|]. intros t w. apply receipts_evolve_update. apply Hf.
Qed.

Lemma receipts_insert r : forall t d, receipts_evolve d (stmt_effect (insert_receipt r) t d).
Proof.
  intros t d. unfold stmt_effect, insert_receipt. destruct (negb _); [reflexivity|].
  destruct (insert_row _ _ _ _) as [m|e] eqn:Hi; [|reflexivity].
  apply insert_row_ok in Hi as (Hn & -> & _). by apply (receipts_evolve_insert d (rc_id r)).
Qed.

Lemma receipts_CreateReceipt r : evolves (on_db receipts_evolve) (CreateReceipt r).
Proof.
  unfold CreateReceipt. go_evolve. apply evolves_stmt; [apply _|]. intros t w. apply receipts_insert.
Qed.

Lemma receipts_GetOrCreate r : evolves (on_db receipts_evolve) (GetOrCreateReceiptForProviderMessage r).
Proof.
  unfold GetOrCreateReceiptForProviderMessage. go_evolve. apply evolves_stmt; [apply _|]. intros t w.
  unfold stmt_effect, on_db. destruct (by_message _ _); simpl; [reflexivity|].
  pose proof (receipts_insert r t (w_db w)) as Hi. unfold stmt_effect in Hi.
  destruct (insert_receipt r t (w_db w)) as [[[] d']|e]; simpl; [done|reflexivity].
Qed.

Lemma receipts_DeleteReceived id : evolves (on_db receipts_evolve) (DeleteReceivedReceipt id).
Proof.
  unfold DeleteReceivedReceipt. go_evolve. apply evolves_stmt; [apply _|]. intros t w.
  unfold stmt_effect, on_db. destruct (db_receipts (w_db w) !! id) as [r|] eqn:Hr; simpl; [|reflexivity].
  case_bool_decide as Hs; simpl; [|reflexivity]. destruct (receipt_referenced _ _); simpl; [reflexivity|].
  intros i x Hx Hn. exists x. simpl. rewrite lookup_delete_ne by (intros ->; simplify_eq).
  auto using rtc_refl.
Qed.

Lemma receipts_Transition id from to : evolves (on_db receipts_evolve) (TransitionReceipt id from to).
Proof.
  unfold TransitionReceipt. destruct (receipt_CanTransition from to) eqn:Hc; simpl; go_evolve.
  apply (receipts_dml id _ (fun now => moved now to)). intros t r Hr. apply bool_decide_eq_true in Hr.
  simpl. split; [done|]. rewrite Hr. by apply rtc_once.
Qed.

Lemma receipts_SetStored id key sha ctype size :
  evolves (on_db receipts_evolve) (SetReceiptStored id key sha ctype size).
Proof.
  unfold SetReceiptStored. go_evolve. apply (receipts_dml id _ (fun now r =>
    set_receipt key sha ctype size (rc_status r) now (rc_deleted_at r) r)). simpl. auto using rtc_refl.
Qed.

Lemma receipts_ClearKey id : evolves (on_db receipts_evolve) (ClearReceiptStorageKey id).
Proof.
  unfold ClearReceiptStorageKey. go_evolve. apply (receipts_dml id _ (fun now r =>
    set_receipt "" (rc_sha256 r) (rc_content_type r) (rc_byte_size r) (rc_status r) now (rc_deleted_at r) r)).
  simpl. auto using rtc_refl.
Qed.

Lemma record_attempt_tables key status c e t d :
  exists m, stmt_effect (record_attempt key status c e) t d = upd_attempts (fun _ => m) d.
Proof.
  assert (d = upd_attempts (fun _ => db_attempts d) d) as Hd by (by destruct d).
  unfold stmt_effect, record_attempt. cbv zeta.
  destruct (db_attempts d !! key) as [a|]; [destruct (_ && _)|case_bool_decide]; try (eexists; exact Hd);
    by eexists.
Qed.

Lemma receipts_RecordAttempt id p v n status c e :
  evolves (on_db receipts_evolve) (RecordAttempt id p v n status c e).
Proof.
  unfold RecordAttempt. go_evolve. apply evolves_stmt; [apply _|]. intros t w.
  destruct (record_attempt_tables (id, p, v, n) status c e t (w_db w)) as [m ->].
  by apply receipts_evolve_other.
Qed.

Lemma receipts_reads :
  (forall id, evolves (on_db receipts_evolve) (GetReceipt id)) /\
  (forall u h, evolves (on_db receipts_evolve) (FindReceiptByHash u h)) /\
  (forall t, evolves (on_db receipts_evolve) (ListReceiptsPendingDeletion t)).
Proof.
  split_and!; intros; unfold GetReceipt, FindReceiptByHash, ListReceiptsPendingDeletion; go_evolve.
Qed.

(** Evidence of a finished attempt is final: once an attempt row is
    succeeded or failed, no later [RecordAttempt] for it, in any order and under
    any faults, changes its outcome, time or error class. *)
Theorem attempt_outcome_final (id : uuid) (p v : string) (n : Z) (a : Attempt)
    (writes : list (AttemptStatus * string * string)) (w : World)
    (Ha : db_attempts (w_db w) !! (id, p, v, n) = Some a) (Hdone : at_status a <> AttemptStarted) :
  db_attempts (w_db (snd (for_each writes (fun _ s => ignore (RecordAttempt id p v n s.1.1 s.1.2 s.2)) tt w)))
    !! (id, p, v, n) = Some a.
Proof.
  assert (forall s c e (w0 : World), db_attempts (w_db w0) !! (id, p, v, n) = Some a ->
    db_attempts (w_db (snd (RecordAttempt id p v n s c e w0))) !! (id, p, v, n) = Some a) as Hstep.
  { intros s c e w0 H0. unfold RecordAttempt, record_attempt. sql_unfold. rewrite H0.
    rewrite bool_decide_eq_false_2 by done. simpl.
    destruct (fault _) as [[? [|]]|]; simpl; rewrite ?H0; done. }
  revert w Ha. induction writes as [|s writes IH]; intros w Ha; simpl; [done|].
  unfold bind, ignore; simpl. apply IH. by apply Hstep.
Qed.
End receipt_ops.

(** ** Witness *)
Module ReceiptDemo.
Definition env : Env := demo_env no_faults (fun n => Z.of_nat n).
Definition done_attempt : Attempt := mkAttempt AttemptFailed 0 (Some 5) "permanent" "quota".
Definition key : AttemptKey := (3%N, "mock-corpus", "v1", 1).
Definition db : DB := upd_attempts (fun _ => {[ key := done_attempt ]}) empty_db.

Lemma attempt_outcome_final_witness :
  db_attempts (w_db (snd (for_each [(AttemptStarted, "", ""); (AttemptSucceeded, "", "")]
    (fun _ s => ignore (@RecordAttempt env 3 "mock-corpus" "v1" 1 s.1.1 s.1.2 s.2)) tt (world_of db)))) !! key
  = Some done_attempt.
Proof.
  refine (@attempt_outcome_final env 3 "mock-corpus" "v1" 1 done_attempt _ (world_of db) _ _);
    [vm_compute; reflexivity|discriminate].
Defined.
End ReceiptDemo.
