(* ===== verification/StoreTx.v ===== *)
(** * Transactions and pending actions

    internal/store/transactions.go and pending.go: ledger rows with optimistic
    versions, the atomic review and manual-entry units of work, corrections, and
    the one-slot chat state per user. *)
From Stdlib Require Import SpecFloat.
From S2P Require Import Prelude GoStrings Domain Db.

Section tx_schema.

(** ** The schema's constraints on a ledger row *)
Definition active (t : Transaction) : bool :=
  bool_decide (tx_deleted_at t = None) && negb (bool_decide (tx_status t = TxDeleted)).
(** The partial unique indexes idx_tx_receipt_active and idx_tx_manual_provider_message. *)
Definition tx_clash (t x : Transaction) : bool :=
  negb (bool_decide (tx_id x = tx_id t)) && active t && active x &&
  ((bool_decide (tx_receipt t <> None) && bool_decide (tx_receipt x = tx_receipt t)) ||
   (bool_decide (tx_provider_message t <> None) && bool_decide (tx_provider_message x = tx_provider_message t))).
Definition ref_ok {A} (m : gmap uuid A) (r : option uuid) : bool :=
  match r with Some k => bool_decide (m !! k <> None) | None => true end.
Definition tx_refs_ok (d : DB) (t : Transaction) : bool :=
  bool_decide (db_users d !! tx_user t <> None) && ref_ok (db_receipts d) (tx_receipt t) &&
  ref_ok (db_merchants d) (tx_merchant t) && ref_ok (db_categories d) (tx_category t) &&
  ref_ok (db_msgs d) (tx_provider_message t).
Definition tx_checks_ok (t : Transaction) : bool :=
  (0 <=? tx_amount t) && negb (bool_decide (tx_type t = TxTypeUnset)).

(** Writes the row under its id, or reports the first violated constraint. *)
Definition write_tx (t : Transaction) (d : DB) : Res DriverErr DB :=
  if negb (tx_checks_ok t) then Fail check_violation
  else if existsb (tx_clash t) (rows (db_txs d)) then Fail unique_violation
  else if negb (tx_refs_ok d t) then Fail foreign_key_violation
  else Ok (upd_txs (<[tx_id t := t]>) d).
Definition insert_tx (t : Transaction) : Stmt unit := fun now d =>
  if bool_decide (db_txs d !! tx_id t <> None) then Fail unique_violation
  else
    let row := mkTx (tx_id t) (tx_user t) (tx_receipt t) (tx_account t) (tx_type t) (tx_merchant t)
                 (tx_merchant_name t) (tx_description t) (tx_amount t) (tx_currency t) (tx_occurred_at t)
                 (tx_category t) (tx_status t) (tx_source t) (tx_confidence t) (tx_confirmed_at t)
                 (tx_version t) now now None (tx_provider_message t) in
    match write_tx row d with Ok d' => Ok (tt, d') | Fail e => Fail e end.
(** UPDATE ... WHERE id = k AND cond: the count of changed rows. *)
Definition update_tx (id : uuid) (cond : Transaction -> bool) (f : Transaction -> Transaction) :
    DB -> Res DriverErr (Z * DB) := fun d =>
  match db_txs d !! id with
  | Some t => if cond t
              then match write_tx (f t) d with Ok d' => Ok (1, d') | Fail e => Fail e end
              else Ok (0, d)
  | None => Ok (0, d)
  end.
Definition newest_tx (a b : Transaction) : bool :=
  (tx_occurred_at b <? tx_occurred_at a) ||
  ((tx_occurred_at b =? tx_occurred_at a) && (tx_created_at b <=? tx_created_at a)).
Definition latest_created (a b : Transaction) : bool := tx_created_at b <=? tx_created_at a.
Definition recorded (userID : uuid) (t : Transaction) : bool :=
  bool_decide (tx_user t = userID) && bool_decide (tx_deleted_at t = None) &&
  CountsTowardInsights (tx_status t).
End tx_schema.

Section transactions.
Context `{Env}.

(** [CreateTransaction] *)
Definition CreateTransaction (t : Transaction) : Go unit :=
  let* res := attempt (stmt (insert_tx t)) in
  match res with
  | Ok _ => ret tt
  | Fail err =>
      if is_pg "23505" err then fail (E CodeConflict "store.CreateTransaction: duplicate" None)
      else fail (internalErr "CreateTransaction" err)
  end.

(** [GetActiveTransactionByReceipt] *)
Definition active_for_receipt (receiptID : uuid) (d : DB) : option Transaction :=
  argmin latest_created (select (fun t => bool_decide (tx_receipt t = Some receiptID) && active t) (db_txs d)).
Definition GetActiveTransactionByReceipt (receiptID : uuid) : Go Transaction :=
  let* row := wrap_err (internalErr "GetActiveTransactionByReceipt") (query (active_for_receipt receiptID)) in
  match row with
  | None => fail (notFound "GetActiveTransactionByReceipt" "transaction")
  | Some t => ret t
  end.

(** ** Shared pieces of the units of work *)
Definition set_tx_identity (id : uuid) (version : Z) (t : Transaction) : Transaction :=
  mkTx id (tx_user t) (tx_receipt t) (tx_account t) (tx_type t) (tx_merchant t) (tx_merchant_name t)
    (tx_description t) (tx_amount t) (tx_currency t) (tx_occurred_at t) (tx_category t) (tx_status t)
    (tx_source t) (tx_confidence t) (tx_confirmed_at t) version (tx_created_at t) (tx_updated_at t)
    (tx_deleted_at t) (tx_provider_message t).

Definition or_new (id : uuid) : Go uuid := if bool_decide (id = uuid_nil) then uuid_New else ret id.
Definition or_empty_json (s : string) : string := if String.eqb s "" then "{}" else s.

Definition float_zero : float64 := S754_zero false.
Definition float_one : float64 := S754_finite false 4503599627370496 (-52).
Definition confidence_ok (c : float64) : bool := SFleb float_zero c && SFleb c float_one.

Definition insert_field (f : ExtractedField) : Stmt unit := fun now d =>
  if negb (confidence_ok (ef_confidence f)) then Fail check_violation
  else match insert_row (ef_id f)
               (mkField (ef_id f) (ef_receipt f) (ef_name f) (ef_raw f) (ef_normalised f) (ef_confidence f)
                  (if String.eqb (ef_source f) "" then "extractor" else ef_source f)
                  (or_empty_json (ef_evidence f)) (ef_extractor f) (ef_version f) now)
               (fun _ => false) (db_fields d) with
       | Ok m => if bool_decide (db_receipts d !! ef_receipt f = None) then Fail foreign_key_violation
                 else Ok (tt, upd_fields (fun _ => m) d)
       | Fail e => Fail e
       end.
Definition set_field_id (id : uuid) (f : ExtractedField) : ExtractedField :=
  mkField id (ef_receipt f) (ef_name f) (ef_raw f) (ef_normalised f) (ef_confidence f) (ef_source f)
    (ef_evidence f) (ef_extractor f) (ef_version f) (ef_created_at f).

Definition insert_prediction (p : Prediction) : Stmt unit := fun now d =>
  if negb (confidence_ok (pr_confidence p)) then Fail check_violation
  else match insert_row (pr_id p)
               (mkPrediction (pr_id p) (pr_tx p) (pr_type p) (pr_value p) (pr_confidence p) (pr_model p)
                  (pr_version p) (or_empty_json (pr_features p)) now)
               (fun _ => false) (db_preds d) with
       | Ok m => if bool_decide (db_txs d !! pr_tx p = None) then Fail foreign_key_violation
                 else Ok (tt, upd_preds (fun _ => m) d)
       | Fail e => Fail e
       end.
(** The loop over [d.Predictions], shared by both units of work. *)
Definition insert_predictions (op : string) (txID : uuid) (preds : list Prediction) : Go unit :=
  for_each preds (fun _ p =>
    let* id := or_new (pr_id p) in
    wrap_err (internalErr op) (stmt (insert_prediction
      (mkPrediction id txID (pr_type p) (pr_value p) (pr_confidence p) (pr_model p) (pr_version p)
         (pr_features p) (pr_created_at p))))) tt.

(** DELETE FROM pending_actions WHERE user_id = $1 *)
Definition delete_pending (userID : uuid) (d : DB) : unit * DB :=
  (tt, upd_pending (fun m => (delete_where (fun p => bool_decide (pa_user p = userID)) m).2) d).
Definition insert_pending (p : PendingAction) : Stmt unit := fun now d =>
  match insert_row (pa_id p)
          (mkPending (pa_id p) (pa_user p) (pa_kind p) (pa_tx p) (or_empty_json (pa_payload p))
             (pa_expires_at p) now)
          (fun x => bool_decide (pa_user x = pa_user p)) (db_pending d) with
  | Ok m => if bool_decide (db_users d !! pa_user p <> None) && ref_ok (db_txs d) (pa_tx p)
            then Ok (tt, upd_pending (fun _ => m) d) else Fail foreign_key_violation
  | Fail e => Fail e
  end.
(** Replacing the user's open action inside a transaction. *)
Definition replace_pending (op : string) (p : PendingAction) (txID : uuid) : Go unit :=
  let* id := or_new (pa_id p) in
  wrap_err (internalErr (op ++ ".clearPending")) (dml (fun _ => delete_pending (pa_user p))) ;;;
  wrap_err (internalErr (op ++ ".pending")) (stmt (insert_pending
    (mkPending id (pa_user p) (pa_kind p) (Some txID) (pa_payload p) (pa_expires_at p) (pa_created_at p)))).

(** ** [FinalizeReceiptReview]

    The draft's transaction as it is after the call is returned: its id and
    version are what the caller renders. *)
Record ReceiptReviewDraft := mkReview {
  rv_from : ReceiptStatus; rv_tx : option Transaction; rv_fields : list ExtractedField;
  rv_preds : list Prediction; rv_pending : option PendingAction }.

Definition reviewed (now : Time) (t x : Transaction) : Transaction :=
  mkTx (tx_id x) (tx_user x) (tx_receipt x) (tx_account x) (tx_type t) (tx_merchant t) (tx_merchant_name t)
    (tx_description t) (tx_amount t) (tx_currency t) (tx_occurred_at t) (tx_category t) (tx_status t)
    (tx_source x) (tx_confidence t) (tx_confirmed_at x) (tx_version x + 1) (tx_created_at x) now
    (tx_deleted_at x) (tx_provider_message x).

(** The switch on the existing draft: insert a new row or refresh the old one. *)
Definition upsert_review_tx (receiptID : uuid) (t : Transaction) : Go Transaction :=
  let* existing := wrap_err (internalErr "FinalizeReceiptReview.loadTx") (query (active_for_receipt receiptID)) in
  match existing with
  | None =>
      let* id := or_new (tx_id t) in
      let t := set_tx_identity id (tx_version t) t in
      let* res := attempt (stmt (insert_tx t)) in
      match res with
      | Ok _ => ret t
      | Fail err =>
          if is_pg "23505" err then fail (E CodeConflict "store.FinalizeReceiptReview: duplicate draft" None)
          else fail (internalErr "FinalizeReceiptReview.insertTx" err)
      end
  | Some x =>
      wrap_err (internalErr "FinalizeReceiptReview.updateTx") (stmt (fun now d =>
        update_tx (tx_id x) (fun y => bool_decide (tx_deleted_at y = None)) (reviewed now t) d)) ;;;
      wrap_err (internalErr "FinalizeReceiptReview.clearPreds") (dml (fun _ d =>
        (tt, upd_preds (fun m => (delete_where (fun p => bool_decide (pr_tx p = tx_id x)) m).2) d))) ;;;
      ret (set_tx_identity (tx_id x) (tx_version x + 1) t)
  end.

Definition replace_fields (receiptID : uuid) (fields : list ExtractedField) : Go unit :=
  wrap_err (internalErr "FinalizeReceiptReview.clearFields") (dml (fun _ d =>
    (tt, upd_fields (fun m => (delete_where (fun f => bool_decide (ef_receipt f = receiptID)) m).2) d))) ;;;
  for_each fields (fun _ f =>
    let* id := or_new (ef_id f) in
    wrap_err (internalErr "FinalizeReceiptReview.fields") (stmt (insert_field (set_field_id id f)))) tt.

Definition under_review (now : Time) (r : ReceiptDocument) : ReceiptDocument :=
  mkReceipt (rc_id r) (rc_user r) (rc_message r) (rc_storage_key r) (rc_source_url_hash r)
    (rc_content_type r) (rc_byte_size r) (rc_sha256 r) (rc_perceptual_hash r) ReceiptReviewRequired
    (rc_retention r) (rc_delete_after r) (rc_created_at r) now (rc_deleted_at r).

Definition FinalizeReceiptReview (d : ReceiptReviewDraft) : Go Transaction :=
  match rv_tx d, rv_pending d with
  | Some t, Some p =>
      match tx_receipt t with
      | None => fail (E CodeValidation "store.FinalizeReceiptReview: receipt id required" None)
      | Some receiptID =>
          WithTx (
            let* t := upsert_review_tx receiptID t in
            replace_fields receiptID (rv_fields d) ;;;
            insert_predictions "FinalizeReceiptReview.preds" (tx_id t) (rv_preds d) ;;;
            (if negb (receipt_CanTransition (rv_from d) ReceiptReviewRequired) then
               fail (E CodeValidation ("store.FinalizeReceiptReview: illegal receipt transition " ++
                       receipt_status_string (rv_from d) ++ " -> review_required") None)
             else
               let* n := wrap_err (internalErr "FinalizeReceiptReview.receipt") (dml (fun now d0 =>
                   let r := update_row receiptID (fun r => bool_decide (rc_status r = rv_from d))
                              (under_review now) (db_receipts d0) in
                   (r.1, upd_receipts (fun _ => r.2) d0))) in
               if n =? 0 then fail (E CodeConflict ("store.FinalizeReceiptReview: receipt not in status " ++
                                              receipt_status_string (rv_from d)) None)
               else ret tt) ;;;
            replace_pending "FinalizeReceiptReview" p (tx_id t) ;;;
            ret t)
      end
  | _, _ => fail (E CodeValidation "store.FinalizeReceiptReview: missing draft fields" None)
  end.

(** ** [CreateManualDraft] *)
Record ManualDraftBundle := mkManual {
  md_tx : option Transaction; md_preds : list Prediction; md_pending : option PendingAction;
  md_message : option uuid }.

Definition resume_manual (x t : Transaction) : Transaction :=
  mkTx (tx_id x) (tx_user t) (tx_receipt t) (tx_account t) (tx_type x) (tx_merchant t) (tx_merchant_name x)
    (tx_description t) (tx_amount x) (tx_currency x) (tx_occurred_at x) (tx_category x) (tx_status x)
    (tx_source t) (tx_confidence t) (tx_confirmed_at t) (tx_version x) (tx_created_at t) (tx_updated_at t)
    (tx_deleted_at t) (tx_provider_message t).
Definition with_message (m : option uuid) (t : Transaction) : Transaction :=
  mkTx (tx_id t) (tx_user t) (tx_receipt t) (tx_account t) (tx_type t) (tx_merchant t) (tx_merchant_name t)
    (tx_description t) (tx_amount t) (tx_currency t) (tx_occurred_at t) (tx_category t) (tx_status t)
    (tx_source t) (tx_confidence t) (tx_confirmed_at t) (tx_version t) (tx_created_at t) (tx_updated_at t)
    (tx_deleted_at t) m.
Definition active_for_message (m : uuid) (d : DB) : option Transaction :=
  head (select (fun t => bool_decide (tx_provider_message t = Some m) && active t) (db_txs d)).

Definition insert_manual (d : ManualDraftBundle) (t : Transaction) (p : PendingAction) : Go Transaction :=
  let* id := or_new (tx_id t) in
  let t := set_tx_identity id (tx_version t) t in
  let* res := attempt (stmt (insert_tx (with_message (md_message d) t))) in
  match res with
  | Fail err =>
      if is_pg "23505" err then fail (E CodeConflict "store.CreateManualDraft: duplicate provider message" None)
      else fail (internalErr "CreateManualDraft.insertTx" err)
  | Ok _ =>
      insert_predictions "CreateManualDraft.preds" (tx_id t) (md_preds d) ;;;
      replace_pending "CreateManualDraft" p (tx_id t) ;;;
      ret t
  end.

Definition CreateManualDraft (d : ManualDraftBundle) : Go Transaction :=
  match md_tx d, md_pending d with
  | Some t, Some p =>
      WithTx (
        let* existing :=
          match md_message d with
          | Some m => wrap_err (internalErr "CreateManualDraft.lookup") (query (active_for_message m))
          | None => ret None
          end in
        match existing with
        | Some x =>
            replace_pending "CreateManualDraft" p (tx_id x) ;;;
            ret (resume_manual x t)
        | None => insert_manual d t p
        end)
  | _, _ => fail (E CodeValidation "store.CreateManualDraft: missing draft fields" None)
  end.

(** ** Reads and edits *)

(** [GetTransaction], [GetTransactionForUser] *)
Definition GetTransaction (id : uuid) : Go Transaction :=
  let* row := wrap_err (internalErr "GetTransaction") (query (fun d => db_txs d !! id)) in
  match row with
  | None => fail (notFound "GetTransaction" "transaction")
  | Some t => ret t
  end.
Definition GetTransactionForUser (id userID : uuid) : Go Transaction :=
  let* row := wrap_err (internalErr "GetTransactionForUser") (query (fun d =>
      t ← db_txs d !! id; if bool_decide (tx_user t = userID) then Some t else None)) in
  match row with
  | None => fail (notFound "GetTransactionForUser" "transaction")
  | Some t => ret t
  end.

(** [ListRecentTransactions] *)
Definition ListRecentTransactions (userID : uuid) (limit : Z) : Go (list Transaction) :=
  wrap_err (internalErr "ListRecentTransactions") (query (fun d =>
    firstn (Z.to_nat limit) (isort newest_tx (select (recorded userID) (db_txs d))))).

(** [UpdateTransaction]; on success the caller's copy is at [expectedVersion + 1]. *)
Definition edited (now : Time) (t x : Transaction) : Transaction :=
  mkTx (tx_id x) (tx_user x) (tx_receipt t) (tx_account t) (tx_type t) (tx_merchant t) (tx_merchant_name t)
    (tx_description t) (tx_amount t) (tx_currency t) (tx_occurred_at t) (tx_category t) (tx_status t)
    (tx_source t) (tx_confidence t) (tx_confirmed_at t) (tx_version x + 1) (tx_created_at x) now
    (tx_deleted_at x) (tx_provider_message x).
Definition UpdateTransaction (t : Transaction) (expectedVersion : Z) : Go Transaction :=
  let* n := wrap_err (internalErr "UpdateTransaction") (stmt (fun now =>
      update_tx (tx_id t) (fun x => (tx_version x =? expectedVersion) && bool_decide (tx_deleted_at x = None))
        (edited now t))) in
  if n =? 0 then
    fail (E CodeConflict ("store.UpdateTransaction: version conflict at " ++ Sprintd expectedVersion) None)
  else ret (set_tx_identity (tx_id t) (expectedVersion + 1) t).

(** [SoftDeleteTransaction] *)
Definition discarded (now : Time) (x : Transaction) : Transaction :=
  mkTx (tx_id x) (tx_user x) (tx_receipt x) (tx_account x) (tx_type x) (tx_merchant x) (tx_merchant_name x)
    (tx_description x) (tx_amount x) (tx_currency x) (tx_occurred_at x) (tx_category x) TxDeleted
    (tx_source x) (tx_confidence x) (tx_confirmed_at x) (tx_version x + 1) (tx_created_at x) now
    (Some now) (tx_provider_message x).
Definition SoftDeleteTransaction (id userID : uuid) : Go unit :=
  let* t := GetTransactionForUser id userID in
  if negb (tx_CanTransition (tx_status t) TxDeleted) then
    fail (E CodeValidation ("store.SoftDeleteTransaction: illegal transition " ++
            tx_status_string (tx_status t) ++ " -> deleted") None)
  else
    let* n := wrap_err (internalErr "SoftDeleteTransaction") (stmt (fun now =>
        update_tx id (fun x => bool_decide (tx_user x = userID) && bool_decide (tx_deleted_at x = None))
          (discarded now))) in
    if n =? 0 then fail (E CodeConflict "store.SoftDeleteTransaction: concurrent delete" None) else ret tt.

(** [InsertCorrection], [ListCorrections] *)
Definition InsertCorrection (c : Correction) : Go unit :=
  let* id := or_new (cor_id c) in
  wrap_err (internalErr "InsertCorrection") (stmt (fun now d =>
    match insert_row id (mkCorrection id (cor_tx c) (cor_field c) (cor_predicted c) (cor_corrected c)
                           (cor_source c) now) (fun _ => false) (db_corrs d) with
    | Ok m => if bool_decide (db_txs d !! cor_tx c = None) then Fail foreign_key_violation
              else Ok (tt, upd_corrs (fun _ => m) d)
    | Fail e => Fail e
    end)).
Definition ListCorrections (txID : uuid) : Go (list Correction) :=
  wrap_err (internalErr "ListCorrections") (query (fun d =>
    isort (fun a b => cor_created_at a <=? cor_created_at b)
      (select (fun c => bool_decide (cor_tx c = txID)) (db_corrs d)))).

(** [LatestConfirmedTransaction] *)
Definition LatestConfirmedTransaction (userID : uuid) : Go Transaction :=
  let* row := wrap_err (internalErr "LatestConfirmedTransaction") (query (fun d =>
      argmin newest_tx (select (recorded userID) (db_txs d)))) in
  match row with
  | None => fail (notFound "LatestConfirmedTransaction" "transaction")
  | Some t => ret t
  end.

(** [FindPotentialDuplicates] *)
Definition maybe_duplicate (userID : uuid) (amountMinor : Z) (currency : string) (occurredAt : Time)
    (window : Z) (merchantID : option uuid) (merchantName : string) (t : Transaction) : bool :=
  recorded userID t && (tx_amount t =? amountMinor) && String.eqb (tx_currency t) currency &&
  (occurredAt - window <=? tx_occurred_at t) && (tx_occurred_at t <=? occurredAt + window) &&
  match merchantID with
  | Some m => bool_decide (tx_merchant t = Some m)
  | None => negb (String.eqb (tx_merchant_name t) "") &&
            String.eqb (sql_lower (tx_merchant_name t)) (sql_lower merchantName)
  end.
Definition newest_by_id (a b : Transaction) : bool :=
  (tx_occurred_at b <? tx_occurred_at a) ||
  ((tx_occurred_at b =? tx_occurred_at a) && (tx_id b <=? tx_id a)%N).
Definition FindPotentialDuplicates (userID : uuid) (amountMinor : Z) (currency : string)
    (occurredAt : Time) (window : Z) (merchantID : option uuid) (merchantName : string) :
    Go (list Transaction) :=
  wrap_err (internalErr "FindPotentialDuplicates") (query (fun d =>
    firstn 3 (isort newest_by_id
      (select (maybe_duplicate userID amountMinor currency occurredAt window merchantID merchantName)
         (db_txs d))))).

(** ** Pending actions (pending.go) *)

(** [GetPendingAction] *)
Definition GetPendingAction (userID : uuid) : Go PendingAction :=
  let* row := wrap_err (internalErr "GetPendingAction") (query (fun d =>
      head (select (fun p => bool_decide (pa_user p = userID)) (db_pending d)))) in
  match row with
  | None => fail (notFound "GetPendingAction" "pending_action")
  | Some p =>
      let* now := time_Now in
      if pa_expires_at p <? now then
        wrap_err (internalErr "GetPendingAction") (dml (fun _ d => (tt, upd_pending (delete (pa_id p)) d))) ;;;
        fail (notFound "GetPendingAction" "pending_action")
      else ret p
  end.

(** [SetPendingAction] *)
Definition SetPendingAction (p : PendingAction) : Go unit :=
  let* id := or_new (pa_id p) in
  WithTx (
    wrap_err (internalErr "SetPendingAction") (dml (fun _ => delete_pending (pa_user p))) ;;;
    wrap_err (internalErr "SetPendingAction") (stmt (insert_pending
      (mkPending id (pa_user p) (pa_kind p) (pa_tx p) (pa_payload p) (pa_expires_at p) (pa_created_at p))))).

(** [ClearPendingAction] *)
Definition ClearPendingAction (userID : uuid) : Go unit :=
  wrap_err (internalErr "ClearPendingAction") (dml (fun _ => delete_pending userID)).
End transactions.

(** ** Atomic review drafts *)
Definition txs_keyed (d : DB) : Prop := forall id t, db_txs d !! id = Some t -> tx_id t = id.

(** The ledger is left alone. *)
Definition same_txs (d d' : DB) : Prop := db_txs d' = db_txs d.

(** What is compared of a stored field and of a stored prediction: every column but
    its id and its time; empty sources and JSON texts as the statement defaults
    them. *)
Definition field_content (f : ExtractedField) :=
  (ef_receipt f, ef_name f, ef_raw f, ef_normalised f, ef_confidence f,
   (if String.eqb (ef_source f) "" then "extractor" else ef_source f), or_empty_json (ef_evidence f), (ef_extractor f, ef_version f)).
Definition pred_content (txID : uuid) (p : Prediction) :=
  (txID, pr_type p, pr_value p, pr_confidence p, pr_model p, pr_version p, or_empty_json (pr_features p)).
Definition stored_pred (p : Prediction) := pred_content (pr_tx p) p.

(** The ledger row carries every column of the draft. *)
Definition carries (t row : Transaction) : Prop :=
  tx_type row = tx_type t /\ tx_merchant row = tx_merchant t /\ tx_merchant_name row = tx_merchant_name t /\
  tx_description row = tx_description t /\ tx_amount row = tx_amount t /\ tx_currency row = tx_currency t /\
  tx_occurred_at row = tx_occurred_at t /\ tx_category row = tx_category t /\ tx_status row = tx_status t /\
  tx_confidence row = tx_confidence t.
(** A new row is the draft's own; an old one keeps its owner and origin and gets the
    next version. *)
Definition origin (old : option Transaction) (t row : Transaction) : Prop :=
  match old with
  | None => tx_user row = tx_user t /\ tx_source row = tx_source t /\ tx_version row = tx_version t
  | Some x => tx_user row = tx_user x /\ tx_source row = tx_source x /\ tx_version row = tx_version x + 1
  end.
(** The predictions that stay: those of an old row are replaced. *)
Definition kept_preds (txID : uuid) (d : DB) : list Prediction :=
  match db_txs d !! txID with
  | None => rows (db_preds d)
  | Some _ => select (fun p => negb (bool_decide (pr_tx p = txID))) (db_preds d)
  end.

(** What a committed review looks like, table by table: the receipt left [from] for
    review, one active ledger row of the receipt holds the draft, the receipt's
    fields and the row's predictions are those of the draft, and the user's only
    open action is the draft's, about that row; no other row changed. *)
Definition review_done (draft : ReceiptReviewDraft) (t : Transaction) (p : PendingAction)
    (receiptID : uuid) (d d' : DB) : Prop :=
  exists txID row r r',
    (db_receipts d !! receiptID = Some r /\ rc_status r = rv_from draft /\
     rc_status r' = ReceiptReviewRequired /\ rc_user r' = rc_user r /\ rc_storage_key r' = rc_storage_key r /\
     db_receipts d' = <[receiptID := r']> (db_receipts d)) /\
    (db_txs d' = <[txID := row]> (db_txs d) /\ tx_receipt row = Some receiptID /\ active row = true /\
     carries t row /\ origin (db_txs d !! txID) t row) /\
    field_content <$> rows (db_fields d') ≡ₚ (field_content <$> rv_fields draft) ++
      (field_content <$> select (fun f => negb (bool_decide (ef_receipt f = receiptID))) (db_fields d)) /\
    stored_pred <$> rows (db_preds d') ≡ₚ (pred_content txID <$> rv_preds draft) ++ (stored_pred <$> kept_preds txID d) /\
    (exists pid a, db_pending d' !! pid = Some a /\ pa_user a = pa_user p /\ pa_tx a = Some txID /\ pa_kind a = pa_kind p /\
       pa_payload a = or_empty_json (pa_payload p) /\ pa_expires_at a = pa_expires_at p /\
       forall k x, db_pending d' !! k = Some x -> pa_user x = pa_user p -> k = pid).

Section review.
Context `{Env}.

Lemma or_new_Ok id x w w' : or_new id w = (Ok x, w') -> w_db w' = w_db w.
Proof. unfold or_new, uuid_New. case_bool_decide; intros; inv_runs; simplify_eq; done. Qed.

Lemma or_new_evolves R `{!Quiet R} id : evolves R (or_new id).
Proof. unfold or_new. case_bool_decide; go_evolve. Qed.
#[local] Hint Extern 1 (evolves _ (or_new _)) => refine (or_new_evolves _ _) : evolve.

Lemma or_empty_json_idem s : or_empty_json (or_empty_json s) = or_empty_json s.
Proof. unfold or_empty_json. by destruct (String.eqb s "") eqn:Hs; [|rewrite Hs]. Qed.

Lemma insert_fields_Ok fields w w' :
  for_each fields (fun _ f => let* id := or_new (ef_id f) in
    wrap_err (internalErr "FinalizeReceiptReview.fields") (stmt (insert_field (set_field_id id f)))) tt w = (Ok tt, w') ->
  exists m, w_db w' = upd_fields (fun _ => m) (w_db w) /\
    field_content <$> rows m ≡ₚ (field_content <$> fields) ++ (field_content <$> rows (db_fields (w_db w))).
Proof.
  revert w. induction fields as [|f fields IH]; intros w Hrun; cbn [for_each] in Hrun.
  { apply ret_Ok in Hrun as [_ <-]. exists (db_fields (w_db w)). by destruct (w_db w). }
  apply bind_Ok in Hrun as ([] & w1 & Hone & Hrun). apply bind_Ok in Hone as (id & w2 & Hid%or_new_Ok & Hone).
  apply wrap_err_Ok, stmt_Ok in Hone as (d & Hins & ->). apply IH in Hrun as (m & Hm & Hperm). rewrite Hid in Hins. clear IH Hid.
  unfold insert_field in Hins. destruct (negb _); [done|]. destruct (insert_row _ _ _ _) as [m1|] eqn:Hrow; [|done].
  case_bool_decide; [done|]. injection Hins as <-. apply insert_row_ok in Hrow as (Hnew & -> & _).
  exists m. split; [rewrite Hm; by destruct (w_db w)|]. rewrite Hperm. simpl. rewrite rows_insert, fmap_cons by done.
  match goal with |- _ ++ field_content ?x :: _ ≡ₚ _ => assert (field_content x = field_content f) as -> end.
  { unfold field_content. simpl. rewrite or_empty_json_idem. by destruct (String.eqb (ef_source f) "") eqn:Hs; [|rewrite Hs]. }
  symmetry. apply Permutation_middle.
Qed.

Lemma replace_fields_Ok receiptID fields w w' : replace_fields receiptID fields w = (Ok tt, w') ->
  exists m, w_db w' = upd_fields (fun _ => m) (w_db w) /\
    field_content <$> rows m ≡ₚ (field_content <$> fields) ++
      (field_content <$> select (fun f => negb (bool_decide (ef_receipt f = receiptID))) (db_fields (w_db w))).
Proof.
  intros ([] & w1 & Hd & Hrun)%bind_Ok. apply wrap_err_Ok, dml_Ok in Hd as [Hd _]. injection Hd as Hd.
  apply insert_fields_Ok in Hrun as (m & Hm & Hperm). rewrite <- Hd in Hm, Hperm. exists m. split; [rewrite Hm; by destruct (w_db w)|].
  rewrite Hperm. apply Permutation_app_head, fmap_Permutation.
  exact (rows_delete_where (fun f => bool_decide (ef_receipt f = receiptID)) (db_fields (w_db w))).
Qed.

Lemma insert_predictions_Ok op txID preds w w' : insert_predictions op txID preds w = (Ok tt, w') ->
  exists m, w_db w' = upd_preds (fun _ => m) (w_db w) /\
    stored_pred <$> rows m ≡ₚ (pred_content txID <$> preds) ++ (stored_pred <$> rows (db_preds (w_db w))).
Proof.
  unfold insert_predictions. revert w. induction preds as [|p preds IH]; intros w Hrun; cbn [for_each] in Hrun.
  { apply ret_Ok in Hrun as [_ <-]. exists (db_preds (w_db w)). by destruct (w_db w). }
  apply bind_Ok in Hrun as ([] & w1 & Hone & Hrun). apply bind_Ok in Hone as (id & w2 & Hid%or_new_Ok & Hone).
  apply wrap_err_Ok, stmt_Ok in Hone as (d & Hins & ->). apply IH in Hrun as (m & Hm & Hperm). rewrite Hid in Hins. clear IH Hid.
  unfold insert_prediction in Hins. destruct (negb _); [done|]. destruct (insert_row _ _ _ _) as [m1|] eqn:Hrow; [|done].
  case_bool_decide; [done|]. injection Hins as <-. apply insert_row_ok in Hrow as (Hnew & -> & _).
  exists m. split; [rewrite Hm; by destruct (w_db w)|]. rewrite Hperm. simpl. rewrite rows_insert, fmap_cons by done.
  match goal with |- _ ++ stored_pred ?x :: _ ≡ₚ _ => assert (stored_pred x = pred_content txID p) as -> end.
  { unfold stored_pred, pred_content. simpl. by rewrite or_empty_json_idem. }
  symmetry. apply Permutation_middle.
Qed.

Lemma write_tx_Ok t d d' : write_tx t d = Ok d' -> d' = upd_txs (<[tx_id t := t]>) d /\ 0 <= tx_amount t.
Proof.
  unfold write_tx, tx_checks_ok. destruct (negb _) eqn:Hc; [done|].
  apply negb_false_iff, andb_true_iff in Hc as [Ha _].
  repeat case_match; intros; simplify_eq; split; [done|lia].
Qed.

Lemma insert_tx_Ok t now d d' :
  insert_tx t now d = Ok (tt, d') ->
  db_txs d !! tx_id t = None /\
  exists row, d' = upd_txs (<[tx_id t := row]>) d /\ tx_id row = tx_id t /\ tx_receipt row = tx_receipt t /\
    tx_deleted_at row = None /\ carries t row /\ origin None t row.
Proof.
  unfold insert_tx. case_bool_decide as Hn; [done|]. destruct (write_tx _ _) as [d1|e] eqn:Hw; [|done].
  intros. simplify_eq. apply write_tx_Ok in Hw as [-> _]. split; [done|].
  eexists. split; [reflexivity|]. by unfold carries, origin.
Qed.

(** The draft's ledger row after the first step. *)
Lemma upsert_review_tx_Ok receiptID t t' w w' :
  txs_keyed (w_db w) -> tx_receipt t = Some receiptID -> tx_status t <> TxDeleted ->
  upsert_review_tx receiptID t w = (Ok t', w') ->
  exists row m, w_db w' = upd_preds (fun _ => m) (upd_txs (<[tx_id t' := row]>) (w_db w)) /\
    tx_receipt row = Some receiptID /\ active row = true /\ carries t row /\ origin (db_txs (w_db w) !! tx_id t') t row /\
    rows m ≡ₚ kept_preds (tx_id t') (w_db w).
Proof.
  intros Hk Hr Hst Hrun. unfold upsert_review_tx in Hrun.
  apply bind_Ok in Hrun as (existing & w1 & Hq & Hrun). inv_runs.
  destruct (active_for_receipt receiptID (w_db w)) as [x|] eqn:Hx.
  - unfold active_for_receipt in Hx. apply argmin_in, elem_of_select in Hx as (Hsel & k & Hxk).
    apply andb_true_iff in Hsel as [Hxr Hxa]. apply bool_decide_eq_true in Hxr. pose proof (Hk k x Hxk) as Hxid. subst k.
    apply bind_Ok in Hrun as (n & w2 & Hu & Hrun). apply wrap_err_Ok, stmt_Ok in Hu as (d & Hu & ->).
    apply bind_Ok in Hrun as ([] & w3 & Hp & Hrun). apply wrap_err_Ok, dml_Ok in Hp as [Hp _].
    inv_runs. simpl in *. injection Hp as Hp.
    unfold update_tx in Hu. rewrite Hxk in Hu. unfold active in Hxa. apply andb_true_iff in Hxa as [Hxd _]. rewrite Hxd in Hu.
    destruct (write_tx _ _) as [d1|e] eqn:Hw; [|done]. simplify_eq. apply write_tx_Ok in Hw as [-> _].
    eexists _, _. split; [rewrite <- Hp; simpl; reflexivity|]. apply bool_decide_eq_true in Hxd. unfold active, kept_preds. simpl.
    rewrite Hxk, Hxd. split_and!; [done| |done|done|].
    + by rewrite bool_decide_eq_true_2, bool_decide_eq_false_2 by done.
    + exact (rows_delete_where (fun q => bool_decide (pr_tx q = tx_id x)) (db_preds (w_db w))).
  - apply bind_Ok in Hrun as (id & w1 & Hid & Hrun). apply or_new_Ok in Hid. cbv zeta in Hrun.
    apply bind_Ok in Hrun as (res & w2 & Hres & Hrun). apply attempt_Ok in Hres.
    destruct res as [[]|e]; [|destruct (is_pg _ _); done]. inv_runs.
    apply stmt_Ok in Hres as (d & Hs & ->). apply insert_tx_Ok in Hs as (Hnone & row & -> & H1 & H2 & H3 & H4 & H5).
    simpl in *. rewrite Hid in *. exists row, (db_preds (w_db w)). split; [by destruct (w_db w)|].
    unfold active, kept_preds. rewrite Hnone, H3. destruct H4 as (C1 & C2 & C3 & C4 & C5 & C6 & C7 & C8 & C9 & C10).
    rewrite C9, bool_decide_eq_true_2, bool_decide_eq_false_2 by done. split_and!; try done. by rewrite H2.
Qed.

Lemma replace_pending_Ok op p txID w w' :
  replace_pending op p txID w = (Ok tt, w') ->
  exists pid a m, w_db w' = upd_pending (fun _ => m) (w_db w) /\ m !! pid = Some a /\
    pa_user a = pa_user p /\ pa_tx a = Some txID /\ pa_kind a = pa_kind p /\ pa_payload a = or_empty_json (pa_payload p) /\
    pa_expires_at a = pa_expires_at p /\ (forall k x, m !! k = Some x -> pa_user x = pa_user p -> k = pid).
Proof.
  intros Hrun. unfold replace_pending in Hrun. apply bind_Ok in Hrun as (id & w1 & Hid & Hrun).
  apply or_new_Ok in Hid. apply bind_Ok in Hrun as ([] & w2 & Hd & Hrun).
  apply wrap_err_Ok, dml_Ok in Hd as [Hd _]. injection Hd as Hd.
  apply wrap_err_Ok, stmt_Ok in Hrun as (d & Hi & ->). simpl. unfold insert_pending in Hi.
  destruct (insert_row _ _ _ _) as [m|e] eqn:Hins; [|done].
  destruct (bool_decide _ && _); [|done]. simplify_eq.
  apply insert_row_ok in Hins as (_ & -> & Hcl). rewrite <- Hd in *. simpl in *. rewrite Hid in *.
  eexists _, _, _. split; [reflexivity|]. split; [apply lookup_insert_eq|]. split_and!; try done.
  intros k x [[-> _]|[_ Hx]]%lookup_insert_Some Hu; [done|]. specialize (Hcl k x Hx). simpl in Hcl. by apply bool_decide_eq_false in Hcl.
Qed.

(** C24: Turning an extraction into a reviewable draft is all or nothing.
    Whatever faults strike (a lost commit reply included), after
    [FinalizeReceiptReview] either no table changed, or the complete draft is there:
    the receipt, and no other, moved from the expected status to review; one active
    ledger row of the receipt carries the draft's type, merchant, description,
    amount, currency, time, category, status and confidence (an old row keeps its
    owner and gets the next version), and no other ledger row changed; the stored
    fields of the receipt and the stored predictions of that row are exactly the
    draft's, column by column; and the user's only open action is the draft's and
    refers to that row. *)
Theorem review_atomic (draft : ReceiptReviewDraft) (t : Transaction) (p : PendingAction)
    (receiptID : uuid) (w : World)
    (Ht : rv_tx draft = Some t) (Hp : rv_pending draft = Some p) (Hr : tx_receipt t = Some receiptID)
    (Hst : tx_status t <> TxDeleted) (Hk : txs_keyed (w_db w)) :
  let w' := snd (FinalizeReceiptReview draft w) in
  w_db w' = w_db w \/ review_done draft t p receiptID (w_db w) (w_db w').
Proof.
  cbv zeta. unfold FinalizeReceiptReview. rewrite Ht, Hp, Hr.
  match goal with |- context [WithTx ?b] => destruct (in_tx_atomic (Wrapped "begin tx") (Wrapped "commit tx") b w)
    as [He|(a & w1 & Hrun & He)] end; [by left|right].
  unfold WithTx. rewrite He. clear He.
  apply bind_Ok in Hrun as (t' & wa & Hup & Hrun).
  apply (upsert_review_tx_Ok receiptID t) in Hup as (row & mp & Ha & Hrr & Hact & Hcar & Hor & Hkept); [|done..].
  apply bind_Ok in Hrun as ([] & wb & (mf & Hb & Hf)%replace_fields_Ok & Hrun).
  apply bind_Ok in Hrun as ([] & wc & (mq & Hc & Hq)%insert_predictions_Ok & Hrun).
  apply bind_Ok in Hrun as ([] & wd & Hmv & Hrun).
  destruct (receipt_CanTransition _ _); [simpl in Hmv|done].
  apply bind_Ok in Hmv as (n & we & Hu & Hmv). apply wrap_err_Ok, dml_Ok in Hu as [Hu _].
  injection Hu as Hn Hdb. destruct (n =? 0) eqn:Hn0; [done|]. apply ret_Ok in Hmv as [_ <-].
  assert (n <> 0) as Hnz by lia. rewrite <- Hn in Hnz. apply update_row_hit in Hnz as (r & Hr1 & Hr2 & Hr3).
  apply bind_Ok in Hrun as ([] & wf & (pid & act & mx & Hx & Hpend)%replace_pending_Ok & Hrun). apply ret_Ok in Hrun as [_ <-].
  apply bool_decide_eq_true in Hr2. rewrite Hr3 in Hdb. rewrite Ha in Hb, Hf. rewrite Hb in Hc, Hq. rewrite Hc in Hr1, Hdb. rewrite <- Hdb in Hx.
  simpl in *. rewrite Hx. simpl. exists (tx_id t'), row, r, (under_review (now_sql wc) r). split_and!; try done.
  - by rewrite Hq, Hkept.
  - by exists pid, act.
Qed.
End review.

(** ** The ledger under any sequence of operations *)
Definition ledger_ok (d : DB) : Prop :=
  forall id t, db_txs d !! id = Some t -> tx_id t = id /\ 0 <= tx_amount t.

(** How a row may change: its owner never, its version strictly up with every
    change, nothing once it is soft-deleted. *)
Definition row_evolves (t t' : Transaction) : Prop :=
  tx_user t' = tx_user t /\ tx_provider_message t' = tx_provider_message t /\
  tx_created_at t' = tx_created_at t /\
  (t' = t \/ (tx_version t < tx_version t' /\ tx_deleted_at t = None)).
Definition ledger_evolve (d d' : DB) : Prop :=
  ledger_ok d -> ledger_ok d' /\
  forall id t, db_txs d !! id = Some t -> exists t', db_txs d' !! id = Some t' /\ row_evolves t t'.

Lemma row_evolves_refl t : row_evolves t t.
Proof. unfold row_evolves. auto. Qed.

Lemma row_evolves_trans t1 t2 t3 : row_evolves t1 t2 -> row_evolves t2 t3 -> row_evolves t1 t3.
Proof.
  intros (U1 & P1 & C1 & V1) (U2 & P2 & C2 & V2). unfold row_evolves.
  split_and!; [congruence..|]. destruct V1 as [->|[V1 D1]]; [done|].
  destruct V2 as [->|[V2 D2]]; right; (split; [lia|done]).
Qed.

#[global] Instance ledger_evolve_preorder : PreOrder ledger_evolve.
Proof.
  split.
  - intros d Hd. split; [done|]. eauto using row_evolves_refl.
  - intros d1 d2 d3 H12 H23 H1. destruct (H12 H1) as [H2 E12]. destruct (H23 H2) as [H3 E23].
    split; [done|]. intros id t Ht. destruct (E12 id t Ht) as (t2 & Ht2 & R12).
    destruct (E23 id t2 Ht2) as (t3 & Ht3 & R23). eauto using row_evolves_trans.
Qed.

Lemma ledger_evolve_other d d' : db_txs d' = db_txs d -> ledger_evolve d d'.
Proof.
  intros He Hok. unfold ledger_ok. rewrite He. split; [done|]. eauto using row_evolves_refl.
Qed.

Lemma ledger_evolve_insert t now d : ledger_evolve d (stmt_effect (insert_tx t) now d).
Proof.
  unfold stmt_effect, insert_tx. case_bool_decide as Hn; [reflexivity|].
  destruct (write_tx _ _) as [d1|e] eqn:Hw; [|reflexivity]. apply write_tx_Ok in Hw as [-> Ha].
  intros Hok. split; simpl.
  - intros id x. simpl. intros [[<- <-]|[_ Hx]]%lookup_insert_Some; [done|by apply Hok].
  - intros id x Hx. exists x. rewrite lookup_insert_ne by congruence. auto using row_evolves_refl.
Qed.

(** An update that every guarded write is an instance of. *)
Lemma ledger_evolve_update id cond f d d' n :
  (forall t, cond t = true -> tx_deleted_at t = None) ->
  (forall t, tx_id (f t) = tx_id t /\ tx_user (f t) = tx_user t /\ tx_created_at (f t) = tx_created_at t /\
     tx_provider_message (f t) = tx_provider_message t /\ tx_version (f t) = tx_version t + 1) ->
  update_tx id cond f d = Ok (n, d') -> ledger_evolve d d'.
Proof.
  intros Hc Hf. unfold update_tx. destruct (db_txs d !! id) as [t|] eqn:Ht; [|by intros; simplify_eq].
  destruct (cond t) eqn:Hct; [|by intros; simplify_eq].
  destruct (write_tx (f t) d) as [d1|e] eqn:Hw; [|done]. intros. simplify_eq.
  apply write_tx_Ok in Hw as [-> Ha]. destruct (Hf t) as (Hid & Hu & Hcr & Hp & Hv). intros Hok.
  destruct (Hok id t Ht) as [Hti _]. split; simpl.
  - intros i x. simpl. intros [[<- <-]|[_ Hx]]%lookup_insert_Some; [done|by apply Hok].
  - intros i x Hx. rewrite Hid, Hti. destruct (decide (i = id)) as [->|Hne].
    + simplify_eq. eexists. rewrite lookup_insert_eq. split; [done|].
      unfold row_evolves. split_and!; try done. right. split; [lia|by apply Hc].
    + exists x. rewrite lookup_insert_ne by done. auto using row_evolves_refl.
Qed.

Inductive LedgerOp :=
| OpCreateTransaction (t : Transaction)
| OpFinalizeReview (d : ReceiptReviewDraft)
| OpCreateManual (d : ManualDraftBundle)
| OpUpdateTransaction (t : Transaction) (expectedVersion : Z)
| OpSoftDelete (id userID : uuid)
| OpInsertCorrection (c : Correction)
| OpSetPending (p : PendingAction)
| OpGetPending (userID : uuid)
| OpClearPending (userID : uuid).

Section ledger.
Context `{Env}.
#[local] Hint Extern 1 (evolves _ (or_new _)) => refine (or_new_evolves _ _) : evolve.

Definition run_ledger (o : LedgerOp) : Go unit :=
  match o with
  | OpCreateTransaction t => ignore (CreateTransaction t)
  | OpFinalizeReview d => ignore (FinalizeReceiptReview d)
  | OpCreateManual d => ignore (CreateManualDraft d)
  | OpUpdateTransaction t v => ignore (UpdateTransaction t v)
  | OpSoftDelete id u => ignore (SoftDeleteTransaction id u)
  | OpInsertCorrection c => ignore (InsertCorrection c)
  | OpSetPending p => ignore (SetPendingAction p)
  | OpGetPending u => ignore (GetPendingAction u)
  | OpClearPending u => ignore (ClearPendingAction u)
  end.
Definition run_ledgers (ops : list LedgerOp) : Go unit := for_each ops (fun _ o => run_ledger o) tt.

Lemma ledger_stmt_other {A} (f : Stmt A) :
  (forall t d, db_txs (stmt_effect f t d) = db_txs d) -> evolves (on_db ledger_evolve) (stmt f).
Proof.
  intros Hf. apply evolves_stmt; [apply _|]. intros t w. apply ledger_evolve_other, Hf.
Qed.
Lemma ledger_dml_other {A} (f : Time -> DB -> A * DB) :
  (forall t d, db_txs (f t d).2 = db_txs d) -> evolves (on_db ledger_evolve) (dml f).
Proof.
  intros Hf. apply evolves_dml; [apply _|]. intros t w. apply ledger_evolve_other, Hf.
Qed.
Lemma ledger_insert t : evolves (on_db ledger_evolve) (stmt (insert_tx t)).
Proof. apply evolves_stmt; [apply _|]. intros now w. apply ledger_evolve_insert. Qed.
Lemma ledger_update id cond f :
  (forall t, cond t = true -> tx_deleted_at t = None) ->
  (forall now t, tx_id (f now t) = tx_id t /\ tx_user (f now t) = tx_user t /\
     tx_created_at (f now t) = tx_created_at t /\ tx_provider_message (f now t) = tx_provider_message t /\
     tx_version (f now t) = tx_version t + 1) ->
  evolves (on_db ledger_evolve) (stmt (fun now => update_tx id cond (f now))).
Proof.
  intros Hc Hf. apply evolves_stmt; [apply _|]. intros now w. unfold stmt_effect.
  destruct (update_tx id cond (f now) (w_db w)) as [[n d']|e] eqn:Hu; [|by apply ledger_evolve_other].
  eapply ledger_evolve_update; eauto.
Qed.
#[local] Hint Resolve ledger_insert : evolve.

Lemma ledger_predictions op txID preds : evolves (on_db ledger_evolve) (insert_predictions op txID preds).
Proof.
  unfold insert_predictions. go_evolve. apply ledger_stmt_other. intros t d.
  unfold stmt_effect, insert_prediction. repeat case_match; simplify_eq; done.
Qed.
Lemma ledger_fields receiptID fields : evolves (on_db ledger_evolve) (replace_fields receiptID fields).
Proof.
  unfold replace_fields. go_evolve; [by apply ledger_dml_other|]. apply ledger_stmt_other. intros t d.
  unfold stmt_effect, insert_field. repeat case_match; simplify_eq; done.
Qed.
Lemma ledger_insert_pending p : evolves (on_db ledger_evolve) (stmt (insert_pending p)).
Proof.
  apply ledger_stmt_other. intros t d. unfold stmt_effect, insert_pending.
  repeat case_match; simplify_eq; done.
Qed.
Lemma ledger_replace_pending op p txID : evolves (on_db ledger_evolve) (replace_pending op p txID).
Proof. unfold replace_pending. go_evolve; [by apply ledger_dml_other|apply ledger_insert_pending]. Qed.
#[local] Hint Resolve ledger_predictions ledger_fields ledger_insert_pending ledger_replace_pending : evolve.

Lemma ledger_upsert receiptID t : evolves (on_db ledger_evolve) (upsert_review_tx receiptID t).
Proof.
  unfold upsert_review_tx. go_evolve.
  - apply (ledger_update _ _ (fun now => reviewed now t)); [|done].
    intros x Hx. by apply bool_decide_eq_true in Hx.
  - by apply ledger_dml_other.
Qed.
#[local] Hint Resolve ledger_upsert : evolve.

Lemma evolves_run_ledger o : evolves (on_db ledger_evolve) (run_ledger o).
Proof.
  destruct o; simpl; apply evolves_ignore.
  - unfold CreateTransaction. go_evolve.
  - unfold FinalizeReceiptReview. go_evolve. by apply ledger_dml_other.
  - unfold CreateManualDraft, insert_manual. go_evolve.
  - unfold UpdateTransaction. go_evolve. apply (ledger_update _ _ (fun now => edited now t)); [|done].
    intros x [_ Hx]%andb_true_iff. by apply bool_decide_eq_true in Hx.
  - unfold SoftDeleteTransaction, GetTransactionForUser. go_evolve. apply ledger_update; [|done].
    intros x [_ Hx]%andb_true_iff. by apply bool_decide_eq_true in Hx.
  - unfold InsertCorrection. go_evolve. apply ledger_stmt_other. intros t d. unfold stmt_effect.
    repeat case_match; simplify_eq; done.
  - unfold SetPendingAction. go_evolve. by apply ledger_dml_other.
  - unfold GetPendingAction. go_evolve. by apply ledger_dml_other.
  - unfold ClearPendingAction. go_evolve. by apply ledger_dml_other.
Qed.

Lemma evolves_run_ledgers ops : evolves (on_db ledger_evolve) (run_ledgers ops).
Proof. unfold run_ledgers. go_evolve. apply evolves_run_ledger. Qed.
End ledger.

(** ** What the ledger guarantees *)
Section ledger_theorems.
Context `{Env}.
#[local] Hint Extern 1 (evolves _ (or_new _)) => refine (or_new_evolves _ _) : evolve.

(** C32: Under any sequence of ledger operations and any faults, rows keep their
    ids and non-negative amounts, no row is lost or changes owner, a row whose
    content changed has a strictly higher version, and a soft-deleted row never
    changes again. *)
Theorem ledger_invariant (ops : list LedgerOp) (w : World) :
  ledger_ok (w_db w) ->
  let d' := w_db (snd (run_ledgers ops w)) in
  ledger_ok d' /\
  forall id t, db_txs (w_db w) !! id = Some t ->
    exists t', db_txs d' !! id = Some t' /\ tx_user t' = tx_user t /\
      (t' <> t -> tx_version t < tx_version t') /\ (tx_deleted_at t <> None -> t' = t).
Proof.
  intros Hok d'. destruct (evolves_run_ledgers ops w Hok) as [Hok' Hev]. split; [done|].
  intros id t Ht. destruct (Hev id t Ht) as (t' & Ht' & Hu & _ & _ & Hv).
  exists t'. split_and!; [done..| |]; destruct Hv as [->|[? ?]]; done.
Qed.

Lemma UpdateTransaction_Ok t v t' w w' :
  ledger_ok (w_db w) -> UpdateTransaction t v w = (Ok t', w') ->
  exists x, db_txs (w_db w) !! tx_id t = Some x /\ tx_version x = v /\ tx_deleted_at x = None /\
    w_db w' = upd_txs (<[tx_id t := edited (now_sql w) t x]>) (w_db w).
Proof.
  intros Hok Hrun. unfold UpdateTransaction in Hrun. apply bind_Ok in Hrun as (n & w1 & Hs & Hrun).
  apply wrap_err_Ok, stmt_Ok in Hs as (d & Hs & ->). destruct (Z.eqb_spec n 0) as [|Hn]; [done|].
  apply ret_Ok in Hrun as [_ <-]. unfold update_tx in Hs.
  destruct (db_txs (w_db w) !! tx_id t) as [x|] eqn:Hx; [|by simplify_eq].
  destruct (_ && _) eqn:Hc; [|by simplify_eq]. apply andb_true_iff in Hc as [Hv Hd].
  apply bool_decide_eq_true in Hd. destruct (write_tx _ _) as [d1|e] eqn:Hw; [|done]. simplify_eq.
  apply write_tx_Ok in Hw as [-> _]. exists x. split_and!; [done|lia|done|]. simpl.
  by rewrite (proj1 (Hok _ _ Hx)).
Qed.

(** Optimistic concurrency: of two edits that both expect version [v] of a
    row, at most one takes effect.  After a successful [UpdateTransaction], no
    later one for the same row and version succeeds, whatever operations and
    faults come in between. *)
Theorem update_wins_once (t1 t2 r1 : Transaction) (v : Z) (ops : list LedgerOp) (w w1 : World)
    (Hok : ledger_ok (w_db w)) (Hsame : tx_id t2 = tx_id t1)
    (Hfirst : UpdateTransaction t1 v w = (Ok r1, w1)) :
  is_ok (fst (UpdateTransaction t2 v (snd (run_ledgers ops w1)))) = false.
Proof.
  pose proof (UpdateTransaction_Ok _ _ _ _ _ Hok Hfirst) as (x & Hx & Hv & _ & Hdb).
  assert (ledger_ok (w_db w1)) as Hok1.
  { pose proof (evolves_run_ledger (OpUpdateTransaction t1 v) w Hok) as [Hok1 _].
    simpl in Hok1. by rewrite Hfirst in Hok1. }
  pose proof (evolves_run_ledgers ops w1 Hok1) as [Hok2 Hev]. set (w2 := snd (run_ledgers ops w1)) in *.
  destruct (Hev (tx_id t1) (edited (now_sql w) t1 x)) as (y & Hy & _ & _ & _ & Hyv).
  { rewrite Hdb. simpl. by rewrite lookup_insert_eq. }
  assert (v < tx_version y) as Hgt by (destruct Hyv as [->|[Hyv _]]; simpl in *; lia).
  destruct (UpdateTransaction t2 v w2) as [[r2|e] w3] eqn:H2; [|done].
  apply UpdateTransaction_Ok in H2 as (z & Hz & Hzv & _); [|done]. rewrite Hsame, Hy in Hz. simplify_eq. lia.
Qed.

(** A given row stays exactly as it is. *)
Definition untouched (i : uuid) (t : Transaction) (d d' : DB) : Prop :=
  ledger_ok d /\ db_txs d !! i = Some t -> ledger_ok d' /\ db_txs d' !! i = Some t.
#[local] Instance untouched_preorder i t : PreOrder (untouched i t).
Proof. unfold untouched. split; [by intros d|intros d1 d2 d3; auto]. Qed.

Lemma SoftDelete_untouched id userID i t :
  tx_user t <> userID -> evolves (on_db (untouched i t)) (SoftDeleteTransaction id userID).
Proof.
  intros Hne. unfold SoftDeleteTransaction, GetTransactionForUser. go_evolve.
  apply evolves_stmt; [apply _|]. intros now w0 [Hok0 H0]. unfold stmt_effect.
  destruct (update_tx _ _ _ _) as [[n d]|e] eqn:Hu; [|done].
  assert (ledger_evolve (w_db w0) d) as Hev.
  { eapply ledger_evolve_update; [| |exact Hu]; [|done].
    intros x [_ Hx]%andb_true_iff. by apply bool_decide_eq_true in Hx. }
  split; [by apply Hev|]. unfold update_tx in Hu.
  destruct (db_txs (w_db w0) !! id) as [x|] eqn:Hx; [|by simplify_eq].
  destruct (_ && _) eqn:Hc; [|by simplify_eq]. apply andb_true_iff in Hc as [Hxu _].
  apply bool_decide_eq_true in Hxu. destruct (write_tx _ _) as [d1|e] eqn:Hw; [|done]. simplify_eq.
  apply write_tx_Ok in Hw as [-> _]. simpl. rewrite (proj1 (Hok0 _ _ Hx)).
  rewrite lookup_insert_ne; [done|]. intros ->. congruence.
Qed.

(** A user's delete reaches only that user's rows: every ledger row of
    another user is untouched by [SoftDeleteTransaction], and reading a row on
    behalf of a user never yields someone else's. *)
Theorem ledger_isolation (id userID : uuid) (w : World) (Hok : ledger_ok (w_db w)) :
  (forall i t, db_txs (w_db w) !! i = Some t -> tx_user t <> userID ->
     db_txs (w_db (snd (SoftDeleteTransaction id userID w))) !! i = Some t) /\
  (forall t, fst (GetTransactionForUser id userID w) = Ok t ->
     tx_user t = userID /\ db_txs (w_db w) !! id = Some t).
Proof.
  split.
  - intros i t Ht Hne. by apply (SoftDelete_untouched id userID i t Hne w).
  - intros t. unfold GetTransactionForUser. sql_unfold.
    destruct (fault _) as [[? [|]]|]; simpl; try done.
    destruct (db_txs (w_db w) !! id) as [x|]; simpl; [|done]. case_bool_decide; simpl; [|done].
    intros. by simplify_eq.
Qed.

(** The chat state is one slot per user: after [SetPendingAction] succeeds
    for an action that has not expired, [GetPendingAction] without driver errors
    returns that action (its id, kind, row and expiry), and no other action of
    the user remains. *)
Theorem pending_roundtrip (p : PendingAction) (w w' : World)
    (Hset : SetPendingAction p w = (Ok tt, w')) (Hnf : forall n, fault n = None)
    (Hlive : forall n, wall_now n <= pa_expires_at p) :
  exists q, fst (GetPendingAction (pa_user p) w') = Ok q /\ pa_user q = pa_user p /\
    pa_kind q = pa_kind p /\ pa_tx q = pa_tx p /\ pa_expires_at q = pa_expires_at p /\
    (pa_id p <> uuid_nil -> pa_id q = pa_id p) /\
    (forall i x, db_pending (w_db w') !! i = Some x -> pa_user x = pa_user p -> x = q).
Proof.
  unfold SetPendingAction in Hset. apply bind_Ok in Hset as (id & w1 & Hid & Hset).
  apply in_tx_Ok in Hset as (w2 & Hset & ->).
  apply bind_Ok in Hset as ([] & w3 & Hd & Hset). apply wrap_err_Ok, dml_Ok in Hd as [Hd _].
  apply wrap_err_Ok, stmt_Ok in Hset as (d & Hi & ->). unfold insert_pending in Hi.
  destruct (insert_row _ _ _ _) as [m|e] eqn:Hins; [|done]. destruct (bool_decide _ && _); [|done].
  simplify_eq. apply insert_row_ok in Hins as (_ & -> & Hcl). simpl in *.
  set (q := mkPending id (pa_user p) (pa_kind p) (pa_tx p) _ _ _).
  assert (forall i x, <[id:=q]> (db_pending (w_db w3)) !! i = Some x -> pa_user x = pa_user p -> x = q) as Hone.
  { intros i x [[_ <-]|[_ Hx]]%lookup_insert_Some Hu; [done|].
    specialize (Hcl i x Hx). by apply bool_decide_eq_false in Hcl. }
  assert (head (select (fun x => bool_decide (pa_user x = pa_user p)) (<[id:=q]> (db_pending (w_db w3)))) = Some q) as Hh.
  { destruct (select _ _) as [|y l] eqn:Hsel.
    - pose proof (proj1 (select_none _ _) Hsel id q (lookup_insert_eq _ _ _)) as Hf. simpl in Hf.
      by rewrite bool_decide_eq_true_2 in Hf.
    - simpl. f_equal. assert (y ∈ select (fun x => bool_decide (pa_user x = pa_user p)) (<[id:=q]> (db_pending (w_db w3))))
        as (Hy & i & Hyi)%elem_of_select by (rewrite Hsel; constructor).
      apply bool_decide_eq_true in Hy. by apply (Hone i). }
  exists q. unfold GetPendingAction. sql_unfold. rewrite Hnf. simpl. rewrite Hh. simpl.
  rewrite (proj2 (Z.ltb_ge _ _)) by apply Hlive. simpl. split_and!; try done.
  intros Hnil. unfold or_new in Hid. rewrite bool_decide_eq_false_2 in Hid by done.
  apply ret_Ok in Hid as [<- _]. done.
Qed.
End ledger_theorems.

(** ** Witnesses *)
Module LedgerDemo.
Definition env : Env := demo_env no_faults (fun n => Z.of_nat n).
Definition user : User := mkUser 1 UserActive "UTC" "VND" "vi-VN" "consent-v1" (Some 0) 0 0 None.
Definition receipt : ReceiptDocument :=
  mkReceipt 3 1 None "receipts/1/3" "" "image/png" 10 "abc" "" ReceiptExtracting "originals_30d" None 0 0 None.
Definition tx (id : uuid) (rc : option uuid) (status : TxStatus) : Transaction :=
  mkTx id 1 rc None TxExpense None "Grab" "" 50000 "VND" 0 None status TxSourceManual "" None 1 0 0 None None.
Definition db : DB :=
  upd_users (fun _ => {[ 1%N := user ]}) (upd_receipts (fun _ => {[ 3%N := receipt ]})
    (upd_txs (fun _ => {[ 4%N := tx 4 None TxConfirmed ]}) empty_db)).
Definition pending : PendingAction := mkPending 0 1 PendingConfirmExtraction None "" 100000 0.
Definition draft : ReceiptReviewDraft :=
  mkReview ReceiptExtracting (Some (tx 8 (Some 3%N) TxAwaitingConfirmation))
    [mkField 0 3 "total_minor" "50.000" "50000" float_one "" "" "mock" "1" 0]
    [mkPrediction 0 0 "category" "food" float_one "rules" "1" "" 0] (Some pending).

Lemma ledger_db_ok : ledger_ok db.
Proof.
  intros id t. simpl. rewrite lookup_singleton_Some. intros [<- <-]. split; [reflexivity|simpl; lia].
Qed.

Lemma review_atomic_witness :
  review_done draft (tx 8 (Some 3%N) TxAwaitingConfirmation) pending 3 db
    (w_db (snd (@FinalizeReceiptReview env draft (world_of db)))).
Proof.
  destruct (@review_atomic env draft (tx 8 (Some 3%N) TxAwaitingConfirmation) pending 3 (world_of db)
    eq_refl eq_refl eq_refl ltac:(discriminate) (fun id t Ht => proj1 (ledger_db_ok id t Ht))) as [He|Hd];
    [exfalso|exact Hd].
  assert (db_txs (w_db (snd (@FinalizeReceiptReview env draft (world_of db)))) !! 8%N = db_txs db !! 8%N)
    as Hx by (rewrite He; reflexivity).
  vm_compute in Hx. discriminate Hx.
Defined.

Lemma ledger_invariant_witness :
  ledger_ok (w_db (snd (@run_ledgers env [OpFinalizeReview draft; OpSoftDelete 4 1] (world_of db)))).
Proof. refine (proj1 (@ledger_invariant env _ (world_of db) ledger_db_ok)). Defined.

Lemma update_wins_once_witness :
  is_ok (fst (@UpdateTransaction env (tx 4 None TxAmended) 1
    (snd (@run_ledgers env [] (snd (@UpdateTransaction env (tx 4 None TxAmended) 1 (world_of db))))))) = false.
Proof.
  refine (@update_wins_once env (tx 4 None TxAmended) (tx 4 None TxAmended)
    (set_tx_identity 4 2 (tx 4 None TxAmended)) 1 [] (world_of db) _ ledger_db_ok eq_refl _).
  vm_compute. reflexivity.
Defined.

Lemma ledger_isolation_witness :
  db_txs (w_db (snd (@SoftDeleteTransaction env 4 2 (world_of db)))) !! 4%N = Some (tx 4 None TxConfirmed).
Proof.
  refine (proj1 (@ledger_isolation env 4 2 (world_of db) ledger_db_ok) 4%N _ eq_refl _). discriminate.
Defined.

Lemma pending_roundtrip_witness :
  exists q, fst (@GetPendingAction (demo_env no_faults (fun _ => 5)) 1
      (snd (@SetPendingAction (demo_env no_faults (fun _ => 5)) pending (world_of db)))) = Ok q /\
    pa_kind q = PendingConfirmExtraction.
Proof.
  destruct (@pending_roundtrip (demo_env no_faults (fun _ => 5)) pending (world_of db)
    (snd (@SetPendingAction (demo_env no_faults (fun _ => 5)) pending (world_of db))))
    as (q & Hq & _ & Hk & _).
  - vm_compute. reflexivity.
  - intros n. reflexivity.
  - intros n. simpl. lia.
  - exists q. split; [exact Hq|exact Hk].
Defined.
End LedgerDemo.
