(* ===== verification/StoreSchedules.v ===== *)
(** * Summary schedules

    internal/store/schedules.go: the preferences of the scheduled summaries, one
    row per user and frequency.  Shown: the table keeps that shape under every
    sequence of operations and faults, rows are never lost, and the optimistic
    guard of AdvanceSummarySchedule lets one runner through per due instant. *)
From S2P Require Import Prelude GoStrings Domain Db StoreTx.

Section schedules.
Context `{Env}.

Definition valid_frequency (f : SummaryFrequency) : bool :=
  match f with SummaryOther _ => false | _ => true end.
Definition same_schedule (userID : uuid) (f : SummaryFrequency) (s : SummarySchedule) : bool :=
  bool_decide (sch_user s = userID) && bool_decide (sch_frequency s = f).

(** INSERT ... ON CONFLICT (user_id, frequency) DO UPDATE ... RETURNING. *)
Definition upsert_schedule (id : uuid) (p : SummarySchedule) : Stmt SummarySchedule := fun now d =>
  match head (select (same_schedule (sch_user p) (sch_frequency p)) (db_schedules d)) with
  | Some old =>
      let row := mkSchedule (sch_id old) (sch_user old) (sch_frequency old) (sch_minute p) (sch_provider p)
                   (sch_chat p) true (sch_next p) (sch_last old) (sch_created_at old) now in
      Ok (row, upd_schedules (<[sch_id old := row]>) d)
  | None =>
      let row := mkSchedule id (sch_user p) (sch_frequency p) (sch_minute p) (sch_provider p)
                   (sch_chat p) true (sch_next p) None now now in
      match insert_row id row (fun _ => false) (db_schedules d) with
      | Ok m => if bool_decide (db_users d !! sch_user p = None) then Fail foreign_key_violation
                else Ok (row, upd_schedules (fun _ => m) d)
      | Fail e => Fail e
      end
  end.

(** [UpsertSummarySchedule] *)
Definition UpsertSummarySchedule (p : SummarySchedule) : Go SummarySchedule :=
  if (sch_minute p <? 0) || (24 * 60 <=? sch_minute p) then
    fail (E CodeValidation "store.UpsertSummarySchedule: invalid delivery minute" None)
  else if negb (valid_frequency (sch_frequency p)) then
    fail (E CodeValidation "store.UpsertSummarySchedule: invalid frequency" None)
  else
    let* id := or_new (sch_id p) in
    wrap_err (internalErr "UpsertSummarySchedule") (stmt (upsert_schedule id p)).

(** [ListSummarySchedules] *)
Definition frequency_rank (f : SummaryFrequency) : Z :=
  match f with SummaryDaily => 1 | SummaryWeekly => 2 | _ => 3 end.
Definition ListSummarySchedules (userID : uuid) : Go (list SummarySchedule) :=
  wrap_err (internalErr "ListSummarySchedules") (query (fun d =>
    isort (fun a b => frequency_rank (sch_frequency a) <=? frequency_rank (sch_frequency b))
      (select (fun s => bool_decide (sch_user s = userID)) (db_schedules d)))).

(** [ListDueSummarySchedules] *)
Definition live_user (d : DB) (userID : uuid) : bool :=
  match db_users d !! userID with
  | Some u => bool_decide (usr_status u = UserActive) && bool_decide (usr_deleted_at u = None)
  | None => false
  end.
Definition schedule_due (now : Time) (d : DB) (s : SummarySchedule) : bool :=
  sch_enabled s && (sch_next s <=? now) && live_user d (sch_user s).
Definition due_order (a b : SummarySchedule) : bool :=
  (sch_next a <? sch_next b) || ((sch_next a =? sch_next b) && (sch_id a <=? sch_id b)%N).
Definition due_schedules (now : Time) (limit : Z) (d : DB) : list SummarySchedule :=
  let limit := if limit <=? 0 then 100 else limit in
  firstn (Z.to_nat limit) (isort due_order (select (schedule_due now d) (db_schedules d))).
Definition ListDueSummarySchedules (now : Time) (limit : Z) : Go (list SummarySchedule) :=
  wrap_err (internalErr "ListDueSummarySchedules") (query (due_schedules now limit)).

(** [AdvanceSummarySchedule] *)
Definition advance_schedule (id : uuid) (expectedDue next deliveredAt : Time) (now : Time) (d : DB) : Z * DB :=
  let r := update_row id (fun s => sch_enabled s && (sch_next s =? expectedDue)) (fun s =>
             mkSchedule (sch_id s) (sch_user s) (sch_frequency s) (sch_minute s) (sch_provider s) (sch_chat s)
               (sch_enabled s) next (Some deliveredAt) (sch_created_at s) now) (db_schedules d) in
  (r.1, upd_schedules (fun _ => r.2) d).
Definition AdvanceSummarySchedule (id : uuid) (expectedDue next deliveredAt : Time) : Go bool :=
  let* n := wrap_err (internalErr "AdvanceSummarySchedule") (dml (advance_schedule id expectedDue next deliveredAt)) in
  ret (n =? 1).

(** [DisableSummarySchedules] *)
Definition disable_schedules (userID : uuid) (frequency : option SummaryFrequency) (now : Time) (d : DB) : Z * DB :=
  let r := update_where (fun s => bool_decide (sch_user s = userID) && sch_enabled s &&
               match frequency with None => true | Some f => bool_decide (sch_frequency s = f) end) (fun s =>
             mkSchedule (sch_id s) (sch_user s) (sch_frequency s) (sch_minute s) (sch_provider s) (sch_chat s)
               false (sch_next s) (sch_last s) (sch_created_at s) now) (db_schedules d) in
  (r.1, upd_schedules (fun _ => r.2) d).
Definition DisableSummarySchedules (userID : uuid) (frequency : option SummaryFrequency) : Go Z :=
  wrap_err (internalErr "DisableSummarySchedules") (dml (disable_schedules userID frequency)).

(** ** The shape of the table *)
Definition schedules_ok (d : DB) : Prop :=
  (forall id s, db_schedules d !! id = Some s ->
     sch_id s = id /\ 0 <= sch_minute s < 1440 /\ valid_frequency (sch_frequency s) = true) /\
  (forall i j s t, db_schedules d !! i = Some s -> db_schedules d !! j = Some t ->
     sch_user s = sch_user t -> sch_frequency s = sch_frequency t -> i = j).

(** A row keeps its owner, frequency and creation time for ever. *)
Definition schedule_kept (s t : SummarySchedule) : Prop :=
  sch_id t = sch_id s /\ sch_user t = sch_user s /\ sch_frequency t = sch_frequency s /\ sch_created_at t = sch_created_at s.
Definition schedules_evolve (d d' : DB) : Prop :=
  schedules_ok d -> schedules_ok d' /\
  forall id s, db_schedules d !! id = Some s -> exists t, db_schedules d' !! id = Some t /\ schedule_kept s t.

#[export] Instance schedules_evolve_pre : PreOrder schedules_evolve.
Proof.
  split.
  - intros d Hok. split; [done|]. intros id s Hs. exists s. by split.
  - intros d1 d2 d3 H12 H23 Hok. destruct (H12 Hok) as [Hok2 Hk2]. destruct (H23 Hok2) as [Hok3 Hk3].
    split; [done|]. intros id s Hs. destruct (Hk2 id s Hs) as (t & Ht & E1 & E2 & E3 & E4).
    destruct (Hk3 id t Ht) as (u & Hu & F1 & F2 & F3 & F4). exists u. unfold schedule_kept. split_and!; congruence.
Qed.

Lemma schedules_evolve_other d d' : db_schedules d' = db_schedules d -> schedules_evolve d d'.
Proof. intros He Hok. unfold schedules_ok in *. rewrite He. split; [done|]. intros id s Hs. exists s. by split. Qed.

(** Rewriting rows in place. *)
Lemma schedules_evolve_map d m :
  (forall id, (m !! id = None /\ db_schedules d !! id = None) \/
     exists s t, db_schedules d !! id = Some s /\ m !! id = Some t /\ schedule_kept s t /\
       (0 <= sch_minute s < 1440 -> 0 <= sch_minute t < 1440)) ->
  schedules_evolve d (upd_schedules (fun _ => m) d).
Proof.
  intros Hm [Hrow Huniq]. split; [split|]; simpl.
  - intros id t Ht. destruct (Hm id) as [[Hn _]|(s & t' & Hs & Ht' & (E1 & E2 & E3 & E4) & Hmin)]; [congruence|].
    destruct (Hrow id s Hs) as (F1 & F2 & F3). simplify_eq. rewrite E1, E3. auto.
  - intros i j s t Hs Ht Hu Hf.
    destruct (Hm i) as [[Hn _]|(s0 & s' & Hs0 & Hs' & (A1 & A2 & A3 & A4) & _)]; [congruence|].
    destruct (Hm j) as [[Hn _]|(t0 & t' & Ht0 & Ht' & (B1 & B2 & B3 & B4) & _)]; [congruence|].
    simplify_eq. apply (Huniq i j s0 t0 Hs0 Ht0); congruence.
  - intros id s Hs. destruct (Hm id) as [[_ Hn]|(s0 & t & Hs0 & Ht & Hk & _)]; [congruence|].
    simplify_eq. eauto.
Qed.

Lemma evolve_upsert id p now d :
  0 <= sch_minute p < 1440 -> valid_frequency (sch_frequency p) = true ->
  schedules_evolve d (stmt_effect (upsert_schedule id p) now d).
Proof.
  intros Hmin Hfr. unfold stmt_effect, upsert_schedule.
  destruct (head (select (same_schedule (sch_user p) (sch_frequency p)) (db_schedules d))) as [old|] eqn:Hold.
  - intros Hok. apply head_Some_elem_of, elem_of_select in Hold as (_ & k & Hk). destruct (proj1 Hok k old Hk) as (Hid & _).
    revert Hok. apply (schedules_evolve_map d). intros id'. destruct (decide (sch_id old = id')) as [<-|Hne].
    + right. eexists old, _. rewrite lookup_insert_eq, Hid. unfold schedule_kept. by split_and!.
    + rewrite lookup_insert_ne by done. destruct (db_schedules d !! id') as [s|] eqn:Hs; [right|by left].
      exists s, s. by unfold schedule_kept.
  - destruct (insert_row _ _ _ _) as [m|e] eqn:Hins; [|reflexivity]. case_bool_decide; [reflexivity|].
    apply insert_row_ok in Hins as (Hnew & -> & _). intros [Hrow Huniq].
    assert (forall k r, db_schedules d !! k = Some r -> same_schedule (sch_user p) (sch_frequency p) r = false) as Hnone.
    { apply select_none. by destruct (select _ _). }
    assert (forall k r, db_schedules d !! k = Some r -> sch_user r = sch_user p -> sch_frequency r = sch_frequency p -> False) as Hno.
    { intros k r Hk Hu Hf. specialize (Hnone k r Hk). unfold same_schedule in Hnone.
      by rewrite !bool_decide_eq_true_2 in Hnone. }
    split; [split|]; simpl.
    + intros i s [[<- <-]|[Hne Hs]]%lookup_insert_Some; [by simpl; split_and!; try lia|]. by apply Hrow.
    + intros i j s t [[<- <-]|[Hne Hs]]%lookup_insert_Some [[<- <-]|[Hne' Ht]]%lookup_insert_Some Hu Hf; simpl in *; [done|..].
      * exfalso. eapply Hno; eauto.
      * exfalso. eapply Hno; eauto.
      * by apply (Huniq i j s t).
    + intros i s Hs. exists s. rewrite lookup_insert_ne by congruence. by split.
Qed.

Lemma evolve_advance id due next at_ now d : schedules_evolve d (advance_schedule id due next at_ now d).2.
Proof.
  unfold advance_schedule. simpl. apply schedules_evolve_map. intros k. rewrite update_row_lookup.
  destruct (db_schedules d !! k) as [s|] eqn:Hs; [right|left; by case_bool_decide].
  exists s. case_bool_decide; simpl; [destruct (_ && _)|]; eexists; (split; [done|]); (split; [done|]); by unfold schedule_kept.
Qed.

Lemma evolve_disable u f now d : schedules_evolve d (disable_schedules u f now d).2.
Proof.
  unfold disable_schedules. simpl. apply schedules_evolve_map. intros k. rewrite lookup_fmap.
  destruct (db_schedules d !! k) as [s|] eqn:Hs; [right|by left]. exists s. simpl.
  destruct (_ && _); eexists; (split; [done|]); (split; [done|]); by unfold schedule_kept.
Qed.

(** ** Any sequence of operations *)
Inductive ScheduleOp :=
| OpUpsertSchedule (p : SummarySchedule)
| OpListSchedules (userID : uuid)
| OpDueSchedules (now : Time) (limit : Z)
| OpAdvance (id : uuid) (expectedDue next deliveredAt : Time)
| OpDisable (userID : uuid) (frequency : option SummaryFrequency).
Definition run_schedule (o : ScheduleOp) : Go unit :=
  match o with
  | OpUpsertSchedule p => ignore (UpsertSummarySchedule p)
  | OpListSchedules u => ignore (ListSummarySchedules u)
  | OpDueSchedules now limit => ignore (ListDueSummarySchedules now limit)
  | OpAdvance id e n a => ignore (AdvanceSummarySchedule id e n a)
  | OpDisable u f => ignore (DisableSummarySchedules u f)
  end.
Definition run_schedules (ops : list ScheduleOp) : Go unit := for_each ops (fun _ o => run_schedule o) tt.

#[local] Hint Extern 1 (evolves _ (or_new _)) => refine (or_new_evolves _ _) : evolve.
Lemma evolves_run_schedule o : evolves (on_db schedules_evolve) (run_schedule o).
Proof.
  destruct o as [p|u|now limit|id e n a|u f]; simpl; apply evolves_ignore.
  - unfold UpsertSummarySchedule. destruct ((_ <? 0) || _) eqn:Hm; [go_evolve|].
    apply orb_false_iff in Hm as [H1%Z.ltb_ge H2%Z.leb_gt]. destruct (valid_frequency _) eqn:Hf; simpl; [|go_evolve].
    apply evolves_bind; [apply _|apply or_new_evolves; apply _|]. intros id. apply evolves_wrap_err, evolves_stmt; [apply _|].
    intros t w. apply evolve_upsert; [lia|done].
  - unfold ListSummarySchedules. go_evolve.
  - unfold ListDueSummarySchedules. go_evolve.
  - unfold AdvanceSummarySchedule. apply evolves_bind; [apply _| |intros; go_evolve].
    apply evolves_wrap_err, evolves_dml; [apply _|]. intros. apply evolve_advance.
  - apply evolves_wrap_err, evolves_dml; [apply _|]. intros. apply evolve_disable.
Qed.

(** The schedule table keeps its shape.  Whatever sequence of schedule
    operations runs, with whatever faults, ids, minutes (0 to 1439) and frequencies
    stay valid, there is one row per user and frequency, and no row is lost or
    changes its owner, frequency or creation time. *)
Theorem schedule_invariant (ops : list ScheduleOp) (w : World) (Hok : schedules_ok (w_db w)) :
  let d' := w_db (snd (run_schedules ops w)) in
  schedules_ok d' /\
  forall id s, db_schedules (w_db w) !! id = Some s -> exists t, db_schedules d' !! id = Some t /\ schedule_kept s t.
Proof.
  cbv zeta. assert (evolves (on_db schedules_evolve) (run_schedules ops)) as He.
  { apply evolves_for_each; [apply _|]. intros _ o. apply evolves_run_schedule. }
  by apply (He w).
Qed.

(** A successful advance consumed exactly the due instant it expected, so two
    runners that saw the same instant cannot both advance, unless the next one is
    not later. *)
Lemma AdvanceSummarySchedule_Ok id due next at_ b w w' :
  AdvanceSummarySchedule id due next at_ w = (Ok b, w') ->
  w_db w' = (advance_schedule id due next at_ (now_sql w) (w_db w)).2 /\
  b = ((advance_schedule id due next at_ (now_sql w) (w_db w)).1 =? 1).
Proof.
  intros Hrun. unfold AdvanceSummarySchedule in Hrun. inv_runs.
  match goal with Hd : dml _ _ = _ |- _ => apply dml_Ok in Hd as [-> _] end. done.
Qed.
Lemma UpsertSummarySchedule_Ok p s w w' : UpsertSummarySchedule p w = (Ok s, w') -> sch_id p <> uuid_nil ->
  0 <= sch_minute p < 1440 /\ upsert_schedule (sch_id p) p (now_sql w) (w_db w) = Ok (s, w_db w').
Proof.
  unfold UpsertSummarySchedule. destruct ((_ <? 0) || _) eqn:Hm; [done|]. apply orb_false_iff in Hm as [H1%Z.ltb_ge H2%Z.leb_gt].
  destruct (negb _); [done|]. intros Hrun Hid. apply bind_Ok in Hrun as (id & w1 & Hi & Hrun).
  unfold or_new in Hi. rewrite bool_decide_eq_false_2 in Hi by done. apply ret_Ok in Hi as [<- <-].
  apply wrap_err_Ok, stmt_Ok in Hrun as (d & Hd & ->). split; [lia|done].
Qed.
End schedules.

Module ScheduleDemo.
Definition env : Env := demo_env no_faults (fun n => Z.of_nat n).
Definition user : User := mkUser 1 UserActive "UTC" "VND" "vi-VN" "consent-v1" (Some 0) 0 0 None.
Definition daily (minute : Z) : SummarySchedule := mkSchedule 0 1 SummaryDaily minute "zalo_bot" "chat" true 1000 None 0 0.
Definition db : DB := upd_users (fun _ => {[1%N := user]}) empty_db.
(** Set twice, advanced and switched off: one row. *)
Definition ops : list ScheduleOp :=
  [OpUpsertSchedule (daily 480); OpUpsertSchedule (daily 600); OpAdvance 1000 1000 2000 5; OpDisable 1 None].
Lemma schedule_invariant_witness :
  schedules_ok (w_db (snd (@run_schedules env ops (world_of db)))) /\
  rows (db_schedules (w_db (snd (@run_schedules env ops (world_of db))))) =
    [mkSchedule 1000 1 SummaryDaily 600 "zalo_bot" "chat" false 2000 (Some 5) 1 5].
Proof.
  split; [|vm_compute; reflexivity].
  refine (proj1 (@schedule_invariant env ops (world_of db) _)). split; [intros id s Hs|intros i j s t Hs]; simpl in Hs; by rewrite lookup_empty in Hs.
Defined.
End ScheduleDemo.
