(* ===== verification/StoreCatalog.v ===== *)
(** * Merchants, rules and categories

    internal/store/merchants.go and categories.go: the shared merchant
    directory with its aliases, each user's learned rules, and the category
    taxonomy. *)
From Stdlib Require Import Ascii SpecFloat.
From S2P Require Import Prelude GoStrings Domain Db StoreTx.

(** ** LIKE patterns *)

(** [escapeLike] *)
Definition like_meta (c : ascii) : bool := Ascii.eqb c "\" || Ascii.eqb c "%" || Ascii.eqb c "_".
Fixpoint escapeLike (s : string) : string :=
  match s with
  | "" => ""
  | String c s' => if like_meta c then String "\" (String c (escapeLike s')) else String c (escapeLike s')
  end.

(** PostgreSQL's LIKE with ESCAPE '\': [%] any text, [_] one character, a
    backslash takes the next character literally. *)
Fixpoint skip_cont (s : string) : string :=
  match s with
  | "" => ""
  | String c s' => if cont c then skip_cont s' else s
  end.
Fixpoint like (p : string) : string -> bool :=
  match p with
  | "" => fun s => String.eqb s ""
  | String c p' =>
      if Ascii.eqb c "%" then
        fix any (s : string) : bool :=
          like p' s || match s with "" => false | String _ s' => any s' end
      else if Ascii.eqb c "_" then fun s => match s with "" => false | String _ s' => like p' (skip_cont s') end
      else if Ascii.eqb c "\" then
        match p' with
        | "" => fun _ => false
        | String d p'' => fun s => match s with "" => false | String x s' => Ascii.eqb x d && like p'' s' end
        end
      else fun s => match s with "" => false | String x s' => Ascii.eqb x c && like p' s' end
  end.

Section catalog.
Context `{Env}.

(** [FindMerchantByNormalisedName], [FindMerchantByAlias] *)
Definition merchant_named (key : string) (d : DB) : option Merchant :=
  head (select (fun m => String.eqb (mer_normalised m) key) (db_merchants d)).
Definition FindMerchantByNormalisedName (key : string) : Go Merchant :=
  let* row := wrap_err (internalErr "FindMerchantByNormalisedName") (query (merchant_named key)) in
  match row with
  | None => fail (notFound "FindMerchantByNormalisedName" "merchant")
  | Some m => ret m
  end.
Definition alias_named (key : string) (d : DB) : option MerchantAlias :=
  head (select (fun a => String.eqb (ali_normalised a) key) (db_aliases d)).
Definition FindMerchantByAlias (key : string) : Go Merchant :=
  let* row := wrap_err (internalErr "FindMerchantByAlias") (query (fun d =>
      a ← alias_named key d; db_merchants d !! ali_merchant a)) in
  match row with
  | None => fail (notFound "FindMerchantByAlias" "merchant")
  | Some m => ret m
  end.

(** [FindMerchantFuzzy]; ILIKE compares after lower-casing both sides, and
    length() counts characters. *)
Definition ilike (pattern s : string) : bool := like (sql_lower pattern) (sql_lower s).
Definition longest_name (a b : Merchant) : bool :=
  (length (runes (mer_normalised b)) <=? length (runes (mer_normalised a)))%nat.
Definition FindMerchantFuzzy (key : string) : Go Merchant :=
  let pattern := "%" ++ escapeLike key ++ "%" in
  let* row := wrap_err (internalErr "FindMerchantFuzzy") (query (fun d =>
      argmin longest_name (select (fun m => ilike pattern (mer_normalised m)) (db_merchants d)))) in
  match row with
  | None => fail (notFound "FindMerchantFuzzy" "merchant")
  | Some m => ret m
  end.

(** [CreateMerchant]: a concurrent creation returns the existing row. *)
Definition insert_merchant (id : uuid) (canonical key family : string) : Stmt Merchant := fun now d =>
  match merchant_named key d with
  | Some m => Ok (m, d)
  | None =>
      let m := mkMerchant id canonical key family now in
      match insert_row id m (fun _ => false) (db_merchants d) with
      | Ok t => Ok (m, upd_merchants (fun _ => t) d)
      | Fail e => Fail e
      end
  end.
Definition CreateMerchant (canonical key family : string) : Go Merchant :=
  let* id := uuid_New in
  wrap_err (internalErr "CreateMerchant") (stmt (insert_merchant id canonical key family)).

(** [AddMerchantAlias]: duplicates are a no-op. *)
Definition insert_alias (a : MerchantAlias) : Stmt unit := fun _ d =>
  match alias_named (ali_normalised a) d with
  | Some _ => Ok (tt, d)
  | None =>
      if negb (existsb (String.eqb (ali_source a)) ["seed"; "extraction"; "user"]) then Fail check_violation
      else match insert_row (ali_id a) a (fun _ => false) (db_aliases d) with
           | Ok t => if bool_decide (db_merchants d !! ali_merchant a = None) then Fail foreign_key_violation
                     else Ok (tt, upd_aliases (fun _ => t) d)
           | Fail e => Fail e
           end
  end.
Definition AddMerchantAlias (merchantID : uuid) (alias key source : string) : Go unit :=
  let* id := uuid_New in
  wrap_err (internalErr "AddMerchantAlias") (stmt (insert_alias (mkAlias id merchantID alias key source))).

(** [GetUserMerchantRule], [UpsertUserMerchantRule]: the sample count is a delta. *)
Definition GetUserMerchantRule (userID merchantID : uuid) : Go UserMerchantRule :=
  let* row := wrap_err (internalErr "GetUserMerchantRule") (query (fun d => db_rules d !! (userID, merchantID))) in
  match row with
  | None => fail (notFound "GetUserMerchantRule" "rule")
  | Some r => ret r
  end.
Definition upsert_rule (r : UserMerchantRule) : Stmt unit := fun _ d =>
  let key := (rule_user r, rule_merchant r) in
  let old := match db_rules d !! key with Some x => rule_samples x | None => 0 end in
  if negb (confidence_ok (rule_confidence r)) then Fail check_violation
  else if bool_decide (db_users d !! rule_user r <> None) && bool_decide (db_merchants d !! rule_merchant r <> None)
          && ref_ok (db_categories d) (rule_category r)
  then Ok (tt, upd_rules (<[key := mkRule (rule_user r) (rule_merchant r) (rule_category r) (rule_type r)
                                    (old + rule_samples r) (rule_confidence r) (rule_confirmed_at r)]>) d)
  else Fail foreign_key_violation.
Definition UpsertUserMerchantRule (r : UserMerchantRule) : Go unit :=
  wrap_err (internalErr "UpsertUserMerchantRule") (stmt (upsert_rule r)).

(** ** Categories *)
Definition key_order (a b : Category) : bool := String.leb (cat_key a) (cat_key b).
Definition ListCategories : Go (list Category) :=
  wrap_err (internalErr "ListCategories") (query (fun d => isort key_order (rows (db_categories d)))).
Definition GetCategoryByKey (key : string) : Go Category :=
  let* row := wrap_err (internalErr "GetCategoryByKey") (query (fun d =>
      head (select (fun c => String.eqb (cat_key c) key) (db_categories d)))) in
  match row with
  | None => fail (notFound "GetCategoryByKey" "category")
  | Some c => ret c
  end.
Definition GetCategoryByID (id : uuid) : Go Category :=
  let* row := wrap_err (internalErr "GetCategoryByID") (query (fun d => db_categories d !! id)) in
  match row with
  | None => fail (notFound "GetCategoryByID" "category")
  | Some c => ret c
  end.
End catalog.

(** ** The fuzzy search is a substring search *)
Lemma like_percent p s :
  like (String "%" p) s = like p s || match s with "" => false | String _ s' => like (String "%" p) s' end.
Proof. by destruct s. Qed.

Lemma like_percent_end s : like "%" s = true.
Proof. induction s as [|c s IH]; [done|]. rewrite like_percent, IH. apply orb_true_r. Qed.

Lemma like_escaped key s : like (escapeLike key ++ "%") s = HasPrefix s key.
Proof.
  revert s. induction key as [|c key IH]; intros s.
  { change (like "%" s = String.prefix "" s). rewrite like_percent_end. by destruct s. }
  assert (like (escapeLike (String c key) ++ "%") s =
          match s with "" => false | String x s' => Ascii.eqb x c && like (escapeLike key ++ "%") s' end) as ->.
  { cbn [escapeLike]. destruct (like_meta c) eqn:Hm; [done|]. unfold like_meta in Hm.
    apply orb_false_iff in Hm as [[Hb Hp]%orb_false_iff Hu].
    change (like (String c (escapeLike key ++ "%")) s = match s with "" => false | String x s' =>
      Ascii.eqb x c && like (escapeLike key ++ "%") s' end).
    cbn [like]. by rewrite Hb, Hp, Hu. }
  destruct s as [|x s]; [done|]. rewrite IH. unfold HasPrefix. simpl.
  destruct (Ascii.ascii_dec c x) as [->|Hne]; [by rewrite Ascii.eqb_refl|].
  destruct (Ascii.eqb_spec x c); [congruence|done].
Qed.

(** User text never acts as a pattern: after [escapeLike], the fuzzy
    merchant search's LIKE pattern matches exactly the names that contain the
    key literally, whatever percent signs, underscores or backslashes it has. *)
Theorem escapeLike_literal (key name : string) :
  like ("%" ++ escapeLike key ++ "%") name = Contains name key.
Proof.
  change ("%" ++ escapeLike key ++ "%") with (String "%" (escapeLike key ++ "%")).
  induction name as [|c name IH]; rewrite like_percent, like_escaped; [by destruct key|].
  rewrite IH. done.
Qed.

(** ** Frames *)
Section catalog_frame.
Context `{Env} (R : relation World) `{!Quiet R}.
Context (Hm : forall w m, R w (set_db (upd_merchants (fun _ => m) (w_db w)) w)).
Context (Ha : forall w m, R w (set_db (upd_aliases (fun _ => m) (w_db w)) w)).

Lemma frame_CreateMerchant c k f : evolves R (CreateMerchant c k f).
Proof.
  unfold CreateMerchant. go_evolve. apply evolves_stmt; [apply _|]. intros t w. unfold stmt_effect, insert_merchant.
  destruct (merchant_named _ _); [by destruct w|]. destruct (insert_row _ _ _ _); [apply Hm|by destruct w].
Qed.
Lemma frame_AddMerchantAlias m a k s : evolves R (AddMerchantAlias m a k s).
Proof.
  unfold AddMerchantAlias. go_evolve. apply evolves_stmt; [apply _|]. intros t w. unfold stmt_effect, insert_alias.
  destruct (alias_named _ _); [by destruct w|]. destruct (negb _); [by destruct w|].
  destruct (insert_row _ _ _ _); [|by destruct w]. destruct (bool_decide _); [by destruct w|apply Ha].
Qed.
Lemma frame_catalog_reads :
  (forall k, evolves R (FindMerchantByNormalisedName k)) /\ (forall k, evolves R (FindMerchantByAlias k)) /\
  (forall k, evolves R (FindMerchantFuzzy k)) /\ (forall u m, evolves R (GetUserMerchantRule u m)) /\
  (forall k, evolves R (GetCategoryByKey k)) /\ (forall i, evolves R (GetCategoryByID i)).
Proof.
  split_and!; intros; unfold FindMerchantByNormalisedName, FindMerchantByAlias, FindMerchantFuzzy,
    GetUserMerchantRule, GetCategoryByKey, GetCategoryByID; go_evolve.
Qed.
End catalog_frame.
