(* ===== verification/Categorisation.v ===== *)
(** * Categorisation

    internal/categorisation: merchant resolution, category and type
    suggestions, and learning from confirmations.  [Categoriser] is what the
    receipt pipeline and the chat handlers rely on; the service implements it. *)
From Stdlib Require Import Ascii SpecFloat.
From S2P Require Import Prelude GoStrings Domain Db GoTime Normalise StoreTx StoreCatalog.

(** ** float64 arithmetic *)
Definition f64_add : float64 -> float64 -> float64 := SFadd 53 1024.
Definition f64_mul : float64 -> float64 -> float64 := SFmul 53 1024.
Definition f64_of_Z (z : Z) : float64 := binary_normalize 53 1024 z 0 false.
Definition f64_0_1 : float64 := S754_finite false 7205759403792794 (-56).
Definition f64_0_3 : float64 := S754_finite false 5404319552844595 (-54).
Definition f64_0_5 : float64 := S754_finite false 4503599627370496 (-53).
Definition f64_0_6 : float64 := S754_finite false 5404319552844595 (-53).
Definition f64_0_7 : float64 := S754_finite false 6305039478318694 (-53).
Definition f64_0_9 : float64 := S754_finite false 8106479329266893 (-53).
Definition f64_0_95 : float64 := S754_finite false 8556839292003942 (-53).

Inductive MatchKind := MatchAlias | MatchCanonical | MatchFuzzy | MatchCreated | MatchNone.
Definition match_kind_string (k : MatchKind) : string :=
  match k with
  | MatchAlias => "alias" | MatchCanonical => "canonical" | MatchFuzzy => "fuzzy"
  | MatchCreated => "created" | MatchNone => "none"
  end.

Record Suggestion := mkSuggestion {
  sug_category : option uuid; sug_key : string; sug_display : string; sug_confidence : float64;
  sug_source : string; sug_reason : string }.
Definition no_suggestion : Suggestion := mkSuggestion None "" "" float_zero "" "".

(** Confidence floor for applying a learned rule. *)
Definition UserRuleApplyConfidence : float64 := f64_0_7.

(** [ruleConfidence] *)
Definition ruleConfidence (n : Z) : float64 :=
  let c := f64_add f64_0_6 (f64_mul f64_0_1 (f64_of_Z (n - 1))) in
  let c := if SFltb f64_0_95 c then f64_0_95 else c in
  if SFltb c float_zero then float_zero else c.

(** What clients rely on: the two merchant tables are all that resolving and
    suggesting may write. *)
Class Categoriser `{Env} := {
  cat_ResolveMerchant : string -> Go (option Merchant * MatchKind);
  cat_SuggestCategory : uuid -> option Merchant -> string -> float64 -> Go Suggestion;
  cat_SuggestType : uuid -> option Merchant -> TxType -> bool -> Go (TxType * float64 * string);
  cat_frame : forall (R : relation World), Quiet R ->
    (forall w m, R w (set_db (upd_merchants (fun _ => m) (w_db w)) w)) ->
    (forall w m, R w (set_db (upd_aliases (fun _ => m) (w_db w)) w)) ->
    (forall raw, evolves R (cat_ResolveMerchant raw)) /\
    (forall u m k c, evolves R (cat_SuggestCategory u m k c)) /\
    (forall u m h b, evolves R (cat_SuggestType u m h b))
}.

Section service.
Context `{Env}.

(** [st.Find...]: a missing row is not an error. *)
Definition or_missing {A B} (m : Go A) (found : A -> Go B) (missing : Go B) : Go B :=
  let* r := attempt m in
  match r with
  | Ok a => found a
  | Fail err => if IsCode err CodeNotFound then missing else fail err
  end.

(** [Service.ResolveMerchant] *)
Definition ResolveMerchant (rawName : string) : Go (option Merchant * MatchKind) :=
  let dk := NormaliseMerchant rawName in
  let display := dk.1 in
  let key := dk.2 in
  if String.eqb key "" then ret (None, MatchNone)
  else
    or_missing (FindMerchantByAlias key) (fun m => ret (Some m, MatchAlias)) (
    or_missing (FindMerchantByNormalisedName key) (fun m => ret (Some m, MatchCanonical)) (
    or_missing (FindMerchantFuzzy key) (fun m => ret (Some m, MatchFuzzy)) (
      let* m := CreateMerchant display key "" in
      AddMerchantAlias (mer_id m) display key "extraction" ;;;
      ret (Some m, MatchCreated)))).

(** [Service.findCategory] *)
Definition findCategory (id : uuid) : Go (option Category) :=
  or_missing (GetCategoryByID id) (fun c => ret (Some c)) (ret None).

Definition suggest (c : Category) (conf : float64) (source reason : string) : Suggestion :=
  mkSuggestion (Some (cat_id c)) (cat_key c) (cat_display c) conf source reason.

(** Step 1 of [SuggestCategory]: the user's learned rule, when strong enough. *)
Definition rule_suggestion (userID : uuid) (m : option Merchant) : Go (option Suggestion) :=
  match m with
  | None => ret None
  | Some m =>
      or_missing (GetUserMerchantRule userID (mer_id m)) (fun rule =>
        match rule_category rule with
        | Some cid =>
            if SFleb UserRuleApplyConfidence (rule_confidence rule) then
              let* cat := findCategory cid in
              ret (match cat with
                   | Some c => Some (suggest c (rule_confidence rule) "user_rule"
                                       ("Bạn thường xếp " ++ mer_canonical m ++ " vào " ++ cat_display c))
                   | None => None
                   end)
            else ret None
        | None => ret None
        end) (ret None)
  end.

(** [Service.SuggestCategory] *)
Definition SuggestCategory (userID : uuid) (m : option Merchant) (extractionKey : string)
    (extractionConf : float64) : Go Suggestion :=
  let default_category :=
    or_missing (GetCategoryByKey "khac") (fun c => ret (suggest c f64_0_3 "default" "")) (ret no_suggestion) in
  let* learned := rule_suggestion userID m in
  match learned with
  | Some s => ret s
  | None =>
      if String.eqb extractionKey "" then default_category
      else or_missing (GetCategoryByKey extractionKey)
             (fun c => ret (suggest c extractionConf "extraction" "")) default_category
  end.

(** [Service.SuggestType]: a failed rule read degrades to the default. *)
Definition SuggestType (userID : uuid) (m : option Merchant) (hint : TxType) (hintMatched : bool) :
    Go (TxType * float64 * string) :=
  let fallback := (TxExpense, f64_0_5, "default") in
  if hintMatched then ret (hint, f64_0_9, "extraction_hint")
  else match m with
       | None => ret fallback
       | Some m =>
           let* r := attempt (GetUserMerchantRule userID (mer_id m)) in
           ret (match r with
                | Ok rule =>
                    if SFleb UserRuleApplyConfidence (rule_confidence rule) &&
                       negb (bool_decide (rule_type rule = TxTypeUnset))
                    then (rule_type rule, rule_confidence rule, "user_rule") else fallback
                | Fail _ => fallback
                end)
       end.

(** [Service.LearnFromConfirmation] *)
Definition LearnFromConfirmation (userID : uuid) (tx : Transaction) : Go unit :=
  match tx_merchant tx with
  | None => ret tt
  | Some mid =>
      let* count := or_missing (GetUserMerchantRule userID mid) (fun r => ret (rule_samples r)) (ret 0) in
      let* now := clk_Now in
      UpsertUserMerchantRule (mkRule userID mid (tx_category tx) (tx_type tx) 1 (ruleConfidence (count + 1)) now)
  end.

Lemma evolves_or_missing {A B} (R : relation World) `{!Quiet R} (m : Go A) (f : A -> Go B) g :
  evolves R m -> (forall a, evolves R (f a)) -> evolves R g -> evolves R (or_missing m f g).
Proof. intros Hm Hf Hg. unfold or_missing. go_evolve; auto. Qed.

#[global] Program Instance service_categoriser : Categoriser := {
  cat_ResolveMerchant := ResolveMerchant;
  cat_SuggestCategory := SuggestCategory;
  cat_SuggestType := SuggestType }.
Next Obligation.
  intros R HQ Hm Ha. destruct (frame_catalog_reads R) as (H1 & H2 & H3 & H4 & H5 & H6).
  split_and!; intros.
  - unfold ResolveMerchant. cbv zeta. destruct (String.eqb _ _); [by go_evolve|].
    repeat (apply evolves_or_missing; [done|auto|intros; by go_evolve|]).
    go_evolve; [by apply frame_CreateMerchant|by apply frame_AddMerchantAlias].
  - unfold SuggestCategory, rule_suggestion, findCategory. cbv zeta.
    go_evolve; repeat (apply evolves_or_missing; [done|auto|intros|]; go_evolve).
  - unfold SuggestType. go_evolve; auto.
Qed.
End service.

(** [GuessCategoryKey] *)
Definition guess_rules : list (string * string) :=
  [("ca phe", "an-uong"); ("cafe", "an-uong"); ("tra sua", "an-uong"); ("an sang", "an-uong");
   ("an trua", "an-uong"); ("an toi", "an-uong"); (" an ", "an-uong"); ("com ", "an-uong");
   ("pho ", "an-uong"); ("bun ", "an-uong"); ("do an", "an-uong"); ("nuoc uong", "an-uong");
   (" cho ", "thuc-pham"); ("sieu thi", "thuc-pham"); ("tap hoa", "thuc-pham");
   ("rau ", "thuc-pham"); ("thit ", "thuc-pham"); ("grab", "di-lai"); ("taxi", "di-lai");
   ("xang", "di-lai"); ("xe buyt", "di-lai"); ("gui xe", "di-lai"); ("ve xe", "di-lai");
   ("di lai", "di-lai"); ("tau ", "di-lai"); ("may bay", "di-lai"); ("hoa don", "hoa-don");
   ("tien dien", "hoa-don"); ("tien nuoc", "hoa-don"); ("internet", "hoa-don");
   ("wifi", "hoa-don"); ("dien thoai", "hoa-don"); ("shopee", "mua-sam"); ("lazada", "mua-sam");
   ("mua sam", "mua-sam"); ("quanao", "mua-sam"); (" ao ", "mua-sam"); ("quan ", "mua-sam");
   ("thuoc", "suc-khoe"); ("benh vien", "suc-khoe"); ("kham ", "suc-khoe"); ("phim", "giai-tri");
   ("game", "giai-tri"); ("karaoke", "giai-tri"); ("sach", "giao-duc"); ("hoc phi", "giao-duc");
   ("khoa hoc", "giao-duc"); ("tien nha", "nha-o"); ("thue nha", "nha-o"); ("luong", "thu-nhap");
   ("thuong", "thu-nhap")].
Definition GuessCategoryKey `{UnicodeCase} (desc : string) : string :=
  let key := (NormaliseMerchant desc).2 in
  if String.eqb key "" then ""
  else match List.find (fun r => Contains (" " ++ key ++ " ") r.1) guess_rules with
       | Some (_, category) => category
       | None => ""
       end.

(** ** Resolution is stable *)
Section resolution.
Context `{Env}.

Lemma or_missing_Ok {A B} (m : Go A) (f : A -> Go B) g w b w' : or_missing m f g w = (Ok b, w') ->
  (exists a w1, m w = (Ok a, w1) /\ f a w1 = (Ok b, w')) \/
  (exists e w1, m w = (Fail e, w1) /\ IsCode e CodeNotFound = true /\ g w1 = (Ok b, w')).
Proof.
  unfold or_missing. intros Hrun. unfold bind, attempt in Hrun. destruct (m w) as [[a|e] w1]; simpl in Hrun; [by left; eauto|].
  destruct (IsCode e CodeNotFound) eqn:Hc; [right; by eauto|done].
Qed.
Lemma or_missing_find {A B} op what (q : DB -> option A) (f : A -> Go B) g w :
  fault (w_tick w) = None ->
  or_missing (find_row op what q) f g w = match q (w_db w) with Some a => f a (tick w) | None => g (tick w) end.
Proof.
  intros Hf. unfold or_missing, bind, attempt. rewrite find_row_run by done. by destruct (q (w_db w)).
Qed.
Lemma or_missing_find_Ok {A B} op what (q : DB -> option A) (f : A -> Go B) g w b w' :
  or_missing (find_row op what q) f g w = (Ok b, w') ->
  match q (w_db w) with Some a => f a (tick w) | None => g (tick w) end = (Ok b, w').
Proof.
  intros [(a & w1 & [-> ->]%find_row_Ok & Hr)|(e & w1 & Hm & Hc & Hr)]%or_missing_Ok; [done|].
  by destruct (find_row_missing _ _ _ _ _ _ Hm Hc) as [-> ->].
Qed.

(** The three lookups as functions of the tables. *)
Definition by_alias (key : string) (d : DB) : option Merchant := a ← alias_named key d; db_merchants d !! ali_merchant a.
Definition by_likeness (key : string) (d : DB) : option Merchant :=
  argmin longest_name (select (fun m => ilike ("%" ++ escapeLike key ++ "%") (mer_normalised m)) (db_merchants d)).
Definition known (key : string) (d : DB) : option (Merchant * MatchKind) :=
  match by_alias key d, merchant_named key d, by_likeness key d with
  | Some m, _, _ => Some (m, MatchAlias)
  | None, Some m, _ => Some (m, MatchCanonical)
  | None, None, Some m => Some (m, MatchFuzzy)
  | None, None, None => None
  end.
Definition learn_merchant (display key : string) : Go (option Merchant * MatchKind) :=
  let* m := CreateMerchant display key "" in
  AddMerchantAlias (mer_id m) display key "extraction" ;;; ret (Some m, MatchCreated).

Lemma ResolveMerchant_Ok raw r w w' : ResolveMerchant raw w = (Ok r, w') ->
  let key := (NormaliseMerchant raw).2 in
  (key = "" /\ r = (None, MatchNone) /\ w' = w) \/
  (key <> "" /\ exists w1, w_db w1 = w_db w /\
    match known key (w_db w) with
    | Some (m, k) => r = (Some m, k) /\ w' = w1
    | None => learn_merchant (NormaliseMerchant raw).1 key w1 = (Ok r, w')
    end).
Proof.
  unfold ResolveMerchant. cbv zeta. destruct (String.eqb_spec (NormaliseMerchant raw).2 "") as [He|Hne].
  { intros [<- <-]%ret_Ok. by left. }
  set (key := (NormaliseMerchant raw).2) in *. set (disp := (NormaliseMerchant raw).1). intros Hrun. right. split; [done|].
  apply (or_missing_find_Ok "FindMerchantByAlias" "merchant" (by_alias key)) in Hrun. unfold known.
  destruct (by_alias key (w_db w)); [apply ret_Ok in Hrun as [<- <-]; by exists (tick w)|].
  apply (or_missing_find_Ok "FindMerchantByNormalisedName" "merchant" (merchant_named key)) in Hrun. simpl in Hrun.
  destruct (merchant_named key (w_db w)); [apply ret_Ok in Hrun as [<- <-]; by exists (tick (tick w))|].
  apply (or_missing_find_Ok "FindMerchantFuzzy" "merchant" (by_likeness key)) in Hrun. simpl in Hrun.
  destruct (by_likeness key (w_db w)); [apply ret_Ok in Hrun as [<- <-]; by exists (tick (tick (tick w)))|].
  by exists (tick (tick (tick w))).
Qed.

Lemma ResolveMerchant_known raw m k w (N : nat) : (forall n, (N <= n)%nat -> fault n = None) -> late N w ->
  (NormaliseMerchant raw).2 <> "" -> known (NormaliseMerchant raw).2 (w_db w) = Some (m, k) ->
  exists w', ResolveMerchant raw w = (Ok (Some m, k), w') /\ w_db w' = w_db w.
Proof.
  intros Hnf Hl Hne Hk. unfold ResolveMerchant. cbv zeta.
  destruct (String.eqb_spec (NormaliseMerchant raw).2 "") as [|_]; [done|].
  set (key := (NormaliseMerchant raw).2) in *. unfold known in Hk. unfold late in Hl.
  change (FindMerchantByAlias key) with (find_row "FindMerchantByAlias" "merchant" (by_alias key)).
  change (FindMerchantByNormalisedName key) with (find_row "FindMerchantByNormalisedName" "merchant" (merchant_named key)).
  change (FindMerchantFuzzy key) with (find_row "FindMerchantFuzzy" "merchant" (by_likeness key)).
  rewrite or_missing_find by auto. destruct (by_alias key (w_db w)); [simplify_eq; by eexists|].
  rewrite or_missing_find by (apply Hnf; simpl; lia). simpl. destruct (merchant_named key (w_db w)); [simplify_eq; by eexists|].
  rewrite or_missing_find by (apply Hnf; simpl; lia). simpl. destruct (by_likeness key (w_db w)); [simplify_eq; by eexists|done].
Qed.

(** Merchants and aliases are stored under their ids, and aliases point at
    merchants that exist. *)
Definition catalog_ok (d : DB) : Prop :=
  (forall k m, db_merchants d !! k = Some m -> mer_id m = k) /\
  (forall k a, db_aliases d !! k = Some a -> is_Some (db_merchants d !! ali_merchant a)).

Lemma merchant_named_key key d m : merchant_named key d = Some m -> catalog_ok d ->
  db_merchants d !! mer_id m = Some m.
Proof.
  intros Hm [Hok _]. unfold merchant_named in Hm. apply head_Some_elem_of in Hm.
  apply elem_of_select in Hm as (_ & k & Hk). by rewrite (Hok k m Hk).
Qed.

Lemma learned_known display key w r w' : catalog_ok (w_db w) -> by_alias key (w_db w) = None ->
  learn_merchant display key w = (Ok r, w') ->
  exists m, r = (Some m, MatchCreated) /\ known key (w_db w') = Some (m, MatchAlias).
Proof.
  intros [Hid Hfk] Hna Hrun. apply bind_Ok in Hrun as (m & w1 & Hc & Hrun).
  apply bind_Ok in Hrun as ([] & w2 & Ha & Hrun). apply ret_Ok in Hrun as [<- <-]. exists m. split; [done|].
  assert (alias_named key (w_db w) = None) as Hnone.
  { unfold by_alias in Hna. destruct (alias_named key (w_db w)) as [a|] eqn:Hal; [|done]. simpl in Hna.
    apply head_Some_elem_of, elem_of_select in Hal as (_ & k & Hk). destruct (Hfk k a Hk) as [? Hm]. congruence. }
  unfold CreateMerchant in Hc. apply bind_Ok in Hc as (id & w3 & Hid3 & Hc). apply wrap_err_Ok, stmt_Ok in Hc as (d & Hd & ->).
  unfold uuid_New in Hid3. injection Hid3 as _ <-. simpl in Hd.
  assert (db_merchants d !! mer_id m = Some m /\ db_aliases d = db_aliases (w_db w)) as [Hm Hali].
  { unfold insert_merchant in Hd. destruct (merchant_named key (w_db w)) eqn:Hmn.
    - simplify_eq. split; [by apply (merchant_named_key key)|done].
    - destruct (insert_row _ _ _ _) as [t0|] eqn:Hins; [|done]. simplify_eq.
      apply insert_row_ok in Hins as (_ & -> & _). simpl. by rewrite lookup_insert_eq. }
  unfold AddMerchantAlias in Ha. apply bind_Ok in Ha as (aid & w4 & Ha4 & Ha). apply wrap_err_Ok, stmt_Ok in Ha as (d2 & Hd2 & ->).
  unfold uuid_New in Ha4. injection Ha4 as _ <-. simpl in Hd2 |- *. unfold insert_alias in Hd2. simpl in Hd2.
  assert (alias_named key d = None) as Hn2 by (unfold alias_named in *; by rewrite Hali).
  rewrite Hn2 in Hd2. destruct (insert_row _ _ _ _) as [t0|] eqn:Hins; [|done]. case_bool_decide; [done|]. simplify_eq.
  apply insert_row_ok in Hins as (Hfresh & -> & _). unfold known, by_alias.
  assert (alias_named key (upd_aliases (fun _ => <[aid := mkAlias aid (mer_id m) display key "extraction"]> (db_aliases d)) d)
    = Some (mkAlias aid (mer_id m) display key "extraction")) as ->; [|simpl; by rewrite Hm].
  unfold alias_named. simpl. apply (head_select_unique _ _ aid); [apply lookup_insert_eq|apply String.eqb_refl|].
  intros k' r [[_ <-]|[_ Hr]]%lookup_insert_Some Hp; [done|]. exfalso.
  assert (r ∈ select (fun a => String.eqb (ali_normalised a) key) (db_aliases d)) as Hin by (apply elem_of_select; eauto).
  unfold alias_named in Hn2. destruct (select _ _); [by apply elem_of_nil in Hin|done].
Qed.

(** A merchant keeps its identity.  Once a raw name has been resolved, by
    whatever route, resolving the same name again from the resulting tables, with
    no faults in between, returns the same merchant; a merchant created the first
    time is found by its alias the second time. *)
Theorem resolve_stable (raw : string) (m : Merchant) (k : MatchKind) (w w1 : World) (N : nat) :
  catalog_ok (w_db w) -> ResolveMerchant raw w = (Ok (Some m, k), w1) ->
  (forall n, (N <= n)%nat -> fault n = None) -> late N w1 ->
  exists w2, ResolveMerchant raw w1 = (Ok (Some m, match k with MatchCreated => MatchAlias | _ => k end), w2) /\
    w_db w2 = w_db w1.
Proof.
  intros Hok Hrun Hnf Hl. apply ResolveMerchant_Ok in Hrun as [(_ & Hr & _)|(Hne & w0 & Hd & Hcase)]; [done|].
  set (key := (NormaliseMerchant raw).2) in *. apply (ResolveMerchant_known raw _ _ _ N Hnf Hl Hne). fold key.
  destruct (known key (w_db w)) as [[m' k']|] eqn:Hk.
  - destruct Hcase as [[= <- <-] ->]. rewrite Hd, Hk. unfold known in Hk.
    repeat case_match; by simplify_eq.
  - assert (by_alias key (w_db w) = None) as Hna by (unfold known in Hk; repeat case_match; done).
    rewrite <- Hd in Hok, Hna. destruct (learned_known _ _ _ _ _ Hok Hna Hcase) as (m0 & [= -> ->] & Hk2). done.
Qed.
End resolution.

(** ** Learning from confirmations *)

(** The confidence floor is reached exactly from the second sample on. *)
Definition sample_range : Z := 5000.
Lemma rule_threshold n : 1 <= n <= sample_range -> SFleb UserRuleApplyConfidence (ruleConfidence n) = (2 <=? n).
Proof.
  intros Hn.
  assert (forallb (fun k => Bool.eqb (SFleb UserRuleApplyConfidence (ruleConfidence (Z.of_nat k))) (2 <=? Z.of_nat k))
    (seq 1 5000) = true) as Hall by (vm_compute; reflexivity).
  rewrite forallb_forall in Hall. specialize (Hall (Z.to_nat n)). rewrite Z2Nat.id in Hall by lia.
  apply eqb_prop, Hall, in_seq. unfold sample_range in Hn. lia.
Qed.
Lemma rule_confidence_ok n : 1 <= n <= sample_range -> confidence_ok (ruleConfidence n) = true.
Proof.
  intros Hn.
  assert (forallb (fun k => confidence_ok (ruleConfidence (Z.of_nat k))) (seq 1 5000) = true) as Hall by (vm_compute; reflexivity).
  rewrite forallb_forall in Hall. specialize (Hall (Z.to_nat n)). rewrite Z2Nat.id in Hall by lia.
  apply Hall, in_seq. unfold sample_range in Hn. lia.
Qed.

Section learning.
Context `{Env} (Hnf : forall n, fault n = None).

Definition samples_of (u m : uuid) (d : DB) : Z :=
  match db_rules d !! (u, m) with Some r => rule_samples r | None => 0 end.
Definition learned_rule (u m : uuid) (tx : Transaction) (n : Z) (now : Time) : UserMerchantRule :=
  mkRule u m (tx_category tx) (tx_type tx) n (ruleConfidence n) now.

Lemma LearnFromConfirmation_run u tx m w :
  tx_merchant tx = Some m -> is_Some (db_users (w_db w) !! u) -> is_Some (db_merchants (w_db w) !! m) ->
  ref_ok (db_categories (w_db w)) (tx_category tx) = true -> 0 <= samples_of u m (w_db w) < sample_range ->
  exists w' now, LearnFromConfirmation u tx w = (Ok tt, w') /\
    w_db w' = upd_rules (<[(u, m) := learned_rule u m tx (samples_of u m (w_db w) + 1) now]>) (w_db w).
Proof.
  intros Hm [usr Hu] [mer Hmer] Href Hn. unfold LearnFromConfirmation. rewrite Hm.
  change (GetUserMerchantRule u m) with (find_row "GetUserMerchantRule" "rule" (fun d => db_rules d !! (u, m))).
  assert (or_missing (find_row "GetUserMerchantRule" "rule" (fun d => db_rules d !! (u, m)))
    (fun r => ret (rule_samples r)) (ret 0) w = (Ok (samples_of u m (w_db w)), tick w)) as Hc.
  { rewrite or_missing_find by done. unfold samples_of. by destruct (db_rules (w_db w) !! (u, m)). }
  unfold bind at 1. rewrite Hc. unfold bind at 1, clk_Now at 1, UpsertUserMerchantRule, wrap_err, stmt. rewrite Hnf.
  unfold upsert_rule. simpl. rewrite rule_confidence_ok by lia. rewrite Hu, Hmer, Href. simpl.
  eexists _, _. split; [done|]. simpl. done.
Qed.

Lemma rule_suggestion_run u m c w r : db_rules (w_db w) !! (u, mer_id m) = Some r ->
  rule_category r = Some (cat_id c) -> db_categories (w_db w) !! cat_id c = Some c ->
  exists w', rule_suggestion u (Some m) w =
    (Ok (if SFleb UserRuleApplyConfidence (rule_confidence r)
         then Some (suggest c (rule_confidence r) "user_rule" ("Bạn thường xếp " ++ mer_canonical m ++ " vào " ++ cat_display c))
         else None), w') /\ w_db w' = w_db w.
Proof.
  intros Hr Hc Hcat. unfold rule_suggestion, findCategory.
  change (GetUserMerchantRule u (mer_id m)) with (find_row "GetUserMerchantRule" "rule" (fun d => db_rules d !! (u, mer_id m))).
  rewrite or_missing_find by done. rewrite Hr, Hc. destruct (SFleb _ _); [|by eexists].
  change (GetCategoryByID (cat_id c)) with (find_row "GetCategoryByID" "category" (fun d => db_categories d !! cat_id c)).
  unfold bind. rewrite or_missing_find by done. simpl. rewrite Hcat. by eexists.
Qed.

(** Without a strong rule the suggestion never claims to be one. *)
Lemma unlearned_source key conf w :
  let default_category :=
    or_missing (GetCategoryByKey "khac") (fun c => ret (suggest c f64_0_3 "default" "")) (ret no_suggestion) in
  exists s w2, (if String.eqb key "" then default_category
    else or_missing (GetCategoryByKey key) (fun c => ret (suggest c conf "extraction" "")) default_category) w = (Ok s, w2) /\
    sug_source s <> "user_rule".
Proof.
  intros dc.
  assert (forall w, exists s w2, dc w = (Ok s, w2) /\ sug_source s <> "user_rule") as Hdc.
  { intros w0. unfold dc, GetCategoryByKey. fold (find_row "GetCategoryByKey" "category" (fun d =>
      head (select (fun c => String.eqb (cat_key c) "khac") (db_categories d)))). rewrite or_missing_find by done.
    destruct (head _); by eexists _, _. }
  destruct (String.eqb key ""); [apply Hdc|]. unfold GetCategoryByKey. fold (find_row "GetCategoryByKey" "category" (fun d =>
      head (select (fun c => String.eqb (cat_key c) key) (db_categories d)))). rewrite or_missing_find by done.
  destruct (head _); [by eexists _, _|apply Hdc].
Qed.

(** Learning is cautious after one confirmation and confident after two.
    Confirming a transaction at a merchant stores the transaction's category and
    type with one more sample and the confidence of the new count; from then on
    the category is suggested as the user's own rule exactly when at least two
    confirmations have been counted, and otherwise the suggestion comes from the
    extraction hint or the default.  Counts up to [sample_range]. *)
Theorem learning_threshold (u : uuid) (tx : Transaction) (m : Merchant) (c : Category) (key : string) (conf : float64)
    (w : World) :
  let n := samples_of u (mer_id m) (w_db w) in
  tx_merchant tx = Some (mer_id m) -> tx_category tx = Some (cat_id c) ->
  is_Some (db_users (w_db w) !! u) -> is_Some (db_merchants (w_db w) !! mer_id m) ->
  db_categories (w_db w) !! cat_id c = Some c -> 0 <= n < sample_range ->
  exists w1, LearnFromConfirmation u tx w = (Ok tt, w1) /\ samples_of u (mer_id m) (w_db w1) = n + 1 /\
  exists s w2, SuggestCategory u (Some m) key conf w1 = (Ok s, w2) /\
    (if 2 <=? n + 1
     then sug_source s = "user_rule" /\ sug_category s = Some (cat_id c) /\ sug_confidence s = ruleConfidence (n + 1)
     else sug_source s <> "user_rule").
Proof.
  intros n Hm Hcat Hu Hmer Hc Hn.
  destruct (LearnFromConfirmation_run u tx (mer_id m) w Hm Hu Hmer) as (w1 & now & Hrun & Hd); [|done|].
  { rewrite Hcat. unfold ref_ok. by rewrite Hc. }
  exists w1. split; [done|]. fold n in Hd.
  assert (db_rules (w_db w1) !! (u, mer_id m) = Some (learned_rule u (mer_id m) tx (n + 1) now)) as Hrule
    by (rewrite Hd; apply lookup_insert_eq).
  split; [unfold samples_of; by rewrite Hrule|].
  destruct (rule_suggestion_run u m c w1 _ Hrule) as (w2 & Hsug & Hd2); [done|by rewrite Hd|].
  unfold SuggestCategory, bind. rewrite Hsug. simpl.
  rewrite (rule_threshold (n + 1)) by lia. destruct (2 <=? n + 1).
  - eexists _, _. done.
  - apply unlearned_source.
Qed.
End learning.

Module CategorisationDemo.
Definition env : Env := demo_env no_faults (fun n => Z.of_nat n * Second).
Definition user : User := mkUser 1 UserActive "Asia/Ho_Chi_Minh" "VND" "vi-VN" "v1" (Some 0) 0 0 None.
Definition shop : Merchant := mkMerchant 5 "Highlands Coffee" "highlands coffee" "" 0.
Definition food : Category := mkCategory 7 "an-uong" "Ăn uống" None true 0.
Definition db : DB :=
  upd_users (fun _ => {[ 1%N := user ]}) (upd_merchants (fun _ => {[ 5%N := shop ]})
  (upd_categories (fun _ => {[ 7%N := food ]}) empty_db)).
Definition bought (ty : TxType) : Transaction :=
  mkTx 30 1 None None ty (Some 5%N) "Highlands Coffee" "" 45000 "VND" 0 (Some 7%N) TxConfirmed TxSourceManual "" None 1 0 0 None None.
Definition w1 : World := snd (@LearnFromConfirmation env 1 (bought TxRefund) (world_of db)).

(** The second confirmation makes the rule apply. *)
Lemma learning_threshold_witness :
  exists w2 s w3, @LearnFromConfirmation env 1 (bought TxRefund) w1 = (Ok tt, w2) /\
    @SuggestCategory env 1 (Some shop) "" f64_0_3 w2 = (Ok s, w3) /\ sug_source s = "user_rule" /\ sug_category s = Some 7%N.
Proof.
  destruct (@learning_threshold env (fun _ => eq_refl) 1 (bought TxRefund) shop food "" f64_0_3 w1 eq_refl eq_refl)
    as (w2 & Hl & _ & s & w3 & Hs & Hif).
  - vm_compute. by eexists.
  - vm_compute. by eexists.
  - vm_compute. reflexivity.
  - vm_compute. split; [discriminate|reflexivity].
  - exists w2, s, w3. split; [exact Hl|split; [exact Hs|]]. vm_compute in Hif. destruct Hif as (H1 & H2 & _). split; [exact H1|exact H2].
Defined.

(** A name seen for the first time, then again. *)
Definition seen : World := snd (@ResolveMerchant env "Phúc Long" (world_of db)).
Definition phuc_long : Merchant := mkMerchant 1003 "Phúc Long" "phuc long" "" (4 * Second).
Lemma resolve_stable_witness : exists w2,
  @ResolveMerchant env "Phúc Long" seen = (Ok (Some phuc_long, MatchAlias), w2) /\ w_db w2 = w_db seen.
Proof.
  refine (@resolve_stable env "Phúc Long" phuc_long MatchCreated (world_of db) seen 0 _ _ (fun _ _ => eq_refl) _).
  - split; [intros k m Hk; simpl in Hk; apply lookup_singleton_Some in Hk as [<- <-]; reflexivity|].
    intros k a Hk. discriminate Hk.
  - vm_compute. reflexivity.
  - vm_compute. repeat constructor.
Defined.

(** A learned refund type is suggested like any other. *)
Example rule_suggests_refund :
  fst (@SuggestType env 1 (Some shop) TxExpense false (snd (@LearnFromConfirmation env 1 (bought TxRefund) w1)))
  = Ok (TxRefund, ruleConfidence 2, "user_rule").
Proof. vm_compute. reflexivity. Qed.
End CategorisationDemo.
