(* ===== verification/Insight.v ===== *)
(** * Insights

    internal/store/insights.go and internal/insight/insight.go: the aggregates of
    a user's recorded transactions over a period, and their evidence-backed rows.
    Shown: a summary accounts for every recorded transaction of the period, per
    currency and without wrap-around; the day walk terminates; the no-spend days
    are exactly the days without an expense. *)
From S2P Require Import Prelude GoStrings Domain GoTime Calendar Periods Json Db StoreInbound StoreTx.

(** ** Grouping, as SQL's GROUP BY *)
Definition zsum (l : list Z) : Z := foldr Z.add 0 l.
Lemma zsum_cons x l : zsum (x :: l) = x + zsum l.
Proof. done. Qed.

Section group_by.
Context {A K : Type} `{!EqDecision K} (key : A -> K).

Definition group (l : list A) (k : K) : list A := filter (fun x => key x = k) l.
Definition group_keys (l : list A) : list K := remove_dups (key <$> l).
Definition group_by (l : list A) : list (K * list A) := (fun k => (k, group l k)) <$> group_keys l.

Lemma elem_of_group_keys k l : k ∈ group_keys l <-> exists x, x ∈ l /\ key x = k.
Proof.
  unfold group_keys. rewrite elem_of_remove_dups, list_elem_of_fmap. split; intros (x & ? & ?); eauto.
Qed.
Lemma NoDup_group_keys l : NoDup (group_keys l).
Proof. apply NoDup_remove_dups. Qed.

Lemma zsum_pick (ks : list K) y v (g : K -> Z) : NoDup ks -> y ∈ ks ->
  zsum ((fun k => (if decide (y = k) then v else 0) + g k) <$> ks) = v + zsum (g <$> ks).
Proof.
  induction 1 as [|k ks Hk Hnd IH]; [by intros ?%elem_of_nil|]. intros Hy. rewrite !fmap_cons, !zsum_cons.
  destruct (decide (y = k)) as [->|Hne].
  - enough (((fun k' => (if decide (k = k') then v else 0) + g k') <$> ks) = (g <$> ks)) as -> by lia.
    apply list_fmap_ext. intros i k' Hk'. destruct (decide (k = k')) as [<-|]; [|done].
    destruct Hk. by apply list_elem_of_lookup_2 in Hk'.
  - apply elem_of_cons in Hy as [|Hy]; [done|]. rewrite IH by done. lia.
Qed.

(** The groups of a list add up to the list. *)
Lemma group_sum (f : A -> Z) (ks : list K) l : NoDup ks -> (forall x, x ∈ l -> key x ∈ ks) ->
  zsum ((fun k => zsum (f <$> group l k)) <$> ks) = zsum (f <$> l).
Proof.
  intros Hnd. induction l as [|x l IH]; intros Hin.
  - clear Hnd Hin. induction ks as [|k ks IH]; [done|]. by rewrite fmap_cons, zsum_cons, IH.
  - rewrite fmap_cons, zsum_cons, <- IH by (intros y Hy; apply Hin; by constructor).
    rewrite <- (zsum_pick ks (key x) (f x)) by (try done; apply Hin; by constructor). f_equal. apply list_fmap_ext. intros i k _.
    unfold group. rewrite filter_cons. destruct (decide (key x = k)); [by rewrite fmap_cons, zsum_cons|lia].
Qed.
End group_by.

Lemma zsum_app l l' : zsum (l ++ l') = zsum l + zsum l'.
Proof. induction l as [|x l IH]; [done|]. rewrite <- app_comm_cons, !zsum_cons, IH. lia. Qed.
#[export] Instance zsum_perm : Proper (Permutation ==> eq) zsum.
Proof. induction 1; rewrite ?zsum_cons; lia. Qed.

(** ** What the database decides

    The order of its collation, and the local day of an instant in a named zone
    ([AT TIME ZONE], which refuses names it does not know). *)
Class SqlLocale := {
  text_leb : string -> string -> bool;
  sql_local_day : string -> option (Time -> Z) }.
Definition invalid_parameter : DriverErr := pg_error "22023".
Definition numeric_overflow : DriverErr := pg_error "22003".

(** ** store/insights.go *)
Record InsightTotalsRow := mkTotals { itr_type : TxType; itr_currency : string; itr_minor : Z; itr_count : Z }.
Record InsightCategoryRow := mkCatRow {
  icr_key : string; icr_display : string; icr_currency : string; icr_minor : Z; icr_count : Z }.
Record InsightMerchantRow := mkMerRow { imr_name : string; imr_currency : string; imr_minor : Z; imr_count : Z }.
Record InsightLargestRow := mkLargest { ilr_merchant : string; ilr_minor : Z; ilr_currency : string; ilr_at : Time }.

Section store.
Context `{Env} `{SqlLocale}.

(** A SELECT that an expression can make fail. *)
Definition query_res {A} (f : DB -> Res DriverErr A) : Go A :=
  stmt (fun _ d => match f d with Ok a => Ok (a, d) | Fail e => Fail e end).

(** recordedTx *)
Definition recordedTx (userID : uuid) (start end_ : Time) (t : Transaction) : bool :=
  bool_decide (tx_user t = userID) && CountsTowardInsights (tx_status t) && bool_decide (tx_deleted_at t = None) &&
  (start <=? tx_occurred_at t) && (tx_occurred_at t <? end_).
Definition in_scope (userID : uuid) (start end_ : Time) (d : DB) : list Transaction :=
  select (recordedTx userID start end_) (db_txs d).
Definition is_expense (t : Transaction) : bool := bool_decide (tx_type t = TxExpense).
Definition expenses (userID : uuid) (start end_ : Time) (d : DB) : list Transaction :=
  filter (fun t => is_expense t = true) (in_scope userID start end_ d).

(** SUM(amount_minor)::bigint, COUNT star ::int of one group: the casts are checked. *)
Definition total (txs : list Transaction) : Res DriverErr (Z * Z) :=
  let s := zsum (tx_amount <$> txs) in let n := Z.of_nat (length txs) in
  if (MinInt64 <=? s) && (s <=? MaxInt64) && (n <? 2 ^ 31) then Ok (s, n) else Fail numeric_overflow.
Fixpoint aggregate {K R} (mk : K -> Z -> Z -> R) (groups : list (K * list Transaction)) : Res DriverErr (list R) :=
  match groups with
  | [] => Ok []
  | (k, txs) :: rest =>
      match total txs with
      | Fail e => Fail e
      | Ok (s, n) => match aggregate mk rest with Ok rs => Ok (mk k s n :: rs) | Fail e => Fail e end
      end
  end.

(** [ListInsightPeriodTotals] *)
Definition type_currency (t : Transaction) : TxType * string := (tx_type t, tx_currency t).
Definition period_totals (userID : uuid) (start end_ : Time) (d : DB) : Res DriverErr (list InsightTotalsRow) :=
  aggregate (fun k => mkTotals k.1 k.2) (group_by type_currency (in_scope userID start end_ d)).
Definition ListInsightPeriodTotals (userID : uuid) (start end_ : Time) : Go (list InsightTotalsRow) :=
  wrap_err (internalErr "ListInsightPeriodTotals") (query_res (period_totals userID start end_)).

(** ORDER BY currency, minor DESC, name ASC *)
Definition rank_order (a b : string * Z * string) : bool :=
  if String.eqb a.1.1 b.1.1 then if a.1.2 =? b.1.2 then text_leb a.2 b.2 else b.1.2 <? a.1.2
  else text_leb a.1.1 b.1.1.
Definition sorted_by {R} (k : R -> string * Z * string) (r : Res DriverErr (list R)) : Res DriverErr (list R) :=
  match r with Ok l => Ok (isort (fun a b => rank_order (k a) (k b)) l) | Fail e => Fail e end.

(** [ListInsightCategoryTotals]: the LEFT JOIN with its COALESCEs. *)
Definition category_currency (d : DB) (t : Transaction) : string * string * string :=
  let c := tx_category t ≫= fun id => db_categories d !! id in
  (from_option cat_key "khac" c, from_option cat_display "Khác" c, tx_currency t).
Definition category_totals (userID : uuid) (start end_ : Time) (d : DB) : Res DriverErr (list InsightCategoryRow) :=
  sorted_by (fun r => (icr_currency r, icr_minor r, icr_key r))
    (aggregate (fun k => mkCatRow k.1.1 k.1.2 k.2) (group_by (category_currency d) (expenses userID start end_ d))).
Definition ListInsightCategoryTotals (userID : uuid) (start end_ : Time) : Go (list InsightCategoryRow) :=
  wrap_err (internalErr "ListInsightCategoryTotals") (query_res (category_totals userID start end_)).

(** [ListInsightMerchantTotals] *)
Definition merchant_currency (t : Transaction) : string * string := (tx_merchant_name t, tx_currency t).
Definition merchant_totals (userID : uuid) (start end_ : Time) (d : DB) : Res DriverErr (list InsightMerchantRow) :=
  sorted_by (fun r => (imr_currency r, imr_minor r, imr_name r))
    (aggregate (fun k => mkMerRow k.1 k.2) (group_by merchant_currency (expenses userID start end_ d))).
Definition ListInsightMerchantTotals (userID : uuid) (start end_ : Time) : Go (list InsightMerchantRow) :=
  wrap_err (internalErr "ListInsightMerchantTotals") (query_res (merchant_totals userID start end_)).

(** [ListInsightLargestByCurrency]: DISTINCT ON (currency), the largest amount first,
    then the earliest, then the least id. *)
Definition larger (a b : Transaction) : bool :=
  if tx_amount a =? tx_amount b then
    (if tx_occurred_at a =? tx_occurred_at b then (tx_id a <=? tx_id b)%N else tx_occurred_at a <? tx_occurred_at b)
  else tx_amount b <? tx_amount a.
Definition largest_row (t : Transaction) : InsightLargestRow :=
  mkLargest (tx_merchant_name t) (tx_amount t) (tx_currency t) (tx_occurred_at t).
Definition largest_rows (userID : uuid) (start end_ : Time) (d : DB) : list InsightLargestRow :=
  largest_row <$> omap (fun g => argmin larger g.2)
    (isort (fun a b => text_leb a.1 b.1) (group_by tx_currency (expenses userID start end_ d))).
Definition ListInsightLargestByCurrency (userID : uuid) (start end_ : Time) : Go (list InsightLargestRow) :=
  wrap_err (internalErr "ListInsightLargestByCurrency") (query (largest_rows userID start end_)).

(** [CountInsightExpenseDays] *)
Definition expense_days (userID : uuid) (start end_ : Time) (tz : string) (d : DB) : Res DriverErr Z :=
  match expenses userID start end_ d, sql_local_day tz with
  | [], _ => Ok 0
  | _, None => Fail invalid_parameter
  | txs, Some day => Ok (Z.of_nat (length (remove_dups (day <$> (tx_occurred_at <$> txs)))))
  end.
Definition CountInsightExpenseDays (userID : uuid) (start end_ : Time) (tz : string) : Go Z :=
  wrap_err (internalErr "CountInsightExpenseDays") (query_res (expense_days userID start end_ tz)).

(** [ListInsightEvidenceIDs] *)
Definition evidence_ids (userID : uuid) (start end_ : Time) (d : DB) : list uuid :=
  isort N.leb (tx_id <$> in_scope userID start end_ d).
Definition ListInsightEvidenceIDs (userID : uuid) (start end_ : Time) : Go (list uuid) :=
  wrap_err (internalErr "ListInsightEvidenceIDs") (query (evidence_ids userID start end_)).

(** [UpsertInsight] *)
Definition same_insight (userID : uuid) (ty : string) (start : Time) (i : Insight) : bool :=
  bool_decide (ins_user i = userID) && String.eqb (ins_type i) ty && (ins_start i =? start).
Definition upsert_insight (id userID : uuid) (ty : string) (start end_ : Time) (payload evidence version : string) :
    Stmt unit := fun now d =>
  match head (select (same_insight userID ty start) (db_insights d)) with
  | Some old =>
      Ok (tt, upd_insights (<[ins_id old := mkInsight (ins_id old) userID ty start end_ payload evidence version now]>) d)
  | None =>
      match insert_row id (mkInsight id userID ty start end_ payload evidence version now) (fun _ => false) (db_insights d) with
      | Ok m => if bool_decide (db_users d !! userID = None) then Fail foreign_key_violation
                else Ok (tt, upd_insights (fun _ => m) d)
      | Fail e => Fail e
      end
  end.
Definition UpsertInsight (userID : uuid) (ty : string) (start end_ : Time) (payload evidence version : string) : Go unit :=
  let* id := uuid_New in
  wrap_err (internalErr "UpsertInsight") (stmt (upsert_insight id userID ty start end_ payload evidence version)).
End store.

(** ** insight.go *)
Definition GeneratorVersion : string := "insight-v2".
Definition EvidenceMethod : string := "sql-aggregate-v1".
Definition TypeDaily : string := "daily".
Definition TypeWeekly : string := "weekly".
Definition TypeMonthly : string := "monthly".

Record CategoryTotal := mkCategoryTotal {
  ct_key : string; ct_display : string; ct_currency : string; ct_minor : Z; ct_count : Z }.
Record MerchantTotal := mkMerchantTotal { mt_name : string; mt_currency : string; mt_minor : Z; mt_count : Z }.
Record LargestTx := mkLargestTx { lt_merchant : string; lt_minor : Z; lt_currency : string; lt_at : Time }.
Record Summary := mkSummary {
  CurrencyTotals : gmap string Z; RefundTotals : gmap string Z; ByCategory : list CategoryTotal;
  ByMerchant : list MerchantTotal; TxCount : Z; LargestByCurrency : list LargestTx; NoSpendDays : Z }.

(** The struct tags. *)
Definition category_json (c : CategoryTotal) : json :=
  JObj [("category_key", JStr (ct_key c)); ("display_name", JStr (ct_display c)); ("currency", JStr (ct_currency c));
        ("minor", JNum (ct_minor c)); ("count", JNum (ct_count c))].
Definition merchant_json (m : MerchantTotal) : json :=
  JObj [("name", JStr (mt_name m)); ("currency", JStr (mt_currency m)); ("minor", JNum (mt_minor m)); ("count", JNum (mt_count m))].
Definition largest_json (l : LargestTx) : json :=
  JObj [("merchant", JStr (lt_merchant l)); ("minor", JNum (lt_minor l)); ("currency", JStr (lt_currency l));
        ("occurred_at", JTime UTC (lt_at l))].
Definition summary_json (s : Summary) : json :=
  JObj [("currency_totals", json_map JNum (CurrencyTotals s)); ("refund_totals", json_map JNum (RefundTotals s));
        ("by_category", JArr (category_json <$> ByCategory s)); ("by_merchant", JArr (merchant_json <$> ByMerchant s));
        ("tx_count", JNum (TxCount s)); ("largest_by_currency", JArr (largest_json <$> LargestByCurrency s));
        ("no_spend_days", JNum (NoSpendDays s))].

(** [localDays]: [None] when the walk has not reached the end after more steps than
    the period has hours. *)
Fixpoint walk_days (fuel : nat) (loc : Location) (d end_ : Time) (days : Z) : option Z :=
  match fuel with
  | O => None
  | S k => if d <? end_ then walk_days k loc (AddDate loc d 0 0 1) end_ (days + 1) else Some days
  end.
Definition localDays (p : Period) (loc : Location) : option Z :=
  walk_days (S (S (Z.to_nat ((End p - Start p) / Hour)))) loc (Start p) (End p) 0.

(** [loc.String()] of a location loaded by name. *)
Definition location_name (name : string) : string := if String.eqb name "" then "UTC" else name.

Section service.
Context `{Env} `{TzData} `{SqlLocale}.

(** [Service.Persist] *)
Definition marshal_as (what : string) (j : json) : Go string :=
  of_res (map_fail (fun e => E CodeInternal what (Some e)) (Marshal j)).
Definition evidence_json (ids : list uuid) (p : Period) : json :=
  JObj [("method", JStr EvidenceMethod); ("period", JObj [("end", JTime UTC (End p)); ("start", JTime UTC (Start p))]);
        ("transaction_ids", JArr ((fun id => JStr (uuid_text id)) <$> ids))].
Definition Persist (userID : uuid) (insightType : string) (p : Period) (sum : Summary) : Go unit :=
  let* payload := marshal_as "marshal insight payload" (summary_json sum) in
  let* ids := ListInsightEvidenceIDs userID (Start p) (End p) in
  let* evidence := marshal_as "marshal insight evidence" (evidence_json ids p) in
  UpsertInsight userID insightType (Start p) (End p) payload evidence GeneratorVersion.

(** [Service.userLocation] *)
Definition zone_error (name : string) : Err :=
  E CodeInternal ("invalid stored timezone " ++ quoted name) (Some (Sentinel ("unknown time zone " ++ name))).
Definition userLocation (userID : uuid) : Go (Location * string) :=
  let* u := GetUser userID in
  match LoadLocation (usr_timezone u) with
  | Some loc => ret (loc, location_name (usr_timezone u))
  | None => fail (zone_error (usr_timezone u))
  end.

(** The loop over the totals: the count, and the two maps. *)
Definition add_totals (acc : Z * gmap string Z * gmap string Z) (row : InsightTotalsRow) : Z * gmap string Z * gmap string Z :=
  let '(n, cur, ref) := acc in
  match itr_type row with
  | TxExpense => (n + itr_count row, <[itr_currency row := itr_minor row]> cur, ref)
  | TxRefund => (n + itr_count row, cur, <[itr_currency row := itr_minor row]> ref)
  | _ => (n + itr_count row, cur, ref)
  end.
Definition to_category (r : InsightCategoryRow) : CategoryTotal :=
  mkCategoryTotal (icr_key r) (icr_display r) (icr_currency r) (icr_minor r) (icr_count r).
Definition to_merchant (r : InsightMerchantRow) : MerchantTotal :=
  mkMerchantTotal (imr_name r) (imr_currency r) (imr_minor r) (imr_count r).
Definition to_largest (r : InsightLargestRow) : LargestTx :=
  mkLargestTx (ilr_merchant r) (ilr_minor r) (ilr_currency r) (ilr_at r).

(** The code does not return from a walk that makes no progress; such a run is the
    failure [stuck_walk] here. *)
Definition stuck_walk : Err := Sentinel "localDays does not return".

(** [Service.Summarise] *)
Definition Summarise (userID : uuid) (p : Period) : Go Summary :=
  if negb (Start p <? End p) then fail (E CodeValidation "period end must be after period start" None)
  else
    let* '(loc, name) := userLocation userID in
    let* totals := ListInsightPeriodTotals userID (Start p) (End p) in
    let '(n, cur, ref) := fold_left add_totals totals (0, ∅, ∅) in
    let* cats := ListInsightCategoryTotals userID (Start p) (End p) in
    let* merchants := ListInsightMerchantTotals userID (Start p) (End p) in
    let* largest := ListInsightLargestByCurrency userID (Start p) (End p) in
    let* spendDays := CountInsightExpenseDays userID (Start p) (End p) name in
    match localDays p loc with
    | None => fail stuck_walk
    | Some days => ret (mkSummary cur ref (to_category <$> cats) (to_merchant <$> merchants) n
                          (to_largest <$> largest) (days - spendDays))
    end.
End service.

(** ** The day walk terminates *)
Section walk.
Context (loc : Location).

(** [from_local] subtracts an offset the zone uses, or none when the offset there is zero. *)
Lemma from_local_offset unix : exists s, from_local loc unix = unix - lookup_offset loc s.
Proof.
  unfold from_local. destruct (Z.eqb_spec (lookup_offset loc unix) 0) as [H0|]; [exists unix; lia|].
  destruct (_ || _); eauto.
Qed.

(** Adding a day moves by 24 hours less the change of offset. *)
Lemma AddDate_day t : exists s s', AddDate loc t 0 0 1 = t + (86400 - (lookup_offset loc s' - lookup_offset loc s)) * Second.
Proof.
  unfold AddDate, Date, local_date. set (day := day_of (local_sec loc t)). rewrite !Z.add_0_r.
  pose proof (month_of_bounds day) as (_ & Hd & Hm). pose proof (civil_from_days_spec day) as Hspec.
  destruct (civil_from_days day) as [[y m] d]. cbn [fst snd] in *. destruct Hspec as (Hm12 & _).
  replace (y + (m - 1) / 12) with y by euclid. replace ((m - 1) mod 12 + 1) with m by euclid. rewrite <- Hm.
  destruct (from_local_offset ((month_start (month_of day) + (d + 1 - 1)) * 86400 + local_clock loc t)) as [s' ->].
  exists (unix_sec t), s'. unfold local_clock, sec_of_day. pose proof (Z_div_mod_eq_full (local_sec loc t) 86400) as Hl.
  fold (day_of (local_sec loc t)) in Hl. fold day in Hl. unfold local_sec in *.
  pose proof (Z_div_mod_eq_full t Second) as Ht. unfold unix_sec in *. unfold Second in *. lia.
Qed.

Lemma walk_days_total fuel d end_ days : (forall t, t + Hour <= AddDate loc t 0 0 1) ->
  end_ - d < (Z.of_nat fuel - 1) * Hour -> (0 < fuel)%nat -> exists n, walk_days fuel loc d end_ days = Some n /\ days <= n.
Proof.
  intros Hstep. revert d days. induction fuel as [|k IH]; intros d days Hf Hpos; [lia|]. simpl.
  destruct (Z.ltb_spec d end_) as [Hlt|Hge]; [|exists days; split; [done|lia]].
  destruct (IH (AddDate loc d 0 0 1) (days + 1)) as (n & Hn & Hle).
  - specialize (Hstep d). unfold Hour, Minute, Second in *. lia.
  - unfold Hour, Minute, Second in *. lia.
  - exists n. split; [done|lia].
Qed.

(** The day count returns.  In every zone whose offsets lie within 23 hours of
    each other, [localDays] returns a count for every period, so Summarise does
    not hang on it. *)
Theorem localDays_terminates (p : Period)
    (Hspan : forall s s', lookup_offset loc s' - lookup_offset loc s <= 82800) :
  exists n, localDays p loc = Some n /\ 0 <= n /\ (n = 0 <-> End p <= Start p).
Proof.
  assert (forall t, t + Hour <= AddDate loc t 0 0 1) as Hstep.
  { intros t. destruct (AddDate_day t) as (s & s' & ->). specialize (Hspan s s'). unfold Hour, Minute, Second. lia. }
  unfold localDays. set (fuel := S (Z.to_nat _)). simpl. destruct (Z.ltb_spec (Start p) (End p)) as [Hlt|Hge].
  - destruct (walk_days_total fuel (AddDate loc (Start p) 0 0 1) (End p) 1) as (n & Hn & Hle); [done| |lia|].
    + specialize (Hstep (Start p)). subst fuel. unfold Hour, Minute, Second in *. euclid.
    + exists n. split; [done|]. lia.
  - exists 0. split; [done|]. lia.
Qed.
End walk.

(** ** Summaries account for every transaction *)
Definition of_currency (c : string) (txs : list Transaction) : list Transaction := filter (fun t => tx_currency t = c) txs.
Definition typed (ty : TxType) (txs : list Transaction) : list Transaction := filter (fun t => tx_type t = ty) txs.
Definition spent (txs : list Transaction) : Z := zsum (tx_amount <$> txs).
(** The total of a currency, or nothing when the currency does not occur. *)
Definition per_currency (txs : list Transaction) (c : string) : option Z :=
  match of_currency c txs with [] => None | l => Some (spent l) end.

Lemma filter_fmap_swap {A B} (f : A -> B) (P : B -> Prop) `{!forall b, Decision (P b)} (l : list A) :
  filter P (f <$> l) = f <$> filter (fun a => P (f a)) l.
Proof. induction l as [|x l IH]; [done|]. rewrite fmap_cons, !filter_cons, IH. by destruct (decide (P (f x))). Qed.

Lemma group_of_currency {K} `{!EqDecision K} (key : Transaction -> K) (cur : K -> string) (f : Transaction -> Z) l c :
  (forall t, cur (key t) = tx_currency t) ->
  zsum ((fun k => zsum (f <$> group key l k)) <$> filter (fun k => cur k = c) (group_keys key l)) = zsum (f <$> of_currency c l).
Proof.
  intros Hcur. rewrite <- (group_sum key f (filter (fun k => cur k = c) (group_keys key l)) (of_currency c l)).
  - f_equal. apply list_fmap_ext. intros i k Hk. apply list_elem_of_lookup_2, list_elem_of_filter in Hk as [Hc _].
    do 2 f_equal. unfold group, of_currency. rewrite list_filter_filter. apply list_filter_iff. intros t.
    split; [|tauto]. intros <-. by rewrite <- Hcur.
  - apply NoDup_filter, NoDup_group_keys.
  - intros t [Ht Hin]%list_elem_of_filter. apply list_elem_of_filter. rewrite Hcur. split; [done|].
    apply elem_of_group_keys. eauto.
Qed.

Lemma aggregate_Ok {K R} (mk : K -> Z -> Z -> R) gs rs : aggregate mk gs = Ok rs ->
  rs = (fun g => mk g.1 (spent g.2) (Z.of_nat (length g.2))) <$> gs /\ Forall (fun g => int64_range (spent g.2)) gs.
Proof.
  revert rs. induction gs as [|[k txs] gs IH]; intros rs; simpl; [intros [= <-]; by split|].
  unfold total. destruct ((MinInt64 <=? zsum (tx_amount <$> txs)) && _ && _) eqn:Hr; [|done].
  destruct (aggregate mk gs) as [rest|]; [|done]. intros [= <-]. destruct (IH rest eq_refl) as [-> Hall].
  rewrite !andb_true_iff, !Z.leb_le in Hr. split; [done|]. constructor; [|done]. unfold int64_range, spent. simpl. tauto.
Qed.

Lemma query_res_Ok `{Env} {A} (f : DB -> Res DriverErr A) w a w' : query_res f w = (Ok a, w') -> f (w_db w) = Ok a /\ w' = tick w.
Proof.
  intros (d & Hd & ->)%stmt_Ok. destruct (f (w_db w)) as [x|]; [|done]. simplify_eq. by destruct w.
Qed.

Lemma add_totals_fold rows : let '(n, cur, ref) := fold_left add_totals rows (0, ∅, ∅) in
  (forall r r', r ∈ rows -> r' ∈ rows -> itr_type r = itr_type r' -> itr_currency r = itr_currency r' -> itr_minor r = itr_minor r') ->
  n = zsum (itr_count <$> rows) /\
  (forall c v, cur !! c = Some v <-> exists r, r ∈ rows /\ itr_type r = TxExpense /\ itr_currency r = c /\ itr_minor r = v) /\
  (forall c v, ref !! c = Some v <-> exists r, r ∈ rows /\ itr_type r = TxRefund /\ itr_currency r = c /\ itr_minor r = v).
Proof.
  induction rows as [|r rows IH] using rev_ind.
  { simpl. intros _. split_and!; [done|..]; intros c v; rewrite lookup_empty; (split; [done|]); by intros (r & []%elem_of_nil & _). }
  rewrite fold_left_app. destruct (fold_left add_totals rows (0, ∅, ∅)) as [[n cur] ref]. cbn [fold_left].
  unfold add_totals.
  destruct (itr_type r) eqn:Hty; intros Hfun;
    (destruct IH as (-> & Hcur & Href); [intros a b Ha Hb; apply Hfun; apply elem_of_app; by left|]);
    (split; [rewrite fmap_app, zsum_app; simpl; lia|]); split; intros c v;
    rewrite ?lookup_insert_Some, ?Hcur, ?Href; setoid_rewrite elem_of_app; setoid_rewrite list_elem_of_singleton;
    (split; [try (intros [[<- <-]|[Hne (x & Hx & Hrest)]]); try (intros (x & Hx & Hrest)); eauto 8|
             intros (x & [Hx| ->] & Hxt & <- & <-); try congruence; eauto 8]).
  all: destruct (decide (itr_currency r = itr_currency x)) as [He|]; [left|right; eauto 8]; split; try done;
    apply Hfun; [apply elem_of_app; right; by apply list_elem_of_singleton|apply elem_of_app; by left|congruence|done].
Qed.

(** The rows of one aggregate, per currency. *)
Lemma rows_per_currency {K R} `{!EqDecision K} (key : Transaction -> K) (cur : K -> string) (mk : K -> Z -> Z -> R)
    (rcur : R -> string) (minor : R -> Z) l rows sorted c :
  (forall t, cur (key t) = tx_currency t) -> (forall k s n, rcur (mk k s n) = cur k) -> (forall k s n, minor (mk k s n) = s) ->
  aggregate mk (group_by key l) = Ok rows -> sorted ≡ₚ rows ->
  zsum (minor <$> filter (fun r => rcur r = c) sorted) = spent (of_currency c l).
Proof.
  intros Hcur Hr Hm [-> _]%aggregate_Ok Hsort. rewrite Hsort. unfold group_by. rewrite <- list_fmap_compose, filter_fmap_swap, <- list_fmap_compose.
  unfold spent. rewrite <- (group_of_currency key cur tx_amount l c Hcur). f_equal.
  rewrite (list_filter_iff _ (fun k => cur k = c)) by (intros k; simpl; by rewrite Hr). apply list_fmap_ext. intros i k _. simpl. by rewrite Hm.
Qed.

Lemma group_nonempty {A K} `{!EqDecision K} (key : A -> K) l k : k ∈ group_keys key l -> group key l k <> [].
Proof.
  intros (x & Hx & <-)%elem_of_group_keys Hnil. assert (x ∈ group key l (key x)) as Hin by (by apply list_elem_of_filter).
  rewrite Hnil in Hin. by apply elem_of_nil in Hin.
Qed.

Section accounts.
Context `{Env} `{TzData} `{SqlLocale}.

(** The totals rows determine the maps. *)
Lemma totals_per_currency l ty rows c v : aggregate (fun k => mkTotals k.1 k.2) (group_by type_currency l) = Ok rows ->
  (exists r, r ∈ rows /\ itr_type r = ty /\ itr_currency r = c /\ itr_minor r = v) <-> per_currency (typed ty l) c = Some v.
Proof.
  intros [-> _]%aggregate_Ok. unfold per_currency.
  assert (of_currency c (typed ty l) = group type_currency l (ty, c)) as Hg.
  { unfold of_currency, typed, group. rewrite list_filter_filter. apply list_filter_iff. intros t. unfold type_currency.
    split; [intros [-> ->]; done|intros [= -> ->]; done]. }
  rewrite Hg. split.
  - intros (r & Hr & Ht & Hc & Hv). apply list_elem_of_fmap in Hr as ((k & txs) & -> & Hin). unfold group_by in Hin.
    apply list_elem_of_fmap in Hin as (k' & [= -> ->] & Hk). simpl in *. destruct k' as [a b]. simpl in *. subst.
    pose proof (group_nonempty _ _ _ Hk). by destruct (group type_currency l (ty, c)).
  - destruct (group type_currency l (ty, c)) as [|t txs] eqn:Hl; [done|]. intros [= <-].
    eexists. split; [apply list_elem_of_fmap; exists ((ty, c), t :: txs); split; [done|]|done].
    unfold group_by. apply list_elem_of_fmap. exists (ty, c). rewrite Hl. split; [done|]. apply elem_of_group_keys. exists t.
    assert (t ∈ group type_currency l (ty, c)) as Hin by (rewrite Hl; constructor). by apply list_elem_of_filter in Hin as [? ?].
Qed.

Lemma larger_total a b : larger a b = true \/ larger b a = true.
Proof.
  unfold larger. rewrite (Z.eqb_sym (tx_amount b)), (Z.eqb_sym (tx_occurred_at b)).
  destruct (Z.eqb_spec (tx_amount a) (tx_amount b)); [destruct (Z.eqb_spec (tx_occurred_at a) (tx_occurred_at b))|];
    rewrite ?N.leb_le, ?Z.ltb_lt; lia.
Qed.
Lemma larger_trans a b c : larger a b = true -> larger b c = true -> larger a c = true.
Proof.
  unfold larger.
  destruct (Z.eqb_spec (tx_amount a) (tx_amount b)), (Z.eqb_spec (tx_amount b) (tx_amount c)), (Z.eqb_spec (tx_amount a) (tx_amount c));
  destruct (Z.eqb_spec (tx_occurred_at a) (tx_occurred_at b)), (Z.eqb_spec (tx_occurred_at b) (tx_occurred_at c)),
    (Z.eqb_spec (tx_occurred_at a) (tx_occurred_at c)); rewrite ?N.leb_le, ?Z.ltb_lt; lia.
Qed.
Lemma larger_amount a b : larger a b = true -> tx_amount b <= tx_amount a.
Proof. unfold larger. destruct (Z.eqb_spec (tx_amount a) (tx_amount b)); [lia|]. rewrite Z.ltb_lt. lia. Qed.

(** One entry per currency with an expense: the largest expense of that currency. *)
Lemma largest_rows_spec u s e d : let exp := expenses u s e d in let rows := largest_rows u s e d in
  (forall r, r ∈ rows -> exists t, t ∈ exp /\ r = largest_row t /\ forall t', t' ∈ exp -> tx_currency t' = tx_currency t -> tx_amount t' <= tx_amount t) /\
  ilr_currency <$> rows ≡ₚ group_keys tx_currency exp.
Proof.
  cbv zeta. unfold largest_rows. set (exp := expenses u s e d). set (gs := group_by tx_currency exp).
  assert (forall g, g ∈ gs -> exists t, argmin larger g.2 = Some t /\ t ∈ exp /\ tx_currency t = g.1 /\
    forall t', t' ∈ exp -> tx_currency t' = tx_currency t -> tx_amount t' <= tx_amount t) as Hgs.
  { intros g Hg. unfold gs, group_by in Hg. apply list_elem_of_fmap in Hg as (k & -> & Hk). simpl.
    destruct (argmin larger (group tx_currency exp k)) as [t|] eqn:Ha.
    - exists t. pose proof (argmin_in _ _ _ Ha) as [Hc Hin]%list_elem_of_filter. split_and!; try done.
      intros t' Ht' Hsame. apply larger_amount, (argmin_least _ _ _ larger_total larger_trans Ha), list_elem_of_filter. split; [congruence|done].
    - apply argmin_none in Ha. by apply group_nonempty in Hk. }
  split.
  - intros r (t & -> & Ht)%list_elem_of_fmap. apply list_elem_of_omap in Ht as (g & Hg & Ht). rewrite elem_of_isort in Hg.
    destruct (Hgs g Hg) as (t' & Ha & Hin & _ & Hmax). simplify_eq. eauto.
  - rewrite <- list_fmap_compose. setoid_rewrite isort_perm. replace (group_keys tx_currency exp) with (gs.*1)
      by (unfold gs, group_by; rewrite <- list_fmap_compose; apply list_fmap_id).
    clearbody gs. apply reflexive_eq. induction gs as [|g gs IH]; [done|].
    destruct (Hgs g ltac:(constructor)) as (t & Ha & _ & Hc & _). simpl in *. rewrite Ha. simpl. f_equal; [done|].
    apply IH. intros g' Hg'. apply Hgs. by constructor.
Qed.

Lemma userLocation_Ok u r w w' : userLocation u w = (Ok r, w') ->
  exists usr, db_users (w_db w) !! u = Some usr /\ LoadLocation (usr_timezone usr) = Some r.1 /\
    r.2 = location_name (usr_timezone usr) /\ w_db w' = w_db w.
Proof.
  intros Hrun. apply bind_Ok in Hrun as (usr & w1 & Hu & Hrun). unfold GetUser in Hu.
  apply bind_Ok in Hu as (row & w2 & Hq & Hu). apply wrap_err_Ok, query_Ok in Hq as [-> ->].
  destruct (db_users (w_db w) !! u) as [x|] eqn:Hx; [|done]. apply ret_Ok in Hu as [-> <-].
  destruct (LoadLocation (usr_timezone usr)) as [loc|] eqn:Hl; [|done]. apply ret_Ok in Hrun as [<- <-]. by exists usr.
Qed.

(** A successful run of [Summarise], step by step. *)
Lemma Summarise_Ok u p sum w w' : Summarise u p w = (Ok sum, w') ->
  let d := w_db w in
  exists usr loc totals cats mers days spendDays n cur ref,
    Start p < End p /\ w_db w' = d /\
    db_users d !! u = Some usr /\ LoadLocation (usr_timezone usr) = Some loc /\
    period_totals u (Start p) (End p) d = Ok totals /\ fold_left add_totals totals (0, ∅, ∅) = (n, cur, ref) /\
    category_totals u (Start p) (End p) d = Ok cats /\ merchant_totals u (Start p) (End p) d = Ok mers /\
    expense_days u (Start p) (End p) (location_name (usr_timezone usr)) d = Ok spendDays /\ localDays p loc = Some days /\
    sum = mkSummary cur ref (to_category <$> cats) (to_merchant <$> mers) n
            (to_largest <$> largest_rows u (Start p) (End p) d) (days - spendDays).
Proof.
  intros Hrun. cbv zeta. unfold Summarise in Hrun. destruct (Z.ltb_spec (Start p) (End p)) as [Hlt|]; [|done]. cbn [negb] in Hrun.
  apply bind_Ok in Hrun as ([loc name] & w1 & Hloc & Hrun). apply userLocation_Ok in Hloc as (usr & Hu & Hl & Hn & Hd1). simpl in Hl, Hn.
  apply bind_Ok in Hrun as (totals & w2 & Ht & Hrun). apply wrap_err_Ok, query_res_Ok in Ht as [Ht ->].
  destruct (fold_left add_totals totals (0, ∅, ∅)) as [[n cur] ref] eqn:Hfold.
  apply bind_Ok in Hrun as (cats & w3 & Hc & Hrun). apply wrap_err_Ok, query_res_Ok in Hc as [Hc ->].
  apply bind_Ok in Hrun as (mers & w4 & Hm & Hrun). apply wrap_err_Ok, query_res_Ok in Hm as [Hm ->].
  apply bind_Ok in Hrun as (largest & w5 & Hlg & Hrun). apply wrap_err_Ok, query_Ok in Hlg as [-> ->].
  apply bind_Ok in Hrun as (sd & w6 & Hs & Hrun). apply wrap_err_Ok, query_res_Ok in Hs as [Hs ->]. simpl in *.
  destruct (localDays p loc) as [days|] eqn:Hday; [|done]. apply ret_Ok in Hrun as [<- <-]. simpl. rewrite Hd1 in *. subst name.
  exists usr, loc, totals, cats, mers, days, sd, n, cur, ref. by split_and!.
Qed.

Lemma sorted_by_Ok {R} k (r : Res DriverErr (list R)) l : sorted_by k r = Ok l -> exists l0, r = Ok l0 /\ l ≡ₚ l0.
Proof. destruct r as [l0|]; [|done]. intros [= <-]. exists l0. split; [done|]. apply isort_perm. Qed.

(** C22: A summary accounts for every recorded transaction.  When Summarise
    succeeds nothing has changed and, over the confirmed or amended, undeleted
    transactions of the user in the period: the count is their number; the expense
    and refund totals are the exact sums per currency, with an entry for exactly
    the currencies that occur, and lie in int64; in every currency the category
    lines add up to the expense total, and so do the merchant lines; and there is
    one largest line per currency with an expense, an expense of maximal amount. *)
Theorem summary_accounts (u : uuid) (p : Period) (sum : Summary) (w w' : World) (Hrun : Summarise u p w = (Ok sum, w')) :
  let txs := in_scope u (Start p) (End p) (w_db w) in
  let exp := typed TxExpense txs in
  w_db w' = w_db w /\ TxCount sum = Z.of_nat (length txs) /\
  (forall c, CurrencyTotals sum !! c = per_currency exp c) /\
  (forall c, RefundTotals sum !! c = per_currency (typed TxRefund txs) c) /\
  (forall c v, CurrencyTotals sum !! c = Some v -> int64_range v) /\
  (forall c, zsum (ct_minor <$> filter (fun r => ct_currency r = c) (ByCategory sum)) = spent (of_currency c exp)) /\
  (forall c, zsum (mt_minor <$> filter (fun r => mt_currency r = c) (ByMerchant sum)) = spent (of_currency c exp)) /\
  (forall l, l ∈ LargestByCurrency sum -> exists t, t ∈ exp /\ l = to_largest (largest_row t) /\
     forall t', t' ∈ exp -> tx_currency t' = tx_currency t -> tx_amount t' <= tx_amount t) /\
  lt_currency <$> LargestByCurrency sum ≡ₚ group_keys tx_currency exp.
Proof.
  cbv zeta. apply Summarise_Ok in Hrun as (usr & loc & totals & cats & mers & days & sd & n & cur & ref & _ & Hd & _ & _ & Ht & Hf & Hc & Hm & _ & _ & ->).
  simpl. set (txs := in_scope u (Start p) (End p) (w_db w)) in *. unfold period_totals in Ht. fold txs in Ht.
  assert (expenses u (Start p) (End p) (w_db w) = typed TxExpense txs) as Hexp.
  { unfold expenses, typed. apply list_filter_iff. intros t. unfold is_expense. apply bool_decide_eq_true. }
  pose proof (add_totals_fold totals) as Hspec. rewrite Hf in Hspec. pose proof (aggregate_Ok _ _ _ Ht) as [Hrows Hrange].
  destruct Hspec as (Hn & Hcur & Href).
  { intros r r' Hr Hr' Hty Hcu. pose proof (proj1 (totals_per_currency txs (itr_type r') totals (itr_currency r') (itr_minor r) Ht)) as H1'.
    pose proof (proj1 (totals_per_currency txs (itr_type r') totals (itr_currency r') (itr_minor r') Ht)) as H2'.
    assert (Some (itr_minor r) = Some (itr_minor r')) as [= ?]; [|done]. rewrite <- H1', <- H2'; eauto 10. }
  assert (forall c, cur !! c = per_currency (typed TxExpense txs) c) as Hcur'.
  { intros c. apply option_eq. intros v. rewrite Hcur. by apply totals_per_currency. }
  split_and!; [done|..].
  - rewrite Hn, Hrows. unfold group_by. rewrite <- !list_fmap_compose.
    transitivity (zsum ((fun _ => 1) <$> txs)); [|clear; induction txs as [|x l IH]; [done|]; rewrite fmap_cons, zsum_cons, IH; simpl; lia].
    rewrite <- (group_sum type_currency (fun _ => 1) (group_keys type_currency txs) txs).
    + f_equal. apply list_fmap_ext. intros i k _. simpl. generalize (group type_currency txs k). intros l.
      induction l as [|x l IH]; [done|]. rewrite fmap_cons, zsum_cons, <- IH. simpl. lia.
    + apply NoDup_group_keys.
    + intros t Hin. apply elem_of_group_keys. eauto.
  - done.
  - intros c. apply option_eq. intros v. rewrite Href. by apply totals_per_currency.
  - intros c v Hv. apply Hcur in Hv as (r & Hr & _ & _ & <-). rewrite Hrows in Hr. apply list_elem_of_fmap in Hr as (g & -> & Hg).
    simpl. rewrite Forall_forall in Hrange. by apply Hrange.
  - intros c. unfold category_totals in Hc. rewrite Hexp in Hc. apply sorted_by_Ok in Hc as (l0 & Hc & Hp).
    rewrite filter_fmap_swap, <- list_fmap_compose. 
    by apply (rows_per_currency (category_currency (w_db w)) (fun k => k.2) (fun k => mkCatRow k.1.1 k.1.2 k.2) icr_currency icr_minor _ l0 cats c).
  - intros c. unfold merchant_totals in Hm. rewrite Hexp in Hm. apply sorted_by_Ok in Hm as (l0 & Hm & Hp).
    rewrite filter_fmap_swap, <- list_fmap_compose. 
    by apply (rows_per_currency merchant_currency (fun k => k.2) (fun k => mkMerRow k.1 k.2) imr_currency imr_minor _ l0 mers c).
  - intros l (r & -> & Hr)%list_elem_of_fmap. destruct (largest_rows_spec u (Start p) (End p) (w_db w)) as [Hl _]. rewrite Hexp in Hl.
    destruct (Hl r Hr) as (t & Ht' & -> & Hmax). eauto.
  - rewrite <- list_fmap_compose. destruct (largest_rows_spec u (Start p) (End p) (w_db w)) as [_ Hl]. by rewrite Hexp in Hl.
Qed.
End accounts.

(** ** No-spend days *)
Section no_spend.
Context `{Env} `{TzData} `{SqlLocale} (loc : Location) (off : Z) (Hoff : forall s, lookup_offset loc s = off).

Lemma walk_steady fuel a b days : (Z.to_nat (b - a) < fuel)%nat ->
  walk_days fuel loc (at_local off a 0 0) (at_local off b 0 0) days = Some (days + Z.max 0 (b - a)).
Proof.
  revert a days. induction fuel as [|k IH]; intros a days Hf; [lia|]. simpl.
  destruct (Z.ltb_spec (at_local off a 0 0) (at_local off b 0 0)) as [Hlt|Hge]; unfold at_local at 1 2 in Hlt || unfold at_local at 1 2 in Hge;
    unfold Second in *.
  - rewrite (AddDate_days loc off Hoff) by (unfold Second; lia). rewrite IH by lia. f_equal. lia.
  - f_equal. lia.
Qed.

Lemma localDays_steady a b : a < b -> localDays (mkPeriod (at_local off a 0 0) (at_local off b 0 0)) loc = Some (b - a).
Proof.
  intros Hab. unfold localDays. cbn [Start End]. rewrite walk_steady; [f_equal; lia|].
  unfold at_local, Hour, Minute, Second. euclid.
Qed.

(** Days of an interval that a list of days does not mention. *)
Lemma free_days (days : list Z) a n : 0 <= n -> (forall k, k ∈ days -> a <= k < a + n) ->
  Z.of_nat (length (filter (fun k => k ∉ days) (seqZ a n))) = n - Z.of_nat (length (remove_dups days)).
Proof.
  intros Hn Hin. assert (filter (fun k => k ∈ days) (seqZ a n) ≡ₚ remove_dups days) as Hp.
  { apply NoDup_Permutation; [apply NoDup_filter, NoDup_seqZ|apply NoDup_remove_dups|]. intros k.
    rewrite list_elem_of_filter, elem_of_seqZ, elem_of_remove_dups. split; [tauto|]. auto. }
  rewrite <- Hp. assert (forall l : list Z, (length (filter (fun k => k ∉ days) l) + length (filter (fun k => k ∈ days) l) = length l)%nat) as Hsplit.
  { induction l as [|k l IH]; [done|]. rewrite !filter_cons. destruct (decide (k ∈ days)) as [Hk|Hk].
    - rewrite decide_False by tauto. simpl. lia.
    - rewrite decide_True by done. simpl. lia. }
  specialize (Hsplit (seqZ a n)). rewrite length_seqZ in Hsplit. lia.
Qed.

(** No-spend days are counted exactly.  In a zone with one offset on which
    the database and the program agree, for a period of whole local days, the
    summary's no-spend days are the days of the period on which the user has no
    recorded expense; in particular the number is not negative. *)
Theorem no_spend_days_exact (u : uuid) (a b : Z) (sum : Summary) (usr : User) (w w' : World) :
  let p := mkPeriod (at_local off a 0 0) (at_local off b 0 0) in
  db_users (w_db w) !! u = Some usr -> LoadLocation (usr_timezone usr) = Some loc ->
  sql_local_day (location_name (usr_timezone usr)) = Some (local_day loc) ->
  Summarise u p w = (Ok sum, w') ->
  NoSpendDays sum = Z.of_nat (length (filter
    (fun day => day ∉ (fun t => local_day loc (tx_occurred_at t)) <$> expenses u (Start p) (End p) (w_db w)) (seqZ a (b - a)))).
Proof.
  intros p Hu Hl Hsql Hrun.
  apply Summarise_Ok in Hrun as (usr' & loc' & totals & cats & mers & days & sd & n & cur & ref & Hlt & _ & Hu' & Hl' & _ & _ & _ & _ & Hs & Hd & ->).
  simplify_eq. assert (a < b) as Hab by (unfold p, at_local, Second in Hlt; simpl in Hlt; lia).
  unfold p in Hd. rewrite localDays_steady in Hd by done. injection Hd as <-. simpl.
  set (exp := expenses u (at_local off a 0 0) (at_local off b 0 0) (w_db w)).
  assert (sd = Z.of_nat (length (remove_dups ((fun t => local_day loc (tx_occurred_at t)) <$> exp)))) as ->.
  { unfold expense_days in Hs. rewrite Hsql in Hs. change (expenses u (Start p) (End p) (w_db w)) with exp in Hs.
    destruct exp as [|x l]; [by simplify_eq|]. rewrite <- list_fmap_compose in Hs. by simplify_eq. }
  rewrite free_days; [done|lia|]. intros k (t & -> & Ht)%list_elem_of_fmap.
  unfold exp, expenses, in_scope in Ht. apply list_elem_of_filter in Ht as [_ Ht]. apply elem_of_select in Ht as [Ht _].
  unfold recordedTx in Ht. rewrite !andb_true_iff, Z.leb_le, Z.ltb_lt in Ht. destruct Ht as [[_ H1'] H2'].
  apply (day_bounds loc off Hoff) in H1'. pose proof (day_bounds loc off Hoff b (tx_occurred_at t)). lia.
Qed.
End no_spend.

(** ** Runs *)
Module InsightDemo.
Import PeriodsDemo.
#[local] Instance env : Env := demo_env no_faults (fun n => Z.of_nat n * Second).
#[local] Instance tz : TzData := {| LoadLocation := fun name => if String.eqb name "Asia/Ho_Chi_Minh" then Some vietnam else None |}.
#[local] Instance locale : SqlLocale :=
  {| text_leb := String.leb; sql_local_day := fun name => if String.eqb name "Asia/Ho_Chi_Minh" then Some (local_day vietnam) else None |}.
Definition user : User := mkUser 1 UserActive "Asia/Ho_Chi_Minh" "VND" "vi-VN" "v1" (Some 0) 0 0 None.
Definition bought (id : uuid) (ty : TxType) (shop : string) (amount : Z) (cur : string) (at_ : Time) : Transaction :=
  mkTx id 1 None None ty None shop "" amount cur at_ None TxConfirmed TxSourceManual "" None 1 0 0 None None.
(** The week of [evening], the nineteenth of July 2026: two expenses in dong on one
    day, one in dollars and a refund on the next. *)
Definition day : Z := 86400 * Second.
Definition db : DB := upd_txs (fun _ => list_to_map ((fun t => (tx_id t, t)) <$>
    [bought 11 TxExpense "Highlands" 45000 "VND" (evening - day); bought 12 TxExpense "Grab" 120000 "VND" (evening - day);
     bought 13 TxExpense "AWS" 500 "USD" evening; bought 14 TxRefund "Highlands" 45000 "VND" evening]))
  (upd_users (fun _ => {[1%N := user]}) empty_db).
Definition week : Period := ThisWeek evening vietnam.
Definition summary : Summary := mkSummary {["VND" := 165000; "USD" := 500]} {["VND" := 45000]}
  [mkCategoryTotal "khac" "Khác" "USD" 500 1; mkCategoryTotal "khac" "Khác" "VND" 165000 2]
  [mkMerchantTotal "AWS" "USD" 500 1; mkMerchantTotal "Grab" "VND" 120000 1; mkMerchantTotal "Highlands" "VND" 45000 1] 4
  [mkLargestTx "AWS" 500 "USD" evening; mkLargestTx "Grab" 120000 "VND" (evening - day)] 5.

Lemma summary_run : Summarise 1 week (world_of db) = (Ok summary, snd (Summarise 1 week (world_of db))).
Proof. rewrite (surjective_pairing (Summarise 1 week (world_of db))) at 1. apply (f_equal2 pair); [vm_compute; reflexivity|reflexivity]. Qed.

Lemma summary_accounts_witness :
  TxCount summary = 4 /\ zsum (ct_minor <$> filter (fun r => ct_currency r = "VND") (ByCategory summary)) = 165000.
Proof.
  destruct (summary_accounts 1 week summary (world_of db) _ summary_run) as (_ & Hn & _ & _ & _ & Hc & _).
  split; [rewrite Hn; vm_compute; reflexivity|rewrite Hc; vm_compute; reflexivity].
Defined.

(** Monday the thirteenth is day 20647: seven days, five of them without expense. *)
Lemma no_spend_days_exact_witness : NoSpendDays summary = 5.
Proof.
  assert (week = mkPeriod (at_local 25200 20647 0 0) (at_local 25200 20654 0 0)) as Hw by (vm_compute; reflexivity).
  pose proof summary_run as Hrun. rewrite Hw in Hrun.
  assert (LoadLocation (usr_timezone user) = Some vietnam) as Hloc by reflexivity.
  assert (sql_local_day (location_name (usr_timezone user)) = Some (local_day vietnam)) as Hsql by reflexivity.
  rewrite (no_spend_days_exact vietnam 25200 (fun _ => eq_refl) 1 20647 20654 summary user (world_of db) _ eq_refl Hloc Hsql Hrun).
  vm_compute. reflexivity.
Defined.

Lemma localDays_terminates_witness : localDays week vietnam = Some 7.
Proof.
  destruct (localDays_terminates vietnam week) as (n & Hn & _); [intros s s'; simpl; lia|].
  rewrite Hn. vm_compute in Hn. injection Hn as <-. reflexivity.
Defined.

(** Samoa skipped the thirtieth of December 2011 by moving from -10 to +14 hours:
    the day after the twenty-ninth is the twenty-ninth again, so the walk over
    that week never ends. *)
Definition apia : Location := shift_zone 1325239200 (-36000) 50400 ltac:(lia) ltac:(lia) ltac:(vm_compute; done).
Definition samoa_29th : Time := 1325152800 * Second.
Theorem skipped_day_never_ends (fuel : nat) (end_ days : Z) : samoa_29th < end_ -> walk_days fuel apia samoa_29th end_ days = None.
Proof.
  intros Hlt. revert days. induction fuel as [|k IH]; intros days; [done|]. simpl. rewrite (proj2 (Z.ltb_lt _ _) Hlt).
  replace (AddDate apia samoa_29th 0 0 1) with samoa_29th by (vm_compute; reflexivity). apply IH.
Qed.
End InsightDemo.
