(* ===== verification/Templates.v ===== *)
(** * Message templates of the receipt pipeline

    The texts of internal/conversation/templates.go that the receipt pipeline
    renders, and extraction.FieldNeedsFlag, which decides their warnings. *)
From Stdlib Require Import SpecFloat.
From S2P Require Import Prelude GoStrings Domain GoTime Normalise Categorisation.

(** [DateVN]: day/month/year in the user's zone. *)
Definition DateVN (t : Time) (loc : Location) : string :=
  let c := local_date loc t in
  zero_pad 2 (Sprintd c.2) ++ "/" ++ zero_pad 2 (Sprintd c.1.2) ++ "/" ++ zero_pad 4 (Sprintd c.1.1).

(** [TypeLabel] *)
Definition TypeLabel (t : TxType) : string :=
  match t with
  | TxExpense => "Chi tiêu"
  | TxIncome => "Thu nhập"
  | TxRefund => "Hoàn tiền"
  | TxTransfer => "Chuyển khoản"
  | TxAdjustment => "Điều chỉnh"
  | TxTypeUnset => ""
  end.

(** [Money] *)
Definition Money `{UnicodeCase} (minor : Z) (currency : string) : string := FormatMinor minor currency.

(** [CardData], [ExtractionCard] *)
Record CardData := mkCard {
  card_merchant : string; card_amount : string; card_date : string; card_type : string;
  card_category : string; card_flags : gmap string bool }.
Definition flagged (d : CardData) (key : string) : bool := default false (card_flags d !! key).
Definition warning_mark : string := "  ⚠️".
Definition flag (d : CardData) (key : string) : string := if flagged d key then warning_mark else "".
Definition ExtractionCard (d : CardData) : string :=
  let amountFlag := if flagged d "currency" then warning_mark else flag d "total" in
  (if flagged d "total" || flagged d "currency" then "Tôi chưa chắc về tổng tiền.

" else "") ++
  "Tôi đọc được:

" ++
  "Cửa hàng: " ++ card_merchant d ++ flag d "merchant" ++ "
" ++
  "Số tiền: " ++ card_amount d ++ amountFlag ++ "
" ++
  "Ngày: " ++ card_date d ++ flag d "date" ++ "
" ++
  "Loại: " ++ card_type d ++ "
" ++
  "Danh mục: " ++ card_category d ++ flag d "category" ++ "
" ++
  "
Trả lời: ok / y để lưu · edit / fix để sửa số tiền · no / n để hủy".

(** [DupLine], [PossibleDuplicateText] *)
Record DupLine := mkDup { dup_amount : string; dup_merchant : string; dup_date : string }.
Definition dup_line (l : DupLine) : string :=
  "
• " ++ dup_amount l ++ " · " ++ dup_merchant l ++ " · " ++ dup_date l.
Definition PossibleDuplicateText (lines : list DupLine) : string :=
  "⚠️ Khoản này có thể trùng với khoản đã ghi trước đó:" ++
  String.concat "" (dup_line <$> lines) ++
  "

Nếu đây là hai khoản khác nhau, cứ ok như thường. Nếu bị trùng, trả lời no.".

(** Fixed notices. *)
Definition UnsupportedImageText : string :=
  "Tôi chưa nhận ra đây là hóa đơn hoặc ảnh giao dịch.

Bạn có thể:
• gửi ảnh rõ hơn;
• cắt bớt phần không liên quan; hoặc
• nhập: " ++
  quoted "an sang 500k" ++
  ".".
Definition DuplicateReceiptText : string :=
  "Ảnh này tôi đã xử lý trước đó rồi. Nếu muốn ghi lại, bạn nhập tay nhé, ví dụ: " ++
  quoted "an sang 500k" ++
  ".".
Definition MonthlyQuotaText : string :=
  "Hệ thống đã đạt hạn mức xử lý ảnh trong tháng này. Bạn vẫn có thể nhập tay, ví dụ: " ++
  quoted "an sang 500k" ++
  ".".
Definition OCRDisabledText : string :=
  "Tính năng đọc ảnh hóa đơn đang tạm tắt để bảo trì. Bạn vẫn có thể nhập tay, ví dụ: " ++
  quoted "an sang 500k" ++
  ".".
Definition ExtractionFailedText : string :=
  "Tôi không đọc được ảnh này. Bạn có thể gửi ảnh rõ hơn, hoặc nhập tay: " ++
  quoted "an sang 500k" ++
  ".".
Definition MissingAmountText : string :=
  "Tôi thấy hóa đơn nhưng chưa đọc được số tiền. Bạn nhập tay giúp, ví dụ: " ++
  quoted "an sang 85k" ++
  ".".

(** [FieldNeedsFlag] and its thresholds (extractor.go) *)
Definition f64_0_85 : float64 := S754_finite false 7656119366529843 (-53).
Definition ConfTotalPrefill : float64 := f64_0_95.
Definition ConfCurrencyPrefill : float64 := f64_0_95.
Definition ConfDatePrefill : float64 := f64_0_9.
Definition ConfMerchantReject : float64 := f64_0_6.
Definition ConfCategoryPrefill : float64 := f64_0_85.
Definition FieldNeedsFlag (field : string) (confidence : float64) : bool :=
  if String.eqb field "total_minor" then SFltb confidence ConfTotalPrefill
  else if String.eqb field "currency" then SFltb confidence ConfCurrencyPrefill
  else if String.eqb field "occurred_at" then SFltb confidence ConfDatePrefill
  else if String.eqb field "merchant" then SFltb confidence ConfMerchantReject
  else if String.eqb field "category" then SFltb confidence ConfCategoryPrefill
  else false.
