(* ===== verification/Texts.v ===== *)
(** * Chat texts

    The rest of internal/conversation/templates.go: every text of the chat
    commands, word for word.  Numbers are padded and printed as fmt does, maps are
    walked in key order.  The scheduled runner and the bot send these texts. *)
From S2P Require Import Prelude GoStrings Domain GoTime Periods Normalise Categorisation Templates Insight.

(** ** Fixed texts *)
Definition ConsentCard : string :=
  "Xin chào! Tôi giúp ghi nhận và tổng hợp các khoản chi từ ảnh hóa đơn.

Bạn chỉ cần gửi ảnh hóa đơn, hoặc nhập nhanh một khoản như " ++ quoted "an sang 500k" ++ ".

Dữ liệu có thể bao gồm thông tin mua hàng và được lưu để tạo báo cáo chi tiêu. Bạn có thể xóa dữ liệu bất kỳ lúc nào bằng /delete.

Trả lời ok (hoặc " ++ quoted "đồng ý" ++ ") để bắt đầu, hoặc /privacy để xem cách dữ liệu được sử dụng.".
Definition WelcomeText : string :=
  "Cảm ơn bạn! Từ giờ bạn có thể:

• Gửi ảnh hóa đơn để tôi đọc và ghi nhận.
• Nhập nhanh: " ++ quoted "an sang 500k" ++ ", " ++ quoted "cafe 45k" ++ ".
• Xem tổng hợp: /today, /week, /month.
• Xem múi giờ, tiền tệ và lịch tổng kết bằng /settings.

Gõ /help để xem tất cả lệnh.".
Definition HelpText : string :=
  "Tôi có thể giúp bạn:

• Gửi ảnh hóa đơn — tôi đọc và gợi ý để bạn xác nhận.
• Nhập nhanh một khoản: " ++ quoted "an sang 500k" ++ ", " ++ quoted "cafe 45k" ++ ", " ++ quoted "150k cafe" ++ ".

Lệnh:
/help — xem hướng dẫn này
/today — chi tiêu hôm nay
/week — chi tiêu tuần này
/month — chi tiêu tháng này
/recent — các khoản gần đây
/settings — múi giờ, tiền tệ
/tz — đổi múi giờ, ví dụ /tz Asia/Ho_Chi_Minh
/sched — tổng kết tự động
/export — tải dữ liệu về
/delete — xóa toàn bộ dữ liệu (cần ok lần nữa)
/privacy — cách dữ liệu được sử dụng

ok / y — xác nhận · no / n — bỏ qua · edit — sửa số tiền
Câu tiếng Việt cũ (/homnay, xác nhận, …) vẫn dùng được.".
Definition SettingsInvalidText : string :=
  "Cú pháp chưa đúng. Dùng /settings để xem, /tz Asia/Ho_Chi_Minh hoặc /settings currency VND để thay đổi.".
Definition InvalidTimezoneText : string :=
  "Múi giờ không hợp lệ. Hãy dùng tên IANA, ví dụ Asia/Ho_Chi_Minh, Asia/Bangkok hoặc UTC.".
Definition InvalidCurrencyText : string :=
  "Tiền tệ không hợp lệ. Hãy dùng mã ISO 4217 gồm 3 chữ cái, ví dụ VND, USD hoặc AUD.".
Definition SummaryScheduleInvalidText : string :=
  "Cú pháp chưa đúng. Ví dụ: /sched daily 20:00, /sched weekly 08:00, hoặc /sched off.".
Definition SuspendedText : string :=
  "Tài khoản của bạn đang tạm dừng. Vui lòng liên hệ quản trị viên để được hỗ trợ.".
Definition NotAllowedText : string :=
  "Xin lỗi, tài khoản của bạn chưa được cấp quyền dùng bot trong giai đoạn thử nghiệm.".
Definition UnsupportedEventText : string :=
  "Xin lỗi, tôi chưa hỗ trợ loại tin nhắn này. Bạn có thể gửi ảnh hóa đơn hoặc nhập: " ++ quoted "an sang 500k" ++ ".".
Definition UnknownText : string :=
  "Tôi chưa hiểu tin nhắn này. Gõ /help để xem cách dùng, hoặc nhập một khoản như " ++ quoted "an sang 500k" ++ ".".
Definition BudgetUnsupportedText : string :=
  "Tính năng ngân sách chưa có trong bản hiện tại. Tôi sẽ báo bạn khi sẵn sàng.".
Definition ReceiptReceivedText : string :=
  "Đã nhận ảnh hóa đơn, đang xử lý…".
Definition DiscardedText : string :=
  "Đã bỏ qua, không ghi nhận khoản này.".
Definition DeleteConfirmText : string :=
  "Bạn sắp xóa VĨNH VIỄN toàn bộ dữ liệu của mình, gồm:

• Tất cả giao dịch đã ghi nhận
• Ảnh hóa đơn đã gửi
• Các quy tắc đã học từ bạn

Thao tác này không thể hoàn tác.
Trả lời ok để xóa, hoặc bất kỳ nội dung nào khác để hủy.".
Definition DeletedText : string :=
  "Đã xóa toàn bộ dữ liệu của bạn. Cảm ơn bạn đã đồng hành.".
Definition NoRecentText : string :=
  "Chưa có giao dịch nào được ghi nhận. Gửi ảnh hóa đơn hoặc nhập: " ++ quoted "an sang 500k" ++ ".".
Definition PendingExpiredText : string :=
  "Yêu cầu trước đó đã hết hạn. Bạn gửi lại ảnh hoặc nhập lại nhé.".
Definition DeleteRecentCancelText : string :=
  "Đã giữ lại khoản đó, không xóa nhé.".

(** ** Texts with values *)
Definition clock (minute : Z) : string := zero_pad 2 (Sprintd (minute / 60)) ++ ":" ++ zero_pad 2 (Sprintd (minute mod 60)).
Definition frequency_string (f : SummaryFrequency) : string :=
  match f with SummaryDaily => "daily" | SummaryWeekly => "weekly" | SummaryMonthly => "monthly" | SummaryOther s => s end.

(** [PrivacyText] *)
Definition PrivacyText (retentionDays : Z) (extractor : string) : string :=
  let thirdParty := if String.eqb extractor "gemini" || String.eqb extractor "textract" then ""
                    else "• Tôi không chia sẻ dữ liệu của bạn cho bên thứ ba.
" in
  "Cách tôi dùng dữ liệu của bạn:

• Ảnh hóa đơn chỉ dùng để đọc thông tin giao dịch; ảnh gốc được xóa sau " ++ Sprintd retentionDays ++ " ngày.
• Giao dịch đã ghi nhận được lưu để tổng hợp báo cáo chi tiêu cho riêng bạn.
" ++ thirdParty ++ "
Gửi /export để tải về toàn bộ dữ liệu, /delete để xóa vĩnh viễn.".

(** [SummaryFrequencyLabel] *)
Definition SummaryFrequencyLabel (frequency : SummaryFrequency) : string :=
  match frequency with
  | SummaryDaily => "hằng ngày"
  | SummaryWeekly => "hằng tuần"
  | SummaryMonthly => "hằng tháng"
  | SummaryOther s => s
  end.
Definition schedule_text (p : SummarySchedule) : string := SummaryFrequencyLabel (sch_frequency p) ++ " " ++ clock (sch_minute p).
Definition active_schedules (preferences : list SummarySchedule) : list SummarySchedule := filter (fun p => sch_enabled p = true) preferences.

(** [SettingsText], [SettingsUpdatedText] *)
Definition SettingsText (user : User) (preferences : list SummarySchedule) : string :=
  "⚙️ Cài đặt của bạn

" ++
  "• Múi giờ: " ++ usr_timezone user ++ "
" ++
  "• Tiền tệ mặc định: " ++ usr_default_currency user ++ "
" ++
  "• Ngôn ngữ: Tiếng Việt (" ++ usr_locale user ++ ")
" ++
  "• Tổng kết tự động: " ++
  match active_schedules preferences with
  | [] => "chưa bật"
  | active => Join (schedule_text <$> active) ", "
  end ++
  "

Thay đổi:
" ++
  "/tz Asia/Ho_Chi_Minh
" ++
  "/settings currency VND
" ++
  "/sched — cài lịch tổng kết".
Definition SettingsUpdatedText (label value : string) (user : User) (preferences : list SummarySchedule) : string :=
  "Đã cập nhật " ++ label ++ ": " ++ value ++ ".

" ++ SettingsText user preferences.

(** [SummaryScheduleText] and its confirmations *)
Definition SummaryScheduleText (preferences : list SummarySchedule) : string :=
  "Tổng kết tự động:
" ++
  match active_schedules preferences with
  | [] => "• Chưa bật lịch nào.
"
  | active => String.concat "" ((fun p => "• " ++ SummaryFrequencyLabel (sch_frequency p) ++ " lúc " ++ clock (sch_minute p) ++ "
") <$> active)
  end ++
  "
Cài đặt:
" ++
  "/sched daily 20:00
/sched weekly 08:00
/sched monthly 09:00
" ++
  "/sched off daily|weekly|monthly — tắt một lịch
/sched off — tắt tất cả".
Definition SummaryScheduleSetText (frequency : SummaryFrequency) (deliveryMinute : Z) : string :=
  "Đã bật tổng kết " ++ SummaryFrequencyLabel frequency ++ " lúc " ++ clock deliveryMinute ++ " theo múi giờ của bạn.".
Definition SummaryScheduleDisabledText (frequency : option SummaryFrequency) (changed : Z) : string :=
  if changed =? 0 then "Không có lịch tổng kết nào đang bật để tắt."
  else match frequency with
       | None => "Đã tắt tất cả tổng kết tự động."
       | Some f => "Đã tắt tổng kết " ++ SummaryFrequencyLabel f ++ "."
       end.

(** [DailyQuotaText], [ConfirmedText] *)
Definition DailyQuotaText (limit : Z) : string :=
  "Bạn đã gửi " ++ Sprintd limit ++ " ảnh hóa đơn hôm nay — đạt giới hạn rồi. Bạn vẫn có thể nhập tay, ví dụ: " ++ quoted "an sang 500k" ++ ", hoặc gửi ảnh lại vào ngày mai.".
Definition ConfirmedText (amount merchant category : string) : string :=
  "Đã ghi nhận: " ++ amount ++ " tại " ++ merchant ++ " (" ++ category ++ ").".

(** [EditPrompt], [EditInvalidText], [CorrectedText] *)
Definition EditPrompt (kind : PendingKind) : string :=
  match kind with
  | PendingEditTotal => "Nhập số tiền đúng (ví dụ: 325000):"
  | PendingEditMerchant => "Nhập tên cửa hàng đúng:"
  | PendingEditDate => "Nhập ngày đúng (ví dụ: 19/07/2026):"
  | PendingEditCategory => "Chọn danh mục đúng từ danh sách — trả lời số hoặc tên danh mục:"
  | PendingEditType => "Chọn loại giao dịch đúng từ danh sách — trả lời số hoặc tên loại:"
  | PendingDeleteAccount => DeleteConfirmText
  | _ => ""
  end.
Definition EditInvalidText (kind : PendingKind) : string :=
  match kind with
  | PendingConfirmExtraction => "Tôi chưa hiểu. Trả lời ok / y để lưu, hoặc no / n để hủy."
  | PendingDeleteAccount => "Trả lời ok để xóa, hoặc bất kỳ nội dung nào khác để hủy."
  | _ => "Giá trị chưa hợp lệ. " ++ EditPrompt kind
  end.
Definition CorrectedText (card : string) : string :=
  "Đã cập nhật.

" ++ card.

(** [EmptySummaryText] *)
Definition EmptySummaryText (periodLabel : string) : string :=
  periodLabel ++ ": chưa có khoản chi tiêu nào được ghi nhận. Gửi ảnh hóa đơn hoặc nhập: " ++ quoted "an sang 500k" ++ ".".

(** [strings.TrimRight(s, newline)] *)
Definition TrimRight_newlines (s : string) : string := trim_right_fuel (String.length s) ["
"] s.
(** [sortedKeys] *)
Definition sortedKeys (m : gmap string Z) : list string := isort String.leb (map_to_list m).*1.

(** [SummaryText] *)
Section summary.
Context `{UnicodeCase}.

(** One line per currency, which is named when there is more than one. *)
Definition currency_lines (label : string) (totals : gmap string Z) : string :=
  let curs := sortedKeys totals in
  String.concat "" ((fun c =>
    (if (Z.of_nat (length curs) =? 1) then label ++ ": " else label ++ " (" ++ c ++ "): ") ++
    Money (default 0 (totals !! c)) c ++ "
") <$> curs).

(** The loop over the categories: five lines per currency at most. *)
Definition category_line (many : bool) (ct : CategoryTotal) : string :=
  let label := if many then ct_display ct ++ " (" ++ ct_currency ct ++ ")" else ct_display ct in
  "• " ++ label ++ ": " ++ Money (ct_minor ct) (ct_currency ct) ++ "
".
Fixpoint category_lines (many : bool) (counts : gmap string Z) (cats : list CategoryTotal) : string :=
  match cats with
  | [] => ""
  | ct :: rest =>
      let n := default 0 (counts !! ct_currency ct) in
      if 5 <=? n then category_lines many counts rest
      else category_line many ct ++ category_lines many (<[ct_currency ct := n + 1]> counts) rest
  end.

Definition day_month (loc : Location) (t : Time) : string :=
  let c := local_date loc t in zero_pad 2 (Sprintd c.2) ++ "/" ++ zero_pad 2 (Sprintd c.1.2).
Definition largest_line (many : bool) (loc : Location) (l : LargestTx) : string :=
  let label := if many then "Khoản lớn nhất (" ++ lt_currency l ++ ")" else "Khoản lớn nhất" in
  label ++ ": " ++ Money (lt_minor l) (lt_currency l) ++ " · " ++ lt_merchant l ++ " · " ++ day_month loc (lt_at l) ++ "
".

Definition SummaryText (periodLabel : string) (s : Summary) (loc : Location) : string :=
  if TxCount s =? 0 then EmptySummaryText periodLabel
  else TrimRight_newlines (
    periodLabel ++ " — chi tiêu đã ghi nhận:

" ++
    currency_lines "Tổng" (CurrencyTotals s) ++
    currency_lines "Hoàn tiền" (RefundTotals s) ++
    (match ByCategory s with
     | [] => ""
     | cats => "
Theo danh mục:
" ++ category_lines (1 <? Z.of_nat (size (CurrencyTotals s))) ∅ cats
     end) ++
    (match LargestByCurrency s with
     | [] => ""
     | ls => "
" ++ String.concat "" (largest_line (1 <? Z.of_nat (length ls)) loc <$> ls)
     end) ++
    (if 0 <? NoSpendDays s then "
Số ngày không chi: " ++ Sprintd (NoSpendDays s) ++ "
" else "")).
End summary.

(** [RecentLine], [RecentText] *)
Record RecentLine := mkRecent { rl_date : string; rl_amount : string; rl_merchant : string; rl_category : string; rl_type : string }.
Definition recent_line (l : RecentLine) : string :=
  (if negb (String.eqb (rl_type l) "") && negb (String.eqb (rl_type l) (TypeLabel TxExpense)) &&
      negb (String.eqb (rl_type l) (txtype_string TxExpense))
   then "[" ++ rl_type l ++ "] " else "") ++
  rl_date l ++ " · " ++ rl_amount l ++ " · " ++ rl_merchant l ++ " · " ++ rl_category l ++ "
".
Definition RecentText (lines : list RecentLine) : string :=
  match lines with
  | [] => NoRecentText
  | _ => TrimRight_newlines ("Các khoản gần đây:
" ++ String.concat "" (recent_line <$> lines))
  end.

(** [ExportReadyText] *)
Definition ExportReadyText (csvPath jsonPath : string) (txCount : Z) : string :=
  "Đã xuất " ++ Sprintd txCount ++ " giao dịch đã ghi nhận:
• CSV: " ++ csvPath ++ "
• JSON: " ++ jsonPath.

(** [CategoryListText], [TypeListText] *)
Fixpoint numbered (i : Z) (l : list string) : string :=
  match l with [] => "" | x :: rest => Sprintd i ++ ". " ++ x ++ "
" ++ numbered (i + 1) rest end.
Definition CategoryListText (cats : list Category) : string :=
  numbered 1 (cat_display <$> cats) ++ "
Trả lời số hoặc tên danh mục.".
Definition listed_types : list TxType := [TxExpense; TxIncome; TxRefund; TxTransfer; TxAdjustment].
Definition TypeListText : string :=
  numbered 1 (TypeLabel <$> listed_types) ++ "
Trả lời số hoặc tên loại giao dịch.".

(** [RecategorisedText] *)
Definition RecategorisedText (merchant category : string) : string :=
  if String.eqb merchant "" then "Đã đổi khoản gần nhất sang danh mục " ++ category ++ "."
  else "Đã đổi khoản gần nhất tại " ++ merchant ++ " sang danh mục " ++ category ++ ".".

(** [DeleteRecentConfirmText], [DeletedRecentText] *)
Definition DeleteRecentConfirmText (amount merchant date category : string) : string :=
  "Bạn muốn xóa khoản này?

" ++ amount ++ " · " ++ merchant ++ " · " ++ date ++ " · " ++ category ++ "

Trả lời ok để xóa, hoặc gửi gì cũng được để giữ lại.".
Definition DeletedRecentText (amount merchant : string) : string :=
  "Đã xóa: " ++ amount ++ " tại " ++ merchant ++ ".".
