(* ===== verification/Export.v ===== *)
(** * Account export

    internal/account/export.go with the export queries of internal/store/account.go:
    the user's recorded transactions as CSV and the account metadata as indented
    JSON.  Shown: the CSV file, read by its column names, tells exactly the user's
    recorded transactions, in order, their times to the second. *)
From S2P Require Import Prelude GoStrings Domain GoTime Json Normalise Unmarshal JsonRoundtrip TimeText Db StoreInbound StoreTx StoreSchedules Texts Insight.

(** ** Queries (store/account.go) *)
Record ExportTransaction := mkExportTx {
  et_id : uuid; et_occurred_at : Time; et_type : string; et_merchant : string; et_description : string;
  et_amount : Z; et_currency : string; et_category : string; et_status : string; et_source : string }.
Definition source_string (s : TxSource) : string := match s with TxSourceReceipt => "receipt" | TxSourceManual => "manual" end.

Section queries.
Context `{Env} `{SqlLocale}.

(** [ListExportTransactions] *)
Definition export_row (d : DB) (t : Transaction) : ExportTransaction :=
  mkExportTx (tx_id t) (tx_occurred_at t) (txtype_string (tx_type t)) (tx_merchant_name t) (tx_description t) (tx_amount t) (tx_currency t)
    (from_option cat_key "" (tx_category t ≫= fun id => db_categories d !! id)) (tx_status_string (tx_status t)) (source_string (tx_source t)).
Definition oldest_first (a b : Transaction) : bool :=
  (tx_occurred_at a <? tx_occurred_at b) || ((tx_occurred_at a =? tx_occurred_at b) && (tx_id a <=? tx_id b)%N).
Definition export_rows (userID : uuid) (d : DB) : list ExportTransaction :=
  export_row d <$> isort oldest_first (select (recorded userID) (db_txs d)).
Definition ListExportTransactions (userID : uuid) : Go (list ExportTransaction) :=
  wrap_err (internalErr "ListExportTransactions") (query (export_rows userID)).

(** [LoadAccountExport] *)
Record AccountExportMeta := mkExportMeta {
  xm_user : User; xm_identities : list UserIdentity; xm_schedules : list SummarySchedule;
  xm_transactions : Z; xm_receipts : Z; xm_insights : Z; xm_schedule_count : Z }.
(** COUNT star ::int *)
Definition count_int {R} (l : list R) : Res DriverErr Z :=
  if Z.of_nat (length l) <? 2 ^ 31 then Ok (Z.of_nat (length l)) else Fail numeric_overflow.
Definition account_counts (userID : uuid) (d : DB) : Res DriverErr (Z * Z * Z * Z) :=
  match count_int (select (recorded userID) (db_txs d)),
        count_int (select (fun r => bool_decide (rc_user r = userID) && bool_decide (rc_deleted_at r = None)) (db_receipts d)),
        count_int (select (fun i => bool_decide (ins_user i = userID)) (db_insights d)),
        count_int (select (fun s => bool_decide (sch_user s = userID)) (db_schedules d)) with
  | Ok t, Ok r, Ok i, Ok s => Ok (t, r, i, s)
  | _, _, _, _ => Fail numeric_overflow
  end.
Definition identity_order (a b : UserIdentity) : bool :=
  if String.eqb (ident_provider a) (ident_provider b) then text_leb (ident_subject a) (ident_subject b)
  else text_leb (ident_provider a) (ident_provider b).
Definition LoadAccountExport (userID : uuid) : Go AccountExportMeta :=
  let* u := GetUser userID in
  let* idents := wrap_err (internalErr "LoadAccountExport") (query (fun d =>
      isort identity_order (select (fun i => bool_decide (ident_user i = userID)) (db_idents d)))) in
  let* schedules := ListSummarySchedules userID in
  let* '(t, r, i, s) := wrap_err (internalErr "LoadAccountExport") (query_res (account_counts userID)) in
  ret (mkExportMeta u idents schedules t r i s).
End queries.

(** ** Files (account/export.go) *)
Definition csvHeader : list string :=
  ["id"; "occurred_at"; "type"; "merchant"; "description"; "amount_minor"; "currency"; "category_key"; "status"; "source"].

Section export.
Context `{Env} `{SqlLocale}.

Definition csv_row (row : ExportTransaction) : list string :=
  [uuid_text (et_id row); RFC3339 UTC (et_occurred_at row); et_type row; et_merchant row; et_description row;
   Sprintd (et_amount row); et_currency row; et_category row; et_status row; et_source row].

(** Writing one record; the buffered writer reports an I/O error at any write. *)
Definition csv_Write (what : string) (text : string) (rec : list string) : Go string :=
  wrap_err (fun e => E CodeTransient what (Some e)) may_fail ;;; ret (text ++ csv_record rec).
(** [ExportTransactionsCSV]: the text written and the number of rows. *)
Definition ExportTransactionsCSV (userID : uuid) : Go (string * Z) :=
  let* rows := ListExportTransactions userID in
  let* head := csv_Write "write csv header" "" csvHeader in
  let* '(text, n) := for_each rows (fun acc row =>
      let* text := csv_Write "write csv row" acc.1 (csv_row row) in ret (text, acc.2 + 1)) (head, 0) in
  wrap_err (fun e => E CodeTransient "flush csv" (Some e)) may_fail ;;;
  ret (text, n).

(** The metadata document.  Times read from the database print in the zone of the
    process; an absent time is omitted. *)
Definition user_status_string (s : UserStatus) : string :=
  match s with
  | UserPending => "pending" | UserActive => "active" | UserSuspended => "suspended" | UserDeleting => "deleting" | UserDeleted => "deleted"
  end.
Definition optional_time (local : Location) (name : string) (t : option Time) : list (string * json) :=
  match t with Some t => [(name, JTime local t)] | None => [] end.
Definition metadata_json (local : Location) (exportedAt : Time) (m : AccountExportMeta) : json :=
  let u := xm_user m in
  JObj [("exported_at", JTime UTC exportedAt);
        ("user", JObj ([("id", JStr (uuid_text (usr_id u))); ("status", JStr (user_status_string (usr_status u)));
           ("timezone", JStr (usr_timezone u)); ("default_currency", JStr (usr_default_currency u)); ("locale", JStr (usr_locale u));
           ("created_at", JTime local (usr_created_at u)); ("updated_at", JTime local (usr_updated_at u))] ++
           optional_time local "deleted_at" (usr_deleted_at u))%list);
        ("consent", JObj (("version", JStr (usr_consent_version u)) :: optional_time local "consented_at" (usr_consented_at u)));
        ("identities", JArr ((fun i => JObj [("provider", JStr (ident_provider i)); ("provider_subject", JStr (ident_subject i));
           ("provider_scope", JStr (ident_scope i))]) <$> xm_identities m));
        ("summary_schedules", JArr ((fun s => JObj ([("frequency", JStr (frequency_string (sch_frequency s)));
           ("delivery_minute", JNum (sch_minute s)); ("provider", JStr (sch_provider s)); ("provider_chat_id", JStr (sch_chat s));
           ("enabled", JBool (sch_enabled s)); ("next_delivery_at", JTime local (sch_next s))] ++
           optional_time local "last_delivered_at" (sch_last s))%list) <$> xm_schedules m));
        ("counts", JObj [("transactions", JNum (xm_transactions m)); ("receipts", JNum (xm_receipts m));
           ("insights", JNum (xm_insights m)); ("summary_schedules", JNum (xm_schedule_count m))])].

(** [ExportMetadataJSON]: the text written. *)
Definition ExportMetadataJSON (local : Location) (userID : uuid) : Go string :=
  let encode_err := fun e => E CodeTransient "encode metadata export" (Some e) in
  let* meta := LoadAccountExport userID in
  let* now := time_Now in
  let* text := of_res (map_fail encode_err (EncodeIndent (metadata_json local now meta))) in
  wrap_err encode_err may_fail ;;;
  ret text.

(** ** The CSV export is complete *)
Lemma oldest_total a b : oldest_first a b = true \/ oldest_first b a = true.
Proof. unfold oldest_first. rewrite !orb_true_iff, !andb_true_iff, !Z.ltb_lt, !Z.eqb_eq, !N.leb_le. lia. Qed.
Lemma oldest_trans a b c : oldest_first a b = true -> oldest_first b c = true -> oldest_first a c = true.
Proof. unfold oldest_first. rewrite !orb_true_iff, !andb_true_iff, !Z.ltb_lt, !Z.eqb_eq, !N.leb_le. lia. Qed.

Lemma csv_Write_Ok what text rec t w w' : csv_Write what text rec w = (Ok t, w') -> t = (text ++ csv_record rec)%string.
Proof. intros Hrun. apply bind_Ok in Hrun as ([] & w1 & _ & Hrun). by apply ret_Ok in Hrun as [<- _]. Qed.
Lemma write_rows_Ok rows text n r w w' :
  for_each rows (fun acc row => let* text := csv_Write "write csv row" acc.1 (csv_row row) in ret (text, acc.2 + 1)) (text, n) w = (Ok r, w') ->
  r = ((text ++ csv_file (csv_row <$> rows))%string, n + Z.of_nat (length rows)).
Proof.
  revert text n w. induction rows as [|row rows IH]; intros text n w Hrun; cbn [for_each] in Hrun.
  - apply ret_Ok in Hrun as [<- _]. cbn. by rewrite str_app_nil, Z.add_0_r.
  - apply bind_Ok in Hrun as ([t m] & w1 & Hw & Hrun). apply bind_Ok in Hw as (t' & w2 & Hw & Hr). apply csv_Write_Ok in Hw as ->.
    apply ret_Ok in Hr as [[= <- <-] _]. apply IH in Hrun as ->. cbn [fst snd]. unfold csv_file. rewrite !fmap_cons, concat_cons, str_app_assoc.
    f_equal. cbn [length]. lia.
Qed.

(** What a reader finds in a record under a column's name. *)
Fixpoint cell (header rec : list string) (name : string) : option string :=
  match header, rec with
  | h :: hs, c :: cs => if String.eqb h name then Some c else cell hs cs name
  | _, _ => None
  end.
(** The record under that header tells the transaction: every text as it is, the
    amount as a decimal that reads back (it is an int64), the time as one that reads
    back to the second, the category by its key, empty without one. *)
Definition tells (d : DB) (header : list string) (t : Transaction) (rec : list string) : Prop :=
  cell header rec "id" = Some (uuid_text (tx_id t)) /\
  cell header rec "merchant" = Some (tx_merchant_name t) /\
  cell header rec "description" = Some (tx_description t) /\
  cell header rec "currency" = Some (tx_currency t) /\
  (exists s, cell header rec "amount_minor" = Some s /\ (int64_range (tx_amount t) -> ParseInt s = Some (tx_amount t))) /\
  (exists s, cell header rec "occurred_at" = Some s /\
     (printable (tx_occurred_at t) -> ParseRFC3339 s = Some (tx_occurred_at t - tx_occurred_at t mod Second))) /\
  cell header rec "category_key" = Some (match tx_category t with
    | Some id => match db_categories d !! id with Some c => cat_key c | None => "" end
    | None => "" end) /\
  cell header rec "type" = Some (txtype_string (tx_type t)) /\
  cell header rec "status" = Some (tx_status_string (tx_status t)) /\
  cell header rec "source" = Some (source_string (tx_source t)).

Lemma sorted_weaken {A} (R S : A -> A -> Prop) l : (forall a b, R a b -> S a b) -> StronglySorted R l -> StronglySorted S l.
Proof. intros HRS. induction 1 as [|a l _ IH Ha]; constructor; [done|]. eapply Forall_impl; [exact Ha|apply HRS]. Qed.

Lemma row_tells d t : tells d csvHeader t (csv_row (export_row d t)).
Proof.
  unfold tells. split_and!; try done.
  - eexists. split; [reflexivity|]. intros [Hlo Hhi]. rewrite ParseInt_text. cbn [export_row et_amount]. by rewrite (proj2 (Z.leb_le _ _) Hlo), (proj2 (Z.leb_le _ _) Hhi).
  - eexists. split; [reflexivity|]. intros Hp. cbn [export_row et_occurred_at]. unfold RFC3339. change (zone_suffix _) with "Z".
    rewrite (ParseRFC3339_clock _ _ 0 Hp) by done. f_equal. lia.
  - change (Some (from_option cat_key "" (tx_category t ≫= fun id => db_categories d !! id)) =
      Some (match tx_category t with Some id => match db_categories d !! id with Some c => cat_key c | None => "" end | None => "" end)).
    destruct (tx_category t) as [id|]; [|done]. simpl. by destruct (db_categories d !! id).
Qed.

Lemma export_file (u : uuid) (text : string) (n : Z) (w w' : World) (Hrun : ExportTransactionsCSV u w = (Ok (text, n), w')) :
  exists txs, txs ≡ₚ select (recorded u) (db_txs (w_db w)) /\ StronglySorted (fun a b => oldest_first a b = true) txs /\
    csv_parse text = csvHeader :: ((fun t => csv_row (export_row (w_db w) t)) <$> txs) /\ n = Z.of_nat (length txs).
Proof.
  exists (isort oldest_first (select (recorded u) (db_txs (w_db w)))).
  split; [apply isort_perm|]. split; [apply isort_sorted; [apply oldest_total|apply oldest_trans]|].
  unfold ExportTransactionsCSV in Hrun. apply bind_Ok in Hrun as (rows & w1 & Hl & Hrun).
  apply wrap_err_Ok, query_Ok in Hl as [-> ->]. apply bind_Ok in Hrun as (hd & w2 & Hh & Hrun). apply csv_Write_Ok in Hh as ->.
  apply bind_Ok in Hrun as ([t m] & w3 & Hrows & Hrun). apply write_rows_Ok in Hrows as [= -> ->].
  apply bind_Ok in Hrun as ([] & w4 & _ & Hrun). apply ret_Ok in Hrun as [[= <- <-] _].
  change ("" ++ csv_record csvHeader)%string with (csv_record csvHeader). unfold export_rows. split.
  - rewrite <- list_fmap_compose. change (csv_record csvHeader ++ csv_file (?l <$> ?r))%string with (csv_record csvHeader ++ csv_file (l <$> r))%string.
    replace (csv_record csvHeader ++ csv_file (csv_row ∘ export_row (w_db w) <$> isort oldest_first (select (recorded u) (db_txs (w_db w)))))%string
      with (csv_file (csvHeader :: (csv_row ∘ export_row (w_db w) <$> isort oldest_first (select (recorded u) (db_txs (w_db w))))))
      by (unfold csv_file; by rewrite fmap_cons, concat_cons).
    apply csv_parse_file. constructor; [done|]. apply Forall_fmap, Forall_true. done.
  - by rewrite length_fmap.
Qed.

(** C39: The CSV export is complete.  When it succeeds, the file reads back as a
    header with the ten column names and one record per recorded (confirmed or
    amended, undeleted) transaction of the user, in the order of their times and by
    id within an instant; read by column name, each record tells its transaction's
    id, merchant, description, currency, type, status and source whatever characters
    they contain, its amount exactly, its category's key, and its time to the second
    (fractions of a second are not written); the reported number is that of the
    records. *)
Theorem export_csv_complete (u : uuid) (text : string) (n : Z) (w w' : World) (Hrun : ExportTransactionsCSV u w = (Ok (text, n), w')) :
  exists txs header records,
    (forall t, t ∈ txs <-> (exists id, db_txs (w_db w) !! id = Some t) /\ tx_user t = u /\ tx_deleted_at t = None /\
       (tx_status t = TxConfirmed \/ tx_status t = TxAmended)) /\
    length txs = length (select (recorded u) (db_txs (w_db w))) /\
    StronglySorted (fun a b => tx_occurred_at a < tx_occurred_at b \/ tx_occurred_at a = tx_occurred_at b /\ (tx_id a <= tx_id b)%N) txs /\
    csv_parse text = header :: records /\
    header = ["id"; "occurred_at"; "type"; "merchant"; "description"; "amount_minor"; "currency"; "category_key"; "status"; "source"] /\
    Forall2 (tells (w_db w) header) txs records /\ n = Z.of_nat (length txs).
Proof.
  destruct (export_file u text n w w' Hrun) as (txs & Hperm & Hsort & Hfile & Hn).
  exists txs, csvHeader, ((fun t => csv_row (export_row (w_db w) t)) <$> txs). split_and!; try done.
  - intros t. rewrite Hperm, elem_of_select. unfold recorded. rewrite !andb_true_iff, !bool_decide_eq_true.
    destruct (tx_status t); cbn; naive_solver.
  - by rewrite Hperm.
  - eapply sorted_weaken; [|exact Hsort]. intros a b. unfold oldest_first.
    rewrite orb_true_iff, andb_true_iff, Z.ltb_lt, Z.eqb_eq, N.leb_le. done.
  - apply Forall2_fmap_r, Forall_Forall2_diag, Forall_forall. intros t _. apply row_tells.
Qed.
End export.

(** ** A concrete run *)
Module ExportDemo.
Import InsightDemo.
#[local] Instance env : Env := demo_env no_faults (fun n => Z.of_nat n * Second).
(** A name with a comma, a quote and a line break. *)
Definition odd_name : string := ("Bún, " ++ ch 34 ++ "chả" ++ ch 34 ++ newline ++ "Hà Nội")%string.
Definition sold (id : uuid) (shop : string) (at_ : Time) (status : TxStatus) : Transaction :=
  mkTx id 1 None None TxExpense None shop "" 45000 "VND" at_ None status TxSourceManual "" None 1 0 0 None None.
Definition exported : DB := upd_txs (fun _ => list_to_map ((fun t => (tx_id t, t)) <$>
    [sold 7 odd_name 3600000000000 TxConfirmed; sold 8 "Grab" 0 TxAmended; sold 9 "Draft" 0 TxAwaitingConfirmation])) db.

(** Two of the three rows are recorded; the odd name reads back whole. *)
Definition file : string := Eval vm_compute in match fst (ExportTransactionsCSV 1 (world_of exported)) with Ok p => p.1 | Fail _ => "" end.
Lemma export_run : ExportTransactionsCSV 1 (world_of exported) = (Ok (file, 2), snd (ExportTransactionsCSV 1 (world_of exported))).
Proof.
  rewrite (surjective_pairing (ExportTransactionsCSV 1 (world_of exported))) at 1.
  apply (f_equal2 pair); [vm_compute; reflexivity|reflexivity].
Qed.
Lemma export_csv_complete_witness : (csv_parse file !! 2%nat ≫= fun r => r !! 3%nat) = Some odd_name /\
  exists t header rec, csv_parse file !! 0%nat = Some header /\ csv_parse file !! 2%nat = Some rec /\
    cell header rec "merchant" = Some (tx_merchant_name t) /\ tx_merchant_name t = odd_name /\ tx_user t = 1%N.
Proof.
  split; [vm_compute; reflexivity|].
  destruct (export_csv_complete 1 file 2 _ _ export_run) as (txs & header & recs & Hin & _ & _ & Hf & Hh & Ht & _).
  assert (Hrec : exists rec, recs !! 1%nat = Some rec /\ rec !! 3%nat = Some odd_name).
  { assert ((csv_parse file !! 2%nat ≫= fun r => r !! 3%nat) = Some odd_name) as Ho by (vm_compute; reflexivity).
    rewrite Hf in Ho. apply bind_Some in Ho as (rec & Hr & Ho). exists rec. split; [exact Hr|exact Ho]. }
  destruct Hrec as (rec & Hr & Ho). destruct (Forall2_lookup_r _ _ _ _ _ Ht Hr) as (t & Htx & (_ & Hm & _)).
  exists t, header, rec. rewrite Hf. split_and!; [reflexivity|exact Hr|exact Hm| |].
  - rewrite Hh in Hm. destruct rec as [|? [|? [|? [|? ?]]]]; try discriminate Ho. cbn in Hm, Ho. congruence.
  - apply (Hin t). by eapply list_elem_of_lookup_2.
Defined.
End ExportDemo.
