(* ===== verification/Parse.v ===== *)
(** * Conversation parsing

    internal/conversation/parse.go: one text message to one intent.  The order of
    the rules is the code's.  Shown: destructive intents come only from exact
    phrases, a slash text is never an expense, every schedule the parser accepts is
    valid, the commands the bot advertises parse, and a manual entry carries the
    exact amount of its first or last word. *)
From S2P Require Import Prelude GoStrings Domain Normalise Texts StoreSchedules.

(** ** Intents *)
Inductive IntentKind :=
| IntentNone | IntentStart | IntentConfirm | IntentDiscard | IntentPrivacy | IntentHelp | IntentToday |
   IntentWeek | IntentMonth | IntentLastWeek | IntentLastMonth | IntentRecent | IntentBudget | IntentExport |
   IntentDeleteData | IntentSettings | IntentSummarySchedule | IntentEditTotal | IntentEditMerchant |
   IntentEditDate | IntentEditCategory | IntentEditType | IntentRecategory | IntentDeleteRecent |
   IntentManualEntry.
#[global] Instance IntentKind_eq_dec : EqDecision IntentKind.
Proof. solve_decision. Defined.

Inductive SummaryScheduleAction := ScheduleUnset | SummaryScheduleShow | SummaryScheduleSet | SummaryScheduleDisable | SummaryScheduleInvalid.
Inductive SettingsAction := SettingsUnset | SettingsShow | SettingsSetTimezone | SettingsSetCurrency | SettingsInvalid.
#[global] Instance SummaryScheduleAction_eq_dec : EqDecision SummaryScheduleAction.
Proof. solve_decision. Defined.
#[global] Instance SettingsAction_eq_dec : EqDecision SettingsAction.
Proof. solve_decision. Defined.

Record Intent := mkIntent {
  Kind : IntentKind;
  AmountMinor : Z; Currency : string; Description : string; AmountText : string;
  CategoryText : string;
  ScheduleAction : SummaryScheduleAction; Frequency : SummaryFrequency; DeliveryMinute : Z; DisableAll : bool;
  Settings : SettingsAction; Timezone : string; DefaultCurrency : string }.

(** [Intent{Kind: k}] and the literals with more fields. *)
Definition intent (k : IntentKind) : Intent :=
  mkIntent k 0 "" "" "" "" ScheduleUnset (SummaryOther "") 0 false SettingsUnset "" "".
Definition recategory (tail : string) : Intent :=
  mkIntent IntentRecategory 0 "" "" "" tail ScheduleUnset (SummaryOther "") 0 false SettingsUnset "" "".
Definition manual (minor : Z) (currency desc token : string) : Intent :=
  mkIntent IntentManualEntry minor currency desc token "" ScheduleUnset (SummaryOther "") 0 false SettingsUnset "" "".
Definition schedule (a : SummaryScheduleAction) (f : SummaryFrequency) (minute : Z) (all : bool) : Intent :=
  mkIntent IntentSummarySchedule 0 "" "" "" "" a f minute all SettingsUnset "" "".
Definition settings (a : SettingsAction) (tz currency : string) : Intent :=
  mkIntent IntentSettings 0 "" "" "" "" ScheduleUnset (SummaryOther "") 0 false a tz currency.

(** ** Tables *)
Definition SlashMenu : list (string * string) :=
  [("help", "Hướng dẫn"); ("today", "Chi tiêu hôm nay"); ("week", "Chi tiêu tuần này");
   ("month", "Chi tiêu tháng này"); ("recent", "Các khoản gần đây"); ("settings", "Múi giờ, tiền tệ");
   ("sched", "Tổng kết tự động"); ("export", "Tải dữ liệu"); ("delete", "Xóa toàn bộ dữ liệu");
   ("privacy", "Cách dùng dữ liệu")].
Definition slashCommands : list (string * IntentKind) :=
  [("start", IntentStart); ("batdau", IntentStart); ("xinchao", IntentStart); ("help", IntentHelp);
   ("trogiup", IntentHelp); ("today", IntentToday); ("homnay", IntentToday); ("week", IntentWeek);
   ("tuan", IntentWeek); ("month", IntentMonth); ("thang", IntentMonth); ("lastweek", IntentLastWeek);
   ("tuantruoc", IntentLastWeek); ("lastmonth", IntentLastMonth); ("thangtruoc", IntentLastMonth);
   ("recent", IntentRecent); ("ganday", IntentRecent); ("budget", IntentBudget); ("ngansach", IntentBudget);
   ("export", IntentExport); ("xuatdulieu", IntentExport); ("delete", IntentDeleteData); ("wipe", IntentDeleteData);
   ("xoadulieu", IntentDeleteData); ("privacy", IntentPrivacy); ("consent", IntentPrivacy);
   ("confirm", IntentConfirm); ("ok", IntentConfirm); ("y", IntentConfirm); ("discard", IntentDiscard);
   ("no", IntentDiscard); ("n", IntentDiscard); ("edit", IntentEditTotal); ("fix", IntentEditTotal)].
Definition settingsSlash : list string := ["settings"; "tz"; "caidat"].
Definition scheduleSlash : list string := ["sched"; "tongket"].
Definition exactCommands : list (string * IntentKind) :=
  [("help", IntentHelp); ("today", IntentToday); ("week", IntentWeek); ("month", IntentMonth);
   ("lastweek", IntentLastWeek); ("lastmonth", IntentLastMonth); ("recent", IntentRecent); ("budget", IntentBudget);
   ("export", IntentExport); ("delete", IntentDeleteData); ("wipe", IntentDeleteData); ("privacy", IntentPrivacy);
   ("consent", IntentPrivacy); ("start", IntentStart)].
Definition editPhrases : list (string * IntentKind) :=
  [("edit", IntentEditTotal); ("fix", IntentEditTotal); ("edit amount", IntentEditTotal);
   ("edit total", IntentEditTotal); ("sua so tien", IntentEditTotal); ("sai so tien", IntentEditTotal);
   ("doi so tien", IntentEditTotal); ("edit merchant", IntentEditMerchant); ("sua cua hang", IntentEditMerchant);
   ("sai ten", IntentEditMerchant); ("doi cua hang", IntentEditMerchant); ("sua ten cua hang", IntentEditMerchant);
   ("edit date", IntentEditDate); ("sua ngay", IntentEditDate); ("sai ngay", IntentEditDate);
   ("doi ngay", IntentEditDate); ("edit category", IntentEditCategory); ("sua danh muc", IntentEditCategory);
   ("doi danh muc", IntentEditCategory); ("edit type", IntentEditType); ("sua loai", IntentEditType);
   ("doi loai", IntentEditType)].
Definition recategoryPrefixes : list string := ["doi khoan gan nhat sang "; "chuyen khoan gan nhat sang "].
Definition deleteRecentPhrases : list string :=
  ["xoa khoan gan nhat"; "xoa khoan vua roi"; "xoa giao dich gan nhat"; "xoa giao dich vua roi";
   "xoa khoan chi gan nhat"; "xoa khoan tieu gan nhat"].
Definition confirmWords : list string :=
  ["xac nhan"; "dung"; "dung roi"; "dong y"; "ok"; "okay"; "yes"; "y"; "co"; "confirm"].
Definition discardWords : list string :=
  ["bo qua"; "huy"; "khong"; "skip"; "thoi"; "no"; "n"; "discard"].
Definition helpWords : list string := ["help"; "giup"; "huong dan"; "tro giup"].

Definition lookup_word {A} (table : list (string * A)) (w : string) : option A :=
  snd <$> List.find (fun e => String.eqb e.1 w) table.
Definition member (words : list string) (w : string) : bool := existsb (String.eqb w) words.

(** ** strings *)
Definition punctuation : list string := ["."; ","; "!"; "?"; "…"; ";"; ":"].
Fixpoint Cut (s : string) (b : Ascii.ascii) : option (string * string) :=
  match s with
  | "" => None
  | String c s' => if Ascii.eqb c b then Some ("", s') else (fun p => (String c p.1, p.2)) <$> Cut s' b
  end.
Fixpoint Split (s : string) (b : Ascii.ascii) : list string :=
  match s with
  | "" => [""]
  | String c s' => if Ascii.eqb c b then "" :: Split s' b
                   else match Split s' b with p :: ps => String c p :: ps | [] => [String c ""] end
  end.
(** [strings.EqualFold(s, "UTC")]: no rune outside ASCII folds to these letters. *)
Fixpoint upper_bytes (s : string) : string :=
  match s with "" => "" | String c s' => String (of_byte (ascii_upper (byte_of c))) (upper_bytes s') end.
Definition is_UTC (s : string) : bool := String.eqb (upper_bytes s) "UTC".

Section parse.
Context `{UnicodeCase}.

(** [fold], [hasWord] *)
Definition fold (s : string) : string := trim_set punctuation (Fold s).
Definition hasWord (folded needle : string) : bool := Contains (" " ++ folded ++ " ") (" " ++ needle ++ " ").

(** [parseSummaryFrequency], [parseSummarySchedule] *)
Definition parseSummaryFrequency (text : string) : option SummaryFrequency :=
  if member ["ngay"; "daily"] text then Some SummaryDaily
  else if member ["tuan"; "weekly"] text then Some SummaryWeekly
  else if member ["thang"; "monthly"] text then Some SummaryMonthly
  else None.
Definition schedule_invalid : Intent := schedule SummaryScheduleInvalid (SummaryOther "") 0 false.
Definition parse_clock (text : string) : option Z :=
  match Split text (of_byte 58) with
  | [h; m] =>
      match ParseInt h, ParseInt m with
      | Some hour, Some minute =>
          if (hour <? 0) || (23 <? hour) || (minute <? 0) || (59 <? minute) then None else Some (hour * 60 + minute)
      | _, _ => None
      end
  | _ => None
  end.
Definition parseSummarySchedule (args : string) : Intent :=
  match Fields args with
  | [] => schedule SummaryScheduleShow (SummaryOther "") 0 false
  | first :: rest =>
      if String.eqb first "tat" || String.eqb first "off" then
        match rest with
        | [] => schedule SummaryScheduleDisable (SummaryOther "") 0 true
        | [second] =>
            if String.eqb second "ca" || String.eqb second "all" then schedule SummaryScheduleDisable (SummaryOther "") 0 true
            else match parseSummaryFrequency second with
                 | Some f => schedule SummaryScheduleDisable f 0 false
                 | None => schedule_invalid
                 end
        | _ => schedule_invalid
        end
      else
        match rest with
        | [time] =>
            match parseSummaryFrequency first, parse_clock time with
            | Some f, Some minute => schedule SummaryScheduleSet f minute false
            | _, _ => schedule_invalid
            end
        | _ => schedule_invalid
        end
  end.

(** [parseSettings]: [None] stands for the panic of an index out of range. *)
Definition parseSettings (args : string) : option Intent :=
  let rawFields := Fields (TrimSpace args) in
  let value (a : SettingsAction) (valueAt : nat) : Intent :=
    match nth_error rawFields valueAt with
    | None => settings SettingsInvalid "" ""
    | Some v => match a with SettingsSetTimezone => settings a v "" | _ => settings a "" (ToUpper v) end
    end in
  match Fields (fold args) with
  | [] => Some (settings SettingsShow "" "")
  | [f0; _] =>
      if member ["muigio"; "tz"; "timezone"] f0 then Some (value SettingsSetTimezone 1%nat)
      else if member ["tiente"; "currency"] f0 then Some (value SettingsSetCurrency 1%nat)
      else Some (settings SettingsInvalid "" "")
  | [f0; f1; _] =>
      if String.eqb f0 "mui" && String.eqb f1 "gio" then Some (value SettingsSetTimezone 2%nat)
      else if String.eqb f0 "tien" && String.eqb f1 "te" then Some (value SettingsSetCurrency 2%nat)
      else Some (settings SettingsInvalid "" "")
  | [_] =>
      match rawFields with
      | [] => None
      | raw :: _ => if Contains raw "/" || is_UTC raw then Some (value SettingsSetTimezone 0%nat)
                    else Some (settings SettingsInvalid "" "")
      end
  | _ => Some (settings SettingsInvalid "" "")
  end.

(** [matchNamedSlash], [rawSlashArgs] *)
Fixpoint matchNamedSlash (body : string) (names : list string) : option (string * string) :=
  match names with
  | [] => None
  | n :: rest =>
      if String.eqb body n then Some (n, "")
      else if HasPrefix body (n ++ " ") then Some (n, TrimSpace (drop (String.length n) body))
      else matchNamedSlash body rest
  end.
Definition rawSlashArgs (text : string) : string :=
  match Cut (TrimSpace (TrimPrefix (TrimSpace text) "/")) (of_byte 32) with
  | None => ""
  | Some (_, args) => TrimSpace args
  end.

(** [manualFromAmount], [commandLikeDescription], [parseManualEntry] *)
Definition manualFromAmount (amountToken desc : string) : option Intent :=
  let desc := trim_set (" " :: punctuation) (TrimSpace desc) in
  if String.eqb desc "" then None
  else match ParseAmount amountToken "" with
       | Ok (minor, currency) => Some (manual minor currency desc amountToken)
       | Fail _ => None
       end.
Definition commandLikeDescription (desc : string) : bool :=
  let f := fold desc in
  if String.eqb f "" then false
  else match lookup_word editPhrases f with
       | Some _ => true
       | None =>
           if member confirmWords f || member discardWords f || member deleteRecentPhrases f then true
           else match lookup_word exactCommands f with
                | Some _ => true
                | None => member ["settings"; "sched"; "cai dat"; "xem cai dat"] f
                end
       end.
Definition trailing_entry (text last_field : string) : option Intent :=
  let token := trim_set punctuation last_field in
  let desc := trim_set (" " :: punctuation) (TrimSpace (TrimSuffix (TrimSpace text) last_field)) in
  if commandLikeDescription desc then None else manualFromAmount token desc.
Definition parseManualEntry (text : string) : option Intent :=
  match Fields text with
  | f0 :: f1 :: rest =>
      let last_field := List.last (f1 :: rest) f1 in
      match manualFromAmount f0 (TrimSpace (TrimPrefix (TrimSpace text) f0)) with
      | Some i => if commandLikeDescription (Description i) then trailing_entry text last_field else Some i
      | None => trailing_entry text last_field
      end
  | _ => None
  end.

(** [Parse], rule by rule; [None] stands for a panic. *)
Definition parse_slash (text body : string) : option Intent :=
  match matchNamedSlash body settingsSlash with
  | Some _ => parseSettings (rawSlashArgs text)
  | None =>
      match matchNamedSlash body scheduleSlash with
      | Some (name, foldedArgs) =>
          if String.eqb name "sched" then Some (parseSummarySchedule foldedArgs)
          else Some (parseSummarySchedule (TrimSpace (TrimPrefix body name)))
      | None => Some (intent (default IntentNone (lookup_word slashCommands body)))
      end
  end.
Definition parse_schedule_phrase (f : string) : option Intent :=
  if String.eqb f "tong ket tu dong" || String.eqb f "sched" then Some (parseSummarySchedule "")
  else if HasPrefix f "bat tong ket " then Some (parseSummarySchedule (TrimPrefix f "bat tong ket "))
  else if HasPrefix f "tat tong ket" then
    Some (parseSummarySchedule (TrimSpace ("tat " ++ TrimSpace (TrimPrefix f "tat tong ket"))))
  else None.
Fixpoint parse_recategory (f : string) (prefixes : list string) : option Intent :=
  match prefixes with
  | [] => None
  | p :: rest =>
      if HasPrefix f p then
        let tail := TrimSpace (TrimPrefix f p) in
        if String.eqb tail "" then parse_recategory f rest else Some (recategory tail)
      else parse_recategory f rest
  end.
Definition parse_insight (f : string) : option IntentKind :=
  if hasWord f "hom nay" && (hasWord f "tieu" || hasWord f "chi" || hasWord f "het" || hasWord f "bao nhieu") then Some IntentToday
  else if hasWord f "tuan truoc" then Some IntentLastWeek
  else if hasWord f "tuan nay" then Some IntentWeek
  else if hasWord f "thang truoc" then Some IntentLastMonth
  else if hasWord f "thang nay" then Some IntentMonth
  else if hasWord f "gan day" || hasWord f "lich su" then Some IntentRecent
  else None.
Definition asks_privacy (f : string) : bool :=
  Contains f "cach du lieu" || Contains f "chinh sach" ||
  (Contains f "du lieu" && (hasWord f "xem" || hasWord f "su dung" || hasWord f "bao mat")).
Definition asks_help (f : string) : bool := existsb (fun w => String.eqb f w || HasPrefix f (w ++ " ")) helpWords.

(** The rules after the slash commands, in order. *)
Definition parse_words (text f : string) : option Intent :=
  if member ["cai dat"; "xem cai dat"; "settings"] f then parseSettings ""
  else match parse_schedule_phrase f with
  | Some i => Some i
  | None => match lookup_word exactCommands f with
  | Some k => Some (intent k)
  | None => match lookup_word editPhrases f with
  | Some k => Some (intent k)
  | None => match parse_recategory f recategoryPrefixes with
  | Some i => Some i
  | None =>
      if member deleteRecentPhrases f then Some (intent IntentDeleteRecent)
      else match parse_insight f with
      | Some k => Some (intent k)
      | None =>
          if member confirmWords f then Some (intent IntentConfirm)
          else if member discardWords f then Some (intent IntentDiscard)
          else if asks_privacy f then Some (intent IntentPrivacy)
          else if asks_help f then Some (intent IntentHelp)
          else match parseManualEntry text with
          | Some i => Some i
          | None => Some (intent IntentNone)
          end
      end
  end end end end.
Definition try_Parse (text : string) : option Intent :=
  let f := fold text in
  if String.eqb f "" then Some (intent IntentNone)
  else if HasPrefix f "/" then parse_slash text (TrimPrefix f "/")
  else parse_words text f.
Definition Parse (text : string) : Intent := default (intent IntentNone) (try_Parse text).
End parse.

(** ** No panic *)
Lemma prefix_in_None encs s : prefix_in encs s = None <-> Forall (fun e => HasPrefix s e = false) encs.
Proof.
  unfold prefix_in. destruct (list_find (fun e => HasPrefix s e = true) encs) as [[i e]|] eqn:Hf; simpl.
  - apply list_find_Some in Hf as (Hi & Hp & _). split; [done|]. intros Hall.
    apply list_elem_of_lookup_2 in Hi. rewrite Forall_forall in Hall. specialize (Hall e Hi). congruence.
  - apply list_find_None in Hf. split; [|done]. intros _. eapply Forall_impl; [exact Hf|]. intros e He. by apply not_true_is_false.
Qed.
Lemma prefix_in_Some encs s e : prefix_in encs s = Some e -> e ∈ encs /\ HasPrefix s e = true.
Proof.
  unfold prefix_in. destruct (list_find (fun e => HasPrefix s e = true) encs) as [[i e']|] eqn:Hf; simpl; [|done]. intros [= <-].
  apply list_find_Some in Hf as (Hi & Hp & _). split; [by eapply list_elem_of_lookup_2|done].
Qed.
Lemma HasPrefix_take n s e : HasPrefix (take n s) e = true -> HasPrefix s e = true.
Proof.
  unfold HasPrefix. revert n e. induction s as [|c s IH]; intros [|n] [|c' e]; simpl; try done. destruct (Ascii.ascii_dec _ _); [|done]. apply IH.
Qed.
Lemma HasPrefix_drop s e : HasPrefix s e = true -> String.length (drop (String.length e) s) = (String.length s - String.length e)%nat.
Proof.
  unfold HasPrefix. revert s. induction e as [|c e IH]; intros [|c' s]; simpl; try done.
  destruct (Ascii.ascii_dec _ _); [|done]. intros. by apply IH.
Qed.

Section trim.
Context (encs : list string) (Hne : Forall (fun e => e <> "") encs).

Lemma trim_left_trimmed fuel s : (String.length s <= fuel)%nat -> prefix_in encs (trim_left_fuel fuel encs s) = None.
Proof.
  revert s. induction fuel as [|k IH]; intros s Hl; simpl.
  - destruct s; [|simpl in Hl; lia]. apply prefix_in_None. eapply Forall_impl; [exact Hne|]. intros [|c e] He; done.
  - destruct (prefix_in encs s) as [e|] eqn:Hp; [|done]. apply IH. apply prefix_in_Some in Hp as [Hin Hp].
    rewrite HasPrefix_drop by done. rewrite Forall_forall in Hne. specialize (Hne e Hin). destruct e; [done|]. simpl. lia.
Qed.
Lemma trim_right_keeps fuel s : prefix_in encs s = None -> prefix_in encs (trim_right_fuel fuel encs s) = None.
Proof.
  revert s. induction fuel as [|k IH]; intros s Hs; simpl; [done|]. destruct (suffix_in encs s) as [e|]; [|done]. apply IH.
  rewrite prefix_in_None in Hs |- *. eapply Forall_impl; [exact Hs|]. intros e' He'. apply not_true_is_false.
  intros Ht%HasPrefix_take. congruence.
Qed.
Lemma trim_set_trimmed s : prefix_in encs (trim_set encs s) = None.
Proof. unfold trim_set. by apply trim_right_keeps, trim_left_trimmed. Qed.
End trim.

Lemma fields_cur skip cur s : cur <> "" -> fields_from skip cur s <> [].
Proof.
  assert (forall c l, c <> "" -> flush c l <> []) as Hflush by (intros c l Hc; unfold flush; by destruct (String.eqb_spec c "")).
  revert skip cur. induction s as [|c s IH]; intros skip cur Hc; simpl; [by apply Hflush|].
  destruct skip as [|k]; [|by apply IH]. destruct (prefix_in _ _); [by apply Hflush|]. apply IH. by destruct cur.
Qed.

(** A trimmed text without fields is empty. *)
Lemma Fields_TrimSpace s : Fields (TrimSpace s) = [] -> TrimSpace s = "".
Proof.
  unfold TrimSpace. intros Hf. pose proof (trim_set_trimmed space_encodings ltac:(by repeat constructor) s) as Hp.
  destruct (trim_set space_encodings s) as [|c s']; [done|]. unfold Fields in Hf. cbn [fields_from] in Hf. rewrite Hp in Hf.
  by apply fields_cur in Hf.
Qed.

Section safety.
Context `{UnicodeCase}.

Lemma parseSettings_total args : is_Some (parseSettings args).
Proof.
  unfold parseSettings. destruct (Fields (fold args)) as [|f0 [|f1 [|f2 [|f3 rest]]]] eqn:Hf; try (by eexists).
  - destruct (Fields (TrimSpace args)) as [|raw rest] eqn:Hr; [|destruct (_ || _); by eexists].
    apply Fields_TrimSpace in Hr. unfold fold, Fold in Hf. rewrite Hr in Hf. discriminate Hf.
  - destruct (member _ _); [by eexists|]. destruct (member _ _); by eexists.
  - destruct (_ && _); [by eexists|]. destruct (_ && _); by eexists.
Qed.

Lemma parse_slash_total text body : is_Some (parse_slash text body).
Proof.
  unfold parse_slash. destruct (matchNamedSlash body settingsSlash); [apply parseSettings_total|].
  destruct (matchNamedSlash body scheduleSlash) as [[name args]|]; [destruct (String.eqb name "sched")|]; by eexists.
Qed.
Lemma parse_words_total text f : is_Some (parse_words text f).
Proof.
  unfold parse_words. destruct (member _ f); [apply parseSettings_total|].
  repeat case_match; by eexists.
Qed.

Lemma parse_total (text : string) : try_Parse text = Some (Parse text).
Proof.
  assert (is_Some (try_Parse text)) as [i Hi].
  { unfold try_Parse. destruct (String.eqb _ _); [by eexists|]. destruct (HasPrefix _ _); [apply parse_slash_total|apply parse_words_total]. }
  unfold Parse. by rewrite Hi.
Qed.

(** Parsing never panics: every message text has an intent, so no message can
    stop its handler in the parser (the settings command indexes the raw fields by
    the folded ones). *)
Theorem parse_never_panics (text : string) : try_Parse text = Some (Parse text).
Proof. apply parse_total. Qed.

(** ** What an intent carries *)
Definition intent_ok (i : Intent) : Prop :=
  match Kind i with
  | IntentManualEntry =>
      i = manual (AmountMinor i) (Currency i) (Description i) (AmountText i) /\ Description i <> "" /\
      0 <= AmountMinor i <= MaxInt64 /\ ParseAmount (AmountText i) "" = Ok (AmountMinor i, Currency i)
  | IntentRecategory => i = recategory (CategoryText i) /\ CategoryText i <> ""
  | IntentSummarySchedule =>
      i = schedule (ScheduleAction i) (Frequency i) (DeliveryMinute i) (DisableAll i) /\
      match ScheduleAction i with
      | SummaryScheduleSet => valid_frequency (Frequency i) = true /\ 0 <= DeliveryMinute i < 24 * 60
      | SummaryScheduleDisable => DisableAll i = negb (valid_frequency (Frequency i))
      | SummaryScheduleShow | SummaryScheduleInvalid => True
      | ScheduleUnset => False
      end
  | IntentSettings =>
      i = settings (Settings i) (Timezone i) (DefaultCurrency i) /\
      match Settings i with
      | SettingsSetTimezone => Timezone i <> "" /\ DefaultCurrency i = ""
      | SettingsSetCurrency => Timezone i = "" /\ exists raw, raw <> "" /\ DefaultCurrency i = ToUpper raw
      | SettingsShow | SettingsInvalid => Timezone i = "" /\ DefaultCurrency i = ""
      | SettingsUnset => False
      end
  | k => i = intent k
  end.

Lemma schedule_ok a f m all : intent_ok (schedule a f m all) <->
  match a with
  | SummaryScheduleSet => valid_frequency f = true /\ 0 <= m < 24 * 60
  | SummaryScheduleDisable => all = negb (valid_frequency f)
  | SummaryScheduleShow | SummaryScheduleInvalid => True
  | ScheduleUnset => False
  end.
Proof. unfold intent_ok. simpl. tauto. Qed.

Lemma parseSummaryFrequency_valid t f : parseSummaryFrequency t = Some f -> valid_frequency f = true.
Proof. unfold parseSummaryFrequency. repeat case_match; intros [= <-]; done. Qed.
Lemma parse_clock_range t m : parse_clock t = Some m -> 0 <= m < 24 * 60.
Proof.
  unfold parse_clock. repeat case_match; try done. intros [= <-].
  match goal with Hb : _ || _ = false |- _ => rewrite !orb_false_iff, !Z.ltb_ge in Hb end. lia.
Qed.

Lemma parseSummarySchedule_ok args : intent_ok (parseSummarySchedule args).
Proof.
  unfold parseSummarySchedule, schedule_invalid. repeat case_match; apply schedule_ok; try done.
  - symmetry. apply negb_false_iff. by eapply parseSummaryFrequency_valid.
  - split; [by eapply parseSummaryFrequency_valid|by eapply parse_clock_range].
Qed.

Lemma Fields_nonempty s : Forall (fun f => f <> "") (Fields s).
Proof.
  unfold Fields. generalize O at 1. generalize "" at 2. induction s as [|c s IH]; intros cur skip; simpl.
  - unfold flush. destruct (String.eqb_spec cur ""); by repeat constructor.
  - destruct skip; [|apply IH]. destruct (prefix_in _ _); [|apply IH]. unfold flush. destruct (String.eqb_spec cur ""); [apply IH|].
    constructor; [done|apply IH].
Qed.

Lemma parseSettings_ok args i : parseSettings args = Some i -> intent_ok i.
Proof.
  assert (forall n v, nth_error (Fields (TrimSpace args)) n = Some v -> v <> "") as Hv.
  { intros n v Hn. apply nth_error_In, list_elem_of_In in Hn. pose proof (Fields_nonempty (TrimSpace args)) as Hall.
    rewrite Forall_forall in Hall. by apply Hall. }
  unfold parseSettings. cbv zeta. repeat case_match; intros [= <-]; unfold intent_ok; simpl; split_and!; try done; eauto.
Qed.

Lemma manualFromAmount_ok t d i : manualFromAmount t d = Some i -> intent_ok i /\ Kind i = IntentManualEntry.
Proof.
  unfold manualFromAmount. cbv zeta. destruct (String.eqb_spec (trim_set (" " :: punctuation) (TrimSpace d)) "") as [|Hd]; [done|].
  destruct (ParseAmount t "") as [[minor cur]|] eqn:Hp; [|done]. intros [= <-]. unfold intent_ok. simpl. split; [|done].
  pose proof (ParseAmount_value _ _ _ _ Hp) as [Hr _]. done.
Qed.
Lemma parseManualEntry_ok text i : parseManualEntry text = Some i -> intent_ok i /\ Kind i = IntentManualEntry.
Proof.
  unfold parseManualEntry, trailing_entry. cbv zeta. repeat case_match; intros; simplify_eq; eauto using manualFromAmount_ok.
Qed.
Lemma parse_recategory_ok f ps i : parse_recategory f ps = Some i -> intent_ok i /\ Kind i = IntentRecategory.
Proof.
  induction ps as [|p ps IH]; simpl; [done|]. destruct (HasPrefix f p); [|done].
  destruct (String.eqb_spec (TrimSpace (TrimPrefix f p)) "") as [|Hne]; [done|]. intros [= <-]. unfold intent_ok. by simpl.
Qed.

(** A table yields only its entries. *)
Lemma lookup_word_in {A} (t : list (string * A)) w k : lookup_word t w = Some k -> (w, k) ∈ t.
Proof.
  unfold lookup_word. destruct (List.find (fun e => String.eqb e.1 w) t) as [[w' k']|] eqn:Hf; [|done]. simpl. intros [= <-].
  apply find_some in Hf as [Hin Heq]. simpl in Heq. apply String.eqb_eq in Heq as ->. by apply list_elem_of_In.
Qed.
Definition plain_kind (k : IntentKind) : bool :=
  negb (bool_decide (k ∈ [IntentManualEntry; IntentRecategory; IntentSummarySchedule; IntentSettings])).
Lemma plain_ok k : plain_kind k = true -> intent_ok (intent k).
Proof. by destruct k. Qed.
Lemma table_plain (t : list (string * IntentKind)) w k : forallb (fun e => plain_kind e.2) t = true -> lookup_word t w = Some k ->
  intent_ok (intent k).
Proof.
  intros Ht Hk%lookup_word_in. apply plain_ok. rewrite forallb_forall in Ht. apply list_elem_of_In in Hk. exact (Ht _ Hk).
Qed.

Lemma parse_slash_ok text body i : parse_slash text body = Some i -> intent_ok i.
Proof.
  unfold parse_slash. destruct (matchNamedSlash body settingsSlash); [apply parseSettings_ok|].
  destruct (matchNamedSlash body scheduleSlash) as [[name args]|].
  - destruct (String.eqb name "sched"); intros [= <-]; apply parseSummarySchedule_ok.
  - intros [= <-]. destruct (lookup_word slashCommands body) eqn:Hl; [|done]. by apply (table_plain slashCommands body).
Qed.
Lemma parse_schedule_phrase_ok f i : parse_schedule_phrase f = Some i -> intent_ok i /\ Kind i = IntentSummarySchedule.
Proof.
  unfold parse_schedule_phrase. assert (forall a, Kind (parseSummarySchedule a) = IntentSummarySchedule) as Hk
    by (intros a; unfold parseSummarySchedule; by repeat case_match).
  repeat case_match; intros [= <-]; (split; [apply parseSummarySchedule_ok|apply Hk]).
Qed.
Lemma parse_insight_plain f k : parse_insight f = Some k ->
  plain_kind k = true /\ k <> IntentDeleteData /\ k <> IntentDeleteRecent.
Proof. unfold parse_insight. repeat case_match; intros [= <-]; done. Qed.
Lemma parse_words_ok text f i : parse_words text f = Some i -> intent_ok i.
Proof.
  unfold parse_words. destruct (member _ f); [apply parseSettings_ok|].
  destruct (parse_schedule_phrase f) eqn:Hs; [intros [= <-]; by apply parse_schedule_phrase_ok in Hs as [? _]|].
  destruct (lookup_word exactCommands f) eqn:He; [intros [= <-]; by apply (table_plain exactCommands f)|].
  destruct (lookup_word editPhrases f) eqn:Hed; [intros [= <-]; by apply (table_plain editPhrases f)|].
  destruct (parse_recategory f _) eqn:Hr; [intros [= <-]; by apply parse_recategory_ok in Hr as [? _]|].
  destruct (member deleteRecentPhrases f); [intros [= <-]; done|].
  destruct (parse_insight f) as [k|] eqn:Hi.
  { intros [= <-]. apply parse_insight_plain in Hi as [Hi _]. by apply plain_ok. }
  destruct (member confirmWords f), (member discardWords f), (asks_privacy f), (asks_help f); try (intros [= <-]; done).
  destruct (parseManualEntry text) eqn:Hm; [intros [= <-]; by apply parseManualEntry_ok in Hm as [? _]|]. intros [= <-]. done.
Qed.

(** Intents are well formed.  Whatever the text: a manual entry has a
    description and a non-negative int64 amount that ParseAmount reads off its
    amount word; a schedule to set has a valid frequency and a minute of the day,
    so that the store accepts it, and one to disable names a valid frequency
    unless it disables all; a setting carries the value its action needs; a
    recategorisation names a category; and every other intent carries nothing. *)
Theorem parse_well_formed (text : string) : intent_ok (Parse text).
Proof.
  pose proof (parse_total text) as Ht. unfold try_Parse in Ht. destruct (String.eqb (fold text) "").
  - by injection Ht as <-.
  - destruct (HasPrefix (fold text) "/"); [by apply parse_slash_ok in Ht|by apply parse_words_ok in Ht].
Qed.

(** ** Destructive intents *)
Lemma HasPrefix_split s p : HasPrefix s p = true -> s = p ++ TrimPrefix s p.
Proof.
  unfold TrimPrefix. intros Hp. rewrite Hp. unfold HasPrefix in Hp. revert s Hp.
  induction p as [|c p IH]; intros s Hp; [by destruct s|]. destruct s as [|c' s]; [done|]. simpl in *.
  destruct (Ascii.ascii_dec c c') as [->|]; [|done].
  change (String c' s = String c' (p ++ drop (String.length p) s)). f_equal. by apply IH.
Qed.
Lemma member_in w ws : member ws w = true <-> w ∈ ws.
Proof.
  unfold member. rewrite existsb_exists. setoid_rewrite <- list_elem_of_In. setoid_rewrite String.eqb_eq.
  split; [by intros (x & Hx & ->)|eauto].
Qed.
Lemma settings_kind args i : parseSettings args = Some i -> Kind i = IntentSettings.
Proof. unfold parseSettings. cbv zeta. repeat case_match; by intros [= <-]. Qed.
Lemma schedule_kind args : Kind (parseSummarySchedule args) = IntentSummarySchedule.
Proof. unfold parseSummarySchedule. by repeat case_match. Qed.

(** The rules that can yield a destructive intent compare the whole text. *)
Lemma slash_destructive text body i : parse_slash text body = Some i ->
  Kind i <> IntentManualEntry /\ Kind i <> IntentDeleteRecent /\
  (Kind i = IntentDeleteData -> member ["delete"; "wipe"; "xoadulieu"] body = true).
Proof.
  unfold parse_slash. destruct (matchNamedSlash body settingsSlash).
  { intros Hs%settings_kind. rewrite Hs. done. }
  destruct (matchNamedSlash body scheduleSlash) as [[name args]|].
  { destruct (String.eqb name "sched"); intros [= <-]; rewrite schedule_kind; done. }
  intros [= <-]. destruct (lookup_word slashCommands body) as [k|] eqn:Hl; [|done]. apply lookup_word_in in Hl. simpl.
  assert (forallb (fun e => negb (bool_decide (e.2 = IntentManualEntry)) && negb (bool_decide (e.2 = IntentDeleteRecent)) &&
    (negb (bool_decide (e.2 = IntentDeleteData)) || member ["delete"; "wipe"; "xoadulieu"] e.1)) slashCommands = true) as Ht by reflexivity.
  rewrite forallb_forall in Ht. apply list_elem_of_In, Ht in Hl. rewrite !andb_true_iff, !negb_true_iff, !bool_decide_eq_false in Hl.
  simpl in Hl. destruct Hl as [[H1 H2] H3]. split_and!; [done|done|]. intros ->. by rewrite bool_decide_eq_true_2 in H3.
Qed.
Lemma words_destructive text f i : parse_words text f = Some i ->
  (Kind i = IntentDeleteRecent -> member deleteRecentPhrases f = true) /\
  (Kind i = IntentDeleteData -> member ["delete"; "wipe"] f = true).
Proof.
  unfold parse_words. destruct (member _ f). { intros Hs%settings_kind. by rewrite Hs. }
  destruct (parse_schedule_phrase f) eqn:Hs. { intros [= <-]. apply parse_schedule_phrase_ok in Hs as [_ Hs]. by rewrite Hs. }
  destruct (lookup_word exactCommands f) as [k|] eqn:He.
  { intros [= <-]. apply lookup_word_in in He. simpl.
    assert (forallb (fun e => negb (bool_decide (e.2 = IntentDeleteRecent)) &&
      (negb (bool_decide (e.2 = IntentDeleteData)) || member ["delete"; "wipe"] e.1)) exactCommands = true) as Ht by reflexivity.
    rewrite forallb_forall in Ht. apply list_elem_of_In, Ht in He. rewrite andb_true_iff, negb_true_iff, bool_decide_eq_false in He.
    simpl in He. destruct He as [H1 H2]. split; [done|]. intros ->. by rewrite bool_decide_eq_true_2 in H2. }
  destruct (lookup_word editPhrases f) as [k|] eqn:Hed.
  { intros [= <-]. apply lookup_word_in in Hed.
    assert (forallb (fun e => negb (bool_decide (e.2 = IntentDeleteRecent)) && negb (bool_decide (e.2 = IntentDeleteData))) editPhrases = true)
      as Ht by reflexivity. rewrite forallb_forall in Ht. apply list_elem_of_In, Ht in Hed.
    rewrite andb_true_iff, !negb_true_iff, !bool_decide_eq_false in Hed. simpl in *. destruct Hed. by split. }
  destruct (parse_recategory f _) eqn:Hr. { intros [= <-]. apply parse_recategory_ok in Hr as [_ Hr]. by rewrite Hr. }
  destruct (member deleteRecentPhrases f) eqn:Hd; [intros [= <-]; done|].
  destruct (parse_insight f) as [k|] eqn:Hi. { intros [= <-]. by apply parse_insight_plain in Hi as (_ & H1 & H2). }
  destruct (member confirmWords f), (member discardWords f), (asks_privacy f), (asks_help f); try (intros [= <-]; done).
  destruct (parseManualEntry text) eqn:Hm; [|by intros [= <-]]. intros [= <-]. apply parseManualEntry_ok in Hm as [_ Hm]. by rewrite Hm.
Qed.

(** C23: Deletion is never triggered by a loosely matching sentence, and always by
    the listed ones: the intent to wipe the account comes exactly from the texts that
    fold to one of five words, the intent to delete the newest entry exactly from
    those that fold to one of six phrases; and a text that starts with a slash is
    never an expense. *)
Theorem destructive_intents_exact (text : string) :
  (Kind (Parse text) = IntentDeleteData <-> fold text ∈ ["/delete"; "/wipe"; "/xoadulieu"; "delete"; "wipe"]) /\
  (Kind (Parse text) = IntentDeleteRecent <->
   fold text ∈ ["xoa khoan gan nhat"; "xoa khoan vua roi"; "xoa giao dich gan nhat"; "xoa giao dich vua roi";
                "xoa khoan chi gan nhat"; "xoa khoan tieu gan nhat"]) /\
  (HasPrefix (fold text) "/" = true -> Kind (Parse text) <> IntentManualEntry).
Proof.
  pose proof (parse_total text) as Ht. split_and!; [split|split|].
  - intros Hk. unfold try_Parse in Ht. destruct (String.eqb_spec (fold text) "") as [He|]; [injection Ht as Ht; by rewrite <- Ht in Hk|].
    destruct (HasPrefix (fold text) "/") eqn:Hp.
    + apply slash_destructive in Ht as (_ & _ & H3). apply H3, member_in in Hk. apply HasPrefix_split in Hp. rewrite Hp. clear - Hk.
      repeat (apply elem_of_cons in Hk as [->|Hk]; [repeat constructor|]). by apply elem_of_nil in Hk.
    + apply words_destructive in Ht as [_ H2]. apply H2, member_in in Hk. clear - Hk.
      repeat (apply elem_of_cons in Hk as [->|Hk]; [repeat constructor|]). by apply elem_of_nil in Hk.
  - clear Ht. intros Hf. unfold Parse, try_Parse.
    repeat (apply elem_of_cons in Hf as [->|Hf]; [reflexivity|]). by apply elem_of_nil in Hf.
  - intros Hk. unfold try_Parse in Ht. destruct (String.eqb_spec (fold text) "") as [He|]; [injection Ht as Ht; by rewrite <- Ht in Hk|].
    destruct (HasPrefix (fold text) "/"); [by apply slash_destructive in Ht as (_ & H2 & _)|].
    apply words_destructive in Ht as [H1 _]. by apply H1, member_in in Hk.
  - clear Ht. intros Hf. unfold Parse, try_Parse.
    repeat (apply elem_of_cons in Hf as [->|Hf]; [reflexivity|]). by apply elem_of_nil in Hf.
  - intros Hp. unfold try_Parse in Ht. destruct (String.eqb_spec (fold text) "") as [He|]; [by rewrite He in Hp|].
    rewrite Hp in Ht. by apply slash_destructive in Ht as (H1 & _).
Qed.

(** ** The advertised commands *)

(** Words of lower-case letters, digits, slashes and colons fold to themselves. *)
Definition word_byte (c : Ascii.ascii) : bool :=
  ((97 <=? byte_of c) && (byte_of c <=? 122)) || ((47 <=? byte_of c) && (byte_of c <=? 58)).
Definition text_byte (c : Ascii.ascii) : bool := word_byte c || (byte_of c =? 32).
Lemma text_byte_small c : text_byte c = true -> byte_of c < 128 /\ ascii_lower (byte_of c) = byte_of c.
Proof.
  unfold text_byte, word_byte, ascii_lower. rewrite !orb_true_iff, !andb_true_iff, !Z.leb_le, Z.eqb_eq. intros Hc. split; [lia|].
  destruct (Z.leb_spec 65 (byte_of c)), (Z.leb_spec (byte_of c) 90); simpl; lia.
Qed.
Lemma ToLower_text s : forall_bytes text_byte s = true -> ToLower s = s.
Proof.
  unfold ToLower, MapRunes. induction s as [|c s IH]; [done|]. cbn [forall_bytes]. intros [Hc Hs]%andb_true_iff.
  apply text_byte_small in Hc as [Hb Hl]. rewrite runes_ascii, fmap_cons by done.
  pose proof (byte_of_bound c). rewrite to_lower_ascii, Hl by lia. rewrite concat_cons, IH by done.
  unfold encode_rune. rewrite (proj2 (Z.leb_le 0 _)), (proj2 (Z.ltb_lt _ 128)) by lia. cbn [andb].
  change (bytes_string [byte_of c]) with (String (of_byte (byte_of c)) ""). by rewrite of_byte_of.
Qed.

(** A string that starts with one byte has no prefix that starts with another. *)
Definition starts_other (p : Ascii.ascii -> bool) (e : string) : bool := match e with "" => false | String c _ => negb (p c) end.
Lemma no_prefix p c s e : p c = true -> starts_other p e = true -> HasPrefix (String c s) e = false.
Proof.
  intros Hc He. destruct e as [|c' e]; [done|]. unfold HasPrefix. simpl. destruct (Ascii.ascii_dec c' c) as [->|]; [|done].
  simpl in He. by rewrite Hc in He.
Qed.
Lemma prefix_in_other p encs c s : p c = true -> forallb (starts_other p) encs = true -> prefix_in encs (String c s) = None.
Proof.
  intros Hc He. apply prefix_in_None, Forall_forall. intros e Hin. apply (no_prefix p); [done|].
  rewrite forallb_forall in He. apply He. by apply list_elem_of_In.
Qed.
Lemma fold_diacritics_text s : forall_bytes text_byte s = true -> fold_diacritics s = s.
Proof.
  unfold fold_diacritics. induction s as [|c s IH]; [done|]. cbn [forall_bytes]. intros [Hc Hs]%andb_true_iff. cbn [replace_pairs].
  assert (forallb (fun q => starts_other text_byte q.1) foldDiacritics = true) as Ht by (vm_compute; reflexivity).
  destruct (List.find (fun q => HasPrefix (String c s) q.1) foldDiacritics) as [[old new]|] eqn:Hf; [|by rewrite IH].
  apply find_some in Hf as [Hin Hp]. rewrite forallb_forall in Ht. specialize (Ht _ Hin). cbn [fst] in Ht, Hp.
  by rewrite (no_prefix text_byte c s old Hc Ht) in Hp.
Qed.

(** Fields of words separated by single spaces. *)
Lemma fields_word w cur rest : forall_bytes word_byte w = true -> fields_from O cur (w ++ rest) = fields_from O (cur ++ w) rest.
Proof.
  revert cur. induction w as [|c w IH]; intros cur; [by rewrite str_app_nil|]. cbn [forall_bytes]. intros [Hc Hw]%andb_true_iff.
  change (String c w ++ rest) with (String c (w ++ rest)). cbn [fields_from].
  rewrite (prefix_in_other word_byte) by (try done; vm_compute; reflexivity). rewrite IH by done. by rewrite <- str_app_assoc.
Qed.
Lemma fields_space cur rest : cur <> "" -> fields_from O cur (" " ++ rest) = cur :: fields_from O "" rest.
Proof.
  intros Hc. change (" " ++ rest) with (String (of_byte 32) rest). cbn [fields_from].
  replace (prefix_in space_encodings (String (of_byte 32) rest)) with (Some " ") by (by destruct rest).
  unfold flush. destruct (String.eqb_spec cur ""); [done|]. done.
Qed.
Lemma Fields_last w : forall_bytes word_byte w = true -> w <> "" -> Fields w = [w].
Proof.
  intros Hw Hne. unfold Fields. rewrite <- (str_app_nil w) at 1. rewrite fields_word by done.
  change (flush w [] = [w]). unfold flush. by destruct (String.eqb_spec w "").
Qed.
Lemma Fields_cons w rest : forall_bytes word_byte w = true -> w <> "" -> Fields (w ++ " " ++ rest) = w :: Fields rest.
Proof. intros Hw Hne. unfold Fields. rewrite fields_word by done. by rewrite fields_space. Qed.

(** Trimming leaves a text alone whose ends are of another kind. *)
Fixpoint last_byte (c : Ascii.ascii) (s : string) : Ascii.ascii := match s with "" => c | String c' s' => last_byte c' s' end.
Lemma suffix_last s e c c' : HasSuffix (String c s) (String c' e) = true -> last_byte c s = last_byte c' e.
Proof.
  assert (forall n s c, (n <= String.length s)%nat -> exists x y, drop n (String c s) = String x y /\ last_byte x y = last_byte c s) as Hdrop.
  { intros n. induction n as [|n IH]; intros s0 c0 Hn; [by exists c0, s0|]. destruct s0 as [|c1 s1]; [simpl in Hn; lia|].
    simpl in Hn. destruct (IH s1 c1 ltac:(lia)) as (x & y & Hd & Hl). by exists x, y. }
  unfold HasSuffix. intros [Hlen Heq]%andb_true_iff. apply Nat.leb_le in Hlen. apply String.eqb_eq in Heq.
  destruct (Hdrop (String.length (String c s) - String.length (String c' e))%nat s c) as (x & y & Hd & Hl); [simpl in *; lia|].
  rewrite Hd in Heq. injection Heq as -> ->. done.
Qed.
Lemma trim_set_ends p encs c s : forallb (starts_other p) encs = true ->
  forallb (fun e => match e with "" => false | String c' e' => negb (p (last_byte c' e')) end) encs = true ->
  p c = true -> p (last_byte c s) = true -> trim_set encs (String c s) = String c s.
Proof.
  intros Hs He Hc Hl. unfold trim_set. assert (trim_left_fuel (String.length (String c s)) encs (String c s) = String c s) as ->.
  { cbn [String.length trim_left_fuel]. by rewrite (prefix_in_other p). }
  cbn [String.length trim_right_fuel]. destruct (suffix_in encs (String c s)) as [e|] eqn:Hsuf; [|done]. exfalso. unfold suffix_in in Hsuf.
  destruct (list_find _ _) as [[i e']|] eqn:Hf; [|done]. apply list_find_Some in Hf as (Hi & Hp & _). apply list_elem_of_lookup_2 in Hi.
  rewrite forallb_forall in He. apply list_elem_of_In, He in Hi. destruct e' as [|c' e']; [done|]. apply suffix_last in Hp.
  by rewrite <- Hp, Hl in Hi.
Qed.

(** [fold] of words separated by single spaces, with no colon at either end. *)
Definition end_byte (c : Ascii.ascii) : bool := word_byte c && negb (byte_of c =? 58).
Lemma forall_bytes_join ws : Forall (fun w => forall_bytes word_byte w = true) ws -> forall_bytes text_byte (Join ws " ") = true.
Proof.
  assert (forall w, forall_bytes word_byte w = true -> forall_bytes text_byte w = true) as Himp.
  { induction w as [|c w IH]; [done|]. cbn [forall_bytes]. unfold text_byte at 1. intros [-> Hw]%andb_true_iff. by apply IH. }
  unfold Join. induction 1 as [|w ws Hw Hws IH]; [done|]. destruct ws as [|w' ws]; [by apply Himp|].
  change (forall_bytes text_byte (w ++ " " ++ String.concat " " (w' :: ws)) = true). rewrite !forall_bytes_app, Himp, IH by done. done.
Qed.
Lemma Fields_Join ws : Forall (fun w => forall_bytes word_byte w = true /\ w <> "") ws -> Fields (Join ws " ") = ws.
Proof.
  unfold Join. induction 1 as [|w ws [Hw Hne] Hws IH]; [done|]. destruct ws as [|w' ws]; [by apply Fields_last|].
  change (Fields (w ++ " " ++ String.concat " " (w' :: ws)) = w :: w' :: ws). by rewrite Fields_cons, IH.
Qed.
Lemma fold_words ws c s : Forall (fun w => forall_bytes word_byte w = true /\ w <> "") ws -> Join ws " " = String c s ->
  end_byte c = true -> end_byte (last_byte c s) = true -> fold (Join ws " ") = Join ws " ".
Proof.
  intros Hws He Hc Hl. assert (forall_bytes text_byte (Join ws " ") = true) as Ht
    by (apply forall_bytes_join; eapply Forall_impl; [exact Hws|]; intros w [Hw _]; exact Hw).
  assert (TrimSpace (Join ws " ") = Join ws " ") as Htrim.
  { rewrite He. apply (trim_set_ends end_byte); try done; vm_compute; reflexivity. }
  unfold fold, Fold. rewrite Htrim, ToLower_text, fold_diacritics_text, Fields_Join by done. rewrite He.
  apply (trim_set_ends end_byte); try done; vm_compute; reflexivity.
Qed.

Definition sched_command (f : SummaryFrequency) (minute : Z) : string := "/sched " ++ frequency_string f ++ " " ++ clock minute.

(** The time of day as printed: digits around a colon, and it parses back. *)
Definition clock_ok (minute : Z) : bool :=
  match clock minute with
  | "" => false
  | String c s => forall_bytes word_byte (String c s) && end_byte (last_byte c s) &&
                  bool_decide (parse_clock (String c s) = Some minute)
  end.
Lemma clocks_ok minute : 0 <= minute < 1440 -> clock_ok minute = true.
Proof.
  assert (forallb clock_ok (seqZ 0 1440) = true) as Hall by (vm_compute; reflexivity).
  intros Hm. rewrite forallb_forall in Hall. apply Hall, list_elem_of_In, elem_of_seqZ. lia.
Qed.
Lemma last_byte_app c s c' s' : last_byte c (s ++ String c' s') = last_byte c' s'.
Proof. revert c. induction s as [|x s IH]; intros c; [done|]. apply IH. Qed.

Lemma TrimSpace_lead c s : end_byte c = true -> end_byte (last_byte c s) = true -> TrimSpace (" " ++ String c s) = String c s.
Proof.
  intros Hc Hl. unfold TrimSpace, trim_set. change (String.length (" " ++ String c s)) with (S (S (String.length s))). cbn [trim_left_fuel].
  replace (prefix_in space_encodings (" " ++ String c s)) with (Some " ") by done. change (drop (String.length " ") (" " ++ String c s)) with (String c s).
  rewrite (prefix_in_other end_byte) by (try done; vm_compute; reflexivity).
  rewrite <- (trim_set_ends end_byte space_encodings c s) at 3 by (try done; vm_compute; reflexivity). unfold trim_set.
  change (String.length (String c s)) with (S (String.length s)). cbn [trim_left_fuel].
  by rewrite (prefix_in_other end_byte) by (try done; vm_compute; reflexivity).
Qed.

(** Schedules round-trip: for every frequency and every minute of the day, the
    command /sched with the frequency's name and the time as the bot prints it
    parses to exactly that schedule. *)
Theorem schedule_roundtrip (f : SummaryFrequency) (minute : Z) (Hf : valid_frequency f = true) (Hm : 0 <= minute < 1440) :
  Parse (sched_command f minute) = schedule SummaryScheduleSet f minute false.
Proof.
  pose proof (clocks_ok minute Hm) as Hc. unfold clock_ok in Hc. unfold sched_command. destruct (clock minute) as [|c t]; [done|].
  apply andb_true_iff in Hc as [Hc Hback%bool_decide_eq_true]. apply andb_true_iff in Hc as [Hw Hend].
  assert (forall_bytes word_byte (frequency_string f) = true /\ frequency_string f <> "") as [Hfw Hfn] by (by destruct f).
  set (text := "/sched " ++ frequency_string f ++ " " ++ String c t).
  assert (fold text = text) as Hfold.
  { change text with (Join ["/sched"; frequency_string f; String c t] " ").
    apply (fold_words _ (of_byte 47) ("sched " ++ (frequency_string f ++ " " ++ String c t))); try done.
    - by repeat constructor.
    - rewrite !str_app_assoc, last_byte_app. done. }
  unfold Parse, try_Parse. rewrite Hfold. change (String.eqb text "") with false. change (HasPrefix text "/") with true. cbv iota.
  unfold parse_slash. change (TrimPrefix text "/") with ("sched " ++ frequency_string f ++ " " ++ String c t).
  replace (matchNamedSlash ("sched " ++ frequency_string f ++ " " ++ String c t) settingsSlash) with (@None (string * string)) by (by destruct f).
  replace (matchNamedSlash ("sched " ++ frequency_string f ++ " " ++ String c t) scheduleSlash)
    with (Some ("sched", TrimSpace (" " ++ frequency_string f ++ " " ++ String c t))) by (by destruct f).
  assert (TrimSpace (" " ++ frequency_string f ++ " " ++ String c t) = frequency_string f ++ " " ++ String c t) as ->.
  { destruct f as [| | |o]; [..|done]; cbn [frequency_string];
      match goal with |- TrimSpace (" " ++ String ?x ?y ++ ?r) = _ => change (String x y ++ r) with (String x (y ++ r)) end;
      apply TrimSpace_lead; try done; by rewrite str_app_assoc, last_byte_app. }
  change (String.eqb "sched" "sched") with true. cbv iota. cbn [default from_option]. unfold parseSummarySchedule.
  rewrite Fields_cons, Fields_last by done. destruct f as [| | |o]; [..|done]; cbn - [parse_clock String.eqb]; by rewrite Hback.
Qed.

(** Every command of the picker is understood. *)
Lemma menu_understood : Forall (fun c => Kind (Parse ("/" ++ c.1)) <> IntentNone) SlashMenu.
Proof.
  assert (forallb (fun c => forall_bytes word_byte ("/" ++ c.1) && match c.1 with "" => false | String x y => end_byte (last_byte x y) end)
    SlashMenu = true) as Hf by (vm_compute; reflexivity).
  rewrite forallb_forall in Hf. apply Forall_forall. intros c Hc. pose proof (Hf c ltac:(by apply list_elem_of_In)) as Hi.
  apply andb_true_iff in Hi as [Hw He]. assert (fold ("/" ++ c.1) = "/" ++ c.1) as Hfold.
  { apply (fold_words ["/" ++ c.1] (of_byte 47) c.1); try done; [by repeat constructor|]. by destruct c.1. }
  unfold Parse, try_Parse. rewrite Hfold. clear Hf Hw He Hfold.
  repeat (apply elem_of_cons in Hc as [->|Hc]; [vm_compute; done|]). by apply elem_of_nil in Hc.
Qed.
End safety.

Module ParseDemo.
#[local] Existing Instance LatinCase.
Lemma schedule_roundtrip_witness : sched_command SummaryWeekly 485 = "/sched weekly 08:05" /\
  Parse "/sched weekly 08:05" = schedule SummaryScheduleSet SummaryWeekly 485 false.
Proof. split; [vm_compute; reflexivity|]. apply (schedule_roundtrip SummaryWeekly 485); [reflexivity|lia]. Defined.

(** Commands and phrases as the help text gives them. *)
Example Parse_ex :
  Parse "An sáng 500k!" = manual 500000 "VND" "An sáng" "500k" /\ Parse "150k cafe" = manual 150000 "VND" "cafe" "150k" /\
  Parse "Xác nhận." = intent IntentConfirm /\ Parse "sửa số tiền 150000" = intent IntentNone /\
  Parse "/tz Asia/Ho_Chi_Minh" = settings SettingsSetTimezone "Asia/Ho_Chi_Minh" "" /\
  Parse "/settings currency vnd" = settings SettingsSetCurrency "" "VND" /\
  Parse "Đổi khoản gần nhất sang đi lại" = recategory "di lai" /\
  Parse "/sched off" = schedule SummaryScheduleDisable (SummaryOther "") 0 true /\
  Kind (Parse "hôm nay tiêu bao nhiêu?") = IntentToday /\ Kind (Parse "xóa khoản gần nhất") = IntentDeleteRecent /\
  Kind (Parse "Xóa khoản chi gần nhất!") = IntentDeleteRecent /\ Kind (Parse "đổi danh mục") = IntentEditCategory /\
  Kind (Parse "edit date") = IntentEditDate.
Proof. vm_compute. tauto. Qed.

(** The arguments of a settings command are cut off at the first space only: after a
    line break they are not seen, although the command itself is recognised. *)
Theorem settings_after_newline :
  Parse ("/tz" ++ String (of_byte 10) "Asia/Bangkok") = settings SettingsShow "" "" /\
  Parse "/tz Asia/Bangkok" = settings SettingsSetTimezone "Asia/Bangkok" "".
Proof. vm_compute. tauto. Qed.
End ParseDemo.
