(* ===== verification/Fields.v ===== *)
(** * Extraction results

    contracts/events' ExtractionResult and internal/receipt/fields.go: typed
    reads of an extractor's loosely typed answer. *)
From Stdlib Require Import Ascii SpecFloat.
From S2P Require Import Prelude GoStrings Domain GoTime Db Normalise StoreTx.

(** A Go [any] as extractors fill it; [AnyOther] carries the text of [%v]. *)
Inductive AnyValue :=
| AnyNil | AnyString (s : string) | AnyInt64 (z : Z) | AnyInt (z : Z) | AnyFloat (f : float64)
| AnyNumber (text : string) | AnyOther (text : string).

Record FieldValue := mkValue { fv_raw : string; fv_normalised : AnyValue; fv_confidence : float64 }.
Record LineItem := mkItem { li_name : string; li_quantity : Z; li_amount : Z }.
Record ExtractorInfo := mkInfo { ei_name : string; ei_version : string }.
(** A Go map is iterated in no particular order; here in the order of
    [map_to_list], on which no statement depends. *)
Record ExtractionResult := mkResult {
  er_extractor : ExtractorInfo; er_fields : gmap string FieldValue; er_items : list LineItem;
  er_warnings : list string }.

Record MediaReference := mkMedia { mr_provider : string; mr_url : string; mr_mime : string; mr_caption : string }.
Record InboundEvent := mkEvent {
  ev_provider : string; ev_user : string; ev_chat : string; ev_message : string; ev_type : string;
  ev_text : string; ev_media : list MediaReference; ev_received_at : Time; ev_hash : string;
  ev_raw : string; ev_update : Z }.

(** [%v] of a float64 is Go's shortest decimal that reads back; its digits are a
    parameter. *)
Class FloatText := { float_text : float64 -> string }.

Section fields.
Context `{FloatText}.

Definition sprint_v (v : AnyValue) : string :=
  match v with
  | AnyNil => "<nil>" | AnyString s => s | AnyInt64 z | AnyInt z => Sprintd z
  | AnyFloat f => float_text f | AnyNumber s | AnyOther s => s
  end.

(** [fieldRaw], [fieldString] *)
Definition fieldRaw (res : ExtractionResult) (name : string) : string :=
  match er_fields res !! name with Some f => TrimSpace (fv_raw f) | None => "" end.
Definition fieldString (res : ExtractionResult) (name : string) : string :=
  match er_fields res !! name with
  | None => ""
  | Some f => match fv_normalised f with AnyNil => "" | v => TrimSpace (sprint_v v) end
  end.

(** [int64(v)]: truncation; out of range, the amd64 result. *)
Definition f64_to_int64 (f : float64) : Z :=
  match f with
  | S754_finite s m e =>
      let a := if 0 <=? e then Z.pos m * 2 ^ e else Z.pos m / 2 ^ (- e) in
      let z := if s then - a else a in
      if (MinInt64 <=? z) && (z <=? MaxInt64) then z else MinInt64
  | S754_zero _ => 0
  | _ => MinInt64
  end.
Definition ParseInt_error (s : string) : Err :=
  let digits := match s with String c s' => if Ascii.eqb c "-" || Ascii.eqb c "+" then s' else s | "" => "" end in
  Sentinel ("strconv.ParseInt: parsing " ++ quoted s ++ ": " ++
            match parse_magnitude digits with Some _ => "value out of range" | None => "invalid syntax" end).

(** [fieldInt] *)
Definition fieldInt (res : ExtractionResult) (name : string) : Res Err Z :=
  let missing := Fail (invalid ("extraction missing " ++ name)) in
  let parse s := match ParseInt s with
                 | Some n => Ok n
                 | None => Fail (E CodeValidation ("parse " ++ name) (Some (ParseInt_error s)))
                 end in
  match er_fields res !! name with
  | None => missing
  | Some f =>
      match fv_normalised f with
      | AnyNil => missing
      | AnyInt64 v | AnyInt v => Ok v
      | AnyFloat v => Ok (f64_to_int64 v)
      | AnyNumber s => parse s
      | AnyString s => parse (TrimSpace s)
      | AnyOther _ => Fail (invalid ("extraction " ++ name ++ " is not numeric"))
      end
  end.

(** [fieldTime] *)
Definition fieldTime (res : ExtractionResult) (name : string) (loc : Location) : Res Err Time :=
  let s := fieldString res name in
  match (if String.eqb s "" then None else ParseRFC3339 s) with
  | Some t => Ok t
  | None =>
      let raw := fieldRaw res name in
      match (if String.eqb raw "" then Fail (invalid "") else ParseDate raw loc) with
      | Ok t => Ok t
      | Fail _ => Fail (invalid ("extraction missing " ++ name))
      end
  end.

(** [fieldConf] *)
Definition fieldConf (res : ExtractionResult) (name : string) : float64 :=
  match er_fields res !! name with Some f => fv_confidence f | None => float_zero end.

(** [fmt.Sprintf("%.2f", f)]: the exact value rounded half to even. *)
Definition round_half_even (n d : Z) : Z :=
  let q := n / d in
  let r := n mod d in
  if (d <? 2 * r) || ((2 * r =? d) && Z.odd q) then q + 1 else q.
Definition sprint_2f (f : float64) : string :=
  let two z := Sprintd (z / 100) ++ "." ++ zero_pad 2 (Sprintd (z mod 100)) in
  match f with
  | S754_zero s => if s then "-0.00" else "0.00"
  | S754_infinity s => if s then "-Inf" else "+Inf"
  | S754_nan => "NaN"
  | S754_finite s m e =>
      let q := if 0 <=? e then Z.pos m * 100 * 2 ^ e else round_half_even (Z.pos m * 100) (2 ^ (- e)) in
      (if s then "-" else "") ++ two q
  end.

(** [confidenceSummary]: sorted "field:conf" pairs. *)
Definition key_le (a b : string * FieldValue) : bool := String.leb a.1 b.1.
Definition confidenceSummary (res : ExtractionResult) : string :=
  Join ((fun kv => kv.1 ++ ":" ++ sprint_2f (fv_confidence kv.2)) <$> isort key_le (map_to_list (er_fields res))) ",".

(** [provenance] *)
Definition provenance `{Env} (receiptID : uuid) (res : ExtractionResult) : Go (list ExtractedField) :=
  let* out := for_each (map_to_list (er_fields res)) (fun out kv =>
    let* id := uuid_New in
    let normalised := match fv_normalised kv.2 with AnyNil => "" | v => sprint_v v end in
    ret (mkField id receiptID kv.1 (fv_raw kv.2) normalised (fv_confidence kv.2) "extractor" ""
           (ei_name (er_extractor res)) (ei_version (er_extractor res)) 0 :: out)) [] in
  ret (rev out).
End fields.

Module FieldExamples.
#[local] Instance no_floats : FloatText := {| float_text := fun _ => "" |}.
Example sprint_2f_ex :
  sprint_2f (S754_finite false 8556839292003942 (-53)) = "0.95" /\ sprint_2f (S754_finite false 1 (-3)) = "0.12" /\
  sprint_2f (S754_finite false 3 (-3)) = "0.38".
Proof. vm_compute. done. Qed.
End FieldExamples.
