(* ===== verification/Notify.v ===== *)
(** * Notify

    internal/notify: the [Enqueuer] that writes outbox rows and their queue jobs,
    and the [Sender] that delivers them.  Shown, for every schedule of faults and
    every provider: an outbox row is handed to the provider at most once, the
    provider is called at most [MonthlyMessageLimit] times a month, and
    enqueueing under a key writes one row. *)
From S2P Require Import Prelude GoStrings Domain GoTime Db Queue StoreOutbound StoreInbound.

(** messaging.Provider's [Send], at a tick: the provider's reference or a
    classified error. *)
Class Provider := { provider_Send : nat -> string -> string -> string -> Res Err string }.

Section notify.
Context `{Env}.

(** ** Enqueuer *)

(** [Enqueuer.enqueue]; marshalling the job cannot fail. *)
Definition enqueue (userID : uuid) (provider chatID body idempotencyKey : string) (ephemeral : bool) :
    Go unit :=
  let* id := uuid_New in
  let rec := mkOutbound id userID provider chatID idempotencyKey body ephemeral OutboundUnset 0 ""
               None None "" 0 in
  let* created := EnqueueOutbound rec in
  let* target :=
    (if created then ret (Some rec)
     else
       let* stored := GetOutboundByIdempotencyKey idempotencyKey in
       if bool_decide (ob_status stored = OutboundQueued) then ret (Some stored) else ret None) in
  match target with
  | None => ret tt
  | Some rec =>
      let* now := clk_Now in
      let job := mkOutboundJob (ob_id rec) userID now in
      let dedupe := "outbound:" ++ uuid_text (ob_id rec) in
      let* res := attempt (Enqueue JobOutboundSend (PayOutbound job) (Some dedupe) 5) in
      match res with
      | Ok _ => ret tt
      | Fail (Sentinel m) => if String.eqb m "queue: duplicate dedupe key" then ret tt else fail (Sentinel m)
      | Fail err => fail err
      end
  end.

(** [Enqueuer.Reply], [Enqueuer.DeletionConfirmation] *)
Definition Reply (userID : uuid) (provider chatID body idempotencyKey : string) : Go unit :=
  enqueue userID provider chatID body idempotencyKey false.
Definition DeletionConfirmation (userID : uuid) (provider chatID body idempotencyKey : string) : Go unit :=
  enqueue userID provider chatID body idempotencyKey true.

(** ** Sender *)
Record Sender := mkSender { OutboundEnabled : bool; MonthlyMessageLimit : Z }.

Context `{Provider}.

Definition Send (row : uuid) (period chat text key : string) : Go string := fun w =>
  (provider_Send (w_tick w) chat text key, log_call (CallSend row period chat text key) (tick w)).

(** [json.Unmarshal] into an [OutboundJob]: another schema's payload leaves the
    fields it lacks at their zero values. *)
Definition decode_outbound (p : Payload) : option OutboundJob :=
  match p with
  | PayOutbound j => Some j
  | PayReceipt j => Some (mkOutboundJob uuid_nil (rj_user j) (rj_enqueued_at j))
  | PaySweep t => Some (mkOutboundJob uuid_nil uuid_nil t)
  | PayOther _ => None
  end.

Definition gone (u : User) : bool :=
  bool_decide (usr_status u = UserDeleted) || bool_decide (usr_deleted_at u <> None).

(** [handleLocked] after the provider answered. *)
Definition settle (s : Sender) (rec : OutboundRecord) (jobID : uuid) (period : string)
    (answer : Res Err string) : Go unit :=
  match answer with
  | Fail sendErr =>
      let text := code_string (CodeOf sendErr) ++ ": " ++ error_string sendErr in
      if ob_ephemeral rec then PurgeOutboundAndJob (ob_id rec) jobID
      else if Retryable sendErr then MarkOutboundStatus (ob_id rec) OutboundAmbiguous text None
      else MarkOutboundStatus (ob_id rec) OutboundFailed text None
  | Ok ref =>
      CompleteOutboundSend (ob_id rec) jobID period (MonthlyMessageLimit s) ref ;;; ret tt
  end.

(** [handleLocked] from the reservation of a provider call on. *)
Definition deliver (s : Sender) (rec : OutboundRecord) (jobID : uuid) : Go unit :=
  let* now := clk_Now in
  let period := Format_month now in
  let* ' (rec, allowed, _) := BeginOutboundAttempt (ob_id rec) period (MonthlyMessageLimit s) in
  if negb allowed then
    if ob_ephemeral rec then PurgeOutboundAndJob (ob_id rec) jobID else ret tt
  else
    let* answer := attempt (Send (ob_id rec) period (ob_chat rec) (ob_body rec) (ob_key rec)) in
    settle s rec jobID period answer.

(** [Sender.handleLocked] *)
Definition Sender_handleLocked (s : Sender) (job : QueueJob) (payload : OutboundJob) : Go unit :=
  let* found := attempt (GetOutbound (oj_outbound payload)) in
  match found with
  | Fail err => if IsCode err CodeNotFound then DeleteQueueJob (job_id job) else fail err
  | Ok rec =>
      match ob_status rec with
      | OutboundQueued =>
          let* user := attempt (GetUser (oj_user payload)) in
          match user with
          | Fail err =>
              if IsCode err CodeNotFound then PurgeOutboundAndJob (ob_id rec) (job_id job) else fail err
          | Ok user =>
              if gone user && negb (ob_ephemeral rec) then PurgeOutboundAndJob (ob_id rec) (job_id job)
              else if negb (OutboundEnabled s) then
                if ob_ephemeral rec then PurgeOutboundAndJob (ob_id rec) (job_id job)
                else MarkOutboundStatus (ob_id rec) OutboundSuppressed "outbound kill switch" None
              else deliver s rec (job_id job)
          end
      | OutboundSending =>
          if ob_ephemeral rec then PurgeOutboundAndJob (ob_id rec) (job_id job)
          else MarkOutboundStatus (ob_id rec) OutboundAmbiguous
                 "worker recovered an interrupted provider attempt; delivery outcome unknown" None
      | _ => ret tt
      end
  end.

(** [Sender.Handle] *)
Definition Sender_Handle (s : Sender) (job : QueueJob) : Go unit :=
  match decode_outbound (job_payload job) with
  | None => fail (E CodeValidation "decode outbound job" None)
  | Some payload => WithUserLock (oj_user payload) (Sender_handleLocked s job payload)
  end.
End notify.

(** ** At most one provider call per outbox row *)
Definition is_send (id : uuid) (c : Call) : bool :=
  match c with CallSend row _ _ _ _ => bool_decide (row = id) | _ => false end.
Definition sends (id : uuid) (w : World) : nat := length (List.filter (is_send id) (w_calls w)).

(** Producers and the sender, in any order and number. *)
Inductive NotifyOp :=
| OpReply (userID : uuid) (provider chatID body key : string)
| OpDeletionConfirmation (userID : uuid) (provider chatID body key : string)
| OpHandle (s : Sender) (job : QueueJob).

Section at_most_once.
Context `{Env} `{Provider}.

Definition run_notify (o : NotifyOp) : Go unit :=
  match o with
  | OpReply u p c b k => ignore (Reply u p c b k)
  | OpDeletionConfirmation u p c b k => ignore (DeletionConfirmation u p c b k)
  | OpHandle s job => ignore (Sender_Handle s job)
  end.
Definition run_notifies (ops : list NotifyOp) : Go unit := for_each ops (fun _ o => run_notify o) tt.

(** No identifier drawn from now on is [id]. *)
Definition no_draw (id : uuid) (w : World) : Prop := forall n, (w_tick w <= n)%nat -> new_uuid n <> id.

(** At most one call was made; if one was, the row is spent for good. *)
Definition once (id : uuid) (w : World) : Prop :=
  outbox_keyed (w_db w) /\
  (is_Some (db_outbound (w_db w) !! id) -> no_draw id w) /\
  (sends id w = 0%nat \/ (sends id w = 1%nat /\ spent id (w_db w) /\ no_draw id w)).
Definition keeps_once (id : uuid) : relation World := fun w w' => once id w -> once id w'.

Lemma once_calm id w w' : calm id w w' -> once id w -> once id w'.
Proof.
  intros (Hc & Ht & Hs & Hn & Hk) (Ok_ & Od & Oo).
  assert (no_draw id w -> no_draw id w') as Hnd by (intros Hd n Hge; apply Hd; lia).
  assert (sends id w' = sends id w) as He by (unfold sends; by rewrite Hc).
  split_and!; [auto| |rewrite He; intuition].
  intros [o Ho]. destruct (db_outbound (w_db w) !! id) eqn:Hw; [eauto|].
  rewrite (Hn eq_refl) in Ho. done.
Qed.

#[local] Instance keeps_once_quiet id : Quiet (keeps_once id).
Proof.
  split; unfold keeps_once; [split|..].
  - intros w Ho. exact Ho.
  - intros w1 w2 w3 H1 H2 Ho. auto.
  - intros w. apply once_calm, quiet_tick.
  - intros w t. apply once_calm, quiet_txnow.
  - intros w u. apply once_calm, quiet_held.
Qed.

Lemma evolves_calm_once {A} id (m : Go A) : evolves (calm id) m -> evolves (keeps_once id) m.
Proof. intros Hm w Ho. exact (once_calm id w _ (Hm w) Ho). Qed.

Lemma calm_GetUser id u : evolves (calm id) (GetUser u).
Proof. unfold GetUser. go_evolve. Qed.

Lemma calm_settle id s rec jobID period answer : evolves (calm id) (settle s rec jobID period answer).
Proof.
  unfold settle. go_evolve; auto using calm_Purge, calm_Complete; by apply calm_Mark.
Qed.

(** The reservation and the call it pays for. *)
Lemma once_deliver id s rec jobID : evolves (keeps_once id) (deliver s rec jobID).
Proof.
  unfold deliver. cbv zeta. go_step; [go_step|]. cbv beta. intros w Ho.
  unfold bind at 1. set (period := Format_month a).
  pose proof (calm_Begin id (ob_id rec) period (MonthlyMessageLimit s) w) as Hcalm.
  destruct (BeginOutboundAttempt (ob_id rec) period (MonthlyMessageLimit s) w)
    as [[[[rec' allowed] n]|e] w1] eqn:Hb; simpl in Hcalm |- *; [|by apply (once_calm id w)].
  destruct allowed; simpl.
  - pose proof (proj1 Ho) as Hkeyed.
    destruct (Begin_allowed _ _ _ _ _ _ _ Hkeyed Hb) as ((o & Ho1 & Hq) & Hrow & Hsend & Hid).
    apply (once_calm id w w1 Hcalm) in Ho as Ho'. destruct Ho' as (K1 & D1 & O1).
    unfold bind, attempt, Send; simpl.
    eapply (once_calm id); [apply calm_settle|]. split_and!; simpl; [done| |].
    { intros Hs n' Hn'. apply D1; [done|]. simpl in Hn'. lia. }
    unfold sends; simpl. rewrite List.filter_app, length_app. simpl.
    case_bool_decide as Heq; simpl; rewrite ?Nat.add_0_r.
    + rewrite Hid in Heq. subst id. right. destruct Ho as (_ & _ & Osplit).
      assert (sends (ob_id rec) w = 0%nat) as Hz.
      { destruct Osplit as [?|(_ & Hsp & _)]; [done|]. by destruct (Hsp o Ho1). }
      assert (sends (ob_id rec) w1 = 0%nat) as Hz1 by (unfold sends in *; by rewrite (proj1 Hcalm)).
      unfold sends in Hz1. split_and!; [lia| |].
      * intros o'. rewrite Hrow. intros [= <-]. congruence.
      * intros n' Hn'. apply D1; [rewrite Hrow; eauto|]. simpl in Hn'. lia.
    + destruct O1 as [O1|(O1 & O2 & O3)]; [by left|right]. split_and!; [done|done|].
      intros n' Hn'. apply O3. simpl in Hn'. lia.
  - apply (once_calm id w1); [|by apply (once_calm id w)].
    destruct (ob_ephemeral rec'); [apply calm_Purge|apply evolves_ret; apply _].
Qed.

Lemma once_Sender id s job : evolves (keeps_once id) (Sender_Handle s job).
Proof.
  unfold Sender_Handle. destruct (decode_outbound _) as [p|]; [|by go_evolve].
  go_step. unfold Sender_handleLocked.
  go_evolve; auto using once_deliver, evolves_calm_once, calm_GetOutbound, calm_GetUser, calm_Purge,
    calm_DeleteQueueJob; apply evolves_calm_once; by apply calm_Mark.
Qed.

Lemma calm_Enqueue id kind p key n : evolves (calm id) (Enqueue kind p key n).
Proof.
  unfold Enqueue. go_evolve. apply evolves_stmt; [apply _|]. intros t w. unfold stmt_effect.
  destruct (insert_row _ _ _ _); by apply calm_other.
Qed.

(** Everything [enqueue] does after drawing the row's id. *)
Lemma calm_enqueue id u p c b k e w :
  new_uuid (w_tick w) <> id -> calm id (tick w) (snd (enqueue u p c b k e w)).
Proof.
  intros Hne. unfold enqueue. unfold bind at 1. simpl.
  match goal with |- calm id ?w0 (snd (?m ?w0)) => cut (evolves (calm id) m); [by intros He; apply He|] end.
  go_evolve; auto using calm_GetOutboundByKey, calm_Enqueue; by apply calm_EnqueueOutbound.
Qed.

Lemma once_enqueue id u p c b k e :
  (forall n m, new_uuid n = id -> new_uuid m = id -> n = m) ->
  evolves (keeps_once id) (enqueue u p c b k e).
Proof.
  intros Huniq w Ho. destruct (decide (new_uuid (w_tick w) = id)) as [Hd|Hd].
  - assert (~ no_draw id w) as Hnd by (intros Hn; by apply (Hn (w_tick w))).
    destruct Ho as (Hk & Hrow & [Hz|(_ & _ & ?)]); [|done].
    destruct (calm_enqueue (N.succ id) u p c b k e w ltac:(lia)) as (Hc & Ht & _ & _ & Hk').
    simpl in Ht. split_and!; [by apply Hk'| |].
    + intros _ n Hn Hid. specialize (Huniq n (w_tick w) Hid Hd). lia.
    + left. unfold sends in *. rewrite Hc. exact Hz.
  - eapply once_calm; [by apply calm_enqueue|]. by apply (once_calm id w _ (quiet_tick w)).
Qed.

Lemma once_run id ops :
  (forall n m, new_uuid n = id -> new_uuid m = id -> n = m) ->
  evolves (keeps_once id) (run_notifies ops).
Proof.
  intros Huniq. unfold run_notifies. go_evolve. unfold run_notify.
  destruct a; apply evolves_ignore; [by apply once_enqueue|by apply once_enqueue|apply once_Sender].
Qed.

(** C2: An outbox row reaches the provider at most once.  Take any sequence of
    producer calls and sender jobs, any faults (lost replies and failed commits
    included), any provider answers: if the row's id is drawn at most once, and
    not again after the row exists, then the provider is called at most once for
    it.  A crash or an uncertain answer never leads to a second send. *)
Theorem send_at_most_once (ops : list NotifyOp) (w : World) (id : uuid)
    (Hkeyed : outbox_keyed (w_db w)) (Hnone : sends id w = 0%nat)
    (Huniq : forall n m, new_uuid n = id -> new_uuid m = id -> n = m)
    (Hdrawn : is_Some (db_outbound (w_db w) !! id) -> no_draw id w) :
  (sends id (snd (run_notifies ops w)) <= 1)%nat.
Proof.
  destruct (once_run id ops Huniq w) as (_ & _ & [?|(? & _)]); [|lia|lia].
  split_and!; [done|done|by left].
Qed.
End at_most_once.

(** ** The monthly cap *)
Definition is_send_in (period : string) (c : Call) : bool :=
  match c with CallSend _ p _ _ _ => String.eqb p period | _ => false end.
Definition sends_in (period : string) (w : World) : Z :=
  Z.of_nat (length (List.filter (is_send_in period) (w_calls w))).
Definition limited_by (limit : Z) (o : NotifyOp) : bool :=
  match o with OpHandle s _ => MonthlyMessageLimit s =? limit | _ => true end.

Section quota.
Context `{Env} `{Provider} (limit : Z) (period : string) (Hlimit : 0 < limit).

Definition capped (w : World) : Prop :=
  sends_in period w <= used period (w_db w) /\ used period (w_db w) <= limit.
Definition keeps_capped : relation World := fun w w' => capped w -> capped w'.

Lemma capped_within w w' : within limit period w w' -> capped w -> capped w'.
Proof. intros (Hc & Hu) [Hs Hl]. unfold capped, sends_in in *. rewrite Hc. lia. Qed.

#[local] Instance keeps_capped_quiet : Quiet keeps_capped.
Proof.
  split; unfold keeps_capped; [split|..].
  - intros w Ho. exact Ho.
  - intros w1 w2 w3 H1 H2 Ho. auto.
  - intros w. apply capped_within, quiet_tick.
  - intros w t. apply capped_within, quiet_txnow.
  - intros w u. apply capped_within, quiet_held.
Qed.

Lemma evolves_within_capped {A} (m : Go A) : evolves (within limit period) m -> evolves keeps_capped m.
Proof. intros Hm w Ho. exact (capped_within w _ (Hm w) Ho). Qed.

Lemma within_settle s rec jobID p answer : evolves (within limit period) (settle s rec jobID p answer).
Proof. unfold settle. go_evolve; auto using within_Purge, within_Complete, within_Mark. Qed.

Lemma within_GetUser u : evolves (within limit period) (GetUser u).
Proof. unfold GetUser. go_evolve. Qed.

Lemma capped_deliver s rec jobID :
  MonthlyMessageLimit s = limit -> evolves keeps_capped (deliver s rec jobID).
Proof.
  intros Hs. unfold deliver. cbv zeta. rewrite Hs. go_step; [go_step|]. cbv beta. intros w Ho.
  unfold bind at 1. set (p := Format_month a).
  pose proof (within_Begin limit period (ob_id rec) p Hlimit w) as Hw.
  destruct (BeginOutboundAttempt (ob_id rec) p limit w)
    as [[[[rec' allowed] n]|e] w1] eqn:Hb; simpl in Hw |- *; [|by apply (capped_within w)].
  destruct allowed; simpl.
  - unfold bind, attempt, Send; simpl. eapply capped_within; [apply within_settle|].
    destruct Hw as [Hc Hu]. destruct Ho as [Ho1 Ho2]. unfold capped, sends_in in *; simpl.
    rewrite List.filter_app, length_app. simpl. rewrite Hc.
    destruct (String.eqb_spec p period) as [Heq|Hne]; simpl; [|lia].
    rewrite Heq in Hb. pose proof (Begin_allowed_used limit period _ _ _ _ _ Hlimit Hb). lia.
  - apply (capped_within w1); [|by apply (capped_within w)].
    destruct (ob_ephemeral rec'); [apply within_Purge|apply evolves_ret; apply _].
Qed.

Lemma capped_Sender s job :
  MonthlyMessageLimit s = limit -> evolves keeps_capped (Sender_Handle s job).
Proof.
  intros Hs. unfold Sender_Handle. destruct (decode_outbound _) as [p|]; [|by go_evolve].
  go_step. unfold Sender_handleLocked.
  go_evolve; auto using capped_deliver, evolves_within_capped, within_GetOutbound, within_GetUser,
    within_Purge, within_DeleteQueueJob, within_Mark.
Qed.

Lemma within_Enqueue kind p key n : evolves (within limit period) (Enqueue kind p key n).
Proof.
  unfold Enqueue. go_evolve. apply evolves_stmt; [apply _|]. intros t w. unfold stmt_effect.
  destruct (insert_row _ _ _ _); by apply within_other.
Qed.

Lemma within_enqueue u p c b k e : evolves (within limit period) (enqueue u p c b k e).
Proof.
  unfold enqueue. go_evolve; auto using within_GetOutboundByKey, within_Enqueue, within_EnqueueOutbound.
Qed.

(** C31: The monthly cap holds.  Starting from a counter that accounts for the
    calls already made in a month and is within the cap, no sequence of producer
    calls and sender jobs, under any faults and provider answers, calls the
    provider more than [limit] times in that month. *)
Theorem monthly_cap (ops : list NotifyOp) (w : World)
    (Hcfg : forallb (limited_by limit) ops = true)
    (Hcount : sends_in period w <= used period (w_db w)) (Hstart : used period (w_db w) <= limit) :
  sends_in period (snd (run_notifies ops w)) <= limit.
Proof.
  assert (capped (snd (run_notifies ops w))) as [Hs Hu]; [|lia].
  assert (capped w) as Hw by done. clear Hcount Hstart.
  unfold run_notifies. revert w Hw. induction ops as [|o ops IH]; intros w Hw; [done|].
  simpl in Hcfg. apply andb_true_iff in Hcfg as [Ho Hops]. simpl. unfold bind.
  assert (capped (snd (run_notify o w))) as Hw'.
  { destruct o; simpl; [apply (evolves_within_capped _ (within_enqueue _ _ _ _ _ _)); done..|].
    apply capped_Sender; [|done]. simpl in Ho. lia. }
  destruct (run_notify o w) as [[[]|e] w1] eqn:Hrun; simpl in *; [by apply IH|].
  by destruct o.
Qed.
End quota.

(** ** A successful reply is durable *)
Definition has_job (key : string) (d : DB) : Prop :=
  exists i j, db_jobs d !! i = Some j /\ job_dedupe j = Some key.

Section durable.
Context `{Env}.

(** The server reports unique violations for the statement that causes them;
    connection failures are other errors. *)
Definition honest_faults : Prop :=
  forall n f, fault n = Some f -> is_pg "23505" (Driver (flt_err f)) = false.

Lemma existsb_false_not_exists {A} (p : A -> bool) l : existsb p l = true -> exists x, x ∈ l /\ p x = true.
Proof. intros (x & Hx & Hp)%existsb_exists. exists x. by rewrite list_elem_of_In. Qed.

Lemma Enqueue_has_job kind p key n w :
  honest_faults -> db_jobs (w_db w) !! new_uuid (w_tick w) = None ->
  let r := Enqueue kind p (Some key) n w in
  (is_ok (fst r) = true \/ fst r = Fail ErrDuplicate) -> has_job key (w_db (snd r)).
Proof.
  intros Hf Hnew. unfold Enqueue. sql_unfold.
  destruct (fault (S (w_tick w))) as [[err ap]|] eqn:Hflt; simpl.
  - intros Hr. exfalso. specialize (Hf _ _ Hflt). simpl in Hf. rewrite Hf in Hr. simpl in Hr.
    destruct Hr as [?|?]; discriminate.
  - unfold insert_row. rewrite bool_decide_eq_false_2 by (rewrite Hnew; by intros []). simpl.
    destruct (existsb _ _) eqn:He; simpl.
    + intros _. apply existsb_false_not_exists in He as (j & (i & Hi)%elem_of_rows & Hd).
      exists i, j. split; [done|]. unfold dedupe_clash in Hd.
      destruct (job_dedupe j); [|done]. apply String.eqb_eq in Hd. by subst.
    + intros _. eexists _, _. simpl. split; [apply lookup_insert_eq|done].
Qed.

Lemma EnqueueOutbound_row rec created w w' :
  ob_status rec = OutboundUnset -> EnqueueOutbound rec w = (Ok created, w') ->
  db_jobs (w_db w') = db_jobs (w_db w) /\ w_tick w' = S (w_tick w) /\
  (created = true -> exists o, db_outbound (w_db w') !! ob_id rec = Some o /\
     ob_key o = ob_key rec /\ ob_status o = OutboundQueued).
Proof.
  intros Hst Hrun. unfold EnqueueOutbound in Hrun. apply bind_Ok in Hrun as (n & w1 & Hs & Hrun).
  inv_runs. apply stmt_Ok in Hs as (d & Hs & ->). simpl. unfold insert_outbound in Hs.
  destruct (existsb _ _); [by simplify_eq|]. case_bool_decide; [done|].
  destruct (insert_row _ _ _ _) as [m|e] eqn:Hi; [|done]. simplify_eq. simpl. split_and!; [done..|].
  intros _. apply insert_row_ok in Hi as (_ & -> & _). rewrite lookup_insert_eq. eexists. split; [done|].
  unfold outbound_status. by rewrite Hst.
Qed.

Lemma GetOutboundByKey_Ok key o w w' :
  GetOutboundByIdempotencyKey key w = (Ok o, w') ->
  w' = tick w /\ ob_key o = key /\ exists i, db_outbound (w_db w) !! i = Some o.
Proof.
  intros Hrun. unfold GetOutboundByIdempotencyKey in Hrun.
  apply bind_Ok in Hrun as ([x|] & w1 & Hq & Hrun); [|done]. inv_runs.
  match goal with Hh : Some o = head ?l |- _ => assert (o ∈ l) as Hin
    by (destruct l; simplify_eq/=; constructor) end.
  apply elem_of_select in Hin as (Hk & Hi). apply String.eqb_eq in Hk. done.
Qed.

(** The row [enqueue] settles on: the one it wrote, or the one stored under the
    key when that is still queued. *)
Lemma enqueue_target (rec : OutboundRecord) (created : bool) key target w w' :
  ob_key rec = key -> outbox_keyed (w_db w) ->
  (created = true -> exists o, db_outbound (w_db w) !! ob_id rec = Some o /\ ob_key o = key /\
     ob_status o = OutboundQueued) ->
  (if created then ret (Some rec)
   else
     let* stored := GetOutboundByIdempotencyKey key in
     if bool_decide (ob_status stored = OutboundQueued) then ret (Some stored) else ret None) w
    = (Ok target, w') ->
  w_db w' = w_db w /\ (w_tick w <= w_tick w')%nat /\
  exists i o, db_outbound (w_db w) !! i = Some o /\ ob_key o = key /\
    (target = None -> ob_status o <> OutboundQueued) /\ (forall r, target = Some r -> ob_id r = i).
Proof.
  intros Hkey Hkeyed Hc Hrun. destruct created.
  - destruct (Hc eq_refl) as (o & Ho & Hk & _). inv_runs. split_and!; [done|lia|].
    exists (ob_id rec), o. split_and!; try done. by intros ? [= <-].
  - apply bind_Ok in Hrun as (stored & w1 & Hget & Hrun).
    apply GetOutboundByKey_Ok in Hget as (-> & Hk & i & Ho).
    case_bool_decide; inv_runs; simpl; (split_and!; [done|lia|]); exists i, stored; split_and!; try done.
    intros r [= <-]. by apply Hkeyed.
Qed.

(** When [Reply] reports success, the message is durable: the outbox holds a
    row under its idempotency key, and while that row waits to be sent a queue
    job names it.  This covers the replay that repairs a job lost in a crash. *)
Theorem reply_durable (userID : uuid) (provider chatID body key : string) (w w' : World)
    (Hfaults : honest_faults) (Hkeyed : outbox_keyed (w_db w))
    (Hfresh : forall n, (w_tick w <= n)%nat -> db_jobs (w_db w) !! new_uuid n = None)
    (Hrun : Reply userID provider chatID body key w = (Ok tt, w')) :
  exists id o, db_outbound (w_db w') !! id = Some o /\ ob_key o = key /\
    (ob_status o = OutboundQueued -> has_job ("outbound:" ++ uuid_text id) (w_db w')).
Proof.
  unfold Reply, enqueue in Hrun. apply bind_Ok in Hrun as (id & w1 & Hid & Hrun).
  unfold uuid_New in Hid. injection Hid as Hid <-. cbv zeta in Hrun.
  apply bind_Ok in Hrun as (created & w2 & Henq & Hrun).
  match type of Henq with EnqueueOutbound ?r _ = _ =>
    pose proof (calm_EnqueueOutbound (N.succ (ob_id r)) r ltac:(lia) (tick w)) as Hcalm end.
  rewrite Henq in Hcalm. destruct Hcalm as (_ & _ & _ & _ & Hk2). specialize (Hk2 Hkeyed).
  apply EnqueueOutbound_row in Henq as (Hj2 & Ht2 & Hc2); [|done]. simpl in Hk2, Hj2, Ht2.
  apply bind_Ok in Hrun as (target & w3 & Htgt & Hrun).
  apply enqueue_target in Htgt as (Hd3 & Ht3 & i & o & Ho & Hkey & Hnone & Hsome); [|done..].
  destruct target as [rec|].
  - apply bind_Ok in Hrun as (now & w4 & Hclk & Hrun). unfold clk_Now in Hclk. injection Hclk as _ <-.
    apply bind_Ok in Hrun as (res & w5 & Hres & Hrun). apply attempt_Ok in Hres.
    pose proof (Enqueue_has_job JobOutboundSend (PayOutbound (mkOutboundJob (ob_id rec) userID now))
      ("outbound:" ++ uuid_text (ob_id rec)) 5 (tick w3) Hfaults) as Hjob.
    rewrite Hres in Hjob. simpl in Hjob. rewrite Hd3, Hj2 in Hjob.
    specialize (Hjob (Hfresh (S (w_tick w3)) ltac:(lia))). rewrite (Hsome rec eq_refl) in *.
    exists i, o.
    assert (w' = w5 /\ (is_ok res = true \/ res = Fail ErrDuplicate)) as [-> Hdone].
    { destruct res as [u|[| |m|]]; try discriminate Hrun; [inv_runs; auto|].
      destruct (String.eqb_spec m "queue: duplicate dedupe key") as [->|]; [|discriminate Hrun].
      inv_runs. auto. }
    split_and!; [|done|intros _; by apply Hjob].
    assert (db_outbound (w_db w5) = db_outbound (w_db w3)) as ->; [|by rewrite Hd3].
    clear -Hres. unfold Enqueue in Hres. sql_unfold_in Hres.
    destruct (fault _) as [[? [|]]|]; simpl in Hres; repeat case_match; by simplify_eq.
  - inv_runs. exists i, o. rewrite Hd3. split_and!; try done. intros Hq. by destruct (Hnone eq_refl).
Qed.
End durable.

(** ** What enqueueing touches

    The outbox and the queue only; the outbox keeps its rows and gains at most
    one, under the message's key. *)
Section frame.
Context `{Env}.

Definition reply_frame (key : string) (d d' : DB) : Prop :=
  (exists o j, d' = upd_jobs (fun _ => j) (upd_outbound (fun _ => o) d)) /\
  (forall id r, db_outbound d !! id = Some r -> db_outbound d' !! id = Some r) /\
  (forall id r, db_outbound d' !! id = Some r -> db_outbound d !! id = Some r \/ ob_key r = key).

#[export] Instance reply_frame_pre key : PreOrder (reply_frame key).
Proof.
  split.
  - intros d. split_and!; [|done|by left]. exists (db_outbound d), (db_jobs d). by destruct d.
  - intros d1 d2 d3 ((o1 & j1 & ->) & Hk1 & Hn1) ((o2 & j2 & ->) & Hk2 & Hn2). simpl in *. split_and!; simpl.
    + exists o2, j2. by destruct d1.
    + intros id r Hr. apply (Hk2 id r), (Hk1 id r), Hr.
    + intros id r Hr. destruct (Hn2 id r Hr) as [Hr2|]; [by apply Hn1|by right].
Qed.

Lemma reply_frame_jobs key d j : reply_frame key d (upd_jobs j d).
Proof. split_and!; simpl; [|done|by left]. exists (db_outbound d), (j (db_jobs d)). by destruct d. Qed.

Definition keyed_row (key : string) (d : DB) : Prop := exists id r, db_outbound d !! id = Some r /\ ob_key r = key.

Lemma insert_outbound_frame rec now d : reply_frame (ob_key rec) d (stmt_effect (insert_outbound rec) now d) /\
  (forall a d', insert_outbound rec now d = Ok (a, d') -> keyed_row (ob_key rec) d').
Proof.
  unfold stmt_effect, insert_outbound. destruct (existsb _ _) eqn:Hex.
  - split; [reflexivity|]. intros a d' [= <- <-]. apply existsb_exists in Hex as (r & Hin & Hk%String.eqb_eq).
    apply list_elem_of_In, elem_of_rows in Hin as [id Hid]. by exists id, r.
  - case_bool_decide; [split; [reflexivity|done]|]. destruct (insert_row _ _ _ _) as [m|] eqn:Hi; [|split; [reflexivity|done]].
    apply insert_row_ok in Hi as (Hnew & -> & _). split.
    + split_and!; simpl.
      * exists (<[ob_id rec := mkOutbound (ob_id rec) (ob_user rec) (ob_provider rec) (ob_chat rec) (ob_key rec) (ob_body rec)
          (ob_ephemeral rec) (outbound_status rec) 0 "" None None "" now]> (db_outbound d)), (db_jobs d). by destruct d.
      * intros id r Hr. rewrite lookup_insert_ne by congruence. done.
      * intros id r [[<- <-]|[_ Hr]]%lookup_insert_Some; [by right|by left].
    + intros a d' [= _ <-]. exists (ob_id rec). simpl. rewrite lookup_insert_eq. by eexists.
Qed.

Lemma Enqueue_frame key kind p dk n : evolves (on_db (reply_frame key)) (Enqueue kind p dk n).
Proof.
  unfold Enqueue. go_evolve. apply evolves_stmt; [apply _|]. intros t w. unfold on_db, stmt_effect. simpl.
  repeat case_match; simplify_eq; simpl; try reflexivity; apply reply_frame_jobs.
Qed.

(** The row, then the job that names it. *)
Definition enqueue_job (userID : uuid) (key : string) (rec : OutboundRecord) (created : bool) : Go unit :=
  let* target :=
    (if created then ret (Some rec)
     else
       let* stored := GetOutboundByIdempotencyKey key in
       if bool_decide (ob_status stored = OutboundQueued) then ret (Some stored) else ret None) in
  match target with
  | None => ret tt
  | Some rec =>
      let* now := clk_Now in
      let job := mkOutboundJob (ob_id rec) userID now in
      let dedupe := "outbound:" ++ uuid_text (ob_id rec) in
      let* res := attempt (Enqueue JobOutboundSend (PayOutbound job) (Some dedupe) 5) in
      match res with
      | Ok _ => ret tt
      | Fail (Sentinel m) => if String.eqb m "queue: duplicate dedupe key" then ret tt else fail (Sentinel m)
      | Fail err => fail err
      end
  end.
Lemma enqueue_split u p c b key e : enqueue u p c b key e =
  let* id := uuid_New in
  let rec := mkOutbound id u p c key b e OutboundUnset 0 "" None None "" 0 in
  let* created := EnqueueOutbound rec in enqueue_job u key rec created.
Proof. reflexivity. Qed.
Lemma enqueue_job_frame u key rec created : evolves (on_db (reply_frame key)) (enqueue_job u key rec created).
Proof.
  unfold enqueue_job. apply evolves_bind; [apply _| |].
  { destruct created; [go_evolve|]. apply evolves_bind; [apply _|unfold GetOutboundByIdempotencyKey; go_evolve; intros []; go_evolve|].
    intros stored. case_bool_decide; go_evolve. }
  intros [rec'|]; [|go_evolve]. apply evolves_bind; [apply _|go_evolve|]. intros now. cbv zeta.
  apply evolves_bind; [apply _|apply evolves_attempt, Enqueue_frame|]. intros [x|[]]; repeat case_match; go_evolve.
Qed.

Lemma enqueue_frame u p c b key e : evolves (on_db (reply_frame key)) (enqueue u p c b key e).
Proof.
  rewrite enqueue_split. apply evolves_bind; [apply _|go_evolve|]. intros id. cbv zeta. apply evolves_bind; [apply _| |].
  { unfold EnqueueOutbound. apply evolves_bind; [apply _| |intros; go_evolve]. apply evolves_wrap_err, evolves_stmt; [apply _|].
    intros t w. exact (proj1 (insert_outbound_frame _ t (w_db w))). }
  intros created. apply enqueue_job_frame.
Qed.
Lemma Reply_frame u p c b key : evolves (on_db (reply_frame key)) (Reply u p c b key).
Proof. apply enqueue_frame. Qed.

(** A reply that succeeds has its row. *)
Lemma enqueue_row u p c b key e w w' : enqueue u p c b key e w = (Ok tt, w') -> keyed_row key (w_db w').
Proof.
  rewrite enqueue_split. intros Hrun. apply bind_Ok in Hrun as (id & w1 & _ & Hrun). cbv zeta in Hrun.
  apply bind_Ok in Hrun as (created & w2 & Hc & Hrun). unfold EnqueueOutbound in Hc. apply bind_Ok in Hc as (n & w3 & Hs & Hc).
  apply ret_Ok in Hc as [_ <-]. apply wrap_err_Ok, stmt_Ok in Hs as (d & Hs & ->).
  apply (proj2 (insert_outbound_frame _ _ _)) in Hs as (i & r & Hr & Hk).
  match type of Hrun with enqueue_job ?u ?k ?r ?c ?w = _ => pose proof (enqueue_job_frame u k r c w) as Hf end.
  rewrite Hrun in Hf. destruct Hf as (_ & Hkeep & _). exists i, r. by split; [apply Hkeep|].
Qed.
End frame.

(** ** Witnesses *)
Module NotifyDemo.
Definition env : Env := demo_env no_faults (fun n => Z.of_nat n * Second).
Definition provider : Provider := {| provider_Send := fun _ _ _ _ => Ok "ref" |}.
Definition user : User := mkUser 1 UserActive "UTC" "VND" "vi-VN" "consent-v1" (Some 0) 0 0 None.
Definition db : DB := upd_users (fun _ => {[ 1%N := user ]}) empty_db.
Definition sender : Sender := mkSender true 1.
Definition job : QueueJob :=
  mkJob 77 JobOutboundSend (PayOutbound (mkOutboundJob 1000 1 0)) None JobRunning 1 5 0 0 (Some 9%N) "" 0 0.
Definition reply : NotifyOp := OpReply 1 "zalo_bot" "chat" "xin chào" "k1".
Definition ops : list NotifyOp := [reply; OpHandle sender job; reply; OpHandle sender job].

(** The run does send, once. *)
Example demo_sends : sends 1000 (snd (@run_notifies env provider ops (world_of db))) = 1%nat.
Proof. vm_compute. reflexivity. Qed.

Lemma keyed : outbox_keyed db.
Proof. intros id o Ho. discriminate Ho. Qed.

Lemma send_at_most_once_witness :
  (sends 1000 (snd (@run_notifies env provider ops (world_of db))) <= 1)%nat.
Proof.
  refine (@send_at_most_once env provider ops (world_of db) 1000%N keyed eq_refl _ _).
  - intros n m Hn Hm. simpl in Hn, Hm. lia.
  - intros [o Ho]. discriminate Ho.
Defined.

Lemma monthly_cap_witness :
  sends_in "1970-01" (snd (@run_notifies env provider ops (world_of db))) <= 1.
Proof.
  refine (@monthly_cap env provider 1 "1970-01" _ ops (world_of db) eq_refl _ _); vm_compute; congruence.
Defined.

Lemma reply_durable_witness :
  exists id o, db_outbound (w_db (snd (@Reply env 1 "zalo_bot" "chat" "hi" "k1" (world_of db)))) !! id = Some o
    /\ ob_key o = "k1".
Proof.
  destruct (@reply_durable env 1 "zalo_bot" "chat" "hi" "k1" (world_of db)
    (snd (@Reply env 1 "zalo_bot" "chat" "hi" "k1" (world_of db)))) as (id & o & Ho & Hk & _).
  - intros n f Hf. discriminate Hf.
  - exact keyed.
  - intros n _. reflexivity.
  - vm_compute. reflexivity.
  - exists id, o. split; [exact Ho|exact Hk].
Defined.
End NotifyDemo.
