(* ===== verification/SummaryRunner.v ===== *)
(** * Scheduled summaries

    internal/summaryschedule/runner.go: the pass that finds due preferences, builds
    the summary of the finished period, stores it, puts it into the outbox and moves
    the preference to its next slot.  Shown: a pass refines a small specification in
    which a schedule moves only after the slot's message is in the outbox; and a
    preference that is processed has its message, its insight row and a next slot in
    the future. *)
From S2P Require Import Prelude GoStrings Domain GoTime Calendar Periods Json Db StoreInbound StoreTx StoreSchedules.
From S2P Require Import StoreOutbound Normalise Insight Templates Texts Notify.

Section runner.
Context `{Env} `{TzData} `{SqlLocale}.

Definition dueBatchSize : Z := 100.

(** [Format("20060102T150405Z")] of a UTC time. *)
Definition stamp (t : Time) : string :=
  let c := local_date UTC t in let s := local_clock UTC t in
  zero_pad 4 (Sprintd c.1.1) ++ two c.1.2 ++ two c.2 ++ "T" ++ two (s / 3600) ++ two (s / 60 mod 60) ++ two (s mod 60) ++ "Z".

(** The period, label and insight type of a delivery. *)
Definition summary_of (frequency : SummaryFrequency) (scheduledFor : Time) (loc : Location) : Res Err (Period * string * string) :=
  match frequency with
  | SummaryDaily => Ok (Yesterday scheduledFor loc, "Hôm qua", TypeDaily)
  | SummaryWeekly => Ok (LastWeek scheduledFor loc, "Tuần trước", TypeWeekly)
  | SummaryMonthly => Ok (LastMonth scheduledFor loc, "Tháng trước", TypeMonthly)
  | SummaryOther s => Fail (E CodeValidation ("unsupported scheduled summary frequency " ++ quoted s) None)
  end.
Definition summary_key (userID : uuid) (frequency : SummaryFrequency) (start : Time) : string :=
  "scheduled-summary:" ++ uuid_text userID ++ ":" ++ frequency_string frequency ++ ":" ++ stamp start.

(** What a preference is due for: the period with its label and type, and the next slot. *)
Definition plan (preference : SummarySchedule) (now : Time) (loc : Location) : Res Err (Period * string * string * Time) :=
  match LatestDelivery now (Some loc) (sch_frequency preference) (sch_minute preference) with
  | Fail err => Fail (E CodeValidation "calculate latest summary delivery" (Some err))
  | Ok scheduledFor =>
      match NextDelivery now (Some loc) (sch_frequency preference) (sch_minute preference) with
      | Fail err => Fail (E CodeValidation "calculate next summary delivery" (Some err))
      | Ok next =>
          match summary_of (sch_frequency preference) scheduledFor loc with
          | Fail err => Fail err
          | Ok r => Ok (r, next)
          end
      end
  end.

(** From the summary to the outbox. *)
Definition publish (preference : SummarySchedule) (userID : uuid) (loc : Location) (period : Period) (label insightType : string) : Go unit :=
  let* sum := Summarise userID period in
  Persist userID insightType period sum ;;;
  Reply userID (sch_provider preference) (sch_chat preference) (SummaryText label sum loc)
    (summary_key userID (sch_frequency preference) (Start period)).

(** [Runner.processLocked], [Runner.process] *)
Definition processLocked (preference : SummarySchedule) (now : Time) : Go unit :=
  let* user := GetUser (sch_user preference) in
  if negb (bool_decide (usr_status user = UserActive)) || negb (bool_decide (usr_deleted_at user = None)) then ret tt
  else
    let loc := user_Location user in
    let* '(period, label, insightType, next) := of_res (plan preference now loc) in
    publish preference (usr_id user) loc period label insightType ;;;
    (let* _ := AdvanceSummarySchedule (sch_id preference) (sch_next preference) next now in ret tt).
Definition process (preference : SummarySchedule) (now : Time) : Go unit :=
  WithUserLock (sch_user preference) (processLocked preference now).

(** [Runner.RunOnce]: the number processed, and the errors it joins. *)
Definition RunOnce : Go (Z * list Err) :=
  let* now := clk_Now in
  let* preferences := ListDueSummarySchedules now dueBatchSize in
  for_each preferences (fun acc preference =>
    let* res := attempt (process preference now) in
    match res with
    | Ok _ => ret (acc.1 + 1, acc.2)
    | Fail err => ret (acc.1, acc.2 ++ [err])%list
    end) (0, []).
End runner.

(** ** The specification

    What the runner promises to the user, without periods, texts or faults: the
    messages that are durable and when each schedule is next due.  A schedule's slot
    may be sent, and it may move to its next slot once the message is durable. *)
Record Slots := mkSlots { slot_keys : gset string; slot_next : gmap uuid Time }.
Inductive slot_step (key : string) (id : uuid) (next : Time) : relation Slots :=
| slot_send s : slot_step key id next s (mkSlots ({[key]} ∪ slot_keys s) (slot_next s))
| slot_advance s : key ∈ slot_keys s -> slot_step key id next s (mkSlots (slot_keys s) (<[id := next]> (slot_next s))).

Definition slots_of (d : DB) : Slots := mkSlots (list_to_set (ob_key <$> rows (db_outbound d))) (sch_next <$> db_schedules d).

Lemma slot_keys_of key d : key ∈ slot_keys (slots_of d) <-> keyed_row key d.
Proof.
  simpl. rewrite elem_of_list_to_set, list_elem_of_fmap. unfold keyed_row. setoid_rewrite elem_of_rows. split.
  - intros (r & -> & i & Hr). eauto.
  - intros (i & r & Hr & <-). eauto.
Qed.

(** A reply is a send, or nothing. *)
Lemma reply_frame_slots key id next d d' : reply_frame key d d' -> rtc (slot_step key id next) (slots_of d) (slots_of d').
Proof.
  intros ((o & j & ->) & Hkeep & Hnew). set (d2 := upd_jobs (fun _ => j) (upd_outbound (fun _ => o) d)) in *.
  assert (slots_of d2 = mkSlots (slot_keys (slots_of d2)) (slot_next (slots_of d))) as -> by reflexivity.
  assert (forall k, k ∈ slot_keys (slots_of d) -> k ∈ slot_keys (slots_of d2)) as Hmono.
  { intros k (i & r & Hr & Hk)%slot_keys_of. apply slot_keys_of. exists i, r. split; [by apply Hkeep|done]. }
  assert (forall k, k ∈ slot_keys (slots_of d2) -> k ∈ slot_keys (slots_of d) \/ k = key) as Hback.
  { intros k (i & r & Hr & Hk)%slot_keys_of. destruct (Hnew i r Hr) as [Hr'|Hr']; [left; apply slot_keys_of; by exists i, r|right; congruence]. }
  destruct (decide (key ∈ slot_keys (slots_of d2))) as [Hin|Hin].
  - replace (slot_keys (slots_of d2)) with ({[key]} ∪ slot_keys (slots_of d)); [apply rtc_once; constructor|].
    apply set_eq. intros k. rewrite elem_of_union, elem_of_singleton. split; [intros [->|Hk]; auto|]. intros Hk. destruct (Hback k Hk); auto.
  - replace (slot_keys (slots_of d2)) with (slot_keys (slots_of d)); [by destruct (slots_of d)|].
    apply set_eq. intros k. split; [auto|]. intros Hk. destruct (Hback k Hk) as [|He]; [done|]. rewrite He in Hk. done.
Qed.

Section theorems.
Context `{Env} `{TzData} `{SqlLocale}.

(** A locked section, as seen from the tables. *)
Lemma WithUserLock_db {A} u (fn : Go A) (P : DB -> DB -> Prop) w : (forall d, P d d) -> (forall w1, P (w_db w1) (w_db (snd (fn w1)))) ->
  P (w_db w) (w_db (snd (WithUserLock u fn w))).
Proof.
  intros Hrefl Hfn. unfold WithUserLock. destruct (UserLockHeld w u); [apply Hfn|].
  assert (w_db (snd ((may_fail;;; may_fail;;; may_fail) w)) = w_db w) as Hd.
  { unfold bind. pose proof (may_fail_db w) as E1. destruct (may_fail w) as [[[]|e] w1]; simpl in *; [|done].
    pose proof (may_fail_db w1) as E2. destruct (may_fail w1) as [[[]|e] w2]; simpl in *; [|congruence]. rewrite may_fail_db. congruence. }
  destruct ((may_fail;;; may_fail;;; may_fail) w) as [[[]|e] w1]; simpl in *; [|rewrite Hd; apply Hrefl].
  rewrite <- Hd. apply (Hfn (set_held (Some u) w1)).
Qed.
Lemma GetUser_Ok_db u user w w' : GetUser u w = (Ok user, w') -> db_users (w_db w) !! u = Some user /\ w' = tick w.
Proof. apply find_row_Ok. Qed.
Lemma GetUser_Fail_db u e w w' : GetUser u w = (Fail e, w') -> w_db w' = w_db w.
Proof.
  unfold GetUser, bind, wrap_err, query, stmt. destruct (fault (w_tick w)) as [[de ap]|]; simpl.
  - intros [= _ <-]. simpl. by destruct ap.
  - destruct (db_users (w_db w) !! u); [done|]. intros [= _ <-]. done.
Qed.

(** Summaries and insight rows do not touch the outbox or the schedules. *)
Definition aside (d d' : DB) : Prop := db_outbound d' = db_outbound d /\ db_schedules d' = db_schedules d.
#[local] Instance aside_pre : PreOrder aside.
Proof. split; [by split|]. intros d1 d2 d3 [A1 A2] [A3 A4]. split; congruence. Qed.
Lemma aside_slots d d' : aside d d' -> slots_of d' = slots_of d.
Proof. intros [Ho Hs]. unfold slots_of. by rewrite Ho, Hs. Qed.

Lemma aside_query_res {A} (f : DB -> Res DriverErr A) : evolves (on_db aside) (query_res f).
Proof. apply evolves_stmt; [apply _|]. intros t w. unfold on_db, stmt_effect. simpl. by destruct (f (w_db w)). Qed.
Lemma aside_Summarise u p : evolves (on_db aside) (Summarise u p).
Proof.
  unfold Summarise. destruct (negb _); [go_evolve|]. apply evolves_bind; [apply _| |].
  { unfold userLocation, GetUser. go_evolve. }
  intros [loc name]. unfold ListInsightPeriodTotals, ListInsightCategoryTotals, ListInsightMerchantTotals, ListInsightLargestByCurrency,
    CountInsightExpenseDays.
  apply evolves_bind; [apply _|apply evolves_wrap_err, aside_query_res|]. intros totals. destruct (fold_left _ _ _) as [[n cur] ref].
  apply evolves_bind; [apply _|apply evolves_wrap_err, aside_query_res|]. intros cats.
  apply evolves_bind; [apply _|apply evolves_wrap_err, aside_query_res|]. intros mers.
  apply evolves_bind; [apply _|go_evolve|]. intros largest.
  apply evolves_bind; [apply _|apply evolves_wrap_err, aside_query_res|]. intros days. case_match; go_evolve.
Qed.
Lemma aside_Persist u ty p sum : evolves (on_db aside) (Persist u ty p sum).
Proof.
  unfold Persist, marshal_as, ListInsightEvidenceIDs, UpsertInsight. go_evolve. apply evolves_stmt; [apply _|].
  intros t w. unfold on_db, stmt_effect, upsert_insight. repeat case_match; simplify_eq; by split.
Qed.

(** The slot of a preference: the key of its message and its next due time. *)
Definition slot_for (d : DB) (preference : SummarySchedule) (now : Time) : option (string * Time) :=
  match db_users d !! sch_user preference with
  | Some user =>
      if negb (bool_decide (usr_status user = UserActive)) || negb (bool_decide (usr_deleted_at user = None)) then None
      else match plan preference now (user_Location user) with
           | Ok (period, _, _, next) => Some (summary_key (usr_id user) (sch_frequency preference) (Start period), next)
           | Fail _ => None
           end
  | None => None
  end.

Lemma publish_slots p u loc period label ty id next w :
  let key := summary_key u (sch_frequency p) (Start period) in let r := publish p u loc period label ty w in
  rtc (slot_step key id next) (slots_of (w_db w)) (slots_of (w_db (snd r))) /\
  (fst r = Ok tt -> keyed_row key (w_db (snd r))) /\ db_schedules (w_db (snd r)) = db_schedules (w_db w).
Proof.
  cbv zeta. unfold publish, bind. set (key := summary_key u (sch_frequency p) (Start period)).
  pose proof (aside_Summarise u period w) as Hs. destruct (Summarise u period w) as [[sum|e] w1]; simpl in *.
  2:{ split_and!; [rewrite (aside_slots _ _ Hs); reflexivity|done|apply Hs]. }
  pose proof (aside_Persist u ty period sum w1) as Hp. destruct (Persist u ty period sum w1) as [[[]|e] w2]; simpl in *.
  2:{ split_and!; [rewrite (aside_slots _ _ Hp), (aside_slots _ _ Hs); reflexivity|done|]. destruct Hp as [_ ->]. apply Hs. }
  match goal with |- context [Reply ?a ?b ?c ?t ?k w2] => pose proof (Reply_frame a b c t k w2) as Hr;
    pose proof (enqueue_row a b c t k false w2) as Hrow; fold (Reply a b c t k) in Hrow; destruct (Reply a b c t k w2) as [[[]|e] w3] end;
    simpl in *; (split_and!; [|try done; intros _; by apply (Hrow w3)|]).
  1,3: rewrite <- (aside_slots _ _ Hs), <- (aside_slots _ _ Hp); by apply reply_frame_slots.
  all: destruct Hr as ((o & j & Hd) & _); rewrite Hd; simpl; destruct Hp as [_ ->]; apply Hs.
Qed.

Lemma advance_slots id due next at_ key w : keyed_row key (w_db w) ->
  rtc (slot_step key id next) (slots_of (w_db w)) (slots_of (w_db (snd ((let* _ := AdvanceSummarySchedule id due next at_ in ret tt) w)))).
Proof.
  intros Hk. assert (forall t, rtc (slot_step key id next) (slots_of (w_db w)) (slots_of (advance_schedule id due next at_ t (w_db w)).2)) as Hadv.
  { intros t. unfold advance_schedule. simpl. destruct (update_row id _ _ (db_schedules (w_db w))) as [n m] eqn:Hu. simpl.
    unfold update_row in Hu. destruct (db_schedules (w_db w) !! id) as [s|] eqn:Hs; [destruct (_ && _)|]; simplify_eq.
    - apply rtc_once. apply slot_keys_of in Hk. pose proof (slot_advance key id next (slots_of (w_db w)) Hk) as Hstep.
      match goal with |- slot_step _ _ _ _ ?s => replace s with (mkSlots (slot_keys (slots_of (w_db w))) (<[id := next]> (slot_next (slots_of (w_db w))))); [done|] end.
      unfold slots_of. simpl. f_equal. by rewrite fmap_insert.
    - destruct (w_db w); reflexivity.
    - destruct (w_db w); reflexivity. }
  unfold AdvanceSummarySchedule, bind, wrap_err, dml, stmt, ret. destruct (fault (w_tick w)) as [[e [|]]|]; simpl; try reflexivity; apply Hadv.
Qed.

(** C21: The runner refines its specification.  Whatever preference is processed,
    at whatever time and with whatever faults, the outbox keys and the schedules'
    due times evolve by steps of the specification for that preference's slot: the
    slot's message is put into the outbox, and the schedule moves to its next slot
    only when that message is there.  A preference without a slot (its user is not
    active, or the preference is invalid) changes neither. *)
Theorem runner_refines (preference : SummarySchedule) (now : Time) (w : World) :
  let d := w_db w in let d' := w_db (snd (process preference now w)) in
  match slot_for d preference now with
  | Some (key, next) => rtc (slot_step key (sch_id preference) next) (slots_of d) (slots_of d')
  | None => slots_of d' = slots_of d
  end.
Proof.
  cbv zeta. apply (WithUserLock_db _ _ (fun d d' => match slot_for d preference now with
    | Some (key, next) => rtc (slot_step key (sch_id preference) next) (slots_of d) (slots_of d') | None => slots_of d' = slots_of d end)).
  { intros d. destruct (slot_for d preference now) as [[key next]|]; reflexivity. }
  clear w. intros w. unfold processLocked, slot_for, of_res, bind.
  destruct (GetUser (sch_user preference) w) as [[user|e] w1] eqn:Hu.
  2:{ apply GetUser_Fail_db in Hu. simpl. rewrite Hu. repeat case_match; reflexivity. }
  apply GetUser_Ok_db in Hu as [-> ->]. destruct (negb _ || negb _); [reflexivity|].
  destruct (plan preference now (user_Location user)) as [[[[period label] ty] next]|e]; [|reflexivity].
  pose proof (publish_slots preference (usr_id user) (user_Location user) period label ty (sch_id preference) next (tick w)) as (Hrtc & Hrow & _).
  destruct (publish _ _ _ _ _ _ (tick w)) as [[[]|e] w2]; [|exact Hrtc]. simpl in Hrtc, Hrow. etransitivity; [exact Hrtc|].
  exact (advance_slots _ _ _ _ _ w2 (Hrow eq_refl)).
Qed.

(** ** What a processed preference has *)
Definition insight_row (u : uuid) (ty : string) (start : Time) (d : DB) : Prop :=
  exists id i, db_insights d !! id = Some i /\ same_insight u ty start i = true.

Lemma same_insight_refl id u ty start e p ev v t : same_insight u ty start (mkInsight id u ty start e p ev v t) = true.
Proof. unfold same_insight. simpl. by rewrite bool_decide_eq_true_2, String.eqb_refl, Z.eqb_refl. Qed.
Lemma Persist_row u ty p sum w w' : Persist u ty p sum w = (Ok tt, w') -> insight_row u ty (Start p) (w_db w').
Proof.
  intros Hrun. unfold Persist in Hrun. apply bind_Ok in Hrun as (payload & w1 & _ & Hrun). apply bind_Ok in Hrun as (ids & w2 & _ & Hrun).
  apply bind_Ok in Hrun as (ev & w3 & _ & Hrun). unfold UpsertInsight in Hrun. apply bind_Ok in Hrun as (id & w4 & _ & Hrun).
  apply wrap_err_Ok, stmt_Ok in Hrun as (d & Hs & ->). unfold upsert_insight in Hs. simpl.
  destruct (head _) as [old|]; simplify_eq/=.
  - eexists (ins_id old), _. simpl. split; [apply lookup_insert_eq|]. apply same_insight_refl.
  - destruct (insert_row _ _ _ _) as [m|] eqn:Hi; [|done]. case_bool_decide; [done|]. simplify_eq/=.
    apply insert_row_ok in Hi as (_ & -> & _). eexists id, _. simpl. split; [apply lookup_insert_eq|]. apply same_insight_refl.
Qed.

Lemma publish_Ok p u loc period label ty w w' : publish p u loc period label ty w = (Ok tt, w') ->
  keyed_row (summary_key u (sch_frequency p) (Start period)) (w_db w') /\ insight_row u ty (Start period) (w_db w') /\
  db_schedules (w_db w') = db_schedules (w_db w).
Proof.
  intros Hrun. pose proof (publish_slots p u loc period label ty 0%N 0 w) as (_ & Hrow & Hs). rewrite Hrun in Hrow, Hs. simpl in Hrow, Hs.
  split_and!; [by apply Hrow| |done]. unfold publish in Hrun. apply bind_Ok in Hrun as (sum & w1 & _ & Hrun).
  apply bind_Ok in Hrun as ([] & w2 & Hp & Hrun). apply Persist_row in Hp as (id & i & Hi & Hsame).
  pose proof (Reply_frame u (sch_provider p) (sch_chat p) (SummaryText label sum loc) (summary_key u (sch_frequency p) (Start period)) w2) as Hf.
  rewrite Hrun in Hf. destruct Hf as ((o & j & Hd) & _). simpl in Hd. exists id, i. rewrite Hd. split; [exact Hi|exact Hsame].
Qed.

(** In a zone with one offset the summarised period is over when it is summarised. *)
Lemma summary_finished f t loc off r : (forall s, lookup_offset loc s = off) -> summary_of f t loc = Ok r -> End r.1.1 <= t.
Proof.
  intros Hoff. unfold summary_of, Yesterday, LastWeek, LastMonth. pose proof (day_bounds loc off Hoff) as Hd.
  destruct f; intros [= <-]; cbn [fst End].
  - rewrite (localMidnight_steady loc off Hoff). apply Hd. lia.
  - rewrite (weekStart_steady loc off Hoff). rewrite !(AddDate_days loc off Hoff) by (unfold Second; lia).
    apply Hd. unfold week_of. euclid.
  - rewrite (monthStart_steady loc off Hoff). rewrite !(AddDate_months loc off Hoff) by (unfold Second; lia).
    apply Hd. replace (month_of (local_day loc t) + -1 + 1) with (month_of (local_day loc t)) by lia.
    pose proof (month_of_bounds (local_day loc t)). lia.
Qed.

(** A processed summary is delivered and its schedule moved on.  When process
    succeeds for a listed preference of an active user whose zone has one offset:
    the summarised period is over; its message is in the outbox under the slot's
    key; the insight of the period is stored; and the schedule's next delivery is
    the first slot after now, so the preference is no longer due. *)
Theorem summary_delivered (preference : SummarySchedule) (now : Time) (user : User) (off : Z) (w w' : World)
    (Huser : db_users (w_db w) !! sch_user preference = Some user)
    (Hactive : usr_status user = UserActive /\ usr_deleted_at user = None)
    (Hoff : forall s, lookup_offset (user_Location user) s = off)
    (Hrow : db_schedules (w_db w) !! sch_id preference = Some preference) (Hen : sch_enabled preference = true)
    (Hrun : process preference now w = (Ok tt, w')) :
  exists period label ty next s,
    plan preference now (user_Location user) = Ok (period, label, ty, next) /\ End period <= now /\
    keyed_row (summary_key (usr_id user) (sch_frequency preference) (Start period)) (w_db w') /\
    insight_row (usr_id user) ty (Start period) (w_db w') /\
    db_schedules (w_db w') !! sch_id preference = Some s /\ sch_next s = next /\ sch_last s = Some now /\
    now < next /\ slot (user_Location user) (sch_frequency preference) (sch_minute preference) next /\
    schedule_due now (w_db w') s = false.
Proof.
  unfold process in Hrun. apply WithUserLock_Ok in Hrun as (w0 & w2 & Hd0 & Hrun & Hd2). rewrite Hd2. clear Hd2 w'.
  unfold processLocked in Hrun. apply bind_Ok in Hrun as (user' & w1 & Hu & Hrun). apply GetUser_Ok_db in Hu as [Hu ->].
  rewrite Hd0 in Hu. simplify_eq. destruct Hactive as [Ha Hdel]. rewrite !bool_decide_eq_true_2 in Hrun by done. cbn [negb orb] in Hrun.
  apply bind_Ok in Hrun as ([[[period label] ty] next] & w3 & Hplan & Hrun). unfold of_res in Hplan. injection Hplan as Hplan <-.
  apply bind_Ok in Hrun as ([] & w4 & Hpub & Hrun). apply publish_Ok in Hpub as (Hkey & Hins & Hsch). simpl in Hsch. rewrite Hd0 in Hsch.
  apply bind_Ok in Hrun as (b & w5 & Hadv & Hrun). apply ret_Ok in Hrun as [_ <-]. apply AdvanceSummarySchedule_Ok in Hadv as [Hdb _].
  unfold advance_schedule in Hdb. rewrite Hsch in Hdb. unfold update_row in Hdb. rewrite Hrow, Hen, Z.eqb_refl in Hdb. simpl in Hdb.
  pose proof (delivery_slots_at (user_Location user) off Hoff now (sch_frequency preference) (sch_minute preference)) as Hslot.
  unfold plan in Hplan.
  destruct (LatestDelivery now (Some (user_Location user)) (sch_frequency preference) (sch_minute preference)) as [a|] eqn:Hlat; [|done].
  destruct (NextDelivery now (Some (user_Location user)) (sch_frequency preference) (sch_minute preference)) as [b'|] eqn:Hnext; [|done].
  destruct (summary_of (sch_frequency preference) a (user_Location user)) as [r|] eqn:Hsum; [|done]. injection Hplan as -> ->.
  destruct (_ || _ || _) in Hslot; [by destruct Hslot|]. destruct Hslot as (a' & b0 & [= <-] & [= <-] & _ & Hsl & [Hle Hlt] & _).
  pose proof (summary_finished _ _ _ _ _ Hoff Hsum) as Hfin. cbn [fst] in Hfin.
  eexists period, label, ty, next, _. rewrite Hdb. simpl.
  split_and!; [unfold plan; by rewrite Hlat, Hnext, Hsum|lia|exact Hkey|exact Hins|apply lookup_insert_eq|done..|].
  unfold schedule_due. cbn [sch_enabled sch_next]. rewrite (proj2 (Z.leb_gt _ _) Hlt). by destruct (sch_enabled preference).
Qed.
End theorems.

Module RunnerDemo.
Import PeriodsDemo InsightDemo.
#[local] Existing Instances InsightDemo.env InsightDemo.tz InsightDemo.locale.
(** Daily at 08:00, due on the morning after [evening]. *)
Definition morning : Time := later + 8 * Hour.
Definition daily : SummarySchedule := mkSchedule 21 1 SummaryDaily 480 "zalo_bot" "chat" true (later + 7 * Hour + 50 * Minute) None 0 0.
Definition db_due : DB := upd_schedules (fun _ => {[21%N := daily]}) InsightDemo.db.

Lemma process_run : process daily morning (world_of db_due) = (Ok tt, snd (process daily morning (world_of db_due))).
Proof.
  rewrite (surjective_pairing (process daily morning (world_of db_due))) at 1. apply (f_equal2 pair); [vm_compute; reflexivity|reflexivity].
Qed.

Lemma summary_delivered_witness :
  keyed_row "scheduled-summary:1:daily:20260718T170000Z" (w_db (snd (process daily morning (world_of db_due)))).
Proof.
  assert (forall s, lookup_offset (user_Location InsightDemo.user) s = 25200) as Hoff by reflexivity.
  destruct (summary_delivered daily morning InsightDemo.user 25200 (world_of db_due) _ eq_refl (conj eq_refl eq_refl) Hoff eq_refl eq_refl process_run)
    as (period & label & ty & next & s & Hplan & _ & Hkey & _).
  assert (Start period = 1784394000 * Second) as Hst.
  { assert (plan daily morning (user_Location InsightDemo.user) = Ok (mkPeriod (1784394000 * Second) (1784480400 * Second), "Hôm qua", TypeDaily,
      1784595600 * Second)) as Hp by (vm_compute; reflexivity). rewrite Hp in Hplan. by injection Hplan as <-. }
  rewrite Hst in Hkey. exact Hkey.
Defined.
End RunnerDemo.
