(* ===== verification/Objects.v ===== *)
(** * Object store and image validation

    internal/platform/objectstore (the [Store] contract with [Local]'s key
    validation) and internal/receipt/image.go.  The store's contents are the
    world's [w_objects]; an I/O failure returns an error either without effect
    or after it. *)
From Stdlib Require Import Ascii.
From S2P Require Import Prelude GoStrings Domain Db.

Section objects.
Context `{Env}.

Record Stored := mkStored {
  sto_key : string; sto_sha256 : string; sto_size : Z; sto_content_type : string }.

(** [validateKey] *)
Definition validateKey (key : string) : option Err :=
  if String.eqb key "" || HasPrefix key "/" || Contains key ".."
  then Some (Sentinel ("objectstore: invalid key " ++ key)) else None.

Definition ErrNotFound : Err := Sentinel "objectstore: object not found".

Definition object_effect (what : string) (f : gmap string string -> gmap string string) : Go unit := fun w =>
  match fault (w_tick w) with
  | Some flt =>
      (Fail (Wrapped what (Driver (flt_err flt))),
       tick (if flt_applied flt then set_objects (f (w_objects w)) w else w))
  | None => (Ok tt, tick (set_objects (f (w_objects w)) w))
  end.

(** [Local.Put] *)
Definition objects_Put (key data contentType : string) : Go Stored :=
  match validateKey key with
  | Some e => fail e
  | None =>
      object_effect "write object" (<[key := data]>) ;;;
      ret (mkStored key (sha256_hex data) (Z.of_nat (String.length data)) contentType)
  end.

(** [Local.Open]: the object's bytes. *)
Definition objects_Open (key : string) : Go string :=
  match validateKey key with
  | Some e => fail e
  | None =>
      wrap_err (Wrapped "open object") may_fail ;;;
      let* o := asks (fun w => w_objects w !! key) in
      match o with
      | None => fail ErrNotFound
      | Some data => ret data
      end
  end.

(** [Local.Delete]: removing an absent object succeeds. *)
Definition objects_Delete (key : string) : Go unit :=
  match validateKey key with
  | Some e => fail e
  | None => object_effect "delete object" (delete key)
  end.

(** ** Reading and validating an image (image.go) *)

(** A stream: its bytes, and the error it ends with, if any. *)
Record Reader := mkReader { rd_bytes : string; rd_err : option Err }.

(** [io.ReadAll(io.LimitReader(r, n))] *)
Definition ReadAllLimit (n : Z) (r : Reader) : Res Err string :=
  if n <=? Z.of_nat (String.length (rd_bytes r)) then Ok (take (Z.to_nat n) (rd_bytes r))
  else match rd_err r with Some e => Fail e | None => Ok (rd_bytes r) end.

(** [strings.Cut(s, sep)]'s first part for a one-byte separator. *)
Fixpoint before_byte (s : string) (b : Ascii.ascii) : string :=
  match s with
  | "" => ""
  | String c s' => if Ascii.eqb c b then "" else String c (before_byte s' b)
  end.

Definition allowedTypes : list string := ["image/jpeg"; "image/png"; "image/webp"].
Definition MockPrefix : string := "MOCK-FIXTURE:".

(** [ValidateAndHash]: the bytes, their digest and their content type. *)
Definition ValidateAndHash (r : Reader) (maxBytes : Z) : Res Err (string * string * string) :=
  match ReadAllLimit (maxBytes + 1) r with
  | Fail e => Fail (E CodeTransient "reading image bytes" (Some e))
  | Ok data =>
      if maxBytes <? Z.of_nat (String.length data) then
        Fail (E CodeValidation ("image exceeds " ++ Sprintd maxBytes ++ " bytes") None)
      else if String.eqb data "" then Fail (E CodeValidation "empty image" None)
      else if HasPrefix data MockPrefix then Ok (data, sha256_hex data, "text/plain")
      else
        let sniffed := before_byte (DetectContentType data) ";"%char in
        if existsb (String.eqb sniffed) allowedTypes then Ok (data, sha256_hex data, sniffed)
        else Fail (E CodeValidation ("unsupported image type " ++ sniffed) None)
  end.

(** [StorageKey] *)
Definition StorageKey (userID receiptID : uuid) : string :=
  "receipts/" ++ uuid_text userID ++ "/" ++ uuid_text receiptID.
End objects.

(** Object-store calls touch no table and make no provider call. *)
Section objects_frame.
Context `{Env} (R : relation World) `{!Quiet R} (HR : forall w o, R w (set_objects o w)).

Lemma evolves_object_effect what f : evolves R (object_effect what f).
Proof.
  intros w. unfold object_effect. destruct (fault _) as [[e [|]]|]; simpl;
    try (etrans; [apply HR|apply quiet_tick]); apply quiet_tick.
Qed.
Lemma evolves_objects_Put key data ct : evolves R (objects_Put key data ct).
Proof. unfold objects_Put. go_evolve. apply evolves_object_effect. Qed.
Lemma evolves_objects_Open key : evolves R (objects_Open key).
Proof. unfold objects_Open. go_evolve. by apply evolves_may_fail. Qed.
Lemma evolves_objects_Delete key : evolves R (objects_Delete key).
Proof. unfold objects_Delete. go_evolve. apply evolves_object_effect. Qed.
End objects_frame.

Lemma on_db_objects (R : relation DB) `{!PreOrder R} w o : on_db R w (set_objects o w).
Proof. unfold on_db. simpl. reflexivity. Qed.
Lemma on_calls_objects (R : relation (list Call)) `{!PreOrder R} w o : on_calls R w (set_objects o w).
Proof. unfold on_calls. simpl. reflexivity. Qed.
