(* ===== verification/Processor.v ===== *)
(** * Receipt pipeline

    internal/receipt/processor.go: download, validate, store, duplicate check,
    extract, normalise, draft, confirmation card.  A job runs in five phases:
    three sections under the user's lock, with the download and the extraction
    call between them outside it; [Processor_Handle] is their composition, and
    [lane_step] runs them one at a time so that jobs can interleave.

    A Go pointer that a phase updates in place ([r.Status = ...], the receipt of
    [prep]) is returned by the phase instead. *)
From Stdlib Require Import Ascii SpecFloat.
From S2P Require Import Prelude GoStrings Domain GoTime Normalise Db Queue StoreOutbound StoreInbound StoreReceipts.
From S2P Require Import StoreTx StoreCatalog Categorisation Templates Fields Notify Objects.

(** extraction.Extractor: the answer may differ from call to call. *)
Class Extractor := {
  extractor_Name : string;
  extractor_Version : string;
  extractor_Extract : nat -> string -> string -> string -> string -> Res Err ExtractionResult
}.
(** messaging.Provider's inbound half. *)
Class MediaProvider := {
  provider_ParseWebhook : string -> Res Err (list InboundEvent);
  provider_DownloadMedia : nat -> MediaReference -> Res Err Reader
}.

Record Processor := mkProcessor {
  ExtractionEnabled : bool; MonthlyOCRLimit : Z; MaxImageBytes : Z }.

(** [json.Unmarshal] into a [ReceiptJob]; fields another schema lacks are zero. *)
Definition decode_receipt (p : Payload) : option ReceiptJob :=
  match p with
  | PayReceipt j => Some j
  | PayOutbound j => Some (mkReceiptJob uuid_nil uuid_nil (oj_user j) "" "" "" 0 (oj_enqueued_at j))
  | PaySweep t => Some (mkReceiptJob uuid_nil uuid_nil uuid_nil "" "" "" 0 t)
  | PayOther _ => None
  end.

(** [receiptPrep]: nil, skip, or what the next phases work on. *)
Inductive receiptPrep :=
| PrepNil
| PrepSkip
| PrepReady (needFetch : bool) (receipt : ReceiptDocument) (attempt : Z).

(** [receiptTerminal] *)
Definition receiptTerminal (status : ReceiptStatus) : bool :=
  match status with
  | ReceiptReviewRequired | ReceiptConfirmed | ReceiptDeleted | ReceiptFailedPermanent => true
  | _ => false
  end.

(** [truncateErr] *)
Definition truncate_cause (err : Err) : string :=
  let s := error_string err in if (200 <? String.length s)%nat then take 200 s else s.

Definition set_status (status : ReceiptStatus) (r : ReceiptDocument) : ReceiptDocument :=
  set_receipt (rc_storage_key r) (rc_sha256 r) (rc_content_type r) (rc_byte_size r) status
    (rc_updated_at r) (rc_deleted_at r) r.

Definition dupWindow : Z := 72 * Hour.

Section processor.
Context `{Env} `{TzData} `{FloatText} `{Extractor} `{MediaProvider} `{!Categoriser}.

(** [conflictAsDone] *)
Definition conflictAsDone (err : Err) : Go unit :=
  if IsCode err CodeConflict || IsCode err CodeValidation then ret tt else fail err.

(** [ackPolicy] *)
Definition ackPolicy (receiptID : uuid) (result : Res Err unit) : Go unit :=
  match result with
  | Ok _ => ret tt
  | Fail err =>
      if Retryable err then fail err
      else
        let not_durable := fail (E CodeTransient "permanent failure not yet durable" (Some err)) in
        let* g := attempt (GetReceipt receiptID) in
        match g with
        | Ok r => if receiptTerminal (rc_status r) then ret tt else not_durable
        | Fail _ => not_durable
        end
  end.

Definition record_outcome (id : uuid) (attempt : Z) (status : AttemptStatus) (errClass errCode : string) : Go unit :=
  ignore (RecordAttempt id extractor_Name extractor_Version attempt status errClass errCode).

(** [failWith] *)
Definition failWith (r : ReceiptDocument) (payload : ReceiptJob) (attempt_ : Z) (class msg : string) : Go unit :=
  let* moved := attempt (TransitionReceipt (rc_id r) (rc_status r) ReceiptFailedPermanent) in
  match moved with
  | Ok _ => ret tt
  | Fail err =>
      if negb (IsCode err CodeConflict) && negb (IsCode err CodeValidation) then
        fail (E CodeTransient "persist permanent receipt failure" (Some err))
      else
        let not_durable := fail (E CodeTransient "permanent receipt failure not durable" (Some err)) in
        let* latest := attempt (GetReceipt (rc_id r)) in
        match latest with
        | Ok l => if receiptTerminal (rc_status l) then ret tt else not_durable
        | Fail _ => not_durable
        end
  end ;;;
  record_outcome (rc_id r) attempt_ AttemptFailed "permanent" class ;;;
  if String.eqb msg "" then ret tt
  else Reply (rc_user r) (rj_provider payload) (rj_chat payload) msg
         ("fail:" ++ uuid_text (rc_id r) ++ ":" ++ class).

(** [fail] *)
Definition fail_receipt (r : ReceiptDocument) (payload : ReceiptJob) (attempt_ : Z) (cause : Err) (msg : string) :
    Go unit :=
  if Retryable cause then
    ignore (TransitionReceipt (rc_id r) (rc_status r) ReceiptFailedTransient) ;;;
    record_outcome (rc_id r) attempt_ AttemptFailed "transient" (code_string (CodeOf cause)) ;;;
    fail (E CodeTransient "receipt pipeline" (Some cause))
  else
    failWith r payload attempt_ (truncate_cause cause) (if String.eqb msg "" then ExtractionFailedText else msg).

(** [prepareReceipt] *)
Definition prepare_live (job : QueueJob) (r : ReceiptDocument) : Go receiptPrep :=
  let attempt_ := if job_attempts job <? 1 then 1 else job_attempts job in
  ignore (RecordAttempt (rc_id r) extractor_Name extractor_Version attempt_ AttemptStarted "" "") ;;;
  let ready r := ret (PrepReady (String.eqb (rc_storage_key r) "") r attempt_) in
  if bool_decide (rc_status r = ReceiptQueued) then
    let* moved := attempt (TransitionReceipt (rc_id r) ReceiptQueued ReceiptDownloading) in
    match moved with
    | Ok _ => ready (set_status ReceiptDownloading r)
    | Fail err => conflictAsDone err ;;; ret PrepNil
    end
  else ready r.
Definition prepareReceipt (job : QueueJob) (payload : ReceiptJob) : Go receiptPrep :=
  let* user := attempt (GetUser (rj_user payload)) in
  match user with
  | Fail err => if IsCode err CodeNotFound then ret PrepSkip else fail err
  | Ok user =>
      if gone user then ret PrepSkip
      else
        let* found := attempt (GetReceipt (rj_receipt payload)) in
        match found with
        | Fail err => if IsCode err CodeNotFound then ret PrepSkip else fail err
        | Ok r =>
            if negb (bool_decide (rc_user r = rj_user payload)) then
              fail (E CodeValidation "receipt job user does not own receipt" None)
            else
              match rc_status r with
              | ReceiptReviewRequired | ReceiptConfirmed | ReceiptDeleted | ReceiptFailedPermanent => ret PrepSkip
              | ReceiptFailedTransient =>
                  let* moved := attempt (TransitionReceipt (rc_id r) ReceiptFailedTransient ReceiptQueued) in
                  match moved with
                  | Ok _ => prepare_live job (set_status ReceiptQueued r)
                  | Fail err => conflictAsDone err ;;; ret PrepNil
                  end
              | ReceiptQueued | ReceiptDownloading | ReceiptStored | ReceiptExtracting => prepare_live job r
              | ReceiptReceived | ReceiptUnset => ret PrepSkip
              end
        end
  end.

(** [readStored] *)
Definition readStored (p : Processor) (r : ReceiptDocument) : Go (string * string) :=
  let* data := wrap_err (fun e => E CodeTransient "object store open" (Some e)) (objects_Open (rc_storage_key r)) in
  match ReadAllLimit (MaxImageBytes p + 1) (mkReader data None) with
  | Fail e => fail (E CodeTransient "read stored receipt" (Some e))
  | Ok data =>
      if MaxImageBytes p <? Z.of_nat (String.length data) then
        fail (E CodeValidation ("stored receipt exceeds " ++ Sprintd (MaxImageBytes p) ++ " byte cap") None)
      else ret (data, if String.eqb (rc_content_type r) "" then "application/octet-stream" else rc_content_type r)
  end.

(** [fetchAndValidate] *)
Definition DownloadMedia (ref : MediaReference) : Go Reader := fun w =>
  (provider_DownloadMedia (w_tick w) ref, tick w).
Definition first_media (evs : list InboundEvent) : option MediaReference :=
  ev ← List.find (fun ev => match ev_media ev with [] => false | _ => true end) evs; head (ev_media ev).
Definition fetchAndValidate (p : Processor) (r : ReceiptDocument) : Go (string * string * string) :=
  match rc_message r with
  | None => fail (E CodeValidation "receipt has no provider message" None)
  | Some m =>
      let* pm := GetProviderMessage m in
      match provider_ParseWebhook (pm_raw pm) with
      | Fail e => fail (E CodeValidation "re-parse provider payload" (Some e))
      | Ok evs =>
          match first_media evs with
          | None => fail (E CodeValidation "provider payload has no media" None)
          | Some ref => let* rc := DownloadMedia ref in of_res (ValidateAndHash rc (MaxImageBytes p))
          end
      end
  end.

(** [loadImageBytes]: bytes, digest, content type, and the receipt of [prep]. *)
Definition loadImageBytes (p : Processor) (needFetch : bool) (r : ReceiptDocument) :
    Go (string * string * string * ReceiptDocument) :=
  if negb needFetch && negb (String.eqb (rc_storage_key r) "") then
    let* ' (data, contentType) := readStored p r in
    ret (data, rc_sha256 r, contentType, r)
  else
    let* ' (data, _, contentType) := fetchAndValidate p r in
    let* stored := wrap_err (fun e => E CodeTransient "object store put" (Some e))
                     (objects_Put (StorageKey (rc_user r) (rc_id r)) data contentType) in
    ret (data, sto_sha256 stored, contentType,
         set_receipt (sto_key stored) (sto_sha256 stored) contentType (sto_size stored) (rc_status r)
           (rc_updated_at r) (rc_deleted_at r) r).

(** [armExtraction] from the kill switch on: reserve a page of the month's quota.
    [Some period] is Go's true; the period labels the call it pays for. *)
Definition reserve_page (p : Processor) (payload : ReceiptJob) (attempt_ : Z) (r : ReceiptDocument) :
    Go (option string) :=
  if negb (ExtractionEnabled p) then
    failWith r payload attempt_ "kill_switch" OCRDisabledText ;;; ret None
  else
    let* now := clk_Now in
    let period := Format_month now in
    let* counted := attempt (IncrementUsage "global" "" period "ocr_pages" 1 (MonthlyOCRLimit p)) in
    match counted with
    | Fail err => fail_receipt r payload attempt_ err "" ;;; ret None
    | Ok count =>
        if (0 <? MonthlyOCRLimit p) && (MonthlyOCRLimit p <? count) then
          failWith r payload attempt_ "quota" MonthlyQuotaText ;;; ret None
        else ret (Some period)
    end.

(** [armExtraction] from [downloading] to [extracting]; [None] where a conflict
    means another lane is at work. *)
Definition move_on (id : uuid) (from to : ReceiptStatus) : Go bool :=
  let* moved := attempt (TransitionReceipt id from to) in
  match moved with
  | Ok _ => ret true
  | Fail err => conflictAsDone err ;;; ret false
  end.
Definition start_extracting (p : Processor) (payload : ReceiptJob) (attempt_ : Z) (r : ReceiptDocument) :
    Go (option string) :=
  let* stored := (if bool_decide (rc_status r = ReceiptDownloading)
                  then move_on (rc_id r) ReceiptDownloading ReceiptStored else ret true) in
  if negb stored then ret None
  else
    let r := if bool_decide (rc_status r = ReceiptDownloading) then set_status ReceiptStored r else r in
    let* latest := attempt (GetReceipt (rc_id r)) in
    let r := match latest with Ok l => l | Fail _ => r end in
    let* extracting := (if bool_decide (rc_status r = ReceiptStored)
                        then move_on (rc_id r) ReceiptStored ReceiptExtracting else ret true) in
    if negb extracting then ret None
    else
      let r := if bool_decide (rc_status r = ReceiptStored) then set_status ReceiptExtracting r else r in
      if negb (bool_decide (rc_status r = ReceiptExtracting)) then
        fail (E CodeInternal ("receipt " ++ uuid_text (rc_id r) ++ " not extracting after store") None)
      else reserve_page p payload attempt_ r.

(** [armExtraction] *)
Definition armExtraction (p : Processor) (payload : ReceiptJob) (prep : ReceiptDocument) (attempt_ : Z)
    (data digest contentType : string) : Go (option string) :=
  let* found := attempt (GetReceipt (rj_receipt payload)) in
  match found with
  | Fail err => if IsCode err CodeNotFound then ret None else fail err
  | Ok r =>
      if receiptTerminal (rc_status r) then ret None
      else
        let* duplicate :=
          (if String.eqb digest "" then ret false
           else
             let* dup := attempt (FindReceiptByHash (rc_user r) digest) in
             match dup with
             | Ok dup => ret (negb (bool_decide (rc_id dup = rc_id r)))
             | Fail derr => if IsCode derr CodeNotFound then ret false else fail derr
             end) in
        if duplicate then failWith r payload attempt_ "duplicate" DuplicateReceiptText ;;; ret None
        else
          (if negb (String.eqb (rc_storage_key prep) "") && String.eqb (rc_storage_key r) "" then
             let size := if rc_byte_size prep =? 0 then Z.of_nat (String.length data) else rc_byte_size prep in
             wrap_err (fun e => E CodeTransient "record stored receipt" (Some e))
               (SetReceiptStored (rc_id r) (rc_storage_key prep) digest contentType size)
           else ret tt) ;;;
          start_extracting p payload attempt_ r
  end.

(** [buildAndPersistDraft] *)
Definition draft_predictions (txID : uuid) (now : Time) (sug : Suggestion) (txType : TxType) (typeConf : float64)
    (typeSource : string) (merchant : option Merchant) (matchKind : MatchKind) (merchantConf : float64) :
    Go (list Prediction) :=
  let* id1 := uuid_New in
  let* id2 := uuid_New in
  let base := [mkPrediction id1 txID "category" (sug_key sug) (sug_confidence sug) (sug_source sug) "v1" "" now;
               mkPrediction id2 txID "type" (txtype_string txType) typeConf typeSource "v1" "" now] in
  match merchant with
  | None => ret base
  | Some m =>
      let* id3 := uuid_New in
      ret (base ++ [mkPrediction id3 txID "merchant" (mer_normalised m) merchantConf "merchant-resolution"
                      (match_kind_string matchKind) "" now])%list
  end.
Definition buildAndPersistDraft (r : ReceiptDocument) (result : ExtractionResult) :
    Go (Transaction * Suggestion) :=
  let* user := GetUser (rc_user r) in
  let loc := user_Location user in
  let merchantRaw := fieldRaw result "merchant" in
  let* ' (merchant, matchKind) :=
    (if String.eqb merchantRaw "" then ret (None, MatchNone) else cat_ResolveMerchant merchantRaw) in
  let* total := of_res (fieldInt result "total_minor") in
  let currency := fieldString result "currency" in
  let currency := if String.eqb currency "" then usr_default_currency user else currency in
  let* occurred := match fieldTime result "occurred_at" loc with Ok t => ret t | Fail _ => clk_Now end in
  let hint := TypeHint (merchantRaw ++ " " ++ fieldRaw result "type_hint") in
  let* ' (txType, typeConf, typeSource) := cat_SuggestType (rc_user r) merchant hint.1 hint.2 in
  let* sug := cat_SuggestCategory (rc_user r) merchant (fieldString result "category") (fieldConf result "category") in
  let display := match merchant with Some m => mer_canonical m | None => (NormaliseMerchant merchantRaw).1 end in
  let* now := clk_Now in
  let* txID := uuid_New in
  let tx := mkTx txID (rc_user r) (Some (rc_id r)) None txType (mer_id <$> merchant) display "" total currency
              occurred (sug_category sug) TxAwaitingConfirmation TxSourceReceipt (confidenceSummary result)
              None 1 now now None None in
  let* preds := draft_predictions txID now sug txType typeConf typeSource merchant matchKind
                  (fieldConf result "merchant") in
  let* fields := provenance (rc_id r) result in
  let* tx := FinalizeReceiptReview (mkReview ReceiptExtracting (Some tx) fields preds
    (Some (mkPending uuid_nil (rc_user r) PendingConfirmExtraction (Some txID) "" (now + 24 * Hour) 0))) in
  ret (tx, sug).

(** [warnPossibleDuplicate] *)
Definition location_or_utc (userID : uuid) : Go Location :=
  let* user := attempt (GetUser userID) in
  ret (match user with Ok u => user_Location u | Fail _ => UTC end).
Definition version_key (prefix : string) (tx : Transaction) : string :=
  prefix ++ ":" ++ uuid_text (tx_id tx) ++ ":v" ++ Sprintd (tx_version tx).
Definition warnPossibleDuplicate (userID : uuid) (payload : ReceiptJob) (tx : Transaction) : Go unit :=
  let* dups := FindPotentialDuplicates userID (tx_amount tx) (tx_currency tx) (tx_occurred_at tx) dupWindow
                 (tx_merchant tx) (tx_merchant_name tx) in
  match dups with
  | [] => ret tt
  | _ =>
      let* loc := location_or_utc userID in
      let lines := (fun d => mkDup (Money (tx_amount d) (tx_currency d)) (tx_merchant_name d)
                               (DateVN (tx_occurred_at d) loc)) <$> dups in
      Reply userID (rj_provider payload) (rj_chat payload) (PossibleDuplicateText lines) (version_key "dupnote" tx)
  end.

(** [renderCard] *)
Definition renderCard (userID : uuid) (tx : Transaction) (result : ExtractionResult) (sug : Suggestion) : Go string :=
  let* loc := location_or_utc userID in
  let merchant := if String.eqb (tx_merchant_name tx) "" then fieldRaw result "merchant" else tx_merchant_name tx in
  let flag_of field := FieldNeedsFlag field (fieldConf result field) in
  ret (ExtractionCard (mkCard merchant (Money (tx_amount tx) (tx_currency tx)) (DateVN (tx_occurred_at tx) loc)
    (TypeLabel (tx_type tx)) (sug_display sug)
    (list_to_map [("total", flag_of "total_minor"); ("currency", flag_of "currency"); ("date", flag_of "occurred_at");
       ("merchant", flag_of "merchant"); ("category", FieldNeedsFlag "category" (sug_confidence sug))]))).

(** [finishExtraction] *)
Definition finish_draft (payload : ReceiptJob) (attempt_ : Z) (r : ReceiptDocument) (result : ExtractionResult)
    (tx : Transaction) (sug : Suggestion) : Go unit :=
  let* card := renderCard (rc_user r) tx result sug in
  Reply (rc_user r) (rj_provider payload) (rj_chat payload) card (version_key "card" tx) ;;;
  ignore (warnPossibleDuplicate (rc_user r) payload tx) ;;;
  record_outcome (rc_id r) attempt_ AttemptSucceeded "" "".
Definition finishExtraction (payload : ReceiptJob) (attempt_ : Z) (answer : Res Err ExtractionResult) : Go unit :=
  let* found := attempt (GetReceipt (rj_receipt payload)) in
  match found with
  | Fail err => if IsCode err CodeNotFound then ret tt else fail err
  | Ok r =>
      if receiptTerminal (rc_status r) then ret tt
      else
        match answer with
        | Fail extractErr =>
            if IsCode extractErr CodeUnsupported then
              failWith r payload attempt_ "unsupported" UnsupportedImageText
            else fail_receipt r payload attempt_ extractErr ""
        | Ok result =>
            let* built := attempt (buildAndPersistDraft r result) in
            match built with
            | Fail err =>
                if IsCode err CodeConflict then conflictAsDone err
                else if Contains (error_string err) "missing total_minor" then
                  fail_receipt r payload attempt_ err MissingAmountText
                else fail_receipt r payload attempt_ err ""
            | Ok (tx, sug) => finish_draft payload attempt_ r result tx sug
            end
        end
  end.

(** [withLockedReceipt] *)
Definition withLockedReceipt (payload : ReceiptJob) (fn : ReceiptDocument -> Go unit) : Go unit :=
  WithUserLock (rj_user payload) (
    let* found := attempt (GetReceipt (rj_receipt payload)) in
    match found with
    | Fail err => if IsCode err CodeNotFound then ret tt else fail err
    | Ok r => let* res := attempt (fn r) in ackPolicy (rj_receipt payload) res
    end).

(** ** The phases of [Handle] *)
Definition phase_prepare (job : QueueJob) (payload : ReceiptJob) : Go receiptPrep :=
  WithUserLock (rj_user payload) (
    let* res := attempt (prepareReceipt job payload) in
    match res with
    | Ok prep => ret prep
    | Fail err => ackPolicy (rj_receipt payload) (Fail err) ;;; ret PrepNil
    end).

Definition phase_load_failed (payload : ReceiptJob) (attempt_ : Z) (err : Err) : Go unit :=
  withLockedReceipt payload (fun r =>
    if IsCode err CodeConflict then conflictAsDone err
    else if IsCode err CodeValidation && Contains (error_string err) "duplicate receipt" then
      failWith r payload attempt_ "duplicate" DuplicateReceiptText
    else fail_receipt r payload attempt_ err UnsupportedImageText).

(** Not armed; armed with a page reserved in a month; or, when [armExtraction]
    failed and [ackPolicy] swallowed the error, [prep.skip] still false. *)
Inductive Armed := NotArmed | Reserved (period : string) | Unreserved.
Definition phase_arm (p : Processor) (payload : ReceiptJob) (prep : ReceiptDocument) (attempt_ : Z)
    (data digest contentType : string) : Go Armed :=
  WithUserLock (rj_user payload) (
    let* res := attempt (armExtraction p payload prep attempt_ data digest contentType) in
    match res with
    | Ok (Some period) => ret (Reserved period)
    | Ok None => ret NotArmed
    | Fail err => ackPolicy (rj_receipt payload) (Fail err) ;;; ret Unreserved
    end).

Definition phase_extract (payload : ReceiptJob) (period data digest contentType : string) :
    Go (Res Err ExtractionResult) := fun w =>
  (Ok (extractor_Extract (w_tick w) data (uuid_text (rj_receipt payload)) digest contentType),
   log_call (CallExtract (rj_receipt payload) period) (tick w)).

Definition phase_finish (payload : ReceiptJob) (attempt_ : Z) (answer : Res Err ExtractionResult) : Go unit :=
  WithUserLock (rj_user payload) (
    let* res := attempt (finishExtraction payload attempt_ answer) in
    ackPolicy (rj_receipt payload) res).

(** [Handle] *)
Definition extract_and_finish (payload : ReceiptJob) (attempt_ : Z) (period data digest contentType : string) : Go unit :=
  let* answer := phase_extract payload period data digest contentType in
  phase_finish payload attempt_ answer.
Definition Processor_Handle (p : Processor) (job : QueueJob) : Go unit :=
  match decode_receipt (job_payload job) with
  | None => fail (E CodeValidation "decode receipt job" None)
  | Some payload =>
      let* prep := phase_prepare job payload in
      match prep with
      | PrepNil | PrepSkip => ret tt
      | PrepReady needFetch r attempt_ =>
          let* loaded := attempt (loadImageBytes p needFetch r) in
          match loaded with
          | Fail err => phase_load_failed payload attempt_ err
          | Ok (data, digest, contentType, r) =>
              let* armed := phase_arm p payload r attempt_ data digest contentType in
              match armed with
              | NotArmed => ret tt
              | Reserved period => extract_and_finish payload attempt_ period data digest contentType
              | Unreserved => extract_and_finish payload attempt_ "" data digest contentType
              end
          end
      end
  end.
End processor.

(** ** What the pipeline may write

    [free_change]: the tables a receipt job writes freely.  [QuietFrame R]: a
    relation that those writes, receipt moves along the state machine, usage
    increments and object writes respect; every step that sends no reply then
    evolves by it.  [PipelineFrame R]: so do new outbox rows and queue jobs, and then
    every phase but the extraction call evolves by it. *)
Record free_change (d d' : DB) : Prop := {
  fc_users : db_users d' = db_users d; fc_idents : db_idents d' = db_idents d;
  fc_msgs : db_msgs d' = db_msgs d; fc_receipts : db_receipts d' = db_receipts d;
  fc_corrs : db_corrs d' = db_corrs d; fc_categories : db_categories d' = db_categories d;
  fc_rules : db_rules d' = db_rules d; fc_insights : db_insights d' = db_insights d;
  fc_usage : db_usage d' = db_usage d; fc_schedules : db_schedules d' = db_schedules d;
  fc_outbound : db_outbound d' = db_outbound d; fc_jobs : db_jobs d' = db_jobs d }.

Class QuietFrame `{Env} (R : relation World) := {
  pf_steady :: Steady R;
  pf_free w d' : free_change (w_db w) d' -> R w (set_db d' w);
  pf_receipts w m : receipts_evolve (w_db w) (upd_receipts (fun _ => m) (w_db w)) ->
    R w (set_db (upd_receipts (fun _ => m) (w_db w)) w);
  pf_usage w key limit now :
    R w (set_db (stmt_effect (bump_usage key 1 limit false always) now (w_db w)) w);
  pf_objects w o : R w (set_objects o w)
}.
Class PipelineFrame `{Env} (R : relation World) := {
  pf_quiet :: QuietFrame R;
  pf_outbound w m : R w (set_db (upd_outbound (fun _ => m) (w_db w)) w);
  pf_jobs w m : R w (set_db (upd_jobs (fun _ => m) (w_db w)) w)
}.

Section quiet.
Context `{Env} `{TzData} `{FloatText} `{Extractor} `{MediaProvider} `{!Categoriser}.
Context (R : relation World) `{!QuietFrame R}.

Lemma free_stmt {A} (f : Stmt A) : (forall t d, free_change d (stmt_effect f t d)) -> evolves R (stmt f).
Proof. intros Hf. apply evolves_stmt; [apply _|]. intros t w. apply pf_free, Hf. Qed.
Lemma free_dml {A} (f : Time -> DB -> A * DB) : (forall t d, free_change d (f t d).2) -> evolves R (dml f).
Proof. intros Hf. apply evolves_dml; [apply _|]. intros t w. apply pf_free, Hf. Qed.

Lemma receipt_dml id cond f :
  (forall t r, cond r = true ->
     rc_user (f t r) = rc_user r /\ rtc receipt_step (rc_status r) (rc_status (f t r))) ->
  evolves R (dml (fun t => update_receipt id cond (f t))).
Proof.
  intros Hf. apply evolves_dml; [apply _|]. intros t w. apply pf_receipts.
  apply (receipts_evolve_update id cond (f t)). apply Hf.
Qed.

Lemma step_TransitionReceipt id from to : evolves R (TransitionReceipt id from to).
Proof.
  unfold TransitionReceipt. destruct (receipt_CanTransition from to) eqn:Hc; simpl; go_evolve.
  apply (receipt_dml id _ (fun now => moved now to)). intros t r Hr. apply bool_decide_eq_true in Hr.
  simpl. split; [done|]. rewrite Hr. by apply rtc_once.
Qed.
Lemma step_SetReceiptStored id key sha ctype size : evolves R (SetReceiptStored id key sha ctype size).
Proof.
  unfold SetReceiptStored. go_evolve. apply (receipt_dml id _ (fun now r =>
    set_receipt key sha ctype size (rc_status r) now (rc_deleted_at r) r)). simpl. auto using rtc_refl.
Qed.
Lemma step_RecordAttempt id p v n status c e : evolves R (RecordAttempt id p v n status c e).
Proof.
  unfold RecordAttempt. go_evolve. apply free_stmt. intros t d.
  destruct (record_attempt_tables (id, p, v, n) status c e t d) as [m ->]. done.
Qed.

Lemma step_reads :
  (forall u, evolves R (GetUser u)) /\ (forall m, evolves R (GetProviderMessage m)) /\
  (forall u a c t w m n, evolves R (FindPotentialDuplicates u a c t w m n)) /\
  (forall id, evolves R (GetReceipt id)) /\ (forall u h, evolves R (FindReceiptByHash u h)).
Proof.
  split_and!; intros; unfold GetUser, GetProviderMessage, FindPotentialDuplicates, GetReceipt, FindReceiptByHash;
    go_evolve.
Qed.

Lemma step_IncrementUsage i p m l : evolves R (IncrementUsage "global" i p m 1 l).
Proof. unfold IncrementUsage. go_evolve. apply evolves_stmt; [apply _|]. intros t w. apply pf_usage. Qed.

Lemma step_or_new id : evolves R (or_new id).
Proof. unfold or_new. go_evolve. Qed.

Lemma write_tx_free t d d' : write_tx t d = Ok d' -> free_change d d'.
Proof. unfold write_tx. repeat (case_match; try done). by intros [= <-]. Qed.

Lemma step_upsert id t : evolves R (upsert_review_tx id t).
Proof.
  unfold upsert_review_tx. go_evolve; [apply free_stmt|apply free_dml; by intros|apply step_or_new|apply free_stmt];
    intros now d; unfold stmt_effect, update_tx, insert_tx.
  - destruct (db_txs d !! _) as [x|]; [|done]. destruct (bool_decide _); [|done].
    destruct (write_tx _ d) eqn:Hw; [|done]. by eapply write_tx_free.
  - destruct (bool_decide _); [done|]. destruct (write_tx _ d) eqn:Hw; [|done]. by eapply write_tx_free.
Qed.

Lemma step_replace_fields id fs : evolves R (replace_fields id fs).
Proof.
  unfold replace_fields. go_evolve; [apply free_dml; by intros|apply step_or_new|].
  apply free_stmt. intros now d. unfold stmt_effect, insert_field. destruct (negb _); [done|].
  destruct (insert_row _ _ _ _); [|done]. by destruct (bool_decide _).
Qed.
Lemma step_insert_predictions op id ps : evolves R (insert_predictions op id ps).
Proof.
  unfold insert_predictions. go_evolve; [apply step_or_new|]. apply free_stmt. intros now d.
  unfold stmt_effect, insert_prediction. destruct (negb _); [done|].
  destruct (insert_row _ _ _ _); [|done]. by destruct (bool_decide _).
Qed.
Lemma step_replace_pending op p id : evolves R (replace_pending op p id).
Proof.
  unfold replace_pending. go_evolve; [apply step_or_new|apply free_dml; by intros|].
  apply free_stmt. intros now d. unfold stmt_effect, insert_pending.
  destruct (insert_row _ _ _ _); [|done]. by destruct (_ && _).
Qed.

Lemma step_Finalize d : evolves R (FinalizeReceiptReview d).
Proof.
  unfold FinalizeReceiptReview. destruct (rv_tx d) as [t|]; [|by go_evolve]. destruct (rv_pending d) as [p|]; [|by go_evolve].
  destruct (tx_receipt t) as [rid|]; [|by go_evolve]. go_step.
  destruct (receipt_CanTransition (rv_from d) ReceiptReviewRequired) eqn:Hc; simpl;
    go_evolve; auto using step_upsert, step_replace_fields, step_insert_predictions, step_replace_pending.
  apply (receipt_dml rid (fun r => bool_decide (rc_status r = rv_from d)) under_review).
  intros now r Hr%bool_decide_eq_true. simpl. split; [done|]. rewrite Hr. by apply rtc_once.
Qed.

Lemma step_categoriser :
  (forall raw, evolves R (cat_ResolveMerchant raw)) /\ (forall u m k c, evolves R (cat_SuggestCategory u m k c)) /\
  (forall u m h b, evolves R (cat_SuggestType u m h b)).
Proof. apply cat_frame; [apply _|intros w m; by apply pf_free..]. Qed.

Lemma step_DownloadMedia ref : evolves R (DownloadMedia ref).
Proof. intros w. apply quiet_tick. Qed.
Lemma step_objects : (forall k d c, evolves R (objects_Put k d c)) /\ (forall k, evolves R (objects_Open k)).
Proof. split; intros; [apply evolves_objects_Put; [apply _|apply pf_objects]|apply evolves_objects_Open; apply _]. Qed.
End quiet.

Create HintDb pipeline discriminated.
#[export] Hint Resolve step_IncrementUsage step_Finalize step_TransitionReceipt step_SetReceiptStored step_RecordAttempt
  step_DownloadMedia : pipeline.
#[export] Hint Extern 0 (QuietFrame _) => apply _ : pipeline.
#[export] Hint Extern 1 (evolves _ (GetReceipt _)) => apply step_reads : pipeline.
#[export] Hint Extern 1 (evolves _ (FindReceiptByHash _ _)) => apply step_reads : pipeline.
#[export] Hint Extern 1 (evolves _ (GetUser _)) => apply step_reads : pipeline.
#[export] Hint Extern 1 (evolves _ (GetProviderMessage _)) => apply step_reads : pipeline.
#[export] Hint Extern 1 (evolves _ (FindPotentialDuplicates _ _ _ _ _ _ _)) => apply step_reads : pipeline.
#[export] Hint Extern 1 (evolves _ (cat_ResolveMerchant _)) => apply step_categoriser : pipeline.
#[export] Hint Extern 1 (evolves _ (cat_SuggestCategory _ _ _ _)) => apply step_categoriser : pipeline.
#[export] Hint Extern 1 (evolves _ (cat_SuggestType _ _ _ _)) => apply step_categoriser : pipeline.
#[export] Hint Extern 1 (evolves _ (objects_Put _ _ _)) => apply step_objects : pipeline.
#[export] Hint Extern 1 (evolves _ (objects_Open _)) => apply step_objects : pipeline.

Section quiet_phases.
Context `{Env} `{TzData} `{FloatText} `{Extractor} `{MediaProvider} `{!Categoriser}.
Context (R : relation World) `{!QuietFrame R}.
#[local] Hint Extern 0 (evolves _ _) => solve [eauto 3 with pipeline] : evolve.
Lemma step_conflictAsDone e : evolves R (conflictAsDone e).
Proof. unfold conflictAsDone. go_evolve. Qed.
Lemma step_ackPolicy id r : evolves R (ackPolicy id r).
Proof. unfold ackPolicy. go_evolve. Qed.
Lemma step_load p n r : evolves R (loadImageBytes p n r).
Proof. unfold loadImageBytes, readStored, fetchAndValidate. go_evolve. Qed.
Lemma step_build r res : evolves R (buildAndPersistDraft r res).
Proof. unfold buildAndPersistDraft, draft_predictions, provenance. go_evolve. Qed.
End quiet_phases.
#[export] Hint Resolve step_conflictAsDone step_ackPolicy step_load step_build : pipeline.

Section pipeline.
Context `{Env} `{TzData} `{FloatText} `{Extractor} `{MediaProvider} `{!Categoriser}.
Context (R : relation World) `{!PipelineFrame R}.
#[local] Hint Extern 0 (evolves _ _) => solve [eauto 3 with pipeline] : evolve.
Lemma step_Reply u p c b k : evolves R (Reply u p c b k).
Proof.
  unfold Reply, enqueue, EnqueueOutbound, GetOutboundByIdempotencyKey, Enqueue.
  go_evolve; (apply evolves_stmt; [apply _|]); intros t w; unfold stmt_effect.
  - unfold insert_outbound. destruct (existsb _ _); [by destruct w; reflexivity|]. destruct (bool_decide _); [by destruct w; reflexivity|].
    destruct (insert_row _ _ _ _); [apply pf_outbound|by destruct w; reflexivity].
  - destruct (insert_row _ _ _ _); [apply pf_jobs|by destruct w; reflexivity].
Qed.
#[local] Hint Resolve step_Reply : evolve.

Lemma step_failWith r pl a c m : evolves R (failWith r pl a c m).
Proof. unfold failWith, record_outcome. go_evolve. Qed.
#[local] Hint Resolve step_failWith : evolve.
Lemma step_fail r pl a c m : evolves R (fail_receipt r pl a c m).
Proof. unfold fail_receipt, record_outcome. go_evolve. Qed.
#[local] Hint Resolve step_fail : evolve.

Lemma step_prepare job pl : evolves R (phase_prepare job pl).
Proof. unfold phase_prepare, prepareReceipt, prepare_live. go_evolve. Qed.
Lemma step_load_failed pl a e : evolves R (phase_load_failed pl a e).
Proof. unfold phase_load_failed, withLockedReceipt. go_evolve. Qed.
Lemma step_reserve p pl a r : evolves R (reserve_page p pl a r).
Proof. unfold reserve_page. go_evolve. Qed.
Lemma step_arm p pl r a d g c : evolves R (phase_arm p pl r a d g c).
Proof. unfold phase_arm, armExtraction, start_extracting, move_on. go_evolve. all: apply step_reserve. Qed.
Lemma step_finish pl a ans : evolves R (phase_finish pl a ans).
Proof.
  unfold phase_finish, finishExtraction, finish_draft, renderCard, warnPossibleDuplicate, location_or_utc,
    record_outcome. go_evolve.
Qed.
End pipeline.
