(* ===== verification/Pipeline.v ===== *)
(** * Interleaved receipt jobs

    The phases of internal/receipt's [Handle] as steps of a lane, so that the
    jobs of several workers interleave between the sections that hold the user's
    lock.  Shown: a lane run to its end is [Handle]; under every schedule, fault
    and answer, receipts only move along the state machine and the extractor is
    called at most [MonthlyOCRLimit] times per month on a reserved page; a load or
    extraction failure is acknowledged only once it is durable, conflicts and
    database errors outside the acknowledgement policy excepted. *)
From Stdlib Require Import SpecFloat.
From S2P Require Import Prelude GoStrings Domain GoTime Normalise Db Queue Worker StoreOutbound StoreInbound StoreReceipts.
From S2P Require Import StoreTx StoreCatalog Categorisation Templates Fields Notify Objects Processor.

(** Where a job is between two phases. *)
Inductive Lane :=
| LaneJob (job : QueueJob)
| LaneLoad (payload : ReceiptJob) (needFetch : bool) (r : ReceiptDocument) (attempt_ : Z)
| LaneFailed (payload : ReceiptJob) (attempt_ : Z) (err : Err)
| LaneArm (payload : ReceiptJob) (r : ReceiptDocument) (attempt_ : Z) (data digest contentType : string)
| LaneExtract (payload : ReceiptJob) (attempt_ : Z) (period data digest contentType : string)
| LaneFinish (payload : ReceiptJob) (attempt_ : Z) (answer : Res Err ExtractionResult)
| LaneDone (result : Res Err unit).

Section lanes.
Context `{Env} `{TzData} `{FloatText} `{Extractor} `{MediaProvider} `{!Categoriser}.

Definition last_phase (m : Go unit) : Go Lane := let* r := attempt m in ret (LaneDone r).

(** One phase of [Handle]. *)
Definition lane_step (p : Processor) (l : Lane) : Go Lane :=
  match l with
  | LaneJob job =>
      match decode_receipt (job_payload job) with
      | None => ret (LaneDone (Fail (E CodeValidation "decode receipt job" None)))
      | Some payload =>
          let* prep := attempt (phase_prepare job payload) in
          ret (match prep with
               | Fail err => LaneDone (Fail err)
               | Ok PrepNil | Ok PrepSkip => LaneDone (Ok tt)
               | Ok (PrepReady needFetch r a) => LaneLoad payload needFetch r a
               end)
      end
  | LaneLoad payload needFetch r a =>
      let* loaded := attempt (loadImageBytes p needFetch r) in
      ret (match loaded with
           | Fail err => LaneFailed payload a err
           | Ok (data, digest, contentType, r) => LaneArm payload r a data digest contentType
           end)
  | LaneFailed payload a err => last_phase (phase_load_failed payload a err)
  | LaneArm payload r a data digest contentType =>
      let* armed := attempt (phase_arm p payload r a data digest contentType) in
      ret (match armed with
           | Fail err => LaneDone (Fail err)
           | Ok NotArmed => LaneDone (Ok tt)
           | Ok (Reserved period) => LaneExtract payload a period data digest contentType
           | Ok Unreserved => LaneExtract payload a "" data digest contentType
           end)
  | LaneExtract payload a period data digest contentType =>
      let* answer := phase_extract payload period data digest contentType in
      ret (LaneFinish payload a answer)
  | LaneFinish payload a answer => last_phase (phase_finish payload a answer)
  | LaneDone r => ret (LaneDone r)
  end.

Fixpoint run_lane (p : Processor) (n : nat) (l : Lane) : Go Lane :=
  match n with
  | O => ret l
  | S n' => let* l' := lane_step p l in run_lane p n' l'
  end.

Lemma run_lane_done p n r w : run_lane p n (LaneDone r) w = (Ok (LaneDone r), w).
Proof. induction n as [|n IH]; [done|]. exact IH. Qed.

(** A job handled alone is its lane run to the end: five phases suffice,
    and they give [Handle]'s result and final state. *)
Theorem handle_is_lane (p : Processor) (job : QueueJob) (w : World) :
  let r := Processor_Handle p job w in
  run_lane p 5 (LaneJob job) w = (Ok (LaneDone (fst r)), snd r).
Proof.
  cbv zeta. unfold Processor_Handle. cbn [run_lane lane_step].
  destruct (decode_receipt (job_payload job)) as [payload|]; [|done].
  unfold bind, attempt, ret.
  destruct (phase_prepare job payload w) as [[[| |nf r a]|e] w1]; simpl; try done.
  destruct (loadImageBytes p nf r w1) as [[[[[data digest] ct] r']|e] w2]; simpl.
  - destruct (phase_arm p payload r' a data digest ct w2) as [[[|per|]|e] w3]; simpl; try done;
      unfold extract_and_finish, last_phase, bind, attempt, ret; simpl;
      by destruct (phase_finish _ _ _ _) as [[[]|e] w4].
  - unfold last_phase, bind, attempt, ret. by destruct (phase_load_failed _ _ _ _) as [[[]|e'] w3].
Qed.

(** Several lanes under a schedule of lane numbers. *)
Definition lanes_step (p : Processor) (lanes : list Lane) (i : nat) : Go (list Lane) :=
  match lanes !! i with
  | None => ret lanes
  | Some l => let* l' := lane_step p l in ret (<[i := l']> lanes)
  end.
Definition run_schedule (p : Processor) (schedule : list nat) (lanes : list Lane) : Go (list Lane) :=
  for_each schedule (lanes_step p) lanes.

(** ** The state machine *)
#[global] Instance receipts_frame : PipelineFrame (on_db receipts_evolve).
Proof.
  split; [split; [apply _|..]|..]; intros; unfold on_db; simpl.
  - apply receipts_evolve_other. by apply fc_receipts.
  - done.
  - apply receipts_evolve_other. unfold stmt_effect, bump_usage. repeat (case_match; simplify_eq; try done).
  - reflexivity.
  - by apply receipts_evolve_other.
  - by apply receipts_evolve_other.
Qed.

Lemma lane_step_receipts p l : evolves (on_db receipts_evolve) (lane_step p l).
Proof.
  destruct l; simpl; unfold last_phase;
    go_evolve; try (apply step_prepare || apply step_load || apply step_load_failed || apply step_arm || apply step_finish);
    try apply _. intros w. by apply receipts_evolve_other.
Qed.

(** C9: However many receipt jobs interleave, in any order, under any faults
    and any provider or extractor answers: every receipt past registration stays
    in the table, keeps its owner, and its status moves along the declared state
    machine; once its outcome is settled (review, confirmed, failed for good,
    deleted) it stays settled. *)
Theorem pipeline_state_machine (p : Processor) (schedule : list nat) (lanes : list Lane) (w : World)
    (id : uuid) (r : ReceiptDocument)
    (Hr : db_receipts (w_db w) !! id = Some r) (Hpast : rc_status r <> ReceiptReceived) :
  exists r', db_receipts (w_db (snd (run_schedule p schedule lanes w))) !! id = Some r' /\
    rc_user r' = rc_user r /\ rtc receipt_step (rc_status r) (rc_status r') /\
    (settled (rc_status r) = true -> settled (rc_status r') = true).
Proof.
  assert (evolves (on_db receipts_evolve) (run_schedule p schedule lanes)) as Hev.
  { unfold run_schedule. go_evolve. unfold lanes_step. go_evolve. apply lane_step_receipts. }
  destruct (Hev w id r Hr Hpast) as (r' & Hr' & Hu & Hs). exists r'. eauto using settled_rtc.
Qed.
End lanes.

(** ** The monthly OCR cap *)
Definition pages_key (period : string) : UsageKey := ("global", "", period, "ocr_pages").
Definition pages_used (period : string) (d : DB) : Z :=
  match db_usage d !! pages_key period with Some u => use_count u | None => 0 end.
Definition is_extract_in (period : string) (c : Call) : bool :=
  match c with CallExtract _ p => String.eqb p period | _ => false end.
Definition extracts_in (period : string) (w : World) : Z :=
  Z.of_nat (length (List.filter (is_extract_in period) (w_calls w))).
(** Lanes that hold a reserved page of the month. *)
Definition holds_page (period : string) (l : Lane) : bool :=
  match l with LaneExtract _ _ p _ _ _ => String.eqb p period | _ => false end.
Definition pages_held (period : string) (lanes : list Lane) : Z :=
  Z.of_nat (length (List.filter (holds_page period) lanes)).

(** No call is made and the month's counter does not go down. *)
Definition pages_grow (period : string) : relation World := fun w w' =>
  w_calls w' = w_calls w /\ pages_used period (w_db w) <= pages_used period (w_db w').

Section cap.
Context `{Env} `{TzData} `{FloatText} `{Extractor} `{MediaProvider} `{!Categoriser}.
Context (period : string).

Lemma bump_pages key limit now d :
  pages_used period d <= pages_used period (stmt_effect (bump_usage key 1 limit false always) now d) /\
  (forall n d', bump_usage key 1 limit false always now d = Ok (Some n, d') -> key = pages_key period ->
     n = pages_used period d + 1 /\ pages_used period d' = n).
Proof.
  unfold stmt_effect, bump_usage, pages_used, always. split.
  - destruct (db_usage d !! key) as [u|] eqn:Hk; [destruct (_ && _); [|lia]|]; cbn [upd_usage db_usage];
      (destruct (decide (key = pages_key period)) as [->|Hne];
       [rewrite lookup_insert_eq, Hk; simpl; lia|rewrite lookup_insert_ne by done; lia]).
  - intros n d' Hb ->. destruct (db_usage d !! pages_key period) as [u|] eqn:Hk; [destruct (_ && _); [|done]|];
      simplify_eq; cbn [upd_usage db_usage]; rewrite lookup_insert_eq; simpl; lia.
Qed.

Lemma pages_grow_refl w w' : w_calls w' = w_calls w -> db_usage (w_db w') = db_usage (w_db w) -> pages_grow period w w'.
Proof. intros Hc Hu. unfold pages_grow, pages_used. rewrite Hu. split; [done|lia]. Qed.

#[local] Instance pages_grow_preorder : PreOrder (pages_grow period).
Proof.
  split; [intros w; by apply pages_grow_refl|].
  intros w1 w2 w3 [Hc1 Hu1] [Hc2 Hu2]. split; [congruence|lia].
Qed.
#[local] Instance pages_grow_steady : Steady (pages_grow period).
Proof.
  split; [split; [apply _|intros; by apply pages_grow_refl..]|].
  intros w w' [Hc _]. by apply pages_grow_refl.
Qed.
#[local] Instance pages_grow_frame : PipelineFrame (pages_grow period).
Proof.
  split; [split; [apply _|..]|..].
  - intros w d' Hd. apply pages_grow_refl; [done|]. by apply fc_usage.
  - intros w m _. by apply pages_grow_refl.
  - intros w key limit now. split; [done|]. apply bump_pages.
  - intros w o. by apply pages_grow_refl.
  - intros w m. by apply pages_grow_refl.
  - intros w m. by apply pages_grow_refl.
Qed.

(** A successful reservation raises the counter and stays within the cap. *)
Definition reserved (limit : Z) (w w' : World) : Prop :=
  w_calls w' = w_calls w /\ pages_used period (w_db w) + 1 <= pages_used period (w_db w') <= limit.

Lemma reserve_page_reserved p pl a r w w' :
  0 < MonthlyOCRLimit p -> reserve_page p pl a r w = (Ok (Some period), w') -> reserved (MonthlyOCRLimit p) w w'.
Proof.
  intros Hlim. unfold reserve_page. destruct (negb (ExtractionEnabled p)).
  { intros Hrun. inv_runs. done. }
  intros Hrun. apply bind_Ok in Hrun as (now & w0 & Hnow & Hrun).
  unfold clk_Now in Hnow. injection Hnow as <- <-. cbv zeta in Hrun.
  apply bind_Ok in Hrun as (res & w1 & Hinc%attempt_Ok & Hrun).
  destruct res as [count|err]; [|inv_runs; done].
  rewrite (proj2 (Z.ltb_lt 0 _) Hlim) in Hrun. cbn [andb] in Hrun.
  destruct (Z.ltb_spec (MonthlyOCRLimit p) count) as [|Hle]; [inv_runs; done|].
  apply ret_Ok in Hrun as [Hper <-]. injection Hper as Hper. rewrite Hper in Hinc.
  unfold IncrementUsage in Hinc. apply bind_Ok in Hinc as (o & w2 & Hs%wrap_err_Ok & Hinc).
  apply stmt_Ok in Hs as (d & Hb & ->). cbn [scope_ok String.eqb orb] in Hb. cbn in Hb.
  destruct o as [n|]; [|done]. apply ret_Ok in Hinc as [<- <-]. unfold reserved. simpl. split; [done|].
  destruct (proj2 (bump_pages (pages_key period) _ _ _) _ _ Hb eq_refl) as [Hn Hd]. simpl in Hn, Hd. lia.
Qed.

Lemma reserved_after limit w w1 w' : pages_grow period w w1 -> reserved limit w1 w' -> reserved limit w w'.
Proof. intros [Hc Hu] [Hc' Hu']. split; [congruence|lia]. Qed.

(** Whatever [armExtraction] does before it only lets the counter grow. *)
Lemma bind_reserved {A} limit (m : Go A) (k : A -> Go (option string)) w w' :
  evolves (pages_grow period) m ->
  (forall a w1, k a w1 = (Ok (Some period), w') -> reserved limit w1 w') ->
  bind m k w = (Ok (Some period), w') -> reserved limit w w'.
Proof.
  intros Hm Hk (a & w1 & Hrun & Hrest)%bind_Ok. specialize (Hm w). rewrite Hrun in Hm.
  eapply reserved_after; [exact Hm|eauto].
Qed.

Lemma start_extracting_reserved p pl a r w w' : 0 < MonthlyOCRLimit p ->
  start_extracting p pl a r w = (Ok (Some period), w') -> reserved (MonthlyOCRLimit p) w w'.
Proof.
  intros Hlim. unfold start_extracting.
  assert (forall id s t, evolves (pages_grow period) (move_on id s t)) as Hmove.
  { intros. unfold move_on. go_evolve; [by apply (step_TransitionReceipt (pages_grow period))|by apply (step_conflictAsDone (pages_grow period))]. }
  apply bind_reserved; [by destruct (bool_decide _); [apply Hmove|apply evolves_ret; apply _]|].
  intros stored w1. destruct stored; [|by intros [? ?]%ret_Ok]. cbn [negb].
  apply bind_reserved; [apply evolves_attempt; apply (step_reads (pages_grow period))|]. intros latest w2. cbv zeta.
  apply bind_reserved; [by destruct (bool_decide _); [apply Hmove|apply evolves_ret; apply _]|].
  intros ex w3. destruct ex; [|by intros [? ?]%ret_Ok]. cbn [negb].
  destruct (negb _); [done|]. by apply reserve_page_reserved.
Qed.

Lemma armExtraction_reserved p pl r a data digest ct w w' : 0 < MonthlyOCRLimit p ->
  armExtraction p pl r a data digest ct w = (Ok (Some period), w') -> reserved (MonthlyOCRLimit p) w w'.
Proof.
  intros Hlim. unfold armExtraction. apply bind_reserved; [apply evolves_attempt; apply (step_reads (pages_grow period))|].
  intros [rc|err] w1; [|destruct (IsCode _ _); [by intros [? ?]%ret_Ok|done]].
  destruct (receiptTerminal _); [by intros [? ?]%ret_Ok|]. apply bind_reserved.
  { destruct (String.eqb _ _); [apply evolves_ret; apply _|]. go_evolve. apply (step_reads (pages_grow period)). }
  intros dup w2. destruct dup.
  { intros Hrun. inv_runs. done. }
  apply bind_reserved.
  { destruct (_ && _); [|apply evolves_ret; apply _]. cbv zeta. apply evolves_wrap_err. apply (step_SetReceiptStored (pages_grow period)). }
  intros _ w3. by apply start_extracting_reserved.
Qed.

Lemma phase_arm_reserved p pl r a data digest ct w w' : 0 < MonthlyOCRLimit p ->
  phase_arm p pl r a data digest ct w = (Ok (Reserved period), w') -> reserved (MonthlyOCRLimit p) w w'.
Proof.
  intros Hlim. unfold phase_arm, WithUserLock.
  assert (forall w1 w2, (let* res := attempt (armExtraction p pl r a data digest ct) in
      match res with
      | Ok (Some period0) => ret (Reserved period0) | Ok None => ret NotArmed
      | Fail err => ackPolicy (rj_receipt pl) (Fail err) ;;; ret Unreserved
      end) w1 = (Ok (Reserved period), w2) -> reserved (MonthlyOCRLimit p) w1 w2) as Hbody.
  { intros w1 w2 (res & w3 & Harm%attempt_Ok & Hrun)%bind_Ok. destruct res as [[per|]|err].
    - apply ret_Ok in Hrun as [[= ->] <-]. by eapply armExtraction_reserved.
    - by apply ret_Ok in Hrun as [? _].
    - apply bind_Ok in Hrun as (? & ? & _ & [? _]%ret_Ok). done. }
  destruct (UserLockHeld w (rj_user pl)); [apply Hbody|].
  pose proof (evolves_bind (pages_grow period) may_fail _ (evolves_may_fail _) (fun _ =>
    evolves_bind (pages_grow period) may_fail _ (evolves_may_fail _) (fun _ => evolves_may_fail _)) w) as Hl.
  destruct ((may_fail;;; may_fail;;; may_fail) w) as [[[]|e] w1]; [|done].
  match goal with |- (fst ?r, _) = _ -> _ => destruct r as [res w2] eqn:Hr end.
  simpl. intros [= -> <-]. apply Hbody in Hr. exact (reserved_after _ _ _ _ Hl Hr).
Qed.

(** Accounting of one phase. *)
Definition held (l : Lane) : Z := if holds_page period l then 1 else 0.
Definition accounted (limit : Z) (l l' : Lane) (w w' : World) : Prop :=
  exists delta, 0 <= delta <= 1 /\
    extracts_in period w' + held l' <= extracts_in period w + held l + delta /\
    pages_used period (w_db w) + delta <= pages_used period (w_db w') /\
    (delta = 1 -> pages_used period (w_db w') <= limit).

Lemma accounted_grow limit l l' w w' : pages_grow period w w' -> held l' = 0 -> accounted limit l l' w w'.
Proof.
  intros [Hc Hu] Hh. exists 0. unfold extracts_in. rewrite Hc, Hh.
  assert (0 <= held l) by (unfold held; destruct (holds_page _ _); lia). split_and!; lia.
Qed.
Lemma accounted_reserved limit l l' w w' : reserved limit w w' -> held l' = 1 -> accounted limit l l' w w'.
Proof.
  intros [Hc Hu] Hh. exists 1. unfold extracts_in. rewrite Hc, Hh.
  assert (0 <= held l) by (unfold held; destruct (holds_page _ _); lia). split_and!; lia.
Qed.

Lemma lane_step_accounted p l w : 0 < MonthlyOCRLimit p -> period <> "" ->
  exists l' w', lane_step p l w = (Ok l', w') /\ accounted (MonthlyOCRLimit p) l l' w w'.
Proof.
  intros Hlim Hper.
  destruct l as [job|pl nf r a|pl a e|pl r a d g c|pl a per d g c|pl a ans|res]; cbn [lane_step]; unfold last_phase.
  - destruct (decode_receipt _) as [pl|]; [|eexists _, _; split; [done|by apply accounted_grow]].
    pose proof (step_prepare (pages_grow period) job pl w) as Hg. unfold bind, attempt, ret.
    destruct (phase_prepare job pl w) as [[[| |nf r a]|e] w1]; (eexists _, _; split; [done|by apply accounted_grow]).
  - pose proof (step_load (pages_grow period) p nf r w) as Hg. unfold bind, attempt, ret.
    destruct (loadImageBytes p nf r w) as [[[[[d g] c] r']|e] w1]; (eexists _, _; split; [done|by apply accounted_grow]).
  - pose proof (step_load_failed (pages_grow period) pl a e w) as Hg. unfold bind, attempt, ret.
    eexists _, _. split; [done|]. by apply accounted_grow.
  - pose proof (step_arm (pages_grow period) p pl r a d g c w) as Hg. unfold bind, attempt, ret.
    pose proof (phase_arm_reserved p pl r a d g c w) as Hres.
    destruct (phase_arm p pl r a d g c w) as [[[|per|]|e] w1]; simpl; (eexists _, _; split; [done|]);
      try by apply accounted_grow.
    + destruct (String.eqb_spec per period) as [-> |Hne]; [|apply accounted_grow; [done|]; unfold held; simpl;
        by rewrite (proj2 (String.eqb_neq _ _) Hne)].
      apply accounted_reserved; [by apply Hres|]. unfold held. simpl. by rewrite String.eqb_refl.
    + apply accounted_grow; [done|]. unfold held. simpl. by destruct period.
  - eexists _, _. split; [done|]. exists 0. unfold extracts_in, held. simpl.
    rewrite List.filter_app, length_app. simpl. destruct (String.eqb per period); simpl; split_and!; lia.
  - pose proof (step_finish (pages_grow period) pl a ans w) as Hg. unfold bind, attempt, ret.
    eexists _, _. split; [done|]. by apply accounted_grow.
  - eexists _, _. split; [done|]. by apply accounted_grow.
Qed.

Lemma held_insert lanes i l l' : lanes !! i = Some l ->
  pages_held period (<[i := l']> lanes) + held l = pages_held period lanes + held l'.
Proof.
  unfold pages_held, held. revert i. induction lanes as [|x lanes IH]; intros [|i] Hi; [done..| |]; simpl in *.
  - injection Hi as ->. destruct (holds_page period l), (holds_page period l'); simpl; lia.
  - specialize (IH i Hi). destruct (holds_page period x); simpl; lia.
Qed.

Definition within_cap (limit : Z) (lanes : list Lane) (w : World) : Prop :=
  extracts_in period w + pages_held period lanes <= pages_used period (w_db w) /\
  extracts_in period w + pages_held period lanes <= limit.

Lemma schedule_within_cap p sched lanes w : 0 < MonthlyOCRLimit p -> period <> "" ->
  within_cap (MonthlyOCRLimit p) lanes w ->
  exists lanes' w', run_schedule p sched lanes w = (Ok lanes', w') /\ within_cap (MonthlyOCRLimit p) lanes' w'.
Proof.
  intros Hlim Hper. unfold run_schedule. revert lanes w.
  induction sched as [|i sched IH]; intros lanes w Hcap; [by eexists _, _|].
  cbn [for_each]. unfold bind at 1, lanes_step at 1. destruct (lanes !! i) as [l|] eqn:Hi; [|by apply IH].
  destruct (lane_step_accounted p l w Hlim Hper) as (l' & w' & Hstep & delta & Hd & He & Hu & Hl).
  unfold bind at 1. rewrite Hstep. apply IH. pose proof (held_insert lanes i l l' Hi) as Hh.
  destruct Hcap as [Hc1 Hc2]. unfold within_cap. destruct (decide (delta = 1)) as [->|]; [specialize (Hl eq_refl)|]; lia.
Qed.
End cap.

Section cap_theorem.
Context `{Env} `{TzData} `{FloatText} `{Extractor} `{MediaProvider} `{!Categoriser}.

(** C1: The monthly OCR budget holds across workers.  However receipt jobs
    interleave, and whatever faults strike (a counter update whose reply is lost
    included), the extraction calls made on a page reserved in a month never
    exceed [MonthlyOCRLimit]: with no call made and no page held at the start,
    calls made plus pages held stay within the limit. *)
Theorem ocr_cap (p : Processor) (period : string) (schedule : list nat) (jobs : list QueueJob) (w : World)
    (Hlimit : 0 < MonthlyOCRLimit p) (Hperiod : period <> "")
    (Hstart : extracts_in period w <= pages_used period (w_db w)) (Hcap : extracts_in period w <= MonthlyOCRLimit p) :
  exists lanes w', run_schedule p schedule (LaneJob <$> jobs) w = (Ok lanes, w') /\
    extracts_in period w' + pages_held period lanes <= MonthlyOCRLimit p.
Proof.
  assert (pages_held period (LaneJob <$> jobs) = 0) as Hz.
  { unfold pages_held. by induction jobs. }
  destruct (schedule_within_cap period p schedule (LaneJob <$> jobs) w Hlimit Hperiod) as (lanes & w' & Hrun & _ & Hle).
  { unfold within_cap. rewrite Hz. lia. }
  eauto.
Qed.
End cap_theorem.

(** ** A permanent failure is acknowledged only when it is durable *)
Definition terminal_in (d : DB) (id : uuid) : Prop :=
  exists r, db_receipts d !! id = Some r /\ receiptTerminal (rc_status r) = true.
Definition receipts_keyed (d : DB) : Prop := forall id r, db_receipts d !! id = Some r -> rc_id r = id.

Section durable.
Context `{Env} `{TzData} `{FloatText} `{Extractor} `{MediaProvider} `{!Categoriser}.

Lemma terminal_settled s : receiptTerminal s = settled s.
Proof. by destruct s. Qed.

Lemma terminal_evolves d d' id : receipts_evolve d d' -> terminal_in d id -> terminal_in d' id.
Proof.
  intros He (r & Hr & Ht). rewrite terminal_settled in Ht.
  destruct (He id r Hr) as (r' & Hr' & _ & Hs); [by intros Hq; rewrite Hq in Ht|].
  exists r'. rewrite terminal_settled. eauto using settled_rtc.
Qed.

Lemma terminal_after {A} (m : Go A) w r w' id :
  evolves (on_db receipts_evolve) m -> m w = (r, w') -> terminal_in (w_db w) id -> terminal_in (w_db w') id.
Proof. intros Hm Hrun. specialize (Hm w). rewrite Hrun in Hm. by apply terminal_evolves. Qed.

Lemma GetReceipt_Ok id w r w' :
  GetReceipt id w = (Ok r, w') -> db_receipts (w_db w) !! id = Some r /\ w' = tick w.
Proof.
  unfold GetReceipt. intros (o & w1 & Hq & Hrun)%bind_Ok. apply wrap_err_Ok, query_Ok in Hq as [-> ->].
  destruct (_ !! id) eqn:Hl; [|done]. by apply ret_Ok in Hrun as [-> <-].
Qed.
Lemma GetReceipt_missing id w e w' :
  GetReceipt id w = (Fail e, w') -> IsCode e CodeNotFound = true -> db_receipts (w_db w) !! id = None.
Proof.
  unfold GetReceipt. sql_unfold. destruct (fault _) as [f|].
  - intros [= <- <-]. by rewrite internalErr_not.
  - simpl. by destruct (_ !! id).
Qed.

Lemma TransitionReceipt_Ok id from to w w' : TransitionReceipt id from to w = (Ok tt, w') ->
  exists r, db_receipts (w_db w') !! id = Some r /\ rc_status r = to.
Proof.
  unfold TransitionReceipt. destruct (negb _); [done|]. intros (n & w1 & Hq & Hrun)%bind_Ok.
  apply wrap_err_Ok, dml_Ok in Hq as [Hq _]. destruct (Z.eqb_spec n 0) as [|Hn]; [done|].
  apply ret_Ok in Hrun as [_ <-]. unfold update_receipt in Hq.
  injection Hq as <- Hdb. apply update_row_hit in Hn as (r & Hr & _ & Hrow). rewrite <- Hdb, Hrow. simpl.
  exists (moved (now_sql w) to r). split; [apply lookup_insert_eq|done].
Qed.

Lemma failWith_durable r pl a c m w w' :
  failWith r pl a c m w = (Ok tt, w') -> terminal_in (w_db w') (rc_id r).
Proof.
  unfold failWith. intros (res & w1 & Hmove%attempt_Ok & Hrun)%bind_Ok.
  apply bind_Ok in Hrun as (u & w2 & Hmid & Hrun).
  assert (terminal_in (w_db w2) (rc_id r)) as Hterm.
  { destruct res as [[]|err].
    - apply ret_Ok in Hmid as [_ <-]. apply TransitionReceipt_Ok in Hmove as (x & Hx & Hs).
      exists x. rewrite Hs. done.
    - destruct (_ && _); [done|]. apply bind_Ok in Hmid as (g & w3 & Hg%attempt_Ok & Hmid).
      destruct g as [l|]; [|done]. destruct (receiptTerminal (rc_status l)) eqn:Ht; [|done].
      apply ret_Ok in Hmid as [_ <-]. apply GetReceipt_Ok in Hg as [Hl ->]. exists l. done. }
  revert Hterm. eapply (terminal_after _ w2); [|exact Hrun].
  unfold record_outcome.
  go_evolve; [apply (step_RecordAttempt (on_db receipts_evolve))|apply (step_Reply (on_db receipts_evolve))].
Qed.

Lemma fail_durable r pl a e m w w' :
  fail_receipt r pl a e m w = (Ok tt, w') -> terminal_in (w_db w') (rc_id r).
Proof.
  unfold fail_receipt. destruct (Retryable e); [|apply failWith_durable].
  intros (? & ? & _ & Hrun)%bind_Ok. apply bind_Ok in Hrun as (? & ? & _ & Hrun). done.
Qed.

Lemma ackPolicy_durable id res w res' w' : ackPolicy id res w = (res', w') -> retry_asked res' = false ->
  (res = Ok tt /\ w' = w /\ res' = Ok tt) \/ terminal_in (w_db w') id.
Proof.
  unfold ackPolicy. destruct res as [[]|e]; [intros [= <- <-]; by left|].
  destruct (Retryable e) eqn:He; [intros [= <- <-]; simpl; congruence|].
  unfold bind at 1, attempt at 1. destruct (GetReceipt id w) as [[r|g] w1] eqn:Hg; simpl;
    [|intros [= <- <-]; unfold retry_asked, Retryable; by rewrite bool_decide_eq_true_2 by done].
  destruct (receiptTerminal (rc_status r)) eqn:Ht; intros [= <- <-];
    [|unfold retry_asked, Retryable; by rewrite bool_decide_eq_true_2 by done].
  intros _. right. apply GetReceipt_Ok in Hg as [Hr ->]. by exists r.
Qed.

(** A database error that reached the worker without becoming a retry: it struck
    while the user's lock was taken, or while the receipt was looked up outside
    [ackPolicy]. *)
Definition database_error (e : Err) : Prop :=
  exists n f, fault n = Some f /\
    (e = Driver (flt_err f) \/ e = internalErr "GetReceipt" (Driver (flt_err f)) /\ CodeOf e = CodeInternal).

Lemma may_fail_cases w : may_fail w = (Ok tt, tick w) \/
  exists f, fault (w_tick w) = Some f /\ may_fail w = (Fail (Driver (flt_err f)), tick w).
Proof. unfold may_fail. destruct (fault _) as [f|]; eauto. Qed.

Lemma WithUserLock_result {A} u (fn : Go A) w res w' : WithUserLock u fn w = (res, w') ->
  (exists w1 w2, w_db w1 = w_db w /\ fn w1 = (res, w2) /\ w_db w' = w_db w2) \/
  (exists e, res = Fail e /\ database_error e /\ w_db w' = w_db w).
Proof.
  unfold WithUserLock. destruct (UserLockHeld w u); [by left; eauto|].
  unfold bind. destruct (may_fail_cases w) as [->|(f & Hf & ->)];
    [|intros [= <- <-]; right; eexists; split_and!; [done|by exists (w_tick w), f; auto|done]].
  destruct (may_fail_cases (tick w)) as [->|(f & Hf & ->)];
    [|intros [= <- <-]; right; eexists; split_and!; [done|by exists (w_tick (tick w)), f; auto|done]].
  destruct (may_fail_cases (tick (tick w))) as [->|(f & Hf & ->)];
    [|intros [= <- <-]; right; eexists; split_and!; [done|by exists (w_tick (tick (tick w))), f; auto|done]].
  intros [= <- <-]. left. exists (set_held (Some u) (tick (tick (tick w)))).
  destruct (fn _) as [r w2]. by exists w2.
Qed.

Lemma GetReceipt_Fail id w e w' : GetReceipt id w = (Fail e, w') -> w_db w' = w_db w /\
  (db_receipts (w_db w) !! id = None /\ IsCode e CodeNotFound = true \/
   IsCode e CodeNotFound = false /\ exists n f, fault n = Some f /\ e = internalErr "GetReceipt" (Driver (flt_err f))).
Proof.
  unfold GetReceipt. sql_unfold. destruct (fault (w_tick w)) as [f|] eqn:Hf.
  - intros [= <- <-]. split; [simpl; by destruct (flt_applied f)|]. right. rewrite internalErr_not by done.
    split; [done|]. by exists (w_tick w), f.
  - simpl. destruct (_ !! id) eqn:Hr; [done|]. intros [= <- <-]. by split; [|left].
Qed.

Lemma attempt_bind {A B} (m : Go A) (k : Res Err A -> Go B) w :
  (let* r := attempt m in k r) w = k (fst (m w)) (snd (m w)).
Proof. unfold bind, attempt. by destruct (m w). Qed.

(** A handler of a loaded receipt whose success is durable, under the policy. *)
Lemma policy_durable id (m : Go unit) w res w' :
  (forall w2, m w = (Ok tt, w2) -> terminal_in (w_db w2) id) ->
  (let* r := attempt m in ackPolicy id r) w = (res, w') -> retry_asked res = false -> terminal_in (w_db w') id.
Proof.
  intros Hm Hrun Hack. rewrite attempt_bind in Hrun. destruct (m w) as [r w2]. simpl in Hrun.
  destruct (ackPolicy_durable _ _ _ _ _ Hrun Hack) as [(-> & -> & _)|?]; [by apply Hm|done].
Qed.

Lemma finish_durable pl a err w res w' : receipts_keyed (w_db w) ->
  (let* r := attempt (finishExtraction pl a (Fail err)) in ackPolicy (rj_receipt pl) r) w = (res, w') ->
  retry_asked res = false ->
  db_receipts (w_db w) !! rj_receipt pl = None \/ terminal_in (w_db w') (rj_receipt pl).
Proof.
  intros Hkeyed Hrun Hack. destruct (db_receipts (w_db w) !! rj_receipt pl) as [r0|] eqn:Hr0; [right|by left].
  eapply policy_durable; [|exact Hrun|done]. intros w2. unfold finishExtraction. rewrite attempt_bind.
  destruct (GetReceipt (rj_receipt pl) w) as [[r|e] w3] eqn:Hg; simpl.
  - apply GetReceipt_Ok in Hg as [Hr ->]. rewrite <- (Hkeyed _ _ Hr). destruct (receiptTerminal (rc_status r)) eqn:Ht.
    + intros [= <-]. exists r. simpl. by rewrite (Hkeyed _ _ Hr).
    + destruct (IsCode err CodeUnsupported); [apply failWith_durable|apply fail_durable].
  - apply GetReceipt_Fail in Hg as (_ & [[Hn _]|(-> & _)]); [congruence|done].
Qed.

Lemma load_failed_durable pl a err w res w' : receipts_keyed (w_db w) ->
  phase_load_failed pl a err w = (res, w') -> retry_asked res = false ->
  db_receipts (w_db w) !! rj_receipt pl = None \/ terminal_in (w_db w') (rj_receipt pl) \/
  (IsCode err CodeConflict = true /\ res = Ok tt /\ w_db w' = w_db w) \/
  (exists e, res = Fail e /\ database_error e /\ w_db w' = w_db w).
Proof.
  intros Hkeyed Hrun Hack. apply WithUserLock_result in Hrun as [(w1 & w2 & Hd & Hrun & Hd')|]; [|by do 3 right].
  rewrite <- Hd in *. rewrite Hd'. rewrite attempt_bind in Hrun.
  destruct (GetReceipt (rj_receipt pl) w1) as [[r|e] w3] eqn:Hg; simpl in Hrun.
  - apply GetReceipt_Ok in Hg as [Hr ->]. destruct (IsCode err CodeConflict) eqn:Hc.
    + rewrite attempt_bind in Hrun. unfold conflictAsDone in Hrun. rewrite Hc in Hrun. simpl in Hrun.
      injection Hrun as <- <-. by do 2 right; left.
    + right; left. eapply policy_durable; [|exact Hrun|done]. intros w4. rewrite <- (Hkeyed _ _ Hr).
      destruct (_ && _); [apply failWith_durable|apply fail_durable].
  - apply GetReceipt_Fail in Hg as (Hw3 & [[Hn _]|(Hc & n & f & Hf & ->)]); [by left|].
    rewrite Hc in Hrun. injection Hrun as <- <-. do 3 right. eexists. split_and!; [done| |done].
    exists n, f. split; [done|]. right. split; [done|]. simpl in Hack. unfold Retryable in Hack.
    destruct (internalErr_code "GetReceipt" (Driver (flt_err f))) as [Ht|]; [|done].
    by rewrite bool_decide_eq_true_2 in Hack.
Qed.

(** C10: Acknowledged failures are durable, but for two cases that are named.  When
    the image cannot be loaded or the extractor reports a failure, and the handler's
    answer makes the worker acknowledge the job (success, or any error that is not
    retryable), then the receipt no longer exists, or its terminal outcome is in the
    table, or the load failed with a conflict, which is taken as another lane's
    progress and changes nothing, or a database error struck while the user's lock
    was taken or the receipt looked up: then nothing was changed either, and the job
    is lost with the receipt where it was. *)
Theorem acked_failure_durable (pl : ReceiptJob) (a : Z) (err : Err) (w : World) (res : Res Err unit) (w' : World)
    (Hkeyed : receipts_keyed (w_db w))
    (Hrun : phase_load_failed pl a err w = (res, w') \/ phase_finish pl a (Fail err) w = (res, w'))
    (Hack : retry_asked res = false) :
  db_receipts (w_db w) !! rj_receipt pl = None \/
  terminal_in (w_db w') (rj_receipt pl) \/
  (IsCode err CodeConflict = true /\ phase_load_failed pl a err w = (Ok tt, w') /\ w_db w' = w_db w) \/
  (exists e, res = Fail e /\ database_error e /\ w_db w' = w_db w).
Proof.
  destruct Hrun as [Hrun|Hrun].
  - pose proof Hrun as Hphase. apply load_failed_durable in Hphase as [?|[?|[(? & -> & ?)|?]]]; eauto 8.
  - apply WithUserLock_result in Hrun as [(w1 & w2 & Hd & Hrun & Hd')|]; [|by do 3 right].
    rewrite <- Hd in *. rewrite Hd'. apply finish_durable in Hrun; tauto.
Qed.
End durable.

(** ** Concrete runs *)
Module PipelineDemo.
Definition env (faults : nat -> option Fault) : Env := demo_env faults (fun n => Z.of_nat n * Second).
Definition tz : TzData := {| LoadLocation := fun _ => None |}.
Definition floats : FloatText := {| float_text := fun _ => "" |}.
Definition result : ExtractionResult :=
  mkResult (mkInfo "mock-corpus" "v1")
    (list_to_map [("merchant", mkValue "Highlands" (AnyString "highlands") f64_0_9);
                  ("total_minor", mkValue "45.000" (AnyInt64 45000) f64_0_95);
                  ("currency", mkValue "VND" (AnyString "VND") f64_0_95)]) [] [].
Definition extractor (answer : Res Err ExtractionResult) : Extractor :=
  {| extractor_Name := "mock-corpus"; extractor_Version := "v1"; extractor_Extract := fun _ _ _ _ _ => answer |}.
Definition media : MediaProvider :=
  {| provider_ParseWebhook := fun raw => Ok [mkEvent "zalo_bot" "u" "chat" "m" "image" "" [mkMedia "zalo_bot" "url" "" ""]
                                               0 "" raw 0];
     provider_DownloadMedia := fun _ _ => Ok (mkReader "MOCK-FIXTURE:coopmart-clean" None) |}.
Definition user : User := mkUser 1 UserActive "UTC" "VND" "vi-VN" "consent-v1" (Some 0) 0 0 None.
Definition message : ProviderMessage :=
  mkPM 2 "zalo_bot" "chat" "m" (Some 1%N) "image" "" "{}" 0 None None None MessageReceived.
Definition receipt : ReceiptDocument :=
  mkReceipt 3 1 (Some 2%N) "" "" "" 0 "" "" ReceiptQueued "originals_30d" None 0 0 None.
Definition db : DB :=
  upd_users (fun _ => {[ 1%N := user ]}) (upd_msgs (fun _ => {[ 2%N := message ]})
    (upd_receipts (fun _ => {[ 3%N := receipt ]}) empty_db)).
Definition payload : ReceiptJob := mkReceiptJob 7 3 1 "zalo_bot" "chat" "m" 1 0.
Definition job : QueueJob := mkJob 7 JobReceiptProcess (PayReceipt payload) None JobRunning 1 5 0 0 (Some 9%N) "" 0 0.
Definition limited (enabled : bool) : Processor := mkProcessor enabled 80 10485760.

Definition handle (faults : nat -> option Fault) (answer : Res Err ExtractionResult) (enabled : bool) (w : World) :
    Res Err unit * World :=
  @Processor_Handle (env faults) tz floats (extractor answer) media (@service_categoriser (env faults)) (limited enabled) job w.
Definition status_after (r : Res Err unit * World) : option ReceiptStatus := rc_status <$> db_receipts (w_db (snd r)) !! 3%N.

(** The good case: one paid call, the receipt under review, one card queued. *)
Example demo_review :
  let r := handle no_faults (Ok result) true (world_of db) in
  fst r = Ok tt /\ status_after r = Some ReceiptReviewRequired /\ w_calls (snd r) = [CallExtract 3 "1970-01"] /\
  (ob_key <$> rows (db_outbound (w_db (snd r)))) = ["card:1039:v1"].
Proof. vm_compute. split_and!; reflexivity. Qed.

(** One fault, at a given tick. *)
Definition fault_at (k : nat) (e : DriverErr) (n : nat) : option Fault :=
  if Nat.eqb n k then Some (mkFault e false) else None.
Definition other_error : DriverErr := mkDriverErr OtherDriver "disk full".
Definition net_error : DriverErr := mkDriverErr NetOpError "connection reset by peer".

(** With the kill switch on, an extraction call is still made when queueing the
    notice fails with a non-retryable error: [ackPolicy] answers nil for the
    terminal receipt, [prep.skip] keeps its initial false, and [Handle] goes on to
    call the extractor without a reserved page. *)
Theorem kill_switch_bypass :
  let r := handle (fault_at 22 other_error) (Ok result) false (world_of db) in
  fst r = Ok tt /\ status_after r = Some ReceiptFailedPermanent /\ w_calls (snd r) = [CallExtract 3 ""].
Proof. vm_compute. split_and!; reflexivity. Qed.

(** A dropped connection at the start of the draft's transaction, which every
    other statement reports as transient, fails the receipt for good: [WithTx]
    returns the begin error unclassified. *)
Theorem begin_error_is_permanent :
  let r := handle (fault_at 46 net_error) (Ok result) true (world_of db) in
  fst r = Ok tt /\ status_after r = Some ReceiptFailedPermanent /\
  isTransientNetError (Driver net_error) = true.
Proof. vm_compute. split_and!; reflexivity. Qed.

(** A lost connection while taking the user's lock is returned unclassified, so
    the worker acknowledges the job while the receipt is still downloading. *)
Theorem lock_error_not_retried :
  let r := handle (fault_at 10 net_error) (Ok result) true (world_of db) in
  match fst r with Fail e => Retryable e = false | Ok _ => False end /\
  status_after r = Some ReceiptDownloading.
Proof. vm_compute. split_and!; reflexivity. Qed.

(** The confirmation card is lost when its outbox insert fails transiently: the
    receipt is already under review, so the retried job skips it. *)
Theorem lost_card_not_retried :
  let r := handle (fault_at 63 net_error) (Ok result) true (world_of db) in
  let r' := handle no_faults (Ok result) true (snd r) in
  match fst r with Fail e => Retryable e = true | Ok _ => False end /\
  fst r' = Ok tt /\ status_after r' = Some ReceiptReviewRequired /\ rows (db_outbound (w_db (snd r'))) = [].
Proof. vm_compute. split_and!; reflexivity. Qed.

Definition schedule : list nat := [0; 1; 0; 0; 1; 1; 0; 0; 1; 1]%nat.
Definition run : Res Err (list Lane) * World :=
  @run_schedule (env no_faults) tz floats (extractor (Ok result)) media (@service_categoriser (env no_faults)) (limited true)
    schedule (LaneJob <$> [job; job]) (world_of db).

Lemma pipeline_state_machine_witness :
  db_receipts db !! 3%N = Some receipt /\
  exists r', db_receipts (w_db (snd run)) !! 3%N = Some r' /\ rtc receipt_step ReceiptQueued (rc_status r').
Proof.
  split; [reflexivity|].
  destruct (@pipeline_state_machine (env no_faults) tz floats (extractor (Ok result)) media
    (@service_categoriser (env no_faults)) (limited true) schedule (LaneJob <$> [job; job]) (world_of db) 3%N receipt
    eq_refl ltac:(discriminate)) as (r' & Hr' & _ & Hs & _).
  exists r'. split; [exact Hr'|exact Hs].
Defined.

Lemma ocr_cap_witness :
  exists lanes w', run = (Ok lanes, w') /\ extracts_in "1970-01" w' + pages_held "1970-01" lanes <= 80.
Proof.
  apply (@ocr_cap (env no_faults) tz floats (extractor (Ok result)) media (@service_categoriser (env no_faults))
    (limited true) "1970-01" schedule [job; job] (world_of db)); vm_compute; congruence.
Defined.

Definition blurred : Err := E CodeUnsupported "not a receipt" None.
Definition db_extracting : DB := upd_receipts (fun _ => {[ 3%N := set_status ReceiptExtracting receipt ]}) db.
Lemma acked_failure_durable_witness :
  terminal_in (w_db (snd (@phase_finish (env no_faults) tz floats (extractor (Ok result)) 
    (@service_categoriser (env no_faults)) payload 1 (Fail blurred) (world_of db_extracting)))) 3.
Proof.
  destruct (@acked_failure_durable (env no_faults) tz floats (extractor (Ok result)) 
    (@service_categoriser (env no_faults)) payload 1 blurred (world_of db_extracting) (Ok tt)
    (snd (@phase_finish (env no_faults) tz floats (extractor (Ok result)) 
      (@service_categoriser (env no_faults)) payload 1 (Fail blurred) (world_of db_extracting)))) as [Hn|Ht].
  - intros id r. simpl. rewrite lookup_singleton_Some. intros [<- <-]. reflexivity.
  - right. vm_compute. reflexivity.
  - reflexivity.
  - discriminate Hn.
  - destruct Ht as [Ht|[(Hc & _)|(e & He & _)]]; [exact Ht|discriminate Hc|discriminate He].
Defined.
End PipelineDemo.
