(* ===== verification/Sweeper.v ===== *)
(** * Retention sweep

    internal/receipt/sweeper.go: deletes receipt originals whose retention
    deadline has passed.  Shown: a sweep touches only receipts that are due and
    the objects they name, and without faults a batch leaves none of its
    receipts with a stored original. *)
From stdpp Require Import pretty.
From S2P Require Import Prelude GoStrings Domain GoTime Db Queue StoreInbound StoreReceipts Objects.

Record Sweeper := mkSweeper { BatchSize : Z }.

(** [now.UTC().Format("20060102150405.000000000")] *)
Definition Format_nanos (t : Time) : string :=
  let c := civil_from_days (day_of (unix_sec t)) in
  let s := sec_of_day (unix_sec t) in
  zero_pad 4 (Sprintd c.1.1) ++ zero_pad 2 (Sprintd c.1.2) ++ zero_pad 2 (Sprintd c.2) ++
  zero_pad 2 (Sprintd (s / 3600)) ++ zero_pad 2 (Sprintd (s / 60 mod 60)) ++ zero_pad 2 (Sprintd (s mod 60)) ++
  "." ++ zero_pad 9 (Sprintd (t mod Second)).

Section sweeper.
Context `{Env}.

(** [EnqueueSweep] *)
Definition EnqueueSweep (dedupeSuffix : string) : Go unit :=
  let* now := clk_Now in
  let dedupe := if String.eqb dedupeSuffix "" then "retention:chain:" ++ Format_nanos now
                else "retention:" ++ dedupeSuffix in
  Enqueue JobRetentionSweep (PaySweep now) (Some dedupe) 3 ;;; ret tt.

(** The loop body: how many receipts it finished, 0 or 1. *)
Definition in_progress (s : ReceiptStatus) : bool :=
  match s with
  | ReceiptQueued | ReceiptStored | ReceiptDownloading | ReceiptExtracting | ReceiptFailedTransient
  | ReceiptReceived => true
  | _ => false
  end.
Definition clear_key (id : uuid) : Go Z :=
  let* res := attempt (ClearReceiptStorageKey id) in ret (if is_ok res then 1 else 0).
Definition sweep_receipt (r : ReceiptDocument) : Go Z :=
  if in_progress (rc_status r) then ret 0
  else
    let* removed := (if String.eqb (rc_storage_key r) "" then ret true
                     else let* res := attempt (objects_Delete (rc_storage_key r)) in ret (is_ok res)) in
    if negb removed then ret 0
    else if bool_decide (rc_deleted_at r <> None) || bool_decide (rc_status r = ReceiptDeleted) then clear_key (rc_id r)
    else
      let* res := attempt (TransitionReceipt (rc_id r) (rc_status r) ReceiptDeleted) in
      if is_ok res then clear_key (rc_id r) else ret 0.
Definition sweep_next (deleted : Z) (r : ReceiptDocument) : Go Z :=
  let* n := sweep_receipt r in ret (deleted + n).
Definition sweep_batch (pending : list ReceiptDocument) : Go Z := for_each pending sweep_next 0.

(** The listed receipts: one batch, and a follow-up job when more are due. *)
Definition sweep_listed (s : Sweeper) (pending : list ReceiptDocument) : Go unit :=
  let backlog := BatchSize s <? Z.of_nat (length pending) in
  let pending := if backlog then firstn (Z.to_nat (BatchSize s)) pending else pending in
  sweep_batch pending ;;;
  if backlog then
    let* res := attempt (EnqueueSweep "") in
    match res with
    | Ok _ => ret tt
    | Fail (Sentinel m) =>
        if String.eqb m "queue: duplicate dedupe key" then ret tt
        else fail (E CodeTransient "chain retention sweep" (Some (Sentinel m)))
    | Fail e => fail (E CodeTransient "chain retention sweep" (Some e))
    end
  else ret tt.

(** [Handle]; a payload of any known schema decodes. *)
Definition sweep_body (s : Sweeper) : Go unit :=
  let* now := clk_Now in
  wrap_err (fun e => E CodeTransient "delete expired provider message tombstones" (Some e))
    (DeleteExpiredProviderMessageTombstones now) ;;;
  let* now := clk_Now in
  let* pending := wrap_err (fun e => E CodeTransient "list receipts pending deletion" (Some e))
                    (ListReceiptsPendingDeletion now) in
  sweep_listed s pending.
Definition Sweeper_Handle (s : Sweeper) (job : QueueJob) : Go unit :=
  match job_payload job with
  | PayOther _ => fail (E CodeValidation "decode retention job" None)
  | _ => sweep_body s
  end.
End sweeper.

(** ** A sweep touches only what is due *)
Definition spares (ids : list uuid) (keys : list string) : relation World := fun w w' =>
  (forall id, id ∉ ids -> db_receipts (w_db w') !! id = db_receipts (w_db w) !! id) /\
  (forall k, k ∉ keys -> w_objects w' !! k = w_objects w !! k) /\
  db_txs (w_db w') = db_txs (w_db w) /\ db_fields (w_db w') = db_fields (w_db w).

#[global] Instance spares_quiet ids keys : Quiet (spares ids keys).
Proof.
  split; [split|..]; unfold spares; [by intros w| |by intros..].
  intros w1 w2 w3 (H1 & H2 & H3 & H4) (K1 & K2 & K3 & K4). split_and!; try congruence.
  - intros id Hid. rewrite K1, H1; done.
  - intros k Hk. rewrite K2, H2; done.
Qed.

Section sweep_safety.
Context `{Env} (ids : list uuid) (keys : list string).
Abbreviation spared := (evolves (spares ids keys)).

Lemma spared_update id cond f : id ∈ ids -> spared (dml (fun t => update_receipt id cond (f t))).
Proof.
  intros Hin. apply evolves_dml; [apply _|]. intros t w. split_and!; try done. intros id' Hid. simpl.
  rewrite update_row_lookup. rewrite bool_decide_eq_false_2; [done|]. by intros ->.
Qed.

Lemma spared_sweep r : rc_id r ∈ ids -> rc_storage_key r ∈ keys -> spared (sweep_receipt r).
Proof.
  intros Hid Hkey. unfold sweep_receipt, clear_key, ClearReceiptStorageKey, TransitionReceipt, objects_Delete. 
  go_evolve; try (by apply spared_update).
  all: intros w; unfold object_effect; destruct (fault _) as [[e [|]]|]; simpl; split_and!; try done;
    intros k Hk; simpl; rewrite ?lookup_delete_ne by (by intros <-); done.
Qed.
End sweep_safety.

Section sweep_theorems.
Context `{Env}.

Lemma spared_tombstones ids keys now : evolves (spares ids keys) (DeleteExpiredProviderMessageTombstones now).
Proof.
  unfold DeleteExpiredProviderMessageTombstones. go_evolve. apply evolves_stmt; [apply _|]. intros t w.
  unfold stmt_effect, delete_msgs. by destruct (existsb _ _).
Qed.

Lemma spared_EnqueueSweep ids keys s : evolves (spares ids keys) (EnqueueSweep s).
Proof.
  unfold EnqueueSweep, Enqueue. go_evolve. apply evolves_stmt; [apply _|]. intros t w.
  unfold stmt_effect. by destruct (insert_row _ _ _ _).
Qed.

Lemma spared_listing ids keys t : evolves (spares ids keys) (ListReceiptsPendingDeletion t).
Proof. unfold ListReceiptsPendingDeletion. go_evolve. Qed.

(** The receipts due at a time, in the tables of [w]. *)
Definition due (now : Time) (d : DB) : list ReceiptDocument := select (pending_deletion now) (db_receipts d).

Lemma spared_batch ids keys (l : list ReceiptDocument) n :
  (forall r, r ∈ l -> rc_id r ∈ ids /\ rc_storage_key r ∈ keys) -> evolves (spares ids keys) (for_each l sweep_next n).
Proof.
  intros Hl. apply evolves_for_each_in; [apply _|]. intros b r Hr. unfold sweep_next. go_evolve.
  by apply spared_sweep; apply Hl.
Qed.

Lemma spared_listed ids keys s (l : list ReceiptDocument) :
  (forall r, r ∈ l -> rc_id r ∈ ids /\ rc_storage_key r ∈ keys) -> evolves (spares ids keys) (sweep_listed s l).
Proof.
  intros Hl. unfold sweep_listed, sweep_batch. apply evolves_bind; [apply _|..].
  - apply spared_batch. destruct (_ <? _); [|done]. intros r (i & Hr%list_elem_of_lookup_2 & _)%elem_of_take. by apply Hl.
  - intros n. go_evolve. apply spared_EnqueueSweep.
Qed.

Lemma tombstones_world now w :
  let w' := snd (DeleteExpiredProviderMessageTombstones now w) in
  db_receipts (w_db w') = db_receipts (w_db w) /\ w_tick w' = S (w_tick w).
Proof.
  unfold DeleteExpiredProviderMessageTombstones, delete_msgs. sql_unfold.
  destruct (fault _) as [[e [|]]|]; simpl; [|done|]; by destruct (existsb _ _).
Qed.

(** What the schema says is due: the deadline of a finished, undeleted receipt
    has passed, or a deleted one still has a stored original. *)
Definition is_due (now : Time) (r : ReceiptDocument) : Prop :=
  ((exists t, rc_delete_after r = Some t /\ t < now) /\ rc_deleted_at r = None /\
   (rc_status r = ReceiptConfirmed \/ rc_status r = ReceiptFailedPermanent \/ rc_status r = ReceiptReviewRequired)) \/
  (rc_deleted_at r <> None /\ rc_storage_key r <> "").

Lemma pending_deletion_spec now r : pending_deletion now r = true <-> is_due now r.
Proof.
  assert (match rc_delete_after r with Some t => t <? now | None => false end = true <->
    exists t, rc_delete_after r = Some t /\ t < now) as Ht.
  { destruct (rc_delete_after r) as [t|]; [rewrite Z.ltb_lt; split; [by eauto|by intros (? & [= <-] & ?)]|].
    split; [done|by intros (? & ? & _)]. }
  unfold pending_deletion, is_due. rewrite orb_true_iff, !andb_true_iff, Ht, !orb_true_iff, !bool_decide_eq_true,
    negb_true_iff, String.eqb_neq. tauto.
Qed.

Lemma sweep_spares (s : Sweeper) (job : QueueJob) (w : World) :
  let now := clk_now (S (S (w_tick w))) in
  spares (rc_id <$> due now (w_db w)) (rc_storage_key <$> due now (w_db w)) w (snd (Sweeper_Handle s job w)).
Proof.
  cbv zeta.
  set (now := clk_now (S (S (w_tick w)))).
  set (ids := rc_id <$> due now (w_db w)). set (keys := rc_storage_key <$> due now (w_db w)).
  enough (spares ids keys w (snd (sweep_body s w))) as Hb by (unfold Sweeper_Handle; by destruct (job_payload job)).
  unfold sweep_body. unfold bind at 1, clk_Now at 1. etrans; [apply (quiet_tick w)|].
  destruct (tombstones_world (clk_now (w_tick w)) (tick w)) as [Hrec Htick].
  pose proof (spared_tombstones ids keys (clk_now (w_tick w)) (tick w)) as Hsp.
  unfold bind at 1, wrap_err at 1.
  destruct (DeleteExpiredProviderMessageTombstones (clk_now (w_tick w)) (tick w)) as [[n|e] w2]; simpl in *; [|done].
  etrans; [exact Hsp|]. unfold bind at 1, clk_Now at 1. rewrite Htick. fold now.
  etrans; [apply (quiet_tick w2)|]. unfold bind at 1, wrap_err at 1.
  destruct (ListReceiptsPendingDeletion now (tick w2)) as [[l|e] w3] eqn:Hlist; simpl.
  - pose proof (spared_listing ids keys now (tick w2)) as Hs3. rewrite Hlist in Hs3.
    etrans; [exact Hs3|]. apply wrap_err_Ok, query_Ok in Hlist as [-> _]. simpl. rewrite Hrec.
    assert (forall r, r ∈ isort due_before (due now (w_db w)) -> rc_id r ∈ ids /\ rc_storage_key r ∈ keys) as Hin.
    { intros r Hr%elem_of_isort. split; by apply list_elem_of_fmap_2. }
    fold (due now (w_db w)). set (l := isort due_before (due now (w_db w))) in *.
    by apply (spared_listed ids keys s l).
  - pose proof (spared_listing ids keys now (tick w2)) as Hs3. by rewrite Hlist in Hs3.
Qed.

(** C33: Retention deletes only what is due.  Whatever faults strike, a sweep
    leaves every receipt that is not due at its listing time exactly as it was,
    keeps every object that no due receipt names, and never touches transactions
    or extracted fields. *)
Theorem sweep_safe (s : Sweeper) (job : QueueJob) (w : World) :
  (forall id r, db_receipts (w_db w) !! id = Some r -> rc_id r = id) ->
  let now := clk_now (S (S (w_tick w))) in
  let w' := snd (Sweeper_Handle s job w) in
  (forall id, (forall r, db_receipts (w_db w) !! id = Some r -> ~ is_due now r) ->
     db_receipts (w_db w') !! id = db_receipts (w_db w) !! id) /\
  (forall k, (forall id r, db_receipts (w_db w) !! id = Some r -> is_due now r -> rc_storage_key r <> k) ->
     w_objects w' !! k = w_objects w !! k) /\
  db_txs (w_db w') = db_txs (w_db w) /\ db_fields (w_db w') = db_fields (w_db w).
Proof.
  intros Hid now w'. destruct (sweep_spares s job w) as (Hrows & Hobj & Htx & Hfld). fold now w' in Hrows, Hobj.
  split_and!; [..|exact Htx|exact Hfld].
  - intros id Hnot. apply Hrows. intros (r & -> & Hr)%list_elem_of_fmap.
    apply elem_of_select in Hr as (Hp%pending_deletion_spec & k & Hk). pose proof (Hid k r Hk) as Heq. subst k. by apply (Hnot r).
  - intros k Hnot. apply Hobj. intros (r & -> & Hr)%list_elem_of_fmap.
    apply elem_of_select in Hr as (Hp%pending_deletion_spec & id & Hk). by apply (Hnot id r).
Qed.

(** ** A sweep finishes its batch *)

(** What a sweep relies on of the tables: rows under their ids, deletion times
    set exactly on deleted receipts, object keys the store accepts. *)
Definition row_ready (r : ReceiptDocument) : Prop :=
  (rc_deleted_at r <> None <-> rc_status r = ReceiptDeleted) /\
  (rc_storage_key r = "" \/ validateKey (rc_storage_key r) = None).
Definition rows_ready (d : DB) : Prop := forall id r, db_receipts d !! id = Some r -> rc_id r = id /\ row_ready r.
(** No expired tombstone is still referenced, so the tombstones can go. *)
Definition tombstones_free (now : Time) (d : DB) : Prop := forall id pm, db_msgs d !! id = Some pm ->
  expired_tombstone now pm = true -> msg_referenced d (pm_id pm) = false.
(** The original is gone: no key, a deletion time, no object. *)
Definition original_gone (r : ReceiptDocument) (w : World) : Prop :=
  (exists r', db_receipts (w_db w) !! rc_id r = Some r' /\ rc_storage_key r' = "" /\ rc_deleted_at r' <> None) /\
  (rc_storage_key r <> "" -> w_objects w !! rc_storage_key r = None).

Context (Hnf : forall n, fault n = None).

Lemma objects_Delete_ok k w : validateKey k = None ->
  objects_Delete k w = (Ok tt, tick (set_objects (delete k (w_objects w)) w)).
Proof. intros Hv. unfold objects_Delete, object_effect. by rewrite Hv, Hnf. Qed.

Lemma update_receipt_ok (f : Time -> ReceiptDocument -> ReceiptDocument) id cond r w :
  db_receipts (w_db w) !! id = Some r -> cond r = true ->
  exists w', dml (fun now => update_receipt id cond (f now)) w = (Ok 1, w') /\
    db_receipts (w_db w') !! id = Some (f (now_sql w) r) /\ w_objects w' = w_objects w.
Proof.
  intros Hr Hc. unfold dml, stmt. rewrite Hnf. unfold update_receipt, update_row. rewrite Hr, Hc. simpl.
  eexists. split; [done|]. simpl. by rewrite lookup_insert_eq.
Qed.

Lemma clear_key_ok r w : db_receipts (w_db w) !! rc_id r = Some r ->
  exists w' r', clear_key (rc_id r) w = (Ok 1, w') /\ db_receipts (w_db w') !! rc_id r = Some r' /\
    rc_storage_key r' = "" /\ rc_deleted_at r' = rc_deleted_at r /\ w_objects w' = w_objects w.
Proof.
  intros Hr. unfold clear_key, ClearReceiptStorageKey.
  destruct (update_receipt_ok (fun now r => set_receipt "" (rc_sha256 r) (rc_content_type r) (rc_byte_size r)
    (rc_status r) now (rc_deleted_at r) r) (rc_id r) (fun _ => true) r w Hr eq_refl) as (w' & Hrun & Hrow & Hobj).
  run_unfold. unfold wrap_err in *. cbn [fst snd]. rewrite Hrun. simpl. eexists _, _. split_and!; [done|exact Hrow|done..].
Qed.

Lemma delete_transition_ok r w :
  db_receipts (w_db w) !! rc_id r = Some r -> receipt_CanTransition (rc_status r) ReceiptDeleted = true ->
  exists w', attempt (TransitionReceipt (rc_id r) (rc_status r) ReceiptDeleted) w = (Ok (Ok tt), w') /\
    db_receipts (w_db w') !! rc_id r = Some (moved (now_sql w) ReceiptDeleted r) /\ w_objects w' = w_objects w.
Proof.
  intros Hr Hcan. unfold TransitionReceipt. rewrite Hcan.
  destruct (update_receipt_ok (fun now => moved now ReceiptDeleted) (rc_id r)
    (fun x => bool_decide (rc_status x = rc_status r)) r w Hr ltac:(by apply bool_decide_eq_true)) as (w' & Hrun & Hw').
  exists w'. split; [|exact Hw']. cbn [negb]. unfold attempt, bind, wrap_err. by rewrite Hrun.
Qed.

Lemma sweep_receipt_done r w now :
  row_ready r -> db_receipts (w_db w) !! rc_id r = Some r -> pending_deletion now r = true ->
  exists w', sweep_receipt r w = (Ok 1, w') /\ original_gone r w'.
Proof.
  intros [Hdel Hkey] Hr Hdue.
  assert (in_progress (rc_status r) = false /\
    (rc_deleted_at r = None -> rc_status r <> ReceiptDeleted /\ receipt_CanTransition (rc_status r) ReceiptDeleted = true))
    as [Hprog Htrans].
  { unfold pending_deletion in Hdue. apply orb_true_iff in Hdue as [Hd|Hd]; apply andb_true_iff in Hd as [Hd1 Hd2].
    - rewrite !orb_true_iff, !bool_decide_eq_true in Hd2. destruct Hd2 as [[-> | ->]| ->]; done.
    - apply bool_decide_eq_true in Hd1. split; [|done]. by rewrite (proj1 Hdel Hd1). }
  unfold sweep_receipt. rewrite Hprog.
  assert (exists w1, (if String.eqb (rc_storage_key r) "" then ret true
      else let* res := attempt (objects_Delete (rc_storage_key r)) in ret (is_ok res)) w = (Ok true, w1) /\
    w_db w1 = w_db w /\ (rc_storage_key r <> "" -> w_objects w1 !! rc_storage_key r = None)) as (w1 & Hrm & Hdb & Hobj).
  { destruct (String.eqb_spec (rc_storage_key r) "") as [He|Hne]; [by exists w|].
    destruct Hkey as [|Hv]; [done|]. run_unfold. rewrite objects_Delete_ok by done. simpl.
    eexists. split_and!; [done|done|]. intros _. simpl. apply lookup_delete_eq. }
  unfold bind at 1. rewrite Hrm. cbn [negb]. rewrite <- Hdb in Hr.
  destruct (decide (rc_deleted_at r = None)) as [Hnone|Hsome].
  - destruct (Htrans Hnone) as [Hnd Hcan]. rewrite bool_decide_eq_false_2 by (by intros []).
    rewrite bool_decide_eq_false_2 by done. cbn [orb].
    destruct (delete_transition_ok r w1 Hr Hcan) as (w2 & Hrun & Hrow & Ho2).
    set (r2 := moved (now_sql w1) ReceiptDeleted r) in *.
    destruct (clear_key_ok r2 w2 Hrow) as (w3 & r3 & Hclr & Hrow3 & Hk3 & Hd3 & Ho3).
    change (rc_id r2) with (rc_id r) in Hclr, Hrow3.
    unfold bind at 1. rewrite Hrun. cbn [is_ok]. rewrite Hclr. eexists. split; [done|]. split.
    + exists r3. split_and!; [exact Hrow3|done|]. by rewrite Hd3.
    + intros Hne. rewrite Ho3, Ho2. by apply Hobj.
  - rewrite bool_decide_eq_true_2 by done. cbn [orb].
    destruct (clear_key_ok r w1 Hr) as (w3 & r3 & Hclr & Hrow3 & Hk3 & Hd3 & Ho3). rewrite Hclr. eexists. split; [done|]. split.
    + exists r3. split_and!; [exact Hrow3|done|]. by rewrite Hd3.
    + intros Hne. rewrite Ho3. by apply Hobj.
Qed.

(** Later steps of the batch keep what earlier ones achieved. *)
Lemma gone_stays r w w' ids keys :
  spares ids keys w w' -> rc_id r ∉ ids -> (forall k, w_objects w !! k = None -> w_objects w' !! k = None) ->
  original_gone r w -> original_gone r w'.
Proof.
  intros (Hrows & _) Hid Hobj [(r' & Hr' & Hx) Hk]. split.
  - exists r'. by rewrite Hrows.
  - intros Hne. by apply Hobj, Hk.
Qed.

Definition objects_shrink : relation World := fun w w' =>
  forall k, w_objects w !! k = None -> w_objects w' !! k = None.
#[local] Instance objects_shrink_quiet : Quiet objects_shrink.
Proof. split; [split|..]; unfold objects_shrink; [by intros w|intros w1 w2 w3 Ha Hb k Hk; by apply Hb, Ha|by intros..]. Qed.

Lemma shrink_sweep r : evolves objects_shrink (sweep_receipt r).
Proof.
  unfold sweep_receipt, clear_key, ClearReceiptStorageKey, TransitionReceipt, objects_Delete. go_evolve.
  all: try (by apply evolves_dml; [apply _|]; intros t w k Hk).
  all: intros w; unfold object_effect; destruct (fault _) as [[e [|]]|]; simpl; intros k Hk; simpl; try done;
    rewrite lookup_delete_None; by right.
Qed.

Lemma shrink_next n r : evolves objects_shrink (sweep_next n r).
Proof. unfold sweep_next. go_evolve. apply shrink_sweep. Qed.

Lemma sweep_batch_done now (l : list ReceiptDocument) n w :
  NoDup (rc_id <$> l) ->
  (forall r, r ∈ l -> row_ready r /\ db_receipts (w_db w) !! rc_id r = Some r /\ pending_deletion now r = true) ->
  exists w', for_each l sweep_next n w
      = (Ok (n + Z.of_nat (length l)), w') /\ forall r, r ∈ l -> original_gone r w'.
Proof.
  revert n w. induction l as [|r l IH]; intros n w Hnd Hl; simpl.
  { exists w. split; [|by intros r Hr%elem_of_nil]. unfold ret. do 2 f_equal. lia. }
  apply NoDup_cons in Hnd as [Hnotin Hnd].
  destruct (Hl r ltac:(constructor)) as (Hready & Hrow & Hdue).
  destruct (sweep_receipt_done r w now Hready Hrow Hdue) as (w1 & Hrun & Hgone).
  pose proof (spared_sweep [rc_id r] [rc_storage_key r] r ltac:(by constructor) ltac:(by constructor) w) as Hsp.
  rewrite Hrun in Hsp. simpl in Hsp.
  destruct (IH (n + 1) w1 Hnd) as (w' & Hrest & Hdone).
  { intros r' Hr'. destruct (Hl r' ltac:(by constructor)) as (? & Hrow' & ?). split_and!; [done| |done].
    destruct Hsp as [Hsp _]. rewrite Hsp; [done|]. intros Heq%list_elem_of_singleton. apply Hnotin. rewrite <- Heq.
    by apply list_elem_of_fmap_2. }
  exists w'. unfold bind at 1, sweep_next at 1, bind at 1. rewrite Hrun. unfold ret at 1. rewrite Hrest. split; [do 2 f_equal; lia|].
  intros r' [->|Hr']%elem_of_cons; [|by apply Hdone].
  pose proof (spared_batch (rc_id <$> l) (rc_storage_key <$> l) l (n + 1)
    ltac:(intros; split; by apply list_elem_of_fmap_2) w1) as Hb.
  pose proof (evolves_for_each objects_shrink l sweep_next (n + 1) shrink_next w1) as Hs.
  rewrite Hrest in Hb, Hs. by apply (gone_stays r w1 w' (rc_id <$> l) (rc_storage_key <$> l)).
Qed.

Lemma due_NoDup now d : rows_ready d -> NoDup (rc_id <$> due now d).
Proof.
  intros Hok. unfold due, select, rows. set (m := db_receipts d).
  apply (sublist_NoDup _ (rc_id <$> (map_to_list m).*2)); [|apply fmap_sublist, sublist_filter].
  replace (rc_id <$> (map_to_list m).*2) with ((map_to_list m).*1); [apply NoDup_fst_map_to_list|].
  rewrite <- list_fmap_compose. apply list_fmap_ext. intros i [k r] Hi. simpl.
  apply list_elem_of_lookup_2, elem_of_map_to_list in Hi. by destruct (Hok k r Hi).
Qed.

Lemma batch_of_due now d n : rows_ready d ->
  let l := firstn n (isort due_before (due now d)) in
  NoDup (rc_id <$> l) /\
  forall r, r ∈ l -> row_ready r /\ db_receipts d !! rc_id r = Some r /\ pending_deletion now r = true.
Proof.
  intros Hok l. split.
  - apply (sublist_NoDup _ (rc_id <$> isort due_before (due now d))); [|apply fmap_sublist, sublist_take].
    rewrite isort_perm. by apply due_NoDup.
  - intros r (i & Hr%list_elem_of_lookup_2 & _)%elem_of_take. apply elem_of_isort, elem_of_select in Hr as (Hp & k & Hk).
    destruct (Hok k r Hk) as [-> ?]. done.
Qed.

Lemma listing_ok now w : exists w', ListReceiptsPendingDeletion now w =
  (Ok (isort due_before (due now (w_db w))), w') /\ w_db w' = w_db w.
Proof. eexists. unfold ListReceiptsPendingDeletion. sql_unfold. rewrite Hnf. by split. Qed.

Lemma tombstones_ok now w : tombstones_free now (w_db w) ->
  exists n w', DeleteExpiredProviderMessageTombstones now w = (Ok n, w') /\
    db_receipts (w_db w') = db_receipts (w_db w) /\ w_tick w' = S (w_tick w).
Proof.
  intros Hfree. pose proof (tombstones_world now w) as Hw.
  destruct (DeleteExpiredProviderMessageTombstones now w) as [[n|e] w'] eqn:Hrun; [by eauto|exfalso].
  revert Hrun. unfold DeleteExpiredProviderMessageTombstones. sql_unfold. rewrite Hnf.
  unfold delete_msgs. destruct (existsb _ _) eqn:Hex; [|done]. intros _.
  apply existsb_exists in Hex as (pm & Hin%list_elem_of_In & [Hexp Href]%andb_true_iff).
  apply elem_of_rows in Hin as (id & Hid). by rewrite (Hfree id pm Hid Hexp) in Href.
Qed.

(** What follows the batch keeps the originals gone. *)
Lemma listed_done s (l : list ReceiptDocument) w w' n m :
  n = length l -> sweep_batch (firstn (Z.to_nat (BatchSize s)) l) w = (Ok m, w') ->
  (forall d, d ∈ firstn (Z.to_nat (BatchSize s)) l -> original_gone d w') ->
  let r := sweep_listed s l w in
  (forall d, d ∈ firstn (Z.to_nat (BatchSize s)) l -> original_gone d (snd r)) /\
  (Z.of_nat n <= BatchSize s -> fst r = Ok tt).
Proof.
  intros -> Hbatch Hgone. unfold sweep_listed. destruct (Z.ltb_spec (BatchSize s) (Z.of_nat (length l))) as [Hb|Hb].
  - unfold bind at 1 3. rewrite Hbatch. split; [|lia]. intros d Hd.
    set (rest := bind _ _).
    assert (evolves (spares [] []) rest) as He by (unfold rest; go_evolve; apply spared_EnqueueSweep).
    specialize (He w'). apply (gone_stays d w' _ [] []); [done|apply not_elem_of_nil| |by apply Hgone].
    destruct He as (_ & Hobj & _). intros k. rewrite Hobj by apply not_elem_of_nil. done.
  - replace (firstn (Z.to_nat (BatchSize s)) l) with l in * by (symmetry; apply take_ge; lia).
    unfold bind. rewrite Hbatch. by split.
Qed.

(** C34: Retention finishes its batch.  Without faults a sweep over well-formed
    receipts leaves every receipt of its batch, the earliest due first, with a
    deletion time, no storage key and no stored object, and when the batch holds
    all that is due the job succeeds. *)
Theorem sweep_complete (s : Sweeper) (job : QueueJob) (w : World) :
  (forall x, job_payload job <> PayOther x) ->
  rows_ready (w_db w) -> tombstones_free (clk_now (w_tick w)) (w_db w) ->
  let now := clk_now (S (S (w_tick w))) in
  let r := Sweeper_Handle s job w in
  (forall d, d ∈ firstn (Z.to_nat (BatchSize s)) (isort due_before (due now (w_db w))) -> original_gone d (snd r)) /\
  (Z.of_nat (length (due now (w_db w))) <= BatchSize s ->
     fst r = Ok tt /\
     forall id d, db_receipts (w_db w) !! id = Some d -> is_due now d -> original_gone d (snd r)).
Proof.
  intros Hpay Hready Hfree now. set (l := isort due_before (due now (w_db w))).
  enough (let r := Sweeper_Handle s job w in (forall d, d ∈ firstn (Z.to_nat (BatchSize s)) l -> original_gone d (snd r)) /\
    (Z.of_nat (length (due now (w_db w))) <= BatchSize s -> fst r = Ok tt)) as [Hgone Hok].
  { split; [done|]. intros Hlen. split; [by apply Hok|]. intros id d Hd Hdue. apply Hgone.
    rewrite take_ge by (unfold l; rewrite isort_perm; lia). apply elem_of_isort, elem_of_select.
    split; [by apply pending_deletion_spec|by exists id]. }
  enough (let r := sweep_body s w in (forall d, d ∈ firstn (Z.to_nat (BatchSize s)) l -> original_gone d (snd r)) /\
    (Z.of_nat (length (due now (w_db w))) <= BatchSize s -> fst r = Ok tt)) as Hb.
  { unfold Sweeper_Handle. destruct (job_payload job) eqn:?; try exact Hb. by destruct (Hpay bytes). }
  destruct (tombstones_ok (clk_now (w_tick w)) (tick w) Hfree) as (n & w2 & Hrun & Hrec & Htick).
  simpl in Hrec, Htick. destruct (listing_ok now (tick w2)) as (w3 & Hlist & Hw3).
  assert (isort due_before (due now (w_db (tick w2))) = l) as Hl by (unfold l, due; simpl; by rewrite Hrec).
  rewrite Hl in Hlist.
  assert (sweep_body s w = sweep_listed s l w3) as ->.
  { unfold sweep_body, bind at 1, clk_Now at 1. unfold bind at 1, wrap_err at 1. rewrite Hrun. cbn [fst snd map_fail].
    unfold bind at 1, clk_Now at 1. rewrite Htick. fold now. unfold bind at 1, wrap_err at 1. rewrite Hlist. done. }
  destruct (batch_of_due now (w_db w) (Z.to_nat (BatchSize s)) Hready) as [Hnd Hrows]. fold l in Hnd, Hrows.
  destruct (sweep_batch_done now _ 0 w3 Hnd) as (w4 & Hbatch & Hgone).
  { intros d Hd. rewrite Hw3. simpl. rewrite Hrec. by apply Hrows. }
  refine (listed_done s l w3 w4 _ _ _ Hbatch Hgone). unfold l. by rewrite (isort_perm due_before).
Qed.
End sweep_theorems.

Module SweepDemo.
Definition env : Env := demo_env no_faults (fun n => Z.of_nat n + 100).
Definition old (id : uuid) (status : ReceiptStatus) (deleted : option Time) : ReceiptDocument :=
  mkReceipt id 1 None ("receipts/" ++ pretty id) "" "image/png" 3 "h" "" status "originals_30d" (Some 50) 0 0 deleted.
Definition db : DB := upd_receipts (fun _ =>
  {[ 4%N := old 4 ReceiptConfirmed None; 5%N := old 5 ReceiptExtracting None;
     6%N := old 6 ReceiptDeleted (Some 60) ]}) empty_db.
Definition w : World := set_objects {[ "receipts/4" := "abc"; "receipts/5" := "def"; "receipts/6" := "ghi" ]} (world_of db).
Definition job : QueueJob := mkJob 9 JobRetentionSweep (PaySweep 0) None JobRunning 1 3 0 0 (Some 2%N) "" 0 0.

Lemma db_ready : rows_ready db.
Proof.
  intros id r. unfold db, upd_receipts. simpl.
  rewrite !lookup_insert_Some, lookup_singleton_Some. intros Hr.
  destruct Hr as [[<- <-]|[_ [[<- <-]|[_ [<- <-]]]]]; (split; [reflexivity|]); (split; [split; [|done]|right; reflexivity]); done.
Qed.

Lemma sweep_safe_witness :
  db_receipts (w_db (snd (@Sweeper_Handle env (mkSweeper 200) job w))) !! 5%N = Some (old 5 ReceiptExtracting None) /\
  w_objects (snd (@Sweeper_Handle env (mkSweeper 200) job w)) !! "receipts/5" = Some "def".
Proof.
  destruct (@sweep_safe env (mkSweeper 200) job w) as (Hrows & Hobj & _).
  { intros id r Hr. apply (db_ready id r Hr). }
  split.
  - rewrite Hrows; [reflexivity|]. intros r Hr. vm_compute in Hr. injection Hr as <-.
    intros [(_ & _ & Hs)|[Hd _]]; [repeat destruct Hs as [Hs|Hs]; discriminate Hs|apply Hd; reflexivity].
  - rewrite Hobj; [reflexivity|]. intros id r Hr Hdue Hk. unfold db, upd_receipts in Hr. simpl in Hr.
    rewrite !lookup_insert_Some, lookup_singleton_Some in Hr.
    destruct Hr as [[_ <-]|[_ [[_ <-]|[_ [_ <-]]]]]; [discriminate Hk| |discriminate Hk].
    destruct Hdue as [(_ & _ & Hs)|[Hd _]]; [repeat destruct Hs as [Hs|Hs]; discriminate Hs|apply Hd; reflexivity].
Defined.

(** The confirmed and the discarded original go; the one still being read stays. *)
Lemma sweep_complete_witness :
  original_gone (old 4 ReceiptConfirmed None) (snd (@Sweeper_Handle env (mkSweeper 200) job w)) /\
  fst (@Sweeper_Handle env (mkSweeper 200) job w) = Ok tt.
Proof.
  assert (forall x, job_payload job <> PayOther x) as Hp by discriminate.
  assert (tombstones_free (@clk_now env (w_tick w)) (w_db w)) as Hf.
  { intros id pm Hpm. simpl in Hpm. discriminate Hpm. }
  destruct (@sweep_complete env (fun _ => eq_refl) (mkSweeper 200) job w Hp db_ready Hf) as [Hgone Hok].
  split; [apply Hgone; apply list_elem_of_In; vm_compute; auto|]. destruct (Hok ltac:(vm_compute; discriminate)) as [Hret _].
  exact Hret.
Defined.

Example still_reading : w_objects (snd (@Sweeper_Handle env (mkSweeper 200) job w)) = {[ "receipts/5" := "def" ]}.
Proof. vm_compute. reflexivity. Qed.
End SweepDemo.
