(* ===== verification/Account.v ===== *)
(** * Account deletion

    internal/store/account.go and internal/account/delete.go: the deletion
    saga.  One transaction marks the account, objects and export files are
    removed outside the database, and a second transaction erases every row of
    the user and leaves a de-identified tombstone.  Shown: the purge equals a
    one-line specification (drop every row the user owns, in every table), a
    reported success means nothing of the user is left, no outcome touches
    anybody else, and an interrupted saga can always be resumed. *)
From stdpp Require Import pretty.
From S2P Require Import Prelude GoStrings Domain GoTime Db Queue StoreInbound StoreReceipts Objects.

(** ** Store operations (store/account.go) *)
Record AccountPurgeStats := mkStats {
  ReceiptsDeleted : Z; TransactionsDeleted : Z; RowsPurged : Z; JobsPurged : Z }.

(** DELETE by key. *)
Definition delete_keys {K R} `{Countable K} (p : K -> bool) (m : gmap K R) : Z * gmap K R :=
  (Z.of_nat (length (filter (fun kr => p kr.1 = true) (map_to_list m))), filter (fun kr => p kr.1 = false) m).

Section store_account.
Context `{Env}.

(** [BeginAccountDeletion] *)
Definition deletion_started (op : string) (userID : uuid) : Go User :=
  let* row := wrap_err (internalErr op) (query (fun d => db_users d !! userID)) in
  match row with
  | None => fail (E CodeNotFound ("user " ++ uuid_text userID ++ " not found") None)
  | Some u =>
      if bool_decide (usr_deleted_at u <> None) || bool_decide (usr_status u = UserDeleted)
      then fail (E CodeConflict ("user " ++ uuid_text userID ++ " already deleted") None)
      else ret u
  end.
Definition set_user_status (s : UserStatus) (now : Time) (u : User) : User :=
  mkUser (usr_id u) s (usr_timezone u) (usr_default_currency u) (usr_locale u) (usr_consent_version u)
    (usr_consented_at u) (usr_created_at u) now (usr_deleted_at u).
Definition object_keys (userID : uuid) (d : DB) : list string :=
  remove_dups (rc_storage_key <$>
    select (fun r => bool_decide (rc_user r = userID) && negb (String.eqb (rc_storage_key r) "")) (db_receipts d)).
Definition begin_body (userID : uuid) : Go (list string) :=
  let* u := deletion_started "BeginAccountDeletion" userID in
  (if bool_decide (usr_status u = UserDeleting) then ret tt
   else wrap_err (internalErr "BeginAccountDeletion")
     (dml (fun now => update_user userID (fun _ => true) (set_user_status UserDeleting now))) ;;; ret tt) ;;;
  wrap_err (internalErr "BeginAccountDeletion") (query (object_keys userID)).
Definition BeginAccountDeletion (userID : uuid) : Go (list string) := WithTx (begin_body userID).

(** The rows each DELETE of the purge selects. *)
Definition payload_user (p : Payload) : option string :=
  match p with
  | PayReceipt j => Some (uuid_text (rj_user j))
  | PayOutbound j => Some (uuid_text (oj_user j))
  | PaySweep _ => None
  | PayOther bytes => json_text bytes ["user_id"]
  end.
Definition user_tx (userID : uuid) (d : DB) (tx : uuid) : bool :=
  existsb (fun t => bool_decide (tx_user t = userID) && bool_decide (tx_id t = tx)) (rows (db_txs d)).
Definition user_receipt (userID : uuid) (d : DB) (rc : uuid) : bool :=
  existsb (fun r => bool_decide (rc_user r = userID) && bool_decide (rc_id r = rc)) (rows (db_receipts d)).
Definition sender_ids (pm : ProviderMessage) : list string :=
  [default "" (json_text (pm_raw pm) ["provider_user_id"]);
   default "" (json_text (pm_raw pm) ["message"; "from"; "id"])].
Definition user_message (userID : uuid) (d : DB) (pm : ProviderMessage) : bool :=
  bool_decide (pm_user pm = Some userID) ||
  existsb (fun i => bool_decide (ident_user i = userID) && String.eqb (ident_provider i) (pm_provider pm) &&
                    existsb (String.eqb (ident_subject i)) (sender_ids pm)) (rows (db_idents d)).

(** Deletes refused while another table still refers to a selected row. *)
Definition delete_txs (p : Transaction -> bool) : Stmt Z := fun _ d =>
  let hit id := existsb (fun t => p t && bool_decide (tx_id t = id)) (rows (db_txs d)) in
  if existsb (fun x => hit (pr_tx x)) (rows (db_preds d)) || existsb (fun x => hit (cor_tx x)) (rows (db_corrs d)) ||
     existsb (fun x => match pa_tx x with Some id => hit id | None => false end) (rows (db_pending d))
  then Fail foreign_key_violation
  else let r := delete_where p (db_txs d) in Ok (r.1, upd_txs (fun _ => r.2) d).
Definition delete_receipts (p : ReceiptDocument -> bool) : Stmt Z := fun _ d =>
  let hit id := existsb (fun t => p t && bool_decide (rc_id t = id)) (rows (db_receipts d)) in
  if existsb (fun x => hit (ef_receipt x)) (rows (db_fields d)) ||
     existsb (fun k => hit k.1.1.1) (map_to_list (db_attempts d)).*1 ||
     existsb (fun x => match tx_receipt x with Some id => hit id | None => false end) (rows (db_txs d))
  then Fail foreign_key_violation
  else let r := delete_where p (db_receipts d) in Ok (r.1, upd_receipts (fun _ => r.2) d).

Definition purge_err : Err -> Err := internalErr "PurgeAccountData".
Definition del {R K} `{Countable K} (upd : (gmap K R -> gmap K R) -> DB -> DB) (get : DB -> gmap K R)
    (p : DB -> R -> bool) : Go Z :=
  wrap_err purge_err (dml (fun _ d => let r := delete_where (p d) (get d) in (r.1, upd (fun _ => r.2) d))).
Definition del_keys {R K} `{Countable K} (upd : (gmap K R -> gmap K R) -> DB -> DB) (get : DB -> gmap K R)
    (p : DB -> K -> bool) : Go Z :=
  wrap_err purge_err (dml (fun _ d => let r := delete_keys (p d) (get d) in (r.1, upd (fun _ => r.2) d))).

(** [PurgeAccountData], in its parts: the owned rows, the ledger, the receipts,
    the messages with the triggering one kept as a tombstone, the account row. *)
Definition purge_owned (u : uuid) : Go Z :=
  let* n1 := del upd_pending db_pending (fun _ x => bool_decide (pa_user x = u)) in
  let* n2 := del upd_schedules db_schedules (fun _ x => bool_decide (sch_user x = u)) in
  let* n3 := del upd_outbound db_outbound (fun _ x => bool_decide (ob_user x = u)) in
  let* n4 := del upd_insights db_insights (fun _ x => bool_decide (ins_user x = u)) in
  let* n5 := del upd_rules db_rules (fun _ x => bool_decide (rule_user x = u)) in
  let* n6 := del_keys upd_usage db_usage (fun _ k => String.eqb k.1.1.1 "user" && String.eqb k.1.1.2 (uuid_text u)) in
  let* n7 := del upd_corrs db_corrs (fun d x => user_tx u d (cor_tx x)) in
  let* n8 := del upd_preds db_preds (fun d x => user_tx u d (pr_tx x)) in
  ret (n1 + n2 + n3 + n4 + n5 + n6 + n7 + n8).
Definition purge_receipt_data (u : uuid) : Go Z :=
  let* n1 := del upd_fields db_fields (fun d x => user_receipt u d (ef_receipt x)) in
  let* n2 := del_keys upd_attempts db_attempts (fun d k => user_receipt u d k.1.1.1) in
  ret (n1 + n2).
Definition tombstone (now : Time) (pm : ProviderMessage) : ProviderMessage :=
  mkPM (pm_id pm) (pm_provider pm) (pm_chat pm) (pm_message pm) None "account.deleted" "" "{}" (pm_received_at pm)
    None (Some now) (Some (now + 24 * Hour)) MessageProcessed.
Definition purge_messages (u trigger : uuid) : Go Z :=
  let* n := wrap_err purge_err (stmt (fun now d =>
      delete_msgs (fun pm => negb (bool_decide (pm_id pm = trigger)) && user_message u d pm) now d)) in
  (if bool_decide (trigger = uuid_nil) then ret tt
   else
     let* k := wrap_err purge_err (dml (fun now d =>
       let r := update_row trigger (fun pm => bool_decide (pm_user pm = Some u)) (tombstone now) (db_msgs d) in
       (r.1, upd_msgs (fun _ => r.2) d))) in
     if k =? 1 then ret tt
     else fail (E CodeConflict "deletion provider message is missing or has another owner" None)) ;;;
  ret n.
Definition deleted_user (now : Time) (u : User) : User :=
  mkUser (usr_id u) UserDeleted "UTC" "" "" "" None (usr_created_at u) now (Some now).
Definition purge_body (userID triggeringMessageID : uuid) : Go AccountPurgeStats :=
  let* u := deletion_started "PurgeAccountData" userID in
  if negb (bool_decide (usr_status u = UserDeleting))
  then fail (E CodeConflict ("user " ++ uuid_text userID ++ " is not deleting") None)
  else
    let* jobs := del upd_jobs db_jobs (fun _ j => bool_decide (payload_user (job_payload j) = Some (uuid_text userID))) in
    let* n1 := purge_owned userID in
    let* txs := wrap_err purge_err (stmt (delete_txs (fun t => bool_decide (tx_user t = userID)))) in
    let* n2 := purge_receipt_data userID in
    let* receipts := wrap_err purge_err (stmt (delete_receipts (fun r => bool_decide (rc_user r = userID)))) in
    let* n3 := purge_messages userID triggeringMessageID in
    let* n4 := del upd_idents db_idents (fun _ i => bool_decide (ident_user i = userID)) in
    wrap_err purge_err (dml (fun now => update_user userID (fun _ => true) (deleted_user now))) ;;;
    ret (mkStats receipts txs (n1 + txs + n2 + receipts + n3 + n4) jobs).
Definition PurgeAccountData (userID triggeringMessageID : uuid) : Go AccountPurgeStats :=
  WithTx (purge_body userID triggeringMessageID).
End store_account.

(** ** The saga (account/delete.go) *)
Record Report := mkReport {
  rep_receipts : Z; rep_transactions : Z; rep_files : Z; rep_exports : Z; rep_rows : Z; rep_jobs : Z }.

(** [errors.As(err, &de)] *)
Fixpoint as_domain (e : Err) : option Err :=
  match e with
  | DomainErr _ _ _ => Some e
  | Wrapped _ c => as_domain c
  | _ => None
  end.
(** [asDomain] *)
Definition asDomain (fallback : string) (e : Err) : Err :=
  default (E CodeTransient fallback (Some e)) (as_domain e).

Section saga.
Context `{Env}.

(** [removeExportArtifacts]; the text of a UUID is one clean path element, so
    the path check always passes. *)
Definition removeExportArtifacts (dataDir : string) (userID : uuid) : Go Z :=
  if String.eqb (TrimSpace dataDir) "" then ret 0
  else
    wrap_err (Wrapped "resolve export root") may_fail ;;;
    let* entries := asks (fun w => w_exports w !! uuid_text userID) in
    wrap_err (Wrapped "read export directory") may_fail ;;;
    match entries with
    | None => ret 0
    | Some files =>
        (fun w => match fault (w_tick w) with
                  | Some flt => (Fail (Wrapped "remove export directory" (Driver (flt_err flt))),
                      tick (if flt_applied flt then set_exports (delete (uuid_text userID) (w_exports w)) w else w))
                  | None => (Ok (Z.of_nat (length files)),
                      tick (set_exports (delete (uuid_text userID) (w_exports w)) w))
                  end)
    end.

(** [deleteAccountLocked]; [objects] says whether an object store is configured. *)
Definition delete_object (n : Z) (key : string) : Go Z :=
  wrap_err (fun e => E CodeTransient ("delete receipt object " ++ key) (Some e)) (objects_Delete key) ;;;
  ret (n + 1).
Definition deleteAccountLocked (objects : bool) (dataDir : string) (userID triggeringMessageID : uuid) : Go Report :=
  let* keys := wrap_err (asDomain "delete account mark deleting") (BeginAccountDeletion userID) in
  if negb (bool_decide (keys = [])) && negb objects
  then fail (E CodeTransient "receipt object store unavailable during account deletion" None)
  else
    let* files := for_each keys delete_object 0 in
    let* exports := wrap_err (fun e => E CodeTransient "delete account exports" (Some e))
                      (removeExportArtifacts dataDir userID) in
    let* stats := wrap_err (asDomain "delete account purge") (PurgeAccountData userID triggeringMessageID) in
    ret (mkReport (ReceiptsDeleted stats) (TransactionsDeleted stats) files exports (RowsPurged stats) (JobsPurged stats)).

(** [DeleteAccount] *)
Definition DeleteAccount (objects : bool) (dataDir : string) (userID triggeringMessageID : uuid) : Go Report :=
  WithUserLock userID (deleteAccountLocked objects dataDir userID triggeringMessageID).
End saga.

(** ** Specification of the purge *)
Definition keep {K R} `{Countable K} (p : R -> bool) (m : gmap K R) : gmap K R := filter (fun kr => p kr.2 = false) m.
Definition keep_keys {K R} `{Countable K} (p : K -> bool) (m : gmap K R) : gmap K R := filter (fun kr => p kr.1 = false) m.

Section purge_spec.
Context `{Env} (u trigger : uuid).

Definition own_usage (k : UsageKey) : bool := String.eqb k.1.1.1 "user" && String.eqb k.1.1.2 (uuid_text u).
Definition own_job (j : QueueJob) : bool := bool_decide (payload_user (job_payload j) = Some (uuid_text u)).
Definition drop_message (d : DB) (pm : ProviderMessage) : bool :=
  negb (bool_decide (pm_id pm = trigger)) && user_message u d pm.
Definition entomb (now : Time) (m : gmap uuid ProviderMessage) : gmap uuid ProviderMessage :=
  if bool_decide (trigger = uuid_nil) then m
  else (update_row trigger (fun pm => bool_decide (pm_user pm = Some u)) (tombstone now) m).2.

(** Every row the user owns is dropped, judged by the tables at the start; the
    triggering message and the account row become tombstones. *)
Definition purged (now : Time) (d : DB) : DB := {|
  db_users := (update_row u (fun _ => true) (deleted_user now) (db_users d)).2;
  db_idents := keep (fun i => bool_decide (ident_user i = u)) (db_idents d);
  db_msgs := entomb now (keep (drop_message d) (db_msgs d));
  db_receipts := keep (fun r => bool_decide (rc_user r = u)) (db_receipts d);
  db_attempts := keep_keys (fun k => user_receipt u d k.1.1.1) (db_attempts d);
  db_txs := keep (fun t => bool_decide (tx_user t = u)) (db_txs d);
  db_fields := keep (fun x => user_receipt u d (ef_receipt x)) (db_fields d);
  db_preds := keep (fun x => user_tx u d (pr_tx x)) (db_preds d);
  db_corrs := keep (fun x => user_tx u d (cor_tx x)) (db_corrs d);
  db_categories := db_categories d;
  db_merchants := db_merchants d;
  db_aliases := db_aliases d;
  db_rules := keep (fun x => bool_decide (rule_user x = u)) (db_rules d);
  db_insights := keep (fun x => bool_decide (ins_user x = u)) (db_insights d);
  db_usage := keep_keys own_usage (db_usage d);
  db_jobs := keep own_job (db_jobs d);
  db_outbound := keep (fun x => bool_decide (ob_user x = u)) (db_outbound d);
  db_pending := keep (fun x => bool_decide (pa_user x = u)) (db_pending d);
  db_schedules := keep (fun x => bool_decide (sch_user x = u)) (db_schedules d) |}.

(** A table's update function and its projection. *)
Abbreviation table_of upd get := (forall f d, upd f d = upd (fun _ => f (get d)) d) (only parsing).

Lemma del_Ok {R K} `{Countable K} upd (get : DB -> gmap K R) p w n w' : table_of upd get ->
  del upd get p w = (Ok n, w') -> w_db w' = upd (keep (p (w_db w))) (w_db w) /\ w_txnow w' = w_txnow w.
Proof.
  intros Hupd Hrun. apply wrap_err_Ok, dml_Ok in Hrun as (Hd & Hw). injection Hd as _ Hd.
  rewrite Hupd, <- Hd. split; [done|]. by rewrite Hw.
Qed.

Lemma del_keys_Ok {R K} `{Countable K} upd (get : DB -> gmap K R) p w n w' : table_of upd get ->
  del_keys upd get p w = (Ok n, w') -> w_db w' = upd (keep_keys (p (w_db w))) (w_db w) /\ w_txnow w' = w_txnow w.
Proof.
  intros Hupd Hrun. apply wrap_err_Ok, dml_Ok in Hrun as (Hd & Hw). injection Hd as _ Hd.
  rewrite Hupd, <- Hd. split; [done|]. by rewrite Hw.
Qed.

Ltac del_step H :=
  let D := fresh "D" in let T := fresh "T" in let Hd := fresh in
  apply bind_Ok in H as (? & ? & Hd & H);
  lazymatch type of Hd with
  | del _ _ _ _ = _ => apply del_Ok in Hd as [D T]
  | del_keys _ _ _ _ = _ => apply del_keys_Ok in Hd as [D T]
  end; [|reflexivity].

Lemma delete_txs_Ok p w n w' : stmt (delete_txs p) w = (Ok n, w') ->
  w' = set_db (upd_txs (keep p) (w_db w)) (tick w).
Proof. intros (d & Hd & ->)%stmt_Ok. unfold delete_txs in Hd. destruct (_ || _); by simplify_eq. Qed.

Lemma delete_receipts_Ok p w n w' : stmt (delete_receipts p) w = (Ok n, w') ->
  w' = set_db (upd_receipts (keep p) (w_db w)) (tick w).
Proof. intros (d & Hd & ->)%stmt_Ok. unfold delete_receipts in Hd. destruct (_ || _); by simplify_eq. Qed.

Lemma purge_messages_Ok now w n w' : purge_messages u trigger w = (Ok n, w') -> w_txnow w = Some now ->
  w_db w' = upd_msgs (fun m => entomb now (keep (drop_message (w_db w)) m)) (w_db w) /\ w_txnow w' = Some now.
Proof.
  unfold purge_messages, entomb. intros Hrun Hnow. apply bind_Ok in Hrun as (n1 & w1 & H1 & Hrun).
  apply wrap_err_Ok, stmt_Ok in H1 as (d & Hd & ->). unfold delete_msgs in Hd. destruct (existsb _ _); simplify_eq.
  apply bind_Ok in Hrun as ([] & w2 & H2 & Hrun). apply ret_Ok in Hrun as [_ ->].
  destruct (bool_decide (trigger = uuid_nil)); [by inv_runs|].
  apply bind_Ok in H2 as (k & w3 & H3 & H2). apply wrap_err_Ok, dml_Ok in H3 as (Hd & Hw3).
  destruct (k =? 1); [|done]. apply ret_Ok in H2 as [_ ->]. rewrite Hw3. simpl in Hd |- *. unfold now_sql in Hd. simpl in Hd.
  rewrite Hnow in Hd. simpl in Hd. split; [|done]. by injection Hd as _ <-.
Qed.

Lemma purge_owned_Ok w n w' : purge_owned u w = (Ok n, w') ->
  w_db w' = upd_preds (keep (fun x => user_tx u (w_db w) (pr_tx x)))
    (upd_corrs (keep (fun x => user_tx u (w_db w) (cor_tx x))) (upd_usage (keep_keys own_usage)
    (upd_rules (keep (fun x => bool_decide (rule_user x = u))) (upd_insights (keep (fun x => bool_decide (ins_user x = u)))
    (upd_outbound (keep (fun x => bool_decide (ob_user x = u))) (upd_schedules (keep (fun x => bool_decide (sch_user x = u)))
    (upd_pending (keep (fun x => bool_decide (pa_user x = u))) (w_db w)))))))) /\ w_txnow w' = w_txnow w.
Proof.
  unfold purge_owned. intros Hrun. do 8 del_step Hrun. apply ret_Ok in Hrun as [_ ->].
  split; [|congruence]. by rewrite D6, D5, D4, D3, D2, D1, D0, D.
Qed.

Lemma purge_receipt_data_Ok w n w' : purge_receipt_data u w = (Ok n, w') ->
  w_db w' = upd_attempts (keep_keys (fun k => user_receipt u (w_db w) k.1.1.1))
    (upd_fields (keep (fun x => user_receipt u (w_db w) (ef_receipt x))) (w_db w)) /\ w_txnow w' = w_txnow w.
Proof.
  unfold purge_receipt_data. intros Hrun. do 2 del_step Hrun. apply ret_Ok in Hrun as [_ ->].
  split; [|congruence]. by rewrite D0, D.
Qed.

(** The two checks of the account row. *)
Lemma deletion_started_Ok op w usr w' : deletion_started op u w = (Ok usr, w') ->
  w' = tick w /\ db_users (w_db w) !! u = Some usr /\ usr_deleted_at usr = None /\ usr_status usr <> UserDeleted.
Proof.
  unfold deletion_started. intros Hrun. apply bind_Ok in Hrun as (row & w1 & H1 & Hrun).
  apply wrap_err_Ok, query_Ok in H1 as [-> ->]. destruct (db_users (w_db w) !! u) as [x|]; [|done].
  destruct (_ || _) eqn:Hb; [done|]. apply ret_Ok in Hrun as [<- ->].
  apply orb_false_iff in Hb as [?%bool_decide_eq_false ?%bool_decide_eq_false]. split_and!; try done. by apply dec_stable.
Qed.

Lemma purge_body_Ok now w stats w' : purge_body u trigger w = (Ok stats, w') -> w_txnow w = Some now ->
  w_db w' = purged now (w_db w).
Proof.
  unfold purge_body. intros Hrun Hnow.
  apply bind_Ok in Hrun as (usr & w1 & (-> & _)%deletion_started_Ok & Hrun).
  destruct (bool_decide _); [|done]. simpl in Hrun.
  del_step Hrun. apply bind_Ok in Hrun as (n1 & w3 & [D3 T3]%purge_owned_Ok & Hrun).
  apply bind_Ok in Hrun as (txs & w4 & ->%wrap_err_Ok%delete_txs_Ok & Hrun).
  apply bind_Ok in Hrun as (n2 & w5 & [D5 T5]%purge_receipt_data_Ok & Hrun).
  apply bind_Ok in Hrun as (rcs & w6 & ->%wrap_err_Ok%delete_receipts_Ok & Hrun).
  apply bind_Ok in Hrun as (n3 & w7 & H7 & Hrun). apply (purge_messages_Ok now) in H7 as [D7 T7]; [|simpl in *; congruence].
  del_step Hrun. apply bind_Ok in Hrun as (k & w9 & H9 & Hrun). apply wrap_err_Ok, dml_Ok in H9 as (Hd & _).
  apply ret_Ok in Hrun as [_ ->]. unfold now_sql in Hd. rewrite T0, T7 in Hd. injection Hd as _ <-.
  simpl in *. rewrite D0, D7. simpl. rewrite D5. simpl. rewrite D3, D. reflexivity.
Qed.

(** The purge's tables are the specified ones, with one time for both tombstones. *)
Lemma PurgeAccountData_Ok w stats w' :
  PurgeAccountData u trigger w = (Ok stats, w') -> exists now, w_db w' = purged now (w_db w).
Proof.
  intros (w1 & Hbody & ->)%in_tx_Ok. exists (sql_now (w_tick w)). exact (purge_body_Ok _ _ _ _ Hbody eq_refl).
Qed.
End purge_spec.

(** ** Outcomes of the saga *)
Definition files_same : relation World := fun w w' => w_objects w' = w_objects w /\ w_exports w' = w_exports w.
#[global] Instance files_same_steady : Steady files_same.
Proof.
  split; [split; [split|..]|]; unfold files_same; try done.
  - intros w1 w2 w3 [? ?] [? ?]. split; congruence.
Qed.
Definition state_same : relation World := fun w w' => w_db w' = w_db w /\ files_same w w' /\ ticks w w'.
#[global] Instance state_same_quiet : Quiet state_same.
Proof.
  split; [split|..]; unfold state_same, files_same, ticks; simpl.
  - intros w. split_and!; done.
  - intros w1 w2 w3 (? & [? ?] & ?) (? & [? ?] & ?). split_and!; try congruence. lia.
  - intros w. split_and!; try done. lia.
  - intros. split_and!; done.
  - intros. split_and!; done.
Qed.

Section outcomes.
Context `{Env} (u trigger : uuid).

(** A locked section either fails at the lock or runs from the same state. *)
Lemma WithUserLock_cases {A} (fn : Go A) w : exists w1, state_same w w1 /\
  ((exists e, WithUserLock u fn w = (Fail e, w1)) \/
   exists h, WithUserLock u fn w = (fst (fn w1), set_held h (snd (fn w1)))).
Proof.
  unfold WithUserLock. destruct (UserLockHeld w u).
  { exists w. split; [reflexivity|]. right. exists (w_held (snd (fn w))). by destruct (fn w) as [r []]. }
  pose proof (evolves_bind state_same may_fail _ (evolves_may_fail _) (fun _ =>
    evolves_bind state_same may_fail _ (evolves_may_fail _) (fun _ => evolves_may_fail state_same)) w) as Hs.
  destruct ((may_fail;;; may_fail;;; may_fail) w) as [[[]|e] w1]; simpl in Hs.
  - exists (set_held (Some u) w1). split; [etrans; [exact Hs|apply quiet_held]|]. right. eauto.
  - exists w1. eauto.
Qed.

(** What the first transaction may leave behind. *)
Definition begun (d d' : DB) : Prop := d' = d \/ exists now usr, db_users d !! u = Some usr /\
  usr_deleted_at usr = None /\ usr_status usr <> UserDeleted /\
  d' = upd_users (<[u := set_user_status UserDeleting now usr]>) d.

Lemma begin_body_Ok w keys w' : begin_body u w = (Ok keys, w') ->
  begun (w_db w) (w_db w') /\ keys = object_keys u (w_db w) /\
  (exists usr, db_users (w_db w') !! u = Some usr /\ usr_status usr = UserDeleting /\ usr_deleted_at usr = None).
Proof.
  intros Hrun. apply bind_Ok in Hrun as (usr & w1 & (-> & Hu & Hdel & Hst)%deletion_started_Ok & Hrun).
  apply bind_Ok in Hrun as ([] & w2 & H2 & Hrun). apply wrap_err_Ok, query_Ok in Hrun as [-> ->].
  case_bool_decide as Hd.
  - apply ret_Ok in H2 as [_ <-]. split_and!; [by left|done|]. exists usr. done.
  - apply bind_Ok in H2 as (n & w3 & H3 & H2). apply ret_Ok in H2 as [_ ->].
    apply wrap_err_Ok, dml_Ok in H3 as (Hd3 & _). unfold update_user, update_row in Hd3. simpl in Hd3.
    rewrite Hu in Hd3. injection Hd3 as _ Hd3. simpl. rewrite <- Hd3. split_and!; [right|done|].
    + eexists _, usr. split_and!; try done.
    + simpl. rewrite lookup_insert_eq. eauto.
Qed.

Lemma Begin_cases w : let r := BeginAccountDeletion u w in
  begun (w_db w) (w_db (snd r)) /\
  forall keys, fst r = Ok keys -> keys = object_keys u (w_db w) /\
    exists usr, db_users (w_db (snd r)) !! u = Some usr /\ usr_status usr = UserDeleting /\ usr_deleted_at usr = None.
Proof.
  cbv zeta. split.
  - unfold BeginAccountDeletion, WithTx. destruct (in_tx_atomic (Wrapped "begin tx") (Wrapped "commit tx")
      (begin_body u) w) as [Hd|(a & w1 & Hb & Hd)]; [by left; rewrite <- Hd|]. apply begin_body_Ok in Hb as [Hb _].
    simpl in Hb. by rewrite <- Hd in Hb.
  - intros keys Hk. destruct (BeginAccountDeletion u w) as [r w'] eqn:Hrun. simpl in *. subst r.
    apply in_tx_Ok in Hrun as (w1 & Hb & ->). by apply begin_body_Ok in Hb as (_ & ? & ?).
Qed.

Lemma purge_cases w : let r := PurgeAccountData u trigger w in
  (w_db (snd r) = w_db w \/ exists now, w_db (snd r) = purged u trigger now (w_db w)) /\
  (is_ok (fst r) = true -> exists now, w_db (snd r) = purged u trigger now (w_db w)).
Proof.
  cbv zeta. split.
  - unfold PurgeAccountData, WithTx. destruct (in_tx_atomic (Wrapped "begin tx") (Wrapped "commit tx")
      (purge_body u trigger) w) as [Hd|(a & w1 & Hb & Hd)]; [by left|right].
    exists (sql_now (w_tick w)). rewrite Hd. exact (purge_body_Ok u trigger _ _ _ _ Hb eq_refl).
  - destruct (PurgeAccountData u trigger w) as [[stats|e] w'] eqn:Hrun; [intros _|done].
    by apply PurgeAccountData_Ok in Hrun.
Qed.

(** Both transactions leave the files alone, the file steps leave the tables alone. *)
Lemma files_Begin : evolves files_same (BeginAccountDeletion u).
Proof.
  unfold BeginAccountDeletion, begin_body, deletion_started. go_evolve. by apply evolves_dml; [apply _|].
Qed.
Lemma files_Purge : evolves files_same (PurgeAccountData u trigger).
Proof.
  unfold PurgeAccountData, purge_body, deletion_started, purge_owned, purge_receipt_data, purge_messages, del, del_keys.
  go_evolve; first [by apply evolves_dml; [apply _|]|by apply evolves_stmt; [apply _|]].
Qed.
Lemma db_delete_object n key : evolves (on_db eq) (delete_object n key).
Proof.
  unfold delete_object, objects_Delete. go_evolve. intros w. unfold object_effect, on_db.
  by destruct (fault _) as [[e [|]]|].
Qed.
Lemma db_exports dir : evolves (on_db eq) (removeExportArtifacts dir u).
Proof.
  unfold removeExportArtifacts. go_evolve; try apply evolves_may_fail; try apply _.
  intros w. unfold on_db. by destruct (fault _) as [[e [|]]|].
Qed.

(** A reported success of a file step. *)
Lemma delete_objects_Ok keys n w m w' : for_each keys delete_object n w = (Ok m, w') ->
  (forall k, k ∈ keys -> w_objects w' !! k = None) /\
  (forall k, w_objects w !! k = None -> w_objects w' !! k = None) /\
  (forall k, k ∉ keys -> w_objects w' !! k = w_objects w !! k) /\ w_exports w' = w_exports w.
Proof.
  revert n w. induction keys as [|key keys IH]; intros n w; simpl; intros Hrun.
  { apply ret_Ok in Hrun as [_ ->]. split_and!; try done. by intros k ?%elem_of_nil. }
  apply bind_Ok in Hrun as (a & w1 & H1 & Hrun). apply IH in Hrun as (Hall & Hmono & Hkeep & Hx).
  unfold delete_object in H1. apply bind_Ok in H1 as ([] & w2 & H1 & Hr). apply ret_Ok in Hr as [_ ->].
  apply wrap_err_Ok in H1. unfold objects_Delete, object_effect in H1. destruct (validateKey key); [done|].
  destruct (fault _) as [flt|]; [done|]. injection H1 as <-. simpl in *. split_and!; [| | |done].
  - intros k [->|Hk]%elem_of_cons; [|by apply Hall]. apply Hmono, lookup_delete_eq.
  - intros k Hk. apply Hmono. apply lookup_delete_None. by right.
  - intros k [Hne Hk]%not_elem_of_cons. rewrite Hkeep by done. by apply lookup_delete_ne.
Qed.

Lemma removeExportArtifacts_Ok dir w n w' : removeExportArtifacts dir u w = (Ok n, w') ->
  w_objects w' = w_objects w /\ (TrimSpace dir <> "" -> w_exports w' !! uuid_text u = None) /\
  (TrimSpace dir = "" -> w_exports w' = w_exports w).
Proof.
  unfold removeExportArtifacts. destruct (String.eqb_spec (TrimSpace dir) "") as [|Hne]; [intros Hr; by apply ret_Ok in Hr as [_ ->]|].
  unfold bind, wrap_err, may_fail, asks, ret. destruct (fault _) as [|]; [done|]. simpl.
  destruct (fault _) as [|]; [done|]. simpl. destruct (w_exports w !! uuid_text u) as [fs|] eqn:Hx.
  - simpl. destruct (fault _) as [|]; [done|]. intros Hr. injection Hr as _ <-. simpl. split_and!; [done| |done].
    intros _. apply lookup_delete_eq.
  - intros Hr. injection Hr as _ <-. done.
Qed.
End outcomes.

Section saga_theorems.
Context `{Env} (objects : bool) (dataDir : string) (u trigger : uuid).
Abbreviation locked := (deleteAccountLocked objects dataDir u trigger).
Abbreviation saga := (DeleteAccount objects dataDir u trigger).

(** What follows the first transaction. *)
Definition saga_rest (keys : list string) : Go Report :=
  if negb (bool_decide (keys = [])) && negb objects
  then fail (E CodeTransient "receipt object store unavailable during account deletion" None)
  else
    let* files := for_each keys delete_object 0 in
    let* exports := wrap_err (fun e => E CodeTransient "delete account exports" (Some e))
                      (removeExportArtifacts dataDir u) in
    let* stats := wrap_err (asDomain "delete account purge") (PurgeAccountData u trigger) in
    ret (mkReport (ReceiptsDeleted stats) (TransactionsDeleted stats) files exports (RowsPurged stats) (JobsPurged stats)).

Definition same_or_purged (d d' : DB) : Prop := d' = d \/ exists now, d' = purged u trigger now d.

Lemma rest_tables keys w : same_or_purged (w_db w) (w_db (snd (saga_rest keys w))).
Proof.
  unfold saga_rest. destruct (_ && _); [by left|].
  pose proof (evolves_for_each (on_db eq) keys delete_object 0 (fun n k => db_delete_object n k) w) as H1.
  unfold bind at 1. destruct (for_each keys delete_object 0 w) as [[files|e] w1]; [|left; by symmetry].
  pose proof (db_exports u dataDir w1) as H2. unfold bind at 1, wrap_err at 1.
  destruct (removeExportArtifacts dataDir u w1) as [[n|e] w2]; simpl in *; [|left; unfold on_db in *; simpl in *; congruence].
  pose proof (purge_cases u trigger w2) as [H3 _]. unfold bind, wrap_err.
  destruct (PurgeAccountData u trigger w2) as [[st|e] w3]; simpl in *; unfold on_db in *; simpl in *;
    rewrite H1, H2; done.
Qed.

Lemma locked_tables w : exists d1, begun u (w_db w) d1 /\
  same_or_purged d1 (w_db (snd (locked w))).
Proof.
  pose proof (Begin_cases u w) as [Hb _]. exists (w_db (snd (BeginAccountDeletion u w))). split; [done|].
  unfold deleteAccountLocked, bind at 1, wrap_err at 1.
  destruct (BeginAccountDeletion u w) as [[keys|e] w1]; simpl; [|by left]. apply (rest_tables keys w1).
Qed.

(** Whatever happens, the tables are the old ones or the marked ones, purged or not. *)
Lemma saga_tables w : exists d1, begun u (w_db w) d1 /\
  same_or_purged d1 (w_db (snd (saga w))).
Proof.
  unfold DeleteAccount. destruct (WithUserLock_cases u locked w) as (w1 & (Hd & _ & _) & [[e Hr]|[h Hr]]); rewrite Hr; simpl.
  - exists (w_db w). split; [by left|by left].
  - rewrite <- Hd. apply locked_tables.
Qed.

Lemma locked_Ok w rep w' : locked w = (Ok rep, w') ->
  (exists d1 now, begun u (w_db w) d1 /\ w_db w' = purged u trigger now d1) /\
  (forall k, k ∈ object_keys u (w_db w) -> w_objects w' !! k = None) /\
  (forall k, k ∉ object_keys u (w_db w) -> w_objects w' !! k = w_objects w !! k) /\
  (TrimSpace dataDir <> "" -> w_exports w' !! uuid_text u = None) /\
  (TrimSpace dataDir = "" -> w_exports w' = w_exports w).
Proof.
  intros Hrun. apply bind_Ok in Hrun as (keys & w1 & Hbeg & Hrun). apply wrap_err_Ok in Hbeg.
  pose proof (Begin_cases u w) as [Hb Hk]. pose proof (files_Begin u w) as Hf1. rewrite Hbeg in Hb, Hk, Hf1. simpl in *.
  destruct (Hk keys eq_refl) as [-> _]. destruct (_ && _); [done|].
  apply bind_Ok in Hrun as (n & w2 & Hobj & Hrun).
  pose proof (evolves_for_each (on_db eq) (object_keys u (w_db w)) delete_object 0
    (fun n k => db_delete_object n k) w1) as D2. rewrite Hobj in D2.
  apply delete_objects_Ok in Hobj as (Hgone & _ & Hkeep & Hx2).
  apply bind_Ok in Hrun as (x & w3 & Hexp & Hrun). apply wrap_err_Ok in Hexp.
  pose proof (db_exports u dataDir w2) as D3. rewrite Hexp in D3.
  apply removeExportArtifacts_Ok in Hexp as (Ho3 & Hx3 & Hx3').
  apply bind_Ok in Hrun as (st & w4 & Hpur & Hrun). apply wrap_err_Ok in Hpur. apply ret_Ok in Hrun as [_ ->].
  pose proof (files_Purge u trigger w3) as [Ho4 Hx4]. rewrite Hpur in Ho4, Hx4. simpl in Ho4, Hx4.
  apply PurgeAccountData_Ok in Hpur as [now Hp]. unfold on_db in *. simpl in *. split_and!.
  - exists (w_db w1), now. split; [done|]. by rewrite Hp, <- D3, <- D2.
  - intros k Hin. rewrite Ho4, Ho3. by apply Hgone.
  - intros k Hin. rewrite Ho4, Ho3, Hkeep by done. by destruct Hf1 as [-> _].
  - intros Hne. rewrite Hx4. by apply Hx3.
  - intros He. rewrite Hx4, Hx3', Hx2 by done. by destruct Hf1.
Qed.

(** ** Whose row it is *)
Definition tx_of (d : DB) (id : uuid) : Prop := exists k t, db_txs d !! k = Some t /\ tx_user t = u /\ tx_id t = id.
Definition receipt_of (d : DB) (id : uuid) : Prop :=
  exists k r, db_receipts d !! k = Some r /\ rc_user r = u /\ rc_id r = id.
Definition message_of (d : DB) (pm : ProviderMessage) : Prop := pm_user pm = Some u \/
  exists k i, db_idents d !! k = Some i /\ ident_user i = u /\ ident_provider i = pm_provider pm /\
    (ident_subject i = default "" (json_text (pm_raw pm) ["provider_user_id"]) \/
     ident_subject i = default "" (json_text (pm_raw pm) ["message"; "from"; "id"])).
Definition job_of (j : QueueJob) : Prop :=
  match job_payload j with
  | PayReceipt x => rj_user x = u
  | PayOutbound x => oj_user x = u
  | PaySweep _ => False
  | PayOther bytes => json_text bytes ["user_id"] = Some (uuid_text u)
  end.

Lemma existsb_rows_iff {K R} `{Countable K} p (m : gmap K R) :
  existsb p (rows m) = true <-> exists k r, m !! k = Some r /\ p r = true.
Proof.
  rewrite existsb_exists. split.
  - intros (r & Hin%list_elem_of_In & Hp). apply elem_of_rows in Hin as [k Hk]. eauto.
  - intros (k & r & Hk & Hp). exists r. split; [|done]. apply list_elem_of_In, elem_of_rows. eauto.
Qed.
Lemma user_tx_spec d id : user_tx u d id = true <-> tx_of d id.
Proof.
  unfold user_tx, tx_of. rewrite existsb_rows_iff. by setoid_rewrite andb_true_iff; setoid_rewrite bool_decide_eq_true.
Qed.
Lemma user_receipt_spec d id : user_receipt u d id = true <-> receipt_of d id.
Proof.
  unfold user_receipt, receipt_of. rewrite existsb_rows_iff. by setoid_rewrite andb_true_iff; setoid_rewrite bool_decide_eq_true.
Qed.
Lemma user_message_spec d pm : user_message u d pm = true <-> message_of d pm.
Proof.
  unfold user_message, message_of, sender_ids. rewrite orb_true_iff, bool_decide_eq_true, existsb_rows_iff.
  apply or_iff_compat_l. split; intros (k & i & Hk & Hi); exists k, i.
  - rewrite !andb_true_iff, bool_decide_eq_true, String.eqb_eq in Hi. destruct Hi as [[Hu Hp] Hs]. simpl in Hs.
    rewrite !orb_true_iff, !String.eqb_eq in Hs. destruct Hs as [Hs|[Hs|Hs]]; [by auto 6..|done].
  - destruct Hi as (Hu & Hp & Hs). rewrite !andb_true_iff, bool_decide_eq_true, String.eqb_eq. simpl.
    rewrite !orb_true_iff, !String.eqb_eq. destruct Hs; by auto 7.
Qed.
Lemma own_job_spec j : own_job u j = true <-> job_of j.
Proof.
  unfold own_job, job_of. rewrite bool_decide_eq_true. destruct (job_payload j); simpl; try done.
  all: split; [by intros [= ?%uuid_text_inj]|by intros ->].
Qed.
Lemma user_message_other d pm : user_message u d pm = false <-> ~ message_of d pm.
Proof. by rewrite <- user_message_spec, not_true_iff_false. Qed.

(** ** Nothing is left *)
Definition gone {K R} `{Countable K} (own : K -> R -> Prop) (m : gmap K R) : Prop :=
  forall k r, m !! k = Some r -> ~ own k r.

(** [d] is the state the saga started from: children are judged by the parents
    they had then. *)
Definition erased (d d' : DB) : Prop :=
  gone (fun _ x => rc_user x = u) (db_receipts d') /\ gone (fun _ x => tx_user x = u) (db_txs d') /\
  gone (fun _ x => receipt_of d (ef_receipt x)) (db_fields d') /\
  gone (fun k _ => receipt_of d k.1.1.1) (db_attempts d') /\
  gone (fun _ x => tx_of d (pr_tx x)) (db_preds d') /\
  gone (fun _ x => tx_of d (cor_tx x)) (db_corrs d') /\
  gone (fun _ x => pa_user x = u) (db_pending d') /\ gone (fun _ x => sch_user x = u) (db_schedules d') /\
  gone (fun _ x => ob_user x = u) (db_outbound d') /\ gone (fun _ x => ins_user x = u) (db_insights d') /\
  gone (fun _ x => rule_user x = u) (db_rules d') /\ gone (fun _ x => ident_user x = u) (db_idents d') /\
  gone (fun k _ => k.1.1 = ("user", uuid_text u)) (db_usage d') /\
  gone (fun _ x => job_of x) (db_jobs d') /\
  gone (fun _ x => pm_user x = Some u) (db_msgs d') /\
  gone (fun k x => k <> trigger /\ message_of d x) (db_msgs d') /\
  (forall usr, db_users d' !! u = Some usr -> usr_status usr = UserDeleted /\ usr_deleted_at usr <> None /\
     usr_consented_at usr = None /\ usr_timezone usr = "UTC" /\ usr_default_currency usr = "" /\
     usr_locale usr = "" /\ usr_consent_version usr = "").

Lemma gone_keep {K R} `{Countable K} (p : R -> bool) (own : K -> R -> Prop) (m : gmap K R) :
  (forall k r, own k r -> p r = true) -> gone own (keep p m).
Proof. intros Hp k r [_ Hk]%map_lookup_filter_Some Ho. simpl in Hk. by rewrite (Hp k r Ho) in Hk. Qed.
Lemma gone_keep_keys {K R} `{Countable K} (p : K -> bool) (own : K -> R -> Prop) (m : gmap K R) :
  (forall k r, own k r -> p k = true) -> gone own (keep_keys p m).
Proof. intros Hp k r [_ Hk]%map_lookup_filter_Some Ho. simpl in Hk. by rewrite (Hp k r Ho) in Hk. Qed.

(** Message rows are stored under their ids, none of which is the nil UUID. *)
Definition msgs_keyed (d : DB) : Prop :=
  (forall k pm, db_msgs d !! k = Some pm -> pm_id pm = k) /\ db_msgs d !! uuid_nil = None.

Lemma entomb_lookup now (d : DB) k pm : msgs_keyed d ->
  entomb u trigger now (keep (drop_message u trigger d) (db_msgs d)) !! k = Some pm ->
  pm_user pm <> Some u /\ (k <> trigger -> ~ message_of d pm).
Proof.
  intros [Hid Hnil] Hk.
  assert (forall x, keep (drop_message u trigger d) (db_msgs d) !! k = Some x -> k <> trigger ->
    pm_user x <> Some u /\ ~ message_of d x) as Hother.
  { intros x (Hx & Hp)%map_lookup_filter_Some Hne. simpl in Hp. unfold drop_message in Hp.
    rewrite bool_decide_eq_false_2 in Hp by (rewrite (Hid k x Hx); done). simpl in Hp.
    apply user_message_other in Hp. split; [|done]. intros Hu. apply Hp. by left. }
  destruct (decide (k = trigger)) as [->|Hne].
  - split; [|done]. unfold entomb in Hk. case_bool_decide as Ht.
    + apply map_lookup_filter_Some in Hk as [Hk _]. by rewrite Ht, Hnil in Hk.
    + rewrite update_row_lookup, bool_decide_eq_true_2 in Hk by done.
      destruct (_ !! trigger) as [x|]; [|done]. simpl in Hk. case_bool_decide; by simplify_eq.
  - unfold entomb in Hk. case_bool_decide as Ht; [by destruct (Hother pm Hk Hne)|].
    rewrite update_row_lookup, bool_decide_eq_false_2 in Hk by done. by destruct (Hother pm Hk Hne).
Qed.

Lemma purged_erased now d d1 : begun u d d1 -> msgs_keyed d -> erased d (purged u trigger now d1).
Proof.
  intros Hb Hm.
  assert (d1 = upd_users (fun _ => db_users d1) d) as Hd1 by (destruct Hb as [->|(? & ? & _ & _ & _ & ->)]; by destruct d).
  rewrite Hd1. unfold erased, purged. cbn [db_receipts db_txs db_fields db_attempts db_preds db_corrs db_pending db_schedules
    db_outbound db_insights db_rules db_idents db_usage db_jobs db_msgs db_users upd_users].
  split_and!; try (apply gone_keep; intros k r Hr; first [by apply bool_decide_eq_true
    |by apply user_receipt_spec in Hr|by apply user_tx_spec in Hr]);
    try (apply gone_keep_keys; intros k r Hr; by apply user_receipt_spec in Hr).
  - apply gone_keep_keys. intros [[[s id] x] y] r [= -> ->]. unfold own_usage. simpl. by rewrite String.eqb_refl.
  - apply gone_keep. intros k r. apply own_job_spec.
  - intros k pm Hk. by apply (entomb_lookup now d k pm Hm) in Hk as [? _].
  - intros k pm Hk [Hne Hum]. apply (entomb_lookup now d k pm Hm) in Hk as [_ Hf]. by apply (Hf Hne).
  - intros usr Hu. rewrite update_row_lookup, bool_decide_eq_true_2 in Hu by done.
    destruct (db_users d1 !! u); [|done]. simpl in Hu. by simplify_eq.
Qed.

(** A key that one of the user's receipts records. *)
Definition key_recorded (d : DB) (key : string) : Prop :=
  key <> "" /\ exists id r, db_receipts d !! id = Some r /\ rc_user r = u /\ rc_storage_key r = key.

Lemma object_keys_recorded d key : key ∈ object_keys u d <-> key_recorded d key.
Proof.
  unfold object_keys, key_recorded. rewrite elem_of_remove_dups, list_elem_of_fmap. setoid_rewrite elem_of_select. split.
  - intros (r & -> & [Hp (id & Hr)]). apply andb_true_iff in Hp as [Hu Hk]. apply bool_decide_eq_true in Hu.
    split; [|by exists id, r]. by destruct (String.eqb_spec (rc_storage_key r) "").
  - intros (Hne & id & r & Hr & Hu & <-). exists r. split; [done|]. split; [|by exists id].
    rewrite bool_decide_eq_true_2 by done. by destruct (String.eqb_spec (rc_storage_key r) "").
Qed.

Lemma saga_Ok w rep w' : msgs_keyed (w_db w) -> saga w = (Ok rep, w') ->
  erased (w_db w) (w_db w') /\
  (forall k, k ∈ object_keys u (w_db w) -> w_objects w' !! k = None) /\
  (forall k, k ∉ object_keys u (w_db w) -> w_objects w' !! k = w_objects w !! k) /\
  (TrimSpace dataDir <> "" -> w_exports w' !! uuid_text u = None) /\
  (TrimSpace dataDir = "" -> w_exports w' = w_exports w).
Proof.
  intros Hm Hrun. unfold DeleteAccount in Hrun.
  destruct (WithUserLock_cases u locked w) as (w1 & (Hd & [Ho1 Hx1] & _) & [[e Hr]|[h Hr]]); rewrite Hr in Hrun; [done|].
  injection Hrun as Hok <-. destruct (locked w1) as [r w2] eqn:Hl. simpl in *. subst r.
  apply locked_Ok in Hl as ((d1 & now & Hb & Hp) & Ho & Hk & Hx & Hx'). rewrite Hd in Hb, Ho, Hk.
  rewrite Ho1 in Hk. rewrite Hx1 in Hx'. rewrite Hp. split_and!; try done. by apply purged_erased.
Qed.

(** C3: A reported deletion is complete as far as the tables know.  When
    DeleteAccount succeeds, no table holds a row of the user or a child of one, no
    message is linked to the user or sent under one of the user's identities (the
    triggering one is a bare tombstone) and the account row is de-identified.  Of
    the object store exactly the keys recorded by the user's receipts are gone: an
    image whose key no receipt records, such as that of a duplicate, stays.  With a
    data directory configured the user's export files are gone; with a blank one no
    export is touched. *)
Theorem account_erased (w : World) (rep : Report) (w' : World) :
  msgs_keyed (w_db w) -> saga w = (Ok rep, w') ->
  erased (w_db w) (w_db w') /\
  (forall key, key_recorded (w_db w) key -> w_objects w' !! key = None) /\
  (forall key, ~ key_recorded (w_db w) key -> w_objects w' !! key = w_objects w !! key) /\
  (TrimSpace dataDir <> "" -> w_exports w' !! uuid_text u = None) /\
  (TrimSpace dataDir = "" -> w_exports w' = w_exports w).
Proof.
  intros Hm Hrun. destruct (saga_Ok w rep w' Hm Hrun) as (He & Ho & Hk & Hx). split_and!; [done| | |apply Hx..];
    intros key Hr; [apply Ho|apply Hk]; by rewrite object_keys_recorded.
Qed.

(** ** Nobody else is touched *)

(** Only rows the user owns may disappear, and none appears or changes. *)
Definition pruned {K R} `{Countable K} (own : K -> R -> Prop) (m m' : gmap K R) : Prop :=
  m' ⊆ m /\ forall k r, m !! k = Some r -> ~ own k r -> m' !! k = Some r.

Definition isolated (d d' : DB) : Prop :=
  (forall id, id <> u -> db_users d' !! id = db_users d !! id) /\
  pruned (fun _ x => rc_user x = u) (db_receipts d) (db_receipts d') /\
  pruned (fun _ x => tx_user x = u) (db_txs d) (db_txs d') /\
  pruned (fun _ x => receipt_of d (ef_receipt x)) (db_fields d) (db_fields d') /\
  pruned (fun k _ => receipt_of d k.1.1.1) (db_attempts d) (db_attempts d') /\
  pruned (fun _ x => tx_of d (pr_tx x)) (db_preds d) (db_preds d') /\
  pruned (fun _ x => tx_of d (cor_tx x)) (db_corrs d) (db_corrs d') /\
  pruned (fun _ x => pa_user x = u) (db_pending d) (db_pending d') /\
  pruned (fun _ x => sch_user x = u) (db_schedules d) (db_schedules d') /\
  pruned (fun _ x => ob_user x = u) (db_outbound d) (db_outbound d') /\
  pruned (fun _ x => ins_user x = u) (db_insights d) (db_insights d') /\
  pruned (fun _ x => rule_user x = u) (db_rules d) (db_rules d') /\
  pruned (fun _ x => ident_user x = u) (db_idents d) (db_idents d') /\
  pruned (fun k _ => k.1.1 = ("user", uuid_text u)) (db_usage d) (db_usage d') /\
  pruned (fun _ x => job_of x) (db_jobs d) (db_jobs d') /\
  (forall k pm, db_msgs d !! k = Some pm -> ~ message_of d pm -> db_msgs d' !! k = Some pm) /\
  (forall k, db_msgs d !! k = None -> db_msgs d' !! k = None) /\
  db_categories d' = db_categories d /\ db_merchants d' = db_merchants d /\ db_aliases d' = db_aliases d.

Lemma pruned_refl {K R} `{Countable K} (own : K -> R -> Prop) (m : gmap K R) : pruned own m m.
Proof. by split. Qed.
Lemma pruned_keep {K R} `{Countable K} (p : R -> bool) (own : K -> R -> Prop) (m : gmap K R) :
  (forall k r, p r = true -> own k r) -> pruned own m (keep p m).
Proof.
  intros Hp. split; [apply map_filter_subseteq|]. intros k r Hk Hn. apply map_lookup_filter_Some. split; [done|].
  simpl. apply not_true_is_false. eauto.
Qed.
Lemma pruned_keep_keys {K R} `{Countable K} (p : K -> bool) (own : K -> R -> Prop) (m : gmap K R) :
  (forall k r, p k = true -> own k r) -> pruned own m (keep_keys p m).
Proof.
  intros Hp. split; [apply map_filter_subseteq|]. intros k r Hk Hn. apply map_lookup_filter_Some. split; [done|].
  simpl. apply not_true_is_false. eauto.
Qed.

Lemma entomb_others now d :
  let m' := entomb u trigger now (keep (drop_message u trigger d) (db_msgs d)) in
  (forall k pm, db_msgs d !! k = Some pm -> ~ message_of d pm -> m' !! k = Some pm) /\
  (forall k, db_msgs d !! k = None -> m' !! k = None).
Proof.
  assert (forall k pm, db_msgs d !! k = Some pm -> ~ message_of d pm ->
    keep (drop_message u trigger d) (db_msgs d) !! k = Some pm) as Hk.
  { intros k pm Hk Hf%user_message_other. apply map_lookup_filter_Some. split; [done|]. simpl. unfold drop_message.
    by rewrite Hf, andb_false_r. }
  assert (forall k, db_msgs d !! k = None -> keep (drop_message u trigger d) (db_msgs d) !! k = None) as Hn.
  { intros k Hnone. apply map_lookup_filter_None. by left. }
  unfold entomb. case_bool_decide; [done|]. split.
  - intros k pm Hpm Hf. rewrite update_row_lookup, (Hk k pm Hpm Hf). simpl. case_bool_decide; [|done].
    rewrite bool_decide_eq_false_2; [done|]. intros Hu. apply Hf. by left.
  - intros k Hnone. rewrite update_row_lookup, (Hn k Hnone). by case_bool_decide.
Qed.

Lemma begun_isolated d d1 : begun u d d1 -> isolated d d1.
Proof.
  intros [->|(now & usr & _ & _ & _ & ->)]; unfold isolated; cbn [upd_users db_users db_receipts db_txs db_fields db_attempts
    db_preds db_corrs db_pending db_schedules db_outbound db_insights db_rules db_idents db_usage db_jobs db_msgs
    db_categories db_merchants db_aliases]; split_and!; try apply pruned_refl; try done.
  intros id Hne. by rewrite lookup_insert_ne.
Qed.

Lemma purged_isolated now d d1 : begun u d d1 -> isolated d (purged u trigger now d1).
Proof.
  intros Hb. pose proof (begun_isolated d d1 Hb) as [Hu _].
  assert (d1 = upd_users (fun _ => db_users d1) d) as Hd1 by (destruct Hb as [->|(? & ? & _ & _ & _ & ->)]; by destruct d).
  rewrite Hd1. unfold isolated, purged. cbn [db_receipts db_txs db_fields db_attempts db_preds db_corrs db_pending
    db_schedules db_outbound db_insights db_rules db_idents db_usage db_jobs db_msgs db_users db_categories db_merchants
    db_aliases upd_users].
  split_and!; try done; try (apply pruned_keep; intros k r Hr; first [by apply bool_decide_eq_true in Hr
    |by apply user_receipt_spec|by apply user_tx_spec]);
    try (apply pruned_keep_keys; intros k r Hr; by apply user_receipt_spec); try apply (entomb_others now d).
  - intros id Hne. rewrite update_row_lookup, bool_decide_eq_false_2 by done. by apply Hu.
  - apply pruned_keep_keys. intros [[[s id] x] y] r. unfold own_usage. simpl.
    intros [?%String.eqb_eq ?%String.eqb_eq]%andb_true_iff. by subst.
  - apply pruned_keep. intros k r. apply own_job_spec.
Qed.

(** Deleting one account never touches another.  Whatever faults strike
    and whatever the outcome, every other user's account row is as before, only
    rows owned by the user, or children of such rows, may be missing from any
    table, no row appears or changes, and messages of others stay. *)
Theorem account_isolation (w : World) : isolated (w_db w) (w_db (snd (saga w))).
Proof.
  destruct (saga_tables w) as (d1 & Hb & [->|[now ->]]); [by apply begun_isolated|by apply purged_isolated].
Qed.
End saga_theorems.

(** ** An interrupted deletion can be resumed *)
Lemma existsb_keep {K R} `{Countable K} (p : R -> bool) (m : gmap K R) : existsb p (rows (keep p m)) = false.
Proof. apply existsb_rows. by intros k r [_ Hr]%map_lookup_filter_Some. Qed.
Lemma existsb_keep_keys {K R} `{Countable K} (p : K -> bool) (m : gmap K R) :
  existsb p (map_to_list (keep_keys p m)).*1 = false.
Proof.
  apply not_true_is_false. intros (k & Hin%list_elem_of_In & Hp)%existsb_exists.
  apply list_elem_of_fmap in Hin as ([k' r] & -> & Hin%elem_of_map_to_list).
  apply map_lookup_filter_Some in Hin as [_ Hf]. simpl in *. congruence.
Qed.
Lemma existsb_pruned {K R} `{Countable K} (p q : R -> bool) (m : gmap K R) :
  (forall k r, m !! k = Some r -> p r = true -> q r = true) -> existsb p (rows (keep q m)) = false.
Proof.
  intros Hpq. apply existsb_rows. intros k r [Hk Hq]%map_lookup_filter_Some. simpl in Hq.
  apply not_true_is_false. intros Hp. by rewrite (Hpq k r Hk Hp) in Hq.
Qed.

Section resume.
Context `{Env} (objects : bool) (dataDir : string) (u trigger : uuid).
Context (N : nat) (Hnf : forall n, (N <= n)%nat -> fault n = None).
Abbreviation total m := (forall w, late N w -> runs N m (fun _ _ => True) w).

Lemma total_ret {A} (a : A) : total (ret (S := World) (E := Err) a).
Proof. intros w Hl. by apply runs_ret. Qed.
Lemma total_bind {A B} (m : Go A) (k : A -> Go B) : total m -> (forall a, total (k a)) -> total (bind m k).
Proof. intros Hm Hk w Hl. apply runs_bind. eapply runs_mono; [by apply Hm|]. intros a w1 Hl1 _. by apply Hk. Qed.
Lemma total_wrap {A} f (m : Go A) : total m -> total (wrap_err f m).
Proof. intros Hm w Hl. by apply runs_wrap, Hm. Qed.
Lemma total_dml {A} (f : Time -> DB -> A * DB) : total (dml f).
Proof. intros w Hl. by apply runs_dml. Qed.
Lemma runs_post {A} (m : Go A) (Q : A -> World -> Prop) w :
  runs N m (fun _ _ => True) w -> (forall a w', m w = (Ok a, w') -> late N w' -> Q a w') -> runs N m Q w.
Proof. intros (a & w1 & Hm & Hl & _) HQ. exists a, w1. auto. Qed.

Ltac totals := repeat (apply total_bind; [|intros ?]);
  repeat first [apply total_ret | apply total_wrap, total_dml].

Lemma total_purge_owned : total (purge_owned u).
Proof. unfold purge_owned, del, del_keys. totals. Qed.
Lemma total_purge_receipt_data : total (purge_receipt_data u).
Proof. unfold purge_receipt_data, del, del_keys. totals. Qed.

(** What a deletion needs of the tables: a live account, the triggering message
    in the user's name, usable object keys, and references between rows of one
    user only. *)
Definition live_user (d : DB) : Prop := exists usr,
  db_users d !! u = Some usr /\ usr_deleted_at usr = None /\ usr_status usr <> UserDeleted.
Definition live_trigger (d : DB) : Prop :=
  trigger = uuid_nil \/ exists pm, db_msgs d !! trigger = Some pm /\ pm_user pm = Some u.
Definition refs_closed (d : DB) : Prop :=
  (forall k x id, db_pending d !! k = Some x -> pa_tx x = Some id -> user_tx u d id = true -> pa_user x = u) /\
  (forall k x id, db_txs d !! k = Some x -> tx_receipt x = Some id -> user_receipt u d id = true -> tx_user x = u) /\
  (forall k pm, db_msgs d !! k = Some pm -> user_message u d pm = true ->
     (forall k' r, db_receipts d !! k' = Some r -> rc_message r = Some (pm_id pm) -> rc_user r = u) /\
     (forall k' t, db_txs d !! k' = Some t -> tx_provider_message t = Some (pm_id pm) -> tx_user t = u)).
Definition deletable (d : DB) : Prop :=
  live_user d /\ live_trigger d /\ msgs_keyed d /\ refs_closed d /\
  (forall k, k ∈ object_keys u d -> validateKey k = None).

Lemma runs_started op (Q : User -> World -> Prop) w : late N w -> live_user (w_db w) ->
  (forall usr, db_users (w_db w) !! u = Some usr -> Q usr (tick w)) -> runs N (deletion_started op u) Q w.
Proof.
  intros Hl (usr & Hu & Hdel & Hst) HQ. unfold deletion_started. apply runs_bind, runs_wrap, runs_query; [done..|].
  rewrite Hu. rewrite !bool_decide_eq_false_2 by (try done; by intros []). apply runs_ret; [|by apply HQ].
  unfold late in *. simpl. lia.
Qed.

Lemma runs_delete_txs (Q : Z -> World -> Prop) p w : late N w ->
  (let hit id := existsb (fun t => p t && bool_decide (tx_id t = id)) (rows (db_txs (w_db w))) in
   existsb (fun x => hit (pr_tx x)) (rows (db_preds (w_db w))) = false /\
   existsb (fun x => hit (cor_tx x)) (rows (db_corrs (w_db w))) = false /\
   existsb (fun x => match pa_tx x with Some id => hit id | None => false end) (rows (db_pending (w_db w))) = false) ->
  (forall n, Q n (set_db (upd_txs (keep p) (w_db w)) (tick w))) -> runs N (stmt (delete_txs p)) Q w.
Proof.
  intros Hl (H1 & H2 & H3) HQ. eapply (runs_stmt N Hnf); [done| |apply HQ].
  unfold delete_txs. cbv zeta. rewrite H1, H2, H3. done.
Qed.
Lemma runs_delete_receipts (Q : Z -> World -> Prop) p w : late N w ->
  (let hit id := existsb (fun t => p t && bool_decide (rc_id t = id)) (rows (db_receipts (w_db w))) in
   existsb (fun x => hit (ef_receipt x)) (rows (db_fields (w_db w))) = false /\
   existsb (fun k => hit k.1.1.1) (map_to_list (db_attempts (w_db w))).*1 = false /\
   existsb (fun x => match tx_receipt x with Some id => hit id | None => false end) (rows (db_txs (w_db w))) = false) ->
  (forall n, Q n (set_db (upd_receipts (keep p) (w_db w)) (tick w))) -> runs N (stmt (delete_receipts p)) Q w.
Proof.
  intros Hl (H1 & H2 & H3) HQ. eapply (runs_stmt N Hnf); [done| |apply HQ].
  unfold delete_receipts. cbv zeta. rewrite H1, H2, H3. done.
Qed.

Lemma runs_purge_messages w : late N w -> msgs_keyed (w_db w) -> live_trigger (w_db w) ->
  (forall k pm, db_msgs (w_db w) !! k = Some pm -> user_message u (w_db w) pm = true ->
     msg_referenced (w_db w) (pm_id pm) = false) ->
  runs N (purge_messages u trigger) (fun _ _ => True) w.
Proof.
  intros Hl [Hid _] Htrig Href. unfold purge_messages. apply runs_bind, runs_wrap.
  eapply (runs_stmt N Hnf); [done|unfold delete_msgs|].
  { erewrite (proj2 (existsb_rows _ _)); [done|]. intros k pm Hk. apply not_true_is_false. cbv beta.
    intros [[_ Hum]%andb_true_iff Hr]%andb_true_iff. by rewrite (Href k pm Hk Hum) in Hr. }
  assert (late N (set_db (upd_msgs (fun _ => keep (drop_message u trigger (w_db w)) (db_msgs (w_db w))) (w_db w)) (tick w)))
    as Hl1 by (unfold late in *; simpl; lia).
  apply runs_bind. case_bool_decide as Hnil; [by apply runs_ret; [|apply runs_ret]|].
  destruct Htrig as [|(pm & Hpm & Hu)]; [done|].
  assert (keep (drop_message u trigger (w_db w)) (db_msgs (w_db w)) !! trigger = Some pm) as Hkept.
  { apply map_lookup_filter_Some. split; [done|]. simpl. unfold drop_message.
    by rewrite bool_decide_eq_true_2 by (by apply Hid). }
  apply runs_bind, runs_wrap, (runs_dml N Hnf); [done|].
  match goal with |- runs _ (if ?n =? 1 then _ else _) _ _ => assert (n = 1) as -> end.
  { simpl. unfold update_row. unfold keep in Hkept. unfold delete_where, drop_message in *. simpl in *. rewrite Hkept.
    by rewrite bool_decide_eq_true_2. }
  simpl. apply runs_ret; [|apply runs_ret]; unfold late in *; simpl; try done; lia.
Qed.

(** The tables when the messages are about to go. *)
Lemma refs_after_rows d (d' : DB) :
  refs_closed d -> db_msgs d' = db_msgs d -> db_idents d' = db_idents d ->
  db_receipts d' = keep (fun r => bool_decide (rc_user r = u)) (db_receipts d) ->
  db_txs d' = keep (fun t => bool_decide (tx_user t = u)) (db_txs d) ->
  forall k pm, db_msgs d' !! k = Some pm -> user_message u d' pm = true -> msg_referenced d' (pm_id pm) = false.
Proof.
  intros (_ & _ & Hm) E1 E2 E3 E4 k pm Hk Hum. rewrite E1 in Hk. unfold user_message in Hum. rewrite E2 in Hum.
  destruct (Hm k pm Hk Hum) as [Hr Ht]. unfold msg_referenced. rewrite E3, E4.
  apply orb_false_iff. split; apply existsb_pruned; intros k' x Hx Hp; apply bool_decide_eq_true in Hp; apply bool_decide_eq_true; eauto.
Qed.

Lemma runs_purge_body w : late N w -> deletable (w_db w) ->
  (forall usr, db_users (w_db w) !! u = Some usr -> usr_status usr = UserDeleting) ->
  runs N (purge_body u trigger) (fun _ _ => True) w.
Proof.
  intros Hl (Hlive & Htrig & Hkeyed & Hrefs & _) Hst. unfold purge_body.
  apply runs_bind, runs_started; [done..|]. intros usr Hu. rewrite bool_decide_eq_true_2 by eauto. cbn [negb].
  assert (late N (tick w)) as Hl1 by (unfold late in *; simpl; lia).
  apply runs_bind, runs_post; [by apply total_wrap; [apply total_dml|]|]. intros n1 w1 H1 Hl2.
  apply (del_Ok upd_jobs db_jobs) in H1 as [D1 _]; [|done]. simpl in D1.
  apply runs_bind, runs_post; [by apply total_purge_owned|]. intros n2 w2 [D2 _]%purge_owned_Ok Hl3. rewrite D1 in D2.
  simpl in D2. apply runs_bind, runs_wrap, runs_delete_txs; [done| |intros n3].
  { rewrite D2. split_and!; [apply existsb_keep..|]. apply existsb_pruned. intros k x Hx Hp. apply bool_decide_eq_true.
    destruct (pa_tx x) as [id|] eqn:Hid; [|done]. destruct Hrefs as [Hrefs _]. by apply (Hrefs k x id). }
  assert (late N (set_db (upd_txs (keep (fun t => bool_decide (tx_user t = u))) (w_db w2)) (tick w2))) as Hl4
    by (unfold late in *; simpl; lia).
  apply runs_bind, runs_post; [by apply total_purge_receipt_data|]. intros n4 w4 [D4 _]%purge_receipt_data_Ok Hl5.
  assert (db_receipts (w_db w2) = db_receipts (w_db w) /\ db_txs (w_db w2) = db_txs (w_db w) /\
    db_msgs (w_db w2) = db_msgs (w_db w) /\ db_idents (w_db w2) = db_idents (w_db w)) as (R2 & T2 & M2 & I2)
    by (rewrite D2; done).
  clear D1 D2. apply runs_bind, runs_wrap, runs_delete_receipts; [done| |intros n5].
  { rewrite D4. cbn. split_and!; [apply existsb_keep|apply existsb_keep_keys|]. apply existsb_pruned. rewrite T2, R2.
    intros k x Hx Hp. apply bool_decide_eq_true. destruct (tx_receipt x) as [id|] eqn:Hid; [|done].
    destruct Hrefs as (_ & Hrefs & _). by apply (Hrefs k x id). }
  apply runs_bind. eapply runs_mono; [apply runs_purge_messages|intros n6 w6 Hl6 _].
  - unfold late in *; simpl; lia.
  - rewrite D4. unfold msgs_keyed. cbn. by rewrite M2.
  - rewrite D4. unfold live_trigger. cbn. by rewrite M2.
  - apply (refs_after_rows (w_db w)); rewrite ?D4; cbn; rewrite ?R2, ?T2; done.
  - revert w6 Hl6. unfold del. totals.
Qed.

Lemma total_begin w : late N w -> live_user (w_db w) -> runs N (begin_body u) (fun _ _ => True) w.
Proof.
  intros Hl Hlive. unfold begin_body. apply runs_bind, runs_started; [done..|]. intros usr _.
  assert (late N (tick w)) as Hl1 by (unfold late in *; simpl; lia). revert Hl1. generalize (tick w). clear Hl Hlive w.
  apply total_bind; [case_bool_decide; totals|]. intros _. apply total_wrap. intros w Hl. by apply runs_query.
Qed.

Lemma runs_objects keys n w : late N w -> (forall k, k ∈ keys -> validateKey k = None) ->
  runs N (for_each keys delete_object n) (fun _ _ => True) w.
Proof.
  revert n w. induction keys as [|k keys IH]; intros n w Hl Hk; simpl; [by apply runs_ret|].
  apply runs_bind, runs_bind, runs_wrap. unfold objects_Delete, object_effect. rewrite (Hk k) by constructor.
  eexists tt, _. rewrite Hnf by done. assert (late N (tick (set_objects (delete k (w_objects w)) w))) as Hl1
    by (unfold late in *; simpl; lia).
  split_and!; [done..|]. apply runs_ret; [done|]. apply IH; [done|]. intros k' Hk'. apply Hk. by constructor.
Qed.

Lemma runs_exports w : late N w -> runs N (removeExportArtifacts dataDir u) (fun _ _ => True) w.
Proof.
  intros Hl. assert (forall n, late N (Nat.iter n tick w)) as Hls.
  { induction n; [done|]. unfold late in *. simpl. lia. }
  unfold removeExportArtifacts. destruct (String.eqb _ _); [by apply runs_ret|].
  apply runs_bind, runs_wrap, (runs_may_fail N Hnf); [done|]. apply runs_bind.
  exists (w_exports w !! uuid_text u), (tick w). split_and!; [done|apply (Hls 1%nat)|].
  apply runs_bind, runs_wrap, (runs_may_fail N Hnf); [apply (Hls 1%nat)|].
  destruct (_ !! _) as [files|]; [|apply runs_ret; [apply (Hls 2%nat)|done]].
  eexists _, _. rewrite Hnf by apply (Hls 2%nat). split_and!; [done|apply (Hls 3%nat)|done].
Qed.

Lemma runs_rest keys w : objects = true -> late N w -> deletable (w_db w) ->
  (forall usr, db_users (w_db w) !! u = Some usr -> usr_status usr = UserDeleting) ->
  (forall k, k ∈ keys -> validateKey k = None) -> runs N (saga_rest objects dataDir u trigger keys) (fun _ _ => True) w.
Proof.
  intros -> Hl Hdel Hst Hkeys. unfold saga_rest. rewrite andb_false_r.
  apply runs_bind, runs_post; [by apply runs_objects|]. intros n w1 H1 Hl1.
  pose proof (evolves_for_each (on_db eq) keys delete_object 0 (fun n k => db_delete_object n k) w) as D1.
  rewrite H1 in D1. apply runs_bind, runs_wrap, runs_post; [by apply runs_exports|]. intros x w2 H2 Hl2.
  pose proof (db_exports u dataDir w1) as D2. rewrite H2 in D2. unfold on_db in D1, D2. simpl in D1, D2.
  apply runs_bind, runs_wrap, (runs_in_tx N Hnf); [done|].
  eapply runs_mono; [apply runs_purge_body|].
  - unfold late in *. simpl. lia.
  - simpl. by rewrite <- D2, <- D1.
  - simpl. by rewrite <- D2, <- D1.
  - intros a w3 Hl3 _. apply runs_ret; [|done]. unfold late in *. simpl. lia.
Qed.

Lemma begun_deletable d d1 : begun u d d1 -> deletable d -> deletable d1.
Proof.
  intros [->|(now & usr & Hu & Hdel & Hst & ->)] (Hlive & Hrest); [by split|]. split; [|exact Hrest].
  exists (set_user_status UserDeleting now usr). simpl. rewrite lookup_insert_eq. by split_and!.
Qed.

Lemma runs_saga w : objects = true -> late N w -> deletable (w_db w) ->
  runs N (DeleteAccount objects dataDir u trigger) (fun _ _ => True) w.
Proof.
  intros Hobj Hl Hdel.
  assert (forall w1, late N w1 -> w_db w1 = w_db w -> runs N (deleteAccountLocked objects dataDir u trigger) (fun _ _ => True) w1) as Hrun.
  { intros w1 Hl1 Hd. unfold deleteAccountLocked. apply runs_bind, runs_wrap, runs_post.
    - apply (runs_in_tx N Hnf); [done|]. eapply runs_mono; [apply total_begin|done].
      + unfold late in *. simpl. lia.
      + simpl. rewrite Hd. by destruct Hdel.
    - intros keys w2 H2 Hl2. pose proof (Begin_cases u w1) as [Hb Hk]. rewrite H2, Hd in Hb. rewrite H2, Hd in Hk.
      destruct (Hk keys eq_refl) as (-> & usr & Hu & Hst & _). simpl in *.
      apply (runs_rest (object_keys u (w_db w))); [done..|by apply (begun_deletable (w_db w))| |].
      + intros usr' Hu'. congruence.
      + by destruct Hdel as (_ & _ & _ & _ & Hv). }
  unfold DeleteAccount, WithUserLock, runs. destruct (UserLockHeld w u); [by apply Hrun|].
  assert ((may_fail;;; may_fail;;; may_fail) w = (Ok tt, tick (tick (tick w)))) as ->.
  { unfold bind, may_fail. unfold late in Hl. simpl. rewrite !Hnf; [done|simpl; lia..]. }
  destruct (Hrun (set_held (Some u) (tick (tick (tick w))))) as (a & w' & Hr & Hl' & _).
  - unfold late in *. simpl. lia.
  - done.
  - rewrite Hr. simpl. eexists _, _. done.
Qed.

(** C12: An interrupted deletion can be resumed.  Start from an account that can
    be deleted and let the first attempt be struck by any faults.  Once the
    faults are over, the account is already erased, because only the reply of the
    final commit was lost, or simply repeating the deletion succeeds. *)
Theorem deletion_resumes (w : World) :
  objects = true -> deletable (w_db w) -> late N (snd (DeleteAccount objects dataDir u trigger w)) ->
  let w1 := snd (DeleteAccount objects dataDir u trigger w) in
  erased u trigger (w_db w) (w_db w1) \/
  exists rep w2, DeleteAccount objects dataDir u trigger w1 = (Ok rep, w2) /\ erased u trigger (w_db w1) (w_db w2).
Proof.
  intros Hobj Hdel Hl. cbv zeta. destruct (saga_tables objects dataDir u trigger w) as (d1 & Hb & [Heq|[now Heq]]).
  - right. pose proof (begun_deletable _ _ Hb Hdel) as Hdel1. rewrite <- Heq in Hdel1.
    destruct (runs_saga _ Hobj Hl Hdel1) as (rep & w2 & Hr & _). exists rep, w2. split; [done|].
    destruct Hdel1 as (_ & _ & Hk & _). by destruct (saga_Ok _ _ _ _ _ _ _ Hk Hr).
  - left. rewrite Heq. apply purged_erased; [done|]. by destruct Hdel as (_ & _ & Hk & _).
Qed.
End resume.

Module AccountDemo.
(** The object store is down during the first attempt (ticks 0 to 8). *)
Definition down : nat -> option Fault := fun n =>
  if Nat.eqb n 8 then Some (mkFault (mkDriverErr NetOpError "connection refused") false) else None.
Definition env : Env := demo_env down (fun n => Z.of_nat n * Second).
Definition ann : User := mkUser 1 UserActive "Asia/Ho_Chi_Minh" "VND" "vi-VN" "v1" (Some 0) 0 0 None.
Definition bob : User := mkUser 2 UserActive "Asia/Ho_Chi_Minh" "VND" "vi-VN" "v1" (Some 0) 0 0 None.
Definition msg (id u : uuid) : ProviderMessage :=
  mkPM id "zalo_bot" "c" (pretty id) (Some u) "message.text" "h" "{}" 0 None None None MessageProcessed.
Definition receipt (id u m : uuid) : ReceiptDocument :=
  mkReceipt id u (Some m) ("receipts/" ++ pretty id) "" "image/png" 3 "h" "" ReceiptConfirmed "originals_30d" None 0 0 None.
(** Object receipts/9 is the image of a duplicate: no receipt records its key. *)
Definition db : DB :=
  upd_receipts (fun _ => {[ 20%N := receipt 20 1 10; 21%N := receipt 21 2 11 ]})
  (upd_msgs (fun _ => {[ 10%N := msg 10 1; 11%N := msg 11 2; 12%N := msg 12 1 ]})
  (upd_users (fun _ => {[ 1%N := ann; 2%N := bob ]}) empty_db)).
Definition w : World := set_objects {[ "receipts/20" := "abc"; "receipts/21" := "def"; "receipts/9" := "copy" ]} (world_of db).
Definition w1 : World := snd (@DeleteAccount env true "data" 1 12 w).

Example interrupted : fst (@DeleteAccount env true "data" 1 12 w) <> Ok (mkReport 0 0 0 0 0 0) /\
  is_ok (fst (@DeleteAccount env true "data" 1 12 w)) = false /\ is_ok (fst (@DeleteAccount env true "data" 1 12 w1)) = true.
Proof. vm_compute. split_and!; done. Qed.

Ltac table_cases H := simpl in H; rewrite ?lookup_insert_Some, lookup_singleton_Some in H;
  repeat match goal with X : _ \/ _ |- _ => destruct X | X : _ /\ _ |- _ => destruct X end; subst.

Lemma demo_msgs_keyed : msgs_keyed db.
Proof. split; [intros k pm Hk; table_cases Hk; done|vm_compute; reflexivity]. Qed.

Lemma can_delete : @deletable env 1 12 db.
Proof.
  split_and!; [exists ann; done|right; exists (msg 12 1); done|apply demo_msgs_keyed| |].
  - split_and!; [by intros k x id Hk|by intros k x id Hk|]. intros k pm Hk. table_cases Hk; intros Hum; (split; [|by intros k' t Ht]);
      intros k' r Hr; table_cases Hr; vm_compute in Hum |- *; done.
  - intros k Hk. assert (k = "receipts/20") as -> by (apply list_elem_of_In in Hk; vm_compute in Hk; by destruct Hk). done.
Qed.

Lemma faults_over : forall n, (9 <= n)%nat -> @fault env n = None.
Proof. intros n Hn. simpl. unfold down. destruct (Nat.eqb_spec n 8); [lia|done]. Qed.

Lemma deletion_resumes_witness :
  let w1 := snd (@DeleteAccount env true "data" 1 12 w) in
  @erased env 1 12 (w_db w) (w_db w1) \/
  exists rep w2, @DeleteAccount env true "data" 1 12 w1 = (Ok rep, w2) /\ @erased env 1 12 (w_db w1) (w_db w2).
Proof.
  refine (@deletion_resumes env true "data" 1 12 9 faults_over w eq_refl can_delete _).
  vm_compute. repeat constructor.
Defined.

Lemma account_erased_witness : exists rep w2, @DeleteAccount env true "data" 1 12 w1 = (Ok rep, w2) /\
  @erased env 1 12 (w_db w1) (w_db w2) /\ w_objects w2 !! "receipts/20" = None /\
  w_objects w2 !! "receipts/9" = Some "copy".
Proof.
  assert (msgs_keyed (w_db w1)) as Hk by (replace (w_db w1) with (upd_users (fun _ => db_users (w_db w1)) db);
    [exact demo_msgs_keyed|vm_compute; reflexivity]).
  exists (mkReport 1 0 1 0 2 0), (snd (@DeleteAccount env true "data" 1 12 w1)).
  assert (@DeleteAccount env true "data" 1 12 w1 = (Ok (mkReport 1 0 1 0 2 0), snd (@DeleteAccount env true "data" 1 12 w1)))
    as Hrun by (vm_compute; reflexivity).
  destruct (@account_erased env true "data" 1 12 w1 _ _ Hk Hrun) as (He & Ho & Hkeep & _).
  split; [exact Hrun|split_and!; [exact He| |]].
  - apply Ho. split; [discriminate|]. exists 20%N, (receipt 20 1 10). split_and!; vm_compute; reflexivity.
  - rewrite Hkeep; [vm_compute; reflexivity|].
    intros (_ & id & r & Hr & Hu & Hkey).
    replace (db_receipts (w_db w1)) with (db_receipts db) in Hr by (vm_compute; reflexivity).
    table_cases Hr; vm_compute in Hkey; discriminate.
Defined.
End AccountDemo.
