(* ===== verification/BotCommands.v ===== *)
(** * Chat commands

    internal/bot/commands.go, with the lookups it shares with text.go: what each
    command does to the stores and which reply it puts in the outbox.  [local]
    is the zone of the process, in which times read from the database print;
    [objects] says whether an object store is configured. *)
From S2P Require Import Prelude GoStrings Domain GoTime Periods Json Normalise Db Queue StoreOutbound StoreInbound StoreReceipts.
From S2P Require Import StoreTx StoreSchedules StoreCatalog Categorisation Insight Templates Texts Config Parse Fields Notify Export Account.

(** ** Library functions the commands call *)

(** [fmt.Sscanf(s, "%d", &n)] on trimmed text: an optional sign and the leading
    digits; what follows them is not read. *)
Fixpoint leading_digits (s : string) : string :=
  match s with String c s' => if is_digit c then String c (leading_digits s') else "" | "" => "" end.
Definition Sscanf_d (s : string) : option Z :=
  match s with
  | String c s' => if (byte_of c =? 43) || (byte_of c =? 45) then ParseInt (String c (leading_digits s')) else ParseInt (leading_digits s)
  | "" => None
  end.

(** [filepath.Join] on a slash-separated system: the elements after the leading
    empty ones, joined and cleaned. *)
Fixpoint split_slash (s : string) : list string :=
  match s with
  | "" => [""]
  | String c s' => if byte_of c =? 47 then "" :: split_slash s'
                   else match split_slash s' with p :: ps => String c p :: ps | [] => [String c ""] end
  end.
Definition clean_step (rooted : bool) (out : list string) (elem : string) : list string :=
  if String.eqb elem "" || String.eqb elem "." then out
  else if String.eqb elem ".." then
    match out with
    | top :: rest => if String.eqb top ".." then elem :: out else rest
    | [] => if rooted then [] else [elem]
    end
  else elem :: out.
Definition filepath_Clean (path : string) : string :=
  let rooted := HasPrefix path "/" in
  let body := String.concat "/" (rev (fold_left (clean_step rooted) (split_slash path) [])) in
  if rooted then "/" ++ body else if String.eqb body "" then "." else body.
Fixpoint filepath_Join (elems : list string) : string :=
  match elems with
  | [] => ""
  | e :: rest => if String.eqb e "" then filepath_Join rest else filepath_Clean (String.concat "/" elems)
  end.

(** [Format] with the three layouts of the commands. *)
Definition date_text (sep : string) (loc : Location) (t : Time) : string :=
  let c := local_date loc t in zero_pad 4 (Sprintd c.1.1) ++ sep ++ two c.1.2 ++ sep ++ two c.2.
Definition Format_day (loc : Location) (t : Time) : string := date_text "-" loc t.
Definition Format_minute (loc : Location) (t : Time) : string :=
  let s := local_clock loc t in Format_day loc t ++ " " ++ two (s / 3600) ++ ":" ++ two (s / 60 mod 60).
Definition Format_stamp (loc : Location) (t : Time) : string :=
  let s := local_clock loc t in date_text "" loc t ++ "-" ++ two (s / 3600) ++ two (s / 60 mod 60) ++ two (s mod 60).

(** A copy of the struct with the fields the dialogue edits. *)
Definition set_tx_fields (ty : TxType) (merchant : option uuid) (name : string) (amount : Z) (cur : string) (at_ : Time)
    (cat : option uuid) (status : TxStatus) (confirmed : option Time) (t : Transaction) : Transaction :=
  mkTx (tx_id t) (tx_user t) (tx_receipt t) (tx_account t) ty merchant name (tx_description t) amount cur at_ cat status
    (tx_source t) (tx_confidence t) confirmed (tx_version t) (tx_created_at t) (tx_updated_at t) (tx_deleted_at t) (tx_provider_message t).
Definition set_tx_category (cat : uuid) (status : TxStatus) (t : Transaction) : Transaction :=
  set_tx_fields (tx_type t) (tx_merchant t) (tx_merchant_name t) (tx_amount t) (tx_currency t) (tx_occurred_at t) (Some cat) status (tx_confirmed_at t) t.

Definition pendingTTL : Z := 24 * Hour.
Inductive periodKind := periodToday | periodWeek | periodMonth | periodLastWeek | periodLastMonth.

(** [validCurrencyCode] *)
Definition validCurrencyCode (currency : string) : bool :=
  (String.length currency =? 3)%nat && forall_bytes (fun c => (65 <=? byte_of c) && (byte_of c <=? 90)) currency.

(** [ptrKey] needs only the text of identifiers. *)
Definition ptrKey `{Env} (id : option uuid) : string := match id with None => "" | Some id => uuid_text id end.

Section commands.
Context `{Env} `{TzData} `{SqlLocale} (local : Location) (cfg : Config) (objects : bool).

(** [Handler.reply] *)
Definition reply (userID : uuid) (ev : InboundEvent) (body idem : string) : Go unit :=
  Reply userID (ev_provider ev) (ev_chat ev) body idem.

(** [categoryName] *)
Definition categoryName (id : option uuid) : Go string :=
  match id with
  | None => ret ""
  | Some id => let* cat := attempt (GetCategoryByID id) in
               match cat with Ok c => ret (cat_display c) | Fail _ => ret "" end
  end.

(** [matchCategory] *)
Definition category_named (key : string) (c : Category) : bool :=
  String.eqb (cat_key c) key || (String.eqb (snd (NormaliseMerchant (cat_display c))) key && negb (String.eqb key "")).
Definition pick_category (cats : list Category) (text : string) : option Category :=
  let t := TrimSpace text in
  let by_name := List.find (category_named (snd (NormaliseMerchant t))) cats in
  match Sscanf_d t with
  | Some n => if (1 <=? n) && (n <=? Z.of_nat (length cats)) then cats !! Z.to_nat (n - 1) else by_name
  | None => by_name
  end.
Definition matchCategory (text : string) : Go Category :=
  let* cats := ListCategories in
  match pick_category cats text with
  | Some c => ret c
  | None => fail (E CodeNotFound ("no category matches " ++ quoted text) None)
  end.

(** ** handleImage *)

(** The first half: the receipt of this message, with the daily quota charged
    when it is new; [None] when the reply about the quota ends the command. *)
Definition register_receipt (user : User) (ev : InboundEvent) (pm : uuid) : Go (option ReceiptDocument) :=
  let* receiptID := uuid_New in
  let '(keep, policy) := OriginalRetention cfg in
  let* now := clk_Now in
  let* '(receipt, created) := GetOrCreateReceiptForProviderMessage
    (mkReceipt receiptID (usr_id user) (Some pm) "" "" "" 0 "" "" ReceiptUnset policy (Some (now + keep)) 0 0 None) in
  let limit := PerUserDailyReceiptLimit cfg in
  if created then
    let* today := clk_Now in
    let* count := attempt (IncrementUsage "user" (uuid_text (usr_id user)) (Format_day UTC today) "receipts" 1 limit) in
    match count with
    | Fail err => ignore (DeleteReceivedReceipt (rc_id receipt)) ;;; fail err
    | Ok count =>
        if (0 <? limit) && (limit <? count) then
          TransitionReceipt (rc_id receipt) ReceiptReceived ReceiptFailedPermanent ;;;
          reply (usr_id user) ev (DailyQuotaText limit) ("quota:" ++ uuid_text pm) ;;;
          ret None
        else ret (Some receipt)
    end
  else ret (Some receipt).
(** The second half: queue the receipt, unless processing already owns it. *)
Definition enqueue_receipt (user : User) (ev : InboundEvent) (pm receipt : uuid) : Go unit :=
  let* jobID := uuid_New in
  let* now := clk_Now in
  let job := mkReceiptJob jobID receipt (usr_id user) (ev_provider ev) (ev_chat ev) (ev_message ev) 1 now in
  let* res := attempt (Enqueue JobReceiptProcess (PayReceipt job) (Some ("receipt:" ++ uuid_text pm)) 5) in
  match res with
  | Ok _ => ret tt
  | Fail (Sentinel m) => if String.eqb m "queue: duplicate dedupe key" then ret tt else fail (Sentinel m)
  | Fail err => fail err
  end.
Definition queue_receipt (user : User) (ev : InboundEvent) (pm : uuid) (receipt : ReceiptDocument) : Go unit :=
  let ack := reply (usr_id user) ev ReceiptReceivedText ("ack:" ++ uuid_text pm) in
  match rc_status receipt with
  | ReceiptReceived =>
      TransitionReceipt (rc_id receipt) ReceiptReceived ReceiptQueued ;;; enqueue_receipt user ev pm (rc_id receipt) ;;; ack
  | ReceiptQueued => enqueue_receipt user ev pm (rc_id receipt) ;;; ack
  | _ => ack
  end.
Definition handleImage (user : User) (ev : InboundEvent) (pm : uuid) : Go unit :=
  if bool_decide (ev_media ev = []) then reply (usr_id user) ev UnsupportedEventText ("unsup:" ++ uuid_text pm)
  else
    let* receipt := register_receipt user ev pm in
    match receipt with None => ret tt | Some r => queue_receipt user ev pm r end.

(** ** Summaries and schedules *)

(** [summary] *)
Definition period_of (kind : periodKind) (now : Time) (l : Location) : Period * string * string :=
  match kind with
  | periodToday => (Today now l, "Hôm nay", TypeDaily)
  | periodWeek => (ThisWeek now l, "Tuần này", TypeWeekly)
  | periodMonth => (ThisMonth now l, "Tháng này", TypeMonthly)
  | periodLastWeek => (LastWeek now l, "Tuần trước", TypeWeekly)
  | periodLastMonth => (LastMonth now l, "Tháng trước", TypeMonthly)
  end.
Definition summary (user : User) (ev : InboundEvent) (pm : uuid) (kind : periodKind) : Go unit :=
  let l := user_Location user in
  let* now := clk_Now in
  let '(p, label, insightType) := period_of kind now l in
  let* sum := Summarise (usr_id user) p in
  ignore (Persist (usr_id user) insightType p sum) ;;;
  reply (usr_id user) ev (SummaryText label sum l) ("cmd:" ++ uuid_text pm).

(** [summarySchedule] *)
Definition set_schedule (user : User) (ev : InboundEvent) (intent : Intent) : Go unit :=
  let* now := clk_Now in
  match NextDelivery now (Some (user_Location user)) (Frequency intent) (DeliveryMinute intent) with
  | Fail _ => reply (usr_id user) ev SummaryScheduleInvalidText ("schedule-invalid:" ++ ev_message ev)
  | Ok next =>
      let* id := uuid_New in
      UpsertSummarySchedule (mkSchedule id (usr_id user) (Frequency intent) (DeliveryMinute intent) (ev_provider ev) (ev_chat ev)
        true next None 0 0) ;;;
      reply (usr_id user) ev (SummaryScheduleSetText (Frequency intent) (DeliveryMinute intent)) ("schedule-set:" ++ ev_message ev)
  end.
Definition summarySchedule (user : User) (ev : InboundEvent) (intent : Intent) : Go unit :=
  match ScheduleAction intent with
  | SummaryScheduleShow =>
      let* preferences := ListSummarySchedules (usr_id user) in
      reply (usr_id user) ev (SummaryScheduleText preferences) ("schedule-show:" ++ ev_message ev)
  | SummaryScheduleSet => set_schedule user ev intent
  | SummaryScheduleDisable =>
      let frequency := if DisableAll intent then None else Some (Frequency intent) in
      let* changed := DisableSummarySchedules (usr_id user) frequency in
      reply (usr_id user) ev (SummaryScheduleDisabledText frequency changed) ("schedule-disable:" ++ ev_message ev)
  | _ => reply (usr_id user) ev SummaryScheduleInvalidText ("schedule-invalid:" ++ ev_message ev)
  end.

(** ** Settings *)
Definition with_preferences (timezone currency : string) (u : User) : User :=
  mkUser (usr_id u) (usr_status u) timezone currency (usr_locale u) (usr_consent_version u) (usr_consented_at u)
    (usr_created_at u) (usr_updated_at u) (usr_deleted_at u).
(** One round of the loop that moves enabled schedules to the new zone. *)
Definition reschedule (ev : InboundEvent) (location : Location) (done : list SummarySchedule) (p : SummarySchedule) :
    Go (list SummarySchedule) :=
  if negb (sch_enabled p) then ret (done ++ [p])%list
  else
    let* now := clk_Now in
    let* next := of_res (NextDelivery now (Some location) (sch_frequency p) (sch_minute p)) in
    let* saved := UpsertSummarySchedule (mkSchedule (sch_id p) (sch_user p) (sch_frequency p) (sch_minute p)
        (ev_provider ev) (ev_chat ev) (sch_enabled p) next (sch_last p) (sch_created_at p) (sch_updated_at p)) in
    ret (done ++ [saved])%list.
Definition set_timezone (user : User) (ev : InboundEvent) (name : string) (preferences : list SummarySchedule) : Go unit :=
  let refuse := reply (usr_id user) ev InvalidTimezoneText ("settings-timezone-invalid:" ++ ev_message ev) in
  if String.eqb name "Local" then refuse
  else
    match LoadLocation name with
    | None => refuse
    | Some location =>
        let current := with_preferences (location_name name) (usr_default_currency user) user in
        UpdateUserPreferences (usr_id user) (usr_timezone current) (usr_default_currency current) ;;;
        let* preferences := for_each preferences (reschedule ev location) [] in
        reply (usr_id user) ev (SettingsUpdatedText "múi giờ" (usr_timezone current) current preferences)
          ("settings-timezone:" ++ ev_message ev)
    end.
Definition set_currency (user : User) (ev : InboundEvent) (text : string) (preferences : list SummarySchedule) : Go unit :=
  let currency := ToUpper (TrimSpace text) in
  if negb (validCurrencyCode currency)
  then reply (usr_id user) ev InvalidCurrencyText ("settings-currency-invalid:" ++ ev_message ev)
  else
    let current := with_preferences (usr_timezone user) currency user in
    UpdateUserPreferences (usr_id user) (usr_timezone current) (usr_default_currency current) ;;;
    reply (usr_id user) ev (SettingsUpdatedText "tiền tệ mặc định" currency current preferences) ("settings-currency:" ++ ev_message ev).
Definition settings (user : User) (ev : InboundEvent) (intent : Intent) : Go unit :=
  let* preferences := ListSummarySchedules (usr_id user) in
  match Settings intent with
  | SettingsShow => reply (usr_id user) ev (SettingsText user preferences) ("settings-show:" ++ ev_message ev)
  | SettingsSetTimezone => set_timezone user ev (Timezone intent) preferences
  | SettingsSetCurrency => set_currency user ev (DefaultCurrency intent) preferences
  | _ => reply (usr_id user) ev SettingsInvalidText ("settings-invalid:" ++ ev_message ev)
  end.

(** ** recent *)
Definition recent_line (l : Location) (done : list RecentLine) (t : Transaction) : Go (list RecentLine) :=
  let label := if bool_decide (tx_type t = TxExpense) then "" else TypeLabel (tx_type t) in
  let merchant := if String.eqb (tx_merchant_name t) "" then tx_description t else tx_merchant_name t in
  let* category := categoryName (tx_category t) in
  ret (done ++ [mkRecent (DateVN (tx_occurred_at t) l) (Money (tx_amount t) (tx_currency t)) merchant category label])%list.
Definition recent (user : User) (ev : InboundEvent) (pm : uuid) : Go unit :=
  let* txs := ListRecentTransactions (usr_id user) 10 in
  if bool_decide (txs = []) then reply (usr_id user) ev NoRecentText ("cmd:" ++ uuid_text pm)
  else
    let* lines := for_each txs (recent_line (user_Location user)) [] in
    reply (usr_id user) ev (RecentText lines) ("cmd:" ++ uuid_text pm).

(** ** export

    A file operation either happens or returns an error, in which case it may
    have happened; [w_exports] keeps the names in each user's directory. *)
Definition file_op (what : string) (f : gmap string (list string) -> gmap string (list string)) : Go unit := fun w =>
  match fault (w_tick w) with
  | Some flt => (Fail (E CodeInternal what (Some (Driver (flt_err flt)))), tick (if flt_applied flt then set_exports (f (w_exports w)) w else w))
  | None => (Ok tt, tick (set_exports (f (w_exports w)) w))
  end.
Definition mkdir (dir : string) (x : gmap string (list string)) : gmap string (list string) :=
  match x !! dir with Some _ => x | None => <[dir := []]> x end.
Definition create_file (dir name : string) (x : gmap string (list string)) : gmap string (list string) :=
  match x !! dir with
  | Some files => if bool_decide (name ∈ files) then x else <[dir := (files ++ [name])%list]> x
  | None => x
  end.
(** Closing reports an error only when writing did not. *)
Definition and_close {A} (write : Go A) : Go A :=
  let* res := attempt write in
  let* closed := attempt may_fail in
  match res, closed with
  | Ok a, Ok _ => ret a
  | Ok _, Fail e => fail e
  | Fail e, _ => fail e
  end.
Definition export (user : User) (ev : InboundEvent) : Go unit :=
  let owner := uuid_text (usr_id user) in
  let dir := filepath_Join [DataDir cfg; "exports"; owner] in
  file_op "create export dir" (mkdir owner) ;;;
  let* now := clk_Now in
  let stamp := Format_stamp UTC now in
  let csvName := "transactions-" ++ stamp ++ ".csv" in
  let jsonName := "metadata-" ++ stamp ++ ".json" in
  file_op "create csv export" (create_file owner csvName) ;;;
  let* '(_, n) := and_close (ExportTransactionsCSV (usr_id user)) in
  file_op "create json export" (create_file owner jsonName) ;;;
  and_close (ExportMetadataJSON local (usr_id user)) ;;;
  reply (usr_id user) ev (ExportReadyText (filepath_Join [dir; csvName]) (filepath_Join [dir; jsonName]) n) ("export:" ++ ev_message ev).

(** ** Deletion requests *)
Definition requestDelete (user : User) (ev : InboundEvent) : Go unit :=
  let* now := clk_Now in
  SetPendingAction (mkPending uuid_nil (usr_id user) PendingDeleteAccount None "" (now + 15 * Minute) 0) ;;;
  reply (usr_id user) ev DeleteConfirmText ("delask:" ++ ev_message ev).

(** [deleteAccount] *)
Definition deleteAccount (userID providerMessageID : uuid) : Go Report := DeleteAccount objects (DataDir cfg) userID providerMessageID.

(** The newest recorded transaction, or the reply that there is none. *)
Definition with_latest (user : User) (ev : InboundEvent) (k : Transaction -> Go unit) : Go unit :=
  let* found := attempt (LatestConfirmedTransaction (usr_id user)) in
  match found with
  | Ok tx => k tx
  | Fail err => if IsCode err CodeNotFound then reply (usr_id user) ev NoRecentText ("cmd:" ++ ev_message ev) else fail err
  end.
Definition requestDeleteRecent (user : User) (ev : InboundEvent) : Go unit :=
  with_latest user ev (fun tx =>
    let* now := clk_Now in
    SetPendingAction (mkPending uuid_nil (usr_id user) PendingDeleteRecent (Some (tx_id tx)) "" (now + 15 * Minute) 0) ;;;
    let* category := categoryName (tx_category tx) in
    reply (usr_id user) ev (DeleteRecentConfirmText (Money (tx_amount tx) (tx_currency tx)) (tx_merchant_name tx)
      (DateVN (tx_occurred_at tx) (user_Location user)) category) ("delrecentask:" ++ ev_message ev)).

(** ** manualEntry *)
Definition card_key (tx : Transaction) : string := "card:" ++ uuid_text (tx_id tx) ++ ":v" ++ Sprintd (tx_version tx).
Definition card_of (user : User) (merchant category : string) (tx : Transaction) : string :=
  ExtractionCard (mkCard merchant (Money (tx_amount tx) (tx_currency tx)) (DateVN (tx_occurred_at tx) (user_Location user))
    (TypeLabel (tx_type tx)) category ∅).
Definition manualEntry (user : User) (ev : InboundEvent) (intent : Intent) (pm : uuid) : Go unit :=
  let description := Description intent in
  let* '(amountMinor, currency) := of_res (ParseAmount (AmountText intent) (usr_default_currency user)) in
  let* merchant := (if String.eqb description "" then ret None else let* r := ResolveMerchant description in ret r.1) in
  let* sug := SuggestCategory (usr_id user) merchant (GuessCategoryKey description) f64_0_6 in
  let '(hint, hintMatched) := TypeHint description in
  let* '(txType, typeConf, typeSource) := SuggestType (usr_id user) merchant hint hintMatched in
  let merchantName := match merchant with Some m => mer_canonical m | None => description end in
  let* now := clk_Now in
  let* id := uuid_New in
  let tx := mkTx id (usr_id user) None None txType (mer_id <$> merchant) merchantName description amountMinor currency now
              (sug_category sug) TxAwaitingConfirmation TxSourceManual "manual" None 1 now now None None in
  let* p1 := uuid_New in
  let* p2 := uuid_New in
  let* tx := CreateManualDraft (mkManual (Some tx)
    [mkPrediction p1 id "category" (sug_key sug) (sug_confidence sug) (sug_source sug) "v1" "" now;
     mkPrediction p2 id "type" (txtype_string txType) typeConf typeSource "v1" "" now]
    (Some (mkPending uuid_nil (usr_id user) PendingConfirmExtraction (Some id) "" (now + pendingTTL) 0)) (Some pm)) in
  reply (usr_id user) ev (card_of user merchantName (sug_display sug) tx) (card_key tx).

(** ** recategorise *)
Definition recategorise (user : User) (ev : InboundEvent) (categoryText : string) : Go unit :=
  with_latest user ev (fun tx =>
    let* found := attempt (matchCategory categoryText) in
    match found with
    | Fail _ => reply (usr_id user) ev (EditInvalidText PendingEditCategory) ("cmd:" ++ ev_message ev)
    | Ok cat =>
        let predicted := ptrKey (tx_category tx) in
        let status := if bool_decide (tx_status tx = TxConfirmed) then TxAmended else tx_status tx in
        let* res := attempt (UpdateTransaction (set_tx_category (cat_id cat) status tx) (tx_version tx)) in
        match res with
        | Fail err =>
            if IsCode err CodeConflict then reply (usr_id user) ev PendingExpiredText ("cmd:" ++ ev_message ev) else fail err
        | Ok tx =>
            ignore (InsertCorrection (mkCorrection uuid_nil (tx_id tx) "category" predicted (cat_key cat) "chat_edit" 0)) ;;;
            ignore (LearnFromConfirmation (usr_id user) tx) ;;;
            reply (usr_id user) ev (RecategorisedText (tx_merchant_name tx) (cat_display cat)) ("cmd:" ++ ev_message ev)
        end
    end).
End commands.

Module CommandExamples.
(** Trailing text after the number is ignored, a path is cleaned. *)
Example Sscanf_ex : (Sscanf_d <$> ["3"; "3 an uong"; "-2x"; "an uong"; ""]) = [Some 3; Some 3; Some (-2); None; None].
Proof. reflexivity. Qed.
Example Join_ex : filepath_Join <$> [["./data"; "exports"; "7"]; ["/var//data/"; "exports"; "7"]; [""; "exports"; "7"]; ["../x/.."; "exports"]]
  = ["data/exports/7"; "/var/data/exports/7"; "exports/7"; "../exports"].
Proof. reflexivity. Qed.
Example Format_ex : (Format_day UTC 0, Format_minute UTC 61000000000, Format_stamp UTC 3661000000000)
  = ("1970-01-01", "1970-01-01 00:01", "19700101-010101").
Proof. reflexivity. Qed.
End CommandExamples.
