(* ===== verification/BotText.v ===== *)
(** * The text dialogue

    internal/bot/text.go: how a text is taken against the user's pending action,
    and the dispatch of fresh intents to the commands. *)
From S2P Require Import Prelude GoStrings Domain GoTime Json Normalise Db StoreReceipts StoreTx StoreCatalog Categorisation Insight.
From S2P Require Import Templates Texts Config Parse Fields Notify Account BotCommands.

(** [isSlashIntent] *)
Definition isSlashIntent (k : IntentKind) : bool :=
  match k with
  | IntentStart | IntentHelp | IntentToday | IntentWeek | IntentMonth | IntentLastWeek | IntentLastMonth | IntentRecent
  | IntentBudget | IntentExport | IntentDeleteData | IntentSettings | IntentSummarySchedule => true
  | _ => false
  end.

(** domain.PendingKind(intent.Kind), for the intents the card offers. *)
Definition edit_kind (k : IntentKind) : option PendingKind :=
  match k with
  | IntentEditTotal => Some PendingEditTotal
  | IntentEditMerchant => Some PendingEditMerchant
  | IntentEditDate => Some PendingEditDate
  | IntentEditCategory => Some PendingEditCategory
  | IntentEditType => Some PendingEditType
  | _ => None
  end.

(** [matchType] *)
Definition matchType `{UnicodeCase} (text : string) : option TxType :=
  let key := snd (NormaliseMerchant (TrimSpace text)) in
  if existsb (String.eqb key) ["1"; "chi tieu"] then Some TxExpense
  else if existsb (String.eqb key) ["2"; "thu nhap"] then Some TxIncome
  else if existsb (String.eqb key) ["3"; "hoan tien"] then Some TxRefund
  else if existsb (String.eqb key) ["4"; "chuyen khoan"] then Some TxTransfer
  else if existsb (String.eqb key) ["5"; "dieu chinh"] then Some TxAdjustment
  else None.

Section text.
Context `{Env} `{TzData} `{SqlLocale} (local : Location) (cfg : Config) (objects : bool).

Abbreviation clear user := (ignore (ClearPendingAction (usr_id user))).
(** The reply when the pending action no longer applies. *)
Definition stale (user : User) (ev : InboundEvent) : Go unit :=
  clear user ;;; reply (usr_id user) ev PendingExpiredText ("stale:" ++ ev_message ev).

(** [reshowCard] *)
Definition reshowCard (user : User) (ev : InboundEvent) (txID : uuid) : Go unit :=
  let* found := attempt (GetTransactionForUser txID (usr_id user)) in
  match found with
  | Fail err => if IsCode err CodeNotFound then stale user ev else fail err
  | Ok tx =>
      let* category := categoryName (tx_category tx) in
      reply (usr_id user) ev (CorrectedText (card_of user (tx_merchant_name tx) category tx)) (card_key tx)
  end.

(** [confirmTx] *)
Definition confirmed (now : Time) (t : Transaction) : Transaction :=
  set_tx_fields (tx_type t) (tx_merchant t) (tx_merchant_name t) (tx_amount t) (tx_currency t) (tx_occurred_at t) (tx_category t)
    TxConfirmed (Some now) t.
Definition after_confirm (user : User) (ev : InboundEvent) (tx : Transaction) : Go unit :=
  match tx_receipt tx with
  | Some r => ignore (TransitionReceipt r ReceiptReviewRequired ReceiptConfirmed)
  | None => ret tt
  end ;;;
  ignore (InsertCorrection (mkCorrection uuid_nil (tx_id tx) "" "" "" "chat_confirm" 0)) ;;;
  ignore (LearnFromConfirmation (usr_id user) tx) ;;;
  clear user ;;;
  let* catName := categoryName (tx_category tx) in
  reply (usr_id user) ev (ConfirmedText (Money (tx_amount tx) (tx_currency tx)) (tx_merchant_name tx) catName)
    ("confirm:" ++ uuid_text (tx_id tx)).
Definition confirmTx (user : User) (ev : InboundEvent) (txID : uuid) : Go unit :=
  let* found := attempt (GetTransactionForUser txID (usr_id user)) in
  match found with
  | Fail err => if IsCode err CodeNotFound then stale user ev else fail err
  | Ok tx =>
      if negb (bool_decide (tx_status tx = TxAwaitingConfirmation)) then stale user ev
      else
        let* now := clk_Now in
        let* res := attempt (UpdateTransaction (confirmed now tx) (tx_version tx)) in
        match res with
        | Fail err => if IsCode err CodeConflict then clear user else fail err
        | Ok tx => after_confirm user ev tx
        end
  end.

(** [discardTx] *)
Definition discardTx (user : User) (ev : InboundEvent) (txID : uuid) : Go unit :=
  let* found := attempt (GetTransactionForUser txID (usr_id user)) in
  match found with
  | Ok tx =>
      match tx_receipt tx with
      | Some r =>
          let* res := attempt (TransitionReceipt r ReceiptReviewRequired ReceiptDeleted) in
          match res with
          | Fail terr => if IsCode terr CodeConflict then ret tt else fail terr
          | Ok _ => ret tt
          end
      | None => ret tt
      end
  | Fail _ => ret tt
  end ;;;
  let* res := attempt (SoftDeleteTransaction txID (usr_id user)) in
  match res with
  | Fail err => if IsCode err CodeValidation || IsCode err CodeNotFound then stale user ev else fail err
  | Ok _ =>
      ignore (InsertCorrection (mkCorrection uuid_nil txID "" "" "" "chat_discard" 0)) ;;;
      clear user ;;;
      reply (usr_id user) ev DiscardedText ("discard:" ++ uuid_text txID)
  end.

(** [resolveConfirm]; the result says whether the text was consumed. *)
Definition ask_edit (user : User) (ev : InboundEvent) (txID : uuid) (kind : PendingKind) : Go unit :=
  let* prompt :=
    match kind with
    | PendingEditCategory =>
        let* cats := attempt ListCategories in
        match cats with Ok cats => ret (CategoryListText cats) | Fail _ => ret (EditPrompt kind) end
    | PendingEditType => ret TypeListText
    | _ => ret (EditPrompt kind)
    end in
  let* now := clk_Now in
  SetPendingAction (mkPending uuid_nil (usr_id user) kind (Some txID) "" (now + pendingTTL) 0) ;;;
  reply (usr_id user) ev prompt ("editp:" ++ ev_message ev).
Definition resolveConfirm (user : User) (ev : InboundEvent) (pa : PendingAction) (intent : Intent) : Go bool :=
  match pa_tx pa with
  | None => clear user ;;; ret false
  | Some txID =>
      match Kind intent with
      | IntentConfirm => confirmTx user ev txID ;;; ret true
      | IntentDiscard => discardTx user ev txID ;;; ret true
      | IntentNone => reshowCard user ev txID ;;; ret true
      | k => match edit_kind k with
             | Some kind => ask_edit user ev txID kind ;;; ret true
             | None => ret false
             end
      end
  end.

(** [resolveEdit]: the switch over the field, [None] when the text is not a value
    of it; then the field name, the predicted and the corrected value. *)
Definition apply_edit (user : User) (kind : PendingKind) (text : string) (tx : Transaction) :
    Go (option (Transaction * string * string * string)) :=
  let edit ty mer name amount cur at_ cat :=
    set_tx_fields ty mer name amount cur at_ cat (tx_status tx) (tx_confirmed_at tx) tx in
  match kind with
  | PendingEditTotal =>
      match ParseAmount text (tx_currency tx) with
      | Fail _ => ret None
      | Ok (minor, currency) =>
          ret (Some (edit (tx_type tx) (tx_merchant tx) (tx_merchant_name tx) minor currency (tx_occurred_at tx) (tx_category tx),
                     "total_minor", Sprintd (tx_amount tx) ++ " " ++ tx_currency tx, Sprintd minor ++ " " ++ currency))
      end
  | PendingEditMerchant =>
      if String.eqb text "" then ret None
      else
        let* r := ResolveMerchant text in
        let '(mer, name) := match r.1 with Some m => (Some (mer_id m), mer_canonical m) | None => (None, text) end in
        ret (Some (edit (tx_type tx) mer name (tx_amount tx) (tx_currency tx) (tx_occurred_at tx) (tx_category tx),
                   "merchant", tx_merchant_name tx, name))
  | PendingEditDate =>
      match ParseDate text (user_Location user) with
      | Fail _ => ret None
      | Ok when =>
          ret (Some (edit (tx_type tx) (tx_merchant tx) (tx_merchant_name tx) (tx_amount tx) (tx_currency tx) when (tx_category tx),
                     "occurred_at", Format_minute local (tx_occurred_at tx), Format_minute (user_Location user) when))
      end
  | PendingEditCategory =>
      let* found := attempt (matchCategory text) in
      match found with
      | Fail _ => ret None
      | Ok cat =>
          ret (Some (edit (tx_type tx) (tx_merchant tx) (tx_merchant_name tx) (tx_amount tx) (tx_currency tx) (tx_occurred_at tx)
                       (Some (cat_id cat)), "category", ptrKey (tx_category tx), cat_key cat))
      end
  | PendingEditType =>
      match matchType text with
      | None => ret None
      | Some t =>
          ret (Some (edit t (tx_merchant tx) (tx_merchant_name tx) (tx_amount tx) (tx_currency tx) (tx_occurred_at tx) (tx_category tx),
                     "type", txtype_string (tx_type tx), txtype_string t))
      end
  | _ => ret (Some (tx, "", "", ""))
  end.
Definition save_edit (user : User) (ev : InboundEvent) (txID : uuid) (tx : Transaction) (field predicted corrected : string) : Go unit :=
  let* tx := UpdateTransaction tx (tx_version tx) in
  ignore (InsertCorrection (mkCorrection uuid_nil (tx_id tx) field predicted corrected "chat_edit" 0)) ;;;
  let* now := clk_Now in
  SetPendingAction (mkPending uuid_nil (usr_id user) PendingConfirmExtraction (Some txID) "" (now + pendingTTL) 0) ;;;
  reshowCard user ev txID.
Definition resolveEdit (user : User) (ev : InboundEvent) (pa : PendingAction) : Go bool :=
  match pa_tx pa with
  | None => clear user ;;; ret false
  | Some txID =>
      let* found := attempt (GetTransactionForUser txID (usr_id user)) in
      match found with
      | Fail _ => stale user ev ;;; ret true
      | Ok tx =>
          if negb (bool_decide (tx_status tx = TxAwaitingConfirmation)) then stale user ev ;;; ret true
          else
            let* edit := apply_edit user (pa_kind pa) (TrimSpace (ev_text ev)) tx in
            match edit with
            | None => reply (usr_id user) ev (EditInvalidText (pa_kind pa)) ("editinv:" ++ ev_message ev) ;;; ret true
            | Some (tx, field, predicted, corrected) => save_edit user ev txID tx field predicted corrected ;;; ret true
            end
      end
  end.

(** [resolveDelete] *)
Definition resolveDelete (user : User) (ev : InboundEvent) (pm : uuid) (intent : Intent) : Go bool :=
  if negb (bool_decide (Kind intent = IntentConfirm)) then
    clear user ;;; reply (usr_id user) ev DiscardedText ("delcancel:" ++ ev_message ev) ;;; ret true
  else
    let* report := deleteAccount cfg objects (usr_id user) pm in
    DeletionConfirmation (usr_id user) (ev_provider ev) (ev_chat ev)
      (DeletedText ++ newline ++ "(" ++ Sprintd (rep_transactions report) ++ " giao dịch, " ++ Sprintd (rep_files report) ++ " ảnh đã xóa)")
      ("deleted:" ++ ev_message ev) ;;;
    ret true.

(** [resolveDeleteRecent] *)
Definition resolveDeleteRecent (user : User) (ev : InboundEvent) (pa : PendingAction) (intent : Intent) : Go bool :=
  if negb (bool_decide (Kind intent = IntentConfirm)) then
    clear user ;;; reply (usr_id user) ev DeleteRecentCancelText ("delrecentcancel:" ++ ev_message ev) ;;; ret true
  else
    match pa_tx pa with
    | None => stale user ev ;;; ret true
    | Some txID =>
        let* found := attempt (GetTransactionForUser txID (usr_id user)) in
        match found with
        | Fail _ => stale user ev ;;; ret true
        | Ok tx =>
            SoftDeleteTransaction txID (usr_id user) ;;;
            ignore (InsertCorrection (mkCorrection uuid_nil txID "" "" "" "chat_delete" 0)) ;;;
            clear user ;;;
            reply (usr_id user) ev (DeletedRecentText (Money (tx_amount tx) (tx_currency tx)) (tx_merchant_name tx))
              ("delrecent:" ++ uuid_text txID) ;;;
            ret true
        end
    end.

(** [resolvePending] *)
Definition resolvePending (user : User) (ev : InboundEvent) (pm : uuid) (pa : PendingAction) (intent : Intent) : Go bool :=
  match pa_kind pa with
  | PendingConfirmExtraction => resolveConfirm user ev pa intent
  | PendingEditTotal | PendingEditMerchant | PendingEditDate | PendingEditCategory | PendingEditType => resolveEdit user ev pa
  | PendingDeleteAccount => resolveDelete user ev pm intent
  | PendingDeleteRecent => resolveDeleteRecent user ev pa intent
  end.

(** [handleText]: the pending action first, then the intent on its own. *)
Definition dispatch (user : User) (ev : InboundEvent) (pm : uuid) (intent : Intent) : Go unit :=
  let answer body := reply (usr_id user) ev body ("cmd:" ++ uuid_text pm) in
  match Kind intent with
  | IntentStart | IntentHelp => answer HelpText
  | IntentPrivacy => answer (PrivacyText (OriginalRetentionDays cfg) (ExtractionBackend cfg))
  | IntentToday => summary user ev pm periodToday
  | IntentWeek => summary user ev pm periodWeek
  | IntentMonth => summary user ev pm periodMonth
  | IntentLastWeek => summary user ev pm periodLastWeek
  | IntentLastMonth => summary user ev pm periodLastMonth
  | IntentRecent => recent user ev pm
  | IntentBudget => answer BudgetUnsupportedText
  | IntentExport => export local cfg user ev
  | IntentDeleteData => requestDelete user ev
  | IntentSettings => settings user ev intent
  | IntentSummarySchedule => summarySchedule user ev intent
  | IntentManualEntry => manualEntry user ev intent pm
  | IntentRecategory => recategorise user ev (CategoryText intent)
  | IntentDeleteRecent => requestDeleteRecent user ev
  | IntentConfirm | IntentDiscard | IntentEditTotal | IntentEditMerchant | IntentEditDate | IntentEditCategory | IntentEditType =>
      answer PendingExpiredText
  | IntentNone => answer UnknownText
  end.
Definition handleText (user : User) (ev : InboundEvent) (pm : uuid) : Go unit :=
  let intent := Parse (ev_text ev) in
  let* pending := attempt (GetPendingAction (usr_id user)) in
  let* handled :=
    match pending with
    | Ok pa => if isSlashIntent (Kind intent) then ret false else resolvePending user ev pm pa intent
    | Fail err => if IsCode err CodeNotFound then ret false else fail err
    end in
  if handled then ret tt else dispatch user ev pm intent.
End text.
