(* ===== verification/Bot.v ===== *)
(** * The bot

    internal/bot/bot.go: an inbound event from claim to completion mark. *)
From S2P Require Import Prelude GoStrings Domain GoTime Db StoreInbound StoreTx Insight Texts Config Parse Fields Notify BotCommands BotText.

Definition zaloScope : string := "zalo_bot".
Definition consentVersion : string := "consent-v1".
Definition inboundClaimLease : Z := 2 * Minute.
Definition EventTextReceived : string := "message.text.received".
Definition EventImageReceived : string := "message.image.received".

Section bot.
Context `{Env} `{TzData} `{SqlLocale} (local : Location) (cfg : Config) (objects : bool).

(** [isConsentRelated] *)
Definition isConsentRelated (ev : InboundEvent) : bool :=
  String.eqb (ev_type ev) EventTextReceived &&
  match Kind (Parse (ev_text ev)) with IntentConfirm | IntentStart | IntentPrivacy => true | _ => false end.

(** [resolveUser] *)
Definition find_user (ev : InboundEvent) : Go User := GetUserByIdentity "zalo_bot" (ev_user ev) zaloScope.
Definition resolveUser (ev : InboundEvent) : Go User :=
  let* found := attempt (find_user ev) in
  match found with
  | Ok user => ret user
  | Fail err =>
      if negb (IsCode err CodeNotFound) then fail err
      else
        let* userID := uuid_New in
        let* made := attempt (CreateUserWithIdentity userID "zalo_bot" (ev_user ev) zaloScope) in
        match made with
        | Ok user => ret user
        | Fail err => if IsCode err CodeConflict then find_user ev else fail err
        end
  end.

(** [consentFlow] *)
Definition consentFlow (user : User) (ev : InboundEvent) : Go unit :=
  let card := reply (usr_id user) ev ConsentCard ("consent:" ++ ev_message ev) in
  if String.eqb (ev_type ev) EventTextReceived then
    match Kind (Parse (ev_text ev)) with
    | IntentConfirm | IntentStart =>
        let* now := clk_Now in
        let* res := attempt (SetConsent (usr_id user) consentVersion now) in
        let welcome := reply (usr_id user) ev WelcomeText ("welcome:" ++ ev_message ev) in
        match res with
        | Fail err => if IsCode err CodeConflict then welcome else fail err
        | Ok _ => welcome
        end
    | IntentPrivacy =>
        reply (usr_id user) ev (PrivacyText (OriginalRetentionDays cfg) (ExtractionBackend cfg)) ("privacy:" ++ ev_message ev)
    | _ => card
    end
  else card.

(** [route] under the user's lock. *)
Definition route_active (user : User) (ev : InboundEvent) (pm : uuid) : Go unit :=
  if String.eqb (ev_type ev) EventImageReceived then handleImage cfg user ev pm
  else if String.eqb (ev_type ev) EventTextReceived then handleText local cfg objects user ev pm
  else reply (usr_id user) ev UnsupportedEventText ("unsup:" ++ uuid_text pm).
Definition route_locked (userID : uuid) (ev : InboundEvent) (pm : uuid) : Go unit :=
  let* user := GetUser userID in
  if bool_decide (usr_status user = UserDeleted) || bool_decide (usr_status user = UserDeleting) || bool_decide (usr_deleted_at user <> None)
  then ret tt
  else if negb (Allowlisted cfg (ev_user ev)) then
    ignore (RedactProviderMessageRaw pm) ;;;
    reply (usr_id user) ev NotAllowedText ("allow:" ++ uuid_text pm)
  else
    match usr_status user with
    | UserSuspended => reply (usr_id user) ev SuspendedText ("susp:" ++ uuid_text pm)
    | UserPending => consentFlow user ev
    | _ => route_active user ev pm
    end.
(** [route]; the result is the user the message was attributed to. *)
Definition route (ev : InboundEvent) (pm : uuid) : Go uuid :=
  let* user := resolveUser ev in
  SetProviderMessageUser pm (usr_id user) ;;;
  ignore (TouchIdentityLastSeen "zalo_bot" (ev_user ev) zaloScope) ;;;
  WithUserLock (usr_id user) (route_locked (usr_id user) ev pm) ;;;
  ret (usr_id user).

(** [HandleEvent]: how the payload is stored, the claim, the handling and the
    mark of its outcome. *)
Definition storage_choice (ev : InboundEvent) : Go (string * bool) :=
  if negb (Allowlisted cfg (ev_user ev)) then ret (redacted_payload, false)
  else
    let* found := attempt (find_user ev) in
    match found with
    | Ok existing => ret (ev_raw ev, bool_decide (usr_status existing = UserPending) && negb (isConsentRelated ev))
    | Fail err => if IsCode err CodeNotFound then ret (ev_raw ev, negb (isConsentRelated ev)) else fail err
    end.
Definition deletion_completed (userID : uuid) : Go bool :=
  let* user := attempt (GetUser userID) in
  match user with
  | Ok u => ret (bool_decide (usr_status u = UserDeleted) || bool_decide (usr_deleted_at u <> None))
  | Fail _ => ret false
  end.
Definition finish (pm : uuid) (outcome : Res Err uuid) : Go unit :=
  let* marked := attempt (MarkProviderMessage pm (match outcome with Ok _ => MessageProcessed | Fail _ => MessageFailed end)) in
  match marked, outcome with
  | Ok _, Ok _ => ret tt
  | _, Fail err => fail err
  | Fail merr, Ok userID =>
      if IsCode merr CodeNotFound
      then let* gone := deletion_completed userID in if gone then ret tt else fail merr
      else fail merr
  end.
Definition claim_event (ev : InboundEvent) : Go (bool * ProviderMessage) :=
  let* '(raw, redact) := storage_choice ev in
  let* id := uuid_New in
  ClaimProviderMessageOpts (mkPM id (ev_provider ev) (ev_chat ev) (ev_message ev) None (ev_type ev) (ev_hash ev) raw (ev_received_at ev)
    None None None MessageUnset) inboundClaimLease redact.
Definition HandleEvent (ev : InboundEvent) : Go unit :=
  let* '(claimed, pm) := claim_event ev in
  if negb claimed then ret tt
  else
    let* outcome := attempt (route ev (pm_id pm)) in
    finish (pm_id pm) outcome.
End bot.
