(* ===== verification/BotSafety.v ===== *)
(** * What an inbound event can do

    Theorems about [HandleEvent] under every schedule of faults, for every event
    and configuration: a sender who is not admitted leaves no data behind, and
    the payloads of such senders are stored redacted.  The frames are stated for
    any relation a [GateFrame] describes, and [absorbed] turns a property of the
    locked part of an event into one of the whole handling. *)
From S2P Require Import Prelude GoStrings Domain GoTime Json Db Queue StoreOutbound StoreInbound StoreReceipts StoreTx StoreSchedules.
From S2P Require Import StoreCatalog Categorisation Insight Texts Config Parse Fields Notify Export Account BotCommands BotText Bot.

(** ** Frames *)

(** Only accounts, identities, messages and the outbox with its jobs may differ. *)
Record data_same (d d' : DB) : Prop := {
  ds_receipts : db_receipts d' = db_receipts d; ds_attempts : db_attempts d' = db_attempts d;
  ds_txs : db_txs d' = db_txs d; ds_fields : db_fields d' = db_fields d; ds_preds : db_preds d' = db_preds d;
  ds_corrs : db_corrs d' = db_corrs d; ds_categories : db_categories d' = db_categories d;
  ds_merchants : db_merchants d' = db_merchants d; ds_aliases : db_aliases d' = db_aliases d;
  ds_rules : db_rules d' = db_rules d; ds_insights : db_insights d' = db_insights d; ds_usage : db_usage d' = db_usage d;
  ds_pending : db_pending d' = db_pending d; ds_schedules : db_schedules d' = db_schedules d }.
#[global] Instance data_same_preorder : PreOrder data_same.
Proof. split; [by intros d|]. intros d1 d2 d3 [] []. split; congruence. Qed.

(** The same for the whole world: no file, object or outside call either. *)
Definition private_same : relation World := fun w w' =>
  data_same (w_db w) (w_db w') /\ files_same w w' /\ w_calls w' = w_calls w.
#[global] Instance private_same_steady : Steady private_same.
Proof.
  split; [split; [split|..]|]; unfold private_same, files_same; simpl.
  - intros w. done.
  - intros w1 w2 w3 (Ha & [? ?] & ?) (Hb & [? ?] & ?). split_and!; [by etrans|congruence..].
  - intros w. done.
  - intros w t. done.
  - intros w u. done.
  - intros w w' (_ & ? & ?). done.
Qed.

(** Account and identity tables. *)
Definition accounts_same (d d' : DB) : Prop := db_users d' = db_users d /\ db_idents d' = db_idents d.
#[global] Instance accounts_same_preorder : PreOrder accounts_same.
Proof. split; [by intros d|]. intros d1 d2 d3 [] []. split; congruence. Qed.

Definition users_same (d d' : DB) : Prop := db_users d' = db_users d.
#[global] Instance users_same_preorder : PreOrder users_same.
Proof. split; [by intros d|]. intros d1 d2 d3. unfold users_same. congruence. Qed.

(** Stored payloads are kept or redacted, and new ones are redacted. *)
Definition redacts (d d' : DB) : Prop := forall id x', db_msgs d' !! id = Some x' ->
  pm_raw x' = redacted_payload \/ exists x, db_msgs d !! id = Some x /\ pm_raw x' = pm_raw x.
#[global] Instance redacts_preorder : PreOrder redacts.
Proof.
  split; [intros d id x Hx; eauto|]. intros d1 d2 d3 Ha Hb id x3 Hx. destruct (Hb id x3 Hx) as [?|(x2 & Hx2 & ->)]; [by left|].
  destruct (Ha id x2 Hx2) as [?|(x1 & Hx1 & ->)]; eauto.
Qed.

(** What the handling of a sender who is not admitted may write: a relation that
    respects the tables outside [data_same], message rows changed without a new
    payload apart. *)
Class GateFrame `{Env} (R : relation World) := {
  gf_steady :: Steady R;
  gf_free w d' : data_same (w_db w) d' -> db_msgs d' = db_msgs (w_db w) -> R w (set_db d' w);
  gf_msg w id cond f : (forall x, pm_raw (f x) = pm_raw x \/ pm_raw (f x) = redacted_payload) ->
    R w (set_db (update_msg id cond f (w_db w)).2 w) }.
#[global] Instance private_same_gate `{Env} : GateFrame private_same.
Proof. split; [apply _|..]; by intros. Qed.
#[global] Instance redacts_gate `{Env} : GateFrame (on_db redacts).
Proof.
  split; [apply _|..]; unfold on_db; simpl.
  - intros w d' _ Hm id x. rewrite Hm. eauto.
  - intros w id cond f Hf k x'. unfold update_msg. simpl. rewrite update_row_lookup. case_bool_decide as Hk; [|eauto]. subst k.
    destruct (db_msgs (w_db w) !! id) as [x|]; [|done]. simpl. intros [= <-]. destruct (cond x); [|eauto].
    destruct (Hf x) as [->| ->]; eauto.
Qed.

Section gate_frame.
Context `{Env} `{TzData} `{SqlLocale} (local : Location) (cfg : Config) (objects : bool).
Context (R : relation World) `{!GateFrame R}.

Lemma gate_stmt {A} (f : Stmt A) : (forall t d, data_same d (stmt_effect f t d) /\ db_msgs (stmt_effect f t d) = db_msgs d) -> evolves R (stmt f).
Proof. intros Hf. apply evolves_stmt; [apply _|]. intros t w. destruct (Hf t (w_db w)). by apply gf_free. Qed.
Lemma gate_dml {A} (f : Time -> DB -> A * DB) : (forall t d, data_same d (f t d).2 /\ db_msgs (f t d).2 = db_msgs d) -> evolves R (dml f).
Proof. intros Hf. apply evolves_dml; [apply _|]. intros t w. destruct (Hf t (w_db w)). by apply gf_free. Qed.
Ltac gate_tables :=
  go_evolve; first [apply gate_stmt|apply gate_dml]; intros ? ?; unfold stmt_effect; simpl; try done; repeat (case_match; simplify_eq/=; try done).

Lemma gate_Reply u p c b k : evolves R (Reply u p c b k).
Proof. unfold Reply, enqueue, EnqueueOutbound, GetOutboundByIdempotencyKey, Enqueue, insert_outbound. gate_tables. Qed.
Lemma gate_reads : (forall id, evolves R (GetUser id)) /\ (forall p s c, evolves R (GetUserByIdentity p s c)).
Proof. split; intros; unfold GetUser, GetUserByIdentity; go_evolve. Qed.
Lemma gate_messages : (forall id u, evolves R (SetProviderMessageUser id u)) /\ (forall id, evolves R (RedactProviderMessageRaw id)) /\
  (forall id st, evolves R (MarkProviderMessage id st)).
Proof.
  split_and!; intros; unfold SetProviderMessageUser, RedactProviderMessageRaw, MarkProviderMessage, redact_row; go_evolve.
  - apply evolves_stmt; [apply _|]. intros t w. unfold stmt_effect. cbv zeta. destruct (_ && _); [by destruct w|].
    rewrite (surjective_pairing (update_msg _ _ _ _)). apply gf_msg. by left.
  - apply evolves_dml; [apply _|]. intros t w. apply gf_msg. by right.
  - apply evolves_dml; [apply _|]. intros t w. apply gf_msg. by left.
Qed.
Lemma gate_accounts : (forall id p s c, evolves R (CreateUserWithIdentity id p s c)) /\
  (forall p s c, evolves R (TouchIdentityLastSeen p s c)) /\ (forall u v t, evolves R (SetConsent u v t)).
Proof.
  split_and!; intros; unfold CreateUserWithIdentity, TouchIdentityLastSeen, SetConsent, GetUser, insert_user, insert_identity, update_user;
    gate_tables.
Qed.

#[local] Hint Resolve gate_Reply : evolve.
#[local] Hint Extern 1 (evolves _ (GetUser _)) => apply gate_reads : evolve.
#[local] Hint Extern 1 (evolves _ (GetUserByIdentity _ _ _)) => apply gate_reads : evolve.
#[local] Hint Extern 1 (evolves _ (SetProviderMessageUser _ _)) => apply gate_messages : evolve.
#[local] Hint Extern 1 (evolves _ (RedactProviderMessageRaw _)) => apply gate_messages : evolve.
#[local] Hint Extern 1 (evolves _ (MarkProviderMessage _ _)) => apply gate_messages : evolve.
#[local] Hint Extern 1 (evolves _ (CreateUserWithIdentity _ _ _ _)) => apply gate_accounts : evolve.
#[local] Hint Extern 1 (evolves _ (TouchIdentityLastSeen _ _ _)) => apply gate_accounts : evolve.
#[local] Hint Extern 1 (evolves _ (SetConsent _ _ _)) => apply gate_accounts : evolve.

Lemma gate_consentFlow u ev : evolves R (consentFlow cfg u ev).
Proof. unfold consentFlow, reply. go_evolve. Qed.
Lemma gate_resolveUser ev : evolves R (resolveUser ev).
Proof. unfold resolveUser, find_user. go_evolve. Qed.
Lemma gate_storage ev : evolves R (storage_choice cfg ev).
Proof. unfold storage_choice, find_user. go_evolve. Qed.
Lemma gate_finish pm r : evolves R (finish pm r).
Proof. unfold finish, deletion_completed. go_evolve. Qed.
Lemma gate_refusal pm u ev body key : evolves R (ignore (RedactProviderMessageRaw pm) ;;; reply u ev body key).
Proof. unfold reply. go_evolve. Qed.
End gate_frame.

Section gate.
Context `{Env} `{TzData} `{SqlLocale} (local : Location) (cfg : Config) (objects : bool).

(** Accounts and identities, for the statements before the message is attributed. *)
Lemma accounts_claim ev : evolves (on_db accounts_same) (claim_event cfg ev).
Proof.
  unfold claim_event, storage_choice, find_user, GetUserByIdentity, ClaimProviderMessageOpts, redact_row, update_msg, insert_msg. go_evolve;
    first [apply evolves_dml; [apply _|]|apply evolves_stmt; [apply _|]]; intros t w; unfold stmt_effect, on_db; simpl; try done;
    repeat (case_match; simplify_eq/=; try done).
Qed.
Lemma private_claim ev : evolves private_same (claim_event cfg ev).
Proof.
  unfold claim_event. refine (evolves_bind _ _ _ (gate_storage cfg private_same ev) _). intros [raw redact].
  unfold ClaimProviderMessageOpts, redact_row, update_msg, insert_msg. go_evolve;
    first [apply evolves_dml; [apply _|]|apply evolves_stmt; [apply _|]]; intros t w; unfold stmt_effect; simpl; try done;
    repeat (case_match; simplify_eq/=; try done).
Qed.

(** ** Attribution *)
Definition users_keyed (d : DB) : Prop := forall id u, db_users d !! id = Some u -> usr_id u = id.
(** The accounts an event's sender is linked to. *)
Definition sender (ev : InboundEvent) : UserIdentity -> bool := same_identity "zalo_bot" (ev_user ev) zaloScope.
Definition linked (ev : InboundEvent) (u : User) (d : DB) : Prop :=
  exists i ident, db_idents d !! i = Some ident /\ sender ev ident = true /\ db_users d !! ident_user ident = Some u.

Lemma user_by_identity_linked ev d u : user_by_identity "zalo_bot" (ev_user ev) zaloScope d = Some u -> linked ev u d.
Proof.
  unfold user_by_identity. intros Hh. apply head_Some_elem_of in Hh. apply list_elem_of_omap in Hh as (ident & Hin & Hu).
  apply elem_of_select in Hin as (Hs & i & Hi). by exists i, ident.
Qed.
Lemma find_user_Ok ev w u w' : find_user ev w = (Ok u, w') -> linked ev u (w_db w) /\ w_db w' = w_db w.
Proof.
  unfold find_user, GetUserByIdentity. intros Hr. inv_runs.
  destruct (user_by_identity _ _ _ _) eqn:Hu; [|done]. inv_runs. by apply user_by_identity_linked in Hu.
Qed.
Lemma find_user_same ev : evolves (on_db eq) (find_user ev).
Proof. unfold find_user, GetUserByIdentity. go_evolve. Qed.
Lemma GetUser_Ok id w u w' : GetUser id w = (Ok u, w') -> db_users (w_db w) !! id = Some u /\ w_db w' = w_db w.
Proof. unfold GetUser. intros Hr. inv_runs. destruct (db_users _ !! id) eqn:Hu; [|done]. by inv_runs. Qed.

Lemma GetUser_same id : evolves (on_db eq) (GetUser id).
Proof. unfold GetUser. go_evolve. Qed.

(** Creating an account either leaves no trace or adds one pending account with
    the sender's first identity. *)
Definition enrolled (userID : uuid) (ev : InboundEvent) (d d' : DB) : Prop := exists id now t t',
  db_users d !! userID = None /\ (forall i x, db_idents d !! i = Some x -> sender ev x = false) /\
  d' = upd_idents (<[id := mkIdentity id userID "zalo_bot" (ev_user ev) zaloScope t t']>) (upd_users (<[userID := new_user now userID]>) d).
Definition create_body (userID : uuid) (ev : InboundEvent) : Go unit :=
  wrap_err (internalErr "CreateUserWithIdentity") (stmt (insert_user userID)) ;;;
  let* id := uuid_New in
  let* res := attempt (stmt (insert_identity (mkIdentity id userID "zalo_bot" (ev_user ev) zaloScope 0 0))) in
  match res with
  | Ok _ => ret tt
  | Fail err =>
      if is_pg "23505" err then fail (E CodeConflict "store.CreateUserWithIdentity: identity exists" None)
      else fail (internalErr "CreateUserWithIdentity" err)
  end.
Lemma create_body_Ok userID ev w w' : create_body userID ev w = (Ok tt, w') -> enrolled userID ev (w_db w) (w_db w').
Proof.
  intros Hr. apply bind_Ok in Hr as ([] & w1 & Hu & Hr). apply wrap_err_Ok, stmt_Ok in Hu as (d1 & Hu & ->). unfold insert_user in Hu.
  destruct (insert_row userID _ _ _) as [m|] eqn:Hins; [|done]. injection Hu as <-. apply insert_row_ok in Hins as (Hnone & -> & _).
  apply bind_Ok in Hr as (id & w2 & Hid & Hr). injection Hid as <- <-. apply bind_Ok in Hr as (res & w3 & Hi & Hr).
  apply attempt_Ok in Hi. destruct res as [[]|err]; [|by destruct (is_pg _ err)]. apply ret_Ok in Hr as [_ <-].
  apply stmt_Ok in Hi as (d2 & Hi & ->). unfold insert_identity in Hi. destruct (insert_row _ _ _ _) as [m|] eqn:Hins; [|done].
  apply insert_row_ok in Hins as (_ & -> & Hclash). destruct (bool_decide _); [done|]. injection Hi as <-.
  do 4 eexists. split_and!; [done|exact Hclash|]. reflexivity.
Qed.
Lemma create_cases userID ev w : let r := CreateUserWithIdentity userID "zalo_bot" (ev_user ev) zaloScope w in
  (w_db (snd r) = w_db w \/ enrolled userID ev (w_db w) (w_db (snd r))) /\
  (forall u, fst r = Ok u -> enrolled userID ev (w_db w) (w_db (snd r)) /\ db_users (w_db (snd r)) !! userID = Some u).
Proof.
  cbv zeta. change (CreateUserWithIdentity userID "zalo_bot" (ev_user ev) zaloScope) with (WithTx (create_body userID ev) ;;; GetUser userID).
  unfold bind. destruct (WithTx (create_body userID ev) w) as [[[]|e] w1] eqn:Htx.
  - apply in_tx_Ok in Htx as (w2 & Hb & ->). apply create_body_Ok in Hb.
    destruct (GetUser userID _) as [[u|e] w3] eqn:Hg; simpl.
    + apply GetUser_Ok in Hg as [Hu Hd]. rewrite Hd. split; [by right|]. by intros v [= <-].
    + pose proof (GetUser_same userID (set_txnow None (tick w2))) as Hd. rewrite Hg in Hd. unfold on_db in Hd. simpl in Hd.
      rewrite <- Hd. split; [by right|done].
  - simpl. split; [|done]. apply in_tx_Fail in Htx as [Hd|([] & w2 & Hb & ->)]; [by left|right]. by apply create_body_Ok in Hb.
Qed.

(** The account an event is attributed to: new and pending, or linked before. *)
Lemma enrolled_linked ev userID d d' u : users_keyed d -> enrolled userID ev d d' -> linked ev u d' -> usr_status u = UserPending /\ usr_id u = userID.
Proof.
  intros Hk (id & now & t & t' & Hnone & Hfresh & ->) (i & ident & Hi & Hs & Hu). simpl in Hi, Hu.
  rewrite lookup_insert_Some in Hi. destruct Hi as [[_ <-]|[_ Hi]]; [|by rewrite (Hfresh i ident Hi) in Hs].
  simpl in Hu. rewrite lookup_insert_eq in Hu. by injection Hu as <-.
Qed.
Lemma linked_keyed ev d u : users_keyed d -> linked ev u d -> db_users d !! usr_id u = Some u.
Proof. intros Hk (i & ident & _ & _ & Hu). by rewrite (Hk _ _ Hu). Qed.
Lemma enrolled_keyed userID ev d d' : users_keyed d -> enrolled userID ev d d' -> users_keyed d'.
Proof.
  intros Hk (id & now & t & t' & _ & _ & ->) v u. simpl. rewrite lookup_insert_Some. intros [[<- <-]|[_ Hu]]; [done|by apply Hk].
Qed.
Definition newcomer (u : User) (d : DB) : Prop := usr_status u = UserPending /\ db_users d !! usr_id u = None.
Lemma resolveUser_Ok ev w u w' : users_keyed (w_db w) -> resolveUser ev w = (Ok u, w') ->
  db_users (w_db w') !! usr_id u = Some u /\ (newcomer u (w_db w) \/ linked ev u (w_db w)) /\
  (w_db w' = w_db w \/ exists userID, enrolled userID ev (w_db w) (w_db w')).
Proof.
  intros Hk Hr. unfold resolveUser in Hr. apply bind_Ok in Hr as (found & w1 & Hf & Hr). apply attempt_Ok in Hf.
  pose proof (find_user_same ev w) as Hd1. unfold on_db in Hd1. rewrite Hf in Hd1. simpl in Hd1.
  destruct found as [x|err].
  { apply find_user_Ok in Hf as [Hl Hd]. apply ret_Ok in Hr as [<- <-]. rewrite Hd. split; [by apply (linked_keyed ev)|auto]. }
  destruct (IsCode err CodeNotFound); [|done]. simpl in Hr. apply bind_Ok in Hr as (userID & w2 & Hid & Hr). injection Hid as <- <-.
  apply bind_Ok in Hr as (made & w3 & Hm & Hr). apply attempt_Ok in Hm.
  pose proof (create_cases (new_uuid (w_tick w1)) ev (tick w1)) as [Hc Hok]. rewrite Hm in Hc, Hok. simpl in Hc, Hok.
  rewrite <- Hd1 in Hc, Hok. destruct made as [x|err'].
  - destruct (Hok x eq_refl) as [He Hu]. apply ret_Ok in Hr as [<- <-].
    assert (usr_id x = new_uuid (w_tick w1)) as Hx by (by apply (enrolled_keyed _ _ _ _ Hk He)).
    rewrite Hx. split; [done|]. split; [|right; eauto]. left. destruct He as (id & now & t & t' & Hnone & _ & He).
    split; [|by rewrite Hx]. rewrite He in Hu. simpl in Hu. rewrite lookup_insert_eq in Hu. by injection Hu as <-.
  - destruct (IsCode err' CodeConflict); [|done]. apply find_user_Ok in Hr as [Hl Hd]. rewrite Hd. destruct Hc as [Hc|He].
    + rewrite Hc in *. split; [by apply (linked_keyed ev)|auto].
    + split; [apply (linked_keyed ev); [by eapply enrolled_keyed|done]|]. destruct (enrolled_linked _ _ _ _ _ Hk He Hl) as [Hp Hx].
      split; [left; split; [done|]; rewrite Hx; by destruct He as (? & ? & ? & ? & ? & _)|right; eauto].
Qed.

Lemma users_attribution : (forall pm u, evolves (on_db users_same) (SetProviderMessageUser pm u)) /\
  (forall p s c, evolves (on_db users_same) (TouchIdentityLastSeen p s c)).
Proof.
  split; intros; unfold SetProviderMessageUser, TouchIdentityLastSeen, update_msg; go_evolve;
    first [apply evolves_dml; [apply _|]|apply evolves_stmt; [apply _|]]; intros t w; unfold stmt_effect, on_db; simpl; try done;
    repeat (case_match; simplify_eq/=; try done).
Qed.

(** [Q] holds of a run that makes [R] steps around something [Q] describes. *)
Definition absorbs (R Q : relation World) : Prop :=
  (forall a b, R a b -> Q a b) /\ (forall a b c, R a b -> Q b c -> Q a c) /\ (forall a b c, Q a b -> R b c -> Q a c).
Lemma absorbs_self (R : relation World) `{!PreOrder R} : absorbs R R.
Proof. split_and!; [done|intros a b c; apply transitivity..]. Qed.

Section absorbed.
Context (R Q : relation World) `{!Steady R} (HRQ : absorbs R Q).

(** A locked section, with what is known of the world it starts from. *)
Lemma lock_absorbed (P : World -> Prop) {A} u (fn : Go A) w :
  (forall w1, P w1 -> Q w1 (snd (fn w1))) -> P w -> (forall w1, P w1 -> P (tick w1)) -> (forall w1 h, P w1 -> P (set_held h w1)) ->
  Q w (snd (WithUserLock u fn w)).
Proof.
  destruct HRQ as (Hin & Hl & Hr). intros Hfn HP Ht Hh. unfold WithUserLock. destruct (UserLockHeld w u); [by apply Hfn|].
  assert (forall w1 r w2, may_fail w1 = (r, w2) -> w2 = tick w1) as Htick
    by (intros w1 r w2; unfold may_fail; destruct (fault _); by intros [= _ <-]).
  unfold bind. destruct (may_fail w) as [[[]|e] w1] eqn:H1'; apply Htick in H1' as ->; [|apply Hin, quiet_tick].
  destruct (may_fail (tick w)) as [[[]|e] w1] eqn:H1'; apply Htick in H1' as ->; [|apply Hin; etrans; apply quiet_tick].
  destruct (may_fail (tick (tick w))) as [r w1] eqn:H1'. apply Htick in H1' as ->.
  assert (R w (tick (tick (tick w)))) as Hrw by (etrans; [apply quiet_tick|etrans; apply quiet_tick]).
  destruct r as [[]|e]; simpl; [|by apply Hin]. eapply Hl; [etrans; [exact Hrw|apply quiet_held]|]. eapply Hr; [|apply quiet_held]. apply Hfn. auto.
Qed.

(** A routed event runs its locked part on the account as it was resolved: the
    property of the locked part becomes one of the whole route. *)
Lemma route_absorbed ev pm w : users_keyed (w_db w) ->
  evolves R (resolveUser ev) -> (forall u, evolves R (SetProviderMessageUser pm u)) ->
  evolves R (TouchIdentityLastSeen "zalo_bot" (ev_user ev) zaloScope) ->
  (forall u w2, private_same w w2 -> db_users (w_db w2) !! usr_id u = Some u -> (newcomer u (w_db w) \/ linked ev u (w_db w)) ->
     Q w2 (snd (route_locked local cfg objects (usr_id u) ev pm w2))) ->
  Q w (snd (route local cfg objects ev pm w)).
Proof.
  destruct HRQ as (Hin & Hl & Hr'). intros Hk Hres Hset Htouch Hlock. unfold route, bind. specialize (Hres w).
  pose proof (gate_resolveUser private_same ev w) as P1.
  destruct (resolveUser ev w) as [[u|e] w1] eqn:Hr; simpl in *; [|by apply Hin]. apply resolveUser_Ok in Hr as (Hu & Hcase & _); [|done].
  pose proof (Hset (usr_id u) w1) as R2. pose proof (proj1 (gate_messages private_same) pm (usr_id u) w1) as P2.
  pose proof (proj1 users_attribution pm (usr_id u) w1) as U2.
  destruct (SetProviderMessageUser pm (usr_id u) w1) as [[x|e] w2]; simpl in *; [|apply Hin; by etrans].
  set (touch := TouchIdentityLastSeen "zalo_bot" (ev_user ev) zaloScope).
  pose proof (Htouch w2) as R3. pose proof (proj2 users_attribution "zalo_bot" (ev_user ev) zaloScope w2) as U3.
  pose proof (proj1 (proj2 (gate_accounts private_same)) "zalo_bot" (ev_user ev) zaloScope w2) as P3. fold touch in R3, U3, P3.
  unfold ignore. simpl. destruct (touch w2) as [r w3]. simpl in *.
  assert (R w w3) as R03 by (etrans; [exact Hres|etrans; [exact R2|exact R3]]).
  assert (private_same w w3) as P03 by (etrans; [exact P1|etrans; [exact P2|exact P3]]).
  assert (Q w3 (snd (WithUserLock (usr_id u) (route_locked local cfg objects (usr_id u) ev pm) w3))) as Q34.
  { apply (lock_absorbed (fun w4 => private_same w w4 /\ db_users (w_db w4) !! usr_id u = Some u)).
    - intros w4 [P4 U4]. by apply Hlock.
    - split; [done|]. unfold on_db, users_same in U2, U3. by rewrite U3, U2.
    - intros w4 [P4 U4]. split; [etrans; [exact P4|apply quiet_tick]|done].
    - intros w4 h [P4 U4]. split; [etrans; [exact P4|apply quiet_held]|done]. }
  destruct (WithUserLock _ _ w3) as [[y|e] w5]; simpl in *; by eapply Hl.
Qed.

(** A property of the route becomes one of the handling. *)
Lemma event_absorbed ev w : R w (snd (claim_event cfg ev w)) -> (forall pm r, evolves R (finish pm r)) ->
  (forall pm w2, private_same w w2 -> accounts_same (w_db w) (w_db w2) -> Q w2 (snd (route local cfg objects ev pm w2))) ->
  Q w (snd (HandleEvent local cfg objects ev w)).
Proof.
  destruct HRQ as (Hin & Hl & Hr). intros Hcl Hfin Hroute. unfold HandleEvent, bind. pose proof (private_claim ev w) as P.
  pose proof (accounts_claim ev w) as A.
  destruct (claim_event cfg ev w) as [[[[|] pm]|e] w2]; simpl in *; [|by apply Hin..]. eapply Hl; [exact Hcl|]. unfold attempt; simpl.
  pose proof (Hfin (pm_id pm) (fst (route local cfg objects ev (pm_id pm) w2)) (snd (route local cfg objects ev (pm_id pm) w2))) as Hf.
  eapply Hr; [|exact Hf]. by apply Hroute.
Qed.
End absorbed.

(** ** The gate *)

(** The sender may not use the bot: not on the allowlist, or linked to no account
    that is active. *)
Definition barred (ev : InboundEvent) (d : DB) : Prop :=
  Allowlisted cfg (ev_user ev) = false \/ forall u, linked ev u d -> usr_status u <> UserActive \/ usr_deleted_at u <> None.

Section barred.
Context (R : relation World) `{!GateFrame R}.
Lemma gate_locked ev pm u w : db_users (w_db w) !! usr_id u = Some u ->
  Allowlisted cfg (ev_user ev) = false \/ usr_status u <> UserActive \/ usr_deleted_at u <> None ->
  R w (snd (route_locked local cfg objects (usr_id u) ev pm w)).
Proof.
  intros Hu Hbar. unfold route_locked, bind. pose proof (proj1 (gate_reads R) (usr_id u) w) as Hp.
  destruct (GetUser (usr_id u) w) as [[x|e] w1] eqn:Hg; simpl in *; [|done]. apply GetUser_Ok in Hg as [Hx _].
  rewrite Hu in Hx. injection Hx as <-. etrans; [exact Hp|].
  repeat (case_bool_decide; simpl; [reflexivity|]). destruct (Allowlisted cfg (ev_user ev)) eqn:Hal; simpl; [|apply (gate_refusal R)].
  destruct (usr_status u); try (destruct Hbar as [|[|]]; done); [apply (gate_consentFlow cfg R)|apply (gate_Reply R)].
Qed.
Lemma gate_route ev pm w d : accounts_same d (w_db w) -> users_keyed d -> barred ev d -> R w (snd (route local cfg objects ev pm w)).
Proof.
  intros [Hu Hi] Hk Hbar. apply (route_absorbed R R (absorbs_self R)); [unfold users_keyed; by rewrite Hu|apply (gate_resolveUser R)|intros; apply (gate_messages R)|
    apply (gate_accounts R)|].
  intros u w3 _ Hu3 Hcase. apply gate_locked; [done|]. destruct Hbar as [Hbar|Hbar]; [by left|right].
  destruct Hcase as [[Hp _]|(i & ident & Hi' & Hs & Hx)]; [left; by rewrite Hp|]. apply Hbar. exists i, ident. by rewrite <- Hi, <- Hu.
Qed.
End barred.

(** C5: An event of a sender who is not admitted (not on the allowlist, no account, or
    one that is pending, suspended, being deleted or deleted) leaves nothing
    behind but its message row, the account and identity rows, and replies:
    every other table, every stored object and export file is as before and no
    outside service is called, whatever the event contains and whatever faults
    strike. *)
Theorem gate_holds (ev : InboundEvent) (w : World) (Hkeys : users_keyed (w_db w)) (Hbar : barred ev (w_db w)) :
  private_same w (snd (HandleEvent local cfg objects ev w)).
Proof.
  apply (event_absorbed private_same private_same (absorbs_self _)); [apply private_claim|apply (gate_finish private_same)|].
  intros pm w2 _ Ha. by apply (gate_route private_same _ _ _ (w_db w)).
Qed.

(** ** Payloads *)

(** A text that reads as a confirmation, as the start command or as a question
    about privacy. *)
Definition about_consent (ev : InboundEvent) : Prop :=
  ev_type ev = EventTextReceived /\ Kind (Parse (ev_text ev)) ∈ [IntentConfirm; IntentStart; IntentPrivacy].

Lemma isConsentRelated_spec ev : isConsentRelated ev = true <-> about_consent ev.
Proof.
  unfold isConsentRelated, about_consent. rewrite andb_true_iff, String.eqb_eq.
  rewrite !elem_of_cons, elem_of_nil. destruct (Kind (Parse (ev_text ev))); naive_solver.
Qed.

(** The events whose words are not kept: those of rejected senders, and those of
    senders without recorded consent unless the text is about consent. *)
Definition unconsented (ev : InboundEvent) (d : DB) : Prop :=
  Allowlisted cfg (ev_user ev) = false \/
  (~ about_consent ev /\ forall u, linked ev u d -> usr_status u = UserPending).

Lemma storage_redacts ev w raw redact w1 : unconsented ev (w_db w) -> storage_choice cfg ev w = (Ok (raw, redact), w1) ->
  (raw = redacted_payload \/ redact = true) /\ w_db w1 = w_db w.
Proof.
  intros Hun Hr. unfold storage_choice in Hr. destruct (Allowlisted cfg (ev_user ev)) eqn:Hal; simpl in Hr.
  - destruct Hun as [Hun|[Hc Hl]]; [congruence|]. rewrite <- isConsentRelated_spec, not_true_iff_false in Hc. apply bind_Ok in Hr as (found & w2 & Hf & Hr). apply attempt_Ok in Hf.
    pose proof (find_user_same ev w) as Hd. unfold on_db in Hd. rewrite Hf in Hd. simpl in Hd. rewrite Hc in Hr. destruct found as [u|e].
    + apply find_user_Ok in Hf as [Hu _]. apply ret_Ok in Hr as [[= <- <-] <-]. split; [right|by rewrite Hd].
      by rewrite bool_decide_eq_true_2 by (by apply Hl).
    + destruct (IsCode e CodeNotFound); [|done]. apply ret_Ok in Hr as [[= <- <-] <-]. by split; [right|].
  - apply ret_Ok in Hr as [[= <- <-] <-]. by split; [left|].
Qed.

(** The claim stores a redacted payload, or keeps or redacts the stored one. *)
Lemma update_msg_redacts id cond f d : (forall x, pm_raw (f x) = pm_raw x \/ pm_raw (f x) = redacted_payload) ->
  redacts d (update_msg id cond f d).2.
Proof. intros Hf. apply (gf_msg (R := on_db redacts) (mkWorld d 0 None None ∅ ∅ [])), Hf. Qed.
Lemma insert_redacts pm row redact w w1 w2 : pm_raw row = redacted_payload \/ redact = true -> pm_id row = pm_id pm ->
  stmt (insert_msg row) w = (Ok tt, w1) ->
  (if redact then wrap_err (internalErr "ClaimProviderMessage") (dml (fun _ => redact_row (pm_id pm))) ;;; ret tt else ret tt) w1 = (Ok tt, w2) ->
  redacts (w_db w) (w_db w2).
Proof.
  intros Hr Hid Hins Hred. apply stmt_Ok in Hins as (d & Hi & ->). unfold insert_msg in Hi.
  destruct (match pm_user row with Some _ => _ | None => _ end); [done|].
  destruct (insert_row _ _ _ _) as [m|] eqn:Hm; [|done]. apply insert_row_ok in Hm as (Hnone & -> & _). injection Hi as <-.
  assert (forall d', db_msgs d' = <[pm_id row := row]> (db_msgs (w_db w)) -> pm_raw row = redacted_payload -> redacts (w_db w) d') as Hplain.
  { intros d' Hd' Hraw id x'. rewrite Hd', lookup_insert_Some. intros [[_ <-]|[_ Hx]]; eauto. }
  destruct redact.
  - apply bind_Ok in Hred as (n & w3 & Hd & Hr'). apply ret_Ok in Hr' as [_ <-]. apply wrap_err_Ok, dml_Ok in Hd as [Hd _].
    apply (f_equal snd) in Hd. simpl in Hd. rewrite <- Hd. intros id x'. unfold redact_row, update_msg. simpl. rewrite update_row_lookup.
    case_bool_decide as Hk.
    + subst id. rewrite <- Hid, lookup_insert_eq. simpl. intros [= <-]. by left.
    + rewrite lookup_insert_ne by congruence. eauto.
  - apply ret_Ok in Hred as [_ <-]. destruct Hr as [Hr|]; [|done]. by apply Hplain.
Qed.
Lemma claim_redacts pm lease redact w : pm_raw pm = redacted_payload \/ redact = true ->
  redacts (w_db w) (w_db (snd (ClaimProviderMessageOpts pm lease redact w))).
Proof.
  intros Hr. unfold ClaimProviderMessageOpts. cbv zeta. destruct (lease <=? 0); [reflexivity|]. unfold bind at 1, time_Now.
  lazymatch goal with |- context [in_tx ?f ?g ?b ?w0] => destruct (in_tx_atomic f g b w0) as [Hd|(r & w1 & Hb & Hd)] end;
    rewrite Hd; [done|]. clear Hd. change (w_db w) with (w_db (set_txnow (Some (sql_now (w_tick (tick w)))) (tick (tick w)))).
  revert Hb. generalize (set_txnow (Some (sql_now (w_tick (tick w)))) (tick (tick w))) as w0. intros w0 Hb.
  apply bind_Ok in Hb as (row & w2 & Hq & Hb). apply wrap_err_Ok, query_Ok in Hq as [-> ->].
  change (w_db w0) with (w_db (tick w0)). generalize dependent (tick w0). intros w2 Hb.
  destruct (head _) as [x|] in Hb.
  - destruct (_ && _) in Hb; [done|].
    assert (forall a wa wb p, (wrap_err (internalErr "ClaimProviderMessage") (dml (fun _ => update_msg (pm_id x) (fun _ => true) (fun x =>
      set_pm (pm_user x) (if redact then redacted_payload else pm_raw x) (Some a) None MessageReceived x))) ;;; ret p) wa = (Ok r, wb) ->
      redacts (w_db wa) (w_db wb)) as Hre.
    { intros a wa wb p Hrun. apply bind_Ok in Hrun as (n & w3 & Hd & Hrun). apply ret_Ok in Hrun as [_ <-].
      apply wrap_err_Ok, dml_Ok in Hd as [Hd _]. apply (f_equal snd) in Hd. simpl in Hd. rewrite <- Hd.
      apply (update_msg_redacts (pm_id x) (fun _ => true)). intros y. destruct redact; simpl; auto. }
    destruct (pm_status x); try done; try (by eapply Hre); try (by apply ret_Ok in Hb as [_ <-]).
    destruct (pm_started_at x) as [t|]; [destruct (_ <? t); [done|]|]; by eapply Hre.
  - apply bind_Ok in Hb as ([] & w3 & Hi & Hb). apply wrap_err_Ok in Hi. apply bind_Ok in Hb as ([] & w4 & Hred & Hb).
    apply ret_Ok in Hb as [_ <-]. eapply insert_redacts; [| |exact Hi|exact Hred]; [exact Hr|done].
Qed.

(** C14: The words of a rejected sender, and those of a sender without recorded
    consent, are stored only redacted, with one exemption: a text of an allowlisted
    sender that reads as a confirmation, as the start command or as a question about
    privacy is kept as it came.  In every other case each message row the event adds
    holds the redaction mark instead of the payload, and no stored payload is
    replaced by another, whatever faults strike. *)
Theorem payload_redacted (ev : InboundEvent) (w : World) (Hkeys : users_keyed (w_db w)) (Hun : unconsented ev (w_db w)) :
  redacts (w_db w) (w_db (snd (HandleEvent local cfg objects ev w))).
Proof.
  apply (event_absorbed (on_db redacts) (on_db redacts) (absorbs_self _)); [|apply (gate_finish (on_db redacts))|].
  - unfold claim_event, bind, on_db. pose proof (gate_storage cfg (on_db redacts) ev w) as Hst.
    destruct (storage_choice cfg ev w) as [[[raw redact]|e] w1] eqn:Hr; [|exact Hst].
    apply storage_redacts in Hr as [Hr Hd]; [|done]. rewrite <- Hd. unfold uuid_New. change (w_db w1) with (w_db (tick w1)).
    by apply claim_redacts.
  - intros pm w2 _ Ha. apply (gate_route (on_db redacts) _ _ _ (w_db w)); [done..|]. destruct Hun as [Hun|[_ Hl]]; [by left|right].
    intros u Hu. left. by rewrite (Hl u Hu).
Qed.
End gate.
