(* ===== verification/BotDialogue.v ===== *)
(** * Account status and ledger under the dialogue

    For every event, configuration and schedule of faults: an account's status
    changes only by consent or by a confirmed deletion, and a transaction comes
    to count only by its owner's confirmation of the card that showed it. *)
From S2P Require Import Prelude GoStrings Domain GoTime Json Normalise Db Queue StoreOutbound StoreInbound StoreReceipts StoreTx StoreSchedules.
From S2P Require Import StoreCatalog Categorisation Insight Texts Config Parse Fields Notify Export Account BotCommands BotText Bot BotSafety.

(** ** Steps that keep every status and record nothing *)
Definition same_standing (u u' : User) : Prop :=
  usr_status u' = usr_status u /\ usr_deleted_at u' = usr_deleted_at u /\ usr_consent_version u' = usr_consent_version u.
Definition status_kept (d d' : DB) : Prop :=
  (forall v, db_users d' !! v = None -> db_users d !! v = None) /\
  forall v u', db_users d' !! v = Some u' ->
    (exists u, db_users d !! v = Some u /\ same_standing u u') \/
    (db_users d !! v = None /\ usr_status u' = UserPending /\ usr_deleted_at u' = None).
Definition counted (t : Transaction) : bool := CountsTowardInsights (tx_status t).
Definition nothing_recorded (d d' : DB) : Prop := forall id t', db_txs d' !! id = Some t' -> counted t' = true ->
  exists t, db_txs d !! id = Some t /\ counted t = true.
Definition routine (d d' : DB) : Prop := status_kept d d' /\ nothing_recorded d d' /\ (txs_keyed d -> txs_keyed d').

#[global] Instance same_standing_preorder : PreOrder same_standing.
Proof. split; [by intros u|]. intros u1 u2 u3 (? & ? & ?) (? & ? & ?). split_and!; congruence. Qed.
#[global] Instance status_kept_preorder : PreOrder status_kept.
Proof.
  split.
  - intros d. split; [done|]. intros v u Hu. left. by exists u.
  - intros d1 d2 d3 [Na Ha] [Nb Hb]. split; [auto|]. intros v u3 Hu. destruct (Hb v u3 Hu) as [(u2 & Hu2 & Hs)|(Hn & Hs)].
    + destruct (Ha v u2 Hu2) as [(u1 & Hu1 & Hs1)|(Hn1 & Hs1 & Hd1)]; [left; exists u1; split; [done|by etrans]|right].
      destruct Hs as (-> & -> & _). done.
    + right. split; [auto|done].
Qed.
#[global] Instance routine_preorder : PreOrder routine.
Proof.
  split; [intros d; split_and!; [reflexivity|intros id t Ht Hc; eauto|done]|]. intros d1 d2 d3 (Ha & Hb & Hk) (Hc & Hd & Hk'). split_and!.
  - by etrans.
  - intros id t3 Ht Hc3. destruct (Hd id t3 Ht Hc3) as (t2 & Ht2 & Hc2). eauto.
  - auto.
Qed.

(** The same, with the ledger as it was. *)
Definition early (d d' : DB) : Prop := routine d d' /\ same_txs d d'.
#[global] Instance same_txs_preorder : PreOrder same_txs.
Proof. unfold same_txs. split; [by intros d|intros d1 d2 d3; congruence]. Qed.
#[global] Instance early_preorder : PreOrder early.
Proof. split; [intros d; split; reflexivity|]. intros d1 d2 d3 [] []. split; by etrans. Qed.

Lemma status_free d d' : db_users d' = db_users d -> status_kept d d'.
Proof. intros Hu. split; [by rewrite Hu|]. intros v u. rewrite Hu. left. by exists u. Qed.
Lemma routine_free d d' : db_users d' = db_users d -> db_txs d' = db_txs d -> routine d d'.
Proof. intros Hu Ht. split_and!; [by apply status_free|intros id t; rewrite Ht; eauto|unfold txs_keyed; by rewrite Ht]. Qed.
Lemma routine_user id cond f d : (forall u, cond u = true -> same_standing u (f u)) -> routine d (update_user id cond f d).2.
Proof.
  intros Hf. unfold update_user. simpl. split; [|split; [intros k t Ht Hc; eauto|done]]. split; simpl.
  - intros v. rewrite update_row_lookup. case_bool_decide; [|done]. by destruct (db_users d !! v).
  - intros v u'. rewrite update_row_lookup. case_bool_decide; [|left; by exists u']. destruct (db_users d !! v) as [u|]; [|done].
    simpl. intros [= <-]. left. exists u. split; [done|]. destruct (cond u) eqn:Hc; [by apply Hf|done].
Qed.
Lemma keyed_insert t d : txs_keyed d -> txs_keyed (upd_txs (<[tx_id t := t]>) d).
Proof. intros Hk id x. simpl. rewrite lookup_insert_Some. intros [[<- <-]|[_ Hx]]; [done|by apply Hk]. Qed.
Lemma routine_write t d d' : write_tx t d = Ok d' -> counted t = false -> routine d d'.
Proof.
  intros Hw Hc. unfold write_tx in Hw. repeat (case_match; try done). injection Hw as <-. split_and!; [by apply status_free| |intros Hk; by apply keyed_insert].
  intros id t'. simpl. rewrite lookup_insert_Some. intros [[_ <-]|[_ Ht]] Hc'; [congruence|eauto].
Qed.
Lemma routine_update_tx id cond f d : (forall x, counted (f x) = false) ->
  routine d (match update_tx id cond f d with Ok (_, d') => d' | Fail _ => d end).
Proof.
  intros Hf. unfold update_tx. destruct (db_txs d !! id) as [t|]; [|reflexivity]. destruct (cond t); [|reflexivity].
  destruct (write_tx (f t) d) as [d'|] eqn:Hw; [|reflexivity]. by eapply routine_write.
Qed.

Section operations.
Context `{Env} `{TzData} `{SqlLocale} (local : Location) (cfg : Config).
Abbreviation R := (on_db routine).

Lemma routine_stmt {A} (f : Stmt A) : (forall t d, routine d (stmt_effect f t d)) -> evolves R (stmt f).
Proof. intros Hf. apply evolves_stmt; [apply _|]. intros t w. apply Hf. Qed.
Lemma routine_dml {A} (f : Time -> DB -> A * DB) : (forall t d, routine d (f t d).2) -> evolves R (dml f).
Proof. intros Hf. apply evolves_dml; [apply _|]. intros t w. apply Hf. Qed.
Ltac side_tables := go_evolve; first [apply routine_dml|apply routine_stmt]; intros ? ?; unfold stmt_effect; simpl;
  try (by apply routine_free); repeat (case_match; simplify_eq/=; try (by apply routine_free); try reflexivity).

Lemma step_reply u ev b k : evolves R (reply u ev b k).
Proof. unfold reply, Reply, enqueue, EnqueueOutbound, GetOutboundByIdempotencyKey, Enqueue, insert_outbound. side_tables. Qed.
Lemma step_confirmation u p c b k : evolves R (DeletionConfirmation u p c b k).
Proof. unfold DeletionConfirmation, enqueue, EnqueueOutbound, GetOutboundByIdempotencyKey, Enqueue, insert_outbound. side_tables. Qed.
Lemma step_catalog : (forall id, evolves R (categoryName id)) /\ (forall t, evolves R (matchCategory t)) /\ evolves R ListCategories.
Proof. split_and!; intros; unfold categoryName, matchCategory, GetCategoryByID, ListCategories; go_evolve. Qed.
Lemma step_receipts : (forall r, evolves R (GetOrCreateReceiptForProviderMessage r)) /\ (forall id, evolves R (DeleteReceivedReceipt id)) /\
  (forall id a b, evolves R (TransitionReceipt id a b)) /\ (forall s i p m n l, evolves R (IncrementUsage s i p m n l)) /\
  (forall k p q n, evolves R (Enqueue k p q n)).
Proof.
  split_and!; intros; unfold GetOrCreateReceiptForProviderMessage, DeleteReceivedReceipt, TransitionReceipt, IncrementUsage, Enqueue,
    insert_receipt, update_receipt, bump_usage; side_tables.
Qed.
Lemma step_schedules : (forall u, evolves R (ListSummarySchedules u)) /\ (forall p, evolves R (UpsertSummarySchedule p)) /\
  (forall u f, evolves R (DisableSummarySchedules u f)).
Proof.
  split_and!; intros; unfold ListSummarySchedules, UpsertSummarySchedule, DisableSummarySchedules, or_new, upsert_schedule, disable_schedules;
    side_tables.
Qed.
Lemma step_pending : (forall u, evolves R (GetPendingAction u)) /\ (forall p, evolves R (SetPendingAction p)) /\ (forall u, evolves R (ClearPendingAction u)).
Proof. split_and!; intros; unfold GetPendingAction, SetPendingAction, ClearPendingAction, or_new, delete_pending, insert_pending; side_tables. Qed.
Lemma step_insight : (forall u p, evolves R (Summarise u p)) /\ (forall u t p sum, evolves R (Persist u t p sum)).
Proof.
  split; intros; unfold Summarise, Persist, marshal_as, userLocation, GetUser, ListInsightPeriodTotals, ListInsightCategoryTotals,
    ListInsightMerchantTotals, ListInsightLargestByCurrency, CountInsightExpenseDays, ListInsightEvidenceIDs, UpsertInsight, upsert_insight,
    query_res; side_tables.
Qed.
Lemma step_preferences u tz c : evolves R (UpdateUserPreferences u tz c).
Proof. unfold UpdateUserPreferences. go_evolve. apply routine_dml. intros t d. by apply routine_user. Qed.
Lemma step_txs : (forall u n, evolves R (ListRecentTransactions u n)) /\ (forall u, evolves R (LatestConfirmedTransaction u)) /\
  (forall id u, evolves R (GetTransactionForUser id u)) /\ (forall c, evolves R (InsertCorrection c)) /\ (forall u t, evolves R (LearnFromConfirmation u t)).
Proof.
  split_and!; intros; unfold ListRecentTransactions, LatestConfirmedTransaction, GetTransactionForUser, InsertCorrection, or_new, LearnFromConfirmation,
    or_missing, GetUserMerchantRule, UpsertUserMerchantRule, upsert_rule; side_tables.
Qed.
Lemma step_SoftDelete id u : evolves R (SoftDeleteTransaction id u).
Proof.
  unfold SoftDeleteTransaction, GetTransactionForUser. go_evolve. apply routine_stmt. intros t d. unfold stmt_effect.
  by apply routine_update_tx.
Qed.
Lemma step_Update t v : counted t = false -> evolves R (UpdateTransaction t v).
Proof.
  intros Hc. unfold UpdateTransaction. go_evolve. apply routine_stmt. intros now d. unfold stmt_effect. by apply routine_update_tx.
Qed.
Lemma step_merchants : (forall raw, evolves R (ResolveMerchant raw)) /\ (forall u m k c, evolves R (SuggestCategory u m k c)) /\
  (forall u m h b, evolves R (SuggestType u m h b)).
Proof. refine (cat_frame (Categoriser := service_categoriser) R _ _ _); intros w m; by apply routine_free. Qed.
Lemma step_manual t preds p m : counted t = false -> evolves R (CreateManualDraft (mkManual (Some t) preds p m)).
Proof.
  intros Hc. unfold CreateManualDraft, insert_manual, insert_predictions, replace_pending, or_new, delete_pending. cbn [md_tx md_pending md_message md_preds].
  destruct p as [p|]; [|by go_evolve]. unfold insert_prediction, insert_pending. go_evolve; first [apply routine_dml|apply routine_stmt];
    intros now d; unfold stmt_effect, insert_tx; simpl; try (by apply routine_free);
    repeat (case_match; simplify_eq/=; try (by apply routine_free); try reflexivity).
  by eapply routine_write.
Qed.
Lemma step_export : (forall u, evolves R (ExportTransactionsCSV u)) /\ (forall u, evolves R (ExportMetadataJSON local u)) /\
  (forall what f, evolves R (file_op what f)) /\ (forall (A : Type) (m : Go A), evolves R m -> evolves R (and_close m)).
Proof.
  split_and!; intros; unfold ExportTransactionsCSV, ListExportTransactions, csv_Write, ExportMetadataJSON, LoadAccountExport, GetUser,
    ListSummarySchedules, query_res, and_close; go_evolve; try apply evolves_may_fail; try apply _.
  - apply routine_stmt. intros t d. unfold stmt_effect. repeat (case_match; simplify_eq/=; try reflexivity).
  - intros w. unfold file_op, on_db. destruct (fault _) as [[e [|]]|]; reflexivity.
Qed.

#[local] Hint Resolve step_reply step_confirmation step_preferences step_SoftDelete : evolve.
#[local] Hint Extern 1 (evolves _ (categoryName _)) => apply step_catalog : evolve.
#[local] Hint Extern 1 (evolves _ (matchCategory _)) => apply step_catalog : evolve.
#[local] Hint Extern 1 (evolves _ ListCategories) => apply step_catalog : evolve.
#[local] Hint Extern 1 (evolves _ (GetOrCreateReceiptForProviderMessage _)) => apply step_receipts : evolve.
#[local] Hint Extern 1 (evolves _ (DeleteReceivedReceipt _)) => apply step_receipts : evolve.
#[local] Hint Extern 1 (evolves _ (TransitionReceipt _ _ _)) => apply step_receipts : evolve.
#[local] Hint Extern 1 (evolves _ (IncrementUsage _ _ _ _ _ _)) => apply step_receipts : evolve.
#[local] Hint Extern 1 (evolves _ (Enqueue _ _ _ _)) => apply step_receipts : evolve.
#[local] Hint Extern 1 (evolves _ (ListSummarySchedules _)) => apply step_schedules : evolve.
#[local] Hint Extern 1 (evolves _ (UpsertSummarySchedule _)) => apply step_schedules : evolve.
#[local] Hint Extern 1 (evolves _ (DisableSummarySchedules _ _)) => apply step_schedules : evolve.
#[local] Hint Extern 1 (evolves _ (GetPendingAction _)) => apply step_pending : evolve.
#[local] Hint Extern 1 (evolves _ (SetPendingAction _)) => apply step_pending : evolve.
#[local] Hint Extern 1 (evolves _ (ClearPendingAction _)) => apply step_pending : evolve.
#[local] Hint Extern 1 (evolves _ (Summarise _ _)) => apply step_insight : evolve.
#[local] Hint Extern 1 (evolves _ (Persist _ _ _ _)) => apply step_insight : evolve.
#[local] Hint Extern 1 (evolves _ (ListRecentTransactions _ _)) => apply step_txs : evolve.
#[local] Hint Extern 1 (evolves _ (LatestConfirmedTransaction _)) => apply step_txs : evolve.
#[local] Hint Extern 1 (evolves _ (GetTransactionForUser _ _)) => apply step_txs : evolve.
#[local] Hint Extern 1 (evolves _ (InsertCorrection _)) => apply step_txs : evolve.
#[local] Hint Extern 1 (evolves _ (LearnFromConfirmation _ _)) => apply step_txs : evolve.
#[local] Hint Extern 1 (evolves _ (ResolveMerchant _)) => apply step_merchants : evolve.
#[local] Hint Extern 1 (evolves _ (SuggestCategory _ _ _ _)) => apply step_merchants : evolve.
#[local] Hint Extern 1 (evolves _ (SuggestType _ _ _ _)) => apply step_merchants : evolve.
#[local] Hint Extern 1 (evolves _ (CreateManualDraft _)) => apply step_manual; reflexivity : evolve.
#[local] Hint Extern 1 (evolves _ (ExportTransactionsCSV _)) => apply step_export : evolve.
#[local] Hint Extern 1 (evolves _ (ExportMetadataJSON _ _)) => apply step_export : evolve.
#[local] Hint Extern 1 (evolves _ (file_op _ _)) => apply step_export : evolve.
#[local] Hint Extern 2 (evolves _ (and_close _)) => apply step_export : evolve.

(** [go_evolve] that tries the operations' lemmas first and nothing else. *)
Ltac walk := cbv beta zeta; repeat (first [solve [auto 2 with evolve nocore]|go_step]; cbv beta zeta).

(** ** Commands *)
Lemma step_handleImage u ev pm : evolves R (handleImage cfg u ev pm).
Proof. unfold handleImage, register_receipt, queue_receipt, enqueue_receipt. walk. Qed.
Lemma step_summary u ev pm k : evolves R (summary u ev pm k).
Proof. unfold summary. walk. Qed.
Lemma step_summarySchedule u ev i : evolves R (summarySchedule u ev i).
Proof. unfold summarySchedule, set_schedule. walk. Qed.
Lemma step_settings u ev i : evolves R (settings u ev i).
Proof. unfold settings, set_timezone, set_currency, reschedule. walk. Qed.
Lemma step_recent u ev pm : evolves R (recent u ev pm).
Proof. unfold recent, recent_line. walk. Qed.
Lemma step_export_command u ev : evolves R (export local cfg u ev).
Proof. unfold export. walk. Qed.
Lemma step_requests u ev : evolves R (requestDelete u ev) /\ evolves R (requestDeleteRecent u ev).
Proof. split; unfold requestDelete, requestDeleteRecent, with_latest; walk. Qed.
Lemma step_manualEntry u ev i pm : evolves R (manualEntry u ev i pm).
Proof. unfold manualEntry. walk. Qed.

#[local] Hint Resolve step_handleImage step_summary step_summarySchedule step_settings step_recent step_export_command step_manualEntry : evolve.
#[local] Hint Extern 1 (evolves _ (requestDelete _ _)) => apply step_requests : evolve.
#[local] Hint Extern 1 (evolves _ (requestDeleteRecent _ _)) => apply step_requests : evolve.

(** One run of a sequence, with the state and result of its first part known. *)
Lemma bind_at {A B} (Q : relation World) (m : Go A) (k : A -> Go B) w :
  (forall e w1, m w = (Fail e, w1) -> Q w w1) -> (forall a w1, m w = (Ok a, w1) -> Q w (snd (k a w1))) -> Q w (snd (bind m k w)).
Proof. intros Hf Hk. unfold bind. destruct (m w) as [[a|e] w1] eqn:Hm; [by apply Hk|by apply (Hf e)]. Qed.
Lemma run_R {A} (m : Go A) w r w1 : evolves R m -> m w = (r, w1) -> R w w1.
Proof. intros Hm Hr. specialize (Hm w). by rewrite Hr in Hm. Qed.

(** [UpdateTransaction] of a row that counts already. *)
Lemma counted_update id cond f d : (forall x, db_txs d !! id = Some x -> tx_id (f x) = id /\ (counted (f x) = true -> counted x = true)) ->
  routine d (match update_tx id cond f d with Ok (_, d') => d' | Fail _ => d end).
Proof.
  intros Hf. unfold update_tx. destruct (db_txs d !! id) as [t|] eqn:Ht; [|reflexivity]. destruct (cond t); [|reflexivity].
  destruct (Hf t eq_refl) as [Hid Hc]. unfold write_tx. destruct (negb (tx_checks_ok _)); [reflexivity|].
  destruct (existsb _ _); [reflexivity|]. destruct (negb _); [reflexivity|].
  split_and!; [by apply status_free| |intros Hk; by apply keyed_insert]. intros k t'. simpl. rewrite Hid, lookup_insert_Some.
  intros [[<- <-]|[_ Hx]] Hct; eauto.
Qed.
Lemma stmt_at {A} (f : Stmt A) w : (forall t, routine (w_db w) (stmt_effect f t (w_db w))) -> R w (snd (stmt f w)).
Proof.
  intros Hf. unfold stmt, on_db. specialize (Hf (now_sql w)). destruct (fault (w_tick w)) as [[e [|]]|]; simpl; [done|reflexivity|].
  unfold stmt_effect in Hf. destruct (f (now_sql w) (w_db w)) as [[a d]|e]; simpl; [done|reflexivity].
Qed.
Lemma Update_at t v w : (forall x, db_txs (w_db w) !! tx_id t = Some x -> tx_id x = tx_id t /\ (counted t = true -> counted x = true)) ->
  R w (snd (UpdateTransaction t v w)).
Proof.
  intros Hx. unfold UpdateTransaction.
  assert (R w (snd (wrap_err (internalErr "UpdateTransaction") (stmt (fun now => update_tx (tx_id t)
    (fun x => (tx_version x =? v) && bool_decide (tx_deleted_at x = None)) (edited now t))) w))) as Hs.
  { apply stmt_at. intros now. unfold stmt_effect. apply counted_update. intros x Hl. exact (Hx x Hl). }
  apply bind_at; [intros e w1 Hr; by rewrite Hr in Hs|]. intros n w1 Hr. rewrite Hr in Hs. by destruct (n =? 0).
Qed.

(** Reads leave the tables alone. *)
Lemma reads_same : (forall u, evolves (on_db eq) (LatestConfirmedTransaction u)) /\ (forall t, evolves (on_db eq) (matchCategory t)) /\
  (forall id u, evolves (on_db eq) (GetTransactionForUser id u)).
Proof. split_and!; intros; unfold LatestConfirmedTransaction, matchCategory, ListCategories, GetTransactionForUser; go_evolve. Qed.
Lemma same_at {A} (m : Go A) w r w1 : evolves (on_db eq) m -> m w = (r, w1) -> w_db w1 = w_db w.
Proof. intros Hm Hr. specialize (Hm w). rewrite Hr in Hm. by symmetry. Qed.

Lemma Latest_Ok u w t w1 : LatestConfirmedTransaction u w = (Ok t, w1) -> txs_keyed (w_db w) ->
  db_txs (w_db w) !! tx_id t = Some t /\ counted t = true.
Proof.
  intros Hr Hk. unfold LatestConfirmedTransaction in Hr. apply bind_Ok in Hr as (row & w2 & Hq & Hr). apply wrap_err_Ok, query_Ok in Hq as [-> ->].
  destruct (argmin _ _) as [x|] eqn:Ha; [|done]. apply ret_Ok in Hr as [-> _]. apply argmin_in, elem_of_select in Ha as (Hrec & id & Hx).
  unfold recorded in Hrec. apply andb_true_iff in Hrec as [_ Hc]. rewrite (Hk id t Hx). done.
Qed.

Lemma recategorise_at u ev text w : txs_keyed (w_db w) -> R w (snd (recategorise u ev text w)).
Proof.
  intros Hk. unfold recategorise, with_latest. apply bind_at; [done|]. intros found w1 Hf. apply attempt_Ok in Hf.
  pose proof (same_at _ _ _ _ (proj1 reads_same (usr_id u)) Hf) as Hd.
  assert (R w w1) as R1 by (unfold on_db; by rewrite Hd). destruct found as [tx|e]; (etrans; [exact R1|]);
    [|destruct (IsCode e CodeNotFound); [apply step_reply|reflexivity]].
  apply Latest_Ok in Hf as [Htx Hc]; [|done]. rewrite <- Hd in Htx. apply bind_at; [done|]. intros cat w2 Hcat. apply attempt_Ok in Hcat.
  pose proof (same_at _ _ _ _ (proj1 (proj2 reads_same) text) Hcat) as Hd2. assert (R w1 w2) as R2 by (unfold on_db; by rewrite Hd2).
  etrans; [exact R2|]. destruct cat as [cat|e]; [|apply step_reply]. set (status := if bool_decide _ then _ else _).
  apply bind_at; [done|]. intros res w3 Hup. apply attempt_Ok in Hup.
  pose proof (Update_at (set_tx_category (cat_id cat) status tx) (tx_version tx) w2) as R3. rewrite Hup in R3. etrans; [apply R3|].
  - simpl. rewrite Hd2, Htx. by intros x [= <-].
  - destruct res as [tx'|e]; [|destruct (IsCode e CodeConflict); [apply step_reply|reflexivity]].
    assert (evolves R (ignore (InsertCorrection (mkCorrection uuid_nil (tx_id tx') "category" (ptrKey (tx_category tx)) (cat_key cat) "chat_edit" 0)) ;;;
      ignore (LearnFromConfirmation (usr_id u) tx') ;;;
      reply (usr_id u) ev (RecategorisedText (tx_merchant_name tx') (cat_display cat)) ("cmd:" ++ ev_message ev))) as He by walk.
    apply He.
Qed.

Lemma dispatch_at u ev pm intent w : txs_keyed (w_db w) -> R w (snd (dispatch local cfg u ev pm intent w)).
Proof.
  intros Hk. destruct (decide (Kind intent = IntentRecategory)) as [Hr|Hr].
  - unfold dispatch. rewrite Hr. by apply recategorise_at.
  - revert w Hk. unfold dispatch. destruct (Kind intent); try done; intros w _; (match goal with |- R w (snd (?m w)) => cut (evolves R m); [intros He; apply He|walk] end).
Qed.

(** ** The pending action *)
Lemma step_stale u ev : evolves R (stale u ev).
Proof. unfold stale. walk. Qed.
#[local] Hint Resolve step_stale : evolve.
Lemma step_reshow u ev id : evolves R (reshowCard u ev id).
Proof. unfold reshowCard. walk. Qed.
#[local] Hint Resolve step_reshow : evolve.
Lemma step_discard u ev id : evolves R (discardTx u ev id).
Proof. unfold discardTx. walk. Qed.
Lemma step_ask u ev id k : evolves R (ask_edit u ev id k).
Proof. unfold ask_edit. walk. Qed.
Lemma step_after_confirm u ev t : evolves R (after_confirm u ev t).
Proof. unfold after_confirm. walk. Qed.
#[local] Hint Resolve step_discard step_ask step_after_confirm : evolve.
Lemma step_deleteRecent u ev pa i : evolves R (resolveDeleteRecent u ev pa i).
Proof. unfold resolveDeleteRecent. walk. Qed.
Lemma step_resolveConfirm u ev pa i : Kind i <> IntentConfirm -> evolves R (resolveConfirm u ev pa i).
Proof. intros Hi. unfold resolveConfirm. destruct (pa_tx pa); [|walk]. destruct (Kind i); try done; cbn [edit_kind]; walk. Qed.

Lemma apply_edit_status u k text tx w tx' f p c w1 : apply_edit local u k text tx w = (Ok (Some (tx', f, p, c)), w1) -> tx_status tx' = tx_status tx.
Proof.
  unfold apply_edit. destruct k; cbv zeta; intros Hr; try (apply ret_Ok in Hr as [Hr _]; by simplify_eq).
  - destruct (ParseAmount text (tx_currency tx)) as [[minor cur]|]; apply ret_Ok in Hr as [Hr _]; by simplify_eq.
  - destruct (String.eqb text ""); [by apply ret_Ok in Hr as [Hr _]|]. apply bind_Ok in Hr as (r & w2 & _ & Hr).
    destruct (r.1) as [m|]; apply ret_Ok in Hr as [Hr _]; by simplify_eq.
  - destruct (ParseDate text _) as [when|]; apply ret_Ok in Hr as [Hr _]; by simplify_eq.
  - apply bind_Ok in Hr as (r & w2 & _ & Hr). destruct r as [cat|e]; apply ret_Ok in Hr as [Hr _]; by simplify_eq.
  - destruct (matchType text) as [t|]; apply ret_Ok in Hr as [Hr _]; by simplify_eq.
Qed.
Lemma step_apply_edit u k text tx : evolves R (apply_edit local u k text tx).
Proof. unfold apply_edit. walk. Qed.
Lemma step_save_edit u ev id tx f p c : counted tx = false -> evolves R (save_edit u ev id tx f p c).
Proof. intros Hc. unfold save_edit. refine (evolves_bind _ _ _ (step_Update _ _ Hc) _). intros t. walk. Qed.
Lemma step_resolveEdit u ev pa : evolves R (resolveEdit local u ev pa).
Proof.
  intros w. unfold resolveEdit. destruct (pa_tx pa) as [id|]; [|cut (evolves R (ignore (ClearPendingAction (usr_id u)) ;;; ret false)); [intros He; apply He|walk]].
  apply bind_at; [done|]. intros found w1 Hf. apply attempt_Ok in Hf. apply (run_R _ _ _ _ (proj1 (proj2 (proj2 step_txs)) id (usr_id u))) in Hf.
  etrans; [exact Hf|]. assert (evolves R (stale u ev ;;; ret true)) as Hst by walk. destruct found as [tx|e]; [|apply Hst].
  case_bool_decide as Hs; simpl; [|apply Hst]. apply bind_at.
  - intros e w2 He. by eapply run_R; [apply step_apply_edit|].
  - intros edit w2 He. etrans; [by eapply run_R; [apply step_apply_edit|]|]. destruct edit as [[[[tx' f] p] c]|].
    + apply apply_edit_status in He. cut (evolves R (save_edit u ev id tx' f p c ;;; ret true)); [intros Hsave; apply Hsave|].
      refine (evolves_bind _ _ _ (step_save_edit _ _ _ _ _ _ _ _) _); [unfold counted; by rewrite He, Hs|intros []; walk].
    + cut (evolves R (reply (usr_id u) ev (EditInvalidText (pa_kind pa)) ("editinv:" ++ ev_message ev) ;;; ret true)); [intros Hi; apply Hi|walk].
Qed.

(** ** The three eventful steps *)
Definition consent_step (u : User) (d d' : DB) : Prop := exists at_ now,
  d' = (update_user (usr_id u) (fun x => bool_decide (usr_status x = UserPending)) (fun x =>
    mkUser (usr_id x) UserActive (usr_timezone x) (usr_default_currency x) (usr_locale x) consentVersion (Some at_) (usr_created_at x) now (usr_deleted_at x)) d).2.
Definition confirm_step (u : User) (txID : uuid) (d d' : DB) : Prop := exists t now now',
  db_txs d !! txID = Some t /\ tx_user t = usr_id u /\ tx_status t = TxAwaitingConfirmation /\ d' = upd_txs (<[txID := edited now' (confirmed now t) t]>) d.
Definition delete_step (u : User) (d d' : DB) : Prop := exists trigger d1, begun (usr_id u) d d1 /\ same_or_purged (usr_id u) trigger d1 d'.
(** One of them, with routine steps around it that leave the ledger alone. *)
Definition around (X : relation DB) (d d' : DB) : Prop := exists d1 d2, early d d1 /\ X d1 d2 /\ early d2 d'.

Lemma early_evolves {A} (m : Go A) : evolves R m -> evolves (on_db same_txs) m -> evolves (on_db early) m.
Proof. intros Hr Ht w. split; [apply Hr|apply Ht]. Qed.
Lemma private_txs {A} (m : Go A) : evolves private_same m -> evolves (on_db same_txs) m.
Proof. intros Hp w. apply (Hp w). Qed.
Lemma txs_stmt {A} (f : Stmt A) : (forall t d, same_txs d (stmt_effect f t d)) -> evolves (on_db same_txs) (stmt f).
Proof. intros Hf. apply evolves_stmt; [apply _|]. intros t w. apply Hf. Qed.
Ltac other_tables := go_evolve; apply txs_stmt; intros ? ?; unfold stmt_effect; simpl; try done; repeat (case_match; simplify_eq/=; try done).
Lemma txs_reply u p c b k e : evolves (on_db same_txs) (enqueue u p c b k e).
Proof. unfold enqueue, EnqueueOutbound, GetOutboundByIdempotencyKey, Enqueue, insert_outbound. other_tables. Qed.
Lemma txs_pieces : (forall id a b, evolves (on_db same_txs) (TransitionReceipt id a b)) /\ (forall c, evolves (on_db same_txs) (InsertCorrection c)) /\
  (forall u t, evolves (on_db same_txs) (LearnFromConfirmation u t)) /\ (forall u, evolves (on_db same_txs) (ClearPendingAction u)) /\
  (forall id, evolves (on_db same_txs) (categoryName id)).
Proof.
  split_and!; intros; unfold TransitionReceipt, InsertCorrection, or_new, LearnFromConfirmation, or_missing, GetUserMerchantRule,
    UpsertUserMerchantRule, upsert_rule, ClearPendingAction, delete_pending, categoryName, GetCategoryByID, update_receipt, dml; other_tables.
Qed.
Lemma early_after_confirm u ev t : evolves (on_db early) (after_confirm u ev t).
Proof.
  destruct txs_pieces as (H1' & H2' & H3' & H4' & H5'). apply early_evolves; [apply step_after_confirm|]. unfold after_confirm, reply, Reply. walk; auto using txs_reply.
Qed.
Lemma early_clear u : evolves (on_db early) (ignore (ClearPendingAction u)).
Proof. apply early_evolves; [walk|]. apply evolves_ignore, txs_pieces. Qed.
Lemma early_reply u ev b k : evolves (on_db early) (reply u ev b k).
Proof. apply early_evolves; [apply step_reply|apply txs_reply]. Qed.
Lemma early_confirmation u p c b k : evolves (on_db early) (DeletionConfirmation u p c b k).
Proof. apply early_evolves; [apply step_confirmation|apply txs_reply]. Qed.

Lemma Update_cases t v w : let w' := snd (UpdateTransaction t v w) in
  w_db w' = w_db w \/ exists x now, db_txs (w_db w) !! tx_id t = Some x /\ w_db w' = upd_txs (<[tx_id x := edited now t x]>) (w_db w).
Proof.
  cbv zeta. unfold UpdateTransaction. set (cond := fun x => _ && _).
  assert (forall now, stmt_effect (fun now => update_tx (tx_id t) cond (edited now t)) now (w_db w) = w_db w \/ exists x,
    db_txs (w_db w) !! tx_id t = Some x /\ stmt_effect (fun now => update_tx (tx_id t) cond (edited now t)) now (w_db w) =
      upd_txs (<[tx_id x := edited now t x]>) (w_db w)) as He.
  { intros now. unfold stmt_effect, update_tx. destruct (db_txs (w_db w) !! tx_id t) as [x|]; [|by left]. destruct (cond x); [|by left].
    unfold write_tx. destruct (negb (tx_checks_ok _)); [by left|]. destruct (existsb _ _); [by left|]. destruct (negb _); [by left|]. right. by exists x. }
  unfold bind, wrap_err, stmt. specialize (He (now_sql w)). unfold stmt_effect in He |- *.
  destruct (fault (w_tick w)) as [[e [|]]|]; simpl; [destruct He as [|(x & ? & ?)]; eauto|by left|].
  destruct (update_tx _ _ _ _) as [[n d]|e]; simpl; [|by left]. destruct (n =? 0); simpl; destruct He as [|(x & ? & ?)]; eauto.
Qed.

Lemma confirmTx_at u ev id w : txs_keyed (w_db w) ->
  let d' := w_db (snd (confirmTx u ev id w)) in routine (w_db w) d' \/ around (confirm_step u id) (w_db w) d'.
Proof.
  intros Hk. cbv zeta. unfold confirmTx.
  set (Q := fun w w' => routine (w_db w) (w_db w') \/ around (confirm_step u id) (w_db w) (w_db w')). change (Q w (snd (confirmTx u ev id w))).
  apply (bind_at Q); [done|]. intros found w1 Hf. apply attempt_Ok in Hf.
  pose proof (same_at _ _ _ _ (proj2 (proj2 reads_same) id (usr_id u)) Hf) as Hd.
  assert (forall w', Q w1 w' -> Q w w') as HQ by (intros w'; unfold Q; by rewrite Hd). apply HQ. clear HQ. rewrite <- Hd in Hk.
  destruct found as [tx|e]; [|destruct (IsCode e CodeNotFound); left; [apply step_stale|reflexivity]].
  assert (db_txs (w_db w1) !! id = Some tx /\ tx_user tx = usr_id u) as [Htx Hu].
  { unfold GetTransactionForUser in Hf. rewrite Hd. apply bind_Ok in Hf as (row & w2 & Hq & Hf). apply wrap_err_Ok, query_Ok in Hq as [-> ->].
    destruct (db_txs (w_db w) !! id) as [x|]; [|done]. simpl in Hf. case_bool_decide; [|done]. by apply ret_Ok in Hf as [-> _]. }
  case_bool_decide as Hs; simpl; [|left; apply step_stale]. apply (bind_at Q); [done|]. intros now w2 [= _ <-].
  refine ((fun w' (Hq : Q (tick w1) w') => Hq) _ _). apply (bind_at Q); [done|]. intros res w2 Hres. apply attempt_Ok in Hres. pose proof (Update_cases (confirmed now tx) (tx_version tx) (tick w1)) as Hup. rewrite Hres in Hup.
  set (rest := match res with Ok tx => _ | Fail err => _ end).
  assert (evolves (on_db early) rest) as Hrest.
  { unfold rest. destruct res as [t|e]; [apply early_after_confirm|]. destruct (IsCode e CodeConflict); [apply early_clear|apply evolves_fail, _]. }
  specialize (Hrest w2). unfold on_db in Hrest. simpl in Hup.
  destruct Hup as [Hup|(x & now' & Hx & Hup)]; [left; rewrite Hup in Hrest; apply Hrest|right].
  assert (tx_id tx = id) as Hid by (by apply Hk). rewrite Hid, Htx in Hx. injection Hx as <-. rewrite Hid in Hup.
  exists (w_db w1), (w_db w2). split_and!; [reflexivity| |done]. by exists tx, now, now'.
Qed.

Context (objects : bool).
Lemma resolveDelete_at u ev pm i w : let d' := w_db (snd (resolveDelete cfg objects u ev pm i w)) in
  routine (w_db w) d' \/ (Kind i = IntentConfirm /\ around (delete_step u) (w_db w) d').
Proof.
  cbv zeta. unfold resolveDelete. case_bool_decide as Hi; simpl.
  - right. split; [done|]. unfold bind at 1, deleteAccount. destruct (saga_tables objects (DataDir cfg) (usr_id u) pm w) as (d1 & Hb & Hp).
    destruct (DeleteAccount objects (DataDir cfg) (usr_id u) pm w) as [[rep|e] w1]; simpl in Hp |- *.
    + set (rest := _ ;;; ret true). assert (evolves (on_db early) rest) as Hrest.
      { unfold rest. refine (evolves_bind _ _ _ (early_confirmation _ _ _ _ _) _). intros _. apply evolves_ret, _. }
      exists (w_db w), (w_db w1).
      split_and!; [reflexivity|by exists pm, d1|apply Hrest].
    + exists (w_db w), (w_db w1). split_and!; [reflexivity|by exists pm, d1|reflexivity].
  - left. set (rest := _ ;;; _). assert (evolves R rest) as Hrest by (unfold rest; walk). apply Hrest.
Qed.

(** ** What an event can cause *)
Definition intent_of (ev : InboundEvent) : IntentKind := Kind (Parse (ev_text ev)).
(** The account's open action, as stored when the event arrived. *)
Definition pending_at (d0 : DB) (u : User) (pa : PendingAction) : Prop := exists k, db_pending d0 !! k = Some pa /\ pa_user pa = usr_id u.
Definition confirmed_action (d0 : DB) (u : User) (d d' : DB) : Prop := exists pa, pending_at d0 u pa /\
  ((pa_kind pa = PendingConfirmExtraction /\ exists id, pa_tx pa = Some id /\ around (confirm_step u id) d d') \/
   (pa_kind pa = PendingDeleteAccount /\ around (delete_step u) d d')).
Definition caused (ev : InboundEvent) (d0 : DB) (d d' : DB) : Prop :=
  routine d d' \/
  Allowlisted cfg (ev_user ev) = true /\ ev_type ev = EventTextReceived /\ exists u, (newcomer u d0 \/ linked ev u d0) /\
    ((usr_status u = UserPending /\ (intent_of ev = IntentConfirm \/ intent_of ev = IntentStart) /\ around (consent_step u) d d') \/
     (usr_status u = UserActive /\ intent_of ev = IntentConfirm /\ confirmed_action d0 u d d')).

Lemma around_absorbs X a b c d : early a b -> around X b c -> early c d -> around X a d.
Proof. intros Ha (d1 & d2 & H1' & HX & H2') Hd. exists d1, d2. split_and!; [by etrans|done|by etrans]. Qed.
Lemma confirmed_absorbs d0 u a b c d : early a b -> confirmed_action d0 u b c -> early c d -> confirmed_action d0 u a d.
Proof.
  intros Ha (pa & Hp & Hcase) Hd. exists pa. split; [done|]. destruct Hcase as [(Hk & id & Hid & Har)|(Hk & Har)]; [left|right]; split; try done;
    [exists id; split; [done|]|]; by eapply around_absorbs.
Qed.
Lemma caused_absorbs ev d0 : absorbs (on_db early) (on_db (caused ev d0)).
Proof.
  assert (forall a b c d, early a b -> caused ev d0 b c -> early c d -> caused ev d0 a d) as Hmid.
  { intros a b c d Hab [Hr|(Hal & Ht & u & Hu & Hcase)] Hcd; [left; etrans; [apply Hab|etrans; [exact Hr|apply Hcd]]|].
    right. split_and!; [done..|]. exists u. split; [done|].
    destruct Hcase as [(Hs & Hi & Har)|(Hs & Hi & Har)]; [left|right]; split_and!; try done; [by eapply around_absorbs|by eapply confirmed_absorbs]. }
  split_and!; unfold on_db; [intros a b [Hr _]; by left|intros a b c Hab Hbc; by eapply Hmid|intros a b c Hab Hbc; by eapply Hmid].
Qed.

Lemma purge_isolates u d d' : delete_step u d d' -> isolated (usr_id u) d d'.
Proof. intros (trigger & d1 & Hb & [->|[now ->]]); [by apply begun_isolated|by apply purged_isolated]. Qed.
Lemma confirmed_keyed d0 u d d' : confirmed_action d0 u d d' -> txs_keyed d -> txs_keyed d'.
Proof.
  intros (pa & _ & [(_ & id & _ & d1 & d2 & [H1' _] & (t & now & now' & Ht & _ & _ & ->) & [H2' _])|(_ & d1 & d2 & [H1' _] & Hdel & [H2' _])]) Hk; apply H2'; apply H1' in Hk.
  - intros k x. simpl. rewrite lookup_insert_Some. intros [[<- <-]|[_ Hx]]; [|by apply Hk]. simpl. by apply Hk.
  - apply purge_isolates in Hdel as (_ & _ & [Hsub _] & _). intros k x Hx. apply Hk. by eapply lookup_weaken.
Qed.

Lemma GetPending_Ok u w pa w1 : GetPendingAction u w = (Ok pa, w1) -> (exists k, db_pending (w_db w) !! k = Some pa) /\ pa_user pa = u /\ w_db w1 = w_db w.
Proof.
  intros Hr. unfold GetPendingAction in Hr. apply bind_Ok in Hr as (row & w2 & Hq & Hr). apply wrap_err_Ok, query_Ok in Hq as [-> ->].
  destruct (head _) as [p|] eqn:Hh; [|done]. apply bind_Ok in Hr as (now & w2 & [= <- <-] & Hr). destruct (pa_expires_at p <? _).
  - by apply bind_Ok in Hr as (? & ? & _ & Hr).
  - apply ret_Ok in Hr as [-> <-]. apply head_Some_elem_of, elem_of_select in Hh as (Hu & k & Hk). apply bool_decide_eq_true in Hu. by split; [exists k|].
Qed.

(** A text the code counts as consumed. *)
Lemma consumed {A} (m : Go A) w : fst ((m ;;; ret true) w) <> Ok false.
Proof. unfold bind. by destruct (m w) as [[]]. Qed.
Lemma resolveDelete_consumed u ev pm i w : fst (resolveDelete cfg objects u ev pm i w) <> Ok false.
Proof.
  unfold resolveDelete. destruct (negb _); unfold bind at 1.
  - destruct (ignore _ w) as [[[]|e] w1]; [apply consumed|done].
  - destruct (deleteAccount cfg objects (usr_id u) pm w) as [[rep|e] w1]; [apply consumed|done].
Qed.
Lemma resolvePending_at d0 u ev pm pa w : txs_keyed (w_db w) -> pending_at d0 u pa ->
  let r := resolvePending local cfg objects u ev pm pa (Parse (ev_text ev)) w in let d' := w_db (snd r) in
  routine (w_db w) d' \/ (fst r <> Ok false /\ intent_of ev = IntentConfirm /\ confirmed_action d0 u (w_db w) d').
Proof.
  intros Hk Hp. cbv zeta. unfold resolvePending. destruct (pa_kind pa) eqn:Hkind; try (left; apply step_resolveEdit); [| |left; apply step_deleteRecent].
  - destruct (decide (Kind (Parse (ev_text ev)) = IntentConfirm)) as [Hi|Hi]; [|left; by apply step_resolveConfirm].
    unfold resolveConfirm. destruct (pa_tx pa) as [id|] eqn:Hid.
    + rewrite Hi. assert (w_db (snd ((confirmTx u ev id ;;; ret true) w)) = w_db (snd (confirmTx u ev id w))) as ->
        by (unfold bind; by destruct (confirmTx u ev id w) as [[]]).
      destruct (confirmTx_at u ev id w Hk) as [Hr|Ha]; [by left|right]. split_and!; [apply consumed|done|]. exists pa. split; [done|]. left.
      split; [done|]. by exists id.
    + left. set (rest := _ ;;; _). assert (evolves R rest) as Hrest by (unfold rest; walk). apply Hrest.
  - destruct (resolveDelete_at u ev pm (Parse (ev_text ev)) w) as [Hr|[Hi Ha]]; [by left|right]. split_and!; [apply resolveDelete_consumed|done|].
    exists pa. split; [done|]. by right.
Qed.

Lemma handleText_at d0 u ev pm w : txs_keyed (w_db w) -> db_pending (w_db w) = db_pending d0 ->
  let d' := w_db (snd (handleText local cfg objects u ev pm w)) in
  routine (w_db w) d' \/ (intent_of ev = IntentConfirm /\ confirmed_action d0 u (w_db w) d').
Proof.
  intros Hk Hpend. cbv zeta. set (Q := fun w w' => routine (w_db w) (w_db w') \/ (intent_of ev = IntentConfirm /\ confirmed_action d0 u (w_db w) (w_db w'))).
  change (Q w (snd (handleText local cfg objects u ev pm w))).
  assert (forall w1, R w w1 -> Q w (snd (dispatch local cfg u ev pm (Parse (ev_text ev)) w1))) as Hend.
  { intros w1 Hr. left. etrans; [exact Hr|]. apply dispatch_at. by apply Hr. }
  unfold handleText. cbv zeta. apply (bind_at Q); [done|]. intros pending w1 Hp. apply attempt_Ok in Hp.
  pose proof (run_R _ _ _ _ (proj1 step_pending (usr_id u)) Hp) as R1. destruct pending as [pa|e].
  - apply GetPending_Ok in Hp as ((k & Hpa) & Hu & Hd). destruct (isSlashIntent _); [by apply Hend|].
    assert (pending_at d0 u pa) as Hat by (exists k; by rewrite <- Hpend).
    pose proof (resolvePending_at d0 u ev pm pa w1) as Hres. rewrite Hd in Hres. specialize (Hres Hk Hat). cbv zeta in Hres. unfold bind.
    destruct (resolvePending local cfg objects u ev pm pa (Parse (ev_text ev)) w1) as [[[|]|e] w2]; cbn [fst snd] in Hres.
    + destruct Hres as [Hr|(_ & Hi & Hc)]; [by left|by right].
    + destruct Hres as [Hr|(Hne & _)]; [by apply Hend|done].
    + destruct Hres as [Hr|(_ & Hi & Hc)]; [by left|by right].
  - destruct (IsCode e CodeNotFound); [by apply Hend|by left].
Qed.

Lemma SetConsent_cases u now w : let w' := snd (SetConsent (usr_id u) consentVersion now w) in
  w_db w' = w_db w \/ consent_step u (w_db w) (w_db w').
Proof.
  cbv zeta. unfold SetConsent, bind, wrap_err, dml, stmt, stmt_effect. destruct (fault (w_tick w)) as [[e [|]]|]; simpl; [right; by exists now, (now_sql w)|by left|].
  destruct (_ =? 0); right; by exists now, (now_sql w).
Qed.
Lemma consentFlow_at u ev w : let d' := w_db (snd (consentFlow cfg u ev w)) in
  routine (w_db w) d' \/ (ev_type ev = EventTextReceived /\ (intent_of ev = IntentConfirm \/ intent_of ev = IntentStart) /\ around (consent_step u) (w_db w) d').
Proof.
  cbv zeta. unfold consentFlow. destruct (String.eqb_spec (ev_type ev) EventTextReceived) as [Ht|]; [|left; apply step_reply].
  fold (intent_of ev). set (Q := fun w w' => routine (w_db w) (w_db w') \/
    (ev_type ev = EventTextReceived /\ (intent_of ev = IntentConfirm \/ intent_of ev = IntentStart) /\ around (consent_step u) (w_db w) (w_db w'))).
  assert (forall w, (intent_of ev = IntentConfirm \/ intent_of ev = IntentStart) -> Q w (snd ((let* now := clk_Now in
    let* res := attempt (SetConsent (usr_id u) consentVersion now) in
    match res with
    | Fail err => if IsCode err CodeConflict then reply (usr_id u) ev WelcomeText ("welcome:" ++ ev_message ev) else fail err
    | Ok _ => reply (usr_id u) ev WelcomeText ("welcome:" ++ ev_message ev)
    end) w))) as Hc.
  { intros w0 Hi. unfold bind at 1, clk_Now. set (now := clk_now _). refine ((fun w' (Hq : Q (tick w0) w') => Hq) _ _).
    apply (bind_at Q); [done|]. intros res w1 Hr. apply attempt_Ok in Hr. pose proof (SetConsent_cases u now (tick w0)) as Hcase. rewrite Hr in Hcase.
    set (rest := match res with Ok _ => _ | Fail err => _ end). assert (evolves (on_db early) rest) as Hrest.
    { unfold rest. destruct res as [[]|e]; [exact (early_reply _ _ _ _)|]. destruct (IsCode e CodeConflict); [exact (early_reply _ _ _ _)|apply evolves_fail, _]. }
    specialize (Hrest w1). unfold on_db in Hrest. cbn [snd] in Hcase. destruct Hcase as [He|He]; [left; rewrite He in Hrest; apply Hrest|right].
    split_and!; [done..|]. exists (w_db (tick w0)), (w_db w1). split_and!; [reflexivity|done|done]. }
  destruct (intent_of ev) eqn:Hi; try (left; apply step_reply); apply Hc; auto.
Qed.

(** ** Routing *)
Lemma step_messages : (forall id u, evolves R (SetProviderMessageUser id u)) /\ (forall id, evolves R (RedactProviderMessageRaw id)) /\
  (forall id st, evolves R (MarkProviderMessage id st)) /\ (forall p s c, evolves R (TouchIdentityLastSeen p s c)) /\
  (forall id, evolves R (GetUser id)) /\ (forall ev, evolves R (find_user ev)).
Proof.
  split_and!; intros; unfold SetProviderMessageUser, RedactProviderMessageRaw, MarkProviderMessage, TouchIdentityLastSeen, GetUser, find_user,
    GetUserByIdentity, redact_row, update_msg; side_tables.
Qed.
Lemma step_create id p s c : evolves R (CreateUserWithIdentity id p s c).
Proof.
  unfold CreateUserWithIdentity, GetUser. go_evolve; apply routine_stmt; intros t d; unfold stmt_effect, insert_user, insert_identity.
  - destruct (insert_row _ _ _ _) as [m|] eqn:Hi; [|reflexivity]. apply insert_row_ok in Hi as (Hn & -> & _).
    split_and!; [split; simpl|intros k x Hx Hc; eauto|done].
    + intros v. rewrite lookup_insert_None. by intros [? _].
    + intros v u'. rewrite lookup_insert_Some. intros [[<- <-]|[_ Hu]]; [by right|left; by exists u'].
  - destruct (insert_row _ _ _ _); [|reflexivity]. destruct (bool_decide _); [reflexivity|by apply routine_free].
Qed.
#[local] Hint Resolve step_create : evolve.
#[local] Hint Extern 1 (evolves _ (SetProviderMessageUser _ _)) => apply step_messages : evolve.
#[local] Hint Extern 1 (evolves _ (RedactProviderMessageRaw _)) => apply step_messages : evolve.
#[local] Hint Extern 1 (evolves _ (MarkProviderMessage _ _)) => apply step_messages : evolve.
#[local] Hint Extern 1 (evolves _ (GetUser _)) => apply step_messages : evolve.
#[local] Hint Extern 1 (evolves _ (find_user _)) => apply step_messages : evolve.
Lemma step_resolveUser ev : evolves R (resolveUser ev).
Proof. unfold resolveUser. walk. Qed.
Lemma step_outcome pm r : evolves R (finish pm r).
Proof. unfold finish, deletion_completed. walk. Qed.
Lemma step_claim ev : evolves R (claim_event cfg ev).
Proof.
  unfold claim_event. refine (evolves_bind _ _ _ _ _); [unfold storage_choice; walk|]. intros [raw redact].
  unfold ClaimProviderMessageOpts, redact_row, update_msg, insert_msg. side_tables.
Qed.

Lemma step_refusal pm u ev b k : evolves R (ignore (RedactProviderMessageRaw pm) ;;; reply u ev b k).
Proof. exact (evolves_bind _ _ _ (evolves_ignore _ _ (proj1 (proj2 step_messages) pm)) (fun _ => step_reply _ _ _ _)). Qed.

Lemma route_locked_at ev pm u w d0 : db_users (w_db w) !! usr_id u = Some u -> newcomer u d0 \/ linked ev u d0 -> txs_keyed (w_db w) ->
  db_pending (w_db w) = db_pending d0 -> caused ev d0 (w_db w) (w_db (snd (route_locked local cfg objects (usr_id u) ev pm w))).
Proof.
  intros Hu Hcase Hk Hp. set (Q := on_db (caused ev d0)). change (Q w (snd (route_locked local cfg objects (usr_id u) ev pm w))).
  assert (forall w1, on_db eq w w1 -> forall w', Q w1 w' -> Q w w') as HQ by (unfold Q, on_db; intros w1 -> w'; done).
  unfold route_locked. apply (bind_at Q); [intros e w1 Hr; left; exact (run_R _ _ _ _ (proj1 (proj2 (proj2 (proj2 (proj2 step_messages)))) (usr_id u)) Hr)|].
  intros x w1 Hg. apply GetUser_Ok in Hg as [Hx Hd]. rewrite Hu in Hx. injection Hx as <-. apply (HQ w1); [unfold on_db; congruence|].
  repeat (case_bool_decide; simpl; [left; reflexivity|]). destruct (Allowlisted cfg (ev_user ev)) eqn:Hal; simpl.
  - destruct (usr_status u) eqn:Hs; try done.
    + destruct (consentFlow_at u ev w1) as [Hr|(Ht & Hi & Har)]; [by left|]. right. split_and!; [done..|]. exists u. split; [done|]. left. by rewrite Hs.
    + unfold route_active. destruct (String.eqb_spec (ev_type ev) EventImageReceived); [left; apply step_handleImage|].
      destruct (String.eqb_spec (ev_type ev) EventTextReceived) as [Ht|]; [|left; apply step_reply].
      destruct (handleText_at d0 u ev pm w1) as [Hr|(Hi & Hc)]; [by rewrite Hd|by rewrite Hd|by left|]. right. split_and!; [done..|]. exists u.
      split; [done|]. right. by rewrite Hs.
    + left. apply step_reply.
  - left. apply step_refusal.
Qed.

(** Every event is routine but for one consent, confirmation or deletion, by the
    sender's account, that the text asks for. *)
Lemma event_caused ev w : users_keyed (w_db w) -> txs_keyed (w_db w) ->
  caused ev (w_db w) (w_db w) (w_db (snd (HandleEvent local cfg objects ev w))).
Proof.
  intros Hku Hkt. apply (event_absorbed local cfg objects (on_db early) (on_db (caused ev (w_db w))) (caused_absorbs ev (w_db w)));
    [apply early_evolves; [apply step_claim|apply private_txs, private_claim]|intros; apply early_evolves; [apply step_outcome|apply private_txs, (gate_finish private_same)]|].
  intros pm w2 P2 [Hu Hi]. apply (route_absorbed local cfg objects (on_db early) (on_db (caused ev (w_db w))) (caused_absorbs ev (w_db w)));
    [unfold users_keyed; by rewrite Hu|apply early_evolves; [apply step_resolveUser|apply private_txs, (gate_resolveUser private_same)]|
     intros; apply early_evolves; [apply step_messages|apply private_txs, (gate_messages private_same)]|
     intros; apply early_evolves; [apply step_messages|apply private_txs, (gate_accounts private_same)]|].
  intros u w3 P3 Hu3 Hcase. destruct P2 as (P2 & _), P3 as (P3 & _). apply route_locked_at; [done| | |].
  - unfold newcomer, linked in *. by rewrite Hu, Hi in Hcase.
  - unfold txs_keyed. by rewrite (ds_txs _ _ P3), (ds_txs _ _ P2).
  - by rewrite (ds_pending _ _ P3), (ds_pending _ _ P2).
Qed.

(** Before and after an eventful step, standings are as in the end states. *)
Lemma early_standing d d' v u : early d d' -> db_users d !! v = Some u -> exists u', db_users d' !! v = Some u' /\ same_standing u u'.
Proof.
  intros (((Hn & Hs) & _) & _) Hu. destruct (db_users d' !! v) as [u'|] eqn:Hu'; [|by rewrite (Hn v Hu') in Hu].
  exists u'. split; [done|]. destruct (Hs v u' Hu') as [(x & Hx & Hst)|(Hx & _)]; congruence.
Qed.

Lemma consent_user u d d' v x : consent_step u d d' -> db_users d !! v = Some x -> exists x', db_users d' !! v = Some x' /\
  (x' = x \/ (v = usr_id u /\ usr_status x = UserPending /\ usr_status x' = UserActive /\ usr_consent_version x' = consentVersion)).
Proof.
  intros (at_ & now & ->) Hx. unfold update_user. simpl. rewrite update_row_lookup, Hx. case_bool_decide as Hv; [|eauto]. simpl. eexists. split; [done|].
  case_bool_decide; [right|left]; done.
Qed.
Lemma delete_user u d d' v x : delete_step u d d' -> db_users d !! v = Some x -> exists x', db_users d' !! v = Some x' /\
  (x' = x \/ (v = usr_id u /\ (usr_status x' = UserDeleting \/ usr_status x' = UserDeleted))).
Proof.
  intros (trigger & d1 & Hb & Hp) Hx.
  assert (exists x1, db_users d1 !! v = Some x1 /\ (x1 = x \/ (v = usr_id u /\ usr_status x1 = UserDeleting))) as (x1 & Hx1 & Hc).
  { destruct Hb as [->|(now & usr & Hu & _ & _ & ->)]; [eauto|]. simpl. destruct (decide (v = usr_id u)) as [->|Hne].
    - rewrite lookup_insert_eq. eexists. split; [done|]. by right.
    - rewrite lookup_insert_ne by done. eauto. }
  destruct Hp as [->|(now & ->)].
  - exists x1. split; [done|]. destruct Hc as [->|[-> Hs]]; [by left|right; auto].
  - simpl. rewrite update_row_lookup, Hx1. case_bool_decide as Hv; simpl; eexists; (split; [done|]); [right; auto|].
    destruct Hc as [->|[-> _]]; [by left|done].
Qed.

(** C13: An account's status changes only by its owner's word.  When an event leaves an
    existing account with another status, the sender is on the allowlist and
    linked to that account, the event is a text, and either the account was
    pending, the text agreed (or was a start command) and the consent version is
    recorded, or the account was active, the text confirmed, and the account's
    open action was the deletion request. *)
Theorem status_change_needs_word (ev : InboundEvent) (w : World) (v : uuid) (u u' : User)
    (Hku : users_keyed (w_db w)) (Hkt : txs_keyed (w_db w)) (Hu : db_users (w_db w) !! v = Some u)
    (Hu' : db_users (w_db (snd (HandleEvent local cfg objects ev w))) !! v = Some u') (Hne : usr_status u' <> usr_status u) :
  Allowlisted cfg (ev_user ev) = true /\ ev_type ev = EventTextReceived /\ linked ev u (w_db w) /\
  ((usr_status u = UserPending /\ usr_status u' = UserActive /\ usr_consent_version u' = consentVersion /\
    (intent_of ev = IntentConfirm \/ intent_of ev = IntentStart)) \/
   (usr_status u = UserActive /\ (usr_status u' = UserDeleting \/ usr_status u' = UserDeleted) /\ intent_of ev = IntentConfirm /\
    exists pa, pending_at (w_db w) u pa /\ pa_kind pa = PendingDeleteAccount)).
Proof.
  destruct (event_caused ev w Hku Hkt) as [(Hst & _)|(Hal & Ht & u0 & Hwho & Hcase)].
  { destruct (proj2 Hst v u' Hu') as [(x & Hx & Hs & _)|(Hn & _)]; congruence. }
  assert (v = usr_id u0 -> u = u0 /\ linked ev u0 (w_db w)) as Hself.
  { intros ->. destruct Hwho as [[_ Hn]|Hl]; [congruence|]. split; [|done]. pose proof (linked_keyed ev _ _ Hku Hl). congruence. }
  assert (forall X, around X (w_db w) (w_db (snd (HandleEvent local cfg objects ev w))) -> exists d1 d2 x1, X d1 d2 /\
    db_users d1 !! v = Some x1 /\ same_standing u x1 /\ (forall x2, db_users d2 !! v = Some x2 -> same_standing x2 u')) as Hmid.
  { intros X (d1 & d2 & E1 & HX & E2). destruct (early_standing _ _ _ _ E1 Hu) as (x1 & Hx1 & Hs1). exists d1, d2, x1. split_and!; [done..|].
    intros x2 Hx2. destruct (early_standing _ _ _ _ E2 Hx2) as (y & Hy & Hs). congruence. }
  split; [done|]. split; [done|]. destruct Hcase as [(Hs & Hi & Har)|(Hs & Hi & pa & Hpa & [(_ & id & _ & Har)|(Hkind & Har)])].
  - destruct (Hmid _ Har) as (d1 & d2 & x1 & HX & Hx1 & (Hs1 & _) & Hend). destruct (consent_user _ _ _ _ _ HX Hx1) as (x2 & Hx2 & Hcase).
    destruct (Hend x2 Hx2) as (He1 & _ & He3). destruct Hcase as [->|(Hv & Hp & Ha & Hc)]; [congruence|].
    destruct (Hself Hv) as [-> Hl]. split; [done|]. left. split_and!; [congruence..|done].
  - destruct (Hmid _ Har) as (d1 & d2 & x1 & (t & now & now' & _ & _ & _ & ->) & Hx1 & (Hs1 & _) & Hend). simpl in Hend.
    destruct (Hend x1 Hx1) as (He1 & _). congruence.
  - destruct (Hmid _ Har) as (d1 & d2 & x1 & HX & Hx1 & (Hs1 & _) & Hend). destruct (delete_user _ _ _ _ _ HX Hx1) as (x2 & Hx2 & Hcase).
    destruct (Hend x2 Hx2) as (He1 & _ & He3). destruct Hcase as [->|(Hv & Hp)]; [congruence|].
    destruct (Hself Hv) as [-> Hl]. split; [done|]. right. split_and!; [done|by rewrite He1|done|by exists pa].
Qed.

(** C6: A suggestion is recorded only by its owner's confirmation.  When an event
    leaves a transaction counting that did not count before, that transaction
    was awaiting confirmation, the sender is on the allowlist and linked to the
    active account that owns it, the text confirmed, and the account's open
    action was the card of exactly this transaction, whose amount and currency
    are recorded as shown. *)
Theorem recording_needs_confirmation (ev : InboundEvent) (w : World) (id : uuid) (t' : Transaction)
    (Hku : users_keyed (w_db w)) (Hkt : txs_keyed (w_db w))
    (Ht' : db_txs (w_db (snd (HandleEvent local cfg objects ev w))) !! id = Some t') (Hc : counted t' = true)
    (Hnew : forall t, db_txs (w_db w) !! id = Some t -> counted t = false) :
  exists u pa t, linked ev u (w_db w) /\ usr_status u = UserActive /\ Allowlisted cfg (ev_user ev) = true /\ intent_of ev = IntentConfirm /\
    pending_at (w_db w) u pa /\ pa_kind pa = PendingConfirmExtraction /\ pa_tx pa = Some id /\
    db_txs (w_db w) !! id = Some t /\ tx_user t = usr_id u /\ tx_status t = TxAwaitingConfirmation /\
    tx_status t' = TxConfirmed /\ tx_amount t' = tx_amount t /\ tx_currency t' = tx_currency t.
Proof.
  destruct (event_caused ev w Hku Hkt) as [(_ & Hno & _)|(Hal & Ht & u & Hwho & Hcase)].
  { destruct (Hno id t' Ht' Hc) as (t & Htx & Hct). by rewrite (Hnew t Htx) in Hct. }
  assert (forall t, db_txs (w_db w) !! id = Some t -> counted t = true -> False) as Hnot by (intros t Htx Hct; by rewrite (Hnew t Htx) in Hct).
  destruct Hcase as [(_ & _ & d1 & d2 & [_ E1] & (at_ & now & ->) & [_ E2])|(Hs & Hi & pa & Hpa & Hcase)].
  { unfold same_txs in E1, E2. simpl in E2. rewrite E2, E1 in Ht'. by destruct (Hnot t' Ht' Hc). }
  destruct Hcase as [(Hkind & k & Hk & d1 & d2 & [_ E1] & (t & now & now' & Htx & Htu & Hts & ->) & [_ E2])|(_ & d1 & d2 & [_ E1] & Hdel & [_ E2])];
    unfold same_txs in E1, E2.
  - simpl in E2. rewrite E2, lookup_insert_Some in Ht'. rewrite E1 in Htx, Ht'. destruct Ht' as [[-> <-]|[_ Ht']]; [|by destruct (Hnot t' Ht' Hc)].
    exists u, pa, t. destruct Hwho as [[Hp _]|Hl]; [congruence|]. by split_and!.
  - apply purge_isolates in Hdel as (_ & _ & [Hsub _] & _). rewrite E2 in Ht'. apply (lookup_weaken _ _ _ _ Ht') in Hsub.
    rewrite E1 in Hsub. by destruct (Hnot t' Hsub Hc).
Qed.
End operations.

(** ** Outcomes *)
Section outcomes.
Context `{Env} `{TzData} `{SqlLocale} (local : Location) (cfg : Config) (objects : bool).

(** The mark is written, or the row is gone, or a fault struck the mark itself. *)
Definition marked (id : uuid) (st : MessageStatus) (d : DB) : Prop := exists x, db_msgs d !! id = Some x /\ pm_status x = st /\ pm_started_at x = None.
Lemma Mark_cases id st w : let r := MarkProviderMessage id st w in
  (exists flt, fault (w_tick w) = Some flt /\ fst r = Fail (internalErr "MarkProviderMessage" (Driver (flt_err flt)))) \/
  (fst r = Ok tt /\ marked id st (w_db (snd r))) \/
  (fst r = Fail (notFound "MarkProviderMessage" "provider_message") /\ db_msgs (w_db w) !! id = None /\ w_db (snd r) = w_db w).
Proof.
  cbv zeta. unfold MarkProviderMessage, bind, wrap_err, dml, stmt, update_msg, update_row.
  destruct (fault (w_tick w)) as [flt|] eqn:Hf; simpl; [left; by exists flt|right]. destruct (db_msgs (w_db w) !! id) as [x|] eqn:Hx; simpl.
  - left. split; [done|]. eexists. simpl. rewrite lookup_insert_eq. by split_and!.
  - right. split_and!; [done..|]. by destruct (w_db w).
Qed.

(** C15: Outcomes are reported and recorded.  Of a claimed message: when the handling
    fails, the event fails with exactly that error and its row is marked failed,
    so that any later delivery may claim it at once, unless the row is gone or a
    fault strikes the mark itself; and the event succeeds only if the handling
    did and the row is marked processed, or was purged with an account that is
    deleted. *)
Theorem event_outcome (ev : InboundEvent) (w w1 : World) (pm : ProviderMessage)
    (Hclaim : claim_event cfg ev w = (Ok (true, pm), w1)) :
  let r := route local cfg objects ev (pm_id pm) w1 in let out := HandleEvent local cfg objects ev w in
  (forall e, fst r = Fail e -> fst out = Fail e /\
     ((marked (pm_id pm) MessageFailed (w_db (snd out)) /\
       forall x now lease, db_msgs (w_db (snd out)) !! pm_id pm = Some x -> busy now lease x = false) \/
      db_msgs (w_db (snd r)) !! pm_id pm = None \/ fault (w_tick (snd r)) <> None)) /\
  (fst out = Ok tt -> exists uid, fst r = Ok uid /\
     (marked (pm_id pm) MessageProcessed (w_db (snd out)) \/
      (db_msgs (w_db (snd r)) !! pm_id pm = None /\
       exists u, db_users (w_db (snd r)) !! uid = Some u /\ (usr_status u = UserDeleted \/ usr_deleted_at u <> None)))).
Proof.
  cbv zeta. unfold HandleEvent, bind. rewrite Hclaim. simpl. unfold attempt. simpl.
  destruct (route local cfg objects ev (pm_id pm) w1) as [[uid|e] w2]; simpl; unfold finish, bind, attempt.
  - split; [done|]. intros Hok. exists uid. split; [done|].
    destruct (Mark_cases (pm_id pm) MessageProcessed w2) as [(flt & Hf & Hm)|[[Hm Hr]|(Hm & Hn & Hd)]];
      destruct (MarkProviderMessage (pm_id pm) MessageProcessed w2) as [m w3]; simpl in *; subst m.
    + by rewrite internalErr_not in Hok.
    + by left.
    + right. split; [done|]. revert Hok. simpl. unfold deletion_completed, bind, attempt.
      destruct (GetUser uid w3) as [[u|e] w4] eqn:Hg; simpl; [|done]. apply GetUser_Ok in Hg as [Hu _]. rewrite Hd in Hu.
      destruct (bool_decide (usr_status u = UserDeleted)) eqn:H1'; simpl.
      * intros _. exists u. split; [done|]. left. by apply bool_decide_eq_true in H1'.
      * destruct (bool_decide (usr_deleted_at u <> None)) eqn:H2'; [|done]. intros _. exists u. split; [done|]. right. by apply bool_decide_eq_true in H2'.
  - split; [|by destruct (MarkProviderMessage (pm_id pm) MessageFailed w2) as [[]]]. intros e' [= <-].
    destruct (Mark_cases (pm_id pm) MessageFailed w2) as [(flt & Hf & Hm)|[[Hm Hr]|(Hm & Hn & Hd)]];
      destruct (MarkProviderMessage (pm_id pm) MessageFailed w2) as [m w3]; simpl in *; subst m; (split; [done|]).
    + right. right. by rewrite Hf.
    + left. split; [done|]. intros x now lease Hx. destruct Hr as (y & Hy & Hs & _). change (db_msgs (w_db w3) !! pm_id pm = Some x) in Hx. rewrite Hy in Hx. injection Hx as <-. unfold busy. by rewrite Hs.
    + right. by left.
Qed.
End outcomes.

(** ** Concrete conversations *)
Module BotDemo.
#[local] Instance env : Env := demo_env no_faults (fun n => 1000 * Second + Z.of_nat n * Second).
#[local] Instance tz : TzData := {| LoadLocation := fun _ => None |}.
#[local] Instance locale : SqlLocale := {| text_leb := String.leb; sql_local_day := fun _ => None |}.
(** The pilot's allowlist is u1 and u2. *)
Definition cfg : Config := ConfigDemo.loaded.
Definition user (id : uuid) (status : UserStatus) : User := mkUser id status "UTC" "VND" "vi-VN" "" None 0 0 None.
Definition ident (id u : uuid) (subject : string) : UserIdentity := mkIdentity id u "zalo_bot" subject zaloScope 0 0.
Definition card : Transaction :=
  mkTx 4 1 None None TxExpense None "Grab" "" 50000 "VND" 0 None TxAwaitingConfirmation TxSourceManual "" None 1 0 0 None None.
Definition asks (kind : PendingKind) (tx : option uuid) : PendingAction := mkPending 9 1 kind tx "{}" (5000 * Second) 0.
Definition db (s1 s2 : UserStatus) (pending : option PendingAction) : DB :=
  upd_users (fun _ => {[1%N := user 1 s1; 2%N := user 2 s2]}) (upd_idents (fun _ => {[11%N := ident 11 1 "u1"; 12%N := ident 12 2 "u2"]})
    (upd_txs (fun _ => {[4%N := card]}) (upd_pending (fun _ => match pending with Some p => {[9%N := p]} | None => ∅ end) empty_db))).
Definition text (sender chat message body : string) : InboundEvent :=
  mkEvent "zalo_bot" sender chat message EventTextReceived body [] 0 ("h" ++ message) ("payload of " ++ message) 0.
Definition handle (ev : InboundEvent) (w : World) : World := snd (HandleEvent UTC cfg true ev w).
Definition replies (w : World) : list string := ob_key <$> rows (db_outbound (w_db w)).

Lemma demo_keyed s1 s2 p : users_keyed (db s1 s2 p) /\ txs_keyed (db s1 s2 p).
Proof.
  split.
  - intros id u. simpl. rewrite lookup_insert_Some, lookup_singleton_Some. intros [[<- <-]|[_ [<- <-]]]; done.
  - intros id t. simpl. rewrite lookup_singleton_Some. by intros [<- <-].
Qed.

(** Not on the allowlist: a manual entry leaves no transaction. *)
Lemma gate_holds_witness :
  db_txs (w_db (handle (text "u9" "c9" "m1" "150000 an trua") (world_of (db UserActive UserActive None)))) = {[4%N := card]}.
Proof.
  destruct (gate_holds UTC cfg true (text "u9" "c9" "m1" "150000 an trua") (world_of (db UserActive UserActive None)) (proj1 (demo_keyed _ _ _)))
    as [Hd _]; [left; vm_compute; reflexivity|]. exact (ds_txs _ _ Hd).
Defined.

(** First contact of an allowlisted sender: the words are not stored. *)
Definition first_contact : InboundEvent := text "u2" "c2" "m2" "my salary is 30 million".
Definition nobody : DB := upd_users (fun _ => {[1%N := user 1 UserActive]}) empty_db.
Lemma payload_redacted_witness :
  (pm_raw <$> rows (db_msgs (w_db (handle first_contact (world_of nobody))))) = [redacted_payload] /\
  redacts nobody (w_db (handle first_contact (world_of nobody))).
Proof.
  split; [vm_compute; reflexivity|]. apply (payload_redacted UTC cfg true first_contact (world_of nobody)).
  - intros id u. simpl. rewrite lookup_singleton_Some. by intros [<- <-].
  - right. split; [intros H%isConsentRelated_spec; vm_compute in H; discriminate|]. intros u (i & x & Hi & _). change ((∅ : gmap uuid UserIdentity) !! i = Some x) in Hi. by rewrite lookup_empty in Hi.
Defined.

(** The exemption, seen from a sender who never consented: the whole text of a
    question about privacy is stored. *)
Definition question : InboundEvent := text "u2" "c2" "m2" "dữ liệu lương 30 triệu của tôi có bảo mật không?".
Example unconsented_question_stored :
  Kind (Parse (ev_text question)) = IntentPrivacy /\
  (pm_raw <$> rows (db_msgs (w_db (handle question (world_of nobody))))) = [ev_raw question] /\
  (usr_status <$> (rows (db_users (w_db (handle question (world_of nobody)))))) = [UserPending; UserActive].
Proof. vm_compute. split_and!; reflexivity. Qed.

(** Deleting the account: the open request and a confirming text. *)
Definition dying : DB := db UserActive UserActive (Some (asks PendingDeleteAccount None)).
Lemma status_change_needs_word_witness :
  linked (text "u1" "c1" "m3" "ok") (user 1 UserActive) dying /\
  option_map usr_status (db_users (w_db (handle (text "u1" "c1" "m3" "ok") (world_of dying))) !! 1%N) = Some UserDeleted.
Proof.
  assert (exists u', db_users (w_db (handle (text "u1" "c1" "m3" "ok") (world_of dying))) !! 1%N = Some u' /\ usr_status u' = UserDeleted) as (u' & Hu' & Hs)
    by (eexists; split; vm_compute; reflexivity).
  split; [|rewrite Hu'; simpl; by rewrite Hs].
  destruct (status_change_needs_word UTC cfg true (text "u1" "c1" "m3" "ok") (world_of dying) 1 (user 1 UserActive) u') as (_ & _ & Hl & _);
    [apply demo_keyed|apply demo_keyed|reflexivity|exact Hu'|by rewrite Hs|exact Hl].
Defined.

(** Confirming the card of the only transaction. *)
Definition shown : DB := db UserActive UserActive (Some (asks PendingConfirmExtraction (Some 4%N))).
Lemma recording_needs_confirmation_witness : exists pa, pending_at shown (user 1 UserActive) pa /\ pa_tx pa = Some 4%N.
Proof.
  assert (exists t', db_txs (w_db (handle (text "u1" "c1" "m4" "đúng rồi") (world_of shown))) !! 4%N = Some t' /\ counted t' = true) as (t' & Ht' & Hc)
    by (eexists; split; vm_compute; reflexivity).
  destruct (recording_needs_confirmation UTC cfg true (text "u1" "c1" "m4" "đúng rồi") (world_of shown) 4 t') as (u & pa & t & Hl & _ & _ & _ & Hpa & _ & Htx & _);
    [apply demo_keyed|apply demo_keyed|exact Ht'|exact Hc| |].
  - intros t. simpl. rewrite lookup_singleton_eq. by intros [= <-].
  - exists pa. split; [|exact Htx]. destruct Hl as (i & x & Hi & Hs & Hu). simpl in Hi. rewrite lookup_insert_Some, lookup_singleton_Some in Hi.
    destruct Hi as [[_ <-]|[_ [_ <-]]]; [|discriminate Hs]. simpl in Hu. rewrite lookup_insert_eq in Hu. by injection Hu as <-.
Defined.

(** A driver error in the attribution of the message, at tick 7: reported, and the
    row is left failed. *)
Definition cut_off (n : nat) : option Fault := if Nat.eqb n 7 then Some (mkFault (pg_error "08006") false) else None.
Definition broken : Env := demo_env cut_off (fun n => 1000 * Second + Z.of_nat n * Second).
Definition help : InboundEvent := text "u1" "c1" "m5" "/help".
Lemma event_outcome_witness : exists e, fst (@HandleEvent broken tz locale UTC cfg true help (world_of shown)) = Fail e /\
  (pm_status <$> rows (db_msgs (w_db (snd (@HandleEvent broken tz locale UTC cfg true help (world_of shown)))))) = [MessageFailed].
Proof.
  assert (exists pm, fst (@claim_event broken cfg help (world_of shown)) = Ok (true, pm)) as [pm Hpm] by (eexists; vm_compute; reflexivity).
  destruct (@event_outcome broken tz locale UTC cfg true help (world_of shown) (snd (@claim_event broken cfg help (world_of shown))) pm) as [Hfail _];
    [rewrite <- Hpm; apply surjective_pairing|].
  assert (exists e, fst (@route broken tz locale UTC cfg true help (pm_id pm) (snd (@claim_event broken cfg help (world_of shown)))) = Fail e) as [e He]
    by (vm_compute in Hpm; injection Hpm as <-; eexists; vm_compute; reflexivity).
  exists e. split; [exact (proj1 (Hfail e He))|vm_compute; reflexivity].
Defined.

(** The start command counts as consent: the account is active and the consent
    text was never sent. *)
Theorem start_consents_unseen :
  let w := handle (text "u1" "c1" "m1" "/start") (world_of (db UserPending UserPending None)) in
  option_map usr_status (db_users (w_db w) !! 1%N) = Some UserActive /\ replies w = ["welcome:m1"].
Proof. vm_compute. split; reflexivity. Qed.

(** Reply keys name the message without its chat: a second account whose message
    has the same id in another chat gets no answer. *)
Theorem reply_key_collides :
  let w := handle (text "u1" "c1" "m1" "/start") (world_of (db UserPending UserPending None)) in
  let w' := handle (text "u2" "c2" "m1" "/start") w in
  option_map usr_status (db_users (w_db w') !! 2%N) = Some UserActive /\ (ob_user <$> rows (db_outbound (w_db w'))) = [1%N].
Proof. vm_compute. split; reflexivity. Qed.

(** An unclear answer to a card is meant to show it again, under the key the card
    already used: nothing is queued. *)
Theorem card_not_shown_again :
  let w := handle (text "u1" "c1" "a1" "50000 ca phe") (world_of (db UserActive UserPending None)) in
  let w' := handle (text "u1" "c1" "a2" "cai gi vay") w in
  length (rows (db_outbound (w_db w))) = 1%nat /\ db_outbound (w_db w') = db_outbound (w_db w).
Proof. vm_compute. split; reflexivity. Qed.

(** A privacy command during a merchant edit becomes the merchant's name. *)
Theorem slash_text_swallowed :
  let w := handle (text "u1" "c1" "a3" "/privacy") (world_of (db UserActive UserPending (Some (asks PendingEditMerchant (Some 4%N))))) in
  option_map tx_merchant_name (db_txs (w_db w) !! 4%N) = Some "/privacy".
Proof. vm_compute. reflexivity. Qed.
End BotDemo.
