(* ===== verification/Isolation.v ===== *)
(** * Users never reach each other's data

    For every account, every sequence of events sent by others and every schedule
    of faults: whatever the events say, the account's rows in every table, its
    stored originals and its export files are exactly as before. *)
From S2P Require Import Prelude GoStrings Domain GoTime Json Normalise Db Queue StoreOutbound StoreInbound StoreReceipts StoreTx StoreSchedules.
From S2P Require Import StoreCatalog Categorisation Insight Texts Config Parse Fields Notify Export Objects Account BotCommands BotText Bot BotSafety BotDialogue.

(** ** Part of a table *)
Section parts.
Context {K A : Type} `{Countable K} (P : K * A -> Prop) `{!forall x, Decision (P x)}.
Implicit Types m : gmap K A.

Lemma part_update_row k cond f m : (forall y, m !! k = Some y -> cond y = true -> ~ P (k, y) /\ ~ P (k, f y)) ->
  filter P (update_row k cond f m).2 = filter P m.
Proof.
  intros Hy. unfold update_row. destruct (m !! k) as [y|] eqn:Hk; [|done]. destruct (cond y) eqn:Hc; [|done]. simpl.
  destruct (Hy y eq_refl Hc). apply map_filter_insert_not'; [done|]. intros z. rewrite Hk. by intros [= <-].
Qed.
Lemma part_update_where p f m : (forall k y, m !! k = Some y -> p y = true -> ~ P (k, y) /\ ~ P (k, f y)) ->
  filter P (update_where p f m).2 = filter P m.
Proof.
  intros Hy. apply map_eq. intros k. apply option_eq. intros x. rewrite !map_lookup_filter_Some, update_where_lookup.
  destruct (m !! k) as [y|] eqn:Hk; simpl; [|done]. destruct (p y) eqn:Hp; [|done]. destruct (Hy k y Hk Hp). naive_solver.
Qed.
Lemma part_delete_where p m : (forall k y, m !! k = Some y -> p y = true -> ~ P (k, y)) -> filter P (delete_where p m).2 = filter P m.
Proof.
  intros Hy. apply map_eq. intros k. apply option_eq. intros x. rewrite !map_lookup_filter_Some, delete_where_lookup.
  split; [naive_solver|]. intros [Hk HP]. split_and!; try done. apply not_true_is_false. intros Hp. by apply (Hy k x).
Qed.
Lemma part_keep p m : (forall k y, m !! k = Some y -> p y = true -> ~ P (k, y)) -> filter P (keep p m) = filter P m.
Proof. apply part_delete_where. Qed.
Lemma part_keep_keys p m : (forall k y, m !! k = Some y -> p k = true -> ~ P (k, y)) -> filter P (keep_keys p m) = filter P m.
Proof.
  intros Hy. unfold keep_keys. apply map_eq. intros k. apply option_eq. intros x. rewrite !map_lookup_filter_Some. simpl.
  split; [naive_solver|]. intros [Hk HP]. split_and!; try done. apply not_true_is_false. intros Hp. by apply (Hy k x).
Qed.
Lemma part_insert_row k x clash m m' : insert_row k x clash m = Ok m' -> ~ P (k, x) -> filter P m' = filter P m.
Proof. intros (Hk & -> & _)%insert_row_ok Hx. apply map_filter_insert_not'; [done|]. intros y. by rewrite Hk. Qed.
Lemma part_delete k m : (forall y, m !! k = Some y -> ~ P (k, y)) -> filter P (delete k m) = filter P m.
Proof. intros Hy. apply map_filter_delete_not. done. Qed.
Lemma part_insert k x m : ~ P (k, x) -> (forall y, m !! k = Some y -> ~ P (k, y)) -> filter P (<[k := x]> m) = filter P m.
Proof. apply map_filter_insert_not'. Qed.
Lemma part_mem k x m : filter P m !! k = Some x <-> m !! k = Some x /\ P (k, x).
Proof. apply map_lookup_filter_Some. Qed.
End parts.

(** A table whose rows are stored under their identifiers. *)
Definition keyed {A} (id : A -> uuid) (m : gmap uuid A) : Prop := forall k x, m !! k = Some x -> id x = k.
Section keyed.
Context {A : Type} (id : A -> uuid).
Lemma keyed_insert_at k x m : keyed id m -> id x = k -> keyed id (<[k := x]> m).
Proof. intros Hm Hx k' y. rewrite lookup_insert_Some. intros [[<- <-]|[_ Hy]]; [done|by apply Hm]. Qed.
Lemma keyed_update_row k cond f m : keyed id m -> (forall x, id (f x) = id x) -> keyed id (update_row k cond f m).2.
Proof.
  intros Hm Hf k' y. rewrite update_row_lookup. case_bool_decide; [|apply Hm]. destruct (m !! k') as [x|] eqn:Hx; [|done].
  simpl. intros [= <-]. destruct (cond x); rewrite ?Hf; by apply Hm.
Qed.
Lemma keyed_update_where p f m : keyed id m -> (forall x, id (f x) = id x) -> keyed id (update_where p f m).2.
Proof.
  intros Hm Hf k y. rewrite update_where_lookup. destruct (m !! k) as [x|] eqn:Hx; [|done]. simpl. intros [= <-].
  destruct (p x); rewrite ?Hf; by apply Hm.
Qed.
Lemma keyed_sub (m m' : gmap uuid A) : keyed id m -> m' ⊆ m -> keyed id m'.
Proof. intros Hm Hs k x Hx. apply Hm. by eapply lookup_weaken. Qed.
End keyed.

Section isolation.
Context `{Env} `{TzData} `{SqlLocale} (local : Location) (cfg : Config) (objects : bool).
(** The account, and the events others send. *)
Context (v : uuid) (evs : list InboundEvent).

(** ** What an account holds *)

(** The row of one of the events. *)
Definition own_message (pm : ProviderMessage) : bool :=
  existsb (fun ev => String.eqb (pm_provider pm) (ev_provider ev) && String.eqb (pm_chat pm) (ev_chat ev) &&
                     String.eqb (pm_message pm) (ev_message ev)) evs.
Record Holdings := mkHoldings {
  h_user : option User; h_idents : gmap uuid UserIdentity; h_msgs : gmap uuid ProviderMessage;
  h_receipts : gmap uuid ReceiptDocument; h_attempts : gmap AttemptKey Attempt; h_txs : gmap uuid Transaction;
  h_fields : gmap uuid ExtractedField; h_preds : gmap uuid Prediction; h_corrs : gmap uuid Correction;
  h_rules : gmap (uuid * uuid) UserMerchantRule; h_insights : gmap uuid Insight; h_usage : gmap UsageKey UsageCounter;
  h_jobs : gmap uuid QueueJob; h_outbound : gmap uuid OutboundRecord; h_pending : gmap uuid PendingAction;
  h_schedules : gmap uuid SummarySchedule }.
Definition tx_part (d : DB) : gmap uuid Transaction := filter (fun x => tx_user x.2 = v) (db_txs d).
Definition receipt_part (d : DB) : gmap uuid ReceiptDocument := filter (fun x => rc_user x.2 = v) (db_receipts d).
Definition msg_part (d : DB) : gmap uuid ProviderMessage := filter (fun x => pm_user x.2 = Some v /\ own_message x.2 = false) (db_msgs d).
(** Rows of the account, children of its receipts and transactions, its counters
    and the jobs that name it. *)
Definition holdings (d : DB) : Holdings := {|
  h_user := db_users d !! v;
  h_idents := filter (fun x => ident_user x.2 = v) (db_idents d);
  h_msgs := msg_part d;
  h_receipts := receipt_part d;
  h_attempts := filter (fun x => is_Some (receipt_part d !! x.1.1.1.1)) (db_attempts d);
  h_txs := tx_part d;
  h_fields := filter (fun x => is_Some (receipt_part d !! ef_receipt x.2)) (db_fields d);
  h_preds := filter (fun x => is_Some (tx_part d !! pr_tx x.2)) (db_preds d);
  h_corrs := filter (fun x => is_Some (tx_part d !! cor_tx x.2)) (db_corrs d);
  h_rules := filter (fun x => rule_user x.2 = v) (db_rules d);
  h_insights := filter (fun x => ins_user x.2 = v) (db_insights d);
  h_usage := filter (fun x => x.1.1.1 = ("user", uuid_text v)) (db_usage d);
  h_jobs := filter (fun x => payload_user (job_payload x.2) = Some (uuid_text v)) (db_jobs d);
  h_outbound := filter (fun x => ob_user x.2 = v) (db_outbound d);
  h_pending := filter (fun x => pa_user x.2 = v) (db_pending d);
  h_schedules := filter (fun x => sch_user x.2 = v) (db_schedules d) |}.
(** The same rows, export files and stored originals. *)
Definition untouched (w w' : World) : Prop :=
  holdings (w_db w') = holdings (w_db w) /\ w_exports w' !! uuid_text v = w_exports w !! uuid_text v /\
  forall k r, receipt_part (w_db w) !! k = Some r -> w_objects w' !! rc_storage_key r = w_objects w !! rc_storage_key r.

(** ** Tables in which the accounts are separate *)
Definition sent_by (i : UserIdentity) : bool := existsb (fun ev => sender ev i) evs.
(** A message of the account names no identity of another and no sender. *)
Definition names_own (d : DB) : Prop := forall k pm, msg_part d !! k = Some pm ->
  (forall ev, ev ∈ evs -> ev_user ev ∉ sender_ids pm) /\
  (forall i x, db_idents d !! i = Some x -> ident_subject x ∈ sender_ids pm -> ident_user x = v).
Record separate (d : DB) : Prop := {
  sep_users : keyed usr_id (db_users d); sep_msgs : keyed pm_id (db_msgs d); sep_receipts : keyed rc_id (db_receipts d);
  sep_txs : keyed tx_id (db_txs d); sep_insights : keyed ins_id (db_insights d); sep_schedules : keyed sch_id (db_schedules d);
  sep_pending : keyed pa_id (db_pending d); sep_rules : forall k x, db_rules d !! k = Some x -> rule_user x = k.1;
  sep_account : is_Some (db_users d !! v);
  sep_sender : forall i x, db_idents d !! i = Some x -> sent_by x = true -> ident_user x <> v;
  sep_owner : forall id t r rc, db_txs d !! id = Some t -> tx_receipt t = Some r -> receipt_part d !! r = Some rc -> tx_user t = v;
  sep_names : names_own d;
  sep_objects : forall k r k' r', receipt_part d !! k = Some r -> db_receipts d !! k' = Some r' -> rc_user r' <> v ->
    rc_storage_key r' = rc_storage_key r -> rc_storage_key r' = "" }.

(** Identifiers known not to be the account's: of transactions, of receipts, and of
    the messages being handled. *)
Record Known := mkKnown { k_txs : uuid -> Prop; k_receipts : uuid -> Prop; k_msgs : uuid -> Prop }.
Definition known (F : Known) (d : DB) : Prop :=
  (forall id, k_txs F id -> tx_part d !! id = None) /\ (forall id, k_receipts F id -> receipt_part d !! id = None) /\
  (forall id x, k_msgs F id -> db_msgs d !! id = Some x -> own_message x = true).
(** A step that respects the account, from tables in which it is separate. *)
Definition respects (F : Known) (w w' : World) : Prop :=
  separate (w_db w) -> known F (w_db w) -> untouched w w' /\ separate (w_db w') /\ known F (w_db w').

#[global] Instance untouched_preorder : PreOrder untouched.
Proof.
  split; [by intros w|]. intros w1 w2 w3 (Ha & Hb & Hc) (Ha' & Hb' & Hc'). split_and!; [congruence..|].
  intros k r Hr. rewrite <- (Hc k r Hr). apply (Hc' k). injection Ha. intros. congruence.
Qed.
#[global] Instance respects_steady F : Steady (respects F).
Proof.
  split; [split; [split|..]|]; unfold respects.
  - intros w Hs Hk. by split_and!.
  - intros w1 w2 w3 Ha Hb Hs Hk. destruct (Ha Hs Hk) as (Hu & Hs2 & Hk2). destruct (Hb Hs2 Hk2) as (Hu' & Hs3 & Hk3).
    split_and!; [by etrans|done..].
  - by intros w.
  - by intros w t.
  - by intros w u.
  - intros w w' Hr Hs Hk. destruct (Hr Hs Hk) as ((_ & Hx & Ho) & _). by split_and!.
Qed.

(** Effects on the tables. *)
Definition harmless (F : Known) (d d' : DB) : Prop := separate d -> known F d -> holdings d' = holdings d /\ separate d' /\ known F d'.
Lemma respects_db F w d' : harmless F (w_db w) d' -> respects F w (set_db d' w).
Proof. intros Hd Hs Hk. destruct (Hd Hs Hk) as (? & ? & ?). by split_and!. Qed.
Lemma harmless_refl F d : harmless F d d.
Proof. by intros Hs Hk. Qed.
(** A step of no account: its effect on [F]'s relation. *)
Lemma respects_stmt F {A} (f : Stmt A) : (forall t d, harmless F d (stmt_effect f t d)) -> evolves (respects F) (stmt f).
Proof. intros Hf. apply evolves_stmt; [apply _|]. intros t w. by apply respects_db. Qed.
Lemma respects_dml F {A} (f : Time -> DB -> A * DB) : (forall t d, harmless F d (f t d).2) -> evolves (respects F) (dml f).
Proof. intros Hf. apply evolves_dml; [apply _|]. intros t w. by apply respects_db. Qed.

Lemma part_none {K A} `{Countable K} (P : K * A -> Prop) `{!forall x, Decision (P x)} (m : gmap K A) k :
  filter P m !! k = None <-> forall y, m !! k = Some y -> ~ P (k, y).
Proof. rewrite map_lookup_filter_None. split; [intros [Hn|Hn] y Hy; [congruence|by apply Hn]|by right]. Qed.
Lemma tx_part_none d id : tx_part d !! id = None <-> forall y, db_txs d !! id = Some y -> tx_user y <> v.
Proof. apply (part_none (fun x : uuid * Transaction => tx_user x.2 = v)). Qed.
Lemma receipt_part_none d id : receipt_part d !! id = None <-> forall y, db_receipts d !! id = Some y -> rc_user y <> v.
Proof. apply (part_none (fun x : uuid * ReceiptDocument => rc_user x.2 = v)). Qed.

(** ** One table at a time *)
Ltac frame He := intros Hs Hk; split_and!; [unfold holdings; f_equal; exact He|destruct Hs; by split|done].
Section tables.
Context (F : Known).
Lemma harmless_outbound d m : filter (fun x => ob_user x.2 = v) m = h_outbound (holdings d) -> harmless F d (upd_outbound (fun _ => m) d).
Proof. intros He. frame He. Qed.
Lemma harmless_jobs d m : filter (fun x => payload_user (job_payload x.2) = Some (uuid_text v)) m = h_jobs (holdings d) ->
  harmless F d (upd_jobs (fun _ => m) d).
Proof. intros He. frame He. Qed.
Lemma harmless_usage d m : filter (fun x : UsageKey * UsageCounter => x.1.1.1 = ("user", uuid_text v)) m = h_usage (holdings d) -> harmless F d (upd_usage (fun _ => m) d).
Proof. intros He. frame He. Qed.
Lemma harmless_rules d m : filter (fun x : (uuid * uuid) * UserMerchantRule => rule_user x.2 = v) m = h_rules (holdings d) ->
  (forall k x, m !! k = Some x -> rule_user x = k.1) -> harmless F d (upd_rules (fun _ => m) d).
Proof. intros He Hm. intros Hs Hk. split_and!; [unfold holdings; f_equal; exact He|destruct Hs; split; auto|done]. Qed.
Lemma harmless_preds d m : filter (fun x => is_Some (tx_part d !! pr_tx x.2)) m = h_preds (holdings d) -> harmless F d (upd_preds (fun _ => m) d).
Proof. intros He. frame He. Qed.
Lemma harmless_corrs d m : filter (fun x => is_Some (tx_part d !! cor_tx x.2)) m = h_corrs (holdings d) -> harmless F d (upd_corrs (fun _ => m) d).
Proof. intros He. frame He. Qed.
Lemma harmless_merchants d m : harmless F d (upd_merchants (fun _ => m) d).
Proof. intros Hs Hk. split_and!; [done|by destruct Hs; split|done]. Qed.
Lemma harmless_aliases d m : harmless F d (upd_aliases (fun _ => m) d).
Proof. intros Hs Hk. split_and!; [done|by destruct Hs; split|done]. Qed.
Lemma harmless_pending d m : filter (fun x => pa_user x.2 = v) m = h_pending (holdings d) ->
  (keyed pa_id (db_pending d) -> keyed pa_id m) -> harmless F d (upd_pending (fun _ => m) d).
Proof. intros He Hm. intros Hs Hk. split_and!; [unfold holdings; f_equal; exact He|destruct Hs; split; auto|done]. Qed.
Lemma harmless_insights d m : filter (fun x => ins_user x.2 = v) m = h_insights (holdings d) ->
  keyed ins_id m -> harmless F d (upd_insights (fun _ => m) d).
Proof. intros He Hm. intros Hs Hk. split_and!; [unfold holdings; f_equal; exact He|destruct Hs; split; auto|done]. Qed.
Lemma harmless_schedules d m : filter (fun x => sch_user x.2 = v) m = h_schedules (holdings d) ->
  (keyed sch_id (db_schedules d) -> keyed sch_id m) -> harmless F d (upd_schedules (fun _ => m) d).
Proof. intros He Hm. intros Hs Hk. split_and!; [unfold holdings; f_equal; exact He|destruct Hs; split; auto|done]. Qed.
Lemma harmless_users d m : m !! v = db_users d !! v -> keyed usr_id m -> harmless F d (upd_users (fun _ => m) d).
Proof.
  intros He Hm. intros Hs Hk. split_and!; [unfold holdings; f_equal; exact He| |done]. destruct Hs. split; auto. simpl. by rewrite He.
Qed.
Lemma harmless_receipts d m : filter (fun x => rc_user x.2 = v) m = receipt_part d -> keyed rc_id m ->
  (forall k r', m !! k = Some r' -> rc_user r' <> v -> rc_storage_key r' = "" \/
     exists r, db_receipts d !! k = Some r /\ rc_user r = rc_user r' /\ rc_storage_key r = rc_storage_key r') ->
  harmless F d (upd_receipts (fun _ => m) d).
Proof.
  intros He Hm Ho Hs Hk. split_and!; [unfold holdings, receipt_part at 1; cbn; unfold receipt_part; cbn; by rewrite He| |].
  - assert (receipt_part (upd_receipts (fun _ => m) d) = receipt_part d) as Hp by exact He. destruct Hs. split; auto.
    + intros id t r rc Ht Hr Hrc. rewrite Hp in Hrc. eauto.
    + intros k r k' r'. rewrite Hp. simpl. intros Hr Hr' Hu Hkey. destruct (Ho k' r' Hr' Hu) as [|(x & Hx & Hux & Hkx)]; [done|].
      rewrite <- Hkx. apply (sep_objects0 k r k' x); congruence.
  - destruct Hk as (Hk1 & Hk2 & Hk3). split_and!; [done| |done]. intros id Hid. unfold receipt_part. simpl. rewrite He. by apply Hk2.
Qed.
Lemma harmless_txs d m : filter (fun x => tx_user x.2 = v) m = tx_part d -> keyed tx_id m ->
  (forall id t r, m !! id = Some t -> tx_receipt t = Some r -> receipt_part d !! r = None \/ tx_user t = v) -> harmless F d (upd_txs (fun _ => m) d).
Proof.
  intros He Hm Ho Hs Hk. split_and!; [unfold holdings, tx_part at 1; cbn; unfold tx_part; cbn; by rewrite He| |].
  - destruct Hs. split; auto. intros id t r rc Ht Hr Hrc. destruct (Ho id t r Ht Hr) as [Hn|]; [|done]. unfold receipt_part in *. simpl in Hrc. congruence.
  - destruct Hk as (Hk1 & Hk2 & Hk3). split_and!; [|done|done]. intros id Hid. unfold tx_part. simpl. rewrite He. by apply Hk1.
Qed.
(** Message rows keep their place when they change. *)
Lemma harmless_msgs d m : filter (fun x => pm_user x.2 = Some v /\ own_message x.2 = false) m = msg_part d -> keyed pm_id m ->
  (forall k x, m !! k = Some x -> own_message x = true \/ exists y, db_msgs d !! k = Some y /\ own_message y = own_message x) ->
  harmless F d (upd_msgs (fun _ => m) d).
Proof.
  intros He Hm Ho Hs Hk. split_and!; [unfold holdings; f_equal; exact He| |].
  - destruct Hs. split; auto. intros k pm. unfold msg_part. simpl. rewrite He. apply sep_names0.
  - destruct Hk as (Hk1 & Hk2 & Hk3). split_and!; [done|done|]. intros id x Hid Hx. simpl in Hx. destruct (Ho id x Hx) as [|(y & Hy & <-)]; [done|by apply (Hk3 id)].
Qed.
Lemma harmless_idents d m : filter (fun x => ident_user x.2 = v) m = h_idents (holdings d) ->
  (forall i x, m !! i = Some x -> ident_user x <> v ->
     (exists ev, ev ∈ evs /\ ident_subject x = ev_user ev) \/
     exists y, db_idents d !! i = Some y /\ ident_user y = ident_user x /\ ident_subject y = ident_subject x) ->
  harmless F d (upd_idents (fun _ => m) d).
Proof.
  intros He Ho Hs Hk.
  assert (forall i x, m !! i = Some x -> ident_user x = v -> db_idents d !! i = Some x) as Hmine.
  { intros i x Hx Hu. assert (h_idents (holdings d) !! i = Some x) as Hi by (rewrite <- He; by apply map_lookup_filter_Some).
    by apply map_lookup_filter_Some in Hi as [? _]. }
  split_and!; [unfold holdings; f_equal; exact He| |done]. destruct Hs. split; auto.
  - intros i x Hx Hsent Hu. apply (sep_sender0 i x); [by apply Hmine|done..].
  - intros k pm Hpm. destruct (sep_names0 k pm Hpm) as [Hn1 Hn2]. split; [done|]. intros i x Hx Hin. simpl in Hx.
    destruct (decide (ident_user x = v)) as [|Hu]; [done|]. destruct (Ho i x Hx Hu) as [(ev & Hev & Hsub)|(y & Hy & Huy & Hsy)].
    + destruct (Hn1 ev Hev). by rewrite <- Hsub.
    + rewrite <- Huy. apply (Hn2 i y Hy). by rewrite Hsy.
Qed.
End tables.

(** ** Operations of another user *)
Section operations.
Context (F : Known) (u : uuid) (Hu : u <> v).
Abbreviation R := (respects F).
#[local] Hint Resolve harmless_refl : core.
Ltac leaf := first [apply respects_dml|apply respects_stmt]; intros ? ?; unfold stmt_effect; cbv beta zeta.

(** Sequences, with what the first part returned; one statement at one state. *)
Lemma bind_learn {A B} (m : Go A) (k : A -> Go B) w : evolves R m -> (forall a w1, m w = (Ok a, w1) -> R w1 (snd (k a w1))) -> R w (snd (bind m k w)).
Proof. intros Hm Hk. unfold bind. specialize (Hm w). destruct (m w) as [[a|e] w1]; [|done]. etrans; [exact Hm|]. by apply Hk. Qed.
Lemma bind_learn_last {A B} (m : Go A) (k : A -> Go B) w : R w (snd (m w)) -> (forall a, evolves R (k a)) -> R w (snd (bind m k w)).
Proof. intros Hm Hk. unfold bind. destruct (m w) as [[a|e] w1]; [|done]. etrans; [exact Hm|]. apply Hk. Qed.
Lemma wrap_at {A} f (m : Go A) w : R w (snd (m w)) -> R w (snd (wrap_err f m w)).
Proof. intros Hm. unfold wrap_err. by destruct (m w) as [[a|e] w1]. Qed.
Lemma attempt_at {A} (m : Go A) w : R w (snd (m w)) -> R w (snd (attempt m w)).
Proof. done. Qed.
Lemma stmt_respects_at {A} (f : Stmt A) w : (forall t, harmless F (w_db w) (stmt_effect f t (w_db w))) -> R w (snd (stmt f w)).
Proof.
  intros Hf. unfold stmt. specialize (Hf (now_sql w)). unfold stmt_effect in *. apply respects_db in Hf.
  destruct (fault (w_tick w)) as [[e [|]]|]; simpl; [exact Hf|apply quiet_tick|].
  destruct (f (now_sql w) (w_db w)) as [[a d]|e]; simpl in *; [exact Hf|apply quiet_tick].
Qed.

Lemma safe_Enqueue kind p key n : payload_user p <> Some (uuid_text v) -> evolves R (Enqueue kind p key n).
Proof.
  intros Hp. unfold Enqueue. go_evolve. leaf. destruct (insert_row _ _ _ _) as [m|] eqn:Hi; [|done].
  apply harmless_jobs. eapply part_insert_row; [exact Hi|done].
Qed.
Lemma others_text : uuid_text u <> uuid_text v.
Proof. by intros ?%(inj uuid_text). Qed.
#[local] Hint Extern 2 (evolves _ (Enqueue _ _ _ _)) => apply safe_Enqueue; simpl; intros [= ?]; by apply others_text : evolve.
Lemma safe_enqueue p c b k e : evolves R (enqueue u p c b k e).
Proof.
  unfold enqueue, EnqueueOutbound, GetOutboundByIdempotencyKey, insert_outbound. cbv beta zeta.
  repeat (first [solve [auto 2 with evolve nocore]|go_step]; cbv beta zeta). leaf.
  destruct (existsb _ _); [done|]. destruct (bool_decide _); [done|]. destruct (insert_row _ _ _ _) as [m|] eqn:Hi; [|done].
  apply harmless_outbound. eapply part_insert_row; [exact Hi|done].
Qed.
Lemma safe_reply ev b k : evolves R (reply u ev b k).
Proof. apply safe_enqueue. Qed.
Lemma safe_confirmation p c b k : evolves R (DeletionConfirmation u p c b k).
Proof. apply safe_enqueue. Qed.
Lemma safe_catalog : (forall id, evolves R (categoryName id)) /\ (forall t, evolves R (matchCategory t)) /\ evolves R ListCategories.
Proof. split_and!; intros; unfold categoryName, matchCategory, GetCategoryByID, ListCategories; go_evolve. Qed.
Lemma safe_merchants : (forall raw, evolves R (ResolveMerchant raw)) /\ (forall a m k c, evolves R (SuggestCategory a m k c)) /\
  (forall a m h b, evolves R (SuggestType a m h b)).
Proof.
  refine (cat_frame (Categoriser := service_categoriser) R _ _ _); intros w m; apply respects_db; [apply harmless_merchants|apply harmless_aliases].
Qed.
Lemma safe_usage p m n l : evolves R (IncrementUsage "user" (uuid_text u) p m n l).
Proof.
  unfold IncrementUsage. go_evolve. leaf. unfold bump_usage. simpl. destruct (db_usage d !! _) as [x|] eqn:Hx.
  - repeat (case_match; try done). simplify_eq/=. apply (harmless_usage F d). apply part_insert; [|intros y _]; simpl; intros [= He]; by apply others_text.
  - apply (harmless_usage F d). apply part_insert; [|intros y _]; simpl; intros [= He]; by apply others_text.
Qed.

(** The chat state, schedules, summaries, rules. *)
Lemma delete_pending_safe d : harmless F d (delete_pending u d).2.
Proof.
  unfold delete_pending. cbn [snd]. apply (harmless_pending F d).
  - apply part_delete_where. intros k y _ Hy%bool_decide_eq_true. simpl. congruence.
  - intros Hk. eapply keyed_sub; [exact Hk|apply map_filter_subseteq].
Qed.
Lemma insert_pending_safe p t d : pa_user p = u -> harmless F d (stmt_effect (insert_pending p) t d).
Proof.
  intros Hp. unfold stmt_effect, insert_pending. destruct (insert_row _ _ _ _) as [m|] eqn:Hi; [|done]. destruct (_ && _); [|done].
  apply harmless_pending; [eapply part_insert_row; [exact Hi|simpl; congruence]|]. apply insert_row_ok in Hi as (_ & -> & _).
  intros Hk. by apply keyed_insert_at.
Qed.
Lemma safe_clear : evolves R (ClearPendingAction u).
Proof. unfold ClearPendingAction. go_evolve. leaf. apply delete_pending_safe. Qed.
Lemma safe_pending p : pa_user p = u -> evolves R (SetPendingAction p).
Proof.
  intros Hp. unfold SetPendingAction, or_new. go_evolve; leaf; [rewrite Hp; apply delete_pending_safe|by apply insert_pending_safe].
Qed.
Lemma safe_replace op p t : pa_user p = u -> evolves R (replace_pending op p t).
Proof.
  intros Hp. unfold replace_pending, or_new. go_evolve; leaf; [rewrite Hp; apply delete_pending_safe|by apply insert_pending_safe].
Qed.
Lemma safe_GetPending : evolves R (GetPendingAction u).
Proof.
  intros w. unfold GetPendingAction. apply bind_learn; [go_evolve|]. intros row w1 Hq. apply wrap_err_Ok, query_Ok in Hq as [-> ->].
  destruct (head _) as [p|] eqn:Hh; [|reflexivity]. apply head_Some_elem_of, elem_of_select in Hh as (Hp%bool_decide_eq_true & k & Hk).
  apply bind_learn; [go_evolve|]. intros now w1 [= <- <-]. destruct (_ <? _); [|reflexivity]. apply bind_learn_last; [|intros []; go_evolve].
  apply wrap_at, stmt_respects_at. intros t Hs. unfold stmt_effect. cbn [upd_pending tick w_db]. assert (pa_id p = k) as Hid by (by apply (sep_pending _ Hs)).
  revert Hs. apply (harmless_pending F (w_db w)).
  - apply part_delete. intros y. rewrite Hid, Hk. intros [= <-]. simpl. congruence.
  - intros Hm. eapply keyed_sub; [exact Hm|apply delete_subseteq].
Qed.
Lemma safe_disable f : evolves R (DisableSummarySchedules u f).
Proof.
  unfold DisableSummarySchedules, disable_schedules. go_evolve. leaf. cbn [snd]. apply (harmless_schedules F d).
  - apply part_update_where. intros k y _ Hy. rewrite !andb_true_iff, bool_decide_eq_true in Hy. simpl. naive_solver congruence.
  - intros Hk. by apply keyed_update_where.
Qed.
Lemma upsert_schedule_safe id p t d : sch_user p = u -> harmless F d (stmt_effect (upsert_schedule id p) t d).
Proof.
  intros Hp. unfold stmt_effect, upsert_schedule. destruct (head _) as [old|] eqn:Hh.
  - apply head_Some_elem_of, elem_of_select in Hh as (Ho & k & Hk). intros Hs. assert (sch_id old = k) as Hid by (by apply (sep_schedules _ Hs)).
    assert (sch_user old = u) as Hou by (unfold same_schedule in Ho; rewrite !andb_true_iff, !bool_decide_eq_true in Ho; naive_solver congruence).
    revert Hs. apply (harmless_schedules F d); [|intros Hm; by apply keyed_insert_at].
    apply part_insert; [simpl; congruence|]. intros y. rewrite Hid, Hk. intros [= <-]. simpl. congruence.
  - destruct (insert_row _ _ _ _) as [m|] eqn:Hi; [|done]. destruct (bool_decide _); [done|].
    apply harmless_schedules; [eapply part_insert_row; [exact Hi|simpl; congruence]|].
    apply insert_row_ok in Hi as (_ & -> & _). intros Hk. by apply keyed_insert_at.
Qed.
Lemma safe_upsert p : sch_user p = u -> evolves R (UpsertSummarySchedule p).
Proof. intros Hp. unfold UpsertSummarySchedule, or_new. go_evolve; apply respects_stmt; intros t d; by apply upsert_schedule_safe. Qed.
Lemma upsert_insight_safe id ty s e pl evd ver t d : harmless F d (stmt_effect (upsert_insight id u ty s e pl evd ver) t d).
Proof.
  unfold stmt_effect, upsert_insight. intros Hs. pose proof (sep_insights _ Hs) as Hm. revert Hs. destruct (head _) as [old|] eqn:Hh.
  - apply head_Some_elem_of, elem_of_select in Hh as (Ho & k & Hk).
    assert (ins_user old = u) as Hou by (unfold same_insight in Ho; rewrite !andb_true_iff, !bool_decide_eq_true in Ho; naive_solver congruence).
    apply (harmless_insights F d); [|by apply keyed_insert_at].
    apply part_insert; [simpl; congruence|]. intros y. rewrite (Hm k old Hk), Hk. intros [= <-]. simpl. congruence.
  - destruct (insert_row _ _ _ _) as [m|] eqn:Hi; [|apply harmless_refl]. destruct (bool_decide _); [apply harmless_refl|].
    apply harmless_insights; [eapply part_insert_row; [exact Hi|simpl; congruence]|].
    apply insert_row_ok in Hi as (_ & -> & _). by apply keyed_insert_at.
Qed.
Lemma safe_insight : (forall p, evolves R (Summarise u p)) /\ (forall t p sum, evolves R (Persist u t p sum)).
Proof.
  split; intros; unfold Summarise, Persist, marshal_as, userLocation, GetUser, ListInsightPeriodTotals, ListInsightCategoryTotals,
    ListInsightMerchantTotals, ListInsightLargestByCurrency, CountInsightExpenseDays, ListInsightEvidenceIDs, UpsertInsight, query_res; go_evolve.
  all: try (apply respects_stmt; intros; apply upsert_insight_safe).
  all: leaf; repeat (case_match; simplify_eq/=; try done).
Qed.
Lemma upsert_rule_safe r t d : rule_user r = u -> harmless F d (stmt_effect (upsert_rule r) t d).
Proof.
  intros Hr Hs. pose proof (sep_rules _ Hs) as Hm. revert Hs. unfold stmt_effect, upsert_rule. cbv zeta. destruct (negb _); [done|].
  destruct (_ && _); [|done]. apply (harmless_rules F d).
  - apply part_insert; simpl; [congruence|]. intros y Hy. rewrite (Hm _ _ Hy). simpl. congruence.
  - intros k x. rewrite lookup_insert_Some. intros [[<- <-]|[_ Hx]]; [done|by apply Hm].
Qed.
Lemma safe_learn t : evolves R (LearnFromConfirmation u t).
Proof.
  unfold LearnFromConfirmation, or_missing, GetUserMerchantRule, UpsertUserMerchantRule. go_evolve; apply respects_stmt; intros; by apply upsert_rule_safe.
Qed.
Lemma update_user_safe cond f d : (forall x, usr_id (f x) = usr_id x) -> harmless F d (update_user u cond f d).2.
Proof.
  intros Hf Hs. pose proof (sep_users _ Hs) as Hm. revert Hs. unfold update_user. cbn [snd]. apply (harmless_users F d).
  - by rewrite update_row_lookup, bool_decide_eq_false_2.
  - by apply keyed_update_row.
Qed.
Lemma safe_users : (forall tz c, evolves R (UpdateUserPreferences u tz c)) /\ (forall ver t, evolves R (SetConsent u ver t)).
Proof. split; intros; unfold UpdateUserPreferences, SetConsent; go_evolve; apply respects_dml; intros; by apply update_user_safe. Qed.
Lemma safe_file what f : (forall x, f x !! uuid_text v = x !! uuid_text v) -> evolves R (file_op what f).
Proof.
  intros Hf w. assert (forall w0, R w0 (set_exports (f (w_exports w0)) w0)) as Hx.
  { intros w0 Hs Hk. split_and!; [split_and!; [done|apply Hf|done]|done..]. }
  unfold file_op. destruct (fault _) as [[e [|]]|]; simpl; [|apply quiet_tick|]; (etrans; [apply Hx|apply quiet_tick]).
Qed.
Lemma safe_reads : (forall n, evolves R (ListRecentTransactions u n)) /\ evolves R (LatestConfirmedTransaction u) /\
  (forall id, evolves R (GetTransactionForUser id u)) /\ evolves R (ListSummarySchedules u) /\ evolves R (GetUser u).
Proof. split_and!; intros; unfold ListRecentTransactions, LatestConfirmedTransaction, GetTransactionForUser, ListSummarySchedules, GetUser; go_evolve. Qed.
Lemma safe_exports : evolves R (ExportTransactionsCSV u) /\ evolves R (ExportMetadataJSON local u).
Proof.
  split; unfold ExportTransactionsCSV, ListExportTransactions, csv_Write, ExportMetadataJSON, LoadAccountExport, GetUser, ListSummarySchedules, query_res;
    go_evolve; try apply evolves_may_fail; try apply _.
  leaf. repeat (case_match; simplify_eq/=; try done).
Qed.

(** The ledger. *)
Lemma write_tx_safe t d d' : write_tx t d = Ok d' -> tx_user t <> v -> tx_part d !! tx_id t = None ->
  (forall r, tx_receipt t = Some r -> receipt_part d !! r = None) -> harmless F d d'.
Proof.
  intros Hw Ht Hid Hr Hs. pose proof (sep_txs _ Hs) as Hm. pose proof (sep_owner _ Hs) as Ho. revert Hs.
  unfold write_tx in Hw. repeat (case_match; try done). injection Hw as <-. apply (harmless_txs F d).
  - apply part_insert; [done|]. intros y Hy. simpl. by apply (tx_part_none d (tx_id t)).
  - by apply keyed_insert_at.
  - intros k x r. rewrite lookup_insert_Some. intros [[<- <-]|[_ Hx]] Hxr; [left; auto|].
    destruct (receipt_part d !! r) as [rc|] eqn:Hrc; [right; by apply (Ho k x r rc)|by left].
Qed.
Lemma update_tx_safe id cond f d :
  (forall x, db_txs d !! id = Some x -> cond x = true -> tx_user x <> v /\ tx_id (f x) = tx_id x /\ tx_user (f x) = tx_user x /\
     (forall r, tx_receipt (f x) = Some r -> tx_receipt x = Some r \/ receipt_part d !! r = None)) ->
  harmless F d (match update_tx id cond f d with Ok (_, d') => d' | Fail _ => d end).
Proof.
  intros Hf. unfold update_tx. destruct (db_txs d !! id) as [x|] eqn:Hx; [|apply harmless_refl]. destruct (cond x) eqn:Hc; [|apply harmless_refl].
  destruct (write_tx (f x) d) as [d'|] eqn:Hw; [|apply harmless_refl]. destruct (Hf x eq_refl Hc) as (Hv & Hid & Hux & Hr).
  intros Hs. pose proof (sep_txs _ Hs id x Hx) as Hxid. pose proof (sep_owner _ Hs) as Ho. revert Hs. eapply write_tx_safe; [exact Hw|congruence| |].
  - rewrite Hid, Hxid. apply tx_part_none. intros y. rewrite Hx. by intros [= <-].
  - intros r Hfr. destruct (Hr r Hfr) as [Hxr|]; [|done]. destruct (receipt_part d !! r) as [rc|] eqn:Hrc; [|done]. by destruct Hv; apply (Ho id x r rc).
Qed.
Lemma safe_Update t ver : k_txs F (tx_id t) -> (forall r, tx_receipt t = Some r -> k_receipts F r) -> evolves R (UpdateTransaction t ver).
Proof.
  intros Ht Hr. unfold UpdateTransaction. go_evolve. apply respects_stmt. intros now d. unfold stmt_effect. intros Hs Hk. pose proof Hk as (Hk1 & Hk2 & _).
  revert Hs Hk. apply update_tx_safe. intros x Hx _. split_and!; [|done|done|auto]. by apply (tx_part_none d (tx_id t)); [apply Hk1|].
Qed.
Lemma safe_SoftDelete id : evolves R (SoftDeleteTransaction id u).
Proof.
  unfold SoftDeleteTransaction, GetTransactionForUser. go_evolve. apply respects_stmt. intros now d. unfold stmt_effect. apply update_tx_safe.
  intros x _ [Hx%bool_decide_eq_true _]%andb_true_iff. split_and!; [congruence|done|done|auto].
Qed.
Lemma safe_correction c : k_txs F (cor_tx c) -> evolves R (InsertCorrection c).
Proof.
  intros Hc. unfold InsertCorrection, or_new. go_evolve; leaf; (destruct (insert_row _ _ _ _) as [m|] eqn:Hi; [|done]);
    (destruct (bool_decide _); [done|]); intros Hs Hk; pose proof (proj1 Hk _ Hc) as Hn; revert Hs Hk;
    (apply harmless_corrs; eapply part_insert_row; [exact Hi|simpl; rewrite Hn; by intros []]).
Qed.
Lemma safe_predictions op id preds : k_txs F id -> evolves R (insert_predictions op id preds).
Proof.
  intros Hc. unfold insert_predictions, or_new, insert_prediction. go_evolve; leaf; (destruct (negb _); [done|]); (destruct (insert_row _ _ _ _) as [m|] eqn:Hi; [|done]);
    (destruct (bool_decide _); [done|]); intros Hs Hk; pose proof (proj1 Hk _ Hc) as Hn; revert Hs Hk;
    (apply harmless_preds; eapply part_insert_row; [exact Hi|simpl in *; rewrite Hn; by intros []]).
Qed.
(** Receipts. *)
Lemma update_receipt_safe id cond f d : receipt_part d !! id = None ->
  (forall x, rc_id (f x) = rc_id x /\ rc_user (f x) = rc_user x /\ rc_storage_key (f x) = rc_storage_key x) -> harmless F d (update_receipt id cond f d).2.
Proof.
  intros Hid Hf Hs. pose proof (sep_receipts _ Hs) as Hm. revert Hs. unfold update_receipt. cbn [snd]. apply (harmless_receipts F d).
  - apply part_update_row. intros y Hy _. simpl. destruct (Hf y) as (_ & -> & _). split; by apply (receipt_part_none d id).
  - apply keyed_update_row; [done|]. intros x. apply Hf.
  - intros k r'. rewrite update_row_lookup. case_bool_decide; [|eauto]. destruct (db_receipts d !! k) as [r|]; [|done]. simpl. intros [= <-] _. right.
    exists r. destruct (Hf r) as (_ & Hu' & Hk'). by destruct (cond r).
Qed.
Lemma safe_Transition id a b : k_receipts F id -> evolves R (TransitionReceipt id a b).
Proof.
  intros Hid. unfold TransitionReceipt. go_evolve. apply respects_dml. intros t d Hs Hk. pose proof Hk as (_ & Hk2 & _). revert Hs Hk.
  apply update_receipt_safe; [by apply Hk2|by intros x].
Qed.
Lemma safe_DeleteReceived id : k_receipts F id -> evolves R (DeleteReceivedReceipt id).
Proof.
  intros Hid. unfold DeleteReceivedReceipt. go_evolve. leaf. destruct (db_receipts d !! id) as [r|] eqn:Hr; [|done]. destruct (bool_decide _); [|done].
  destruct (receipt_referenced d id); [done|]. intros Hs Hk. pose proof Hk as (_ & Hk2 & _). pose proof (sep_receipts _ Hs) as Hm. revert Hs Hk.
  apply (harmless_receipts F d).
  - apply part_delete. by apply receipt_part_none, Hk2.
  - eapply keyed_sub; [exact Hm|apply delete_subseteq].
  - intros k r'. rewrite lookup_delete_Some. intros [_ Hr'] _. eauto.
Qed.
Lemma insert_receipt_safe r t d : rc_user r = u -> rc_storage_key r = "" -> harmless F d (stmt_effect (insert_receipt r) t d).
Proof.
  intros Hr Hkey Hs. pose proof (sep_receipts _ Hs) as Hm. revert Hs. unfold stmt_effect, insert_receipt. destruct (negb _); [done|].
  destruct (insert_row _ _ _ _) as [m|] eqn:Hi; [|done]. apply (harmless_receipts F d).
  - eapply part_insert_row; [exact Hi|simpl; congruence].
  - apply insert_row_ok in Hi as (_ & -> & _). by apply keyed_insert_at.
  - apply insert_row_ok in Hi as (_ & -> & _). intros k x. rewrite lookup_insert_Some. intros [[<- <-]|[_ Hx]] _; eauto.
Qed.
Lemma safe_GetOrCreate r : rc_user r = u -> rc_storage_key r = "" -> evolves R (GetOrCreateReceiptForProviderMessage r).
Proof.
  intros Hr Hkey. unfold GetOrCreateReceiptForProviderMessage. go_evolve. apply respects_stmt. intros t d. pose proof (insert_receipt_safe r t d Hr Hkey) as Hi.
  unfold stmt_effect in *. destruct (by_message _ d); [done|]. by destruct (insert_receipt r t d) as [[[] d']|].
Qed.
End operations.

(** ** What a run has learnt *)
Lemma bind_assoc_at {A B C} (m : Go A) (f : A -> Go B) (k : B -> Go C) w : bind (bind m f) k w = bind m (fun a => bind (f a) k) w.
Proof. unfold bind. by destruct (m w) as [[]]. Qed.
Definition learn (tx receipt : option uuid) (F : Known) : Known :=
  mkKnown (fun id => k_txs F id \/ tx = Some id) (fun id => k_receipts F id \/ receipt = Some id) (k_msgs F).
Lemma respects_learn F tx receipt w w' : (separate (w_db w) -> (forall id, tx = Some id -> tx_part (w_db w) !! id = None) /\
    (forall id, receipt = Some id -> receipt_part (w_db w) !! id = None)) ->
  respects (learn tx receipt F) w w' -> respects F w w'.
Proof.
  intros Hl Hr Hs Hk. destruct (Hl Hs) as [Hl1 Hl2]. pose proof Hk as (Hk1 & Hk2 & Hk3).
  destruct (Hr Hs) as (Hun & Hs' & Hk1' & Hk2' & Hk3').
  { split_and!; [intros id [|]; auto|intros id [|]; auto|done]. }
  split_and!; [done|done|]. split_and!; [intros id Hid; apply Hk1'; by left|intros id Hid; apply Hk2'; by left|done].
Qed.
(** A transaction of another account and its receipt. *)
Lemma learn_tx F t k w w' : db_txs (w_db w) !! k = Some t -> tx_user t <> v ->
  respects (learn (Some (tx_id t)) (tx_receipt t) F) w w' -> respects F w w'.
Proof.
  intros Ht Hv. apply respects_learn. intros Hs. rewrite (sep_txs _ Hs k t Ht). split.
  - intros id [= <-]. apply tx_part_none. intros y. rewrite Ht. by intros [= <-].
  - intros r Hr. destruct (receipt_part (w_db w) !! r) as [rc|] eqn:Hrc; [|done]. by destruct Hv; eapply (sep_owner _ Hs).
Qed.

Section commands.
Context (user : User) (Hu : usr_id user <> v).

Ltac known_id := simpl; first [assumption|by right|by intros ? ?; right|reflexivity].
Ltac safe_op :=
  lazymatch goal with
  | |- evolves _ (reply _ _ _ _) => apply safe_reply; exact Hu
  | |- evolves _ (DeletionConfirmation _ _ _ _ _) => apply safe_confirmation; exact Hu
  | |- evolves _ (Enqueue _ _ _ _) => apply safe_Enqueue; simpl; intros [= ?]; by apply (others_text (usr_id user))
  | |- evolves _ (categoryName _) => apply safe_catalog
  | |- evolves _ (matchCategory _) => apply safe_catalog
  | |- evolves _ ListCategories => apply safe_catalog
  | |- evolves _ (ResolveMerchant _) => apply safe_merchants
  | |- evolves _ (SuggestCategory _ _ _ _) => apply safe_merchants
  | |- evolves _ (SuggestType _ _ _ _) => apply safe_merchants
  | |- evolves _ (IncrementUsage _ _ _ _ _ _) => apply safe_usage; exact Hu
  | |- evolves _ (ClearPendingAction _) => apply safe_clear; exact Hu
  | |- evolves _ (SetPendingAction _) => apply (safe_pending _ (usr_id user) Hu); reflexivity
  | |- evolves _ (GetPendingAction _) => apply safe_GetPending; exact Hu
  | |- evolves _ (DisableSummarySchedules _ _) => apply safe_disable; exact Hu
  | |- evolves _ (UpsertSummarySchedule _) => apply (safe_upsert _ (usr_id user) Hu); first [reflexivity|assumption]
  | |- evolves _ (Summarise _ _) => apply safe_insight; exact Hu
  | |- evolves _ (Persist _ _ _ _) => apply safe_insight; exact Hu
  | |- evolves _ (LearnFromConfirmation _ _) => apply safe_learn; exact Hu
  | |- evolves _ (UpdateUserPreferences _ _ _) => apply safe_users; exact Hu
  | |- evolves _ (SetConsent _ _ _) => apply safe_users; exact Hu
  | |- evolves _ (ListRecentTransactions _ _) => apply safe_reads; exact Hu
  | |- evolves _ (LatestConfirmedTransaction _) => apply safe_reads; exact Hu
  | |- evolves _ (GetTransactionForUser _ _) => apply safe_reads; exact Hu
  | |- evolves _ (ListSummarySchedules _) => apply safe_reads; exact Hu
  | |- evolves _ (ExportTransactionsCSV _) => apply safe_exports; exact Hu
  | |- evolves _ (ExportMetadataJSON _ _) => apply safe_exports; exact Hu
  | |- evolves _ (InsertCorrection _) => apply safe_correction; known_id
  | |- evolves _ (UpdateTransaction _ _) => apply safe_Update; known_id
  | |- evolves _ (SoftDeleteTransaction _ _) => apply safe_SoftDelete; exact Hu
  | |- evolves _ (TransitionReceipt _ _ _) => apply safe_Transition; known_id
  | |- evolves _ (DeleteReceivedReceipt _) => apply safe_DeleteReceived; known_id
  | |- evolves _ (GetOrCreateReceiptForProviderMessage _) => apply (safe_GetOrCreate _ (usr_id user) Hu); reflexivity
  | |- evolves _ (insert_predictions _ _ _) => apply safe_predictions; known_id
  | |- evolves _ (replace_pending _ _ _) => apply (safe_replace _ (usr_id user) Hu); reflexivity
  end.
Ltac walk := cbv beta zeta; repeat (first [safe_op|go_step]; cbv beta zeta).

Lemma safe_summary F ev pm k : evolves (respects F) (summary user ev pm k).
Proof. unfold summary. walk. Qed.
Lemma safe_schedule F ev i : evolves (respects F) (summarySchedule user ev i).
Proof. unfold summarySchedule, set_schedule. walk. Qed.
Lemma safe_recent F ev pm : evolves (respects F) (recent user ev pm).
Proof. unfold recent, recent_line. walk. Qed.
Lemma safe_requests F ev : evolves (respects F) (requestDelete user ev) /\ evolves (respects F) (requestDeleteRecent user ev).
Proof. split; unfold requestDelete, requestDeleteRecent, with_latest; walk. Qed.
Lemma safe_consent F ev : evolves (respects F) (consentFlow cfg user ev).
Proof. unfold consentFlow. walk. Qed.
Lemma safe_export F ev : evolves (respects F) (export local cfg user ev).
Proof.
  assert (forall x, mkdir (uuid_text (usr_id user)) x !! uuid_text v = x !! uuid_text v) as Hd.
  { intros x. unfold mkdir. destruct (x !! _); [done|]. by rewrite lookup_insert_ne by (by apply others_text). }
  assert (forall n x, create_file (uuid_text (usr_id user)) n x !! uuid_text v = x !! uuid_text v) as Hc.
  { intros n x. unfold create_file. destruct (x !! uuid_text (usr_id user)); [|done]. destruct (bool_decide _); [done|]. by rewrite lookup_insert_ne by (by apply others_text). }
  unfold export, and_close. walk; first [by apply safe_file|apply evolves_may_fail; apply _].
Qed.
Lemma safe_settings F ev i : evolves (respects F) (settings user ev i).
Proof.
  intros w. unfold settings. apply bind_learn; [walk|]. intros prefs w1 Hl.
  assert (forall p, p ∈ prefs -> sch_user p = usr_id user) as Hp.
  { apply wrap_err_Ok, query_Ok in Hl as [-> _]. intros p Hp. apply elem_of_isort in Hp. by apply elem_of_select in Hp as [?%bool_decide_eq_true _]. }
  assert (forall l, evolves (respects F) (for_each prefs (reschedule ev l) [])) as Hloop.
  { intros l. apply evolves_for_each_in; [apply _|]. intros acc p Hin. specialize (Hp p Hin). unfold reschedule. walk. }
  set (k := match Settings i with SettingsShow => _ | _ => _ end). cut (evolves (respects F) k); [intros Hk; apply Hk|]. unfold k, set_timezone, set_currency.
  cbv beta zeta; repeat (first [apply Hloop|safe_op|go_step]; cbv beta zeta).
Qed.

(** Photos: the receipt that is queued is the user's. *)
Lemma GetOrCreate_Ok r w stored b w1 : GetOrCreateReceiptForProviderMessage r w = (Ok (stored, b), w1) ->
  rc_user stored = rc_user r /\ exists k, db_receipts (w_db w1) !! k = Some stored.
Proof.
  unfold GetOrCreateReceiptForProviderMessage. destruct (rc_message r) as [m|]; [|done]. intros Hr. apply bind_Ok in Hr as (n & w2 & _ & Hr).
  apply bind_Ok in Hr as (row & w3 & Hq & Hr). apply wrap_err_Ok, query_Ok in Hq as [-> ->]. destruct (by_message m _) as [x|] eqn:Hx; [|done].
  case_bool_decide as Hux; simpl in Hr; [|done]. apply ret_Ok in Hr as [Hr Hw]. simplify_eq/=. split; [done|].
  unfold by_message in Hx. by apply head_Some_elem_of, elem_of_select in Hx as [_ Hx].
Qed.
Lemma learn_receipt F r k w w' : db_receipts (w_db w) !! k = Some r -> rc_user r <> v ->
  respects (learn None (Some (rc_id r)) F) w w' -> respects F w w'.
Proof.
  intros Hr Hv. apply respects_learn. intros Hs. split; [done|]. intros id [= <-]. rewrite (sep_receipts _ Hs k r Hr). apply receipt_part_none.
  intros y. rewrite Hr. by intros [= <-].
Qed.
Lemma safe_queue F ev pm r : k_receipts F (rc_id r) -> evolves (respects F) (queue_receipt user ev pm r).
Proof. intros Hr. unfold queue_receipt, enqueue_receipt. walk. Qed.
(** The receipt as [register_receipt] returns it, once it is stored. *)
Definition charge_receipt (ev : InboundEvent) (pm : uuid) (receipt : ReceiptDocument) (created : bool) : Go (option ReceiptDocument) :=
  let limit := PerUserDailyReceiptLimit cfg in
  if created then
    let* today := clk_Now in
    let* count := attempt (IncrementUsage "user" (uuid_text (usr_id user)) (Format_day UTC today) "receipts" 1 limit) in
    match count with
    | Fail err => ignore (DeleteReceivedReceipt (rc_id receipt)) ;;; fail err
    | Ok count =>
        if (0 <? limit) && (limit <? count) then
          TransitionReceipt (rc_id receipt) ReceiptReceived ReceiptFailedPermanent ;;;
          reply (usr_id user) ev (DailyQuotaText limit) ("quota:" ++ uuid_text pm) ;;;
          ret None
        else ret (Some receipt)
    end
  else ret (Some receipt).
Lemma safe_charge F ev pm r b : k_receipts F (rc_id r) -> evolves (respects F) (charge_receipt ev pm r b).
Proof. intros Hr. unfold charge_receipt. walk. Qed.
Lemma charge_same ev pm r b w r' w1 : charge_receipt ev pm r b w = (Ok (Some r'), w1) -> r' = r.
Proof.
  unfold charge_receipt. destruct b; intros Hr; [|by apply ret_Ok in Hr as [[= ->] _]]. apply bind_Ok in Hr as (t & w2 & _ & Hr).
  apply bind_Ok in Hr as (c & w3 & _ & Hr). destruct c as [c|e].
  - destruct (_ && _); [|by apply ret_Ok in Hr as [[= ->] _]]. apply bind_Ok in Hr as (? & w4 & _ & Hr). apply bind_Ok in Hr as (? & w5 & _ & Hr). by apply ret_Ok in Hr as [? _].
  - by apply bind_Ok in Hr as (? & w4 & _ & Hr).
Qed.
Lemma charged_rest F ev pm k r b w : db_receipts (w_db w) !! k = Some r -> rc_user r = usr_id user ->
  respects F w (snd (bind (charge_receipt ev pm r b) (fun receipt => match receipt with None => ret tt | Some r => queue_receipt user ev pm r end) w)).
Proof.
  intros Hr Hru. apply (learn_receipt F r k); [done|congruence|]. apply bind_learn; [apply safe_charge; known_id|].
  intros [r'|] w1 Hc; [|reflexivity]. apply charge_same in Hc as ->. apply safe_queue. known_id.
Qed.
Lemma safe_handleImage F ev pm : evolves (respects F) (handleImage cfg user ev pm).
Proof.
  intros w. unfold handleImage. destruct (bool_decide _); [by apply safe_reply|]. unfold register_receipt. rewrite bind_assoc_at. apply bind_learn; [walk|].
  intros id w1 _. destruct (OriginalRetention cfg) as [keep policy]. rewrite bind_assoc_at. apply bind_learn; [walk|]. intros now w2 _.
  rewrite bind_assoc_at. apply bind_learn; [walk|]. intros [r b] w3 Hg. apply GetOrCreate_Ok in Hg as (Hru & k & Hk). by apply (charged_rest F ev pm k r b).
Qed.

(** Manual entries: the predictions are of the row just written. *)
Lemma safe_manual F t preds p m : tx_user t = usr_id user -> tx_receipt t = None -> pa_user p = usr_id user ->
  evolves (respects F) (CreateManualDraft (mkManual (Some t) preds (Some p) m)).
Proof.
  intros Ht Hr Hp. unfold CreateManualDraft. cbn [md_tx md_pending md_message md_preds]. apply evolves_WithTx; [apply _|].
  refine (evolves_bind _ _ _ _ _); [walk|]. intros [x|]; [refine (evolves_bind _ _ _ _ _); [by apply (safe_replace _ (usr_id user) Hu)|intros; walk]|].
  intros w. unfold insert_manual. cbn [md_message md_preds]. apply bind_learn; [unfold or_new; walk|]. intros id w1 _. apply bind_learn.
  - apply evolves_attempt, respects_stmt. intros now d. unfold stmt_effect, insert_tx. cbv zeta. case_bool_decide as Hn; [apply harmless_refl|].
    destruct (write_tx _ d) as [d'|] eqn:Hw; [|apply harmless_refl]. eapply write_tx_safe; [exact Hw|simpl; congruence| |simpl; by rewrite Hr].
    apply tx_part_none. intros y Hy. simpl in *. congruence.
  - intros res w2 Hres. apply attempt_Ok in Hres. destruct res as [[]|err]; [|destruct (is_pg _ err); reflexivity].
    apply stmt_Ok in Hres as (d & Hins & ->). unfold insert_tx in Hins. destruct (bool_decide _); [done|]. cbv zeta in Hins.
    destruct (write_tx _ _) as [d'|] eqn:Hw; [|done]. injection Hins as <-.
    set (row := mkTx _ _ _ _ _ _ _ _ _ _ _ _ _ _ _ _ _ _ _ _ _) in Hw.
    assert (db_txs d' !! id = Some row) as Hrow by (unfold write_tx in Hw; repeat (case_match; try done); injection Hw as <-; apply lookup_insert_eq).
    apply (learn_tx F row id); [done|simpl; congruence|]. apply bind_learn_last.
    + apply safe_predictions. known_id.
    + intros _. refine (evolves_bind _ _ _ _ _); [by apply (safe_replace _ (usr_id user) Hu)|intros; walk].
Qed.
Lemma safe_manualEntry F ev i pm : evolves (respects F) (manualEntry user ev i pm).
Proof.
  unfold manualEntry. cbv beta zeta; repeat (first [safe_op|lazymatch goal with |- evolves _ (CreateManualDraft _) => by apply safe_manual end|go_step]; cbv beta zeta).
Qed.

(** Edits: the transaction that was read is the user's. *)
Lemma GetTx_Ok id w t w1 : GetTransactionForUser id (usr_id user) w = (Ok t, w1) -> db_txs (w_db w1) !! id = Some t /\ tx_user t = usr_id user.
Proof.
  unfold GetTransactionForUser. intros Hf. apply bind_Ok in Hf as (row & w2 & Hq & Hf). apply wrap_err_Ok, query_Ok in Hq as [-> ->].
  destruct (db_txs (w_db w) !! id) as [x|] eqn:Hx; [|done]. simpl in Hf. case_bool_decide; [|done]. apply ret_Ok in Hf as [Hf Hw]. by simplify_eq/=.
Qed.
Lemma Latest_tx w t w1 : LatestConfirmedTransaction (usr_id user) w = (Ok t, w1) -> exists k, db_txs (w_db w1) !! k = Some t /\ tx_user t = usr_id user.
Proof.
  unfold LatestConfirmedTransaction. intros Hr. apply bind_Ok in Hr as (row & w2 & Hq & Hr). apply wrap_err_Ok, query_Ok in Hq as [-> ->].
  destruct (argmin _ _) as [x|] eqn:Ha; [|done]. apply ret_Ok in Hr as [Hr Hw]. simplify_eq/=. apply argmin_in, elem_of_select in Ha as (Hrec & id & Hx).
  exists id. split; [done|]. unfold recorded in Hrec. rewrite !andb_true_iff, bool_decide_eq_true in Hrec. apply Hrec.
Qed.
(** What [UpdateTransaction] returns is the caller's copy. *)
Lemma Update_Ok t ver w t' w1 : UpdateTransaction t ver w = (Ok t', w1) -> tx_id t' = tx_id t /\ tx_receipt t' = tx_receipt t.
Proof.
  unfold UpdateTransaction. intros Hr. apply bind_Ok in Hr as (n & w2 & _ & Hr). destruct (n =? 0); [done|]. apply ret_Ok in Hr as [Hr _]. by simplify_eq.
Qed.
Lemma safe_recategorise F ev text : evolves (respects F) (recategorise user ev text).
Proof.
  intros w. unfold recategorise, with_latest. apply bind_learn; [walk|]. intros found w1 Hf. apply attempt_Ok in Hf. destruct found as [tx|e].
  - apply Latest_tx in Hf as (k & Htx & Hut). apply (learn_tx F tx k); [done|congruence|]. set (F' := learn _ _ F).
    apply bind_learn; [walk|]. intros cat w2 _. destruct cat as [cat|e]; [|by apply safe_reply]. cbv zeta. apply bind_learn.
    + apply evolves_attempt, safe_Update; known_id.
    + intros res w3 Hres. apply attempt_Ok in Hres. destruct res as [t'|e]; [|destruct (IsCode e CodeConflict); [by apply safe_reply|reflexivity]].
      apply Update_Ok in Hres as [Hid _]. simpl in Hid.
      assert (k_txs F' (tx_id t')) as Hknown by (rewrite Hid; known_id).
      lazymatch goal with |- respects _ _ (snd (?m _)) => cut (evolves (respects F') m); [intros Hm; apply Hm|walk] end.
  - destruct (IsCode e CodeNotFound); [by apply safe_reply|reflexivity].
Qed.
Lemma safe_stale F ev : evolves (respects F) (stale user ev).
Proof. unfold stale. walk. Qed.
Lemma safe_reshow F ev id : evolves (respects F) (reshowCard user ev id).
Proof.
  unfold reshowCard. cbv zeta.
  repeat (first [lazymatch goal with |- evolves _ (stale _ _) => apply safe_stale end|safe_op|go_step]; cbv beta zeta).
Qed.
Lemma safe_ask F ev id k : evolves (respects F) (ask_edit user ev id k).
Proof. unfold ask_edit. walk. Qed.
Lemma safe_after_confirm F ev t : k_txs F (tx_id t) -> (forall r, tx_receipt t = Some r -> k_receipts F r) -> evolves (respects F) (after_confirm user ev t).
Proof.
  intros Ht Hr. unfold after_confirm. refine (evolves_bind _ _ _ _ _); [|intros; walk].
  destruct (tx_receipt t) as [r|]; [|walk]. apply evolves_ignore, safe_Transition. auto.
Qed.
Lemma safe_confirmTx F ev id : evolves (respects F) (confirmTx user ev id).
Proof.
  intros w. unfold confirmTx. apply bind_learn; [walk|]. intros found w1 Hf. apply attempt_Ok in Hf.
  destruct found as [tx|e]; [|destruct (IsCode e CodeNotFound); [apply safe_stale|reflexivity]].
  destruct (negb _); [apply safe_stale|]. apply GetTx_Ok in Hf as [Htx Hut]. apply (learn_tx F tx id); [done|congruence|].
  apply bind_learn; [walk|]. intros now w2 _. apply bind_learn; [apply evolves_attempt, safe_Update; known_id|].
  intros res w3 Hres. apply attempt_Ok in Hres. destruct res as [t'|e]; [|destruct (IsCode e CodeConflict); [|reflexivity]].
  - apply Update_Ok in Hres as [Hid Hrc]. simpl in Hid, Hrc. apply safe_after_confirm; [rewrite Hid; known_id|rewrite Hrc; known_id].
  - apply evolves_ignore, safe_clear. exact Hu.
Qed.
Lemma SoftDelete_owner id w w1 : SoftDeleteTransaction id (usr_id user) w = (Ok tt, w1) -> exists t, db_txs (w_db w) !! id = Some t /\ tx_user t = usr_id user.
Proof.
  unfold SoftDeleteTransaction. intros Hr. apply bind_Ok in Hr as (t & w2 & Hg & _). exists t. pose proof (proj2 (proj2 reads_same) id (usr_id user) w) as Hd.
  rewrite Hg in Hd. unfold on_db in Hd. simpl in Hd. rewrite Hd. by apply GetTx_Ok in Hg.
Qed.
(** A continuation of a deletion may use that the row was the user's. *)
Lemma soft_delete_then {A} F id (k : unit -> Go A) w :
  (forall F', k_txs F' id -> evolves (respects F') (k tt)) -> respects F w (snd (bind (SoftDeleteTransaction id (usr_id user)) k w)).
Proof.
  intros Hk. destruct (SoftDeleteTransaction id (usr_id user) w) as [[[]|e] w1] eqn:Hs.
  - destruct (SoftDelete_owner _ _ _ Hs) as (t & Ht & Hut). intros Hsep. pose proof (sep_txs _ Hsep id t Ht) as Hid. revert Hsep.
    apply (learn_tx F t id); [done|congruence|]. apply bind_learn_last; [by apply safe_SoftDelete|]. intros []. apply Hk. simpl. right. by rewrite Hid.
  - pose proof (safe_SoftDelete F (usr_id user) Hu id w) as Hr. unfold bind. by rewrite Hs in Hr |- *.
Qed.
Lemma soft_delete_attempt {A} F id (ok : Go A) (no : Err -> Go A) w :
  (forall F', k_txs F' id -> evolves (respects F') ok) -> (forall e, evolves (respects F) (no e)) ->
  respects F w (snd (bind (attempt (SoftDeleteTransaction id (usr_id user))) (fun res => match res with Ok _ => ok | Fail e => no e end) w)).
Proof.
  intros Hok Hno. pose proof (soft_delete_then F id (fun _ => ok) w Hok) as Hs. pose proof (safe_SoftDelete F (usr_id user) Hu id w) as Hd.
  unfold bind, attempt in *. destruct (SoftDeleteTransaction id (usr_id user) w) as [[[]|e] w1]; simpl in *; [done|]. etrans; [exact Hd|apply Hno].
Qed.
Lemma safe_discardTx F ev id : evolves (respects F) (discardTx user ev id).
Proof.
  intros w. unfold discardTx. apply bind_learn; [walk|]. intros found w1 Hf. apply attempt_Ok in Hf.
  assert (forall F' w2, respects F' w2 (snd ((let* res := attempt (SoftDeleteTransaction id (usr_id user)) in
    match res with
    | Ok _ => ignore (InsertCorrection (mkCorrection uuid_nil id "" "" "" "chat_discard" 0)) ;;; ignore (ClearPendingAction (usr_id user)) ;;;
        reply (usr_id user) ev DiscardedText ("discard:" ++ uuid_text id)
    | Fail err => if IsCode err CodeValidation || IsCode err CodeNotFound then stale user ev else fail err
    end) w2))) as Hrest.
  { intros F' w2. apply soft_delete_attempt; [intros F2 Hid; walk|]. intros e. destruct (_ || _); [apply safe_stale|walk]. }
  destruct found as [tx|e]; [|apply bind_learn; [walk|intros; apply Hrest]].
  apply GetTx_Ok in Hf as [Htx Hut]. apply (learn_tx F tx id); [done|congruence|]. apply bind_learn; [|intros; apply Hrest].
  destruct (tx_receipt tx) as [r|] eqn:Hr; [|walk]. walk.
Qed.
Lemma safe_deleteRecent F ev pa i : evolves (respects F) (resolveDeleteRecent user ev pa i).
Proof.
  intros w. unfold resolveDeleteRecent. destruct (negb _).
  { lazymatch goal with |- respects _ _ (snd (?m _)) => cut (evolves (respects F) m); [intros Hm; apply Hm|walk] end. }
  assert (evolves (respects F) (stale user ev ;;; ret true)) as Hst by (refine (evolves_bind _ _ _ (safe_stale F ev) _); intros; walk).
  destruct (pa_tx pa) as [id|]; [|apply Hst]. apply bind_learn; [walk|]. intros [tx|e] w1 _; [|apply Hst]. apply soft_delete_then. intros F' Hid. walk.
Qed.
Lemma safe_apply_edit F k text tx : evolves (respects F) (apply_edit local user k text tx).
Proof. unfold apply_edit. walk. Qed.
Lemma apply_edit_same k text tx w tx' f p c w1 : apply_edit local user k text tx w = (Ok (Some (tx', f, p, c)), w1) -> tx_id tx' = tx_id tx /\ tx_receipt tx' = tx_receipt tx.
Proof.
  unfold apply_edit. destruct k; cbv zeta; intros Hr; try (apply ret_Ok in Hr as [Hr _]; by simplify_eq).
  - destruct (ParseAmount text (tx_currency tx)) as [[minor cur]|]; apply ret_Ok in Hr as [Hr _]; by simplify_eq.
  - destruct (String.eqb text ""); [by apply ret_Ok in Hr as [Hr _]|]. apply bind_Ok in Hr as (r & w2 & _ & Hr).
    destruct (r.1) as [m|]; apply ret_Ok in Hr as [Hr _]; by simplify_eq.
  - destruct (ParseDate text _) as [when|]; apply ret_Ok in Hr as [Hr _]; by simplify_eq.
  - apply bind_Ok in Hr as (r & w2 & _ & Hr). destruct r as [cat|e]; apply ret_Ok in Hr as [Hr _]; by simplify_eq.
  - destruct (matchType text) as [t|]; apply ret_Ok in Hr as [Hr _]; by simplify_eq.
Qed.
Lemma safe_save_edit F ev id tx f p c : k_txs F (tx_id tx) -> (forall r, tx_receipt tx = Some r -> k_receipts F r) ->
  evolves (respects F) (save_edit user ev id tx f p c).
Proof.
  intros Ht Hr w. unfold save_edit. apply bind_learn; [by apply safe_Update|]. intros t' w1 [Hid _]%Update_Ok.
  assert (k_txs F (tx_id t')) as Hk by (by rewrite Hid).
  lazymatch goal with |- respects _ _ (snd (?m _)) => cut (evolves (respects F) m); [intros Hm; apply Hm|] end.
  cbv zeta; repeat (first [apply safe_reshow|safe_op|go_step]; cbv beta zeta).
Qed.
Lemma safe_resolveEdit F ev pa : evolves (respects F) (resolveEdit local user ev pa).
Proof.
  intros w. unfold resolveEdit. assert (forall F', evolves (respects F') (stale user ev ;;; ret true)) as Hst
    by (intros F'; refine (evolves_bind _ _ _ (safe_stale F' ev) _); intros; walk).
  destruct (pa_tx pa) as [id|]; [|lazymatch goal with |- respects _ _ (snd (?m _)) => cut (evolves (respects F) m); [intros Hm; apply Hm|walk] end].
  apply bind_learn; [walk|]. intros [tx|e] w1 Hf; [|apply Hst]. apply attempt_Ok in Hf. destruct (negb _); [apply Hst|].
  apply GetTx_Ok in Hf as [Htx Hut]. apply (learn_tx F tx id); [done|congruence|]. apply bind_learn; [apply safe_apply_edit|].
  intros [[[[tx' f] p] c]|] w2 He.
  - apply apply_edit_same in He as [Hid Hrc]. apply bind_learn_last; [|intros; walk]. apply safe_save_edit; [rewrite Hid; known_id|rewrite Hrc; known_id].
  - lazymatch goal with |- respects ?F' _ (snd (?m _)) => cut (evolves (respects F') m); [intros Hm; apply Hm|walk] end.
Qed.

(** ** Deleting another account *)
Lemma tx_of_none d id : keyed tx_id (db_txs d) -> user_tx (usr_id user) d id = true -> tx_part d !! id = None.
Proof.
  intros Hk (k & t & Ht & Hut & Hid)%user_tx_spec. rewrite (Hk k t Ht) in Hid. subst k. apply tx_part_none. intros y. rewrite Ht. intros [= <-]. congruence.
Qed.
Lemma receipt_of_none d id : keyed rc_id (db_receipts d) -> user_receipt (usr_id user) d id = true -> receipt_part d !! id = None.
Proof.
  intros Hk (k & t & Ht & Hut & Hid)%user_receipt_spec. rewrite (Hk k t Ht) in Hid. subst k. apply receipt_part_none. intros y. rewrite Ht. intros [= <-]. congruence.
Qed.
Lemma entombed trigger now d k x : entomb (usr_id user) trigger now (keep (drop_message (usr_id user) trigger d) (db_msgs d)) !! k = Some x ->
  exists y, db_msgs d !! k = Some y /\ (x = y \/ (pm_user y = Some (usr_id user) /\ x = tombstone now y)).
Proof.
  assert (forall y, keep (drop_message (usr_id user) trigger d) (db_msgs d) !! k = Some y -> db_msgs d !! k = Some y) as Hsub
    by (intros y Hy; by apply map_lookup_filter_Some in Hy as [? _]).
  unfold entomb. case_bool_decide; [eauto|]. rewrite update_row_lookup. case_bool_decide; [|eauto].
  destruct (keep _ _ !! k) as [y|] eqn:Hy; [|done]. simpl. case_bool_decide; intros [= <-]; exists y; auto.
Qed.
Lemma msg_part_purged trigger now d : names_own d -> msg_part (purged (usr_id user) trigger now d) = msg_part d.
Proof.
  intros Hn. apply map_eq. intros k. apply option_eq. intros x. unfold msg_part. rewrite !map_lookup_filter_Some. cbn [purged db_msgs]. split.
  - intros [Hx [Hv Ho]]. simpl in *. apply entombed in Hx as (y & Hy & [->|[_ ->]]); [done|]. by simpl in Hv.
  - intros [Hx [Hv Ho]]. simpl in *. split; [|done].
    assert (user_message (usr_id user) d x = false) as Hum.
    { apply not_true_is_false. intros [Hux|(i & y & Hy & Huy & Hp & Hs)]%user_message_spec; [congruence|].
      assert (msg_part d !! k = Some x) as Hm by (apply map_lookup_filter_Some; done). destruct (Hn k x Hm) as [_ Hn2].
      rewrite (Hn2 i y Hy) in Huy; [congruence|]. unfold sender_ids. destruct Hs as [->| ->]; [apply list_elem_of_here|apply list_elem_of_further, list_elem_of_here]. }
    unfold entomb. assert (keep (drop_message (usr_id user) trigger d) (db_msgs d) !! k = Some x) as Hkeep.
    { apply map_lookup_filter_Some. split; [done|]. simpl. unfold drop_message. by rewrite Hum, andb_false_r. }
    case_bool_decide; [done|]. rewrite update_row_lookup, Hkeep. case_bool_decide; [|done]. simpl. rewrite bool_decide_eq_false_2; [done|congruence].
Qed.
Lemma purged_harmless F trigger now d : harmless F d (purged (usr_id user) trigger now d).
Proof.
  intros Hs Hk. pose proof (msg_part_purged trigger now d (sep_names _ Hs)) as Hmsg.
  assert (tx_part (purged (usr_id user) trigger now d) = tx_part d) as Htx
    by (apply part_keep; intros k y _ Hy%bool_decide_eq_true; simpl; congruence).
  assert (receipt_part (purged (usr_id user) trigger now d) = receipt_part d) as Hrc
    by (apply part_keep; intros k y _ Hy%bool_decide_eq_true; simpl; congruence).
  pose proof (fun id => tx_of_none d id (sep_txs _ Hs)) as Htn. pose proof (fun id => receipt_of_none d id (sep_receipts _ Hs)) as Hrn.
  assert (db_users (purged (usr_id user) trigger now d) !! v = db_users d !! v) as Hus
    by (cbn [purged db_users]; by rewrite update_row_lookup, bool_decide_eq_false_2).
  split_and!.
  - unfold holdings. rewrite Htx, Hrc, Hmsg, Hus. f_equal; cbn [purged db_idents db_attempts db_fields db_preds db_corrs db_rules db_insights db_usage db_jobs db_outbound db_pending db_schedules];
      first [apply part_keep|apply part_keep_keys]; intros k y _; simpl.
    all: try (intros Hy%bool_decide_eq_true; congruence).
    all: try (intros Hy; first [rewrite (Htn _ Hy)|rewrite (Hrn _ Hy)]; by intros []).
    + unfold own_usage. rewrite andb_true_iff, !String.eqb_eq. intros [_ Hy] He. rewrite He in Hy. simpl in Hy. by apply (others_text (usr_id user) Hu).
    + intros Hy%bool_decide_eq_true. rewrite Hy. intros [= He]. by apply (others_text (usr_id user) Hu).
  - destruct Hs. assert (forall (A : Type) (p : A -> bool) (m : gmap uuid A) k x, keep p m !! k = Some x -> m !! k = Some x) as Hsub
      by (intros A p m k x Hx; by apply map_lookup_filter_Some in Hx as [? _]).
    split; cbn [purged db_users db_msgs db_receipts db_txs db_insights db_schedules db_pending db_rules db_idents].
    + by apply keyed_update_row.
    + intros k x Hx. apply entombed in Hx as (y & Hy & [->|[_ ->]]); exact (sep_msgs0 k y Hy).
    + intros k x Hx. eauto.
    + intros k x Hx. eauto.
    + intros k x Hx. eauto.
    + intros k x Hx. eauto.
    + intros k x Hx. eauto.
    + intros k x Hx. apply map_lookup_filter_Some in Hx as [Hx _]. eauto.
    + cbn [purged db_users] in Hus. by rewrite Hus.
    + intros i x Hx. eauto.
    + intros id t r rc Ht Hr. rewrite Hrc. eauto.
    + intros k pm. rewrite Hmsg. intros Hpm. destruct (sep_names0 k pm Hpm) as [Hn1 Hn2]. split; [done|]. intros i x Hx Hin. by apply (Hn2 i x (Hsub _ _ _ _ _ Hx)).
    + intros k r k' r'. rewrite Hrc. intros Hr Hr'. apply (sep_objects0 k r k' r'); [done|by eapply Hsub].
  - destruct Hk as (Hk1 & Hk2 & Hk3). split_and!; [intros id; rewrite Htx; apply Hk1|intros id; rewrite Hrc; apply Hk2|].
    intros id x Hid Hx. cbn [purged db_msgs] in Hx. apply entombed in Hx as (y & Hy & [->|[_ ->]]); exact (Hk3 id y Hid Hy).
Qed.

(** The objects of the deleted account are nobody else's. *)
Definition foreign_key (key : string) (d : DB) : Prop := forall k r, receipt_part d !! k = Some r -> rc_storage_key r <> key.
Lemma safe_delete_object F n key w : foreign_key key (w_db w) -> respects F w (snd (delete_object n key w)).
Proof.
  intros Hf. unfold delete_object. apply bind_learn_last; [|intros; walk]. apply wrap_at. unfold objects_Delete, object_effect.
  assert (forall w0, w_db w0 = w_db w -> respects F w0 (set_objects (delete key (w_objects w0)) w0)) as Hdel.
  { intros w0 Hd Hs Hk. split_and!; [|done|done]. split_and!; [done..|]. intros k r Hr. simpl. apply lookup_delete_ne. intros ->. rewrite Hd in Hr. by apply (Hf k r). }
  destruct (validateKey key); [reflexivity|]. destruct (fault _) as [[e [|]]|]; simpl; [|apply quiet_tick|]; (etrans; [by apply Hdel|apply quiet_tick]).
Qed.
Lemma safe_objects F keys n w : (forall key, key ∈ keys -> foreign_key key (w_db w)) -> respects F w (snd (for_each keys delete_object n w)).
Proof.
  revert n w. induction keys as [|key keys IH]; intros n w Hf; [reflexivity|]. cbn [for_each].
  pose proof (safe_delete_object F n key w (Hf key (list_elem_of_here _ _))) as Hone. pose proof (db_delete_object n key w) as Hd.
  unfold bind. destruct (delete_object n key w) as [[m|e] w1]; simpl in *; [|done]. etrans; [exact Hone|]. apply IH. intros key' Hin.
  unfold on_db in Hd. rewrite <- Hd. apply Hf. by apply list_elem_of_further.
Qed.
Lemma safe_artifacts F dir : evolves (respects F) (removeExportArtifacts dir (usr_id user)).
Proof.
  unfold removeExportArtifacts. walk; try (by apply evolves_may_fail; apply _). intros w.
  assert (forall w0, respects F w0 (set_exports (delete (uuid_text (usr_id user)) (w_exports w0)) w0)) as Hx.
  { intros w0 Hs Hk. split_and!; [split_and!; [done|simpl; by apply lookup_delete_ne, others_text|done]|done..]. }
  destruct (fault _) as [[e [|]]|]; simpl; [|apply quiet_tick|]; (etrans; [apply Hx|apply quiet_tick]).
Qed.
Lemma safe_Begin F : evolves (respects F) (BeginAccountDeletion (usr_id user)).
Proof. unfold BeginAccountDeletion, begin_body, deletion_started. walk. apply respects_dml. intros t d. by apply update_user_safe. Qed.
Lemma safe_Purge F trigger : evolves (respects F) (PurgeAccountData (usr_id user) trigger).
Proof.
  intros w. pose proof (files_Purge (usr_id user) trigger w) as [Ho Hx]. destruct (purge_cases (usr_id user) trigger w) as [[Hd|[now Hd]] _]; intros Hs Hk.
  - unfold untouched. rewrite Hd, Ho, Hx. by split_and!.
  - destruct (purged_harmless F trigger now (w_db w) Hs Hk) as (Hh & Hs' & Hk'). unfold untouched. rewrite Hd, Ho, Hx. by split_and!.
Qed.
Lemma safe_deleteAccount F trigger : evolves (respects F) (deleteAccount cfg objects (usr_id user) trigger).
Proof.
  unfold deleteAccount, DeleteAccount. apply evolves_WithUserLock; [apply _|]. intros w. unfold deleteAccountLocked.
  apply bind_learn; [apply evolves_wrap_err, safe_Begin|]. intros keys w1 Hb. apply wrap_err_Ok in Hb.
  pose proof (Begin_cases (usr_id user) w) as [Hbeg Hkeys]. rewrite Hb in Hbeg, Hkeys. simpl in Hbeg, Hkeys. destruct (Hkeys keys eq_refl) as [Hk _].
  assert (db_receipts (w_db w1) = db_receipts (w_db w)) as Hrc by (destruct Hbeg as [->|(now & x & _ & _ & _ & ->)]; done).
  destruct (_ && _); [reflexivity|]. intros Hs. assert (forall key, key ∈ keys -> foreign_key key (w_db w1)) as Hforeign.
  { intros key Hin k r Hr He. rewrite Hk in Hin. unfold object_keys in Hin. apply elem_of_remove_dups, list_elem_of_fmap in Hin as (r' & -> & Hr').
    apply elem_of_select in Hr' as (Hp & k' & Hk'). apply andb_true_iff in Hp as [Hur%bool_decide_eq_true Hne]. rewrite <- Hrc in Hk'.
    assert (rc_storage_key r' = "") as He' by (apply (sep_objects _ Hs k r k' r'); [done..|congruence|done]). by rewrite He' in Hne. }
  revert Hs. apply bind_learn_last; [by apply safe_objects|]. intros files.
  refine (evolves_bind _ _ _ _ _); [apply evolves_wrap_err, safe_artifacts|]. intros n. refine (evolves_bind _ _ _ _ _); [apply evolves_wrap_err, safe_Purge|intros; walk].
Qed.
Lemma safe_resolveDelete F ev pm i : evolves (respects F) (resolveDelete cfg objects user ev pm i).
Proof.
  unfold resolveDelete. destruct (negb _); [walk|]. refine (evolves_bind _ _ _ (safe_deleteAccount F pm) _). intros rep. walk.
Qed.

(** ** Texts *)
Lemma safe_resolvePending F ev pm pa i : evolves (respects F) (resolvePending local cfg objects user ev pm pa i).
Proof.
  unfold resolvePending. destruct (pa_kind pa); try apply safe_resolveEdit; [|apply safe_resolveDelete|apply safe_deleteRecent].
  unfold resolveConfirm. cbv zeta; repeat (first [apply safe_confirmTx|apply safe_discardTx|apply safe_reshow|apply safe_ask|safe_op|go_step]; cbv beta zeta).
Qed.
Lemma safe_dispatch F ev pm i : evolves (respects F) (dispatch local cfg user ev pm i).
Proof.
  unfold dispatch. cbv zeta. destruct (Kind i); first [by apply safe_reply|apply safe_summary|apply safe_recent|apply safe_export|apply safe_requests|
    apply safe_settings|apply safe_schedule|apply safe_manualEntry|apply safe_recategorise].
Qed.
Lemma safe_handleText F ev pm : evolves (respects F) (handleText local cfg objects user ev pm).
Proof.
  unfold handleText. cbv zeta; repeat (first [apply safe_resolvePending|apply safe_dispatch|safe_op|go_step]; cbv beta zeta).
Qed.
Lemma safe_route_active F ev pm : evolves (respects F) (route_active local cfg objects user ev pm).
Proof. unfold route_active. walk; [apply safe_handleImage|apply safe_handleText]. Qed.
End commands.

(** ** The event *)
Section event.
Context (F : Known).
(** The message being handled. *)
Lemma update_msg_safe id cond f d : k_msgs F id -> (forall x, pm_id (f x) = pm_id x /\ pm_provider (f x) = pm_provider x /\ pm_chat (f x) = pm_chat x /\ pm_message (f x) = pm_message x) ->
  harmless F d (update_msg id cond f d).2.
Proof.
  intros Hid Hf Hs Hk. pose proof Hk as (_ & _ & Hk3). pose proof (sep_msgs _ Hs) as Hm. revert Hs Hk.
  assert (forall x, own_message (f x) = own_message x) as Hown by (intros x; unfold own_message; by destruct (Hf x) as (_ & -> & -> & ->)).
  unfold update_msg. cbn [snd]. apply (harmless_msgs F d).
  - apply part_update_row. intros y Hy _. simpl. rewrite Hown, (Hk3 id y Hid Hy). by split; intros [].
  - apply keyed_update_row; [done|]. intros x. apply Hf.
  - intros k x. rewrite update_row_lookup. case_bool_decide; [|eauto]. destruct (db_msgs d !! k) as [y|]; [|done]. simpl. intros [= <-]. right. exists y.
    split; [done|]. by destruct (cond y).
Qed.
Lemma safe_messages id : k_msgs F id -> (forall u, evolves (respects F) (SetProviderMessageUser id u)) /\
  evolves (respects F) (RedactProviderMessageRaw id) /\ (forall st, evolves (respects F) (MarkProviderMessage id st)).
Proof.
  intros Hid. split_and!; intros; unfold SetProviderMessageUser, RedactProviderMessageRaw, MarkProviderMessage, redact_row; go_evolve.
  - apply respects_stmt. intros t d. unfold stmt_effect. cbv zeta. destruct (_ && _); [apply harmless_refl|].
    rewrite (surjective_pairing (update_msg _ _ _ _)). by apply update_msg_safe.
  - apply respects_dml. intros t d. by apply update_msg_safe.
  - apply respects_dml. intros t d. by apply update_msg_safe.
Qed.
Lemma safe_touch ev : ev ∈ evs -> evolves (respects F) (TouchIdentityLastSeen "zalo_bot" (ev_user ev) zaloScope).
Proof.
  intros Hev. unfold TouchIdentityLastSeen. go_evolve. apply respects_dml. intros t d Hs. pose proof (sep_sender _ Hs) as Hn. revert Hs. cbn [snd].
  assert (forall i y, db_idents d !! i = Some y -> same_identity "zalo_bot" (ev_user ev) zaloScope y = true -> ident_user y <> v) as Hother.
  { intros i y Hy Hsent. apply (Hn i y Hy). unfold sent_by. apply existsb_exists. exists ev. split; [by apply list_elem_of_In|done]. }
  apply (harmless_idents F d).
  - apply part_update_where. intros k y Hy Hsent. simpl. specialize (Hother k y Hy Hsent). done.
  - intros i x. rewrite update_where_lookup. destruct (db_idents d !! i) as [y|]; [|done]. simpl. intros [= <-] _. right. exists y. by destruct (same_identity _ _ _ y).
Qed.
(** Accounts for newcomers. *)
Lemma insert_user_safe id t d : harmless F d (stmt_effect (insert_user id) t d).
Proof.
  intros Hs. pose proof (sep_users _ Hs) as Hm. destruct (sep_account _ Hs) as [x Hx]. revert Hs. unfold stmt_effect, insert_user.
  destruct (insert_row _ _ _ _) as [m|] eqn:Hi; [|done]. apply insert_row_ok in Hi as (Hn & -> & _). apply (harmless_users F d).
  - apply lookup_insert_ne. intros ->. congruence.
  - by apply keyed_insert_at.
Qed.
Lemma insert_identity_safe ident ev t d : ev ∈ evs -> ident_user ident <> v -> ident_subject ident = ev_user ev ->
  harmless F d (stmt_effect (insert_identity ident) t d).
Proof.
  intros Hev Hv Hsub. unfold stmt_effect, insert_identity. destruct (insert_row _ _ _ _) as [m|] eqn:Hi; [|apply harmless_refl].
  destruct (bool_decide _); [apply harmless_refl|]. apply (harmless_idents F d); [by eapply part_insert_row|].
  apply insert_row_ok in Hi as (_ & -> & _). intros i x. rewrite lookup_insert_Some. intros [[<- <-]|[_ Hx]] _; [left; by exists ev|right; eauto].
Qed.
Lemma safe_create ev id : ev ∈ evs -> evolves (respects F) (CreateUserWithIdentity id "zalo_bot" (ev_user ev) zaloScope).
Proof.
  intros Hev. unfold CreateUserWithIdentity. refine (evolves_bind _ _ _ _ _); [|intros; unfold GetUser; go_evolve]. apply evolves_WithTx; [apply _|].
  intros w Hs. destruct (sep_account _ Hs) as [x Hx]. revert Hs. apply bind_learn; [apply evolves_wrap_err, respects_stmt; intros; apply insert_user_safe|].
  intros [] w1 Hok. apply wrap_err_Ok, stmt_Ok in Hok as (d & Hok & ->). unfold insert_user in Hok. destruct (insert_row _ _ _ _) as [m|] eqn:Hi; [|done].
  apply insert_row_ok in Hi as (Hn & _ & _). assert (id <> v) as Hid by (intros ->; congruence).
  lazymatch goal with |- respects _ _ (snd (?m _)) => cut (evolves (respects F) m); [intros Hm; apply Hm|] end.
  go_evolve. apply respects_stmt. intros t d'. by apply (insert_identity_safe _ ev).
Qed.
Lemma safe_resolveUser ev : ev ∈ evs -> evolves (respects F) (resolveUser ev).
Proof. intros Hev. unfold resolveUser, find_user, GetUserByIdentity. go_evolve. by apply safe_create. Qed.
Lemma safe_finish pm r : k_msgs F pm -> evolves (respects F) (finish pm r).
Proof. intros Hpm. unfold finish, deletion_completed, GetUser. go_evolve. by apply safe_messages. Qed.

(** The handling of one event, under the lock of another account. *)
Lemma safe_route_locked ev pm u w : usr_id u <> v -> k_msgs F pm -> db_users (w_db w) !! usr_id u = Some u ->
  respects F w (snd (route_locked local cfg objects (usr_id u) ev pm w)).
Proof.
  intros Hu Hpm Hx. unfold route_locked. apply bind_learn; [unfold GetUser; go_evolve|]. intros y w1 [Hy _]%GetUser_Ok. rewrite Hx in Hy. injection Hy as <-.
  destruct (_ || _); [reflexivity|]. destruct (negb _).
  - destruct (safe_messages pm Hpm) as (_ & Hred & _). apply bind_learn; [refine (evolves_ignore _ _ Hred)|]. intros [] w2 _. by apply safe_reply.
  - destruct (usr_status u); try (by apply safe_route_active); [by apply safe_consent|by apply safe_reply].
Qed.
Lemma safe_route ev pm w : ev ∈ evs -> k_msgs F pm -> respects F w (snd (route local cfg objects ev pm w)).
Proof.
  intros Hev Hpm Hs. pose proof (sep_users _ Hs) as Hkey. pose proof (sep_sender _ Hs) as Hsend. destruct (sep_account _ Hs) as [x Hx]. revert Hs.
  apply (route_absorbed local cfg objects (respects F) (respects F) (absorbs_self _)); [exact Hkey|by apply safe_resolveUser|intros; by apply safe_messages|by apply safe_touch|].
  intros u w2 _ Hu2 Hcase. apply safe_route_locked; [|done|done]. intros He. destruct Hcase as [[_ Hn]|(i & ident & Hi & Hsent & Hui)]; [congruence|].
  apply (Hsend i ident Hi); [apply existsb_exists; exists ev; split; [by apply list_elem_of_In|done]|]. by rewrite <- (Hkey _ _ Hui).
Qed.
End event.

(** ** The claim *)
Definition learn_msg (id : uuid) (F : Known) : Known := mkKnown (k_txs F) (k_receipts F) (fun x => k_msgs F x \/ x = id).
Lemma respects_learn_msg F id w w' : (separate (w_db w) -> forall x, db_msgs (w_db w) !! id = Some x -> own_message x = true) ->
  respects (learn_msg id F) w w' -> respects F w w'.
Proof.
  intros Hl Hr Hs (Hk1 & Hk2 & Hk3). destruct (Hr Hs) as (Hun & Hs' & Hk1' & Hk2' & Hk3').
  { split_and!; [done|done|]. intros k x [Hk| ->]; [by apply Hk3|by apply Hl]. }
  split_and!; [done|done|]. split_and!; [done|done|]. intros k x Hk. apply Hk3'. by left.
Qed.
Lemma own_of_event ev pm : ev ∈ evs -> pm_provider pm = ev_provider ev -> pm_chat pm = ev_chat ev -> pm_message pm = ev_message ev -> own_message pm = true.
Proof.
  intros Hev H1' H2' H3'. apply existsb_exists. exists ev. split; [by apply list_elem_of_In|]. rewrite H1', H2', H3'. by rewrite !String.eqb_refl.
Qed.

Section claim.
Context (ev : InboundEvent) (Hev : ev ∈ evs).
(** A message struct of the event. *)
Definition of_event (pm : ProviderMessage) : Prop := pm_provider pm = ev_provider ev /\ pm_chat pm = ev_chat ev /\ pm_message pm = ev_message ev /\ pm_user pm = None.
Lemma insert_msg_safe F pm t d : pm_provider pm = ev_provider ev -> pm_chat pm = ev_chat ev -> pm_message pm = ev_message ev ->
  harmless F d (stmt_effect (insert_msg pm) t d).
Proof.
  intros H1' H2' H3' Hs. pose proof (sep_msgs _ Hs) as Hm. pose proof (own_of_event ev pm Hev H1' H2' H3') as Hown. revert Hs. unfold stmt_effect, insert_msg.
  destruct (match pm_user pm with Some _ => _ | None => _ end); [apply harmless_refl|]. destruct (insert_row _ _ _ _) as [m|] eqn:Hi; [|apply harmless_refl].
  apply (harmless_msgs F d).
  - eapply part_insert_row; [exact Hi|]. simpl. rewrite Hown. by intros [].
  - apply insert_row_ok in Hi as (_ & -> & _). by apply keyed_insert_at.
  - apply insert_row_ok in Hi as (_ & -> & _). intros k x. rewrite lookup_insert_Some. intros [[<- <-]|[_ Hx]]; [by left|right; eauto].
Qed.
Lemma found_own pm d x : of_event pm -> head (select (same_message pm) (db_msgs d)) = Some x ->
  own_message x = true /\ exists k, db_msgs d !! k = Some x.
Proof.
  intros (H1' & H2' & H3' & _) Hh. apply head_Some_elem_of, elem_of_select in Hh as (Hsame%same_message_iff & k & Hk). destruct Hsame as (Ha & Hb & Hc).
  split; [|by exists k]. apply (own_of_event ev); [done|congruence..].
Qed.
Lemma safe_claim F pm lease redact : of_event pm -> evolves (respects F) (ClaimProviderMessageOpts pm lease redact).
Proof.
  intros Hpm. unfold ClaimProviderMessageOpts. cbv zeta. destruct (lease <=? 0); [go_evolve|]. refine (evolves_bind _ _ _ _ _); [go_evolve|]. intros now.
  apply evolves_in_tx; [apply _|]. intros w. apply bind_learn; [go_evolve|]. intros row w1 Hq. apply wrap_err_Ok, query_Ok in Hq as [-> ->].
  destruct (head _) as [x|] eqn:Hh.
  - destruct (found_own pm _ x Hpm Hh) as [Hown [k Hk]]. apply (respects_learn_msg F (pm_id x)).
    { intros Hs y. simpl. rewrite (sep_msgs _ Hs k x Hk), Hk. by intros [= <-]. }
    lazymatch goal with |- respects ?F' _ (snd (?m _)) => cut (evolves (respects F') m); [intros Hm; apply Hm|] end.
    go_evolve; apply respects_dml; intros t d; (apply update_msg_safe; [by right|done]).
  - destruct Hpm as (Hp & Hc & Hmsg & _). apply bind_learn; [apply evolves_wrap_err, respects_stmt; intros; by apply insert_msg_safe|].
    intros [] w2 Hi. apply wrap_err_Ok, stmt_Ok in Hi as (d & Hi & ->). apply (respects_learn_msg F (pm_id pm)).
    + intros _ y. unfold insert_msg in Hi. destruct (match pm_user _ with Some _ => _ | None => _ end); [done|]. destruct (insert_row _ _ _ _) as [m|] eqn:Hm; [|done].
      apply insert_row_ok in Hm as (_ & -> & _). injection Hi as <-. simpl. rewrite lookup_insert_eq. intros [= <-]. by apply (own_of_event ev).
    + lazymatch goal with |- respects ?F' _ (snd (?m _)) => cut (evolves (respects F') m); [intros Hm; apply Hm|] end.
      unfold redact_row. go_evolve; apply respects_dml; intros t d'; (apply update_msg_safe; [by right|done]).
Qed.
(** The row of the message that was claimed. *)
Definition owns (id : uuid) (w : World) : Prop := forall x, db_msgs (w_db w) !! id = Some x -> own_message x = true.
Lemma owns_update id cond f w n w1 e : owns id w -> (forall x, pm_provider (f x) = pm_provider x /\ pm_chat (f x) = pm_chat x /\ pm_message (f x) = pm_message x) ->
  wrap_err e (dml (fun _ => update_msg id cond f)) w = (Ok n, w1) -> owns id w1.
Proof.
  intros Ho Hf Hr x. apply wrap_err_Ok, dml_Ok in Hr as [Hd _]. apply (f_equal snd) in Hd. simpl in Hd. rewrite <- Hd. simpl. rewrite update_row_lookup, bool_decide_eq_true_2 by done.
  destruct (db_msgs (w_db w) !! id) as [y|] eqn:Hy; [|done]. simpl. intros [= <-]. specialize (Ho y Hy). destruct (cond y); [|done].
  unfold own_message in *. destruct (Hf y) as (-> & -> & ->). done.
Qed.
Lemma claim_owned pm lease redact w b pm' w1 : of_event pm -> separate (w_db w) -> ClaimProviderMessageOpts pm lease redact w = (Ok (b, pm'), w1) -> owns (pm_id pm') w1.
Proof.
  intros Hpm Hs. unfold ClaimProviderMessageOpts. cbv zeta. destruct (lease <=? 0); [done|]. intros Hr. apply bind_Ok in Hr as (now & w2 & [= _ <-] & Hr).
  apply in_tx_Ok in Hr as (w3 & Hb & ->). change (owns (pm_id pm') w3). apply bind_Ok in Hb as (row & w4 & Hq & Hb). apply wrap_err_Ok, query_Ok in Hq as [-> ->].
  destruct (head _) as [x|] eqn:Hh.
  - destruct (found_own pm _ x Hpm Hh) as [Hown [k Hk]]. simpl in Hk. assert (owns (pm_id x) (tick (set_txnow (Some (sql_now (w_tick (tick w)))) (tick (tick w))))) as Ho.
    { intros y. simpl. rewrite (sep_msgs _ Hs k x Hk), Hk. by intros [= <-]. }
    destruct (_ && _) in Hb; [done|]. destruct (pm_status x); try done; try (apply ret_Ok in Hb as [Hb Hw]; simplify_eq; exact Ho).
    all: try (destruct (pm_started_at x) as [started|]; [destruct (_ <? _); [done|]|]).
    all: apply bind_Ok in Hb as (n & w5 & Hd & Hb); apply ret_Ok in Hb as [Hb Hw]; simplify_eq; simpl; eapply owns_update; [exact Ho| |exact Hd]; done.
  - destruct Hpm as (Hp & Hc & Hmsg & _). apply bind_Ok in Hb as ([] & w5 & Hi & Hb). apply wrap_err_Ok, stmt_Ok in Hi as (d & Hi & ->).
    assert (owns (pm_id pm) (set_db d (tick (tick (set_txnow (Some (sql_now (w_tick (tick w)))) (tick (tick w))))))) as Ho.
    { intros y. unfold insert_msg in Hi. destruct (match pm_user _ with Some _ => _ | None => _ end); [done|]. destruct (insert_row _ _ _ _) as [m|] eqn:Hm; [|done].
      apply insert_row_ok in Hm as (_ & -> & _). injection Hi as <-. simpl. rewrite lookup_insert_eq. intros [= <-]. by apply (own_of_event ev). }
    apply bind_Ok in Hb as ([] & w6 & Hred & Hb). apply ret_Ok in Hb as [Hb Hw]. simplify_eq/=. destruct redact; [|by apply ret_Ok in Hred as [_ <-]].
    apply bind_Ok in Hred as (n & w7 & Hd & Hr). apply ret_Ok in Hr as [_ Hw]. subst. eapply owns_update; [exact Ho| |exact Hd]; done.
Qed.
Lemma safe_claim_event F w : respects F w (snd (claim_event cfg ev w)) /\
  forall b pm w1, claim_event cfg ev w = (Ok (b, pm), w1) -> separate (w_db w) -> known F (w_db w) -> owns (pm_id pm) w1.
Proof.
  assert (forall F', evolves (respects F') (storage_choice cfg ev)) as Hst by (intros F'; unfold storage_choice, find_user, GetUserByIdentity; go_evolve).
  split.
  - cut (evolves (respects F) (claim_event cfg ev)); [intros Hc; apply Hc|]. unfold claim_event. refine (evolves_bind _ _ _ (Hst F) _). intros [raw redact].
    refine (evolves_bind _ _ _ _ _); [go_evolve|]. intros id. by apply safe_claim.
  - intros b pm w1 Hr Hs Hk. unfold claim_event in Hr. apply bind_Ok in Hr as ([raw redact] & w2 & H1' & Hr). apply bind_Ok in Hr as (id & w3 & [= _ <-] & Hr).
    pose proof (Hst F w Hs Hk) as (_ & Hs2 & _). rewrite H1' in Hs2. change (separate (w_db (tick w2))) in Hs2. eapply claim_owned; [|exact Hs2|exact Hr]. done.
Qed.
End claim.

(** ** Sequences of events *)
Lemma event_respects F ev w : ev ∈ evs -> respects F w (snd (HandleEvent local cfg objects ev w)).
Proof.
  intros Hev. destruct (safe_claim_event ev Hev F w) as [Hcl Hown]. unfold HandleEvent, bind. destruct (claim_event cfg ev w) as [[[[|] pm]|e] w2] eqn:Hc; simpl in *; try done.
  intros Hs Hk. specialize (Hown true pm w2 eq_refl Hs Hk). revert Hs Hk. change (respects F w (snd (finish (pm_id pm) (fst (route local cfg objects ev (pm_id pm) w2)) (snd (route local cfg objects ev (pm_id pm) w2))))).
  etrans; [exact Hcl|]. apply (respects_learn_msg F (pm_id pm)); [by intros _|]. etrans; [apply (safe_route (learn_msg (pm_id pm) F) ev); [done|by right]|].
  apply safe_finish. by right.
Qed.

(** The events handled one after the other, whatever each of them returns. *)
Definition handle_all (l : list InboundEvent) (w : World) : World := fold_left (fun w ev => snd (HandleEvent local cfg objects ev w)) l w.
(** Nothing known yet. *)
Definition nothing : Known := mkKnown (fun _ => False) (fun _ => False) (fun _ => False).
Lemma events_respect l w : (forall ev, ev ∈ l -> ev ∈ evs) -> respects nothing w (handle_all l w).
Proof.
  revert w. induction l as [|ev l IH]; intros w Hl; [reflexivity|]. etrans; [apply (event_respects nothing ev), Hl, list_elem_of_here|].
  apply IH. intros ev' Hin. by apply Hl, list_elem_of_further.
Qed.

(** C4: Users are isolated from each other.  Take an account and any sequence of
    events none of which it sent, in tables where the accounts are separate.
    Whatever the events contain, confirm, delete or provoke, and whatever faults
    strike on the way, everything the account holds is exactly as before: its row,
    identities, messages, receipts with fields and attempts, transactions with
    predictions and corrections, rules, summaries, counters, jobs, replies, open
    action and schedules, its stored originals and its export files. *)
Theorem users_isolated w : separate (w_db w) -> untouched w (handle_all evs w) /\ separate (w_db (handle_all evs w)).
Proof. intros Hs. destruct (events_respect evs w (fun _ Hin => Hin) Hs) as (Hu & Hs' & _); [by split_and!|done]. Qed.
End isolation.

(** The owner of the card is not touched while somebody else records an expense,
    confirms it, and deletes everything. *)
Module IsolationDemo.
Import BotDemo.
#[local] Instance env : Env := BotDemo.env.
#[local] Instance tz : TzData := BotDemo.tz.
#[local] Instance locale : SqlLocale := BotDemo.locale.
Definition theirs : list InboundEvent :=
  [text "u2" "c2" "m1" "150000 an trua"; text "u2" "c2" "m2" "ok"; text "u2" "c2" "m3" "/delete"; text "u2" "c2" "m4" "ok"].
Definition shared : World := world_of shown.
Lemma shared_separate : separate 1 theirs (w_db shared).
Proof.
  pose proof (demo_keyed UserActive UserActive (Some (asks PendingConfirmExtraction (Some 4%N)))) as [Hu Ht].
  assert (forall (A : Type) k (x : A), (∅ : gmap uuid A) !! k = Some x -> False) as Hnone by (intros A k x; by rewrite lookup_empty).
  split; try (intros k x Hx; by destruct (Hnone _ k x Hx)).
  - exact Hu.
  - exact Ht.
  - intros k x. simpl. rewrite lookup_singleton_Some. by intros [<- <-].
  - intros k x Hx. change ((∅ : gmap (uuid * uuid) UserMerchantRule) !! k = Some x) in Hx. by rewrite lookup_empty in Hx.
  - by eexists.
  - intros i x. simpl. rewrite lookup_insert_Some, lookup_singleton_Some. intros [[<- <-]|[_ [<- <-]]]; [|done]. by vm_compute.
  - intros id t r rc _ _ Hrc. apply map_lookup_filter_Some in Hrc as [Hrc _]. by destruct (Hnone _ r rc Hrc).
  - intros k r k' r' Hr. apply map_lookup_filter_Some in Hr as [Hr _]. by destruct (Hnone _ k r Hr).
Qed.
Lemma users_isolated_witness :
  holdings 1 theirs (w_db (handle_all UTC cfg true theirs shared)) = holdings 1 theirs (w_db shared) /\
  option_map usr_status (db_users (w_db (handle_all UTC cfg true theirs shared)) !! 2%N) = Some UserDeleted.
Proof.
  split; [apply (users_isolated UTC cfg true 1 theirs shared shared_separate)|vm_compute; reflexivity].
Defined.
End IsolationDemo.
