(* ===== verification/Zalo.v ===== *)
(** * The Zalo Bot API client

    internal/messaging/zalo/zalo.go: webhook authentication, the tolerant decoder
    of webhook bodies, sending, media download and the classification of failures.
    The network is the class [Network]: what the transport answers at a tick, what
    the resolver says, and the standard library's URL and address parsers.

    A run of [DownloadMedia] also returns the URLs it fetched, so that statements
    can speak about requests that were made and not only about results. *)
From Stdlib Require Import Ascii.
From S2P Require Import Prelude GoStrings Domain GoTime Json Unmarshal Config Db Fields Notify Objects Processor.

(** ** Addresses (net.IP): four or sixteen bytes *)
Module NetIP.
Abbreviation IP := (list Z).

(** [To4] *)
Definition To4 (ip : IP) : option IP :=
  if (length ip =? 4)%nat then Some ip
  else if (length ip =? 16)%nat && bool_decide (List.firstn 12 ip = [0; 0; 0; 0; 0; 0; 0; 0; 0; 0; 255; 255])
  then Some (List.skipn 12 ip) else None.
Definition at_byte (ip : IP) (i : nat) : Z := nth i ip 0.
Definition is16 (ip : IP) : bool := (length ip =? 16)%nat.
Definition zeros (n : nat) : IP := repeat 0 n.

Definition IsUnspecified (ip : IP) : bool :=
  match To4 ip with Some ip4 => bool_decide (ip4 = zeros 4) | None => bool_decide (ip = zeros 16) end.
Definition IsLoopback (ip : IP) : bool :=
  match To4 ip with
  | Some ip4 => at_byte ip4 0 =? 127
  | None => bool_decide (ip = zeros 15 ++ [1])%list
  end.
Definition IsPrivate (ip : IP) : bool :=
  match To4 ip with
  | Some ip4 => (at_byte ip4 0 =? 10) || ((at_byte ip4 0 =? 172) && (Z.land (at_byte ip4 1) 240 =? 16)) ||
                ((at_byte ip4 0 =? 192) && (at_byte ip4 1 =? 168))
  | None => is16 ip && (Z.land (at_byte ip 0) 254 =? 252)
  end.
Definition IsMulticast (ip : IP) : bool :=
  match To4 ip with
  | Some ip4 => Z.land (at_byte ip4 0) 240 =? 224
  | None => is16 ip && (at_byte ip 0 =? 255)
  end.
Definition IsLinkLocalMulticast (ip : IP) : bool :=
  match To4 ip with
  | Some ip4 => (at_byte ip4 0 =? 224) && (at_byte ip4 1 =? 0) && (at_byte ip4 2 =? 0)
  | None => is16 ip && (at_byte ip 0 =? 255) && (Z.land (at_byte ip 1) 15 =? 2)
  end.
Definition IsLinkLocalUnicast (ip : IP) : bool :=
  match To4 ip with
  | Some ip4 => (at_byte ip4 0 =? 169) && (at_byte ip4 1 =? 254)
  | None => is16 ip && (at_byte ip 0 =? 254) && (Z.land (at_byte ip 1) 192 =? 128)
  end.
End NetIP.
Export NetIP.

(** ** The network *)
Record Request := mkRequest { rq_url : string; rq_body : option string }.
Record Response := mkResponse { rs_status : Z; rs_content_type : string; rs_body : Reader }.
(** One exchange of a GET: a final response, or a redirect to the absolute URL
    the client makes of the Location header. *)
Inductive Exchange := Final (r : Response) | Redirect (url : string).

Class Network := {
  net_parse :: NetParse;
  (** The text of the error inside [url.Parse]'s *url.Error. *)
  url_error : string -> string;
  (** The text of [json.Unmarshal]'s error on an input. *)
  json_error : string -> string;
  ParseIP : string -> option IP;
  (** Results of the resolver and the transport at a tick; a transport error is
      the one inside the *url.Error that [http.Client] returns. *)
  LookupIPAddr : nat -> string -> Res Err (list (option IP));
  http_Do : nat -> Request -> Res Err Response;
  http_Get : nat -> string -> Res Err Exchange }.

(** [url.PathEscape] and [url.QueryEscape]: percent encoding of all but the
    unreserved bytes and, in a path segment, of all but [$&+=:@]. *)
Definition unreserved (c : ascii) : bool :=
  is_digit c || in_range 65 90 c || in_range 97 122 c || existsb (Z.eqb (byte_of c)) [45; 95; 46; 126].
Definition upper_hex (d : Z) : ascii := of_byte (if d <? 10 then 48 + d else 55 + d).
Definition percent (c : ascii) : string :=
  String (of_byte 37) (String (upper_hex (byte_of c / 16)) (String (upper_hex (byte_of c mod 16)) "")).
Fixpoint escape_bytes (f : ascii -> string) (s : string) : string :=
  match s with "" => "" | String c s' => f c ++ escape_bytes f s' end.
Definition PathEscape (s : string) : string :=
  escape_bytes (fun c => if unreserved c || existsb (Z.eqb (byte_of c)) [36; 38; 43; 61; 58; 64] then String c "" else percent c) s.
Definition QueryEscape (s : string) : string :=
  escape_bytes (fun c => if unreserved c then String c "" else if byte_of c =? 32 then "+" else percent c) s.

Record Client := mkClient { c_token : string; c_secret : string; c_base : string }.
Definition defaultAPIBase : string := "https://bot-api.zaloplatforms.com".
Definition secretHeader : string := "X-Bot-Api-Secret-Token".
Definition maxMediaBytes : Z := 10 * 2 ^ 20.
Definition maxRedirects : nat := 3.

(** [strings.TrimRight(s, "/")] *)
Fixpoint trim_slashes (fuel : nat) (s : string) : string :=
  match fuel with
  | O => s
  | S k => if HasSuffix s "/" then trim_slashes k (TrimSuffix s "/") else s
  end.
(** [New] *)
Definition New (token webhookSecret apiBase : string) : Client :=
  let base := trim_slashes (String.length apiBase) apiBase in
  mkClient token webhookSecret (if String.eqb base "" then defaultAPIBase else base).
(** The constructor register.go installs. *)
Definition newZalo (cfg : Config.Config) : Client :=
  New (ZaloBotToken cfg) (ZaloWebhookSecret cfg) (ZaloAPIBase cfg).

(** ** Media hosts and addresses *)
Definition mediaSuffixes : list string :=
  ["zaloplatforms.com"; "zaloapp.com"; "zdn.vn"; "zadn.vn"; "zapps.me"].

(** [forbiddenMediaIP]; [None] is Go's nil. *)
Definition forbiddenMediaIP (ip : option IP) : bool :=
  match ip with
  | None => true
  | Some ip =>
      IsLoopback ip || IsPrivate ip || IsLinkLocalUnicast ip || IsLinkLocalMulticast ip || IsMulticast ip ||
      IsUnspecified ip ||
      match To4 ip with Some ip4 => (at_byte ip4 0 =? 169) && (at_byte ip4 1 =? 254) | None => false end
  end.

Section client.
Context `{Env} `{Network}.

(** [allowedMediaHost] *)
Definition allowedMediaHost (host : string) : bool :=
  let host := ToLower (TrimSuffix (TrimSpace host) ".") in
  if String.eqb host "" then false
  else existsb (fun suffix => String.eqb host suffix || HasSuffix host ("." ++ suffix)) mediaSuffixes.

Definition validation (msg : string) : Err := E CodeValidation msg None.

(** [validateMediaURL] at a tick. *)
Definition validateMediaURL (t : nat) (raw : string) : Res Err unit :=
  match url_Parse raw with
  | None => Fail (E CodeValidation "invalid media URL" (Some (Sentinel (url_error raw))))
  | Some (scheme, _, host) =>
      if negb (String.eqb scheme "https") then Fail (validation "media URL must use https")
      else if String.eqb host "" then Fail (validation "media URL missing host")
      else
        match ParseIP host with
        | Some ip =>
            Fail (validation (if forbiddenMediaIP (Some ip) then "media URL resolves to forbidden address"
                              else "media host not allowed"))
        | None =>
            if negb (allowedMediaHost host) then Fail (validation "media host not allowed")
            else
              match LookupIPAddr t host with
              | Fail e => Fail (E CodeValidation "media host DNS lookup failed" (Some e))
              | Ok [] => Fail (validation "media host DNS lookup returned no addresses")
              | Ok addrs =>
                  if existsb forbiddenMediaIP addrs then Fail (validation "media URL resolves to forbidden address")
                  else Ok tt
              end
        end
  end.

Context (c : Client).

(** [redact] *)
Definition redact (value : string) : string :=
  if String.eqb (c_token c) "" then value
  else
    let out := ReplaceAll value (c_token c) "[REDACTED]" in
    let out := ReplaceAll out (PathEscape (c_token c)) "[REDACTED]" in
    ReplaceAll out (QueryEscape (c_token c)) "[REDACTED]".

(** [safeCause], on the error inside the *url.Error. *)
Definition safeCause (text : string) : Err := Sentinel (redact text).

(** [classifyStatus] *)
Definition classifyStatus (status : Z) (body : string) : Err :=
  let snippet := TrimSpace (redact body) in
  let snippet := if (200 <? String.length snippet)%nat then take 200 snippet else snippet in
  if (status =? 429) || (500 <=? status) then
    E CodeTransient ("zalo api status " ++ Sprintd status ++ ": " ++ snippet) None
  else if 400 <=? status then E CodeValidation ("zalo api status " ++ Sprintd status ++ ": " ++ snippet) None
  else E CodeTransient ("zalo api unexpected status " ++ Sprintd status ++ ": " ++ snippet) None.

Definition is_2xx (status : Z) : bool := negb ((status <? 200) || (299 <? status)).
Definition method_url (method : string) : string := c_base c ++ "/bot" ++ c_token c ++ "/" ++ method.

(** What the API methods share: build the request, send it, read the answer up
    to [limit] bytes and check its status. *)
Definition post (t : nat) (method url : string) (body : option string) (limit : Z) : Res Err string :=
  match url_Parse url with
  | None => Fail (E CodeValidation ("build " ++ method ++ " request") (Some (safeCause (url_error url))))
  | Some _ =>
      match http_Do t (mkRequest url body) with
      | Fail e => Fail (E CodeTransient (method ++ " request failed") (Some (safeCause (error_string e))))
      | Ok resp =>
          match ReadAllLimit limit (rs_body resp) with
          | Fail e => Fail (E CodeTransient ("read " ++ method ++ " response") (Some e))
          | Ok answer => if is_2xx (rs_status resp) then Ok answer else Fail (classifyStatus (rs_status resp) answer)
          end
      end
  end.
Definition no_token : Err := validation "zalo bot token not configured".
Definition undecodable (method answer : string) : Err :=
  E CodeTransient ("decode " ++ method ++ " response") (Some (Sentinel (json_error answer))).
(** An answer with ok=false. *)
Definition rejected (method description : string) : Err :=
  let description := redact (TrimSpace description) in
  validation (method ++ " rejected: " ++ (if String.eqb description "" then "provider returned ok=false" else description)).

(** [idString] *)
Definition idString (raw : string) : string :=
  if String.eqb raw "" then ""
  else match parse_json raw with
       | Some (VStr s) => s
       | Some (VNum lit) => lit
       | _ => ""
       end.

(** ** GetMe, SetMyCommands, Send *)
Record BotInfo := mkBotInfo { bi_id : string; bi_name : string; bi_type : string; bi_groups : bool }.
(** The answer of getMe: ok, description and the result, its id still raw. *)
Record MeAnswer := mkMe { me_ok : bool; me_description : string; me_result : BotInfo }.
Definition d_botinfo : Decoder BotInfo := d_struct
  [("id", at_field bi_id (fun x b => mkBotInfo x (bi_name b) (bi_type b) (bi_groups b)) d_raw);
   ("account_name", at_field bi_name (fun x b => mkBotInfo (bi_id b) x (bi_type b) (bi_groups b)) d_string);
   ("account_type", at_field bi_type (fun x b => mkBotInfo (bi_id b) (bi_name b) x (bi_groups b)) d_string);
   ("can_join_groups", at_field bi_groups (fun x b => mkBotInfo (bi_id b) (bi_name b) (bi_type b) x) d_bool)].
Definition d_me : Decoder MeAnswer := d_struct
  [("ok", at_field me_ok (fun x a => mkMe x (me_description a) (me_result a)) d_bool);
   ("description", at_field me_description (fun x a => mkMe (me_ok a) x (me_result a)) d_string);
   ("result", at_field me_result (fun x a => mkMe (me_ok a) (me_description a) x) d_botinfo)].
Definition GetMe (t : nat) : Res Err BotInfo :=
  if String.eqb (c_token c) "" then Fail no_token
  else
    match post t "getMe" (method_url "getMe") None (2 ^ 20) with
    | Fail e => Fail e
    | Ok answer =>
        match Unmarshal d_me answer (mkMe false "" (mkBotInfo "" "" "" false)) with
        | (_, false) => Fail (undecodable "getMe" answer)
        | (out, true) =>
            if negb (me_ok out) then Fail (validation ("getMe rejected: " ++ redact (me_description out)))
            else
              let r := me_result out in
              let info := mkBotInfo (idString (bi_id r)) (bi_name r) (bi_type r) (bi_groups r) in
              if String.eqb (bi_id info) "" then Fail (E CodeTransient "getMe response missing bot id" None) else Ok info
        end
    end.

(** The answers of setMyCommands and sendMessage. *)
Record SendAnswer := mkSendAnswer { sa_ok : bool; sa_description : string; sa_message_id : string }.
Definition d_ack : Decoder SendAnswer := d_struct
  [("ok", at_field sa_ok (fun x a => mkSendAnswer x (sa_description a) (sa_message_id a)) d_bool);
   ("description", at_field sa_description (fun x a => mkSendAnswer (sa_ok a) x (sa_message_id a)) d_string)].
Definition d_sent : Decoder SendAnswer := d_struct
  [("ok", at_field sa_ok (fun x a => mkSendAnswer x (sa_description a) (sa_message_id a)) d_bool);
   ("description", at_field sa_description (fun x a => mkSendAnswer (sa_ok a) x (sa_message_id a)) d_string);
   ("result", d_struct [("message_id", at_field sa_message_id (fun x a => mkSendAnswer (sa_ok a) (sa_description a) x) d_raw)])].

(** [SetMyCommands]; a command is its name and description. *)
Definition commands_json (commands : list (string * string)) : string :=
  json_text_of None (JObj [("commands", JArr ((fun cmd => JObj [("command", JStr cmd.1); ("description", JStr cmd.2)]) <$> commands))]).
Definition SetMyCommands (t : nat) (commands : list (string * string)) : Res Err unit :=
  if String.eqb (c_token c) "" then Fail no_token
  else match commands with
  | [] => Fail (validation "setMyCommands requires at least one command")
  | _ =>
      match post t "setMyCommands" (method_url "setMyCommands") (Some (commands_json commands)) (2 ^ 20) with
      | Fail e => Fail e
      | Ok answer =>
          match Unmarshal d_ack answer (mkSendAnswer false "" "") with
          | (_, false) => Fail (undecodable "setMyCommands" answer)
          | (out, true) => if negb (sa_ok out) then Fail (rejected "setMyCommands" (sa_description out)) else Ok tt
          end
      end
  end.

(** [Send]: the provider's message id. *)
Definition send_json (chat text : string) : string := json_text_of None (JObj [("chat_id", JStr chat); ("text", JStr text)]).
Definition Client_Send (t : nat) (chat text : string) : Res Err string :=
  if String.eqb (c_token c) "" then Fail no_token
  else if String.eqb chat "" then Fail (validation "provider chat id required")
  else if String.eqb (TrimSpace text) "" then Fail (validation "message text required")
  else if (2000 <? length (runes text))%nat then Fail (validation "message text exceeds 2000 characters")
  else
    match post t "sendMessage" (method_url "sendMessage") (Some (send_json chat text)) (2 ^ 20) with
    | Fail e => Fail e
    | Ok answer =>
        match Unmarshal d_sent answer (mkSendAnswer false "" "") with
        | (_, false) => Fail (undecodable "sendMessage" answer)
        | (out, true) =>
            if negb (sa_ok out) then Fail (rejected "sendMessage" (sa_description out))
            else Ok (idString (sa_message_id out))
        end
    end.

(** ** VerifyWebhook *)
Definition VerifyWebhook (headers : string -> string) : Res Err unit :=
  if String.eqb (c_secret c) "" then Fail (E CodeForbidden "webhook secret not configured" None)
  else if String.eqb (TrimSpace (headers secretHeader)) (TrimSpace (c_secret c)) then Ok tt
  else Fail (E CodeForbidden "invalid webhook secret" None).

(** ** DownloadMedia *)
Definition redirect_limit : Err := Sentinel "redirect limit exceeded".
(** [http.Client.Do] with the adapter's [CheckRedirect]; [via] counts the
    requests already made.  Each round costs two ticks. *)
Fixpoint follow (fuel via t : nat) (url : string) : list string * Res Err Response :=
  match fuel with
  | O => ([], Fail redirect_limit)
  | S f =>
      match http_Get t url with
      | Fail e => ([url], Fail e)
      | Ok (Final r) => ([url], Ok r)
      | Ok (Redirect next) =>
          if (maxRedirects <? S via)%nat then ([url], Fail redirect_limit)
          else
            match validateMediaURL (S t) next with
            | Fail e => ([url], Fail e)
            | Ok _ => let r := follow f (S via) (S (S t)) next in (url :: r.1, r.2)
            end
      end
  end.
(** The failures of [hc.Do]. *)
Fixpoint as_domain (e : Err) : option Err :=
  match e with
  | DomainErr _ _ _ => Some e
  | Wrapped _ cause => as_domain cause
  | Driver _ | Sentinel _ => None
  end.
Definition download_error (e : Err) : Err :=
  if Contains (error_string e) "redirect limit" then
    E CodeValidation "media redirect limit exceeded" (Some (safeCause (error_string e)))
  else if IsCode e CodeValidation then e
  else match as_domain e with
       | Some de => de
       | None => E CodeTransient "media download failed" (Some (safeCause (error_string e)))
       end.
(** The bytes with their content type, and the URLs fetched. *)
Definition Client_DownloadMedia (t : nat) (ref : MediaReference) : list string * Res Err (string * string) :=
  if String.eqb (mr_url ref) "" then ([], Fail (validation "media reference has no URL"))
  else
    match validateMediaURL t (mr_url ref) with
    | Fail e => ([], Fail e)
    | Ok _ =>
        let r := follow (S (S maxRedirects)) O (S t) (mr_url ref) in
        (r.1,
         match r.2 with
         | Fail e => Fail (download_error e)
         | Ok resp =>
             if negb (is_2xx (rs_status resp)) then Fail (classifyStatus (rs_status resp) "")
             else
               match ReadAllLimit (maxMediaBytes + 1) (rs_body resp) with
               | Fail e => Fail (E CodeTransient "read media body" (Some e))
               | Ok buf =>
                   if maxMediaBytes <? Z.of_nat (String.length buf) then
                     Fail (validation ("media exceeds " ++ Sprintd maxMediaBytes ++ " byte cap"))
                   else
                     Ok (buf, if String.eqb (rs_content_type resp) "" then DetectContentType (take 512 buf) else rs_content_type resp)
               end
         end)
    end.
End client.
