(* ===== verification/ZaloEvents.v ===== *)
(** * Decoding Zalo updates

    internal/messaging/zalo: the tolerant wire shapes of zalo.go, [ParseWebhook],
    [buildEvent], and updates.go's [GetUpdates].  Shown: a decoded event carries
    the identifiers that deduplication, ownership and replies need, with the raw
    unit and its digest; a batch of updates is mapped entry by entry, and the next
    offset is one past the largest update seen, whatever the entries look like. *)
From Stdlib Require Import Ascii SpecFloat.
From S2P Require Import Prelude GoStrings Domain GoTime Json Normalise Unmarshal JsonRoundtrip Config Db Fields Objects Zalo Bot.

Definition ProviderZaloBot : string := "zalo_bot".
Definition EventUnsupported : string := "message.unsupported.received".

(** ** Wire shapes *)
Record envelope := mkEnv { en_name : string; en_message : string }.
Definition d_envelope : Decoder envelope := d_struct
  [("event_name", at_field en_name (fun x e => mkEnv x (en_message e)) d_string);
   ("message", at_field en_message (fun x e => mkEnv (en_name e) x) d_raw)].

Record providerEnvelope := mkPEnv { pe_ok : option bool; pe_result : string; pe_name : string; pe_message : string }.
Definition d_providerEnvelope : Decoder providerEnvelope := d_struct
  [("ok", at_field pe_ok (fun x e => mkPEnv x (pe_result e) (pe_name e) (pe_message e)) (d_ptr false d_bool));
   ("result", at_field pe_result (fun x e => mkPEnv (pe_ok e) x (pe_name e) (pe_message e)) d_raw);
   ("event_name", at_field pe_name (fun x e => mkPEnv (pe_ok e) (pe_result e) x (pe_message e)) d_string);
   ("message", at_field pe_message (fun x e => mkPEnv (pe_ok e) (pe_result e) (pe_name e) x) d_raw)].

Record zaloParty := mkParty { zp_id : string; zp_name : string }.
Definition d_party : Decoder zaloParty := d_struct
  [("id", at_field zp_id (fun x p => mkParty x (zp_name p)) d_raw);
   ("name", at_field zp_name (fun x p => mkParty (zp_id p) x) d_string)].

Record zaloMessage := mkZM {
  zm_id : string; zm_from : option zaloParty; zm_chat : option zaloParty; zm_date : Z; zm_text : string;
  zm_caption : string; zm_photo : string; zm_photo_url : string; zm_photos : string; zm_image : string;
  zm_attachments : string }.
Definition zero_message : zaloMessage := mkZM "" None None 0 "" "" "" "" "" "" "".
Definition d_message : Decoder zaloMessage := d_struct
  [("message_id", at_field zm_id (fun x m => mkZM x (zm_from m) (zm_chat m) (zm_date m) (zm_text m) (zm_caption m) (zm_photo m) (zm_photo_url m) (zm_photos m) (zm_image m) (zm_attachments m)) d_raw);
   ("from", at_field zm_from (fun x m => mkZM (zm_id m) x (zm_chat m) (zm_date m) (zm_text m) (zm_caption m) (zm_photo m) (zm_photo_url m) (zm_photos m) (zm_image m) (zm_attachments m)) (d_ptr (mkParty "" "") d_party));
   ("chat", at_field zm_chat (fun x m => mkZM (zm_id m) (zm_from m) x (zm_date m) (zm_text m) (zm_caption m) (zm_photo m) (zm_photo_url m) (zm_photos m) (zm_image m) (zm_attachments m)) (d_ptr (mkParty "" "") d_party));
   ("date", at_field zm_date (fun x m => mkZM (zm_id m) (zm_from m) (zm_chat m) x (zm_text m) (zm_caption m) (zm_photo m) (zm_photo_url m) (zm_photos m) (zm_image m) (zm_attachments m)) d_int64);
   ("text", at_field zm_text (fun x m => mkZM (zm_id m) (zm_from m) (zm_chat m) (zm_date m) x (zm_caption m) (zm_photo m) (zm_photo_url m) (zm_photos m) (zm_image m) (zm_attachments m)) d_string);
   ("caption", at_field zm_caption (fun x m => mkZM (zm_id m) (zm_from m) (zm_chat m) (zm_date m) (zm_text m) x (zm_photo m) (zm_photo_url m) (zm_photos m) (zm_image m) (zm_attachments m)) d_string);
   ("photo", at_field zm_photo (fun x m => mkZM (zm_id m) (zm_from m) (zm_chat m) (zm_date m) (zm_text m) (zm_caption m) x (zm_photo_url m) (zm_photos m) (zm_image m) (zm_attachments m)) d_raw);
   ("photo_url", at_field zm_photo_url (fun x m => mkZM (zm_id m) (zm_from m) (zm_chat m) (zm_date m) (zm_text m) (zm_caption m) (zm_photo m) x (zm_photos m) (zm_image m) (zm_attachments m)) d_raw);
   ("photos", at_field zm_photos (fun x m => mkZM (zm_id m) (zm_from m) (zm_chat m) (zm_date m) (zm_text m) (zm_caption m) (zm_photo m) (zm_photo_url m) x (zm_image m) (zm_attachments m)) d_raw);
   ("image", at_field zm_image (fun x m => mkZM (zm_id m) (zm_from m) (zm_chat m) (zm_date m) (zm_text m) (zm_caption m) (zm_photo m) (zm_photo_url m) (zm_photos m) x (zm_attachments m)) d_raw);
   ("attachments", at_field zm_attachments (fun x m => mkZM (zm_id m) (zm_from m) (zm_chat m) (zm_date m) (zm_text m) (zm_caption m) (zm_photo m) (zm_photo_url m) (zm_photos m) (zm_image m) x) d_raw)].

Record zaloMedia := mkZMedia { md_url : string; md_file_url : string; md_mime : string; md_caption : string }.
Definition zero_media : zaloMedia := mkZMedia "" "" "" "".
Definition d_media : Decoder zaloMedia := d_struct
  [("url", at_field md_url (fun x m => mkZMedia x (md_file_url m) (md_mime m) (md_caption m)) d_string);
   ("file_url", at_field md_file_url (fun x m => mkZMedia (md_url m) x (md_mime m) (md_caption m)) d_string);
   ("mime_type", at_field md_mime (fun x m => mkZMedia (md_url m) (md_file_url m) x (md_caption m)) d_string);
   ("caption", at_field md_caption (fun x m => mkZMedia (md_url m) (md_file_url m) (md_mime m) x) d_string)].

(** [len(raw) == 0 || string(raw) == "null"] *)
Definition absent_raw (raw : string) : bool := String.eqb raw "" || String.eqb raw "null".

(** [parseMedia] *)
Definition parseMedia (raw : string) : option zaloMedia :=
  if absent_raw raw then None
  else
    match Unmarshal d_media raw zero_media with
    | (m, true) =>
        let url := if String.eqb (md_url m) "" then md_file_url m else md_url m in
        if String.eqb url "" then None else Some (mkZMedia url (md_file_url m) (md_mime m) (md_caption m))
    | (_, false) =>
        match Unmarshal d_string raw "" with
        | (s, true) => if String.eqb s "" then None else Some (mkZMedia s "" "" "")
        | (_, false) => None
        end
    end.

(** [mediaItems] *)
Definition mediaItems (raw : string) : list string :=
  if absent_raw raw then []
  else match Unmarshal (d_slice "" d_raw) raw nil_slice with
       | (many, true) => slice_list many
       | (_, false) => [raw]
       end.

(** [firstMedia] *)
Fixpoint first_some {A B} (f : A -> option B) (l : list A) : option B :=
  match l with [] => None | x :: l' => match f x with Some b => Some b | None => first_some f l' end end.
Definition firstMedia (m : zaloMessage) : option zaloMedia :=
  first_some parseMedia (mediaItems (zm_photo_url m) ++ mediaItems (zm_photo m) ++ mediaItems (zm_photos m) ++
                         mediaItems (zm_image m) ++ mediaItems (zm_attachments m))%list.

(** [providerTime] *)
Definition millisecondThreshold : Z := 100000000000.
Definition providerTime (value : Z) : Time :=
  if (millisecondThreshold <=? value) || (value <=? - millisecondThreshold) then value * 1000000 else value * Second.

Section events.
Context `{Env} `{Network}.

(** [buildEvent], at the wall-clock time [now]. *)
Definition media_of (eventType : string) (msg : zaloMessage) : list MediaReference :=
  if String.eqb eventType EventImageReceived then
    match firstMedia msg with
    | Some md => [mkMedia ProviderZaloBot (md_url md) (md_mime md)
                    (if String.eqb (zm_caption msg) "" then md_caption md else zm_caption msg)]
    | None => []
    end
  else [].
Definition party_id (p : option zaloParty) : string := match p with Some p => idString (zp_id p) | None => "" end.
Definition event_of (eventType : string) (msg : zaloMessage) (payload : string) (now : Time) : InboundEvent :=
  mkEvent ProviderZaloBot (party_id (zm_from msg)) (party_id (zm_chat msg)) (idString (zm_id msg)) eventType (zm_text msg)
    (media_of eventType msg) (if 0 <? zm_date msg then providerTime (zm_date msg) else now) (sha256_hex payload) payload 0.
Definition decode_message (msgRaw : string) : zaloMessage * bool :=
  if String.eqb msgRaw "" then (zero_message, true) else Unmarshal d_message msgRaw zero_message.
Definition buildEvent (eventType msgRaw payload : string) (now : Time) : Res Err InboundEvent :=
  match decode_message msgRaw with
  | (_, false) => Fail (E CodeValidation "invalid message payload" (Some (Sentinel (json_error msgRaw))))
  | (msg, true) =>
      let ev := event_of eventType msg payload now in
      if String.eqb (ev_message ev) "" then Fail (validation "message missing message_id")
      else if String.eqb (ev_user ev) "" then Fail (validation "message missing from.id")
      else if String.eqb (ev_chat ev) "" then Fail (validation "message missing chat.id")
      else Ok ev
  end.

(** [ParseWebhook] *)
Definition known_event (name : string) : string :=
  if String.eqb name EventTextReceived || String.eqb name EventImageReceived then name else EventUnsupported.
Definition unwrap (outer : providerEnvelope) : envelope * bool :=
  let env := mkEnv (pe_name outer) (pe_message outer) in
  if absent_raw (pe_result outer) then (env, true) else Unmarshal d_envelope (pe_result outer) env.
Definition ParseWebhook (now : Time) (body : string) : Res Err (list InboundEvent) :=
  match Unmarshal d_providerEnvelope body (mkPEnv None "" "" "") with
  | (_, false) => Fail (E CodeValidation "invalid webhook body" (Some (Sentinel (json_error body))))
  | (outer, true) =>
      if bool_decide (pe_ok outer = Some false) then Fail (validation "webhook envelope was not ok")
      else
        match unwrap outer with
        | (_, false) => Fail (E CodeValidation "invalid webhook result" (Some (Sentinel (json_error (pe_result outer)))))
        | (env, true) =>
            if String.eqb (TrimSpace (en_name env)) "" then Fail (validation "webhook event_name is required")
            else
              match buildEvent (known_event (en_name env)) (en_message env) body now with
              | Fail e => Fail e
              | Ok ev => Ok [ev]
              end
        end
  end.

(** ** GetUpdates (updates.go) *)
Record update := mkUpdate { up_id : Z; up_name : string; up_message : string }.
Definition d_update : Decoder update := d_struct
  [("update_id", at_field up_id (fun x u => mkUpdate x (up_name u) (up_message u)) d_int64);
   ("event_name", at_field up_name (fun x u => mkUpdate (up_id u) x (up_message u)) d_string);
   ("message", at_field up_message (fun x u => mkUpdate (up_id u) (up_name u) x) d_raw)].
Definition d_probe : Decoder Z := d_struct [("update_id", d_int64)].

(** [inferEventType] *)
Definition inferEventType (msgRaw : string) : string :=
  match Unmarshal d_message msgRaw zero_message with
  | (_, false) => EventUnsupported
  | (msg, true) =>
      if negb (String.eqb (zm_text msg) "") then EventTextReceived
      else match firstMedia msg with Some _ => EventImageReceived | None => EventUnsupported end
  end.

(** The envelope of an answer: ok, description, raw result. *)
Record updatesAnswer := mkUpdates { ua_ok : bool; ua_description : string; ua_result : string }.
Definition d_updates : Decoder updatesAnswer := d_struct
  [("ok", at_field ua_ok (fun x a => mkUpdates x (ua_description a) (ua_result a)) d_bool);
   ("description", at_field ua_description (fun x a => mkUpdates (ua_ok a) x (ua_result a)) d_string);
   ("result", at_field ua_result (fun x a => mkUpdates (ua_ok a) (ua_description a) x) d_raw)].

(** Decoding into [any] fails on a number no float64 can hold. *)
Fixpoint any_ok (v : jv) : bool :=
  match v with
  | VNum lit => match ParseFloat_lit lit with Some _ => true | None => false end
  | VArr l => forallb (fun e => any_ok e.2) l
  | VObj l => forallb (fun m => any_ok m.2.2) l
  | _ => true
  end.
(** The entries of a result: an array's elements, one non-empty object, or none. *)
Definition update_entries (result : string) : Res Err (list string) :=
  if absent_raw result then Ok []
  else
    match Unmarshal (d_slice "" d_raw) result nil_slice with
    | (entries, true) => Ok (slice_list entries)
    | (_, false) =>
        match parse_json result with
        | Some (VObj l) =>
            if any_ok (VObj l) then Ok (match l with [] => [] | _ => [result] end)
            else Fail (E CodeTransient "unexpected getUpdates result shape" None)
        | _ => Fail (E CodeTransient "unexpected getUpdates result shape" None)
        end
    end.

(** One entry: the event, or [None] when it is quarantined, and its update id. *)
Definition update_type (u : update) : string :=
  if String.eqb (up_name u) "" then inferEventType (up_message u) else known_event (up_name u).
Definition with_update (id : Z) (ev : InboundEvent) : InboundEvent :=
  mkEvent (ev_provider ev) (ev_user ev) (ev_chat ev) (ev_message ev) (ev_type ev) (ev_text ev) (ev_media ev)
    (ev_received_at ev) (ev_hash ev) (ev_raw ev) id.
Definition read_entry (now : Time) (raw : string) : option InboundEvent * Z :=
  match Unmarshal d_update raw (mkUpdate 0 "" "") with
  | (_, false) => (None, (Unmarshal d_probe raw 0).1)
  | (u, true) =>
      (match buildEvent (update_type u) (up_message u) raw now with
       | Ok ev => Some (with_update (up_id u) ev)
       | Fail _ => None
       end, up_id u)
  end.
(** [advance]: int64 arithmetic. *)
Definition advance (next updateID : Z) : Z :=
  if (0 <? updateID) && (next <=? updateID) then wrap64 (updateID + 1) else next.
Fixpoint read_entries (t : nat) (next : Z) (entries : list string) : list InboundEvent * Z :=
  match entries with
  | [] => ([], next)
  | raw :: rest =>
      let r := read_entry (wall_now t) raw in
      let out := read_entries (S t) (advance next r.2) rest in
      (match r.1 with Some ev => ev :: out.1 | None => out.1 end, out.2)
  end.

Context (c : Client).
Definition updates_url (offset : Z) : string := method_url c "getUpdates" ++ "?offset=" ++ Sprintd offset ++ "&timeout=25".
(** [GetUpdates]: the events and the next offset; on an error the offset is the
    caller's. *)
Definition GetUpdates (t : nat) (offset : Z) : Res Err (list InboundEvent * Z) :=
  if String.eqb (c_token c) "" then Fail no_token
  else
    match post c t "getUpdates" (updates_url offset) None (8 * 2 ^ 20) with
    | Fail e => Fail e
    | Ok answer =>
        match Unmarshal d_updates answer (mkUpdates false "" "") with
        | (_, false) => Fail (undecodable "getUpdates" answer)
        | (raw, true) =>
            if negb (ua_ok raw) then
              if Contains (ToLower (ua_description raw)) "timeout" then Ok ([], offset)
              else Fail (validation ("getUpdates rejected: " ++ redact c (ua_description raw)))
            else
              match update_entries (ua_result raw) with
              | Fail e => Fail e
              | Ok entries => Ok (read_entries (S t) offset entries)
              end
        end
    end.
End events.

(** ** What a decoded event carries *)
Section events_theorems.
Context `{Env} `{Network}.

Lemma first_some_elem {A B} (f : A -> option B) l b : first_some f l = Some b -> exists x, x ∈ l /\ f x = Some b.
Proof.
  induction l as [|x l IH]; simpl; [done|]. destruct (f x) eqn:Hx.
  - intros [= ->]. exists x. split; [apply list_elem_of_here|done].
  - intros (y & Hy & Hf)%IH. exists y. split; [by apply list_elem_of_further|done].
Qed.
Lemma parseMedia_url raw m : parseMedia raw = Some m -> md_url m <> "".
Proof.
  unfold parseMedia. destruct (absent_raw raw); [done|]. destruct (Unmarshal d_media raw zero_media) as [m' [|]].
  - cbv zeta. destruct (String.eqb_spec (if (md_url m' =? "")%string then md_file_url m' else md_url m') ""); [done|]. by intros [= <-].
  - destruct (Unmarshal d_string raw "") as [s [|]]; [|done]. destruct (String.eqb_spec s ""); [done|]. by intros [= <-].
Qed.
Lemma media_of_shape eventType msg : media_of eventType msg = [] \/
  exists ref, media_of eventType msg = [ref] /\ eventType = EventImageReceived /\ mr_provider ref = ProviderZaloBot /\ mr_url ref <> "".
Proof.
  unfold media_of. destruct (String.eqb_spec eventType EventImageReceived) as [->|]; [|by left].
  destruct (firstMedia msg) as [md|] eqn:Hf; [right|by left]. eexists. split; [done|]. split_and!; [done|done|].
  unfold firstMedia in Hf. apply first_some_elem in Hf as (raw & _ & Hraw). by apply parseMedia_url in Hraw.
Qed.

(** The promise of [buildEvent] to the bot: identifiers, provenance, media. *)
Definition event_complete (payload : string) (ev : InboundEvent) : Prop :=
  ev_message ev <> "" /\ ev_user ev <> "" /\ ev_chat ev <> "" /\ ev_provider ev = ProviderZaloBot /\
  ev_raw ev = payload /\ ev_hash ev = sha256_hex payload /\
  (ev_media ev = [] \/ exists ref, ev_media ev = [ref] /\ ev_type ev = EventImageReceived /\ mr_url ref <> "").

Lemma buildEvent_complete eventType msgRaw payload now ev :
  buildEvent eventType msgRaw payload now = Ok ev -> event_complete payload ev /\ ev_type ev = eventType /\ ev_update ev = 0.
Proof.
  unfold buildEvent. destruct (decode_message msgRaw) as [msg [|]]; [|done]. cbv zeta.
  set (e := event_of eventType msg payload now).
  destruct (String.eqb_spec (ev_message e) ""); [done|]. destruct (String.eqb_spec (ev_user e) ""); [done|].
  destruct (String.eqb_spec (ev_chat e) ""); [done|]. intros [= <-]. split; [|done]. unfold event_complete.
  split_and!; try done. simpl. destruct (media_of_shape eventType msg) as [->|(ref & -> & Ht & _ & Hu)]; eauto.
Qed.
Lemma known_event_cases name : known_event name = EventTextReceived \/ known_event name = EventImageReceived \/ known_event name = EventUnsupported.
Proof.
  unfold known_event. destruct (String.eqb_spec name EventTextReceived) as [->|]; [auto|].
  destruct (String.eqb_spec name EventImageReceived) as [->|]; auto.
Qed.

(** Inversion of a decoded webhook. *)
Lemma ParseWebhook_Ok now body evs : ParseWebhook now body = Ok evs ->
  exists name msgRaw ev, evs = [ev] /\ buildEvent (known_event name) msgRaw body now = Ok ev /\
    forall now', ParseWebhook now' body = (match buildEvent (known_event name) msgRaw body now' with Ok ev => Ok [ev] | Fail e => Fail e end).
Proof.
  unfold ParseWebhook. destruct (Unmarshal d_providerEnvelope body _) as [outer [|]]; [|done].
  case_bool_decide; [done|]. destruct (unwrap outer) as [env [|]]; [|done].
  destruct (String.eqb (TrimSpace (en_name env)) ""); [done|].
  destruct (buildEvent _ _ _ _) as [ev|e] eqn:Hb; [|done]. intros [= <-]. by exists (en_name env), (en_message env), ev.
Qed.
Lemma buildEvent_media eventType msgRaw payload now now' ev : buildEvent eventType msgRaw payload now = Ok ev ->
  exists ev', buildEvent eventType msgRaw payload now' = Ok ev' /\ ev_media ev' = ev_media ev.
Proof.
  unfold buildEvent. destruct (decode_message msgRaw) as [msg [|]]; [|done]. cbn [event_of ev_message ev_user ev_chat].
  repeat (case_match; [done|]). intros [= <-]. by eexists.
Qed.

(** A webhook yields one event that carries everything the bot keys on, is of a
    known type, keeps the body it came from, and whose media the receipt worker
    finds again when it decodes the stored body later. *)
Theorem webhook_event_complete now body evs : ParseWebhook now body = Ok evs ->
  exists ev, evs = [ev] /\ event_complete body ev /\
    (ev_type ev = EventTextReceived \/ ev_type ev = EventImageReceived \/ ev_type ev = EventUnsupported) /\
    forall later, exists ev', ParseWebhook later (ev_raw ev) = Ok [ev'] /\ ev_media ev' = ev_media ev.
Proof.
  intros (name & msgRaw & ev & -> & Hb & Hagain)%ParseWebhook_Ok. exists ev. split; [done|].
  destruct (buildEvent_complete _ _ _ _ _ Hb) as (Hc & Ht & _). split_and!; [done|rewrite Ht; apply known_event_cases|].
  intros later. destruct (buildEvent_media _ _ _ _ later _ Hb) as (ev' & Hb' & Hm). exists ev'.
  destruct Hc as (_ & _ & _ & _ & -> & _). by rewrite Hagain, Hb'.
Qed.

(** ** Batches of updates *)
Lemma post_Ok c t method url body limit answer : post c t method url body limit = Ok answer ->
  exists resp, http_Do t (mkRequest url body) = Ok resp /\ ReadAllLimit limit (rs_body resp) = Ok answer /\ is_2xx (rs_status resp) = true.
Proof.
  unfold post. destruct (url_Parse url); [|done]. destruct (http_Do _ _) as [resp|]; [|done].
  destruct (ReadAllLimit _ _) as [a|] eqn:Hr; [|done]. destruct (is_2xx _) eqn:H2; [|done]. intros [= ->]. by exists resp.
Qed.
Lemma advance_exact next id : id < MaxInt64 -> advance next id = if 0 <? id then Z.max next (id + 1) else next.
Proof.
  intros Hid. unfold advance. destruct (Z.ltb_spec 0 id); [|done]. destruct (Z.leb_spec next id); simpl; [|lia].
  rewrite wrap64_id; [lia|]. unfold int64_range, MinInt64, MaxInt64 in *. lia.
Qed.
(** The events of a batch in order, and the ids its entries carry. *)
Fixpoint batch (t : nat) (entries : list string) : list (option InboundEvent * Z) :=
  match entries with [] => [] | raw :: rest => read_entry (wall_now t) raw :: batch (S t) rest end.

Lemma read_entries_events t next entries : (read_entries t next entries).1 = omap fst (batch t entries).
Proof.
  revert t next. induction entries as [|raw rest IH]; intros t next; simpl; [done|]. rewrite IH.
  by destruct (read_entry (wall_now t) raw) as [[ev|] id].
Qed.
Lemma read_entries_next t next entries : Forall (fun r => r.2 < MaxInt64) (batch t entries) ->
  let next' := (read_entries t next entries).2 in
  next <= next' /\ Forall (fun r => r.2 < next' \/ r.2 <= 0) (batch t entries) /\
  (next' = next \/ Exists (fun r => 0 < r.2 /\ next' = r.2 + 1) (batch t entries)).
Proof.
  revert t next. induction entries as [|raw rest IH]; intros t next Hall; simpl in *; [split_and!; [lia|done|auto]|].
  apply Forall_cons in Hall as [Hid Hall]. specialize (IH (S t) (advance next (read_entry (wall_now t) raw).2) Hall) as (H1 & H2 & H3).
  set (out := read_entries _ _ rest) in *. rewrite advance_exact in H1, H3 by done.
  destruct (Z.ltb_spec 0 (read_entry (wall_now t) raw).2).
  - split_and!; [lia|constructor; [left; lia|done]|]. destruct H3 as [H3|H3]; [|right; by apply Exists_cons_tl].
    destruct (Z.max_spec next ((read_entry (wall_now t) raw).2 + 1)) as [[? He]|[? He]]; rewrite He in H3; [|by left].
    right. by apply Exists_cons_hd.
  - split_and!; [lia|constructor; [by right|done]|]. destruct H3 as [H3|H3]; [by left|right; by apply Exists_cons_tl].
Qed.

Lemma batch_complete t entries : Forall (fun ev => exists raw, raw ∈ entries /\ event_complete raw ev) (omap fst (batch t entries)).
Proof.
  revert t. induction entries as [|raw rest IH]; intros t; simpl; [done|].
  assert (Hrest : Forall (fun ev => exists raw', raw' ∈ raw :: rest /\ event_complete raw' ev) (omap fst (batch (S t) rest))).
  { eapply Forall_impl; [apply IH|]. intros ev (raw' & Hin & Hc). exists raw'. split; [by apply list_elem_of_further|done]. }
  destruct (read_entry (wall_now t) raw) as [[ev|] id] eqn:Hr; simpl; [|done]. constructor; [|done].
  exists raw. split; [apply list_elem_of_here|]. unfold read_entry in Hr.
  destruct (Unmarshal d_update raw _) as [u [|]]; [|done]. destruct (buildEvent _ _ _ _) as [ev'|] eqn:Hb; simplify_eq.
  by apply buildEvent_complete in Hb as [Hc _].
Qed.

(** An entry's update id, and the entries a batch leaves out: those that do not
    decode, and those whose message is not complete. *)
Definition update_id (raw : string) : Z := (read_entry 0 raw).2.
Definition quarantined (raw : string) : Prop :=
  match Unmarshal d_update raw (mkUpdate 0 "" "") with
  | (_, false) => True
  | (u, true) => exists e, buildEvent (update_type u) (up_message u) raw 0 = Fail e
  end.

Lemma buildEvent_now ty msg raw t1 t2 : is_ok (buildEvent ty msg raw t1) = is_ok (buildEvent ty msg raw t2).
Proof. unfold buildEvent. destruct (decode_message msg) as [m [|]]; [|done]. cbv zeta. unfold event_of. cbn. by repeat case_match. Qed.
Lemma read_entry_cases now raw : (read_entry now raw).2 = update_id raw /\
  match (read_entry now raw).1 with
  | Some ev => ev_raw ev = raw /\ ev_update ev = update_id raw
  | None => quarantined raw
  end.
Proof.
  unfold read_entry, update_id, quarantined, read_entry. destruct (Unmarshal d_update raw _) as [u [|]]; [|by split]. split; [done|].
  cbn [fst snd]. pose proof (buildEvent_now (update_type u) (up_message u) raw now 0) as Hn.
  destruct (buildEvent _ _ raw now) as [ev|e] eqn:Hb; cbn [is_ok] in Hn.
  - apply buildEvent_complete in Hb as [(_ & _ & _ & _ & Hraw & _) _]. by destruct (buildEvent _ _ raw 0).
  - destruct (buildEvent _ _ raw 0); [done|eauto].
Qed.
Lemma batch_ids t entries : (batch t entries).*2 = update_id <$> entries.
Proof. revert t. induction entries as [|raw rest IH]; intros t; [done|]. cbn. f_equal; [by apply read_entry_cases|apply IH]. Qed.
(** Every entry is an event of the batch or quarantined; every event is an entry. *)
Lemma batch_covers t entries raw : raw ∈ entries ->
  quarantined raw \/ exists ev, ev ∈ omap fst (batch t entries) /\ ev_raw ev = raw /\ ev_update ev = update_id raw.
Proof.
  revert t. induction entries as [|raw' rest IH]; intros t; [by intros ?%elem_of_nil|]. cbn [batch omap list_omap].
  pose proof (read_entry_cases (wall_now t) raw') as [_ Hc]. destruct (read_entry (wall_now t) raw') as [[ev|] id]; cbn [fst] in *;
    intros [->|Hin]%elem_of_cons; try (by left); try (by apply IH).
  - right. exists ev. split; [apply list_elem_of_here|done].
  - destruct (IH (S t) Hin) as [?|(e & He & Hr)]; [by left|]. right. exists e. split; [by apply list_elem_of_further|done].
Qed.
Lemma batch_events t entries ev : ev ∈ omap fst (batch t entries) -> ev_raw ev ∈ entries /\ ev_update ev = update_id (ev_raw ev).
Proof.
  revert t. induction entries as [|raw rest IH]; intros t; [by intros ?%elem_of_nil|]. cbn [batch omap list_omap].
  pose proof (read_entry_cases (wall_now t) raw) as [_ Hc]. destruct (read_entry (wall_now t) raw) as [[e|] id]; cbn [fst] in *.
  - intros [->|Hin]%elem_of_cons; [destruct Hc as [-> ->]; split; [apply list_elem_of_here|done]|].
    destruct (IH _ Hin). split; [by apply list_elem_of_further|done].
  - intros Hin. destruct (IH _ Hin). split; [by apply list_elem_of_further|done].
Qed.
Lemma batch_sorted t entries : StronglySorted Z.lt (update_id <$> entries) ->
  StronglySorted (fun a b => ev_update a < ev_update b) (omap fst (batch t entries)).
Proof.
  revert t. induction entries as [|raw rest IH]; intros t Hs; [constructor|]. apply StronglySorted_inv in Hs as [Hs Hhd]. cbn [batch omap list_omap].
  pose proof (read_entry_cases (wall_now t) raw) as [_ Hc]. destruct (read_entry (wall_now t) raw) as [[e|] id]; cbn [fst] in *; [|by apply IH].
  constructor; [by apply IH|]. apply Forall_forall. intros x Hx. apply batch_events in Hx as [Hx ->]. destruct Hc as [_ ->].
  rewrite Forall_forall in Hhd. apply Hhd. by apply list_elem_of_fmap_2.
Qed.

(** The entries of an answer: none when the long poll expired. *)
Definition entries_of (answer : string) (entries : list string) : Prop := exists raw, Unmarshal d_updates answer (mkUpdates false "" "") = (raw, true) /\
  if ua_ok raw then update_entries (ua_result raw) = Ok entries else Contains (ToLower (ua_description raw)) "timeout" = true /\ entries = [].

(** A poll accounts for its batch: every entry of the answer becomes a complete
    event, in order, or is quarantined; the next offset is one past the largest
    update id of the batch, quarantined entries included, and never goes back. *)
Theorem updates_accounted c t offset evs next : GetUpdates c t offset = Ok (evs, next) ->
  exists answer entries, post c t "getUpdates" (updates_url c offset) None (8 * 2 ^ 20) = Ok answer /\ entries_of answer entries /\
    evs = omap fst (batch (S t) entries) /\
    Forall (fun ev => exists raw, raw ∈ entries /\ event_complete raw ev) evs /\
    (Forall (fun r => r.2 < MaxInt64) (batch (S t) entries) ->
     offset <= next /\ Forall (fun r => r.2 < next \/ r.2 <= 0) (batch (S t) entries) /\
     (next = offset \/ Exists (fun r => 0 < r.2 /\ next = r.2 + 1) (batch (S t) entries))).
Proof.
  unfold GetUpdates. destruct (String.eqb (c_token c) ""); [done|]. destruct (post _ _ _ _ _ _) as [answer|]; [|done].
  destruct (Unmarshal d_updates answer _) as [raw [|]] eqn:Hu; [|done]. destruct (ua_ok raw) eqn:Hok; simpl.
  - destruct (update_entries (ua_result raw)) as [entries|] eqn:Hent; [|done]. intros [= Heq]. exists answer, entries.
    pose proof (read_entries_events (S t) offset entries) as He. pose proof (read_entries_next (S t) offset entries) as Hn.
    rewrite Heq in He, Hn. simpl in He, Hn. subst evs. split_and!; [done|exists raw; by rewrite Hok|done|apply batch_complete|done].
  - destruct (Contains _ _) eqn:Hc; [|done]. intros [= <- <-]. exists answer, []. split_and!; [done|exists raw; by rewrite Hok|done|done|].
    intros _. split_and!; [lia|done|by left].
Qed.
End events_theorems.

(** ** Webhooks as the platform documents them *)
Section webhook_roundtrip.
Context `{Env} `{Network}.

Lemma ParseInt_Sprintd n : int64_range n -> ParseInt (Sprintd n) = Some n.
Proof. intros [Hlo Hhi]. rewrite ParseInt_text. by rewrite (proj2 (Z.leb_le _ _) Hlo), (proj2 (Z.leb_le _ _) Hhi). Qed.

Definition party_json (id : string) : json := JObj [("id", JStr id)].
Definition message_json (id user chat : string) (date : Z) (txt : string) (photo : option string) : json :=
  JObj ([("message_id", JStr id); ("from", party_json user); ("chat", party_json chat); ("date", JNum date); ("text", JStr txt)] ++
        match photo with Some url => [("photo", JStr url)] | None => [] end).
Definition event_name (photo : option string) : string := match photo with Some _ => EventImageReceived | None => EventTextReceived end.
(** The current shape, {ok, result: {event_name, message}}, and the legacy one. *)
Definition webhook_json (legacy : bool) (name : string) (msg : json) : json :=
  let inner := [("event_name", JStr name); ("message", msg)] in
  if legacy then JObj inner else JObj [("ok", JBool true); ("result", JObj inner)].

Lemma parse_text j : json_clean j = true -> (json_depth j <=? maxNestingDepth) = true -> parse_json (json_text_of None j) = Some (json_view j).
Proof. intros Hc Hd%Z.leb_le. by apply marshal_roundtrip. Qed.
Lemma Unmarshal_text {T} (d : Decoder T) j old : json_clean j = true -> (json_depth j <=? maxNestingDepth) = true ->
  Unmarshal d (json_text_of None j) old = d (json_text_of None j, json_view j) old.
Proof. intros Hc Hd. unfold Unmarshal. by rewrite parse_text. Qed.
Lemma text_present j : (exists fs, j = JObj fs) \/ (exists s, j = JStr s) -> absent_raw (json_text_of None j) = false.
Proof.
  assert (Hq : forall s, absent_raw (String (of_byte 34) s) = false) by done.
  intros [[fs ->]|[s ->]]; [destruct fs; done|apply Hq].
Qed.
Lemma idString_text s : valid_utf8 s = true -> idString (json_text_of None (JStr s)) = s.
Proof.
  intros Hs. unfold idString. pose proof (text_nonempty (JStr s)) as Hne. apply String.eqb_neq in Hne. rewrite Hne.
  by rewrite parse_text.
Qed.
Lemma party_reads id : valid_utf8 id = true ->
  d_ptr (mkParty "" "") d_party (json_text_of None (party_json id), json_view (party_json id)) None =
  (Some (mkParty (json_text_of None (JStr id)) ""), true).
Proof. done. Qed.
Lemma photo_reads url m : valid_utf8 url = true -> url <> "" -> zm_photo_url m = "" -> zm_photo m = json_text_of None (JStr url) ->
  firstMedia m = Some (mkZMedia url "" "" "").
Proof.
  intros Hu Hne H1 H2. unfold firstMedia. rewrite H1, H2. change (mediaItems "") with (@nil string). cbn [app].
  assert (Hp : absent_raw (json_text_of None (JStr url)) = false) by (apply text_present; eauto).
  unfold mediaItems at 1. rewrite Hp, Unmarshal_text by done. cbn [json_view d_slice snd app first_some].
  unfold parseMedia. rewrite Hp, !Unmarshal_text by done. cbn [json_view d_media d_struct d_string snd].
  apply String.eqb_neq in Hne. by rewrite Hne.
Qed.

Definition decoded (id user chat : string) (date : Z) (txt : string) (photo : option string) : zaloMessage :=
  mkZM (json_text_of None (JStr id)) (Some (mkParty (json_text_of None (JStr user)) "")) (Some (mkParty (json_text_of None (JStr chat)) ""))
    date txt "" (match photo with Some url => json_text_of None (JStr url) | None => "" end) "" "" "" "".
Definition sent_ok (id user chat : string) (date : Z) (txt : string) (photo : option string) : Prop :=
  (forall s, s ∈ [id; user; chat; txt; default "" photo] -> valid_utf8 s = true) /\
  id <> "" /\ user <> "" /\ chat <> "" /\ photo <> Some "" /\ int64_range date.

Lemma message_clean id user chat date txt photo : sent_ok id user chat date txt photo ->
  json_clean (message_json id user chat date txt photo) = true /\ (json_depth (message_json id user chat date txt photo) <=? 10) = true.
Proof.
  intros (Hv & _). assert (valid_utf8 id = true /\ valid_utf8 user = true /\ valid_utf8 chat = true /\ valid_utf8 txt = true /\ valid_utf8 (default "" photo) = true)
    as (H1 & H2 & H3 & H4 & H5) by (split_and!; apply Hv; set_solver).
  destruct photo as [url|]; simpl in *; by rewrite ?H1, ?H2, ?H3, ?H4, ?H5.
Qed.
Lemma message_reads id user chat date txt photo : sent_ok id user chat date txt photo ->
  decode_message (json_text_of None (message_json id user chat date txt photo)) = (decoded id user chat date txt photo, true).
Proof.
  intros Hok. destruct (message_clean _ _ _ _ _ _ Hok) as [Hc Hd]. destruct Hok as (_ & _ & _ & _ & _ & Hdate%ParseInt_Sprintd).
  unfold decode_message. pose proof (text_nonempty (message_json id user chat date txt photo)) as Hne. apply String.eqb_neq in Hne. rewrite Hne.
  rewrite Unmarshal_text; [|done|apply Z.leb_le in Hd; apply Z.leb_le; unfold maxNestingDepth; lia].
  destruct photo as [url|]; lazy -[json_text_of ParseInt Sprintd]; rewrite Hdate; reflexivity.
Qed.

Definition received (id user chat : string) (date : Z) (txt : string) (photo : option string) (body : string) (now : Time) : InboundEvent :=
  mkEvent ProviderZaloBot user chat id (event_name photo) txt
    (match photo with Some url => [mkMedia ProviderZaloBot url "" ""] | None => [] end)
    (if 0 <? date then providerTime date else now) (sha256_hex body) body 0.
Lemma build_received id user chat date txt photo body now : sent_ok id user chat date txt photo ->
  buildEvent (event_name photo) (json_text_of None (message_json id user chat date txt photo)) body now =
  Ok (received id user chat date txt photo body now).
Proof.
  intros Hok. unfold buildEvent. rewrite message_reads by done. destruct Hok as (Hv & Hid & Huser & Hchat & Hphoto & _).
  assert (He : event_of (event_name photo) (decoded id user chat date txt photo) body now = received id user chat date txt photo body now).
  { unfold event_of, received. cbn [decoded zm_id zm_from zm_chat zm_date zm_text party_id zp_id].
    rewrite !idString_text by (apply Hv; set_solver). f_equal. unfold media_of. destruct photo as [url|]; [|done].
    rewrite (photo_reads url) by (done || (apply Hv; set_solver) || congruence). done. }
  cbv zeta. rewrite He. cbn [received ev_message ev_user ev_chat].
  apply String.eqb_neq in Hid, Huser, Hchat. by rewrite Hid, Huser, Hchat.
Qed.

(** C26: Every webhook in the documented shape, current or legacy, decodes to the
    event it describes: sender, chat, message, text, photo and time. *)
Theorem webhook_decodes legacy id user chat date txt photo now : sent_ok id user chat date txt photo ->
  let body := json_text_of None (webhook_json legacy (event_name photo) (message_json id user chat date txt photo)) in
  ParseWebhook now body = Ok [received id user chat date txt photo body now].
Proof.
  intros Hok body. destruct (message_clean _ _ _ _ _ _ Hok) as [Hc Hd]. apply Z.leb_le in Hd.
  pose proof (fun b => build_received id user chat date txt photo b now Hok) as Hbuild. unfold body, webhook_json. clear body.
  set (msg := message_json id user chat date txt photo) in *. set (name := event_name photo) in *.
  assert (Hname : valid_utf8 name = true /\ known_event name = name /\ String.eqb (TrimSpace name) "" = false)
    by (unfold name; destruct photo; split_and!; by vm_compute).
  destruct Hname as (Hn1 & Hn2 & Hn3). clearbody msg name.
  assert (Hin : json_clean (JObj [("event_name", JStr name); ("message", msg)]) = true) by (simpl; by rewrite Hn1, Hc).
  assert (Hdi : json_depth (JObj [("event_name", JStr name); ("message", msg)]) <= 20) by (simpl; lia).
  destruct legacy; unfold ParseWebhook.
  - rewrite Unmarshal_text; [|done|apply Z.leb_le; unfold maxNestingDepth; lia].
    replace (d_providerEnvelope _ _) with (mkPEnv None "" name (json_text_of None msg), true)
      by (cbn [json_view fmap list_fmap fst snd]; generalize (json_text_of None msg), (json_view msg); intros; reflexivity).
    cbv [unwrap pe_ok pe_result pe_name pe_message]. change (absent_raw "") with true. cbv match. cbn [en_name en_message].
    rewrite bool_decide_false by done. by rewrite Hn3, Hn2, Hbuild.
  - assert (Henv : Unmarshal d_envelope (json_text_of None (JObj [("event_name", JStr name); ("message", msg)])) (mkEnv "" "") =
      (mkEnv name (json_text_of None msg), true)).
    { rewrite Unmarshal_text; [|done|apply Z.leb_le; unfold maxNestingDepth; lia]. cbn [json_view fmap list_fmap fst snd].
      generalize (json_text_of None msg), (json_view msg). intros. reflexivity. }
    assert (Hpres : absent_raw (json_text_of None (JObj [("event_name", JStr name); ("message", msg)])) = false) by (apply text_present; left; by eexists).
    revert Hin Hdi Henv Hpres. generalize (JObj [("event_name", JStr name); ("message", msg)]). intros inner Hin Hdi Henv Hpres.
    rewrite Unmarshal_text; [|cbn [json_clean forallb fst snd]; by rewrite Hin|apply Z.leb_le; cbn [json_depth fmap list_fmap foldr snd]; unfold maxNestingDepth; lia].
    cbn [json_view fmap list_fmap fst snd]. revert Henv Hpres.
    generalize (json_text_of None inner), (json_view inner). intros text_inner view_inner Henv Hpres.
    replace (d_providerEnvelope _ _) with (mkPEnv (Some true) text_inner "" "", true) by reflexivity.
    cbv [unwrap pe_ok pe_result pe_name pe_message]. rewrite Hpres, Henv.
    rewrite bool_decide_false by done. cbn [en_name en_message]. by rewrite Hn3, Hn2, Hbuild.
Qed.
End webhook_roundtrip.
