(* ===== verification/ZaloSafety.v ===== *)
(** * Safety of the Zalo client

    Media is fetched only from the platform's own hosts, over TLS, from addresses
    outside the special ranges the client refuses, within the redirect and size
    limits; an error text carries the bot token only where the client passes on a
    read or decoding error that does; the reported outcome of a send is what
    happened. *)
From Stdlib Require Import Ascii Btauto.
From S2P Require Import Prelude GoStrings Domain GoTime Json Normalise Unmarshal JsonRoundtrip Config Db Fields Objects Zalo Bot ZaloEvents.

(** ** Substrings *)
Section substrings.

Lemma prefix_split s t : HasPrefix s t = true <-> exists b, s = (t ++ b)%string.
Proof.
  unfold HasPrefix. revert s. induction t as [|k t IH]; intros s; [by destruct s; split; eauto|].
  destruct s as [|c s]; simpl; [by split; [|intros [? ?]]|]. destruct (ascii_dec k c) as [->|Hne].
  - rewrite IH. split; intros [b Hb]; exists b; [by rewrite Hb|by injection Hb].
  - split; [done|]. intros [b Hb]. injection Hb. congruence.
Qed.
Lemma Contains_split s t : Contains s t = true <-> exists a b, s = (a ++ t ++ b)%string.
Proof.
  induction s as [|c s IH].
  - cbn [Contains]. rewrite orb_false_r, prefix_split. split; [intros [b Hb]; by exists "", b|].
    intros (a & b & Hab). destruct a; [eauto|done].
  - cbn [Contains]. rewrite orb_true_iff, prefix_split, IH. split.
    + intros [[b Hb]|(a & b & ->)]; [by exists "", b|by exists (String c a), b].
    + intros ([|a0 a] & b & Hab); [left; eauto|]. injection Hab as -> ->. right. eauto.
Qed.
Lemma Contains_part a x b t : Contains (a ++ x ++ b) t = false -> Contains x t = false.
Proof.
  rewrite <- !not_true_iff_false, !Contains_split. intros Hn (a' & b' & ->). apply Hn. exists (a ++ a')%string, (b' ++ b)%string.
  by rewrite <- !str_app_assoc.
Qed.
Lemma take_drop_text n s : (take n s ++ drop n s)%string = s.
Proof. revert s. induction n as [|n IH]; intros [|c s]; try done. exact (f_equal (String c) (IH s)). Qed.
Lemma Contains_take n s t : Contains s t = false -> Contains (take n s) t = false.
Proof. rewrite <- (take_drop_text n s) at 1. intros Hs. by apply (Contains_part "" _ (drop n s)). Qed.
Lemma Contains_drop n s t : Contains s t = false -> Contains (drop n s) t = false.
Proof. rewrite <- (take_drop_text n s) at 1. intros Hs. apply (Contains_part (take n s) _ ""). by rewrite str_app_nil. Qed.
Lemma Contains_TrimSpace s t : Contains s t = false -> Contains (TrimSpace s) t = false.
Proof.
  unfold TrimSpace, trim_set. intros Hs.
  assert (Hl : forall f s, Contains s t = false -> Contains (trim_left_fuel f space_encodings s) t = false).
  { induction f as [|f IH]; intros x Hx; cbn [trim_left_fuel]; [done|]. destruct (prefix_in _ _); [|done]. by apply IH, Contains_drop. }
  assert (Hr : forall f s, Contains s t = false -> Contains (trim_right_fuel f space_encodings s) t = false).
  { induction f as [|f IH]; intros x Hx; cbn [trim_right_fuel]; [done|]. destruct (suffix_in _ _); [|done]. by apply IH, Contains_take. }
  by apply Hr, Hl.
Qed.

(** A byte that [t] does not have separates its occurrences. *)
Lemma prefix_sep b t x y : ContainsByte t b = false -> HasPrefix (x ++ String b y) t = HasPrefix x t.
Proof.
  unfold HasPrefix. revert x. induction t as [|k t IH]; intros x Ht; [by destruct x|].
  simpl in Ht. apply orb_false_iff in Ht as [Hk Ht]. apply Ascii.eqb_neq in Hk. destruct x as [|c x].
  - change ("" ++ String b y)%string with (String b y). simpl. destruct (ascii_dec k b); [congruence|done].
  - rewrite str_app_cons. simpl. destruct (ascii_dec k c); [by apply IH|done].
Qed.
Lemma Contains_sep b t x y : ContainsByte t b = false -> t <> "" -> Contains (x ++ String b y) t = Contains x t || Contains y t.
Proof.
  intros Hb Hne. induction x as [|c x IH].
  - change ("" ++ String b y)%string with (String b y). cbn [Contains]. pose proof (prefix_sep b t "" y Hb) as Hp.
    change ("" ++ String b y)%string with (String b y) in Hp. rewrite Hp. by rewrite orb_false_r.
  - rewrite str_app_cons. cbn [Contains]. rewrite IH. pose proof (prefix_sep b t (String c x) y Hb) as Hp. rewrite str_app_cons in Hp.
    by rewrite Hp, orb_assoc.
Qed.
Lemma suffix_split s t : HasSuffix s t = true -> exists x, s = (x ++ t)%string.
Proof.
  unfold HasSuffix. rewrite andb_true_iff. intros [_ He%String.eqb_eq]. exists (take (String.length s - String.length t) s).
  pose proof (take_drop_text (String.length s - String.length t) s) as Ht. by rewrite He in Ht.
Qed.
Lemma suffix_app x t : HasSuffix (x ++ t) t = true.
Proof.
  unfold HasSuffix. rewrite str_length_app, Nat.add_sub. apply andb_true_iff. split; [apply Nat.leb_le; lia|].
  apply String.eqb_eq. induction x as [|c x IH]; [done|]. exact IH.
Qed.
Lemma suffix_more x y t : HasSuffix y t = true -> HasSuffix (x ++ y) t = true.
Proof. intros (z & ->)%suffix_split. rewrite str_app_assoc. apply suffix_app. Qed.
Lemma ContainsByte_split s b : ContainsByte s b = true <-> exists x y, s = (x ++ String b y)%string.
Proof.
  induction s as [|c s IH]; simpl; [split; [done|intros ([|] & y & Hs); done]|].
  rewrite orb_true_iff, Ascii.eqb_eq, IH. split.
  - intros [-> |(x & y & ->)]; [by exists "", s|by exists (String c x), y].
  - intros ([|x0 x] & y & Hs); injection Hs; [by left|]. right. eauto.
Qed.
Lemma ContainsByte_app x y b : ContainsByte (x ++ y) b = ContainsByte x b || ContainsByte y b.
Proof. induction x as [|c x IH]; [done|]. rewrite str_app_cons. simpl. by rewrite IH, orb_assoc. Qed.
Lemma Contains_byte s t b : ContainsByte t b = true -> ContainsByte s b = false -> Contains s t = false.
Proof.
  intros Ht Hs. apply not_true_is_false. intros (x & y & ->)%Contains_split. rewrite !ContainsByte_app, Ht in Hs.
  by rewrite orb_true_r in Hs.
Qed.

(** ** Replacing a pattern by a bracketed marker *)
Definition marker : string := "[REDACTED]".
Lemma replace_skip n s q m : replace_from n s q m = replace_from O (drop n s) q m.
Proof. revert n. induction s as [|c s IH]; intros [|n]; simpl; try done; apply IH. Qed.
Lemma replace_prefix q u s : ContainsByte u "[" = false -> HasPrefix (ReplaceAll s q marker) u = true -> HasPrefix s u = true.
Proof.
  revert u. induction s as [|c s IH]; intros u Hu; [done|]. destruct u as [|k u]; [done|].
  simpl in Hu. apply orb_false_iff in Hu as [Hk Hu]. apply Ascii.eqb_neq in Hk. unfold ReplaceAll. cbn [replace_from].
  destruct (HasPrefix (String c s) q).
  - unfold marker at 1. unfold HasPrefix. rewrite str_app_cons. simpl. destruct (ascii_dec k "["); congruence.
  - unfold HasPrefix. simpl. destruct (ascii_dec k c); [|done]. by apply IH.
Qed.
Lemma replace_removes q t s : q <> "" -> ContainsByte t "[" = false -> ContainsByte t "]" = false -> ContainsByte t ":" = true ->
  q = t \/ Contains s t = false -> Contains (ReplaceAll s q marker) t = false.
Proof.
  intros Hq H1 H2 H3. assert (Hne : t <> "") by (by intros ->).
  assert (Hgen : forall n s, (String.length s <= n)%nat -> q = t \/ Contains s t = false -> Contains (ReplaceAll s q marker) t = false).
  { clear s. induction n as [|n IH]; intros s Hn Hc; (destruct s as [|c s]; [by destruct t|]); simpl in Hn; [lia|].
    assert (Hs : forall k, q = t \/ Contains (drop k s) t = false).
    { intros k. destruct Hc as [|Hc]; [by left|right]. apply Contains_drop. cbn [Contains] in Hc. by apply orb_false_iff in Hc as [_ ?]. }
    unfold ReplaceAll. cbn [replace_from]. destruct (HasPrefix (String c s) q) eqn:Hp.
    - rewrite replace_skip. change marker with ("[REDACTED" ++ "]")%string at 1. rewrite <- str_app_assoc.
      change ("]" ++ ?x)%string with (String "]" x). rewrite Contains_sep by done.
      rewrite (Contains_byte "[REDACTED" t ":") by done. apply IH; [|apply Hs]. rewrite drop_len. lia.
    - change (String c (replace_from 0 s q marker)) with (String c (ReplaceAll s q marker)). cbn [Contains].
      rewrite IH; [|lia|apply (Hs O)]. rewrite orb_false_r. apply not_true_is_false. intros Hx.
      assert (Hpt : HasPrefix (String c s) t = true).
      { apply (replace_prefix q); [done|]. unfold ReplaceAll. cbn [replace_from]. rewrite Hp. exact Hx. }
      destruct Hc as [->|Hc]; [congruence|]. cbn [Contains] in Hc. by rewrite Hpt in Hc. }
  by apply (Hgen (String.length s)).
Qed.
End substrings.

(** An error's text gives a secret away. *)
Definition reveals (e : Err) (secret : string) : bool := Contains (error_string e) secret.

Create HintDb clean discriminated.

(** ** The token stays out of error texts *)
Section token.
Context `{Env} `{Network} (c : Client).

(** A bot token: an id, a colon and a key; no space, no brackets. *)
Definition token_shape (t : string) : Prop :=
  ContainsByte t " " = false /\ ContainsByte t "[" = false /\ ContainsByte t "]" = false /\
  exists x k y, t = (x ++ ":" ++ String k y)%string.
Context (Htok : token_shape (c_token c)).
Abbreviation clean := (fun s => Contains s (c_token c) = false).

Lemma token_nonempty : c_token c <> "".
Proof. destruct Htok as (_ & _ & _ & x & k & y & ->). by destruct x. Qed.
Lemma token_colon : ContainsByte (c_token c) ":" = true.
Proof. destruct Htok as (_ & _ & _ & x & k & y & ->). apply ContainsByte_split. by exists x, (String k y). Qed.

(** In the program's own words a colon is followed by a space or nothing. *)
Fixpoint quiet (s : string) : bool :=
  match s with
  | "" => true
  | String k s' => (if Ascii.eqb k ":" then match s' with "" => true | String k' _ => Ascii.eqb k' " " end else true) && quiet s'
  end.
Lemma quiet_suffix x y : quiet (x ++ y) = true -> quiet y = true.
Proof. induction x as [|k x IH]; [done|]. rewrite str_app_cons. simpl. rewrite andb_true_iff. intros [_ ?]. auto. Qed.
Lemma quiet_clean s : quiet s = true -> clean s.
Proof.
  intros Hq. apply not_true_is_false. intros (a & b & ->)%Contains_split.
  destruct Htok as (Hsp & _ & _ & x & k & y & Ht). rewrite Ht in *. apply quiet_suffix in Hq. rewrite <- str_app_assoc in Hq.
  apply quiet_suffix in Hq. change (":" ++ ?z)%string with (String ":" z) in Hq. rewrite !str_app_cons in Hq.
  change ("" ++ ?z)%string with z in Hq. cbn [quiet] in Hq. change (Ascii.eqb ":" ":") with true in Hq. cbv match in Hq.
  apply andb_true_iff in Hq as [Hk _]. apply Ascii.eqb_eq in Hk as ->.
  rewrite ContainsByte_app in Hsp. apply orb_false_iff in Hsp as [_ Hsp]. done.
Qed.
(** Words ending in a space, then anything clean. *)
Lemma clean_after w s : quiet w = true -> HasSuffix w " " = true -> clean s -> clean (w ++ s)%string.
Proof.
  intros Hq (x & ->)%suffix_split Hs. rewrite <- str_app_assoc. change (" " ++ s)%string with (String " " s).
  destruct Htok as (Hsp & _). rewrite Contains_sep by (done || apply token_nonempty). rewrite Hs, orb_false_r. apply quiet_clean.
  revert Hq. clear. induction x as [|k x IH]; [done|]. rewrite str_app_cons. simpl. rewrite !andb_true_iff. intros [H1 H2]. split; [|auto].
  destruct (Ascii.eqb k ":"); [|done]. by destruct x.
Qed.
Lemma quiet_app w s : ContainsByte w ":" = false -> quiet (w ++ s) = quiet s.
Proof.
  induction w as [|k w IH]; [done|]. rewrite str_app_cons. simpl. rewrite orb_false_iff. intros [Hk Hw]. rewrite Hk. by apply IH.
Qed.
Lemma digits_no_colon n : ContainsByte (Sprintd n) ":" = false.
Proof.
  assert (Hd : forall s, forall_bytes is_digit s = true -> ContainsByte s ":" = false).
  { induction s as [|k s IH]; [done|]. simpl. rewrite andb_true_iff, orb_false_iff. intros [Hk%digit_bytes Hs]. split; [|auto].
    apply Ascii.eqb_neq. intros ->. change (byte_of ":") with 58 in Hk. lia. }
  destruct (Z.ltb_spec n 0) as [Hn|Hn]; [|by apply Hd, Sprintd_spec].
  assert (Hs : Sprintd n = String (of_byte 45) (Sprintd (- n))).
  { unfold Sprintd. rewrite (proj2 (Z.ltb_lt n 0)), (proj2 (Z.ltb_ge (- n) 0)) by lia. done. }
  rewrite Hs. cbn [ContainsByte]. rewrite (Hd (Sprintd (- n))) by (apply Sprintd_spec; lia). done.
Qed.

Lemma escape_nonempty f s : (forall k, f k <> "") -> s <> "" -> escape_bytes f s <> "".
Proof. destruct s as [|k s]; [done|]. intros Hf _. simpl. specialize (Hf k). by destruct (f k). Qed.
Lemma redact_clean s : clean (redact c s).
Proof.
  pose proof token_nonempty as Hne. pose proof token_colon as Hc. destruct Htok as (_ & H1 & H2 & _). unfold redact.
  destruct (String.eqb_spec (c_token c) ""); [done|]. fold marker.
  assert (Hp : PathEscape (c_token c) <> "") by (apply escape_nonempty; [intros k; by case_match|done]).
  assert (Hq : QueryEscape (c_token c) <> "") by (apply escape_nonempty; [intros k; repeat case_match; done|done]).
  apply replace_removes; [done..|]. right. apply replace_removes; [done..|]. right. apply replace_removes; try done. by left.
Qed.
Lemma clean_code code s : clean s -> clean (code_string code ++ ": " ++ s).
Proof. rewrite str_app_assoc. by apply clean_after; destruct code. Qed.

Hint Resolve redact_clean quiet_clean clean_after Contains_TrimSpace Contains_take clean_code : clean.

Lemma classify_clean status body : clean (error_string (classifyStatus c status body)).
Proof.
  unfold classifyStatus. set (sn := if (200 <? _)%nat then _ else _).
  assert (Hsn : clean sn) by (unfold sn; case_match; auto with clean). clearbody sn.
  assert (Hst : forall w, quiet w = true -> HasSuffix w " " = true -> clean (w ++ Sprintd status ++ ": " ++ sn)).
  { intros w Hw1 Hw2. apply clean_after; [done|done|]. rewrite str_app_assoc. apply clean_after; [|by apply suffix_more|done].
    by rewrite quiet_app by apply digits_no_colon. }
  repeat case_match; apply clean_code, Hst; done.
Qed.

(** The two texts the client passes on as they are: the error of a body whose
    reading broke off, and the decoder's complaint about an answer. *)
Definition raw_read_error (t : nat) (e : Err) : Prop :=
  exists method rq resp cause, http_Do t rq = Ok resp /\ rd_err (rs_body resp) = Some cause /\
    e = E CodeTransient ("read " ++ method ++ " response") (Some cause) /\ reveals cause (c_token c) = true.
Definition raw_decode_error (t : nat) (e : Err) : Prop :=
  exists method rq resp answer limit, http_Do t rq = Ok resp /\ ReadAllLimit limit (rs_body resp) = Ok answer /\
    e = undecodable method answer /\ Contains (json_error answer) (c_token c) = true.

Lemma cause_clean code msg e : ContainsByte msg ":" = false -> clean (error_string e) -> clean (error_string (E code msg (Some e))).
Proof.
  intros Hm He. apply (clean_code code (msg ++ ": " ++ error_string e)). rewrite str_app_assoc.
  apply clean_after; [by rewrite quiet_app|by apply suffix_more|done].
Qed.
Lemma plain_clean code msg : clean msg -> clean (error_string (validation msg)) /\ clean (error_string (E code msg None)).
Proof. intros Hm. split; by apply clean_code. Qed.

Lemma post_clean t method url body limit e : ContainsByte method ":" = false -> post c t method url body limit = Fail e ->
  clean (error_string e) \/ raw_read_error t e.
Proof.
  assert (Hno : forall a b, ContainsByte method ":" = false -> ContainsByte a ":" = false -> ContainsByte b ":" = false ->
    ContainsByte (a ++ method ++ b) ":" = false) by (intros a b H1 H2 H3; by rewrite !ContainsByte_app, H1, H2, H3).
  unfold post. intros Hm. destruct (url_Parse url); [|intros [= <-]; left; apply cause_clean; [by apply Hno|apply redact_clean]].
  destruct (http_Do t _) as [resp|err] eqn:Hdo; [|intros [= <-]; left; apply cause_clean; [by apply (Hno "")|apply redact_clean]].
  destruct (ReadAllLimit limit (rs_body resp)) as [answer|err] eqn:Hr.
  - destruct (is_2xx _); [done|]. intros [= <-]. left. apply classify_clean.
  - intros [= <-]. unfold ReadAllLimit in Hr. case_match; [done|]. destruct (rd_err (rs_body resp)) as [cause|] eqn:He; [|done].
    injection Hr as <-. destruct (reveals cause (c_token c)) eqn:Hc.
    + right. by exists method, (mkRequest url body), resp, cause.
    + left. by apply cause_clean; [apply Hno|].
Qed.
Lemma rejected_clean method d : ContainsByte method ":" = false -> clean (error_string (rejected c method d)).
Proof.
  intros Hm. unfold rejected. apply (plain_clean CodeValidation). rewrite str_app_assoc.
  apply clean_after; [by rewrite quiet_app|by apply suffix_more|]. case_match; [by apply quiet_clean|apply redact_clean].
Qed.
Lemma undecodable_clean t method url body limit answer : ContainsByte method ":" = false -> post c t method url body limit = Ok answer ->
  clean (error_string (undecodable method answer)) \/ raw_decode_error t (undecodable method answer).
Proof.
  intros Hm (resp & Hdo & Hr & _)%post_Ok. destruct (Contains (json_error answer) (c_token c)) eqn:Hj.
  - right. by exists method, (mkRequest url body), resp, answer, limit.
  - left. apply cause_clean; [by rewrite !ContainsByte_app, Hm|done].
Qed.
Lemma word_clean msg : quiet msg = true -> clean (error_string (validation msg)).
Proof. intros Hq. by apply (plain_clean CodeValidation), quiet_clean. Qed.
Hint Resolve word_clean : clean.

Lemma methods_clean t chat txt cmds offset e :
  Client_Send c t chat txt = Fail e \/ GetMe c t = Fail e \/ SetMyCommands c t cmds = Fail e \/ GetUpdates c t offset = Fail e ->
  clean (error_string e) \/ raw_read_error t e \/ raw_decode_error t e.
Proof.
  assert (Hne : String.eqb (c_token c) "" = false) by (apply String.eqb_neq, token_nonempty).
  assert (Hpost : forall m url b lim e', ContainsByte m ":" = false -> post c t m url b lim = Fail e' ->
    clean (error_string e') \/ raw_read_error t e' \/ raw_decode_error t e').
  { intros m url b lim e' Hm Hp. apply post_clean in Hp; tauto. }
  assert (Hdec : forall m url b lim a, ContainsByte m ":" = false -> post c t m url b lim = Ok a ->
    clean (error_string (undecodable m a)) \/ raw_read_error t (undecodable m a) \/ raw_decode_error t (undecodable m a)).
  { intros m url b lim a Hm Hp. apply undecodable_clean in Hp; tauto. }
  unfold Client_Send, GetMe, SetMyCommands, GetUpdates. rewrite Hne.
  intros [He|[He|[He|He]]]; repeat (case_match; simplify_eq; try (left; by auto with clean));
    try (eapply Hpost; [|eassumption]; done); try (eapply Hdec; [|eassumption]; done); left; try (by apply rejected_clean);
    try (apply (plain_clean CodeValidation), clean_after; [done|done|apply redact_clean]);
    try (apply (plain_clean CodeTransient); by apply quiet_clean).
  unfold update_entries in *. repeat (case_match; simplify_eq); apply (plain_clean CodeTransient); by apply quiet_clean.
Qed.
End token.

(** C16: For a token of the documented shape (an id, a colon and a key, without
    spaces or brackets), an error of a method of the Bot API client contains the
    token only if it passes on the error of a body whose reading broke off, or the
    decoder's complaint about an answer, and that text itself contained it: these two
    the client does not redact.  Everything else it says is free of the token,
    although the token is part of every URL it requests and may come back in any
    transport error, status answer or description. *)
Theorem token_never_leaks `{Env} `{Network} (c : Client) t chat txt cmds offset e (Htok : token_shape (c_token c)) :
  Client_Send c t chat txt = Fail e \/ GetMe c t = Fail e \/ SetMyCommands c t cmds = Fail e \/ GetUpdates c t offset = Fail e ->
  reveals e (c_token c) = false \/ raw_read_error c t e \/ raw_decode_error c t e.
Proof. by apply methods_clean. Qed.

(** ** Failed sends *)
Section send.
Context `{Env} `{Network} (c : Client).

(** The provider's answer to the message: status and body, read to its end or to
    the limit. *)
Definition answered (t : nat) (chat txt : string) (resp : Response) (answer : string) : Prop :=
  http_Do t (mkRequest (method_url c "sendMessage") (Some (send_json chat txt))) = Ok resp /\
  ReadAllLimit (2 ^ 20) (rs_body resp) = Ok answer.
(** The answer decodes, with this verdict and message id. *)
Definition says (answer : string) (ok : bool) (id : string) : Prop :=
  exists description, Unmarshal d_sent answer (mkSendAnswer false "" "") = (mkSendAnswer ok description id, true).

(** What the provider definitely did: it turned the message down, by a status
    that is neither a success nor retryable, or by an answer with ok=false. *)
Definition turned_down (t : nat) (chat txt : string) : Prop :=
  exists resp answer, answered t chat txt resp answer /\
    (400 <= rs_status resp < 500 /\ rs_status resp <> 429 \/
     200 <= rs_status resp <= 299 /\ exists id, says answer false id).
(** Nothing definite is known: the request failed, its answer broke off, asks for
    a later attempt, has a status that is none of the documented ones, or is a
    success that does not decode. *)
Definition uncertain (t : nat) (chat txt : string) : Prop :=
  (exists err, http_Do t (mkRequest (method_url c "sendMessage") (Some (send_json chat txt))) = Fail err) \/
  (exists resp err, http_Do t (mkRequest (method_url c "sendMessage") (Some (send_json chat txt))) = Ok resp /\
     ReadAllLimit (2 ^ 20) (rs_body resp) = Fail err) \/
  (exists resp answer, answered t chat txt resp answer /\
     (rs_status resp = 429 \/ 500 <= rs_status resp \/ rs_status resp < 200 \/ 300 <= rs_status resp < 400 \/
      200 <= rs_status resp <= 299 /\ forall ok id, ~ says answer ok id)).
(** The message never left: no token, chat or text, a text over the limit, or a
    request that cannot be built. *)
Definition not_attempted (chat txt : string) : Prop :=
  c_token c = "" \/ chat = "" \/ TrimSpace txt = "" \/ (2000 < length (runes txt))%nat \/ url_Parse (method_url c "sendMessage") = None.

Lemma classify_code status body : CodeOf (classifyStatus c status body) = if (status =? 429) || (500 <=? status) then CodeTransient
  else if 400 <=? status then CodeValidation else CodeTransient.
Proof. unfold classifyStatus. repeat case_match; done. Qed.

Lemma is_2xx_spec status : is_2xx status = true <-> 200 <= status <= 299.
Proof. unfold is_2xx. rewrite negb_true_iff, orb_false_iff, !Z.ltb_ge. lia. Qed.

Lemma post_outcome t chat txt :
  match post c t "sendMessage" (method_url c "sendMessage") (Some (send_json chat txt)) (2 ^ 20) with
  | Ok answer => url_Parse (method_url c "sendMessage") <> None /\
                 exists resp, answered t chat txt resp answer /\ 200 <= rs_status resp <= 299
  | Fail e => CodeOf e = CodeTransient /\ url_Parse (method_url c "sendMessage") <> None /\ uncertain t chat txt \/
              CodeOf e = CodeValidation /\ (not_attempted chat txt \/ turned_down t chat txt)
  end.
Proof.
  unfold post. destruct (url_Parse _) eqn:Hurl; [|right; split; [done|left; by do 4 right]].
  destruct (http_Do _ _) as [resp|err] eqn:Hdo; [|left; split_and!; [done..|left; eauto]].
  destruct (ReadAllLimit _ _) as [answer|err] eqn:Hread; [|left; split_and!; [done..|right; left; eauto]].
  assert (Ha : answered t chat txt resp answer) by done.
  destruct (is_2xx (rs_status resp)) eqn:H2; [apply is_2xx_spec in H2; split; eauto|].
  apply not_true_iff_false in H2. rewrite is_2xx_spec in H2. rewrite classify_code.
  destruct ((rs_status resp =? 429) || (500 <=? rs_status resp)) eqn:Hs.
  - left. split_and!; [done..|]. do 2 right. exists resp, answer. split; [done|].
    apply orb_true_iff in Hs as [?%Z.eqb_eq|?%Z.leb_le]; tauto.
  - apply orb_false_iff in Hs as [?%Z.eqb_neq ?%Z.leb_gt]. destruct (Z.leb_spec 400 (rs_status resp)).
    + right. split; [done|]. right. exists resp, answer. split; [done|]. left. lia.
    + left. split_and!; [done..|]. do 2 right. exists resp, answer. split; [done|]. lia.
Qed.

(** C25: The outcome of a send is what happened.  Done means that the provider's
    own answer to this message, with a success status, decodes to ok=true, and the
    reported id is the one in it.  Permanently failed means that the message was not
    attempted or that the provider turned it down.  Transiently failed, which the
    notifier records as ambiguous, means that it was attempted and nothing definite
    is known: no answer, a broken one, status 429, a server error, a status outside
    the documented ones, or a success that does not decode. *)
Theorem send_outcome_honest t chat txt : match Client_Send c t chat txt with
  | Ok id => exists resp answer raw, answered t chat txt resp answer /\ 200 <= rs_status resp <= 299 /\
      says answer true raw /\ id = idString raw
  | Fail e => CodeOf e = CodeTransient /\ ~ not_attempted chat txt /\ uncertain t chat txt \/
              CodeOf e = CodeValidation /\ (not_attempted chat txt \/ turned_down t chat txt)
  end.
Proof.
  unfold Client_Send. destruct (String.eqb_spec (c_token c) ""); [right; split; [done|left; by left]|].
  destruct (String.eqb_spec chat ""); [right; split; [done|left; right; by left]|].
  destruct (String.eqb_spec (TrimSpace txt) ""); [right; split; [done|left; do 2 right; by left]|].
  destruct (Nat.ltb_spec 2000 (length (runes txt))); [right; split; [done|left; do 3 right; by left]|].
  assert (Hatt : url_Parse (method_url c "sendMessage") <> None -> ~ not_attempted chat txt).
  { intros Hu. unfold not_attempted. intros [?|[?|[?|[?|?]]]]; first [done|lia]. }
  pose proof (post_outcome t chat txt) as Hp. destruct (post _ _ _ _ _ _) as [answer|e]; [|naive_solver].
  destruct Hp as (Hu & resp & Ha & Hs).
  destruct (Unmarshal d_sent answer _) as [[ok d id] [|]] eqn:Hu'; simpl.
  - destruct ok; simpl.
    + exists resp, answer, id. split_and!; try done || lia. by exists d.
    + right. split; [done|]. right. exists resp, answer. split; [done|]. right. split; [done|]. by exists id, d.
  - left. split_and!; [done|by apply Hatt|]. do 2 right. exists resp, answer. split; [done|]. do 4 right. split; [done|].
    intros ok' id' (d' & Hd'). congruence.
Qed.
End send.

(** ** Media *)
Section media.
Context `{Env} `{Network} (c : Client).

(** The addresses the client must not reach, as ranges of 32 and of 128 bits:
    the unspecified address, private, loopback, link-local and multicast networks. *)
Definition ipv4 (a b cc d : Z) : Z := ((a * 256 + b) * 256 + cc) * 256 + d.
Definition reserved_ranges : list (Z * Z) :=
  [(ipv4 0 0 0 0, ipv4 0 0 0 0); (ipv4 10 0 0 0, ipv4 10 255 255 255); (ipv4 127 0 0 0, ipv4 127 255 255 255);
   (ipv4 169 254 0 0, ipv4 169 254 255 255); (ipv4 172 16 0 0, ipv4 172 31 255 255);
   (ipv4 192 168 0 0, ipv4 192 168 255 255); (ipv4 224 0 0 0, ipv4 239 255 255 255)].
Definition in_ranges (ranges : list (Z * Z)) (addr : Z) : bool := existsb (fun r => (r.1 <=? addr) && (addr <=? r.2)) ranges.
Definition reserved (addr : Z) : bool := in_ranges reserved_ranges addr.
(** ::, ::1, fc00::/7, fe80::/10 and ff00::/8. *)
Definition reserved_ranges6 : list (Z * Z) :=
  [(0, 0); (1, 1); (252 * 2 ^ 120, 254 * 2 ^ 120 - 1);
   (254 * 2 ^ 120 + 128 * 2 ^ 112, 254 * 2 ^ 120 + 192 * 2 ^ 112 - 1); (255 * 2 ^ 120, 2 ^ 128 - 1)].
(** The number a sequence of bytes writes, most significant byte first. *)
Definition value (bytes : list Z) : Z := fold_left (fun acc b => acc * 256 + b) bytes 0.
(** ::ffff:0:0/96 holds the IPv4 addresses. *)
Definition mapped_base : Z := 65535 * 2 ^ 32.
Definition is_byte_val (b : Z) : Prop := 0 <= b < 256.
Definition address (ip : IP) : Prop := (length ip = 4 \/ length ip = 16)%nat /\ Forall is_byte_val ip.
(** An address of four bytes or of sixteen is reserved. *)
Definition reserved_address (ip : IP) : Prop :=
  length ip = 4%nat /\ reserved (value ip) = true \/
  length ip = 16%nat /\ (in_ranges reserved_ranges6 (value ip) = true \/
    mapped_base <= value ip < mapped_base + 2 ^ 32 /\ reserved (value ip - mapped_base) = true).

Lemma bytes_check (p : Z -> bool) : forallb p (seqZ 0 256) = true -> forall b, is_byte_val b -> p b = true.
Proof. rewrite forallb_forall. intros Hall b Hb. apply Hall. apply list_elem_of_In, elem_of_seqZ. unfold is_byte_val in Hb. lia. Qed.
Lemma mask_multicast b : is_byte_val b -> (Z.land b 240 =? 224) = (224 <=? b) && (b <=? 239).
Proof. intros Hb. apply eqb_prop. revert b Hb. apply (bytes_check (fun b => Bool.eqb (Z.land b 240 =? 224) ((224 <=? b) && (b <=? 239)))). by vm_compute. Qed.
Lemma mask_172 b : is_byte_val b -> (Z.land b 240 =? 16) = (16 <=? b) && (b <=? 31).
Proof. intros Hb. apply eqb_prop. revert b Hb. apply (bytes_check (fun b => Bool.eqb (Z.land b 240 =? 16) ((16 <=? b) && (b <=? 31)))). by vm_compute. Qed.

Lemma range_8 x y a b cc d : is_byte_val b -> is_byte_val cc -> is_byte_val d ->
  (ipv4 x 0 0 0 <=? ipv4 a b cc d) && (ipv4 a b cc d <=? ipv4 y 255 255 255) = (x <=? a) && (a <=? y).
Proof. unfold is_byte_val, ipv4. intros. apply eq_true_iff_eq. rewrite !andb_true_iff, !Z.leb_le. lia. Qed.
Lemma range_16 x lo hi a b cc d : 0 <= lo -> hi < 256 -> is_byte_val b -> is_byte_val cc -> is_byte_val d ->
  (ipv4 x lo 0 0 <=? ipv4 a b cc d) && (ipv4 a b cc d <=? ipv4 x hi 255 255) = (a =? x) && ((lo <=? b) && (b <=? hi)).
Proof. unfold is_byte_val, ipv4. intros. apply eq_true_iff_eq. rewrite !andb_true_iff, !Z.leb_le, Z.eqb_eq. lia. Qed.
Lemma range_zero a b cc d : is_byte_val a -> is_byte_val b -> is_byte_val cc -> is_byte_val d ->
  (ipv4 0 0 0 0 <=? ipv4 a b cc d) && (ipv4 a b cc d <=? ipv4 0 0 0 0) = bool_decide ([a; b; cc; d] = zeros 4).
Proof.
  unfold is_byte_val, ipv4. intros. apply eq_true_iff_eq. rewrite !andb_true_iff, !Z.leb_le, bool_decide_eq_true. split; [|by intros [= -> -> -> ->]].
  intros Hz. assert (a = 0) as -> by lia. assert (b = 0) as -> by lia. assert (cc = 0) as -> by lia. assert (d = 0) as -> by lia. done.
Qed.
Lemma range_one x a : (x <=? a) && (a <=? x) = (a =? x).
Proof. apply eq_true_iff_eq. rewrite andb_true_iff, !Z.leb_le, Z.eqb_eq. lia. Qed.

(** On IPv4 the bit tests are exactly the ranges. *)
Lemma forbidden_v4 a b cc d : is_byte_val a -> is_byte_val b -> is_byte_val cc -> is_byte_val d ->
  forbiddenMediaIP (Some [a; b; cc; d]) = reserved (ipv4 a b cc d).
Proof.
  intros Ha Hb Hc Hd. unfold forbiddenMediaIP, IsLoopback, IsPrivate, IsLinkLocalUnicast, IsLinkLocalMulticast, IsMulticast, IsUnspecified.
  change (To4 [a; b; cc; d]) with (Some [a; b; cc; d]). cbn [at_byte nth].
  rewrite mask_multicast, mask_172 by done. unfold reserved, in_ranges, reserved_ranges. cbn [existsb fst snd].
  rewrite range_zero, !range_8, !range_16, !range_one by (done || lia).
  destruct (Z.eqb_spec a 224) as [->|]; [change (224 =? ?k) with false; simpl; by rewrite ?orb_true_r|]. cbn [andb orb].
  generalize (bool_decide ([a; b; cc; d] = zeros 4)), (a =? 127), (a =? 10), (a =? 172), ((16 <=? b) && (b <=? 31)), (a =? 192), (b =? 168),
    (a =? 169), (b =? 254), ((224 <=? a) && (a <=? 239)). intros. btauto.
Qed.

Lemma fold_value bytes acc : fold_left (fun acc b => acc * 256 + b) bytes acc = acc * 256 ^ Z.of_nat (length bytes) + value bytes.
Proof.
  unfold value. revert acc. induction bytes as [|b bytes IH]; intros acc; simpl fold_left; [simpl; lia|].
  rewrite IH, (IH (0 * 256 + b)). cbn [length]. rewrite Nat2Z.inj_succ, Z.pow_succ_r by lia. lia.
Qed.
Lemma value_app l1 l2 : value (l1 ++ l2)%list = value l1 * 256 ^ Z.of_nat (length l2) + value l2.
Proof. unfold value at 1. rewrite fold_left_app. apply fold_value. Qed.
Lemma value_cons b l : value (b :: l) = b * 256 ^ Z.of_nat (length l) + value l.
Proof. change (b :: l) with ([b] ++ l)%list. rewrite value_app. done. Qed.
Lemma value_bound l : Forall is_byte_val l -> 0 <= value l < 256 ^ Z.of_nat (length l).
Proof.
  induction 1 as [|b l Hb _ IH]; [done|]. rewrite value_cons. cbn [length]. rewrite Nat2Z.inj_succ, Z.pow_succ_r by lia.
  unfold is_byte_val in Hb. nia.
Qed.
Lemma value_inj l1 l2 : length l1 = length l2 -> Forall is_byte_val l1 -> Forall is_byte_val l2 -> value l1 = value l2 -> l1 = l2.
Proof.
  revert l2. induction l1 as [|a l1 IH]; intros [|b l2]; try done. intros [= Hlen] H1 H2. apply Forall_cons in H1 as [Ha H1], H2 as [Hb H2].
  rewrite !value_cons. rewrite Hlen. intros Hv. pose proof (value_bound l1 H1) as B1. pose proof (value_bound l2 H2) as B2. rewrite Hlen in B1.
  assert (a = b) as -> by nia. f_equal. apply IH; [done..|lia].
Qed.
Lemma value_4 ip : length ip = 4%nat -> exists a b cc d, ip = [a; b; cc; d] /\ value ip = ipv4 a b cc d.
Proof. destruct ip as [|a [|b [|cc [|d [|]]]]]; try done. intros _. exists a, b, cc, d. done. Qed.
Lemma forbidden_v4_value ip : length ip = 4%nat -> Forall is_byte_val ip -> forbiddenMediaIP (Some ip) = reserved (value ip).
Proof.
  intros Hl Hb. destruct (value_4 ip Hl) as (a & b & cc & d & -> & ->). rewrite !Forall_cons in Hb.
  destruct Hb as (Ha & Hb & Hc & Hd & _). by apply forbidden_v4.
Qed.

(** An IPv4 address in sixteen bytes, and its number. *)
Definition mapped_prefix : list Z := [0; 0; 0; 0; 0; 0; 0; 0; 0; 0; 255; 255].
Lemma split_16 ip : length ip = 16%nat -> Forall is_byte_val ip ->
  value ip = value (List.firstn 12 ip) * 2 ^ 32 + value (List.skipn 12 ip) /\ length (List.firstn 12 ip) = 12%nat /\
  length (List.skipn 12 ip) = 4%nat /\ Forall is_byte_val (List.firstn 12 ip) /\ Forall is_byte_val (List.skipn 12 ip).
Proof.
  intros Hl Hb. assert (length (List.skipn 12 ip) = 4%nat) as H4 by (rewrite List.length_skipn; lia).
  split_and!; [|rewrite List.length_firstn; lia|done|by apply Forall_take|by apply Forall_drop].
  rewrite <- (List.firstn_skipn 12 ip) at 1. by rewrite value_app, H4.
Qed.
Lemma To4_value ip : length ip = 16%nat -> Forall is_byte_val ip ->
  To4 ip = Some (List.skipn 12 ip) /\ mapped_base <= value ip < mapped_base + 2 ^ 32 /\
    value ip - mapped_base = value (List.skipn 12 ip) \/
  To4 ip = None /\ ~ mapped_base <= value ip < mapped_base + 2 ^ 32.
Proof.
  intros Hl Hb. destruct (split_16 ip Hl Hb) as (Hv & H12 & H4 & Hb12 & Hb4). pose proof (value_bound _ Hb4) as B4. rewrite H4 in B4.
  change (256 ^ Z.of_nat 4) with (2 ^ 32) in B4. unfold To4. rewrite Hl. cbn [Nat.eqb andb]. change [0; 0; 0; 0; 0; 0; 0; 0; 0; 0; 255; 255] with mapped_prefix.
  unfold mapped_base. case_bool_decide as Hp.
  - left. rewrite Hv, Hp. change (value mapped_prefix) with 65535. split_and!; [done|lia..].
  - right. split; [done|]. intros Hr. apply Hp. apply value_inj; [done|done| |change (value mapped_prefix) with 65535; lia].
    repeat constructor; unfold is_byte_val; lia.
Qed.

(** Sixteen bytes by their first two. *)
Lemma lead_16 ip : length ip = 16%nat -> Forall is_byte_val ip -> exists r r', is_byte_val (at_byte ip 0) /\ is_byte_val (at_byte ip 1) /\
  value ip = at_byte ip 0 * 2 ^ 120 + r /\ 0 <= r < 2 ^ 120 /\ r = at_byte ip 1 * 2 ^ 112 + r' /\ 0 <= r' < 2 ^ 112.
Proof.
  intros Hl Hb. destruct ip as [|a [|b ip]]; try done. injection Hl as Hl. rewrite !Forall_cons in Hb. destruct Hb as (Ha & Hb & Hr).
  pose proof (value_bound ip Hr) as B. rewrite Hl in B. change (256 ^ Z.of_nat 14) with (2 ^ 112) in B.
  exists (value (b :: ip)), (value ip). rewrite !value_cons. cbn [length at_byte nth]. rewrite Hl.
  change (256 ^ Z.of_nat 15) with (2 ^ 120). change (256 ^ Z.of_nat 14) with (2 ^ 112). unfold is_byte_val in *. split_and!; lia.
Qed.
Lemma mask_fc b : is_byte_val b -> (Z.land b 254 =? 252) = (252 <=? b) && (b <=? 253).
Proof. intros Hb. apply eqb_prop. revert b Hb. apply (bytes_check (fun b => Bool.eqb (Z.land b 254 =? 252) ((252 <=? b) && (b <=? 253)))). by vm_compute. Qed.
Lemma mask_fe80 b : is_byte_val b -> (Z.land b 192 =? 128) = (128 <=? b) && (b <=? 191).
Proof. intros Hb. apply eqb_prop. revert b Hb. apply (bytes_check (fun b => Bool.eqb (Z.land b 192 =? 128) ((128 <=? b) && (b <=? 191)))). by vm_compute. Qed.

Lemma forbidden_v6 ip : length ip = 16%nat -> Forall is_byte_val ip -> To4 ip = None ->
  forbiddenMediaIP (Some ip) = in_ranges reserved_ranges6 (value ip).
Proof.
  intros Hl Hb H4. assert (Hconst : forall k l, length l = 16%nat -> Forall is_byte_val l -> value l = k ->
    bool_decide (ip = l) = (k <=? value ip) && (value ip <=? k)).
  { intros k l Hll Hlb <-. rewrite range_one. apply eq_true_iff_eq. rewrite bool_decide_eq_true, Z.eqb_eq. split; [by intros ->|].
    intros Hv. apply value_inj; congruence. }
  assert (Hz : forall n, Forall is_byte_val (zeros n)) by (intros n; unfold zeros; induction n; constructor; [unfold is_byte_val; lia|done]).
  unfold forbiddenMediaIP, IsLoopback, IsPrivate, IsLinkLocalUnicast, IsLinkLocalMulticast, IsMulticast, IsUnspecified. rewrite H4.
  unfold is16. rewrite Hl. cbn [Nat.eqb andb]. rewrite (Hconst 0 (zeros 16)), (Hconst 1 (zeros 15 ++ [1])%list);
    [|reflexivity|apply Forall_app; split; [apply Hz|by repeat constructor]|reflexivity|reflexivity|apply Hz|reflexivity].
  destruct (lead_16 ip Hl Hb) as (r & r' & Ha & Hb' & Hv & Hr & Hr2 & Hr').
  rewrite mask_fc, mask_fe80 by done. unfold in_ranges, reserved_ranges6. cbn [existsb fst snd].
  unfold is_byte_val in *. apply eq_true_iff_eq. rewrite !orb_true_iff, !andb_true_iff, !Z.leb_le, !Z.eqb_eq, Hv. clear - Ha Hb' Hr Hr2 Hr'. lia.
Qed.

(** The bit tests of [forbiddenMediaIP] are exactly the ranges. *)
Lemma forbidden_reserved ip : address ip -> forbiddenMediaIP (Some ip) = true <-> reserved_address ip.
Proof.
  intros [[Hl|Hl] Hb]; unfold reserved_address; rewrite Hl.
  - rewrite forbidden_v4_value by done. naive_solver.
  - destruct (To4_value ip Hl Hb) as [(H4 & Hr & Hv)|[H4 Hr]].
    + assert (in_ranges reserved_ranges6 (value ip) = false) as H6.
      { apply not_true_is_false. unfold in_ranges, reserved_ranges6. cbn [existsb fst snd]. unfold mapped_base in Hr.
        rewrite !orb_true_iff, !andb_true_iff, !Z.leb_le. lia. }
      destruct (split_16 ip Hl Hb) as (_ & _ & Hl4 & _ & Hb4). rewrite H6, Hv, <- (forbidden_v4_value (List.skipn 12 ip)) by done.
      assert (To4 (List.skipn 12 ip) = Some (List.skipn 12 ip)) as H4' by (unfold To4; by rewrite Hl4).
      unfold forbiddenMediaIP, IsLoopback, IsPrivate, IsLinkLocalUnicast, IsLinkLocalMulticast, IsMulticast, IsUnspecified. rewrite H4, H4'.
      naive_solver.
    + rewrite forbidden_v6 by done. naive_solver.
Qed.

(** A host of the platform: one of the listed domains or under one of them. *)
Definition platform_host (host : string) : Prop :=
  let h := ToLower (TrimSuffix (TrimSpace host) ".") in
  exists domain, domain ∈ mediaSuffixes /\ (h = domain \/ exists sub, h = (sub ++ "." ++ domain)%string).
Lemma allowed_platform host : allowedMediaHost host = true -> platform_host host.
Proof.
  unfold allowedMediaHost, platform_host. cbv zeta. set (h := ToLower _). destruct (String.eqb h ""); [done|].
  rewrite existsb_exists. intros (d & Hin & Hd). exists d. split; [by apply list_elem_of_In|]. apply orb_true_iff in Hd as [Hd|Hd].
  - left. by apply String.eqb_eq.
  - right. by apply suffix_split.
Qed.

(** What a URL is checked for at tick [k]. *)
Definition safe_at (k : nat) (url : string) : Prop :=
  exists authority host addrs, url_Parse url = Some ("https", authority, host) /\ ParseIP host = None /\ platform_host host /\
    LookupIPAddr k host = Ok addrs /\ addrs <> [] /\
    forall a, a ∈ addrs -> exists ip, a = Some ip /\ (address ip -> ~ reserved_address ip).
Lemma validate_safe k url : validateMediaURL k url = Ok tt -> safe_at k url.
Proof.
  unfold validateMediaURL. destruct (url_Parse url) as [[[scheme authority] host]|] eqn:Hu; [|done].
  destruct (String.eqb_spec scheme "https") as [->|]; [|done]. destruct (String.eqb_spec host ""); [done|]. cbn [negb].
  destruct (ParseIP host) eqn:Hip; [done|]. destruct (allowedMediaHost host) eqn:Hal; [|done]. cbn [negb].
  destruct (LookupIPAddr k host) as [[|a0 addrs]|] eqn:Hl; [done| |done]. destruct (existsb _ _) eqn:He; [done|]. intros _.
  exists authority, host, (a0 :: addrs). split_and!; try done; [by apply allowed_platform|].
  intros a Ha. assert (Hf : forbiddenMediaIP a = false).
  { apply not_true_is_false. intros Ht. assert (existsb forbiddenMediaIP (a0 :: addrs) = true); [|congruence].
    apply existsb_exists. exists a. split; [by apply list_elem_of_In|done]. }
  destruct a as [ip|]; [|done]. exists ip. split; [done|]. intros Haddr. rewrite <- forbidden_reserved by done. congruence.
Qed.
Lemma follow_safe f via t url k : (k < t)%nat -> validateMediaURL k url = Ok tt ->
  Forall (fun u => exists k', (k' < t + 2 * f)%nat /\ validateMediaURL k' u = Ok tt) (follow f via t url).1.
Proof.
  revert via t url k. induction f as [|f IH]; intros via t url k Hk Hv; simpl; [done|].
  assert (Hhere : exists k', (k' < t + (S f + (S f + 0)))%nat /\ validateMediaURL k' url = Ok tt) by (exists k; split; [lia|done]).
  destruct (http_Get t url) as [[r|next]|e]; simpl; try (by constructor).
  destruct (maxRedirects <? S via)%nat; [by constructor|]. destruct (validateMediaURL (S t) next) as [[]|e] eqn:Hn; [|by constructor].
  simpl. constructor; [done|]. eapply Forall_impl; [apply (IH _ _ _ (S t)); [lia|done]|].
  intros u (k' & Hk' & Hu). exists k'. split; [lia|done].
Qed.
Lemma follow_count f via t url : (via <= maxRedirects)%nat -> (length (follow f via t url).1 + via <= S maxRedirects)%nat.
Proof.
  revert via t url. induction f as [|f IH]; intros via t url Hv; simpl; [lia|].
  destruct (http_Get t url) as [[r|next]|e]; simpl; try lia.
  destruct (Nat.ltb_spec maxRedirects (S via)); [simpl; lia|]. destruct (validateMediaURL (S t) next) as [[]|e]; simpl; [|lia].
  specialize (IH (S via) (S (S t)) next ltac:(lia)). lia.
Qed.
(** The fuel of [follow] outlasts the redirect limit. *)
Lemma follow_fuel f via t url : (S maxRedirects - via < f)%nat -> (via <= maxRedirects)%nat -> follow f via t url = follow (S f) via t url.
Proof.
  revert via t url. induction f as [|f IH]; intros via t url Hf Hv; [lia|]. cbn [follow].
  destruct (http_Get t url) as [[r|next]|e]; try done. destruct (Nat.ltb_spec maxRedirects (S via)); [done|].
  destruct (validateMediaURL (S t) next); [|done]. rewrite (IH (S via)) by lia. done.
Qed.

(** C17: Every request of a media download went to an https URL on one of the
    platform's hosts.  When the URL was checked the host's name had addresses, and
    none of them was in the ranges of the unspecified address, of private, loopback,
    link-local or multicast networks, for IPv4 (also written in sixteen bytes) or
    IPv6; other special ranges, such as 100.64.0.0/10, are not excluded.  Redirects
    included, there were at most four requests; and what is returned is within the
    size cap. *)
Theorem media_fetches_checked t ref urls res : Client_DownloadMedia c t ref = (urls, res) ->
  Forall (fun url => exists k, safe_at k url) urls /\ (length urls <= 4)%nat /\
  (forall data ct, res = Ok (data, ct) -> Z.of_nat (String.length data) <= maxMediaBytes /\ urls <> []).
Proof.
  unfold Client_DownloadMedia. destruct (String.eqb (mr_url ref) ""); [intros [= <- <-]; by split_and!; [|simpl; lia|]|].
  destruct (validateMediaURL t (mr_url ref)) as [[]|e] eqn:Hv; [|intros [= <- <-]; by split_and!; [|simpl; lia|]].
  pose proof (follow_safe (S (S maxRedirects)) O (S t) (mr_url ref) t ltac:(lia) Hv) as Hsafe.
  pose proof (follow_count (S (S maxRedirects)) O (S t) (mr_url ref) ltac:(unfold maxRedirects; lia)) as Hcount.
  assert (Hne : forall r, (follow (S (S maxRedirects)) O (S t) (mr_url ref)).2 = Ok r -> (follow (S (S maxRedirects)) O (S t) (mr_url ref)).1 <> []).
  { intros r. cbn [follow]. repeat case_match; simplify_eq; simpl; done. }
  destruct (follow _ _ _ _) as [us [resp|e]]; simpl in *; intros [= <- <-]; (split; [eapply Forall_impl; [exact Hsafe|]; intros u (k & _ & Hk); exists k; by apply validate_safe|]);
    (split; [unfold maxRedirects in Hcount; lia|]); [|done].
  intros data ct. destruct (is_2xx _); simpl; [|done]. destruct (ReadAllLimit _ _) as [buf|e]; [|done].
  destruct (Z.ltb_spec maxMediaBytes (Z.of_nat (String.length buf))); [done|]. intros [= <- _]. split; [done|]. by eapply Hne.
Qed.

End media.

(** ** The client as the providers the workers use *)
Section providers.
Context `{Env} `{Network}.
Definition zalo_provider (c : Client) : Notify.Provider := {| Notify.provider_Send := fun t chat txt _ => Client_Send c t chat txt |}.
(** The time of reception is not used when a stored payload is decoded again. *)
Definition zalo_media (c : Client) : Processor.MediaProvider := {|
  Processor.provider_ParseWebhook := ParseWebhook 0;
  Processor.provider_DownloadMedia := fun t ref =>
    match (Client_DownloadMedia c t ref).2 with Ok (data, _) => Ok (mkReader data None) | Fail e => Fail e end |}.
End providers.

(** ** Authentication *)
Section webhook.
Context (c : Client) (headers : string -> string).
(** A call that passes carries the configured secret, if that is more than
    white space. *)
Lemma verified_secret : VerifyWebhook c headers = Ok tt ->
  c_secret c <> "" /\ TrimSpace (headers secretHeader) = TrimSpace (c_secret c) /\ (TrimSpace (c_secret c) <> "" -> headers secretHeader <> "").
Proof.
  unfold VerifyWebhook. destruct (String.eqb_spec (c_secret c) ""); [done|]. destruct (String.eqb_spec (TrimSpace (headers secretHeader)) (TrimSpace (c_secret c))) as [He|]; [|done].
  intros _. split_and!; [done|done|]. intros Hne Hh. apply Hne. by rewrite <- He, Hh.
Qed.
End webhook.

(** ** The client at work *)
Module ZaloDemo.
#[local] Instance env : Env := demo_env no_faults (fun n => Z.of_nat n * Second).
Definition q := quoted.
Definition host_of (url : string) : string := before_byte (TrimPrefix url "https://") "/".
#[local] Instance urls : NetParse := {| SplitHostPort := fun s => Contains s ":";
  url_Parse := fun s => if HasPrefix s "https://" then Some ("https", host_of s, host_of s) else if HasPrefix s "http://" then Some ("http", "", "") else None;
  ParseDuration := fun _ => None |}.
Definition body (s : string) : Reader := mkReader s None.
Definition image : string := "MOCK-FIXTURE:coopmart-clean".
Definition accepted : string := "{" ++ q "ok" ++ ":true," ++ q "result" ++ ":{" ++ q "message_id" ++ ":41}}".
Definition one_update : string := "{" ++ q "update_id" ++ ":7," ++ q "message" ++ ":{" ++ q "message_id" ++ ":" ++ q "m1" ++ "," ++
  q "from" ++ ":{" ++ q "id" ++ ":" ++ q "u1" ++ "}," ++ q "chat" ++ ":{" ++ q "id" ++ ":99}," ++
  q "photo_url" ++ ":" ++ q "https://photo.zdn.vn/a.jpg" ++ "}}".
Definition updates_answer : string := "{" ++ q "ok" ++ ":true," ++ q "result" ++ ":[" ++ one_update ++ ",{" ++ q "update_id" ++ ":9},3]}".
(** The photo host redirects once within the platform and once to the metadata
    service; the resolver answers with a public address. *)
#[local] Instance net : Network := {|
  net_parse := urls; url_error := fun _ => "invalid URL"; json_error := fun _ => "unexpected end of JSON input"; ParseIP := fun _ => None;
  LookupIPAddr := fun _ host => if String.eqb host "internal.zdn.vn" then Ok [Some [10; 0; 0; 1]] else Ok [Some [118; 69; 1; 1]];
  http_Do := fun _ rq => if Contains (rq_url rq) "getUpdates" then Ok (mkResponse 200 "" (body updates_answer))
                         else if Contains (rq_url rq) "getMe" then Ok (mkResponse 503 "" (body ("upstream " ++ rq_url rq)))
                         else Ok (mkResponse 200 "" (body accepted));
  http_Get := fun _ url => if String.eqb url "https://photo.zdn.vn/a.jpg" then Ok (Redirect "https://cdn.zdn.vn/a.jpg")
                           else if String.eqb url "https://photo.zdn.vn/evil" then Ok (Redirect "https://169.254.169.254/latest")
                           else Ok (Final (mkResponse 200 "image/jpeg" (body image))) |}.
Definition client : Client := New "12345:abc-DEF" "0123456789abcdef" "https://bot-api.zaloplatforms.com/".

Lemma client_token : token_shape (c_token client).
Proof. split_and!; [reflexivity..|]. by exists "12345", "a"%char, "bc-DEF". Qed.

Example send_ex : Client_Send client 0 "c1" "xin chào" = Ok "41".
Proof. vm_compute. reflexivity. Qed.
(** A failing gateway that echoes the request URL: the token is gone. *)
Example redacted_ex : GetMe client 0 =
  Fail (E CodeTransient "zalo api status 503: upstream https://bot-api.zaloplatforms.com/bot[REDACTED]/getMe" None).
Proof. vm_compute. reflexivity. Qed.
Example download_ex :
  Client_DownloadMedia client 0 (mkMedia "zalo_bot" "https://photo.zdn.vn/a.jpg" "" "") =
    (["https://photo.zdn.vn/a.jpg"; "https://cdn.zdn.vn/a.jpg"], Ok (image, "image/jpeg")) /\
  Client_DownloadMedia client 0 (mkMedia "zalo_bot" "https://photo.zdn.vn/evil" "" "") =
    (["https://photo.zdn.vn/evil"], Fail (validation "media host not allowed")) /\
  Client_DownloadMedia client 0 (mkMedia "zalo_bot" "https://evilzdn.vn/a.jpg" "" "") = ([], Fail (validation "media host not allowed")) /\
  Client_DownloadMedia client 0 (mkMedia "zalo_bot" "https://internal.zdn.vn/a.jpg" "" "") =
    ([], Fail (validation "media URL resolves to forbidden address")).
Proof. vm_compute. split_and!; reflexivity. Qed.

(** Shared address space and class E are not refused. *)
Example special_ranges_pass : forbiddenMediaIP (Some [100; 64; 0; 1]) = false /\ forbiddenMediaIP (Some [240; 0; 0; 1]) = false.
Proof. split; reflexivity. Qed.
(** The reading of an answer breaks off with an error that names the URL: it is
    passed on with the token in it. *)
Definition broken : Network := {| net_parse := urls; url_error := @url_error net; json_error := @json_error net; ParseIP := @ParseIP net;
  LookupIPAddr := @LookupIPAddr net; http_Get := @http_Get net;
  http_Do := fun _ rq => Ok (mkResponse 200 "" (mkReader "" (Some (Sentinel ("read " ++ rq_url rq ++ ": connection reset"))))) |}.
Example broken_read_unredacted : match @GetMe broken client 0 with Fail e => reveals e (c_token client) | Ok _ => false end = true.
Proof. vm_compute. reflexivity. Qed.
Lemma token_never_leaks_witness : Contains "zalo api status 503: upstream https://bot-api.zaloplatforms.com/bot12345:abc-DEF/getMe" (c_token client) = true /\
  exists e, GetMe client 0 = Fail e /\ Contains (error_string e) (c_token client) = false.
Proof.
  split; [reflexivity|]. eexists. split; [exact redacted_ex|].
  destruct (token_never_leaks client 0 "" "" [] 0 _ client_token (or_intror (or_introl redacted_ex)))
    as [He|[(m & rq & resp & cause & Hdo & Hrd & _)|(m & rq & resp & a & lim & _ & _ & _ & Hj)]].
  - exact He.
  - unfold http_Do, net in Hdo. repeat case_match; injection Hdo as <-; discriminate Hrd.
  - discriminate Hj.
Defined.
Lemma media_fetches_checked_witness :
  Forall (fun url => exists k, safe_at k url) ["https://photo.zdn.vn/a.jpg"; "https://cdn.zdn.vn/a.jpg"].
Proof. apply (media_fetches_checked client 0 (mkMedia "zalo_bot" "https://photo.zdn.vn/a.jpg" "" "") _ (Ok (image, "image/jpeg"))). exact (proj1 download_ex). Defined.

(** ** Updates *)
Definition photo_event : InboundEvent :=
  mkEvent "zalo_bot" "u1" "99" "m1" EventImageReceived "" [mkMedia "zalo_bot" "https://photo.zdn.vn/a.jpg" "" ""] Second (sha256_hex one_update) one_update 7.
(** Three entries: a photo without an event name, an update without a message and
    a number; the last two are quarantined, the offset passes both ids. *)
Lemma updates_ex : GetUpdates client 0 5 = Ok ([photo_event], 10).
Proof. vm_compute. reflexivity. Qed.
Lemma updates_accounted_witness : exists entries, [photo_event] = omap fst (batch 1 entries) /\ Forall (fun ev => exists raw, raw ∈ entries /\ event_complete raw ev) [photo_event].
Proof. destruct (updates_accounted client 0 5 [photo_event] 10 updates_ex) as (answer & entries & _ & _ & H1 & H2 & _). by exists entries. Defined.
(** The photo of that update is lost: its type was inferred, and the stored entry
    has no event name, so the receipt worker cannot decode it again. *)
Example inferred_photo_lost :
  ev_type photo_event = EventImageReceived /\ ev_media photo_event <> [] /\
  ParseWebhook 0 (ev_raw photo_event) = Fail (validation "webhook event_name is required").
Proof. vm_compute. split_and!; congruence. Qed.

(** ** Webhooks *)
Definition hook (legacy : bool) (photo : option string) : string :=
  json_text_of None (webhook_json legacy (event_name photo) (message_json "m1" "u1" "c1" 1784464496789 "ăn trưa 50k" photo)).
Lemma sent_demo photo : valid_utf8 (default "" photo) = true -> photo <> Some "" -> sent_ok "m1" "u1" "c1" 1784464496789 "ăn trưa 50k" photo.
Proof.
  intros Hp Hne. split; [|by split_and!]. intros s Hs. repeat (apply elem_of_cons in Hs as [->|Hs]; [done|]). by apply elem_of_nil in Hs.
Qed.
Lemma webhook_decodes_witness :
  ParseWebhook 0 (hook false (Some "https://p.zdn.vn/x")) =
    Ok [mkEvent "zalo_bot" "u1" "c1" "m1" EventImageReceived "ăn trưa 50k" [mkMedia "zalo_bot" "https://p.zdn.vn/x" "" ""]
          (1784464496789 * 1000000) (sha256_hex (hook false (Some "https://p.zdn.vn/x"))) (hook false (Some "https://p.zdn.vn/x")) 0] /\
  is_ok (ParseWebhook 0 (hook true None)) = true.
Proof.
  split.
  - exact (webhook_decodes false "m1" "u1" "c1" 1784464496789 "ăn trưa 50k" (Some "https://p.zdn.vn/x") 0 (sent_demo (Some "https://p.zdn.vn/x") eq_refl ltac:(congruence))).
  - unfold hook. by rewrite (webhook_decodes true "m1" "u1" "c1" 1784464496789 "ăn trưa 50k" None 0 (sent_demo None eq_refl ltac:(congruence))).
Defined.
Lemma webhook_event_complete_witness : exists ev, ParseWebhook 0 (hook true None) = Ok [ev] /\ event_complete (hook true None) ev.
Proof.
  assert (He : exists ev, ParseWebhook 0 (hook true None) = Ok [ev]) by (eexists; vm_compute; reflexivity).
  destruct He as [ev He]. exists ev. split; [exact He|].
  destruct (webhook_event_complete 0 (hook true None) [ev] He) as (ev' & Heq & Hc & _). by injection Heq as ->.
Defined.

(** A secret of sixteen spaces loads in production and lets every call without
    the header pass. *)
Definition blank_secret (key : string) : option string :=
  if String.eqb key "ZALO_WEBHOOK_SECRET" then Some "                " else ConfigDemo.pilot key.
Example blank_secret_open : exists cfg, Load blank_secret = Ok cfg /\ AppEnv cfg = "pilot" /\
  VerifyWebhook (newZalo cfg) (fun _ => "") = Ok tt.
Proof. eexists. split; [vm_compute; reflexivity|]. vm_compute. done. Qed.
End ZaloDemo.
