(* ===== verification/LogProvider.v ===== *)
(** * The local messaging provider and the choice of provider

    internal/messaging/logprovider: the provider of development runs, which keeps
    what it is asked to send and decodes events in the repository's own JSON; and
    messaging/factory.go, which picks it or the Zalo client. *)
From Stdlib Require Import Ascii.
From S2P Require Import Prelude GoStrings Domain GoTime Json Unmarshal Config Db Fields Objects Zalo Bot ZaloEvents.

(** ** Decoding events.InboundEvent *)

(** [Time.UnmarshalJSON]: a quoted RFC 3339 time, strictly: a two-digit hour, a
    period before the fraction and an offset within a day. *)
Definition strict_zone (s : string) : bool :=
  let n := String.length s in
  HasSuffix s "Z" ||
  (match ParseInt (take 2 (drop (n - 5) s)), ParseInt (drop (n - 2) s) with
   | Some h, Some m => (h <? 24) && (m <? 60)
   | _, _ => false
   end).
Definition parse_strict (s : string) : option Time :=
  if HasPrefix (drop 12 s) ":" || HasPrefix (drop 19 s) "," || negb (strict_zone s) then None else ParseRFC3339 s.
Definition d_time : Decoder Time := fun rv old =>
  let raw := rv.1 in
  if String.eqb raw "null" then (old, true)
  else if (2 <=? String.length raw)%nat && HasPrefix raw (ch 34) && HasSuffix raw (ch 34) then
    match parse_strict (take (String.length raw - 2) (drop 1 raw)) with
    | Some t => (t, true)
    | None => (old, false)
    end
  else (old, false).

Definition d_mediaref : Decoder MediaReference := d_struct
  [("provider", at_field mr_provider (fun x m => mkMedia x (mr_url m) (mr_mime m) (mr_caption m)) d_string);
   ("url", at_field mr_url (fun x m => mkMedia (mr_provider m) x (mr_mime m) (mr_caption m)) d_string);
   ("mime_type", at_field mr_mime (fun x m => mkMedia (mr_provider m) (mr_url m) x (mr_caption m)) d_string);
   ("caption", at_field mr_caption (fun x m => mkMedia (mr_provider m) (mr_url m) (mr_mime m) x) d_string)].
(** The event while its media slice is being decoded; the fields tagged "-" are
    not decoded. *)
Record EventDraft := mkDraft {
  dr_provider : string; dr_user : string; dr_chat : string; dr_message : string; dr_type : string; dr_text : string;
  dr_media : Slice MediaReference; dr_received : Time; dr_hash : string }.
Definition d_event : Decoder EventDraft := d_struct
  [("provider", at_field dr_provider (fun x e => mkDraft x (dr_user e) (dr_chat e) (dr_message e) (dr_type e) (dr_text e) (dr_media e) (dr_received e) (dr_hash e)) d_string);
   ("provider_user_id", at_field dr_user (fun x e => mkDraft (dr_provider e) x (dr_chat e) (dr_message e) (dr_type e) (dr_text e) (dr_media e) (dr_received e) (dr_hash e)) d_string);
   ("provider_chat_id", at_field dr_chat (fun x e => mkDraft (dr_provider e) (dr_user e) x (dr_message e) (dr_type e) (dr_text e) (dr_media e) (dr_received e) (dr_hash e)) d_string);
   ("provider_message_id", at_field dr_message (fun x e => mkDraft (dr_provider e) (dr_user e) (dr_chat e) x (dr_type e) (dr_text e) (dr_media e) (dr_received e) (dr_hash e)) d_string);
   ("event_type", at_field dr_type (fun x e => mkDraft (dr_provider e) (dr_user e) (dr_chat e) (dr_message e) x (dr_text e) (dr_media e) (dr_received e) (dr_hash e)) d_string);
   ("text", at_field dr_text (fun x e => mkDraft (dr_provider e) (dr_user e) (dr_chat e) (dr_message e) (dr_type e) x (dr_media e) (dr_received e) (dr_hash e)) d_string);
   ("media", at_field dr_media (fun x e => mkDraft (dr_provider e) (dr_user e) (dr_chat e) (dr_message e) (dr_type e) (dr_text e) x (dr_received e) (dr_hash e)) (d_slice (mkMedia "" "" "" "") d_mediaref));
   ("received_at", at_field dr_received (fun x e => mkDraft (dr_provider e) (dr_user e) (dr_chat e) (dr_message e) (dr_type e) (dr_text e) (dr_media e) x (dr_hash e)) d_time);
   ("raw_payload_hash", at_field dr_hash (fun x e => mkDraft (dr_provider e) (dr_user e) (dr_chat e) (dr_message e) (dr_type e) (dr_text e) (dr_media e) (dr_received e) x) d_string)].
(** Go's zero time. *)
Definition zero_time : Time := Date 1 1 1 0 0 UTC.

(** What [json.Marshal] writes for an event; empty text and media are left out. *)
Definition mediaref_json (m : MediaReference) : json :=
  JObj ([("provider", JStr (mr_provider m)); ("url", JStr (mr_url m))] ++
        (if String.eqb (mr_mime m) "" then [] else [("mime_type", JStr (mr_mime m))]) ++
        (if String.eqb (mr_caption m) "" then [] else [("caption", JStr (mr_caption m))])).
Definition event_json (ev : InboundEvent) : json :=
  JObj ([("provider", JStr (ev_provider ev)); ("provider_user_id", JStr (ev_user ev)); ("provider_chat_id", JStr (ev_chat ev));
         ("provider_message_id", JStr (ev_message ev)); ("event_type", JStr (ev_type ev))] ++
        (if String.eqb (ev_text ev) "" then [] else [("text", JStr (ev_text ev))]) ++
        (match ev_media ev with [] => [] | media => [("media", JArr (mediaref_json <$> media))] end) ++
        [("received_at", JTime UTC (ev_received_at ev)); ("raw_payload_hash", JStr (ev_hash ev))]).

(** ** The provider *)
Record OutboundMessage := mkOut { om_chat : string; om_text : string; om_key : string }.
Definition LogState := list OutboundMessage.

Section logprovider.
Context `{Env} `{Network}.

(** [ParseWebhook] *)
Definition log_ParseWebhook (body : string) : Res Err (list InboundEvent) :=
  match Unmarshal d_event body (mkDraft "" "" "" "" "" "" nil_slice zero_time "") with
  | (_, false) => Fail (E CodeValidation "logprovider decode event" (Some (Sentinel (json_error body))))
  | (d, true) => Ok [mkEvent (dr_provider d) (dr_user d) (dr_chat d) (dr_message d) (dr_type d) (dr_text d) (slice_list (dr_media d))
                       (dr_received d) (sha256_hex body) body 0]
  end.
(** [Send] *)
Definition log_Send (sent : LogState) (msg : OutboundMessage) : string * LogState :=
  let sent := (sent ++ [msg])%list in ("log-" ++ Sprintd (Z.of_nat (length sent)), sent).
(** [DownloadMedia]: the bytes and their content type. *)
Definition log_DownloadMedia (ref : MediaReference) : Res Err (string * string) :=
  if HasPrefix (mr_url ref) MockPrefix then Ok (mr_url ref, "text/plain")
  else Fail (E CodeUnsupported ("logprovider only downloads " ++ MockPrefix ++ " media") None).
(** [hashForLog] *)
Definition hashForLog (s : string) : string :=
  if (String.length s <=? 4)%nat then "****" else "****" ++ drop (String.length s - 4) s.

(** ** The factory *)
Inductive Adapter := UseZalo (c : Client) | UseLog.
Definition NewFromConfig (cfg : Config.Config) : Adapter :=
  if String.eqb (MessagingMode cfg) "zalo" then UseZalo (newZalo cfg) else UseLog.
(** [Provider]'s inbound methods; the local provider accepts every call. *)
Definition adapter_Verify (a : Adapter) (headers : string -> string) : Res Err unit :=
  match a with UseZalo c => VerifyWebhook c headers | UseLog => Ok tt end.
Definition adapter_Parse (a : Adapter) (now : Time) (body : string) : Res Err (list InboundEvent) :=
  match a with UseZalo _ => ParseWebhook now body | UseLog => log_ParseWebhook body end.
End logprovider.

(** Every message sent through the local provider is kept, in order, under its own
    identifier. *)
Lemma log_sends_kept msgs sent :
  let run := fold_left (fun acc m => let r := log_Send acc.2 m in (acc.1 ++ [r.1], r.2)%list) msgs ([], sent) in
  run.2 = (sent ++ msgs)%list /\ length run.1 = length msgs.
Proof.
  assert (Hgen : forall ids sent, let run := fold_left (fun acc m => let r := log_Send acc.2 m in (acc.1 ++ [r.1], r.2)%list) msgs (ids, sent) in
    run.2 = (sent ++ msgs)%list /\ length run.1 = (length ids + length msgs)%nat).
  { clear sent. induction msgs as [|m msgs IH]; intros ids sent; simpl; [by rewrite app_nil_r, Nat.add_0_r|].
    destruct (IH (ids ++ [(log_Send sent m).1])%list (sent ++ [m])%list) as [H1 H2]. unfold log_Send in *. cbn [fst snd] in *.
    rewrite H1, H2, length_app, <- app_assoc. simpl. split; [done|lia]. }
  apply (Hgen [] sent).
Qed.

Module LogDemo.
#[local] Instance env : Env := demo_env no_faults (fun n => Z.of_nat n * Second).
#[local] Instance names : NetParse := {| SplitHostPort := fun _ => true; url_Parse := fun _ => None; ParseDuration := fun _ => None |}.
#[local] Instance net : Network := {| net_parse := names; url_error := fun s => s; json_error := fun s => s; ParseIP := fun _ => None;
  LookupIPAddr := fun _ _ => Ok []; http_Do := fun _ _ => Fail (Sentinel "offline"); http_Get := fun _ _ => Fail (Sentinel "offline") |}.
Definition event : InboundEvent :=
  mkEvent "zalo_bot" "u1" "c1" "m1" EventImageReceived "bữa trưa <3" [mkMedia "zalo_bot" "MOCK-FIXTURE:coopmart-clean" "" "cap"]
    (1784464496 * Second + 120000000) "" "" 0.
(** What the simulator stores is what the receipt worker decodes. *)
Example simulate_roundtrip :
  let body := json_text_of None (event_json event) in
  log_ParseWebhook body = Ok [mkEvent (ev_provider event) (ev_user event) (ev_chat event) (ev_message event) (ev_type event) (ev_text event)
    (ev_media event) (ev_received_at event) (sha256_hex body) body 0] /\
  log_DownloadMedia (mkMedia "" "MOCK-FIXTURE:x" "" "") = Ok ("MOCK-FIXTURE:x", "text/plain") /\ hashForLog "chat-123456" = "****3456".
Proof. vm_compute. split_and!; reflexivity. Qed.
Example strict_times :
  parse_strict "2026-07-19T19:34:56.5+07:00" = Some (1784464496 * Second + 500000000) /\ parse_strict "2026-07-19T9:34:56Z" = None /\
  parse_strict "2026-07-19T09:34:56,5Z" = None /\ parse_strict "2026-07-19T09:34:56+24:00" = None.
Proof. vm_compute. split_and!; reflexivity. Qed.
End LogDemo.
