(* ===== verification/LogEvents.v ===== *)
(** * The local provider reads back its own events

    The simulator and the playground store an event as its JSON text, and the
    receipt worker recovers the event from the stored text through the local
    provider.  Shown for every event whose strings are valid UTF-8 and whose time
    prints: what is recovered is the event. *)
From Stdlib Require Import Ascii.
From S2P Require Import Prelude GoStrings Domain GoTime Calendar Json Normalise Unmarshal JsonRoundtrip TimeText Config Db Fields Objects Zalo Bot ZaloEvents ZaloSafety LogProvider.

(** ** Times *)
Lemma forall_bytes_mono (p q : ascii -> bool) s : (forall c, p c = true -> q c = true) -> forall_bytes p s = true -> forall_bytes q s = true.
Proof. intros Hpq. induction s as [|c s IH]; [done|]. cbn [forall_bytes]. intros [Hc Hs]%andb_true_iff. by rewrite (Hpq c Hc), IH. Qed.
Definition time_byte (c : ascii) : bool := plain c && (byte_of c <? 128).
Lemma digit_time_byte c : is_digit c = true -> time_byte c = true.
Proof. intros Hd%digit_bytes. unfold time_byte, plain. zbool. done. Qed.
Lemma padded_time w n : (0 < w)%nat -> 0 <= n < 10 ^ Z.of_nat w -> forall_bytes time_byte (zero_pad w (Sprintd n)) = true.
Proof. intros Hw Hn. destruct (zero_pad_spec w n Hw Hn) as (_ & Hd & _). by eapply forall_bytes_mono; [apply digit_time_byte|]. Qed.
Lemma fraction_time ns : 0 <= ns < Second -> forall_bytes time_byte (fraction ns) = true /\ HasPrefix (fraction ns ++ "Z") "," = false.
Proof.
  intros Hns. unfold fraction. destruct (ns =? 0); [done|]. split; [|done]. change (time_byte "." && forall_bytes time_byte (drop_zeros 9 (zero_pad 9 (Sprintd ns))) = true). change (time_byte ".") with true. cbn [andb].
  pose proof (padded_time 9 ns ltac:(lia) Hns) as Hp. destruct (drop_zeros_split 9 (zero_pad 9 (Sprintd ns))) as [j Hj].
  rewrite Hj, forall_bytes_app in Hp. apply andb_true_iff in Hp as [Hp _]. exact Hp.
Qed.
(** The fields of the clock are in range, so that the text has nineteen bytes. *)
Lemma clock_fields t : printable t -> let c := local_date UTC t in let s := local_clock UTC t in
  0 <= c.1.1 < 10 ^ 4 /\ 0 <= c.1.2 < 10 ^ 2 /\ 0 <= c.2 < 10 ^ 2 /\ 0 <= s / 3600 < 10 ^ 2 /\ 0 <= s / 60 mod 60 < 10 ^ 2 /\ 0 <= s mod 60 < 10 ^ 2.
Proof.
  intros Hp. cbv zeta. destruct (local_date_bounds t) as [Hm Hd]. unfold printable in Hp.
  assert (Hs : 0 <= local_clock UTC t < 86400) by (unfold local_clock, sec_of_day; apply Z.mod_pos_bound; lia).
  assert (days_in (local_date UTC t).1.1 (local_date UTC t).1.2 <= 31) by (unfold days_in; repeat case_match; lia). split_and!; try lia; euclid.
Qed.
Lemma two_chars n : 0 <= n < 10 ^ 2 -> exists a b, two n = String a (String b "") /\ is_digit a = true /\ is_digit b = true.
Proof.
  intros Hn. destruct (zero_pad_spec 2 n ltac:(lia) Hn) as (Hl & Hd & _). unfold two. destruct (zero_pad 2 (Sprintd n)) as [|a [|b [|]]]; try done.
  cbn [forall_bytes] in Hd. rewrite !andb_true_iff in Hd. destruct Hd as (Ha & Hb & _). by exists a, b.
Qed.
Lemma four_chars n : 0 <= n < 10 ^ 4 -> exists a b c d, zero_pad 4 (Sprintd n) = String a (String b (String c (String d ""))) /\
  forall_bytes is_digit (String a (String b (String c (String d "")))) = true.
Proof.
  intros Hn. destruct (zero_pad_spec 4 n ltac:(lia) Hn) as (Hl & Hd & _). destruct (zero_pad 4 (Sprintd n)) as [|a [|b [|c [|d [|]]]]]; try done.
  by exists a, b, c, d.
Qed.
Lemma clock_time t rest : printable t -> forall_bytes time_byte (clock_text UTC t) = true /\
  HasPrefix (drop 12 (clock_text UTC t ++ rest)) ":" = false /\ drop 19 (clock_text UTC t ++ rest) = rest.
Proof.
  intros Hp. destruct (clock_fields t Hp) as (H1 & H2 & H3 & H4 & H5 & H6). unfold clock_text. cbv zeta in *.
  destruct (four_chars _ H1) as (y1 & y2 & y3 & y4 & -> & Hy), (two_chars _ H2) as (m1 & m2 & -> & Hm1 & Hm2), (two_chars _ H3) as (d1 & d2 & -> & Hd1 & Hd2),
    (two_chars _ H4) as (h1 & h2 & -> & Hh1 & Hh2), (two_chars _ H5) as (i1 & i2 & -> & Hi1 & Hi2), (two_chars _ H6) as (s1 & s2 & -> & Hs1 & Hs2).
  split_and!.
  - apply (forall_bytes_mono (fun c => is_digit c || is_byte 45 c || is_byte 58 c || is_byte 84 c)).
    + intros c. rewrite !orb_true_iff. unfold is_byte. rewrite !Z.eqb_eq. intros [[[Hc|Hc]|Hc]|Hc]; [by apply digit_time_byte|..]; unfold time_byte, plain; rewrite Hc; done.
    + cbn [forall_bytes] in Hy. rewrite !andb_true_iff in Hy. destruct Hy as (Hy1 & Hy2 & Hy3 & Hy4 & _).
      change (forall_bytes (fun c => is_digit c || is_byte 45 c || is_byte 58 c || is_byte 84 c)
        (String y1 (String y2 (String y3 (String y4 (String "-" (String m1 (String m2 (String "-" (String d1 (String d2 (String "T" (String h1 (String h2 (String ":" (String i1 (String i2 (String ":" (String s1 (String s2 ""))))))))))))))))))) = true).
      cbn [forall_bytes]. by rewrite Hy1, Hy2, Hy3, Hy4, Hm1, Hm2, Hd1, Hd2, Hh1, Hh2, Hi1, Hi2, Hs1, Hs2.
  - change (HasPrefix (String h2 (":" ++ String i1 (String i2 (":" ++ String s1 (String s2 rest))))) ":" = false).
    destruct (HasPrefix _ _) eqn:Hx; [|done]. apply prefix_head in Hx as ->. done.
  - done.
Qed.
Lemma nano_plain t : printable t -> ascii_plain (RFC3339Nano UTC t) = true.
Proof.
  intros Hp. unfold RFC3339Nano. change (zone_suffix _) with "Z". unfold ascii_plain. fold time_byte. rewrite !forall_bytes_app.
  destruct (clock_time t "" Hp) as [-> _]. destruct (fraction_time (t mod Second)) as [-> _]; [apply Z.mod_pos_bound; unfold Second; lia|]. done.
Qed.
Lemma strict_read t : printable t -> parse_strict (RFC3339Nano UTC t) = Some t.
Proof.
  intros Hp. unfold parse_strict. rewrite RFC3339Nano_read by done. unfold RFC3339Nano. change (zone_suffix _) with "Z".
  destruct (clock_time t (fraction (t mod Second) ++ "Z") Hp) as (_ & -> & ->).
  destruct (fraction_time (t mod Second)) as [_ ->]; [apply Z.mod_pos_bound; unfold Second; lia|].
  unfold strict_zone. rewrite str_app_assoc, suffix_app. done.
Qed.
Lemma time_decodes t v old : printable t -> d_time (json_text_of None (JTime UTC t), v) old = (t, true).
Proof.
  intros Hp. cbn [json_text_of]. set (s := RFC3339Nano UTC t). assert (Hs : parse_strict s = Some t) by (by apply strict_read). clearbody s.
  unfold d_time. cbn [fst]. change (String.eqb (ch 34 ++ s ++ ch 34) "null") with false. cbv match.
  assert (Hlen : String.length (ch 34 ++ s ++ ch 34) = (2 + String.length s)%nat) by (rewrite !str_length_app; simpl; lia). rewrite Hlen.
  rewrite prefix_app, str_app_assoc, suffix_app. rewrite <- str_app_assoc. cbn [Nat.leb andb]. cbv match.
  change (drop 1 (ch 34 ++ s ++ ch 34)) with (s ++ ch 34). replace (2 + String.length s - 2)%nat with (String.length s) by lia.
  by rewrite take_app_length, Hs.
Qed.

(** ** Media *)
Definition zero_ref : MediaReference := mkMedia "" "" "" "".
Lemma mediaref_reads m raw : d_mediaref (raw, json_view (mediaref_json m)) zero_ref = (m, true).
Proof.
  destruct m as [p u mi ca]. unfold mediaref_json. cbn [mr_provider mr_url mr_mime mr_caption].
  destruct (String.eqb_spec mi "") as [->|_], (String.eqb_spec ca "") as [->|_]; lazy -[json_text_of]; reflexivity.
Qed.
Lemma media_reads ms : d_elems zero_ref d_mediaref ((fun j => (json_text_of None j, json_view j)) <$> (mediaref_json <$> ms)) [] = (ms, true).
Proof. induction ms as [|m ms IH]; [done|]. rewrite !fmap_cons. cbn [d_elems head List.tl default]. by rewrite mediaref_reads, IH. Qed.
Lemma media_slice raw m ms : d_slice zero_ref d_mediaref (raw, json_view (JArr (mediaref_json <$> m :: ms))) nil_slice = (mkSlice (m :: ms) (S (length ms)), true).
Proof.
  assert (Hs : forall v vs, d_slice zero_ref d_mediaref (raw, VArr (v :: vs)) nil_slice =
    (mkSlice (d_elems zero_ref d_mediaref (v :: vs) []).1 (S (length vs)), (d_elems zero_ref d_mediaref (v :: vs) []).2)) by done.
  cbn [json_view]. pose proof (media_reads (m :: ms)) as Hm. rewrite !fmap_cons in *. by rewrite Hs, Hm, !length_fmap.
Qed.

(** ** Events *)
Definition media_valid (m : MediaReference) : bool :=
  valid_utf8 (mr_provider m) && valid_utf8 (mr_url m) && valid_utf8 (mr_mime m) && valid_utf8 (mr_caption m).
Definition strings_valid (ev : InboundEvent) : bool :=
  forallb valid_utf8 [ev_provider ev; ev_user ev; ev_chat ev; ev_message ev; ev_type ev; ev_text ev; ev_hash ev] && forallb media_valid (ev_media ev).

Lemma mediaref_clean m : media_valid m = true -> json_clean (mediaref_json m) = true /\ json_depth (mediaref_json m) = 1.
Proof.
  unfold media_valid. rewrite !andb_true_iff. intros [[[H1 H2] H3] H4]. unfold mediaref_json.
  destruct (String.eqb (mr_mime m) ""), (String.eqb (mr_caption m) ""); simpl; by rewrite ?H1, ?H2, ?H3, ?H4.
Qed.
Lemma media_clean ms : forallb media_valid ms = true ->
  json_clean (JArr (mediaref_json <$> ms)) = true /\ json_depth (JArr (mediaref_json <$> ms)) <= 2.
Proof.
  cbn [json_clean json_depth]. induction ms as [|m ms IH]; [done|]. rewrite !fmap_cons. cbn [forallb foldr]. intros [[Hc Hd]%mediaref_clean Hms]%andb_true_iff.
  destruct (IH Hms) as [Hc' Hd']. rewrite Hc, Hc', Hd. split; [done|lia].
Qed.
Lemma event_clean ev : strings_valid ev = true -> printable (ev_received_at ev) ->
  json_clean (event_json ev) = true /\ (json_depth (event_json ev) <=? maxNestingDepth) = true.
Proof.
  unfold strings_valid. cbn [forallb]. rewrite !andb_true_iff. intros [(H1 & H2 & H3 & H4 & H5 & H6 & H7 & _) Hm] Hp%nano_plain.
  apply media_clean in Hm as [Hc Hd]. unfold event_json. revert Hc Hd.
  destruct (ev_media ev) as [|m ms]; intros Hc Hd.
  - destruct (String.eqb (ev_text ev) ""); simpl; by rewrite ?H1, ?H2, ?H3, ?H4, ?H5, ?H6, ?H7, ?Hp.
  - revert Hc Hd. generalize (JArr (mediaref_json <$> m :: ms)). intros j Hc Hd.
    destruct (String.eqb (ev_text ev) ""); (split; [simpl; by rewrite ?H1, ?H2, ?H3, ?H4, ?H5, ?H6, ?H7, ?Hp, Hc|]);
      apply Z.leb_le; simpl; unfold maxNestingDepth; lia.
Qed.
Lemma event_reads ev : printable (ev_received_at ev) -> exists media,
  d_event (json_text_of None (event_json ev), json_view (event_json ev)) (mkDraft "" "" "" "" "" "" nil_slice zero_time "") =
  (mkDraft (ev_provider ev) (ev_user ev) (ev_chat ev) (ev_message ev) (ev_type ev) (ev_text ev) media (ev_received_at ev) (ev_hash ev), true) /\
  slice_list media = ev_media ev.
Proof.
  intros Hp. generalize (json_text_of None (event_json ev)). intros raw. destruct ev as [p u c m ty tx ms t h r n].
  unfold event_json. cbn [ev_provider ev_user ev_chat ev_message ev_type ev_text ev_media ev_received_at ev_hash] in *.
  assert (Ht : forall old, d_time (json_text_of None (JTime UTC t), json_view (JTime UTC t)) old = (t, true)) by (intros; by apply time_decodes).
  revert Ht. generalize (JTime UTC t). intros jt Ht. destruct ms as [|m0 ms].
  - exists nil_slice. split; [|done].
    destruct (String.eqb_spec tx "") as [->|_]; cbn [json_view fmap list_fmap app fst snd];
      revert Ht; generalize (json_text_of None jt), (json_view jt); intros x v Ht; lazy -[json_text_of d_time zero_time]; rewrite Ht; reflexivity.
  - exists (mkSlice (m0 :: ms) (S (length ms))). split; [|apply (firstn_all (m0 :: ms))].
    pose proof (fun raw => media_slice raw m0 ms) as Hm. revert Hm. generalize (JArr (mediaref_json <$> m0 :: ms)). intros jm Hm.
    destruct (String.eqb_spec tx "") as [->|_]; cbn [json_view fmap list_fmap app fst snd];
      revert Ht Hm; generalize (json_text_of None jt), (json_view jt), (json_text_of None jm), (json_view jm); intros x v y w Ht Hm;
      unfold zero_ref, nil_slice in Hm; lazy -[json_text_of d_time zero_time d_slice d_mediaref length]; rewrite Hm, Ht; reflexivity.
Qed.

Section log_events.
Context `{Env} `{Network}.

(** An event stored as its JSON text is recovered whole by
    the local provider: every identifier, the text, the media and the time to the
    nanosecond, with the digest of the stored text. *)
Theorem log_event_roundtrip ev : strings_valid ev = true -> printable (ev_received_at ev) ->
  let body := json_text_of None (event_json ev) in
  log_ParseWebhook body = Ok [mkEvent (ev_provider ev) (ev_user ev) (ev_chat ev) (ev_message ev) (ev_type ev) (ev_text ev) (ev_media ev)
    (ev_received_at ev) (sha256_hex body) body 0].
Proof.
  intros Hs Hp body. unfold log_ParseWebhook. destruct (event_clean ev Hs Hp) as [Hc Hd], (event_reads ev Hp) as (media & Hr & Hm).
  unfold body at 1. rewrite Unmarshal_text by done. rewrite Hr. cbn [dr_provider dr_user dr_chat dr_message dr_type dr_text dr_media dr_received]. by rewrite Hm.
Qed.
End log_events.

Module LogEventsDemo.
Lemma log_event_roundtrip_witness :
  exists evs, @log_ParseWebhook LogDemo.env LogDemo.net (json_text_of None (event_json LogDemo.event)) = Ok evs /\ length evs = 1%nat.
Proof.
  eexists. split; [apply (@log_event_roundtrip LogDemo.env LogDemo.net LogDemo.event)|reflexivity].
  - vm_compute. reflexivity.
  - vm_compute. split; discriminate.
Defined.
End LogEventsDemo.
