(* ===== verification/Api.v ===== *)
(** * The inbound edge

    cmd/api: the webhook handler and the long-poll loop over the bot's
    [HandleEvent].  A request that is not authenticated, too large or malformed
    leaves the world as it was; an acknowledged one was handled to the end in that
    call; and the poll loop's offset passes a pending update only when an event of it
    was handled or the client quarantines it. *)
From Stdlib Require Import Ascii.
From S2P Require Import Prelude GoStrings Domain GoTime Json Normalise Unmarshal JsonRoundtrip Config Db Insight Parse Fields Objects Zalo BotCommands BotText Bot ZaloEvents LogProvider.

Definition maxWebhookBody : Z := 2 ^ 20.
Definition StatusOK : Z := 200.
Definition StatusBadRequest : Z := 400.
Definition StatusUnauthorized : Z := 401.
Definition StatusRequestEntityTooLarge : Z := 413.
Definition StatusInternalServerError : Z := 500.
Definition StatusServiceUnavailable : Z := 503.

Section api.
Context `{Env} `{Network} `{TzData} `{SqlLocale} (local : Location) (cfg : Config.Config) (objects : bool).

(** [for _, ev := range evs]: handled until one fails. *)
Fixpoint handle_events (evs : list InboundEvent) : Go bool :=
  match evs with
  | [] => ret true
  | ev :: rest =>
      let* r := attempt (HandleEvent local cfg objects ev) in
      match r with Ok _ => handle_events rest | Fail _ => ret false end
  end.

(** [webhook]: the status of the answer.  The body is read through
    http.MaxBytesReader, which fails past the limit. *)
Definition webhook (provider : Adapter) (headers : string -> string) (body : Reader) : Go Z :=
  if maxWebhookBody <? Z.of_nat (String.length (rd_bytes body)) then ret StatusRequestEntityTooLarge
  else match rd_err body with
  | Some _ => ret StatusBadRequest
  | None =>
      match adapter_Verify provider headers with
      | Fail _ => ret StatusUnauthorized
      | Ok _ =>
          let* now := time_Now in
          match adapter_Parse provider now (rd_bytes body) with
          | Fail _ => ret StatusBadRequest
          | Ok evs =>
              let* ok := handle_events evs in
              ret (if ok then StatusOK else StatusInternalServerError)
          end
      end
  end.

(** [healthz]: a ping of the database, which may fail like any statement. *)
Definition healthz : Go Z :=
  let* r := attempt may_fail in ret (match r with Ok _ => StatusOK | Fail _ => StatusServiceUnavailable end).

(** [registerZaloSlashMenu]: the call it makes, if any; its outcome is only logged. *)
Definition registerZaloSlashMenu (provider : Adapter) (t : nat) : option (Res Err unit) :=
  match provider with UseZalo c => Some (SetMyCommands c t SlashMenu) | UseLog => None end.

(** ** The poll loop *)

(** The handling of one batch: the next offset, and the events whose handling
    succeeded (which only the statements below speak about). *)
Fixpoint poll_events (offset next : Z) (evs : list InboundEvent) : Go (Z * list InboundEvent) :=
  match evs with
  | [] => ret (next, [])
  | ev :: rest =>
      let* r := attempt (HandleEvent local cfg objects ev) in
      match r with
      | Ok _ => let* out := poll_events offset next rest in ret (out.1, ev :: out.2)
      | Fail _ => ret (if 0 <? ev_update ev then ev_update ev else offset, [])
      end
  end.
(** One iteration of [pollLoop]; a failed poll is retried with the same offset. *)
Definition poll_once (c : Client) (offset : Z) : Go (Z * list InboundEvent) := fun w =>
  match GetUpdates c (w_tick w) offset with
  | Fail _ => (Ok (offset, []), tick w)
  | Ok (evs, next) => poll_events offset next evs (tick w)
  end.
Fixpoint pollLoop (n : nat) (c : Client) (offset : Z) : Go (Z * list InboundEvent) :=
  match n with
  | O => ret (offset, [])
  | S k =>
      let* out := poll_once c offset in
      let* more := pollLoop k c out.1 in
      ret (more.1, (out.2 ++ more.2)%list)
  end.

(** ** Shown *)

(** The events were handled one after the other, each without error, each from
    the world the one before it left. *)
Fixpoint handled_in_turn (evs : list InboundEvent) (w w' : World) : Prop :=
  match evs with
  | [] => w' = w
  | ev :: rest => exists w1, HandleEvent local cfg objects ev w = (Ok tt, w1) /\ handled_in_turn rest w1 w'
  end.
(** The first failure: those before it were handled, those after it not begun. *)
Definition failed_at (evs : list InboundEvent) (w w' : World) : Prop :=
  exists before ev after w1 e, evs = (before ++ ev :: after)%list /\ handled_in_turn before w w1 /\
    HandleEvent local cfg objects ev w1 = (Fail e, w').

Lemma handle_events_cases evs w : exists b w', handle_events evs w = (Ok b, w') /\
  if b then handled_in_turn evs w w' else failed_at evs w w'.
Proof.
  revert w. induction evs as [|ev rest IH]; intros w; simpl; [by exists true, w|]. unfold bind, attempt.
  destruct (HandleEvent local cfg objects ev w) as [[[]|e] w1] eqn:Hh; simpl.
  - destruct (IH w1) as (b & w' & -> & Hb). exists b, w'. split; [done|]. destruct b; [by exists w1|].
    destruct Hb as (before & ev' & after & w2 & e & -> & Hbef & Hf). exists (ev :: before), ev', after, w2, e.
    split_and!; [done|by exists w1|done].
  - exists false, w1. split; [done|]. by exists [], ev, rest, w, e.
Qed.

(** Nothing but the clock moved. *)
Definition untouched (w w' : World) : Prop := w' = w \/ w' = tick w.

(** C18: A webhook call always gets an answer.  200 or 500 means: the caller was
    authenticated, the body was within the limit and decoded.  With 200 the events of
    the body were handled in this call, all of them, in order and without error: the
    world after the call is the one the last of them left.  With 500 the events
    before the first that failed were handled so, the world is the one the failing
    event left, and the platform delivers the body again.  Any other answer left the
    world untouched. *)
Theorem webhook_answers provider headers body w : exists status w', webhook provider headers body w = (Ok status, w') /\
  (status = StatusOK \/ status = StatusInternalServerError ->
   adapter_Verify provider headers = Ok tt /\ Z.of_nat (String.length (rd_bytes body)) <= maxWebhookBody /\ rd_err body = None /\
   exists evs, adapter_Parse provider (wall_now (w_tick w)) (rd_bytes body) = Ok evs /\
     (status = StatusOK -> handled_in_turn evs (tick w) w') /\
     (status = StatusInternalServerError -> failed_at evs (tick w) w')) /\
  (status <> StatusOK -> status <> StatusInternalServerError ->
   (status = StatusRequestEntityTooLarge \/ status = StatusBadRequest \/ status = StatusUnauthorized) /\ untouched w w').
Proof.
  unfold webhook. destruct (Z.ltb_spec maxWebhookBody (Z.of_nat (String.length (rd_bytes body)))) as [Hl|Hl].
  { eexists _, _. split; [reflexivity|]. split; [by intros [?|?]|]. intros _ _. split; [by left|by left]. }
  destruct (rd_err body) eqn:He.
  { eexists _, _. split; [reflexivity|]. split; [by intros [?|?]|]. intros _ _. split; [by right; left|by left]. }
  destruct (adapter_Verify provider headers) as [[]|e] eqn:Hv.
  2: { eexists _, _. split; [reflexivity|]. split; [by intros [?|?]|]. intros _ _. split; [by right; right|by left]. }
  unfold bind at 1, time_Now. destruct (adapter_Parse _ _ _) as [evs|e] eqn:Hp.
  2: { eexists _, _. split; [reflexivity|]. split; [by intros [?|?]|]. intros _ _. split; [by right; left|by right]. }
  destruct (handle_events_cases evs (tick w)) as (b & w' & Hh & Hb). unfold bind. rewrite Hh. eexists _, _. split; [reflexivity|]. split.
  - intros _. split_and!; try done. exists evs. by destruct b.
  - intros Hn1 Hn2. by destruct b.
Qed.

(** ** The offset *)

(** What the loop does to the world: the clock moves and events are handled. *)
Inductive poll_step : World -> World -> Prop :=
| step_tick w : poll_step w (tick w)
| step_event ev w : poll_step w (snd (HandleEvent local cfg objects ev w)).
(** In a run from [w] to [w'] the event was handled without error. *)
Definition handled_between (w w' : World) (ev : InboundEvent) : Prop :=
  exists w1 w2, rtc poll_step w w1 /\ HandleEvent local cfg objects ev w1 = (Ok tt, w2) /\ rtc poll_step w2 w'.

Lemma handled_mono w0 w w' w1 ev : rtc poll_step w0 w -> rtc poll_step w' w1 -> handled_between w w' ev -> handled_between w0 w1 ev.
Proof. intros Hpre Hpost (a & b & Ha & Hh & Hb). exists a, b. split_and!; [by etrans|done|by etrans]. Qed.
Lemma poll_step_event ev w r w1 : HandleEvent local cfg objects ev w = (r, w1) -> rtc poll_step w w1.
Proof. intros Hh. apply rtc_once. pose proof (step_event ev w) as Hs. by rewrite Hh in Hs. Qed.

Definition ascending (evs : list InboundEvent) : Prop := StronglySorted (fun a b => ev_update a < ev_update b) evs.

Lemma poll_events_safe offset next evs w r w' : poll_events offset next evs w = (Ok r, w') -> ascending evs ->
  (forall ev, ev ∈ evs -> offset <= ev_update ev) -> offset <= next ->
  (forall ev, ev ∈ evs -> 0 < ev_update ev -> ev_update ev < next) ->
  rtc poll_step w w' /\ offset <= r.1 <= next /\
  (forall ev, ev ∈ evs -> 0 < ev_update ev -> ev_update ev < r.1 -> handled_between w w' ev).
Proof.
  revert w r w'. induction evs as [|ev rest IH]; intros w r w' Hr Hasc Hoff Hn Hlt; simpl in Hr.
  { apply ret_Ok in Hr as [<- ->]. split_and!; [done|simpl; lia..|]. by intros ev Hev%elem_of_nil. }
  apply StronglySorted_inv in Hasc as [Hasc Hhd]. rewrite Forall_forall in Hhd.
  assert (Hoff' := Hoff ev (list_elem_of_here _ _)). assert (Hlt' := Hlt ev (list_elem_of_here _ _)).
  apply bind_Ok in Hr as (res & w1 & Ha%attempt_Ok & Hr). pose proof (poll_step_event _ _ _ _ Ha) as Hstep. destruct res as [[]|e].
  - apply bind_Ok in Hr as (out & w2 & Hout & Hr). apply ret_Ok in Hr as [<- ->]. cbn [fst snd].
    destruct (IH _ _ _ Hout Hasc) as (Hrun & Hrange & Hin); [intros x Hx; apply Hoff; by apply list_elem_of_further|done| |].
    { intros x Hx. apply Hlt. by apply list_elem_of_further. }
    split_and!; [by etrans|lia..|]. intros x [->|Hx]%elem_of_cons Hpos Hx'; [by exists w, w1|].
    eapply handled_mono; [exact Hstep|reflexivity|by apply Hin].
  - apply ret_Ok in Hr as [<- ->]. cbn [fst snd]. destruct (Z.ltb_spec 0 (ev_update ev)).
    + split_and!; [done|lia..|]. intros x [->|Hx]%elem_of_cons Hpos Hx'; [lia|]. specialize (Hhd x Hx). lia.
    + split_and!; [done|lia..|]. intros x Hx Hpos Hx'. specialize (Hoff x Hx). lia.
Qed.

(** The Bot API's side of getUpdates, with the given updates pending: an answer to
    a request for an offset lists updates in ascending order, none below the offset
    or at the end of the integers, and no pending update is missing among those it
    passes. *)
Definition serves (c : Client) (pending : list string) : Prop := forall t offset resp answer entries,
  http_Do t (mkRequest (updates_url c offset) None) = Ok resp -> is_2xx (rs_status resp) = true ->
  ReadAllLimit (8 * 2 ^ 20) (rs_body resp) = Ok answer -> entries_of answer entries ->
  StronglySorted Z.lt (update_id <$> entries) /\ (forall raw, raw ∈ entries -> offset <= update_id raw < MaxInt64) /\
  (forall raw last, raw ∈ pending -> last ∈ entries -> offset <= update_id raw <= update_id last -> raw ∈ entries).

Lemma poll_once_safe c pending offset w r w' : serves c pending -> poll_once c offset w = (Ok r, w') ->
  rtc poll_step w w' /\ offset <= r.1 /\
  forall raw, raw ∈ pending -> 0 < update_id raw -> offset <= update_id raw < r.1 ->
    quarantined raw \/ exists ev, ev_raw ev = raw /\ ev_update ev = update_id raw /\ handled_between w w' ev.
Proof.
  intros Hs. unfold poll_once. destruct (GetUpdates c (w_tick w) offset) as [[evs next]|e] eqn:Hg.
  2: { intros [= <- <-]. cbn [fst]. split_and!; [apply rtc_once; constructor|lia|]. intros p _ _ ?. lia. }
  intros Hr. apply updates_accounted in Hg as (answer & entries & (resp & Hdo & Hread & H2xx)%post_Ok & Hent & -> & _ & Hnext).
  destruct (Hs _ _ _ _ _ Hdo H2xx Hread Hent) as (Hsort & Hrange & Hcover).
  assert (Hids : forall x, x ∈ batch (S (w_tick w)) entries -> exists raw, raw ∈ entries /\ x.2 = update_id raw).
  { intros x Hx. assert (x.2 ∈ (batch (S (w_tick w)) entries).*2) as Hx2 by (by apply list_elem_of_fmap_2).
    rewrite batch_ids in Hx2. apply list_elem_of_fmap in Hx2 as (raw & -> & Hraw). by exists raw. }
  destruct Hnext as (Hle & Hpast & Hlast); [apply Forall_forall; intros x (raw & Hraw & ->)%Hids; by apply Hrange|].
  rewrite Forall_forall in Hpast.
  destruct (poll_events_safe _ _ _ _ _ _ Hr (batch_sorted _ _ Hsort)) as (Hrun & Hout & Hin); [| done| |].
  { intros ev Hev. apply batch_events in Hev as [Hev ->]. by apply Hrange. }
  { intros ev Hev. pose proof (batch_events _ _ _ Hev) as [Hraw ->]. intros Hpos.
    assert (update_id (ev_raw ev) ∈ (batch (S (w_tick w)) entries).*2) as Hx by (rewrite batch_ids; by apply list_elem_of_fmap_2).
    apply list_elem_of_fmap in Hx as (x & Hid & Hx). destruct (Hpast x Hx); lia. }
  split_and!; [eapply rtc_l; [constructor|done]|lia|]. intros raw Hpend Hpos Hlt.
  destruct Hlast as [->|(x & Hx & _ & Hnx)%Exists_exists]; [lia|]. apply Hids in Hx as (last & Hl & Hxid).
  assert (raw ∈ entries) as Hraw by (apply (Hcover raw last); [done|done|lia]).
  destruct (batch_covers (S (w_tick w)) entries raw Hraw) as [Hq|(ev & Hev & He1 & He2)]; [by left|right].
  exists ev. split_and!; [done|done|]. eapply handled_mono; [apply rtc_once, step_tick|reflexivity|]. apply Hin; [done|lia|lia].
Qed.

(** C19: The poll loop passes no pending update over.  If the Bot API answers
    requests for updates in ascending order from the offset on, without leaving out a
    pending one among those it passes, then however many polls fail and whichever
    events fail to be handled: when the loop's offset has passed a pending update,
    then during the loop an event made of that very entry was handled without error,
    or the entry is one the client quarantines, because it does not decode or its
    message lacks an identifier. *)
Theorem poll_never_skips c pending n offset w out handled w' : serves c pending ->
  pollLoop n c offset w = (Ok (out, handled), w') ->
  offset <= out /\ forall raw, raw ∈ pending -> 0 < update_id raw -> offset <= update_id raw < out ->
    quarantined raw \/ exists ev, ev_raw ev = raw /\ ev_update ev = update_id raw /\ handled_between w w' ev.
Proof.
  intros Hs Hr. cut (rtc poll_step w w' /\ offset <= out /\ forall raw, raw ∈ pending -> 0 < update_id raw -> offset <= update_id raw < out ->
    quarantined raw \/ exists ev, ev_raw ev = raw /\ ev_update ev = update_id raw /\ handled_between w w' ev); [by intros [_ ?]|].
  revert offset w out handled w' Hr. induction n as [|n IH]; intros offset w out handled w' Hr; simpl in Hr.
  { apply ret_Ok in Hr as [[= <- <-] ->]. split_and!; [done|lia|]. intros p _ _ ?. lia. }
  apply bind_Ok in Hr as (r & w1 & Hone & Hr). apply bind_Ok in Hr as ([o2 h2] & w2 & Hmore & Hr). apply ret_Ok in Hr as [[= <- <-] ->].
  destruct (poll_once_safe _ _ _ _ _ _ Hs Hone) as (Hrun & Hle & Hin). destruct (IH _ _ _ _ _ Hmore) as (Hrun2 & Hle2 & Hin2).
  cbn [fst snd] in *. split_and!; [by etrans|lia|]. intros raw Hp Hpos Hlt. destruct (Z.lt_ge_cases (update_id raw) r.1).
  - destruct (Hin raw Hp Hpos ltac:(lia)) as [?|(ev & ? & ? & ?)]; [by left|right]. exists ev.
    split_and!; [done|done|]. eapply handled_mono; [reflexivity|exact Hrun2|done].
  - destruct (Hin2 raw Hp Hpos ltac:(lia)) as [?|(ev & ? & ? & ?)]; [by left|right]. exists ev.
    split_and!; [done|done|]. eapply handled_mono; [exact Hrun|reflexivity|done].
Qed.
End api.

Module ApiDemo.
#[local] Instance env : Env := demo_env no_faults (fun n => 1000 * Second + Z.of_nat n * Second).
#[local] Instance tz : TzData := {| LoadLocation := fun _ => Some UTC |}.
#[local] Instance names : NetParse := {| SplitHostPort := fun _ => true; url_Parse := fun s => Some ("https", "h", "h"); ParseDuration := fun _ => None |}.
Definition q := quoted.
Definition entry (id : string) : string := "{" ++ q "update_id" ++ ":" ++ id ++ "," ++ q "event_name" ++ ":" ++ q EventTextReceived ++ "," ++ q "message" ++
  ":{" ++ q "message_id" ++ ":" ++ id ++ "," ++ q "from" ++ ":{" ++ q "id" ++ ":" ++ q "u1" ++ "}," ++ q "chat" ++ ":{" ++ q "id" ++ ":" ++ q "c1" ++ "}," ++ q "text" ++ ":" ++ q "/help" ++ "}}".
(** A server with three updates pending: 7 and 9 are texts, 8 has no message. *)
Definition empty_update : string := "{" ++ q "update_id" ++ ":8}".
Definition pending : list string := [entry "7"; empty_update; entry "9"].
Definition offset_prefix : string := defaultAPIBase ++ "/bot1:a/getUpdates?offset=".
Definition from (offset : option Z) : list string :=
  match offset with
  | Some o => if o <=? 7 then pending else if o <=? 8 then [empty_update; entry "9"] else if o <=? 9 then [entry "9"] else []
  | None => []
  end.
Definition wrap (entries : list string) : string :=
  "{" ++ q "ok" ++ ":true," ++ q "result" ++ ":[" ++ String.concat "," entries ++ "]}".
Definition answer (offset : option Z) : string := wrap (from offset).
Definition batch_for (url : string) : string := answer (ParseInt (before_byte (drop (String.length offset_prefix) url) "&"%char)).
#[local] Instance net : Network := {| net_parse := names; url_error := fun s => s; json_error := fun s => s; ParseIP := fun _ => None;
  LookupIPAddr := fun _ _ => Ok []; http_Do := fun _ rq => Ok (mkResponse 200 "" (mkReader (batch_for (rq_url rq)) None));
  http_Get := fun _ _ => Fail (Sentinel "offline") |}.
Definition client : Client := New "1:a" "0123456789abcdef" "".
#[local] Instance locale : SqlLocale := {| text_leb := String.leb; sql_local_day := fun _ => None |}.

Lemma before_digits n rest : before_byte (Sprintd n ++ String "&" rest) "&"%char = Sprintd n.
Proof.
  assert (Hd : forall s, forall_bytes is_digit s = true -> before_byte (s ++ String "&" rest) "&"%char = s).
  { induction s as [|c s IH]; [done|]. simpl. rewrite andb_true_iff. intros [Hc%digit_bytes Hs]. idtac.
    destruct (Ascii.eqb_spec c "&"%char) as [->|_]; [change (byte_of "&"%char) with 38 in Hc; lia|]. by rewrite IH. }
  destruct (Z.ltb_spec n 0) as [Hn|Hn]; [|by apply Hd, Sprintd_spec].
  assert (Hs : Sprintd n = String (of_byte 45) (Sprintd (- n))).
  { unfold Sprintd. rewrite (proj2 (Z.ltb_lt n 0)), (proj2 (Z.ltb_ge (- n) 0)) by lia. done. }
  rewrite Hs, str_app_cons. cbn [before_byte]. change (Ascii.eqb (of_byte 45) "&"%char) with false. cbv match. f_equal. apply Hd, Sprintd_spec. lia.
Qed.
Lemma from_cases offset : from offset ∈ [pending; [empty_update; entry "9"]; [entry "9"]; []].
Proof. unfold from. repeat case_match; set_solver. Qed.
Lemma entries_demo offset entries : entries_of (answer offset) entries -> entries = from offset.
Proof.
  unfold answer, entries_of. intros (raw & Hu & He). pose proof (from_cases offset) as Hin. revert Hu He. generalize dependent (from offset).
  intros l Hin Hu He. repeat (apply elem_of_cons in Hin as [->|Hin]; [vm_compute in Hu; injection Hu as <-; vm_compute in He; by injection He as <-|]).
  by apply elem_of_nil in Hin.
Qed.
Lemma answered_demo t offset resp a : http_Do t (mkRequest (updates_url client offset) None) = Ok resp ->
  ReadAllLimit (8 * 2 ^ 20) (rs_body resp) = Ok a ->
  a = answer (if (MinInt64 <=? offset) && (offset <=? MaxInt64) then Some offset else None).
Proof.
  intros [= <-]. cbn [rs_body]. rewrite <- ParseInt_text.
  assert (Hurl : batch_for (updates_url client offset) = answer (ParseInt (Sprintd offset))) by (unfold batch_for; f_equal; f_equal; apply before_digits).
  unfold ReadAllLimit. cbn [rq_url rd_bytes rd_err]. rewrite Hurl. rewrite (proj2 (Z.leb_gt _ _)); [by intros [= <-]|].
  unfold answer. pose proof (from_cases (ParseInt (Sprintd offset))) as Hin. generalize dependent (from (ParseInt (Sprintd offset))). intros l Hin.
  repeat (apply elem_of_cons in Hin as [->|Hin]; [vm_compute; reflexivity|]). by apply elem_of_nil in Hin.
Qed.
Lemma demo_ids : update_id (entry "7") = 7 /\ update_id empty_update = 8 /\ update_id (entry "9") = 9.
Proof. vm_compute. split_and!; reflexivity. Qed.
Ltac members := repeat match goal with
  | X : _ ∈ _ :: _ |- _ => apply elem_of_cons in X as [->|X]
  | X : _ ∈ [] |- _ => by apply elem_of_nil in X
  end.
Lemma demo_serves : serves client pending.
Proof.
  intros t offset resp a entries Hdo _ Hread He. apply (answered_demo t offset resp a Hdo) in Hread. subst a. apply entries_demo in He as ->. clear.
  destruct demo_ids as (E7 & E8 & E9). unfold from.
  destruct ((MinInt64 <=? offset) && (offset <=? MaxInt64)); [|split_and!; [constructor|intros; members..]].
  destruct (Z.leb_spec offset 7); [|destruct (Z.leb_spec offset 8); [|destruct (Z.leb_spec offset 9)]];
    (split_and!; [unfold pending; cbn [fmap list_fmap]; rewrite ?E7, ?E8, ?E9; repeat constructor; lia
                 |unfold pending; intros raw Hr; members; rewrite ?E7, ?E8, ?E9; unfold MaxInt64; lia
                 |unfold pending; intros raw last Hp Hl; members; rewrite ?E7, ?E8, ?E9; first [lia|set_solver]]).
Qed.
(** Two polls against that server: the texts handled, the empty update passed. *)
Definition polled := pollLoop UTC ConfigDemo.loaded true 2 client 0 (world_of empty_db).
Lemma polled_offset : match polled.1 with Ok r => Some r.1 | Fail _ => None end = Some 10.
Proof. vm_compute. reflexivity. Qed.
Lemma decodes_demo name : name ∈ ["7"; "9"] -> ~ quarantined (entry name).
Proof. intros Hin. members; unfold quarantined; vm_compute; intros [e He]; discriminate He. Qed.
Lemma poll_never_skips_witness : serves client pending /\ quarantined empty_update /\
  exists handled w', polled = (Ok (10, handled), w') /\ forall name, name ∈ ["7"; "9"] ->
    exists ev, ev_raw ev = entry name /\ handled_between UTC ConfigDemo.loaded true (world_of empty_db) w' ev.
Proof.
  split; [exact demo_serves|]. split; [vm_compute; eexists; reflexivity|].
  pose proof polled_offset as Ho. destruct polled as [[[out handled]|e] w'] eqn:Hp; [|discriminate Ho].
  injection Ho as Ho. cbn [fst] in Ho. subst out. exists handled, w'. split; [reflexivity|]. intros name Hname.
  destruct (poll_never_skips UTC _ true client pending 2 0 _ 10 handled w' demo_serves Hp) as [_ Hin]. clear Hp.
  destruct demo_ids as (E7 & _ & E9).
  destruct (Hin (entry name)) as [Hq|(ev & Hr & _ & Hh)]; [unfold pending; members; set_solver|members; lia|members; lia| |].
  - by apply decodes_demo in Hq.
  - by exists ev.
Defined.
End ApiDemo.
