(* ===== verification/Extraction.v ===== *)
(** * Extraction results and the mock extractor

    What internal/receipt relies on in an extractor's answer ([contract]) and what
    that gives the reads of fields.go; internal/extraction/mock with its corpus. *)
From Stdlib Require Import Ascii SpecFloat.
From S2P Require Import Prelude GoStrings Domain GoTime Calendar Json Normalise Unmarshal JsonRoundtrip TimeText Db StoreTx Categorisation Templates Fields Objects.

(** ** The contract of contracts/events and extraction.Extractor

    Only the documented keys of ExtractionResult occur; a total is a non-negative
    int64 and comes with its currency; a date is RFC 3339 text, or empty with zero
    confidence.  [contract_with extra] allows the keys [extra] besides: the mock
    answers with a category, which is not a documented key. *)
Definition field_keys : list string := ["merchant"; "total_minor"; "currency"; "occurred_at"; "type_hint"].
Definition field_ok (key : string) (f : FieldValue) : Prop :=
  if String.eqb key "total_minor" then exists v, fv_normalised f = AnyInt64 v /\ 0 <= v <= MaxInt64
  else if String.eqb key "occurred_at" then exists s, fv_normalised f = AnyString s /\
    ((exists t, ParseRFC3339 s = Some t) \/ s = "" /\ fv_confidence f = float_zero)
  else exists s, fv_normalised f = AnyString s.
Record contract_with (extra : list string) (res : ExtractionResult) : Prop := {
  contract_fields : forall k f, er_fields res !! k = Some f -> k ∈ (extra ++ field_keys)%list /\ field_ok k f;
  contract_total : is_Some (er_fields res !! "total_minor") <-> is_Some (er_fields res !! "currency") }.
Definition contract : ExtractionResult -> Prop := contract_with [].

(** Dates that parse print as text that reads back. *)
Lemma number_bound s n : forall_bytes is_digit s = true -> (String.length s <= n)%nat -> 0 <= number s < 10 ^ Z.of_nat n.
Proof.
  intros Hd Hl. unfold number. pose proof (dec_value_bound s 0 ltac:(lia) Hd) as Hb. assert (10 ^ Z.of_nat (String.length s) <= 10 ^ Z.of_nat n) by (apply Z.pow_le_mono_r; lia). lia.
Qed.
Lemma span_digits_digits s : forall_bytes is_digit (span_digits s).1 = true.
Proof. induction s as [|c s IH]; [done|]. simpl. destruct (is_digit c) eqn:Hc; [|done]. simpl. by rewrite Hc, IH. Qed.
Lemma match_iso_year s y m d : match_iso s = Some (y, m, d) -> 0 <= y <= 9999.
Proof.
  unfold match_iso. intros Hm. repeat (apply bind_Some in Hm as (? & _ & Hm); cbv zeta in Hm). case_match eqn:Hc; [|done]. simplify_eq.
  rewrite !andb_true_iff, Nat.eqb_eq in Hc. destruct Hc as [[[Hl _] _] _]. pose proof (number_bound _ 4 (span_digits_digits s) ltac:(lia)). lia.
Qed.
Lemma match_dmy_year s y m d : match_dmy s = Some (y, m, d) -> 0 <= y <= 9999.
Proof.
  unfold match_dmy. intros Hm. repeat (apply bind_Some in Hm as (? & _ & Hm); cbv zeta in Hm). case_match eqn:Hc; [|done].
  rewrite !andb_true_iff, orb_true_iff, !Nat.eqb_eq in Hc. destruct Hc as [_ Hl].
  match type of Hm with context [number (span_digits ?r).1] => pose proof (number_bound _ 4 (span_digits_digits r) ltac:(lia)) end.
  repeat case_match; simplify_eq; lia.
Qed.
Lemma ParseDate_printable raw t : ParseDate raw UTC = Ok t -> printable t /\ t mod Second = 0.
Proof.
  assert (Hfin : forall y m d sec (err : Err), 0 <= y <= 9999 -> (if bool_decide (local_date UTC (Date y m d sec 0 UTC) = (y, m, d))
    then Ok (Date y m d sec 0 UTC) else Fail err) = Ok t -> printable t /\ t mod Second = 0).
  { intros y m d sec err Hy Hd. case_bool_decide as Hl; [|done]. injection Hd as <-. unfold printable. rewrite Hl. split; [exact Hy|].
    unfold Date. rewrite Z.add_0_r. by apply Z.mod_mul. }
  assert (Hyear : forall date y m d, match match_iso date with Some r => Some r | None => match_dmy date end = Some (y, m, d) -> 0 <= y <= 9999).
  { intros date y m d. destruct (match_iso date) as [r|] eqn:Hi; [|by apply match_dmy_year]. intros [= ->]. by eapply match_iso_year. }
  unfold ParseDate. cbv zeta. destruct (Fields _) as [|date [|clock [|]]]; try done;
    destruct (match match_iso date with Some r => Some r | None => _ end) as [[[y m] d]|] eqn:Hy; try done; apply Hyear in Hy.
  - by apply Hfin.
  - destruct (match_time clock) as [[h mi]|]; [|done]. destruct (_ || _); [done|]. by apply Hfin.
Qed.

Section reads.
Context `{FloatText}.

(** What the draft reads from such an answer: the total is there or reported as
    missing, never malformed. *)
Lemma contract_amount extra res : contract_with extra res ->
  (exists v, fieldInt res "total_minor" = Ok v /\ 0 <= v <= MaxInt64) \/
  fieldInt res "total_minor" = Fail (invalid "extraction missing total_minor").
Proof.
  intros [Hf _]. unfold fieldInt. destruct (er_fields res !! "total_minor") as [f|] eqn:Hl; [left|by right].
  destruct (Hf _ _ Hl) as [_ (v & -> & Hv)]. by exists v.
Qed.
(** A date that was read is the one the extractor wrote, in any user's zone. *)
Lemma contract_date res f t : er_fields res !! "occurred_at" = Some f -> fv_normalised f = AnyString (RFC3339 UTC t) ->
  TrimSpace (RFC3339 UTC t) = RFC3339 UTC t -> printable t -> t mod Second = 0 ->
  forall loc, fieldTime res "occurred_at" loc = Ok t.
Proof.
  intros Hl Hn Htrim Hp Hz loc. pose proof (RFC3339_read t Hp Hz) as Hr. unfold fieldTime, fieldString. rewrite Hl, Hn. cbn [sprint_v]. rewrite Htrim.
  destruct (String.eqb_spec (RFC3339 UTC t) "") as [He|_]; [by rewrite He in Hr|]. by rewrite Hr.
Qed.
End reads.

(** ** The rest of the policy in extractor.go *)
Definition ConfMerchantPrefill : float64 := float_of_decimal false 8 (-1).
Definition TypeNeedsConfirmation (t : TxType) : bool :=
  bool_decide (t = TxRefund) || bool_decide (t = TxTransfer) || bool_decide (t = TxIncome).

(** ** The mock extractor (mock.go, corpus.go) *)
Definition pct (n : Z) : float64 := float_of_decimal false n (-2).
Record corpusEntry := mkEntry {
  ce_id : string; ce_canonical : string; ce_merchantRaw : string; ce_merchantKey : string; ce_totalMinor : Z; ce_totalRaw : string;
  ce_currency : string; ce_currencyRaw : string; ce_occurredAt : option Time; ce_occurredRaw : string; ce_categoryKey : string;
  ce_txType : string; ce_typeHintRaw : string; ce_conf : gmap string float64; ce_warnings : list string; ce_unsupported : bool }.
Definition corpus_at (y m d hh mm : Z) : Time := Date y m d (hh * 3600 + mm * 60) 0 UTC.
Definition corpus : list corpusEntry :=
  [mkEntry "coopmart-clean" "Co.opmart" "CO.OPMART NGUYỄN TRÃI" "coopmart" 325000 "325.000 ₫" "VND" "₫"
     (Some (corpus_at 2026 7 15 9 24)) "15/07/2026 09:24" "thuc-pham" "expense" ""
     (list_to_map [("merchant", pct 98); ("total_minor", pct 99); ("currency", pct 99); ("occurred_at", pct 97); ("category", pct 95)]) [] false;
   mkEntry "highlands-clean" "Highlands Coffee" "HIGHLANDS COFFEE LÊ LAI" "highlands coffee" 65000 "65.000đ" "VND" "đ"
     (Some (corpus_at 2026 7 16 14 5)) "16/07/2026 14:05" "an-uong" "expense" ""
     (list_to_map [("merchant", pct 97); ("total_minor", pct 98); ("currency", pct 99); ("occurred_at", pct 96); ("category", pct 93)]) [] false;
   mkEntry "petrolimex-clean" "Petrolimex" "PETROLIMEX SÀI GÒN" "petrolimex" 500000 "500.000đ" "VND" "đ"
     (Some (corpus_at 2026 7 17 8 12)) "17/07/2026 08:12" "di-lai" "expense" ""
     (list_to_map [("merchant", pct 96); ("total_minor", pct 97); ("currency", pct 99); ("occurred_at", pct 95); ("category", pct 90)]) [] false;
   mkEntry "guardian-low-total" "Guardian" "GUARDIAN BẾN THÀNH" "guardian" 142000 "142.000đ" "VND" "đ"
     (Some (corpus_at 2026 7 14 19 41)) "14/07/2026 19:41" "suc-khoe" "expense" ""
     (list_to_map [("merchant", pct 94); ("total_minor", pct 72); ("currency", pct 98); ("occurred_at", pct 93); ("category", pct 88)]) [] false;
   mkEntry "shopee-refund" "Shopee" "SHOPEE VN" "shopee" 89000 "89.000đ" "VND" "đ"
     (Some (corpus_at 2026 7 13 11 2)) "13/07/2026 11:02" "hoan-tien" "refund" "HOAN TIEN"
     (list_to_map [("merchant", pct 95); ("total_minor", pct 96); ("currency", pct 99); ("occurred_at", pct 94); ("category", pct 97); ("type_hint", pct 99)]) [] false;
   mkEntry "vietcombank-transfer" "Vietcombank" "Vietcombank" "vietcombank" 1000000 "1.000.000đ" "VND" "đ"
     (Some (corpus_at 2026 7 12 16 30)) "12/07/2026 16:30" "chuyen-khoan" "transfer" "CHUYEN KHOAN"
     (list_to_map [("merchant", pct 90); ("total_minor", pct 95); ("currency", pct 99); ("occurred_at", pct 92); ("category", pct 96); ("type_hint", pct 98)]) [] false;
   mkEntry "woolworths-aud" "Woolworths" "Woolworths Metro" "woolworths" 1890 "A$18.90" "AUD" "A$"
     (Some (corpus_at 2026 3 12 10 45)) "12/03/2026" "thuc-pham" "expense" ""
     (list_to_map [("merchant", pct 91); ("total_minor", pct 93); ("currency", pct 97); ("occurred_at", pct 90); ("category", pct 86)]) [] false;
   mkEntry "coffeehouse-multi-total" "The Coffee House" "THE COFFEE HOUSE" "the coffee house" 87000 "87.000đ" "VND" "đ"
     (Some (corpus_at 2026 7 11 7 55)) "11/07/2026 07:55" "an-uong" "expense" ""
     (list_to_map [("merchant", pct 93); ("total_minor", pct 88); ("currency", pct 99); ("occurred_at", pct 91); ("category", pct 84)]) ["multiple_totals_detected"] false;
   mkEntry "grab-mid" "Grab" "GRAB BIKE" "grab" 52000 "52.000đ" "VND" "đ"
     (Some (corpus_at 2026 7 10 21 18)) "10/07/2026 21:18" "di-lai" "expense" ""
     (list_to_map [("merchant", pct 86); ("total_minor", pct 89); ("currency", pct 98); ("occurred_at", pct 88); ("category", pct 85)]) [] false;
   mkEntry "not-a-receipt" "" "" "" 0 "" "" ""
     None "" "" "" ""
     ∅ [] true].

(** [result]; a zero time formats as the first day of year one. *)
Definition at_or_zero (t : option Time) : Time := default (Date 1 1 1 0 0 UTC) t.
Definition entry_conf (e : corpusEntry) (k : string) : float64 := default float_zero (ce_conf e !! k).
Definition base_fields (e : corpusEntry) : gmap string FieldValue :=
  <["category" := mkValue (ce_categoryKey e) (AnyString (ce_categoryKey e)) (entry_conf e "category")]>
  (<["occurred_at" := mkValue (ce_occurredRaw e) (AnyString (RFC3339 UTC (at_or_zero (ce_occurredAt e)))) (entry_conf e "occurred_at")]>
  (<["merchant" := mkValue (ce_merchantRaw e) (AnyString (ce_merchantKey e)) (entry_conf e "merchant")]>
  (<["currency" := mkValue (ce_currencyRaw e) (AnyString (ce_currency e)) (entry_conf e "currency")]>
  {["total_minor" := mkValue (ce_totalRaw e) (AnyInt64 (ce_totalMinor e)) (entry_conf e "total_minor")]}))).
Definition entry_result (e : corpusEntry) (name version : string) : ExtractionResult :=
  let fields := if String.eqb (ce_typeHintRaw e) "" then base_fields e
                else <["type_hint" := mkValue (ce_typeHintRaw e) (AnyString (ce_txType e)) (entry_conf e "type_hint")]> (base_fields e) in
  mkResult (mkInfo name version) fields [] (ce_warnings e).

Section mock.
Context `{Env}.

(** [byID] *)
Definition byID (id : string) : option corpusEntry := List.find (fun e => String.eqb (ce_id e) id) corpus.
(** [indexFor]: the first eight bytes of the digest, sixteen of its hex digits. *)
Fixpoint hex_value (acc : Z) (s : string) : Z :=
  match s with "" => acc | String c s' => hex_value (16 * acc + hex_val c) s' end.
Definition indexFor (data : string) : nat := Z.to_nat (hex_value 0 (take 16 (sha256_hex data)) mod Z.of_nat (length corpus)).

(** [Extract]; [cancelled] is the context's error. *)
Definition not_a_receipt : Err := E CodeUnsupported "image is not a receipt" None.
Definition entry_answer (e : corpusEntry) : Res Err ExtractionResult :=
  if ce_unsupported e then Fail not_a_receipt else Ok (entry_result e "mock-corpus" "v1").
Definition mock_Extract (cancelled : option Err) (r : Reader) : Res Err ExtractionResult :=
  match cancelled with
  | Some err => Fail (E CodeTransient "extract cancelled" (Some err))
  | None =>
      match rd_err r with
      | Some err => Fail (E CodeTransient "reading receipt bytes" (Some err))
      | None =>
          let data := rd_bytes r in
          if HasPrefix data MockPrefix then
            let id := TrimSpace (drop (String.length MockPrefix) data) in
            match byID id with
            | None => Fail (E CodeValidation ("unknown mock fixture " ++ quoted id) None)
            | Some e => entry_answer e
            end
          else
            match corpus !! indexFor data with
            | Some e => entry_answer e
            | None => Fail (Sentinel "index out of range")
            end
      end
  end.

(** [Fixtures]: identifier, merchant key and the ground truth, key by key. *)
Record Fixture := mkFixture {
  fx_id : string; fx_merchantKey : string; fx_merchant : string; fx_total : Z; fx_currency : string; fx_type : string;
  fx_category : string; fx_occurred_at : string }.
Definition fixture_of (e : corpusEntry) : Fixture :=
  mkFixture (ce_id e) (ce_merchantKey e) (ce_canonical e) (ce_totalMinor e) (ce_currency e)
    (if ce_unsupported e then "unsupported" else ce_txType e) (ce_categoryKey e)
    (match ce_occurredAt e with None => "" | Some t => RFC3339 UTC t end).
Definition Fixtures : list Fixture := fixture_of <$> corpus.
End mock.

(** ** Every answer of the mock meets the contract, its category apart *)
Ltac in_list := repeat first [apply list_elem_of_here|apply list_elem_of_further].
Definition free_keys : list string := ["merchant"; "occurred_at"; "type_hint"].
Lemma free_key k : k ∈ free_keys -> k ∈ field_keys /\ k <> "total_minor" /\ k <> "currency".
Proof. intros Hk. repeat (apply elem_of_cons in Hk as [->|Hk]; [split; [in_list|done]|]). by apply elem_of_nil in Hk. Qed.

Lemma contract_insert_key extra name fields items warnings k f : contract_with extra (mkResult name fields items warnings) ->
  k ∈ (extra ++ field_keys)%list -> k <> "total_minor" -> k <> "currency" -> field_ok k f ->
  contract_with extra (mkResult name (<[k := f]> fields) items warnings).
Proof.
  intros [Hf Ht] Hin Hn1 Hn2 Hok. cbn [er_fields] in *. split; cbn [er_fields].
  - intros k' f'. rewrite lookup_insert_Some. intros [[<- <-]|[_ Hl]]; [done|by apply Hf].
  - by rewrite !lookup_insert_ne.
Qed.
Lemma contract_insert extra name fields items warnings k f : contract_with extra (mkResult name fields items warnings) ->
  k ∈ free_keys -> field_ok k f -> contract_with extra (mkResult name (<[k := f]> fields) items warnings).
Proof.
  intros Hc Hk. destruct (free_key k Hk) as (Hin & Hn1 & Hn2). apply contract_insert_key; try done. apply elem_of_app. by right.
Qed.
Lemma contract_pair extra name items warnings ft fc : field_ok "total_minor" ft -> field_ok "currency" fc ->
  contract_with extra (mkResult name (<["currency" := fc]> {["total_minor" := ft]}) items warnings).
Proof.
  intros Ht Hc. split; cbn [er_fields].
  - intros k f. rewrite lookup_insert_Some. intros [[<- <-]|[_ [<- <-]%lookup_singleton_Some]]; (split; [apply elem_of_app; right; in_list|done]).
  - split; intros _; eexists; reflexivity.
Qed.
Lemma contract_empty extra name items warnings : contract_with extra (mkResult name ∅ items warnings).
Proof. split; cbn [er_fields]; [done|]. by rewrite !lookup_empty. Qed.
Lemma contract_extras extra name fields items items' warnings warnings' :
  contract_with extra (mkResult name fields items warnings) -> contract_with extra (mkResult name fields items' warnings').
Proof. intros [Hf Ht]. by split. Qed.
Lemma text_ok k raw s conf : k ∈ ["merchant"; "type_hint"; "category"; "currency"] -> field_ok k (mkValue raw (AnyString s) conf).
Proof. intros Hk. repeat (apply elem_of_cons in Hk as [->|Hk]; [by exists s|]). by apply elem_of_nil in Hk. Qed.

Definition entry_ok (e : corpusEntry) : bool :=
  (0 <=? ce_totalMinor e) && (ce_totalMinor e <=? MaxInt64) && bool_decide (is_Some (ParseRFC3339 (RFC3339 UTC (at_or_zero (ce_occurredAt e))))).
Lemma corpus_ok : forallb entry_ok corpus = true.
Proof. vm_compute. reflexivity. Qed.
Lemma entry_contract e name version : entry_ok e = true -> contract_with ["category"] (entry_result e name version).
Proof.
  unfold entry_ok. rewrite !andb_true_iff, !Z.leb_le. intros [Hv Hd%bool_decide_eq_true].
  assert (Hbase : contract_with ["category"] (mkResult (mkInfo name version) (base_fields e) [] (ce_warnings e))).
  { unfold base_fields. apply contract_insert_key; [|in_list|done|done|apply text_ok; in_list]. apply contract_insert; [|in_list|].
    - apply contract_insert; [|in_list|apply text_ok; in_list]. apply contract_pair; [by exists (ce_totalMinor e)|apply text_ok; in_list].
    - eexists. split; [reflexivity|left]. destruct Hd as [t Ht]. by exists t. }
  unfold entry_result. destruct (String.eqb _ _); [exact Hbase|]. apply contract_insert; [exact Hbase|in_list|apply text_ok; in_list].
Qed.

Section mock_theorems.
Context `{Env}.

Lemma indexFor_bound data : (indexFor data < length corpus)%nat.
Proof. unfold indexFor. change (length corpus) with 10%nat. pose proof (Z.mod_pos_bound (hex_value 0 (take 16 (sha256_hex data))) 10 ltac:(lia)). lia. Qed.

Lemma mock_contract cancelled r res : mock_Extract cancelled r = Ok res -> contract_with ["category"] res.
Proof.
  assert (Ha : forall e, e ∈ corpus -> entry_answer e = Ok res -> contract_with ["category"] res).
  { intros e He. unfold entry_answer. destruct (ce_unsupported e); [done|]. intros [= <-]. apply entry_contract.
    pose proof corpus_ok as Hc. rewrite forallb_forall in Hc. apply Hc. by apply list_elem_of_In. }
  unfold mock_Extract. destruct cancelled; [done|]. destruct (rd_err r); [done|]. destruct (HasPrefix _ _).
  - destruct (byID _) as [e|] eqn:Hb; [|done]. apply Ha. apply List.find_some in Hb as [Hin _]. by apply list_elem_of_In.
  - destruct (corpus !! _) as [e|] eqn:Hl; [|done]. apply Ha. by eapply list_elem_of_lookup_2.
Qed.

(** The mock answers every image: one of the corpus entries, or that it is not a
    receipt; it never reads outside its corpus. *)
Lemma mock_answers_all data : HasPrefix data MockPrefix = false ->
  mock_Extract None (mkReader data None) = Fail not_a_receipt \/
  exists e, e ∈ corpus /\ mock_Extract None (mkReader data None) = Ok (entry_result e "mock-corpus" "v1").
Proof.
  intros Hp. unfold mock_Extract. cbn [rd_err rd_bytes]. rewrite Hp. destruct (corpus !! indexFor data) as [e|] eqn:Hl.
  - unfold entry_answer. destruct (ce_unsupported e); [by left|right]. exists e. split; [by eapply list_elem_of_lookup_2|done].
  - apply lookup_ge_None in Hl. pose proof (indexFor_bound data). lia.
Qed.

(** What an answer tells the draft. *)
Definition says `{FloatText} (res : ExtractionResult) (fx : Fixture) : Prop :=
  fieldInt res "total_minor" = Ok (fx_total fx) /\ fieldString res "currency" = fx_currency fx /\
  fieldString res "merchant" = fx_merchantKey fx /\ fieldString res "category" = fx_category fx /\
  (exists t, RFC3339 UTC t = fx_occurred_at fx /\ forall loc, fieldTime res "occurred_at" loc = Ok t) /\
  (fieldString res "type_hint" = if String.eqb (fx_type fx) "expense" then "" else fx_type fx).

Ltac each_entry He := repeat (apply elem_of_cons in He as [->|He]; [|]); [..|by apply elem_of_nil in He].
Lemma mock_by_id e : e ∈ corpus -> mock_Extract None (mkReader (MockPrefix ++ ce_id e) None) = entry_answer e.
Proof. intros He. each_entry He; vm_compute; reflexivity. Qed.
Lemma entry_says `{FloatText} e : e ∈ corpus -> ce_unsupported e = false -> says (entry_result e "mock-corpus" "v1") (fixture_of e).
Proof.
  intros He Hu. unfold says. split_and!; [..|exists (default 0 (ce_occurredAt e)); split; [|intros loc]|];
    (each_entry He; first [discriminate Hu|vm_compute; reflexivity]).
Qed.

(** The corpus and its ground truth agree: for every fixture, the bytes that name
    it extract to an answer from which the draft reads exactly its ground truth,
    and the fixture that is not a receipt is refused as such. *)
Theorem mock_ground_truth `{FloatText} fx : fx ∈ Fixtures ->
  match mock_Extract None (mkReader (MockPrefix ++ fx_id fx) None) with
  | Ok res => contract_with ["category"] res /\ says res fx
  | Fail e => fx_type fx = "unsupported" /\ e = not_a_receipt
  end.
Proof.
  intros (e & -> & He)%list_elem_of_fmap. cbn [fx_id fixture_of]. pose proof (mock_contract None (mkReader (MockPrefix ++ ce_id e) None)) as Hc.
  rewrite (mock_by_id e He) in *. pose proof (entry_says e He) as Hs. unfold entry_answer in *.
  destruct (ce_unsupported e) eqn:Hu; [by cbn; rewrite Hu|]. split; [by apply Hc|by apply Hs].
Qed.
End mock_theorems.
