(* ===== verification/Gemini.v ===== *)
(** * The vision-model extractor

    internal/extraction/gemini: the request, the shrinking of the image, the
    reading of the model's answer through the deterministic normalisers, and the
    classification of failures.  The image codecs are the class [ImageCodec]; a
    pixel is its colour converted to RGBA. *)
From Stdlib Require Import Ascii SpecFloat.
From S2P Require Import Prelude GoStrings Domain GoTime Calendar Json Normalise Unmarshal JsonRoundtrip TimeText Config Db StoreTx Categorisation.
From S2P Require Import Templates Fields Objects Processor Zalo Extraction.

Module Gemini.
Definition maxImageBytes : Z := 10 * 2 ^ 20.
Definition maxConf : float64 := f64_0_95.
Definition ocrMaxEdge : Z := 2048.
Definition ocrJPEGQuality : Z := 80.

Record Extractor := mkExtractor { g_key : string; g_model : string; g_base : string }.
(** [New] and the constructor register.go installs. *)
Definition New (apiKey model apiBase : string) : Extractor :=
  mkExtractor apiKey model (trim_slashes (String.length apiBase) apiBase).
Definition new_gemini (cfg : Config.Config) : Extractor := New (GeminiAPIKey cfg) (GeminiModel cfg) (GeminiAPIBase cfg).
Definition Name : string := "gemini-vision".

(** ** The image (downscale.go) *)
Record Image := mkImage { im_x : Z; im_y : Z; im_w : Z; im_h : Z; im_at : Z -> Z -> Z * Z * Z * Z }.
Class ImageCodec := {
  image_Decode : string -> option Image;
  jpeg_Encode : Image -> Z -> option string }.

(** [resizeNearest] *)
Definition resizeNearest (src : Image) (nw nh : Z) : Image :=
  mkImage 0 0 nw nh (fun x y => im_at src (im_x src + x * im_w src ÷ nw) (im_y src + y * im_h src ÷ nh)).
(** The target size of an image over the limit. *)
Definition scaled_size (w h : Z) : Z * Z :=
  let (nw, nh) := if h <=? w then (ocrMaxEdge, h * ocrMaxEdge ÷ w) else (w * ocrMaxEdge ÷ h, ocrMaxEdge) in
  (if nw <? 1 then 1 else nw, if nh <? 1 then 1 else nh).
(** [downscaleForOCR]: the bytes to send instead, as JPEG. *)
Definition downscaleForOCR `{ImageCodec} (data : string) : option string :=
  match image_Decode data with
  | None => None
  | Some img =>
      let w := im_w img in let h := im_h img in
      let large := (ocrMaxEdge <? w) || (ocrMaxEdge <? h) in
      let n := Z.of_nat (String.length data) in
      if (w <? 1) || (h <? 1) then None
      else if negb large && (n <=? 512 * 2 ^ 10) then None
      else
        let scaled := if large then resizeNearest img (scaled_size w h).1 (scaled_size w h).2 else img in
        match jpeg_Encode scaled ocrJPEGQuality with
        | None => None
        | Some out =>
            if String.eqb out "" || ((n <=? Z.of_nat (String.length out)) && negb large) then None else Some out
        end
  end.

(** ** The request *)
Definition quotes (s : string) : string := ReplaceAll s "'" (ch 34).
Definition extractionPrompt : string := quotes (Join [
  "You are reading a photo of a receipt, invoice or payment screenshot (Vietnamese or English).";
  "";
  "Extract the transaction fields and answer with STRICT JSON only, no markdown, no explanation:";
  "{";
  "  'is_receipt': true or false,";
  "  'merchant': 'merchant or store name as printed, or null',";
  "  'total': 'the FINAL amount payable, copied exactly as printed (e.g. \'325.000 ₫\'), or null',";
  "  'currency': 'ISO 4217 code only if certain from the document, else null',";
  "  'date': 'transaction date/time as printed, or null',";
  "  'type_hint': 'expense' | 'refund' | 'transfer' | null,";
  "  'line_items': [{'name': 'item', 'quantity': 1, 'amount': 'as printed'}],";
  "  'confidence': {'merchant': 0.0-1.0, 'total': 0.0-1.0, 'currency': 0.0-1.0, 'date': 0.0-1.0}";
  "}";
  "";
  "Rules:";
  "- If several totals appear (subtotal, discount, VAT), use the FINAL amount payable.";
  "- NEVER compute, convert or round amounts — copy them exactly as printed.";
  "- Set type_hint only when the document clearly says refund/transfer; otherwise null.";
  "- If the image is not a receipt or payment record, set 'is_receipt': false and all other fields null."] newline).

(** [base64.StdEncoding] *)
Definition base64_char (n : Z) : ascii :=
  of_byte (if n <? 26 then 65 + n else if n <? 52 then 71 + n else if n <? 62 then n - 4 else if n =? 62 then 43 else 47).
Definition pad_char : ascii := of_byte 61.
Fixpoint base64 (s : string) : string :=
  match s with
  | "" => ""
  | String a "" => let n := byte_of a * 16 in
      String (base64_char (n / 64)) (String (base64_char (n mod 64)) (String pad_char (String pad_char "")))
  | String a (String b "") => let n := (byte_of a * 256 + byte_of b) * 4 in
      String (base64_char (n / 4096)) (String (base64_char (n / 64 mod 64)) (String (base64_char (n mod 64)) (String pad_char "")))
  | String a (String b (String c rest)) => let n := (byte_of a * 256 + byte_of b) * 256 + byte_of c in
      String (base64_char (n / 262144)) (String (base64_char (n / 4096 mod 64)) (String (base64_char (n / 64 mod 64)) (String (base64_char (n mod 64)) (base64 rest))))
  end.

(** [buildRequest] *)
Definition request_json (image mime : string) (withThinking : bool) : json :=
  JObj [("contents", JArr [JObj [("role", JStr "user");
          ("parts", JArr [JObj [("text", JStr extractionPrompt)];
                          JObj [("inline_data", JObj [("mime_type", JStr mime); ("data", JStr (base64 image))])]])]]);
        ("generationConfig", JObj ([("responseMimeType", JStr "application/json")] ++
          (if withThinking then [("thinkingConfig", JObj [("thinkingLevel", JStr "minimal")])] else [])))].
Definition buildRequest (image mime : string) (withThinking : bool) : string := json_text_of None (request_json image mime withThinking).

(** ** The answer *)
(** [generateResponse]: the texts of the parts of every candidate. *)
Definition d_part : Decoder string := d_struct [("text", d_string)].
Definition d_candidate : Decoder (Slice string) := d_struct [("content", d_struct [("parts", d_slice "" d_part)])].
Definition d_generateResponse : Decoder (Slice (Slice string)) := d_struct [("candidates", d_slice nil_slice d_candidate)].

Record AnswerItem := mkAnswerItem { ai_name : string; ai_quantity : Z; ai_amount : string }.
Definition d_item : Decoder AnswerItem := d_struct
  [("name", at_field ai_name (fun x i => mkAnswerItem x (ai_quantity i) (ai_amount i)) d_string);
   ("quantity", at_field ai_quantity (fun x i => mkAnswerItem (ai_name i) x (ai_amount i)) d_int64);
   ("amount", at_field ai_amount (fun x i => mkAnswerItem (ai_name i) (ai_quantity i) x) d_string)].
Record modelAnswer := mkAnswer {
  ma_receipt : bool; ma_merchant : option string; ma_total : option string; ma_currency : option string; ma_date : option string;
  ma_hint : option string; ma_items : Slice AnswerItem; ma_conf : gmap string float64 }.
Definition zero_answer : modelAnswer := mkAnswer false None None None None None nil_slice ∅.
Definition d_text : Decoder (option string) := d_ptr "" d_string.
Definition d_answer : Decoder modelAnswer := d_struct
  [("is_receipt", at_field ma_receipt (fun x a => mkAnswer x (ma_merchant a) (ma_total a) (ma_currency a) (ma_date a) (ma_hint a) (ma_items a) (ma_conf a)) d_bool);
   ("merchant", at_field ma_merchant (fun x a => mkAnswer (ma_receipt a) x (ma_total a) (ma_currency a) (ma_date a) (ma_hint a) (ma_items a) (ma_conf a)) d_text);
   ("total", at_field ma_total (fun x a => mkAnswer (ma_receipt a) (ma_merchant a) x (ma_currency a) (ma_date a) (ma_hint a) (ma_items a) (ma_conf a)) d_text);
   ("currency", at_field ma_currency (fun x a => mkAnswer (ma_receipt a) (ma_merchant a) (ma_total a) x (ma_date a) (ma_hint a) (ma_items a) (ma_conf a)) d_text);
   ("date", at_field ma_date (fun x a => mkAnswer (ma_receipt a) (ma_merchant a) (ma_total a) (ma_currency a) x (ma_hint a) (ma_items a) (ma_conf a)) d_text);
   ("type_hint", at_field ma_hint (fun x a => mkAnswer (ma_receipt a) (ma_merchant a) (ma_total a) (ma_currency a) (ma_date a) x (ma_items a) (ma_conf a)) d_text);
   ("line_items", at_field ma_items (fun x a => mkAnswer (ma_receipt a) (ma_merchant a) (ma_total a) (ma_currency a) (ma_date a) (ma_hint a) x (ma_conf a)) (d_slice (mkAnswerItem "" 0 "") d_item));
   ("confidence", at_field ma_conf (fun x a => mkAnswer (ma_receipt a) (ma_merchant a) (ma_total a) (ma_currency a) (ma_date a) (ma_hint a) (ma_items a) x) (d_map float_zero d_float))].

Section gemini.
Context `{Env} `{Network} `{ImageCodec} (e : Extractor).

(** The trimmed text of a field that is there and not blank. *)
Definition printed (f : option string) : option string :=
  match f with
  | Some s => let v := TrimSpace s in if String.eqb v "" then None else Some v
  | None => None
  end.
(** The reported confidence of a field, within zero and the cap. *)
Definition conf (ans : modelAnswer) (field : string) : float64 :=
  let c := default float_zero (ma_conf ans !! field) in
  let c := if SFltb maxConf c then maxConf else c in
  if SFltb c float_zero then float_zero else c.
Definition f64_0_4 : float64 := float_of_decimal false 4 (-1).
Definition at_most (bound c : float64) : float64 := if SFltb bound c then bound else c.

(** The fields and warnings of a total that parses. *)
Definition declaredHint (ans : modelAnswer) : string :=
  match printed (ma_currency ans) with Some c => ToUpper c | None => "" end.
Definition total_fields (ans : modelAnswer) : gmap string FieldValue * list string :=
  match printed (ma_total ans) with
  | None => (∅, [])
  | Some v =>
      let hint := declaredHint ans in
      match ParseAmount v hint with
      | Fail _ => (∅, [])
      | Ok (minor, currency) =>
          let mismatch := negb (String.eqb hint "") && negb (String.eqb hint currency) in
          let totalConf := if mismatch then at_most f64_0_4 (conf ans "total") else conf ans "total" in
          let curConf := if mismatch then at_most f64_0_4 (conf ans "currency") else conf ans "currency" in
          (<["currency" := mkValue v (AnyString currency) curConf]> {["total_minor" := mkValue v (AnyInt64 minor) totalConf]},
           if mismatch then ["currency mismatch: declared " ++ hint ++ " vs parsed " ++ currency] else [])
      end
  end.
Definition add_merchant (ans : modelAnswer) (fields : gmap string FieldValue) : gmap string FieldValue :=
  match printed (ma_merchant ans) with
  | Some v => <["merchant" := mkValue v (AnyString (NormaliseMerchant v).2) (conf ans "merchant")]> fields
  | None => fields
  end.
Definition add_date (ans : modelAnswer) (fields : gmap string FieldValue) : gmap string FieldValue :=
  match printed (ma_date ans) with
  | Some v =>
      match ParseDate v UTC with
      | Ok t => <["occurred_at" := mkValue v (AnyString (RFC3339 UTC t)) (conf ans "date")]> fields
      | Fail _ => <["occurred_at" := mkValue v (AnyString "") float_zero]> fields
      end
  | None => fields
  end.
Definition add_hint (ans : modelAnswer) (fields : gmap string FieldValue) : gmap string FieldValue :=
  match ma_hint ans with
  | Some h =>
      let t := ToLower (TrimSpace h) in
      if String.eqb t "refund" || String.eqb t "transfer"
      then <["type_hint" := mkValue h (AnyString (ToLower h)) f64_0_9]> fields else fields
  | None => fields
  end.
Definition line_item (li : AnswerItem) : option LineItem :=
  if String.eqb (ai_name li) "" && String.eqb (ai_amount li) "" then None
  else Some (mkItem (ai_name li) (ai_quantity li) (match ParseAmount (ai_amount li) "" with Ok (minor, _) => minor | Fail _ => 0 end)).

(** The text of the model, without the fence it may put around its JSON. *)
Definition unfence (text : string) : string :=
  TrimSpace (TrimPrefix (trim_set ["`"] (TrimSpace text)) "json").
Definition result_of (ans : modelAnswer) : ExtractionResult :=
  let total := total_fields ans in
  mkResult (mkInfo Name (g_model e)) (add_hint ans (add_date ans (add_merchant ans total.1)))
    (omap line_item (slice_list (ma_items ans))) total.2.
(** [mapResponse] *)
Definition mapResponse (body : string) : Res Err ExtractionResult :=
  match Unmarshal d_generateResponse body nil_slice with
  | (_, false) => Fail (E CodeTransient "decode gemini response" (Some (Sentinel (json_error body))))
  | (gr, true) =>
      match head (slice_list gr) ≫= fun parts => head (slice_list parts) with
      | None => Fail (E CodeTransient "gemini returned no content" None)
      | Some text =>
          let raw := unfence text in
          match Unmarshal d_answer raw zero_answer with
          | (_, false) => Fail (E CodeTransient "model answer is not JSON" (Some (Sentinel (json_error raw))))
          | (ans, true) => if ma_receipt ans then Ok (result_of ans) else Fail not_a_receipt
          end
      end
  end.

(** [classifyStatus] *)
Definition gemini_status (status : Z) (body : string) : Err :=
  let snippet := TrimSpace body in
  let snippet := if (200 <? String.length snippet)%nat then take 200 snippet else snippet in
  if (status =? 401) || (status =? 403) then E CodeForbidden ("gemini auth rejected: " ++ snippet) None
  else if status =? 408 then E CodeTransient "gemini request timed out" None
  else if status =? 429 then E CodeTransient "gemini rate limited" None
  else if (400 <=? status) && (status <? 500) then E CodeValidation ("gemini rejected request: " ++ snippet) None
  else if 500 <=? status then E CodeTransient "gemini server error" None
  else E CodeTransient ("gemini unexpected status " ++ Sprintd status) None.
(** [thinkingRejected] *)
Definition thinkingRejected (err : Err) : bool := IsCode err CodeValidation && Contains (ToLower (error_string err)) "thinking".

(** [generate] at a tick; [expired] tells whether the job's context is over. *)
Definition model_url : string := g_base e ++ "/v1beta/models/" ++ g_model e ++ ":generateContent".
Definition generate (expired : nat -> bool) (t : nat) (image mime : string) (withThinking : bool) : Res Err ExtractionResult :=
  match url_Parse model_url with
  | None => Fail (E CodeInternal "build gemini request" (Some (Wrapped ("parse " ++ quoted model_url) (Sentinel (url_error model_url)))))
  | Some _ =>
      match http_Do t (mkRequest model_url (Some (buildRequest image mime withThinking))) with
      | Fail err => Fail (E CodeTransient (if expired t then "gemini call timed out" else "gemini call failed") (Some (Wrapped ("Post " ++ quoted model_url) err)))
      | Ok resp =>
          match ReadAllLimit (4 * 2 ^ 20) (rs_body resp) with
          | Fail err => Fail (E CodeTransient "read gemini response" (Some err))
          | Ok body => if rs_status resp =? 200 then mapResponse body else Fail (gemini_status (rs_status resp) body)
          end
      end
  end.

(** [Extract]; the second condition on the content type always holds after the
    first assignment. *)
Definition outgoing (data contentType : string) : string * string :=
  let mime := if String.eqb contentType "" || String.eqb contentType "text/plain" then "image/jpeg" else contentType in
  match (if String.eqb mime "text/plain" then None else downscaleForOCR data) with
  | Some scaled => (scaled, "image/jpeg")
  | None => (data, mime)
  end.
Definition Extract (expired : nat -> bool) (t : nat) (r : Reader) (contentType : string) : Res Err ExtractionResult :=
  match ReadAllLimit (maxImageBytes + 1) r with
  | Fail err => Fail (E CodeTransient "reading receipt bytes" (Some err))
  | Ok data =>
      if String.eqb data "" then Fail (E CodeValidation "empty image" None)
      else if maxImageBytes <? Z.of_nat (String.length data) then
        Fail (E CodeValidation ("image exceeds " ++ Sprintd maxImageBytes ++ " bytes") None)
      else
        let out := outgoing data contentType in
        match generate expired t out.1 out.2 true with
        | Fail err => if thinkingRejected err then generate expired (S t) out.1 out.2 false else Fail err
        | Ok res => Ok res
        end
  end.
End gemini.
End Gemini.

(** ** Confidences are numbers *)
Module Floats.
Definition not_nan (f : float64) : Prop := f <> S754_nan.

Lemma shr_1_nonneg r : 0 <= shr_m r -> 0 <= shr_m (shr_1 r).
Proof. destruct r as [[|[p|p|]|p] ? ?]; simpl; lia. Qed.
Lemma iter_nonneg p r : 0 <= shr_m r -> 0 <= shr_m (SpecFloat.iter_pos shr_1 p r).
Proof. revert r. induction p as [p IH|p IH|]; intros r Hr; simpl; [apply IH, IH, shr_1_nonneg, Hr|apply IH, IH, Hr|by apply shr_1_nonneg]. Qed.
Lemma shr_fexp_nonneg m e l : 0 <= m -> 0 <= shr_m (shr_fexp 53 1024 m e l).1.
Proof.
  intros Hm. unfold shr_fexp, shr. assert (0 <= shr_m (shr_record_of_loc m l)) by (by destruct l as [|[]]). destruct (_ - e); cbn [fst]; try done. by apply iter_nonneg.
Qed.
Lemma binary_round_number s m e : not_nan (binary_round 53 1024 s m e).
Proof.
  unfold binary_round. destruct (shl_align _ _ _) as [mz ez]. unfold binary_round_aux.
  pose proof (shr_fexp_nonneg (Z.pos mz) ez loc_Exact ltac:(lia)) as H1. destruct (shr_fexp 53 1024 (Z.pos mz) ez loc_Exact) as [r1 e1]. cbn [fst] in H1.
  assert (H2 : 0 <= round_nearest_even (shr_m r1) (loc_of_shr_record r1)) by (unfold round_nearest_even; repeat case_match; lia).
  pose proof (shr_fexp_nonneg _ e1 loc_Exact H2) as H3. destruct (shr_fexp 53 1024 _ e1 loc_Exact) as [r2 e2]. cbn [fst] in H3.
  destruct (shr_m r2); [done|case_match; done|lia].
Qed.
Lemma ParseFloat_number lit f : ParseFloat_lit lit = Some f -> not_nan f.
Proof.
  unfold ParseFloat_lit. cbv zeta. set (x := float_of_decimal _ _ _). assert (Hx : not_nan x); [|destruct x; intros [= <-]; done].
  unfold x, float_of_decimal, float_of_ratio, binary_normalize. repeat case_match; try done; apply binary_round_number.
Qed.
End Floats.

(** ** What the answer of the model can do *)
Import Gemini Floats.
Lemma field_for_In {A} (fields : list (string * A)) key d : field_for fields key = Some d -> exists k, In (k, d) fields.
Proof.
  unfold field_for. destruct (List.find (fun f => String.eqb f.1 key) fields) as [[k x]|] eqn:He; [intros [= <-]; apply List.find_some in He as [He _]; by exists k|].
  destruct (List.find (fun f => same_folded f.1 key) fields) as [[k x]|] eqn:Hs; [intros [= <-]; apply List.find_some in Hs as [Hs _]; by exists k|done].
Qed.
Lemma d_struct_keeps {T} (P : T -> Prop) (fields : list (string * Decoder T)) : (forall k d, In (k, d) fields -> forall rv old, P old -> P (d rv old).1) ->
  forall rv old, P old -> P (d_struct fields rv old).1.
Proof.
  intros Hf rv old Hold. unfold d_struct. destruct (rv.2); try exact Hold.
  match goal with |- P (fold_left ?f ?l ?a).1 => assert (Hg : forall l acc, P acc.1 -> P (fold_left f l acc).1); [|by apply Hg] end.
  intros l0; induction l0 as [|kv l0 IH]; intros acc Hacc; [done|]. simpl. apply IH.
  destruct (field_for fields kv.1) as [d|] eqn:Hd; [|done]. apply field_for_In in Hd as [k Hk]. by apply (Hf k d Hk).
Qed.
Definition numeric (ans : modelAnswer) : Prop := map_Forall (fun _ => not_nan) (ma_conf ans).
Lemma d_float_numeric rv old : not_nan old -> not_nan (d_float rv old).1.
Proof. intros Ho. unfold d_float. repeat case_match; try done. by eapply ParseFloat_number. Qed.
Lemma d_conf_numeric rv old : map_Forall (fun _ => not_nan) old -> map_Forall (fun _ => not_nan) (d_map float_zero d_float rv old).1.
Proof.
  intros Ho. unfold d_map. destruct (rv.2); try exact Ho; [by apply map_Forall_empty|].
  match goal with |- map_Forall _ (fold_left ?f ?l ?a).1 => assert (Hg : forall l acc, map_Forall (fun _ => not_nan) acc.1 -> map_Forall (fun _ => not_nan) (fold_left f l acc).1); [|by apply Hg] end.
  intros l0; induction l0 as [|kv l0 IH]; intros acc Hacc; [done|]. simpl. apply IH. cbn [fst]. apply map_Forall_insert_2; [by apply d_float_numeric|done].
Qed.
Lemma answer_numeric raw ans ok : Unmarshal d_answer raw zero_answer = (ans, ok) -> numeric ans.
Proof.
  unfold Unmarshal. destruct (parse_json raw) as [v|]; [|intros [= <- _]; apply map_Forall_empty].
  intros He. change ans with (ans, ok).1. rewrite <- He. apply (d_struct_keeps numeric); [|apply map_Forall_empty].
  intros k d Hin rv old Hold. repeat destruct Hin as [[= <- <-]|Hin]; try exact Hold; [|done]. by apply d_conf_numeric.
Qed.

Section gemini_theorems.
Context `{Env} `{Network} `{ImageCodec} (e : Gemini.Extractor).

(** Within zero and the cap. *)
Definition capped (c : float64) : Prop := not_nan c /\ SFltb maxConf c = false /\ SFltb c float_zero = false.
Lemma conf_capped ans field : numeric ans -> capped (conf ans field).
Proof.
  intros Hn. unfold conf. assert (Hc : not_nan (default float_zero (ma_conf ans !! field))).
  { destruct (ma_conf ans !! field) as [c|] eqn:Hl; [by apply (Hn field c)|done]. }
  set (c := default _ _) in *. clearbody c. cbv zeta.
  destruct (SFltb maxConf c) eqn:Hmax; [|destruct (SFltb c float_zero) eqn:Hz]; (split; [done|by vm_compute || done]).
Qed.
Lemma capped_consts : capped float_zero /\ capped f64_0_9.
Proof. by split; split; vm_compute. Qed.
Lemma at_most_capped c : capped c -> capped (at_most f64_0_4 c) /\ SFltb (at_most f64_0_4 c) f64_0_95 = true.
Proof.
  intros (Hn & Hc). unfold at_most. destruct (SFltb f64_0_4 c) eqn:Hlt; [by split; [split|]; vm_compute|]. split; [done|].
  change f64_0_4 with (S754_finite false 7205759403792794 (-54)) in Hlt. destruct c as [[]|[]| |[] m ex]; try done.
  unfold SFltb, SFcompare, f64_0_95 in *. destruct (Z.compare_spec (-54) ex) as [<-|Hex|Hex]; [done|done|].
  by rewrite (proj2 (Z.compare_lt_iff ex (-53)) ltac:(lia)).
Qed.

Lemma total_fields_spec ans : numeric ans -> let tf := total_fields ans in
  (tf = (∅, []) /\ (printed (ma_total ans) = None \/ exists v err, printed (ma_total ans) = Some v /\ ParseAmount v (declaredHint ans) = Fail err)) \/
  exists v minor cur tc cc, printed (ma_total ans) = Some v /\ ParseAmount v (declaredHint ans) = Ok (minor, cur) /\
    tf.1 = <["currency" := mkValue v (AnyString cur) cc]> {["total_minor" := mkValue v (AnyInt64 minor) tc]} /\ capped tc /\ capped cc /\
    (declaredHint ans <> "" -> declaredHint ans <> cur ->
     FieldNeedsFlag "total_minor" tc = true /\ FieldNeedsFlag "currency" cc = true /\ tf.2 <> []).
Proof.
  intros Hn. unfold total_fields. destruct (printed (ma_total ans)) as [v|] eqn:Hp; [|left; split; [done|by left]].
  destruct (ParseAmount v (declaredHint ans)) as [[minor cur]|err] eqn:Ha; [|left; split; [done|right; by exists v, err]]. right.
  exists v, minor, cur. pose proof (conf_capped ans "total" Hn) as Ht. pose proof (conf_capped ans "currency" Hn) as Hc.
  destruct (at_most_capped _ Ht) as [Ht1 Ht2], (at_most_capped _ Hc) as [Hc1 Hc2].
  destruct (String.eqb_spec (declaredHint ans) "") as [He|He]; [|destruct (String.eqb_spec (declaredHint ans) cur) as [He2|He2]];
    cbn [negb andb]; cbv match; do 2 eexists; split_and!; try done; intros; done.
Qed.
Lemma adds_lookup ans m k : k <> "merchant" -> k <> "occurred_at" -> k <> "type_hint" ->
  add_hint ans (add_date ans (add_merchant ans m)) !! k = m !! k.
Proof.
  intros Hk1 Hk2 Hk3. unfold add_hint, add_date, add_merchant. repeat case_match; rewrite ?lookup_insert_ne by done; done.
Qed.
Lemma date_ok v t c : ParseDate v UTC = Ok t -> field_ok "occurred_at" (mkValue v (AnyString (RFC3339 UTC t)) c).
Proof. intros [Hp Hz]%ParseDate_printable. eexists. split; [reflexivity|left]. exists t. by apply RFC3339_read. Qed.
Lemma adds_contract ans name m items warnings : contract (mkResult name m items warnings) ->
  contract (mkResult name (add_hint ans (add_date ans (add_merchant ans m))) items warnings).
Proof.
  intros Hm. assert (Hc1 : contract (mkResult name (add_merchant ans m) items warnings)).
  { unfold add_merchant. destruct (printed _); [|done]. apply contract_insert; [done|in_list|apply text_ok; in_list]. }
  assert (Hc2 : contract (mkResult name (add_date ans (add_merchant ans m)) items warnings)).
  { unfold add_date. destruct (printed _) as [v|]; [|done]. destruct (ParseDate v UTC) as [t|] eqn:Hd; (apply contract_insert; [done|in_list|]).
    - by apply date_ok.
    - exists "". split; [done|by right]. }
  unfold add_hint. repeat case_match; try done. apply contract_insert; [done|in_list|apply text_ok; in_list].
Qed.
Lemma result_contract ans : numeric ans -> contract (result_of e ans).
Proof.
  intros Hn. unfold result_of. apply adds_contract. destruct (total_fields_spec ans Hn) as [[-> _]|(v & minor & cur & tc & cc & _ & Ha & -> & _)].
  - apply contract_empty.
  - apply contract_pair; [|apply text_ok; in_list]. apply ParseAmount_value in Ha as [Hb _]. by exists minor.
Qed.
Lemma result_capped ans k f : numeric ans -> er_fields (result_of e ans) !! k = Some f -> capped (fv_confidence f).
Proof.
  intros Hn. cbn [er_fields result_of]. pose proof capped_consts as [Hz H9].
  assert (Hall : map_Forall (fun _ f => capped (fv_confidence f)) (add_hint ans (add_date ans (add_merchant ans (total_fields ans).1)))); [|by intros Hl; apply (Hall k f)].
  assert (Hc0 : map_Forall (fun _ f => capped (fv_confidence f)) (total_fields ans).1).
  { destruct (total_fields_spec ans Hn) as [[-> _]|(v & minor & cur & tc & cc & _ & _ & -> & Ht & Hc & _)]; [apply map_Forall_empty|].
    apply map_Forall_insert_2; [done|]. by apply map_Forall_singleton. }
  assert (Hc1 : map_Forall (fun _ f => capped (fv_confidence f)) (add_merchant ans (total_fields ans).1)).
  { unfold add_merchant. destruct (printed _); [|done]. apply map_Forall_insert_2; [by apply conf_capped|done]. }
  assert (Hc2 : map_Forall (fun _ f => capped (fv_confidence f)) (add_date ans (add_merchant ans (total_fields ans).1))).
  { unfold add_date. repeat case_match; try done; (apply map_Forall_insert_2; [|done]); [by apply conf_capped|done]. }
  unfold add_hint. repeat case_match; try done. by apply map_Forall_insert_2.
Qed.

(** The model's answer inside a response of the API. *)
Definition answer_in (body : string) (ans : modelAnswer) : Prop := exists gr text,
  Unmarshal d_generateResponse body nil_slice = (gr, true) /\ head (slice_list gr) ≫= (fun parts => head (slice_list parts)) = Some text /\
  Unmarshal d_answer (unfence text) zero_answer = (ans, true).
Lemma mapResponse_Ok body res : mapResponse e body = Ok res ->
  exists ans, answer_in body ans /\ ma_receipt ans = true /\ numeric ans /\ res = result_of e ans.
Proof.
  unfold mapResponse. destruct (Unmarshal d_generateResponse body nil_slice) as [gr [|]] eqn:Hg; [|done].
  destruct (head (slice_list gr) ≫= _) as [text|] eqn:Ht; [|done]. destruct (Unmarshal d_answer _ _) as [ans [|]] eqn:Ha; [|done].
  destruct (ma_receipt ans) eqn:Hr; [|done]. intros [= <-]. exists ans. split_and!; [by exists gr, text|done|by eapply answer_numeric|done].
Qed.

Lemma gemini_contract body res : mapResponse e body = Ok res -> contract res.
Proof. intros (ans & _ & _ & Hn & ->)%mapResponse_Ok. by apply result_contract. Qed.

(** C20: The model only reads.  The total of a result is what the amount parser makes
    of the text the model copied, under the currency it declared, with the currency
    that parse found; it is left out exactly when there is no text or the text does
    not parse, and when the declared currency disagrees both fields are flagged on
    the card.  No confidence is above the cap, no field is outside the contract. *)
Theorem gemini_only_reads body res : mapResponse e body = Ok res ->
  contract res /\ (forall k f, er_fields res !! k = Some f -> capped (fv_confidence f)) /\
  exists ans, answer_in body ans /\ ma_receipt ans = true /\
    (er_fields res !! "total_minor" = None <-> forall v, printed (ma_total ans) = Some v -> exists err, ParseAmount v (declaredHint ans) = Fail err) /\
    (forall f, er_fields res !! "total_minor" = Some f -> exists minor cur fc,
       printed (ma_total ans) = Some (fv_raw f) /\ ParseAmount (fv_raw f) (declaredHint ans) = Ok (minor, cur) /\ fv_normalised f = AnyInt64 minor /\
       er_fields res !! "currency" = Some fc /\ fv_normalised fc = AnyString cur /\
       (declaredHint ans <> "" -> declaredHint ans <> cur -> FieldNeedsFlag "total_minor" (fv_confidence f) = true /\
        FieldNeedsFlag "currency" (fv_confidence fc) = true /\ er_warnings res <> [])).
Proof.
  intros (ans & Hans & Hr & Hn & ->)%mapResponse_Ok. split; [by apply result_contract|]. split; [by intros k f; apply result_capped|].
  exists ans. split; [done|]. split; [done|]. cbn [er_fields er_warnings result_of]. rewrite !adds_lookup by done.
  destruct (total_fields_spec ans Hn) as [[-> Hno]|(v & minor & cur & tc & cc & Hp & Ha & Hf & _ & _ & Hflag)].
  - cbn [fst]. rewrite lookup_empty. split; [|done]. split; [|done]. intros _ v Hv. destruct Hno as [Hno|(v' & err & Hv' & Herr)]; [congruence|].
    rewrite Hv in Hv'. injection Hv' as <-. by exists err.
  - rewrite Hf. rewrite lookup_insert_ne, lookup_singleton_eq by done. split; [split; [done|]; intros Hall; destruct (Hall v Hp) as [err Herr]; congruence|].
    intros f [= <-]. cbn [fv_raw fv_normalised fv_confidence]. exists minor, cur, (mkValue v (AnyString cur) cc). by split_and!.
Qed.

(** A result, or an image that is not a receipt, comes only out of an answer the
    API gave with status 200; an image is refused for its size or as empty before
    anything is sent. *)
Definition answered (t : nat) (image mime : string) (thinking : bool) (body : string) : Prop := exists resp,
  http_Do t (mkRequest (model_url e) (Some (buildRequest image mime thinking))) = Ok resp /\ rs_status resp = 200 /\
  ReadAllLimit (4 * 2 ^ 20) (rs_body resp) = Ok body.
Lemma generate_answers expired t image mime thinking r : generate e expired t image mime thinking = r ->
  (exists body, answered t image mime thinking body /\ r = mapResponse e body) \/
  exists err, r = Fail err /\ CodeOf err <> CodeUnsupported.
Proof.
  unfold generate, answered. intros <-. destruct (url_Parse _); [|right; eexists; by split]. destruct (http_Do _ _) as [resp|]; [|right; eexists; by split].
  destruct (ReadAllLimit _ _) as [body|] eqn:Hread; [|right; eexists; by split]. destruct (Z.eqb_spec (rs_status resp) 200).
  - left. exists body. split; [by exists resp|done].
  - right. eexists. split; [done|]. unfold gemini_status. cbv zeta. repeat case_match; done.
Qed.
Theorem gemini_answers expired t r contentType : match Gemini.Extract e expired t r contentType with
  | Ok _ => True
  | Fail err => CodeOf err = CodeUnsupported
  end -> exists t' image mime thinking body, answered t' image mime thinking body /\
    (t' = t /\ thinking = true \/ t' = S t /\ thinking = false) /\ mapResponse e body = Gemini.Extract e expired t r contentType.
Proof.
  unfold Gemini.Extract. destruct (ReadAllLimit _ r) as [data|]; [|done]. destruct (String.eqb data ""); [done|]. destruct (_ <? _); [done|]. cbv zeta.
  set (out := outgoing data contentType). destruct (generate e expired t out.1 out.2 true) as [res|err] eqn:Hg.
  - intros _. apply generate_answers in Hg as [(body & Hb & He)|(err & He & _)]; [|done]. exists t, out.1, out.2, true, body. split_and!; [done|by left|done].
  - destruct (thinkingRejected err) eqn:Ht.
    + destruct (generate e expired (S t) out.1 out.2 false) as [res|err2] eqn:Hg2; intros Hc;
        (apply generate_answers in Hg2 as [(body & Hb & He)|(err' & He & Hne)]; [|simplify_eq; done]);
        exists (S t), out.1, out.2, false, body; (split_and!; [done|by right|done]).
    + intros Hc. apply generate_answers in Hg as [(body & Hb & He)|(err' & He & Hne)]; [|simplify_eq; done].
      exists t, out.1, out.2, true, body. split_and!; [done|by left|done].
Qed.

(** The image that is sent: never empty, its edges between one pixel and the limit
    when it was shrunk, and the shrinking reads only pixels of the original. *)
Lemma scaled_size_bounds w h : 1 <= w -> 1 <= h ->
  1 <= (scaled_size w h).1 <= ocrMaxEdge /\ 1 <= (scaled_size w h).2 <= ocrMaxEdge.
Proof.
  intros Hw Hh. assert (Hq : forall a b, 1 <= a <= b -> 0 <= a * ocrMaxEdge ÷ b <= ocrMaxEdge).
  { intros a b Hab. unfold ocrMaxEdge. split; [apply Z.quot_pos; lia|]. apply Z.quot_le_upper_bound; nia. }
  unfold scaled_size. destruct (Z.leb_spec h w); cbn [fst snd].
  - specialize (Hq h w ltac:(lia)). unfold ocrMaxEdge in *. repeat case_match; lia.
  - specialize (Hq w h ltac:(lia)). unfold ocrMaxEdge in *. repeat case_match; lia.
Qed.
Lemma resize_in_bounds src nw nh x y : 1 <= im_w src -> 1 <= im_h src -> 0 <= x < nw -> 0 <= y < nh ->
  exists sx sy, im_at (resizeNearest src nw nh) x y = im_at src sx sy /\ im_x src <= sx < im_x src + im_w src /\ im_y src <= sy < im_y src + im_h src.
Proof.
  assert (Hq : forall a b w, 0 <= a < b -> 1 <= w -> 0 <= a * w ÷ b < w).
  { intros a b w Hab Hw. split; [apply Z.quot_pos; nia|]. apply Z.quot_lt_upper_bound; nia. }
  intros Hw Hh Hx Hy. eexists _, _. split; [reflexivity|]. pose proof (Hq x nw _ Hx Hw). pose proof (Hq y nh _ Hy Hh). lia.
Qed.
End gemini_theorems.

Module GeminiDemo.
#[local] Instance env : Env := demo_env no_faults (fun n => Z.of_nat n * Second).
#[local] Instance names : NetParse := {| SplitHostPort := fun _ => true; url_Parse := fun _ => Some ("https", "h", "h"); ParseDuration := fun _ => None |}.
Definition reply (text : string) : string :=
  json_text_of None (JObj [("candidates", JArr [JObj [("content", JObj [("parts", JArr [JObj [("text", JStr text)]])])]])]).
Definition answer_json (total currency date quantity : string) : string :=
  quotes ("{'is_receipt': true, 'merchant': ' Co.opmart ', 'total': '" ++ total ++ "', 'currency': '" ++ currency ++ "', 'date': '" ++ date ++
    "', 'type_hint': null, 'line_items': [{'name': 'gao', 'quantity': " ++ quantity ++ ", 'amount': '325.000'}], 'confidence': {'merchant': 0.9, 'total': 1, 'currency': 1.0, 'date': 0.97}}").
Definition fenced (s : string) : string := "```json" ++ newline ++ s ++ newline ++ "```".
(** A server that does not know the thinking option. *)
Definition serve (rq : Request) : Response :=
  if Contains (default "" (rq_body rq)) "thinkingConfig" then mkResponse 400 "" (mkReader "unknown field thinkingConfig" None)
  else mkResponse 200 "" (mkReader (reply (fenced (answer_json "325.000 ₫" "VND" "15/07/2026 20:00" "1"))) None).
#[local] Instance net : Network := {| net_parse := names; url_error := fun s => s; json_error := fun _ => "invalid"; ParseIP := fun _ => None;
  LookupIPAddr := fun _ _ => Ok []; http_Do := fun _ rq => Ok (serve rq); http_Get := fun _ _ => Fail (Sentinel "offline") |}.
#[local] Instance codec : ImageCodec := {| image_Decode := fun _ => None; jpeg_Encode := fun _ _ => None |}.
#[local] Instance floats : FloatText := {| float_text := fun _ => "" |}.
Definition ex : Gemini.Extractor := Gemini.New "key" "gemini-3.6-flash" "https://h/".
Definition body : string := reply (fenced (answer_json "325.000 ₫" "VND" "15/07/2026 20:00" "1")).
Definition mismatched : string := reply (answer_json "325.000 ₫" "USD" "" "1").
Definition field (b k : string) : option FieldValue := match mapResponse ex b with Ok res => er_fields res !! k | Fail _ => None end.

Example read_ex :
  fv_normalised <$> field body "total_minor" = Some (AnyInt64 325000) /\ fv_normalised <$> field body "currency" = Some (AnyString "VND") /\
  fv_normalised <$> field body "occurred_at" = Some (AnyString "2026-07-15T20:00:00Z") /\ fv_raw <$> field body "merchant" = Some "Co.opmart" /\
  fv_confidence <$> field body "total_minor" = Some f64_0_95 /\ base64 "Man" = "TWFu" /\ base64 "Ma" = "TWE=" /\ base64 "M" = "TQ==".
Proof. vm_compute. by split_and!. Qed.

(** The declared currency disagrees with the printed one. *)
Lemma mismatched_total : field mismatched "total_minor" = Some (mkValue "325.000 ₫" (AnyInt64 325000) f64_0_4).
Proof. vm_compute. reflexivity. Qed.
Lemma gemini_only_reads_witness : exists res, mapResponse ex mismatched = Ok res /\ contract res /\
  exists f fc cur, er_fields res !! "total_minor" = Some f /\ er_fields res !! "currency" = Some fc /\ fv_normalised fc = AnyString cur.
Proof.
  pose proof mismatched_total as Hf. unfold field in Hf. destruct (mapResponse ex mismatched) as [res|err] eqn:Hm; [|discriminate Hf].
  destruct (gemini_only_reads ex mismatched res Hm) as (Hc & _ & ans & _ & _ & _ & Hall).
  clear Hm. exists res. split; [reflexivity|]. split; [exact Hc|]. destruct (Hall _ Hf) as (minor & cur & fc & _ & _ & _ & Hl & Hn & _).
  eexists _, fc, cur. exact (conj Hf (conj Hl Hn)).
Defined.

(** The server refuses the thinking option, and the call is repeated without it. *)
Definition total_of (r : Res Err ExtractionResult) : option Z := match r with Ok res => match fieldInt res "total_minor" with Ok v => Some v | Fail _ => None end | Fail _ => None end.
Example thinking_retry : total_of (Gemini.Extract ex (fun _ => false) 0 (mkReader "image" None) "image/png") = Some 325000.
Proof. vm_compute. reflexivity. Qed.
(** A receipt of eight in the evening, read as UTC, falls on the next day where it
    was printed. *)
Definition hanoi : Location := fixed_zone 25200 ltac:(lia).
Example evening_dated_next_day :
  match mapResponse ex body with Ok res => match fieldTime res "occurred_at" hanoi with Ok t => DateVN t hanoi | Fail _ => "" end | Fail _ => "" end = "16/07/2026" /\
  match ParseDate "15/07/2026 20:00" hanoi with Ok t => DateVN t hanoi | Fail _ => "" end = "15/07/2026".
Proof. vm_compute. by split. Qed.
(** A fractional quantity makes the whole answer unreadable, as a failure that is
    retried. *)
Example fractional_quantity_fails :
  match mapResponse ex (reply (answer_json "325.000 ₫" "VND" "" "0.5")) with Ok _ => None | Fail err => Some (CodeOf err, Retryable err) end = Some (CodeTransient, true).
Proof. vm_compute. reflexivity. Qed.
End GeminiDemo.
