(* ===== verification/Textract.v ===== *)
(** * The Textract extractor and the choice of extractor

    internal/extraction/textract: the mapping of an expense document to the
    extraction contract, and the classification of service errors; and
    internal/extraction/factory.go.  The service itself is the class [TextractAPI];
    a nil pointer the code dereferences is [None] (a panic). *)
From Stdlib Require Import Ascii SpecFloat.
From S2P Require Import Prelude GoStrings Domain GoTime Calendar Json Normalise Unmarshal JsonRoundtrip TimeText Config Db StoreTx Categorisation.
From S2P Require Import Templates Fields Objects Processor Zalo Extraction Gemini.

(** ** time.Parse with the date layouts *)
Module DateLayouts.
Fixpoint cutspace (s : string) : string :=
  match s with String " " s' => cutspace s' | _ => s end.
(** [skip]: a space of the layout takes any number of spaces. *)
Definition skip_space (s : string) : option string :=
  match s with "" => Some "" | String " " _ => Some (cutspace s) | _ => None end.
Definition lower_byte (c : ascii) : Z := Z.lor (byte_of c) 32.
(** [match]: equal up to ASCII case. *)
Fixpoint match_fold (s name : string) : option string :=
  match name, s with
  | "", _ => Some s
  | String b name', String a s' =>
      if Ascii.eqb a b || ((lower_byte a =? lower_byte b) && (97 <=? lower_byte a) && (lower_byte a <=? 122)) then match_fold s' name' else None
  | _, "" => None
  end.
(** [lookup]: the number of the month whose name the text starts with. *)
Fixpoint lookup_name (i : Z) (names : list string) (s : string) : option (Z * string) :=
  match names with
  | [] => None
  | n :: rest => match match_fold s n with Some r => Some (i, r) | None => lookup_name (i + 1) rest s end
  end.
Definition longMonthNames : list string :=
  ["January"; "February"; "March"; "April"; "May"; "June"; "July"; "August"; "September"; "October"; "November"; "December"].
Definition shortMonthNames : list string := ["Jan"; "Feb"; "Mar"; "Apr"; "May"; "Jun"; "Jul"; "Aug"; "Sep"; "Oct"; "Nov"; "Dec"].

(** The pieces of a layout. *)
Inductive piece := Year4 | Month2 | Day2 | Day1 | MonthShort | MonthLong | Lit (c : ascii) | Blank.
Record ymd := mkYMD { yy : Z; mo : Z; dd : Z }.
Definition read_piece (p : piece) (acc : ymd) (s : string) : option (ymd * string) :=
  let year n := mkYMD n (mo acc) (dd acc) in
  let month n := mkYMD (yy acc) n (dd acc) in
  let day n := mkYMD (yy acc) (mo acc) n in
  let got (f : Z -> ymd) (r : option (Z * string)) := match r with Some (n, rest) => Some (f n, rest) | None => None end in
  let in_year (r : option (Z * string)) := match r with Some (n, _) => if (n <=? 0) || (12 <? n) then None else r | None => None end in
  match p with
  | Year4 => got year (digits_n 4 s)
  | Month2 => got month (in_year (digits_n 2 s))
  | Day2 => got day (digits_n 2 s)
  | Day1 => got day (digits_1_2 s)
  | MonthShort => got month (lookup_name 1 shortMonthNames s)
  | MonthLong => got month (lookup_name 1 longMonthNames s)
  | Lit c => match expect (String c "") s with Some r => Some (acc, r) | None => None end
  | Blank => match skip_space s with Some r => Some (acc, r) | None => None end
  end.
Fixpoint read_layout (l : list piece) (acc : ymd) (s : string) : option ymd :=
  match l with
  | [] => if String.eqb s "" then Some acc else None
  | p :: rest => match read_piece p acc s with Some (acc', s') => read_layout rest acc' s' | None => None end
  end.
(** [time.Parse(layout, s)], in UTC. *)
Definition time_Parse (l : list piece) (s : string) : option Time :=
  match read_layout l (mkYMD 0 1 1) s with
  | Some d => if (dd d <? 1) || (days_in (yy d) (mo d) <? dd d) then None else Some (Date (yy d) (mo d) (dd d) 0 0 UTC)
  | None => None
  end.
End DateLayouts.
Export DateLayouts.

Definition dateLayouts : list (list piece) :=
  [[Year4; Lit "-"; Month2; Lit "-"; Day2];
   [Day2; Lit "/"; Month2; Lit "/"; Year4];
   [Month2; Lit "/"; Day2; Lit "/"; Year4];
   [Day2; Lit "-"; Month2; Lit "-"; Year4];
   [MonthShort; Blank; Day1; Lit ","; Blank; Year4];
   [MonthLong; Blank; Day1; Lit ","; Blank; Year4];
   [Day1; Blank; MonthShort; Blank; Year4];
   [Day2; Blank; MonthShort; Blank; Year4]].
(** [parseTextractDate] *)
Definition parseTextractDate (s : string) : option Time :=
  match list_find (fun l => is_Some (time_Parse l s)) dateLayouts with
  | Some (_, l) => time_Parse l s
  | None => match ParseDate s UTC with Ok t => Some t | Fail _ => None end
  end.
Example dates_ex :
  parseTextractDate "2026-07-15" = Some (Date 2026 7 15 0 0 UTC) /\ parseTextractDate "03/04/2026" = Some (Date 2026 4 3 0 0 UTC) /\
  parseTextractDate "04/30/2026" = Some (Date 2026 4 30 0 0 UTC) /\ parseTextractDate "jul  5, 2026" = Some (Date 2026 7 5 0 0 UTC) /\
  parseTextractDate "31 Feb 2026" = None /\ parseTextractDate "15/7/26 09:24" = Some (Date 2026 7 15 33840 0 UTC).
Proof. vm_compute. by split_and!. Qed.

(** ** The service's types (aws-sdk-go-v2/service/textract/types) *)
Record ExpenseDetection := mkDetection { de_text : option string; de_conf : option float64 }.
Record ExpenseType := mkType { et_text : option string; et_conf : option float64 }.
Record ExpenseField := mkField { xf_type : option ExpenseType; xf_value : option ExpenseDetection }.
(** A line item is its fields; a document its summary fields and groups of items. *)
Record ExpenseDocument := mkDocument { xd_summary : list ExpenseField; xd_groups : list (list (list ExpenseField)) }.
(** A failed call: the error's text, whether it is a context error, and the
    service's error code if it has one. *)
Record ServiceError := mkServiceError { se_text : string; se_context : bool; se_code : option string }.
Class TextractAPI := { AnalyzeExpense : nat -> string -> ServiceError + list ExpenseDocument }.

(** [detectionText] and [detectionConf]; the conversion from float32 is exact. *)
Definition detectionText (d : option ExpenseDetection) : string :=
  match d with Some d => TrimSpace (default "" (de_text d)) | None => "" end.
Definition f64_100 : float64 := f64_of_Z 100.
Definition detectionConf (d : option ExpenseDetection) (t : option ExpenseType) : float64 :=
  match d ≫= de_conf with
  | Some c => SFdiv 53 1024 c f64_100
  | None => match t ≫= et_conf with Some c => SFdiv 53 1024 c f64_100 | None => float_zero end
  end.
(** [aws.ToString(f.Type.Text)]: a field without a type is a nil dereference. *)
Definition type_text (f : ExpenseField) : option string :=
  match xf_type f with Some t => Some (default "" (et_text t)) | None => None end.

Section mapping.
Context `{UnicodeCase}.

Record rawField := mkRaw { rf_raw : string; rf_conf : float64 }.
(** The loop over the summary fields: fields found so far and the totals seen. *)
Definition summary_step (acc : gmap string FieldValue * list rawField) (f : ExpenseField) : option (gmap string FieldValue * list rawField) :=
  match type_text f with
  | None => None
  | Some typeText =>
      let value := detectionText (xf_value f) in
      let conf := detectionConf (xf_value f) (xf_type f) in
      let fresh k := bool_decide (acc.1 !! k = None) && negb (String.eqb value "") in
      if String.eqb typeText "VENDOR_NAME" then
        Some (if fresh "merchant" then (<["merchant" := mkValue value (AnyString (NormaliseMerchant value).2) conf]> acc.1, acc.2) else acc)
      else if String.eqb typeText "TOTAL" then
        Some (if String.eqb value "" then acc else (acc.1, acc.2 ++ [mkRaw value conf])%list)
      else if String.eqb typeText "INVOICE_RECEIPT_DATE" then
        Some (if fresh "occurred_at" then
                match parseTextractDate value with
                | Some t => (<["occurred_at" := mkValue value (AnyString (RFC3339 UTC t)) conf]> acc.1, acc.2)
                | None => acc
                end
              else acc)
      else Some acc
  end.
Fixpoint summary_loop (fs : list ExpenseField) (acc : gmap string FieldValue * list rawField) : option (gmap string FieldValue * list rawField) :=
  match fs with
  | [] => Some acc
  | f :: rest => match summary_step acc f with Some acc' => summary_loop rest acc' | None => None end
  end.

(** [mapTotal]: the loop over the totals with the set of amounts seen. *)
Definition total_step (acc : gmap string FieldValue * gset Z) (tf : rawField) : gmap string FieldValue * gset Z :=
  match ParseAmount (rf_raw tf) "" with
  | Fail _ => acc
  | Ok (minor, currency) =>
      (if bool_decide (acc.1 !! "total_minor" = None)
       then <["currency" := mkValue (rf_raw tf) (AnyString currency) (rf_conf tf)]>
            (<["total_minor" := mkValue (rf_raw tf) (AnyInt64 minor) (rf_conf tf)]> acc.1)
       else acc.1, {[minor]} ∪ acc.2)
  end.
Definition mapTotal (fields : gmap string FieldValue) (totals : list rawField) : gmap string FieldValue * list string :=
  let r := fold_left total_step totals (fields, ∅) in
  (r.1, if (1 <? size r.2)%nat then ["multiple_totals_detected"] else []).

(** [fmt.Sscanf(value, "%d", &q)] on trimmed text: a sign, then digits. *)
Definition Sscanf_d (s : string) : option Z :=
  let sg := optional (fun c => is_byte 43 c || is_byte 45 c) s in
  let ds := span_digits sg.2 in
  if String.eqb ds.1 "" then None else ParseInt (sg.1 ++ ds.1).
(** [mapLineItems] *)
Definition item_step (li : LineItem) (f : ExpenseField) : option LineItem :=
  let value := detectionText (xf_value f) in
  match type_text f with
  | None => None
  | Some typeText =>
      Some (if String.eqb typeText "ITEM" then mkItem value (li_quantity li) (li_amount li)
            else if String.eqb typeText "QUANTITY" then
              match Sscanf_d value with
              | Some q => if 0 <? q then mkItem (li_name li) q (li_amount li) else li
              | None => li
              end
            else if String.eqb typeText "PRICE" then
              match ParseAmount value "" with Ok (minor, _) => mkItem (li_name li) (li_quantity li) minor | Fail _ => li end
            else li)
  end.
Fixpoint item_loop (fs : list ExpenseField) (li : LineItem) : option LineItem :=
  match fs with
  | [] => Some li
  | f :: rest => match item_step li f with Some li' => item_loop rest li' | None => None end
  end.
Definition keep_item (li : LineItem) : bool := negb (String.eqb (li_name li) "") || negb (li_amount li =? 0).
Definition mapLineItems (groups : list (list (list ExpenseField))) : option (list LineItem) :=
  List.filter keep_item <$> mapM (fun item => item_loop item (mkItem "" 0 0)) (List.concat groups).

(** [mapDocument] *)
Definition mapDocument (doc : ExpenseDocument) (name version : string) : option ExtractionResult :=
  match summary_loop (xd_summary doc) (∅, []) with
  | None => None
  | Some (fields, totals) =>
      let total := mapTotal fields totals in
      match mapLineItems (xd_groups doc) with
      | None => None
      | Some items => Some (mkResult (mkInfo name version) total.1 items total.2)
      end
  end.
End mapping.

(** [classify] *)
Definition throttled_codes : list string :=
  ["ThrottlingException"; "ProvisionedThroughputExceededException"; "InternalServerError"; "ServiceUnavailableException"; "LimitExceededException"].
Definition document_codes : list string :=
  ["UnsupportedDocumentException"; "InvalidParameterException"; "DocumentTooLargeException"; "BadDocumentException"; "InvalidS3ObjectException"].
Definition classify (err : ServiceError) : Err :=
  let cause := Some (Sentinel (se_text err)) in
  let has codes := match se_code err with Some c => existsb (String.eqb c) codes | None => false end in
  if se_context err then E CodeTransient "textract call timed out" cause
  else if has throttled_codes then E CodeTransient "textract throttled or unavailable" cause
  else if has document_codes then E CodeValidation "textract rejected document" cause
  else if has ["AccessDeniedException"] then E CodeForbidden "textract access denied" cause
  else if has ["HumanLoopQuotaExceededException"] then E CodeQuota "textract quota exceeded" cause
  else E CodeTransient "textract call failed" cause.

Section textract.
Context `{Env} `{TextractAPI}.
Definition maxDocBytes : Z := 10 * 2 ^ 20.
Definition textract_Name : string := "textract-analyze-expense".
(** [Extract]; [None] is a panic. *)
Definition textract_Extract (t : nat) (r : Reader) : option (Res Err ExtractionResult) :=
  match ReadAllLimit (maxDocBytes + 1) r with
  | Fail err => Some (Fail (E CodeTransient "reading receipt bytes" (Some err)))
  | Ok data =>
      if String.eqb data "" then Some (Fail (E CodeValidation "empty image" None))
      else if maxDocBytes <? Z.of_nat (String.length data) then
        Some (Fail (E CodeValidation ("image exceeds " ++ Sprintd maxDocBytes ++ " bytes") None))
      else
        match AnalyzeExpense t data with
        | inl err => Some (Fail (classify err))
        | inr [] => Some (Fail not_a_receipt)
        | inr (doc :: _) => Ok <$> mapDocument doc textract_Name "v1"
        end
  end.
End textract.

(** Decides comparisons of literal keys. *)
Ltac eval_keys := repeat match goal with |- context [String.eqb ?a ?b] =>
  let v := eval vm_compute in (String.eqb a b) in change (String.eqb a b) with v; cbv match end.

(** ** What a document says, read field by field *)
Section document.
Context `{UnicodeCase}.

(** The non-empty values detected under a type, in order. *)
Definition detected_one (ty : string) (f : ExpenseField) : option rawField :=
  let value := detectionText (xf_value f) in
  if bool_decide (type_text f = Some ty) && negb (String.eqb value "") then Some (mkRaw value (detectionConf (xf_value f) (xf_type f))) else None.
Definition detected (ty : string) (fs : list ExpenseField) : list rawField := omap (detected_one ty) fs.
Definition merchant_of (r : rawField) : FieldValue := mkValue (rf_raw r) (AnyString (NormaliseMerchant (rf_raw r)).2) (rf_conf r).
Definition date_of (r : rawField) : option FieldValue :=
  match parseTextractDate (rf_raw r) with Some t => Some (mkValue (rf_raw r) (AnyString (RFC3339 UTC t)) (rf_conf r)) | None => None end.
(** The totals that parse: the detected value, the amount and the currency. *)
Definition total_of (r : rawField) : option (rawField * Z * string) :=
  match ParseAmount (rf_raw r) "" with Ok (minor, cur) => Some (r, minor, cur) | Fail _ => None end.
Definition totals_of (fs : list ExpenseField) : list (rawField * Z * string) := omap total_of (detected "TOTAL" fs).
Definition amount_field (x : rawField * Z * string) : FieldValue := mkValue (rf_raw x.1.1) (AnyInt64 x.1.2) (rf_conf x.1.1).
Definition currency_field (x : rawField * Z * string) : FieldValue := mkValue (rf_raw x.1.1) (AnyString x.2) (rf_conf x.1.1).

Definition wanted (m : gmap string FieldValue) (fs : list ExpenseField) (k : string) : option FieldValue :=
  m !! k ∪ (if String.eqb k "merchant" then head (merchant_of <$> detected "VENDOR_NAME" fs)
            else if String.eqb k "occurred_at" then head (omap date_of (detected "INVOICE_RECEIPT_DATE" fs)) else None).
Lemma detected_cons ty f fs : detected ty (f :: fs) = match detected_one ty f with Some r => r :: detected ty fs | None => detected ty fs end.
Proof. reflexivity. Qed.
Lemma other_type f ty ty' : type_text f = Some ty -> ty <> ty' -> detected_one ty' f = None.
Proof. intros Ht Hne. unfold detected_one. rewrite Ht, bool_decide_eq_false_2; [done|congruence]. Qed.
Lemma same_type f ty : type_text f = Some ty -> detected_one ty f =
  if String.eqb (detectionText (xf_value f)) "" then None else Some (mkRaw (detectionText (xf_value f)) (detectionConf (xf_value f) (xf_type f))).
Proof. intros Ht. unfold detected_one. rewrite Ht, bool_decide_eq_true_2 by done. by destruct (String.eqb _ _). Qed.

Lemma omap_cons {A B} (g : A -> option B) x l : omap g (x :: l) = match g x with Some y => y :: omap g l | None => omap g l end.
Proof. reflexivity. Qed.
Lemma union_some {A} (v : A) (o : option A) : Some v ∪ o = Some v.
Proof. by destruct o. Qed.
(** Setting a key that was free. *)
Lemma wanted_insert m fs fs' k0 v : m !! k0 = None -> (if String.eqb k0 "merchant" then head (merchant_of <$> detected "VENDOR_NAME" fs')
    else if String.eqb k0 "occurred_at" then head (omap date_of (detected "INVOICE_RECEIPT_DATE" fs')) else None) = Some v ->
  (forall k, k <> k0 -> wanted m fs k = wanted m fs' k) -> forall k, wanted (<[k0 := v]> m) fs k = wanted m fs' k.
Proof.
  intros Hm Hv Hother k. destruct (decide (k = k0)) as [->|Hk].
  - unfold wanted at 1. rewrite lookup_insert_eq. unfold wanted. by rewrite Hm, Hv, union_some.
  - rewrite <- Hother by done. unfold wanted. by rewrite lookup_insert_ne.
Qed.
Lemma wanted_skip m f fs : detected_one "VENDOR_NAME" f = None \/ is_Some (m !! "merchant") ->
  detected_one "INVOICE_RECEIPT_DATE" f ≫= date_of = None \/ is_Some (m !! "occurred_at") -> forall k, wanted m fs k = wanted m (f :: fs) k.
Proof.
  intros Hv Hd k. unfold wanted. destruct (String.eqb_spec k "merchant") as [->|]; [|destruct (String.eqb_spec k "occurred_at") as [->|]; [|done]].
  - rewrite detected_cons. destruct Hv as [-> |[x ->]]; [done|by rewrite !union_some].
  - rewrite detected_cons. destruct Hd as [Hd|[x ->]]; [|by rewrite !union_some]. destruct (detected_one "INVOICE_RECEIPT_DATE" f) as [r|]; [|done]. simpl in *. by rewrite Hd.
Qed.
Lemma summary_loop_spec fs m ts r : summary_loop fs (m, ts) = Some r ->
  (forall k, r.1 !! k = wanted m fs k) /\ r.2 = (ts ++ detected "TOTAL" fs)%list.
Proof.
  revert m ts. induction fs as [|f fs IH]; intros m ts; cbn [summary_loop].
  { intros [= <-]. cbn [fst snd]. unfold wanted. rewrite app_nil_r. split; [|done]. intros k. simpl. repeat case_match; by destruct (m !! k). }
  unfold summary_step. destruct (type_text f) as [ty|] eqn:Ht; [|done]. cbv zeta. cbn [fst snd].
  pose proof (fun ty' => other_type f ty ty' Ht) as Hother. rewrite detected_cons.
  assert (Hfree : forall k : string, m !! k = None \/ is_Some (m !! k)) by (intros k; destruct (m !! k); [right; by eexists|by left]).
  destruct (String.eqb_spec ty "VENDOR_NAME") as [->|Hv]; [|destruct (String.eqb_spec ty "TOTAL") as [->|Htot]; [|destruct (String.eqb_spec ty "INVOICE_RECEIPT_DATE") as [->|Hd]]].
  - pose proof (same_type f _ Ht) as Hs. rewrite (Hother "TOTAL") by done. pose proof (Hother "INVOICE_RECEIPT_DATE" ltac:(done)) as Hno.
    destruct (Hfree "merchant") as [Hm|Hm]; [rewrite bool_decide_eq_true_2 by done|rewrite bool_decide_eq_false_2 by (intros Hn; rewrite Hn in Hm; by destruct Hm)]; cbn [andb].
    + destruct (String.eqb (detectionText (xf_value f)) "") eqn:He; cbn [negb]; cbv match; intros [Hk Hts]%IH; (split; [|done]); intros k; rewrite Hk.
      * apply wanted_skip; [by left|left; by rewrite Hno].
      * apply (wanted_insert m fs (f :: fs) "merchant" _ Hm); [eval_keys; rewrite detected_cons, Hs; reflexivity|].
        intros k' Hk'. unfold wanted. destruct (String.eqb_spec k' "merchant"); [done|].
        by rewrite detected_cons, Hno.
    + intros [Hk Hts]%IH. split; [|done]. intros k. rewrite Hk. apply wanted_skip; [by right|left; by rewrite Hno].
  - pose proof (same_type f _ Ht) as Hs. pose proof (Hother "VENDOR_NAME" ltac:(done)) as Hno1. pose proof (Hother "INVOICE_RECEIPT_DATE" ltac:(done)) as Hno2. rewrite Hs.
    destruct (String.eqb _ _); intros [Hk Hts]%IH; (split; [intros k; rewrite Hk; apply wanted_skip; [by left|left; by rewrite Hno2]|]); [done|].
    rewrite Hts, <- app_assoc. done.
  - pose proof (same_type f _ Ht) as Hs. rewrite (Hother "TOTAL") by done. pose proof (Hother "VENDOR_NAME" ltac:(done)) as Hno.
    destruct (Hfree "occurred_at") as [Hm|Hm]; [rewrite bool_decide_eq_true_2 by done|rewrite bool_decide_eq_false_2 by (intros Hn; rewrite Hn in Hm; by destruct Hm)]; cbn [andb].
    + destruct (String.eqb (detectionText (xf_value f)) "") eqn:He; cbn [negb]; cbv match.
      * intros [Hk Hts]%IH. split; [|done]. intros k. rewrite Hk. apply wanted_skip; [by left|left; by rewrite Hs].
      * destruct (parseTextractDate _) as [t|] eqn:Hdate; intros [Hk Hts]%IH; (split; [|done]); intros k; rewrite Hk.
        -- apply (wanted_insert m fs (f :: fs) "occurred_at" _ Hm); [eval_keys; rewrite detected_cons, Hs, (omap_cons date_of); unfold date_of at 1; cbn [rf_raw]; rewrite Hdate; reflexivity|].
           intros k' Hk'. unfold wanted.
           destruct (String.eqb_spec k' "merchant"); [by rewrite detected_cons, Hno|]. by destruct (String.eqb_spec k' "occurred_at").
        -- apply wanted_skip; [by left|left]. rewrite Hs. cbn [mbind option_bind]. unfold date_of. cbn [rf_raw]. by rewrite Hdate.
    + intros [Hk Hts]%IH. split; [|done]. intros k. rewrite Hk. apply wanted_skip; [by left|by right].
  - intros [Hk Hts]%IH. rewrite (Hother "TOTAL") by done. split; [|done]. intros k. rewrite Hk.
    apply wanted_skip; [left; by apply Hother|left; by rewrite Hother].
Qed.

(** The totals loop. *)
Lemma total_fold ts m seen : let r := fold_left total_step ts (m, seen) in let parsed := omap total_of ts in
  r.2 = list_to_set (parsed.*1.*2) ∪ seen /\
  (forall k, k <> "total_minor" -> k <> "currency" -> r.1 !! k = m !! k) /\
  (is_Some (m !! "total_minor") -> r.1 = m) /\
  (m !! "total_minor" = None -> m !! "currency" = None ->
   r.1 !! "total_minor" = amount_field <$> head parsed /\ r.1 !! "currency" = currency_field <$> head parsed).
Proof.
  revert m seen. induction ts as [|tf ts IH]; intros m seen; cbv zeta.
  { cbn [fold_left omap list_omap fmap list_fmap fst snd head]. split_and!; [set_solver|done|done|]. by intros -> ->. }
  cbn [fold_left]. rewrite omap_cons. destruct (ParseAmount (rf_raw tf) "") as [[minor cur]|err] eqn:Ha.
  2: { assert (Hs : total_step (m, seen) tf = (m, seen) /\ total_of tf = None) by (unfold total_step, total_of; by rewrite Ha). destruct Hs as [-> ->]. apply IH. }
  assert (Ht : total_of tf = Some (tf, minor, cur)) by (unfold total_of; by rewrite Ha). rewrite Ht.
  set (m' := <["currency" := mkValue (rf_raw tf) (AnyString cur) (rf_conf tf)]> (<["total_minor" := mkValue (rf_raw tf) (AnyInt64 minor) (rf_conf tf)]> m)).
  assert (Hs : total_step (m, seen) tf = (if bool_decide (m !! "total_minor" = None) then m' else m, {[minor]} ∪ seen)) by (unfold total_step; by rewrite Ha).
  rewrite Hs. cbn [fmap list_fmap fst snd head list_to_set]. destruct (m !! "total_minor") as [x|] eqn:Hx.
  - rewrite bool_decide_eq_false_2 by done. destruct (IH m ({[minor]} ∪ seen)) as (-> & Hk & Hsome & _). rewrite Hx in Hsome.
    split_and!; [by rewrite (assoc_L (∪)), (comm_L (∪) (list_to_set _))|done|done|done].
  - rewrite bool_decide_eq_true_2 by done. assert (Hm' : m' !! "total_minor" = Some (amount_field (tf, minor, cur)) /\ m' !! "currency" = Some (currency_field (tf, minor, cur))).
    { unfold m'. by rewrite lookup_insert_ne, lookup_insert_eq, lookup_insert_eq by done. }
    destruct (IH m' ({[minor]} ∪ seen)) as (-> & Hk & Hsome & _). destruct Hm' as [Hm1 Hm2]. rewrite Hm1 in Hsome. rewrite (Hsome (mk_is_Some _ _ eq_refl)).
    split_and!; [by rewrite (assoc_L (∪)), (comm_L (∪) (list_to_set _))|intros k Hk1 Hk2; unfold m'; by rewrite !lookup_insert_ne|by intros []|done].
Qed.

Lemma several (l : list Z) : (1 < size (list_to_set l : gset Z))%nat <-> exists a b, a ∈ l /\ b ∈ l /\ a <> b.
Proof.
  set (X := list_to_set l : gset Z). assert (HX : forall x, x ∈ X <-> x ∈ l) by (intros x; apply elem_of_list_to_set). clearbody X. split.
  - intros Hs. destruct (set_choose_L X) as [a Ha]; [intros He; rewrite He, size_empty in Hs; lia|].
    destruct (set_choose_L (X ∖ {[a]})) as [b [Hb Hba]%elem_of_difference].
    { intros He. assert (Hsub : X ⊆ {[a]}).
      { intros x Hx. destruct (decide (x ∈ ({[a]} : gset Z))) as [|Hn]; [done|]. exfalso. by apply (not_elem_of_empty (C := gset Z) x); rewrite <- He; apply elem_of_difference. }
      apply subseteq_size in Hsub. rewrite size_singleton in Hsub. lia. }
    exists a, b. split_and!; [by apply HX|by apply HX|]. intros ->. by apply Hba, elem_of_singleton.
  - intros (a & b & Ha%HX & Hb%HX & Hne). assert (Hsub : ({[a]} ∪ {[b]} : gset Z) ⊆ X).
    { intros x [->%elem_of_singleton| ->%elem_of_singleton]%elem_of_union; done. }
    apply subseteq_size in Hsub. rewrite size_union, !size_singleton in Hsub; [lia|].
    intros x ->%elem_of_singleton ?%elem_of_singleton. done.
Qed.

Lemma lookup_name_range i names txt n r : lookup_name i names txt = Some (n, r) -> i <= n < i + Z.of_nat (List.length names).
Proof.
  revert i. induction names as [|x names IH]; intros i; [done|]. cbn [lookup_name List.length]. destruct (match_fold txt x); [intros [= <- _]; lia|].
  intros Hl%IH. lia.
Qed.
Definition date_range (d : ymd) : Prop := 0 <= yy d <= 9999 /\ 1 <= mo d <= 12.
Lemma layout_range l acc s d : date_range acc -> read_layout l acc s = Some d -> date_range d.
Proof.
  revert acc s. induction l as [|p l IH]; intros acc s Ha; simpl; [destruct (String.eqb s ""); [by intros [= <-]|done]|].
  destruct (read_piece p acc s) as [[acc' s']|] eqn:Hp; [|done]. apply IH. clear IH. destruct Ha as [Hy Hm]. unfold read_piece in Hp. cbv zeta in Hp.
  assert (Hname : forall names n r, List.length names = 12%nat -> lookup_name 1 names s = Some (n, r) -> 1 <= n <= 12)
    by (intros names n r Hl Hn%lookup_name_range; lia).
  destruct p; repeat case_match; simplify_eq; (split; cbn [yy mo]; try done); [| |by eapply (Hname shortMonthNames)|by eapply (Hname longMonthNames)].
  - unfold digits_n in *. repeat case_match; simplify_eq. match goal with Hc : _ && _ = true |- _ => apply andb_true_iff in Hc as [Hl%Nat.eqb_eq Hd] end.
    pose proof (number_bound (take 4 s) 4 Hd ltac:(lia)). lia.
  - match goal with Hc : (_ <=? 0) || _ = false |- _ => apply orb_false_iff in Hc as [Hc1%Z.leb_gt Hc2%Z.ltb_ge] end. lia.
Qed.
Lemma civil_year y m d z : 1 <= m <= 12 -> 1 <= d <= days_in y m -> z = month_start (month_index y m) + d - 1 -> (civil_from_days z).1.1 = y.
Proof.
  intros Hm Hd Hz. pose proof (month_length y m Hm) as Hlen. destruct (month_start_succ y m Hm) as [Hs1 Hs2].
  assert (Hk : month_of z = month_index y m) by (apply month_of_unique; lia). clear Hs1 Hs2 Hlen Hz Hd.
  pose proof (civil_from_days_spec z) as Hc. unfold month_of, month_index in Hk. destruct (civil_from_days z) as [[y' m'] d']. cbn [fst snd] in *. lia.
Qed.
Lemma Date_year y m d sec : 1 <= m <= 12 -> 1 <= d <= days_in y m -> 0 <= sec < 86400 -> (local_date UTC (Date y m d sec 0 UTC)).1.1 = y.
Proof.
  intros Hm Hd Hs. rewrite (Date_steady UTC 0) by done. unfold local_date. apply (civil_year y m d); [done|done|].
  apply (at_local_view UTC 0); [done|done|unfold Second; lia].
Qed.
Lemma parseTextractDate_printable s t : parseTextractDate s = Some t -> printable t /\ t mod Second = 0.
Proof.
  unfold parseTextractDate. destruct (list_find _ dateLayouts) as [[i l]|]; [|destruct (ParseDate s UTC) as [t'|] eqn:Hp; [intros [= <-]; by eapply ParseDate_printable|done]].
  unfold time_Parse. destruct (read_layout l _ s) as [d|] eqn:Hr; [|done]. destruct ((dd d <? 1) || _) eqn:Hd; [done|]. intros [= <-].
  apply layout_range in Hr as [Hy Hm]; [|by split]. apply orb_false_iff in Hd as [Hd1%Z.ltb_ge Hd2%Z.ltb_ge]. split; [|unfold Date; rewrite Z.add_0_r; by apply Z.mod_mul].
  unfold printable. by rewrite Date_year.
Qed.

Lemma amount_ok fs f : amount_field <$> head (totals_of fs) = Some f -> field_ok "total_minor" f.
Proof.
  intros (x & Hx & ->)%fmap_Some. apply head_Some_elem_of in Hx. apply list_elem_of_omap in Hx as (r & _ & Ht). unfold total_of in Ht.
  destruct (ParseAmount (rf_raw r) "") as [[minor cur]|] eqn:Ha; [|done]. injection Ht as <-. apply ParseAmount_value in Ha as [Hb _]. by exists minor.
Qed.
Lemma date_field_ok fs f : head (omap date_of (detected "INVOICE_RECEIPT_DATE" fs)) = Some f -> field_ok "occurred_at" f.
Proof.
  intros (r & _ & Hd)%head_Some_elem_of%list_elem_of_omap. unfold date_of in Hd. destruct (parseTextractDate (rf_raw r)) as [t|] eqn:Ht; [|done]. injection Hd as <-.
  apply parseTextractDate_printable in Ht as [Hp Hz]. eexists. split; [reflexivity|left]. exists t. by apply RFC3339_read.
Qed.

Lemma document_spec doc name version res : mapDocument doc name version = Some res ->
  let fs := xd_summary doc in
  contract res /\
  er_fields res !! "merchant" = head (merchant_of <$> detected "VENDOR_NAME" fs) /\
  er_fields res !! "occurred_at" = head (omap date_of (detected "INVOICE_RECEIPT_DATE" fs)) /\
  er_fields res !! "total_minor" = amount_field <$> head (totals_of fs) /\
  er_fields res !! "currency" = currency_field <$> head (totals_of fs) /\
  ("multiple_totals_detected" ∈ er_warnings res <-> exists a b, a ∈ totals_of fs /\ b ∈ totals_of fs /\ a.1.2 <> b.1.2).
Proof.
  unfold mapDocument. destruct (summary_loop (xd_summary doc) (∅, [])) as [[fields ts]|] eqn:Hs; [|done].
  apply summary_loop_spec in Hs as [Hk Hts]. cbn [fst snd] in Hk, Hts. change (ts = detected "TOTAL" (xd_summary doc)) in Hts. subst ts.
  destruct (mapLineItems _) as [items|]; [|done]. intros [= <-]. cbv zeta. cbn [er_fields er_warnings].
  unfold mapTotal. cbn [fst snd]. destruct (total_fold (detected "TOTAL" (xd_summary doc)) fields ∅) as (Hseen & Hother & _ & Htot). fold (totals_of (xd_summary doc)) in *.
  assert (Hfree : forall k, k <> "merchant" -> k <> "occurred_at" -> fields !! k = None).
  { intros k Hk1 Hk2. rewrite Hk. unfold wanted. rewrite lookup_empty. apply String.eqb_neq in Hk1, Hk2. by rewrite Hk1, Hk2. }
  destruct (Htot (Hfree "total_minor" ltac:(done) ltac:(done)) (Hfree "currency" ltac:(done) ltac:(done))) as [Hamount Hcur].
  set (r := fold_left _ _ _) in *. clearbody r.
  assert (Hm : r.1 !! "merchant" = head (merchant_of <$> detected "VENDOR_NAME" (xd_summary doc))).
  { rewrite Hother, Hk by done. unfold wanted. rewrite lookup_empty. eval_keys. by rewrite (left_id_L None (∪)). }
  assert (Hd : r.1 !! "occurred_at" = head (omap date_of (detected "INVOICE_RECEIPT_DATE" (xd_summary doc)))).
  { rewrite Hother, Hk by done. unfold wanted. rewrite lookup_empty. eval_keys. by rewrite (left_id_L None (∪)). }
  split_and!; try done.
  - split; cbn [er_fields]; [|rewrite Hamount, Hcur; destruct (head _); split; intros []; done]. intros k f Hl.
    destruct (decide (k = "total_minor")) as [->|Hn1]; [rewrite Hamount in Hl; split; [in_list|by eapply amount_ok]|].
    destruct (decide (k = "currency")) as [->|Hn2]; [rewrite Hcur in Hl; split; [in_list|]; apply fmap_Some in Hl as (x & _ & ->); apply text_ok; in_list|].
    destruct (decide (k = "merchant")) as [->|Hn3]; [rewrite Hm in Hl; split; [in_list|]; apply head_Some_elem_of, list_elem_of_fmap in Hl as (x & -> & _); apply text_ok; in_list|].
    destruct (decide (k = "occurred_at")) as [->|Hn4]; [rewrite Hd in Hl; split; [in_list|by eapply date_field_ok]|].
    rewrite Hother, Hfree in Hl by done. done.
  - rewrite Hseen, (right_id_L ∅ (∪)). destruct (Nat.ltb_spec 1 (size (list_to_set (totals_of (xd_summary doc)).*1.*2 : gset Z))) as [Hsz|Hsz].
    + apply several in Hsz as (a & b & (x & -> & (xa & -> & Ha)%list_elem_of_fmap)%list_elem_of_fmap & (y & -> & (yb & -> & Hb)%list_elem_of_fmap)%list_elem_of_fmap & Hne).
      split; [|intros _; apply list_elem_of_here]. intros _. by exists xa, yb.
    + split; [by intros Hn%elem_of_nil|]. intros (a & b & Ha & Hb & Hne). assert (Hlt : (1 < size (list_to_set (totals_of (xd_summary doc)).*1.*2 : gset Z))%nat); [|lia].
      apply several. exists a.1.2, b.1.2. split_and!; [by do 2 apply list_elem_of_fmap_2|by do 2 apply list_elem_of_fmap_2|done].
Qed.

(** C27: The document's story, field by field: the merchant is the first vendor name,
    the date the first one that parses, the total the first one that parses with
    the currency that parse found; two totals that parse to different amounts, and
    nothing else, earn the warning; and the result keeps the contract. *)
Theorem textract_reads_first doc name version res : mapDocument doc name version = Some res ->
  let fs := xd_summary doc in
  contract res /\
  er_fields res !! "merchant" = head (merchant_of <$> detected "VENDOR_NAME" fs) /\
  er_fields res !! "occurred_at" = head (omap date_of (detected "INVOICE_RECEIPT_DATE" fs)) /\
  er_fields res !! "total_minor" = amount_field <$> head (totals_of fs) /\
  er_fields res !! "currency" = currency_field <$> head (totals_of fs) /\
  ("multiple_totals_detected" ∈ er_warnings res <-> exists a b, a ∈ totals_of fs /\ b ∈ totals_of fs /\ a.1.2 <> b.1.2).
Proof. apply document_spec. Qed.
End document.

(** The mapping panics exactly on a document with a field without a type. *)
Section panics.
Context `{UnicodeCase}.
Definition untyped (f : ExpenseField) : Prop := xf_type f = None.
Lemma type_text_None f : type_text f = None <-> untyped f.
Proof. unfold type_text, untyped. by destruct (xf_type f). Qed.
Lemma summary_step_None acc f : summary_step acc f = None <-> untyped f.
Proof. rewrite <- type_text_None. unfold summary_step. destruct (type_text f); [|done]. cbv zeta. repeat case_match; done. Qed.
Lemma summary_loop_None fs acc : summary_loop fs acc = None <-> Exists untyped fs.
Proof.
  revert acc. induction fs as [|f fs IH]; intros acc; cbn [summary_loop]; [split; [done|by intros ?%Exists_nil]|]. rewrite Exists_cons, <- (summary_step_None acc).
  destruct (summary_step acc f); [rewrite IH; split; [by right|by intros [?|?]]|split; [by left|done]].
Qed.
Lemma item_loop_None fs li : item_loop fs li = None <-> Exists untyped fs.
Proof.
  revert li. induction fs as [|f fs IH]; intros li; cbn [item_loop]; [split; [done|by intros ?%Exists_nil]|]. rewrite Exists_cons.
  assert (Hf : item_step li f = None <-> untyped f) by (rewrite <- type_text_None; unfold item_step; by destruct (type_text f)). rewrite <- Hf.
  destruct (item_step li f); [rewrite IH; split; [by right|by intros [?|?]]|split; [by left|done]].
Qed.
Lemma textract_panics doc name version : mapDocument doc name version = None <->
  Exists untyped (xd_summary doc) \/ Exists (Exists untyped) (List.concat (xd_groups doc)).
Proof.
  unfold mapDocument. rewrite <- (summary_loop_None (xd_summary doc) (∅, [])). destruct (summary_loop _ _) as [[fields ts]|]; [|split; [by left|done]].
  assert (Hitems : mapLineItems (xd_groups doc) = None <-> Exists (Exists untyped) (List.concat (xd_groups doc))).
  { unfold mapLineItems. induction (List.concat (xd_groups doc)) as [|item items IH]; [split; [done|by intros ?%Exists_nil]|]. rewrite Exists_cons, <- IH, <- (item_loop_None item (mkItem "" 0 0)).
    cbn [mapM]. destruct (item_loop item _); [|split; [by left|done]]. cbn [mbind option_bind]. destruct (mapM _ items); split; (done || by intros [?|?] || by right). }
  rewrite <- Hitems. cbv zeta. destruct (mapLineItems _); split; (done || by intros [?|?] || by right).
Qed.
End panics.

(** ** The choice of extractor (factory.go, the register.go files) *)
Inductive Backend := UseMock | UseTextract | UseGemini (e : Gemini.Extractor).
Section factory.
Context `{Env} `{Network} `{Gemini.ImageCodec} `{TextractAPI} (LoadDefaultConfig : Res Err unit).

(** [extraction.NewFromConfig]; the receipt worker registers all three. *)
Definition extraction_NewFromConfig (cfg : Config.Config) : Res Err Backend :=
  let name := if String.eqb (ExtractionBackend cfg) "" then "mock" else ExtractionBackend cfg in
  if String.eqb name "mock" then Ok UseMock
  else if String.eqb name "textract" then
    match LoadDefaultConfig with Fail err => Fail (Wrapped "load AWS config" err) | Ok _ => Ok UseTextract end
  else if String.eqb name "gemini" then Ok (UseGemini (Gemini.new_gemini cfg))
  else Fail (Sentinel ("extractor " ++ quoted name ++ " is not registered")).
(** [Extractor.Extract] of the chosen backend; [None] is a panic. *)
Definition backend_Extract (b : Backend) (cancelled : option Err) (expired : nat -> bool) (t : nat) (r : Reader) (contentType : string) :
    option (Res Err ExtractionResult) :=
  match b with
  | UseMock => Some (mock_Extract cancelled r)
  | UseTextract => textract_Extract t r
  | UseGemini e => Some (Gemini.Extract e expired t r contentType)
  end.


End factory.

Module ExtractorsDemo.
#[local] Instance env : Env := demo_env no_faults (fun n => Z.of_nat n * Second).
#[local] Instance names : NetParse := {| SplitHostPort := fun _ => true; url_Parse := fun _ => None; ParseDuration := fun _ => None |}.
#[local] Instance net : Network := {| net_parse := names; url_error := fun s => s; json_error := fun s => s; ParseIP := fun _ => None;
  LookupIPAddr := fun _ _ => Ok []; http_Do := fun _ _ => Fail (Sentinel "offline"); http_Get := fun _ _ => Fail (Sentinel "offline") |}.
#[local] Instance codec : Gemini.ImageCodec := {| Gemini.image_Decode := fun _ => None; Gemini.jpeg_Encode := fun _ _ => None |}.
#[local] Instance floats : FloatText := {| float_text := fun _ => "" |}.
Definition field (ty value : string) (conf : Z) : ExpenseField :=
  mkField (Some (mkType (Some ty) None)) (Some (mkDetection (Some value) (Some (f64_of_Z conf)))).
Definition doc : ExpenseDocument := mkDocument
  [field "VENDOR_NAME" " CO.OPMART " 98; field "TOTAL" "tổng" 80; field "TOTAL" "325.000 ₫" 99; field "TOTAL" "300.000 ₫" 97;
   field "INVOICE_RECEIPT_DATE" "Jul 15, 2026" 96]
  [[[field "ITEM" "gạo" 90; field "QUANTITY" "2 kg" 90; field "PRICE" "25.000" 90]; [field "QUANTITY" "1" 90]]].
#[local] Instance api : TextractAPI := {| AnalyzeExpense := fun _ data => if String.eqb data "busy" then inl (mkServiceError "slow down" false (Some "ThrottlingException")) else inr [doc] |}.
Definition scanned : option ExtractionResult := mapDocument doc "textract-analyze-expense" "v1".

Example mapped_ex : match scanned with
  | Some res => fieldInt res "total_minor" = Ok 325000 /\ er_warnings res = ["multiple_totals_detected"] /\
      er_items res = [mkItem "gạo" 2 25000] /\ fieldString res "occurred_at" = "2026-07-15T00:00:00Z" /\
      sprint_2f (fieldConf res "total_minor") = "0.99"
  | None => False end.
Proof. vm_compute. by split_and!. Qed.
Lemma textract_reads_first_witness : exists res, scanned = Some res /\ contract res /\
  er_fields res !! "total_minor" = amount_field <$> head (totals_of (xd_summary doc)).
Proof.
  pose proof mapped_ex as Hex. destruct scanned as [res|] eqn:Hs; [|destruct Hex]. clear Hex. exists res. split; [reflexivity|].
  destruct (textract_reads_first doc "textract-analyze-expense" "v1" res Hs) as (Hc & _ & _ & Ht & _). exact (conj Hc Ht).
Defined.
(** The mock's answers do not keep to the documented keys. *)
Example mock_adds_category : exists res, backend_Extract UseMock None (fun _ => false) 0 (mkReader "MOCK-FIXTURE:grab-mid" None) "image/png" = Some (Ok res) /\
  is_Some (er_fields res !! "category") /\ ~ contract res.
Proof.
  eexists. split; [vm_compute; reflexivity|]. split; [eexists; vm_compute; reflexivity|]. intros [Hf _].
  edestruct (Hf "category") as [Hin _]; [vm_compute; reflexivity|]. simpl in Hin.
  repeat (apply elem_of_cons in Hin as [Hin|Hin]; [discriminate Hin|]). by apply elem_of_nil in Hin.
Qed.
(** A field the service returned without a type stops the worker, although the
    confidence of such a field is provided for. *)
Example untyped_field_panics : mapDocument (mkDocument [mkField None (Some (mkDetection (Some "x") None))] []) "textract-analyze-expense" "v1" = None /\
  detectionConf (Some (mkDetection (Some "x") None)) None = float_zero.
Proof. by split. Qed.
Example classify_ex :
  match textract_Extract 0 (mkReader "busy" None) with Some (Fail err) => Retryable err | _ => false end = true /\
  CodeOf (classify (mkServiceError "" false (Some "BadDocumentException"))) = CodeValidation /\ CodeOf (classify (mkServiceError "" true None)) = CodeTransient.
Proof. vm_compute. by split_and!. Qed.
End ExtractorsDemo.
