(* ===== verification/S3.v ===== *)
(** * The S3 object store

    internal/platform/objectstore/s3.go and factory.go.  The state is what the
    configured bucket holds; the class [S3API] says which calls fail, and whether
    the failed call took effect.  The store refines the abstract store of
    [objectstore.Store]: keys within the prefix behave as a map of their own, and
    nothing outside the prefix is touched. *)
From S2P Require Import Prelude GoStrings Domain Config Db Objects Zalo.

Module S3.
Record S3Object := mkObject { so_body : string; so_type : string; so_encrypted : bool }.
Abbreviation Bucket := (gmap string S3Object).
Record S3Error := mkS3Error { s3e_text : string; s3e_noSuchKey : bool; s3e_code : option string }.
Class S3API := {
  (** The failure of a call at a tick, and whether the call took effect. *)
  s3_fault : nat -> option (S3Error * bool);
  (** The error the stream of an opened object ends with. *)
  s3_stream : nat -> option Err }.
(** What the service answers for an object that does not exist. *)
Definition no_such_key : S3Error := mkS3Error "NoSuchKey" true (Some "NoSuchKey").

Record Store := mkStore { s3_bucket : string; s3_prefix : string; s3_disableSSE : bool }.

(** [NewS3]; the client is not nil. *)
Definition NewS3 (bucket prefix : string) : Res Err Store :=
  if String.eqb bucket "" then Fail (Sentinel "objectstore: S3 bucket is required")
  else Ok (mkStore bucket (trim_set ["/"] prefix) false).
(** [ConnectS3]: [LoadDefaultConfig] gets the region, if there is one. *)
Definition connect_region (endpoint region : string) : string :=
  if String.eqb region "" && negb (String.eqb endpoint "") then
    if Contains endpoint "r2.cloudflarestorage.com" then "auto" else "us-east-1"
  else region.
Definition ConnectS3 (LoadDefaultConfig : option string -> Res Err unit) (bucket prefix endpoint region : string) : Res Err Store :=
  let endpoint := TrimSpace endpoint in
  let endpoint := trim_slashes (String.length endpoint) endpoint in
  let region := connect_region endpoint region in
  match LoadDefaultConfig (if String.eqb region "" then None else Some region) with
  | Fail err => Fail (Wrapped "load S3 config" err)
  | Ok _ =>
      match NewS3 bucket prefix with
      | Fail err => Fail err
      | Ok st => Ok (mkStore (s3_bucket st) (s3_prefix st) (negb (String.eqb endpoint "")))
      end
  end.

Section s3.
Context `{Env} `{S3API} (s : Store).

(** [fullKey] *)
Definition fullKey (key : string) : string := if String.eqb (s3_prefix s) "" then key else s3_prefix s ++ "/" ++ key.

(** [isS3NotFound] and [classifyS3] *)
Definition has_code (codes : list string) (err : S3Error) : bool :=
  match s3e_code err with Some c => existsb (String.eqb c) codes | None => false end.
Definition isS3NotFound (err : S3Error) : bool := s3e_noSuchKey err || has_code ["NoSuchKey"; "NoSuchBucket"; "NotFound"] err.
Definition classifyS3 (op : string) (err : S3Error) : Err :=
  let cause := Some (Sentinel (s3e_text err)) in
  if has_code ["AccessDenied"; "AllAccessDisabled"; "InvalidAccessKeyId"; "SignatureDoesNotMatch"] err
  then E CodeForbidden ("s3 " ++ op ++ ": access denied") cause
  else E CodeTransient ("s3 " ++ op) cause.

(** A call that changes the bucket. *)
Definition s3_call (t : nat) (f : Bucket -> Bucket) (b : Bucket) : Res S3Error unit * Bucket :=
  match s3_fault t with
  | Some (err, applied) => (Fail err, if applied then f b else b)
  | None => (Ok tt, f b)
  end.
(** [Put] *)
Definition Put (t : nat) (key : string) (r : Reader) (contentType : string) (b : Bucket) : Res Err Stored * Bucket :=
  match validateKey key with
  | Some err => (Fail err, b)
  | None =>
      match rd_err r with
      | Some err => (Fail (E CodeTransient "read object bytes" (Some err)), b)
      | None =>
          let data := rd_bytes r in
          match s3_call t (<[fullKey key := mkObject data contentType (negb (s3_disableSSE s))]>) b with
          | (Fail err, b') => (Fail (classifyS3 "put object" err), b')
          | (Ok _, b') => (Ok (mkStored key (sha256_hex data) (Z.of_nat (String.length data)) contentType), b')
          end
      end
  end.
(** [Open] *)
Definition Open (t : nat) (key : string) (b : Bucket) : Res Err Reader :=
  match validateKey key with
  | Some err => Fail err
  | None =>
      let answer := match s3_fault t with
                    | Some (err, _) => inl err
                    | None => match b !! fullKey key with Some o => inr o | None => inl no_such_key end
                    end in
      match answer with
      | inl err => Fail (if isS3NotFound err then ErrNotFound else classifyS3 "get object" err)
      | inr o => Ok (mkReader (so_body o) (s3_stream t))
      end
  end.
(** [Delete] *)
Definition Delete (t : nat) (key : string) (b : Bucket) : Res Err unit * Bucket :=
  match validateKey key with
  | Some err => (Fail err, b)
  | None =>
      match s3_call t (delete (fullKey key)) b with
      | (Fail err, b') => (if isS3NotFound err then Ok tt else Fail (classifyS3 "delete object" err), b')
      | (Ok _, b') => (Ok tt, b')
      end
  end.
End s3.
End S3.

(** [objectstore.NewFromConfig] *)
Inductive ObjectBackend := UseLocal (dir : string) | UseS3 (s : S3.Store).
Definition objectstore_NewFromConfig (NewLocal : string -> Res Err unit) (LoadDefaultConfig : option string -> Res Err unit) (cfg : Config.Config) : Res Err ObjectBackend :=
  if negb (String.eqb (ObjectStoreBackend cfg) "s3") then
    match NewLocal (DataDir cfg) with Ok _ => Ok (UseLocal (DataDir cfg)) | Fail err => Fail err end
  else match S3.ConnectS3 LoadDefaultConfig (S3Bucket cfg) (S3Prefix cfg) (S3Endpoint cfg) (S3Region cfg) with
       | Ok s => Ok (UseS3 s)
       | Fail err => Fail err
       end.

(** ** The contract of [objectstore.Store] *)
Inductive StoreOp := OpPut (key : string) (r : Reader) (contentType : string) | OpOpen (key : string) | OpDelete (key : string).
Inductive Outcome := OutStored (st : Stored) | OutRead (r : Reader) | OutDeleted | OutFailed (err : Err).
(** What the store holds, by key. *)
Definition View := string -> option string.

Section spec.
Context `{Env}.
Definition same (v v' : View) : Prop := forall k, v' k = v k.
Definition holds (v : View) (key : string) (x : option string) (v' : View) : Prop := forall k, v' k = if String.eqb k key then x else v k.
(** One operation: success is exact, a failed write may or may not have happened,
    and reads return what is there.  When the service fails the call by saying that
    something is not there ([denied]), reading reports a missing object and deleting
    reports success, whatever the store holds. *)
Inductive store_spec (denied : Prop) (v : View) : StoreOp -> Outcome -> View -> Prop :=
| spec_put key r ct v' : validateKey key = None -> rd_err r = None -> holds v key (Some (rd_bytes r)) v' ->
    store_spec denied v (OpPut key r ct) (OutStored (mkStored key (sha256_hex (rd_bytes r)) (Z.of_nat (String.length (rd_bytes r))) ct)) v'
| spec_put_failed key r ct err v' : same v v' \/ rd_err r = None /\ holds v key (Some (rd_bytes r)) v' -> store_spec denied v (OpPut key r ct) (OutFailed err) v'
| spec_open key r v' : v key = Some (rd_bytes r) -> same v v' -> store_spec denied v (OpOpen key) (OutRead r) v'
| spec_missing key v' : v key = None -> same v v' -> store_spec denied v (OpOpen key) (OutFailed ErrNotFound) v'
| spec_open_failed key err v' : err <> ErrNotFound -> same v v' -> store_spec denied v (OpOpen key) (OutFailed err) v'
| spec_delete key v' : holds v key None v' -> store_spec denied v (OpDelete key) OutDeleted v'
| spec_delete_failed key err v' : same v v' \/ holds v key None v' -> store_spec denied v (OpDelete key) (OutFailed err) v'
| spec_open_denied key v' : denied -> same v v' -> store_spec denied v (OpOpen key) (OutFailed ErrNotFound) v'
| spec_delete_denied key v' : denied -> same v v' \/ holds v key None v' -> store_spec denied v (OpDelete key) OutDeleted v'.
(** A run of operations; [denied t] is about the call at tick [t]. *)
Inductive store_run (denied : nat -> Prop) : nat -> View -> list StoreOp -> list Outcome -> View -> Prop :=
| run_done t v v' : same v v' -> store_run denied t v [] [] v'
| run_step t v op ops out outs v1 v2 : store_spec (denied t) v op out v1 -> store_run denied (S t) v1 ops outs v2 ->
    store_run denied t v (op :: ops) (out :: outs) v2.
End spec.

Section refinement.
Context `{Env} `{S3.S3API} (s : S3.Store).
(** The call at [t] fails with an error that says that something is not there: the
    key, an unspecified thing, or the bucket. *)
Definition denied (t : nat) : Prop := exists err applied, S3.s3_fault t = Some (err, applied) /\
  (S3.s3e_noSuchKey err = true \/ exists code, S3.s3e_code err = Some code /\ code ∈ ["NoSuchKey"; "NoSuchBucket"; "NotFound"]).

Definition s3_op (t : nat) (op : StoreOp) (b : S3.Bucket) : Outcome * S3.Bucket :=
  match op with
  | OpPut key r ct => let (res, b') := S3.Put s t key r ct b in (match res with Ok st => OutStored st | Fail err => OutFailed err end, b')
  | OpOpen key => (match S3.Open s t key b with Ok r => OutRead r | Fail err => OutFailed err end, b)
  | OpDelete key => let (res, b') := S3.Delete s t key b in (match res with Ok _ => OutDeleted | Fail err => OutFailed err end, b')
  end.
Fixpoint s3_run (t : nat) (ops : list StoreOp) (b : S3.Bucket) : list Outcome * S3.Bucket :=
  match ops with
  | [] => ([], b)
  | op :: rest => let r := s3_op t op b in let rr := s3_run (S t) rest r.2 in (r.1 :: rr.1, rr.2)
  end.
Definition view (b : S3.Bucket) : View := fun k => S3.so_body <$> b !! S3.fullKey s k.

Lemma fullKey_inj k k' : S3.fullKey s k = S3.fullKey s k' -> k = k'.
Proof.
  assert (Hinj : forall p x y : string, (p ++ x)%string = (p ++ y)%string -> x = y).
  { induction p as [|c p IH]; intros x y Hxy; [exact Hxy|]. apply IH. by injection Hxy. }
  unfold S3.fullKey. destruct (String.eqb _ _); [done|]. intros Hk%Hinj%Hinj. exact Hk.
Qed.
Lemma view_insert b key o : holds (view b) key (Some (S3.so_body o)) (view (<[S3.fullKey s key := o]> b)).
Proof.
  intros k. unfold view. destruct (String.eqb_spec k key) as [->|Hne]; [by rewrite lookup_insert_eq|].
  rewrite lookup_insert_ne; [done|]. intros He%fullKey_inj. congruence.
Qed.
Lemma view_delete b key : holds (view b) key None (view (delete (S3.fullKey s key) b)).
Proof.
  intros k. unfold view. destruct (String.eqb_spec k key) as [->|Hne]; [by rewrite lookup_delete_eq|].
  rewrite lookup_delete_ne; [done|]. intros He%fullKey_inj. congruence.
Qed.
Lemma same_refl v : same v v.
Proof. done. Qed.
Lemma classify_found op err : S3.classifyS3 op err <> ErrNotFound.
Proof. unfold S3.classifyS3. by case_match. Qed.

Lemma isS3NotFound_denied t err applied : S3.s3_fault t = Some (err, applied) -> S3.isS3NotFound err = true -> denied t.
Proof.
  intros Hf Hn. exists err, applied. split; [done|]. unfold S3.isS3NotFound, S3.has_code in Hn. apply orb_true_iff in Hn as [Hn|Hn]; [by left|right].
  destruct (S3.s3e_code err) as [c|]; [|done]. exists c. split; [done|]. apply existsb_exists in Hn as (x & Hx & ->%String.eqb_eq).
  by apply list_elem_of_In.
Qed.

Lemma s3_op_refines t op b : store_spec (denied t) (view b) op (s3_op t op b).1 (view (s3_op t op b).2).
Proof.
  assert (Hkey : forall key err, validateKey key = Some err -> err <> ErrNotFound).
  { intros key err. unfold validateKey. case_match; [|done]. intros [= <-] He. injection He as He. done. }
  destruct op as [key r ct|key|key]; unfold s3_op.
  - unfold S3.Put. destruct (validateKey key) as [err|] eqn:Hv; [by apply spec_put_failed; left|]. destruct (rd_err r) eqn:Hr; [by apply spec_put_failed; left|]. cbv zeta.
    unfold S3.s3_call. destruct (S3.s3_fault t) as [[err [|]]|]; cbn [fst snd]; [apply spec_put_failed; right; split; [done|apply view_insert]|by apply spec_put_failed; left|].
    apply spec_put; [done|done|apply view_insert].
  - cbn [fst snd]. unfold S3.Open. destruct (validateKey key) as [err|] eqn:Hv; [apply spec_open_failed; [by eapply Hkey|done]|]. cbv zeta.
    destruct (S3.s3_fault t) as [[err a]|] eqn:Hf.
    { destruct (S3.isS3NotFound err) eqn:Hn; [|apply spec_open_failed; [apply classify_found|done]].
      apply spec_open_denied; [by eapply isS3NotFound_denied|done]. }
    destruct (b !! S3.fullKey s key) as [o|] eqn:Hl; [apply spec_open; [unfold view; by rewrite Hl|done]|].
    apply spec_missing; [unfold view; by rewrite Hl|done].
  - unfold S3.Delete. destruct (validateKey key) as [err|] eqn:Hv; [by apply spec_delete_failed; left|].
    unfold S3.s3_call. destruct (S3.s3_fault t) as [[err applied]|] eqn:Hf; cbn [fst snd]; [|apply spec_delete, view_delete].
    assert (Hv' : same (view b) (view (if applied then delete (S3.fullKey s key) b else b)) \/
      holds (view b) key None (view (if applied then delete (S3.fullKey s key) b else b)))
      by (destruct applied; [right; apply view_delete|by left]).
    destruct (S3.isS3NotFound err) eqn:Hn; [|by apply spec_delete_failed].
    apply spec_delete_denied; [by eapply isS3NotFound_denied|done].
Qed.

(** Objects outside the prefix. *)
Definition foreign (k : string) : Prop := forall key, S3.fullKey s key <> k.
Lemma s3_op_foreign t op b k : foreign k -> (s3_op t op b).2 !! k = b !! k.
Proof.
  intros Hk. assert (Hput : forall key o, <[S3.fullKey s key := o]> b !! k = b !! k) by (intros; by rewrite lookup_insert_ne).
  assert (Hdel : forall key, delete (S3.fullKey s key) b !! k = b !! k) by (intros; by rewrite lookup_delete_ne).
  destruct op as [key r ct|key|key]; unfold s3_op, S3.Put, S3.Delete, S3.s3_call; cbv zeta; repeat case_match; simplify_eq; cbn [fst snd]; done.
Qed.
(** An object that was not there before is encrypted at rest, unless that is switched
    off. *)
Definition written_encrypted (b b' : S3.Bucket) : Prop :=
  forall k o, b' !! k = Some o -> b !! k = Some o \/ S3.so_encrypted o = negb (S3.s3_disableSSE s).
Lemma s3_op_encrypted t op b : written_encrypted b (s3_op t op b).2.
Proof.
  assert (Hput : forall key data ct, written_encrypted b (<[key := S3.mkObject data ct (negb (S3.s3_disableSSE s))]> b)).
  { intros key data ct k o [[_ <-]|[_ Ho]]%lookup_insert_Some; [by right|by left]. }
  assert (Hdel : forall key, written_encrypted b (delete key b)) by (intros key k o [_ Ho]%lookup_delete_Some; by left).
  assert (Hid : written_encrypted b b) by (intros k o Ho; by left).
  destruct op as [key r ct|key|key]; unfold s3_op, S3.Put, S3.Delete, S3.s3_call; cbv zeta; repeat case_match; simplify_eq; cbn [fst snd]; done.
Qed.

(** C30: The S3 store is an object store.  Any sequence of its operations, whatever
    calls fail, is a run of the abstract store over the keys of its prefix, in which
    a call that the service fails by saying that the key or the bucket is not there
    may read as a missing object and may count as a deletion although the object
    stays; every other success is exact.  Objects outside the prefix stay as they
    were, and every object that was not there before is encrypted, unless the store
    has encryption switched off (as it has with a custom endpoint). *)
Theorem s3_refines t ops b : let r := s3_run t ops b in
  store_run denied t (view b) ops r.1 (view r.2) /\ (forall k, foreign k -> r.2 !! k = b !! k) /\ written_encrypted b r.2.
Proof.
  cbv zeta. revert t b. induction ops as [|op ops IH]; intros t b; cbn [s3_run fst snd].
  { split_and!; [by apply run_done|done|intros k o Ho; by left]. }
  destruct (IH (S t) (s3_op t op b).2) as (Hr & Hf & He). split_and!.
  - eapply run_step; [apply s3_op_refines|exact Hr].
  - intros k Hk. rewrite Hf by done. by apply s3_op_foreign.
  - intros k o [Ho|Ho]%He; [|by right]. by apply s3_op_encrypted in Ho.
Qed.
End refinement.

Module S3Demo.
#[local] Instance env : Env := demo_env no_faults (fun n => Z.of_nat n * Second).
(** The second call fails after it took effect. *)
#[local] Instance api : S3.S3API := {| S3.s3_fault := fun t => match t with 1%nat => Some (S3.mkS3Error "slow" false (Some "SlowDown"), true) | _ => None end; S3.s3_stream := fun _ => None |}.
Definition st : S3.Store := S3.mkStore "receipts" "prod" false.
Definition img : Reader := mkReader "abc" None.
Definition ops : list StoreOp := [OpPut "a/1" img "image/png"; OpPut "a/2" img "image/png"; OpOpen "a/2"; OpDelete "a/1"; OpDelete "a/1"; OpOpen "a/1"].
Example run_ex : (s3_run st 0 ops ∅).1 =
  [OutStored (mkStored "a/1" "abc" 3 "image/png"); OutFailed (E CodeTransient "s3 put object" (Some (Sentinel "slow"))); OutRead img; OutDeleted; OutDeleted; OutFailed ErrNotFound] /\
  S3.NewS3 "b" "/x/y/" = Ok (S3.mkStore "b" "x/y" false) /\ S3.connect_region "https://a.r2.cloudflarestorage.com" "" = "auto".
Proof. vm_compute. by split_and!. Qed.
(** A bucket that does not exist is taken for an object that does not: deletion
    reports success although nothing was deleted. *)
Definition wrong_bucket : S3.S3API := {| S3.s3_fault := fun _ => Some (S3.mkS3Error "bucket" false (Some "NoSuchBucket"), false); S3.s3_stream := fun _ => None |}.
Example wrong_bucket_deletes : (@S3.Delete wrong_bucket st 0 "a/1" (<["prod/a/1" := S3.mkObject "abc" "image/png" true]> ∅)).1 = Ok tt.
Proof. reflexivity. Qed.
End S3Demo.
