(* ===== verification/Migrate.v ===== *)
(** * The migration runner

    internal/platform/migrate: the scripts of a directory, applied in lexical
    order, each in a transaction with its row of schema_migrations.  The schema is
    the list of scripts that took effect; whether a script runs on a schema is the
    class [Scripts].  A statement may fail at any tick, and a failed commit may or
    may not have happened. *)
From S2P Require Import Prelude GoStrings Domain Db.

Record FileEntry := mkFile { fe_name : string; fe_dir : bool; fe_body : Res Err string }.
Record Schema := mkSchema { sc_versions : list string; sc_scripts : list string; sc_tick : nat }.
Class Scripts := { script_error : list string -> string -> option Err }.
Definition sc_next (s : Schema) : Schema := mkSchema (sc_versions s) (sc_scripts s) (S (sc_tick s)).

Section migrate.
Context `{Env} `{Scripts}.

(** The names that are migrations, sorted. *)
Definition up_suffix : string := ".up.sql".
Definition is_up (e : FileEntry) : bool := negb (fe_dir e) && HasSuffix (fe_name e) up_suffix.
Definition name_leb (a b : FileEntry) : bool := String.leb (fe_name a) (fe_name b).
Definition ups_of (entries : list FileEntry) : list FileEntry := isort name_leb (List.filter is_up entries).
Definition version_of (e : FileEntry) : string := TrimSuffix (fe_name e) up_suffix.

(** A statement at a tick: its fault, if any. *)
Definition statement (s : Schema) : option Err := match fault (sc_tick s) with Some flt => Some (Driver (flt_err flt)) | None => None end.
Definition recorded_script (version body : string) (s : Schema) : Schema :=
  mkSchema (sc_versions s ++ [version])%list (sc_scripts s ++ [body])%list (sc_tick s).
(** One transaction: the script and its row, or nothing. *)
Definition apply_one (version body : string) (s : Schema) : option Err * Schema :=
  let s1 := sc_next s in let s2 := sc_next s1 in let s3 := sc_next s2 in
  match statement s with
  | Some err => (Some (Wrapped ("begin migration " ++ version) err), s1)
  | None =>
      match (match statement s1 with Some err => Some err | None => script_error (sc_scripts s) body end) with
      | Some err => (Some (Wrapped ("apply migration " ++ version) err), s2)
      | None =>
          match statement s2 with
          | Some err => (Some (Wrapped ("record migration " ++ version) err), s3)
          | None =>
              match fault (sc_tick s3) with
              | Some flt => (Some (Wrapped ("commit migration " ++ version) (Driver (flt_err flt))),
                             sc_next (if flt_applied flt then recorded_script version body s3 else s3))
              | None => (None, sc_next (recorded_script version body s3))
              end
          end
      end
  end.
(** The loop over the sorted names: the versions applied and the error that ended
    it. *)
Fixpoint apply_all (ups : list FileEntry) (applied : list string) (s : Schema) : list string * option Err * Schema :=
  match ups with
  | [] => (applied, None, s)
  | e :: rest =>
      let version := version_of e in
      match statement s with
      | Some err => (applied, Some (Wrapped ("check migration " ++ version) err), sc_next s)
      | None =>
          let s := sc_next s in
          if bool_decide (version ∈ sc_versions s) then apply_all rest applied s
          else
            match fe_body e with
            | Fail err => (applied, Some (Wrapped ("read migration " ++ fe_name e) err), s)
            | Ok body =>
                match apply_one version body s with
                | (Some err, s') => (applied, Some err, s')
                | (None, s') => apply_all rest (applied ++ [version])%list s'
                end
            end
      end
  end.
(** [Up] *)
Definition Up (ReadDir : Res Err (list FileEntry)) (s : Schema) : list string * option Err * Schema :=
  match statement s with
  | Some err => ([], Some (Wrapped "ensure schema_migrations" err), sc_next s)
  | None =>
      match ReadDir with
      | Fail err => ([], Some (Wrapped "read migrations dir" err), sc_next s)
      | Ok entries => apply_all (ups_of entries) [] (sc_next s)
      end
  end.

(** ** The schema moves through the scripts in order *)
Section progress.
Context (entries : list FileEntry) (Hnames : NoDup (version_of <$> ups_of entries)).

(** The first [n] scripts have taken effect, each once, in order, and their rows
    are there. *)
Definition body_of (e : FileEntry) : string := match fe_body e with Ok b => b | Fail _ => "" end.
Definition progress (n : nat) (s : Schema) : Prop :=
  sc_scripts s = body_of <$> List.firstn n (ups_of entries) /\ sc_versions s = version_of <$> List.firstn n (ups_of entries) /\
  (n <= length (ups_of entries))%nat.

Lemma progress_tick n s : progress n s -> progress n (sc_next s).
Proof. done. Qed.
Lemma apply_one_progress n e body s r s' : progress n s -> ups_of entries !! n = Some e -> fe_body e = Ok body ->
  apply_one (version_of e) body s = (r, s') -> (r = None /\ progress (S n) s') \/ (r <> None /\ (progress n s' \/ progress (S n) s')).
Proof.
  intros Hp He Hb. assert (Hnext : progress (S n) (recorded_script (version_of e) body s)).
  { destruct Hp as (Hs & Hv & Hn). assert (Hfirst : List.firstn (S n) (ups_of entries) = (List.firstn n (ups_of entries) ++ [e])%list).
    { pose proof (take_S_r (ups_of entries) n e He) as Ht. exact Ht. }
    unfold progress. cbn [sc_scripts sc_versions recorded_script]. rewrite Hfirst, !fmap_app, Hs, Hv. cbn [fmap list_fmap].
    assert (Hbe : body_of e = body) by (unfold body_of; by rewrite Hb). rewrite Hbe.
    split_and!; [done|done|]. apply lookup_lt_Some in He. lia. }
  unfold apply_one. cbv zeta. repeat case_match; intros [= <- <-]; try (right; split; [done|by left]); [right; split; [done|by right]|by left].
Qed.
Lemma at_position pre e rest : ups_of entries = (pre ++ e :: rest)%list -> forall n, (n <= length (ups_of entries))%nat ->
  version_of e ∈ (version_of <$> List.firstn n (ups_of entries)) <-> (length pre < n)%nat.
Proof.
  intros Hu n Hn. rewrite Hu in *. rewrite fmap_app, fmap_cons in Hnames. apply NoDup_app in Hnames as (_ & Hd & Hc). split.
  - intros Hin. destruct (Nat.lt_ge_cases (length pre) n) as [|Hle]; [done|]. exfalso. rewrite List.firstn_app in Hin.
    replace (n - length pre)%nat with O in Hin by lia. cbn [List.firstn] in Hin. rewrite app_nil_r in Hin.
    apply list_elem_of_fmap in Hin as (x & Hx & Hin%(elem_of_take)). destruct Hin as (i & Hi & _). apply (Hd (version_of e)).
    + rewrite Hx. apply list_elem_of_fmap_2. by eapply list_elem_of_lookup_2.
    + apply list_elem_of_here.
  - intros Hlt. apply list_elem_of_fmap_2. rewrite List.firstn_app. apply elem_of_app. right. destruct (n - length pre)%nat eqn:Hk; [lia|]. apply list_elem_of_here.
Qed.

Lemma apply_all_progress pre rest n applied s versions err s' : ups_of entries = (pre ++ rest)%list -> (length pre <= n)%nat -> progress n s ->
  apply_all rest applied s = (versions, err, s') ->
  exists n', (n <= n')%nat /\ progress n' s' /\
    (err = None -> n' = length (ups_of entries) /\ versions = (applied ++ (version_of <$> List.skipn n (ups_of entries)))%list).
Proof.
  revert pre n applied s. induction rest as [|e rest IH]; intros pre n applied s Hu Hpre Hp; simpl.
  { intros [= <- <- <-]. exists n. split; [lia|]. split; [done|]. intros _. rewrite app_nil_r in Hu. destruct Hp as (_ & _ & Hn). subst pre.
    assert (n = length (ups_of entries)) as -> by lia. split; [done|]. by rewrite skipn_all, app_nil_r. }
  destruct (statement s); [intros [= <- <- <-]; exists n; by split_and!|].
  destruct Hp as (Hs & Hv & Hn). assert (Hp : progress n (sc_next s)) by done. pose proof (at_position pre e rest Hu n Hn) as Hat.
  assert (Hu' : ups_of entries = ((pre ++ [e]) ++ rest)%list) by (by rewrite <- app_assoc). rewrite Hv.
  case_bool_decide as Hin.
  - intros Ha. apply (IH (pre ++ [e])%list n) in Ha; [done|done|rewrite length_app; simpl; apply Hat in Hin; lia|done].
  - assert (n = length pre) as -> by (assert (~ (length pre < n)%nat) by (by rewrite <- Hat); lia).
    assert (He : ups_of entries !! length pre = Some e) by (rewrite Hu; apply list_lookup_middle; done).
    destruct (fe_body e) as [body|] eqn:Hb; [|intros [= <- <- <-]; exists (length pre); by split_and!].
    destruct (apply_one (version_of e) body (sc_next s)) as [[x|] s1] eqn:Ho; apply (apply_one_progress _ _ _ _ _ _ Hp He Hb) in Ho.
    + intros [= <- <- <-]. destruct Ho as [[? _]|[_ [Ho|Ho]]]; [done|exists (length pre); by split_and!|exists (S (length pre)); split_and!; [lia|done|done]].
    + destruct Ho as [[_ Ho]|[? _]]; [|done]. intros Ha. apply (IH (pre ++ [e])%list (S (length pre))) in Ha; [|done|rewrite length_app; simpl; lia|done].
      destruct Ha as (n' & Hn' & Hp' & Hdone). exists n'. split; [lia|]. split; [done|]. intros Herr. destruct (Hdone Herr) as [-> ->]. split; [done|].
      rewrite <- app_assoc. f_equal. rewrite (drop_S _ _ _ He). done.
Qed.

(** C38: However often the runner is started and wherever it fails, the schema is the
    result of the first scripts in lexical order, each applied once; a run that
    reports no error leaves all of them applied and names exactly the ones that
    were missing. *)
Theorem migrations_in_order n s applied err s' : progress n s -> Up (Ok entries) s = (applied, err, s') ->
  exists n', (n <= n')%nat /\ progress n' s' /\
    (err = None -> n' = length (ups_of entries) /\ applied = version_of <$> List.skipn n (ups_of entries)).
Proof.
  intros Hp. unfold Up. destruct (statement s); [intros [= <- <- <-]; exists n; by split_and!|]. intros Ha.
  by apply (apply_all_progress [] _ n [] _ _ _ _ eq_refl ltac:(simpl; lia) (progress_tick _ _ Hp)) in Ha.
Qed.
End progress.
End migrate.

Module MigrateDemo.
(** The commit of the second script fails after it took effect. *)
#[local] Instance env : Env := demo_env (fun t => if (t =? 10)%nat then Some (mkFault (mkDriverErr NetOpError "reset") true) else None) (fun n => Z.of_nat n * Second).
#[local] Instance scripts : Scripts := {| script_error := fun _ _ => None |}.
Definition dir : list FileEntry :=
  [mkFile "0002_seed.up.sql" false (Ok "insert"); mkFile "0001_init.down.sql" false (Ok "drop"); mkFile "0001_init.up.sql" false (Ok "create"); mkFile "0003_x.up.sql" false (Ok "alter")].
Definition start : Schema := mkSchema [] [] 0.
Example interrupted_then_done :
  let r := Up (Ok dir) start in r.1.1 = ["0001_init"] /\ r.1.2 <> None /\ sc_scripts r.2 = ["create"; "insert"] /\
  let r2 := Up (Ok dir) r.2 in r2.1 = (["0003_x"], None) /\ sc_scripts r2.2 = ["create"; "insert"; "alter"] /\ (Up (Ok dir) r2.2).1 = ([], None).
Proof. vm_compute. by split_and!. Qed.
Lemma migrations_in_order_witness : NoDup (version_of <$> ups_of dir) /\ progress dir 0 start /\
  exists n', (0 <= n')%nat /\ progress dir n' (Up (Ok dir) start).2.
Proof.
  assert (Hd : NoDup (version_of <$> ups_of dir)) by (apply (bool_decide_unpack _); vm_compute; exact I).
  assert (Hp : progress dir 0 start) by (split_and!; [reflexivity|reflexivity|lia]).
  split; [exact Hd|]. split; [exact Hp|]. destruct (Up (Ok dir) start) as [[applied err] s'] eqn:Hu.
  destruct (migrations_in_order dir Hd 0 start applied err s' Hp Hu) as (n' & Hn & Hp' & _). exists n'. exact (conj Hn Hp').
Defined.
End MigrateDemo.
