(* ===== verification/Simulate.v ===== *)
(** * The simulation: every component in one run

    cmd/simulate: the harness that drives the real handler, receipt processor and
    sender in one process, on the local provider and the mock extractor, and
    asserts what the tables and the messages must look like after each exchange.
    Here the harness runs over the composed model: a text or an image goes through
    [HandleEvent], the queued jobs through [Drain], and the assertions are the
    program's own.  The tables start from the seed of migration 0002. *)
From S2P Require Import Prelude GoStrings Domain GoTime Calendar Periods Json Normalise Unmarshal Config Db Queue StoreTx Categorisation.
From S2P Require Import Insight Templates Fields Notify Objects Processor Worker Export BotCommands BotText Bot Zalo ZaloEvents LogProvider Extraction.

(** ** The seed of 0002_seed_categories.up.sql *)
Definition seed_categories : list Category :=
  (fun x : N * string * string => mkCategory (0x11111111111111111111111111111100 + x.1.1)%N x.1.2 x.2 None true 0) <$>
  [(1, "an-uong", "Ăn uống"); (2, "thuc-pham", "Thực phẩm"); (3, "di-lai", "Đi lại"); (4, "hoa-don", "Hóa đơn");
   (5, "mua-sam", "Mua sắm"); (6, "suc-khoe", "Sức khỏe"); (7, "giai-tri", "Giải trí"); (8, "giao-duc", "Giáo dục");
   (9, "nha-o", "Nhà ở"); (0x10, "thu-nhap", "Thu nhập"); (0x11, "hoan-tien", "Hoàn tiền");
   (0x12, "chuyen-khoan", "Chuyển khoản"); (0x13, "khac", "Khác")]%N.
Definition seed_merchant (n : N) : uuid := (0x22222222222222222222222222222200 + n)%N.
Definition seed_merchants : list Merchant :=
  (fun x : N * (string * string * string) => mkMerchant (seed_merchant x.1) x.2.1.1 x.2.1.2 x.2.2 0) <$>
  [(1, ("Co.opmart", "coopmart", "supermarket")); (2, ("Circle K", "circle k", "convenience"));
   (3, ("Highlands Coffee", "highlands coffee", "cafe")); (4, ("Grab", "grab", "transport"));
   (5, ("Petrolimex", "petrolimex", "fuel")); (6, ("Guardian", "guardian", "pharmacy"));
   (7, ("Shopee", "shopee", "ecommerce")); (8, ("The Coffee House", "the coffee house", "cafe"))]%N.
Definition seed_aliases : list MerchantAlias :=
  (fun x : N * N * (string * string) => mkAlias (0x33333333333333333333333333333300 + x.1.1)%N (seed_merchant x.1.2) x.2.1 x.2.2 "seed") <$>
  [(1, 1, ("CO.OPMART", "coopmart")); (2, 1, ("Co.op Mart", "coop mart")); (3, 3, ("HIGHLANDS COFFEE", "highlands coffee"));
   (4, 3, ("Highlands", "highlands")); (5, 4, ("GRAB", "grab")); (6, 5, ("PETROLIMEX", "petrolimex"));
   (7, 7, ("SHOPEE VN", "shopee vn")); (8, 8, ("THE COFFEE HOUSE", "the coffee house"))]%N.
Definition seeded : DB :=
  upd_categories (fun _ => list_to_map ((fun c => (cat_id c, c)) <$> seed_categories))
    (upd_merchants (fun _ => list_to_map ((fun m => (mer_id m, m)) <$> seed_merchants))
      (upd_aliases (fun _ => list_to_map ((fun a => (ali_id a, a)) <$> seed_aliases)) empty_db)).

(** ** Resetting the tables *)

(** The tables with a foreign key into a table, from the migrations: what
    TRUNCATE ... CASCADE empties with it. *)
Definition referencing (table : string) : list string :=
  if String.eqb table "users" then
    ["user_identities"; "provider_messages"; "receipt_documents"; "transactions"; "user_merchant_rules"; "insights";
     "outbound_messages"; "pending_actions"; "scheduled_summary_preferences"]
  else if String.eqb table "provider_messages" then ["receipt_documents"; "transactions"]
  else if String.eqb table "receipt_documents" then ["receipt_processing_attempts"; "transactions"; "extracted_fields"]
  else if String.eqb table "transactions" then ["predictions"; "corrections"; "pending_actions"]
  else if String.eqb table "categories" then ["categories"; "transactions"; "user_merchant_rules"]
  else if String.eqb table "merchants" then ["merchant_aliases"; "transactions"; "user_merchant_rules"]
  else [].
(** The longest chain of references has four tables. *)
Fixpoint cascade (depth : nat) (table : string) : list string :=
  table :: match depth with O => [] | S d => referencing table ≫= cascade d end.
Definition clear (table : string) : DB -> DB :=
  if String.eqb table "users" then upd_users (fun _ => ∅)
  else if String.eqb table "user_identities" then upd_idents (fun _ => ∅)
  else if String.eqb table "provider_messages" then upd_msgs (fun _ => ∅)
  else if String.eqb table "receipt_documents" then upd_receipts (fun _ => ∅)
  else if String.eqb table "receipt_processing_attempts" then upd_attempts (fun _ => ∅)
  else if String.eqb table "transactions" then upd_txs (fun _ => ∅)
  else if String.eqb table "extracted_fields" then upd_fields (fun _ => ∅)
  else if String.eqb table "predictions" then upd_preds (fun _ => ∅)
  else if String.eqb table "corrections" then upd_corrs (fun _ => ∅)
  else if String.eqb table "categories" then upd_categories (fun _ => ∅)
  else if String.eqb table "merchants" then upd_merchants (fun _ => ∅)
  else if String.eqb table "merchant_aliases" then upd_aliases (fun _ => ∅)
  else if String.eqb table "user_merchant_rules" then upd_rules (fun _ => ∅)
  else if String.eqb table "insights" then upd_insights (fun _ => ∅)
  else if String.eqb table "usage_counters" then upd_usage (fun _ => ∅)
  else if String.eqb table "queue_jobs" then upd_jobs (fun _ => ∅)
  else if String.eqb table "outbound_messages" then upd_outbound (fun _ => ∅)
  else if String.eqb table "pending_actions" then upd_pending (fun _ => ∅)
  else if String.eqb table "scheduled_summary_preferences" then upd_schedules (fun _ => ∅)
  else id.
Definition truncated (table : string) (d : DB) : DB := foldr clear d (cascade 4 table).
Definition resetTables : list string :=
  ["pending_actions"; "outbound_messages"; "queue_jobs"; "usage_counters"; "insights"; "user_merchant_rules"; "corrections";
   "predictions"; "extracted_fields"; "transactions"; "receipt_processing_attempts"; "receipt_documents"; "provider_messages";
   "user_identities"; "users"].

(** ** The harness *)
Record Harness := mkHarness { h_world : World; msgSeq : Z; failures : Z }.
Abbreviation Demo A := (M Harness Err A).

Definition demoSender : string := "demo-sender-1".
Definition demoChat : string := "demo-chat-1".

Section simulate.
Context `{Env} `{Network} `{TzData} `{SqlLocale} `{FloatText} (local : Location) (cfg : Config.Config).

(** The wiring of [run]: the mock extractor, the local provider, whose messages
    are the sends of the trace, and the configured limits. *)
#[local] Instance sim_extractor : Extractor :=
  {| extractor_Name := "mock-corpus"; extractor_Version := "v1";
     extractor_Extract := fun _ data _ _ _ => mock_Extract None (mkReader data None) |}.
#[local] Instance sim_media : MediaProvider :=
  {| provider_ParseWebhook := log_ParseWebhook;
     provider_DownloadMedia := fun _ ref => match log_DownloadMedia ref with Ok (data, _) => Ok (mkReader data None) | Fail e => Fail e end |}.
#[local] Instance sim_provider : Provider := {| provider_Send := fun t _ _ _ => Ok ("log-" ++ Sprintd (Z.of_nat t)) |}.
Definition processor : Processor := mkProcessor (Config.ExtractionEnabled cfg) (MonthlyOCRPageLimit cfg) (10 * 2 ^ 20).
Definition sender : Sender := mkSender (Config.OutboundEnabled cfg) (ZaloMonthlyMessageLimit cfg).

Definition on_world {A} (m : Go A) : Demo A := fun h =>
  let r := m (h_world h) in (fst r, mkHarness (snd r) (msgSeq h) (failures h)).
Definition miss : Demo unit := modify (fun h => mkHarness (h_world h) (msgSeq h) (failures h + 1)).

(** [check], [lastOutbound], [count], [scalar] *)
Definition check (ok : bool) : Demo unit := if ok then ret tt else miss.
Definition sent_text (c : Call) : option string := match c with CallSend _ _ _ text _ => Some text | _ => None end.
Definition lastOutbound : Demo string := asks (fun h => default "" (last (omap sent_text (w_calls (h_world h))))).
Definition count (f : DB -> Z) : Demo Z :=
  let* r := attempt (on_world (query f)) in
  match r with Ok n => ret n | Fail _ => miss ;;; ret (-1) end.
Definition scalar (f : DB -> list string) : Demo string :=
  let* r := attempt (on_world (query f)) in
  match r with Ok (s :: _) => ret s | _ => miss ;;; ret "" end.

(** [event]: the raw payload is the event's own JSON. *)
Definition event (eventType text : string) (media : list MediaReference) : Demo InboundEvent := fun h =>
  let n := msgSeq h + 1 in
  let (now, w) := time_Now (h_world h) in
  let ev := mkEvent ProviderZaloBot demoSender demoChat ("sim-" ++ zero_pad 4 (Sprintd n)) eventType text media
              (match now with Ok t => t | Fail _ => 0 end) "" "" 0 in
  let raw := json_text_of None (event_json ev) in
  (Ok (mkEvent (ev_provider ev) (ev_user ev) (ev_chat ev) (ev_message ev) (ev_type ev) (ev_text ev) (ev_media ev) (ev_received_at ev)
         (sha256_hex raw) raw 0), mkHarness w n (failures h)).
Definition textEvent (text : string) : Demo InboundEvent := event EventTextReceived text [].
Definition imageEvent (imageURL : string) : Demo InboundEvent :=
  event EventImageReceived "" [mkMedia ProviderZaloBot imageURL "image/jpeg" ""].

(** [deliver], [say], [snap]: one event through the handler, then every job it
    queued.  The fuel is far more than the jobs of one exchange. *)
Definition drain_fuel : nat := 20.
Definition drain_steps : list (JobKind * (QueueJob -> Go unit)) :=
  [(JobReceiptProcess, Processor_Handle processor); (JobOutboundSend, Sender_Handle sender)].
Definition deliver (ev : InboundEvent) : Demo unit :=
  wrap_err (Wrapped ("handle " ++ ev_type ev ++ " " ++ ev_message ev)) (on_world (HandleEvent local cfg true ev)) ;;;
  let* drained := on_world (Drain drain_fuel drain_steps) in
  match drained with Some _ => ret tt | None => fail (Sentinel "drain: out of fuel") end.
Definition say (text : string) : Demo unit := let* ev := textEvent text in deliver ev.
Definition snap (imageURL : string) : Demo unit := let* ev := imageEvent imageURL in deliver ev.

(** ** The queries of the script *)
Definition count_rows {K A} `{Countable K} (m : gmap K A) : Z := Z.of_nat (size m).
Definition count_where {K A} `{Countable K} (p : A -> bool) (m : gmap K A) : Z := Z.of_nat (length (select p m)).
Definition users_status (d : DB) : list string := (fun u => user_status_string (usr_status u)) <$> rows (db_users d).
Definition receipts_status (d : DB) : list string := (fun r => receipt_status_string (rc_status r)) <$> rows (db_receipts d).
Definition txs_status (d : DB) : list string := (fun t => tx_status_string (tx_status t)) <$> rows (db_txs d).
Definition has_status (s : TxStatus) (t : Transaction) : bool := bool_decide (tx_status t = s).
Definition expect (f : DB -> Z) (n : Z) : Demo unit := let* k := count f in check (k =? n).
Definition expect_text (f : DB -> list string) (s : string) : Demo unit := let* x := scalar f in check (String.eqb x s).
Definition expect_said (s : string) : Demo unit := let* x := lastOutbound in check (Contains x s).

(** ** The script: [play], step by step *)
Definition step1 : Demo unit :=
  say "/batdau" ;;;
  expect_text users_status "active" ;;;
  expect (fun d => count_rows (db_users d)) 1 ;;;
  expect_said "Cảm ơn bạn".
Definition step2 (image : InboundEvent) : Demo unit :=
  deliver image ;;;
  expect (fun d => count_rows (db_receipts d)) 1 ;;;
  expect_text receipts_status (receipt_status_string ReceiptReviewRequired) ;;;
  expect_text txs_status (tx_status_string TxAwaitingConfirmation) ;;;
  expect (fun d => count_where (fun t => (tx_amount t =? 325000) && String.eqb (tx_currency t) "VND") (db_txs d)) 1 ;;;
  let* card := lastOutbound in
  check (Contains (ToLower card) "co.opmart" && Contains card "325.000").
Definition step3 : Demo unit :=
  say "xác nhận" ;;;
  expect_text txs_status (tx_status_string TxConfirmed) ;;;
  expect_text receipts_status (receipt_status_string ReceiptConfirmed) ;;;
  expect_said "Đã ghi nhận" ;;;
  expect (fun d => count_rows (db_pending d)) 0.
Definition step4 : Demo unit :=
  say "150000 ăn trưa" ;;;
  expect_said "150.000" ;;;
  say "xác nhận" ;;;
  expect (fun d => count_where (has_status TxConfirmed) (db_txs d)) 2.
Definition step5 : Demo unit :=
  say "/homnay" ;;;
  let* summary := lastOutbound in
  check (Contains summary "Hôm nay" && Contains summary "150.000").
Definition step6 (image : InboundEvent) : Demo unit :=
  let* before := count (fun d => count_rows (db_msgs d)) in
  deliver image ;;;
  expect (fun d => count_rows (db_msgs d)) before ;;;
  expect (fun d => count_rows (db_receipts d)) 1 ;;;
  expect (fun d => count_rows (db_txs d)) 2.
Definition step7 : Demo unit :=
  snap "MOCK-FIXTURE:coopmart-clean" ;;;
  expect (fun d => count_rows (db_receipts d)) 2 ;;;
  expect (fun d => count_where (fun r => bool_decide (rc_status r = ReceiptFailedPermanent)) (db_receipts d)) 1 ;;;
  expect (fun d => count_rows (db_txs d)) 2 ;;;
  expect_said "đã xử lý trước đó".
Definition step8 : Demo unit :=
  say "xác nhận" ;;;
  expect_said "hết hạn" ;;;
  expect (fun d => count_rows (db_txs d)) 2.
Definition step9 : Demo unit :=
  say "xóa khoản gần nhất" ;;;
  (let* ask := lastOutbound in
   check (Contains ask "Bạn muốn xóa khoản này?" && Contains ask "150.000")) ;;;
  say "xác nhận" ;;;
  expect_said "Đã xóa: 150.000 ₫ tại ăn trưa" ;;;
  expect (fun d => count_where (has_status TxConfirmed) (db_txs d)) 1 ;;;
  expect (fun d => count_rows (db_pending d)) 0.
Definition step10 : Demo unit :=
  say "xóa khoản gần nhất" ;;;
  expect_said "Bạn muốn xóa khoản này?" ;;;
  say "bỏ qua" ;;;
  expect_said "không xóa" ;;;
  expect (fun d => count_where (has_status TxConfirmed) (db_txs d)) 1.
Definition play : Demo unit :=
  step1 ;;;
  let* image := imageEvent "MOCK-FIXTURE:coopmart-clean" in
  step2 image ;;; step3 ;;; step4 ;;; step5 ;;; step6 image ;;; step7 ;;; step8 ;;; step9 ;;; step10 ;;;
  let* n := asks failures in
  if 0 <? n then fail (Sentinel ("Gate 2 demo FAILED: " ++ Sprintd n ++ " assertion(s) failed")) else ret tt.

(** [run], from the migrated database on. *)
Definition reset : Go unit :=
  for_each resetTables (fun _ table => wrap_err (Wrapped ("reset " ++ table)) (dml (fun _ d => (tt, truncated table d)))) tt.
Definition run (keep : bool) : Demo unit :=
  (if keep then ret tt else on_world reset) ;;; play.
End simulate.

Module SimulateDemo.
Import PeriodsDemo.
(** 19 July 2026, 19:34:56 in Vietnam; a millisecond passes with every step. *)
Definition clock (n : nat) : Time := 1784464496 * Second + Z.of_nat n * Millisecond.
#[local] Instance env : Env := demo_env no_faults clock.
#[local] Instance tz : TzData := {| LoadLocation := fun name => if String.eqb name "Asia/Ho_Chi_Minh" then Some vietnam else None |}.
#[local] Instance locale : SqlLocale :=
  {| text_leb := String.leb; sql_local_day := fun name => if String.eqb name "Asia/Ho_Chi_Minh" then Some (local_day vietnam) else None |}.
#[local] Instance floats : FloatText := {| float_text := fun _ => "" |}.
#[local] Instance names : NetParse := ConfigDemo.net.
#[local] Instance net : Network := {| net_parse := names; url_error := fun s => s; json_error := fun s => s; ParseIP := fun _ => None;
  LookupIPAddr := fun _ _ => Ok []; http_Do := fun _ _ => Fail (Sentinel "offline"); http_Get := fun _ _ => Fail (Sentinel "offline") |}.
(** The environment of make simulate. *)
Definition makefile (key : string) : option string :=
  if String.eqb key "DATABASE_URL" then Some "postgres://local" else if String.eqb key "ZALO_WEBHOOK_SECRET" then Some "dev-secret-change-me"
  else if String.eqb key "EXTRACTION_ENABLED" then Some "true"
  else if String.eqb key "OUTBOUND_ENABLED" then Some "true" else None.
Definition cfg : Config.Config := match Load makefile with Ok c => c | Fail _ => ConfigDemo.loaded end.
Definition start (d : DB) : Harness := mkHarness (world_of d) 0 0.
Definition outcome (r : Res Err unit * Harness) : Res Err unit * Z := (r.1, failures r.2).

(** What the reset leaves: the three global tables, and nothing of any user. *)
Definition globals (d : DB) : DB :=
  upd_categories (fun _ => db_categories d) (upd_merchants (fun _ => db_merchants d) (upd_aliases (fun _ => db_aliases d) empty_db)).
Lemma reset_globals d : reset (world_of d) = (Ok tt, mkWorld (globals d) 15 None None ∅ ∅ []).
Proof. destruct d. vm_compute. reflexivity. Qed.
Definition has_seed (d : DB) : Prop := globals d = seeded.
Lemma after_reset {A} (k : Demo A) d : has_seed d ->
  (on_world reset ;;; k) (start d) = k (mkHarness (mkWorld seeded 15 None None ∅ ∅ []) 0 0).
Proof. intros Hd. unfold bind, on_world, start. cbn [h_world]. by rewrite reset_globals, Hd. Qed.

(** The simulation passes, computed at one clock and configuration, without faults
    and with the contents of an image for its digest.  Whatever users, receipts and jobs an earlier run left
    in a database with the seed, the ten steps run through without an error and
    without a failed assertion: consent, a photo read into a card, its
    confirmation, a manual entry, the summary of the day, a replayed webhook, a
    duplicate photo, a stale confirmation, a deletion and a refused one. *)
Theorem simulation_passes d : has_seed d -> outcome (run vietnam cfg false (start d)) = (Ok tt, 0).
Proof. intros Hd. unfold run. rewrite (after_reset _ d Hd). vm_compute. reflexivity. Qed.

(** A database an earlier run was stopped in. *)
Definition leftovers : DB := w_db (h_world (snd (step1 vietnam cfg (start seeded)))).
Lemma simulation_passes_witness : size (db_users leftovers) = 1%nat /\ has_seed leftovers /\ outcome (run vietnam cfg false (start leftovers)) = (Ok tt, 0).
Proof.
  assert (Hs : has_seed leftovers) by (vm_compute; reflexivity). split; [vm_compute; reflexivity|]. split; [exact Hs|].
  exact (simulation_passes leftovers Hs).
Defined.

(** ** Every receipt of the corpus, from the photo to the ledger *)
Definition capture (id : string) : Demo unit :=
  on_world reset ;;; (say vietnam cfg "/batdau" ;;; snap vietnam cfg (MockPrefix ++ id) ;;; say vietnam cfg "ok").
Definition category_key (d : DB) (t : Transaction) : string := default "" (tx_category t ≫= fun c => cat_key <$> db_categories d !! c).
Definition recorded (fx : Fixture) (d : DB) : Prop :=
  if String.eqb (fx_type fx) "unsupported" then rows (db_txs d) = [] /\ receipts_status d = ["failed_permanent"]
  else receipts_status d = ["confirmed"] /\
    ((fun t => (tx_status t, tx_amount t, tx_currency t, txtype_string (tx_type t), category_key d t, RFC3339 UTC (tx_occurred_at t))) <$> rows (db_txs d)) =
    [(TxConfirmed, fx_total fx, fx_currency fx, fx_type fx, fx_category fx, fx_occurred_at fx)].

(** Photo to ledger, computed in the same environment.  For every receipt of the corpus, a new user who sends it and
    answers ok has exactly one transaction, confirmed, with the ground truth's
    amount, currency, type, category and time; the photo that is not a receipt
    leaves none, and its receipt is failed. *)
Theorem photo_to_ledger fx d : has_seed d -> fx ∈ Fixtures ->
  let r := capture (fx_id fx) (start d) in fst r = Ok tt /\ recorded fx (w_db (h_world (snd r))).
Proof.
  intros Hd Hin. cbv zeta. unfold capture. rewrite (after_reset _ d Hd). clear d Hd.
  repeat (apply elem_of_cons in Hin as [->|Hin]; [vm_compute; repeat split; reflexivity|]). by apply elem_of_nil in Hin.
Qed.
Definition refund : Fixture := mkFixture "shopee-refund" "shopee" "Shopee" 89000 "VND" "refund" "hoan-tien" "2026-07-13T11:02:00Z".
Lemma refund_listed : refund ∈ Fixtures.
Proof. apply (list_elem_of_lookup_2 _ 4). vm_compute. reflexivity. Qed.
Lemma photo_to_ledger_witness : refund ∈ Fixtures /\ recorded refund (w_db (h_world (snd (capture "shopee-refund" (start seeded))))).
Proof.
  split; [exact refund_listed|]. assert (Hs : has_seed seeded) by (vm_compute; reflexivity).
  exact (proj2 (photo_to_ledger refund seeded Hs refund_listed)).
Defined.

(** Started again on the kept data, the harness repeats its message identifiers,
    and its first message is refused. *)
Example keep_rerun_fails :
  (run vietnam cfg true (mkHarness (h_world (snd (run vietnam cfg false (start seeded)))) 0 0)).1 =
  Fail (Wrapped "handle message.text.received sim-0001" (DomainErr CodeValidation
    "store.ClaimProviderMessage: payload changed for provider message ID" None)).
Proof. vm_compute. reflexivity. Qed.
End SimulateDemo.
