(* ===== verification/Processes.v ===== *)
(** * The processes

    cmd/receipt-worker and cmd/notification-worker: which jobs each process takes
    from the queue and which handler they go to, and the hourly retention sweep;
    cmd/zalo-poll, which prints the traffic of a bot; and internal/logging's
    correlation fields. *)
From S2P Require Import Prelude GoStrings Domain GoTime Json Config Db Queue Fields Notify Objects Processor Worker Sweeper Zalo Bot ZaloEvents LogProvider.

(** ** Workers *)
Definition visibility : Z := 5 * Minute.
Definition receipt_worker (cfg : Config.Config) : Worker.Config :=
  Worker.mkConfig [JobReceiptProcess; JobRetentionSweep] (ReceiptWorkerConcurrency cfg) (QueuePollInterval cfg) visibility.
Definition notification_worker (cfg : Config.Config) : Worker.Config :=
  Worker.mkConfig [JobOutboundSend] (NotificationWorkerConcurrency cfg) (QueuePollInterval cfg) 0.

(** [clk.Now().Format("2006-01-02T15")], on the UTC clock *)
Definition Format_hour (t : Time) : string :=
  let c := civil_from_days (day_of (unix_sec t)) in
  zero_pad 4 (Sprintd c.1.1) ++ "-" ++ zero_pad 2 (Sprintd c.1.2) ++ "-" ++ zero_pad 2 (Sprintd c.2) ++ "T" ++
  zero_pad 2 (Sprintd (sec_of_day (unix_sec t) / 3600)).

Section workers.
Context `{Env} `{TzData} `{FloatText} `{!Extractor} `{!MediaProvider} `{!Categorisation.Categoriser} `{!Provider}.

Definition receipt_handle (p : Processor) (s : Sweeper) (job : QueueJob) : Go unit :=
  if bool_decide (job_kind job = JobRetentionSweep) then Sweeper_Handle s job else Processor_Handle p job.

(** The sweep goroutine: [enqueue] once at the start and at every tick; its errors
    are only logged. *)
Definition enqueue_sweep : Go unit :=
  let* now := clk_Now in ignore (EnqueueSweep (Format_hour now)).
Definition sweep_ticks (n : nat) : Go unit := for_each (List.repeat tt n) (fun _ _ => enqueue_sweep) tt.
End workers.

(** ** zalo-poll *)
Record line := mkLine {
  ln_provider : string; ln_user : string; ln_chat : string; ln_message : string; ln_type : string; ln_received_at : Time;
  ln_media_count : Z; ln_text : string; ln_media : list MediaReference }.
Definition poll_redact (ev : InboundEvent) (showText : bool) : line :=
  mkLine (ev_provider ev) (ev_user ev) (ev_chat ev) (ev_message ev) (ev_type ev) (ev_received_at ev) (Z.of_nat (length (ev_media ev)))
    (if showText then ev_text ev else "") (if showText then ev_media ev else []).
Definition line_json (l : line) : json :=
  JObj ([("provider", JStr (ln_provider l)); ("provider_user_id", JStr (ln_user l)); ("provider_chat_id", JStr (ln_chat l));
         ("provider_message_id", JStr (ln_message l)); ("event_type", JStr (ln_type l)); ("received_at", JTime UTC (ln_received_at l))] ++
        (if ln_media_count l =? 0 then [] else [("media_count", JNum (ln_media_count l))]) ++
        (if String.eqb (ln_text l) "" then [] else [("text", JStr (ln_text l))]) ++
        (match ln_media l with [] => [] | media => [("media", JArr (mediaref_json <$> media))] end)).

Section zalo_poll.
Context `{Env} `{Network}.
(** [enc.Encode] per event; a time JSON cannot print ends the program. *)
Definition encode_line (showText : bool) (ev : InboundEvent) : option string :=
  match Marshal (line_json (poll_redact ev showText)) with Ok s => Some (s ++ newline) | Fail _ => None end.
Fixpoint print_events (showText : bool) (evs : list InboundEvent) : string * bool :=
  match evs with
  | [] => ("", true)
  | ev :: rest =>
      match encode_line showText ev with
      | None => ("", false)
      | Some s => let r := print_events showText rest in (s ++ r.1, r.2)
      end
  end.
(** The loop, for a number of polls: what was printed, and the offset or the end.
    A failed poll is repeated with the same offset. *)
Fixpoint zalo_poll (c : Client) (showText : bool) (polls t : nat) (offset : Z) : string * option Z :=
  match polls with
  | O => ("", Some offset)
  | S n =>
      match GetUpdates c t offset with
      | Fail _ => zalo_poll c showText n (S t) offset
      | Ok (evs, next) =>
          let out := print_events showText evs in
          if out.2 then let r := zalo_poll c showText n (S t) next in (out.1 ++ r.1, r.2) else (out.1, None)
      end
  end.
End zalo_poll.

(** ** logging *)
Section logging.
Context `{Env}.
Definition HashID (id : string) : string := take 12 (sha256_hex id).
(** The correlation values of a context, and the logger's attributes. *)
Record LogContext := mkLogContext { lc_request : option string; lc_job : option string; lc_user_hash : option string }.
Definition WithRequestID (id : string) (c : LogContext) : LogContext := mkLogContext (Some id) (lc_job c) (lc_user_hash c).
Definition WithJobID (id : string) (c : LogContext) : LogContext := mkLogContext (lc_request c) (Some id) (lc_user_hash c).
Definition WithUser (userID : string) (c : LogContext) : LogContext := mkLogContext (lc_request c) (lc_job c) (Some (HashID userID)).
Definition log_attr (key : string) (v : option string) : list (string * string) :=
  match v with Some s => if String.eqb s "" then [] else [(key, s)] | None => [] end.
Definition FromContext (c : LogContext) : list (string * string) :=
  log_attr "request_id" (lc_request c) ++ log_attr "job_id" (lc_job c) ++ log_attr "user_id_hash" (lc_user_hash c).
End logging.

(** ** Shown: no content without the flag *)

(** Two events that differ at most in what was written or photographed. *)
Definition same_envelope (a b : InboundEvent) : Prop :=
  (ev_provider a, ev_user a, ev_chat a, ev_message a, ev_type a, ev_received_at a) =
  (ev_provider b, ev_user b, ev_chat b, ev_message b, ev_type b, ev_received_at b) /\ length (ev_media a) = length (ev_media b).
Lemma redacted_alike a b : same_envelope a b -> poll_redact a false = poll_redact b false.
Proof. unfold poll_redact. intros [[= -> -> -> -> -> ->] ->]. done. Qed.
Lemma print_hides evs evs' : Forall2 same_envelope evs evs' -> print_events false evs = print_events false evs'.
Proof. induction 1 as [|a b evs evs' Hab _ IH]; [done|]. cbn [print_events]. unfold encode_line. by rewrite (redacted_alike a b Hab), IH. Qed.

(** ** Shown: the sweep is queued once an hour *)
Lemma Format_hour_nonempty t : String.eqb (Format_hour t) "" = false.
Proof. unfold Format_hour. by destruct (zero_pad 4 _). Qed.

Section hourly.
Context `{Env}.
Definition sweep_key (hour : string) : string := "retention:" ++ hour.
Definition queued_under (d : DB) (key : string) (i : uuid) : Prop := exists j, db_jobs d !! i = Some j /\ job_dedupe j = Some key.
Context (Hnf : forall k, fault k = None).

Lemma enqueue_sweep_runs w : db_jobs (w_db w) !! new_uuid (2 + w_tick w) = None -> let w' := snd (enqueue_sweep w) in
  w_tick w' = (4 + w_tick w)%nat /\ (exists i, queued_under (w_db w') (sweep_key (Format_hour (clk_now (w_tick w)))) i) /\
  (forall i, i <> new_uuid (2 + w_tick w) -> db_jobs (w_db w') !! i = db_jobs (w_db w) !! i) /\
  (forall i, is_Some (db_jobs (w_db w) !! i) -> db_jobs (w_db w') !! i = db_jobs (w_db w) !! i).
Proof.
  intros Hfresh. cbv zeta. unfold enqueue_sweep, EnqueueSweep, Enqueue. run_unfold. unfold clk_Now, uuid_New, stmt. cbn [fst snd w_tick tick w_db].
  rewrite Format_hour_nonempty. cbn [fst snd w_tick tick w_db set_db]. rewrite Hnf. change (3 <=? 0) with false. cbv match.
  unfold insert_row. rewrite bool_decide_eq_false_2 by (change (S (S (w_tick w))) with (2 + w_tick w)%nat; rewrite Hfresh; by intros []). cbn [orb].
  destruct (existsb _ _) eqn:Hex; cbn [fst snd w_tick tick w_db set_db].
  - split_and!; [done| |done|done]. apply existsb_exists in Hex as (j & [i Hi]%list_elem_of_In%elem_of_rows & Hc).
    exists i, j. split; [done|]. unfold dedupe_clash in Hc. destruct (job_dedupe j) as [k|]; [|done]. apply String.eqb_eq in Hc as <-. done.
  - rewrite upd_jobs_jobs. split_and!; [done| | |].
    + eexists _, _. rewrite upd_jobs_jobs, lookup_insert_eq. split; [done|]. done.
    + intros i Hi. by rewrite lookup_insert_ne.
    + intros i [j Hj]. rewrite lookup_insert_ne; [done|]. intros <-. simpl in Hfresh. congruence.
Qed.

Lemma sweep_ticks_S n w : sweep_ticks (S n) w = sweep_ticks n (snd (enqueue_sweep w)).
Proof. done. Qed.

Context `{!Inj (=) (=) new_uuid}.
(** Whichever hours the ticks of the worker's replicas fall in, each of them has
    exactly one sweep job in the end, and no other job was touched. *)
Theorem hourly_sweep n w : jobs_ok (w_db w) -> (forall k, (w_tick w <= k)%nat -> db_jobs (w_db w) !! new_uuid k = None) ->
  let d' := w_db (snd (sweep_ticks n w)) in
  jobs_ok d' /\ (forall i j, db_jobs (w_db w) !! i = Some j -> db_jobs d' !! i = Some j) /\
  forall k, (k < n)%nat -> exists! i, queued_under d' (sweep_key (Format_hour (clk_now (w_tick w + 4 * k)))) i.
Proof.
  cbv zeta. intros Hok. assert (Hevolve : forall m w, jobs_ok (w_db w) -> jobs_ok (w_db (snd (sweep_ticks m w)))).
  { clear. intros m w Hok. assert (He : evolves (on_db jobs_evolve) (sweep_ticks m)).
    { unfold sweep_ticks, enqueue_sweep, EnqueueSweep. go_evolve. apply evolves_Enqueue. }
    by apply (He w). }
  intros Hfresh. specialize (Hevolve n w Hok). split; [done|].
  assert (Hrun : (forall i j, db_jobs (w_db w) !! i = Some j -> db_jobs (w_db (snd (sweep_ticks n w))) !! i = Some j) /\
    forall k, (k < n)%nat -> exists i, queued_under (w_db (snd (sweep_ticks n w))) (sweep_key (Format_hour (clk_now (w_tick w + 4 * k)))) i).
  { clear Hok Hevolve. revert w Hfresh. induction n as [|n IH]; intros w Hfresh; [split; [done|lia]|].
    destruct (enqueue_sweep_runs w) as (Ht & (i0 & j0 & Hj0 & Hd0) & Hother & Hkeep); [apply Hfresh; lia|].
    rewrite sweep_ticks_S. set (w1 := snd (enqueue_sweep w)) in *. clearbody w1.
    destruct (IH w1) as [Hmono Hall].
    - intros k Hk. rewrite Ht in Hk. rewrite Hother; [apply Hfresh; lia|]. intros Heq%(inj new_uuid). lia.
    - split; [intros i j Hj; apply Hmono; rewrite Hkeep; [done|by rewrite Hj]|]. intros [|k] Hk.
      + exists i0, j0. rewrite Nat.mul_0_r, Nat.add_0_r. split; [by apply Hmono|done].
      + destruct (Hall k ltac:(lia)) as [i Hi]. exists i. rewrite Ht in Hi. by replace (w_tick w + 4 * S k)%nat with (4 + w_tick w + 4 * k)%nat by lia. }
  destruct Hrun as [Hmono Hall]. split; [done|]. intros k Hk. destruct (Hall k Hk) as (i & j & Hj & Hd). exists i. split; [by exists j|].
  intros i' (j' & Hj' & Hd'). by eapply (proj2 Hevolve).
Qed.
End hourly.

(** Every kind of job is taken by exactly one of the two workers. *)
Lemma one_worker_per_kind cfg kind :
  kind ∈ cfg_kinds (receipt_worker cfg) <-> ~ kind ∈ cfg_kinds (notification_worker cfg).
Proof. destruct kind; cbn; set_solver. Qed.

Module ProcessesDemo.
(** The replicas tick across midnight: two hours, two jobs. *)
#[local] Instance env : Env := demo_env no_faults (fun n => 1784505585 * Second + Z.of_nat n * Second).
#[export] Instance uuid_inj : Inj (=) (=) (@new_uuid env).
Proof. intros n m. cbn. lia. Qed.
Lemma empty_ok : jobs_ok empty_db.
Proof. split; [by intros ? ? ?|]. by intros ? ? ? ? ? ?. Qed.
Lemma hourly_sweep_witness :
  let d' := w_db (snd (sweep_ticks 5 (world_of empty_db))) in
  (job_dedupe <$> rows (db_jobs d')) = [Some "retention:2026-07-20T00"; Some "retention:2026-07-19T23"] /\
  exists! i, queued_under d' "retention:2026-07-19T23" i.
Proof.
  cbv zeta. split; [vm_compute; reflexivity|].
  destruct (@hourly_sweep env (fun _ => eq_refl) uuid_inj 5 (world_of empty_db) empty_ok (fun _ _ => eq_refl)) as (_ & _ & Hall).
  exact (Hall 0%nat ltac:(lia)).
Defined.
(** What is printed about a photo with a caption. *)
Definition photo (text url : string) : InboundEvent :=
  mkEvent "zalo_bot" "u1" "c1" "m1" EventImageReceived text [mkMedia "zalo_bot" url "" text] 0 "" "" 7.
Example redacted_line : encode_line false (photo "lương tháng này" "https://photo") = encode_line false (photo "" "") /\
  encode_line true (photo "a" "u") <> encode_line true (photo "b" "u").
Proof. vm_compute. split; [reflexivity|discriminate]. Qed.
Example log_fields : FromContext (WithUser "0123456789abcdef" (WithJobID "7" (WithRequestID "" (mkLogContext None None None)))) =
  [("job_id", "7"); ("user_id_hash", "0123456789ab")].
Proof. reflexivity. Qed.
End ProcessesDemo.
