(* ===== verification/Playground.v ===== *)
(** * The playground

    cmd/playground: the browser chat of local product tests.  A request is
    decoded strictly and checked; then the event goes through the real handler and
    its jobs through the real processor and sender, and what the bot said to this
    session is the answer. *)
From Stdlib Require Import Ascii.
From S2P Require Import Prelude GoStrings Domain GoTime Calendar Periods Json Normalise Unmarshal Config Db Queue StoreInbound StoreSchedules Categorisation.
From S2P Require Import Insight Templates Texts Fields Notify Objects Processor Worker Export BotCommands BotText Bot Zalo ZaloEvents LogProvider Api Extraction Simulate.

Record chatRequest := mkChat { cr_session : string; cr_text : string; cr_fixture : string }.
Record scheduleView := mkScheduleView { sv_frequency : string; sv_time : string; sv_enabled : bool }.
Record profileView := mkProfile {
  pv_status : string; pv_timezone : string; pv_currency : string; pv_locale : string; pv_schedules : list scheduleView }.
(** What the handler writes: an error with its status, or the chat's answer. *)
Inductive chatReply :=
| Refused (status : Z) (message : string)
| Answered (replies : list string) (profile : option profileView).

Definition fixtureIDs : list string :=
  ["coopmart-clean"; "highlands-clean"; "petrolimex-clean"; "guardian-low-total"; "shopee-refund"; "vietcombank-transfer";
   "woolworths-aud"; "coffeehouse-multi-total"; "grab-mid"; "not-a-receipt"].

(** ** Decoding a request *)
Definition request_fields : list (string * Decoder chatRequest) :=
  [("session_id", at_field cr_session (fun x r => mkChat x (cr_text r) (cr_fixture r)) d_string);
   ("text", at_field cr_text (fun x r => mkChat (cr_session r) x (cr_fixture r)) d_string);
   ("fixture", at_field cr_fixture (fun x r => mkChat (cr_session r) (cr_text r) x) d_string)].
(** [DisallowUnknownFields] *)
Definition known_fields (v : jv) : bool :=
  match v with VObj kvs => forallb (fun kv => bool_decide (is_Some (field_for request_fields kv.1))) kvs | _ => true end.
Definition maxBody : Z := 16 * 2 ^ 10.
(** [dec.Decode] of the first value behind [MaxBytesReader]: the request and the
    text after it. *)
Definition decode_request (body : string) : option (chatRequest * string) :=
  let text := skip_ws (take (Z.to_nat maxBody) body) in
  match value (S (String.length text)) 0 text with
  | Got v rest =>
      let r := d_struct request_fields (consumed text rest, v) (mkChat "" "" "") in
      if r.2 && known_fields v then Some (r.1, rest) else None
  | _ => None
  end.
(** [ensureJSONEnd]: nothing but blanks up to the end of the body, which is within
    the limit. *)
Definition ensureJSONEnd (body rest : string) : bool :=
  String.eqb (skip_ws rest) "" && (Z.of_nat (String.length body) <=? maxBody).

(** [validSessionID]; the bytes of a longer rune are outside the ranges. *)
Definition session_char (c : ascii) : bool :=
  in_range 97 122 c || in_range 65 90 c || in_range 48 57 c || is_byte 45 c || is_byte 95 c.
Definition validSessionID (s : string) : bool :=
  (8 <=? String.length s)%nat && (String.length s <=? 64)%nat && forall_bytes session_char s.

Definition bad (message : string) : chatReply := Refused StatusBadRequest message.
(** The checks of [chat], in order. *)
Definition check_request (req : chatRequest) : option chatReply :=
  if negb (validSessionID (cr_session req)) then Some (bad "Mã phiên thử không hợp lệ.")
  else if Bool.eqb (String.eqb (cr_text req) "") (String.eqb (cr_fixture req) "") then
    Some (bad "Hãy gửi một tin nhắn hoặc chọn một hóa đơn thử.")
  else if 2000 <? Z.of_nat (String.length (cr_text req)) then Some (bad "Tin nhắn thử tối đa 2.000 ký tự.")
  else if negb (String.eqb (cr_fixture req) "") && negb (bool_decide (cr_fixture req ∈ fixtureIDs)) then
    Some (bad "Hóa đơn thử không tồn tại.")
  else None.

Section playground.
Context `{Env} `{Network} `{TzData} `{SqlLocale} `{FloatText} (local : Location) (cfg : Config.Config).
#[local] Existing Instances sim_extractor sim_media sim_provider.

(** [requireLoopback]; [host_of] is the host [net.SplitHostPort] finds. *)
Definition requireLoopback (host_of : string -> option string) (addr : string) : Res Err unit :=
  match host_of addr with
  | None => Fail (Sentinel "playground address must be host:port")
  | Some host =>
      if same_folded host "localhost" then Ok tt
      else if match ParseIP host with Some ip => IsLoopback ip | None => false end then Ok tt
      else Fail (Sentinel ("playground must listen on loopback, got " ++ quoted host))
  end.

(** The refusals of [run], before anything is opened. *)
Definition playground_start (host_of : string -> option string) (addr : string) (getenv : string -> option string) : Res Err Config.Config :=
  match requireLoopback host_of addr with
  | Fail e => Fail e
  | Ok _ =>
      match Load getenv with
      | Fail e => Fail e
      | Ok c => if one_of (AppEnv c) [EnvDevelopment; EnvTest] then Ok c
                else Fail (Sentinel "APP_ENV must be development or test for the local playground")
      end
  end.

(** The wiring of [run]: no monthly limits, since the mock costs nothing. *)
Definition play_processor : Processor := mkProcessor true 0 (10 * 2 ^ 20).
Definition play_sender : Sender := mkSender true 0.

(** [profile] *)
Definition schedule_view (s : SummarySchedule) : scheduleView :=
  mkScheduleView (frequency_string (sch_frequency s)) (zero_pad 2 (Sprintd (sch_minute s / 60)) ++ ":" ++ zero_pad 2 (Sprintd (sch_minute s mod 60)))
    (sch_enabled s).
Definition profile (subject : string) : Go (option profileView) :=
  let* r := attempt (GetUserByIdentity ProviderZaloBot subject ProviderZaloBot) in
  match r with
  | Fail err => if IsCode err CodeNotFound then ret None else fail err
  | Ok user =>
      let* preferences := ListSummarySchedules (usr_id user) in
      ret (Some (mkProfile (user_status_string (usr_status user)) (usr_timezone user) (usr_default_currency user) (usr_locale user)
                   (schedule_view <$> preferences)))
  end.

(** The event of a request. *)
Definition chat_id (req : chatRequest) : string := "playground-" ++ cr_session req.
Definition chat_event (req : chatRequest) : Go InboundEvent :=
  let* id := uuid_New in
  let* now := time_Now in
  let photo := negb (String.eqb (cr_fixture req) "") in
  ret (mkEvent ProviderZaloBot (chat_id req) (chat_id req) ("local-" ++ uuid_text id)
         (if photo then EventImageReceived else EventTextReceived) (cr_text req)
         (if photo then [mkMedia ProviderZaloBot (MockPrefix ++ cr_fixture req) "image/jpeg" ""] else []) now "" "" 0).
Definition with_raw (ev : InboundEvent) (raw : string) : InboundEvent :=
  mkEvent (ev_provider ev) (ev_user ev) (ev_chat ev) (ev_message ev) (ev_type ev) (ev_text ev) (ev_media ev) (ev_received_at ev)
    (sha256_hex raw) raw (ev_update ev).

Definition failed (what : string) (err : Err) : chatReply := Refused StatusInternalServerError (what ++ error_string err).
(** The messages to a chat among the calls of a trace. *)
Definition said_to (chat : string) (c : Call) : option string :=
  match c with CallSend _ _ chat' text _ => if String.eqb chat' chat then Some text else None | _ => None end.

(** [chat], from the checked request on, under the server's mutex; [fuel] bounds
    the jobs that are drained. *)
Definition chat_deliver (fuel : nat) (req : chatRequest) (ev : InboundEvent) : Go chatReply :=
  let* before := asks (fun w => length (w_calls w)) in
  let* handled := attempt (HandleEvent local cfg true ev) in
  match handled with
  | Fail err => ret (failed "Bot xử lý thất bại: " err)
  | Ok _ =>
      let* drained := attempt (Drain fuel [(JobReceiptProcess, Processor_Handle play_processor); (JobOutboundSend, Sender_Handle play_sender)]) in
      match drained with
      | Fail err => ret (failed "Hàng đợi xử lý thất bại: " err)
      | Ok None => fail (Sentinel "drain: out of fuel")
      | Ok (Some _) =>
          let* calls := asks w_calls in
          let replies := omap (said_to (chat_id req)) (List.skipn before calls) in
          let* p := attempt (profile (chat_id req)) in
          match p with
          | Fail err => ret (failed "Không thể đọc cài đặt: " err)
          | Ok view => ret (Answered replies view)
          end
      end
  end.
Definition trimmed_request (req : chatRequest) : chatRequest :=
  mkChat (TrimSpace (cr_session req)) (TrimSpace (cr_text req)) (TrimSpace (cr_fixture req)).
Definition chat (fuel : nat) (body : string) : Go chatReply :=
  match decode_request body with
  | None => ret (bad ("Yêu cầu không hợp lệ: " ++ json_error body))
  | Some (raw, rest) =>
      if negb (ensureJSONEnd body rest) then ret (bad "Yêu cầu chỉ được chứa một đối tượng JSON.")
      else
        let req := trimmed_request raw in
        match check_request req with
        | Some refusal => ret refusal
        | None =>
            let* ev := chat_event req in
            match Marshal (event_json ev) with
            | Fail _ => ret (Refused StatusInternalServerError "Không thể tạo tin nhắn thử.")
            | Ok raw => chat_deliver fuel req (with_raw ev raw)
            end
        end
  end.

(** [health] *)
Definition health : Go Z :=
  let* r := attempt may_fail in ret (match r with Ok _ => StatusOK | Fail _ => StatusServiceUnavailable end).
End playground.

(** ** Shown *)

(** The playground offers exactly the receipts of the corpus. *)
Lemma fixtures_offered : fixtureIDs = fx_id <$> Fixtures.
Proof. reflexivity. Qed.

Section chat_theorems.
Context `{Env} `{Network} `{TzData} `{SqlLocale} `{FloatText} (local : Location) (cfg : Config.Config).

(** What a request must be to reach the bot. *)
Record admissible (req : chatRequest) : Prop := {
  adm_session : 8 <= Z.of_nat (String.length (cr_session req)) <= 64 /\ forall_bytes session_char (cr_session req) = true;
  adm_one : cr_text req = "" /\ (exists fx, fx ∈ Fixtures /\ fx_id fx = cr_fixture req) \/ cr_text req <> "" /\ cr_fixture req = "";
  adm_length : Z.of_nat (String.length (cr_text req)) <= 2000 }.
Lemma check_request_ok req : check_request req = None -> admissible req.
Proof.
  unfold check_request. destruct (validSessionID (cr_session req)) eqn:Hs; [|done]. simpl negb. cbv match.
  destruct (Bool.eqb _ _) eqn:Hx; [done|]. destruct (Z.ltb_spec 2000 (Z.of_nat (String.length (cr_text req)))) as [|Hl]; [done|].
  unfold validSessionID in Hs. rewrite !andb_true_iff, !Nat.leb_le in Hs. destruct Hs as [[H8 H64] Hc].
  destruct (String.eqb_spec (cr_fixture req) "") as [Hf|Hf]; destruct (String.eqb_spec (cr_text req) "") as [Ht|Ht]; simpl in *; try done; intros Hd.
  - split; [split; [lia|done]|by right|done].
  - case_bool_decide as Hin; [|done]. rewrite fixtures_offered in Hin. apply list_elem_of_fmap in Hin as (fx & Hfx & Hin).
    split; [split; [lia|done]|left; split; [done|by exists fx]|done].
Qed.
Lemma check_request_refuses req r : check_request req = Some r -> exists m, r = bad m.
Proof. unfold check_request. repeat case_match; intros [= <-]; by eexists. Qed.

Lemma profile_calls subject w : w_calls (snd (profile subject w)) = w_calls w.
Proof.
  unfold profile, GetUserByIdentity, ListSummarySchedules. run_unfold. unfold query, stmt. repeat (case_match; cbn [fst snd map_fail] in *; simplify_eq); done.
Qed.

(** A refused request leaves the world as it was; whatever the bot was given came
    in a body of one JSON object of known fields within 16 KiB, with a well-formed
    session and either a text or a receipt of the corpus; and an answer consists of
    the messages the bot sent to this session during the call, in order. *)
Theorem chat_admits fuel body w r w' : chat local cfg fuel body w = (Ok r, w') ->
  match r with
  | Refused status _ => status = StatusBadRequest /\ w' = w \/ status = StatusInternalServerError
  | Answered replies _ => exists raw rest, decode_request body = Some (raw, rest) /\ admissible (trimmed_request raw) /\
      Z.of_nat (String.length body) <= maxBody /\
      replies = omap (said_to (chat_id (trimmed_request raw))) (List.skipn (length (w_calls w)) (w_calls w'))
  end.
Proof.
  unfold chat. destruct (decode_request body) as [[raw rest]|]; [|intros [= <- <-]; by left].
  destruct (ensureJSONEnd body rest) eqn:Hend; [|intros [= <- <-]; by left]. simpl negb. cbv match.
  destruct (check_request _) as [refusal|] eqn:Hc; [apply check_request_refuses in Hc as [m ->]; intros [= <- <-]; by left|].
  intros Hr. apply bind_Ok in Hr as (ev & w1 & He & Hr).
  assert (Hw1 : w_calls w1 = w_calls w) by (unfold chat_event, uuid_New, time_Now in He; run_unfold_in He; by injection He as _ <-).
  destruct (Marshal (event_json ev)) as [text|]; [|injection Hr as <- <-; by right].
  unfold chat_deliver in Hr. apply bind_Ok in Hr as (before & w1' & Hb & Hr). injection Hb as <- <-.
  apply bind_Ok in Hr as (handled & w2 & _ & Hr). destruct handled as [[]|e]; [|injection Hr as <- <-; by right].
  apply bind_Ok in Hr as (drained & w3 & _ & Hr). destruct drained as [[[]|]|e]; [|done|injection Hr as <- <-; by right].
  apply bind_Ok in Hr as (calls & w3' & Hb & Hr). injection Hb as <- <-.
  apply bind_Ok in Hr as (p & w4 & Hp & Hr). assert (Hw4 : w_calls w4 = w_calls w3) by (injection Hp as _ <-; apply profile_calls).
  destruct p as [view|e]; injection Hr as <- <-; [|by right]. exists raw, rest. rewrite Hw4, Hw1.
  unfold ensureJSONEnd in Hend. apply andb_true_iff in Hend as [_ Hlen%Z.leb_le]. by split_and!; [|apply check_request_ok| |].
Qed.
End chat_theorems.

Module PlaygroundDemo.
Import PeriodsDemo SimulateDemo.
#[local] Existing Instances env tz locale floats names net.
Definition field (k v : string) : string := quoted k ++ ":" ++ quoted v.
Definition typed (text : string) : string := "{" ++ field "session_id" "session-1" ++ "," ++ field "text" text ++ "}".
Definition picked (fixture : string) : string := "{" ++ field "session_id" "session-1" ++ "," ++ field "fixture" fixture ++ "} ".
Definition send (body : string) (w : World) : Res Err chatReply * World := chat vietnam cfg 20 body w.
Definition joined : World := snd (send (typed "/batdau") (world_of seeded)).
Definition refusal (body : string) : option (Z * string) :=
  match (send body (world_of seeded)).1 with Ok (Refused status m) => Some (status, m) | _ => None end.

(** Consent, then every receipt of the corpus: the last thing the bot says is its
    card with the amount, or that the photo is not a receipt. *)
Definition card_shown (fx : Fixture) : bool :=
  match (send (picked (fx_id fx)) joined).1 with
  | Ok (Answered replies (Some p)) =>
      String.eqb (pv_status p) "active" && (length replies =? 2)%nat &&
      match last replies with
      | Some card => if String.eqb (fx_type fx) "unsupported" then negb (Contains card "Số tiền") else Contains card (Money (fx_total fx) (fx_currency fx))
      | None => false
      end
  | _ => false
  end.
Example every_card_shown : forallb card_shown Fixtures = true.
Proof. vm_compute. reflexivity. Qed.

Example refusals :
  refusal ("{" ++ field "session_id" "short" ++ "," ++ field "text" "x" ++ "}") = Some (400, "Mã phiên thử không hợp lệ.") /\
  refusal (picked "no-such-receipt") = Some (400, "Hóa đơn thử không tồn tại.") /\
  refusal (typed "x" ++ "{}") = Some (400, "Yêu cầu chỉ được chứa một đối tượng JSON.") /\
  refusal ("{" ++ field "session_id" "session-1" ++ "," ++ field "admin" "x" ++ "}") <> None.
Proof. vm_compute. split_and!; [reflexivity..|discriminate]. Qed.

Lemma chat_admits_witness : exists replies p w', send (typed "/batdau") (world_of seeded) = (Ok (Answered replies p), w') /\
  exists raw rest, decode_request (typed "/batdau") = Some (raw, rest) /\ admissible (trimmed_request raw).
Proof.
  assert (Hr : exists replies p w', send (typed "/batdau") (world_of seeded) = (Ok (Answered replies p), w')) by (eexists _, _, _; vm_compute; reflexivity).
  destruct Hr as (replies & p & w' & Hr). exists replies, p, w'. split; [exact Hr|].
  destruct (chat_admits vietnam cfg 20 (typed "/batdau") (world_of seeded) _ _ Hr) as (raw & rest & Hd & Ha & _). exists raw, rest. split; [exact Hd|exact Ha].
Defined.
End PlaygroundDemo.
