(* ===== verification/E2E.v ===== *)
(** * The real-provider checks

    cmd/e2e: the guard on the database it may touch, the identity it pins a run
    to, the watcher that follows a run through the tables while the other
    processes write them, and the synthetic receipt of the OCR check. *)
From Stdlib Require Import Ascii.
From S2P Require Import Prelude GoStrings Domain GoTime Json Normalise Unmarshal Config Db StoreInbound Parse Fields Objects Processor Bot Zalo ZaloEvents LogProvider Extraction Gemini Periods Simulate.

(** ** The database guard *)

(** pgx's parse of a connection string, limited to the keys the tool allows: the
    effective host, the fallback hosts and the database. *)
Record PgTarget := mkTarget { pt_host : string; pt_fallbacks : list string; pt_database : string }.
Class PgParse := { ParseConfigWithOptions : list string -> string -> option PgTarget }.
Definition e2eDatabaseName : string := "zl_expense_e2e".

Section database.
Context `{Env} `{Network} `{PgParse}.
Definition isLoopbackHost (raw : string) : bool :=
  let host := TrimSpace (ToLower raw) in
  String.eqb host "localhost" || match ParseIP (trim_set ["["; "]"] host) with Some ip => IsLoopback ip | None => false end.
Definition validateE2EDatabaseURL (raw : string) : Res Err unit :=
  if String.eqb (TrimSpace raw) "" then Fail (Sentinel "E2E_DATABASE_URL is required")
  else
    match ParseConfigWithOptions ["host"; "port"; "user"; "password"; "dbname"; "sslmode"] raw with
    | None => Fail (Sentinel "E2E_DATABASE_URL is not a valid PostgreSQL connection string")
    | Some cfg =>
        if negb (isLoopbackHost (pt_host cfg)) then Fail (Sentinel "E2E_DATABASE_URL must resolve to a loopback host")
        else if existsb (fun h => negb (isLoopbackHost h)) (pt_fallbacks cfg) then
          Fail (Sentinel "E2E_DATABASE_URL must not contain a non-loopback fallback host")
        else if negb (String.eqb (pt_database cfg) e2eDatabaseName) then
          Fail (Sentinel ("E2E_DATABASE_URL must target database " ++ e2eDatabaseName))
        else Ok tt
    end.
(** Every host a connection may reach is this machine, and the database is the
    throw-away one; the error texts are constants, so none carries the password. *)
Lemma validated_database raw : validateE2EDatabaseURL raw = Ok tt -> exists cfg,
  ParseConfigWithOptions ["host"; "port"; "user"; "password"; "dbname"; "sslmode"] raw = Some cfg /\
  Forall (fun h => isLoopbackHost h = true) (pt_host cfg :: pt_fallbacks cfg) /\ pt_database cfg = e2eDatabaseName.
Proof.
  unfold validateE2EDatabaseURL. case_match; [done|]. destruct (ParseConfigWithOptions _ raw) as [cfg|]; [|done].
  destruct (isLoopbackHost (pt_host cfg)) eqn:Hh; [|done]. simpl negb. cbv match. destruct (existsb _ _) eqn:Hf; [done|].
  destruct (String.eqb_spec (pt_database cfg) e2eDatabaseName) as [Hd|]; [|done]. intros _. exists cfg. split_and!; [done| |done].
  constructor; [done|]. apply Forall_forall. intros h Hin. destruct (isLoopbackHost h) eqn:He; [done|].
  assert (existsb (fun h => negb (isLoopbackHost h)) (pt_fallbacks cfg) = true) as Ht; [|congruence].
  apply existsb_exists. exists h. rewrite He. split; [by apply list_elem_of_In|done].
Qed.
End database.

(** [safeLabel]: what may be printed of a value from outside. *)
Definition label_char (c : ascii) : bool :=
  is_byte 45 c || is_byte 95 c || is_byte 46 c || is_byte 32 c || is_digit c || in_range 65 90 c || in_range 97 122 c.
Definition safeLabel (value : string) : string :=
  let value := TrimSpace value in
  if String.eqb value "" then "unknown" else if forall_bytes label_char value then value else "configured value".

(** ** The pinned identity *)
Record discoveredIdentity := mkIdentity { di_user : string; di_chat : string }.
Definition id_char (c : ascii) : bool :=
  in_range 65 90 c || in_range 97 122 c || is_digit c || is_byte 46 c || is_byte 95 c || is_byte 58 c || is_byte 45 c.
(** [providerIDPattern] *)
Definition provider_id (s : string) : bool :=
  (1 <=? String.length s)%nat && (String.length s <=? 256)%nat && forall_bytes id_char s.
Definition identity_body (i : discoveredIdentity) : string := di_user i ++ newline ++ di_chat i ++ newline.
(** [readIdentity], from the bytes of the file on. *)
Definition readIdentity (body : string) : Res Err discoveredIdentity :=
  match Split (TrimSpace body) (of_byte 10) with
  | [user; chat] => if provider_id user && provider_id chat then Ok (mkIdentity user chat)
                    else Fail (Sentinel "identity file has invalid provider ids")
  | _ => Fail (Sentinel "identity file has an invalid shape")
  end.

Lemma suffix_newline x : suffix_in space_encodings (x ++ newline) = Some newline.
Proof.
  unfold suffix_in. cbn [space_encodings fmap list_fmap list_find]. rewrite decide_False by (rewrite HasSuffix_app by done; done).
  by rewrite decide_True by (rewrite HasSuffix_app by done; done).
Qed.
Lemma TrimSpace_line c s : id_char c = true -> id_char (last_byte c s) = true -> TrimSpace (String c s ++ newline) = String c s.
Proof.
  intros Hc Hl. assert (Hlen : String.length (String c s ++ newline) = S (S (String.length s))) by (rewrite str_length_app; simpl; lia).
  assert (Hleft : trim_left_fuel (S (S (String.length s))) space_encodings (String c s ++ newline) = String c s ++ newline).
  { cbn [trim_left_fuel]. change (String c s ++ newline) with (String c (s ++ newline)). by rewrite (prefix_in_other id_char) by (try done; vm_compute; reflexivity). }
  unfold TrimSpace, trim_set. rewrite Hlen, Hleft, Hlen. cbn [trim_right_fuel]. rewrite suffix_newline, Hlen.
  replace (S (S (String.length s)) - String.length newline)%nat with (String.length (String c s)) by (simpl; lia). rewrite take_app_length.
  change (trim_right_fuel (String.length (String c s)) space_encodings (String c s) = String c s).
  pose proof (trim_set_ends id_char space_encodings c s ltac:(vm_compute; reflexivity) ltac:(vm_compute; reflexivity) Hc Hl) as He.
  unfold trim_set in He. cbn [String.length trim_left_fuel] in He. by rewrite (prefix_in_other id_char) in He by (try done; vm_compute; reflexivity).
Qed.

Lemma Split_word w rest : forall_bytes id_char w = true -> Split (w ++ newline ++ rest) (of_byte 10) = w :: Split rest (of_byte 10).
Proof.
  induction w as [|c w IH]; [done|]. cbn [forall_bytes]. intros [Hc Hw]%andb_true_iff.
  change (String c w ++ newline ++ rest) with (String c (w ++ newline ++ rest)). cbn [Split]. rewrite IH by done.
  destruct (Ascii.eqb_spec c (of_byte 10)) as [->|]; [vm_compute in Hc; discriminate Hc|done].
Qed.
Lemma Split_last w : forall_bytes id_char w = true -> Split w (of_byte 10) = [w].
Proof.
  induction w as [|c w IH]; [done|]. cbn [forall_bytes]. intros [Hc Hw]%andb_true_iff. cbn [Split]. rewrite IH by done.
  destruct (Ascii.eqb_spec c (of_byte 10)) as [->|]; [vm_compute in Hc; discriminate Hc|done].
Qed.
Lemma provider_id_word s : provider_id s = true -> forall_bytes id_char s = true /\ exists c r, s = String c r.
Proof.
  unfold provider_id. rewrite !andb_true_iff, !Nat.leb_le. intros [[Hl _] Hs]. split; [done|]. destruct s as [|c r]; [simpl in Hl; lia|by exists c, r].
Qed.
Lemma last_byte_in c s : forall_bytes id_char (String c s) = true -> id_char (last_byte c s) = true.
Proof. revert c. induction s as [|x s IH]; intros c; cbn [forall_bytes last_byte]; intros [Hc Hs]%andb_true_iff; [done|]. by apply IH. Qed.

(** The pinned identity survives the file: what the watcher reads is what the
    discovery wrote. *)
Theorem identity_roundtrip i : provider_id (di_user i) = true -> provider_id (di_chat i) = true -> readIdentity (identity_body i) = Ok i.
Proof.
  destruct i as [user chat]. cbn [di_user di_chat]. intros Hu Hc. unfold readIdentity, identity_body. cbn [di_user di_chat].
  destruct (provider_id_word _ Hu) as [Hub (c & r & Hur)]. destruct (provider_id_word _ Hc) as [Hcb (c' & r' & Hcr)].
  assert (Ht : TrimSpace (user ++ newline ++ chat ++ newline) = user ++ newline ++ chat).
  { rewrite !str_app_assoc. rewrite Hur in Hub |- *. change ((String c r ++ newline) ++ chat) with (String c ((r ++ newline) ++ chat)).
    apply TrimSpace_line; [cbn [forall_bytes] in Hub; by apply andb_true_iff in Hub as [? _]|]. rewrite Hcr, last_byte_app. apply last_byte_in. by rewrite <- Hcr. }
  rewrite Ht, Split_word, Split_last by done. by rewrite Hu, Hc.
Qed.

(** ** Discovery: the first event that carries the challenge pins the sender *)
Definition deadline : Err := Sentinel "context deadline exceeded".
Section discover.
Context `{Env} `{Network} (c : Client) (challenge : string) (expired : nat -> bool).
Definition challenge_met (ev : InboundEvent) : bool :=
  String.eqb (ev_type ev) EventTextReceived && String.eqb (TrimSpace (ev_text ev)) (TrimSpace challenge).
Definition pin (ev : InboundEvent) : Res Err discoveredIdentity :=
  if provider_id (ev_user ev) && provider_id (ev_chat ev) then Ok (mkIdentity (ev_user ev) (ev_chat ev))
  else Fail (Sentinel "matched update carried an invalid provider identity").
(** The loop of [runDiscover] for a number of polls; [None] when they are used up. *)
Fixpoint discover (polls t : nat) (offset : Z) : option (Res Err discoveredIdentity) :=
  match polls with
  | O => None
  | S n =>
      match GetUpdates c t offset with
      | Fail err =>
          if expired t then Some (Fail (Wrapped "identity discovery timed out" deadline))
          else if negb (Retryable err) then Some (Fail (Wrapped "identity discovery poll failed" err))
          else if expired (S t) then Some (Fail (Wrapped "identity discovery stopped" deadline))
          else discover n (S t) offset
      | Ok (evs, next) =>
          match List.find challenge_met evs with
          | Some ev => Some (pin ev)
          | None => discover n (S t) next
          end
      end
  end.

(** A pinned identity is the sender of a text that carried the challenge, and the
    file it is written to reads back as it. *)
Lemma discover_pins polls t offset i : discover polls t offset = Some (Ok i) ->
  exists t' offset' evs next ev, GetUpdates c t' offset' = Ok (evs, next) /\ ev ∈ evs /\ challenge_met ev = true /\
    i = mkIdentity (ev_user ev) (ev_chat ev) /\ readIdentity (identity_body i) = Ok i.
Proof.
  revert t offset. induction polls as [|n IH]; intros t offset; cbn [discover]; [done|].
  destruct (GetUpdates c t offset) as [[evs next]|err] eqn:Hg; [|repeat case_match; try done; apply IH].
  destruct (List.find challenge_met evs) as [ev|] eqn:Hf; [|apply IH]. unfold pin.
  destruct (provider_id (ev_user ev)) eqn:Hu; [|done]. destruct (provider_id (ev_chat ev)) eqn:Hc; [|done]. intros [= <-].
  apply find_some in Hf as [Hin%list_elem_of_In Hm]. exists t, offset, evs, next, ev. split_and!; [done..|]. by apply identity_roundtrip.
Qed.
End discover.

(** ** The watcher

    It only reads; the other processes write between its queries, so that each
    query sees the tables of its own moment: [db_at]. *)
Record WatchState := mkWatch { ws_user : option uuid; ws_onboarded : bool; ws_extracted : bool; ws_stage : string }.
Definition watch_start : WatchState := mkWatch None false false "waiting for /batdau".

(** The queries. *)
Section queries.
Context `{Env} (since : Time).
Definition findUser (subject : string) (d : DB) : option User := user_by_identity "zalo_bot" subject "zalo_bot" d.
Definition hasDeadJob (d : DB) : bool :=
  existsb (fun j => bool_decide (job_status j = JobDead) && (since <=? job_created_at j)) (rows (db_jobs d)).
Definition hasBadOutbound (u : uuid) (d : DB) : bool :=
  existsb (fun o => bool_decide (ob_user o = u) && (since <=? ob_created_at o) &&
                    (bool_decide (ob_status o = OutboundFailed) || bool_decide (ob_status o = OutboundAmbiguous))) (rows (db_outbound d)).
(** [outboundSent]; of LIKE's patterns only a trailing % occurs. *)
Definition outboundSent (u : uuid) (like : string -> bool) (d : DB) : bool :=
  existsb (fun o => bool_decide (ob_user o = u) && like (ob_key o) && bool_decide (ob_status o = OutboundSent) && (since <=? ob_created_at o))
    (rows (db_outbound d)).
Definition latestReceipt (u : uuid) (d : DB) : option ReceiptDocument :=
  head (isort (fun a b => rc_created_at b <=? rc_created_at a)
          (select (fun r => bool_decide (rc_user r = u) && (since <=? rc_created_at r)) (db_receipts d))).
Definition receiptTransaction (rid : uuid) (d : DB) : option Transaction :=
  head (isort (fun a b => tx_created_at b <=? tx_created_at a) (select (fun t => bool_decide (tx_receipt t = Some rid)) (db_txs d))).
Definition lastAttempt (rid : uuid) (d : DB) : option (AttemptKey * Attempt) :=
  head (isort (fun a b : AttemptKey * Attempt => b.1.2 <=? a.1.2)
          (filter (fun a : AttemptKey * Attempt => a.1.1.1.1 = rid) (map_to_list (db_attempts d)))).
Definition requiredExtractionFields (rid : uuid) (d : DB) : bool :=
  (size (list_to_set (ef_name <$> select (fun f => bool_decide (ef_receipt f = rid) && bool_decide (ef_name f ∈ ["merchant"; "total_minor"; "currency"])) (db_fields d))
           : gset string) =? 3)%nat.
End queries.

Section watch.
Context `{Env} (db_at : nat -> DB) (expired : nat -> bool) (since : Time) (model subject : string).
Abbreviation Watch A := (M nat Err A).
Definition observe {A} (what : string) (f : DB -> A) : Watch A := fun t =>
  (match fault t with Some flt => Fail (Wrapped what (Driver (flt_err flt))) | None => Ok (f (db_at t)) end, S t).
Definition has_prefix (p : string) (key : string) : bool := HasPrefix key p.

(** [successfulGeminiAttempt], [attemptFailure] *)
Definition successfulGeminiAttempt (rid : uuid) : Watch bool :=
  let* last := observe "query E2E extraction attempt" (lastAttempt rid) in
  match last with
  | None => ret false
  | Some (key, a) =>
      match at_status a with
      | AttemptFailed => fail (Sentinel "Gemini extraction attempt is marked failed")
      | AttemptStarted => ret false
      | AttemptSucceeded =>
          if String.eqb key.1.1.2 "gemini-vision" && String.eqb key.1.2 model then ret true
          else fail (Sentinel ("unexpected extractor provenance " ++ safeLabel key.1.1.2 ++ "/" ++ safeLabel key.1.2))
      end
  end.
Definition attemptFailure (rid : uuid) (prefix : string) : Watch (WatchState * bool) :=
  let* last := observe "query failed E2E attempt" (lastAttempt rid) in
  fail (Sentinel (match last with
                  | None => prefix
                  | Some (_, a) => prefix ++ " (class=" ++ safeLabel (at_class a) ++ " code=" ++ safeLabel (at_code a) ++ ")"
                  end)).

(** The parts of one iteration of [runWatch]'s loop. *)
Definition watch_jobs : Watch unit :=
  let* dead := observe "query dead E2E jobs" (hasDeadJob since) in
  if dead : bool then fail (Sentinel "a queue job entered dead state during the E2E run") else ret tt.
Definition watch_user (st : WatchState) : Watch WatchState :=
  match ws_user st with
  | Some _ => ret st
  | None =>
      let* found := observe "query E2E user" (findUser subject) in
      ret (match found with
           | None => st
           | Some u => mkWatch (Some (usr_id u)) (ws_onboarded st) (ws_extracted st)
                         (if bool_decide (usr_status u = UserActive) then ws_stage st else "waiting for consent via /batdau")
           end)
  end.
Definition watch_outbound (st : WatchState) : Watch unit :=
  match ws_user st with
  | None => ret tt
  | Some u =>
      let* bad := observe "query failed E2E outbounds" (hasBadOutbound since u) in
      if bad : bool then fail (Sentinel "an outbound message failed or became ambiguous during the E2E run") else ret tt
  end.
Definition watch_onboarding (st : WatchState) : Watch WatchState :=
  match ws_user st with
  | Some u =>
      if ws_onboarded st then ret st
      else
        let* row := observe "query E2E user status" (fun d => db_users d !! u) in
        match row with
        | None => fail (Wrapped "query E2E user status" (Sentinel "no rows in result set"))
        | Some user =>
            let* sent := observe "query E2E outbound status" (outboundSent since u (has_prefix "welcome:")) in
            ret (if bool_decide (usr_status user = UserActive) && sent then mkWatch (Some u) true (ws_extracted st) "waiting for a receipt image" else st)
        end
  | None => ret st
  end.
Definition sound_draft (t : Transaction) : bool :=
  (0 <? tx_amount t) && (String.length (tx_currency t) =? 3)%nat && negb (String.eqb (TrimSpace (tx_merchant_name t)) "").
Definition watch_review (st : WatchState) (u : uuid) (r : ReceiptDocument) : Watch (WatchState * bool) :=
  let* attemptOK := successfulGeminiAttempt (rc_id r) in
  let* tx := observe "query E2E transaction" (receiptTransaction (rc_id r)) in
  let* fieldsOK := observe "query E2E extraction fields" (requiredExtractionFields (rc_id r)) in
  match tx with
  | None => ret (st, false)
  | Some t =>
      let* cardSent := observe "query E2E outbound status" (outboundSent since u (has_prefix ("card:" ++ uuid_text (tx_id t) ++ ":"))) in
      if attemptOK && fieldsOK && cardSent then
        if negb (sound_draft t) then fail (Sentinel "extracted draft failed financial field invariants")
        else
          let st := if ws_extracted st then st else mkWatch (ws_user st) (ws_onboarded st) true "waiting for confirmation" in
          if bool_decide (tx_status t = TxConfirmed) && bool_decide (rc_status r = ReceiptConfirmed) then
            let* confirmed := observe "query E2E outbound status" (outboundSent since u (String.eqb ("confirm:" ++ uuid_text (tx_id t)))) in
            ret (st, confirmed)
          else ret (st, false)
      else ret (st, false)
  end.
Definition watch_receipt (st : WatchState) : Watch (WatchState * bool) :=
  match ws_user st with
  | Some u =>
      if negb (ws_onboarded st) then ret (st, false)
      else
        let* found := observe "query E2E receipt" (latestReceipt since u) in
        match found with
        | None => ret (st, false)
        | Some r =>
            match rc_status r with
            | ReceiptFailedPermanent => attemptFailure (rc_id r) "receipt processing failed permanently"
            | ReceiptFailedTransient => ret (mkWatch (Some u) (ws_onboarded st) (ws_extracted st) "waiting for a transient receipt retry", false)
            | ReceiptReviewRequired | ReceiptConfirmed => watch_review st u r
            | _ => ret (st, false)
            end
        end
  | None => ret (st, false)
  end.
Definition in_time (st : WatchState) : Watch unit := fun t =>
  if expired t then (Fail (Wrapped ("timed out while " ++ ws_stage st) deadline), t) else (Ok tt, t).
Definition watch_round (st : WatchState) : Watch (WatchState * bool) :=
  in_time st ;;; watch_jobs ;;;
  let* st := watch_user st in
  watch_outbound st ;;;
  let* st := watch_onboarding st in
  watch_receipt st.
(** [runWatch]'s loop for a number of iterations: whether the run passed. *)
Fixpoint watch (rounds : nat) (st : WatchState) : Watch bool :=
  match rounds with
  | O => ret false
  | S n =>
      let* r := watch_round st in
      if r.2 then ret true else in_time r.1 ;;; watch n r.1
  end.
End watch.

(** ** Shown: a run that passes happened *)
Section watch_theorems.
Context `{Env} (db_at : nat -> DB) (expired : nat -> bool) (since : Time) (model subject : string).
Abbreviation watching := (watch db_at expired since model subject).

Lemma observe_Ok {A} what (f : DB -> A) t a t' : observe db_at what f t = (Ok a, t') -> t' = S t /\ a = f (db_at t).
Proof. unfold observe. destruct (fault t); [done|]. by intros [= <- <-]. Qed.
Lemma in_time_Ok st t x t' : in_time expired st t = (Ok x, t') -> t' = t.
Proof. unfold in_time. case_match; [done|]. by intros [= _ <-]. Qed.

(** What the watcher saw at some moment of its run. *)
Definition seen (t0 t1 : nat) (P : DB -> Prop) : Prop := exists t, (t0 <= t < t1)%nat /\ P (db_at t).
Lemma seen_now t0 t (P : DB -> Prop) : (t0 <= t)%nat -> P (db_at t) -> seen t0 (S t) P.
Proof. intros Hle HP. exists t. split; [lia|done]. Qed.
Lemma seen_later t0 t1 t2 P : (t1 <= t2)%nat -> seen t0 t1 P -> seen t0 t2 P.
Proof. intros Hle (t & Ht & HP). exists t. split; [lia|done]. Qed.

Definition linked_user (u : uuid) (d : DB) : Prop := exists x, findUser subject d = Some x /\ usr_id x = u.
Definition active_user (u : uuid) (d : DB) : Prop := exists x, db_users d !! u = Some x /\ usr_status x = UserActive.
Definition read_by_gemini (rid : uuid) (d : DB) : Prop := exists key a, lastAttempt rid d = Some (key, a) /\ at_status a = AttemptSucceeded /\
  key.1.1.2 = "gemini-vision" /\ key.1.2 = model.

(** What the state remembers. *)
Definition remembers (t0 t : nat) (st : WatchState) : Prop :=
  match ws_user st with
  | None => ws_onboarded st = false
  | Some u => seen t0 t (linked_user u) /\
      (ws_onboarded st = true -> seen t0 t (active_user u) /\ seen t0 t (fun d => outboundSent since u (has_prefix "welcome:") d = true))
  end.
Lemma remembers_later t0 t1 t2 st : (t1 <= t2)%nat -> remembers t0 t1 st -> remembers t0 t2 st.
Proof.
  intros Hle. unfold remembers. destruct (ws_user st); [|done]. intros [Hl Ho]. split; [by eapply seen_later|].
  intros Hon. destruct (Ho Hon). split; by eapply seen_later.
Qed.

Lemma watch_user_remembers t0 t st st' t' : (t0 <= t)%nat -> remembers t0 t st -> watch_user db_at subject st t = (Ok st', t') ->
  (t <= t')%nat /\ remembers t0 t' st'.
Proof.
  intros Hle Hr. unfold watch_user. destruct (ws_user st) as [u|] eqn:Hu; [intros [= <- <-]; done|].
  intros (found & t1 & [-> ->]%observe_Ok & [= <- <-])%bind_Ok. split; [lia|].
  destruct (findUser subject (db_at t)) as [x|] eqn:Hf; [|by eapply remembers_later; [|exact Hr]; lia].
  unfold remembers in *. cbn [ws_user ws_onboarded]. rewrite Hu in Hr. split; [|by rewrite Hr].
  apply seen_now; [done|]. by exists x.
Qed.
Lemma watch_onboarding_remembers t0 t st st' t' : (t0 <= t)%nat -> remembers t0 t st -> watch_onboarding db_at since st t = (Ok st', t') ->
  (t <= t')%nat /\ remembers t0 t' st'.
Proof.
  intros Hle Hr. unfold watch_onboarding. destruct (ws_user st) as [u|] eqn:Hu; [|intros [= <- <-]; done].
  destruct (ws_onboarded st) eqn:Ho; [intros [= <- <-]; done|].
  intros (row & t1 & [-> ->]%observe_Ok & Hrun)%bind_Ok. destruct (db_users (db_at t) !! u) as [x|] eqn:Hx; [|done].
  apply bind_Ok in Hrun as (sent & t2 & [-> ->]%observe_Ok & [= <- <-]). split; [lia|].
  case_bool_decide as Ha; [|by eapply remembers_later; [|exact Hr]; lia].
  destruct (outboundSent _ _ _ _) eqn:Hs; [|by eapply remembers_later; [|exact Hr]; lia].
  unfold remembers in *. cbn [ws_user ws_onboarded andb]. rewrite Hu in Hr. destruct Hr as [Hl _].
  split; [eapply seen_later; [|exact Hl]; lia|]. intros _. split; [|apply seen_now; [lia|done]].
  eapply seen_later; [|apply (seen_now t0 t); [done|by exists x]]. lia.
Qed.

(** The moments behind a pass. *)
Definition run_seen (t0 t1 : nat) (u : uuid) (r : ReceiptDocument) (t : Transaction) : Prop :=
  seen t0 t1 (fun d => latestReceipt since u d = Some r) /\ rc_status r = ReceiptConfirmed /\
  seen t0 t1 (read_by_gemini (rc_id r)) /\ seen t0 t1 (fun d => receiptTransaction (rc_id r) d = Some t) /\
  tx_status t = TxConfirmed /\ sound_draft t = true /\
  seen t0 t1 (fun d => requiredExtractionFields (rc_id r) d = true) /\
  seen t0 t1 (fun d => outboundSent since u (has_prefix ("card:" ++ uuid_text (tx_id t) ++ ":")) d = true) /\
  seen t0 t1 (fun d => outboundSent since u (String.eqb ("confirm:" ++ uuid_text (tx_id t))) d = true).
Lemma gemini_attempt_seen t0 rid t t' : (t0 <= t)%nat -> successfulGeminiAttempt db_at model rid t = (Ok true, t') ->
  t' = S t /\ seen t0 (S t) (read_by_gemini rid).
Proof.
  intros Hle (last & t1 & [-> ->]%observe_Ok & Hrun)%bind_Ok. destruct (lastAttempt rid (db_at t)) as [[key a]|] eqn:Ha; [|done].
  destruct (at_status a) eqn:Hs; try done. destruct (String.eqb_spec key.1.1.2 "gemini-vision"); [|done].
  destruct (String.eqb_spec key.1.2 model); [|done]. injection Hrun as <-. split; [done|]. apply seen_now; [done|]. by exists key, a.
Qed.

(** An iteration keeps the user and the onboarding it started with, and passes only
    after the whole story. *)
Definition same_user (st st' : WatchState) : Prop := ws_user st' = ws_user st /\ ws_onboarded st' = ws_onboarded st.
Lemma attempt_tick rid t b t' : successfulGeminiAttempt db_at model rid t = (Ok b, t') -> t' = S t.
Proof. intros (last & t1 & [-> ->]%observe_Ok & Hrun)%bind_Ok. repeat case_match; try done; by injection Hrun. Qed.
Lemma watch_review_passes t0 st u r t st' pass t' : (t0 <= t)%nat -> seen t0 t (fun d => latestReceipt since u d = Some r) ->
  watch_review db_at since model st u r t = (Ok (st', pass), t') ->
  (t <= t')%nat /\ same_user st st' /\ (pass = true -> exists tx, run_seen t0 t' u r tx).
Proof.
  intros Hle Hrec (ok & t1 & Hok & Hrun)%bind_Ok. pose proof (attempt_tick _ _ _ _ Hok) as ->.
  apply bind_Ok in Hrun as (tx & t2 & [-> ->]%observe_Ok & Hrun). apply bind_Ok in Hrun as (fields & t3 & [-> ->]%observe_Ok & Hrun).
  destruct (receiptTransaction (rc_id r) (db_at (S t))) as [tx|] eqn:Htx; [|injection Hrun as <- <- <-; split_and!; [lia|done|done]].
  apply bind_Ok in Hrun as (card & t4 & [-> ->]%observe_Ok & Hrun).
  destruct (ok && _ && _) eqn:Hall; [|injection Hrun as <- <- <-; split_and!; [lia|done|done]].
  destruct (sound_draft tx) eqn:Hsound; [|done]. simpl negb in Hrun. cbv match in Hrun.
  apply andb_true_iff in Hall as [[-> Hfields]%andb_true_iff Hcard].
  assert (Hsame : same_user st (if ws_extracted st then st else mkWatch (ws_user st) (ws_onboarded st) true "waiting for confirmation")) by (by destruct (ws_extracted st)).
  case_bool_decide as Htxs; [|injection Hrun as <- <- <-; split_and!; [lia|done|done]].
  case_bool_decide as Hrs; [|injection Hrun as <- <- <-; split_and!; [lia|done|done]]. cbn [andb] in Hrun.
  apply bind_Ok in Hrun as (confirmed & t5 & [-> ->]%observe_Ok & [= <- <- <-]). split_and!; [lia|done|]. intros Hconf. exists tx.
  destruct (gemini_attempt_seen t0 _ _ _ Hle Hok) as [_ Hg].
  unfold run_seen. split_and!; try done.
  - eapply seen_later; [|exact Hrec]. lia.
  - eapply seen_later; [|exact Hg]. lia.
  - eapply seen_later; [|apply (seen_now t0 (S t)); [lia|exact Htx]]. lia.
  - eapply seen_later; [|apply (seen_now t0 (S (S t))); [lia|exact Hfields]]. lia.
  - eapply seen_later; [|apply (seen_now t0 (S (S (S t)))); [lia|exact Hcard]]. lia.
  - apply seen_now; [lia|exact Hconf].
Qed.
Lemma watch_receipt_passes t0 st t st' pass t' : (t0 <= t)%nat -> watch_receipt db_at since model st t = (Ok (st', pass), t') ->
  (t <= t')%nat /\ same_user st st' /\
  (pass = true -> exists u r tx, ws_user st = Some u /\ ws_onboarded st = true /\ run_seen t0 t' u r tx).
Proof.
  intros Hle. unfold watch_receipt. destruct (ws_user st) as [u|] eqn:Hu; [|intros [= <- <- <-]; split_and!; [lia|done|done]].
  destruct (ws_onboarded st) eqn:Ho; [|intros [= <- <- <-]; split_and!; [lia|done|done]]. simpl negb. cbv match.
  intros (found & t1 & [-> ->]%observe_Ok & Hrun)%bind_Ok.
  assert (Hno : forall s, ret (E:=Err) (s, false) (S t) = (Ok (st', pass), t') -> same_user st s ->
    (t <= t')%nat /\ same_user st st' /\ (pass = true -> exists u' r tx, Some u = Some u' /\ true = true /\ run_seen t0 t' u' r tx)).
  { intros s [= <- <- <-] Hs. split_and!; [lia|done|done]. }
  destruct (latestReceipt since u (db_at t)) as [r|] eqn:Hr; [|by apply (Hno st)].
  assert (Hrev : watch_review db_at since model st u r (S t) = (Ok (st', pass), t') ->
    (t <= t')%nat /\ same_user st st' /\ (pass = true -> exists u' r tx, Some u = Some u' /\ true = true /\ run_seen t0 t' u' r tx)).
  { intros Hv. destruct (watch_review_passes t0 st u r (S t) st' pass t' ltac:(lia) (seen_now t0 t (fun d => latestReceipt since u d = Some r) Hle Hr) Hv) as (Ht & Hs & Hp). split_and!; [lia|done|].
    intros Hpass. destruct (Hp Hpass) as [tx Htx]. by exists u, r, tx. }
  destruct (rc_status r); try (by apply (Hno st)); try (by apply Hrev).
  - by apply (Hno (mkWatch (Some u) true (ws_extracted st) "waiting for a transient receipt retry")).
  - unfold attemptFailure in Hrun. apply bind_Ok in Hrun as (? & ? & _ & Hf). discriminate Hf.
Qed.
Lemma watch_round_passes t0 st t st' pass t' : (t0 <= t)%nat -> remembers t0 t st ->
  watch_round db_at expired since model subject st t = (Ok (st', pass), t') ->
  (t <= t')%nat /\ remembers t0 t' st' /\
  (pass = true -> exists u r tx, seen t0 t' (linked_user u) /\ seen t0 t' (active_user u) /\
     seen t0 t' (fun d => outboundSent since u (has_prefix "welcome:") d = true) /\ run_seen t0 t' u r tx).
Proof.
  intros Hle Hr Hrun. unfold watch_round in Hrun. apply bind_Ok in Hrun as ([] & t1 & ->%in_time_Ok & Hrun).
  apply bind_Ok in Hrun as ([] & t1 & Hj & Hrun). apply bind_Ok in Hj as (dead & t1' & [-> ->]%observe_Ok & Hj).
  destruct (hasDeadJob since (db_at t)); [done|]. injection Hj as <-.
  apply bind_Ok in Hrun as (st1 & t2 & Hu & Hrun).
  destruct (watch_user_remembers t0 (S t) st st1 t2 ltac:(lia) (remembers_later _ _ _ _ (Nat.le_succ_diag_r t) Hr) Hu) as [Ht2 Hr1].
  apply bind_Ok in Hrun as ([] & t3 & Ho & Hrun). assert (Ht3 : (t2 <= t3)%nat).
  { unfold watch_outbound in Ho. destruct (ws_user st1); [|by injection Ho as <-]. apply bind_Ok in Ho as (bad & t3' & [-> ->]%observe_Ok & Ho).
    case_match; [done|]. injection Ho as <-. lia. }
  apply bind_Ok in Hrun as (st2 & t4 & Hb & Hrun).
  destruct (watch_onboarding_remembers t0 t3 st1 st2 t4 ltac:(lia) (remembers_later _ _ _ _ Ht3 Hr1) Hb) as [Ht4 Hr2].
  destruct (watch_receipt_passes t0 st2 t4 st' pass t' ltac:(lia) Hrun) as (Ht' & [Hsu Hso] & Hp).
  pose proof (remembers_later _ _ _ _ Ht' Hr2) as Hr'. split_and!; [lia|unfold remembers in *; by rewrite Hsu, Hso|].
  intros Hpass. destruct (Hp Hpass) as (u & r & tx & Hus & Hon & Hseen). unfold remembers in Hr'. rewrite Hus in Hr'. destruct Hr' as [Hl Hw].
  destruct (Hw Hon) as [Ha Hwel]. by exists u, r, tx.
Qed.

(** C29: A pass is no accident: when the watcher reports one, there were moments during
    its run at which the pinned sender had a user, the user was active, the welcome
    had been delivered, the user's latest receipt since the start was confirmed and
    read by Gemini under the expected model with all required fields, its
    transaction was confirmed with a positive amount, and the card and the
    acknowledgement had been delivered. *)
Theorem watch_sound rounds t0 t1 : watching rounds watch_start t0 = (Ok true, t1) ->
  exists u r tx, seen t0 t1 (linked_user u) /\ seen t0 t1 (active_user u) /\
    seen t0 t1 (fun d => outboundSent since u (has_prefix "welcome:") d = true) /\ run_seen t0 t1 u r tx.
Proof.
  assert (Hgen : forall st t, (t0 <= t)%nat -> remembers t0 t st -> watching rounds st t = (Ok true, t1) ->
    exists u r tx, seen t0 t1 (linked_user u) /\ seen t0 t1 (active_user u) /\
      seen t0 t1 (fun d => outboundSent since u (has_prefix "welcome:") d = true) /\ run_seen t0 t1 u r tx).
  { induction rounds as [|n IH]; intros st t Hle Hr; cbn [watch]; [done|]. intros ([st' pass] & t' & Hround & Hrun)%bind_Ok.
    destruct (watch_round_passes t0 st t st' pass t' Hle Hr Hround) as (Ht & Hr' & Hp). cbn [fst snd] in Hrun. destruct pass.
    - injection Hrun as <-. by apply Hp.
    - apply bind_Ok in Hrun as ([] & t2 & ->%in_time_Ok & Hrun). apply (IH st' t'); [lia|done|done]. }
  by apply Hgen.
Qed.

(** And a finished story is recognised: on tables that hold it and no longer
    change, one iteration passes. *)
Lemma watch_completes d x user r key a tx t : (forall k, db_at k = d) -> (forall k, fault k = None) -> (forall k, expired k = false) ->
  hasDeadJob since d = false -> findUser subject d = Some x -> hasBadOutbound since (usr_id x) d = false ->
  db_users d !! usr_id x = Some user -> usr_status user = UserActive -> outboundSent since (usr_id x) (has_prefix "welcome:") d = true ->
  latestReceipt since (usr_id x) d = Some r -> rc_status r = ReceiptConfirmed ->
  lastAttempt (rc_id r) d = Some (key, a) -> at_status a = AttemptSucceeded -> key.1.1.2 = "gemini-vision" -> key.1.2 = model ->
  receiptTransaction (rc_id r) d = Some tx -> tx_status tx = TxConfirmed -> sound_draft tx = true -> requiredExtractionFields (rc_id r) d = true ->
  outboundSent since (usr_id x) (has_prefix ("card:" ++ uuid_text (tx_id tx) ++ ":")) d = true ->
  outboundSent since (usr_id x) (String.eqb ("confirm:" ++ uuid_text (tx_id tx))) d = true ->
  fst (watching 1 watch_start t) = Ok true.
Proof.
  intros Hd Hnf Hexp Hdead Hfind Hbad Huser Hactive Hwel Hrec Hrs Hatt Has Hname Hver Htx Hts Hsound Hfields Hcard Hconf.
  assert (Hobs : forall A what (f : DB -> A) k, observe db_at what f k = (Ok (f d), S k)) by (intros; unfold observe; by rewrite Hnf, Hd).
  assert (Hin : forall st k, in_time expired st k = (Ok tt, k)) by (intros; unfold in_time; by rewrite Hexp).
  cbn [watch]. unfold watch_round, watch_jobs, watch_user, watch_outbound, watch_onboarding, watch_receipt, watch_review, successfulGeminiAttempt, bind, ret.
  repeat (rewrite ?Hin, ?Hobs, ?Hdead, ?Hfind, ?Hbad, ?Huser, ?Hactive, ?Hwel, ?Hrec, ?Hrs, ?Hatt, ?Has, ?Hname, ?Hver, ?Htx, ?Hts, ?Hsound, ?Hfields, ?Hcard, ?Hconf, ?String.eqb_refl, ?(bool_decide_eq_true_2 (UserActive = UserActive) eq_refl),
            ?(bool_decide_eq_true_2 (TxConfirmed = TxConfirmed) eq_refl), ?(bool_decide_eq_true_2 (ReceiptConfirmed = ReceiptConfirmed) eq_refl);
          cbn [ws_user ws_onboarded ws_extracted watch_start andb negb fst snd String.eqb]). done.
Qed.
End watch_theorems.

Module E2EDemo.
Import PeriodsDemo SimulateDemo.
#[local] Existing Instances env tz locale floats names net.
(** The tables of the simulation, had the photo been read by Gemini: after the
    consent, and after the confirmation. *)
Definition by_gemini (d : DB) : DB :=
  upd_attempts (fun m => list_to_map ((fun a : AttemptKey * Attempt => ((a.1.1.1.1, "gemini-vision", "gemini-3.6-flash", a.1.2), a.2)) <$> map_to_list m)) d.
Definition consented : DB := w_db (h_world (snd (step1 vietnam cfg (start seeded)))).
Definition confirmed_tables : DB := by_gemini (w_db (h_world (snd
  ((step1 vietnam cfg ;;; let* image := imageEvent "MOCK-FIXTURE:coopmart-clean" in step2 vietnam cfg image ;;; step3 vietnam cfg) (start seeded))))).
Definition history (t : nat) : DB := if (t <? 3)%nat then seeded else if (t <? 9)%nat then consented else confirmed_tables.
Definition watched : Res Err bool * nat := watch history (fun _ => false) (clock 0) "gemini-3.6-flash" demoSender 5 watch_start 0%nat.
Lemma watched_passes : watched = (Ok true, snd watched).
Proof. vm_compute. reflexivity. Qed.
Lemma watch_sound_witness : exists u, seen history 0 (snd watched) (active_user u).
Proof.
  destruct (watch_sound history (fun _ => false) (clock 0) "gemini-3.6-flash" demoSender 5 0 (snd watched) watched_passes) as (u & _ & _ & _ & Ha & _).
  exists u. exact Ha.
Defined.
Lemma identity_roundtrip_witness : readIdentity (identity_body (mkIdentity "demo-sender-1" "demo-chat-1")) = Ok (mkIdentity "demo-sender-1" "demo-chat-1").
Proof. apply (identity_roundtrip (mkIdentity "demo-sender-1" "demo-chat-1")); vm_compute; reflexivity. Defined.
(** The mock's reading would be refused. *)
Example wrong_provenance :
  fst (watch (fun _ => w_db (h_world (snd ((step1 vietnam cfg ;;; let* image := imageEvent "MOCK-FIXTURE:coopmart-clean" in step2 vietnam cfg image) (start seeded)))))
    (fun _ => false) (clock 0) "gemini-3.6-flash" demoSender 1 watch_start 0%nat) = Fail (Sentinel "unexpected extractor provenance mock-corpus/v1").
Proof. vm_compute. reflexivity. Qed.
End E2EDemo.
