(* ===== verification/Synthetic.v ===== *)
(** * The synthetic receipt

    cmd/e2e/synthetic.go: the picture the OCR check sends, drawn with a bitmap
    font, and the check itself: configuration, Zalo token, extraction, comparison
    with what the picture says.  Shown: the drawing puts every dot of every glyph
    where a reader of the grid finds it, and nothing else. *)
From Stdlib Require Import Ascii.
From S2P Require Import Prelude GoStrings Domain GoTime Json Normalise Unmarshal Config Db Categorisation Templates Fields Objects Processor Zalo ZaloEvents Extraction Gemini E2E.

Definition syntheticTotalMinor : Z := 123456.
Definition syntheticCurrency : string := "VND".
Definition syntheticMerchant : string := "codex e2e cafe".
Definition syntheticOccurredAt : string := "2026-08-12T00:00:00Z".

(** ** Drawing

    A canvas is the sequence of fills; a later one covers an earlier one. *)
Record Rect := mkRect { r_x0 : Z; r_y0 : Z; r_x1 : Z; r_y1 : Z }.
Definition RGBA : Type := Z * Z * Z * Z.
Abbreviation Canvas := (list (Rect * RGBA)).
Definition covers (r : Rect) (x y : Z) : bool := (r_x0 r <=? x) && (x <? r_x1 r) && (r_y0 r <=? y) && (y <? r_y1 r).
Definition pixel (fills : Canvas) (bg : RGBA) (x y : Z) : RGBA := fold_left (fun acc f => if covers f.1 x y then f.2 else acc) fills bg.

Definition bitmapFont : list (ascii * list string) :=
  [(" "%char, ["00000"; "00000"; "00000"; "00000"; "00000"; "00000"; "00000"]); ("A"%char, ["01110"; "10001"; "10001"; "11111"; "10001"; "10001"; "10001"]);
   ("B"%char, ["11110"; "10001"; "10001"; "11110"; "10001"; "10001"; "11110"]); ("C"%char, ["01111"; "10000"; "10000"; "10000"; "10000"; "10000"; "01111"]);
   ("D"%char, ["11110"; "10001"; "10001"; "10001"; "10001"; "10001"; "11110"]); ("E"%char, ["11111"; "10000"; "10000"; "11110"; "10000"; "10000"; "11111"]);
   ("F"%char, ["11111"; "10000"; "10000"; "11110"; "10000"; "10000"; "10000"]); ("G"%char, ["01111"; "10000"; "10000"; "10111"; "10001"; "10001"; "01111"]);
   ("H"%char, ["10001"; "10001"; "10001"; "11111"; "10001"; "10001"; "10001"]); ("I"%char, ["11111"; "00100"; "00100"; "00100"; "00100"; "00100"; "11111"]);
   ("J"%char, ["00111"; "00010"; "00010"; "00010"; "10010"; "10010"; "01100"]); ("K"%char, ["10001"; "10010"; "10100"; "11000"; "10100"; "10010"; "10001"]);
   ("L"%char, ["10000"; "10000"; "10000"; "10000"; "10000"; "10000"; "11111"]); ("M"%char, ["10001"; "11011"; "10101"; "10101"; "10001"; "10001"; "10001"]);
   ("N"%char, ["10001"; "11001"; "10101"; "10011"; "10001"; "10001"; "10001"]); ("O"%char, ["01110"; "10001"; "10001"; "10001"; "10001"; "10001"; "01110"]);
   ("P"%char, ["11110"; "10001"; "10001"; "11110"; "10000"; "10000"; "10000"]); ("Q"%char, ["01110"; "10001"; "10001"; "10001"; "10101"; "10010"; "01101"]);
   ("R"%char, ["11110"; "10001"; "10001"; "11110"; "10100"; "10010"; "10001"]); ("S"%char, ["01111"; "10000"; "10000"; "01110"; "00001"; "00001"; "11110"]);
   ("T"%char, ["11111"; "00100"; "00100"; "00100"; "00100"; "00100"; "00100"]); ("U"%char, ["10001"; "10001"; "10001"; "10001"; "10001"; "10001"; "01110"]);
   ("V"%char, ["10001"; "10001"; "10001"; "10001"; "10001"; "01010"; "00100"]); ("W"%char, ["10001"; "10001"; "10001"; "10101"; "10101"; "10101"; "01010"]);
   ("X"%char, ["10001"; "10001"; "01010"; "00100"; "01010"; "10001"; "10001"]); ("Y"%char, ["10001"; "10001"; "01010"; "00100"; "00100"; "00100"; "00100"]);
   ("Z"%char, ["11111"; "00001"; "00010"; "00100"; "01000"; "10000"; "11111"]); ("0"%char, ["01110"; "10001"; "10011"; "10101"; "11001"; "10001"; "01110"]);
   ("1"%char, ["00100"; "01100"; "00100"; "00100"; "00100"; "00100"; "01110"]); ("2"%char, ["01110"; "10001"; "00001"; "00010"; "00100"; "01000"; "11111"]);
   ("3"%char, ["11110"; "00001"; "00001"; "01110"; "00001"; "00001"; "11110"]); ("4"%char, ["00010"; "00110"; "01010"; "10010"; "11111"; "00010"; "00010"]);
   ("5"%char, ["11111"; "10000"; "10000"; "11110"; "00001"; "00001"; "11110"]); ("6"%char, ["01110"; "10000"; "10000"; "11110"; "10001"; "10001"; "01110"]);
   ("7"%char, ["11111"; "00001"; "00010"; "00100"; "01000"; "01000"; "01000"]); ("8"%char, ["01110"; "10001"; "10001"; "01110"; "10001"; "10001"; "01110"]);
   ("9"%char, ["01110"; "10001"; "10001"; "01111"; "00001"; "00001"; "01110"]); ("-"%char, ["00000"; "00000"; "00000"; "11111"; "00000"; "00000"; "00000"]);
   (","%char, ["00000"; "00000"; "00000"; "00000"; "00110"; "00100"; "01000"]); ("."%char, ["00000"; "00000"; "00000"; "00000"; "00000"; "01100"; "01100"]);
   (":"%char, ["00000"; "01100"; "01100"; "00000"; "01100"; "01100"; "00000"]); ("/"%char, ["00001"; "00010"; "00010"; "00100"; "01000"; "01000"; "10000"]);
   ("?"%char, ["01110"; "10001"; "00001"; "00010"; "00100"; "00000"; "00100"])].
Definition glyph_of (c : ascii) : option (list string) := snd <$> List.find (fun g => Ascii.eqb g.1 c) bitmapFont.
Definition glyph (c : ascii) : list string := default (default [] (glyph_of "?"%char)) (glyph_of c).
(** The dots of a row and of a glyph, as (column, row). *)
Fixpoint dots_of_row (row col : Z) (pixels : string) : list (Z * Z) :=
  match pixels with
  | "" => []
  | String p rest => (if Ascii.eqb p "1"%char then [(col, row)] else []) ++ dots_of_row row (col + 1) rest
  end.
Fixpoint dots_of (row : Z) (g : list string) : list (Z * Z) :=
  match g with [] => [] | pixels :: rest => dots_of_row row 0 pixels ++ dots_of (row + 1) rest end.
Definition dot_rect (cursor y scale : Z) (d : Z * Z) : Rect :=
  mkRect (cursor + d.1 * scale) (y + d.2 * scale) (cursor + (d.1 + 1) * scale) (y + (d.2 + 1) * scale).
Fixpoint drawUpper (cursor y : Z) (text : string) (scale : Z) (c : RGBA) : Canvas :=
  match text with
  | "" => []
  | String char rest => ((fun d => (dot_rect cursor y scale d, c)) <$> dots_of 0 (glyph char)) ++ drawUpper (cursor + 6 * scale) y rest scale c
  end%list.
Definition drawBitmapText `{UnicodeCase} (x y : Z) (text : string) (scale : Z) (c : RGBA) : Canvas := drawUpper x y (ToUpper text) scale c.

Definition white : RGBA := (255, 255, 255, 255).
Definition ink : RGBA := (20, 25, 35, 255).
Definition muted : RGBA := (105, 115, 125, 255).
Definition frame : Canvas :=
  [(mkRect 34 34 866 40, ink); (mkRect 34 560 866 566, ink); (mkRect 34 34 40 566, ink); (mkRect 860 34 866 566, ink)].
Definition syntheticReceipt `{UnicodeCase} : Canvas :=
  ((mkRect 0 0 900 600, white) :: frame ++ drawBitmapText 100 82 "CODEX E2E CAFE" 7 ink ++ drawBitmapText 195 165 "TEST RECEIPT" 6 muted ++
   [(mkRect 92 245 808 249, muted)] ++ drawBitmapText 105 292 "DATE 2026-08-12" 6 ink ++ drawBitmapText 105 382 "TOTAL 123,456 VND" 7 ink)%list.

(** ** Shown: the picture determines the text *)

(** The dots of a line on one grid: six columns to a character. *)
Definition shift (d : Z * Z) : Z * Z := (d.1 + 6, d.2).
Fixpoint text_dots (text : string) : list (Z * Z) :=
  match text with "" => [] | String char rest => dots_of 0 (glyph char) ++ (shift <$> text_dots rest) end%list.
Lemma drawUpper_dots cursor y text scale c : drawUpper cursor y text scale c = (fun d => (dot_rect cursor y scale d, c)) <$> text_dots text.
Proof.
  revert cursor. induction text as [|char rest IH]; intros cursor; [done|]. cbn [drawUpper text_dots]. rewrite IH, fmap_app, <- list_fmap_compose. f_equal.
  apply list_fmap_ext. intros _ [col row] _. unfold compose, dot_rect, shift. cbn [fst snd]. do 2 f_equal; lia.
Qed.
Lemma covers_dot cursor y scale d col row : 0 < scale -> covers (dot_rect cursor y scale d) (cursor + col * scale) (y + row * scale) = true <-> d = (col, row).
Proof.
  intros Hs. destruct d as [c r]. unfold covers, dot_rect. cbn [r_x0 r_y0 r_x1 r_y1 fst snd]. rewrite !andb_true_iff, !Z.leb_le, !Z.ltb_lt. split.
  - intros [[[H1 H2] H3] H4]. f_equal; nia.
  - intros [= -> ->]. split_and!; nia.
Qed.
Lemma pixel_dots x y scale c bg dots col row : 0 < scale ->
  pixel ((fun d => (dot_rect x y scale d, c)) <$> dots) bg (x + col * scale) (y + row * scale) = if bool_decide ((col, row) ∈ dots) then c else bg.
Proof.
  intros Hs. unfold pixel. assert (Hgen : forall acc, fold_left (fun acc f => if covers f.1 (x + col * scale) (y + row * scale) then f.2 else acc)
    ((fun d => (dot_rect x y scale d, c)) <$> dots) acc = if bool_decide ((col, row) ∈ dots) then c else acc); [|apply Hgen].
  induction dots as [|d dots IH]; intros acc; [by rewrite bool_decide_eq_false_2 by (by apply not_elem_of_nil)|].
  rewrite fmap_cons. cbn [fold_left fst snd]. rewrite IH. destruct (covers (dot_rect x y scale d) _ _) eqn:Hc.
  - apply covers_dot in Hc as ->; [|done]. rewrite (bool_decide_eq_true_2 ((col, row) ∈ (col, row) :: dots)) by apply list_elem_of_here. by case_match.
  - assert (d <> (col, row)) as Hne by (intros Hd%(covers_dot x y scale); [congruence|done]).
    rewrite (bool_decide_ext ((col, row) ∈ d :: dots) ((col, row) ∈ dots)); [done|]. rewrite elem_of_cons. naive_solver.
Qed.

(** Every dot of a glyph of the font is in its first five columns. *)
Definition narrow (g : list string) : bool := forallb (fun d => (0 <=? d.1) && (d.1 <? 6)) (dots_of 0 g).
Definition in_font (c : ascii) : bool := bool_decide (is_Some (glyph_of c)).
Lemma glyph_narrow c : in_font c = true -> narrow (glyph c) = true /\ glyph_of c = Some (glyph c).
Proof.
  unfold in_font, glyph. rewrite bool_decide_eq_true. intros [g Hg]. rewrite Hg. split; [|done]. unfold glyph_of in Hg.
  destruct (List.find _ bitmapFont) as [[c' g']|] eqn:Hf; [|done]. injection Hg as <-. apply find_some in Hf as [Hin _].
  assert (Hall : forallb (fun e => narrow e.2) bitmapFont = true) by (vm_compute; reflexivity). rewrite forallb_forall in Hall. exact (Hall _ Hin).
Qed.
Lemma narrow_dot c col row : in_font c = true -> (col, row) ∈ dots_of 0 (glyph c) -> 0 <= col < 6.
Proof. intros [Hn _]%glyph_narrow. unfold narrow in Hn. rewrite forallb_forall in Hn. intros Hin%list_elem_of_In. apply Hn in Hin. cbn in Hin. lia. Qed.
Lemma text_dots_right text col row : forall_bytes in_font text = true -> (col, row) ∈ text_dots text -> 0 <= col.
Proof.
  revert col. induction text as [|c rest IH]; intros col; [by intros _ Hn%elem_of_nil|]. cbn [forall_bytes text_dots]. intros [Hc Hr]%andb_true_iff.
  intros [Hd|([col' row'] & [= -> ->] & Hd)%list_elem_of_fmap]%elem_of_app; [apply (narrow_dot c) in Hd; [lia|done]|]. apply IH in Hd; [lia|done].
Qed.

(** No two characters of the font look alike. *)
Definition same_dots (a b : list (Z * Z)) : bool := forallb (fun d => bool_decide (d ∈ b)) a && forallb (fun d => bool_decide (d ∈ a)) b.
Lemma font_distinct : forallb (fun a => forallb (fun b => implb (same_dots (dots_of 0 a.2) (dots_of 0 b.2)) (Ascii.eqb a.1 b.1)) bitmapFont) bitmapFont = true.
Proof. vm_compute. reflexivity. Qed.
Lemma glyph_listed c : in_font c = true -> In (c, glyph c) bitmapFont.
Proof.
  intros [_ Hg]%glyph_narrow. unfold glyph_of in Hg. destruct (List.find _ bitmapFont) as [[c' g']|] eqn:Hf; [|done]. injection Hg as <-.
  by apply find_some in Hf as [Hin <-%Ascii.eqb_eq].
Qed.
Lemma glyph_inj a b : in_font a = true -> in_font b = true -> (forall d, d ∈ dots_of 0 (glyph a) <-> d ∈ dots_of 0 (glyph b)) -> a = b.
Proof.
  intros Ha Hb Hd. pose proof font_distinct as Hf. rewrite forallb_forall in Hf. specialize (Hf _ (glyph_listed a Ha)). rewrite forallb_forall in Hf.
  specialize (Hf _ (glyph_listed b Hb)). cbn [fst snd] in Hf. replace (same_dots _ _) with true in Hf; [by apply Ascii.eqb_eq in Hf|]. symmetry. unfold same_dots.
  apply andb_true_iff. split; apply forallb_forall; intros d Hin%list_elem_of_In; apply bool_decide_eq_true; by apply Hd.
Qed.
Lemma text_dots_inj t1 t2 : String.length t1 = String.length t2 -> forall_bytes in_font t1 = true -> forall_bytes in_font t2 = true ->
  (forall d, d ∈ text_dots t1 <-> d ∈ text_dots t2) -> t1 = t2.
Proof.
  revert t2. induction t1 as [|a t1 IH]; intros [|b t2]; try done. cbn [String.length forall_bytes text_dots]. intros [= Hl] [Ha H1]%andb_true_iff [Hb H2]%andb_true_iff Hd.
  assert (Hcut : forall c t d, in_font c = true -> forall_bytes in_font t = true -> d ∈ (dots_of 0 (glyph c) ++ (shift <$> text_dots t))%list ->
    (d.1 < 6 -> d ∈ dots_of 0 (glyph c)) /\ (6 <= d.1 -> (d.1 - 6, d.2) ∈ text_dots t)).
  { intros c t [col row] Hc Ht [Hin|([col' row'] & [= -> ->] & Hin)%list_elem_of_fmap]%elem_of_app; cbn [fst snd].
    - split; [done|]. apply (narrow_dot c) in Hin; [lia|done].
    - pose proof (text_dots_right t col' row' Ht Hin). split; [lia|]. intros _. by replace (col' + 6 - 6) with col' by lia. }
  f_equal.
  - apply glyph_inj; [done..|]. intros [col row]. split; intros Hin.
    + pose proof (narrow_dot a _ _ Ha Hin). apply (Hcut b t2 (col, row)); [done|done| |cbn; lia]. apply Hd, elem_of_app. by left.
    + pose proof (narrow_dot b _ _ Hb Hin). apply (Hcut a t1 (col, row)); [done|done| |cbn; lia]. apply Hd, elem_of_app. by left.
  - apply IH; [done..|]. intros [col row]. split; intros Hin.
    + pose proof (text_dots_right t1 _ _ H1 Hin). destruct (Hcut b t2 (col + 6, row)) as [_ Hr]; [done..| |]; [apply Hd, elem_of_app; right; apply list_elem_of_fmap; by exists (col, row)|].
      cbn [fst snd] in Hr. replace (col + 6 - 6) with col in Hr by lia. apply Hr. lia.
    + pose proof (text_dots_right t2 _ _ H2 Hin). destruct (Hcut a t1 (col + 6, row)) as [_ Hr]; [done..| |]; [apply Hd, elem_of_app; right; apply list_elem_of_fmap; by exists (col, row)|].
      cbn [fst snd] in Hr. replace (col + 6 - 6) with col in Hr by lia. apply Hr. lia.
Qed.

(** Two lines of the font's characters that look alike at every point, drawn in a
    colour other than the paper's, are the same line. *)
Theorem drawing_legible t1 t2 x y scale c bg : 0 < scale -> c <> bg -> String.length t1 = String.length t2 ->
  forall_bytes in_font t1 = true -> forall_bytes in_font t2 = true ->
  (forall px py, pixel (drawUpper x y t1 scale c) bg px py = pixel (drawUpper x y t2 scale c) bg px py) -> t1 = t2.
Proof.
  intros Hs Hc Hl H1 H2 Hp. apply text_dots_inj; [done..|]. intros [col row]. specialize (Hp (x + col * scale) (y + row * scale)).
  rewrite !drawUpper_dots, !pixel_dots in Hp by done. repeat case_bool_decide; naive_solver.
Qed.

(** ** The OCR check *)
Section preflight.
Context `{Env} `{Network} `{Gemini.ImageCodec} `{FloatText}.
(** [fieldInt64], [fieldString]: only a value of the right dynamic type counts. *)
Definition e2e_fieldInt64 (res : ExtractionResult) (name : string) : option Z :=
  match fv_normalised <$> er_fields res !! name with
  | Some (AnyInt64 v) | Some (AnyInt v) => Some v
  | Some (AnyFloat f) => if SpecFloat.SFeqb f (f64_of_Z (f64_to_int64 f)) then Some (f64_to_int64 f) else None
  | Some (AnyNumber s) => ParseInt s
  | _ => None
  end.
Definition e2e_fieldString (res : ExtractionResult) (name : string) : option string :=
  match fv_normalised <$> er_fields res !! name with
  | Some (AnyString s) => if String.eqb (TrimSpace s) "" then None else Some s
  | _ => None
  end.
Definition validateSyntheticResult (res : ExtractionResult) : Res Err unit :=
  if negb (bool_decide (e2e_fieldInt64 res "total_minor" = Some syntheticTotalMinor)) then
    Fail (Sentinel "Gemini OCR check returned an unexpected total")
  else if negb (bool_decide (e2e_fieldString res "currency" = Some syntheticCurrency)) then
    Fail (Sentinel "Gemini OCR check returned an unexpected currency")
  else if negb (bool_decide (e2e_fieldString res "merchant" = Some syntheticMerchant)) then
    Fail (Sentinel "Gemini OCR check returned an unexpected merchant")
  else if negb (bool_decide (e2e_fieldString res "occurred_at" = Some syntheticOccurredAt)) then
    Fail (Sentinel "Gemini OCR check returned an unexpected transaction date")
  else Ok tt.

(** [runPreflight]; [png_Encode] is image/png's encoder. *)
Definition runPreflight (png_Encode : Canvas -> option string) (getenv : string -> option string) (expired : nat -> bool) (t : nat) : Res Err unit :=
  match Load getenv with
  | Fail e => Fail e
  | Ok cfg =>
      if String.eqb (ZaloBotToken cfg) "" then Fail (Sentinel "ZALO_BOT_TOKEN is required")
      else if negb (String.eqb (ExtractionBackend cfg) "gemini") then Fail (Sentinel ("EXTRACTOR must be gemini, got " ++ quoted (ExtractionBackend cfg)))
      else
        match GetMe (Zalo.New (ZaloBotToken cfg) "" (ZaloAPIBase cfg)) t with
        | Fail e => Fail (Wrapped "Zalo getMe check failed" e)
        | Ok _ =>
            match png_Encode syntheticReceipt with
            | None => Fail (Sentinel "build synthetic receipt")
            | Some image =>
                match Gemini.Extract (Gemini.New (GeminiAPIKey cfg) (GeminiModel cfg) (GeminiAPIBase cfg)) expired (S t) (mkReader image None) "image/png" with
                | Fail e => Fail (Wrapped "Gemini synthetic OCR check failed" e)
                | Ok res => validateSyntheticResult res
                end
            end
        end
  end.
End preflight.

Module SyntheticDemo.
#[local] Instance env : Env := demo_env no_faults (fun n => Z.of_nat n * Second).
#[local] Instance names : NetParse := {| SplitHostPort := fun _ => true; url_Parse := fun _ => Some ("https", "h", "h"); ParseDuration := fun _ => None |}.
(** The four lines and the rectangle each fills: inside the frame, one below the
    other, and of the font's characters only. *)
Definition lines : list (Z * Z * string * Z) :=
  [(100, 82, "CODEX E2E CAFE", 7); (195, 165, "TEST RECEIPT", 6); (105, 292, "DATE 2026-08-12", 6); (105, 382, "TOTAL 123,456 VND", 7)].
Definition within (x0 y0 x1 y1 : Z) (f : Rect * RGBA) : bool :=
  (x0 <=? r_x0 f.1) && (r_x1 f.1 <=? x1) && (y0 <=? r_y0 f.1) && (r_y1 f.1 <=? y1).
Example receipt_layout :
  forallb (fun '(x, y, text, scale) => String.eqb (ToUpper text) text && forall_bytes in_font text &&
             forallb (within 40 y 860 (y + 7 * scale)) (drawBitmapText x y text scale ink)) lines = true /\
  82 + 7 * 7 < 165 /\ 165 + 7 * 6 < 245 /\ 249 < 292 /\ 292 + 7 * 6 < 382 /\ 382 + 7 * 7 < 560.
Proof. split_and!; [vm_compute; reflexivity|lia..]. Qed.
Lemma drawing_legible_witness : forall_bytes in_font "O0" = true /\ ~ (forall px py, pixel (drawUpper 0 0 "O0" 1 ink) white px py = pixel (drawUpper 0 0 "0O" 1 ink) white px py).
Proof.
  split; [vm_compute; reflexivity|]. intros Hp.
  assert (He : "O0"%string = "0O"%string); [|discriminate He].
  apply (drawing_legible "O0" "0O" 0 0 1 ink white); [lia|discriminate|reflexivity|vm_compute; reflexivity|vm_compute; reflexivity|exact Hp].
Defined.

(** A model that copies what the picture says: the check passes; one misread digit
    and it fails. *)
Definition answer (total : string) : string := GeminiDemo.reply (Gemini.quotes ("{'is_receipt': true, 'merchant': 'CODEX E2E CAFE', 'total': '" ++ total ++
  "', 'currency': 'VND', 'date': '2026-08-12', 'type_hint': null, 'line_items': [], 'confidence': {'merchant': 0.9, 'total': 0.9, 'currency': 0.9, 'date': 0.9}}")).
Definition serve (total : string) (rq : Request) : Response :=
  mkResponse 200 "" (mkReader (if Contains (rq_url rq) "getMe" then Gemini.quotes "{'ok': true, 'result': {'id': '1', 'account_name': 'bot', 'account_type': 'BASIC'}}" else answer total) None).
Definition net (total : string) : Network := {| net_parse := names; url_error := fun s => s; json_error := fun _ => "invalid"; ParseIP := fun _ => None;
  LookupIPAddr := fun _ _ => Ok []; http_Do := fun _ rq => Ok (serve total rq); http_Get := fun _ _ => Fail (Sentinel "offline") |}.
#[local] Instance codec : Gemini.ImageCodec := {| Gemini.image_Decode := fun _ => None; Gemini.jpeg_Encode := fun _ _ => None |}.
Definition vars (key : string) : option string :=
  if String.eqb key "DATABASE_URL" then Some "postgres://local" else if String.eqb key "ZALO_WEBHOOK_SECRET" then Some "dev-secret-change-me"
  else if String.eqb key "ZALO_BOT_TOKEN" then Some "1:a" else if String.eqb key "EXTRACTOR" then Some "gemini"
  else if String.eqb key "GEMINI_API_KEY" then Some "key" else None.
Definition preflight (total : string) : Res Err unit :=
  @runPreflight env (net total) codec (fun _ => Some "png") vars (fun _ => false) 0.
Example preflight_reads :
  preflight "123,456 VND" = Ok tt /\ preflight "123,458 VND" = Fail (Sentinel "Gemini OCR check returned an unexpected total").
Proof. vm_compute. by split. Qed.
End SyntheticDemo.
