(* ===== verification/Startup.v ===== *)
(** * The processes, from start to exit

    The [main] and [run] functions of the commands, internal/platform/postgres's
    [Connect], the polling loop of the summary runner, and the pool the integration
    tests work on (pgtest).  A process is a computation over what it has done so far:
    the resources it acquired and released (signal handler, pools, connections,
    timers, tickers), the goroutines it started, the servers it bound and the queue
    it consumed, in order; [defer] and [t.Cleanup] push a release that runs, last one
    first, when the function or the test ends, on every path.

    What the host answers (the driver, the file system, the AWS configuration, the
    listening socket) is the class [Host].  Shown: whatever it answers, a process
    releases exactly what it acquired, in an order that never pulls a resource from
    under another, works only on a database that answered, and touches nothing when
    its configuration is refused; a healthy host is brought all the way to work; and
    the tests only ever empty a database named as disposable. *)
From Stdlib Require Import Ascii.
From S2P Require Import Prelude GoStrings Domain GoTime Json Normalise Config Db Queue Notify Objects Processor Worker Sweeper SummaryRunner.
From S2P Require Import Periods Insight Fields Zalo Bot ZaloEvents LogProvider Api Extraction Gemini Textract S3 Migrate Simulate Processes Playground.

(** ** What a process does *)
Inductive Resource := RSignals | RTimer | RTicker | RPool | RConn | RTestLock.
#[export] Instance Resource_eq_dec : EqDecision Resource.
Proof. solve_decision. Defined.

(** The pgxpool settings the program sets; the rest of the parsed configuration is
    the driver's. *)
Record PoolConfig := mkPoolConfig { MaxConns : Z; MinConns : Z; MaxConnLifetime : Z; HealthCheckPeriod : Z }.
(** What the handlers are built from: the provider and the object store the
    configuration chose, the processor with its limits, the sender with its switch. *)
Inductive Endpoint :=
| Webhook (provider : Adapter) (objects : ObjectBackend) | Healthz
| Chat (processor : Processor) (sender : Sender) (objects : string) | PlaygroundHealth | Assets.
Inductive JobHandler :=
| HandleReceipts (processor : Processor) (objects : ObjectBackend) (extractor : Backend) (provider : Adapter)
| HandleSends (sender : Sender) (provider : Adapter).
Record Server := mkServer {
  Addr : string; routes : list (string * Endpoint); set_headers : list (string * string);
  ReadHeaderTimeout : Z; ReadTimeout : Z; WriteTimeout : Z; IdleTimeout : Z }.
Inductive Goroutine := MenuPush (c : Client) | HealthServer (cfg : Config.Config) | SweepLoop | SummaryLoop (interval : Z).
Inductive Action :=
| Acquire (r : Resource) | Release (r : Resource)
| Opened (c : PoolConfig) | Answered | Migrating | Emptying (table : string)
| Spawned (g : Goroutine) | Listening (s : Server) | Ticking (period : Z)
| Polling (c : Client) (objects : ObjectBackend) | Printing (c : Client) (showText : bool) | Consuming (c : Worker.Config) (h : JobHandler) | Playing.

Record Proc := mkProc { pr_trace : list Action; pr_deferred : list Resource; pr_schema : Schema; pr_world : World }.
Abbreviation Run A := (M Proc Err A).

Definition act (a : Action) : Run unit := modify (fun s => mkProc (pr_trace s ++ [a]) (pr_deferred s) (pr_schema s) (pr_world s)).
Definition defer (r : Resource) : Run unit := modify (fun s => mkProc (pr_trace s) (r :: pr_deferred s) (pr_schema s) (pr_world s)).
(** A function body and its deferred calls. *)
Definition scoped {A} (m : Run A) : Run A := fun s =>
  let r := m (mkProc (pr_trace s) [] (pr_schema s) (pr_world s)) in
  (r.1, mkProc (pr_trace r.2 ++ (Release <$> pr_deferred r.2)) (pr_deferred s) (pr_schema r.2) (pr_world r.2)).
Definition acquired (r : Resource) : Run unit := act (Acquire r) ;;; defer r.
Definition with_world {A} (m : Go A) : Run A := fun s =>
  let r := m (pr_world s) in (r.1, mkProc (pr_trace s) (pr_deferred s) (pr_schema s) r.2).
Definition or_nil (e : option Err) : Run unit := match e with Some err => fail err | None => ret tt end.

(** How [select] over [ctx.Done()] and the server's error ended. *)
Inductive ServeEnd := Interrupted (shutdown : option Err) | Stopped (err : Err).
Definition ErrServerClosed : Err := Sentinel "http: Server closed".
Definition ctx_canceled : Err := Driver (mkDriverErr Canceled "context canceled").
Definition is_canceled (e : Err) : bool := match drv_kind <$> driver_of e with Some Canceled => true | _ => false end.
Fixpoint is_server_closed (e : Err) : bool :=
  match e with
  | Sentinel m => String.eqb m "http: Server closed"
  | Wrapped _ c | DomainErr _ _ (Some c) => is_server_closed c
  | _ => false
  end.

Class Host := {
  getenv : string -> option string;
  (** pgxpool: [ParseConfig], [NewWithConfig], [Ping]; [Acquire] and the advisory lock. *)
  pgx_ParseConfig : string -> Res Err PoolConfig;
  pgx_New : string -> option Err;
  pgx_Ping : string -> option Err;
  pgx_Acquire : option Err;
  pgx_Lock : option Err;
  (** The embedded migrations, the data directory and the AWS configuration. *)
  migrations : Res Err (list FileEntry);
  seed_file : Res Err unit;
  host_NewLocal : string -> Res Err unit;
  aws_config : option string -> Res Err unit;
  (** [net.SplitHostPort] and the path of [url.Parse]. *)
  host_of : string -> option string;
  url_Path : string -> Res Err string;
  static_assets : option Err;
  serve_end : ServeEnd;
  print_error : option Err }.

(** ** internal/platform/clock

    The clock the services are given is [clk_now] of the environment; these are its two
    implementations, the process's own and the tests'. *)
Definition Real_Now `{Env} (t : nat) : Time := wall_now t.
Record Fixed := mkFixed { fixed_T : Time }.
Definition Fixed_Now (f : Fixed) (t : nat) : Time := fixed_T f.

(** ** Paths: [filepath.Join], [path.Base] *)
Fixpoint split_slashes (s : string) : list string :=
  match s with
  | EmptyString => [""]
  | String c s' =>
      if Ascii.eqb c "/"%char then "" :: split_slashes s'
      else match split_slashes s' with [] => [String c ""] | x :: xs => String c x :: xs end
  end.
(** The elements kept so far, the last one first. *)
Definition clean_step (rooted : bool) (kept : list string) (elem : string) : list string :=
  if String.eqb elem "" || String.eqb elem "." then kept
  else if String.eqb elem ".." then
    match kept with
    | top :: rest => if String.eqb top ".." then elem :: kept else rest
    | [] => if rooted then [] else [elem]
    end
  else elem :: kept.
Definition path_Clean (p : string) : string :=
  let rooted := HasPrefix p "/" in
  let body := String.concat "/" (rev (fold_left (clean_step rooted) (split_slashes p) [])) in
  if rooted then "/" ++ body else if String.eqb body "" then "." else body.
Definition filepath_Join (elems : list string) : string :=
  match List.filter (fun e => negb (String.eqb e "")) elems with [] => "" | parts => path_Clean (String.concat "/" parts) end.
Definition path_Base (p : string) : string :=
  if String.eqb p "" then "."
  else let p' := trim_slashes (String.length p) p in
       if String.eqb p' "" then "/" else List.last (split_slashes p') "".

(** ** internal/platform/postgres: Connect *)
Definition bounded_pool (c : PoolConfig) : PoolConfig := mkPoolConfig 10 1 (30 * Minute) (30 * Second).

Section processes.
Context `{Env} `{Network} `{TzData} `{SqlLocale} `{FloatText} `{Scripts} `{Host} (local : Location).

Definition Connect (url : string) : Run unit := scoped (
  let* cfg := of_res (map_fail (Wrapped "parse DATABASE_URL") (pgx_ParseConfig url)) in
  or_nil (Wrapped "connect postgres" <$> pgx_New url) ;;;
  act (Acquire RPool) ;;; act (Opened (bounded_pool cfg)) ;;;
  acquired RTimer ;;;
  match pgx_Ping url with
  | Some err => act (Release RPool) ;;; fail (Wrapped "ping postgres" err)
  | None => act Answered
  end).
(** [pool, err := postgres.Connect(...); if err != nil { return err }; defer pool.Close()] *)
Definition open_pool (url : string) : Run unit := Connect url ;;; defer RPool.
Definition notify_signals : Run unit := acquired RSignals.
Definition load : Run Config.Config := of_res (Load getenv).
Definition migrate_Up : Run (list string) :=
  act Migrating ;;;
  fun s => let r := Up migrations (pr_schema s) in
           (match r.1.2 with Some err => Fail err | None => Ok r.1.1 end, mkProc (pr_trace s) (pr_deferred s) r.2 (pr_world s)).

(** ** cmd/api *)
Definition listen (srv : Server) : Run unit :=
  act (Listening srv) ;;;
  match serve_end with
  | Interrupted shutdown => acquired RTimer ;;; or_nil shutdown
  | Stopped err => if is_server_closed err then ret tt else fail err
  end.
Definition listenHTTP (cfg : Config.Config) (mux : list (string * Endpoint)) : Run unit := scoped (
  listen (mkServer (ListenAddr cfg) mux [] (5 * Second) (10 * Second) (10 * Second) (60 * Second))).
Definition webhook_mux (provider : Adapter) (objects : ObjectBackend) : list (string * Endpoint) :=
  [("POST /webhook/zalo", Webhook provider objects); ("GET /healthz", Healthz)].
Definition serve (cfg : Config.Config) (provider : Adapter) (objects : ObjectBackend) : Run unit := listenHTTP cfg (webhook_mux provider objects).
Definition serveHealthz (cfg : Config.Config) : Run unit := listenHTTP cfg [("GET /healthz", Healthz)].

Definition api_run (poll : bool) : Run unit := scoped (
  let* cfg := load in
  notify_signals ;;;
  open_pool (DatabaseURL cfg) ;;;
  let* objects := of_res (objectstore_NewFromConfig host_NewLocal aws_config cfg) in
  let provider := NewFromConfig cfg in
  match provider with UseZalo client => act (Spawned (MenuPush client)) | UseLog => ret tt end ;;;
  if poll then
    match provider with
    | UseLog => fail (Sentinel "-poll requires ZALO_BOT_TOKEN (nothing to poll without a real bot)")
    | UseZalo client => act (Spawned (HealthServer cfg)) ;;; act (Polling client objects) ;;; fail ctx_canceled
    end
  else serve cfg provider objects).

(** ** cmd/receipt-worker, cmd/notification-worker *)
Definition receipt_worker_run : Run unit := scoped (
  let* cfg := load in
  notify_signals ;;;
  open_pool (DatabaseURL cfg) ;;;
  let* objects := of_res (objectstore_NewFromConfig host_NewLocal aws_config cfg) in
  let provider := NewFromConfig cfg in
  let* extractor := of_res (extraction_NewFromConfig (aws_config None) cfg) in
  act (Spawned SweepLoop) ;;;
  act (Consuming (receipt_worker cfg)
    (HandleReceipts (mkProcessor (Config.ExtractionEnabled cfg) (MonthlyOCRPageLimit cfg) (10 * 2 ^ 20)) objects extractor provider))).
(** The retention goroutine; [ticks] passes before the process is told to stop. *)
Definition sweep_loop (ticks : nat) : Run unit := scoped (
  with_world enqueue_sweep ;;;
  acquired RTicker ;;; act (Ticking (3600 * Second)) ;;;
  with_world (sweep_ticks ticks)).

Definition notification_worker_run : Run unit := scoped (
  let* cfg := load in
  notify_signals ;;;
  open_pool (DatabaseURL cfg) ;;;
  act (Spawned (SummaryLoop (SummarySchedulePollInterval cfg))) ;;;
  act (Consuming (notification_worker cfg)
    (HandleSends (mkSender (Config.OutboundEnabled cfg) (ZaloMonthlyMessageLimit cfg)) (NewFromConfig cfg)))).
(** [Runner.Run]: the errors of a pass are only logged. *)
Definition poll_interval (interval : Z) : Z := if interval <=? 0 then Minute else interval.
Definition Runner_Run (interval : Z) (ticks : nat) : Run unit := scoped (
  with_world (ignore RunOnce) ;;;
  acquired RTicker ;;; act (Ticking (poll_interval interval)) ;;;
  for_each (List.repeat tt ticks) (fun _ _ => with_world (ignore RunOnce)) tt).

(** ** cmd/migrate *)
Definition migrate_run : Run unit :=
  let databaseURL := trimmed getenv "DATABASE_URL" in
  if String.eqb databaseURL "" then fail (Sentinel "DATABASE_URL is required")
  else scoped (
    notify_signals ;;; acquired RTimer ;;;
    open_pool databaseURL ;;;
    migrate_Up ;;; ret tt).

(** ** cmd/playground *)
Definition securityHeaders : list (string * string) :=
  [("Content-Security-Policy", "default-src 'self'; img-src 'self' data:; style-src 'self'; script-src 'self'; connect-src 'self'; base-uri 'none'; frame-ancestors 'none'");
   ("Referrer-Policy", "no-referrer"); ("X-Content-Type-Options", "nosniff")].
Definition playground_run (addr : string) : Run unit := scoped (
  let* cfg := of_res (playground_start host_of addr getenv) in
  notify_signals ;;;
  open_pool (DatabaseURL cfg) ;;;
  wrap_err (Wrapped "migrate") migrate_Up ;;;
  let dir := filepath_Join [DataDir cfg; "playground"] in
  let* _ := of_res (host_NewLocal dir) in
  or_nil static_assets ;;;
  listen (mkServer addr [("POST /api/chat", Chat play_processor play_sender dir); ("GET /api/health", PlaygroundHealth); ("GET /", Assets)] securityHeaders
    (5 * Second) (15 * Second) (20 * Second) (60 * Second))).

(** ** cmd/simulate, cmd/zalo-poll *)
Definition demo {A} (m : Demo A) : Run A := fun s =>
  let r := m (mkHarness (pr_world s) 0 0) in (r.1, mkProc (pr_trace s) (pr_deferred s) (pr_schema s) (h_world r.2)).
Definition empty_tables (tables : list string) (context : string -> string) : Run unit :=
  for_each tables (fun _ table =>
    act (Emptying table) ;;; wrap_err (Wrapped (context table)) (with_world (dml (fun _ d => (tt, truncated table d))))) tt.
Definition simulate_run (keep : bool) : Run unit := scoped (
  let* cfg := load in
  notify_signals ;;;
  open_pool (DatabaseURL cfg) ;;;
  wrap_err (Wrapped "migrate") migrate_Up ;;;
  (if keep then ret tt else empty_tables resetTables (fun table => "reset " ++ table)) ;;;
  let* _ := of_res (host_NewLocal (DataDir cfg)) in
  act Playing ;;; demo (play local cfg)).

Definition zalo_poll_run (showText : bool) : Run unit := scoped (
  let token := Getenv getenv "ZALO_BOT_TOKEN" in
  if String.eqb token "" then fail (Sentinel "ZALO_BOT_TOKEN is required")
  else
    notify_signals ;;;
    act (Printing (New token "" (Getenv getenv "ZALO_API_BASE")) showText) ;;;
    fail match print_error with Some err => Wrapped "write event" err | None => ctx_canceled end).

(** ** pgtest: the database of the integration tests *)
Definition DatabaseName (raw : string) : Res Err string :=
  match url_Path raw with
  | Fail err => Fail err
  | Ok path =>
      let name := TrimPrefix (path_Base path) "/" in
      if one_of name [""; "."; "/"] then Fail (Sentinel "empty database name in URL") else Ok name
  end.
Definition IsDisposableTestDatabase (name : string) : bool := HasSuffix name "_test".
(** A skipped test ends like a failed one: nothing after it runs. *)
Definition testDatabaseURL : Res Err string :=
  let raw := Getenv getenv "TEST_DATABASE_URL" in
  if String.eqb raw "" then Fail (Sentinel "TEST_DATABASE_URL not set; skipping integration test")
  else
    match DatabaseName raw with
    | Fail err => Fail (Wrapped "pgtest: parse TEST_DATABASE_URL" err)
    | Ok name =>
        if IsDisposableTestDatabase name then Ok raw
        else Fail (Sentinel ("pgtest: refusing database " ++ quoted name ++ "; name must end in _test (got URL from TEST_DATABASE_URL)"))
    end.

Definition truncatedTables : list string :=
  ["pending_actions"; "scheduled_summary_preferences"; "outbound_messages"; "queue_jobs"; "usage_counters"; "insights";
   "user_merchant_rules"; "corrections"; "predictions"; "extracted_fields"; "transactions"; "receipt_processing_attempts";
   "receipt_documents"; "provider_messages"; "user_identities"; "users"; "merchant_aliases"; "merchants"; "categories"].
(** The three INSERTs of 0002_seed_categories.up.sql: one script, all or nothing; an
    identifier or a unique key that is taken refuses it. *)
Definition insert_all {R} (key : R -> uuid) (unique : R -> string) (l : list R) (m : gmap uuid R) : Res DriverErr (gmap uuid R) :=
  fold_left (fun acc r => match acc with
                          | Ok m => insert_row (key r) r (fun r' => String.eqb (unique r') (unique r)) m
                          | Fail e => Fail e
                          end) l (Ok m).
Definition categories_at (t : Time) : list Category :=
  (fun c => mkCategory (cat_id c) (cat_key c) (cat_display c) (cat_parent c) (cat_system c) t) <$> seed_categories.
Definition merchants_at (t : Time) : list Merchant :=
  (fun m => mkMerchant (mer_id m) (mer_canonical m) (mer_normalised m) (mer_family m) t) <$> seed_merchants.
Definition seed_script : Stmt unit := fun t d =>
  match insert_all cat_id cat_key (categories_at t) (db_categories d) with
  | Fail e => Fail e
  | Ok cs =>
      match insert_all mer_id mer_normalised (merchants_at t) (db_merchants d) with
      | Fail e => Fail e
      | Ok ms =>
          match insert_all ali_id ali_normalised seed_aliases (db_aliases d) with
          | Fail e => Fail e
          | Ok al => Ok (tt, upd_categories (fun _ => cs) (upd_merchants (fun _ => ms) (upd_aliases (fun _ => al) d)))
          end
      end
  end.
Definition Truncate : Run unit := scoped (
  acquired RTimer ;;;
  empty_tables truncatedTables (fun table => "pgtest: truncate " ++ table) ;;;
  of_res (map_fail (Wrapped "pgtest: read global seeds") seed_file) ;;;
  wrap_err (Wrapped "pgtest: restore global seeds") (with_world (stmt seed_script))).
(** [NewPool], up to the test body; its [t.Cleanup]s run when the test ends. *)
Definition NewPool : Run unit :=
  let* url := of_res testDatabaseURL in
  acquired RTimer ;;;
  let* cfg := of_res (map_fail (Wrapped "pgtest: parse url") (pgx_ParseConfig url)) in
  or_nil (Wrapped "pgtest: connect" <$> pgx_New url) ;;;
  acquired RPool ;;; act (Opened cfg) ;;;
  or_nil (Wrapped "pgtest: acquire isolation lock connection" <$> pgx_Acquire) ;;;
  act (Acquire RConn) ;;;
  match pgx_Lock with
  | Some err => act (Release RConn) ;;; fail (Wrapped "pgtest: acquire isolation lock" err)
  | None => act (Acquire RTestLock) ;;; act Answered
  end ;;;
  defer RConn ;;; defer RTestLock ;;;
  wrap_err (Wrapped "pgtest: migrate") migrate_Up ;;;
  Truncate.
(** A test: its pool, its body, its cleanups. *)
Definition integration_test (body : Run unit) : Run unit := scoped (NewPool ;;; body).

(** ** The programs *)
Inductive Program :=
| ApiProgram (poll : bool) | ReceiptWorker | NotificationWorker | MigrateProgram | PlaygroundProgram (addr : string)
| SimulateProgram (keep : bool) | ZaloPollProgram (showText : bool) | IntegrationTest.
Definition run_of (p : Program) : Run unit :=
  match p with
  | ApiProgram poll => api_run poll | ReceiptWorker => receipt_worker_run | NotificationWorker => notification_worker_run
  | MigrateProgram => migrate_run | PlaygroundProgram addr => playground_run addr | SimulateProgram keep => simulate_run keep
  | ZaloPollProgram showText => zalo_poll_run showText | IntegrationTest => integration_test (ret tt)
  end.
(** The goroutines a program leaves running beside its main loop. *)
Definition goroutine (ticks : nat) (g : Goroutine) : Run unit :=
  match g with
  | MenuPush client => scoped (acquired RTimer ;;; ignore (of_res (default (Ok tt) (registerZaloSlashMenu (UseZalo client) ticks))))
  | HealthServer cfg => ignore (serveHealthz cfg)
  | SweepLoop => sweep_loop ticks
  | SummaryLoop interval => Runner_Run interval ticks
  end.
(** [main]: what the shell sees.  Only migrate and simulate call an interrupt a failure. *)
Definition exit_status (p : Program) (r : Res Err unit) : Z :=
  match r, p with
  | Ok _, _ => 0
  | Fail err, (MigrateProgram | SimulateProgram _ | IntegrationTest) => 1
  | Fail err, _ => if is_canceled err then 0 else 1
  end.
End processes.

(** ** An audit of what was done

    [lg_held]: what the process holds; [lg_answered]: its database has answered.  A
    connection lives in a pool and the advisory lock in a connection; neither may be
    let go while something lives in it.  Work needs a database that answered. *)
Record Ledger := mkLedger { lg_held : list Resource; lg_answered : bool }.
Definition has (l : Ledger) (r : Resource) : bool := bool_decide (r ∈ lg_held l).
Definition lives_in (r : Resource) : option Resource :=
  match r with RConn => Some RPool | RTestLock => Some RConn | _ => None end.
Fixpoint take_out (r : Resource) (held : list Resource) : list Resource :=
  match held with [] => [] | x :: rest => if decide (x = r) then rest else x :: take_out r rest end.
Definition audit_step (l : Ledger) (a : Action) : option Ledger :=
  match a with
  | Acquire r => if from_option (has l) true (lives_in r) then Some (mkLedger (r :: lg_held l) (lg_answered l)) else None
  | Release r =>
      if has l r && forallb (fun x => bool_decide (lives_in x <> Some r)) (lg_held l)
      then Some (mkLedger (take_out r (lg_held l)) (lg_answered l && negb (bool_decide (r = RPool)))) else None
  | Opened _ => if has l RPool then Some l else None
  | Answered => if has l RPool then Some (mkLedger (lg_held l) true) else None
  | Ticking period => if has l RTicker && (0 <? period) then Some l else None
  | Printing _ _ => if has l RSignals then Some l else None
  | Migrating | Emptying _ | Spawned _ | Listening _ | Polling _ _ | Consuming _ _ | Playing =>
      if has l RPool && lg_answered l then Some l else None
  end.
Definition audit_from (l : Ledger) (tr : list Action) : option Ledger := foldl (fun o a => o ≫= fun l => audit_step l a) (Some l) tr.
Definition nothing_held : Ledger := mkLedger [] false.
(** A goroutine works on the pool of the process that started it. *)
Definition pool_lent : Ledger := mkLedger [RPool] true.

Lemma audit_from_app l tr tr' : audit_from l (tr ++ tr') = audit_from l tr ≫= fun l' => audit_from l' tr'.
Proof.
  unfold audit_from. rewrite foldl_app. destruct (foldl _ (Some l) tr) as [l'|]; [done|]. cbn [mbind option_bind].
  induction tr' as [|a tr' IH]; [done|exact IH].
Qed.

(** ** Weakest preconditions over the audit

    [wp l0 ok m Q l d]: run where the audit of the past says [l] and [d] is deferred,
    [m] does only what [ok] admits and ends where [Q] holds of its result, the audit
    and what is deferred. *)
Definition Post (A : Type) : Type := Res Err A -> Ledger -> list Resource -> Prop.
Definition wp {A} (l0 : Ledger) (ok : Action -> Prop) (m : Run A) (Q : Post A) (l : Ledger) (d : list Resource) : Prop := forall s,
  audit_from l0 (pr_trace s) = Some l -> Forall ok (pr_trace s) -> pr_deferred s = d ->
  exists l', audit_from l0 (pr_trace (m s).2) = Some l' /\ Forall ok (pr_trace (m s).2) /\ Q (m s).1 l' (pr_deferred (m s).2).

Section wp.
Context (l0 : Ledger) (ok : Action -> Prop) (Hreleases : forall r, ok (Release r)).
Lemma wp_silent {A} (m : Run A) (Q : Post A) l d : (forall s, pr_trace (m s).2 = pr_trace s /\ pr_deferred (m s).2 = pr_deferred s) ->
  (forall r, Q r l d) -> wp l0 ok m Q l d.
Proof. intros Hm HQ s Hl Hok <-. destruct (Hm s) as [-> ->]. by exists l. Qed.
Lemma wp_of_res {A} r (Q : Post A) l d : Q r l d -> wp l0 ok (of_res r) Q l d.
Proof. intros HQ s Hl Hok <-. by exists l. Qed.
Lemma wp_ret {A} (a : A) (Q : Post A) l d : Q (Ok a) l d -> wp l0 ok (ret a) Q l d.
Proof. exact (wp_of_res (Ok a) Q l d). Qed.
Lemma wp_fail {A} e (Q : Post A) l d : Q (Fail e) l d -> wp l0 ok (fail e) Q l d.
Proof. exact (wp_of_res (Fail e) Q l d). Qed.
Lemma wp_bind {A B} (m : Run A) (k : A -> Run B) (Q : Post B) l d :
  wp l0 ok m (fun r l' d' => match r with Ok a => wp l0 ok (k a) Q l' d' | Fail e => Q (Fail e) l' d' end) l d -> wp l0 ok (bind m k) Q l d.
Proof.
  intros Hm s Hl Hok Hd. destruct (Hm s Hl Hok Hd) as (l' & Hl' & Hok' & HQ). unfold bind.
  destruct (m s) as [[a|e] s']; simpl in *; [by apply HQ|by exists l'].
Qed.
Lemma wp_wrap_err {A} f (m : Run A) (Q : Post A) l d : wp l0 ok m (fun r => Q (map_fail f r)) l d -> wp l0 ok (wrap_err f m) Q l d.
Proof. intros Hm s. exact (Hm s). Qed.
Lemma wp_ignore {A} (m : Run A) (Q : Post unit) l d : wp l0 ok m (fun _ => Q (Ok tt)) l d -> wp l0 ok (ignore m) Q l d.
Proof. intros Hm s. exact (Hm s). Qed.
Lemma wp_scoped {A} (m : Run A) (Q : Post A) l d :
  wp l0 ok m (fun r l' d' => exists l'', audit_from l' (Release <$> d') = Some l'' /\ Q r l'' d) l [] -> wp l0 ok (scoped m) Q l d.
Proof.
  intros Hm s Hl Hok Hd. destruct (Hm (mkProc (pr_trace s) [] (pr_schema s) (pr_world s)) Hl Hok eq_refl) as (l' & Hl' & Hok' & l'' & Hr & HQ).
  exists l''. unfold scoped. cbn [fst snd pr_trace pr_deferred]. rewrite audit_from_app, Hl', Hd, Forall_app, Forall_fmap.
  split_and!; [done|done| |done]. by apply Forall_true.
Qed.
Lemma wp_act a (Q : Post unit) l d l' : audit_step l a = Some l' -> ok a -> Q (Ok tt) l' d -> wp l0 ok (act a) Q l d.
Proof.
  intros Ha Hoka HQ s Hl Hok <-. exists l'. unfold act, modify. cbn [fst snd pr_trace pr_deferred]. rewrite audit_from_app, Hl, Forall_app.
  split_and!; [done|done|by constructor|done].
Qed.
Lemma wp_defer r (Q : Post unit) l d : Q (Ok tt) l (r :: d) -> wp l0 ok (defer r) Q l d.
Proof. intros HQ s Hl Hok <-. by exists l. Qed.
Lemma wp_for_each {A B} (xs : list A) (body : B -> A -> Run B) b (Q : Post B) l d :
  (forall b x, x ∈ xs -> wp l0 ok (body b x) (fun _ l' d' => l' = l /\ d' = d) l d) -> (forall r, Q r l d) -> wp l0 ok (for_each xs body b) Q l d.
Proof.
  intros Hb HQ. revert b. induction xs as [|x xs IH]; intros b; cbn [for_each]; [by apply wp_ret|].
  apply wp_bind. intros s Hl Hok Hd. destruct (Hb b x ltac:(by left) s Hl Hok Hd) as (l' & Hl' & Hok' & -> & Hd'). exists l. split_and!; [done|done|].
  destruct (body b x s) as [[b'|e] s']; simpl in *; rewrite Hd'; [|apply HQ]. apply IH. intros b'' x' Hx'. apply Hb. by right.
Qed.
End wp.

(** Steps through a process; where the ledger is known the audit computes. *)
Ltac wp_step :=
  lazymatch goal with
  | |- wp _ _ (bind _ _) _ _ _ => apply wp_bind
  | |- wp _ _ (ret _) _ _ _ => apply wp_ret
  | |- wp _ _ (fail _) _ _ _ => apply wp_fail
  | |- wp _ _ (of_res _) _ _ _ => apply wp_of_res
  | |- wp _ _ (wrap_err _ _) _ _ _ => apply wp_wrap_err
  | |- wp _ _ (ignore _) _ _ _ => apply wp_ignore
  | |- wp _ _ (scoped _) _ _ _ => apply wp_scoped; [done|]
  | |- wp _ _ (act _) _ _ _ => eapply wp_act; [vm_compute; reflexivity|try exact I|]
  | |- wp _ _ (defer _) _ _ _ => apply wp_defer
  | |- wp _ _ (with_world _) _ _ _ => apply wp_silent; [done|intros []]
  | |- wp _ _ (demo _) _ _ _ => apply wp_silent; [done|intros []]
  | |- wp _ _ (for_each _ _ _) _ _ _ => apply wp_for_each; [intros ? ? ?|intros []]
  | |- wp _ _ (acquired _) _ _ _ => unfold acquired
  | |- wp _ _ (or_nil ?o) _ _ _ => unfold or_nil; destruct o
  | |- wp _ _ (open_pool _) _ _ _ => unfold open_pool, Connect
  | |- wp _ _ migrate_Up _ _ _ => unfold migrate_Up
  | |- wp _ _ notify_signals _ _ _ => unfold notify_signals
  | |- wp _ _ load _ _ _ => unfold load
  | |- wp _ _ (empty_tables _ _) _ _ _ => unfold empty_tables
  | |- wp _ _ (match ?x with _ => _ end) _ _ _ => destruct x eqn:?
  | |- wp _ _ (fun s => _) _ _ _ => apply wp_silent; [done|intros []]
  | |- wp _ _ ?m _ _ _ => let h := get_head m in unfold h
  | |- match map_fail _ ?r with _ => _ end => destruct r eqn:?; cbn [map_fail]
  | |- match ?r with _ => _ end => destruct r eqn:?
  | |- exists l', audit_from _ _ = Some l' /\ _ => eexists; split; [vm_compute; reflexivity|]
  | |- _ = _ /\ _ = _ => split; reflexivity
  end; cbv beta iota zeta.

(** ** What each program may do *)
Section audited.
Context `{Env} `{Network} `{TzData} `{SqlLocale} `{FloatText} `{Scripts} `{Host} (local : Location).
Definition api_server (cfg : Config.Config) (mux : list (string * Endpoint)) : Server :=
  mkServer (ListenAddr cfg) mux [] (5 * Second) (10 * Second) (10 * Second) (60 * Second).
Definition chosen (cfg : Config.Config) (objects : ObjectBackend) : Prop := objectstore_NewFromConfig host_NewLocal aws_config cfg = Ok objects.
Definition allowed (p : Program) (a : Action) : Prop :=
  match a with
  | Listening srv =>
      (p = ApiProgram false /\ exists cfg, Load getenv = Ok cfg /\
         exists objects, chosen cfg objects /\ srv = api_server cfg (webhook_mux (NewFromConfig cfg) objects)) \/
      (exists cfg, p = PlaygroundProgram (Addr srv) /\ playground_start host_of (Addr srv) getenv = Ok cfg /\ set_headers srv = securityHeaders)
  | Polling client objects => p = ApiProgram true /\ exists cfg, Load getenv = Ok cfg /\ MessagingMode cfg = "zalo" /\ client = newZalo cfg /\ chosen cfg objects
  | Consuming c (HandleReceipts processor objects extractor provider) => p = ReceiptWorker /\ exists cfg, Load getenv = Ok cfg /\ c = receipt_worker cfg /\
      Processor.ExtractionEnabled processor = Config.ExtractionEnabled cfg /\ MonthlyOCRLimit processor = MonthlyOCRPageLimit cfg /\ chosen cfg objects /\
      extraction_NewFromConfig (aws_config None) cfg = Ok extractor /\ provider = NewFromConfig cfg
  | Consuming c (HandleSends sender provider) => p = NotificationWorker /\ exists cfg, Load getenv = Ok cfg /\ c = notification_worker cfg /\
      sender = mkSender (Config.OutboundEnabled cfg) (ZaloMonthlyMessageLimit cfg) /\ provider = NewFromConfig cfg
  | Spawned (HealthServer cfg) => p = ApiProgram true /\ Load getenv = Ok cfg
  | Spawned (MenuPush client) => (exists poll, p = ApiProgram poll) /\ exists cfg, Load getenv = Ok cfg /\ NewFromConfig cfg = UseZalo client
  | Spawned SweepLoop => p = ReceiptWorker
  | Spawned (SummaryLoop interval) => p = NotificationWorker /\ exists cfg, Load getenv = Ok cfg /\ interval = SummarySchedulePollInterval cfg
  | Opened c => p = IntegrationTest \/ c = mkPoolConfig 10 1 (30 * Minute) (30 * Second)
  | Emptying table =>
      (p = SimulateProgram false /\ table ∈ resetTables) \/
      (p = IntegrationTest /\ exists name, DatabaseName (Getenv getenv "TEST_DATABASE_URL") = Ok name /\ HasSuffix name "_test" = true)
  | Migrating => p <> ReceiptWorker /\ p <> NotificationWorker /\ forall poll, p <> ApiProgram poll
  | Playing => exists keep, p = SimulateProgram keep
  | Printing _ _ => exists showText, p = ZaloPollProgram showText
  | Ticking _ => False
  | Acquire _ | Release _ | Answered => True
  end.
Definition all_returned : Post unit := fun _ l d => l = nothing_held /\ d = [].
Lemma NewFromConfig_zalo cfg client : NewFromConfig cfg = UseZalo client -> MessagingMode cfg = "zalo" /\ client = newZalo cfg.
Proof. unfold NewFromConfig. destruct (String.eqb_spec (MessagingMode cfg) "zalo"); [by intros [= <-]|done]. Qed.
Lemma testDatabaseURL_Ok url : testDatabaseURL = Ok url ->
  exists name, DatabaseName (Getenv getenv "TEST_DATABASE_URL") = Ok name /\ HasSuffix name "_test" = true.
Proof. unfold testDatabaseURL, IsDisposableTestDatabase. repeat case_match; try done. eauto. Qed.
Lemma run_audited p : wp nothing_held (allowed p) (run_of local p) all_returned nothing_held [].
Proof.
  destruct p; cbn [run_of]; unfold all_returned; repeat wp_step; simpl; eauto 9 using testDatabaseURL_Ok.
  all: match goal with
  | Ha : NewFromConfig ?a = _, Ho : objectstore_NewFromConfig _ _ ?a = Ok ?o |- _ \/ _ =>
      left; split; [done|]; exists a; split; [done|]; exists o; split; [done|]; by rewrite Ha
  | Ha : NewFromConfig _ = UseZalo _ |- _ => apply NewFromConfig_zalo in Ha as [? ->]; eauto 12
  end.
Qed.

(** The goroutines leave the pool as they found it; none serves the webhook, and
    every ticker has a period it can be built with. *)
Definition goroutine_ok (a : Action) : Prop := match a with Listening srv => routes srv = [("GET /healthz", Healthz)] | _ => True end.
Lemma poll_interval_pos interval : (0 <? poll_interval interval) = true.
Proof. unfold poll_interval. destruct (Z.leb_spec interval 0); [done|]. by apply Z.ltb_lt. Qed.
Lemma goroutine_audited ticks g : wp pool_lent goroutine_ok (goroutine ticks g) (fun _ l d => l = pool_lent /\ d = []) pool_lent [].
Proof.
  destruct g; cbn [goroutine]; repeat wp_step; try done.
  eapply wp_act; [unfold audit_step; rewrite poll_interval_pos; vm_compute; reflexivity|done|]. repeat wp_step.
Qed.

(** A refusal of the configuration is a message of its own, never the interrupt. *)
Definition plain {A} (r : Res Err A) : Prop := match r with Ok _ => True | Fail e => exists m, e = Sentinel m end.
Lemma all_checks_plain l : Forall plain l -> plain (all_checks l).
Proof. induction 1 as [|[[]|e] l Hr _ IH]; [done|exact IH|exact Hr]. Qed.
Lemma env_parsed_plain {A} key what (parse : string -> option A) def : plain (env_parsed getenv key what parse def).
Proof. unfold env_parsed, plain, problem. repeat case_match; simplify_eq; eauto. Qed.
Lemma validate_plain c : plain (validate c).
Proof.
  apply all_checks_plain. rewrite !Forall_app.
  assert (Hr : forall b m, plain (require b m)) by (intros [] m; [done|by eexists]).
  assert (Hh : forall n r, plain (requireHTTPS n r)) by (intros n r; unfold requireHTTPS, plain, problem; repeat case_match; simplify_eq; eauto).
  assert (He : forall n r, plain (requireObjectStoreEndpoint n r))
    by (intros n r; unfold requireObjectStoreEndpoint, plain, problem; repeat case_match; simplify_eq; eauto).
  assert (Ho : plain (check_objectstore c)) by (unfold check_objectstore; repeat case_match; try done; try by eexists).
  assert (Hx : plain (check_extractor c)) by (unfold check_extractor; repeat case_match; try done; try by eexists).
  split; [|split].
  - rewrite !Forall_cons. unfold non_negative, concurrency. split_and!; auto.
  - destruct (controlled c); [|by constructor]. unfold check_controlled. rewrite !Forall_cons. split_and!; auto. by destruct (String.eqb _ _).
  - by apply Forall_singleton.
Qed.
Lemma Load_plain : plain (Load getenv).
Proof.
  unfold Load. cbv zeta.
  repeat match goal with
  | |- plain (match ?r with _ => _ end) => let Hp := fresh in assert (Hp : plain r) by (apply env_parsed_plain || apply validate_plain); destruct r; [|exact Hp]
  end. done.
Qed.

(** ** A configuration that loads builds every component *)
Lemma loaded_factories cfg : Load getenv = Ok cfg -> (forall dir, is_ok (host_NewLocal dir) = true) -> (forall region, is_ok (aws_config region) = true) ->
  is_ok (objectstore_NewFromConfig host_NewLocal aws_config cfg) = true /\ is_ok (extraction_NewFromConfig (aws_config None) cfg) = true.
Proof.
  intros Hload%Load_validated Hdir Haws. unfold validate in Hload. rewrite all_checks_Ok, Forall_app in Hload. destruct Hload as [Hv _].
  repeat match goal with H : Forall _ (_ :: _) |- _ => apply Forall_cons in H as [? H] end.
  assert (Ho : check_objectstore cfg = Ok tt) by done. assert (Hx : check_extractor cfg = Ok tt) by done. split.
  - unfold check_objectstore in Ho. unfold objectstore_NewFromConfig, S3.ConnectS3, S3.NewS3. specialize (Hdir (DataDir cfg)).
    destruct (String.eqb_spec (ObjectStoreBackend cfg) "s3") as [->|]; cbn [negb]; [|by destruct (host_NewLocal _)].
    cbn [String.eqb Ascii.eqb Bool.eqb] in Ho. destruct (String.eqb (S3Bucket cfg) ""); [done|].
    match goal with |- context [aws_config ?r] => specialize (Haws r); destruct (aws_config r) end; done.
  - unfold check_extractor, one_of in Hx. unfold extraction_NewFromConfig. cbv zeta. specialize (Haws None). cbn [existsb] in Hx.
    destruct (String.eqb_spec (ExtractionBackend cfg) "mock") as [->|]; [done|].
    destruct (String.eqb_spec (ExtractionBackend cfg) "textract") as [->|]; [by destruct (aws_config None)|].
    destruct (String.eqb_spec (ExtractionBackend cfg) "gemini") as [->|]; done.
Qed.

(** ** From start to exit *)
Definition launch (p : Program) (schema : Schema) (world : World) : Res Err unit * Proc := run_of local p (mkProc [] [] schema world).
Definition configured (p : Program) : bool :=
  match p with MigrateProgram | ZaloPollProgram _ | IntegrationTest => false | _ => true end.
Lemma refused_at_once {A} (r : Res Err A) (k : A -> Run unit) s m : r = Fail (Sentinel m) -> scoped (bind (of_res r) k) s = (Fail (Sentinel m), s).
Proof. intros ->. destruct s. unfold scoped. run_unfold. cbn [fst snd pr_trace pr_deferred pr_schema pr_world fmap list_fmap]. by rewrite app_nil_r. Qed.
Lemma configured_refused p s : configured p = true -> is_ok (Load getenv) = false ->
  exists m, run_of local p s = (Fail (Sentinel m), s) /\ exit_status p (Fail (Sentinel m)) = 1.
Proof.
  intros Hp Hl. pose proof Load_plain as Hplain. destruct (Load getenv) as [|e] eqn:He; [done|]. destruct Hplain as [m ->].
  assert (Hplay : forall addr, exists m', playground_start host_of addr getenv = Fail (Sentinel m')).
  { intros addr. unfold playground_start, requireLoopback. rewrite He. repeat case_match; simplify_eq; eauto. }
  destruct p as [| | | |addr| | |]; try done; [| | |destruct (Hplay addr) as [m' Hm']; exists m'|].
  4: split; [by apply refused_at_once|done]. all: exists m; split; [by apply refused_at_once|done].
Qed.

(** C35: A program that is told to stop, whatever the host answered until then, has
    released all it acquired, each resource before the one it lives in; it worked
    only on a database that had answered; it did only what is its own to do, with the
    values of a valid configuration; the goroutines it started keep to the same rules
    and none of them serves the webhook; and a refused configuration ends the program
    with status 1 before it touches anything. *)
Theorem process_lifecycle p schema world : let r := launch p schema world in
  audit_from nothing_held (pr_trace r.2) = Some nothing_held /\ Forall (allowed p) (pr_trace r.2) /\
  (forall g ticks schema' world', Spawned g ∈ pr_trace r.2 -> let tr := pr_trace (goroutine ticks g (mkProc [] [] schema' world')).2 in
     audit_from pool_lent tr = Some pool_lent /\ Forall goroutine_ok tr) /\
  (configured p = true -> is_ok (Load getenv) = false ->
     pr_trace r.2 = [] /\ pr_schema r.2 = schema /\ pr_world r.2 = world /\ exit_status p r.1 = 1).
Proof.
  cbv zeta. destruct (run_audited p (mkProc [] [] schema world) eq_refl ltac:(by constructor) eq_refl) as (l & Hl & Hok & -> & _).
  split_and!; [done|done| |].
  - intros g ticks schema' world' _.
    destruct (goroutine_audited ticks g (mkProc [] [] schema' world') eq_refl ltac:(by constructor) eq_refl) as (l & Hg & Hg' & -> & _). done.
  - intros Hp Hload. destruct (configured_refused p (mkProc [] [] schema world) Hp Hload) as (m & Hr & Hex). unfold launch. rewrite Hr. done.
Qed.

(** ** A healthy host is brought to work *)
Record healthy : Prop := {
  hl_parse : forall url, is_ok (pgx_ParseConfig url) = true; hl_new : forall url, pgx_New url = None; hl_ping : forall url, pgx_Ping url = None;
  hl_dir : forall dir, is_ok (host_NewLocal dir) = true; hl_aws : forall region, is_ok (aws_config region) = true;
  hl_stop : serve_end = Interrupted None }.
Definition opening : list Action :=
  [Acquire RSignals; Acquire RPool; Opened (mkPoolConfig 10 1 (30 * Minute) (30 * Second)); Acquire RTimer; Answered; Release RTimer].
Definition closing : list Action := [Release RPool; Release RSignals].
Definition menu_push (cfg : Config.Config) : list Action := match NewFromConfig cfg with UseZalo client => [Spawned (MenuPush client)] | UseLog => [] end.
(** What the four long-running services do between opening and closing. *)
Definition service (p : Program) (cfg : Config.Config) (objects : ObjectBackend) (extractor : Backend) : option (list Action) :=
  match p with
  | ApiProgram false => Some (menu_push cfg ++ [Listening (api_server cfg (webhook_mux (NewFromConfig cfg) objects)); Acquire RTimer; Release RTimer])%list
  | ApiProgram true =>
      match NewFromConfig cfg with
      | UseZalo client => Some [Spawned (MenuPush client); Spawned (HealthServer cfg); Polling client objects]
      | UseLog => Some []
      end
  | ReceiptWorker => Some [Spawned SweepLoop; Consuming (receipt_worker cfg)
      (HandleReceipts (mkProcessor (Config.ExtractionEnabled cfg) (MonthlyOCRPageLimit cfg) (10 * 2 ^ 20)) objects extractor (NewFromConfig cfg))]
  | NotificationWorker => Some [Spawned (SummaryLoop (SummarySchedulePollInterval cfg)); Consuming (notification_worker cfg)
      (HandleSends (mkSender (Config.OutboundEnabled cfg) (ZaloMonthlyMessageLimit cfg)) (NewFromConfig cfg))]
  | _ => None
  end.
Definition pollable (p : Program) (cfg : Config.Config) : bool :=
  match p with ApiProgram true => String.eqb (MessagingMode cfg) "zalo" | _ => true end.
Lemma open_pool_healthy url s : healthy -> open_pool url s =
  (Ok tt, mkProc (pr_trace s ++ skipn 1 opening)%list (RPool :: pr_deferred s) (pr_schema s) (pr_world s)).
Proof.
  intros [Hparse Hnew Hping _ _ _]. specialize (Hparse url). unfold open_pool, Connect, scoped, acquired, act, defer, or_nil, map_fail. run_unfold.
  destruct (pgx_ParseConfig url); [|done]. rewrite Hnew, Hping. cbn. by rewrite <- !app_assoc.
Qed.
(** On a host where everything answers, a configuration that loads is enough: each
    service opens its database, does its work and closes again, in this order, and
    ends with status 0, except that there is nothing to poll without a bot token. *)
Theorem healthy_start p cfg schema world : healthy -> Load getenv = Ok cfg -> exists objects extractor,
  chosen cfg objects /\ extraction_NewFromConfig (aws_config None) cfg = Ok extractor /\
  forall work, service p cfg objects extractor = Some work -> let r := launch p schema world in
  pr_trace r.2 = (opening ++ work ++ closing)%list /\ exit_status p r.1 = if pollable p cfg then 0 else 1.
Proof.
  intros Hh Hload. destruct (loaded_factories cfg Hload (hl_dir Hh) (hl_aws Hh)) as [Ho Hx]. unfold chosen.
  destruct (objectstore_NewFromConfig _ _ cfg) as [objects|] eqn:Hobj; [|done]. destruct (extraction_NewFromConfig _ cfg) as [extractor|] eqn:Hext; [|done].
  exists objects, extractor. split_and!; [done|done|]. intros work Hwork. cbv zeta. pose proof (hl_stop Hh) as Hstop.
  assert (Hmode : NewFromConfig cfg = if String.eqb (MessagingMode cfg) "zalo" then UseZalo (newZalo cfg) else UseLog) by done.
  destruct p as [[]| | | | | | |]; try done; cbn [service] in Hwork; unfold launch; cbn [run_of].
  all: unfold api_run, receipt_worker_run, notification_worker_run, scoped, load, notify_signals, acquired, serve, listenHTTP, listen; run_unfold.
  all: rewrite Hload; cbn [fst snd act defer modify pr_trace pr_deferred pr_schema pr_world]; rewrite (open_pool_healthy _ _ Hh).
  all: cbn [fst snd pr_trace pr_deferred pr_schema pr_world]; rewrite ?Hobj, ?Hext, ?Hstop; unfold pollable, menu_push in *; rewrite ?Hmode in *.
  all: destruct (String.eqb (MessagingMode cfg) "zalo"); injection Hwork as <-; done.
Qed.

(** ** The tests only empty a database named as disposable *)
Definition seeded_at (t : Time) : DB :=
  upd_categories (fun _ => list_to_map ((fun c => (cat_id c, c)) <$> categories_at t))
    (upd_merchants (fun _ => list_to_map ((fun m => (mer_id m, m)) <$> merchants_at t))
      (upd_aliases (fun _ => db_aliases seeded) empty_db)).
Lemma all_emptied d : foldl (fun d table => truncated table d) d truncatedTables = empty_db.
Proof. destruct d. vm_compute. reflexivity. Qed.
Lemma seed_script_empty t : seed_script t empty_db = Ok (tt, seeded_at t).
Proof. vm_compute. reflexivity. Qed.
Lemma empty_tables_Ok tables context s u s' : empty_tables tables context s = (Ok u, s') ->
  w_db (pr_world s') = foldl (fun d table => truncated table d) (w_db (pr_world s)) tables.
Proof.
  unfold empty_tables. revert s. induction tables as [|t tables IH]; intros s; cbn [for_each foldl].
  - by intros [_ ->]%ret_Ok.
  - intros ([] & s1 & Hone & Hrest)%bind_Ok. apply IH in Hrest as ->. f_equal.
    apply bind_Ok in Hone as ([] & s2 & [= <-] & Hone%wrap_err_Ok). revert Hone. unfold with_world, dml, stmt. cbn [pr_world].
    destruct (fault _); [done|]. by intros [= <-].
Qed.
Lemma Truncate_Ok s u s' : Truncate s = (Ok u, s') -> exists t, w_db (pr_world s') = seeded_at t.
Proof.
  unfold Truncate, scoped. destruct (bind _ _ _) as [r s1] eqn:Hrun. cbn [fst snd]. intros [= -> <-]. cbn [pr_world].
  apply bind_Ok in Hrun as ([] & s2 & _ & Hrun). apply bind_Ok in Hrun as ([] & s3 & Hempty%empty_tables_Ok & Hrun). rewrite all_emptied in Hempty.
  apply bind_Ok in Hrun as ([] & s4 & Hfile & Hseed%wrap_err_Ok). unfold of_res in Hfile. simplify_eq. revert Hseed. unfold with_world, stmt.
  destruct (fault _); [done|]. rewrite Hempty, seed_script_empty. intros Hs1%(f_equal snd). cbn [snd] in Hs1. exists (now_sql (pr_world s4)). by rewrite <- Hs1.
Qed.
(** C36: [NewPool] hands a test a database with the global seeds and nothing else, and it
    does nothing at all, not even connect, unless the URL names a database that ends
    in _test. *)
Theorem test_database_prepared s : let r := NewPool s in
  (r.1 = Ok tt -> exists t, w_db (pr_world r.2) = seeded_at t) /\
  ((forall name, DatabaseName (Getenv getenv "TEST_DATABASE_URL") = Ok name -> HasSuffix name "_test" = false) -> is_ok r.1 = false /\ r.2 = s).
Proof.
  cbv zeta. split.
  - destruct (NewPool s) as [r s'] eqn:Hrun. cbn [fst snd]. intros ->. unfold NewPool in Hrun.
    repeat match type of Hrun with
    | bind _ (fun _ => Truncate) _ = _ => apply bind_Ok in Hrun as (? & ? & _ & Hrun%Truncate_Ok)
    | bind _ _ _ = _ => apply bind_Ok in Hrun as (? & ? & _ & Hrun)
    end. exact Hrun.
  - intros Hname. assert (Href : is_ok testDatabaseURL = false).
    { destruct testDatabaseURL as [url|] eqn:Hurl; [|done]. apply testDatabaseURL_Ok in Hurl as (name & Hn & Hs). rewrite (Hname name Hn) in Hs. done. }
    unfold NewPool. run_unfold. destruct testDatabaseURL; [done|]. done.
Qed.
End audited.

Module StartupDemo.
Import SimulateDemo.
#[local] Existing Instances SimulateDemo.env SimulateDemo.tz SimulateDemo.locale SimulateDemo.floats SimulateDemo.net.
#[local] Instance scripts : Scripts := {| script_error := fun _ _ => None |}.
(** A host on which everything answers, until the process is told to stop. *)
#[local] Instance host : Host := {|
  getenv := ConfigDemo.pilot; pgx_ParseConfig := fun _ => Ok (mkPoolConfig 4 0 Hour Minute); pgx_New := fun _ => None; pgx_Ping := fun _ => None;
  pgx_Acquire := None; pgx_Lock := None; migrations := Ok []; seed_file := Ok tt; host_NewLocal := fun _ => Ok tt; aws_config := fun _ => Ok tt;
  host_of := fun _ => None; url_Path := fun _ => Fail (Sentinel "none"); static_assets := None; serve_end := Interrupted None; print_error := None |}.
Lemma host_healthy : healthy.
Proof. by split. Qed.
Lemma healthy_start_witness : healthy /\ Load getenv = Ok ConfigDemo.loaded /\
  exit_status (ApiProgram true) (launch PeriodsDemo.vietnam (ApiProgram true) MigrateDemo.start (world_of empty_db)).1 = 0 /\
  exists objects, Polling (newZalo ConfigDemo.loaded) objects ∈ pr_trace (launch PeriodsDemo.vietnam (ApiProgram true) MigrateDemo.start (world_of empty_db)).2.
Proof.
  split; [exact host_healthy|]. assert (Hl : Load getenv = Ok ConfigDemo.loaded) by exact ConfigDemo.pilot_loads. split; [exact Hl|].
  destruct (healthy_start PeriodsDemo.vietnam (ApiProgram true) ConfigDemo.loaded MigrateDemo.start (world_of empty_db) host_healthy Hl) as (objects & x & _ & _ & Hr).
  destruct (Hr [Spawned (MenuPush (newZalo ConfigDemo.loaded)); Spawned (HealthServer ConfigDemo.loaded); Polling (newZalo ConfigDemo.loaded) objects]
    ltac:(vm_compute; reflexivity)) as [Ht Hx].
  split; [rewrite Hx; vm_compute; reflexivity|]. exists objects. rewrite Ht. apply elem_of_app. right. apply elem_of_app. left. right. right. left.
Defined.

(** The integration tests run against postgres://…/expenses_test and refuse …/expenses. *)
Definition with_url (path : string) : Host := {|
  getenv := fun key => if String.eqb key "TEST_DATABASE_URL" then Some path else None;
  pgx_ParseConfig := fun _ => Ok (mkPoolConfig 4 0 Hour Minute); pgx_New := fun _ => None; pgx_Ping := fun _ => None;
  pgx_Acquire := None; pgx_Lock := None; migrations := Ok []; seed_file := Ok tt; host_NewLocal := fun _ => Ok tt; aws_config := fun _ => Ok tt;
  host_of := fun _ => None; url_Path := fun s => Ok s; static_assets := None; serve_end := Interrupted None; print_error := None |}.
Definition full_world : World := h_world (snd (step1 PeriodsDemo.vietnam cfg (start seeded))).
Definition users_left (path : string) : bool * nat :=
  let r := NewPool (H5 := with_url path) (mkProc [] [] MigrateDemo.start full_world) in (is_ok r.1, size (db_users (w_db (pr_world r.2)))).
Lemma tests_on_test_database : users_left "/expenses_test" = (true, 0%nat) /\ users_left "/expenses" = (false, 1%nat) /\
  users_left "" = (false, 1%nat) /\ path_Base "/a/b//" = "b" /\ filepath_Join ["./data"; "playground"] = "data/playground".
Proof. vm_compute. split_and!; reflexivity. Qed.
(** The simulation's reset keeps the merchants an earlier run has learnt; the tests'
    does not. *)
Definition learnt : DB := upd_merchants (<[99%N := mkMerchant 99 "Phở 24" "pho 24" "" 0]>) seeded.
Definition emptied (tables : list string) : DB := foldl (fun d table => truncated table d) learnt tables.
Lemma resets_differ : db_merchants (emptied resetTables) !! 99%N = Some (mkMerchant 99 "Phở 24" "pho 24" "" 0) /\
  db_merchants (emptied truncatedTables) !! 99%N = None.
Proof. vm_compute. split; reflexivity. Qed.
End StartupDemo.
