(* ===== verification/E2ECommands.v ===== *)
(** * The commands of cmd/e2e

    [main]'s switch, the arguments each command insists on, and the two files the
    commands write: the synthetic receipt, which never replaces a file, and the pinned
    identity, which nobody but its owner can read at any moment.  The discovery and
    the watch themselves are in E2E.v, the preflight in Synthetic.v; package flag and
    the file system are parameters. *)
From S2P Require Import Prelude GoStrings Domain GoTime Json Normalise Config Db Zalo ZaloEvents Gemini E2E Synthetic Startup.

(** ** Files *)
Record FileNode := mkNode { fl_mode : Z; fl_body : string }.
(** The files, and every state they were in. *)
Record Disk := mkDisk { dk_files : gmap string FileNode; dk_seen : list (gmap string FileNode) }.
Abbreviation OnDisk A := (M Disk Err A).
Definition change (f : gmap string FileNode -> gmap string FileNode) : OnDisk unit :=
  modify (fun d => mkDisk (f (dk_files d)) (dk_seen d ++ [f (dk_files d)])).
(** What the system answers; a failed write leaves the bytes it managed. *)
Class Files := {
  umask : Z;
  open_error : option Err; chmod_error : option Err; close_error : option Err;
  write_error : option (Err * nat) }.
Definition private_mode : Z := 0x180.

Section files.
Context `{Files}.
Definition or_error (what : string) (e : option Err) : OnDisk unit := match e with Some err => fail (Wrapped what err) | None => ret tt end.
(** [os.OpenFile] for writing: [O_CREATE], with [O_EXCL] or [O_TRUNC]. *)
Definition OpenFile (excl : bool) (what path : string) : OnDisk unit :=
  or_error what open_error ;;;
  let* files := asks dk_files in
  match files !! path with
  | None => change (insert path (mkNode (Z.land private_mode (Z.lnot umask)) ""))
  | Some node => if excl then fail (Wrapped what (Sentinel "file exists")) else change (insert path (mkNode (fl_mode node) ""))
  end.
Definition Chmod (what path : string) : OnDisk unit :=
  or_error what chmod_error ;;; change (alter (fun node => mkNode private_mode (fl_body node)) path).
Definition Write (what path body : string) : OnDisk unit :=
  match write_error with
  | Some (err, n) => change (alter (fun node => mkNode (fl_mode node) (take n body)) path) ;;; fail (Wrapped what err)
  | None => change (alter (fun node => mkNode (fl_mode node) body) path)
  end.
Definition writeIdentity (path : string) (identity : discoveredIdentity) : OnDisk unit :=
  OpenFile false "open identity file" path ;;;
  Chmod "protect identity file" path ;;;
  Write "write identity file" path (identity_body identity) ;;;
  or_error "close identity file" close_error.
(** [readIdentity], from the path on. *)
Definition readIdentity_at (path : string) : OnDisk discoveredIdentity :=
  let* files := asks dk_files in
  match files !! path with
  | None => fail (Wrapped "read identity file" (Sentinel "no such file or directory"))
  | Some node => of_res (readIdentity (fl_body node))
  end.
End files.

(** ** Commands *)
(** [fs.Parse] of each flag set: the values and the number of other arguments. *)
Record DiscoverFlags := mkDiscover { df_challenge : string; df_identity : string; df_timeout : Z }.
Record WatchFlags := mkWatchFlags { wf_identity : string; wf_since : string; wf_timeout : Z; wf_model : string }.
Class Flags := {
  fixture_flags : list string -> Res Err (string * nat);
  no_flags : list string -> Res Err nat;
  discover_flags : list string -> Res Err DiscoverFlags;
  watch_flags : list string -> Res Err WatchFlags }.

Section commands.
Context `{Env} `{Network} `{Gemini.ImageCodec} `{PgParse} `{Files} `{Flags} `{Host} `{UnicodeCase}.
Context (png_Encode : Canvas -> option string) (expired : nat -> bool) (db_at : nat -> DB).

Definition runFixture (args : list string) : OnDisk unit :=
  let* '(outPath, narg) := of_res (fixture_flags args) in
  if negb (narg =? 0)%nat || String.eqb (TrimSpace outPath) "" then
    fail (Sentinel "fixture requires -out and accepts no positional arguments")
  else
    match png_Encode syntheticReceipt with
    | None => fail (Wrapped "build synthetic receipt" (Sentinel "png"))
    | Some body =>
        OpenFile true "create synthetic receipt (refusing to overwrite)" outPath ;;;
        Write "write synthetic receipt" outPath body ;;;
        or_error "close synthetic receipt" close_error
    end.
Definition runValidateDB (args : list string) : Res Err unit :=
  match no_flags args with
  | Fail err => Fail err
  | Ok narg =>
      if negb (narg =? 0)%nat then Fail (Sentinel "validate-db accepts no positional arguments")
      else validateE2EDatabaseURL (Getenv getenv "E2E_DATABASE_URL")
  end.
Definition preflight (args : list string) (t : nat) : Res Err unit :=
  match no_flags args with Fail err => Fail err | Ok _ => runPreflight png_Encode getenv expired t end.

(** [runDiscover], for a number of polls: [false] when they are used up. *)
Definition runDiscover (args : list string) (polls t : nat) : OnDisk bool :=
  let* fs := of_res (discover_flags args) in
  if String.eqb (TrimSpace (df_challenge fs)) "" || String.eqb (df_identity fs) "" then fail (Sentinel "-challenge and -identity-file are required")
  else if String.eqb (trimmed getenv "ZALO_BOT_TOKEN") "" then fail (Sentinel "ZALO_BOT_TOKEN is required")
  else
    match discover (New (trimmed getenv "ZALO_BOT_TOKEN") "" (Getenv getenv "ZALO_API_BASE")) (df_challenge fs) expired polls t 0 with
    | None => ret false
    | Some r => let* identity := of_res r in writeIdentity (df_identity fs) identity ;;; ret true
    end.
(** [runWatch], for a number of rounds; the identity file is read before anything is
    opened. *)
Definition watch_args (args : list string) : OnDisk (WatchFlags * discoveredIdentity * Time) :=
  let* fs := of_res (watch_flags args) in
  if String.eqb (wf_identity fs) "" || String.eqb (wf_since fs) "" then fail (Sentinel "-identity-file and -since are required")
  else
    let* identity := readIdentity_at (wf_identity fs) in
    match ParseRFC3339 (wf_since fs) with
    | None => fail (Sentinel "parse -since")
    | Some since => ret (fs, identity, since)
    end.
Definition runWatch (fs : WatchFlags) (identity : discoveredIdentity) (since : Time) (rounds t : nat) : Run bool :=
  if String.eqb (trimmed getenv "DATABASE_URL") "" then fail (Sentinel "DATABASE_URL is required")
  else scoped (
    acquired RTimer ;;;
    open_pool (trimmed getenv "DATABASE_URL") ;;;
    acquired RTicker ;;; act (Ticking (500 * Millisecond)) ;;;
    of_res (watch db_at expired since (wf_model fs) (di_user identity) rounds watch_start t).1).

(** [main]'s switch. *)
Inductive Command := CmdFixture | CmdValidateDB | CmdPreflight | CmdDiscover | CmdWatch.
Definition command_of (argv : list string) : Res Err (Command * list string) :=
  match argv with
  | _ :: name :: args =>
      if String.eqb name "fixture" then Ok (CmdFixture, args) else if String.eqb name "validate-db" then Ok (CmdValidateDB, args)
      else if String.eqb name "preflight" then Ok (CmdPreflight, args) else if String.eqb name "discover" then Ok (CmdDiscover, args)
      else if String.eqb name "watch" then Ok (CmdWatch, args) else Fail (Sentinel ("unknown e2e command " ++ quoted name))
  | _ => Fail (Sentinel "usage: e2e fixture|validate-db|preflight|discover|watch")
  end.
End commands.

(** ** Shown: the files *)
Section shown.
Context `{Env} `{Network} `{PgParse} `{Files} `{Flags} `{Host} `{UnicodeCase} (png_Encode : Canvas -> option string).
(** At every moment the file is empty or readable by its owner only, and no other
    file is touched. *)
Definition guarded (path : string) (before now : gmap string FileNode) : Prop :=
  (forall node, now !! path = Some node -> fl_body node = "" \/ fl_mode node = private_mode) /\ forall p, p <> path -> now !! p = before !! p.
Lemma guarded_insert (path : string) (files : gmap string FileNode) mode body : body = "" \/ mode = private_mode -> guarded path files (<[path := mkNode mode body]> files).
Proof. intros Hn. split; [intros node; rewrite lookup_insert_eq; by intros [= <-]|]. intros p Hp. by rewrite lookup_insert_ne. Qed.
Lemma alter_node (path : string) (files : gmap string FileNode) mode body f : alter f path (<[path := mkNode mode body]> files) = <[path := f (mkNode mode body)]> files.
Proof. apply map_eq. intros p. destruct (decide (p = path)) as [->|]; [by rewrite lookup_alter_eq, !lookup_insert_eq|by rewrite lookup_alter_ne, !lookup_insert_ne]. Qed.
Lemma OpenFile_trunc what path files seen : open_error = None -> exists mode,
  OpenFile false what path (mkDisk files seen) = (Ok tt, mkDisk (<[path := mkNode mode ""]> files) (seen ++ [<[path := mkNode mode ""]> files])).
Proof. intros Ho. unfold OpenFile, or_error, change. run_unfold. rewrite Ho. cbn [dk_files]. destruct (files !! path); by eexists. Qed.
Ltac guards := repeat (apply Forall_cons; split; [apply guarded_insert; auto|]); by constructor.
(** Opening an existing file, whatever its mode, empties it before anything else, so
    the guard holds from then on; a failure on the way leaves the file empty, private
    or untouched; and after a success the watcher reads back the identity. *)
Theorem identity_private path identity files : let r := writeIdentity path identity (mkDisk files []) in
  Forall (guarded path files) (dk_seen r.2) /\ dk_files r.2 = default files (last (dk_seen r.2)) /\
  (r.1 = Ok tt -> provider_id (di_user identity) = true -> provider_id (di_chat identity) = true -> (readIdentity_at path r.2).1 = Ok identity).
Proof.
  cbv zeta. unfold writeIdentity, readIdentity_at. destruct open_error as [err|] eqn:Ho.
  { unfold OpenFile, or_error. run_unfold. rewrite Ho. cbn. split_and!; [by constructor|done|done]. }
  destruct (OpenFile_trunc "open identity file" path files [] Ho) as [mode Hopen].
  unfold Chmod, Write, or_error, change. run_unfold. rewrite Hopen. cbn [app].
  destruct chmod_error; cbn [fst snd dk_files dk_seen]; [split_and!; [apply Forall_singleton, guarded_insert; by left|done|done]|].
  destruct write_error as [[err n]|]; cbn [fst snd dk_files dk_seen app]; rewrite !alter_node; cbn [fl_mode fl_body].
  - split_and!; [|done|done]. guards.
  - destruct close_error; cbn [fst snd dk_files dk_seen app].
    all: split_and!; [guards|done|try done].
    intros _ Hu Hc. rewrite lookup_insert_eq. cbn [fl_body fst]. by apply identity_roundtrip.
Qed.

(** The synthetic receipt never replaces a file. *)
Theorem fixture_refuses_existing args outPath narg d : fixture_flags args = Ok (outPath, narg) -> is_Some (dk_files d !! outPath) ->
  is_ok (runFixture png_Encode args d).1 = false /\ (runFixture png_Encode args d).2 = d.
Proof.
  intros Hargs [node Hnode]. unfold runFixture, OpenFile, or_error. run_unfold. rewrite Hargs. cbn [fst snd].
  destruct (_ || _); [done|]. destruct (png_Encode _); [|done]. destruct open_error; [done|]. rewrite Hnode. done.
Qed.
End shown.

(** The watcher, too, returns what it acquires. *)
Lemma watch_audited `{Env} `{Host} (db_at : nat -> DB) (expired : nat -> bool) fs identity since rounds t :
  wp nothing_held (fun _ => True) (runWatch expired db_at fs identity since rounds t) (fun _ l d => l = nothing_held /\ d = []) nothing_held [].
Proof. repeat wp_step. Qed.

Module E2ECommandsDemo.
(** A file that was readable by everyone is private before the identity is in it. *)
#[local] Instance disk : Files := {| umask := 0x12; open_error := None; chmod_error := None; close_error := None; write_error := None |}.
Definition before : gmap string FileNode := {[ "id" := mkNode 0x1a4 "old" ]}.
Definition after : list (option FileNode) := (fun files => files !! "id") <$> dk_seen (writeIdentity "id" (mkIdentity "u1" "c1") (mkDisk before [])).2.
Lemma protected_first : after = [Some (mkNode 0x1a4 ""); Some (mkNode 0x180 ""); Some (mkNode 0x180 (identity_body (mkIdentity "u1" "c1")))].
Proof. vm_compute. reflexivity. Qed.
End E2ECommandsDemo.
