(* ===== verification/Draining.v ===== *)
(** * Draining the queue terminates

    worker.Drain, which the simulation and the playground use to run every queued job
    inline, loops until a pass finds nothing.  In Worker.v it takes fuel; here is how
    much is enough.  A receipt job is worth more than the replies its handler can
    queue, a reply is worth one, and every job that is finished takes its worth from
    the queue: with more fuel than the queue is worth the loops end by themselves,
    under any faults, and more fuel changes nothing. *)
From S2P Require Import Prelude GoStrings Domain GoTime Periods Db Queue StoreOutbound StoreInbound Notify Objects Fields Categorisation Processor Worker Simulate.

(** ** What the queue is worth *)
Definition reply_budget : nat := 5.
Definition open_status (s : JobStatus) : bool := match s with JobQueued | JobRunning => true | _ => false end.
Definition kind_worth (k : JobKind) : nat := match k with JobReceiptProcess => S reply_budget | JobOutboundSend => 1 | _ => 0 end.
Definition worth (j : QueueJob) : nat := if open_status (job_status j) then kind_worth (job_kind j) else 0.
Definition total (m : gmap uuid QueueJob) : nat := map_fold (fun _ j n => (worth j + n)%nat) 0%nat m.
Definition queue_worth (d : DB) : nat := total (db_jobs d).
Definition keyed (d : DB) : Prop := forall i j, db_jobs d !! i = Some j -> job_id j = i.

Lemma total_fresh m i j : m !! i = None -> total (<[i := j]> m) = (worth j + total m)%nat.
Proof. intros Hi. unfold total. rewrite map_fold_insert_L; [done|intros; lia|done]. Qed.
Lemma total_delete m i j : m !! i = Some j -> total m = (worth j + total (delete i m))%nat.
Proof. intros Hi. rewrite <- (insert_delete_id m i j Hi) at 1. apply total_fresh, lookup_delete_eq. Qed.
Lemma total_update m i j j' : m !! i = Some j -> (total (<[i := j']> m) + worth j = total m + worth j')%nat.
Proof. intros Hi. rewrite (total_delete m i j Hi), <- insert_delete_eq, total_fresh by apply lookup_delete_eq. lia. Qed.

(** ** Handlers that queue a bounded number of replies *)
Definition same_jobs (d d' : DB) : Prop := db_jobs d' = db_jobs d.
#[export] Instance same_jobs_preorder : PreOrder same_jobs.
Proof. split; [done|]. unfold same_jobs. intros d1 d2 d3. congruence. Qed.
#[export] Instance same_jobs_frame `{Env} : QuietFrame (on_db same_jobs).
Proof.
  split; [apply _|..]; intros; unfold on_db, same_jobs; cbn [w_db set_db set_objects]; [by apply fc_jobs|done| |done].
  unfold stmt_effect, bump_usage. repeat (case_match; simplify_eq; try done).
Qed.

Record pays (k : nat) (d d' : DB) : Prop := {
  py_keyed : keyed d -> keyed d';
  py_worth : (queue_worth d' <= queue_worth d + k)%nat;
  py_kept i j : db_jobs d !! i = Some j -> db_jobs d' !! i = Some j }.
Lemma pays_same k d d' : same_jobs d d' -> pays k d d'.
Proof. unfold same_jobs. intros Hj. split; [unfold keyed; by rewrite Hj|unfold queue_worth; rewrite Hj; lia|intros i j; by rewrite Hj]. Qed.
Lemma pays_trans k1 k2 k d1 d2 d3 : pays k1 d1 d2 -> pays k2 d2 d3 -> (k1 + k2 <= k)%nat -> pays k d1 d3.
Proof. intros [Hk Hw Hi] [Hk' Hw' Hi'] Hle. split; [auto|lia|auto]. Qed.

Section adds.
Context `{Env}.
Definition adds {A} (k : nat) (m : Go A) : Prop := forall w, pays k (w_db w) (w_db (snd (m w))).
Lemma adds_quiet {A} k (m : Go A) : evolves (on_db same_jobs) m -> adds k m.
Proof. intros Hm w. apply pays_same, Hm. Qed.
Lemma adds_le {A} n k (m : Go A) : adds n m -> (n <= k)%nat -> adds k m.
Proof. intros Hm Hle w. eapply pays_trans; [apply Hm|by apply (pays_same 0)|lia]. Qed.
Lemma adds_bind {A B} n k (m : Go A) (f : A -> Go B) : adds n m -> (n <= k)%nat -> (forall a, adds (k - n) (f a)) -> adds k (bind m f).
Proof.
  intros Hm Hle Hf w. unfold bind. specialize (Hm w). destruct (m w) as [[a|e] w1]; cbn [snd] in *.
  - eapply pays_trans; [exact Hm|apply Hf|lia].
  - eapply pays_trans; [exact Hm|by apply (pays_same 0)|lia].
Qed.
Lemma adds_bind_quiet {A B} k (m : Go A) (f : A -> Go B) : evolves (on_db same_jobs) m -> (forall a, adds k (f a)) -> adds k (bind m f).
Proof. intros Hm Hf. eapply (adds_bind 0); [by apply adds_quiet|lia|]. intros a. rewrite Nat.sub_0_r. apply Hf. Qed.
Lemma adds_attempt {A} k (m : Go A) : adds k m -> adds k (attempt m).
Proof. intros Hm w. exact (Hm w). Qed.
Lemma adds_ignore {A} k (m : Go A) : adds k m -> adds k (ignore m).
Proof. intros Hm w. exact (Hm w). Qed.
Lemma adds_WithUserLock {A} k u (m : Go A) : adds k m -> adds k (WithUserLock u m).
Proof.
  intros Hm w. unfold WithUserLock. destruct (UserLockHeld w u); [apply Hm|].
  assert (Hq : evolves (on_db same_jobs) (may_fail ;;; may_fail ;;; may_fail)) by (assert (Hf : evolves (on_db same_jobs) may_fail) by (intros w'; unfold may_fail; by destruct (fault _)); go_evolve; exact Hf).
  specialize (Hq w). destruct ((may_fail ;;; _) w) as [[x|e] w1]; cbn [fst snd] in *; [|by apply pays_same].
  eapply (pays_trans 0 k); [by apply pays_same, Hq|apply (Hm (set_held (Some u) w1))|lia].
Qed.
Lemma adds_insert_job id (j : Time -> QueueJob) clash k t d : (worth (j t) <= k)%nat -> job_id (j t) = id ->
  pays k d (stmt_effect (fun now d => match insert_row id (j now) clash (db_jobs d) with Ok m => Ok (tt, upd_jobs (fun _ => m) d) | Fail e => Fail e end) t d).
Proof.
  intros Hw Hid. unfold stmt_effect, insert_row. destruct (bool_decide (is_Some (db_jobs d !! id))) eqn:Hn; [by apply pays_same|].
  apply bool_decide_eq_false, eq_None_not_Some in Hn. destruct (existsb _ _); [by apply pays_same|]. cbn [orb].
  split; unfold keyed, queue_worth; rewrite upd_jobs_jobs.
  - intros Hk i j'. destruct (decide (i = id)) as [->|]; [rewrite lookup_insert_eq; by intros [= <-]|rewrite lookup_insert_ne by done; apply Hk].
  - rewrite total_fresh by done. lia.
  - intros i j' Hi. rewrite lookup_insert_ne; [done|]. intros <-. congruence.
Qed.
Lemma adds_stmt {A} k (f : Stmt A) : (forall t d, pays k d (stmt_effect f t d)) -> adds k (stmt f).
Proof.
  intros Hf w. unfold stmt. specialize (Hf (now_sql w) (w_db w)). unfold stmt_effect in *.
  destruct (fault (w_tick w)) as [[e [|]]|]; cbn [snd w_db set_db tick flt_applied]; [done|by apply pays_same|].
  destruct (f _ _) as [[a d]|e]; [exact Hf|by apply pays_same].
Qed.
Lemma adds_Enqueue kind p key n : adds (kind_worth kind) (Enqueue kind p key n).
Proof.
  unfold Enqueue. apply adds_bind_quiet; [go_evolve|]. intros id. eapply (adds_bind (kind_worth kind)); [|done|].
  - apply adds_attempt, adds_stmt. intros t d. by apply (adds_insert_job id (fun now => new_job now id kind p key _)).
  - intros r. apply adds_quiet. go_evolve.
Qed.
Lemma adds_Reply u p c b key : adds 1 (Reply u p c b key).
Proof.
  unfold Reply, enqueue. apply adds_bind_quiet; [go_evolve|]. intros id. apply adds_bind_quiet.
  { unfold EnqueueOutbound. go_evolve. apply evolves_stmt; [apply _|]. intros t w. unfold on_db, same_jobs, stmt_effect, insert_outbound.
    cbn [w_db set_db]. repeat case_match; simplify_eq; done. }
  intros created. apply adds_bind_quiet; [unfold GetOutboundByIdempotencyKey; go_evolve|]. intros [rec|]; [|apply adds_quiet; go_evolve].
  apply adds_bind_quiet; [go_evolve|]. intros now. eapply (adds_bind 1); [apply adds_attempt, (adds_Enqueue JobOutboundSend)|done|].
  intros r. apply adds_quiet. go_evolve.
Qed.
End adds.

(** Walks a handler: what touches no job passes the budget on, a reply takes one. *)
Create HintDb adds discriminated.
#[export] Hint Resolve adds_Reply : adds.
Ltac quiet_leaf := solve [go_evolve; eauto 3 with pipeline].
Ltac adds_step :=
  lazymatch goal with
  | |- adds _ (bind _ _) =>
      first [apply adds_bind_quiet; [quiet_leaf|intros ?]
            |eapply adds_bind; [solve [adds_known]|cbn; lia|intros ?; cbn [Nat.sub]]
            |apply (adds_bind 1); [solve [repeat adds_step]|cbn; lia|intros ?; cbn [Nat.sub]]]
  | |- adds _ (WithUserLock _ _) => apply adds_WithUserLock
  | |- adds _ (attempt _) => apply adds_attempt
  | |- adds _ (ignore _) => apply adds_ignore
  | |- adds _ (match ?x with _ => _ end) => destruct x
  | |- adds _ _ => first [apply adds_quiet; quiet_leaf|eapply adds_le; [solve [adds_known]|cbn; lia]]
  end; cbv beta zeta
with adds_known :=
  lazymatch goal with
  | |- adds _ (attempt _) => apply adds_attempt; adds_known
  | |- adds _ (ignore _) => apply adds_ignore; adds_known
  | |- adds _ _ => eauto 2 with adds
  end.

Section processor.
Context `{Env} `{TzData} `{FloatText} `{!Extractor} `{!MediaProvider} `{!Categoriser}.
Ltac walk := repeat adds_step.
Lemma adds_failWith r pl a c m : adds 1 (failWith r pl a c m).
Proof. unfold failWith, record_outcome. walk. Qed.
#[local] Hint Resolve adds_failWith : adds.
Lemma adds_fail r pl a c m : adds 1 (fail_receipt r pl a c m).
Proof. unfold fail_receipt, record_outcome. walk. Qed.
#[local] Hint Resolve adds_fail : adds.
Lemma adds_prepare job pl : adds 1 (phase_prepare job pl).
Proof. unfold phase_prepare, prepareReceipt, prepare_live. walk. Qed.
Lemma adds_load_failed pl a e : adds 1 (phase_load_failed pl a e).
Proof. unfold phase_load_failed, withLockedReceipt. walk. Qed.
Lemma adds_reserve p pl a r : adds 1 (reserve_page p pl a r).
Proof. unfold reserve_page. walk. Qed.
#[local] Hint Resolve adds_reserve : adds.
Lemma adds_arm p pl r a d g c : adds 2 (phase_arm p pl r a d g c).
Proof. unfold phase_arm, armExtraction, start_extracting, move_on. walk. Qed.
Lemma adds_warn u pl tx : adds 1 (warnPossibleDuplicate u pl tx).
Proof. unfold warnPossibleDuplicate, location_or_utc. walk. Qed.
#[local] Hint Resolve adds_warn : adds.
Lemma adds_finishExtraction pl a ans : adds 2 (finishExtraction pl a ans).
Proof. unfold finishExtraction, finish_draft, renderCard, location_or_utc, record_outcome. walk. Qed.
#[local] Hint Resolve adds_finishExtraction : adds.
Lemma adds_finish pl a ans : adds 2 (phase_finish pl a ans).
Proof. unfold phase_finish. walk. Qed.
#[local] Hint Resolve adds_prepare adds_load_failed adds_arm adds_finish : adds.
Lemma adds_extract pl a per d g c : adds 2 (extract_and_finish pl a per d g c).
Proof. unfold extract_and_finish. apply adds_bind_quiet; [intros w; done|]. intros ans. apply adds_finish. Qed.
#[local] Hint Resolve adds_extract : adds.
Lemma adds_Processor_Handle p job : adds reply_budget (Processor_Handle p job).
Proof. unfold reply_budget, Processor_Handle. walk. Qed.
End processor.

(** The sender queues nothing; the only job it may remove is its own. *)
Definition spares (id : uuid) (d d' : DB) : Prop := db_jobs d' = db_jobs d \/ db_jobs d' = delete id (db_jobs d).
#[export] Instance spares_preorder id : PreOrder (spares id).
Proof.
  split; [by left|]. intros d1 d2 d3 [H1|H1] [H2|H2]; [left; congruence|right; congruence|right; congruence|right].
  by rewrite H2, H1, delete_delete_eq.
Qed.
Section sender.
Context `{Env} `{!Provider}.
Abbreviation spared id := (on_db (spares id)).
Lemma spared_dml {A} id (f : Time -> DB -> A * DB) : (forall t d, spares id d (f t d).2) -> evolves (spared id) (dml f).
Proof. intros Hf. apply evolves_dml; [apply _|]. intros t w. apply Hf. Qed.
Lemma spared_usage id key delta limit keep cond : evolves (spared id) (stmt (bump_usage key delta limit keep cond)).
Proof.
  apply evolves_stmt; [apply _|]. intros t w. left. unfold stmt_effect, bump_usage. cbn [w_db set_db].
  repeat (case_match; simplify_eq; try done).
Qed.
Lemma spared_Purge out id : evolves (spared id) (PurgeOutboundAndJob out id).
Proof. unfold PurgeOutboundAndJob. go_evolve; apply spared_dml; intros t d; [by left|by right]. Qed.
Lemma spared_Mark id out st e t : evolves (spared id) (MarkOutboundStatus out st e t).
Proof. unfold MarkOutboundStatus. go_evolve. apply spared_dml. intros t' d. by left. Qed.
Lemma spared_Begin id out period limit : evolves (spared id) (BeginOutboundAttempt out period limit).
Proof.
  unfold BeginOutboundAttempt. go_evolve; try apply spared_usage; apply spared_dml; intros t d; left; [done|].
  unfold update_outbound_returning. repeat case_match; done.
Qed.
Lemma spared_Complete id out period limit ref : evolves (spared id) (CompleteOutboundSend out id period limit ref).
Proof.
  unfold CompleteOutboundSend. go_evolve; try apply spared_usage; apply spared_dml; intros t d.
  - left. unfold update_outbound_returning. repeat case_match; done.
  - by left.
  - by right.
Qed.
Lemma spared_Sender s job : evolves (spared (job_id job)) (Sender_Handle s job).
Proof.
  unfold Sender_Handle, Sender_handleLocked, Notify.deliver, settle, GetOutbound, GetUser, DeleteQueueJob.
  go_evolve; try apply spared_Purge; try apply spared_Mark; try apply spared_Begin; try apply spared_Complete.
  - intros w. by left.
  - apply spared_dml. by right.
Qed.
End sender.

(** ** A handled job takes its worth from the queue *)
Section drain.
Context `{Env}.
(** What [Drain] needs of a handler. *)
Definition affordable (kind : JobKind) (handle : QueueJob -> Go unit) : Prop := (0 < kind_worth kind)%nat /\
  forall job w, keyed (w_db w) -> let d' := w_db (snd (handle job w)) in
    keyed d' /\ (queue_worth d' < queue_worth (w_db w) + kind_worth kind)%nat /\
    forall j, db_jobs (w_db w) !! job_id job = Some j -> db_jobs d' !! job_id job = Some j \/ db_jobs d' !! job_id job = None.

Lemma Processor_affordable `{TzData} `{FloatText} `{!Extractor} `{!MediaProvider} `{!Categoriser} p : affordable JobReceiptProcess (Processor_Handle p).
Proof.
  split; [unfold kind_worth; lia|]. intros job w Hk. destruct (adds_Processor_Handle p job w) as [Hk' Hw Hi]. cbv zeta.
  split_and!; [by apply Hk'|cbn; lia|]. intros j Hj. left. by apply Hi.
Qed.
Lemma Sender_affordable `{!Provider} s : affordable JobOutboundSend (Sender_Handle s).
Proof.
  split; [unfold kind_worth; lia|]. intros job w Hk. cbv zeta. unfold queue_worth, keyed. cbn [kind_worth].
  destruct (spared_Sender s job w) as [Hj|Hj]; rewrite Hj; [split_and!; [done|lia|by left]|].
  split_and!; [|destruct (db_jobs (w_db w) !! job_id job) as [j|] eqn:Hi|intros j _; right; apply lookup_delete_eq].
  - intros i j [_ Hij]%lookup_delete_Some. by apply Hk.
  - rewrite (total_delete _ _ _ Hi). lia.
  - rewrite delete_id by done. lia.
Qed.

Lemma keyed_update d d' i j j' : keyed d -> db_jobs d !! i = Some j -> job_id j' = job_id j -> db_jobs d' = <[i := j']> (db_jobs d) -> keyed d'.
Proof.
  intros Hk Hi Hid Hd' i' x. rewrite Hd'. destruct (decide (i' = i)) as [->|]; [|rewrite lookup_insert_ne by done; apply Hk].
  rewrite lookup_insert_eq. intros [= <-]. rewrite Hid. by apply Hk.
Qed.
Lemma Dequeue_worth kind v w job w1 : keyed (w_db w) -> Dequeue [kind] v w = (Ok job, w1) ->
  keyed (w_db w1) /\ queue_worth (w_db w1) = queue_worth (w_db w) /\ db_jobs (w_db w1) !! job_id job = Some job /\ worth job = kind_worth kind.
Proof.
  intros Hk. unfold Dequeue, clk_Now, uuid_New, dml, stmt. run_unfold. cbn [fst snd w_db tick]. destruct (fault _); [done|].
  unfold dequeue_stmt. cbn [map_fail]. destruct (argmin _ _) as [j|] eqn:Ha; [|done]. intros [= <- <-]. cbn [w_db set_db].
  apply argmin_in in Ha. unfold select in Ha. apply list_elem_of_filter in Ha as [Hready Hrow].
  apply elem_of_rows in Hrow as [i Hi]. pose proof (Hk _ _ Hi) as Hid. subst i.
  unfold ready in Hready. apply andb_true_iff in Hready as [Hkind Hst]. apply bool_decide_eq_true, list_elem_of_singleton in Hkind.
  assert (Hopen : open_status (job_status j) = true).
  { apply orb_true_iff in Hst as [[Hs _]%andb_true_iff|[Hs _]%andb_true_iff]; apply bool_decide_eq_true in Hs; by rewrite Hs. }
  set (j' := claimed _ _ j). assert (Hw : worth j' = kind_worth kind) by (unfold worth; cbn; by rewrite Hkind).
  assert (Hw0 : worth j = kind_worth kind) by (unfold worth; by rewrite Hopen, Hkind).
  split_and!; [|unfold queue_worth; rewrite upd_jobs_jobs; pose proof (total_update _ _ _ j' Hi); lia|rewrite upd_jobs_jobs; apply lookup_insert_eq|done].
  apply (keyed_update (w_db w) _ (job_id j) j j'); [done|done|done|by rewrite upd_jobs_jobs].
Qed.
Lemma Dequeue_empty kind v w m w1 : Dequeue [kind] v w = (Fail (Sentinel m), w1) -> w_db w1 = w_db w.
Proof.
  unfold Dequeue, clk_Now, uuid_New, dml, stmt. run_unfold. cbn [fst snd w_db tick]. destruct (fault _); [done|].
  unfold dequeue_stmt. cbn [map_fail]. destruct (argmin _ _) as [j|]; [done|]. by intros [= _ <-].
Qed.
Lemma Ack_Ok id claim w u w' : Ack id claim w = (Ok u, w') -> exists j now,
  db_jobs (w_db w) !! id = Some j /\ owns claim j = true /\ db_jobs (w_db w') = <[id := finished now j]> (db_jobs (w_db w)).
Proof.
  unfold Ack, clk_Now, dml, stmt, update_job, update_row. run_unfold. cbn [fst snd w_db tick]. destruct (fault _); [done|].
  destruct (db_jobs (w_db w) !! id) as [j|] eqn:Hj; [|done]. destruct (owns claim j) eqn:Ho; [|done]. cbn [fst snd Z.eqb]. intros [= _ <-].
  exists j, (clk_now (w_tick w)). split_and!; [done|done|]. cbn [w_db set_db]. by rewrite upd_jobs_jobs.
Qed.

(** One turn of [drainKind]: claimed, handled, acknowledged. *)
Lemma turn_pays kind handle v w job w1 r w2 u w3 : affordable kind handle -> keyed (w_db w) ->
  Dequeue [kind] v w = (Ok job, w1) -> handle job w1 = (r, w2) -> Ack (job_id job) (claim_of job) w2 = (Ok u, w3) ->
  keyed (w_db w3) /\ (queue_worth (w_db w3) < queue_worth (w_db w))%nat.
Proof.
  intros [_ Hh] Hk Hd Hr Ha. destruct (Dequeue_worth kind v w job w1 Hk Hd) as (Hk1 & Hw1 & Hj & Hjob).
  specialize (Hh job w1 Hk1). rewrite Hr in Hh. cbn [snd] in Hh. destruct Hh as (Hk2 & Hw2 & Hrow).
  apply Ack_Ok in Ha as (j & now & Hj2 & Hown & Hd3). destruct (Hrow job Hj) as [Hrow'|Hrow']; [|congruence].
  assert (j = job) as -> by congruence. split; [by apply (keyed_update (w_db w2) _ (job_id job) job (finished now job))|].
  pose proof (total_update _ _ _ (finished now job) Hj2) as Ht. unfold queue_worth in *. rewrite Hd3.
  change (worth (finished now job)) with 0%nat in Ht. lia.
Qed.
Lemma drainKind_pays fuel kind handle n w : affordable kind handle -> keyed (w_db w) -> (queue_worth (w_db w) < fuel)%nat ->
  match drainKind fuel kind handle n w with
  | (Ok None, _) => False
  | (Ok (Some n'), w') => n <= n' /\ keyed (w_db w') /\ Z.of_nat (queue_worth (w_db w')) + (n' - n) <= Z.of_nat (queue_worth (w_db w))
  | (Fail _, _) => True
  end.
Proof.
  intros Hh. revert n w. induction fuel as [|f IH]; intros n w Hk Hf; [lia|]. cbn [drainKind]. unfold bind at 1. unfold attempt at 1.
  destruct (Dequeue [kind] (30 * Second) w) as [[job|e] w1] eqn:Hd; cbn [fst snd].
  - unfold bind at 1. unfold attempt. destruct (handle job w1) as [[[]|e] w2] eqn:Hr; cbn [fst snd].
    + unfold bind. destruct (Ack (job_id job) (claim_of job) w2) as [[u|e] w3] eqn:Ha; [|done].
      destruct (turn_pays kind handle _ w job w1 _ w2 u w3 Hh Hk Hd Hr Ha) as [Hk3 Hw3].
      specialize (IH (n + 1) w3 Hk3 ltac:(lia)). destruct (drainKind f kind handle (n + 1) w3) as [[[n'|]|e] w4]; [|done|done].
      destruct IH as (? & ? & ?). split_and!; [lia|done|lia].
    + unfold bind, ignore, fail. done.
  - destruct e as [| |m|]; try done. destruct (String.eqb m _); [|done]. cbn. rewrite (Dequeue_empty kind _ w m w1 Hd). split_and!; [lia|done|lia].
Qed.
(** A pass, step by step. *)
Definition pass_step (f : nat) (acc : option Z) (s : JobKind * (QueueJob -> Go unit)) : Go (option Z) :=
  match acc with None => ret None | Some n => let* c := drainKind f s.1 s.2 0 in ret (option_map (Z.add n) c) end.
Lemma pass_cons f s steps n w : for_each (s :: steps) (pass_step f) (Some n) w =
  match drainKind f s.1 s.2 0 w with (Ok c, w1) => for_each steps (pass_step f) (option_map (Z.add n) c) w1 | (Fail e, w1) => (Fail e, w1) end.
Proof. cbn [for_each pass_step]. unfold bind. by destruct (drainKind f s.1 s.2 0 w) as [[c|e] w1]. Qed.
Lemma out_of_fuel f steps w : for_each steps (pass_step f) None w = (Ok None, w).
Proof. induction steps as [|s steps IH]; [done|exact IH]. Qed.
Lemma drain_pass_pays fuel steps n w : Forall (fun s => affordable s.1 s.2) steps -> keyed (w_db w) -> (queue_worth (w_db w) < fuel)%nat ->
  match for_each steps (pass_step fuel) (Some n) w with
  | (Ok None, _) => False
  | (Ok (Some n'), w') => n <= n' /\ keyed (w_db w') /\ Z.of_nat (queue_worth (w_db w')) + (n' - n) <= Z.of_nat (queue_worth (w_db w))
  | (Fail _, _) => True
  end.
Proof.
  intros Hs. revert n w. induction Hs as [|s steps Hh _ IH]; intros n w Hk Hf; [cbn; split_and!; [lia|done|lia]|].
  rewrite pass_cons. pose proof (drainKind_pays fuel s.1 s.2 0 w Hh Hk Hf) as Hone.
  destruct (drainKind fuel s.1 s.2 0 w) as [[[c|]|e] w1]; [|done|done]. destruct Hone as (Hc & Hk1 & Hw1). cbn [option_map].
  specialize (IH (n + c) w1 Hk1 ltac:(lia)). destruct (for_each _ _ _ w1) as [[[n'|]|e] w2]; [|done|done].
  destruct IH as (? & ? & ?). split_and!; [lia|done|lia].
Qed.
(** Any handlers that pay for what they queue are drained. *)
Lemma Drain_ends fuel steps w : Forall (fun s => affordable s.1 s.2) steps -> keyed (w_db w) -> (queue_worth (w_db w) < fuel)%nat ->
  fst (Drain fuel steps w) <> Ok None.
Proof.
  intros Hs. revert w. induction fuel as [|f IH]; intros w Hk Hf; [lia|]. cbn [Drain]. unfold bind.
  pose proof (drain_pass_pays (S f) steps 0 w Hs Hk Hf) as Hp. change (drain_pass (S f) steps w) with (for_each steps (pass_step (S f)) (Some 0) w).
  destruct (for_each steps _ _ w) as [[[n|]|e] w1]; [|done|done].
  destruct Hp as (Hn & Hk1 & Hw1). destruct (Z.eqb_spec n 0) as [|Hn0]; [done|]. apply IH; [done|lia].
Qed.

(** More fuel never changes what a run that ended did. *)
Lemma drainKind_more f f' kind handle n w : (f <= f')%nat -> fst (drainKind f kind handle n w) <> Ok None ->
  drainKind f' kind handle n w = drainKind f kind handle n w.
Proof.
  revert f' n w. induction f as [|f IH]; intros f' n w Hle; [by intros []|]. destruct f' as [|f']; [lia|]. cbn [drainKind]. unfold bind.
  destruct (attempt (Dequeue _ _) w) as [[[job|e]|e] w1]; [|intros _; reflexivity..].
  destruct (attempt (handle job) w1) as [[[u|e]|e] w2]; [|intros _; reflexivity..].
  destruct (Ack _ _ w2) as [[u'|e] w3]; [|intros _; reflexivity]. apply IH. lia.
Qed.
Lemma drain_pass_more f f' steps w : (f <= f')%nat -> fst (drain_pass f steps w) <> Ok None -> drain_pass f' steps w = drain_pass f steps w.
Proof.
  intros Hle. change (fst (for_each steps (pass_step f) (Some 0) w) <> Ok None -> for_each steps (pass_step f') (Some 0) w = for_each steps (pass_step f) (Some 0) w).
  generalize 0. revert w. induction steps as [|s steps IH]; intros w n; [done|]. rewrite !pass_cons. intros Hr.
  assert (Hone : drainKind f' s.1 s.2 0 w = drainKind f s.1 s.2 0 w).
  { apply drainKind_more; [done|]. intros Hnone. apply Hr. destruct (drainKind f s.1 s.2 0 w) as [[[c|]|e] w1]; simplify_eq/=. by rewrite out_of_fuel. }
  rewrite Hone. destruct (drainKind f s.1 s.2 0 w) as [[[c|]|e] w1]; [by apply IH|by cbn [option_map]; rewrite !out_of_fuel|done].
Qed.
Lemma Drain_more f f' steps w : (f <= f')%nat -> fst (Drain f steps w) <> Ok None -> Drain f' steps w = Drain f steps w.
Proof.
  revert f' w. induction f as [|f IH]; intros f' w Hle Hr; [done|]. destruct f' as [|f']; [lia|]. revert Hr. cbn [Drain]. unfold bind.
  intros Hr. assert (Hpass : drain_pass (S f') steps w = drain_pass (S f) steps w).
  { apply drain_pass_more; [done|]. intros Hnone. apply Hr. destruct (drain_pass (S f) steps w) as [[[c|]|e] w1]; by simplify_eq/=. }
  rewrite Hpass. destruct (drain_pass (S f) steps w) as [[[n|]|e] w1]; [|done|done]. destruct (n =? 0); [done|]. apply IH; [lia|done].
Qed.
End drain.

(** C37: Draining the queue ends, under any faults and whatever the extractor and the
    provider answer: with more fuel than the queue is worth, six for every open
    receipt job and one for every open reply, [Drain] over the receipt processor and
    the sender returns, with an error or with the queue drained, and every greater
    fuel gives the same result and the same tables: the loops of the code end by
    themselves. *)
Theorem drain_terminates `{Env} `{TzData} `{FloatText} `{!Extractor} `{!MediaProvider} `{!Categoriser} `{!Provider} p s fuel w :
  keyed (w_db w) -> (queue_worth (w_db w) < fuel)%nat ->
  let steps := [(JobReceiptProcess, Processor_Handle p); (JobOutboundSend, Sender_Handle s)] in
  fst (Drain fuel steps w) <> Ok None /\ forall fuel', (fuel <= fuel')%nat -> Drain fuel' steps w = Drain fuel steps w.
Proof.
  intros Hk Hf. cbv zeta. assert (He : fst (Drain fuel [(JobReceiptProcess, Processor_Handle p); (JobOutboundSend, Sender_Handle s)] w) <> Ok None).
  { apply Drain_ends; [|done|done]. apply Forall_cons; split; [apply Processor_affordable|]. apply Forall_singleton, Sender_affordable. }
  split; [exact He|]. intros fuel' Hle. by apply Drain_more.
Qed.

Module DrainingDemo.
#[local] Existing Instances SimulateDemo.env SimulateDemo.tz SimulateDemo.locale SimulateDemo.floats SimulateDemo.net.
#[local] Existing Instances sim_extractor sim_media sim_provider.
(** A photo waits in the queue behind the reply to an earlier message. *)
Definition photo : QueueJob :=
  mkJob 7 JobReceiptProcess (PayReceipt (mkReceiptJob 7 1 2 "zalo_bot" "c1" "m1" 0 0)) None JobQueued 0 5 0 0 None "" 0 0.
Definition reply : QueueJob := mkJob 8 JobOutboundSend (PayOutbound (mkOutboundJob 4 2 0)) (Some "outbound:4") JobQueued 0 5 0 0 None "" 0 0.
Definition waiting : World := world_of (upd_jobs (fun _ => {[ 7%N := photo; 8%N := reply ]}) empty_db).
Lemma waiting_keyed : keyed (w_db waiting).
Proof. intros i j. cbn. rewrite lookup_insert_Some, lookup_singleton_Some. by intros [[<- <-]|(_ & <- & <-)]. Qed.
Lemma drain_terminates_witness : queue_worth (w_db waiting) = 7%nat /\
  fst (Drain 8 (drain_steps SimulateDemo.cfg) waiting) <> Ok None /\ Drain drain_fuel (drain_steps SimulateDemo.cfg) waiting = Drain 8 (drain_steps SimulateDemo.cfg) waiting.
Proof.
  assert (Hq : queue_worth (w_db waiting) = 7%nat) by (vm_compute; reflexivity). split; [exact Hq|].
  destruct (drain_terminates (processor SimulateDemo.cfg) (sender SimulateDemo.cfg) 8 waiting waiting_keyed ltac:(rewrite Hq; lia)) as [He Hm].
  split; [exact He|]. apply (Hm drain_fuel). unfold drain_fuel. lia.
Defined.
End DrainingDemo.
